(* ===== verification/_CoqProject ===== *)
-Q . S2P
Prelude.v
Div64.v
Crc32.v
TaskQueue.v
ReplQueue.v
Vcpu.v
MainVcpu.v
MainDoc.v
IoVcpu.v
VcpuSched.v
SchedLemmas.v
SchedInv.v
SchedThm.v
SchedWake.v
SchedTheorems.v
SchedTimer.v
CheckInv.v
Physical.v
Virtual.v
VirtualThm.v
Clone.v
CloneThm.v
Exit.v
Spinlock.v
Waitqueue.v
Sleep.v
Semaphore.v
Process.v
ProcessThm.v
ForkThm.v
Shm.v
KThread.v
Vectors.v
IoApic.v
Circular.v
Keyboard.v
Ext2.v
Ext2Thm.v
Ext2Map.v
Ext2Dir.v
Printf.v
Pow2.v
Pow2Thm.v
Pow2Mmu.v
Vfat.v
VfatThm.v
Iso9660.v
IsoThm.v
Vfs.v
Exec.v
ExecMem.v
ExecPages.v
ExecLoad.v
ExecTail.v
ExecImage.v
ExecSpace.v
ExecThm.v
Loader.v
LoaderThm.v
Vm86.v
Vm86Thm.v
Console.v
Ipc.v
