(* ===== verification/Prelude.v ===== *)
(** * The Quest kernel: a verification development

    Quest (src/kernel) is a small real-time operating system kernel for i386
    machines with several processors.  Its distinguishing part is the scheduler of
    sched/vcpu.c: tasks run on virtual CPUs, each with a budget and a period; main
    VCPUs are sporadic servers, I/O VCPUs are bandwidth-preserving servers that
    inherit the priority of the task they work for.  Semaphores, sleeping tasks and
    circular buffers block and wake tasks through it.  Memory is a bitmap of frames
    and a window of kernel pages through which page tables of processes are
    inspected and copied; above them sits an allocator of blocks of powers of two.
    Processes are created by fork, which copies an address space, and end by exit,
    which gives it back and wakes the tasks that wait; exec replaces an address space
    by a program read from a file; kernel threads share one address space.  Interrupts are routed by I/O APICs to vectors, and dispatched
    through a table of handlers.
    Files are read from ext2 and VFAT partitions by code derived from GRUB and from
    ISO 9660 CDs, behind one small file system layer.

    ** How the code is modelled

    A C routine is a Rocq function.  One that works on shared state is a computation
    of the monad [M] of this file over a record of that state; loops are [loop] and
    [mloop] with a bound on their rounds.  A failed assertion, a null or wild
    pointer, an access outside an array, a divide error, a page fault: each is a
    value of [error], so a theorem that says a routine returns [Ok] also says that
    none of them happens.  Integers are [Z] with the wrap-around of their C type
    written out ([u8] .. [u64], [s8] .. [s64]).  Pointers are indices into the array
    or keys of the table that the code allocates from.  What the code reads from the
    machine (time stamp counter, performance counters, disk, page directory base) is
    a parameter.

    ** The files

    - [Prelude]: machine integers, outcomes, the monad with its weakest
      preconditions [wp], loops, tactics and lemmas.
    - [Div64]: include/arch/i386-div64.h and the division and bit helpers of
      include/arch/i386.h; [count_set_bits].
    - [Crc32]: util/bitrev.c and util/crc32.c.
    - [TaskQueue]: the control blocks and the intrusive queues of sched/sched.c and
      sched/vcpu.c.
    - [ReplQueue]: the replenishment queue of sched/vcpu.c.
    - [Vcpu]: the data of include/sched/vcpu.h.
    - [MainVcpu], [IoVcpu]: the hooks of the two kinds of VCPU; [MainDoc]: the algorithms of
      docs/vcpu.tex for main VCPUs on queues that are kept in order.
    - [VcpuSched]: the rest of sched/vcpu.c and what it calls in util/perfmon.c,
      include/sched/sched.h and smp/apic.c.
    - [SchedLemmas], [SchedInv], [SchedThm], [SchedWake], [SchedTheorems], [SchedTimer]: the
      interface [HooksSound] between the scheduler and the hooks, the invariant
      [sched_wf] and the theorems on scheduling and waking up.
    - [CheckInv]: the self-check [check_run_invariants] of sched/vcpu.c.
    - [Physical]: mem/physical.c.  [Virtual], [VirtualThm]: mem/virtual.c; [Clone],
      [CloneThm]: the theorems on its cloning of page tables and directories.
    - [Exit]: the parts of [_fork] and [__exit] (interrupt_handler.c) on the address
      space.
    - [Waitqueue]: [wakeup_queue] and the class [Scheduler] with its laws, of which
      the VCPU scheduler is an instance; [Sleep] (sched/sleep.c), [Semaphore]
      (smp/semaphore.c) and [Circular] (util/circular.c) are clients of the class;
      [Keyboard] (drivers/input) is a client of [Circular].
    - [Spinlock]: include/smp/spinlock.h.
    - [Process]: fork, waitpid, exit and sched_setparam of interrupt_handler.c with
      [lookup_TSS] of kernel.c, over the class [Scheduler] and the task register;
      [ProcessThm], [ForkThm]: the laws [TaskingLaws] that exit relies on, which the
      VCPU scheduler satisfies, and the theorems.  [Shm]: [_meminfo], shared memory.
      [KThread]: the kernel threads of kernel.c.
    - [Ipc]: sched/ipc.c with [_sw_ipc] of sched/task.S, over the same classes.
    - [Vectors]: the table of handlers of interrupt_handler.c and the descriptor table
      of kernel.c; [IoApic]: drivers/pci/pci_irq.c and the I/O APICs of smp/apic.c.
    - [Ext2]: fs/ext2/fsys_ext2fs.c.  [Ext2Thm], [Ext2Map], [Ext2Dir]: its theorems, on
      blocks, files, and directories and paths.
    - [Printf]: [closure_vprintf] of util/printf.c.
    - [Pow2]: mem/pow2.c over the class [PageOps]; [Pow2Thm]: its theorems from the
      laws of the class; [Pow2Mmu]: mem/physical.c and mem/virtual.c as an instance.
    - [Vfat], [VfatThm]: fs/vfat/fsys_vfat.c.
    - [Iso9660], [IsoThm]: fs/iso9660/fsys_iso9660.c.
    - [Vfs]: fs/fsys.c over the class [FileSystems], with the readers as an instance.
    - [Exec]: [_exec] and [strncpy] of interrupt_handler.c, over [Virtual] and [Vfs].  Its
      theorems go by the phases of the code: [ExecMem] (bytes in memory, the accesses),
      [ExecPages] (one segment), [ExecLoad] (the program headers), [ExecTail] (video
      pages, stack, arguments), [ExecImage] (all of these), [ExecSpace] (the old address
      space and the frames of the file), [ExecThm] (the system call).
    - [Loader], [LoaderThm]: module/loader.c, over the class [PageOps].
    - [Vm86], [Vm86Thm]: vm/vm86.c.
    - [Console]: the putchar system call of interrupt_handler.c, util/screen.c and the
      clearing of the screen in boot/init.c.

    ** What the theorems show

    - Scheduler.  [vcpu_schedule] returns from every state that satisfies [sched_wf] on
      a processor without the performance counters of Nehalem, if the current VCPU is
      clear of the 64-bit horizon, and restores it, as does [vcpu_wakeup] of a task on
      a VCPU of its own CPU; the ready VCPU with the shortest period
      runs; a task without a VCPU gets a main VCPU; the timer is always started, with
      a count between one tick and one quantum.  The self-check of the scheduler passes in those
      states when there is one CPU.
    - Servers.  The hooks of main VCPUs compute [MainVcpu.Spec] on the list of
      replenishments; it is the algorithm of docs/vcpu.tex ([MainDoc.Doc]), which keeps
      the list in order of time, as long as a charged overrun does not carry the earliest
      replenishment past the second.  Along every run the replenishments add up to the
      budget.  The hooks of I/O VCPUs compute
      [IoVcpu.Pibs]: budget is not given before its time, and the time they charge is
      bounded by the bandwidth while the period is not changed.  The array-backed replenishment queue implements the
      sorted list that those proofs use.
    - Queues and blocking.  The pointer code implements lists; waking a wait queue
      makes exactly its tasks ready; the sleep queue wakes the tasks whose time has
      come and keeps the order of the others; a semaphore conserves its units along
      every interleaving and loses no wake-up; a message between tasks is delivered exactly when its
      destination waits for one, and no sender stays queued on a task that waits; a
      circular buffer is a bounded FIFO queue, and what is typed
      in one-byte scancodes is what is read from the keyboard through it, and Ctrl-Alt-Del
      resets the machine.  Critical sections under a spin
      lock are atomic, which the other files take for granted.
    - Memory.  The frame allocator returns the lowest free window and freeing
      restores the bitmap; mapping and unmapping kernel pages are inverse and what is
      mapped translates as asked; [get_phys_addr] and [pgdir_get_phys_addr] agree
      with the page walk of the processor where they do.  A cloned address space has
      every user page in a frame of its own and the kernel entries in common with the
      original, and nothing in use changes.  [pow2_alloc] and [pow2_free]
      keep the free and used blocks a partition of the heap; on the page allocators
      of the kernel the bytes of all blocks in use are different bytes of memory.
    - Processes.  [fork] gives the child a copy of the address space that differs from
      the parent's in the program point on its stack, and a control block that is found
      through its descriptor.  [exit] gives back what [fork] took, but for copies of
      video pages, and wakes exactly the tasks that wait; along every interleaving a
      task that waits for a process is woken by its exit.  A shared frame is attached,
      detached and freed without trace, unless a process that has it attached exits.
      [exec] leaves an address space in which the segments of the program, its
      arguments and its stack are found at their addresses and nothing else is, gives
      back the frames of the old one and those that the file needed only while it was
      read, and changes nothing of others; if there is no such file it changes nothing.
    - Modules.  The loader returns when the dependencies have no cycle, initialises a
      module after those it depends on, and loads exactly the modules that can be.
    - Guests in real mode.  The emulation of instructions on flags, stack and interrupts
      is what a processor in real mode does to its registers and memory, in guests whose code and stack
      segments are aligned to 64 KiB and whose flags are those of an 8086; the return
      from an interrupt undoes it.
    - Interrupts.  Drivers that map the interrupts of different inputs get different
      vectors, and each input leads to the handler of its driver.
    - Files.  [ext2fs_block_map] implements the uncached pointer tree whatever it has
      cached; [ext2fs_read] returns the bytes of the file; [load_inode] finds the
      inode; [ext2fs_dir] opens the file that a path denotes in the file system on the
      disk, through directories and symbolic links, or reports why there is none;
      [devread], [memmove] and [substring] do what their callers rely on.
      [vfat_mount] leaves a sane superblock and [vfat_read] follows the chain of the
      FAT; [iso9660_open] finds the file that a path denotes by the names in the
      identifiers, where no two of a directory share a stem, and [iso9660_read] returns its bytes; [vfs_dir] and [vfs_read] reach them by a path.
    - Output.  [closure_vprintf] writes what a reference semantics of its directives
      says, and the numbers it prints read back.  Below the splash screen the screen shows the
      last lines that were written, with what was there before beside them, and no access of [user_putchar] leaves the page of the screen.
    - Arithmetic.  [div64_64] is exact for 32-bit divisors and close otherwise; the
      table-driven CRCs equal the bitwise ones with the endianness macro defined, and
      [crc32_le] only then.

    Some theorems state where the code does not do what it means to: reading less
    than the rest of a sector, holes in indirect blocks, the frame request that is
    too large, the search for a directory entry from the top, 4 MiB pages in
    [pgdir_get_phys_addr], a full kernel window, the CRC without the macro, the exit of
    a process with shared memory, the stack of a new kernel thread, the prefix of an
    extended key, a segment of a program that ends on a page boundary, modules that depend
    on each other, a dependency on any driver, the segment registers of a guest and input into
    a part of a register, an overrun of a server that changes the order of its queue, and a
    name on a CD that continues another.

    ** Bounds

    Walks over VCPUs have as many rounds as there are VCPUs plus one, walks over
    task queues as many as there are tasks plus one, the loops of the replenishment
    queue [MAX_REPL] plus one, searches for frames and pages the number of frames
    and pages plus one, the loops of fork and exit over directories and tables the
    number of their entries plus one, the search of the descriptor table and of the
    vectors 257 rounds; the theorems show that these are never used up from a
    well-formed state.  [exhaust_loop] is bounded by the usage, [ext2fs_read] by the
    length, [devread] by the number of sectors, [devread_vfat] and [iso9660_read] by
    the length, the search of an ISO 9660 directory by its size, the chase of a FAT
    chain by the number of clusters to go.  The theorems on VFAT are for partitions
    of at most 2^26 sectors, so that no [int] of the reader overflows; the search of
    a VFAT directory, whose end is on the disk, takes its bound as an argument.
    [tsc_delay_usec] spins until the
    clock says so and takes its bound as an argument.  The loops of [_exec] are bounded
    by the entries of tables, the pages of the file and of the segments; a path is
    read up to 4096 bytes, and the theorems on [_exec] are for shorter ones.  The
    recursion of the module loader is as deep as there are modules plus one, which is
    enough without cycles; an emulated instruction has at most 4095 prefixes.

    ** What is not modelled

    Assembly (entry code, the task switch, which is the change of the current task)
    except [_sw_ipc],
    locks (a critical section is a step) outside [Spinlock], and preemption by
    interrupts; log output; the translations
    of user addresses in the TLB; the exceptions of interrupt_handler.c; device drivers and the multiprocessor tables,
    which are device registers; the entry to virtual machines (vm/vmx.c); ACPICA and lwIP; the TFTP
    reader, a client of lwIP.  In [Vfat] the
    theorems are on mounting and reading; [vfat_dir] is defined and shown to find a file
    on an example. *)

From Stdlib Require Import ZArith Lia.
From stdpp Require Import base gmap list strings numbers.

(** ** Machine integers

    A w-bit integer of the C code is a [Z]; the wrap-around of an unsigned
    type is written out with [u8] .. [u64], a conversion to a signed type with
    [s8] .. [s64].  On the i386 target [int], [long] and pointers are 32 bits
    wide and [long long] is 64 bits wide. *)

Local Open Scope Z_scope.

Definition u8 (x : Z) : Z := x mod 2 ^ 8.
Definition u16 (x : Z) : Z := x mod 2 ^ 16.
Definition u32 (x : Z) : Z := x mod 2 ^ 32.
Definition u64 (x : Z) : Z := x mod 2 ^ 64.
Definition signed (w x : Z) : Z := (x + 2 ^ (w - 1)) mod 2 ^ w - 2 ^ (w - 1).
Definition s8 (x : Z) : Z := signed 8 x.
Definition s32 (x : Z) : Z := signed 32 x.
Definition s64 (x : Z) : Z := signed 64 x.

(** ** Outcomes

    A C routine that dereferences a null or wild pointer, indexes outside an
    array, calls [panic], resets the machine or does not come back is not given a
    value: it fails with the reason.  [OutOfFuel] is the result of a loop whose iteration bound
    was too small; the theorems show that it does not occur. *)

Inductive error : Type :=
| NullDeref
| OutOfBounds
| DivideError
| WrongUnionMember
| PageFault
| BadVararg
| StaleTLB
| Reset
| Panic (msg : string)
| OutOfFuel.

Inductive outcome (A : Type) : Type :=
| Ok (a : A)
| Err (e : error).
Arguments Panic msg%_string.
Arguments Ok {A} a.
Arguments Err {A} e.

#[export] Instance error_eq_dec : EqDecision error.
Proof. solve_decision. Defined.

Definition obind {A B} (m : outcome A) (k : A -> outcome B) : outcome B :=
  match m with Ok a => k a | Err e => Err e end.

Definition of_option {A} (e : error) (o : option A) : outcome A :=
  match o with Some a => Ok a | None => Err e end.

(** The state-and-failure monad of the stateful components: [M S A] runs from
    a state [S] to a result and a new state, or fails. *)

Definition M (S A : Type) : Type := S -> outcome (A * S).

Definition ret {S A} (a : A) : M S A := fun s => Ok (a, s).
Definition bind {S A B} (m : M S A) (k : A -> M S B) : M S B :=
  fun s => match m s with Ok (a, s') => k a s' | Err e => Err e end.
Definition fail {S A} (e : error) : M S A := fun _ => Err e.
Definition get {S} : M S S := fun s => Ok (s, s).
Definition put {S} (s : S) : M S unit := fun _ => Ok (tt, s).
Definition gets {S A} (f : S -> A) : M S A := fun s => Ok (f s, s).
Definition modify {S} (f : S -> S) : M S unit := fun s => Ok (tt, f s).
Definition lift {S A} (m : outcome A) : M S A :=
  fun s => match m with Ok a => Ok (a, s) | Err e => Err e end.
Definition when {S} (b : bool) (m : M S unit) : M S unit :=
  if b then m else ret tt.

Declare Scope quest_scope.
Delimit Scope quest_scope with quest.
Notation "'let!' x ':=' m 'in' k" := (bind m (fun x => k))
  (at level 10, x name, m at level 100, k at level 200,
   format "'[v' 'let!'  x  ':='  m  'in' '/' k ']'") : quest_scope.
Notation "'let!' ' p ':=' m 'in' k" := (bind m (fun p => k))
  (at level 10, p pattern, m at level 100, k at level 200) : quest_scope.
Notation "m1 ';;!' m2" := (bind m1 (fun _ => m2))
  (at level 199, right associativity) : quest_scope.
Notation "'let?' x ':=' m 'in' k" := (obind m (fun x => k))
  (at level 10, x name, m at level 100, k at level 200) : quest_scope.
Notation "'let?' ' p ':=' m 'in' k" := (obind m (fun p => k))
  (at level 10, p pattern, m at level 100, k at level 200) : quest_scope.
Open Scope quest_scope.

(** A C [for]/[while] loop over an outcome, with a bound on its iterations:
    the body either continues with a new loop state or leaves the loop. *)

Inductive control (L R : Type) : Type :=
| Continue (l : L)
| Break (r : R).
Arguments Continue {L R} l.
Arguments Break {L R} r.

Fixpoint loop {L R} (fuel : nat) (body : L -> outcome (control L R)) (l : L)
  : outcome R :=
  match fuel with
  | O => Err OutOfFuel
  | S fuel' =>
      let? c := body l in
      match c with
      | Continue l' => loop fuel' body l'
      | Break r => Ok r
      end
  end.

(** The same for a body that reads and writes the state. *)

Fixpoint mloop {S L R} (fuel : nat) (body : L -> M S (control L R)) (l : L) : M S R :=
  match fuel with
  | O => fail OutOfFuel
  | S fuel' =>
      let! c := body l in
      match c with
      | Continue l' => mloop fuel' body l'
      | Break r => ret r
      end
  end.

(** ** Buffers

    Bytes and little-endian words of a list of bytes. *)

Definition byte_at (l : list Z) (i : Z) : outcome Z :=
  if i <? 0 then Err OutOfBounds else of_option OutOfBounds (l !! Z.to_nat i).
Definition le16 (l : list Z) (i : Z) : outcome Z :=
  let? a := byte_at l i in let? b := byte_at l (i + 1) in Ok (a + 256 * b).
Definition le32 (l : list Z) (i : Z) : outcome Z :=
  let? a := le16 l i in let? b := le16 l (i + 2) in Ok (a + 65536 * b).

(** ** Monad lemmas *)

Lemma mloop_S {St L R} fuel (body : L -> M St (control L R)) l :
  mloop (S fuel) body l =
  bind (body l) (fun c => match c with Continue l' => mloop fuel body l' | Break r => ret r end).
Proof. reflexivity. Qed.

Lemma bind_Ok {S A B} (m : M S A) (k : A -> M S B) s b s' :
  bind m k s = Ok (b, s') <-> exists a s1, m s = Ok (a, s1) /\ k a s1 = Ok (b, s').
Proof.
  unfold bind. destruct (m s) as [[a s1]|e].
  - split; [eauto | naive_solver].
  - split; [discriminate | naive_solver].
Qed.

Lemma bind_Ok_eq {S A B} (m : M S A) (k : A -> M S B) s a s1 :
  m s = Ok (a, s1) -> bind m k s = k a s1.
Proof. unfold bind. by intros ->. Qed.

(** [wp m Q s]: from [s], [m] returns, with a result and a state in [Q]. *)
Definition wp {S A} (m : M S A) (Q : A -> S -> Prop) (s : S) : Prop :=
  match m s with Ok (a, s') => Q a s' | Err _ => False end.

Lemma wp_Ok {S A} (m : M S A) Q s :
  wp m Q s <-> exists a s', m s = Ok (a, s') /\ Q a s'.
Proof.
  unfold wp. destruct (m s) as [[a s1]|e]; naive_solver.
Qed.

Lemma wp_ret {S A} (a : A) (Q : A -> S -> Prop) s : Q a s -> wp (ret a) Q s.
Proof. done. Qed.

Lemma wp_bind {S A B} (m : M S A) (k : A -> M S B) Q s :
  wp m (fun a s' => wp (k a) Q s') s -> wp (bind m k) Q s.
Proof. unfold wp, bind. destruct (m s) as [[a s1]|e]; done. Qed.

Lemma wp_seq {S A B C} (m : M S A) (f : A -> M S B) (g : B -> M S C) Q s :
  wp (bind m f) (fun b s' => wp (g b) Q s') s -> wp (bind m (fun a => bind (f a) g)) Q s.
Proof. unfold wp, bind. destruct (m s) as [[a s1]|e]; [|done]. by destruct (f a s1) as [[]|]. Qed.

Lemma wp_mono {S A} (m : M S A) (Q Q' : A -> S -> Prop) s :
  wp m Q s -> (forall a s', Q a s' -> Q' a s') -> wp m Q' s.
Proof. unfold wp. destruct (m s) as [[a s1]|e]; [auto|done]. Qed.

Lemma wp_lift {S A} (o : outcome A) (a : A) (Q : A -> S -> Prop) s :
  o = Ok a -> Q a s -> wp (lift o) Q s.
Proof. unfold wp, lift. by intros ->. Qed.

Lemma wp_gets {S A} (f : S -> A) (Q : A -> S -> Prop) s : Q (f s) s -> wp (gets f) Q s.
Proof. done. Qed.

Lemma wp_modify {S} (f : S -> S) (Q : unit -> S -> Prop) s : Q tt (f s) -> wp (modify f) Q s.
Proof. done. Qed.

Lemma wp_when {S} (b : bool) (m : M S unit) Q s :
  (b = true -> wp m Q s) -> (b = false -> Q tt s) -> wp (when b m) Q s.
Proof. destruct b; [auto|]. intros _ H. by apply H. Qed.

(** A stateful loop under an invariant with a decreasing measure returns. *)
Lemma wp_mloop {S L R} (body : L -> M S (control L R)) (Inv : L -> S -> Prop)
    (Q : R -> S -> Prop) (mu : L -> S -> nat) :
  (forall l s, Inv l s ->
     wp (body l) (fun c s' => match c with
                              | Continue l' => Inv l' s' /\ (mu l' s' < mu l s)%nat
                              | Break r => Q r s'
                              end) s) ->
  forall fuel l s, Inv l s -> (mu l s < fuel)%nat -> wp (mloop fuel body l) Q s.
Proof.
  intros Hbody fuel. induction fuel as [|fuel IH]; intros l s Hl Hmu; [lia|].
  cbn [mloop]. apply wp_bind. eapply wp_mono; [by apply Hbody|].
  intros [l'|r] s'; [|done]. intros [Hl' Hlt]. apply IH; [done|lia].
Qed.

Lemma lift_Ok {S A} (m : outcome A) (s s' : S) a : lift m s = Ok (a, s') -> m = Ok a /\ s' = s.
Proof. unfold lift. destruct m; [|done]. by intros [= -> ->]. Qed.

Lemma obind_Ok {A B} (m : outcome A) (k : A -> outcome B) b :
  obind m k = Ok b <-> exists a, m = Ok a /\ k a = Ok b.
Proof. destruct m; simpl; split; naive_solver. Qed.

Lemma bind_assoc {S A B C} (m : M S A) (f : A -> M S B) (g : B -> M S C) s :
  bind (bind m f) g s = bind m (fun a => bind (f a) g) s.
Proof. unfold bind. destruct (m s) as [[a s1]|e]; reflexivity. Qed.

Lemma ret_bind {S A B} (a : A) (k : A -> M S B) s : bind (ret a) k s = k a s.
Proof. reflexivity. Qed.

(** [loop_measure]: a loop whose body is defined under an invariant, keeps it
    and decreases a measure returns, within as many rounds as the measure. *)

Lemma loop_measure {L R} (body : L -> outcome (control L R))
    (Inv : L -> Prop) (Post : R -> Prop) (mu : L -> nat) :
  (forall l, Inv l ->
     (exists l', body l = Ok (Continue l') /\ Inv l' /\ (mu l' < mu l)%nat) \/
     (exists r, body l = Ok (Break r) /\ Post r)) ->
  forall fuel l, Inv l -> (mu l < fuel)%nat ->
  exists r, loop fuel body l = Ok r /\ Post r.
Proof.
  intros Hstep fuel. induction fuel as [|fuel IH]; intros l Hl Hmu; [lia|].
  simpl. destruct (Hstep l Hl) as [(l' & -> & Hl' & Hlt)|(r & -> & Hr)]; simpl.
  - apply IH; [assumption | lia].
  - eauto.
Qed.

(** A loop with more fuel gives the same result. *)

Lemma loop_more {L R} (body : L -> outcome (control L R)) fuel fuel' l r :
  loop fuel body l = Ok r -> (fuel <= fuel')%nat -> loop fuel' body l = Ok r.
Proof.
  revert fuel' l. induction fuel as [|fuel IH]; intros fuel' l H Hle;
    [discriminate|].
  destruct fuel' as [|fuel']; [lia|]. simpl in *.
  destruct (body l) as [[l'|r']|e]; simpl in *; [|assumption|assumption].
  apply IH; [assumption | lia].
Qed.

(** ** Integer lemmas *)

Create HintDb words.
Create Rewrite HintDb words.

Lemma u8_small x : 0 <= x < 2 ^ 8 -> u8 x = x.
Proof. apply Z.mod_small. Qed.
Lemma u16_small x : 0 <= x < 2 ^ 16 -> u16 x = x.
Proof. apply Z.mod_small. Qed.
Lemma u32_small x : 0 <= x < 2 ^ 32 -> u32 x = x.
Proof. apply Z.mod_small. Qed.
Lemma u64_small x : 0 <= x < 2 ^ 64 -> u64 x = x.
Proof. apply Z.mod_small. Qed.
Lemma u8_range x : 0 <= u8 x < 2 ^ 8.
Proof. apply Z.mod_pos_bound; lia. Qed.
Lemma u16_range x : 0 <= u16 x < 2 ^ 16.
Proof. apply Z.mod_pos_bound; lia. Qed.
Lemma u32_range x : 0 <= u32 x < 2 ^ 32.
Proof. apply Z.mod_pos_bound; lia. Qed.
Lemma u64_range x : 0 <= u64 x < 2 ^ 64.
Proof. apply Z.mod_pos_bound; lia. Qed.

Lemma signed_small w x :
  1 <= w -> - 2 ^ (w - 1) <= x < 2 ^ (w - 1) -> signed w x = x.
Proof.
  intros Hw Hx. unfold signed. rewrite Z.mod_small; [lia|].
  replace (2 ^ w) with (2 * 2 ^ (w - 1)); [lia|].
  rewrite <- Z.pow_succ_r by lia. f_equal. lia.
Qed.

Lemma s32_small x : - 2 ^ 31 <= x < 2 ^ 31 -> s32 x = x.
Proof. intros. apply signed_small; lia. Qed.
Lemma s64_small x : - 2 ^ 63 <= x < 2 ^ 63 -> s64 x = x.
Proof. intros. apply signed_small; lia. Qed.

Lemma s32_range x : - 2 ^ 31 <= s32 x < 2 ^ 31.
Proof. unfold s32, signed. pose proof (Z.mod_pos_bound (x + 2 ^ (32 - 1)) (2 ^ 32) ltac:(lia)). lia. Qed.

(** Bitwise operations stay within the width of their operands. *)

Lemma range_mod w x : 0 <= w -> (0 <= x < 2 ^ w <-> x mod 2 ^ w = x).
Proof.
  intros Hw. split; [apply Z.mod_small|].
  intros <-. apply Z.mod_pos_bound. lia.
Qed.

Lemma land_range w a b : 0 <= w -> 0 <= a < 2 ^ w -> 0 <= Z.land a b < 2 ^ w.
Proof.
  intros Hw Ha. apply range_mod; [assumption|].
  apply range_mod in Ha; [|assumption]. rewrite <- Z.land_ones in * by assumption.
  rewrite <- Z.land_assoc, (Z.land_comm b), Z.land_assoc. congruence.
Qed.

Lemma lor_range w a b :
  0 <= w -> 0 <= a < 2 ^ w -> 0 <= b < 2 ^ w -> 0 <= Z.lor a b < 2 ^ w.
Proof.
  intros Hw Ha Hb. apply range_mod; [assumption|].
  apply range_mod in Ha, Hb; try assumption. rewrite <- Z.land_ones in * by assumption.
  rewrite Z.land_lor_distr_l. congruence.
Qed.

Lemma lxor_range w a b :
  0 <= w -> 0 <= a < 2 ^ w -> 0 <= b < 2 ^ w -> 0 <= Z.lxor a b < 2 ^ w.
Proof.
  intros Hw Ha Hb. apply range_mod; [assumption|].
  apply range_mod in Ha, Hb; try assumption. rewrite <- Z.land_ones in * by assumption.
  apply Z.bits_inj'. intros n Hn. rewrite Z.land_spec, !Z.lxor_spec.
  apply (f_equal (fun z => Z.testbit z n)) in Ha, Hb.
  rewrite Z.land_spec in Ha, Hb.
  destruct (Z.testbit a n), (Z.testbit b n), (Z.testbit (Z.ones w) n); simpl in *;
    congruence.
Qed.

Lemma shiftr_range w a n :
  0 <= w -> 0 <= n -> 0 <= a < 2 ^ w -> 0 <= Z.shiftr a n < 2 ^ w.
Proof.
  intros Hw Hn Ha. rewrite Z.shiftr_div_pow2 by assumption.
  split; [apply Z.div_pos; lia|].
  apply Z.le_lt_trans with a; [|lia]. apply Z.div_le_upper_bound; [lia|nia].
Qed.

#[export] Hint Rewrite u8_small u16_small u32_small u64_small s32_small s64_small
  using lia : words.
#[export] Hint Resolve u8_range u16_range u32_range u64_range : words.

(** [word_simpl] removes the wrap-arounds that a range hypothesis shows to be
    the identity. *)
Ltac word_simpl := autorewrite with words in *.

(** [destruct_bool] splits the boolean comparisons a C condition compiles to. *)
Ltac zcase :=
  match goal with
  | |- context [?a <=? ?b] => destruct (Z.leb_spec a b)
  | |- context [?a <? ?b] => destruct (Z.ltb_spec a b)
  | |- context [?a =? ?b] => destruct (Z.eqb_spec a b)
  | H : context [?a <=? ?b] |- _ => destruct (Z.leb_spec a b)
  | H : context [?a <? ?b] |- _ => destruct (Z.ltb_spec a b)
  | H : context [?a =? ?b] |- _ => destruct (Z.eqb_spec a b)
  end.
