(* ===== verification/Div64.v ===== *)
(** * 64-bit division on a 32-bit processor

    [include/arch/i386-div64.h] and the helpers of [include/arch/i386.h]: the
    [divl] instruction, [do_div], [div_u64_rem], [div64_64] and
    [div_u64_u32_u32], and [count_set_bits] of [sched/vcpu.c].  The scheduler
    turns cycles into timer ticks and budgets with them.  [div64_64] is exact
    for 32-bit divisors and an over-approximation by at most 2 for the rest. *)

From Stdlib Require Import ZArith Lia.
From stdpp Require Import base numbers.
From S2P Require Import Prelude.
Local Open Scope Z_scope.

(** ** Definitions *)

(** The i386 instruction [divl]: [edx:eax / src], quotient and remainder; the
    processor raises #DE when the quotient does not fit 32 bits. *)
Definition divl (hi lo src : Z) : outcome (Z * Z) :=
  let n := hi * 2 ^ 32 + lo in
  if src =? 0 then Err DivideError
  else if 2 ^ 32 <=? n / src then Err DivideError
  else Ok (n / src, n mod src).

(** The macro [do_div (n, base)]: the new [n] and the value of the macro. *)
Definition do_div (n base : Z) : outcome (Z * Z) :=
  let low := Z.land n (2 ^ 32 - 1) in
  let high := Z.shiftr n 32 in
  if (high =? 0) then
    let? '(q, r) := divl high low base in
    Ok (high * 2 ^ 32 + q, r)
  else if base =? 0 then Err DivideError
  else
    let upper := high mod base in
    let high' := high / base in
    let? '(q, r) := divl upper low base in
    Ok (high' * 2 ^ 32 + q, r).

Definition div_u64_rem (dividend divisor : Z) : outcome (Z * Z) :=
  let lo := Z.land dividend (2 ^ 32 - 1) in
  let upper := Z.shiftr dividend 32 in
  if divisor <=? upper then
    if divisor =? 0 then Err DivideError
    else
      let? '(q, r) := divl (upper mod divisor) lo divisor in
      Ok ((upper / divisor) * 2 ^ 32 + q, r)
  else
    let? '(q, r) := divl upper lo divisor in
    Ok (q, r).

(** [fls]: one more than the index of the most significant set bit, 0 for 0. *)
Definition fls (x : Z) : Z := if x =? 0 then 0 else Z.log2 x + 1.

Definition div64_64 (dividend divisor : Z) : outcome Z :=
  let high := u32 (Z.shiftr divisor 32) in
  let? '(q, _) :=
    (if high =? 0 then do_div dividend (u32 divisor)
     else
       let shift := fls high in
       do_div (Z.shiftr dividend shift) (u32 (Z.shiftr divisor shift))) in
  Ok q.

Definition div_u64_u32_u32 (a b : Z) : outcome Z :=
  let a_hi := u32 (Z.shiftr a 32) in
  let a_lo := u32 (Z.land a 0xFFFFFFFF) in
  let? '(c, _) := divl a_hi a_lo b in
  Ok c.

(** [count_set_bits]: Wegner's loop, which clears the lowest set bit until
    nothing is left; a 32-bit word has at most 32 of them. *)
Definition count_set_bits (v : Z) : outcome Z :=
  loop 33 (fun '(v, c) =>
    if v =? 0 then Ok (Break c)
    else Ok (Continue (Z.land v (u32 (v - 1)), u32 (c + 1)))) (v, 0).

(** The number of set bits, as a sum over the bit positions. *)
Fixpoint popcount (w : nat) (v : Z) : Z :=
  match w with
  | O => 0
  | S w' => Z.b2z (Z.odd v) + popcount w' (Z.div2 v)
  end.

(** ** Lemmas *)

Lemma land_low32 n : Z.land n (2 ^ 32 - 1) = n mod 2 ^ 32.
Proof. rewrite <- Z.land_ones by lia. reflexivity. Qed.

Lemma divl_ok hi lo src :
  0 <= hi < src -> 0 <= lo < 2 ^ 32 ->
  divl hi lo src = Ok ((hi * 2 ^ 32 + lo) / src, (hi * 2 ^ 32 + lo) mod src).
Proof.
  intros Hhi Hlo. unfold divl.
  destruct (Z.eqb_spec src 0); [lia|].
  destruct (Z.leb_spec (2 ^ 32) ((hi * 2 ^ 32 + lo) / src)); [|reflexivity].
  exfalso.
  assert ((hi * 2 ^ 32 + lo) / src < 2 ^ 32); [|lia].
  apply Z.div_lt_upper_bound; nia.
Qed.

(** Long division in base 2^32: dividing the high word first. *)
Lemma long_division n base :
  0 < base -> 0 <= n ->
  let hi := n / 2 ^ 32 in let lo := n mod 2 ^ 32 in
  n / base = (hi / base) * 2 ^ 32 + (hi mod base * 2 ^ 32 + lo) / base /\
  n mod base = (hi mod base * 2 ^ 32 + lo) mod base.
Proof.
  intros Hb Hn hi lo.
  assert (n = (hi / base) * 2 ^ 32 * base + (hi mod base * 2 ^ 32 + lo)) as E.
  { unfold hi, lo. pose proof (Z.div_mod n (2 ^ 32) ltac:(lia)).
    pose proof (Z.div_mod (n / 2 ^ 32) base ltac:(lia)). nia. }
  rewrite E at 1 2. split.
  - rewrite Z.div_add_l by lia. reflexivity.
  - rewrite Z.add_comm, Z.mod_add by lia. reflexivity.
Qed.

Lemma do_div_correct n base :
  0 <= n < 2 ^ 64 -> 0 < base < 2 ^ 32 ->
  do_div n base = Ok (n / base, n mod base).
Proof.
  intros Hn Hb. unfold do_div.
  rewrite land_low32, Z.shiftr_div_pow2 by lia.
  pose proof (Z.mod_pos_bound n (2 ^ 32) ltac:(lia)).
  destruct (long_division n base ltac:(lia) ltac:(lia)) as [Eq Er].
  destruct (Z.eqb_spec (n / 2 ^ 32) 0) as [Ez|Ez].
  - rewrite Ez, divl_ok by lia. cbn [obind].
    rewrite Ez, Z.mod_0_l, Z.div_0_l in Eq by lia.
    rewrite Ez, Z.mod_0_l in Er by lia. rewrite <- Er. f_equal. f_equal. lia.
  - destruct (Z.eqb_spec base 0); [lia|].
    rewrite divl_ok by (try apply Z.mod_pos_bound; lia). cbn [obind].
    rewrite <- Er, <- Eq. reflexivity.
Qed.

Lemma div_u64_rem_correct n base :
  0 <= n < 2 ^ 64 -> 0 < base < 2 ^ 32 ->
  div_u64_rem n base = Ok (n / base, n mod base).
Proof.
  intros Hn Hb. unfold div_u64_rem.
  rewrite land_low32, Z.shiftr_div_pow2 by lia.
  pose proof (Z.mod_pos_bound n (2 ^ 32) ltac:(lia)).
  pose proof (Z.div_pos n (2 ^ 32) ltac:(lia) ltac:(lia)).
  destruct (long_division n base ltac:(lia) ltac:(lia)) as [Eq Er].
  destruct (Z.leb_spec base (n / 2 ^ 32)).
  - destruct (Z.eqb_spec base 0); [lia|].
    rewrite divl_ok by (try apply Z.mod_pos_bound; lia). cbn [obind].
    rewrite <- Er, <- Eq. reflexivity.
  - rewrite divl_ok by lia. cbn [obind].
    rewrite (Z.div_small (n / 2 ^ 32)), (Z.mod_small (n / 2 ^ 32)) in Eq by lia.
    rewrite (Z.mod_small (n / 2 ^ 32)) in Er by lia. rewrite <- Er. f_equal. f_equal. lia.
Qed.

Lemma div_u64_u32_u32_correct a b :
  0 <= a < 2 ^ 64 -> 0 < b < 2 ^ 32 -> a / b < 2 ^ 32 ->
  div_u64_u32_u32 a b = Ok (a / b).
Proof.
  intros Ha Hb Hq. unfold div_u64_u32_u32.
  change 0xFFFFFFFF with (2 ^ 32 - 1). rewrite land_low32, Z.shiftr_div_pow2 by lia.
  pose proof (Z.mod_pos_bound a (2 ^ 32) ltac:(lia)).
  assert (0 <= a / 2 ^ 32 < 2 ^ 32).
  { split; [apply Z.div_pos; lia | apply Z.div_lt_upper_bound; lia]. }
  rewrite !u32_small by lia. unfold divl.
  replace (a / 2 ^ 32 * 2 ^ 32 + a mod 2 ^ 32) with a
    by (rewrite (Z.div_mod a (2 ^ 32)) at 1 by lia; lia).
  destruct (Z.eqb_spec b 0); [lia|].
  destruct (Z.leb_spec (2 ^ 32) (a / b)); [lia|]. reflexivity.
Qed.

(** The normalised divisor of [div64_64]: 32 bits wide, its top bit set. *)
Lemma fls_normalise divisor :
  2 ^ 32 <= divisor < 2 ^ 64 ->
  let s := fls (u32 (Z.shiftr divisor 32)) in
  1 <= s <= 32 /\ 2 ^ 31 <= divisor / 2 ^ s < 2 ^ 32.
Proof.
  intros Hd. cbv zeta. rewrite Z.shiftr_div_pow2 by lia.
  assert (1 <= divisor / 2 ^ 32 < 2 ^ 32) as Hhi.
  { split; [apply Z.div_le_lower_bound; lia | apply Z.div_lt_upper_bound; lia]. }
  unfold fls. rewrite u32_small by lia.
  destruct (Z.eqb_spec (divisor / 2 ^ 32) 0); [lia|].
  pose proof (Z.log2_spec (divisor / 2 ^ 32) ltac:(lia)) as Hlog.
  set (k := Z.log2 (divisor / 2 ^ 32)) in *.
  assert (0 <= k) by apply Z.log2_nonneg.
  assert (k < 32) by (apply Z.log2_lt_pow2; lia).
  split; [lia|]. split.
  - apply Z.div_le_lower_bound; [lia|]. rewrite <- Z.pow_add_r by lia.
    replace (k + 1 + 31) with (32 + k) by lia. rewrite Z.pow_add_r by lia.
    pose proof (Z.mul_div_le divisor (2 ^ 32) ltac:(lia)). nia.
  - apply Z.div_lt_upper_bound; [lia|]. rewrite <- Z.pow_add_r by lia.
    replace (k + 1 + 32) with (32 + Z.succ k) by lia. rewrite Z.pow_add_r by lia.
    pose proof (Z.mul_succ_div_gt divisor (2 ^ 32) ltac:(lia)). nia.
Qed.

Lemma div64_64_small dividend divisor :
  0 <= dividend < 2 ^ 64 -> 0 < divisor < 2 ^ 32 ->
  div64_64 dividend divisor = Ok (dividend / divisor).
Proof.
  intros Hn Hd. unfold div64_64.
  rewrite Z.shiftr_div_pow2, Z.div_small by lia.
  rewrite (u32_small 0), Z.eqb_refl, u32_small, do_div_correct by lia.
  reflexivity.
Qed.

Lemma div64_64_large dividend divisor :
  0 <= dividend < 2 ^ 64 -> 2 ^ 32 <= divisor < 2 ^ 64 ->
  exists q, div64_64 dividend divisor = Ok q /\
            dividend / divisor <= q <= dividend / divisor + 2.
Proof.
  intros Hn Hd. unfold div64_64.
  destruct (fls_normalise divisor Hd) as [Hs Hnorm].
  set (s := fls (u32 (Z.shiftr divisor 32))) in *.
  destruct (Z.eqb_spec (u32 (Z.shiftr divisor 32)) 0) as [E|_].
  { unfold s in Hs. rewrite E in Hs. unfold fls in Hs. rewrite Z.eqb_refl in Hs. lia. }
  rewrite !Z.shiftr_div_pow2, (u32_small (divisor / 2 ^ s)) by lia.
  assert (0 < 2 ^ s) by lia.
  assert (0 <= dividend / 2 ^ s < 2 ^ 64).
  { split; [apply Z.div_pos; lia | apply Z.div_lt_upper_bound; nia]. }
  rewrite do_div_correct by lia. cbn [obind]. eexists; split; [reflexivity|].
  rewrite Z.div_div by lia.
  set (d := divisor / 2 ^ s) in *.
  pose proof (Z.mul_div_le divisor (2 ^ s) ltac:(lia)) as Hlo. fold d in Hlo.
  pose proof (Z.mul_succ_div_gt divisor (2 ^ s) ltac:(lia)) as Hhi. fold d in Hhi.
  split; [apply Z.div_le_compat_l; nia|].
  set (q := dividend / divisor).
  assert (dividend / (2 ^ s * d) < q + 3); [|lia].
  apply Z.div_lt_upper_bound; [nia|].
  pose proof (Z.mul_succ_div_gt dividend divisor ltac:(lia)) as Hq. fold q in Hq.
  assert (0 <= q) by (apply Z.div_pos; lia).
  assert (divisor - 2 ^ s * d < 2 ^ s) by lia.
  assert (q * divisor <= dividend) by (unfold q; pose proof (Z.mul_div_le dividend divisor ltac:(lia)); lia).
  assert (q < 2 ^ 32) by (apply Z.div_lt_upper_bound; lia).
  (* (q+3) * 2^s*d = (q+1)*divisor - (q+1)*(divisor - 2^s*d) + 2*2^s*d *)
  assert ((q + 1) * (divisor - 2 ^ s * d) <= 2 * (2 ^ s * d)); [|nia].
  transitivity (2 ^ 32 * 2 ^ s); nia.
Qed.

(** ** Population count *)

Lemma popcount_0 w : popcount w 0 = 0.
Proof. induction w as [|w IH]; [reflexivity|]. simpl. rewrite IH. reflexivity. Qed.

Lemma popcount_bounds w v : 0 <= popcount w v <= Z.of_nat w.
Proof.
  revert v. induction w as [|w IH]; intros v; simpl; [lia|].
  specialize (IH (Z.div2 v)). destruct (Z.odd v); simpl; lia.
Qed.

Lemma odd_double x : Z.odd (2 * x) = false.
Proof. rewrite Z.odd_mul. reflexivity. Qed.

Lemma div2_double x : Z.div2 (2 * x) = x.
Proof. rewrite Z.div2_div, Z.mul_comm. apply Z.div_mul. lia. Qed.

(** Clearing the lowest set bit removes exactly one from the count. *)
Lemma popcount_clear_lowest w v :
  0 < v < 2 ^ Z.of_nat w ->
  popcount w v = 1 + popcount w (Z.land v (v - 1)).
Proof.
  revert v. induction w as [|w IH]; intros v Hv; [simpl in Hv; lia|].
  simpl popcount. rewrite Nat2Z.inj_succ, Z.pow_succ_r in Hv by lia.
  pose proof (Zdiv2_odd_eqn v) as Ev.
  destruct (Z.odd v) eqn:Eo.
  - assert (Z.land v (v - 1) = v - 1) as ->.
    { apply Z.bits_inj'. intros n Hn. rewrite Z.land_spec.
      assert (v - 1 = 2 * Z.div2 v) as E1 by (rewrite Ev at 1; lia).
      rewrite E1. destruct (Z.eqb_spec n 0) as [->|Hn0].
      - rewrite Z.testbit_even_0. apply andb_false_r.
      - replace n with (Z.succ (n - 1)) by lia.
        rewrite Z.testbit_even_succ by lia.
        rewrite Ev at 1. simpl Z.b2z. rewrite Z.testbit_odd_succ by lia.
        apply andb_diag. }
    assert (v - 1 = 2 * Z.div2 v) as E1 by (rewrite Ev at 1; lia).
    rewrite E1, odd_double, div2_double. simpl. lia.
  - assert (0 < Z.div2 v < 2 ^ Z.of_nat w) as Hh by (simpl in Ev; lia).
    assert (Z.land v (v - 1) = 2 * Z.land (Z.div2 v) (Z.div2 v - 1)) as ->.
    { apply Z.bits_inj'. intros n Hn. rewrite Z.land_spec.
      assert (v = 2 * Z.div2 v) as E1 by (rewrite Ev at 1; simpl; lia).
      assert (v - 1 = 2 * (Z.div2 v - 1) + 1) as E2 by (rewrite E1 at 1; lia).
      rewrite E2. rewrite E1 at 1. destruct (Z.eqb_spec n 0) as [->|Hn0].
      - rewrite !Z.testbit_even_0. reflexivity.
      - replace n with (Z.succ (n - 1)) by lia.
        rewrite !Z.testbit_even_succ, Z.testbit_odd_succ, Z.land_spec by lia.
        reflexivity. }
    rewrite (IH _ Hh), odd_double, div2_double. simpl. lia.
Qed.


(** Wegner's loop, from any intermediate state, counts what is left. *)
Lemma count_set_bits_loop fuel v c :
  0 <= v < 2 ^ 32 -> 0 <= c -> c + popcount 32 v <= 32 ->
  (Z.to_nat (popcount 32 v) < fuel)%nat ->
  loop fuel (fun '(v, c) =>
    if v =? 0 then Ok (Break c)
    else Ok (Continue (Z.land v (u32 (v - 1)), u32 (c + 1)))) (v, c)
  = Ok (c + popcount 32 v).
Proof.
  revert v c. induction fuel as [|fuel IH]; intros v c Hv Hc Hle Hf; [lia|].
  cbn [loop]. destruct (Z.eqb_spec v 0) as [->|Hv0]; cbn [obind].
  - rewrite popcount_0. f_equal. lia.
  - rewrite (u32_small (v - 1)) by lia.
    pose proof (popcount_clear_lowest 32 v ltac:(lia)) as Ep.
    pose proof (land_range 32 v (v - 1) ltac:(lia) Hv) as Hr.
    pose proof (popcount_bounds 32 (Z.land v (v - 1))).
    rewrite (u32_small (c + 1)) by lia. rewrite IH; [f_equal|..]; lia.
Qed.

(** ** Properties *)

(** [div64_64], with which the scheduler converts cycles to timer ticks and
    budgets, never faults on a non-zero divisor; it is exact when the divisor
    fits 32 bits and at most 2 too large otherwise. *)
Theorem div64_64_spec dividend divisor :
  0 <= dividend < 2 ^ 64 -> 0 < divisor < 2 ^ 64 ->
  exists q, div64_64 dividend divisor = Ok q /\
    dividend / divisor <= q <= dividend / divisor + 2 /\
    (divisor < 2 ^ 32 -> q = dividend / divisor).
Proof.
  intros Hn Hd. destruct (Z.lt_ge_cases divisor (2 ^ 32)).
  - rewrite div64_64_small by lia. eexists; split; [reflexivity|]. lia.
  - destruct (div64_64_large dividend divisor Hn ltac:(lia)) as (q & -> & Hq).
    exists q. split; [reflexivity|]. lia.
Qed.

Lemma div64_64_spec_witness :
  exists q, div64_64 1000000007 300 = Ok q /\
    1000000007 / 300 <= q <= 1000000007 / 300 + 2 /\
    (300 < 2 ^ 32 -> q = 1000000007 / 300).
Proof. apply (div64_64_spec 1000000007 300); lia. Defined.

(** Wegner's loop terminates within 32 rounds on every 32-bit word and
    returns the number of set bits. *)
Theorem count_set_bits_popcount v :
  0 <= v < 2 ^ 32 -> count_set_bits v = Ok (popcount 32 v).
Proof.
  intros Hv. unfold count_set_bits. pose proof (popcount_bounds 32 v).
  rewrite count_set_bits_loop by lia. reflexivity.
Qed.

Lemma count_set_bits_popcount_witness : count_set_bits 0xB0000001 = Ok 4.
Proof. exact (count_set_bits_popcount 0xB0000001 ltac:(lia)). Defined.
