(* ===== verification/Crc32.v ===== *)
(** * Bit reversal and CRC-32

    [util/bitrev.c] and [util/crc32.c].  The tables are the ones of the source.
    A buffer is the list of its [len] bytes together with the address it starts
    at, because [crc32_le] and [crc32_be] consume bytes up to a word boundary,
    then 32-bit words, then the last bytes.

    The table-driven code has two variants of its inner step, selected by the
    preprocessor symbol [__LITTLE_ENDIAN]; [le] is that symbol.  With it, on a
    little-endian processor, both routines compute the bitwise definition that
    the source gives for [CRC_LE_BITS == 1] and [CRC_BE_BITS == 1].  Without it
    they do not. *)

From Stdlib Require Import ZArith Lia.
From stdpp Require Import base list numbers.
From S2P Require Import Prelude.
Local Open Scope Z_scope.

(** ** Bit reversal *)

Definition byte_rev_table : list Z :=
  [
   0x00; 0x80; 0x40; 0xc0; 0x20; 0xa0; 0x60; 0xe0;
   0x10; 0x90; 0x50; 0xd0; 0x30; 0xb0; 0x70; 0xf0;
   0x08; 0x88; 0x48; 0xc8; 0x28; 0xa8; 0x68; 0xe8;
   0x18; 0x98; 0x58; 0xd8; 0x38; 0xb8; 0x78; 0xf8;
   0x04; 0x84; 0x44; 0xc4; 0x24; 0xa4; 0x64; 0xe4;
   0x14; 0x94; 0x54; 0xd4; 0x34; 0xb4; 0x74; 0xf4;
   0x0c; 0x8c; 0x4c; 0xcc; 0x2c; 0xac; 0x6c; 0xec;
   0x1c; 0x9c; 0x5c; 0xdc; 0x3c; 0xbc; 0x7c; 0xfc;
   0x02; 0x82; 0x42; 0xc2; 0x22; 0xa2; 0x62; 0xe2;
   0x12; 0x92; 0x52; 0xd2; 0x32; 0xb2; 0x72; 0xf2;
   0x0a; 0x8a; 0x4a; 0xca; 0x2a; 0xaa; 0x6a; 0xea;
   0x1a; 0x9a; 0x5a; 0xda; 0x3a; 0xba; 0x7a; 0xfa;
   0x06; 0x86; 0x46; 0xc6; 0x26; 0xa6; 0x66; 0xe6;
   0x16; 0x96; 0x56; 0xd6; 0x36; 0xb6; 0x76; 0xf6;
   0x0e; 0x8e; 0x4e; 0xce; 0x2e; 0xae; 0x6e; 0xee;
   0x1e; 0x9e; 0x5e; 0xde; 0x3e; 0xbe; 0x7e; 0xfe;
   0x01; 0x81; 0x41; 0xc1; 0x21; 0xa1; 0x61; 0xe1;
   0x11; 0x91; 0x51; 0xd1; 0x31; 0xb1; 0x71; 0xf1;
   0x09; 0x89; 0x49; 0xc9; 0x29; 0xa9; 0x69; 0xe9;
   0x19; 0x99; 0x59; 0xd9; 0x39; 0xb9; 0x79; 0xf9;
   0x05; 0x85; 0x45; 0xc5; 0x25; 0xa5; 0x65; 0xe5;
   0x15; 0x95; 0x55; 0xd5; 0x35; 0xb5; 0x75; 0xf5;
   0x0d; 0x8d; 0x4d; 0xcd; 0x2d; 0xad; 0x6d; 0xed;
   0x1d; 0x9d; 0x5d; 0xdd; 0x3d; 0xbd; 0x7d; 0xfd;
   0x03; 0x83; 0x43; 0xc3; 0x23; 0xa3; 0x63; 0xe3;
   0x13; 0x93; 0x53; 0xd3; 0x33; 0xb3; 0x73; 0xf3;
   0x0b; 0x8b; 0x4b; 0xcb; 0x2b; 0xab; 0x6b; 0xeb;
   0x1b; 0x9b; 0x5b; 0xdb; 0x3b; 0xbb; 0x7b; 0xfb;
   0x07; 0x87; 0x47; 0xc7; 0x27; 0xa7; 0x67; 0xe7;
   0x17; 0x97; 0x57; 0xd7; 0x37; 0xb7; 0x77; 0xf7;
   0x0f; 0x8f; 0x4f; 0xcf; 0x2f; 0xaf; 0x6f; 0xef;
   0x1f; 0x9f; 0x5f; 0xdf; 0x3f; 0xbf; 0x7f; 0xff].

(** Read a constant table; the index is masked or cast before every use. *)
Definition tabget (tab : list Z) (i : Z) : Z := nth (Z.to_nat i) tab 0.

Definition bitrev8 (byte : Z) : Z := tabget byte_rev_table (u8 byte).

Definition bitrev16 (x : Z) : Z :=
  u16 (Z.lor (Z.shiftl (bitrev8 (Z.land x 0xff)) 8) (bitrev8 (Z.shiftr x 8))).

Definition bitrev32 (x : Z) : Z :=
  u32 (Z.lor (Z.shiftl (bitrev16 (Z.land x 0xffff)) 16) (bitrev16 (Z.shiftr x 16))).

(** ** CRC tables *)

Definition CRCPOLY_LE : Z := 0xedb88320.
Definition CRCPOLY_BE : Z := 0x04c11db7.

(** [___constant_swab32]: reverse the four bytes of a word. *)
Definition swab32 (x : Z) : Z :=
  Z.lor (Z.lor (Z.lor (Z.shiftl (Z.land x 0xff) 24)
                      (Z.shiftl (Z.land x 0xff00) 8))
               (Z.shiftr (Z.land x 0xff0000) 8))
        (Z.shiftr (Z.land x 0xff000000) 24).

(** [tole] is the identity on i386. *)
Definition crc32table_le : list Z :=
  [
   0x00000000; 0x77073096; 0xee0e612c; 0x990951ba;
   0x076dc419; 0x706af48f; 0xe963a535; 0x9e6495a3;
   0x0edb8832; 0x79dcb8a4; 0xe0d5e91e; 0x97d2d988;
   0x09b64c2b; 0x7eb17cbd; 0xe7b82d07; 0x90bf1d91;
   0x1db71064; 0x6ab020f2; 0xf3b97148; 0x84be41de;
   0x1adad47d; 0x6ddde4eb; 0xf4d4b551; 0x83d385c7;
   0x136c9856; 0x646ba8c0; 0xfd62f97a; 0x8a65c9ec;
   0x14015c4f; 0x63066cd9; 0xfa0f3d63; 0x8d080df5;
   0x3b6e20c8; 0x4c69105e; 0xd56041e4; 0xa2677172;
   0x3c03e4d1; 0x4b04d447; 0xd20d85fd; 0xa50ab56b;
   0x35b5a8fa; 0x42b2986c; 0xdbbbc9d6; 0xacbcf940;
   0x32d86ce3; 0x45df5c75; 0xdcd60dcf; 0xabd13d59;
   0x26d930ac; 0x51de003a; 0xc8d75180; 0xbfd06116;
   0x21b4f4b5; 0x56b3c423; 0xcfba9599; 0xb8bda50f;
   0x2802b89e; 0x5f058808; 0xc60cd9b2; 0xb10be924;
   0x2f6f7c87; 0x58684c11; 0xc1611dab; 0xb6662d3d;
   0x76dc4190; 0x01db7106; 0x98d220bc; 0xefd5102a;
   0x71b18589; 0x06b6b51f; 0x9fbfe4a5; 0xe8b8d433;
   0x7807c9a2; 0x0f00f934; 0x9609a88e; 0xe10e9818;
   0x7f6a0dbb; 0x086d3d2d; 0x91646c97; 0xe6635c01;
   0x6b6b51f4; 0x1c6c6162; 0x856530d8; 0xf262004e;
   0x6c0695ed; 0x1b01a57b; 0x8208f4c1; 0xf50fc457;
   0x65b0d9c6; 0x12b7e950; 0x8bbeb8ea; 0xfcb9887c;
   0x62dd1ddf; 0x15da2d49; 0x8cd37cf3; 0xfbd44c65;
   0x4db26158; 0x3ab551ce; 0xa3bc0074; 0xd4bb30e2;
   0x4adfa541; 0x3dd895d7; 0xa4d1c46d; 0xd3d6f4fb;
   0x4369e96a; 0x346ed9fc; 0xad678846; 0xda60b8d0;
   0x44042d73; 0x33031de5; 0xaa0a4c5f; 0xdd0d7cc9;
   0x5005713c; 0x270241aa; 0xbe0b1010; 0xc90c2086;
   0x5768b525; 0x206f85b3; 0xb966d409; 0xce61e49f;
   0x5edef90e; 0x29d9c998; 0xb0d09822; 0xc7d7a8b4;
   0x59b33d17; 0x2eb40d81; 0xb7bd5c3b; 0xc0ba6cad;
   0xedb88320; 0x9abfb3b6; 0x03b6e20c; 0x74b1d29a;
   0xead54739; 0x9dd277af; 0x04db2615; 0x73dc1683;
   0xe3630b12; 0x94643b84; 0x0d6d6a3e; 0x7a6a5aa8;
   0xe40ecf0b; 0x9309ff9d; 0x0a00ae27; 0x7d079eb1;
   0xf00f9344; 0x8708a3d2; 0x1e01f268; 0x6906c2fe;
   0xf762575d; 0x806567cb; 0x196c3671; 0x6e6b06e7;
   0xfed41b76; 0x89d32be0; 0x10da7a5a; 0x67dd4acc;
   0xf9b9df6f; 0x8ebeeff9; 0x17b7be43; 0x60b08ed5;
   0xd6d6a3e8; 0xa1d1937e; 0x38d8c2c4; 0x4fdff252;
   0xd1bb67f1; 0xa6bc5767; 0x3fb506dd; 0x48b2364b;
   0xd80d2bda; 0xaf0a1b4c; 0x36034af6; 0x41047a60;
   0xdf60efc3; 0xa867df55; 0x316e8eef; 0x4669be79;
   0xcb61b38c; 0xbc66831a; 0x256fd2a0; 0x5268e236;
   0xcc0c7795; 0xbb0b4703; 0x220216b9; 0x5505262f;
   0xc5ba3bbe; 0xb2bd0b28; 0x2bb45a92; 0x5cb36a04;
   0xc2d7ffa7; 0xb5d0cf31; 0x2cd99e8b; 0x5bdeae1d;
   0x9b64c2b0; 0xec63f226; 0x756aa39c; 0x026d930a;
   0x9c0906a9; 0xeb0e363f; 0x72076785; 0x05005713;
   0x95bf4a82; 0xe2b87a14; 0x7bb12bae; 0x0cb61b38;
   0x92d28e9b; 0xe5d5be0d; 0x7cdcefb7; 0x0bdbdf21;
   0x86d3d2d4; 0xf1d4e242; 0x68ddb3f8; 0x1fda836e;
   0x81be16cd; 0xf6b9265b; 0x6fb077e1; 0x18b74777;
   0x88085ae6; 0xff0f6a70; 0x66063bca; 0x11010b5c;
   0x8f659eff; 0xf862ae69; 0x616bffd3; 0x166ccf45;
   0xa00ae278; 0xd70dd2ee; 0x4e048354; 0x3903b3c2;
   0xa7672661; 0xd06016f7; 0x4969474d; 0x3e6e77db;
   0xaed16a4a; 0xd9d65adc; 0x40df0b66; 0x37d83bf0;
   0xa9bcae53; 0xdebb9ec5; 0x47b2cf7f; 0x30b5ffe9;
   0xbdbdf21c; 0xcabac28a; 0x53b39330; 0x24b4a3a6;
   0xbad03605; 0xcdd70693; 0x54de5729; 0x23d967bf;
   0xb3667a2e; 0xc4614ab8; 0x5d681b02; 0x2a6f2b94;
   0xb40bbe37; 0xc30c8ea1; 0x5a05df1b; 0x2d02ef8d].

(** The constants between the [tobe ( )] of the source. *)
Definition crc32table_be_src : list Z :=
  [
   0x00000000; 0x04c11db7; 0x09823b6e; 0x0d4326d9;
   0x130476dc; 0x17c56b6b; 0x1a864db2; 0x1e475005;
   0x2608edb8; 0x22c9f00f; 0x2f8ad6d6; 0x2b4bcb61;
   0x350c9b64; 0x31cd86d3; 0x3c8ea00a; 0x384fbdbd;
   0x4c11db70; 0x48d0c6c7; 0x4593e01e; 0x4152fda9;
   0x5f15adac; 0x5bd4b01b; 0x569796c2; 0x52568b75;
   0x6a1936c8; 0x6ed82b7f; 0x639b0da6; 0x675a1011;
   0x791d4014; 0x7ddc5da3; 0x709f7b7a; 0x745e66cd;
   0x9823b6e0; 0x9ce2ab57; 0x91a18d8e; 0x95609039;
   0x8b27c03c; 0x8fe6dd8b; 0x82a5fb52; 0x8664e6e5;
   0xbe2b5b58; 0xbaea46ef; 0xb7a96036; 0xb3687d81;
   0xad2f2d84; 0xa9ee3033; 0xa4ad16ea; 0xa06c0b5d;
   0xd4326d90; 0xd0f37027; 0xddb056fe; 0xd9714b49;
   0xc7361b4c; 0xc3f706fb; 0xceb42022; 0xca753d95;
   0xf23a8028; 0xf6fb9d9f; 0xfbb8bb46; 0xff79a6f1;
   0xe13ef6f4; 0xe5ffeb43; 0xe8bccd9a; 0xec7dd02d;
   0x34867077; 0x30476dc0; 0x3d044b19; 0x39c556ae;
   0x278206ab; 0x23431b1c; 0x2e003dc5; 0x2ac12072;
   0x128e9dcf; 0x164f8078; 0x1b0ca6a1; 0x1fcdbb16;
   0x018aeb13; 0x054bf6a4; 0x0808d07d; 0x0cc9cdca;
   0x7897ab07; 0x7c56b6b0; 0x71159069; 0x75d48dde;
   0x6b93dddb; 0x6f52c06c; 0x6211e6b5; 0x66d0fb02;
   0x5e9f46bf; 0x5a5e5b08; 0x571d7dd1; 0x53dc6066;
   0x4d9b3063; 0x495a2dd4; 0x44190b0d; 0x40d816ba;
   0xaca5c697; 0xa864db20; 0xa527fdf9; 0xa1e6e04e;
   0xbfa1b04b; 0xbb60adfc; 0xb6238b25; 0xb2e29692;
   0x8aad2b2f; 0x8e6c3698; 0x832f1041; 0x87ee0df6;
   0x99a95df3; 0x9d684044; 0x902b669d; 0x94ea7b2a;
   0xe0b41de7; 0xe4750050; 0xe9362689; 0xedf73b3e;
   0xf3b06b3b; 0xf771768c; 0xfa325055; 0xfef34de2;
   0xc6bcf05f; 0xc27dede8; 0xcf3ecb31; 0xcbffd686;
   0xd5b88683; 0xd1799b34; 0xdc3abded; 0xd8fba05a;
   0x690ce0ee; 0x6dcdfd59; 0x608edb80; 0x644fc637;
   0x7a089632; 0x7ec98b85; 0x738aad5c; 0x774bb0eb;
   0x4f040d56; 0x4bc510e1; 0x46863638; 0x42472b8f;
   0x5c007b8a; 0x58c1663d; 0x558240e4; 0x51435d53;
   0x251d3b9e; 0x21dc2629; 0x2c9f00f0; 0x285e1d47;
   0x36194d42; 0x32d850f5; 0x3f9b762c; 0x3b5a6b9b;
   0x0315d626; 0x07d4cb91; 0x0a97ed48; 0x0e56f0ff;
   0x1011a0fa; 0x14d0bd4d; 0x19939b94; 0x1d528623;
   0xf12f560e; 0xf5ee4bb9; 0xf8ad6d60; 0xfc6c70d7;
   0xe22b20d2; 0xe6ea3d65; 0xeba91bbc; 0xef68060b;
   0xd727bbb6; 0xd3e6a601; 0xdea580d8; 0xda649d6f;
   0xc423cd6a; 0xc0e2d0dd; 0xcda1f604; 0xc960ebb3;
   0xbd3e8d7e; 0xb9ff90c9; 0xb4bcb610; 0xb07daba7;
   0xae3afba2; 0xaafbe615; 0xa7b8c0cc; 0xa379dd7b;
   0x9b3660c6; 0x9ff77d71; 0x92b45ba8; 0x9675461f;
   0x8832161a; 0x8cf30bad; 0x81b02d74; 0x857130c3;
   0x5d8a9099; 0x594b8d2e; 0x5408abf7; 0x50c9b640;
   0x4e8ee645; 0x4a4ffbf2; 0x470cdd2b; 0x43cdc09c;
   0x7b827d21; 0x7f436096; 0x7200464f; 0x76c15bf8;
   0x68860bfd; 0x6c47164a; 0x61043093; 0x65c52d24;
   0x119b4be9; 0x155a565e; 0x18197087; 0x1cd86d30;
   0x029f3d35; 0x065e2082; 0x0b1d065b; 0x0fdc1bec;
   0x3793a651; 0x3352bbe6; 0x3e119d3f; 0x3ad08088;
   0x2497d08d; 0x2056cd3a; 0x2d15ebe3; 0x29d4f654;
   0xc5a92679; 0xc1683bce; 0xcc2b1d17; 0xc8ea00a0;
   0xd6ad50a5; 0xd26c4d12; 0xdf2f6bcb; 0xdbee767c;
   0xe3a1cbc1; 0xe760d676; 0xea23f0af; 0xeee2ed18;
   0xf0a5bd1d; 0xf464a0aa; 0xf9278673; 0xfde69bc4;
   0x89b8fd09; 0x8d79e0be; 0x803ac667; 0x84fbdbd0;
   0x9abc8bd5; 0x9e7d9662; 0x933eb0bb; 0x97ffad0c;
   0xafb010b1; 0xab710d06; 0xa6322bdf; 0xa2f33668;
   0xbcb4666d; 0xb8757bda; 0xb5365d03; 0xb1f740b4].

(** [tobe] swaps the bytes. *)
Definition crc32table_be : list Z := map swab32 crc32table_be_src.

(** ** The routines *)

(** [DO_CRC (x)], the variant with and without [__LITTLE_ENDIAN]. *)
Definition DO_CRC (le : bool) (tab : list Z) (crc x : Z) : Z :=
  if le then
    Z.lxor (tabget tab (Z.land (Z.lxor crc x) 255)) (Z.shiftr crc 8)
  else
    Z.lxor (tabget tab (Z.land (Z.lxor (Z.shiftr crc 24) x) 255))
           (u32 (Z.shiftl crc 8)).

(** The bytes before the first word boundary, one at a time. *)
Fixpoint crc_align (le : bool) (tab : list Z) (addr crc : Z) (p : list Z)
  : Z * list Z :=
  match p with
  | [] => (crc, [])
  | x :: p' =>
      if Z.land addr 3 =? 0 then (crc, p)
      else crc_align le tab (addr + 1) (DO_CRC le tab crc x) p'
  end.

(** A 32-bit load from memory on i386. *)
Definition load32 (b0 b1 b2 b3 : Z) : Z :=
  Z.lor b0 (Z.lor (Z.shiftl b1 8) (Z.lor (Z.shiftl b2 16) (Z.shiftl b3 24))).

(** The words, while at least four bytes are left. *)
Fixpoint crc_words (le : bool) (tab : list Z) (crc : Z) (p : list Z)
  : Z * list Z :=
  match p with
  | b0 :: b1 :: b2 :: b3 :: p' =>
      let crc := Z.lxor crc (load32 b0 b1 b2 b3) in
      let crc := DO_CRC le tab crc 0 in
      let crc := DO_CRC le tab crc 0 in
      let crc := DO_CRC le tab crc 0 in
      let crc := DO_CRC le tab crc 0 in
      crc_words le tab crc p'
  | _ => (crc, p)
  end.

(** And the last few bytes. *)
Definition crc_bytes (le : bool) (tab : list Z) (crc : Z) (p : list Z) : Z :=
  fold_left (DO_CRC le tab) p crc.

Definition crc32_le (le : bool) (crc addr : Z) (p : list Z) : Z :=
  let tab := crc32table_le in
  let '(crc, p) := crc_align le tab addr crc p in
  let '(crc, p) := crc_words le tab crc p in
  crc_bytes le tab crc p.

Definition crc32_be (le : bool) (crc addr : Z) (p : list Z) : Z :=
  let tab := crc32table_be in
  let crc := swab32 crc in
  let '(crc, p) := crc_align le tab addr crc p in
  let '(crc, p) := crc_words le tab crc p in
  swab32 (crc_bytes le tab crc p).

(** The bit-at-a-time versions of the source, for [CRC_LE_BITS == 1] and
    [CRC_BE_BITS == 1]: the reference definitions. *)
Definition crc_le_bit (crc : Z) : Z :=
  Z.lxor (Z.shiftr crc 1) (if Z.land crc 1 =? 0 then 0 else CRCPOLY_LE).

Definition crc_le_step (crc x : Z) : Z := Nat.iter 8 crc_le_bit (Z.lxor crc x).

Definition crc32_le_bitwise (crc : Z) (p : list Z) : Z := fold_left crc_le_step p crc.

Definition crc_be_bit (crc : Z) : Z :=
  Z.lxor (u32 (Z.shiftl crc 1)) (if Z.land crc 0x80000000 =? 0 then 0 else CRCPOLY_BE).

Definition crc_be_step (crc x : Z) : Z :=
  Nat.iter 8 crc_be_bit (Z.lxor crc (Z.shiftl x 24)).

Definition crc32_be_bitwise (crc : Z) (p : list Z) : Z := fold_left crc_be_step p crc.

(** [ether_crc] of [include/util/crc32.h]. *)
Definition ether_crc (le : bool) (addr : Z) (p : list Z) : Z :=
  bitrev32 (crc32_le le (2 ^ 32 - 1) addr p).

(** ** Bit-level lemmas *)

Lemma testbit_high w x n : 0 <= x < 2 ^ w -> 0 <= w <= n -> Z.testbit x n = false.
Proof.
  intros Hx Hn. apply range_mod in Hx; [|lia]. rewrite <- Hx.
  apply Z.mod_pow2_bits_high. lia.
Qed.

Lemma testbit_ones w n : 0 <= w -> 0 <= n -> Z.testbit (Z.ones w) n = (n <? w).
Proof.
  intros Hw Hn. destruct (Z.ltb_spec n w).
  - apply Z.ones_spec_low. lia.
  - apply Z.ones_spec_high. lia.
Qed.

Lemma testbit_u32 x n : 0 <= n -> Z.testbit (u32 x) n = Z.testbit x n && (n <? 32).
Proof.
  intros Hn. unfold u32. rewrite <- Z.land_ones, Z.land_spec, testbit_ones by lia.
  reflexivity.
Qed.

Lemma testbit_shiftl a k n :
  0 <= n -> Z.testbit (Z.shiftl a k) n = (k <=? n) && Z.testbit a (n - k).
Proof.
  intros Hn. rewrite Z.shiftl_spec by assumption.
  destruct (Z.leb_spec k n); [reflexivity|]. apply Z.testbit_neg_r. lia.
Qed.

Lemma xorb_andb_l a b c : xorb a b && c = xorb (a && c) (b && c).
Proof. destruct a, b, c; reflexivity. Qed.

(** [zbits n] proves an equality of integers at every bit position [n]. *)
Ltac zbits n :=
  apply Z.bits_inj'; let Hn := fresh "Hn" in intros n Hn;
  repeat first
    [ rewrite Z.lxor_spec | rewrite Z.lor_spec | rewrite Z.land_spec
    | rewrite testbit_u32 by lia | rewrite testbit_shiftl by lia
    | rewrite Z.shiftr_spec by lia | rewrite testbit_ones by lia
    | rewrite Z.testbit_0_l ].

(** Split on the first integer comparison that is left and normalise. *)
Ltac zbits_cases :=
  repeat (match goal with
          | |- context [?a <=? ?b] => destruct (Z.leb_spec a b)
          | |- context [?a <? ?b] => destruct (Z.ltb_spec a b)
          end; cbn [andb orb xorb];
          rewrite ?andb_false_r, ?andb_true_r, ?orb_false_r, ?orb_true_r,
            ?xorb_false_r, ?xorb_false_l);
  try lia; try reflexivity.

Lemma land_mask_lxor c w k :
  0 <= k ->
  Z.land (Z.lxor c (Z.land w (Z.ones k))) (Z.ones k) = Z.land (Z.lxor c w) (Z.ones k).
Proof.
  intros Hk. zbits n.
  destruct (Z.testbit c n), (Z.testbit w n), (n <? k); reflexivity.
Qed.

Lemma shiftr_lxor a b n : Z.shiftr (Z.lxor a b) n = Z.lxor (Z.shiftr a n) (Z.shiftr b n).
Proof. apply Z.shiftr_lxor. Qed.

Lemma shiftr_byte x : 0 <= x < 2 ^ 8 -> Z.shiftr x 8 = 0.
Proof. intros. rewrite Z.shiftr_div_pow2 by lia. apply Z.div_small. assumption. Qed.

Lemma lxor_split x k :
  0 <= k -> x = Z.lxor (Z.shiftl (Z.shiftr x k) k) (Z.land x (Z.ones k)).
Proof.
  intros Hk. zbits n. zbits_cases.
  rewrite Z.shiftr_spec by lia. f_equal. lia.
Qed.

(** A statement about every table index, decided by evaluation. *)
Lemma below_256 (P : Z -> bool) :
  forallb P (map Z.of_nat (List.seq 0 256)) = true ->
  forall i, 0 <= i < 256 -> P i = true.
Proof.
  intros H i Hi. rewrite forallb_forall in H. apply H.
  apply in_map_iff. exists (Z.to_nat i). split; [lia|]. apply in_seq. lia.
Qed.

(** ** The three phases compute a fold of the byte step *)

Section phases.
Context (tab : list Z).

Lemma DO_CRC_word c w :
  DO_CRC true tab (Z.lxor c w) 0 =
  Z.lxor (DO_CRC true tab c (Z.land w 255)) (Z.shiftr w 8).
Proof.
  unfold DO_CRC. rewrite Z.lxor_0_r, shiftr_lxor, <- Z.lxor_assoc.
  change 255 with (Z.ones 8). rewrite land_mask_lxor by lia. reflexivity.
Qed.

Lemma load32_low b0 b1 b2 b3 :
  0 <= b0 < 2 ^ 8 -> Z.land (load32 b0 b1 b2 b3) 255 = b0.
Proof.
  intros H0. change 255 with (Z.ones 8). unfold load32. zbits n. zbits_cases.
  all: symmetry; apply (testbit_high 8); lia.
Qed.

Lemma load32_shift b0 b1 b2 b3 :
  0 <= b0 < 2 ^ 8 -> Z.shiftr (load32 b0 b1 b2 b3) 8 = load32 b1 b2 b3 0.
Proof.
  intros H0. unfold load32. rewrite !Z.shiftr_lor, shiftr_byte by lia.
  rewrite !Z.shiftr_shiftl_l by lia. rewrite Z.shiftl_0_l, Z.lor_0_r, Z.lor_0_l.
  reflexivity.
Qed.

Lemma DO_CRC_four c b0 b1 b2 b3 :
  0 <= b0 < 2 ^ 8 -> 0 <= b1 < 2 ^ 8 -> 0 <= b2 < 2 ^ 8 -> 0 <= b3 < 2 ^ 8 ->
  DO_CRC true tab (DO_CRC true tab (DO_CRC true tab (DO_CRC true tab
    (Z.lxor c (load32 b0 b1 b2 b3)) 0) 0) 0) 0 =
  crc_bytes true tab c [b0; b1; b2; b3].
Proof.
  intros H0 H1 H2 H3.
  do 4 (rewrite DO_CRC_word, load32_low, load32_shift by lia).
  unfold load32. rewrite !Z.shiftl_0_l, !Z.lor_0_l, Z.lxor_0_r. reflexivity.
Qed.

Lemma crc_words_bytes n p c :
  (length p <= n)%nat -> Forall (fun x => 0 <= x < 2 ^ 8) p ->
  (let '(c', p') := crc_words true tab c p in crc_bytes true tab c' p') =
  crc_bytes true tab c p.
Proof.
  revert p c. induction n as [|n IH]; intros p c Hlen Hp.
  { destruct p; [reflexivity | simpl in Hlen; lia]. }
  destruct p as [|b0 [|b1 [|b2 [|b3 p]]]]; try reflexivity.
  cbn [crc_words]. rewrite !Forall_cons_iff in Hp.
  destruct Hp as (H0 & H1 & H2 & H3 & Hp').
  rewrite DO_CRC_four by assumption. rewrite IH; [|simpl in Hlen; lia|assumption].
  unfold crc_bytes. rewrite <- fold_left_app. reflexivity.
Qed.

Lemma crc_align_bytes p addr c :
  (let '(c', p') := crc_align true tab addr c p in crc_bytes true tab c' p') =
  crc_bytes true tab c p.
Proof.
  revert addr c. induction p as [|x p IH]; intros addr c; [reflexivity|].
  cbn [crc_align]. destruct (Z.land addr 3 =? 0); [reflexivity|]. rewrite IH.
  reflexivity.
Qed.

Lemma crc_align_suffix p addr c : exists q, p = q ++ (crc_align true tab addr c p).2.
Proof.
  revert addr c. induction p as [|x p IH]; intros addr c; [by exists []|].
  cbn [crc_align]. destruct (Z.land addr 3 =? 0); [by exists []|].
  destruct (IH (addr + 1) (DO_CRC true tab c x)) as [q Hq].
  exists (x :: q). cbn. f_equal. exact Hq.
Qed.

Lemma crc_phases p addr c :
  Forall (fun x => 0 <= x < 2 ^ 8) p ->
  (let '(c1, p1) := crc_align true tab addr c p in
   let '(c2, p2) := crc_words true tab c1 p1 in crc_bytes true tab c2 p2) =
  crc_bytes true tab c p.
Proof.
  intros Hp. rewrite <- (crc_align_bytes p addr c).
  destruct (crc_align_suffix p addr c) as [q Hq].
  destruct (crc_align true tab addr c p) as [c1 p1]. simpl in Hq.
  apply (crc_words_bytes (length p1)); [lia|].
  rewrite Hq in Hp. apply Forall_app in Hp. apply Hp.
Qed.
End phases.

(** ** The little-endian step *)

Lemma land_1 x : (Z.land x 1 =? 0) = negb (Z.odd x).
Proof.
  change 1 with (Z.ones 1). rewrite Z.land_ones by lia. change (2 ^ 1) with 2.
  rewrite Zmod_odd. destruct (Z.odd x); reflexivity.
Qed.

Lemma crc_le_bit_lxor a b :
  crc_le_bit (Z.lxor a b) = Z.lxor (crc_le_bit a) (crc_le_bit b).
Proof.
  unfold crc_le_bit. rewrite !land_1, shiftr_lxor, <- !Z.bit0_odd, Z.lxor_spec.
  zbits n.
  destruct (Z.testbit a 0), (Z.testbit b 0); cbn [negb xorb]; rewrite ?Z.testbit_0_l;
  destruct (Z.testbit a (n + 1)), (Z.testbit b (n + 1)), (Z.testbit CRCPOLY_LE n);
  reflexivity.
Qed.

Lemma crc_le_bit_double x : crc_le_bit (2 * x) = x.
Proof.
  unfold crc_le_bit. rewrite land_1, Z.odd_mul. cbn [Z.odd andb negb].
  rewrite Z.lxor_0_r, Z.shiftr_div_pow2, Z.mul_comm by lia. apply Z.div_mul. lia.
Qed.

Lemma iter_lxor (f : Z -> Z) n a b :
  (forall a b, f (Z.lxor a b) = Z.lxor (f a) (f b)) ->
  Nat.iter n f (Z.lxor a b) = Z.lxor (Nat.iter n f a) (Nat.iter n f b).
Proof. intros H. induction n as [|n IH]; simpl; [reflexivity|]. rewrite IH. apply H. Qed.

Lemma crc_le_shift8 x : Nat.iter 8 crc_le_bit (Z.shiftl x 8) = x.
Proof.
  rewrite Z.shiftl_mul_pow2 by lia.
  replace (x * 2 ^ 8) with (2 * (2 * (2 * (2 * (2 * (2 * (2 * (2 * x)))))))) by lia.
  simpl. rewrite !crc_le_bit_double. reflexivity.
Qed.

Lemma crc32table_le_entries i :
  0 <= i < 256 -> tabget crc32table_le i = Nat.iter 8 crc_le_bit i.
Proof.
  intros Hi. apply Z.eqb_eq.
  apply (below_256 (fun i => tabget crc32table_le i =? Nat.iter 8 crc_le_bit i));
    [vm_compute; reflexivity | assumption].
Qed.

Lemma DO_CRC_le crc x :
  0 <= x < 2 ^ 8 ->
  DO_CRC true crc32table_le crc x = crc_le_step crc x.
Proof.
  intros Hx. unfold crc_le_step. rewrite (lxor_split (Z.lxor crc x) 8) by lia.
  rewrite (iter_lxor _ _ _ _ crc_le_bit_lxor), crc_le_shift8.
  rewrite shiftr_lxor, (shiftr_byte x), Z.lxor_0_r by assumption.
  rewrite <- crc32table_le_entries.
  - unfold DO_CRC. apply Z.lxor_comm.
  - rewrite Z.land_ones by lia. apply Z.mod_pos_bound. lia.
Qed.

(** ** The big-endian step, held byte-swapped *)

Lemma testbit_mask8 k m :
  0 <= k -> Z.testbit (Z.shiftl (Z.ones 8) k) m = (k <=? m) && (m <? k + 8).
Proof.
  intros Hk. destruct (Z.lt_ge_cases m 0) as [Hm|Hm].
  - rewrite Z.testbit_neg_r by assumption. destruct (Z.leb_spec k m); [lia | done].
  - rewrite testbit_shiftl by assumption. destruct (Z.leb_spec k m); [|done].
    rewrite testbit_ones by lia. cbn [andb].
    destruct (Z.ltb_spec (m - k) 8), (Z.ltb_spec m (k + 8)); lia || done.
Qed.

Lemma testbit_low8 m : Z.testbit (Z.ones 8) m = (0 <=? m) && (m <? 8).
Proof. exact (testbit_mask8 0 m ltac:(lia)). Qed.

Lemma testbit_swab32 x n :
  0 <= n ->
  Z.testbit (swab32 x) n =
  if n <? 8 then Z.testbit x (n + 24)
  else if n <? 16 then Z.testbit x (n + 8)
  else if n <? 24 then Z.testbit x (n - 8)
  else if n <? 32 then Z.testbit x (n - 24) else false.
Proof.
  intros Hn0. unfold swab32.
  change 0xff00 with (Z.shiftl (Z.ones 8) 8).
  change 0xff0000 with (Z.shiftl (Z.ones 8) 16).
  change 0xff000000 with (Z.shiftl (Z.ones 8) 24). change 0xff with (Z.ones 8).
  rewrite !Z.lor_spec, !testbit_shiftl, !Z.shiftr_spec, !Z.land_spec by lia.
  rewrite !testbit_mask8, testbit_low8 by lia.
  repeat (match goal with
          | |- context [?a <=? ?b] => destruct (Z.leb_spec a b)
          | |- context [?a <? ?b] => destruct (Z.ltb_spec a b)
          end; try lia; cbn [andb orb];
          rewrite ?andb_false_r, ?andb_true_r, ?orb_false_r).
  all: first [reflexivity | f_equal; lia].
Qed.

Lemma swab32_lxor a b : swab32 (Z.lxor a b) = Z.lxor (swab32 a) (swab32 b).
Proof.
  apply Z.bits_inj'. intros n Hn. rewrite Z.lxor_spec, !testbit_swab32 by assumption.
  repeat case_match; rewrite ?Z.lxor_spec; reflexivity.
Qed.

Lemma swab32_involutive x : 0 <= x < 2 ^ 32 -> swab32 (swab32 x) = x.
Proof.
  intros Hx. apply Z.bits_inj'. intros n Hn. rewrite testbit_swab32 by assumption.
  repeat (match goal with |- context [?a <? ?b] => destruct (Z.ltb_spec a b) end);
    try (rewrite testbit_swab32 by lia;
         repeat (match goal with |- context [?a <? ?b] => destruct (Z.ltb_spec a b) end);
         try lia; f_equal; lia).
  symmetry. apply (testbit_high 32); lia.
Qed.

Lemma swab32_shiftl8 x : swab32 (u32 (Z.shiftl x 8)) = Z.shiftr (swab32 x) 8.
Proof.
  apply Z.bits_inj'. intros n Hn.
  rewrite Z.shiftr_spec, !testbit_swab32 by lia.
  repeat (match goal with |- context [?a <? ?b] => destruct (Z.ltb_spec a b) end);
    try lia; rewrite ?testbit_u32, ?testbit_shiftl by lia;
  repeat (match goal with
    | |- context [?a <=? ?b] => destruct (Z.leb_spec a b)
    | |- context [?a <? ?b] => destruct (Z.ltb_spec a b) end); try lia;
  rewrite ?andb_true_r, ?andb_false_r; cbn [andb]; try reflexivity; f_equal; lia.
Qed.

Lemma swab32_low_byte x : 0 <= x < 2 ^ 32 -> Z.land (swab32 x) 255 = Z.shiftr x 24.
Proof.
  intros Hx. change 255 with (Z.ones 8). zbits n. rewrite testbit_swab32 by assumption.
  destruct (Z.ltb_spec n 8); rewrite ?andb_true_r, ?andb_false_r.
  - reflexivity.
  - symmetry. apply (testbit_high 32); lia.
Qed.

Lemma testbit_top x : (Z.land x 0x80000000 =? 0) = negb (Z.testbit x 31).
Proof.
  change 0x80000000 with (2 ^ 31).
  destruct (Z.testbit x 31) eqn:E; cbn [negb].
  - apply Z.eqb_neq. intros H0. apply (f_equal (fun z => Z.testbit z 31)) in H0.
    rewrite Z.land_spec, E, Z.pow2_bits_true in H0 by lia. discriminate.
  - apply Z.eqb_eq. apply Z.bits_inj'. intros n Hn.
    rewrite Z.land_spec, Z.testbit_0_l.
    destruct (Z.eqb_spec n 31) as [->|Hne]; [rewrite E; reflexivity|].
    rewrite Z.pow2_bits_false by lia. apply andb_false_r.
Qed.

Lemma u32_shiftl_lxor a b k :
  u32 (Z.shiftl (Z.lxor a b) k) = Z.lxor (u32 (Z.shiftl a k)) (u32 (Z.shiftl b k)).
Proof.
  zbits n. destruct (k <=? n), (n <? 32); cbn [andb]; rewrite ?andb_true_r, ?andb_false_r;
  reflexivity.
Qed.

Lemma crc_be_bit_lxor a b :
  crc_be_bit (Z.lxor a b) = Z.lxor (crc_be_bit a) (crc_be_bit b).
Proof.
  unfold crc_be_bit. rewrite !testbit_top, u32_shiftl_lxor, Z.lxor_spec.
  apply Z.bits_inj'. intros n Hn. rewrite !Z.lxor_spec.
  generalize (Z.testbit (u32 (Z.shiftl a 1)) n), (Z.testbit (u32 (Z.shiftl b 1)) n).
  intros u v. destruct (Z.testbit a 31), (Z.testbit b 31); cbn [negb xorb];
    rewrite ?Z.testbit_0_l; destruct u, v, (Z.testbit CRCPOLY_BE n); reflexivity.
Qed.

Lemma crc_be_bit_small x : 0 <= x < 2 ^ 31 -> crc_be_bit x = Z.shiftl x 1.
Proof.
  intros Hx. unfold crc_be_bit. rewrite testbit_top, (testbit_high 31) by lia.
  cbn [negb]. rewrite Z.lxor_0_r. apply u32_small.
  rewrite Z.shiftl_mul_pow2 by lia. lia.
Qed.

Lemma crc_be_shift k x :
  (k <= 8)%nat -> 0 <= x < 2 ^ 24 -> Nat.iter k crc_be_bit x = Z.shiftl x (Z.of_nat k).
Proof.
  intros Hk Hx. induction k as [|k IH]; [symmetry; apply Z.shiftl_0_r|].
  rewrite Nat.iter_succ, IH by lia.
  assert (2 ^ Z.of_nat k <= 2 ^ 7) by (apply Z.pow_le_mono_r; lia).
  rewrite crc_be_bit_small by (rewrite Z.shiftl_mul_pow2 by lia; nia).
  rewrite Z.shiftl_shiftl by lia. f_equal. lia.
Qed.

Lemma crc32table_be_entries i :
  0 <= i < 256 -> tabget crc32table_be_src i = Nat.iter 8 crc_be_bit (Z.shiftl i 24).
Proof.
  intros Hi. apply Z.eqb_eq.
  apply (below_256 (fun i =>
    tabget crc32table_be_src i =? Nat.iter 8 crc_be_bit (Z.shiftl i 24)));
    [vm_compute; reflexivity | assumption].
Qed.

Lemma crc_be_byte y :
  0 <= y < 2 ^ 32 ->
  Nat.iter 8 crc_be_bit y =
  Z.lxor (tabget crc32table_be_src (Z.shiftr y 24)) (u32 (Z.shiftl y 8)).
Proof.
  intros Hy. rewrite (lxor_split y 24) at 1 by lia.
  rewrite (iter_lxor _ _ _ _ crc_be_bit_lxor), crc32table_be_entries.
  2:{ rewrite Z.shiftr_div_pow2 by lia.
      split; [apply Z.div_pos; lia | apply Z.div_lt_upper_bound; lia]. }
  f_equal. rewrite crc_be_shift.
  - change (Z.of_nat 8) with 8. zbits n. destruct (Z.leb_spec 8 n); [|reflexivity].
    rewrite testbit_ones by lia. cbn [andb]. f_equal.
    destruct (Z.ltb_spec (n - 8) 24), (Z.ltb_spec n 32); lia || reflexivity.
  - lia.
  - rewrite Z.land_ones by lia. apply Z.mod_pos_bound. lia.
Qed.

Lemma tabget_swab i : tabget crc32table_be i = swab32 (tabget crc32table_be_src i).
Proof. unfold tabget, crc32table_be. exact (map_nth swab32 crc32table_be_src 0 _). Qed.

Lemma crc_be_byte_range crc x : 0 <= crc_be_step crc x < 2 ^ 32.
Proof.
  assert (forall y, 0 <= crc_be_bit y < 2 ^ 32) as H.
  { intros z. unfold crc_be_bit. apply lxor_range; [lia|apply u32_range|].
    case_match; unfold CRCPOLY_BE; lia. }
  unfold crc_be_step. rewrite (Nat.iter_succ 7). apply H.
Qed.

Lemma shiftl_byte_range x : 0 <= x < 2 ^ 8 -> 0 <= Z.shiftl x 24 < 2 ^ 32.
Proof. intros. rewrite Z.shiftl_mul_pow2 by lia. lia. Qed.

Lemma DO_CRC_be crc x :
  0 <= crc < 2 ^ 32 -> 0 <= x < 2 ^ 8 ->
  DO_CRC true crc32table_be (swab32 crc) x =
  swab32 (crc_be_step crc x).
Proof.
  intros Hc Hx. unfold crc_be_step. pose proof (shiftl_byte_range x Hx) as Hs.
  rewrite crc_be_byte by (apply lxor_range; lia).
  rewrite swab32_lxor, <- tabget_swab, u32_shiftl_lxor, swab32_lxor, swab32_shiftl8.
  assert (u32 (Z.shiftl (Z.shiftl x 24) 8) = 0) as ->.
  { rewrite Z.shiftl_shiftl by lia. change (24 + 8) with 32. zbits n.
    destruct (Z.leb_spec 32 n), (Z.ltb_spec n 32);
      rewrite ?andb_false_r, ?andb_true_r; lia || reflexivity. }
  change (swab32 0) with 0. rewrite Z.lxor_0_r. unfold DO_CRC. f_equal. f_equal.
  rewrite shiftr_lxor, <- swab32_low_byte, Z.shiftr_shiftl_l, Z.shiftl_0_r by lia.
  change 255 with (Z.ones 8). zbits n.
  destruct (Z.ltb_spec n 8); rewrite ?andb_true_r, ?andb_false_r; [reflexivity|].
  rewrite (testbit_high 8 x) by lia. reflexivity.
Qed.

Lemma crc_bytes_nil le tab crc : crc_bytes le tab crc [] = crc.
Proof. reflexivity. Qed.
Lemma crc_bytes_cons le tab crc x p :
  crc_bytes le tab crc (x :: p) = crc_bytes le tab (DO_CRC le tab crc x) p.
Proof. reflexivity. Qed.
Lemma crc32_be_bitwise_nil crc : crc32_be_bitwise crc [] = crc.
Proof. reflexivity. Qed.
Lemma crc32_be_bitwise_cons crc x p :
  crc32_be_bitwise crc (x :: p) = crc32_be_bitwise (crc_be_step crc x) p.
Proof. reflexivity. Qed.
Lemma crc32_le_bitwise_cons crc x p :
  crc32_le_bitwise crc (x :: p) = crc32_le_bitwise (crc_le_step crc x) p.
Proof. reflexivity. Qed.

Lemma crc_be_fold p crc :
  0 <= crc < 2 ^ 32 -> Forall (fun x => 0 <= x < 2 ^ 8) p ->
  crc_bytes true crc32table_be (swab32 crc) p = swab32 (crc32_be_bitwise crc p) /\
  0 <= crc32_be_bitwise crc p < 2 ^ 32.
Proof.
  intros Hc Hp. revert crc Hc. induction Hp as [|x p Hx Hp IH]; intros crc Hc.
  - rewrite crc_bytes_nil, crc32_be_bitwise_nil. split; [reflexivity | assumption].
  - rewrite crc_bytes_cons, crc32_be_bitwise_cons, (DO_CRC_be _ _ Hc Hx).
    exact (IH _ (crc_be_byte_range crc x)).
Qed.

(** ** Properties *)

(** the table-driven, word-at-a-time [crc32_le] of the source, compiled with
    [__LITTLE_ENDIAN] for a little-endian processor, equals the bit-at-a-time definition of the CRC for
    every seed, every alignment and every buffer. *)
Theorem crc32_le_correct crc addr p :
  Forall (fun x => 0 <= x < 2 ^ 8) p ->
  crc32_le true crc addr p = crc32_le_bitwise crc p.
Proof.
  intros Hp. unfold crc32_le. rewrite crc_phases by assumption.
  revert crc. induction Hp as [|x p Hx Hp IH]; intros crc; [reflexivity|].
  rewrite crc_bytes_cons, crc32_le_bitwise_cons, DO_CRC_le by assumption. apply IH.
Qed.

Lemma crc32_le_correct_witness :
  crc32_le true (2 ^ 32 - 1) 1 [0x31; 0x32; 0x33; 0x34; 0x35; 0x36; 0x37; 0x38; 0x39]
  = Z.lxor (2 ^ 32 - 1) 0xcbf43926.
Proof.
  rewrite (crc32_le_correct (2 ^ 32 - 1) 1
    [0x31; 0x32; 0x33; 0x34; 0x35; 0x36; 0x37; 0x38; 0x39]).
  - vm_compute. reflexivity.
  - repeat constructor; lia.
Defined.

(** likewise [crc32_be], which keeps the remainder byte-swapped, equals the
    big-endian bit-at-a-time definition. *)
Theorem crc32_be_correct crc addr p :
  0 <= crc < 2 ^ 32 -> Forall (fun x => 0 <= x < 2 ^ 8) p ->
  crc32_be true crc addr p = crc32_be_bitwise crc p.
Proof.
  intros Hc Hp. destruct (crc_be_fold p crc Hc Hp) as [E Hr].
  unfold crc32_be. pose proof (crc_phases crc32table_be p addr (swab32 crc) Hp) as Ep.
  rewrite E in Ep. destruct (crc_align _ _ _ _ _) as [c1 p1].
  destruct (crc_words _ _ _ _) as [c2 p2]. rewrite Ep.
  by apply swab32_involutive.
Qed.

Lemma crc32_be_correct_witness :
  crc32_be true 5 2 [0x31; 0x32; 0x33; 0x34; 0x35; 0x36] =
  crc32_be_bitwise 5 [0x31; 0x32; 0x33; 0x34; 0x35; 0x36].
Proof. apply crc32_be_correct; [lia | repeat constructor; lia]. Defined.

(** ** Bit reversal *)

(** Every entry of the table holds the reversed bits of its index. *)
Lemma byte_rev_entries i k :
  0 <= i < 256 -> 0 <= k < 8 ->
  Z.testbit (tabget byte_rev_table i) k = Z.testbit i (7 - k).
Proof.
  intros Hi Hk.
  pose proof (below_256 (fun i => forallb (fun k =>
    Bool.eqb (Z.testbit (tabget byte_rev_table i) k) (Z.testbit i (7 - k)))
    [0; 1; 2; 3; 4; 5; 6; 7]) ltac:(vm_compute; reflexivity) i Hi) as H.
  cbv beta in H. rewrite forallb_forall in H. apply eqb_prop, H. simpl. lia.
Qed.

Lemma byte_rev_range i : 0 <= i < 256 -> 0 <= tabget byte_rev_table i < 2 ^ 8.
Proof.
  intros Hi.
  pose proof (below_256 (fun i => (0 <=? tabget byte_rev_table i) &&
    (tabget byte_rev_table i <? 2 ^ 8)) ltac:(vm_compute; reflexivity) i Hi) as H.
  cbv beta in H. lia.
Qed.

Lemma bitrev8_spec x n :
  0 <= x < 2 ^ 8 -> 0 <= n ->
  Z.testbit (bitrev8 x) n = (n <? 8) && Z.testbit x (7 - n).
Proof.
  intros Hx Hn. unfold bitrev8. rewrite u8_small by assumption.
  destruct (Z.ltb_spec n 8); cbn [andb].
  - apply byte_rev_entries; lia.
  - apply (testbit_high 8); [apply byte_rev_range|]; lia.
Qed.

Lemma bitrev8_range x : 0 <= bitrev8 x < 2 ^ 8.
Proof. apply byte_rev_range. exact (u8_range x). Qed.

(** Combining two half-words: reverse each half and exchange them. *)
Lemma swap_halves_spec w (rev : Z -> Z) x n :
  0 < w -> 0 <= x < 2 ^ (2 * w) -> 0 <= n ->
  (forall y m, 0 <= y < 2 ^ w -> 0 <= m ->
     Z.testbit (rev y) m = (m <? w) && Z.testbit y (w - 1 - m)) ->
  Z.testbit (Z.lor (Z.shiftl (rev (Z.land x (Z.ones w))) w) (rev (Z.shiftr x w))) n =
  (n <? 2 * w) && Z.testbit x (2 * w - 1 - n).
Proof.
  intros Hw Hx Hn Hrev.
  assert (0 <= Z.land x (Z.ones w) < 2 ^ w) as Hlo
    by (rewrite Z.land_ones by lia; apply Z.mod_pos_bound; lia).
  assert (0 <= Z.shiftr x w < 2 ^ w) as Hhi.
  { rewrite Z.shiftr_div_pow2 by lia. split; [apply Z.div_pos; lia|].
    apply Z.div_lt_upper_bound; [lia|]. rewrite <- Z.pow_add_r by lia.
    replace (w + w) with (2 * w) by lia. lia. }
  rewrite Z.lor_spec, testbit_shiftl, (Hrev _ _ Hhi Hn) by assumption.
  destruct (Z.leb_spec w n); cbn [andb].
  - rewrite (Hrev _ _ Hlo) by lia. destruct (Z.ltb_spec n w); [lia|].
    destruct (Z.ltb_spec (n - w) w), (Z.ltb_spec n (2 * w)); try lia; cbn [andb orb];
      rewrite ?orb_false_r.
    rewrite Z.land_spec, testbit_ones by lia.
    destruct (Z.ltb_spec (w - 1 - (n - w)) w); [|lia].
    rewrite andb_true_r. f_equal. lia.
  - destruct (Z.ltb_spec n w), (Z.ltb_spec n (2 * w)); try lia. cbn [andb orb].
    rewrite Z.shiftr_spec by lia. f_equal. lia.
Qed.

Lemma bitrev16_spec x n :
  0 <= x < 2 ^ 16 -> 0 <= n ->
  Z.testbit (bitrev16 x) n = (n <? 16) && Z.testbit x (15 - n).
Proof.
  intros Hx Hn. unfold bitrev16. rewrite u16_small.
  - exact (swap_halves_spec 8 bitrev8 x n ltac:(lia) Hx Hn bitrev8_spec).
  - apply lor_range; [lia| |].
    + pose proof (bitrev8_range (Z.land x 0xff)).
      rewrite Z.shiftl_mul_pow2 by lia. lia.
    + pose proof (bitrev8_range (Z.shiftr x 8)). lia.
Qed.

Lemma bitrev16_range x : 0 <= bitrev16 x < 2 ^ 16.
Proof. apply u16_range. Qed.

Lemma bitrev32_spec x n :
  0 <= x < 2 ^ 32 -> 0 <= n ->
  Z.testbit (bitrev32 x) n = (n <? 32) && Z.testbit x (31 - n).
Proof.
  intros Hx Hn. unfold bitrev32. rewrite u32_small.
  - exact (swap_halves_spec 16 bitrev16 x n ltac:(lia) Hx Hn bitrev16_spec).
  - apply lor_range; [lia| |].
    + pose proof (bitrev16_range (Z.land x 0xffff)).
      rewrite Z.shiftl_mul_pow2 by lia. lia.
    + pose proof (bitrev16_range (Z.shiftr x 16)). lia.
Qed.

(** the table-driven [bitrev32] reverses the 32 bits of a word: bit [n] of the
    result is bit [31 - n] of the argument, and reversing twice is the identity. *)
Theorem bitrev32_correct x :
  0 <= x < 2 ^ 32 ->
  (forall n, 0 <= n < 32 -> Z.testbit (bitrev32 x) n = Z.testbit x (31 - n)) /\
  bitrev32 (bitrev32 x) = x.
Proof.
  intros Hx. split.
  - intros n Hn. rewrite bitrev32_spec by lia. destruct (Z.ltb_spec n 32); [done|lia].
  - assert (0 <= bitrev32 x < 2 ^ 32) as Hr by apply u32_range.
    apply Z.bits_inj'. intros n Hn. rewrite (bitrev32_spec _ n Hr Hn).
    destruct (Z.ltb_spec n 32); cbn [andb].
    + rewrite bitrev32_spec by lia. destruct (Z.ltb_spec (31 - n) 32); [|lia].
      cbn [andb]. f_equal. lia.
    + symmetry. apply (testbit_high 32); lia.
Qed.

Lemma bitrev32_correct_witness :
  (forall n, 0 <= n < 32 ->
     Z.testbit (bitrev32 0xdeadbeef) n = Z.testbit 0xdeadbeef (31 - n)) /\
  bitrev32 (bitrev32 0xdeadbeef) = 0xdeadbeef.
Proof. apply (bitrev32_correct 0xdeadbeef). lia. Defined.

(** when [__LITTLE_ENDIAN] is not defined, the same source on a little-endian
    processor does not compute the CRC: the Ethernet hash of the multicast
    address 01:00:5e:00:00:01 differs from the one of the bitwise definition. *)
Theorem crc32_le_needs_endian_macro :
  let mac := [0x01; 0x00; 0x5e; 0x00; 0x00; 0x01] in
  crc32_le false (2 ^ 32 - 1) 0 mac <> crc32_le_bitwise (2 ^ 32 - 1) mac /\
  Z.shiftr (ether_crc false 0 mac) 26 <> Z.shiftr (ether_crc true 0 mac) 26.
Proof. vm_compute. split; discriminate. Qed.

(** C30: on a little-endian processor the word-at-a-time [crc32_le] equals the bitwise
    definition of the CRC for every seed, alignment and buffer if, and only if, the symbol
    [__LITTLE_ENDIAN] is defined when it is compiled.  No file of the build defines it. *)
Theorem crc32_le_is_crc (le : bool) :
  le = true <->
  forall crc addr p, Forall (fun x => 0 <= x < 2 ^ 8) p -> crc32_le le crc addr p = crc32_le_bitwise crc p.
Proof.
  split.
  - intros ->. exact crc32_le_correct.
  - intros H. destruct le; [done|]. destruct (proj1 crc32_le_needs_endian_macro).
    apply H. repeat constructor; lia.
Qed.
