(* ===== verification/TaskQueue.v ===== *)
(** * Task control blocks and task queues

    [quest_tss] of [include/kernel.h], the intrusive queues of [sched/sched.c]
    ([queue_append], [queue_remove_head]) and the run-queue walks of
    [sched/vcpu.c] ([vcpu_in_runqueue], [vcpu_remove_from_runqueue]).

    A queue is a 16-bit selector, 0 when empty; each task names its successor in
    its own [next] field, so a task is on at most one queue.  [lookup_TSS] reads
    the table of control blocks, keyed by selector.  A routine that takes
    [uint16 *queue] takes the selector stored there and returns the new one.

    [chain tasks q l] says that the queue headed by [q] holds the tasks [l], in
    order.  The theorems relate the pointer code to the operations on [l]. *)

From Stdlib Require Import ZArith Lia.
From S2P Require Import Prelude.
From stdpp Require Import base gmap sets fin_sets numbers list.
Local Open Scope Z_scope.

(** ** Data *)

Record semaphore := mkSem {
  sem_s : Z;
  sem_max : Z;
  sem_lock : Z;
  sem_waitqueue : Z
}.

Record quest_tss := mkTss {
  tss_ESP : Z;
  tss_EBP : Z;
  tss_initial_EIP : Z;
  tss_CR3 : Z;
  tss_EFLAGS : Z;
  tss_Msem : semaphore;
  tss_M : list Z;
  tss_next : Z;
  tss_waitqueue : Z;
  tss_busy : bool;
  tss_priority : Z;
  tss_time : Z;
  tss_cpu : Z
}.

Definition set_next (n : Z) (t : quest_tss) : quest_tss :=
  mkTss (tss_ESP t) (tss_EBP t) (tss_initial_EIP t) (tss_CR3 t) (tss_EFLAGS t)
    (tss_Msem t) (tss_M t) n (tss_waitqueue t) (tss_busy t) (tss_priority t)
    (tss_time t) (tss_cpu t).

Definition set_time (x : Z) (t : quest_tss) : quest_tss :=
  mkTss (tss_ESP t) (tss_EBP t) (tss_initial_EIP t) (tss_CR3 t) (tss_EFLAGS t)
    (tss_Msem t) (tss_M t) (tss_next t) (tss_waitqueue t) (tss_busy t)
    (tss_priority t) x (tss_cpu t).

Definition set_cpu (c : Z) (t : quest_tss) : quest_tss :=
  mkTss (tss_ESP t) (tss_EBP t) (tss_initial_EIP t) (tss_CR3 t) (tss_EFLAGS t)
    (tss_Msem t) (tss_M t) (tss_next t) (tss_waitqueue t) (tss_busy t)
    (tss_priority t) (tss_time t) c.

Definition set_M (m : list Z) (t : quest_tss) : quest_tss :=
  mkTss (tss_ESP t) (tss_EBP t) (tss_initial_EIP t) (tss_CR3 t) (tss_EFLAGS t)
    (tss_Msem t) m (tss_next t) (tss_waitqueue t) (tss_busy t)
    (tss_priority t) (tss_time t) (tss_cpu t).

Definition set_Msem (s : semaphore) (t : quest_tss) : quest_tss :=
  mkTss (tss_ESP t) (tss_EBP t) (tss_initial_EIP t) (tss_CR3 t) (tss_EFLAGS t)
    s (tss_M t) (tss_next t) (tss_waitqueue t) (tss_busy t)
    (tss_priority t) (tss_time t) (tss_cpu t).

(** A freshly cleared control block. *)
Definition zero_tss : quest_tss :=
  mkTss 0 0 0 0 0 (mkSem 0 0 0 0) (replicate 32 0) 0 0 false 0 0 0.

(** ** Operations *)

Section ops.
Implicit Types tasks : gmap Z quest_tss.

Definition lookup_TSS tasks (selector : Z) : outcome quest_tss :=
  of_option NullDeref (tasks !! selector).

(** No queue is longer than the table of control blocks. *)
Definition queue_fuel tasks : nat := S (size tasks).

(** The [for] loop of [queue_append]: [Some tail] to append after [tail],
    [None] when the selector is already on the queue. *)
Definition queue_tail tasks (queue selector : Z) : outcome (option Z) :=
  loop (queue_fuel tasks) (fun cur =>
    let? tssp := lookup_TSS tasks cur in
    if tss_next tssp =? 0 then Ok (Break (Some cur))
    else if tss_next tssp =? selector then Ok (Break None)
    else Ok (Continue (tss_next tssp))) queue.

Definition queue_append tasks (queue selector : Z)
  : outcome (Z * gmap Z quest_tss) :=
  if queue =? 0 then
    let? tssp := lookup_TSS tasks selector in
    Ok (selector, <[selector := set_next 0 tssp]> tasks)
  else if queue =? selector then Ok (queue, tasks)
  else
    let? r := queue_tail tasks queue selector in
    match r with
    | None => Ok (queue, tasks)
    | Some tail =>
        let? last := lookup_TSS tasks tail in
        let tasks := <[tail := set_next selector last]> tasks in
        let? tssp := lookup_TSS tasks selector in
        Ok (queue, <[selector := set_next 0 tssp]> tasks)
    end.

(** The removed head, 0 when there is none, and the new queue. *)
Definition queue_remove_head tasks (queue : Z) : outcome (Z * Z) :=
  if queue =? 0 then Ok (0, queue)
  else
    let? tssp := lookup_TSS tasks queue in
    Ok (queue, tss_next tssp).

Definition vcpu_in_runqueue tasks (runqueue task : Z) : outcome bool :=
  loop (queue_fuel tasks) (fun i =>
    if i =? 0 then Ok (Break (task =? i))
    else if task =? i then Ok (Break true)
    else
      let? t := lookup_TSS tasks i in
      Ok (Continue (tss_next t))) runqueue.

(** The walk of [vcpu_remove_from_runqueue] holds the address [q] of a selector:
    of the run queue itself ([None]) or of the [next] field of a task. *)
Definition vcpu_remove_from_runqueue tasks (runqueue task : Z)
  : outcome (Z * gmap Z quest_tss) :=
  loop (queue_fuel tasks) (fun '(q, i) =>
    if i =? 0 then Ok (Break (runqueue, tasks))
    else
      let? t := lookup_TSS tasks i in
      if i =? task then
        match q with
        | None => Ok (Break (tss_next t, tasks))
        | Some p =>
            let? tp := lookup_TSS tasks p in
            Ok (Break (runqueue, <[p := set_next (tss_next t) tp]> tasks))
        end
      else Ok (Continue (Some i, tss_next t))) (None, runqueue).
End ops.

(** ** Representation *)

Fixpoint chain (tasks : gmap Z quest_tss) (h : Z) (l : list Z) : Prop :=
  match l with
  | [] => h = 0
  | x :: l' =>
      h = x /\ x <> 0 /\ exists t, tasks !! x = Some t /\ chain tasks (tss_next t) l'
  end.

(** Two tables that agree on everything but the [next] links. *)
Definition same_but_next (tasks tasks' : gmap Z quest_tss) : Prop :=
  forall s, set_next 0 <$> tasks' !! s = set_next 0 <$> tasks !! s.

Lemma same_but_next_dom tasks tasks' x :
  same_but_next tasks tasks' -> is_Some (tasks !! x) -> is_Some (tasks' !! x).
Proof. intros H [t Ht]. specialize (H x). rewrite Ht in H. by destruct (tasks' !! x). Qed.

(** What the queues promise, as operations on lists. *)
Definition append_spec (l : list Z) (x : Z) : list Z :=
  if decide (x ∈ l) then l else l ++ [x].

Section chain_lemmas.
Implicit Types tasks : gmap Z quest_tss.

Lemma chain_det tasks h l1 l2 : chain tasks h l1 -> chain tasks h l2 -> l1 = l2.
Proof.
  revert h l2. induction l1 as [|x l1 IH]; intros h [|y l2]; simpl.
  - done.
  - naive_solver.
  - naive_solver.
  - intros (-> & Hx & t & Ht & H1) (-> & _ & t' & Ht' & H2).
    rewrite Ht in Ht'. injection Ht' as <-. f_equal. eauto.
Qed.

Lemma chain_app tasks h l1 l2 :
  chain tasks h (l1 ++ l2) -> exists h', chain tasks h' l2.
Proof.
  revert h. induction l1 as [|x l1 IH]; intros h; simpl; [eauto|].
  intros (_ & _ & t & _ & H). eauto.
Qed.

Lemma chain_suffix tasks h x l1 l2 :
  chain tasks h (l1 ++ x :: l2) -> chain tasks x (x :: l2).
Proof.
  intros [h' H]%chain_app. destruct H as (-> & H). split; [done|exact H].
Qed.

Lemma chain_NoDup tasks h l : chain tasks h l -> NoDup l.
Proof.
  revert h. induction l as [|x l IH]; intros h H; [constructor|].
  destruct H as (-> & Hx & t & Ht & H). constructor; [|eauto].
  intros (l1 & l2 & ->)%list_elem_of_split.
  pose proof (chain_suffix _ _ _ _ _ H) as H2.
  assert (chain tasks x (x :: l1 ++ x :: l2)) as H1 by (simpl; eauto).
  pose proof (chain_det _ _ _ _ H1 H2) as E.
  apply (f_equal length) in E. simpl in E. rewrite length_app in E. simpl in E. lia.
Qed.

Lemma chain_nonzero tasks h l x : chain tasks h l -> x ∈ l -> x <> 0.
Proof.
  revert h. induction l as [|y l IH]; intros h H Hx; [set_solver|].
  destruct H as (-> & Hy & t & Ht & H).
  apply elem_of_cons in Hx as [->|Hx]; eauto.
Qed.

Lemma chain_lookup tasks h l x : chain tasks h l -> x ∈ l -> is_Some (tasks !! x).
Proof.
  revert h. induction l as [|y l IH]; intros h H Hx; [set_solver|].
  destruct H as (-> & Hy & t & Ht & H).
  apply elem_of_cons in Hx as [->|Hx]; eauto.
Qed.

Lemma chain_length tasks h l : chain tasks h l -> (length l <= size tasks)%nat.
Proof.
  intros H. pose proof (chain_NoDup _ _ _ H) as Hnd.
  rewrite <- (size_list_to_set (C:=gset Z) l Hnd), <- size_dom.
  apply subseteq_size. intros x Hx%elem_of_list_to_set.
  apply elem_of_dom. eapply chain_lookup; eauto.
Qed.

(** A change outside the queue does not change the queue. *)
Lemma chain_frame tasks tasks' h l :
  (forall x, x ∈ l -> tasks' !! x = tasks !! x) ->
  chain tasks h l -> chain tasks' h l.
Proof.
  revert h. induction l as [|x l IH]; intros h Heq; simpl; [done|].
  intros (-> & Hx & t & Ht & H). split; [done|]. split; [done|].
  exists t. split.
  - rewrite Heq; [done|set_solver].
  - apply IH; [|done]. set_solver.
Qed.

Lemma chain_insert_ne tasks h l x t :
  x ∉ l -> chain tasks h l -> chain (<[x := t]> tasks) h l.
Proof.
  intros Hx. apply chain_frame. intros y Hy. apply lookup_insert_ne. set_solver.
Qed.

(** Following links that were not rewritten only depends on [next]. *)
Lemma chain_next_eq tasks tasks' h l :
  (forall x, x ∈ l -> tss_next <$> tasks' !! x = tss_next <$> tasks !! x) ->
  chain tasks h l -> chain tasks' h l.
Proof.
  revert h. induction l as [|x l IH]; intros h Heq; simpl; [done|].
  intros (-> & Hx & t & Ht & H). split; [done|]. split; [done|].
  pose proof (Heq x ltac:(set_solver)) as Ex. rewrite Ht in Ex. simpl in Ex.
  destruct (tasks' !! x) as [t'|]; [|discriminate]. simpl in Ex.
  injection Ex as Ex. exists t'. split; [done|]. rewrite Ex.
  apply IH; [|done]. set_solver.
Qed.
End chain_lemmas.

(** ** The operations on a represented queue *)

Section op_lemmas.
Implicit Types tasks : gmap Z quest_tss.

Lemma queue_tail_loop tasks sel fuel x l :
  sel <> 0 -> chain tasks x (x :: l) -> (length l < fuel)%nat ->
  loop fuel (fun cur =>
    let? tssp := lookup_TSS tasks cur in
    if tss_next tssp =? 0 then Ok (Break (Some cur))
    else if tss_next tssp =? sel then Ok (Break None)
    else Ok (Continue (tss_next tssp))) x =
  Ok (if decide (sel ∈ l) then None else list.last (x :: l)).
Proof.
  intros Hsel. revert x l. induction fuel as [|fuel IH]; intros x l H Hlen; [lia|].
  destruct H as (_ & Hx & t & Ht & H). cbn [loop].
  unfold lookup_TSS at 1. rewrite Ht. cbn [of_option obind].
  destruct l as [|y l].
  - simpl in H. rewrite H. reflexivity.
  - destruct H as (Hn & Hy & t' & Ht' & H). rewrite Hn.
    destruct (Z.eqb_spec y 0) as [|_]; [done|].
    destruct (Z.eqb_spec y sel) as [->|Hne]; cbn [obind].
    + rewrite decide_True by set_solver. reflexivity.
    + rewrite (IH y l); [|simpl; eauto|simpl in Hlen; lia]. f_equal.
      destruct (decide (sel ∈ l)), (decide (sel ∈ y :: l)); set_solver.
Qed.

Lemma chain_snoc tasks h l y ty sel ts :
  chain tasks h l -> list.last l = Some y -> tasks !! y = Some ty ->
  sel ∉ l -> sel <> 0 ->
  chain (<[sel := set_next 0 ts]> (<[y := set_next sel ty]> tasks)) h (l ++ [sel]).
Proof.
  intros H Hlast Hy Hsel Hs0.
  assert (sel <> y).
  { apply last_Some in Hlast as [l' ->]. set_solver. }
  pose proof (chain_NoDup _ _ _ H) as Hnd.
  revert h H Hnd. induction l as [|x l IH]; intros h H' Hnd; [done|].
  destruct H' as (-> & Hx & t & Ht & H'). simpl. split; [done|]. split; [done|].
  apply NoDup_cons in Hnd as [Hxl Hnd].
  destruct l as [|z l].
  - simpl in Hlast. injection Hlast as ->. exists (set_next sel ty). split.
    + rewrite lookup_insert_ne, lookup_insert_eq; done.
    + simpl. split; [done|]. split; [done|].
      exists (set_next 0 ts). rewrite lookup_insert_eq. done.
  - exists t. assert (y ∈ z :: l) as Hyz.
    { change (list.last (z :: l) = Some y) in Hlast.
      apply last_Some in Hlast as [l' ->]. set_solver. }
    split.
    + rewrite !lookup_insert_ne; [done| |]; set_solver.
    + apply IH; [exact Hlast|set_solver|done|done].
Qed.

(** [queue_append] on a queue that holds [l]. *)
Lemma queue_append_chain tasks q l sel ts :
  chain tasks q l -> sel <> 0 -> tasks !! sel = Some ts ->
  exists q' tasks',
    queue_append tasks q sel = Ok (q', tasks') /\
    chain tasks' q' (append_spec l sel) /\
    same_but_next tasks tasks' /\
    (forall s, s ∉ sel :: l -> tasks' !! s = tasks !! s) /\
    (sel ∈ l -> q' = q /\ tasks' = tasks).
Proof.
  intros H Hs0 Hts. unfold queue_append, append_spec.
  destruct (Z.eqb_spec q 0) as [->|Hq].
  - assert (l = []) as -> by (destruct l; [done|]; destruct H as (<- & ? & _); done).
    unfold lookup_TSS. rewrite Hts. cbn [of_option obind].
    exists sel, (<[sel := set_next 0 ts]> tasks). split; [done|]. simpl.
    split; [|split; [|split; [|set_solver]]].
    + split; [done|]. split; [done|]. exists (set_next 0 ts).
      by rewrite lookup_insert_eq.
    + intros s. destruct (decide (s = sel)) as [->|Hne].
      * rewrite lookup_insert_eq, Hts. done.
      * by rewrite lookup_insert_ne.
    + intros s Hs. rewrite lookup_insert_ne; [done|set_solver].
  - destruct l as [|x l]; [done|]. pose proof H as Hc.
    destruct H as (-> & Hx & t & Ht & H).
    destruct (Z.eqb_spec x sel) as [->|Hne].
    { rewrite decide_True by set_solver. exists sel, tasks.
      split; [done|]. split; [exact Hc|]. split; [intros s; done|]. done. }
    unfold queue_tail. rewrite (queue_tail_loop _ _ _ x l Hs0 Hc).
    2:{ apply chain_length in Hc. simpl in Hc. unfold queue_fuel. lia. }
    destruct (decide (sel ∈ l)) as [Hin|Hnin]; cbn [obind].
    { rewrite decide_True by set_solver. exists x, tasks.
      split; [done|]. split; [exact Hc|]. split; [intros s; done|]. done. }
    rewrite decide_False by set_solver.
    destruct (list.last (x :: l)) as [y|] eqn:Hlast; [|by apply last_None in Hlast].
    assert (y ∈ x :: l) as Hyl.
    { apply last_Some in Hlast as [l' E]. rewrite E. set_solver. }
    destruct (chain_lookup _ _ _ _ Hc Hyl) as [ty Hty].
    assert (sel <> y) by set_solver.
    unfold lookup_TSS at 1. rewrite Hty. cbn [of_option obind].
    unfold lookup_TSS. rewrite lookup_insert_ne, Hts by done. cbn [of_option obind].
    exists x, (<[sel := set_next 0 ts]> (<[y := set_next sel ty]> tasks)).
    split; [done|]. split; [|split; [|split; [|set_solver]]].
    + apply chain_snoc; [done|done|done|set_solver|done].
    + intros s. destruct (decide (s = sel)) as [->|Hs1].
      { rewrite lookup_insert_eq, Hts. done. }
      rewrite lookup_insert_ne by done. destruct (decide (s = y)) as [->|Hs2].
      { rewrite lookup_insert_eq, Hty. done. }
      by rewrite lookup_insert_ne.
    + intros s Hs. rewrite !lookup_insert_ne; set_solver.
Qed.

Lemma queue_remove_head_chain tasks q l :
  chain tasks q l ->
  exists q', queue_remove_head tasks q = Ok (default 0 (hd_error l), q') /\
             chain tasks q' (tail l).
Proof.
  intros H. unfold queue_remove_head. destruct l as [|x l].
  - rewrite H. exists 0. done.
  - destruct H as (-> & Hx & t & Ht & H). destruct (Z.eqb_spec x 0); [done|].
    unfold lookup_TSS. rewrite Ht. exists (tss_next t). done.
Qed.

Lemma vcpu_in_runqueue_chain tasks q l task :
  chain tasks q l -> task <> 0 ->
  vcpu_in_runqueue tasks q task = Ok (bool_decide (task ∈ l)).
Proof.
  intros H Ht0. unfold vcpu_in_runqueue, queue_fuel.
  assert (length l < S (size tasks))%nat as Hlen
    by (apply chain_length in H; lia).
  generalize dependent (S (size tasks)). intros fuel Hlen.
  revert q l H Hlen. induction fuel as [|fuel IH]; intros q l H Hlen; [lia|].
  cbn [loop]. destruct l as [|x l].
  - simpl in H. subst q. cbn. rewrite bool_decide_false by set_solver.
    destruct (Z.eqb_spec task 0); done.
  - destruct H as (-> & Hx & t & Ht & H). destruct (Z.eqb_spec x 0); [done|].
    destruct (Z.eqb_spec task x) as [->|Hne].
    + cbn. rewrite bool_decide_true by set_solver. done.
    + unfold lookup_TSS at 1. rewrite Ht. cbn [of_option obind].
      rewrite (IH _ _ H) by (simpl in Hlen; lia). f_equal.
      apply bool_decide_ext. set_solver.
Qed.
End op_lemmas.

(** ** Unlinking a task *)

(** What [vcpu_remove_from_runqueue] does to the list of tasks. *)
Definition remove_spec (l : list Z) (x : Z) : list Z :=
  filter (fun y => y <> x) l.

Section unlink.
Implicit Types tasks : gmap Z quest_tss.

Lemma remove_spec_notin l x : x ∉ l -> remove_spec l x = l.
Proof.
  unfold remove_spec. induction l as [|y l IH]; intros Hx; [done|].
  rewrite filter_cons_True, IH; [done| |]; set_solver.
Qed.

Lemma remove_spec_split l1 x l2 :
  NoDup (l1 ++ x :: l2) -> remove_spec (l1 ++ x :: l2) x = l1 ++ l2.
Proof.
  intros Hnd. pose proof Hnd as Hnd'. apply NoDup_app in Hnd' as (_ & Hd & Hn2).
  apply NoDup_cons in Hn2 as [Hx2 _]. unfold remove_spec. rewrite filter_app.
  rewrite filter_cons_False by naive_solver.
  fold (remove_spec l1 x) (remove_spec l2 x). rewrite !remove_spec_notin; set_solver.
Qed.

Lemma chain_unlink tasks h l1 x l2 p tp tx :
  chain tasks h (l1 ++ x :: l2) -> list.last l1 = Some p ->
  tasks !! p = Some tp -> tasks !! x = Some tx ->
  chain (<[p := set_next (tss_next tx) tp]> tasks) h (l1 ++ l2).
Proof.
  intros H Hlast Hp Hx. pose proof (chain_NoDup _ _ _ H) as Hnd.
  revert h H Hnd. induction l1 as [|y l1 IH]; intros h H Hnd; [done|].
  destruct H as (-> & Hy & t & Ht & H). simpl in Hnd.
  apply NoDup_cons in Hnd as [Hyl Hnd]. split; [done|]. split; [done|].
  destruct l1 as [|z l1].
  - injection Hlast as ->. exists (set_next (tss_next tx) tp).
    rewrite lookup_insert_eq. split; [done|]. simpl.
    destruct H as (_ & _ & tx' & Htx & H). rewrite Hx in Htx. injection Htx as <-.
    apply chain_insert_ne; [set_solver|done].
  - assert (p ∈ z :: l1).
    { change (list.last (z :: l1) = Some p) in Hlast.
      apply last_Some in Hlast as [l' ->]. set_solver. }
    exists t. rewrite lookup_insert_ne by set_solver. split; [done|]. apply IH; done.
Qed.

Lemma remove_runqueue_loop tasks rq task fuel l1 l2 :
  task <> 0 -> chain tasks rq (l1 ++ l2) -> task ∉ l1 ->
  (length l2 < fuel)%nat ->
  exists rq' tasks',
    loop fuel (fun '(q, i) =>
      if i =? 0 then Ok (Break (rq, tasks))
      else
        let? t := lookup_TSS tasks i in
        if i =? task then
          match q with
          | None => Ok (Break (tss_next t, tasks))
          | Some p =>
              let? tp := lookup_TSS tasks p in
              Ok (Break (rq, <[p := set_next (tss_next t) tp]> tasks))
          end
        else Ok (Continue (Some i, tss_next t)))
      (list.last l1, default 0 (hd_error l2)) = Ok (rq', tasks') /\
    chain tasks' rq' (remove_spec (l1 ++ l2) task) /\
    same_but_next tasks tasks' /\
    (forall s, s ∉ l1 ++ l2 -> tasks' !! s = tasks !! s).
Proof.
  intros Ht0. revert l1 l2. induction fuel as [|fuel IH]; intros l1 l2 H Hnin Hlen;
    [lia|].
  cbn [loop]. destruct l2 as [|i l2].
  { exists rq, tasks. rewrite remove_spec_notin by set_solver. done. }
  simpl hd_error. simpl default.
  destruct (chain_suffix _ _ _ _ _ H) as (_ & Hi & t & Ht & Hrest).
  destruct (Z.eqb_spec i 0); [done|].
  unfold lookup_TSS at 1. rewrite Ht. cbn [of_option obind].
  destruct (Z.eqb_spec i task) as [->|Hne].
  - rewrite remove_spec_split by (eapply chain_NoDup; eauto).
    destruct (list.last l1) as [p|] eqn:Hlast.
    + destruct (chain_lookup tasks rq (l1 ++ task :: l2) p H) as [tp Htp].
      { apply last_Some in Hlast as [l' ->]. set_solver. }
      unfold lookup_TSS at 1. rewrite Htp. cbn [of_option obind].
      eexists _, _. split; [done|]. split; [eapply chain_unlink; eauto|]. split.
      * intros s. destruct (decide (s = p)) as [->|Hs].
        { rewrite lookup_insert_eq, Htp. done. }
        by rewrite lookup_insert_ne.
      * intros s Hs. rewrite lookup_insert_ne; [done|].
        apply last_Some in Hlast as [l' ->]. set_solver.
    + apply last_None in Hlast as ->. cbn [obind].
      eexists _, _. split; [done|]. split; [exact Hrest|]. done.
  - cbn [obind]. specialize (IH (l1 ++ [i]) l2).
    rewrite last_snoc, <- app_assoc in IH. simpl in IH.
    replace (tss_next t) with (default 0 (hd_error l2)).
    + apply IH; [done|set_solver|simpl in Hlen; lia].
    + destruct l2 as [|j l2]; [by rewrite Hrest|]. destruct Hrest as (-> & _). done.
Qed.

Lemma vcpu_remove_from_runqueue_chain tasks rq l task :
  chain tasks rq l -> task <> 0 ->
  exists rq' tasks',
    vcpu_remove_from_runqueue tasks rq task = Ok (rq', tasks') /\
    chain tasks' rq' (remove_spec l task) /\
    same_but_next tasks tasks' /\
    (forall s, s ∉ l -> tasks' !! s = tasks !! s).
Proof.
  intros H Ht0. unfold vcpu_remove_from_runqueue, queue_fuel.
  pose proof (chain_length _ _ _ H).
  destruct (remove_runqueue_loop tasks rq task (S (size tasks)) [] l Ht0 H
    ltac:(set_solver) ltac:(lia)) as (rq' & tasks' & E & Hpost).
  exists rq', tasks'. split; [|exact Hpost]. rewrite <- E. f_equal. f_equal.
  destruct l as [|x l]; [by rewrite H|]. by destruct H as (-> & _).
Qed.
End unlink.

(** ** Properties *)

(** [queue_append] terminates on every well-formed queue, adds the task at the
    end unless it is already there (then nothing changes), writes no field but
    [next], and leaves every other well-formed queue as it was. *)
Theorem queue_append_refines tasks q l sel ts :
  chain tasks q l -> sel <> 0 -> tasks !! sel = Some ts ->
  exists q' tasks',
    queue_append tasks q sel = Ok (q', tasks') /\
    chain tasks' q' (append_spec l sel) /\
    same_but_next tasks tasks' /\
    (forall q2 l2, chain tasks q2 l2 -> sel ∉ l2 -> (forall x, x ∈ l -> x ∉ l2) ->
       chain tasks' q2 l2).
Proof.
  intros H Hs0 Hts.
  destruct (queue_append_chain tasks q l sel ts H Hs0 Hts)
    as (q' & tasks' & E & Hc & Hs & Hf & _).
  exists q', tasks'. split; [done|]. split; [done|]. split; [done|].
  intros q2 l2 H2 Hsel Hdisj. eapply chain_frame; [|exact H2].
  intros x Hx. apply Hf. set_solver.
Qed.

(** [vcpu_remove_from_runqueue] removes exactly the named task from the run
    queue, keeping the order of the others, after which [vcpu_in_runqueue] no
    longer finds it. *)
Theorem runqueue_remove_refines tasks rq l task :
  chain tasks rq l -> task <> 0 ->
  vcpu_in_runqueue tasks rq task = Ok (bool_decide (task ∈ l)) /\
  exists rq' tasks',
    vcpu_remove_from_runqueue tasks rq task = Ok (rq', tasks') /\
    chain tasks' rq' (remove_spec l task) /\
    same_but_next tasks tasks' /\
    vcpu_in_runqueue tasks' rq' task = Ok false.
Proof.
  intros H Ht0. split; [by apply vcpu_in_runqueue_chain|].
  destruct (vcpu_remove_from_runqueue_chain tasks rq l task H Ht0)
    as (rq' & tasks' & E & Hc & Hs & _).
  exists rq', tasks'. split; [done|]. split; [done|]. split; [done|].
  rewrite (vcpu_in_runqueue_chain _ _ _ _ Hc Ht0).
  rewrite bool_decide_false; [done|]. unfold remove_spec.
  rewrite list_elem_of_filter. naive_solver.
Qed.

(** Three tasks 0x28 -> 0x30 -> 0x38 and a task 0x40 that is on no queue. *)
Definition example_tasks : gmap Z quest_tss :=
  <[0x28 := set_next 0x30 zero_tss]> (<[0x30 := set_next 0x38 zero_tss]>
  (<[0x38 := zero_tss]> (<[0x40 := zero_tss]> ∅))).

Lemma example_chain : chain example_tasks 0x28 [0x28; 0x30; 0x38].
Proof.
  simpl. repeat (split; [done|]; split; [lia|]; eexists; split; [reflexivity|]). done.
Qed.

Lemma queue_append_refines_witness :
  exists q' tasks',
    queue_append example_tasks 0x28 0x40 = Ok (q', tasks') /\
    chain tasks' q' [0x28; 0x30; 0x38; 0x40].
Proof.
  destruct (queue_append_refines example_tasks 0x28 [0x28; 0x30; 0x38] 0x40 zero_tss)
    as (q' & tasks' & E & Hc & _).
  - exact example_chain.
  - lia.
  - reflexivity.
  - exists q', tasks'. split; [exact E | exact Hc].
Defined.

Lemma runqueue_remove_refines_witness :
  exists rq' tasks',
    vcpu_remove_from_runqueue example_tasks 0x28 0x30 = Ok (rq', tasks') /\
    chain tasks' rq' [0x28; 0x38].
Proof.
  destruct (runqueue_remove_refines example_tasks 0x28 [0x28; 0x30; 0x38] 0x30)
    as (_ & rq' & tasks' & E & Hc & _).
  - exact example_chain.
  - lia.
  - exists rq', tasks'. split; [exact E | exact Hc].
Defined.
