(* ===== verification/ReplQueue.v ===== *)
(** * The replenishment queue of a sporadic server

    [repl_queue], [repl_queue_pop] and [repl_queue_add] of [sched/vcpu.c]
    (types in [include/sched/vcpu.h]): a list of pending replenishments, sorted
    by time, whose nodes live in a fixed array of [MAX_REPL] slots.  A pointer to
    a node is its index; a slot is free when its time is 0.

    [rq_rep Q s] says that the queue holds the replenishments [s], each a pair of
    a time and an amount.  It is the interface the server code of [MainVcpu] is
    proved against: popping is [tail], adding is sorted insertion. *)

From Stdlib Require Import ZArith Lia.
From S2P Require Import Prelude.
From stdpp Require Import base numbers strings sorting sets list.
Local Open Scope Z_scope.

(** ** Data and operations *)

Record replenishment := mkRepl {
  r_t : Z;
  r_b : Z;
  r_next : option nat
}.

Definition MAX_REPL : Z := 32.

Record repl_queue := mkRQ {
  rq_array : list replenishment;
  rq_head : option nat;
  rq_size : Z
}.

(** A queue after the [memset] of [vcpu_init]. *)
Definition empty_repl_queue : repl_queue :=
  mkRQ (replicate 32 (mkRepl 0 0 None)) None 0.

Definition repl_get (arr : list replenishment) (i : nat) : outcome replenishment :=
  of_option OutOfBounds (arr !! i).

Definition repl_queue_pop (Q : repl_queue) : outcome repl_queue :=
  match rq_head Q with
  | None => Ok Q
  | Some h =>
      let? r := repl_get (rq_array Q) h in
      Ok (mkRQ (<[h := mkRepl 0 0 None]> (rq_array Q)) (r_next r)
               (u32 (rq_size Q - 1)))
  end.

(** The [for] loop of [repl_queue_add]: the first slot whose time is 0. *)
Fixpoint find_free (arr : list replenishment) (i : nat) : option nat :=
  match arr with
  | [] => None
  | r :: arr' => if r_t r =? 0 then Some i else find_free arr' (S i)
  end.

(** The [while] loop of [repl_queue_add]: the address of the pointer to rewrite
    ([None] for [Q->head], [Some p] for the [next] field of slot [p]) and the
    pointer stored there. *)
Definition find_insertion (Q : repl_queue) (t : Z) : outcome (option nat * option nat) :=
  loop (S (Z.to_nat MAX_REPL)) (fun '(loc, cur) =>
    match cur with
    | None => Ok (Break (loc, cur))
    | Some i =>
        let? r := repl_get (rq_array Q) i in
        if r_t r <? t then Ok (Continue (Some i, r_next r))
        else Ok (Break (loc, cur))
    end) (None, rq_head Q).

Definition repl_queue_add (Q : repl_queue) (b t : Z) : outcome repl_queue :=
  if rq_size Q <? MAX_REPL then
    match find_free (rq_array Q) 0 with
    | None => Err (Panic "Q->size < MAX_REPL but no free entry")
    | Some i =>
        let? '(loc, cur) := find_insertion Q t in
        let? r := repl_get (rq_array Q) i in
        let arr := <[i := mkRepl (r_t r) (r_b r) cur]> (rq_array Q) in
        let? '(hd, arr) :=
          match loc with
          | None => Ok (Some i, arr)
          | Some p =>
              let? rp := repl_get arr p in
              Ok (rq_head Q, <[p := mkRepl (r_t rp) (r_b rp) (Some i)]> arr)
          end in
        let? r := repl_get arr i in
        let arr := <[i := mkRepl t b (r_next r)]> arr in
        Ok (mkRQ arr hd (u32 (rq_size Q + 1)))
    end
  else Ok Q.

(** The accesses [Q.head->t], [Q.head->b], [Q.head->next->t] of the servers. *)
Definition head_repl (Q : repl_queue) : outcome replenishment :=
  match rq_head Q with
  | None => Err NullDeref
  | Some h => repl_get (rq_array Q) h
  end.

Definition head_next_t (Q : repl_queue) : outcome Z :=
  let? r := head_repl Q in
  match r_next r with
  | None => Err NullDeref
  | Some n => let? r' := repl_get (rq_array Q) n in Ok (r_t r')
  end.

Definition set_head (Q : repl_queue) (t b : Z) : outcome repl_queue :=
  match rq_head Q with
  | None => Err NullDeref
  | Some h =>
      let? r := repl_get (rq_array Q) h in
      Ok (mkRQ (<[h := mkRepl t b (r_next r)]> (rq_array Q)) (rq_head Q) (rq_size Q))
  end.

(** ** Abstract contents *)

(** A pending replenishment: time, amount. *)
Abbreviation repl := (Z * Z)%type.

(** Sorted insertion, before the first replenishment that is not earlier. *)
Fixpoint rinsert (e : repl) (s : list repl) : list repl :=
  match s with
  | [] => [e]
  | e' :: s' => if fst e' <? fst e then e' :: rinsert e s' else e :: s
  end.

(** The amount of budget a queue holds. *)
Definition budget (s : list repl) : Z := foldr (fun e acc => snd e + acc) 0 s.

(** Slots in queue order, each with its contents. *)
Fixpoint rchain (arr : list replenishment) (h : option nat) (l : list (nat * repl)) : Prop :=
  match l with
  | [] => h = None
  | (i, (t, b)) :: l' =>
      h = Some i /\ exists n, arr !! i = Some (mkRepl t b n) /\ rchain arr n l'
  end.

Record rq_ok (Q : repl_queue) (l : list (nat * repl)) : Prop := {
  rq_len : length (rq_array Q) = 32%nat;
  rq_chain : rchain (rq_array Q) (rq_head Q) l;
  rq_nodup : NoDup l.*1;
  rq_count : rq_size Q = Z.of_nat (length l);
  rq_live : Forall (fun e => fst (snd e) <> 0) l;
  rq_free : forall i r, rq_array Q !! i = Some r -> i ∉ l.*1 -> r_t r = 0
}.

Definition rq_rep (Q : repl_queue) (s : list repl) : Prop :=
  exists l, rq_ok Q l /\ s = l.*2.

(** ** Lemmas *)

Lemma rinsert_length e s : length (rinsert e s) = S (length s).
Proof.
  induction s as [|e' s IH]; simpl; [done|]. destruct (_ <? _); simpl; congruence.
Qed.

Lemma rinsert_perm e s : rinsert e s ≡ₚ e :: s.
Proof.
  induction s as [|e' s IH]; simpl; [done|]. destruct (_ <? _); [|done].
  rewrite IH. apply perm_swap.
Qed.

Lemma budget_perm s s' : s ≡ₚ s' -> budget s = budget s'.
Proof. induction 1; simpl; lia. Qed.

Lemma budget_rinsert e s : budget (rinsert e s) = snd e + budget s.
Proof. by rewrite (budget_perm _ _ (rinsert_perm e s)). Qed.

Lemma Forall_rinsert (P : repl -> Prop) e s : Forall P s -> P e -> Forall P (rinsert e s).
Proof. intros Hs He. rewrite rinsert_perm. by constructor. Qed.

(** Insertion keeps the times sorted. *)
Definition sorted (s : list repl) : Prop := StronglySorted (fun a b => fst a <= fst b) s.

Lemma sorted_rinsert e s : sorted s -> sorted (rinsert e s).
Proof.
  unfold sorted. induction s as [|e' s IH]; simpl; intros H.
  - repeat constructor.
  - apply StronglySorted_inv in H as [H1 H2]. destruct (Z.ltb_spec (fst e') (fst e)).
    + constructor; [by apply IH|]. apply Forall_rinsert; [done|]. lia.
    + constructor; [by constructor|]. constructor; [lia|].
      eapply Forall_impl; [exact H2|]. simpl. intros. lia.
Qed.

Lemma rchain_frame arr arr' h l :
  (forall i, i ∈ l.*1 -> arr' !! i = arr !! i) -> rchain arr h l -> rchain arr' h l.
Proof.
  revert h. induction l as [|[i [t b]] l IH]; intros h Heq; simpl; [done|].
  intros (-> & n & Hi & H). split; [done|]. exists n. split.
  - rewrite Heq; [done|]. set_solver.
  - apply IH; [|done]. set_solver.
Qed.

Lemma rchain_insert_ne arr h l i r :
  i ∉ l.*1 -> rchain arr h l -> rchain (<[i := r]> arr) h l.
Proof.
  intros Hi. apply rchain_frame. intros j Hj. apply list_lookup_insert_ne. set_solver.
Qed.

Lemma rq_ok_size Q l : rq_ok Q l -> (length l <= 32)%nat.
Proof.
  intros [Hlen Hc Hnd _ _ _]. rewrite <- (length_fmap fst l).
  assert (l.*1 ⊆ seq 0 (length (rq_array Q))) as Hsub.
  { clear Hnd. revert Hc. generalize (rq_head Q). induction l as [|[i [t b]] l IH];
      simpl; intros h H; [set_solver|].
    destruct H as (-> & n & Hi & H). apply lookup_lt_Some in Hi.
    intros j Hj. apply elem_of_cons in Hj as [->|Hj].
    - apply elem_of_seq. lia.
    - by apply (IH _ H). }
  rewrite <- Hlen, <- (length_seq (length (rq_array Q)) 0).
  by apply submseteq_length, NoDup_submseteq.
Qed.

Lemma rq_rep_empty : rq_rep empty_repl_queue [].
Proof.
  exists []. split; [|done]. split; try done; [constructor|].
  intros i r Hi _. by apply lookup_replicate_1 in Hi as [-> _].
Qed.

Lemma rq_rep_size Q s :
  rq_rep Q s -> rq_size Q = Z.of_nat (length s) /\ (length s <= 32)%nat.
Proof.
  intros (l & H & ->). rewrite length_fmap. split; [apply H|]. by eapply rq_ok_size.
Qed.

Lemma rq_rep_live Q s : rq_rep Q s -> Forall (fun e => fst e <> 0) s.
Proof. intros (l & H & ->). apply Forall_fmap. exact (rq_live _ _ H). Qed.

Lemma rq_rep_head Q t b s :
  rq_rep Q ((t, b) :: s) -> exists n, head_repl Q = Ok (mkRepl t b n).
Proof.
  intros (l & [_ Hc _ _ _ _] & E). destruct l as [|[i [t' b']] l]; [done|].
  simpl in E. injection E as -> -> ->. destruct Hc as (Hh & n & Hi & _).
  exists n. unfold head_repl, repl_get. rewrite Hh, Hi. done.
Qed.

Lemma rq_rep_nil_head Q : rq_rep Q [] -> rq_head Q = None.
Proof. intros (l & [_ Hc _ _ _ _] & E). destruct l; [exact Hc|done]. Qed.

Lemma rq_rep_next Q e t b s :
  rq_rep Q (e :: (t, b) :: s) -> head_next_t Q = Ok t.
Proof.
  intros (l & [_ Hc _ _ _ _] & E).
  destruct l as [|[i [t0 b0]] [|[j [t1 b1]] l]]; try done.
  simpl in E. injection E as _ -> -> ->.
  destruct Hc as (Hh & n & Hi & (-> & m & Hj & _)).
  unfold head_next_t, head_repl, repl_get. rewrite Hh, Hi. cbn [of_option obind r_next].
  by rewrite Hj.
Qed.

Lemma rq_rep_pop Q e s :
  rq_rep Q (e :: s) -> exists Q', repl_queue_pop Q = Ok Q' /\ rq_rep Q' s.
Proof.
  intros (l & [Hlen Hc Hnd Hcnt Hlive Hfree] & E).
  destruct l as [|[i [t b]] l]; [done|]. simpl in E. injection E as -> ->.
  destruct Hc as (Hh & n & Hi & Hc). simpl in Hnd.
  apply NoDup_cons in Hnd as [Hil Hnd].
  unfold repl_queue_pop, repl_get. rewrite Hh, Hi. cbn [of_option obind r_next].
  eexists. split; [done|]. exists l. split; [|done]. split; simpl.
  - by rewrite length_insert.
  - by apply rchain_insert_ne.
  - done.
  - rewrite Hcnt. simpl length. unfold u32. rewrite Z.mod_small; [lia|].
    assert (length ((i, (t, b)) :: l) <= 32)%nat.
    { apply (rq_ok_size Q). split; try done. simpl. eauto. by constructor. }
    simpl in *. lia.
  - by apply Forall_cons in Hlive as [_ Hlive].
  - intros j r Hj Hjl. destruct (decide (j = i)) as [->|Hne].
    + rewrite list_lookup_insert_eq in Hj by (apply lookup_lt_Some in Hi; done).
      by injection Hj as <-.
    + rewrite list_lookup_insert_ne in Hj by done. apply (Hfree j r Hj). set_solver.
Qed.

Lemma rq_rep_set_head Q e s t b :
  rq_rep Q (e :: s) -> t <> 0 ->
  exists Q', set_head Q t b = Ok Q' /\ rq_rep Q' ((t, b) :: s).
Proof.
  intros (l & [Hlen Hc Hnd Hcnt Hlive Hfree] & E) Ht.
  destruct l as [|[i [t0 b0]] l]; [done|]. simpl in E. injection E as -> ->.
  destruct Hc as (Hh & n & Hi & Hc). simpl in Hnd.
  pose proof Hnd as [Hil Hnd']%NoDup_cons.
  unfold set_head, repl_get. rewrite Hh, Hi. cbn [of_option obind r_next].
  eexists. split; [done|]. exists ((i, (t, b)) :: l). split; [|done].
  assert (i < length (rq_array Q))%nat by (apply lookup_lt_Some in Hi; done).
  split; simpl.
  - by rewrite length_insert.
  - split; [done|]. exists n. rewrite list_lookup_insert_eq by done.
    split; [done|]. by apply rchain_insert_ne.
  - done.
  - done.
  - apply Forall_cons in Hlive as [_ Hlive]. by constructor.
  - intros j r Hj Hjl. rewrite list_lookup_insert_ne in Hj by set_solver.
    apply (Hfree j r Hj). done.
Qed.

(** ** Adding *)

Lemma find_free_Some arr k i :
  find_free arr k = Some i ->
  exists j r, i = (k + j)%nat /\ arr !! j = Some r /\ r_t r = 0.
Proof.
  revert k. induction arr as [|r arr IH]; intros k; simpl; [done|].
  destruct (Z.eqb_spec (r_t r) 0) as [E|E].
  - intros [= <-]. exists 0%nat, r. split; [lia|]. done.
  - intros (j & r' & -> & Hj & Hr)%IH. exists (S j), r'. split; [lia|]. done.
Qed.

Lemma find_free_None arr k :
  find_free arr k = None -> Forall (fun r => r_t r <> 0) arr.
Proof.
  revert k. induction arr as [|r arr IH]; intros k; simpl; [constructor|].
  destruct (Z.eqb_spec (r_t r) 0); [done|]. intros H%IH. by constructor.
Qed.

Lemma rchain_lookup arr h l i t b :
  rchain arr h l -> (i, (t, b)) ∈ l -> exists n, arr !! i = Some (mkRepl t b n).
Proof.
  revert h. induction l as [|[j [t' b']] l IH]; intros h H Hin; [set_solver|].
  destruct H as (-> & n & Hj & H). apply elem_of_cons in Hin as [[= -> -> ->]|Hin]; eauto.
Qed.

Lemma find_free_spec Q l :
  rq_ok Q l -> (length l < 32)%nat ->
  exists i r, find_free (rq_array Q) 0 = Some i /\ rq_array Q !! i = Some r /\ i ∉ l.*1.
Proof.
  intros [Hlen Hc Hnd Hcnt Hlive Hfree] Hlt.
  destruct (find_free (rq_array Q) 0) as [i|] eqn:E.
  - apply find_free_Some in E as (j & r & -> & Hj & Hr). exists j, r.
    split; [done|]. split; [done|]. intros ([j' [t b]] & -> & Hin)%list_elem_of_fmap.
    destruct (rchain_lookup _ _ _ _ _ _ Hc Hin) as [n Hn]. simpl in Hj.
    rewrite Hn in Hj. injection Hj as <-. simpl in Hr.
    rewrite Forall_forall in Hlive. apply (Hlive _ Hin). done.
  - exfalso. apply find_free_None in E.
    assert (seq 0 (length (rq_array Q)) ⊆ l.*1) as Hsub.
    { intros i [_ Hi]%elem_of_seq. destruct (decide (i ∈ l.*1)) as [|Hni]; [done|].
      destruct (lookup_lt_is_Some_2 (rq_array Q) i) as [r Hr]; [lia|].
      rewrite Forall_lookup in E. exfalso. exact (E _ _ Hr (Hfree _ _ Hr Hni)). }
    apply NoDup_submseteq, submseteq_length in Hsub; [|apply NoDup_seq].
    rewrite length_seq, length_fmap in Hsub. lia.
Qed.

Lemma rchain_app arr h l1 l2 :
  rchain arr h (l1 ++ l2) ->
  exists h', rchain arr h' l2 /\ (l1 = [] -> h' = h) /\
    forall i t b, list.last l1 = Some (i, (t, b)) -> arr !! i = Some (mkRepl t b h').
Proof.
  revert h. induction l1 as [|[i [t b]] l1 IH]; intros h H; simpl in *.
  - exists h. done.
  - destruct H as (-> & n & Hi & H). destruct (IH _ H) as (h' & H2 & Hnil & Hlast).
    exists h'. split; [done|]. split; [done|]. intros i' t' b' E.
    destruct l1 as [|e l1].
    + injection E as <- <- <-. rewrite (Hnil eq_refl). done.
    + by apply Hlast.
Qed.

Lemma find_insertion_loop arr t fuel h l1 l2 h' :
  rchain arr h (l1 ++ l2) -> rchain arr h' l2 -> (length l2 < fuel)%nat ->
  exists l2a l2b h'', l2 = l2a ++ l2b /\
    loop fuel (fun '(loc, cur) =>
      match cur with
      | None => Ok (Break (loc, cur))
      | Some i =>
          let? r := repl_get arr i in
          if r_t r <? t then Ok (Continue (Some i, r_next r))
          else Ok (Break (loc, cur))
      end) (fst <$> list.last l1, h') = Ok (fst <$> list.last (l1 ++ l2a), h'') /\
    rchain arr h'' l2b /\
    (forall b, rinsert (t, b) l2.*2 = l2a.*2 ++ (t, b) :: l2b.*2).
Proof.
  revert l1 l2 h'. induction fuel as [|fuel IH]; intros l1 l2 h' H H' Hlen; [lia|].
  cbn [loop]. destruct l2 as [|[i [t0 b0]] l2].
  { simpl in H'. subst h'. exists [], [], None. rewrite (app_nil_r l1). repeat split. }
  destruct H' as (-> & n & Hi & H'). unfold repl_get at 1. rewrite Hi.
  cbn [of_option obind r_t r_next]. simpl. destruct (Z.ltb_spec t0 t).
  - destruct (IH (l1 ++ [(i, (t0, b0))]) l2 n) as (l2a & l2b & h'' & -> & E & Hc & Hr).
    + by rewrite <- app_assoc.
    + done.
    + simpl in Hlen. lia.
    + rewrite last_snoc in E. simpl in E. exists ((i, (t0, b0)) :: l2a), l2b, h''.
      split; [done|]. split.
      { cbn [obind]. rewrite E. by rewrite <- app_assoc. }
      split; [done|]. intros b. simpl. f_equal. apply Hr.
  - cbn [obind]. exists [], ((i, (t0, b0)) :: l2), (Some i). rewrite (app_nil_r l1).
    split; [done|]. split; [done|]. split; [simpl; eauto|]. done.
Qed.

(** Splicing the free slot [i] between [l1] and [l2]. *)
Lemma rchain_splice arr h l1 l2 h2 i r t b :
  rchain arr h (l1 ++ l2) -> rchain arr h2 l2 -> NoDup (l1 ++ l2).*1 ->
  arr !! i = Some r -> i ∉ (l1 ++ l2).*1 ->
  exists hd arr',
    (let arr1 := <[i := mkRepl (r_t r) (r_b r) h2]> arr in
     let? '(hd, arr2) :=
       match fst <$> list.last l1 with
       | None => Ok (Some i, arr1)
       | Some p =>
           let? rp := repl_get arr1 p in
           Ok (h, <[p := mkRepl (r_t rp) (r_b rp) (Some i)]> arr1)
       end in
     let? r := repl_get arr2 i in
     Ok (hd, <[i := mkRepl t b (r_next r)]> arr2)) = Ok (hd, arr') /\
    rchain arr' hd (l1 ++ (i, (t, b)) :: l2) /\ length arr' = length arr /\
    (forall j, j ∉ (l1 ++ (i, (t, b)) :: l2).*1 -> arr' !! j = arr !! j).
Proof.
  intros H H2 Hnd Hi Hni. assert (i < length arr)%nat by (eapply lookup_lt_Some; eauto).
  cbv zeta. destruct (list.last l1) as [[p [tp bp]]|] eqn:Hlast; simpl fmap.
  - assert ((p, (tp, bp)) ∈ l1) as Hpin.
    { apply last_Some in Hlast as [l' ->]. set_solver. }
    assert (p <> i) as Hpi.
    { intros ->. apply Hni. apply list_elem_of_fmap. exists (i, (tp, bp)).
      split; [done|]. set_solver. }
    destruct (rchain_lookup arr h (l1 ++ l2) p tp bp H ltac:(set_solver)) as [n Hp].
    assert (p < length arr)%nat by (eapply lookup_lt_Some; eauto).
    cbn [option_fmap option_map fmap fst]. unfold repl_get.
    rewrite list_lookup_insert_ne, Hp by done. cbn [of_option obind r_t r_b].
    rewrite list_lookup_insert_ne, list_lookup_insert_eq by done.
    cbn [of_option obind r_next]. eexists _, _. split; [done|].
    split; [|split; [by rewrite !length_insert|]].
    + revert h H. clear Hp Hpin. induction l1 as [|[j [tj bj]] l1 IH]; intros h H; [done|].
      destruct H as (-> & m & Hj & H). simpl in Hni, Hnd.
      apply NoDup_cons in Hnd as [Hjl Hnd]. split; [done|]. destruct l1 as [|e l1].
      * injection Hlast as -> -> ->. exists (Some i). split.
        { rewrite list_lookup_insert_ne, list_lookup_insert_eq by (rewrite ?length_insert; done).
          done. }
        simpl. split; [done|]. exists h2. split.
        { rewrite list_lookup_insert_eq by (rewrite !length_insert; done). done. }
        simpl in H. apply rchain_insert_ne; [set_solver|].
        apply rchain_insert_ne; [set_solver|]. by apply rchain_insert_ne; [set_solver|].
      * change (list.last (e :: l1) = Some (p, (tp, bp))) in Hlast.
        assert (p ∈ (e :: l1).*1) as Hpl.
        { apply last_Some in Hlast as [l' ->]. rewrite fmap_app. set_solver. }
        exists m. split.
        { rewrite !list_lookup_insert_ne; [done|..]; set_solver. }
        apply IH; [done|set_solver|done|done].
    + intros j Hj. rewrite fmap_app in Hj. assert (p ∈ l1.*1).
      { apply list_elem_of_fmap. exists (p, (tp, bp)). done. }
      rewrite !list_lookup_insert_ne; [done|..]; set_solver.
  - apply last_None in Hlast as ->. cbn [option_fmap option_map fmap]. unfold repl_get.
    cbn [obind]. rewrite list_lookup_insert_eq by done. cbn [of_option obind r_next].
    eexists _, _. split; [done|]. split; [|split; [by rewrite !length_insert|]].
    + simpl. split; [done|]. exists h2.
      rewrite list_lookup_insert_eq by (rewrite length_insert; done). split; [done|].
      apply rchain_insert_ne; [set_solver|]. by apply rchain_insert_ne; [set_solver|].
    + intros j Hj. rewrite !list_lookup_insert_ne; [done|..]; set_solver.
Qed.

Lemma rq_rep_add Q s b t :
  rq_rep Q s -> (length s < 32)%nat -> t <> 0 ->
  exists Q', repl_queue_add Q b t = Ok Q' /\ rq_rep Q' (rinsert (t, b) s).
Proof.
  intros (l & Hok & ->) Hlt Ht. rewrite length_fmap in Hlt.
  destruct (find_free_spec Q l Hok Hlt) as (i & r & Efree & Hi & Hni).
  destruct Hok as [Hlen Hc Hnd Hcnt Hlive Hfree].
  destruct (find_insertion_loop (rq_array Q) t (S (Z.to_nat MAX_REPL)) (rq_head Q)
    [] l (rq_head Q) Hc Hc ltac:(unfold MAX_REPL; lia))
    as (l1 & l2 & h2 & -> & Eins & Hc2 & Hrins).
  destruct (rchain_splice _ _ l1 l2 h2 i r t b Hc Hc2 Hnd Hi Hni)
    as (hd & arr' & Esplice & Hc' & Hlen' & Hframe).
  exists (mkRQ arr' hd (u32 (rq_size Q + 1))). split.
  - unfold repl_queue_add. rewrite Hcnt, Efree.
    destruct (Z.ltb_spec (Z.of_nat (length (l1 ++ l2))) MAX_REPL) as [_|Hge];
      [|unfold MAX_REPL in Hge; lia].
    unfold find_insertion. change (fst <$> list.last []) with (@None nat) in Eins.
    rewrite Eins. cbn [obind]. unfold repl_get at 1. rewrite Hi. cbn [of_option obind].
    change ([] ++ l1) with l1. cbv zeta in Esplice.
    destruct (fst <$> list.last l1) as [p|].
    + destruct (repl_get _ p) as [rp|e]; [|done]. cbn [obind] in Esplice |- *.
      destruct (repl_get _ i) as [ri|e]; [|done]. cbn [obind] in Esplice |- *.
      by injection Esplice as <- <-.
    + cbn [obind] in Esplice |- *. destruct (repl_get _ i) as [ri|e]; [|done].
      cbn [obind] in Esplice |- *. by injection Esplice as <- <-.
  - exists (l1 ++ (i, (t, b)) :: l2). rewrite Hrins, fmap_app. split; [|done].
    split; simpl.
    + by rewrite Hlen'.
    + done.
    + rewrite fmap_app in *. simpl. rewrite <- Permutation_middle.
      by apply NoDup_cons.
    + rewrite Hcnt, !length_app in *. simpl. rewrite u32_small by lia. lia.
    + rewrite Forall_app in Hlive |- *. destruct Hlive. split; [done|]. by constructor.
    + intros j rj Hj Hjl. rewrite Hframe in Hj by done. apply (Hfree j rj Hj).
      rewrite fmap_app in *. set_solver.
Qed.

Lemma rq_rep_add_full Q s b t :
  rq_rep Q s -> length s = 32%nat -> repl_queue_add Q b t = Ok Q.
Proof.
  intros H Hlen. apply rq_rep_size in H as [Hs _]. unfold repl_queue_add, MAX_REPL.
  rewrite Hs, Hlen. done.
Qed.

(** ** Properties *)

(** C6: on every well-formed queue [repl_queue_pop] removes the first
    replenishment and [repl_queue_add] inserts in time order, or leaves a full
    queue alone; the slot search never panics while a slot is free, and the
    queue stays well-formed. *)
Theorem repl_queue_refines Q s b t :
  rq_rep Q s -> t <> 0 ->
  (exists Q', repl_queue_pop Q = Ok Q' /\ rq_rep Q' (tail s)) /\
  (exists Q', repl_queue_add Q b t = Ok Q' /\
     rq_rep Q' (if (length s <? 32)%nat then rinsert (t, b) s else s)) /\
  (sorted s -> sorted (rinsert (t, b) s)) /\
  budget (rinsert (t, b) s) = b + budget s.
Proof.
  intros H Ht. split; [|split; [|split]].
  - destruct s as [|e s]; [|by eapply rq_rep_pop].
    exists Q. unfold repl_queue_pop. by rewrite (rq_rep_nil_head _ H).
  - pose proof (rq_rep_size _ _ H) as [_ Hle]. destruct (Nat.ltb_spec (length s) 32).
    + by apply rq_rep_add.
    + exists Q. split; [|done]. eapply rq_rep_add_full; [exact H|lia].
  - apply sorted_rinsert.
  - apply budget_rinsert.
Qed.

(** The queue of a server with budget 20, just initialised at time 5. *)
Definition example_queue : repl_queue :=
  mkRQ (mkRepl 5 20 None :: replicate 31 (mkRepl 0 0 None)) (Some 0%nat) 1.

Lemma example_queue_rep : rq_rep example_queue [(5, 20)].
Proof.
  destruct (rq_rep_add empty_repl_queue [] 20 5 rq_rep_empty) as (Q & E & H);
    [simpl; lia | lia |].
  assert (Ok example_queue = Ok Q) as [= ->]; [|exact H].
  rewrite <- E. reflexivity.
Qed.

Lemma repl_queue_refines_witness :
  exists Q', repl_queue_add example_queue 7 3 = Ok Q' /\ rq_rep Q' [(3, 7); (5, 20)].
Proof.
  destruct (repl_queue_refines example_queue [(5, 20)] 7 3 example_queue_rep)
    as (_ & (Q' & E & H) & _); [lia|].
  exists Q'. split; [exact E | exact H].
Defined.
