(* ===== verification/Vcpu.v ===== *)
(** * Virtual CPUs: data

    The types of [include/sched/vcpu.h].  A pointer to a VCPU is its index in the
    array [vcpus] of [sched/vcpu.c].  The anonymous union of the type-specific
    parameters is the sum [vcpu_part]; reading the member that is not there
    fails.  [RDTSC] reads a clock that is not under the program's control: the
    n-th read of a run returns [tsc n].

    The hooks of a VCPU ([vcpu_hooks]) see the VCPU they are given, the clock and
    the per-CPU variable [pcpu_overhead]: that is [hctx], the state of [MainVcpu]
    and [IoVcpu]. *)

From Stdlib Require Import ZArith Lia.
From S2P Require Import Prelude ReplQueue.
From stdpp Require Import base numbers list.
Local Open Scope Z_scope.

Inductive vcpu_type := MAIN_VCPU | IO_VCPU.

#[export] Instance vcpu_type_eq_dec : EqDecision vcpu_type.
Proof. solve_decision. Defined.

(** [iovcpu_class]: a bit set. *)
Definition IOVCPU_CLASS_ALL : Z := 0.
Definition IOVCPU_CLASS_ATA : Z := 1.
Definition IOVCPU_CLASS_NET : Z := 2.
Definition IOVCPU_CLASS_USB : Z := 4.
Definition IOVCPU_CLASS_DISK : Z := 8.
Definition IOVCPU_CLASS_CDROM : Z := 16.

Record main_part := mkMain {
  m_a : Z;
  m_Q : repl_queue
}.

Record io_part := mkIo {
  io_e : Z;
  io_r_t : Z;
  io_r_b : Z;
  io_Unum : Z;
  io_Uden : Z;
  io_budgeted : bool;
  io_class : Z
}.

Inductive vcpu_part :=
| PMain (m : main_part)
| PIo (i : io_part).

Record vcpu_stats := mkStats {
  st_timestamps_counted : Z;
  st_prev_pmc : Z * Z;
  st_pmc_total : Z * Z;
  st_local_miss_count : Z;
  st_global_miss_count : Z;
  st_sched_overflow : Z;
  st_sched_overhead : Z;
  st_prev_usage : Z;
  st_prev_delta : Z;
  st_prev_count : Z;
  st_acnt_tsc : Z;
  st_cache_occupancy : Z;
  st_mpki : Z;
  st_prev_local_miss : Z;
  st_prev_global_miss : Z;
  st_prev_inst_ret : Z
}.

Record vcpu := mkVcpu {
  v_type : vcpu_type;
  v_next : option nat;
  v_runnable : bool;
  v_running : bool;
  v_cpu : Z;
  v_tr : Z;
  v_runqueue : Z;
  v_quantum : Z;
  v_next_schedule : Z;
  v_prev_tsc : Z;
  v_virtual_tsc : Z;
  v_C : Z;
  v_T : Z;
  v_b : Z;
  v_usage : Z;
  v_part : vcpu_part;
  v_stats : vcpu_stats
}.

(** Field updates. *)

Definition set_v_next (x : option nat) (v : vcpu) : vcpu :=
  mkVcpu (v_type v) x (v_runnable v) (v_running v) (v_cpu v) (v_tr v)
    (v_runqueue v) (v_quantum v) (v_next_schedule v) (v_prev_tsc v)
    (v_virtual_tsc v) (v_C v) (v_T v) (v_b v) (v_usage v) (v_part v) (v_stats
    v).

Definition set_v_runnable (x : bool) (v : vcpu) : vcpu :=
  mkVcpu (v_type v) (v_next v) x (v_running v) (v_cpu v) (v_tr v) (v_runqueue
    v) (v_quantum v) (v_next_schedule v) (v_prev_tsc v) (v_virtual_tsc v) (v_C
    v) (v_T v) (v_b v) (v_usage v) (v_part v) (v_stats v).

Definition set_v_running (x : bool) (v : vcpu) : vcpu :=
  mkVcpu (v_type v) (v_next v) (v_runnable v) x (v_cpu v) (v_tr v) (v_runqueue
    v) (v_quantum v) (v_next_schedule v) (v_prev_tsc v) (v_virtual_tsc v) (v_C
    v) (v_T v) (v_b v) (v_usage v) (v_part v) (v_stats v).

Definition set_v_cpu (x : Z) (v : vcpu) : vcpu :=
  mkVcpu (v_type v) (v_next v) (v_runnable v) (v_running v) x (v_tr v)
    (v_runqueue v) (v_quantum v) (v_next_schedule v) (v_prev_tsc v)
    (v_virtual_tsc v) (v_C v) (v_T v) (v_b v) (v_usage v) (v_part v) (v_stats
    v).

Definition set_v_tr (x : Z) (v : vcpu) : vcpu :=
  mkVcpu (v_type v) (v_next v) (v_runnable v) (v_running v) (v_cpu v) x
    (v_runqueue v) (v_quantum v) (v_next_schedule v) (v_prev_tsc v)
    (v_virtual_tsc v) (v_C v) (v_T v) (v_b v) (v_usage v) (v_part v) (v_stats
    v).

Definition set_v_runqueue (x : Z) (v : vcpu) : vcpu :=
  mkVcpu (v_type v) (v_next v) (v_runnable v) (v_running v) (v_cpu v) (v_tr v)
    x (v_quantum v) (v_next_schedule v) (v_prev_tsc v) (v_virtual_tsc v) (v_C
    v) (v_T v) (v_b v) (v_usage v) (v_part v) (v_stats v).

Definition set_v_next_schedule (x : Z) (v : vcpu) : vcpu :=
  mkVcpu (v_type v) (v_next v) (v_runnable v) (v_running v) (v_cpu v) (v_tr v)
    (v_runqueue v) (v_quantum v) x (v_prev_tsc v) (v_virtual_tsc v) (v_C v)
    (v_T v) (v_b v) (v_usage v) (v_part v) (v_stats v).

Definition set_v_prev_tsc (x : Z) (v : vcpu) : vcpu :=
  mkVcpu (v_type v) (v_next v) (v_runnable v) (v_running v) (v_cpu v) (v_tr v)
    (v_runqueue v) (v_quantum v) (v_next_schedule v) x (v_virtual_tsc v) (v_C
    v) (v_T v) (v_b v) (v_usage v) (v_part v) (v_stats v).

Definition set_v_virtual_tsc (x : Z) (v : vcpu) : vcpu :=
  mkVcpu (v_type v) (v_next v) (v_runnable v) (v_running v) (v_cpu v) (v_tr v)
    (v_runqueue v) (v_quantum v) (v_next_schedule v) (v_prev_tsc v) x (v_C v)
    (v_T v) (v_b v) (v_usage v) (v_part v) (v_stats v).

Definition set_v_T (x : Z) (v : vcpu) : vcpu :=
  mkVcpu (v_type v) (v_next v) (v_runnable v) (v_running v) (v_cpu v) (v_tr v)
    (v_runqueue v) (v_quantum v) (v_next_schedule v) (v_prev_tsc v)
    (v_virtual_tsc v) (v_C v) x (v_b v) (v_usage v) (v_part v) (v_stats v).

Definition set_v_b (x : Z) (v : vcpu) : vcpu :=
  mkVcpu (v_type v) (v_next v) (v_runnable v) (v_running v) (v_cpu v) (v_tr v)
    (v_runqueue v) (v_quantum v) (v_next_schedule v) (v_prev_tsc v)
    (v_virtual_tsc v) (v_C v) (v_T v) x (v_usage v) (v_part v) (v_stats v).

Definition set_v_usage (x : Z) (v : vcpu) : vcpu :=
  mkVcpu (v_type v) (v_next v) (v_runnable v) (v_running v) (v_cpu v) (v_tr v)
    (v_runqueue v) (v_quantum v) (v_next_schedule v) (v_prev_tsc v)
    (v_virtual_tsc v) (v_C v) (v_T v) (v_b v) x (v_part v) (v_stats v).

Definition set_v_part (x : vcpu_part) (v : vcpu) : vcpu :=
  mkVcpu (v_type v) (v_next v) (v_runnable v) (v_running v) (v_cpu v) (v_tr v)
    (v_runqueue v) (v_quantum v) (v_next_schedule v) (v_prev_tsc v)
    (v_virtual_tsc v) (v_C v) (v_T v) (v_b v) (v_usage v) x (v_stats v).

Definition set_v_stats (x : vcpu_stats) (v : vcpu) : vcpu :=
  mkVcpu (v_type v) (v_next v) (v_runnable v) (v_running v) (v_cpu v) (v_tr v)
    (v_runqueue v) (v_quantum v) (v_next_schedule v) (v_prev_tsc v)
    (v_virtual_tsc v) (v_C v) (v_T v) (v_b v) (v_usage v) (v_part v) x.

Definition set_st_timestamps_counted (x : Z) (v : vcpu_stats) : vcpu_stats :=
  mkStats x (st_prev_pmc v) (st_pmc_total v) (st_local_miss_count v)
    (st_global_miss_count v) (st_sched_overflow v) (st_sched_overhead v)
    (st_prev_usage v) (st_prev_delta v) (st_prev_count v) (st_acnt_tsc v)
    (st_cache_occupancy v) (st_mpki v) (st_prev_local_miss v)
    (st_prev_global_miss v) (st_prev_inst_ret v).

Definition set_st_prev_pmc (x : Z * Z) (v : vcpu_stats) : vcpu_stats :=
  mkStats (st_timestamps_counted v) x (st_pmc_total v) (st_local_miss_count v)
    (st_global_miss_count v) (st_sched_overflow v) (st_sched_overhead v)
    (st_prev_usage v) (st_prev_delta v) (st_prev_count v) (st_acnt_tsc v)
    (st_cache_occupancy v) (st_mpki v) (st_prev_local_miss v)
    (st_prev_global_miss v) (st_prev_inst_ret v).

Definition set_st_pmc_total (x : Z * Z) (v : vcpu_stats) : vcpu_stats :=
  mkStats (st_timestamps_counted v) (st_prev_pmc v) x (st_local_miss_count v)
    (st_global_miss_count v) (st_sched_overflow v) (st_sched_overhead v)
    (st_prev_usage v) (st_prev_delta v) (st_prev_count v) (st_acnt_tsc v)
    (st_cache_occupancy v) (st_mpki v) (st_prev_local_miss v)
    (st_prev_global_miss v) (st_prev_inst_ret v).

Definition set_st_sched_overhead (x : Z) (v : vcpu_stats) : vcpu_stats :=
  mkStats (st_timestamps_counted v) (st_prev_pmc v) (st_pmc_total v)
    (st_local_miss_count v) (st_global_miss_count v) (st_sched_overflow v) x
    (st_prev_usage v) (st_prev_delta v) (st_prev_count v) (st_acnt_tsc v)
    (st_cache_occupancy v) (st_mpki v) (st_prev_local_miss v)
    (st_prev_global_miss v) (st_prev_inst_ret v).

Definition set_st_prev_usage (x : Z) (v : vcpu_stats) : vcpu_stats :=
  mkStats (st_timestamps_counted v) (st_prev_pmc v) (st_pmc_total v)
    (st_local_miss_count v) (st_global_miss_count v) (st_sched_overflow v)
    (st_sched_overhead v) x (st_prev_delta v) (st_prev_count v) (st_acnt_tsc
    v) (st_cache_occupancy v) (st_mpki v) (st_prev_local_miss v)
    (st_prev_global_miss v) (st_prev_inst_ret v).

Definition set_st_prev_delta (x : Z) (v : vcpu_stats) : vcpu_stats :=
  mkStats (st_timestamps_counted v) (st_prev_pmc v) (st_pmc_total v)
    (st_local_miss_count v) (st_global_miss_count v) (st_sched_overflow v)
    (st_sched_overhead v) (st_prev_usage v) x (st_prev_count v) (st_acnt_tsc
    v) (st_cache_occupancy v) (st_mpki v) (st_prev_local_miss v)
    (st_prev_global_miss v) (st_prev_inst_ret v).

Definition set_st_prev_count (x : Z) (v : vcpu_stats) : vcpu_stats :=
  mkStats (st_timestamps_counted v) (st_prev_pmc v) (st_pmc_total v)
    (st_local_miss_count v) (st_global_miss_count v) (st_sched_overflow v)
    (st_sched_overhead v) (st_prev_usage v) (st_prev_delta v) x (st_acnt_tsc
    v) (st_cache_occupancy v) (st_mpki v) (st_prev_local_miss v)
    (st_prev_global_miss v) (st_prev_inst_ret v).

Definition set_st_acnt_tsc (x : Z) (v : vcpu_stats) : vcpu_stats :=
  mkStats (st_timestamps_counted v) (st_prev_pmc v) (st_pmc_total v)
    (st_local_miss_count v) (st_global_miss_count v) (st_sched_overflow v)
    (st_sched_overhead v) (st_prev_usage v) (st_prev_delta v) (st_prev_count
    v) x (st_cache_occupancy v) (st_mpki v) (st_prev_local_miss v)
    (st_prev_global_miss v) (st_prev_inst_ret v).

Definition set_st_cache_occupancy (x : Z) (v : vcpu_stats) : vcpu_stats :=
  mkStats (st_timestamps_counted v) (st_prev_pmc v) (st_pmc_total v)
    (st_local_miss_count v) (st_global_miss_count v) (st_sched_overflow v)
    (st_sched_overhead v) (st_prev_usage v) (st_prev_delta v) (st_prev_count
    v) (st_acnt_tsc v) x (st_mpki v) (st_prev_local_miss v)
    (st_prev_global_miss v) (st_prev_inst_ret v).

Definition set_st_mpki (x : Z) (v : vcpu_stats) : vcpu_stats :=
  mkStats (st_timestamps_counted v) (st_prev_pmc v) (st_pmc_total v)
    (st_local_miss_count v) (st_global_miss_count v) (st_sched_overflow v)
    (st_sched_overhead v) (st_prev_usage v) (st_prev_delta v) (st_prev_count
    v) (st_acnt_tsc v) (st_cache_occupancy v) x (st_prev_local_miss v)
    (st_prev_global_miss v) (st_prev_inst_ret v).

Definition set_st_prev_local_miss (x : Z) (v : vcpu_stats) : vcpu_stats :=
  mkStats (st_timestamps_counted v) (st_prev_pmc v) (st_pmc_total v)
    (st_local_miss_count v) (st_global_miss_count v) (st_sched_overflow v)
    (st_sched_overhead v) (st_prev_usage v) (st_prev_delta v) (st_prev_count
    v) (st_acnt_tsc v) (st_cache_occupancy v) (st_mpki v) x
    (st_prev_global_miss v) (st_prev_inst_ret v).

Definition set_st_prev_global_miss (x : Z) (v : vcpu_stats) : vcpu_stats :=
  mkStats (st_timestamps_counted v) (st_prev_pmc v) (st_pmc_total v)
    (st_local_miss_count v) (st_global_miss_count v) (st_sched_overflow v)
    (st_sched_overhead v) (st_prev_usage v) (st_prev_delta v) (st_prev_count
    v) (st_acnt_tsc v) (st_cache_occupancy v) (st_mpki v) (st_prev_local_miss
    v) x (st_prev_inst_ret v).

Definition set_st_prev_inst_ret (x : Z) (v : vcpu_stats) : vcpu_stats :=
  mkStats (st_timestamps_counted v) (st_prev_pmc v) (st_pmc_total v)
    (st_local_miss_count v) (st_global_miss_count v) (st_sched_overflow v)
    (st_sched_overhead v) (st_prev_usage v) (st_prev_delta v) (st_prev_count
    v) (st_acnt_tsc v) (st_cache_occupancy v) (st_mpki v) (st_prev_local_miss
    v) (st_prev_global_miss v) x.

Definition upd_stats (f : vcpu_stats -> vcpu_stats) (v : vcpu) : vcpu :=
  set_v_stats (f (v_stats v)) v.

Definition zero_stats : vcpu_stats := mkStats 0 (0, 0) (0, 0) 0 0 0 0 0 0 0 0 0 0 0 0 0.

(** ** The context of a hook *)

Record hctx := mkHctx {
  h_v : vcpu;
  h_clk : nat;
  h_overhead : Z
}.

Definition set_h_v (v : vcpu) (h : hctx) : hctx := mkHctx v (h_clk h) (h_overhead h).
Definition set_h_overhead (o : Z) (h : hctx) : hctx := mkHctx (h_v h) (h_clk h) o.

Definition get_v : M hctx vcpu := gets h_v.
Definition mod_v (f : vcpu -> vcpu) : M hctx unit :=
  modify (fun h => set_h_v (f (h_v h)) h).

(** [RDTSC (now)]. *)
Definition RDTSC (tsc : nat -> Z) : M hctx Z :=
  fun h => Ok (tsc (h_clk h), mkHctx (h_v h) (S (h_clk h)) (h_overhead h)).

Definition get_main : M hctx main_part :=
  fun h => match v_part (h_v h) with
           | PMain m => Ok (m, h)
           | PIo _ => Err WrongUnionMember
           end.

Definition put_Q (Q : repl_queue) : M hctx unit :=
  let! m := get_main in
  mod_v (set_v_part (PMain (mkMain (m_a m) Q))).

Definition get_io : M hctx io_part :=
  fun h => match v_part (h_v h) with
           | PIo i => Ok (i, h)
           | PMain _ => Err WrongUnionMember
           end.

Definition put_io (i : io_part) : M hctx unit := mod_v (set_v_part (PIo i)).
