(* ===== verification/MainVcpu.v ===== *)
(** * Main VCPUs: sporadic servers

    The [MAIN_VCPU] section of [sched/vcpu.c]: [capacity], [budget_check],
    [split_check], [unblock_check] and the hooks built from them.

    [Spec] states what the code computes on lists of replenishments, in the order in
    which the code keeps them, and unbounded integers.  The theorems show that the
    code, on its slot array and 64-bit words, computes it; that the replenishments of
    a server always add up to its budget [C]; and that every loop terminates.  [MainDoc]
    relates it to the algorithms of docs/vcpu.tex. *)

From Stdlib Require Import ZArith Lia.
From S2P Require Import Prelude ReplQueue Vcpu.
From stdpp Require Import base numbers strings list.
Local Open Scope Z_scope.

Section ops.
Context (tsc : nat -> Z).

Definition capacity : M hctx Z :=
  let! now := RDTSC tsc in
  let! v := get_v in
  let! m := get_main in
  match rq_head (m_Q m) with
  | None => ret 0
  | Some _ =>
      let! r := lift (head_repl (m_Q m)) in
      if now <? r_t r then ret 0
      else ret (s64 (s64 (r_b r) - s64 (v_usage v)))
  end.

Definition main_vcpu_update_replenishments (tcur : Z) : M hctx unit :=
  let! cap := capacity in
  mod_v (set_v_b (if 0 <? cap then u64 cap else 0)).

Definition next_event_round (now : Z) (arr : list replenishment) (r : option nat)
  : outcome (control (option nat) Z) :=
  match r with
  | None => Ok (Break 0)
  | Some i =>
      let? e := repl_get arr i in
      if now <? r_t e then Ok (Break (r_t e)) else Ok (Continue (r_next e))
  end.

Definition main_vcpu_next_event : M hctx Z :=
  let! now := RDTSC tsc in
  let! m := get_main in
  lift (loop (S (Z.to_nat MAX_REPL)) (next_event_round now (rq_array (m_Q m)))
          (rq_head (m_Q m))).

(** Merge the first replenishment into the second: [repl_queue_pop], then add
    the amount to the new head and give it the earlier time. *)
Definition merge_head (Q : repl_queue) (t b : Z) : outcome repl_queue :=
  let? Q := repl_queue_pop Q in
  let? r := head_repl Q in
  set_head Q t (u64 (r_b r + b)).

Definition repl_merge_round (Q : repl_queue) : outcome (control repl_queue repl_queue) :=
  if 1 <? rq_size Q then
    let? r := head_repl Q in
    let? t2 := head_next_t Q in
    if t2 <=? u64 (r_t r + r_b r) then
      let? Q := merge_head Q (r_t r) (r_b r) in Ok (Continue Q)
    else Ok (Break Q)
  else Ok (Break Q).

Definition repl_merge : M hctx unit :=
  let! m := get_main in
  let! Q := lift (loop (S (Z.to_nat MAX_REPL)) repl_merge_round (m_Q m)) in
  put_Q Q.

(** The [while] loop of [budget_check]: exhaust and reschedule replenishments.
    Each round takes at least one cycle off [usage] when the amounts are
    positive, so [usage] bounds the rounds. *)
Definition exhaust_round (T : Z) (st : repl_queue * Z)
  : outcome (control (repl_queue * Z) (repl_queue * Z)) :=
  let '(Q, usage) := st in
  let? r := head_repl Q in
  if r_b r <=? usage then
    let usage := u64 (usage - r_b r) in
    let b := r_b r in let t := r_t r in
    let? Q := repl_queue_pop Q in
    let t := u64 (t + T) in
    let? Q := repl_queue_add Q b t in
    Ok (Continue (Q, usage))
  else Ok (Break (Q, usage)).

Definition exhaust_loop (T : Z) (Q : repl_queue) (usage : Z)
  : outcome (repl_queue * Z) :=
  loop (S (Z.to_nat usage)) (exhaust_round T) (Q, usage).

(** The overrun branch of [budget_check]. *)
Definition charge_overrun (Q : repl_queue) (usage : Z) : outcome repl_queue :=
  if 0 <? usage then
    let? r := head_repl Q in
    let? Q := set_head Q (u64 (r_t r + usage)) (r_b r) in
    if 1 <? rq_size Q then
      let? r := head_repl Q in
      let? t2 := head_next_t Q in
      if t2 <=? u64 (r_t r + r_b r) then merge_head Q (r_t r) (r_b r) else Ok Q
    else Ok Q
  else Ok Q.

Definition budget_check : M hctx unit :=
  let! cap := capacity in
  if cap <=? 0 then
    let! v := get_v in
    let! m := get_main in
    let! '(Q, usage) := lift (exhaust_loop (v_T v) (m_Q m) (v_usage v)) in
    mod_v (set_v_usage usage) ;;!
    let! Q := lift (charge_overrun Q usage) in
    put_Q Q
  else ret tt.

Definition split_check : M hctx unit :=
  let! now := RDTSC tsc in
  let! v := get_v in
  let! m := get_main in
  if 0 <? v_usage v then
    let! r := lift (head_repl (m_Q m)) in
    if r_t r <=? now then
      let remnant := u64 (r_b r - v_usage v) in
      let! Q := lift
        (if rq_size (m_Q m) =? MAX_REPL then
           let? Q := repl_queue_pop (m_Q m) in
           let? r := head_repl Q in
           set_head Q (r_t r) (u64 (r_b r + remnant))
         else set_head (m_Q m) (r_t r) remnant) in
      let! r := lift (head_repl Q) in
      let! Q := lift (repl_queue_add Q (v_usage v) (u64 (r_t r + v_T v))) in
      put_Q Q ;;!
      mod_v (set_v_usage 0)
    else ret tt
  else ret tt.

Definition main_vcpu_end_timeslice (tdelta : Z) : M hctx unit :=
  let! v := get_v in
  when (v_b v <? tdelta)
    (mod_v (upd_stats (set_st_sched_overhead (u64 (tdelta - v_b v)))) ;;!
     modify (set_h_overhead (u64 (tdelta - v_b v)))) ;;!
  mod_v (fun v => set_v_usage (u64 (v_usage v + tdelta)) v) ;;!
  budget_check ;;!
  let! v := get_v in
  when (negb (v_runnable v)) split_check ;;!
  let! cap := capacity in
  if 0 <? cap then mod_v (set_v_b (u64 cap))
  else
    mod_v (set_v_b 0) ;;!
    mod_v (fun v => upd_stats (set_st_prev_usage (v_usage v)) v).

(** The [while] loop of [unblock_check]: merge replenishments. *)
Definition unblock_round (now usage : Z) (Q : repl_queue)
  : outcome (control repl_queue repl_queue) :=
  if 1 <? rq_size Q then
    let? r := head_repl Q in
    let? t2 := head_next_t Q in
    if t2 <=? u64 (now + r_b r - usage) then
      let? Q := merge_head Q now (r_b r) in Ok (Continue Q)
    else Ok (Break Q)
  else Ok (Break Q).

Definition unblock_check : M hctx unit :=
  let! cap := capacity in
  if 0 <? cap then
    let! now := RDTSC tsc in
    let! v := get_v in
    let! m := get_main in
    let! Q := lift (let? r := head_repl (m_Q m) in set_head (m_Q m) now (r_b r)) in
    let! Q := lift (loop (S (Z.to_nat MAX_REPL)) (unblock_round now (v_usage v)) Q) in
    put_Q Q
  else ret tt.

Definition main_vcpu_unblock : M hctx unit := unblock_check.
End ops.

(** ** The specification *)

Module Spec.
(** A server: its pending replenishments and the usage not yet charged. *)
Record server := mkServer { repls : list repl; used : Z }.

Definition available (now : Z) (v : server) : Z :=
  match repls v with
  | [] => 0
  | (t, b) :: _ => if now <? t then 0 else b - used v
  end.

Definition next_event (now : Z) (v : server) : Z :=
  default 0 (fst <$> list_find (fun e => now < fst e) (repls v) ≫= fun p => Some (snd p)).

Fixpoint exhaust (fuel : nat) (T : Z) (v : server) : server :=
  match fuel, repls v with
  | S fuel', (t, b) :: s =>
      if b <=? used v
      then exhaust fuel' T (mkServer (rinsert (t + T, b) s) (used v - b))
      else v
  | _, _ => v
  end.

(** Add the first amount to the second replenishment, at time [t]. *)
Definition merge (t : Z) (s : list repl) : list repl :=
  match s with
  | (_, b) :: (_, b2) :: s' => (t, b2 + b) :: s'
  | _ => s
  end.

Definition overrun (v : server) : list repl :=
  if 0 <? used v then
    match repls v with
    | (t, b) :: s =>
        let t' := t + used v in
        match s with
        | (t2, _) :: _ => if t2 <=? t' + b then merge t' ((t', b) :: s) else (t', b) :: s
        | [] => [(t', b)]
        end
    | [] => []
    end
  else repls v.

Definition charge (now T : Z) (v : server) : server :=
  if available now v <=? 0 then
    let v' := exhaust (S (Z.to_nat (used v))) T v in
    mkServer (overrun v') (used v')
  else v.

Definition split_used (now T : Z) (v : server) : server :=
  match repls v with
  | (t, b) :: s =>
      if (0 <? used v) && (t <=? now) then
        let remnant := b - used v in
        let s' := if (length (repls v) =? 32)%nat
                  then match s with (t2, b2) :: s'' => (t2, b2 + remnant) :: s'' | [] => [] end
                  else (t, remnant) :: s in
        match s' with
        | (t1, _) :: _ => mkServer (rinsert (t1 + T, used v) s') 0
        | [] => v
        end
      else v
  | [] => v
  end.

Fixpoint unblock_merge (fuel : nat) (now u : Z) (s : list repl) : list repl :=
  match fuel, s with
  | S fuel', (t, b) :: (t2, b2) :: s' =>
      if t2 <=? now + b - u then unblock_merge fuel' now u ((now, b2 + b) :: s') else s
  | _, _ => s
  end.

Definition advance (now now2 : Z) (v : server) : server :=
  if 0 <? available now v then
    match repls v with
    | (t, b) :: s => mkServer (unblock_merge 33 now2 (used v) ((now2, b) :: s)) (used v)
    | [] => v
    end
  else v.

(** The end of a timeslice of [d] cycles: charge it, and when the server has
    blocked split off what it used. *)
Definition end_timeslice (now1 now2 T d : Z) (runnable : bool) (v : server) : server :=
  let v' := charge now1 T (mkServer (repls v) (used v + d)) in
  if runnable then v' else split_used now2 T v'.
End Spec.

(** ** Well-formed servers *)

(** The invariant of a server with budget [C]: there is always a pending
    replenishment, times and amounts are positive, and the amounts add up to [C]
    (the check "vcpu replenishments out of whack" of [check_run_invariants]). *)
Record server_ok (C : Z) (v : Spec.server) : Prop := {
  so_nonempty : Spec.repls v <> [];
  so_pos : Forall (fun e => 0 < fst e /\ 0 < snd e) (Spec.repls v);
  so_budget : budget (Spec.repls v) = C;
  so_used : 0 <= Spec.used v;
  so_size : (length (Spec.repls v) <= 32)%nat
}.

(** The time stamps stay clear of the 64-bit horizon: even after every cycle of
    the pending usage has pushed a replenishment one period ahead, all times are
    below 2^62 (48 years at 3 GHz). *)
Record within (T : Z) (v : Spec.server) : Prop := {
  wi_T : 0 <= T;
  wi_used : Spec.used v < 2 ^ 62;
  wi_budget : budget (Spec.repls v) < 2 ^ 62;
  wi_times : Forall (fun e => fst e + T * (Spec.used v + 1) < 2 ^ 62) (Spec.repls v)
}.

Lemma budget_nonneg s : Forall (fun e => 0 < fst e /\ 0 < snd e) s -> 0 <= budget s.
Proof. induction 1; simpl; lia. Qed.

Lemma budget_head t b s :
  Forall (fun e => 0 < fst e /\ 0 < snd e) ((t, b) :: s) ->
  0 < t /\ 0 < b <= budget ((t, b) :: s) /\ 0 <= budget s /\
  Forall (fun e => 0 < fst e /\ 0 < snd e) s.
Proof.
  intros [[Ht Hb] Hs]%Forall_cons. simpl in *. pose proof (budget_nonneg s Hs).
  split; [lia|]. split; [lia|]. by split.
Qed.

(** One round of the exhaustion loop keeps the invariant and the horizon. *)
Lemma exhaust_step C T t b s u :
  server_ok C (Spec.mkServer ((t, b) :: s) u) ->
  within T (Spec.mkServer ((t, b) :: s) u) -> b <= u ->
  server_ok C (Spec.mkServer (rinsert (t + T, b) s) (u - b)) /\
  within T (Spec.mkServer (rinsert (t + T, b) s) (u - b)).
Proof.
  intros [_ Hpos Hbud Hu Hsize] [HT Hused Hb Htimes] Hle. simpl in *.
  apply budget_head in Hpos as (Ht & Hbb & Hs & Hpos).
  apply Forall_cons in Htimes as [Ht1 Hts]. simpl in Ht1.
  split; split; simpl.
  - destruct s; simpl; [done|]. by case_match.
  - apply Forall_rinsert; [done|]. simpl. lia.
  - rewrite budget_rinsert. simpl. lia.
  - lia.
  - rewrite rinsert_length. lia.
  - done.
  - lia.
  - rewrite budget_rinsert. simpl. lia.
  - apply Forall_rinsert; [|simpl; nia].
    eapply Forall_impl; [exact Hts|]. simpl. intros e He. nia.
Qed.

Lemma exhaust_ok C T fuel v :
  server_ok C v -> within T v ->
  server_ok C (Spec.exhaust fuel T v) /\ within T (Spec.exhaust fuel T v).
Proof.
  revert v. induction fuel as [|fuel IH]; intros [s u] Hok Hw; [done|].
  destruct s as [|[t b] s]; [done|]. cbn [Spec.exhaust Spec.repls Spec.used].
  destruct (Z.leb_spec b u); [|done].
  destruct (exhaust_step C T t b s u Hok Hw ltac:(lia)). by apply IH.
Qed.

(** With as much fuel as usage, exhaustion stops at a replenishment larger than
    what is left to charge. *)
Lemma exhaust_stops C T fuel v :
  server_ok C v -> within T v -> (Z.to_nat (Spec.used v) < fuel)%nat ->
  exists t b s, Spec.repls (Spec.exhaust fuel T v) = (t, b) :: s /\
                Spec.used (Spec.exhaust fuel T v) < b.
Proof.
  revert v. induction fuel as [|fuel IH]; intros [s u] Hok Hw Hf; [lia|].
  destruct s as [|[t b] s]; [by destruct (so_nonempty _ _ Hok)|].
  cbn [Spec.exhaust Spec.repls Spec.used].
  destruct (Z.leb_spec b u); [|by exists t, b, s].
  destruct (exhaust_step C T t b s u Hok Hw ltac:(lia)) as [Hok' Hw'].
  apply IH; [done|done|]. simpl in *.
  destruct (budget_head _ _ _ (so_pos _ _ Hok)) as (_ & ? & _). lia.
Qed.

Lemma overrun_ok C T v t b s :
  server_ok C v -> within T v -> Spec.repls v = (t, b) :: s -> Spec.used v < b ->
  server_ok C (Spec.mkServer (Spec.overrun v) (Spec.used v)) /\
  exists t' b' s', Spec.overrun v = (t', b') :: s' /\ Spec.used v < b'.
Proof.
  intros [Hne Hpos Hbud Hu Hsize] Hw E Hlt. unfold Spec.overrun. rewrite E in *.
  destruct (Z.ltb_spec 0 (Spec.used v)).
  2:{ split; [by split|]. by exists t, b, s. }
  apply budget_head in Hpos as (Ht & Hb & Hs & Hpos).
  destruct s as [|[t2 b2] s].
  - split; [|by eexists _, _, _]. split; simpl in *; try done.
    constructor; [simpl; lia|constructor].
  - destruct (Z.leb_spec t2 (t + Spec.used v + b)).
    + apply budget_head in Hpos as (Ht2 & Hb2 & Hs2 & Hpos). simpl in *.
      split; [|eexists _, _, _; split; [done|lia]]. split; simpl; try done.
      * constructor; [simpl; lia|done].
      * lia.
      * lia.
    + split; [|by eexists _, _, _]. split; simpl in *; try done.
      constructor; [simpl; lia|done].
Qed.

Lemma budget_check_ok C T now v :
  server_ok C v -> within T v ->
  server_ok C (Spec.charge now T v) /\
  exists t b s, Spec.repls (Spec.charge now T v) = (t, b) :: s /\
                Spec.used (Spec.charge now T v) < b.
Proof.
  intros Hok Hw. unfold Spec.charge.
  destruct (Z.leb_spec (Spec.available now v) 0).
  - destruct (exhaust_stops C T (S (Z.to_nat (Spec.used v))) v Hok Hw ltac:(lia))
      as (t & b & s & E & Hlt).
    destruct (exhaust_ok C T (S (Z.to_nat (Spec.used v))) v Hok Hw) as [Hok' Hw'].
    exact (overrun_ok C T _ t b s Hok' Hw' E Hlt).
  - split; [done|]. unfold Spec.available in *. pose proof (so_used _ _ Hok).
    destruct (Spec.repls v) as [|[t b] s]; [lia|]. exists t, b, s. split; [done|].
    destruct (Z.ltb_spec now t); lia.
Qed.

Lemma split_check_ok C T now v :
  server_ok C v -> 0 <= T ->
  (exists t b s, Spec.repls v = (t, b) :: s /\ Spec.used v < b) ->
  server_ok C (Spec.split_used now T v).
Proof.
  intros Hok HT (t & b & s & E & Hlt). pose proof Hok as [Hne Hpos Hbud Hu Hsize].
  unfold Spec.split_used. rewrite E in *.
  destruct (Z.ltb_spec 0 (Spec.used v)); [|done].
  destruct (Z.leb_spec t now); [|done]. cbn [andb].
  pose proof (budget_head _ _ _ Hpos) as (Ht & Hb & Hs & Hpos').
  destruct (Nat.eqb_spec (length ((t, b) :: s)) 32) as [E32|E32].
  - destruct s as [|[t2 b2] s]; [done|].
    pose proof (budget_head _ _ _ Hpos') as (Ht2 & Hb2 & Hs2 & Hpos2).
    split; cbn [Spec.repls Spec.used].
    + cbn [rinsert]. by case_match.
    + apply Forall_rinsert; [|simpl; lia]. constructor; [simpl; lia|done].
    + rewrite budget_rinsert. simpl in *. lia.
    + lia.
    + rewrite rinsert_length. simpl in *. lia.
  - split; cbn [Spec.repls Spec.used].
    + cbn [rinsert]. by case_match.
    + apply Forall_rinsert; [|simpl; lia]. constructor; [simpl; lia|done].
    + rewrite budget_rinsert. simpl in *. lia.
    + lia.
    + rewrite rinsert_length. simpl in *. lia.
Qed.

Lemma unblock_merge_ok fuel now u s :
  0 < now -> s <> [] ->
  Forall (fun e => 0 < fst e /\ 0 < snd e) s ->
  Spec.unblock_merge fuel now u s <> [] /\
  Forall (fun e => 0 < fst e /\ 0 < snd e) (Spec.unblock_merge fuel now u s) /\
  budget (Spec.unblock_merge fuel now u s) = budget s /\
  (length (Spec.unblock_merge fuel now u s) <= length s)%nat.
Proof.
  intros Hnow. revert s. induction fuel as [|fuel IH]; intros s Hne Hpos; [done|].
  destruct s as [|[t b] [|[t2 b2] s]]; [done|done|]. cbn [Spec.unblock_merge].
  destruct (_ <=? _); [|done].
  pose proof (budget_head _ _ _ Hpos) as (Ht & Hb & _ & Hpos2).
  pose proof (budget_head _ _ _ Hpos2) as (Ht2 & Hb2 & _ & Hpos3).
  destruct (IH ((now, b2 + b) :: s)) as (H1 & H2 & H3 & H4); [done| |].
  { constructor; [simpl; lia|done]. }
  split; [done|]. split; [done|]. simpl in *. lia.
Qed.

Lemma unblock_check_ok C now now2 v :
  server_ok C v -> 0 < now2 -> server_ok C (Spec.advance now now2 v).
Proof.
  intros Hok Hnow. pose proof Hok as [Hne Hpos Hbud Hu Hsize].
  unfold Spec.advance. destruct (_ <? _); [|done].
  destruct (Spec.repls v) as [|[t b] s] eqn:E; [done|].
  pose proof (budget_head _ _ _ Hpos) as (Ht & Hb & _ & Hpos').
  destruct (unblock_merge_ok 33 now2 (Spec.used v) ((now2, b) :: s))
    as (H1 & H2 & H3 & H4); [done|done| |].
  { constructor; [simpl; lia|done]. }
  split; cbn [Spec.repls Spec.used]; try done; simpl in *; lia.
Qed.

(** ** Refinement *)

(** The VCPU [v] implements the server [sv]. *)
Definition represents (v : vcpu) (sv : Spec.server) : Prop :=
  exists m, v_part v = PMain m /\ rq_rep (m_Q m) (Spec.repls sv) /\
            v_usage v = Spec.used sv.

(** [v'] is [v] with new replenishments and usage, those of [sv]. *)
Definition updated (v : vcpu) (sv : Spec.server) (v' : vcpu) : Prop :=
  exists m, v' = set_v_part (PMain m) (set_v_usage (Spec.used sv) v) /\
            rq_rep (m_Q m) (Spec.repls sv).

Lemma updated_represents v sv v' : updated v sv v' -> represents v' sv.
Proof. intros (m & -> & H). by exists m. Qed.

Lemma represents_updated v sv : represents v sv -> updated v sv v.
Proof. intros (m & E & H & Hu). exists m. rewrite <- Hu, <- E. by destruct v. Qed.

Lemma exhaust_refines C T fuel Q s u :
  rq_rep Q s -> server_ok C (Spec.mkServer s u) -> within T (Spec.mkServer s u) ->
  (Z.to_nat u < fuel)%nat ->
  exists Q',
    loop fuel (exhaust_round T) (Q, u) =
    Ok (Q', Spec.used (Spec.exhaust fuel T (Spec.mkServer s u))) /\
    rq_rep Q' (Spec.repls (Spec.exhaust fuel T (Spec.mkServer s u))).
Proof.
  revert Q s u. induction fuel as [|fuel IH]; intros Q s u HQ Hok Hw Hf; [lia|].
  destruct s as [|[t b] s]; [by destruct (so_nonempty _ _ Hok)|].
  cbn [loop Spec.exhaust Spec.repls Spec.used]. unfold exhaust_round at 1.
  destruct (rq_rep_head _ _ _ _ HQ) as [n ->]. cbn [obind r_b r_t].
  destruct (Z.leb_spec b u) as [Hle|Hlt]; [|by exists Q].
  pose proof (exhaust_step C T t b s u Hok Hw Hle) as [Hok' Hw'].
  destruct (budget_head _ _ _ (so_pos _ _ Hok)) as (Ht & Hb & _ & _).
  pose proof (Forall_inv (wi_times _ _ Hw)) as Ht1.
  pose proof (wi_T _ _ Hw). pose proof (wi_used _ _ Hw). simpl in *.
  destruct (rq_rep_pop _ _ _ HQ) as (Q1 & -> & HQ1). cbn [obind].
  rewrite (u64_small (t + T)), (u64_small (u - b)) by nia.
  destruct (rq_rep_add Q1 s b (t + T) HQ1) as (Q2 & -> & HQ2); [|lia|].
  { pose proof (so_size _ _ Hok). simpl in *. lia. }
  cbn [obind]. apply IH; [done|done|done|lia].
Qed.

Lemma merge_head_refines Q t0 b0 t2 b2 s t b :
  rq_rep Q ((t0, b0) :: (t2, b2) :: s) -> t <> 0 -> 0 <= b2 + b < 2 ^ 64 ->
  exists Q', merge_head Q t b = Ok Q' /\ rq_rep Q' ((t, b2 + b) :: s).
Proof.
  intros HQ Ht Hb. unfold merge_head.
  destruct (rq_rep_pop _ _ _ HQ) as (Q1 & -> & HQ1). cbn [obind].
  destruct (rq_rep_head _ _ _ _ HQ1) as [n ->]. cbn [obind r_b].
  rewrite u64_small by done. by eapply rq_rep_set_head.
Qed.

Lemma charge_overrun_refines C T Q v t b s :
  rq_rep Q (Spec.repls v) -> server_ok C v -> within T v ->
  Spec.repls v = (t, b) :: s -> Spec.used v < b ->
  exists Q', charge_overrun Q (Spec.used v) = Ok Q' /\ rq_rep Q' (Spec.overrun v).
Proof.
  intros HQ Hok Hw E Hlt. unfold charge_overrun, Spec.overrun. rewrite E in *.
  pose proof (so_pos _ _ Hok) as Hpos. pose proof (wi_times _ _ Hw) as Htimes.
  pose proof (wi_budget _ _ Hw) as Hbud. pose proof (wi_T _ _ Hw).
  rewrite E in *. apply Forall_inv in Htimes. simpl in Htimes.
  destruct (budget_head _ _ _ Hpos) as (Ht & Hb & _ & Hpos2).
  destruct (Z.ltb_spec 0 (Spec.used v)) as [Hu|]; [|by exists Q].
  assert (t < 2 ^ 62) by nia.
  destruct (rq_rep_head _ _ _ _ HQ) as [n ->]. cbn [obind r_b r_t].
  rewrite (u64_small (t + Spec.used v)) by lia.
  destruct (rq_rep_set_head Q _ _ (t + Spec.used v) b HQ ltac:(lia))
    as (Q1 & -> & HQ1). cbn [obind].
  destruct (rq_rep_size _ _ HQ1) as [-> _].
  destruct s as [|[t2 b2] s]; simpl length.
  { destruct (Z.ltb_spec 1 (Z.of_nat 1)); [lia|]. by exists Q1. }
  destruct (Z.ltb_spec 1 (Z.of_nat (S (S (length s))))); [|lia].
  destruct (rq_rep_head _ _ _ _ HQ1) as [n1 ->]. cbn [obind r_b r_t].
  rewrite (rq_rep_next _ _ _ _ _ HQ1). cbn [obind].
  rewrite (u64_small (t + Spec.used v + b)) by lia.
  destruct (budget_head _ _ _ Hpos2) as (Ht2 & Hb2 & _ & _).
  destruct (Z.leb_spec t2 (t + Spec.used v + b)); [|by exists Q1].
  simpl in Hbud, Hb2. apply (merge_head_refines _ _ _ _ _ _ _ _ HQ1); simpl; lia.
Qed.

Lemma unblock_refines fuel now u Q t b s :
  rq_rep Q ((t, b) :: s) -> 0 < now < 2 ^ 62 -> 0 <= u < b ->
  Forall (fun e => 0 < fst e /\ 0 < snd e) ((t, b) :: s) ->
  budget ((t, b) :: s) < 2 ^ 62 -> (length s < fuel)%nat ->
  exists Q', loop fuel (unblock_round now u) Q = Ok Q' /\
             rq_rep Q' (Spec.unblock_merge fuel now u ((t, b) :: s)).
Proof.
  revert Q t b s. induction fuel as [|fuel IH]; intros Q t b s HQ Hnow Hu Hpos Hbud Hf; [lia|].
  cbn [loop]. unfold unblock_round at 1. destruct (rq_rep_size _ _ HQ) as [-> _].
  destruct s as [|[t2 b2] s].
  { simpl length. destruct (Z.ltb_spec 1 (Z.of_nat 1)); [lia|]. by exists Q. }
  destruct (budget_head _ _ _ Hpos) as (Ht & Hb & _ & Hpos2).
  destruct (budget_head _ _ _ Hpos2) as (Ht2 & Hb2 & Hbs & Hpos3).
  cbn [length Spec.unblock_merge].
  destruct (Z.ltb_spec 1 (Z.of_nat (S (S (length s))))); [|lia].
  destruct (rq_rep_head _ _ _ _ HQ) as [n ->]. cbn [obind r_b r_t].
  rewrite (rq_rep_next _ _ _ _ _ HQ). cbn [obind]. cbn [budget foldr snd] in Hbud, Hb, Hb2.
  fold (budget s) in *. rewrite u64_small by lia.
  destruct (Z.leb_spec t2 (now + b - u)); [|by exists Q].
  destruct (merge_head_refines _ _ _ _ _ _ now b HQ) as (Q1 & -> & HQ1); [lia|lia|].
  cbn [obind]. apply IH; [done|done|lia| |cbn; fold (budget s); lia|simpl in *; lia].
  constructor; [simpl; lia|done].
Qed.

Lemma next_event_refines fuel now arr h l :
  rchain arr h l -> (length l < fuel)%nat ->
  loop fuel (next_event_round now arr) h =
  Ok (Spec.next_event now (Spec.mkServer l.*2 0)).
Proof.
  revert h l. induction fuel as [|fuel IH]; intros h l Hl Hf; [lia|].
  cbn [loop]. destruct l as [|[i [t b]] l]; cbn [rchain] in Hl; [by subst|].
  destruct Hl as (-> & n & Hi & Hl). cbn [next_event_round]. unfold repl_get. rewrite Hi.
  cbn [of_option obind r_t r_next]. unfold Spec.next_event.
  cbn [Spec.repls fmap list_fmap list_find snd fst].
  destruct (Z.ltb_spec now t).
  - rewrite decide_True by done. done.
  - rewrite decide_False by lia. cbn [obind]. rewrite (IH n l Hl) by (simpl in *; lia).
    unfold Spec.next_event. cbn [Spec.repls]. by destruct (list_find _ l.*2) as [[]|].
Qed.

(** After the budget check every time is still clear of the horizon. *)
Lemma budget_check_times C T now v :
  server_ok C v -> within T v ->
  Forall (fun e => fst e + T < 2 ^ 63) (Spec.repls (Spec.charge now T v)).
Proof.
  intros Hok Hw. unfold Spec.charge.
  assert (forall w, server_ok C w -> within T w ->
            Forall (fun e => fst e + T < 2 ^ 62) (Spec.repls w)) as Hbase.
  { intros w Hokw [HT _ _ Ht]. pose proof (so_used _ _ Hokw).
    eapply Forall_impl; [exact Ht|]. simpl. intros. nia. }
  destruct (_ <=? 0); [|eapply Forall_impl; [by apply Hbase|simpl; lia]].
  destruct (exhaust_ok C T (S (Z.to_nat (Spec.used v))) v Hok Hw) as [Hok' Hw'].
  set (w := Spec.exhaust _ _ _) in *. pose proof (Hbase w Hok' Hw') as Hb.
  cbn [Spec.repls]. unfold Spec.overrun. pose proof (wi_used _ _ Hw') as Hwu.
  destruct (_ <? _); [|eapply Forall_impl; [exact Hb|simpl; lia]].
  destruct (Spec.repls w) as [|[t b] s]; [done|].
  apply Forall_cons in Hb as [Ht Hb]. cbn [fst] in Ht.
  assert (Forall (fun e => fst e + T < 2 ^ 63) s) as Hs
    by (eapply Forall_impl; [exact Hb|simpl; lia]).
  destruct s as [|[t2 b2] s]; [by repeat constructor; simpl; lia|].
  destruct (_ <=? _); [|by constructor; [simpl; lia|]].
  apply Forall_cons in Hs as [_ Hs]. cbn [Spec.merge]. constructor; [simpl; lia|done].
Qed.

Section refines.
Context (tsc : nat -> Z).

(** The context after a hook: the clock has been read [n] times. *)
Definition ticked (n : nat) (v : vcpu) (h : hctx) : hctx :=
  mkHctx v (h_clk h + n) (h_overhead h).

Lemma capacity_refines C h sv :
  represents (h_v h) sv -> server_ok C sv -> Spec.used sv < 2 ^ 62 -> C < 2 ^ 62 ->
  capacity tsc h = Ok (Spec.available (tsc (h_clk h)) sv, ticked 1 (h_v h) h).
Proof.
  intros (m & Em & HQ & Hu) Hok Hused HC. pose proof (so_used _ _ Hok).
  unfold capacity, bind, RDTSC, get_v, gets, get_main, lift, ret, ticked.
  cbn [h_v h_clk h_overhead]. rewrite Em, Nat.add_1_r. unfold Spec.available.
  destruct (Spec.repls sv) as [|[t b] s] eqn:E.
  { by destruct (so_nonempty _ _ Hok). }
  pose proof (so_pos _ _ Hok) as Hpos. rewrite E in Hpos.
  destruct (budget_head _ _ _ Hpos) as (Ht & Hb & _).
  assert (b <= C) by (rewrite <- (so_budget _ _ Hok), E; lia).
  destruct (rq_rep_head _ _ _ _ HQ) as [n Eh].
  destruct (rq_head (m_Q m)) eqn:Ehd.
  2:{ unfold head_repl in Eh. rewrite Ehd in Eh. done. }
  rewrite Eh. cbn [r_t r_b]. destruct (_ <? _); [done|].
  rewrite (s64_small b), (s64_small (v_usage (h_v h))), s64_small by lia.
  by rewrite Hu.
Qed.

Lemma budget_check_refines C h sv :
  represents (h_v h) sv -> server_ok C sv -> within (v_T (h_v h)) sv ->
  exists v', budget_check tsc h = Ok (tt, ticked 1 v' h) /\
    updated (h_v h) (Spec.charge (tsc (h_clk h)) (v_T (h_v h)) sv) v'.
Proof.
  intros Hrep Hok Hw. unfold budget_check, bind at 1.
  pose proof (wi_used _ _ Hw). pose proof (wi_budget _ _ Hw) as HC.
  rewrite (so_budget _ _ Hok) in HC.
  rewrite (capacity_refines C h sv) by done. unfold Spec.charge.
  destruct (Spec.available (tsc (h_clk h)) sv <=? 0).
  2:{ exists (h_v h). split; [done|]. by apply represents_updated. }
  destruct Hrep as (m & Em & HQ & Hu). destruct sv as [s u]. cbn [Spec.used Spec.repls] in *.
  destruct (exhaust_refines C (v_T (h_v h)) (S (Z.to_nat u)) (m_Q m) s u HQ Hok Hw
    ltac:(lia)) as (Q1 & E1 & HQ1).
  destruct (exhaust_stops C (v_T (h_v h)) (S (Z.to_nat u)) _ Hok Hw ltac:(simpl; lia))
    as (t & b & s' & Es & Hlt).
  destruct (exhaust_ok C (v_T (h_v h)) (S (Z.to_nat u)) _ Hok Hw) as [Hok' Hw'].
  destruct (charge_overrun_refines C (v_T (h_v h)) Q1 _ t b s' HQ1 Hok' Hw' Es Hlt)
    as (Q2 & E2 & HQ2).
  change (exhaust_loop (v_T (h_v h)) (m_Q m) u = Ok (Q1, Spec.used (Spec.exhaust (S (Z.to_nat u)) (v_T (h_v h)) (Spec.mkServer s u)))) in E1.
  unfold bind, get_v, gets, get_main, lift, mod_v, modify, ticked, put_Q.
  cbn [h_v h_clk h_overhead]. rewrite Em, Hu, E1.
  cbn [h_v h_clk h_overhead set_h_v]. rewrite E2.
  unfold set_v_usage at 1. cbn [v_part]. rewrite Em. cbn.
  eexists. split; [done|]. eexists (mkMain (m_a m) Q2). split; [|done]. done.
Qed.

Lemma split_check_refines C h sv :
  represents (h_v h) sv -> server_ok C sv ->
  C < 2 ^ 62 -> 0 <= v_T (h_v h) ->
  Forall (fun e => fst e + v_T (h_v h) < 2 ^ 63) (Spec.repls sv) ->
  (exists t b s, Spec.repls sv = (t, b) :: s /\ Spec.used sv < b) ->
  exists v', split_check tsc h = Ok (tt, ticked 1 v' h) /\
    updated (h_v h) (Spec.split_used (tsc (h_clk h)) (v_T (h_v h)) sv) v'.
Proof.
  intros Hrep Hok HC HT Htimes (t & b & s & E & Hlt).
  pose proof (represents_updated _ _ Hrep) as Hid.
  destruct Hrep as (m & Em & HQ & Hu).
  pose proof Hok as [_ Hpos Hbud Hused Hsize]. 
  unfold split_check, bind, RDTSC, get_v, gets, get_main, lift, ticked.
  cbn [h_v h_clk h_overhead]. rewrite Em, Hu, Nat.add_1_r. unfold Spec.split_used.
  rewrite E in *. destruct (Z.ltb_spec 0 (Spec.used sv)) as [Hpu|]; [|by exists (h_v h)].
  destruct (rq_rep_head _ _ _ _ HQ) as [n ->]. cbn [r_t r_b].
  destruct (Z.leb_spec t (tsc (h_clk h))) as [Hle|]; [|by exists (h_v h)]. cbn [andb].
  destruct (budget_head _ _ _ Hpos) as (Ht & Hb & _ & Hpos2).
  rewrite (u64_small (b - Spec.used sv)) by lia.
  destruct (rq_rep_size _ _ HQ) as [-> _]. unfold MAX_REPL.
  destruct (Nat.eqb_spec (length ((t, b) :: s)) 32) as [E32|E32].
  - rewrite E32, Z.eqb_refl. destruct s as [|[t2 b2] s]; [done|].
    destruct (budget_head _ _ _ Hpos2) as (Ht2 & Hb2 & _ & _).
    apply Forall_cons in Htimes as [_ [Htt _]%Forall_cons]. cbn [fst] in Htt.
    assert (b + b2 <= C) by (rewrite <- Hbud; simpl in *; lia).
    destruct (rq_rep_pop _ _ _ HQ) as (Q1 & -> & HQ1). cbn [obind].
    destruct (rq_rep_head _ _ _ _ HQ1) as [n1 ->]. cbn [obind r_t r_b].
    rewrite (u64_small (b2 + _)) by lia.
    destruct (rq_rep_set_head Q1 _ _ t2 (b2 + (b - Spec.used sv)) HQ1 ltac:(lia))
      as (Q2 & -> & HQ2).
    destruct (rq_rep_head _ _ _ _ HQ2) as [n2 ->]. cbn [obind r_t r_b].
    rewrite (u64_small (t2 + _)) by lia.
    destruct (rq_rep_add Q2 _ (Spec.used sv) (t2 + v_T (h_v h)) HQ2) as (Q3 & -> & HQ3);
      [simpl in *; lia|lia|].
    unfold put_Q, bind, get_main. cbn [h_v]. rewrite Em. cbn.
    eexists. split; [done|]. by exists (mkMain (m_a m) Q3).
  - destruct (Z.eqb_spec (Z.of_nat (length ((t, b) :: s))) 32); [lia|].
    apply Forall_cons in Htimes as [Htt _]. cbn [fst] in Htt.
    destruct (rq_rep_set_head _ _ _ t (b - Spec.used sv) HQ ltac:(lia)) as (Q2 & -> & HQ2).
    destruct (rq_rep_head _ _ _ _ HQ2) as [n2 ->]. cbn [obind r_t r_b].
    rewrite (u64_small (t + _)) by lia.
    destruct (rq_rep_add Q2 _ (Spec.used sv) (t + v_T (h_v h)) HQ2) as (Q3 & -> & HQ3);
      [simpl in *; lia|lia|].
    unfold put_Q, bind, get_main. cbn [h_v]. rewrite Em. cbn.
    eexists. split; [done|]. by exists (mkMain (m_a m) Q3).
Qed.

Lemma unblock_check_refines C h sv :
  represents (h_v h) sv -> server_ok C sv -> C < 2 ^ 62 -> Spec.used sv < 2 ^ 62 ->
  0 < tsc (S (h_clk h)) < 2 ^ 62 ->
  exists v' n, unblock_check tsc h = Ok (tt, ticked n v' h) /\
    updated (h_v h) (Spec.advance (tsc (h_clk h)) (tsc (S (h_clk h))) sv) v'.
Proof.
  intros Hrep Hok HC Hused Hnow. pose proof (represents_updated _ _ Hrep) as Hid.
  unfold unblock_check, bind at 1. rewrite (capacity_refines C h sv) by done.
  unfold Spec.advance.
  destruct (Z.ltb_spec 0 (Spec.available (tsc (h_clk h)) sv)) as [Hcap|];
    [|by exists (h_v h), 1%nat].
  destruct Hrep as (m & Em & HQ & Hu). pose proof Hok as [_ Hpos Hbud Hu0 Hsize].
  unfold Spec.available in Hcap. destruct (Spec.repls sv) as [|[t b] s] eqn:E; [lia|].
  destruct (budget_head _ _ _ Hpos) as (Ht & Hb & _ & Hpos2).
  destruct (_ <? _) in Hcap; [lia|].
  unfold bind, RDTSC, get_v, gets, get_main, lift, ticked, put_Q.
  cbn [h_v h_clk h_overhead]. rewrite Em, Nat.add_1_r.
  destruct (rq_rep_head _ _ _ _ HQ) as [n ->]. cbn [obind r_b r_t].
  destruct (rq_rep_set_head _ _ _ (tsc (S (h_clk h))) b HQ) as (Q1 & -> & HQ1); [lia|].
  destruct (unblock_refines (S (Z.to_nat MAX_REPL)) (tsc (S (h_clk h))) (v_usage (h_v h))
    Q1 _ _ _ HQ1) as (Q2 & -> & HQ2); [done|lia| |simpl in *; lia|unfold MAX_REPL; simpl in *; lia|].
  { constructor; [simpl; lia|done]. }
  rewrite Hu in HQ2.
  exists (set_v_part (PMain (mkMain (m_a m) Q2)) (h_v h)), 2%nat.
  split.
  { replace (h_clk h + 2)%nat with (S (S (h_clk h))) by lia.
    unfold bind, get_main. cbn [h_v]. by rewrite Em. }
  exists (mkMain (m_a m) Q2). split; [|done]. cbn [Spec.used]. rewrite <- Hu.
  by destruct (h_v h).
Qed.

(** The fields a server does not read. *)
Lemma represents_ext v w sv :
  v_part w = v_part v -> v_usage w = v_usage v -> represents v sv -> represents w sv.
Proof. intros Ep Eu (m & ? & ? & ?). exists m. by rewrite Ep, Eu. Qed.

Lemma updated_fields v sv v' :
  updated v sv v' -> v_runnable v' = v_runnable v /\ v_T v' = v_T v /\ v_C v' = v_C v.
Proof. by intros (m & -> & _). Qed.

(** The last lines of [main_vcpu_end_timeslice]. *)
Lemma set_budget_refines C h sv :
  represents (h_v h) sv -> server_ok C sv -> Spec.used sv < 2 ^ 62 -> C < 2 ^ 62 ->
  exists h', (let! cap := capacity tsc in
              if 0 <? cap then mod_v (set_v_b (u64 cap))
              else mod_v (set_v_b 0) ;;!
                   mod_v (fun v => upd_stats (set_st_prev_usage (v_usage v)) v)) h
             = Ok (tt, h') /\
    represents (h_v h') sv /\ v_C (h_v h') = v_C (h_v h) /\
    v_b (h_v h') = Z.max 0 (Spec.available (tsc (h_clk h)) sv).
Proof.
  intros Hrep Hok Hu HC. unfold bind at 1. rewrite (capacity_refines C h sv) by done.
  assert (Spec.available (tsc (h_clk h)) sv < 2 ^ 64) as Hcap.
  { unfold Spec.available. pose proof Hok as [_ Hpos Hbud Hu0 _].
    destruct (Spec.repls sv) as [|[t b] s]; [lia|].
    destruct (budget_head _ _ _ Hpos) as (_ & ? & _). case_match; lia. }
  destruct (Z.ltb_spec 0 (Spec.available (tsc (h_clk h)) sv)); eexists; (split; [done|]).
  - split; [eapply represents_ext; [..|exact Hrep]; done|]. split; [done|].
    cbn [h_v ticked set_h_v set_v_b v_b]. rewrite u64_small by lia. lia.
  - split; [eapply represents_ext; [..|exact Hrep]; done|]. split; [done|].
    cbn. lia.
Qed.
End refines.

(** What [main_vcpu_end_timeslice] does after the elapsed cycles are added to
    the usage. *)
Definition after_charge (tsc : nat -> Z) : M hctx unit :=
  budget_check tsc ;;!
  let! v := get_v in
  when (negb (v_runnable v)) (split_check tsc) ;;!
  let! cap := capacity tsc in
  if 0 <? cap then mod_v (set_v_b (u64 cap))
  else
    mod_v (set_v_b 0) ;;!
    mod_v (fun v => upd_stats (set_st_prev_usage (v_usage v)) v).

Lemma end_timeslice_prologue tsc h sv tdelta :
  represents (h_v h) sv -> 0 <= Spec.used sv + tdelta < 2 ^ 64 ->
  exists h1, main_vcpu_end_timeslice tsc tdelta h = after_charge tsc h1 /\
    represents (h_v h1) (Spec.mkServer (Spec.repls sv) (Spec.used sv + tdelta)) /\
    v_T (h_v h1) = v_T (h_v h) /\ v_runnable (h_v h1) = v_runnable (h_v h) /\
    h_clk h1 = h_clk h.
Proof.
  intros (m & Em & HQ & E) Hu.
  set (v1 := let v := if v_b (h_v h) <? tdelta
               then upd_stats (set_st_sched_overhead (u64 (tdelta - v_b (h_v h)))) (h_v h)
               else h_v h in set_v_usage (u64 (v_usage v + tdelta)) v).
  exists (mkHctx v1 (h_clk h)
    (if v_b (h_v h) <? tdelta then u64 (tdelta - v_b (h_v h)) else h_overhead h)).
  split.
  { subst v1. unfold main_vcpu_end_timeslice, bind at 1, get_v at 1, gets.
    unfold bind at 1, when at 1. by destruct (_ <? _). }
  split; [|subst v1; by destruct (_ <? _)].
  exists m. subst v1. destruct (_ <? _); cbn; rewrite E, u64_small by lia; done.
Qed.

Lemma end_timeslice_correct tsc C h sv tdelta :
  represents (h_v h) sv -> server_ok C sv -> 0 <= tdelta ->
  within (v_T (h_v h)) (Spec.mkServer (Spec.repls sv) (Spec.used sv + tdelta)) ->
  let n := h_clk h in
  let sv' := Spec.end_timeslice (tsc n) (tsc (S n)) (v_T (h_v h)) tdelta
               (v_runnable (h_v h)) sv in
  exists h', main_vcpu_end_timeslice tsc tdelta h = Ok (tt, h') /\
    represents (h_v h') sv' /\ server_ok C sv' /\
    v_b (h_v h') =
      Z.max 0 (Spec.available (tsc (if v_runnable (h_v h) then S n else S (S n))) sv').
Proof.
  intros Hrep Hok Hd Hw n sv'. pose proof (wi_used _ _ Hw) as Hu.
  pose proof (wi_budget _ _ Hw) as HC. cbn [Spec.repls] in HC.
  rewrite (so_budget _ _ Hok) in HC.
  set (sv1 := Spec.mkServer (Spec.repls sv) (Spec.used sv + tdelta)) in *.
  assert (server_ok C sv1) as Hok1.
  { pose proof (so_used _ _ Hok). destruct Hok; split; simpl; try done; lia. }
  destruct (end_timeslice_prologue tsc h sv tdelta Hrep) as (h1 & -> & Hrep1 & ET & ER & En).
  { pose proof (so_used _ _ Hok1). subst sv1. simpl in *. lia. }
  unfold sv', n, Spec.end_timeslice. clear sv' n. fold sv1. rewrite <- En, <- ET. clear En.
  set (n := h_clk h1).
  rewrite <- ET in Hw.
  destruct (budget_check_refines tsc C h1 sv1 Hrep1 Hok1 Hw) as (v2 & E2 & Hup2).
  destruct (budget_check_ok C _ (tsc (h_clk h1)) sv1 Hok1 Hw) as [Hok2 Hlt2].
  pose proof (budget_check_times C _ (tsc (h_clk h1)) sv1 Hok1 Hw) as Ht2.
  set (sv2 := Spec.charge _ _ _) in *.
  destruct (updated_fields _ _ _ Hup2) as (ER2 & ET2 & _).
  apply updated_represents in Hup2.
  unfold after_charge. rewrite bind_Ok_eq with (1 := E2). unfold bind at 1, get_v at 1, gets. cbn [h_v ticked].
  rewrite ER2, ER. fold n in sv2. fold sv2.
  assert (Spec.used sv2 < 2 ^ 62) as Hu2.
  { destruct Hlt2 as (t & b & s & E & Hlt). pose proof (so_pos _ _ Hok2) as Hp.
    rewrite <- (so_budget _ _ Hok2), E in HC. rewrite E in Hp.
    destruct (budget_head _ _ _ Hp). lia. }
  destruct (v_runnable (h_v h)); cbn [negb when].
  - destruct (set_budget_refines tsc C (ticked 1 v2 h1) sv2 Hup2 Hok2 Hu2 HC)
      as (h' & E' & Hr' & _ & Hb'). exists h'. split; [exact E'|].
    split; [done|]. split; [done|]. rewrite Hb'. cbn. by rewrite Nat.add_1_r.
  - rewrite <- ET2 in Ht2. destruct Hw as [HT _ _ _]. rewrite <- ET2 in HT.
    destruct (split_check_refines tsc C (ticked 1 v2 h1) sv2 Hup2 Hok2 HC HT Ht2 Hlt2)
      as (v3 & E3 & Hup3).
    cbn [h_clk ticked h_v] in Hup3. rewrite Nat.add_1_r, ET2 in Hup3.
    pose proof (split_check_ok C (v_T (h_v h1)) (tsc (S n)) sv2 Hok2
      ltac:(by rewrite <- ET2) Hlt2) as Hok3.
    apply updated_represents in Hup3. rewrite bind_Ok_eq with (1 := E3).
    destruct (set_budget_refines tsc C (ticked 1 v3 (ticked 1 v2 h1)) _ Hup3 Hok3)
      as (h' & E' & Hr' & _ & Hb'); [|done|].
    { unfold Spec.split_used. repeat case_match; cbn; lia. }
    exists h'. split; [exact E'|]. split; [done|]. split; [done|]. rewrite Hb'. cbn.
    by rewrite !Nat.add_1_r.
Qed.

Lemma end_timeslice_used C now1 now2 T d r sv :
  server_ok C sv -> 0 <= d ->
  within T (Spec.mkServer (Spec.repls sv) (Spec.used sv + d)) ->
  Spec.used (Spec.end_timeslice now1 now2 T d r sv) < C.
Proof.
  intros Hok Hd Hw. unfold Spec.end_timeslice.
  set (sv1 := Spec.mkServer _ _) in *.
  assert (server_ok C sv1) as Hok1.
  { pose proof (so_used _ _ Hok). destruct Hok; split; simpl; try done; lia. }
  destruct (budget_check_ok C T now1 sv1 Hok1 Hw) as [Hok2 (t & b & s & E & Hlt)].
  set (sv2 := Spec.charge _ _ _) in *. pose proof (so_pos _ _ Hok2) as Hp.
  rewrite <- (so_budget _ _ Hok2). rewrite E in *. destruct (budget_head _ _ _ Hp).
  destruct r; [lia|]. unfold Spec.split_used. rewrite E.
  repeat case_match; cbn [Spec.used]; lia.
Qed.

(** The server a VCPU implements is unique. *)
Lemma rchain_det arr h l l' : rchain arr h l -> rchain arr h l' -> l = l'.
Proof.
  revert h l'. induction l as [|[i [t b]] l IH]; intros h [|[i' [t' b']] l']; cbn.
  - done.
  - by intros -> [? _].
  - by intros [-> _] ?.
  - intros (-> & n & Hi & Hl) ([= <-] & n' & Hi' & Hl'). rewrite Hi in Hi'.
    injection Hi' as <- <- <-. f_equal. by eapply IH.
Qed.

Lemma represents_det v sv sv' : represents v sv -> represents v sv' -> sv = sv'.
Proof.
  intros (m & Em & (l & Hl & El) & Eu) (m' & Em' & (l' & Hl' & El') & Eu').
  rewrite Em in Em'. injection Em' as <-.
  rewrite (rchain_det _ _ _ _ (rq_chain _ _ Hl) (rq_chain _ _ Hl')) in El.
  destruct sv, sv'; simpl in *; congruence.
Qed.

(** *** Runs of a server *)

(** What the scheduler does to one main VCPU: charge a timeslice, wake it up,
    refresh its budget, block it or make it runnable. *)
Inductive server_op :=
| OpEndTimeslice (tdelta : Z)
| OpUnblock
| OpUpdate (tcur : Z)
| OpSetRunnable (b : bool).

Definition run_op (tsc : nat -> Z) (o : server_op) : M hctx unit :=
  match o with
  | OpEndTimeslice d => main_vcpu_end_timeslice tsc d
  | OpUnblock => main_vcpu_unblock tsc
  | OpUpdate tcur => main_vcpu_update_replenishments tsc tcur
  | OpSetRunnable b => mod_v (set_v_runnable b)
  end.

(** The horizon at one operation: what it is about to charge keeps the times
    below 2^62, the clock is positive and below 2^62. *)
Definition op_within (tsc : nat -> Z) (h : hctx) (sv : Spec.server) (o : server_op) : Prop :=
  match o with
  | OpEndTimeslice d => 0 <= d /\
      within (v_T (h_v h)) (Spec.mkServer (Spec.repls sv) (Spec.used sv + d))
  | OpUnblock => 0 < tsc (S (h_clk h)) < 2 ^ 62
  | OpUpdate _ | OpSetRunnable _ => True
  end.

(** The states a server with budget [C] reaches. *)
Inductive server_run (tsc : nat -> Z) (C : Z) : hctx -> Prop :=
| run_start h sv :
    represents (h_v h) sv -> server_ok C sv -> Spec.used sv = 0 -> server_run tsc C h
| run_step h sv o h' :
    server_run tsc C h -> represents (h_v h) sv -> op_within tsc h sv o ->
    run_op tsc o h = Ok (tt, h') -> server_run tsc C h'.

Definition server_inv (C : Z) (h : hctx) (sv : Spec.server) : Prop :=
  represents (h_v h) sv /\ server_ok C sv /\ Spec.used sv < C.

Lemma run_op_ok tsc C h sv o :
  server_inv C h sv -> C < 2 ^ 62 -> op_within tsc h sv o ->
  exists h' sv', run_op tsc o h = Ok (tt, h') /\ server_inv C h' sv'.
Proof.
  intros (Hrep & Hok & Hu) HC Hw. destruct o as [d| |tcur|r]; cbn [run_op op_within] in *.
  - destruct Hw as [Hd Hw].
    destruct (end_timeslice_correct tsc C h sv d Hrep Hok Hd Hw) as (h' & E & Hr & Hk & _).
    eexists h', _. split; [exact E|]. split; [exact Hr|]. split; [exact Hk|].
    by apply end_timeslice_used.
  - destruct (unblock_check_refines tsc C h sv Hrep Hok HC ltac:(lia) Hw)
      as (v' & n & E & Hup).
    eexists _, _. split; [exact E|]. split; [by eapply updated_represents|].
    split; [apply unblock_check_ok; [done|lia]|].
    unfold Spec.advance. repeat case_match; done.
  - unfold main_vcpu_update_replenishments. unfold bind at 1.
    rewrite (capacity_refines tsc C h sv) by (done || lia).
    eexists _, sv. split; [done|]. split; [|done]. by eapply represents_ext; [..|exact Hrep].
  - eexists _, sv. split; [done|]. split; [|done]. by eapply represents_ext; [..|exact Hrep].
Qed.

Lemma server_run_inv tsc C h :
  server_run tsc C h -> 0 < C < 2 ^ 62 -> exists sv, server_inv C h sv.
Proof.
  intros Hrun HC. induction Hrun as [h sv Hrep Hok Hu|h sv o h' Hrun [sv0 IH] Hrep Hw E].
  - exists sv. split; [done|]. split; [done|]. lia.
  - rewrite <- (represents_det _ _ _ (proj1 IH) Hrep) in Hw.
    destruct (run_op_ok tsc C h sv0 o IH ltac:(lia) Hw) as (h1 & sv1 & E1 & Hinv).
    exists sv1. rewrite E1 in E. by injection E as <-.
Qed.

Lemma sorted_lookup s i j a b :
  sorted s -> (i < j)%nat -> s !! i = Some a -> s !! j = Some b -> fst a <= fst b.
Proof.
  intros Hs. revert i j. induction Hs as [|x s Hs IH Hx]; intros i j Hij Hi Hj; [done|].
  destruct j as [|j]; [lia|]. cbn in Hj. destruct i as [|i]; cbn in Hi.
  - injection Hi as ->. by eapply (Forall_lookup_1 _ _ _ _ Hx).
  - apply (IH i j); [lia|done|done].
Qed.

(** In a queue sorted by time the event found is the earliest one to come. *)
Lemma next_event_earliest now s :
  sorted s -> Forall (fun e => 0 < fst e) s -> 0 <= now ->
  let ev := Spec.next_event now (Spec.mkServer s 0) in
  (ev = 0 /\ Forall (fun e => fst e <= now) s) \/
  (now < ev /\ ev ∈ s.*1 /\ Forall (fun e => now < fst e -> ev <= fst e) s).
Proof.
  intros Hs Hpos Hnow. unfold Spec.next_event. cbn [Spec.repls].
  destruct (list_find _ s) as [[i [t b]]|] eqn:E; cbn.
  - right. apply list_find_Some in E as (Hi & Ht & Hmin). cbn in Ht. split; [done|].
    split; [apply list_elem_of_fmap; exists (t, b); split; [done|by eapply list_elem_of_lookup_2]|].
    apply Forall_lookup. intros j e Hj Hlt. 
    destruct (decide (j < i)%nat) as [Hji|Hji]; [by destruct (Hmin j e Hj Hji)|].
    destruct (decide (j = i)) as [->|]; [by simplify_eq|].
    eapply (sorted_lookup s i j (t, b) e Hs); [lia|done|done].
  - left. split; [done|]. apply list_find_None in E.
    eapply Forall_impl; [exact E|]. cbn. lia.
Qed.

(** ** Properties *)

(** [main_vcpu_next_event] walks the queue to its end at most and returns the
    earliest replenishment still to come, 0 when there is none. *)
Theorem main_next_event_earliest tsc h sv :
  represents (h_v h) sv -> sorted (Spec.repls sv) ->
  Forall (fun e => 0 < fst e) (Spec.repls sv) -> 0 <= tsc (h_clk h) ->
  exists ev, main_vcpu_next_event tsc h = Ok (ev, ticked 1 (h_v h) h) /\
    ((ev = 0 /\ Forall (fun e => fst e <= tsc (h_clk h)) (Spec.repls sv)) \/
     (tsc (h_clk h) < ev /\ ev ∈ (Spec.repls sv).*1 /\
      Forall (fun e => tsc (h_clk h) < fst e -> ev <= fst e) (Spec.repls sv))).
Proof.
  intros (m & Em & (l & HQ & Es) & _) Hs Hpos Hnow.
  pose proof (rq_rep_size (m_Q m) l.*2 ltac:(by exists l)) as [_ Hlen].
  rewrite length_fmap in Hlen.
  eexists. split; [|by apply next_event_earliest].
  unfold main_vcpu_next_event, bind, RDTSC, get_main, lift, ticked. cbn [h_v h_clk h_overhead].
  rewrite Em, (next_event_refines _ _ _ _ l (rq_chain _ _ HQ)), Nat.add_1_r, Es;
    [done|unfold MAX_REPL; lia].
Qed.

(** C4: along every run of a main VCPU, from an initial server and through any
    interleaving of timeslices, blocking, wake-ups and budget refreshes within the
    64-bit horizon, the queue is well-formed, its replenishments add up to [C] and
    less than [C] is left to charge; and the next operation always returns. *)
Theorem server_run_safe tsc C h :
  server_run tsc C h -> 0 < C < 2 ^ 62 ->
  exists sv, represents (h_v h) sv /\ server_ok C sv /\ Spec.used sv < C /\
    forall o, op_within tsc h sv o -> exists h', run_op tsc o h = Ok (tt, h').
Proof.
  intros Hrun HC. destruct (server_run_inv tsc C h Hrun HC) as [sv Hinv].
  pose proof Hinv as (Hrep & Hok & Hu). exists sv. do 3 (split; [done|]).
  intros o Hw. destruct (run_op_ok tsc C h sv o Hinv ltac:(lia) Hw) as (h' & ? & E & _).
  by exists h'.
Qed.

(** ** Witnesses: a server of 20 cycles every 100, replenished at time 5, that
    runs for 7 cycles and blocks. *)

Definition example_vcpu : vcpu :=
  mkVcpu MAIN_VCPU None false false 0 0 0 10 0 0 0 20 100 20 0
    (PMain (mkMain 0 example_queue)) zero_stats.
Definition example_h : hctx := mkHctx example_vcpu 0 0.
Definition example_clock (n : nat) : Z := 12 + Z.of_nat n.
Definition example_server : Spec.server := Spec.mkServer [(5, 20)] 0.

Lemma example_represents : represents example_vcpu example_server.
Proof. exists (mkMain 0 example_queue). repeat split. exact example_queue_rep. Qed.

Lemma example_server_ok : server_ok 20 example_server.
Proof. repeat constructor; simpl; lia || done. Qed.

Lemma example_within : within 100 (Spec.mkServer [(5, 20)] 7).
Proof. repeat constructor; vm_compute; done. Qed.

Lemma main_next_event_earliest_witness :
  exists ev, main_vcpu_next_event (fun _ => 3) example_h =
    Ok (ev, ticked 1 example_vcpu example_h) /\ ev ∈ [5].
Proof.
  destruct (main_next_event_earliest (fun _ => 3) example_h example_server
    example_represents) as (ev & E & [[_ H]|(_ & H & _)]);
    [repeat constructor | repeat constructor; simpl; lia | simpl; lia | | ].
  - apply Forall_inv in H. simpl in H. lia.
  - exists ev. split; [exact E | exact H].
Defined.

Lemma server_run_safe_witness :
  exists sv, represents example_vcpu sv /\ server_ok 20 sv.
Proof.
  destruct (server_run_safe example_clock 20 example_h) as (sv & H1 & H2 & _).
  - exact (run_start _ _ example_h example_server example_represents example_server_ok
             eq_refl).
  - lia.
  - exists sv. split; [exact H1 | exact H2].
Defined.
