(* ===== verification/MainDoc.v ===== *)
(** * Main VCPUs: the algorithms of docs/vcpu.tex

    [MainVcpu.Spec] describes what the code computes on the list of replenishments, in the
    order in which the code keeps them.  [Doc] is the description of docs/vcpu.tex, where
    the queue [V_R] is ordered by time, and [head] and [second] are the earliest
    replenishments: a replenishment whose time is changed takes its place in the order.
    The two agree while no change of a time makes a replenishment pass another one; the
    theorems say when that is, [overrun_overtakes] is a queue where it is not. *)

From Stdlib Require Import ZArith Lia.
From S2P Require Import Prelude ReplQueue Vcpu MainVcpu.
From stdpp Require Import base numbers strings list sets sorting.
Local Open Scope Z_scope.

(** ** The algorithms *)

Module Doc.
(** [V_R], ordered by time, and [V_u]. *)
Record server := mkServer { V_R : list repl; V_u : Z }.

Definition capacity (t_cur : Z) (V : server) : Z :=
  match V_R V with
  | (t, b) :: _ => if t_cur <? t then 0 else b - V_u V
  | [] => 0
  end.

(** Set [head_t(V)]. *)
Definition set_head_t (t : Z) (R : list repl) : list repl :=
  match R with (_, b) :: R' => rinsert (t, b) R' | [] => [] end.

(** Add to [head_b(V)]. *)
Definition add_head_b (b : Z) (R : list repl) : list repl :=
  match R with (t, b0) :: R' => (t, b0 + b) :: R' | [] => [] end.

(** Each round takes something off the usage, which bounds their number. *)
Fixpoint exhaust (fuel : nat) (T : Z) (V : server) : server :=
  match fuel, V_R V with
  | S fuel', (t, b) :: R =>
      if b <=? V_u V then exhaust fuel' T (mkServer (rinsert (t + T, b) R) (V_u V - b)) else V
  | _, _ => V
  end.

Definition overrun (V : server) : list repl :=
  if 0 <? V_u V then
    match V_R V with
    | (t, _) :: _ =>
        let R := set_head_t (t + V_u V) (V_R V) in
        match R with
        | (t1, b1) :: (t2, b2) :: R' =>
            if t2 <=? t1 + b1 then set_head_t t1 (add_head_b b1 ((t2, b2) :: R')) else R
        | _ => R
        end
    | [] => []
    end
  else V_R V.

Definition budget_check (t_cur T : Z) (V : server) : server :=
  if capacity t_cur V <=? 0 then
    let V' := exhaust (S (Z.to_nat (V_u V))) T V in
    mkServer (overrun V') (V_u V')
  else V.

(** [full] is the number of replenishments a queue has room for. *)
Definition split_check (full : nat) (t_cur T : Z) (V : server) : server :=
  match V_R V with
  | (t, b) :: R =>
      if (0 <? V_u V) && (t <=? t_cur) then
        let remnant := b - V_u V in
        let R1 := if (length (V_R V) =? full)%nat then add_head_b remnant R else (t, remnant) :: R in
        match R1 with
        | (t1, _) :: _ => mkServer (rinsert (t1 + T, V_u V) R1) 0
        | [] => V
        end
      else V
  | [] => V
  end.

(** The time is read anew for [budget-check], for [split-check] and for [V_b]. *)
Definition end_of_timeslice (t1 t2 t3 T dt : Z) (runnable : bool) (V : server) : server * Z :=
  let V := budget_check t1 T (mkServer (V_R V) (V_u V + dt)) in
  let V := if negb runnable && (0 <? capacity t2 V) then split_check 32 t2 T V else V in
  (V, if 0 <? capacity t3 V then capacity t3 V else 0).

Fixpoint unblock_merge (fuel : nat) (t_cur u : Z) (R : list repl) : list repl :=
  match fuel, R with
  | S fuel', (t, b) :: (t2, b2) :: R' =>
      if t2 <=? t_cur + b - u
      then unblock_merge fuel' t_cur u (set_head_t t_cur (add_head_b b ((t2, b2) :: R')))
      else R
  | _, _ => R
  end.

Definition unblock_check (t1 t2 : Z) (V : server) : server :=
  if 0 <? capacity t1 V
  then mkServer (unblock_merge (length (V_R V)) t2 (V_u V) (set_head_t t2 (V_R V))) (V_u V)
  else V.
End Doc.

(** The list of replenishments of [MainVcpu] as a server of the document. *)
Definition doc (sv : Spec.server) : Doc.server := Doc.mkServer (Spec.repls sv) (Spec.used sv).

(** When [budget-check] charges an overrun to the head, the head stays the earliest. *)
Definition overrun_in_order (t_cur T : Z) (V : Doc.server) : Prop :=
  Doc.capacity t_cur V <= 0 ->
  let V' := Doc.exhaust (S (Z.to_nat (Doc.V_u V))) T V in
  match Doc.V_R V' with
  | (t, _) :: (t2, _) :: _ => t + Doc.V_u V' <= t2
  | _ => True
  end.

(** ** The timeslice *)

Lemma exhaust_doc fuel T sv : doc (Spec.exhaust fuel T sv) = Doc.exhaust fuel T (doc sv).
Proof.
  revert sv. induction fuel as [|fuel IH]; intros [s u]; [done|].
  cbn. destruct s as [|[t b] s]; [done|]. cbn. destruct (b <=? u); [|done]. by rewrite IH.
Qed.

Lemma capacity_doc t sv : Spec.available t sv = Doc.capacity t (doc sv).
Proof. by destruct sv as [[|[]] ?]. Qed.

Lemma exhaust_sorted fuel T V : sorted (Doc.V_R V) -> sorted (Doc.V_R (Doc.exhaust fuel T V)).
Proof.
  revert V. induction fuel as [|fuel IH]; intros [R u] Hs; [done|]. cbn in *.
  destruct R as [|[t b] R]; [done|]. destruct (b <=? u); [|done]. apply IH, sorted_rinsert.
  by apply StronglySorted_inv in Hs as [].
Qed.

(** A time that is not later than the ones that follow goes to the front. *)
Lemma rinsert_head (e : repl) R : Forall (fun e' : repl => fst e <= fst e') R -> rinsert e R = e :: R.
Proof. destruct R as [|e' R]; [done|]. intros [He _]%Forall_cons. cbn. by rewrite (proj2 (Z.ltb_ge _ _)). Qed.

Lemma sorted_cons (e e' : repl) R : sorted (e' :: R) -> fst e <= fst e' -> Forall (fun x : repl => fst e <= fst x) (e' :: R).
Proof.
  intros [_ Hs]%StronglySorted_inv He. constructor; [done|]. eapply Forall_impl; [exact Hs|]. cbn. intros. lia.
Qed.

Lemma sorted_replace t b t0 b0 R : sorted ((t, b) :: R) -> t0 <= t -> sorted ((t0, b0) :: R).
Proof.
  intros [Hs Hf]%StronglySorted_inv Ht. constructor; [done|]. eapply Forall_impl; [exact Hf|]. cbn. intros. lia.
Qed.

Lemma overrun_doc sv :
  sorted (Spec.repls sv) -> 0 <= Spec.used sv ->
  match Spec.repls sv with (t, _) :: (t2, _) :: _ => t + Spec.used sv <= t2 | _ => True end ->
  Spec.overrun sv = Doc.overrun (doc sv) /\ sorted (Spec.overrun sv).
Proof.
  destruct sv as [s u]. cbn [Spec.repls Spec.used]. intros Hs Hu Hin. unfold Spec.overrun, Doc.overrun, doc.
  cbn [Spec.repls Spec.used Doc.V_R Doc.V_u]. destruct (Z.ltb_spec 0 u); [|done].
  destruct s as [|[t b] [|[t2 b2] s]]; [by repeat constructor|by repeat constructor|]. pose proof Hs as [Hs2 _]%StronglySorted_inv.
  assert (Doc.set_head_t (t + u) ((t, b) :: (t2, b2) :: s) = (t + u, b) :: (t2, b2) :: s) as ->
    by (apply rinsert_head, sorted_cons; [exact Hs2|exact Hin]).
  cbn zeta iota. destruct (Z.leb_spec t2 (t + u + b)).
  - cbn [Doc.set_head_t Doc.add_head_b Spec.merge]. rewrite rinsert_head; [|apply StronglySorted_inv in Hs2 as [_ Hs2]; eapply Forall_impl; [exact Hs2|]; cbn; intros; lia].
    split; [done|]. by eapply sorted_replace.
  - split; [done|]. constructor; [exact Hs2|]. apply (sorted_cons (t + u, b)); [exact Hs2|exact Hin].
Qed.

Lemma charge_doc C now T sv :
  server_ok C sv -> within T sv -> sorted (Spec.repls sv) -> overrun_in_order now T (doc sv) ->
  doc (Spec.charge now T sv) = Doc.budget_check now T (doc sv) /\ sorted (Spec.repls (Spec.charge now T sv)).
Proof.
  intros Hok Hw Hs Hin. unfold Spec.charge, Doc.budget_check. rewrite capacity_doc. unfold overrun_in_order in Hin.
  destruct (Z.leb_spec (Doc.capacity now (doc sv)) 0) as [Hc|]; [|done]. specialize (Hin Hc). cbn [Doc.V_u doc] in *.
  rewrite <- exhaust_doc in *. set (sv' := Spec.exhaust _ _ _) in *. cbn zeta in Hin. cbn [Doc.V_R Doc.V_u doc] in *.
  destruct (overrun_doc sv') as [E Hso]; [| |exact Hin|by rewrite <- E].
  - change (Spec.repls sv') with (Doc.V_R (doc sv')). unfold sv'. rewrite exhaust_doc. by apply exhaust_sorted.
  - by apply (so_used C), exhaust_ok.
Qed.

Lemma split_doc now T sv t b s :
  Spec.repls sv = (t, b) :: s -> Spec.used sv < b -> 0 <= T -> sorted (Spec.repls sv) ->
  doc (Spec.split_used now T sv) = (if 0 <? Doc.capacity now (doc sv) then Doc.split_check 32 now T (doc sv) else doc sv) /\
  sorted (Spec.repls (Spec.split_used now T sv)).
Proof.
  destruct sv as [r u]. cbn [Spec.repls Spec.used]. intros -> Hu HT Hs. unfold Spec.split_used, Doc.split_check, Doc.capacity, doc.
  cbn [Spec.repls Spec.used Doc.V_R Doc.V_u].
  destruct (Z.ltb_spec now t), (Z.leb_spec t now); try lia; rewrite ?andb_false_r, ?andb_true_r; [done|].
  rewrite (proj2 (Z.ltb_lt 0 (b - u))) by lia. destruct (Z.ltb_spec 0 u); [|done].
  pose proof Hs as [Hs2 Hf]%StronglySorted_inv.
  destruct (_ =? 32)%nat; [destruct s as [|[t2 b2] s]; [done|]|]; (split; [done|]); apply sorted_rinsert.
  - by eapply sorted_replace.
  - by eapply sorted_replace.
Qed.

(** *** Queues without overrun in the way

    Replenishments that do not overlap: each would be used up before the next one is due,
    and the last one before the first one recurs. *)
Fixpoint spaced (t_end : Z) (R : list repl) : Prop :=
  match R with
  | [] => True
  | [(t, b)] => t + b <= t_end
  | (t, b) :: ((t2, _) :: _) as R' => t + b <= t2 /\ spaced t_end R'
  end.

Lemma spaced_snoc t_end t b R : spaced t R -> t + b <= t_end -> 0 <= b -> spaced t_end (R ++ [(t, b)]).
Proof.
  intros Hs Ht Hb. induction R as [|[t1 b1] R IH]; [done|]. destruct R as [|[t2 b2] R]; [by split|].
  destruct Hs as [H1 H2]. split; [done|]. by apply IH.
Qed.

Lemma spaced_times t_end R : Forall (fun e : repl => 0 <= snd e) R -> spaced t_end R ->
  Forall (fun e : repl => fst e <= t_end) R.
Proof.
  induction R as [|[t b] R IH]; intros Hb Hs; [done|]. apply Forall_cons in Hb as [Hb0 Hb]. cbn in Hb0.
  destruct R as [|[t2 b2] R]; [repeat constructor; cbn in *; lia|]. destruct Hs as [H1 H2].
  specialize (IH Hb H2). constructor; [|done]. apply Forall_inv in IH. cbn in *. lia.
Qed.

Lemma rinsert_last (e : repl) R : Forall (fun e' : repl => fst e' < fst e) R -> rinsert e R = R ++ [e].
Proof.
  induction R as [|e' R IH]; [done|]. intros [He HR]%Forall_cons. cbn. rewrite (proj2 (Z.ltb_lt _ _)) by done. by rewrite IH.
Qed.

Lemma exhaust_spaced fuel T V t0 : 0 <= Doc.V_u V ->
  match Doc.V_R V with (t, _) :: _ => t = t0 | [] => True end ->
  Forall (fun e : repl => 0 < snd e) (Doc.V_R V) -> spaced (t0 + T) (Doc.V_R V) ->
  let V' := Doc.exhaust fuel T V in
  match Doc.V_R V' with
  | (t, b) :: _ => spaced (t + T) (Doc.V_R V') /\ Forall (fun e : repl => 0 < snd e) (Doc.V_R V')
  | [] => True
  end.
Proof.
  revert V t0. induction fuel as [|fuel IH]; intros [R u] t0 Hu Ht Hp Hs; cbn in *; destruct R as [|[t b] R]; try done.
  - by subst t0.
  - subst t0. destruct (Z.leb_spec b u); [|done]. cbn. apply Forall_cons in Hp as [Hb Hp]. cbn in Hb.
    destruct R as [|[t2 b2] R].
    + apply (IH _ (t + T)); cbn; [lia|done|by repeat constructor|]. cbn in Hs. lia.
    + destruct Hs as [H1 H2].
      assert (Forall (fun e : repl => fst e <= t + T) ((t2, b2) :: R)) as Htm.
      { apply spaced_times; [|done]. eapply Forall_impl; [exact Hp|]. cbn. intros. lia. }
      assert (Forall (fun e : repl => fst e < t + T) ((t2, b2) :: R)) as Htm'.
      { clear - Hp H2. revert t2 b2 Hp H2. induction R as [|[t3 b3] R IH]; intros t2 b2 Hp H2.
        - apply Forall_cons in Hp as [Hb _]. repeat constructor. cbn in *. lia.
        - apply Forall_cons in Hp as [Hb Hp]. destruct H2 as [H2 H3]. specialize (IH _ _ Hp H3).
          constructor; [|done]. apply Forall_inv in IH. cbn in *. lia. }
      rewrite rinsert_last by done.
      apply (IH _ t2); cbn [Doc.V_R Doc.V_u]; [lia|done|apply Forall_app; split; [done|by repeat constructor]|].
      apply spaced_snoc; [done|lia|lia].
Qed.

Lemma spaced_in_order C now T sv :
  server_ok C sv -> within T sv ->
  match Spec.repls sv with (t, _) :: _ => spaced (t + T) (Spec.repls sv) | [] => True end ->
  overrun_in_order now T (doc sv).
Proof.
  intros Hok Hw Hs _. destruct (exhaust_stops C T (S (Z.to_nat (Spec.used sv))) sv Hok Hw ltac:(lia)) as (t & b & s & E & Hlt).
  pose proof (exhaust_spaced (S (Z.to_nat (Spec.used sv))) T (doc sv)) as Hsp. cbn [Doc.V_u doc].
  rewrite <- exhaust_doc in *. cbn [doc Doc.V_R Doc.V_u] in *. rewrite E in *.
  pose proof (so_pos _ _ Hok) as Hpos. destruct (Spec.repls sv) as [|[t0 b0] s0] eqn:E0; [by destruct (so_nonempty _ _ Hok)|].
  destruct (Hsp t0) as [Hsp' _]; [apply Hok|done| |done|].
  - eapply Forall_impl; [exact Hpos|]. cbn. intros. lia.
  - destruct s as [|[t2 b2] s]; [done|]. destruct Hsp' as [? _]. lia.
Qed.

(** ** Waking up *)

Lemma rinsert_app (e : repl) D R : Forall (fun e' : repl => fst e <= fst e') R -> rinsert e (D ++ R) = rinsert e D ++ R.
Proof.
  intros HR. induction D as [|e' D IH]; [by apply rinsert_head|]. cbn. rewrite IH. by destruct (_ <? _).
Qed.

(** Merging what is due: the document merges the two earliest, the code the one it has
    moved to [now] with the next. *)
Lemma merge_due_doc fuel now u x D R :
  (now, x) ∈ D -> Forall (fun e : repl => fst e <= now /\ u <= snd e /\ 0 <= snd e) D -> Forall (fun e : repl => now <= fst e) R ->
  (length D <= fuel)%nat ->
  Doc.unblock_merge fuel now u (D ++ R) = Doc.unblock_merge (fuel - pred (length D)) now u ((now, budget D) :: R).
Proof.
  remember (length D) as n eqn:En. revert fuel x D En. induction n as [|n IH]; intros fuel x D En Hx HD HR Hf.
  { destruct D; [set_solver|done]. }
  destruct D as [|[t b] [|[t2 b2] D]]; [done| |].
  - apply list_elem_of_singleton in Hx. injection Hx as -> ->. cbn in En. injection En as ->. cbn.
    by rewrite Z.add_0_r, Nat.sub_0_r.
  - destruct fuel as [|fuel]; [lia|]. cbn in En. injection En as En. cbn [app Doc.unblock_merge].
    apply Forall_cons in HD as [Hb HD]. apply Forall_cons in HD as [Hb2 HD]. cbn in Hb, Hb2.
    rewrite (proj2 (Z.leb_le t2 (now + b - u))) by lia. cbn [Doc.add_head_b Doc.set_head_t].
    rewrite rinsert_app by done. rewrite (IH fuel (b2 + b)).
    + rewrite budget_rinsert. cbn [budget foldr snd]. fold (budget D). subst n.
      replace (S fuel - pred (S (S (length D))))%nat with (fuel - pred (S (length D)))%nat by (cbn; lia).
      by replace (b2 + b + budget D) with (b + (b2 + budget D)) by lia.
    + rewrite rinsert_length. by subst n.
    + rewrite rinsert_perm. set_solver.
    + apply Forall_rinsert; [done|]. cbn. lia.
    + done.
    + lia.
Qed.

Lemma merge_due_code fuel now u b D R :
  u <= b -> Forall (fun e : repl => fst e <= now /\ 0 <= snd e) D -> (length D <= fuel)%nat ->
  Spec.unblock_merge fuel now u ((now, b) :: D ++ R) = Spec.unblock_merge (fuel - length D) now u ((now, b + budget D) :: R).
Proof.
  revert fuel b. induction D as [|[t2 b2] D IH]; intros fuel b Hb HD Hf.
  { cbn. by rewrite Z.add_0_r, Nat.sub_0_r. }
  destruct fuel as [|fuel]; [cbn in Hf; lia|]. apply Forall_cons in HD as [Hb2 HD]. cbn in Hb2. cbn [app Spec.unblock_merge].
  rewrite (proj2 (Z.leb_le t2 (now + b - u))) by lia. rewrite IH; [|lia|done|cbn in Hf; lia].
  cbn [budget foldr snd length Nat.sub]. fold (budget D). by replace (b2 + b + budget D) with (b + (b2 + budget D)) by lia.
Qed.

(** What is not due is merged in the same way. *)
Lemma merge_rest fuel now u b R : Forall (fun e : repl => now <= fst e) R ->
  Doc.unblock_merge fuel now u ((now, b) :: R) = Spec.unblock_merge fuel now u ((now, b) :: R).
Proof.
  revert b R. induction fuel as [|fuel IH]; intros b R HR; [done|]. destruct R as [|[t2 b2] R]; [done|].
  cbn. destruct (_ <=? _); [|done]. apply Forall_cons in HR as [_ HR]. rewrite rinsert_head by done. by apply IH.
Qed.

Lemma merge_fuel fuel fuel' now u t b R : (length R <= fuel)%nat -> (length R <= fuel')%nat ->
  Spec.unblock_merge fuel now u ((t, b) :: R) = Spec.unblock_merge fuel' now u ((t, b) :: R).
Proof.
  revert fuel fuel' t b. induction R as [|[t2 b2] R IH]; intros [|fuel] [|fuel'] t b Hf Hf'; cbn in *; try done; try lia.
  destruct (_ <=? _); [|done]. apply IH; lia.
Qed.

Lemma unblock_merge_sorted fuel now u b R : sorted R -> Forall (fun e : repl => now <= fst e) R ->
  sorted (Spec.unblock_merge fuel now u ((now, b) :: R)).
Proof.
  revert b R. induction fuel as [|fuel IH]; intros b R Hs HR; [by constructor|]. destruct R as [|[t2 b2] R]; [by repeat constructor|].
  cbn. destruct (_ <=? _); [|by constructor]. apply IH; [by apply StronglySorted_inv in Hs as []|by apply Forall_cons in HR as []].
Qed.

(** A sorted queue is what is due, followed by the rest. *)
Lemma split_due now R : sorted R -> exists D R', R = D ++ R' /\ Forall (fun e : repl => fst e <= now) D /\
  Forall (fun e : repl => now <= fst e) R' /\ sorted R'.
Proof.
  induction R as [|e R IH]; intros Hs; [by exists [], []|]. pose proof Hs as [Hs' Hf]%StronglySorted_inv.
  destruct (Z.le_gt_cases (fst e) now) as [He|He].
  - destruct (IH Hs') as (D & R' & -> & HD & HR & HsR). exists (e :: D), R'. split; [done|]. split; [by constructor|]. by split.
  - exists [], (e :: R). split; [done|]. split; [done|]. split; [|done]. constructor; [lia|].
    eapply Forall_impl; [exact Hf|]. cbn. intros. lia.
Qed.

Lemma advance_doc C now1 now2 sv :
  server_ok C sv -> sorted (Spec.repls sv) ->
  Forall (fun e : repl => fst e <= now2 -> Spec.used sv <= snd e) (Spec.repls sv) ->
  doc (Spec.advance now1 now2 sv) = Doc.unblock_check now1 now2 (doc sv) /\ sorted (Spec.repls (Spec.advance now1 now2 sv)).
Proof.
  intros Hok Hs Hdue. unfold Spec.advance, Doc.unblock_check. rewrite capacity_doc.
  destruct (Z.ltb_spec 0 (Doc.capacity now1 (doc sv))) as [Hc|]; [|done].
  pose proof (so_pos _ _ Hok) as Hpos. pose proof (so_size _ _ Hok) as Hsize. destruct sv as [s u]. cbn in Hs, Hdue, Hpos, Hsize, Hc.
  destruct s as [|[t b] s]; [done|]. cbn in Hc. destruct (now1 <? t) in Hc; [lia|].
  pose proof Hs as [Hs2 _]%StronglySorted_inv. destruct (split_due now2 s Hs2) as (D & R & -> & HD & HR & HsR).
  apply Forall_cons in Hdue as [_ [HdD _]%Forall_app]. apply Forall_cons in Hpos as [Hb [HpD _]%Forall_app]. cbn in Hb.
  assert (Forall (fun e : repl => fst e <= now2 /\ u <= snd e /\ 0 <= snd e) D) as HD'.
  { apply Forall_forall. intros e He. rewrite Forall_forall in HD, HdD, HpD. specialize (HD e He). specialize (HpD e He).
    split; [done|]. split; [by apply HdD|lia]. }
  cbn [Spec.repls Spec.used doc Doc.V_R Doc.V_u Doc.set_head_t length] in *. rewrite length_app in *.
  rewrite rinsert_app by done. rewrite (merge_due_doc _ _ _ b); [| | |done|].
  - rewrite merge_due_code; [|lia|by eapply Forall_impl; [exact HD'|]; cbn; intros; lia|lia].
    rewrite budget_rinsert, rinsert_length, merge_rest by done. cbn [snd pred].
    split; [|by apply unblock_merge_sorted]. unfold doc. cbn [Spec.repls Spec.used]. f_equal. apply merge_fuel; lia.
  - rewrite rinsert_perm. set_solver.
  - apply Forall_rinsert; [done|]. cbn. lia.
  - rewrite rinsert_length. lia.
Qed.

Lemma positive_part c : (if 0 <? c then c else 0) = Z.max 0 c.
Proof. destruct (Z.ltb_spec 0 c); lia. Qed.

Lemma charged_ok C sv dt : server_ok C sv -> 0 <= dt -> server_ok C (Spec.mkServer (Spec.repls sv) (Spec.used sv + dt)).
Proof. intros [] Hd. split; simpl; try done. lia. Qed.

(** ** Theorems *)

(** C3: [main_vcpu_end_timeslice] is the algorithm of docs/vcpu.tex, whose queue is ordered
    by time, on a queue that is in order, provided that a charged overrun does not carry the
    earliest replenishment past the second one ([spaced_in_order]: it does not when
    replenishments do not overlap): every loop terminates and no pointer is null, the queue,
    the usage and the budget [b] are those of the algorithm, the queue is in order again and
    the replenishments still add up to [C]. *)
Theorem main_end_timeslice_implements tsc C h sv dt :
  represents (h_v h) sv -> server_ok C sv -> 0 <= dt ->
  within (v_T (h_v h)) (Spec.mkServer (Spec.repls sv) (Spec.used sv + dt)) ->
  sorted (Spec.repls sv) ->
  overrun_in_order (tsc (h_clk h)) (v_T (h_v h)) (Doc.mkServer (Spec.repls sv) (Spec.used sv + dt)) ->
  exists h' sv', main_vcpu_end_timeslice tsc dt h = Ok (tt, h') /\
    represents (h_v h') sv' /\ server_ok C sv' /\ sorted (Spec.repls sv') /\
    (doc sv', v_b (h_v h')) =
      Doc.end_of_timeslice (tsc (h_clk h)) (tsc (S (h_clk h)))
        (tsc (if v_runnable (h_v h) then S (h_clk h) else S (S (h_clk h))))
        (v_T (h_v h)) dt (v_runnable (h_v h)) (doc sv).
Proof.
  intros Hrep Hok Hdt Hw Hs Hin.
  destruct (end_timeslice_correct tsc C h sv dt Hrep Hok Hdt Hw) as (h' & E & Hr' & Hok' & Hb).
  pose proof (charged_ok C sv dt Hok Hdt) as Hok1.
  destruct (charge_doc C (tsc (h_clk h)) _ _ Hok1 Hw Hs Hin) as [Ec Hsc].
  destruct (budget_check_ok C _ (tsc (h_clk h)) _ Hok1 Hw) as [_ (t & b & s & Er & Hlt)].
  destruct (split_doc (tsc (S (h_clk h))) (v_T (h_v h)) _ t b s Er Hlt (wi_T _ _ Hw) Hsc) as [Es Hss].
  eexists h', _. split; [exact E|]. split; [exact Hr'|]. split; [exact Hok'|].
  unfold Doc.end_of_timeslice. cbn zeta. change (Doc.mkServer (Doc.V_R (doc sv)) (Doc.V_u (doc sv) + dt))
    with (doc (Spec.mkServer (Spec.repls sv) (Spec.used sv + dt))).
  rewrite <- Ec, Hb, capacity_doc. unfold Spec.end_timeslice.
  destruct (v_runnable (h_v h)); cbn [negb andb]; [|rewrite <- Es]; by rewrite positive_part.
Qed.

(** C31: Waking up a blocked main VCPU is [unblock-check] of docs/vcpu.tex on a queue that
    is in order, if every replenishment that is due holds at least the usage that is not
    yet charged (it does when the VCPU has blocked with nothing left to charge): with budget
    available the earliest replenishment moves to now and all that are due by the time it
    is used up are merged with it; the queue stays in order and adds up to [C]. *)
Theorem main_unblock_implements tsc C h sv :
  represents (h_v h) sv -> server_ok C sv -> C < 2 ^ 62 -> Spec.used sv < 2 ^ 62 ->
  0 < tsc (S (h_clk h)) < 2 ^ 62 -> sorted (Spec.repls sv) ->
  Forall (fun r => fst r <= tsc (S (h_clk h)) -> Spec.used sv <= snd r) (Spec.repls sv) ->
  exists v' n sv', main_vcpu_unblock tsc h = Ok (tt, ticked n v' h) /\
    updated (h_v h) sv' v' /\ server_ok C sv' /\ sorted (Spec.repls sv') /\
    doc sv' = Doc.unblock_check (tsc (h_clk h)) (tsc (S (h_clk h))) (doc sv).
Proof.
  intros Hrep Hok HC Hu Hnow Hs Hdue.
  destruct (unblock_check_refines tsc C h sv Hrep Hok HC Hu Hnow) as (v' & n & E & Hup).
  destruct (advance_doc C (tsc (h_clk h)) (tsc (S (h_clk h))) sv Hok Hs Hdue) as [Ed Hsd].
  eexists v', n, _. split; [exact E|]. split; [exact Hup|]. split; [apply unblock_check_ok; [done|lia]|]. by split.
Qed.

(** A queue where an overrun of 4 carries the head past the second replenishment: the code
    keeps the head and takes the second into it, at the later time. *)
Example overrun_overtakes :
  Spec.repls (Spec.charge 10 100 (Spec.mkServer [(10, 5); (12, 5); (13, 10); (14, 3)] 9)) =
    [(16, 15); (14, 3); (110, 5)] /\
  Doc.V_R (Doc.budget_check 10 100 (Doc.mkServer [(10, 5); (12, 5); (13, 10); (14, 3)] 9)) =
    [(13, 13); (16, 5); (110, 5)].
Proof. split; vm_compute; reflexivity. Qed.

(** ** Witnesses: a server of 20 cycles every 100, replenished at time 5, that runs for 7
    cycles and blocks, and is woken up. *)

Lemma main_end_timeslice_implements_witness :
  exists h', main_vcpu_end_timeslice example_clock 7 example_h = Ok (tt, h') /\
    represents (h_v h') (Spec.mkServer [(5, 13); (105, 7)] 0) /\ v_b (h_v h') = 13.
Proof.
  destruct (main_end_timeslice_implements example_clock 20 example_h example_server 7
    example_represents example_server_ok ltac:(lia) example_within)
    as (h' & [R u] & E & Hr & _ & _ & Ed).
  - repeat constructor.
  - intros _. exact I.
  - exists h'. split; [exact E|]. injection Ed as -> -> Hb. split; [exact Hr|exact Hb].
Defined.

Lemma main_unblock_implements_witness :
  exists v' n, main_vcpu_unblock example_clock example_h = Ok (tt, ticked n v' example_h) /\
    updated example_vcpu (Spec.mkServer [(13, 20)] 0) v'.
Proof.
  destruct (main_unblock_implements example_clock 20 example_h example_server
    example_represents example_server_ok) as (v' & n & [R u] & E & Hup & _ & _ & Ed);
    [lia|vm_compute; reflexivity|split; vm_compute; reflexivity|repeat constructor| |].
  - repeat constructor; cbn; lia.
  - exists v', n. split; [exact E|]. injection Ed as -> ->. exact Hup.
Defined.
