(* ===== verification/IoVcpu.v ===== *)
(** * I/O VCPUs: priority-inheritance bandwidth-preserving servers

    The [IO_VCPU] section of [sched/vcpu.c].  [Pibs] states the algorithms of
    docs/vcpu.tex on unbounded integers, with the single replenishment as an
    option; the code keeps it in [io.r], unused when its time is 0.

    The theorems show that the hooks compute the specification, that the budget
    never exceeds [Cmax = T * U] while the period is not changed, and that the
    eligibility time runs ahead of the cycles charged at the rate [U]. *)

From Stdlib Require Import ZArith Lia.
From S2P Require Import Prelude Div64 ReplQueue Vcpu.
From stdpp Require Import base numbers list.
Local Open Scope Z_scope.

(** ** Operations *)

Definition set_io_e (x : Z) (i : io_part) : io_part :=
  mkIo x (io_r_t i) (io_r_b i) (io_Unum i) (io_Uden i) (io_budgeted i) (io_class i).
Definition set_io_r_t (x : Z) (i : io_part) : io_part :=
  mkIo (io_e i) x (io_r_b i) (io_Unum i) (io_Uden i) (io_budgeted i) (io_class i).
Definition set_io_r_b (x : Z) (i : io_part) : io_part :=
  mkIo (io_e i) (io_r_t i) x (io_Unum i) (io_Uden i) (io_budgeted i) (io_class i).
Definition set_io_budgeted (x : bool) (i : io_part) : io_part :=
  mkIo (io_e i) (io_r_t i) (io_r_b i) (io_Unum i) (io_Uden i) x (io_class i).

Definition mod_io (f : io_part -> io_part) : M hctx unit :=
  let! i := get_io in put_io (f i).

Definition io_vcpu_update_replenishments (tcur : Z) : M hctx unit :=
  let! i := get_io in
  when (negb (io_r_t i =? 0) && (io_r_t i <=? tcur))
    (mod_v (set_v_b (io_r_b i)) ;;!
     mod_io (set_io_r_t 0)).

Definition io_vcpu_next_event : M hctx Z :=
  let! i := get_io in ret (io_r_t i).

(** The branch of [io_vcpu_end_timeslice] for a VCPU blocked or out of budget. *)
Definition io_exhausted : M hctx unit :=
  let! v := get_v in
  let! i := get_io in
  let! q := lift (div64_64 (u64 (v_usage v * io_Uden i)) (io_Unum i)) in
  mod_io (fun i => set_io_e (u64 (io_e i + q)) i) ;;!
  let! i := get_io in
  (if io_r_t i =? 0 then
     mod_io (fun i => set_io_r_t (io_e i) i) ;;!
     let! b := lift (div64_64 (u64 (v_T v * io_Unum i)) (io_Uden i)) in
     mod_io (set_io_r_b b)
   else mod_io (fun i => set_io_r_t (io_e i) i)) ;;!
  mod_v (fun v => upd_stats (set_st_prev_usage (v_usage v)) v) ;;!
  mod_v (set_v_usage 0) ;;!
  mod_v (set_v_b 0) ;;!
  when (negb (v_runnable v)) (mod_io (set_io_budgeted false)).

Definition io_vcpu_end_timeslice (tdelta : Z) : M hctx unit :=
  let! v := get_v in
  let! u :=
    (if v_b v <? tdelta then
       mod_v (upd_stats (set_st_sched_overhead (u64 (tdelta - v_b v)))) ;;!
       modify (set_h_overhead (u64 (tdelta - v_b v))) ;;!
       ret (v_b v)
     else ret tdelta) in
  mod_v (fun v => set_v_b (u64 (v_b v - u)) v) ;;!
  mod_v (fun v => set_v_usage (u64 (v_usage v + tdelta)) v) ;;!
  let! v := get_v in
  when (negb (v_runnable v) || (v_b v <=? 0)) io_exhausted.

Definition io_vcpu_unblock (tsc : nat -> Z) : M hctx unit :=
  let! now := RDTSC tsc in
  let! i := get_io in
  when (negb (io_budgeted i) && (io_e i <? now)) (mod_io (set_io_e now)) ;;!
  let! v := get_v in
  let! i := get_io in
  let! Cmax := lift (div64_64 (u64 (v_T v * io_Unum i)) (io_Uden i)) in
  (if io_r_t i =? 0 then
     when (negb (io_budgeted i))
       (mod_io (fun i => set_io_r_t (io_e i) i) ;;!
        mod_io (set_io_r_b Cmax))
   else mod_io (set_io_r_b Cmax)) ;;!
  mod_io (set_io_budgeted true).

(** ** The specification *)

Module Pibs.
(** Period and utilisation [U = num / den]. *)
Record params := mkParams { T : Z; num : Z; den : Z }.

Definition Cmax (p : params) : Z := T p * num p / den p.

Record server := mkServer {
  b : Z;                        (* budget *)
  u : Z;                        (* usage not yet charged *)
  e : Z;                        (* eligibility time *)
  r : option (Z * Z);           (* replenishment: time, amount *)
  budgeted : bool
}.

Definition update_budget (tcur : Z) (v : server) : server :=
  match r v with
  | Some (t, amount) =>
      if t <=? tcur then mkServer amount (u v) (e v) None (budgeted v) else v
  | None => v
  end.

Definition end_of_timeslice (p : params) (runnable : bool) (d : Z) (v : server) : server :=
  let b' := Z.max 0 (b v - d) in
  let u' := u v + d in
  if negb runnable || (b' =? 0) then
    let e' := e v + u' * den p / num p in
    mkServer 0 0 e'
      (Some (e', match r v with None => Cmax p | Some (_, amount) => amount end))
      (if runnable then budgeted v else false)
  else mkServer b' u' (e v) (r v) (budgeted v).

Definition unblock (p : params) (now : Z) (v : server) : server :=
  let e' := if negb (budgeted v) && (e v <? now) then now else e v in
  let r' := match r v with
            | None => if budgeted v then None else Some (e', Cmax p)
            | Some (t, _) => Some (t, Cmax p)
            end in
  mkServer (b v) (u v) e' r' true.
End Pibs.

(** ** Invariant *)

Record pibs_params (p : Pibs.params) : Prop := {
  pp_T : 0 <= Pibs.T p < 2 ^ 64;
  pp_num : 0 < Pibs.num p < 2 ^ 32;
  pp_den : 0 < Pibs.den p < 2 ^ 32;
  pp_Cmax : Pibs.T p * Pibs.num p < 2 ^ 64
}.

(** The budget, and the one a replenishment would give, are at most [Cmax]. *)
Record pibs_ok (p : Pibs.params) (v : Pibs.server) : Prop := {
  po_b : 0 <= Pibs.b v <= Pibs.Cmax p;
  po_u : 0 <= Pibs.u v;
  po_e : 0 <= Pibs.e v;
  po_r : forall t a, Pibs.r v = Some (t, a) -> 0 < t /\ 0 <= a <= Pibs.Cmax p
}.

Lemma Cmax_nonneg p : pibs_params p -> 0 <= Pibs.Cmax p.
Proof. intros [HT Hn Hd _]. apply Z.div_pos; nia. Qed.

Lemma Cmax_64 p : pibs_params p -> Pibs.Cmax p < 2 ^ 64.
Proof.
  intros [HT Hn Hd HC]. unfold Pibs.Cmax. apply Z.div_lt_upper_bound; nia.
Qed.

Lemma pibs_update_ok p tcur v : pibs_ok p v -> pibs_ok p (Pibs.update_budget tcur v).
Proof.
  intros [Hb Hu He Hr]. unfold Pibs.update_budget.
  destruct (Pibs.r v) as [[t a]|] eqn:E; [|by split; rewrite ?E].
  destruct (t <=? tcur); [|by split; rewrite ?E].
  destruct (Hr t a eq_refl). split; simpl; done.
Qed.

Lemma pibs_end_ok p runnable d v :
  pibs_params p -> pibs_ok p v -> 0 <= d -> 0 < Pibs.e v ->
  pibs_ok p (Pibs.end_of_timeslice p runnable d v) /\
  Pibs.e v <= Pibs.e (Pibs.end_of_timeslice p runnable d v).
Proof.
  intros Hp [Hb Hu He Hr] Hd He0. unfold Pibs.end_of_timeslice.
  pose proof (Cmax_nonneg p Hp). destruct Hp as [HT Hn Hdn HC].
  assert (0 <= (Pibs.u v + d) * Pibs.den p / Pibs.num p) by (apply Z.div_pos; nia).
  destruct (_ || _); (split; [split|]); simpl; try lia; try done.
  intros t a [= <- <-]. split; [lia|].
  destruct (Pibs.r v) as [[t' a']|] eqn:E; [|lia]. by destruct (Hr t' a' eq_refl).
Qed.

Lemma pibs_unblock_ok p now v :
  pibs_params p -> pibs_ok p v -> 0 < now ->
  pibs_ok p (Pibs.unblock p now v) /\ Pibs.e v <= Pibs.e (Pibs.unblock p now v) /\
  (Pibs.budgeted v = false -> now <= Pibs.e (Pibs.unblock p now v)).
Proof.
  intros Hp [Hb Hu He Hr] Hnow. pose proof (Cmax_nonneg p Hp). unfold Pibs.unblock.
  destruct (Pibs.budgeted v), (Z.ltb_spec (Pibs.e v) now); cbn [negb andb];
    (split; [split|]); simpl; try lia; try done;
    intros t a Ha; destruct (Pibs.r v) as [[t' a']|] eqn:E; simplify_eq; try lia;
    destruct (Hr t a' eq_refl); lia.
Qed.

(** ** Refinement *)

(** [i] stores the replenishment [r]. *)
Definition stores_r (i : io_part) (r : option (Z * Z)) : Prop :=
  match r with
  | None => io_r_t i = 0
  | Some (t, a) => io_r_t i = t /\ t <> 0 /\ io_r_b i = a
  end.

(** The fields of the VCPU [v], with I/O part [i], are those of [sv]. *)
Record io_fields (p : Pibs.params) (v : vcpu) (i : io_part) (sv : Pibs.server) : Prop := {
  if_T : v_T v = Pibs.T p;
  if_num : io_Unum i = Pibs.num p;
  if_den : io_Uden i = Pibs.den p;
  if_b : v_b v = Pibs.b sv;
  if_u : v_usage v = Pibs.u sv;
  if_e : io_e i = Pibs.e sv;
  if_budgeted : io_budgeted i = Pibs.budgeted sv;
  if_r : stores_r i (Pibs.r sv)
}.

(** The VCPU [v] implements the server [sv] with the parameters [p]. *)
Definition io_represents (p : Pibs.params) (v : vcpu) (sv : Pibs.server) : Prop :=
  exists i, v_part v = PIo i /\ io_fields p v i sv.

(** Running the accessors on a known I/O part. *)
Lemma get_io_ok h i : v_part (h_v h) = PIo i -> get_io h = Ok (i, h).
Proof. unfold get_io. by intros ->. Qed.

Lemma mod_io_ok h i f :
  v_part (h_v h) = PIo i -> mod_io f h = Ok (tt, set_h_v (set_v_part (PIo (f i)) (h_v h)) h).
Proof. intros E. unfold mod_io. by rewrite (bind_Ok_eq _ _ _ _ _ (get_io_ok h i E)). Qed.

(** [io_run] runs a hook on a VCPU given field by field, up to its arithmetic;
    [io_fields_tac] compares the fields of the result. *)
Ltac io_run :=
  cbv -[div64_64 u64 Z.ltb Z.eqb Z.leb Z.mul Z.add Z.sub Z.max Z.div Z.lt Z.le not io_represents
        Pibs.T Pibs.num Pibs.den Pibs.Cmax]; cbv beta iota.
Ltac io_fields_tac :=
  eexists; (split; [reflexivity|]); split; cbn; try reflexivity.

Lemma io_update_refines p h sv tcur :
  io_represents p (h_v h) sv -> 
  exists h', io_vcpu_update_replenishments tcur h = Ok (tt, h') /\
    io_represents p (h_v h') (Pibs.update_budget tcur sv).
Proof.
  intros Hrep. pose proof Hrep as (i & E & []). unfold io_vcpu_update_replenishments.
  rewrite (bind_Ok_eq _ _ _ _ _ (get_io_ok h i E)). unfold Pibs.update_budget.
  destruct (Pibs.r sv) as [[t a]|] eqn:Er; cbn [stores_r] in if_r0.
  - destruct if_r0 as (-> & Ht & Ha). destruct (Z.eqb_spec t 0); [done|]. cbn [negb andb].
    destruct (t <=? tcur); cbn [when].
    + unfold bind, mod_v, modify, mod_io, bind, get_io, put_io, mod_v, modify. cbn.
      rewrite E. cbn. eexists. split; [done|]. eexists. split; [done|].
      by split; cbn.
    + by exists h.
  - rewrite if_r0. by exists h.
Qed.

(** The quotients by the utilisation fraction are exact: [Unum] and [Uden] are
    32-bit integers. *)
Lemma Cmax_div p T num den :
  pibs_params p -> T = Pibs.T p -> num = Pibs.num p -> den = Pibs.den p ->
  div64_64 (u64 (T * num)) den = Ok (Pibs.Cmax p).
Proof.
  intros [HT Hn Hd HC] -> -> ->. rewrite u64_small by nia.
  rewrite div64_64_small by nia. done.
Qed.

Lemma io_unblock_refines tsc p h sv :
  pibs_params p -> io_represents p (h_v h) sv -> pibs_ok p sv -> 0 < tsc (h_clk h) ->
  exists h', io_vcpu_unblock tsc h = Ok (tt, h') /\
    io_represents p (h_v h') (Pibs.unblock p (tsc (h_clk h)) sv) /\
    h_clk h' = S (h_clk h).
Proof.
  intros Hp (i & E & [ET En Ed Eb Eu Ee Ebu Er]) [Hb Hu He Hr] Hnow.
  pose proof (Cmax_div p _ _ _ Hp ET En Ed) as HC.
  destruct sv as [b u e r bu], h as [v clk oh], v, i. cbn in *. subst.
  destruct r as [[t a]|]; cbn in Er; [destruct Er as (-> & Ht & ->)|subst];
    destruct bu; io_run; destruct (Z.ltb_spec e (tsc clk)); io_run; rewrite ?HC; io_run;
    try (destruct (Z.eqb_spec t 0); [done|]; io_run);
    eexists; (split; [reflexivity|]); (split; [|done]); io_fields_tac; lia.
Qed.

(** The I/O part after the VCPU blocked or ran out of budget. *)
Definition exhausted_part (i : io_part) (q c : Z) (runnable : bool) : io_part :=
  let e := u64 (io_e i + q) in
  mkIo e e (if io_r_t i =? 0 then c else io_r_b i) (io_Unum i) (io_Uden i)
    (if runnable then io_budgeted i else false) (io_class i).

Lemma io_exhausted_run h i q c :
  v_part (h_v h) = PIo i ->
  div64_64 (u64 (v_usage (h_v h) * io_Uden i)) (io_Unum i) = Ok q ->
  div64_64 (u64 (v_T (h_v h) * io_Unum i)) (io_Uden i) = Ok c ->
  exists st, io_exhausted h =
    Ok (tt, set_h_v (set_v_part (PIo (exhausted_part i q c (v_runnable (h_v h))))
                       (set_v_b 0 (set_v_usage 0 (set_v_stats st (h_v h))))) h).
Proof.
  intros E Hq Hc. destruct h as [v clk oh], v, i. cbn in *. subst.
  eexists. destruct v_runnable; io_run; rewrite Hq; io_run;
    destruct (io_r_t =? 0); io_run; rewrite ?Hc; io_run; reflexivity.
Qed.

(** The accounting at the start of [io_vcpu_end_timeslice]. *)
Lemma io_end_timeslice_prologue h tdelta :
  0 <= v_b (h_v h) < 2 ^ 64 -> 0 <= tdelta ->
  exists st oh,
    let v1 := set_v_usage (u64 (v_usage (h_v h) + tdelta))
                (set_v_b (Z.max 0 (v_b (h_v h) - tdelta)) (set_v_stats st (h_v h))) in
    io_vcpu_end_timeslice tdelta h =
    when (negb (v_runnable (h_v h)) || (Z.max 0 (v_b (h_v h) - tdelta) =? 0)) io_exhausted
      (mkHctx v1 (h_clk h) oh).
Proof.
  intros Hb Hd. destruct h as [v clk oh], v. cbn in *.
  unfold io_vcpu_end_timeslice, bind at 1, get_v at 1, gets. cbn [h_v Vcpu.v_b].
  destruct (Z.ltb_spec v_b tdelta).
  - rewrite Z.max_l by lia. eexists _, _. cbn. rewrite u64_small by lia.
    by rewrite Z.sub_diag.
  - rewrite Z.max_r by lia. eexists _, oh. cbn. rewrite (u64_small (v_b - tdelta)) by lia.
    replace (v_b - tdelta <=? 0) with (v_b - tdelta =? 0);
      [done|]. destruct (Z.leb_spec (v_b - tdelta) 0), (Z.eqb_spec (v_b - tdelta) 0); lia.
Qed.

Lemma io_end_timeslice_correct p h sv tdelta :
  pibs_params p -> io_represents p (h_v h) sv -> pibs_ok p sv ->
  0 <= tdelta -> 0 < Pibs.e sv ->
  (Pibs.u sv + tdelta) * Pibs.den p < 2 ^ 64 ->
  Pibs.e sv + (Pibs.u sv + tdelta) * Pibs.den p / Pibs.num p < 2 ^ 64 ->
  exists h', io_vcpu_end_timeslice tdelta h = Ok (tt, h') /\
    io_represents p (h_v h')
      (Pibs.end_of_timeslice p (v_runnable (h_v h)) tdelta sv) /\
    h_clk h' = h_clk h.
Proof.
  intros Hp (i & E & [ET En Ed Eb Eu Ee Ebu Er]) Hok Hd He Hmul Hadd.
  pose proof (Cmax_div p _ _ _ Hp ET En Ed) as HC. pose proof (Cmax_64 p Hp) as HC64.
  destruct Hok as [Hb Hu He0 Hr]. pose proof Hp as [HT Hn Hdn _].
  assert (0 <= (Pibs.u sv + tdelta) * Pibs.den p / Pibs.num p) by (apply Z.div_pos; nia).
  assert (0 <= Pibs.u sv + tdelta < 2 ^ 64) by nia.
  destruct (io_end_timeslice_prologue h tdelta) as (st & oh & ->); [lia|lia|].
  rewrite Eb, Eu, u64_small by lia. unfold Pibs.end_of_timeslice.
  destruct (_ || _); cbn [when].
  2:{ eexists. split; [done|]. split; [|done]. exists i. by split. }
  match goal with |- context [io_exhausted ?h1] =>
    destruct (io_exhausted_run h1 i ((Pibs.u sv + tdelta) * Pibs.den p / Pibs.num p)
      (Pibs.Cmax p)) as [st' ->] end.
  - done.
  - cbn. rewrite En, Ed, u64_small by nia. apply div64_64_small; nia.
  - exact HC.
  - eexists. split; [done|]. split; [|done]. eexists. split; [done|].
    unfold exhausted_part. rewrite Ee, u64_small by lia.
    split; cbn; try done; [by rewrite Ebu|].
    destruct (Pibs.r sv) as [[t a]|]; cbn in Er.
    + destruct Er as (-> & Ht & ->). destruct (Z.eqb_spec t 0); [done|]. repeat split; lia.
    + rewrite Er. repeat split; cbn; lia.
Qed.

Lemma io_represents_det p v sv sv' :
  io_represents p v sv -> io_represents p v sv' -> sv = sv'.
Proof.
  intros (i & E & []) (i' & E' & []). rewrite E in E'. injection E' as <-.
  destruct sv as [b u e r bu], sv' as [b' u' e' r' bu']. cbn in *.
  assert (r = r') as ->; [|congruence].
  destruct r as [[t a]|], r' as [[t' a']|]; cbn in *; naive_solver congruence.
Qed.

(** ** Runs of an I/O VCPU *)

Inductive io_op :=
| IoEndTimeslice (tdelta : Z)
| IoUnblock
| IoUpdate (tcur : Z)
| IoSetRunnable (b : bool).

Definition run_io_op (tsc : nat -> Z) (o : io_op) : M hctx unit :=
  match o with
  | IoEndTimeslice d => io_vcpu_end_timeslice d
  | IoUnblock => io_vcpu_unblock tsc
  | IoUpdate tcur => io_vcpu_update_replenishments tcur
  | IoSetRunnable b => mod_v (set_v_runnable b)
  end.

(** The 64-bit horizon at one operation. *)
Definition io_within (tsc : nat -> Z) (p : Pibs.params) (h : hctx) (sv : Pibs.server)
    (o : io_op) : Prop :=
  match o with
  | IoEndTimeslice d =>
      0 <= d /\ (Pibs.u sv + d) * Pibs.den p < 2 ^ 64 /\
      Pibs.e sv + (Pibs.u sv + d) * Pibs.den p / Pibs.num p < 2 ^ 64
  | IoUnblock => 0 < tsc (h_clk h)
  | IoUpdate _ | IoSetRunnable _ => True
  end.

(** The time after one operation, [now] before it: some operations are told or read it. *)
Definition io_time (tsc : nat -> Z) (h : hctx) (o : io_op) (now : Z) : Z :=
  match o with
  | IoUpdate tcur => tcur
  | IoUnblock => tsc (h_clk h)
  | IoEndTimeslice _ | IoSetRunnable _ => now
  end.

(** [io_reach tsc p h0 t0 n used now h]: [h] is reached from [h0] by a run from time [t0] to
    [now] in which [n] timeslices of [used] cycles altogether end. *)
Inductive io_reach (tsc : nat -> Z) (p : Pibs.params) (h0 : hctx) (t0 : Z) : Z -> Z -> Z -> hctx -> Prop :=
| io_start : io_reach tsc p h0 t0 0 0 t0 h0
| io_step n used now h sv o h' :
    io_reach tsc p h0 t0 n used now h -> io_represents p (h_v h) sv -> io_within tsc p h sv o ->
    now <= io_time tsc h o now -> run_io_op tsc o h = Ok (tt, h') ->
    io_reach tsc p h0 t0
      (match o with IoEndTimeslice _ => n + 1 | _ => n end)
      (match o with IoEndTimeslice d => used + d | _ => used end)
      (io_time tsc h o now) h'.

(** There is budget only once the eligibility time has come, and a replenishment is not
    due before it. *)
Definition eligible (now : Z) (sv : Pibs.server) : Prop :=
  (0 < Pibs.b sv -> Pibs.e sv <= now) /\
  forall t a, Pibs.r sv = Some (t, a) -> Pibs.e sv <= Z.max t now.

Definition io_inv (p : Pibs.params) (h : hctx) (sv : Pibs.server) : Prop :=
  io_represents p (h_v h) sv /\ pibs_ok p sv /\ 0 < Pibs.e sv.

(** What one operation does to the account of the bandwidth: [d] cycles used,
    [k] timeslices ended. *)
Definition charged (p : Pibs.params) (sv : Pibs.server) (d k : Z) (sv' : Pibs.server) : Prop :=
  Pibs.den p * (Pibs.u sv + d - Pibs.u sv') <=
  Pibs.num p * (Pibs.e sv' - Pibs.e sv) + (Pibs.num p - 1) * k.

Lemma end_of_timeslice_charged p runnable d sv :
  pibs_params p -> charged p sv d 1 (Pibs.end_of_timeslice p runnable d sv).
Proof.
  intros [HT Hn Hd HC]. unfold charged, Pibs.end_of_timeslice.
  destruct (_ || _); cbn [Pibs.u Pibs.e]; [|nia].
  pose proof (Z.div_mod ((Pibs.u sv + d) * Pibs.den p) (Pibs.num p) ltac:(lia)).
  pose proof (Z.mod_pos_bound ((Pibs.u sv + d) * Pibs.den p) (Pibs.num p) ltac:(lia)).
  nia.
Qed.

Lemma end_of_timeslice_eligible p runnable d now sv :
  0 <= d -> eligible now sv -> eligible now (Pibs.end_of_timeslice p runnable d sv).
Proof.
  intros Hd [Hb Hr]. unfold Pibs.end_of_timeslice. destruct (_ || _); (split; cbn; [lia|]).
  - intros t a [= <- _]. lia.
  - exact Hr.
Qed.

Lemma unblock_eligible p t now sv : now <= t -> eligible now sv -> eligible t (Pibs.unblock p t sv).
Proof.
  intros Ht [Hb Hr]. unfold Pibs.unblock.
  assert (Pibs.e sv <= t -> (if negb (Pibs.budgeted sv) && (Pibs.e sv <? t) then t else Pibs.e sv) <= t) as He
    by (intros; destruct (_ && _); lia).
  split; cbn; [intros Hp; apply He; specialize (Hb Hp); lia|].
  intros t' a. destruct (Pibs.r sv) as [[t0 a0]|] eqn:Er.
  - intros [= <- _]. specialize (Hr t0 a0 eq_refl). destruct (_ && _); lia.
  - destruct (Pibs.budgeted sv); [done|]. cbn. intros [= <- _]. destruct (_ <? _); lia.
Qed.

Lemma update_eligible t now sv : now <= t -> eligible now sv -> eligible t (Pibs.update_budget t sv).
Proof.
  intros Ht [Hb Hr]. unfold Pibs.update_budget. destruct (Pibs.r sv) as [[t0 a0]|] eqn:Er.
  - specialize (Hr t0 a0 eq_refl).
    destruct (Z.leb_spec t0 t); (split; cbn; [intros Hp; try specialize (Hb Hp); lia|]).
    + done.
    + rewrite Er. intros t' a [= <- _]. lia.
  - split; [intros Hp; specialize (Hb Hp); lia|]. by rewrite Er.
Qed.

Lemma run_io_op_ok tsc p h sv o :
  pibs_params p -> io_inv p h sv -> io_within tsc p h sv o ->
  exists h' sv', run_io_op tsc o h = Ok (tt, h') /\ io_inv p h' sv' /\
    charged p sv (match o with IoEndTimeslice d => d | _ => 0 end)
      (match o with IoEndTimeslice _ => 1 | _ => 0 end) sv' /\
    forall now, now <= io_time tsc h o now -> eligible now sv -> eligible (io_time tsc h o now) sv'.
Proof.
  intros Hp (Hrep & Hok & He) Hw. destruct o as [d| |tcur|r]; cbn [run_io_op io_within] in *.
  - destruct Hw as (Hd & H1 & H2).
    destruct (io_end_timeslice_correct p h sv d Hp Hrep Hok Hd He H1 H2) as (h' & E & Hr & _).
    destruct (pibs_end_ok p (v_runnable (h_v h)) d sv Hp Hok Hd He).
    eexists h', _. split; [exact E|]. split; [split; [exact Hr|split; [done|lia]]|].
    split; [by apply end_of_timeslice_charged|]. intros now _. by apply end_of_timeslice_eligible.
  - destruct (io_unblock_refines tsc p h sv Hp Hrep Hok Hw) as (h' & E & Hr & _).
    destruct (pibs_unblock_ok p (tsc (h_clk h)) sv Hp Hok Hw) as (Hok' & Hle & _).
    eexists h', _. split; [exact E|]. split; [split; [exact Hr|split; [done|lia]]|].
    split; [unfold charged; destruct Hp; cbn [Pibs.u Pibs.unblock]; nia|].
    intros now. apply unblock_eligible.
  - destruct (io_update_refines p h sv tcur Hrep) as (h' & E & Hr).
    pose proof (pibs_update_ok p tcur sv Hok) as Hok'.
    assert (Pibs.e (Pibs.update_budget tcur sv) = Pibs.e sv /\
            Pibs.u (Pibs.update_budget tcur sv) = Pibs.u sv) as [Ee Eu]
      by (unfold Pibs.update_budget; by repeat case_match).
    eexists h', _. split; [exact E|]. split; [split; [exact Hr|split; [done|lia]]|].
    split; [unfold charged; rewrite Ee, Eu; lia|]. intros now. apply update_eligible.
  - eexists _, sv. split; [done|]. split; [|by split; [unfold charged; lia|]]. split; [|done].
    destruct Hrep as (i & E & []). exists i. split; [done|]. by split.
Qed.

Lemma io_reach_inv tsc p h0 sv0 t0 n used now h :
  pibs_params p -> io_inv p h0 sv0 -> eligible t0 sv0 -> io_reach tsc p h0 t0 n used now h ->
  exists sv, io_inv p h sv /\ charged p sv0 used n sv /\ eligible now sv.
Proof.
  intros Hp H0 He0 Hrun. induction Hrun as [|n used now h sv o h' Hrun (sv1 & IH & Hc & He) Hrep Hw Ht E].
  - exists sv0. split; [done|]. split; [unfold charged; lia|done].
  - rewrite <- (io_represents_det _ _ _ _ (proj1 IH) Hrep) in Hw.
    destruct (run_io_op_ok tsc p h sv1 o Hp IH Hw) as (h1 & sv' & E1 & Hinv & Hc' & He').
    rewrite E1 in E. injection E as <-. exists sv'. split; [done|]. split; [|by apply He'].
    unfold charged in *. destruct o; lia.
Qed.

(** ** Properties *)

(** C32: [io_vcpu_end_timeslice] is the algorithm IO-VCPU-end-of-timeslice of
    docs/vcpu.tex: the budget is charged without going below 0, and a VCPU that
    blocked or ran out has its eligibility time moved past what it used, divided
    by its utilisation, and its replenishment posted there. *)
Theorem io_end_timeslice_refines p h sv tdelta :
  pibs_params p -> io_represents p (h_v h) sv -> pibs_ok p sv ->
  0 <= tdelta -> 0 < Pibs.e sv ->
  (Pibs.u sv + tdelta) * Pibs.den p < 2 ^ 64 ->
  Pibs.e sv + (Pibs.u sv + tdelta) * Pibs.den p / Pibs.num p < 2 ^ 64 ->
  let sv' := Pibs.end_of_timeslice p (v_runnable (h_v h)) tdelta sv in
  exists h', io_vcpu_end_timeslice tdelta h = Ok (tt, h') /\
    io_represents p (h_v h') sv' /\ pibs_ok p sv'.
Proof.
  intros Hp Hrep Hok Hd He H1 H2 sv'.
  destruct (io_end_timeslice_correct p h sv tdelta Hp Hrep Hok Hd He H1 H2) as (h' & E & Hr & _).
  exists h'. split; [exact E|]. split; [exact Hr|]. by apply pibs_end_ok.
Qed.


(** ** Witnesses: the USB VCPU of [init_params], utilisation 1/10, period 100,
    awake since time 50 with a budget of 10. *)

Definition example_params : Pibs.params := Pibs.mkParams 100 1 10.
Definition example_io : Pibs.server := Pibs.mkServer 10 0 50 None true.
Definition example_io_h : hctx :=
  mkHctx (mkVcpu IO_VCPU None true true 0 0 0 10 0 0 0 1 100 10 0
    (PIo (mkIo 50 0 0 1 10 true IOVCPU_CLASS_USB)) zero_stats) 0 0.

Lemma example_params_ok : pibs_params example_params.
Proof. split; simpl; lia. Qed.
Lemma example_io_represents : io_represents example_params (h_v example_io_h) example_io.
Proof. eexists. split; [reflexivity|]. by split. Qed.
Lemma example_io_ok : pibs_ok example_params example_io.
Proof. split; simpl; try done. Qed.

Lemma io_end_timeslice_refines_witness :
  exists h', io_vcpu_end_timeslice 12 example_io_h = Ok (tt, h') /\
    io_represents example_params (h_v h') (Pibs.mkServer 0 0 170 (Some (170, 10)) true).
Proof.
  destruct (io_end_timeslice_refines example_params example_io_h example_io 12
    example_params_ok example_io_represents example_io_ok) as (h' & E & Hr & _);
    [lia | simpl; lia | simpl; lia | vm_compute; reflexivity |].
  exists h'. split; [exact E | exact Hr].
Defined.

