(* ===== verification/VcpuSched.v ===== *)
(** * The VCPU scheduler

    The two-level scheduler of [sched/vcpu.c]: VCPUs wait on the queue of their
    physical CPU, tasks on the run queue of their VCPU.  [sched] is the state it
    works on: the array [vcpus], the table of control blocks, the per-CPU
    variables of every physical CPU and the static [next_vcpu_binding]s.

    What the code reads from the machine is a parameter ([env]): the n-th
    hardware read of a run, of the time stamp counter or of a performance
    counter, returns a value of the environment.  [LAPIC_start_timer] and the
    task register [current_task] are per-CPU variables.  A context switch makes
    the other task the current one; what runs then is not part of the model. *)

From Stdlib Require Import ZArith Lia.
From S2P Require Import Prelude Div64 TaskQueue ReplQueue Vcpu MainVcpu IoVcpu.
From stdpp Require Import base gmap sets fin_sets numbers strings list.
Local Open Scope Z_scope.

(** ** State *)

Record env := mkEnv {
  e_tsc : nat -> Z;
  e_pmc : nat -> Z -> Z;
  e_uncore : nat -> Z -> Z;
  e_nehalem : bool;
  e_llc_lines : Z;
  e_bus_freq : Z;
  e_tsc_freq : Z;
  e_num_cpus : Z;
  e_idleTSS : nat -> Z
}.

(** The per-CPU variables. *)
Record percpu := mkPc {
  vcpu_queue : option nat;
  vcpu_current : option nat;
  vcpu_idle_task : Z;
  pcpu_tprev : Z;
  pcpu_overhead : Z;
  pcpu_idle_time : Z;
  pcpu_idle_prev_tsc : Z;
  pcpu_sched_time : Z;
  current_task : Z;
  lapic_timer : Z
}.

Definition set_queue (x : option nat) (p : percpu) : percpu :=
  mkPc x (vcpu_current p) (vcpu_idle_task p) (pcpu_tprev p) (pcpu_overhead p)
    (pcpu_idle_time p) (pcpu_idle_prev_tsc p) (pcpu_sched_time p) (current_task p)
    (lapic_timer p).
Definition set_current (x : option nat) (p : percpu) : percpu :=
  mkPc (vcpu_queue p) x (vcpu_idle_task p) (pcpu_tprev p) (pcpu_overhead p)
    (pcpu_idle_time p) (pcpu_idle_prev_tsc p) (pcpu_sched_time p) (current_task p)
    (lapic_timer p).
Definition set_idle_task (x : Z) (p : percpu) : percpu :=
  mkPc (vcpu_queue p) (vcpu_current p) x (pcpu_tprev p) (pcpu_overhead p)
    (pcpu_idle_time p) (pcpu_idle_prev_tsc p) (pcpu_sched_time p) (current_task p)
    (lapic_timer p).
Definition set_tprev (x : Z) (p : percpu) : percpu :=
  mkPc (vcpu_queue p) (vcpu_current p) (vcpu_idle_task p) x (pcpu_overhead p)
    (pcpu_idle_time p) (pcpu_idle_prev_tsc p) (pcpu_sched_time p) (current_task p)
    (lapic_timer p).
Definition set_overhead (x : Z) (p : percpu) : percpu :=
  mkPc (vcpu_queue p) (vcpu_current p) (vcpu_idle_task p) (pcpu_tprev p) x
    (pcpu_idle_time p) (pcpu_idle_prev_tsc p) (pcpu_sched_time p) (current_task p)
    (lapic_timer p).
Definition set_idle_time (x : Z) (p : percpu) : percpu :=
  mkPc (vcpu_queue p) (vcpu_current p) (vcpu_idle_task p) (pcpu_tprev p) (pcpu_overhead p)
    x (pcpu_idle_prev_tsc p) (pcpu_sched_time p) (current_task p) (lapic_timer p).
Definition set_idle_prev_tsc (x : Z) (p : percpu) : percpu :=
  mkPc (vcpu_queue p) (vcpu_current p) (vcpu_idle_task p) (pcpu_tprev p) (pcpu_overhead p)
    (pcpu_idle_time p) x (pcpu_sched_time p) (current_task p) (lapic_timer p).
Definition set_sched_time (x : Z) (p : percpu) : percpu :=
  mkPc (vcpu_queue p) (vcpu_current p) (vcpu_idle_task p) (pcpu_tprev p) (pcpu_overhead p)
    (pcpu_idle_time p) (pcpu_idle_prev_tsc p) x (current_task p) (lapic_timer p).
Definition set_current_task (x : Z) (p : percpu) : percpu :=
  mkPc (vcpu_queue p) (vcpu_current p) (vcpu_idle_task p) (pcpu_tprev p) (pcpu_overhead p)
    (pcpu_idle_time p) (pcpu_idle_prev_tsc p) (pcpu_sched_time p) x (lapic_timer p).
Definition set_lapic_timer (x : Z) (p : percpu) : percpu :=
  mkPc (vcpu_queue p) (vcpu_current p) (vcpu_idle_task p) (pcpu_tprev p) (pcpu_overhead p)
    (pcpu_idle_time p) (pcpu_idle_prev_tsc p) (pcpu_sched_time p) (current_task p) x.

Record sched := mkSched {
  s_vcpus : list vcpu;
  s_tasks : gmap Z quest_tss;
  s_pcpus : list percpu;
  s_clk : nat;
  s_init_time : Z;
  s_rr_binding : Z;
  s_binding : Z
}.

Definition set_vcpus (x : list vcpu) (s : sched) : sched :=
  mkSched x (s_tasks s) (s_pcpus s) (s_clk s) (s_init_time s) (s_rr_binding s) (s_binding s).
Definition set_tasks (x : gmap Z quest_tss) (s : sched) : sched :=
  mkSched (s_vcpus s) x (s_pcpus s) (s_clk s) (s_init_time s) (s_rr_binding s) (s_binding s).
Definition set_pcpus (x : list percpu) (s : sched) : sched :=
  mkSched (s_vcpus s) (s_tasks s) x (s_clk s) (s_init_time s) (s_rr_binding s) (s_binding s).
Definition set_clk (x : nat) (s : sched) : sched :=
  mkSched (s_vcpus s) (s_tasks s) (s_pcpus s) x (s_init_time s) (s_rr_binding s) (s_binding s).
Definition set_init_time (x : Z) (s : sched) : sched :=
  mkSched (s_vcpus s) (s_tasks s) (s_pcpus s) (s_clk s) x (s_rr_binding s) (s_binding s).
Definition set_rr_binding (x : Z) (s : sched) : sched :=
  mkSched (s_vcpus s) (s_tasks s) (s_pcpus s) (s_clk s) (s_init_time s) x (s_binding s).
Definition set_binding (x : Z) (s : sched) : sched :=
  mkSched (s_vcpus s) (s_tasks s) (s_pcpus s) (s_clk s) (s_init_time s) (s_rr_binding s) x.

(** ** VCPU parameters *)

Record vcpu_params := mkVp { vp_type : vcpu_type; vp_C : Z; vp_T : Z; vp_class : Z }.

Definition init_params : list vcpu_params := [
  mkVp MAIN_VCPU 20 100 0;
  mkVp MAIN_VCPU 20 100 0;
  mkVp MAIN_VCPU 20 100 0;
  mkVp MAIN_VCPU 20 100 0;
  mkVp IO_VCPU 1 10 IOVCPU_CLASS_USB;
  mkVp IO_VCPU 1 10 IOVCPU_CLASS_ATA;
  mkVp IO_VCPU 1 10 IOVCPU_CLASS_NET
].

Definition NUM_VCPUS : Z := Z.of_nat (length init_params).
Definition QUANTUM_HZ : Z := 1000.
Definition UNITS_PER_SEC : Z := 1000.

(** The scans over the parameter table take it as an argument. *)
Definition lowest_priority_vcpu (params : list vcpu_params) : Z :=
  fst (foldl (fun '(n, T, i) p =>
    if bool_decide (vp_type p = MAIN_VCPU) && (T <=? vp_T p)
    then (i, vp_T p, i + 1) else (n, T, i + 1)) (0, 0, 0) params).1.

Definition select_iovcpu (params : list vcpu_params) (class : Z) : outcome Z :=
  let? '(idx, _, _) :=
    foldl (fun acc p =>
      let? '(idx, matches, i) := acc in
      if bool_decide (vp_type p = IO_VCPU) then
        let? m := count_set_bits (Z.land (vp_class p) class) in
        if matches <=? m then Ok (i, m, i + 1) else Ok (idx, matches, i + 1)
      else Ok (idx, matches, i + 1))
    (Ok (lowest_priority_vcpu params, 0, 0)) params in
  Ok idx.

Definition compute_percentage (overall usage : Z) : outcome Z :=
  let? res := div64_64 (u64 (usage * 10000)) overall in
  let whole := u16 (u16 res / 100) in
  let frac := u16 (u16 res - whole * 100) in
  Ok (Z.lor (Z.shiftl whole 16) frac).

(** ** Hooks *)

(** [vcpu_hooks]: what the scheduler calls on a VCPU. *)
Record vcpu_hooks := mkHooks {
  update_replenishments : Z -> M hctx unit;
  next_event : M hctx Z;
  end_timeslice : Z -> M hctx unit;
  unblock : M hctx unit
}.

Definition main_vcpu_hooks (tsc : nat -> Z) : vcpu_hooks :=
  mkHooks (main_vcpu_update_replenishments tsc) (main_vcpu_next_event tsc)
    (main_vcpu_end_timeslice tsc) (main_vcpu_unblock tsc).

Definition io_vcpu_hooks (tsc : nat -> Z) : vcpu_hooks :=
  mkHooks io_vcpu_update_replenishments io_vcpu_next_event io_vcpu_end_timeslice
    (io_vcpu_unblock tsc).

Definition vcpu_hooks_table (tsc : nat -> Z) (t : vcpu_type) : vcpu_hooks :=
  match t with
  | MAIN_VCPU => main_vcpu_hooks tsc
  | IO_VCPU => io_vcpu_hooks tsc
  end.

(** ** Operations *)

Section ops.
Context (E : env) (me : nat).

Definition read_tsc : M sched Z :=
  fun s => Ok (e_tsc E (s_clk s), set_clk (S (s_clk s)) s).
Definition perfmon_pmc_read (x : Z) : M sched Z :=
  fun s => Ok (e_pmc E (s_clk s) x, set_clk (S (s_clk s)) s).
Definition perfmon_uncore_pmc_read (x : Z) : M sched Z :=
  fun s => Ok (e_uncore E (s_clk s) x, set_clk (S (s_clk s)) s).

Definition get_vcpu (i : nat) : M sched vcpu :=
  fun s => match s_vcpus s !! i with Some v => Ok (v, s) | None => Err OutOfBounds end.
Definition put_vcpu (i : nat) (v : vcpu) : M sched unit :=
  modify (fun s => set_vcpus (<[i := v]> (s_vcpus s)) s).
Definition mod_vcpu (i : nat) (f : vcpu -> vcpu) : M sched unit :=
  let! v := get_vcpu i in put_vcpu i (f v).

(** [percpu_read], [percpu_write] of the executing CPU; [percpu_pointer] of any. *)
Definition get_pc (c : nat) : M sched percpu :=
  fun s => match s_pcpus s !! c with Some p => Ok (p, s) | None => Err OutOfBounds end.
Definition mod_pc (c : nat) (f : percpu -> percpu) : M sched unit :=
  let! p := get_pc c in modify (fun s => set_pcpus (<[c := f p]> (s_pcpus s)) s).

(** Call a hook on VCPU [i]: it sees the VCPU, the clock and [pcpu_overhead]. *)
Definition run_hook {A} (i : nat) (m : M hctx A) : M sched A :=
  let! v := get_vcpu i in
  let! p := get_pc me in
  fun s => match m (mkHctx v (s_clk s) (pcpu_overhead p)) with
           | Err e => Err e
           | Ok (a, h) =>
               (put_vcpu i (h_v h) ;;!
                modify (set_clk (h_clk h)) ;;!
                mod_pc me (set_overhead (h_overhead h)) ;;!
                ret a) s
           end.
Definition hooks_of (i : nat) : M sched vcpu_hooks :=
  let! v := get_vcpu i in ret (vcpu_hooks_table (e_tsc E) (v_type v)).

(** [vcpu_lookup]: a pointer to a VCPU is an index. *)
Definition vcpu_lookup (i : Z) : option nat :=
  if (0 <=? i) && (i <? NUM_VCPUS) then Some (Z.to_nat i) else None.
Definition vcpu_index (v : nat) : Z := Z.of_nat v.
Definition deref (v : option nat) : M sched nat := lift (of_option NullDeref v).

Definition lookup_task (sel : Z) : M sched quest_tss :=
  let! tasks := gets s_tasks in lift (lookup_TSS tasks sel).
Definition mod_task (sel : Z) (f : quest_tss -> quest_tss) : M sched unit :=
  let! t := lookup_task sel in
  modify (fun s => set_tasks (<[sel := f t]> (s_tasks s)) s).

(** *** Second level *)

Definition round_robin (i : nat) : M sched unit :=
  let! v := get_vcpu i in
  let! tasks := gets s_tasks in
  let! '(tr, rq) := lift (queue_remove_head tasks (v_runqueue v)) in
  mod_vcpu i (set_v_runqueue rq) ;;!
  mod_vcpu i (set_v_tr tr) ;;!
  mod_vcpu i (set_v_next_schedule (u64 (v_virtual_tsc v + v_quantum v))).

Definition vcpu_internal_schedule (i : nat) : M sched unit :=
  let! v := get_vcpu i in
  let now := v_virtual_tsc v in
  if (v_next_schedule v =? 0) || (v_next_schedule v <=? now) then round_robin i
  else
    let! tasks := gets s_tasks in
    let! b := lift (vcpu_in_runqueue tasks (v_runqueue v) (v_tr v)) in
    if b : bool then
      let! '(rq, tasks) := lift (vcpu_remove_from_runqueue tasks (v_runqueue v) (v_tr v)) in
      mod_vcpu i (set_v_runqueue rq) ;;!
      modify (set_tasks tasks)
    else round_robin i.

Definition vcpu_runqueue_append (i : nat) (task : Z) : M sched unit :=
  let! v := get_vcpu i in
  let! tasks := gets s_tasks in
  let! '(rq, tasks) := lift (queue_append tasks (v_runqueue v) task) in
  modify (set_tasks tasks) ;;!
  mod_vcpu i (set_v_runqueue rq).

Definition vcpu_is_idle (v : vcpu) : bool := v_tr v =? 0.

(** *** First level *)

(** A place that holds a VCPU pointer: the queue variable ([None]) or the
    [next] field of a VCPU.  [*loc] for the queue variable holding [queue]. *)
Definition read_loc (queue : option nat) (loc : option nat) : M sched (option nat) :=
  match loc with
  | None => ret queue
  | Some p => let! v := get_vcpu p in ret (v_next v)
  end.
(** [*loc = x]; the new value of the queue variable. *)
Definition write_loc (queue : option nat) (loc : option nat) (x : option nat)
  : M sched (option nat) :=
  match loc with
  | None => ret x
  | Some p => mod_vcpu p (set_v_next x) ;;! ret queue
  end.

(** No queue is longer than the array of VCPUs. *)
Definition walk_fuel (s : sched) : nat := S (length (s_vcpus s)).

(** The [while] loop of [vcpu_queue_append]: the end of the queue, or [None]
    when the VCPU is already on it. *)
Definition queue_end (queue : option nat) (i : nat) : M sched (option (option nat)) :=
  let! fuel := gets walk_fuel in
  mloop fuel (fun loc =>
    let! cur := read_loc queue loc in
    match cur with
    | None => ret (Break (Some loc))
    | Some j => if (j =? i)%nat then ret (Break None) else ret (Continue (Some j))
    end) None.

Definition vcpu_queue_append (queue : option nat) (i : nat) : M sched (option nat) :=
  let! r := queue_end queue i in
  match r with
  | None => ret queue
  | Some loc =>
      mod_vcpu i (set_v_next None) ;;!
      write_loc queue loc (Some i)
  end.

(** The removed head and the new queue. *)
Definition vcpu_queue_remove_head (queue : option nat) : M sched (option nat * option nat) :=
  match queue with
  | None => ret (None, queue)
  | Some i => let! v := get_vcpu i in ret (Some i, v_next v)
  end.

(** *** Accounting *)

Definition vcpu_current_vtsc : M sched Z :=
  let! p := get_pc me in
  let! c := deref (vcpu_current p) in
  let! v := get_vcpu c in
  ret (v_virtual_tsc v).

Definition vcpu_acnt_end_timeslice (i : nat) : M sched unit :=
  let! now := read_tsc in
  let! v := get_vcpu i in
  when (negb (v_prev_tsc v =? 0))
    (let d := u64 (now - v_prev_tsc v) in
     mod_vcpu i (upd_stats (fun st =>
       set_st_timestamps_counted (u64 (st_timestamps_counted st + d)) st)) ;;!
     mod_vcpu i (fun v => set_v_virtual_tsc (u64 (v_virtual_tsc v + d)) v)) ;;!
  let! value := perfmon_pmc_read 0 in
  let! v := get_vcpu i in
  when (negb (fst (st_prev_pmc (v_stats v)) =? 0))
    (mod_vcpu i (upd_stats (fun st =>
       set_st_pmc_total (u64 (fst (st_pmc_total st) + (value - fst (st_prev_pmc st))),
                         snd (st_pmc_total st)) st))) ;;!
  let! value := perfmon_pmc_read 1 in
  let! v := get_vcpu i in
  when (negb (snd (st_prev_pmc (v_stats v)) =? 0))
    (mod_vcpu i (upd_stats (fun st =>
       set_st_pmc_total (fst (st_pmc_total st),
                         u64 (snd (st_pmc_total st) + (value - snd (st_prev_pmc st)))) st))).

Definition vcpu_acnt_begin_timeslice (i : nat) : M sched unit :=
  let! now := read_tsc in
  mod_vcpu i (set_v_prev_tsc now) ;;!
  let! value := perfmon_pmc_read 0 in
  mod_vcpu i (upd_stats (fun st => set_st_prev_pmc (value, snd (st_prev_pmc st)) st)) ;;!
  let! value := perfmon_pmc_read 1 in
  mod_vcpu i (upd_stats (fun st => set_st_prev_pmc (fst (st_prev_pmc st), value) st)).

Definition idle_time_acnt_begin : M sched unit :=
  let! now := read_tsc in
  mod_pc me (set_idle_prev_tsc now).

Definition idle_time_acnt_end : M sched unit :=
  let! p := get_pc me in
  let! now := read_tsc in
  let idle_time := if negb (pcpu_idle_prev_tsc p =? 0)
                   then u64 (pcpu_idle_time p + (now - pcpu_idle_prev_tsc p))
                   else pcpu_idle_time p in
  mod_pc me (set_idle_time idle_time).

Definition perfmon_get_misses : M sched (Z * Z) :=
  let! local_miss := perfmon_pmc_read 0 in
  let! global_miss := perfmon_uncore_pmc_read 0 in
  ret (local_miss, global_miss).

Definition perfmon_pervcpu_reset (i : nat) : M sched unit :=
  let! '(local_miss, global_miss) := perfmon_get_misses in
  let! inst_ret := perfmon_pmc_read 1 in
  mod_vcpu i (upd_stats (set_st_prev_local_miss local_miss)) ;;!
  mod_vcpu i (upd_stats (set_st_prev_global_miss global_miss)) ;;!
  mod_vcpu i (upd_stats (set_st_prev_inst_ret inst_ret)).

Definition perfmon_vcpu_acnt_start (v : option nat) : M sched unit :=
  match v with
  | Some i =>
      when (e_nehalem E)
        (perfmon_pervcpu_reset i ;;!
         let! now := read_tsc in
         mod_vcpu i (upd_stats (set_st_acnt_tsc now)))
  | None => ret tt
  end.

(** The [for] loop of [perfmon_vcpu_acnt_end]: the position of the highest set
    bit of [llc_lines]. *)
Definition llc_shift (llc_lines : Z) : outcome Z :=
  loop 33 (fun i =>
    if (0 <? Z.shiftr llc_lines i) && negb (Z.shiftr llc_lines i =? 1)
    then Ok (Continue (i + 1)) else Ok (Break i)) 0.

Definition perfmon_vcpu_acnt_end (v : option nat) : M sched unit :=
  match v with
  | Some i =>
      when (e_nehalem E)
        (let! v := get_vcpu i in
         let prev_occupancy := st_cache_occupancy (v_stats v) in
         let! '(local_miss, global_miss) := perfmon_get_misses in
         let! inst_ret := perfmon_pmc_read 1 in
         let local_miss := u64 (local_miss - st_prev_local_miss (v_stats v)) in
         let global_miss := u64 (global_miss - st_prev_global_miss (v_stats v)) in
         let inst_ret := u64 (inst_ret - st_prev_inst_ret (v_stats v)) in
         let! sh := lift (llc_shift (e_llc_lines E)) in
         let cur_occupancy :=
           u64 (prev_occupancy + local_miss - Z.shiftr global_miss sh * prev_occupancy) in
         mod_vcpu i (upd_stats (set_st_cache_occupancy cur_occupancy)) ;;!
         let! mpki := lift (div64_64 (u64 (local_miss * 1000)) inst_ret) in
         mod_vcpu i (upd_stats (set_st_mpki mpki)))
  | None => ret tt
  end.

(** *** Task switch *)

Definition software_context_switch (next : Z) : M sched unit :=
  let! p := get_pc me in
  when (negb (current_task p =? 0)) (lookup_task (current_task p) ;;! ret tt) ;;!
  lookup_task next ;;!
  mod_pc me (set_current_task next).

Definition vcpu_switch_to (i : nat) : M sched unit :=
  let! v := get_vcpu i in software_context_switch (v_tr v).

(** The end of both schedulers: pick the idle task when no task was selected,
    then switch unless it is already running. *)
Definition select_idle (next : Z) : M sched Z :=
  let! next :=
    (if next =? 0 then
       let! p := get_pc me in
       mod_pc me (set_current None) ;;!
       ret (vcpu_idle_task p)
     else ret next) in
  if next =? 0 then
    let next := e_idleTSS E me in
    mod_pc me (set_idle_task next) ;;!
    ret next
  else ret next.

Definition switch_unless_running (next : Z) : M sched unit :=
  let! p := get_pc me in
  if current_task p =? next then ret tt else software_context_switch next.

Definition LAPIC_start_timer (count : Z) : M sched unit :=
  mod_pc me (set_lapic_timer count).
End ops.

Section scheduler.
Context (E : env) (me : nat).

(** *** Round-robin scheduler *)

Definition vcpu_rr_schedule : M sched unit :=
  let! p := get_pc me in
  match vcpu_current p with
  | Some cur => vcpu_acnt_end_timeslice E cur
  | None => ret tt
  end ;;!
  let! '(next, vcpu) :=
    (match vcpu_queue p with
     | None => ret (0, None)
     | Some _ =>
         let! '(hd, queue) := vcpu_queue_remove_head (vcpu_queue p) in
         let! i := deref hd in
         vcpu_internal_schedule i ;;!
         let! v := get_vcpu i in
         let! queue := (if negb (v_runqueue v =? 0) then vcpu_queue_append queue i
                        else ret queue) in
         mod_pc me (set_queue queue) ;;!
         mod_pc me (set_current (Some i)) ;;!
         ret (v_tr v, Some i)
     end) in
  match vcpu with
  | Some i => vcpu_acnt_begin_timeslice E i
  | None => ret tt
  end ;;!
  let! next := select_idle E me next in
  switch_unless_running me next.

(** The [do ... while] that binds a task to the next main VCPU; each round
    advances the binding, which is the state of the loop. *)
Definition bind_body (task : Z) (binding : Z) : M sched (control Z Z) :=
  mod_task task (set_cpu (u16 binding)) ;;!
  let binding' := s32 (binding + 1) in
  let binding' := if NUM_VCPUS <=? binding' then 0 else binding' in
  let! t := lookup_task task in
  let! i := deref (vcpu_lookup (tss_cpu t)) in
  let! v := get_vcpu i in
  if bool_decide (v_type v = MAIN_VCPU) then ret (Break binding')
  else ret (Continue binding').

Definition bind_next (task : Z) (binding : Z) : M sched Z :=
  mloop (S (length init_params)) (bind_body task) binding.

(** Put the task on the run queue of its VCPU, and the VCPU on the queue of its
    CPU. *)
Definition link_queues (i : nat) (task : Z) : M sched unit :=
  vcpu_runqueue_append i task ;;!
  let! v := get_vcpu i in
  let! p := get_pc (Z.to_nat (v_cpu v)) in
  let! queue := vcpu_queue_append (vcpu_queue p) i in
  mod_pc (Z.to_nat (v_cpu v)) (set_queue queue).

(** A VCPU that was blocked is unblocked. *)
Definition enqueue (i : nat) (task : Z) : M sched unit :=
  link_queues i task ;;!
  let! v := get_vcpu i in
  when (negb (v_runnable v) && negb (v_running v))
    (let! h := hooks_of E i in run_hook me i (unblock h)) ;;!
  mod_vcpu i (set_v_runnable true).

Definition vcpu_rr_wakeup (task : Z) : M sched unit :=
  let! t := lookup_task task in
  when (tss_cpu t =? 0xFF)
    (let! b := gets s_rr_binding in
     let! b := bind_next task b in
     modify (set_rr_binding b)) ;;!
  let! t := lookup_task task in
  let! i := deref (vcpu_lookup (tss_cpu t)) in
  enqueue i task.

(** *** The scheduler *)

(** "pick highest priority vcpu with available budget": the place [vnext] that
    holds the best candidate, and its period. *)
Definition pick_body (tcur : Z) (queue : option nat)
    (st : option nat * Z * option (option nat))
  : M sched (control (option nat * Z * option (option nat)) (Z * option (option nat))) :=
  let '(ptr, Tnext, vnext) := st in
  let! cur := read_loc queue ptr in
  match cur with
  | None => ret (Break (Tnext, vnext))
  | Some i =>
      let! v := get_vcpu i in
      if (Tnext =? 0) || (v_T v <? Tnext) then
        let! h := hooks_of E i in
        run_hook me i (update_replenishments h tcur) ;;!
        let! v := get_vcpu i in
        if 0 <? v_b v then ret (Continue (Some i, v_T v, Some ptr))
        else ret (Continue (Some i, Tnext, vnext))
      else ret (Continue (Some i, Tnext, vnext))
  end.

Definition pick_next (tcur : Z) (queue : option nat) : M sched (Z * option (option nat)) :=
  let! fuel := gets walk_fuel in
  mloop fuel (pick_body tcur queue) (None, 0, None).

(** "find time of next important event". *)
Definition event_body (tcur Tnext : Z) (queue : option nat) (st : option nat * Z)
  : M sched (control (option nat * Z) Z) :=
  let '(ptr, tdelta) := st in
  let! cur := read_loc queue ptr in
  match cur with
  | None => ret (Break tdelta)
  | Some i =>
      let! v := get_vcpu i in
      if (Tnext =? 0) || (v_T v <=? Tnext) then
        let! h := hooks_of E i in
        let! event := run_hook me i (next_event h) in
        if negb (event =? 0) && ((tdelta =? 0) || (u64 (event - tcur) <? tdelta))
        then ret (Continue (Some i, u64 (event - tcur)))
        else ret (Continue (Some i, tdelta))
      else ret (Continue (Some i, tdelta))
  end.

Definition next_important_event (tcur Tnext : Z) (queue : option nat) (tdelta : Z)
  : M sched Z :=
  let! fuel := gets walk_fuel in
  mloop fuel (event_body tcur Tnext queue) (None, tdelta).

Definition timer_count (tdelta : Z) : outcome Z :=
  let? q := div64_64 (u64 (tdelta * e_bus_freq E)) (e_tsc_freq E) in
  let count := u32 q in
  let count := if count =? 0 then 1 else count in
  Ok (if e_bus_freq E / QUANTUM_HZ <? count then e_bus_freq E / QUANTUM_HZ else count).

Definition set_timer (vcpu : option nat) (tdelta : Z) : M sched bool :=
  if 0 <? tdelta then
    let! count := lift (timer_count tdelta) in
    match vcpu with
    | Some i =>
        mod_vcpu i (upd_stats (set_st_prev_delta tdelta)) ;;!
        mod_vcpu i (upd_stats (set_st_prev_count count))
    | None => ret tt
    end ;;!
    LAPIC_start_timer me count ;;!
    ret true
  else ret false.

(** "otherwise, remove it": take VCPU [i] off the queue, at the place [loc]. *)
Definition unlink (queue loc : option nat) (i : nat) : M sched (option nat) :=
  let! o := read_loc queue loc in
  let! j := deref o in
  let! vj := get_vcpu j in
  let! queue := write_loc queue loc (v_next vj) in
  mod_vcpu i (set_v_runnable false) ;;!
  ret queue.

(** The body of [if (vnext)]: the VCPU selected, its task, the new queue. *)
Definition dispatch (cur queue loc : option nat) : M sched (option nat * Z * option nat) :=
  let! o := read_loc queue loc in
  let! i := deref o in
  vcpu_internal_schedule i ;;!
  let! v := get_vcpu i in
  let! queue := (if v_runqueue v =? 0 then unlink queue loc i else ret queue) in
  let! v := get_vcpu i in
  when (negb (bool_decide (cur = Some i))) (perfmon_vcpu_acnt_end E cur) ;;!
  mod_pc me (set_current (Some i)) ;;!
  mod_pc me (set_queue queue) ;;!
  ret (Some i, v_tr v, queue).

(** The body of [if (queue)]: the VCPU selected, its task, whether the timer was
    set. *)
Definition schedule_queue (tcur : Z) (cur : option nat) (queue : option nat)
  : M sched (option nat * Z * bool) :=
  let! '(Tnext, vnext) := pick_next tcur queue in
  let! '(vcpu, next, queue) :=
    (match vnext with
     | Some loc => dispatch cur queue loc
     | None =>
         perfmon_vcpu_acnt_end E cur ;;!
         mod_pc me (set_current None) ;;!
         ret (None, 0, queue)
     end) in
  let! tdelta :=
    (match vcpu with
     | Some i => let! v := get_vcpu i in ret (v_b v)
     | None => ret 0
     end) in
  let! tdelta := next_important_event tcur Tnext queue tdelta in
  let! timer_set := set_timer vcpu tdelta in
  ret (vcpu, next, timer_set).

Definition vcpu_schedule : M sched unit :=
  let! p := get_pc me in
  let queue := vcpu_queue p in
  let cur := vcpu_current p in
  let! tcur := read_tsc E in
  let tdelta := u64 (tcur - pcpu_tprev p) in
  match cur with
  | Some c =>
      vcpu_acnt_end_timeslice E c ;;!
      let! h := hooks_of E c in
      run_hook me c (end_timeslice h tdelta)
  | None => idle_time_acnt_end E me
  end ;;!
  let! '(vcpu, next, timer_set) :=
    (match queue with
     | Some _ => schedule_queue tcur cur queue
     | None => ret (None, 0, false)
     end) in
  when (negb timer_set) (LAPIC_start_timer me (e_bus_freq E / QUANTUM_HZ)) ;;!
  match vcpu with
  | Some i =>
      vcpu_acnt_begin_timeslice E i ;;!
      when (negb (bool_decide (cur = Some i))) (perfmon_vcpu_acnt_start E (Some i))
  | None => idle_time_acnt_begin E me
  end ;;!
  let! next := select_idle E me next in
  mod_pc me (set_tprev tcur) ;;!
  let! now := read_tsc E in
  mod_pc me (fun p => set_sched_time (u32 (pcpu_sched_time p + u32 (now - tcur))) p) ;;!
  match cur with Some c => mod_vcpu c (set_v_running false) | None => ret tt end ;;!
  match vcpu with Some i => mod_vcpu i (set_v_running true) | None => ret tt end ;;!
  switch_unless_running me next.

Definition vcpu_wakeup (task : Z) : M sched unit :=
  let! t := lookup_task task in
  when (tss_cpu t =? 0xFF)
    (let! b := gets s_binding in
     let! b := bind_next task b in
     modify (set_binding b)) ;;!
  let! t := lookup_task task in
  let! i := deref (vcpu_lookup (tss_cpu t)) in
  enqueue i task ;;!
  let! p := get_pc me in
  let! now := read_tsc E in
  let! h := hooks_of E i in
  run_hook me i (update_replenishments h now) ;;!
  let! v := get_vcpu i in
  let! preempt :=
    (match vcpu_current p with
     | None => ret true
     | Some c => let! cv := get_vcpu c in ret (v_T v <? v_T cv)
     end) in
  when ((0 <? v_b v) && preempt) (LAPIC_start_timer me 1).

(** *** I/O jobs *)

Definition iovcpu_job_wakeup (job T : Z) : M sched unit :=
  let! t := lookup_task job in
  let! i := deref (vcpu_lookup (tss_cpu t)) in
  let! v := get_vcpu i in
  when (bool_decide (v_type v = IO_VCPU))
    (when ((T <? v_T v) || negb (v_running v || v_runnable v))
       (mod_vcpu i (set_v_T T))) ;;!
  vcpu_wakeup job.

Definition iovcpu_job_wakeup_for_me (job : Z) : M sched unit :=
  let! p := get_pc me in
  match vcpu_current p with
  | Some c => let! v := get_vcpu c in iovcpu_job_wakeup job (v_T v)
  | None => vcpu_wakeup job
  end.

Definition iovcpu_job_completion : M sched unit := vcpu_schedule.

Definition set_iovcpu (task class : Z) : M sched unit :=
  let! i := lift (select_iovcpu init_params class) in
  mod_task task (set_cpu (u16 i)).

(** *** Statistics *)

(** What [vcpu_dump_stats] prints: the share of the scheduler, of the idle time
    and of each VCPU; it restarts the counters.  The counters that drivers sample
    and the text of the log are outside the model. *)
Definition vcpu_dump_stats : M sched (Z * Z * list Z) :=
  let! p := get_pc me in
  let! now := read_tsc E in
  let! t0 := gets s_init_time in
  let now := u64 (now - t0) in
  let! t := read_tsc E in
  modify (set_init_time t) ;;!
  let! sch := lift (compute_percentage now (pcpu_sched_time p)) in
  mod_pc me (set_idle_time 0) ;;!
  mod_pc me (set_sched_time 0) ;;!
  let! idle := lift (compute_percentage now (pcpu_idle_time p)) in
  let! '(_, rs) := mloop (S (length init_params)) (fun '(i, rs) =>
    if (i <? length init_params)%nat then
      let! v := get_vcpu i in
      let! res := lift (compute_percentage now (st_timestamps_counted (v_stats v))) in
      mod_vcpu i (upd_stats (set_st_timestamps_counted 0)) ;;!
      ret (Continue (S i, rs ++ [res]))
    else ret (Break (i, rs))) (0%nat, []) in
  ret (sch, idle, rs).

(** *** Initialisation *)

(** One VCPU: the array was cleared by [memset]. *)
Definition init_vcpu (init_time quantum tsc_unit_freq cpu : Z) (p : vcpu_params)
  : outcome vcpu :=
  let C := u32 (vp_C p * tsc_unit_freq) in
  let T := u32 (vp_T p * tsc_unit_freq) in
  let? '(part, b) :=
    (match vp_type p with
     | MAIN_VCPU =>
         let? Q := repl_queue_add empty_repl_queue C init_time in
         Ok (PMain (mkMain 0 Q), 0)
     | IO_VCPU => Ok (PIo (mkIo 0 0 0 (vp_C p) (vp_T p) false 0), C)
     end) in
  Ok (mkVcpu (vp_type p) None false false cpu 0 0 quantum 0 0 0 C T b 0 part zero_stats).

(** The distribution of VCPUs over CPUs. *)
Fixpoint init_vcpus (init_time quantum tsc_unit_freq num_cpus cpu : Z)
    (params : list vcpu_params) : outcome (list vcpu) :=
  match params with
  | [] => Ok []
  | p :: params' =>
      let? v := init_vcpu init_time quantum tsc_unit_freq (u16 cpu) p in
      let cpu' := if num_cpus <=? cpu + 1 then 0 else cpu + 1 in
      let? vs := init_vcpus init_time quantum tsc_unit_freq num_cpus cpu' params' in
      Ok (v :: vs)
  end.

Definition vcpu_init : M sched bool :=
  let! init_time := read_tsc E in
  modify (set_init_time init_time) ;;!
  let! tsc_unit_freq := lift (div_u64_u32_u32 (e_tsc_freq E) UNITS_PER_SEC) in
  let! quantum := lift (div_u64_u32_u32 (e_tsc_freq E) QUANTUM_HZ) in
  let! vs := lift (init_vcpus init_time quantum tsc_unit_freq (e_num_cpus E) 0 init_params) in
  modify (set_vcpus vs) ;;!
  ret true.
End scheduler.
