(* ===== verification/SchedLemmas.v ===== *)
(** * Lemmas on the VCPU scheduler

    [sshape] is the part of the scheduler's state that its queues and invariants
    depend on; accounting, timers and hooks keep it.  [HooksSound] is what the
    scheduler needs from the hooks of a VCPU; [MainVcpu] and [IoVcpu] provide it.
    [picked] says what the selection loop promises. *)

From Stdlib Require Import ZArith Lia.
From S2P Require Import Prelude Div64 TaskQueue ReplQueue Vcpu MainVcpu IoVcpu VcpuSched.
From stdpp Require Import base gmap sets fin_sets numbers strings list.
Local Open Scope Z_scope.

(** ** Shapes *)

(** A VCPU with its budget and statistics blanked out. *)
Definition vshape (v : vcpu) : vcpu :=
  mkVcpu (v_type v) (v_next v) (v_runnable v) (v_running v) (v_cpu v) (v_tr v)
    (v_runqueue v) (v_quantum v) (v_next_schedule v) 0 0 (v_C v) (v_T v) 0 0
    (PIo (mkIo 0 0 0 0 0 false 0)) zero_stats.

Definition pshape (p : percpu) : percpu :=
  mkPc (vcpu_queue p) (vcpu_current p) (vcpu_idle_task p) 0 0 0 0 0 (current_task p) 0.

(** The same with the available budget; with all of the budget; without the
    running flag. *)
Definition bshape (v : vcpu) : vcpu := set_v_b (v_b v) (vshape v).
Definition fshape (v : vcpu) : vcpu :=
  set_v_usage (v_usage v) (set_v_part (v_part v) (bshape v)).
Definition rshape (v : vcpu) : vcpu := set_v_running false (vshape v).

Definition sshape (sh : vcpu -> vcpu) (s : sched)
  : list vcpu * gmap Z quest_tss * list percpu :=
  (sh <$> s_vcpus s, s_tasks s, pshape <$> s_pcpus s).

(** ** Hooks *)

(** A hook changes the budget of its VCPU, not its place in the scheduler. *)
Definition framed {A} (m : M hctx A) : Prop :=
  forall h a h', m h = Ok (a, h') -> vshape (h_v h') = vshape (h_v h).

Create HintDb framed.

Lemma framed_ret {A} (a : A) : framed (ret a).
Proof. by intros h b h' [= <- <-]. Qed.
Lemma framed_bind {A B} (m : M hctx A) (k : A -> M hctx B) :
  framed m -> (forall a, framed (k a)) -> framed (bind m k).
Proof.
  intros Hm Hk h b h' (a & h1 & E1 & E2)%bind_Ok. rewrite (Hk _ _ _ _ E2). by eapply Hm.
Qed.
Lemma framed_lift {A} (o : outcome A) : framed (lift o).
Proof. intros h a h'. unfold lift. destruct o; [by intros [= <- <-]|done]. Qed.
Lemma framed_get_v : framed get_v.
Proof. by intros h a h' [= <- <-]. Qed.
Lemma framed_mod_v f : (forall v, vshape (f v) = vshape v) -> framed (mod_v f).
Proof. intros Hf h a h' [= <- <-]. apply Hf. Qed.
Lemma framed_RDTSC tsc : framed (RDTSC tsc).
Proof. by intros h a h' [= <- <-]. Qed.
Lemma framed_get_main : framed get_main.
Proof. intros h a h'. unfold get_main. destruct (v_part _); [by intros [= <- <-]|done]. Qed.
Lemma framed_get_io : framed get_io.
Proof. intros h a h'. unfold get_io. destruct (v_part _); [done|by intros [= <- <-]]. Qed.
Lemma framed_overhead f : framed (modify (set_h_overhead f)).
Proof. by intros h a h' [= <- <-]. Qed.
Lemma framed_when b m : framed m -> framed (when b m).
Proof. destruct b; [done|]. intros _. apply framed_ret. Qed.

#[export] Hint Resolve framed_ret framed_bind framed_lift framed_get_v framed_mod_v
  framed_RDTSC framed_get_main framed_get_io framed_overhead framed_when : framed.
#[export] Hint Extern 1 (vshape _ = vshape _) => reflexivity : framed.

Ltac framed_tac :=
  repeat first
    [ apply framed_bind; [|intros ?] | apply framed_when | progress case_match
    | solve [auto with framed] | intros ? ].

Lemma framed_put_Q Q : framed (put_Q Q).
Proof. unfold put_Q. framed_tac. Qed.
Lemma framed_capacity tsc : framed (capacity tsc).
Proof. unfold capacity. framed_tac. Qed.
#[export] Hint Resolve framed_put_Q framed_capacity : framed.

Lemma framed_main_hooks tsc tcur d :
  framed (main_vcpu_update_replenishments tsc tcur) /\
  framed (main_vcpu_end_timeslice tsc d) /\
  framed (main_vcpu_unblock tsc).
Proof.
  split; [|split].
  - unfold main_vcpu_update_replenishments. framed_tac.
  - unfold main_vcpu_end_timeslice, budget_check, split_check. framed_tac.
  - unfold main_vcpu_unblock, unblock_check. framed_tac.
Qed.

Lemma framed_io_hooks tsc tcur d :
  framed (io_vcpu_update_replenishments tcur) /\
  framed (io_vcpu_end_timeslice d) /\
  framed (io_vcpu_unblock tsc).
Proof.
  split; [|split].
  - unfold io_vcpu_update_replenishments, mod_io, put_io. framed_tac.
  - unfold io_vcpu_end_timeslice, io_exhausted, mod_io, put_io. framed_tac.
  - unfold io_vcpu_unblock, mod_io, put_io. framed_tac.
Qed.

(** What the scheduler needs from the hooks of a VCPU in a [good] state: they
    return, leave it [good] and do not move it; [ready v d] says that a timeslice
    of [d] cycles can be charged within the 64-bit horizon. *)
Class HooksSound (hk : vcpu_hooks) (good : vcpu -> Prop) (ready : vcpu -> Z -> Prop) := {
  hs_update h tcur :
    good (h_v h) ->
    exists h', update_replenishments hk tcur h = Ok (tt, h') /\ good (h_v h') /\
      vshape (h_v h') = vshape (h_v h);
  hs_next h :
    good (h_v h) -> exists ev h', next_event hk h = Ok (ev, h') /\ h_v h' = h_v h;
  hs_end h d :
    good (h_v h) -> ready (h_v h) d ->
    exists h', end_timeslice hk d h = Ok (tt, h') /\ good (h_v h') /\
      vshape (h_v h') = vshape (h_v h)
}.

(** Main VCPUs: the server is well-formed for its budget [C]. *)
Definition main_good (v : vcpu) : Prop :=
  0 <= v_b v /\ 0 < v_C v < 2 ^ 62 /\
  exists sv, represents v sv /\ server_ok (v_C v) sv /\ Spec.used sv < v_C v.
Definition main_ready (v : vcpu) (d : Z) : Prop :=
  0 <= d /\ forall sv, represents v sv ->
    within (v_T v) (Spec.mkServer (Spec.repls sv) (Spec.used sv + d)).

Lemma main_next_event_ok tsc h sv :
  represents (h_v h) sv ->
  exists ev, main_vcpu_next_event tsc h = Ok (ev, ticked 1 (h_v h) h).
Proof.
  intros (m & Em & (l & HQ & Es) & _).
  pose proof (rq_rep_size (m_Q m) l.*2 ltac:(by exists l)) as [_ Hlen].
  rewrite length_fmap in Hlen. eexists.
  unfold main_vcpu_next_event, bind, RDTSC, get_main, lift, ticked. cbn [h_v h_clk h_overhead].
  rewrite Em, (next_event_refines _ _ _ _ l (rq_chain _ _ HQ)), Nat.add_1_r;
    [done|unfold MAX_REPL; lia].
Qed.

Lemma vshape_C v v' : vshape v' = vshape v -> v_C v' = v_C v.
Proof. intros H. by injection H. Qed.

Lemma v_b_nonneg_end tsc h h' sv d :
  represents (h_v h) sv -> server_ok (v_C (h_v h)) sv -> main_ready (h_v h) d ->
  main_vcpu_end_timeslice tsc d h = Ok (tt, h') -> 0 <= v_b (h_v h').
Proof.
  intros Hrep Hok [Hd Hw] E.
  destruct (end_timeslice_correct tsc _ h sv d Hrep Hok Hd (Hw _ Hrep))
    as (h1 & E1 & _ & _ & Hb). rewrite E in E1. injection E1 as ->. lia.
Qed.

#[export] Instance main_hooks_sound tsc : HooksSound (main_vcpu_hooks tsc) main_good main_ready.
Proof.
  split; cbn [update_replenishments next_event end_timeslice main_vcpu_hooks].
  - intros h tcur (_ & HC & sv & Hinv).
    destruct (run_op_ok tsc (v_C (h_v h)) h sv (OpUpdate tcur) Hinv ltac:(lia) I)
      as (h' & sv' & E & Hinv'). cbn [run_op] in E.
    pose proof (proj1 (framed_main_hooks tsc tcur 0) _ _ _ E) as Hsh.
    exists h'. split; [exact E|]. split; [|done]. unfold main_good.
    rewrite (vshape_C _ _ Hsh). split; [|split; [done|by exists sv']].
    unfold main_vcpu_update_replenishments in E. apply bind_Ok in E as (cap & h1 & _ & E).
    injection E as <-. cbn. destruct (_ <? _); [apply u64_range|done].
  - intros h (_ & _ & sv & Hrep & _). destruct (main_next_event_ok tsc h sv Hrep) as [ev E].
    by eexists _, _.
  - intros h d (_ & HC & sv & Hinv) Hready.
    destruct (run_op_ok tsc (v_C (h_v h)) h sv (OpEndTimeslice d) Hinv ltac:(lia))
      as (h' & sv' & E & Hinv').
    { destruct Hready as [? Hw]. split; [done|]. apply Hw, Hinv. }
    cbn [run_op] in E.
    pose proof (proj1 (proj2 (framed_main_hooks tsc 0 d)) _ _ _ E) as Hsh.
    exists h'. split; [exact E|]. split; [|done]. unfold main_good.
    rewrite (vshape_C _ _ Hsh). split; [|split; [done|by exists sv']].
    destruct Hinv as (? & ? & _). by eapply v_b_nonneg_end.
Qed.

(** I/O VCPUs. *)
Definition io_good (v : vcpu) : Prop :=
  0 <= v_b v /\ exists i, v_part v = PIo i /\ (io_r_t i <> 0 -> 0 <= io_r_b i).
Definition io_ready (v : vcpu) (d : Z) : Prop :=
  exists p sv, pibs_params p /\ io_represents p v sv /\ pibs_ok p sv /\ 0 <= d /\
    0 < Pibs.e sv /\ (Pibs.u sv + d) * Pibs.den p < 2 ^ 64 /\
    Pibs.e sv + (Pibs.u sv + d) * Pibs.den p / Pibs.num p < 2 ^ 64.

#[export] Instance io_hooks_sound tsc : HooksSound (io_vcpu_hooks tsc) io_good io_ready.
Proof.
  split; cbn [update_replenishments next_event end_timeslice io_vcpu_hooks].
  - intros h tcur (Hb & i & E & Hr). unfold io_vcpu_update_replenishments.
    rewrite (bind_Ok_eq _ _ _ _ _ (get_io_ok h i E)).
    destruct (Z.eqb_spec (io_r_t i) 0), (io_r_t i <=? tcur); cbn [negb andb when];
      try (exists h; split; [done|]; split; [|done]; split; [done|]; by exists i).
    unfold bind, mod_v, modify, mod_io, bind, get_io, put_io, mod_v, modify. cbn.
    rewrite E. cbn. eexists. split; [done|]. split; [|done]. split; [by apply Hr|].
    by eexists.
  - intros h (_ & i & E & _). eexists _, h. unfold io_vcpu_next_event.
    by rewrite (bind_Ok_eq _ _ _ _ _ (get_io_ok h i E)).
  - intros h d _ (p & sv & Hp & Hrep & Hok & Hd & He & H1 & H2).
    destruct (io_end_timeslice_correct p h sv d Hp Hrep Hok Hd He H1 H2) as (h' & E & Hr & _).
    exists h'. split; [exact E|].
    pose proof (proj1 (proj2 (framed_io_hooks tsc 0 d)) _ _ _ E) as Hsh. split; [|done].
    destruct (pibs_end_ok p (v_runnable (h_v h)) d sv Hp Hok Hd He) as [[Hb' _ _ Hr'] _].
    destruct Hr as (i' & E' & [_ _ _ Eb _ _ _ Er0]). split; [lia|]. exists i'. split; [done|].
    destruct (Pibs.r _) as [[t a]|] eqn:Er; cbn in Er0; [|done].
    destruct (Hr' t a eq_refl). lia.
Qed.

(** The hooks of a VCPU of either type. *)
Definition good (v : vcpu) : Prop :=
  match v_type v with MAIN_VCPU => main_good v | IO_VCPU => io_good v end.
Definition ready (v : vcpu) (d : Z) : Prop :=
  match v_type v with MAIN_VCPU => main_ready v d | IO_VCPU => io_ready v d end.

Lemma vshape_type v v' : vshape v' = vshape v -> v_type v' = v_type v.
Proof. intros H. by injection H. Qed.

(** What the scheduler may do with a hook table on the VCPU of [h]. *)
Definition hooks_run (hk : vcpu_hooks) (h : hctx) : Prop :=
  (forall tcur, exists h', update_replenishments hk tcur h = Ok (tt, h') /\ good (h_v h') /\
     vshape (h_v h') = vshape (h_v h)) /\
  (exists ev h', next_event hk h = Ok (ev, h') /\ h_v h' = h_v h) /\
  (forall d, ready (h_v h) d -> exists h', end_timeslice hk d h = Ok (tt, h') /\
     good (h_v h') /\ vshape (h_v h') = vshape (h_v h)).

Lemma hooks_sound_at hk (good0 : vcpu -> Prop) (ready0 : vcpu -> Z -> Prop)
    `{!HooksSound hk good0 ready0} h :
  good0 (h_v h) ->
  (forall v', vshape v' = vshape (h_v h) -> good0 v' -> good v') ->
  (forall d, ready (h_v h) d -> ready0 (h_v h) d) ->
  hooks_run hk h.
Proof.
  intros Hg Hgood Hready. split; [|split; [by apply hs_next|]].
  - intros tcur. destruct (hs_update h tcur Hg) as (h' & E & Hg' & Hs). eauto.
  - intros d Hr%Hready. destruct (hs_end h d Hg Hr) as (h' & E & Hg' & Hs). eauto.
Qed.

Lemma hooks_sound tsc h :
  good (h_v h) -> hooks_run (vcpu_hooks_table tsc (v_type (h_v h))) h.
Proof.
  intros Hg. unfold good in Hg. destruct (v_type (h_v h)) eqn:Et; cbn [vcpu_hooks_table].
  - apply (hooks_sound_at _ main_good main_ready); [done| |].
    + intros v' Hs%vshape_type. unfold good. by rewrite Hs, Et.
    + intros d. unfold ready. by rewrite Et.
  - apply (hooks_sound_at _ io_good io_ready); [done| |].
    + intros v' Hs%vshape_type. unfold good. by rewrite Hs, Et.
    + intros d. unfold ready. by rewrite Et.
Qed.

(** ** Steps that keep the shape *)

Definition all_good (s : sched) : Prop := Forall good (s_vcpus s).

(** [s'] is good and has the shape of [s]. *)
Definition kept_by (sh : vcpu -> vcpu) (s s' : sched) : Prop :=
  sshape sh s' = sshape sh s /\ all_good s'.
Abbreviation kept := (kept_by vshape).

Lemma kept_refl sh s : all_good s -> kept_by sh s s.
Proof. done. Qed.
Lemma kept_trans sh s1 s2 s3 : kept_by sh s1 s2 -> kept_by sh s2 s3 -> kept_by sh s1 s3.
Proof. intros [E1 _] [E2 H]. split; [congruence|done]. Qed.

Lemma kept_weaken sh sh' f s s' :
  (forall v, sh' v = f (sh v)) -> kept_by sh s s' -> kept_by sh' s s'.
Proof.
  intros Hf [E Hg]. split; [|done]. injection E as Ev Et Ep. unfold sshape.
  f_equal; [|done]. f_equal; [|done]. apply (f_equal (fmap f)) in Ev.
  rewrite <- !list_fmap_compose in Ev.
  rewrite !(list_fmap_ext sh' (f ∘ sh)) by (intros; apply Hf).
  exact Ev.
Qed.

Lemma bkept_kept s s' : kept_by bshape s s' -> kept s s'.
Proof. by apply (kept_weaken _ _ vshape). Qed.
Lemma fkept_bkept s s' : kept_by fshape s s' -> kept_by bshape s s'.
Proof. by apply (kept_weaken _ _ bshape). Qed.
Lemma kept_rkept s s' : kept s s' -> kept_by rshape s s'.
Proof. by apply (kept_weaken _ _ rshape). Qed.

Lemma wp_get_vcpu i v s (Q : vcpu -> sched -> Prop) :
  s_vcpus s !! i = Some v -> Q v s -> wp (get_vcpu i) Q s.
Proof. unfold wp, get_vcpu. by intros ->. Qed.

Lemma wp_put_vcpu i v s (Q : unit -> sched -> Prop) :
  Q tt (set_vcpus (<[i := v]> (s_vcpus s)) s) -> wp (put_vcpu i v) Q s.
Proof. done. Qed.

Lemma wp_mod_vcpu i f v s (Q : unit -> sched -> Prop) :
  s_vcpus s !! i = Some v -> Q tt (set_vcpus (<[i := f v]> (s_vcpus s)) s) ->
  wp (mod_vcpu i f) Q s.
Proof. intros Hi HQ. apply wp_bind. by eapply wp_get_vcpu. Qed.

Lemma wp_get_pc c p s (Q : percpu -> sched -> Prop) :
  s_pcpus s !! c = Some p -> Q p s -> wp (get_pc c) Q s.
Proof. unfold wp, get_pc. by intros ->. Qed.

Lemma wp_mod_pc c f p s (Q : unit -> sched -> Prop) :
  s_pcpus s !! c = Some p -> Q tt (set_pcpus (<[c := f p]> (s_pcpus s)) s) ->
  wp (mod_pc c f) Q s.
Proof. intros Hc HQ. apply wp_bind. by eapply wp_get_pc. Qed.

Lemma kept_vcpu sh s i v v' :
  all_good s -> s_vcpus s !! i = Some v -> sh v' = sh v -> good v' ->
  kept_by sh s (set_vcpus (<[i := v']> (s_vcpus s)) s).
Proof.
  intros Hg Hi Hs Hv'. split; [|by apply Forall_insert].
  unfold sshape. cbn. f_equal. f_equal. rewrite list_fmap_insert, Hs.
  apply list_insert_id. by rewrite list_lookup_fmap, Hi.
Qed.

Lemma kept_clk sh s n : all_good s -> kept_by sh s (set_clk n s).
Proof. done. Qed.

Lemma kept_pc sh s c p p' :
  all_good s -> s_pcpus s !! c = Some p -> pshape p' = pshape p ->
  kept_by sh s (set_pcpus (<[c := p']> (s_pcpus s)) s).
Proof.
  intros Hg Hi Hs. split; [|done]. unfold sshape. cbn. f_equal.
  rewrite list_fmap_insert, Hs. apply list_insert_id. by rewrite list_lookup_fmap, Hi.
Qed.

(** A VCPU or a per-CPU area that was there is still there. *)
Lemma kept_lookup_vcpu sh s s' i v :
  kept_by sh s s' -> s_vcpus s !! i = Some v ->
  exists v', s_vcpus s' !! i = Some v' /\ sh v' = sh v /\ good v'.
Proof.
  intros [E Hg] Hi. injection E as Ev _ _.
  apply (f_equal (.!! i)) in Ev. rewrite !list_lookup_fmap, Hi in Ev.
  destruct (s_vcpus s' !! i) as [v'|] eqn:Hi'; [|done]. exists v'. split; [done|].
  split; [by apply (inj Some)|]. by eapply Forall_lookup_1.
Qed.

Lemma kept_lookup_pc sh s s' c p :
  kept_by sh s s' -> s_pcpus s !! c = Some p ->
  exists p', s_pcpus s' !! c = Some p' /\ pshape p' = pshape p.
Proof.
  intros [E Hg] Hi. injection E as _ _ Ev.
  apply (f_equal (.!! c)) in Ev. rewrite !list_lookup_fmap, Hi in Ev.
  destruct (s_pcpus s' !! c) as [p'|] eqn:Hi'; [|done]. exists p'. split; [done|].
  by apply (inj Some).
Qed.

(** Fields that [good] does not read. *)
Lemma good_ext v w :
  v_type w = v_type v -> v_b w = v_b v -> v_C w = v_C v -> v_usage w = v_usage v ->
  v_part w = v_part v -> good v -> good w.
Proof.
  intros Et Eb EC Eu Ep. unfold good. rewrite Et. destruct (v_type v).
  - unfold main_good. rewrite Eb, EC. intros (? & ? & sv & ? & ?). split; [done|].
    split; [done|]. exists sv. split; [by eapply represents_ext|done].
  - unfold io_good. by rewrite Eb, Ep.
Qed.

(** [keeps sh n c m]: with [n] VCPUs and [c] CPUs, [m] returns and keeps the shape. *)
Definition keeps {A} (sh : vcpu -> vcpu) (n c : nat) (m : M sched A) : Prop :=
  forall s, all_good s -> length (s_vcpus s) = n -> length (s_pcpus s) = c ->
  wp m (fun _ s' => kept_by sh s s') s.

Lemma kept_lengths sh s s' :
  kept_by sh s s' -> length (s_vcpus s') = length (s_vcpus s) /\
               length (s_pcpus s') = length (s_pcpus s).
Proof.
  intros [E _]. injection E as Ev _ Ep. apply (f_equal length) in Ev, Ep.
  rewrite !length_fmap in Ev. rewrite !length_fmap in Ep. done.
Qed.

Section keeps.
Context (sh : vcpu -> vcpu) (n c : nat).

Lemma keeps_ret {A} (a : A) : keeps sh n c (ret a).
Proof. by intros s Hg _ _. Qed.

Lemma keeps_bind {A B} (m : M sched A) (k : A -> M sched B) :
  keeps sh n c m -> (forall a, keeps sh n c (k a)) -> keeps sh n c (bind m k).
Proof.
  intros Hm Hk s Hg Hn Hc. apply wp_bind. eapply wp_mono; [by apply Hm|].
  intros a s1 H1. pose proof (kept_lengths _ _ _ H1) as [].
  eapply wp_mono; [apply Hk; [by destruct H1|lia|lia]|].
  intros b s2 H2. exact (kept_trans _ _ _ _ H1 H2).
Qed.

Lemma keeps_when b m : keeps sh n c m -> keeps sh n c (when b m).
Proof. destruct b; [done|]. intros _. apply keeps_ret. Qed.

Lemma keeps_read E : keeps sh n c (read_tsc E).
Proof. by intros s Hg _ _. Qed.
Lemma keeps_pmc E x : keeps sh n c (perfmon_pmc_read E x).
Proof. by intros s Hg _ _. Qed.

Lemma keeps_get_vcpu i : (i < n)%nat -> keeps sh n c (get_vcpu i).
Proof.
  intros Hi s Hg Hn _. destruct (lookup_lt_is_Some_2 (s_vcpus s) i) as [v Hv]; [lia|].
  by eapply wp_get_vcpu.
Qed.

Lemma keeps_mod_vcpu i f :
  (i < n)%nat -> (forall v, sh (f v) = sh v) -> (forall v, good v -> good (f v)) ->
  keeps sh n c (mod_vcpu i f).
Proof.
  intros Hi Hs Hf s Hg Hn _. destruct (lookup_lt_is_Some_2 (s_vcpus s) i) as [v Hv]; [lia|].
  eapply wp_mod_vcpu; [exact Hv|]. eapply kept_vcpu; [done|exact Hv|done|].
  apply Hf. by eapply Forall_lookup_1.
Qed.

Lemma keeps_get_pc me : (me < c)%nat -> keeps sh n c (get_pc me).
Proof.
  intros Hi s Hg _ Hc. destruct (lookup_lt_is_Some_2 (s_pcpus s) me) as [p Hp]; [lia|].
  by eapply wp_get_pc.
Qed.

Lemma keeps_mod_pc me f :
  (me < c)%nat -> (forall p, pshape (f p) = pshape p) -> keeps sh n c (mod_pc me f).
Proof.
  intros Hi Hs s Hg _ Hc. destruct (lookup_lt_is_Some_2 (s_pcpus s) me) as [p Hp]; [lia|].
  eapply wp_mod_pc; [exact Hp|]. by eapply kept_pc.
Qed.
End keeps.

Ltac keeps_tac :=
  repeat first
    [ apply keeps_when | apply keeps_ret
    | apply keeps_read | apply keeps_pmc
    | apply keeps_get_vcpu; [lia] | apply keeps_get_pc; [lia]
    | apply keeps_mod_pc; [lia|reflexivity]
    | apply keeps_mod_vcpu; [lia|reflexivity|intros ?; by apply good_ext]
    | apply keeps_bind; [|intros ?] | progress case_match | progress cbn [fst snd] ].

Lemma keeps_acnt_end E n c i : (i < n)%nat -> keeps fshape n c (vcpu_acnt_end_timeslice E i).
Proof. intros Hi. unfold vcpu_acnt_end_timeslice. keeps_tac. Qed.
Lemma keeps_acnt_begin E n c i : (i < n)%nat -> keeps bshape n c (vcpu_acnt_begin_timeslice E i).
Proof. intros Hi. unfold vcpu_acnt_begin_timeslice. keeps_tac. Qed.
Lemma keeps_idle_begin E n c me : (me < c)%nat -> keeps bshape n c (idle_time_acnt_begin E me).
Proof. intros Hi. unfold idle_time_acnt_begin. keeps_tac. Qed.
Lemma keeps_idle_end E n c me : (me < c)%nat -> keeps bshape n c (idle_time_acnt_end E me).
Proof. intros Hi. unfold idle_time_acnt_end. keeps_tac. Qed.
Lemma keeps_timer n c me x : (me < c)%nat -> keeps bshape n c (LAPIC_start_timer me x).
Proof. intros Hi. unfold LAPIC_start_timer. keeps_tac. Qed.
Lemma keeps_perfmon_end E n c v : e_nehalem E = false -> keeps bshape n c (perfmon_vcpu_acnt_end E v).
Proof. intros He. unfold perfmon_vcpu_acnt_end. rewrite He. destruct v; apply keeps_ret. Qed.
Lemma keeps_perfmon_start E n c v :
  e_nehalem E = false -> keeps bshape n c (perfmon_vcpu_acnt_start E v).
Proof. intros He. unfold perfmon_vcpu_acnt_start. rewrite He. destruct v; apply keeps_ret. Qed.

(** Calling a hook. *)
Lemma run_hook_wp {A} me i (m : M hctx A) s v p (Q : A -> sched -> Prop) :
  s_vcpus s !! i = Some v -> s_pcpus s !! me = Some p ->
  (exists a h, m (mkHctx v (s_clk s) (pcpu_overhead p)) = Ok (a, h) /\
     Q a (set_pcpus (<[me := set_overhead (h_overhead h) p]> (s_pcpus s))
            (set_clk (h_clk h) (set_vcpus (<[i := h_v h]> (s_vcpus s)) s)))) ->
  wp (run_hook me i m) Q s.
Proof.
  intros Hi Hp (a & h & E & HQ). unfold run_hook. apply wp_bind.
  eapply wp_get_vcpu; [exact Hi|]. apply wp_bind. eapply wp_get_pc; [exact Hp|].
  unfold wp. rewrite E. unfold bind, put_vcpu, modify, mod_pc, get_pc, bind. cbn.
  by rewrite Hp.
Qed.

(** A hook that keeps its VCPU good and in place keeps the shape of the state, and
    changes no other VCPU. *)
Lemma run_hook_kept {A} me i (m : M hctx A) s v p (Q : A -> vcpu -> Prop) :
  all_good s -> s_vcpus s !! i = Some v -> s_pcpus s !! me = Some p ->
  (forall h, h_v h = v -> exists a h', m h = Ok (a, h') /\ good (h_v h') /\
     vshape (h_v h') = vshape v /\ Q a (h_v h')) ->
  wp (run_hook me i m) (fun a s' => kept s s' /\
    exists v', s_vcpus s' !! i = Some v' /\ Q a v' /\
    forall j, j <> i -> s_vcpus s' !! j = s_vcpus s !! j) s.
Proof.
  intros Hg Hi Hp Hm. eapply run_hook_wp; [exact Hi|exact Hp|].
  destruct (Hm (mkHctx v (s_clk s) (pcpu_overhead p)) eq_refl)
    as (a & h' & E & Hg' & Hs & HQ). exists a, h'. split; [exact E|]. split.
  - eapply kept_trans; [by eapply (kept_vcpu vshape s i v (h_v h'))|].
    set (s1 := set_vcpus _ s). assert (all_good s1) by (by apply Forall_insert).
    by eapply (kept_pc vshape (set_clk (h_clk h') s1) me p).
  - exists (h_v h'). cbn. split; [apply list_lookup_insert_eq; by eapply lookup_lt_Some|].
    split; [done|]. intros j Hj. by apply list_lookup_insert_ne.
Qed.
