(* ===== verification/SchedInv.v ===== *)
(** * Correctness of the VCPU scheduler

    [qchain] reads the queue of VCPUs of a CPU as a list.  [picked] is what the
    selection loop of [vcpu_schedule] promises; [sched_wf] the invariant of the
    two-level queues, which contains what [check_run_invariants] checks. *)

From Stdlib Require Import ZArith Lia.
From S2P Require Import Prelude Div64 TaskQueue ReplQueue Vcpu MainVcpu IoVcpu.
From S2P Require Import VcpuSched SchedLemmas.
From stdpp Require Import base gmap sets fin_sets numbers strings list.
Local Open Scope Z_scope.

(** ** The queue of a CPU *)

Fixpoint qchain (vs : list vcpu) (h : option nat) (l : list nat) : Prop :=
  match l with
  | [] => h = None
  | i :: l' => h = Some i /\ exists v, vs !! i = Some v /\ qchain vs (v_next v) l'
  end.

(** The queue depends on the [next] fields only. *)
Lemma qchain_next vs vs' h l :
  (forall i, i ∈ l -> v_next <$> vs' !! i = v_next <$> vs !! i) ->
  qchain vs h l -> qchain vs' h l.
Proof.
  revert h. induction l as [|i l IH]; intros h Heq; [done|].
  intros (-> & v & Hv & Hl). split; [done|].
  pose proof (Heq i ltac:(set_solver)) as Hi. rewrite Hv in Hi.
  destruct (vs' !! i) as [v'|] eqn:Hv'; [|done]. exists v'. split; [done|].
  injection Hi as ->. apply IH; [|done]. intros j Hj. apply Heq. set_solver.
Qed.

Lemma qchain_shape vs vs' h l :
  rshape <$> vs' = rshape <$> vs -> qchain vs h l -> qchain vs' h l.
Proof.
  intros E. apply qchain_next. intros i _.
  apply (f_equal (.!! i)) in E. rewrite !list_lookup_fmap in E.
  destruct (vs' !! i), (vs !! i); try done. cbn in *.
  apply (inj Some) in E. injection E. congruence.
Qed.

Lemma qchain_app_inv vs h l1 l2 :
  qchain vs h (l1 ++ l2) -> exists h', qchain vs h' l2.
Proof.
  revert h. induction l1 as [|i l1 IH]; intros h; cbn; [by eauto|].
  intros (_ & v & _ & H). eauto.
Qed.

Lemma qchain_det vs h l1 l2 : qchain vs h l1 -> qchain vs h l2 -> l1 = l2.
Proof.
  revert h l2. induction l1 as [|i l1 IH]; intros h [|j l2]; cbn; [done|by intros -> []|by intros [-> _]|].
  intros (-> & v & Hv & H1) ([= <-] & v' & Hv' & H2). simplify_eq. f_equal. by eapply IH.
Qed.

Lemma qchain_NoDup vs h l : qchain vs h l -> NoDup l.
Proof.
  revert h. induction l as [|i l IH]; intros h H; [constructor|].
  destruct H as (-> & v & Hv & H). constructor; [|by eauto].
  intros (l1 & l2 & ->)%list_elem_of_split.
  destruct (qchain_app_inv _ _ _ _ H) as [h' Hh]. pose proof Hh as (-> & v' & Hv' & H2).
  simplify_eq. pose proof (qchain_det _ _ _ _ H H2) as Habs.
  apply (f_equal length) in Habs. rewrite length_app in Habs. cbn in Habs. lia.
Qed.

Lemma qchain_lt vs h l i : qchain vs h l -> i ∈ l -> is_Some (vs !! i).
Proof.
  revert h. induction l as [|j l IH]; intros h H Hi; [set_solver|].
  destruct H as (-> & v & Hv & H). apply elem_of_cons in Hi as [->|Hi]; eauto.
Qed.

Lemma qchain_length vs h l : qchain vs h l -> (length l <= length vs)%nat.
Proof.
  intros H. pose proof (qchain_NoDup _ _ _ H) as Hnd.
  rewrite <- (length_seq (length vs) 0). apply submseteq_length, NoDup_submseteq; [done|].
  intros i Hi. destruct (qchain_lt _ _ _ _ H Hi) as [v Hv].
  apply lookup_lt_Some in Hv. apply elem_of_seq. lia.
Qed.

(** [*ptr] in the middle of a walk. *)
Lemma read_loc_chain queue l1 l2 s (Q : option nat -> sched -> Prop) :
  qchain (s_vcpus s) queue (l1 ++ l2) -> Q (hd_error l2) s ->
  wp (read_loc queue (list.last l1)) Q s.
Proof.
  destruct (decide (l1 = [])) as [->|Hne].
  - cbn. intros H HQ. destruct l2; cbn in H; [subst|destruct H as [-> _]]; by apply wp_ret.
  - destruct (exists_last Hne) as (l0 & p & ->). rewrite last_snoc, <- app_assoc. cbn.
    intros H HQ. destruct (qchain_app_inv _ _ _ _ H) as [h' (-> & v & Hv & H2)].
    apply wp_bind. eapply wp_get_vcpu; [exact Hv|]. apply wp_ret.
    destruct l2; cbn in H2; [|destruct H2 as [H2 _]]; by rewrite H2.
Qed.

(** ** Selection *)

Definition picked (s : sched) (l : list nat) (Tnext : Z) (vnext : option (option nat)) : Prop :=
  match vnext with
  | None =>
      Tnext = 0 /\ forall j w, j ∈ l -> s_vcpus s !! j = Some w -> v_b w <= 0
  | Some loc =>
      exists l1 i l2 v, l = l1 ++ i :: l2 /\ loc = list.last l1 /\
        s_vcpus s !! i = Some v /\ v_T v = Tnext /\ 0 < v_b v /\
        (forall j w, j ∈ l -> s_vcpus s !! j = Some w -> v_T w < Tnext -> v_b w <= 0) /\
        (forall j w, j ∈ l1 -> s_vcpus s !! j = Some w -> v_T w <= Tnext -> v_b w <= 0)
  end.

Lemma picked_frame s s' l Tnext vnext :
  (forall j, j ∈ l -> s_vcpus s' !! j = s_vcpus s !! j) ->
  picked s l Tnext vnext -> picked s' l Tnext vnext.
Proof.
  intros Heq. destruct vnext as [loc|]; cbn.
  - intros (l1 & i & l2 & v & -> & -> & Hv & HT & Hb & H1 & H2).
    exists l1, i, l2, v. split; [done|]. split; [done|].
    split; [rewrite Heq; [done|set_solver]|]. split; [done|]. split; [done|]. split.
    + intros j w Hj. rewrite Heq by done. by apply H1.
    + intros j w Hj. rewrite Heq by set_solver. by apply H2.
  - intros [-> H]. split; [done|]. intros j w Hj. rewrite Heq by done. by apply H.
Qed.

(** A candidate that is not better, or has no budget, changes nothing. *)
Lemma picked_skip s l i v Tnext vnext :
  picked s l Tnext vnext -> s_vcpus s !! i = Some v ->
  v_b v <= 0 \/ (Tnext <> 0 /\ Tnext <= v_T v) ->
  picked s (l ++ [i]) Tnext vnext.
Proof.
  intros Hp Hi Hor. destruct vnext as [loc|]; cbn in *.
  - destruct Hp as (l1 & k & l2 & u & -> & -> & Hu & HT & Hb & H1 & H2).
    exists l1, k, (l2 ++ [i]), u. split; [by rewrite <- app_assoc|].
    repeat (split; [done|]). split; [|done].
    intros j w [Hj|Hj]%elem_of_app Hw HTj; [by eapply H1|].
    apply list_elem_of_singleton in Hj as ->. simplify_eq. lia.
  - destruct Hp as [-> H]. split; [done|]. intros j w [Hj|Hj]%elem_of_app Hw; [by eapply H|].
    apply list_elem_of_singleton in Hj as ->. simplify_eq. lia.
Qed.

(** A better candidate with budget becomes the choice. *)
Lemma picked_take s l i v Tnext vnext :
  picked s l Tnext vnext -> s_vcpus s !! i = Some v -> 0 < v_b v ->
  Tnext = 0 \/ v_T v < Tnext ->
  (forall j w, j ∈ l -> s_vcpus s !! j = Some w -> 0 < v_T w) ->
  picked s (l ++ [i]) (v_T v) (Some (list.last l)).
Proof.
  intros Hp Hi Hb Hor HT. cbn. exists l, i, [], v. do 5 (split; [done|]).
  assert (forall j w, j ∈ l -> s_vcpus s !! j = Some w -> v_T w <= v_T v -> v_b w <= 0) as Hl.
  { intros j w Hj Hw Hle. destruct vnext as [loc|]; cbn in Hp.
    - destruct Hp as (l1 & k & l2 & u & El & _ & Hu & HTu & _ & H1 & _).
      apply (H1 j w Hj Hw). pose proof (HT k u ltac:(rewrite El; set_solver) Hu). lia.
    - destruct Hp as [-> H]. by eapply H. }
  split; [|done]. intros j w [Hj|Hj]%elem_of_app Hw HTj; [eapply Hl; [done|done|lia]|].
  apply list_elem_of_singleton in Hj as ->. simplify_eq. lia.
Qed.

(** Periods are positive: 0 stands for "no VCPU yet" in the selection loop. *)
Definition periods_pos (s : sched) : Prop := Forall (fun v => 0 < v_T v) (s_vcpus s).

Lemma vshape_T v v' : vshape v' = vshape v -> v_T v' = v_T v.
Proof. intros H. by injection H. Qed.
Lemma rshape_T v v' : rshape v' = rshape v -> v_T v' = v_T v.
Proof. intros H. by injection H. Qed.

Lemma rkept_periods s s' : kept_by rshape s s' -> periods_pos s -> periods_pos s'.
Proof.
  intros [E _] H. injection E as Ev _ _. unfold periods_pos in *.
  apply Forall_lookup. intros i v Hi. apply (f_equal (.!! i)) in Ev.
  rewrite !list_lookup_fmap, Hi in Ev. destruct (s_vcpus s !! i) as [w|] eqn:Hw; [|done].
  apply (inj Some) in Ev. rewrite (rshape_T _ _ Ev). by eapply (Forall_lookup_1 _ _ _ _ H).
Qed.

Lemma kept_periods s s' : kept s s' -> periods_pos s -> periods_pos s'.
Proof. intros Hk%kept_rkept. by apply rkept_periods. Qed.

Lemma rkept_qchain s s' h l :
  kept_by rshape s s' -> qchain (s_vcpus s) h l -> qchain (s_vcpus s') h l.
Proof. intros [E _]. injection E as Ev _ _. by apply qchain_shape. Qed.

Lemma kept_qchain s s' h l :
  kept s s' -> qchain (s_vcpus s) h l -> qchain (s_vcpus s') h l.
Proof. intros Hk%kept_rkept. by apply rkept_qchain. Qed.

Section loops.
Context (E : env) (me : nat).

Lemma wp_hooks_of i v s (Q : vcpu_hooks -> sched -> Prop) :
  s_vcpus s !! i = Some v -> Q (vcpu_hooks_table (e_tsc E) (v_type v)) s ->
  wp (hooks_of E i) Q s.
Proof. intros Hi HQ. apply wp_bind. eapply wp_get_vcpu; [exact Hi|]. by apply wp_ret. Qed.

(** Refreshing the budget of a VCPU. *)
Lemma update_hook_kept i v p tcur s :
  all_good s -> s_vcpus s !! i = Some v -> s_pcpus s !! me = Some p ->
  wp (let! h := hooks_of E i in run_hook me i (update_replenishments h tcur))
    (fun _ s' => kept s s' /\ exists v', s_vcpus s' !! i = Some v' /\ v_T v' = v_T v /\
      forall j, j <> i -> s_vcpus s' !! j = s_vcpus s !! j) s.
Proof.
  intros Hg Hi Hp. apply wp_bind. eapply wp_hooks_of; [exact Hi|].
  eapply wp_mono; [eapply (run_hook_kept _ _ _ _ _ _ (fun _ v' => v_T v' = v_T v));
                   [done|exact Hi|exact Hp|]|].
  - intros h <-. assert (good (h_v h)) as Hgv by (by eapply Forall_lookup_1).
    destruct (proj1 (hooks_sound (e_tsc E) h Hgv) tcur) as (h' & Eh & Hg' & Hs).
    exists tt, h'. split; [exact Eh|]. split; [done|]. split; [done|]. by apply vshape_T.
  - intros _ s' (Hk & v' & Hv' & HT & Hf). split; [done|]. by exists v'.
Qed.

(** One round of the selection. *)
Lemma pick_round tcur queue l1 i l2 Tnext vnext s p :
  all_good s -> periods_pos s -> s_pcpus s !! me = Some p ->
  qchain (s_vcpus s) queue (l1 ++ i :: l2) -> picked s l1 Tnext vnext ->
  wp (pick_body E me tcur queue (list.last l1, Tnext, vnext)) (fun c s' => kept s s' /\
    exists Tnext' vnext', c = Continue (list.last (l1 ++ [i]), Tnext', vnext') /\
      picked s' (l1 ++ [i]) Tnext' vnext') s.
Proof.
  intros Hg HT Hp Hq Hpick. unfold pick_body. apply wp_bind.
  eapply read_loc_chain; [exact Hq|]. cbn [hd_error].
  destruct (qchain_lt _ _ _ i Hq ltac:(set_solver)) as [v Hv].
  assert (forall j, j ∈ l1 -> j <> i) as Hne.
  { intros j Hj ->. apply qchain_NoDup, NoDup_app in Hq as (_ & Hd & _).
    apply (Hd i Hj). set_solver. }
  apply wp_bind. eapply wp_get_vcpu; [exact Hv|]. rewrite last_snoc.
  destruct ((Tnext =? 0) || (v_T v <? Tnext)) eqn:Ec.
  2:{ apply orb_false_iff in Ec as [E1%Z.eqb_neq E2%Z.ltb_ge].
      apply wp_ret. split; [done|]. eexists _, _. split; [done|].
      eapply picked_skip; [done|exact Hv|]. right. by split. }
  apply wp_seq. eapply wp_mono; [by eapply update_hook_kept|]. cbn beta.
  intros _ s' (Hk & v' & Hv' & HTv & Hf).
  assert (picked s' l1 Tnext vnext) as Hp'.
  { eapply picked_frame; [|exact Hpick]. intros j Hj. by apply Hf, Hne. }
  apply wp_bind. eapply wp_get_vcpu; [exact Hv'|].
  destruct (Z.ltb_spec 0 (v_b v')); apply wp_ret; (split; [done|]);
    eexists _, _; (split; [done|]).
  - eapply picked_take; [done|done|done| |].
    + apply orb_true_iff in Ec as [?%Z.eqb_eq|?%Z.ltb_lt]; [by left|right; lia].
    + intros j w Hj Hw. pose proof (kept_periods _ _ Hk HT) as HT'.
      by eapply (Forall_lookup_1 _ _ _ _ HT').
  - eapply picked_skip; [done|done|]. by left.
Qed.

Lemma pick_loop tcur queue fuel l1 l2 Tnext vnext s p :
  all_good s -> periods_pos s -> s_pcpus s !! me = Some p ->
  qchain (s_vcpus s) queue (l1 ++ l2) -> picked s l1 Tnext vnext ->
  (length l2 < fuel)%nat ->
  wp (mloop fuel (pick_body E me tcur queue) (list.last l1, Tnext, vnext))
    (fun '(Tn, vn) s' => kept s s' /\ picked s' (l1 ++ l2) Tn vn) s.
Proof.
  revert l1 l2 Tnext vnext s p.
  induction fuel as [|fuel IH]; intros l1 l2 Tnext vnext s p Hg HT Hp Hq Hpick Hf; [lia|].
  cbn [mloop]. apply wp_bind. destruct l2 as [|i l2].
  - rewrite app_nil_r in *. unfold pick_body. apply wp_bind.
    eapply (read_loc_chain queue l1 []); [by rewrite app_nil_r|]. by apply wp_ret, wp_ret.
  - eapply wp_mono; [by eapply pick_round|]. cbn.
    intros c s' (Hk & Tn & vn & -> & Hp').
    destruct (kept_lookup_pc _ _ _ _ _ Hk Hp) as (p' & Hpc & _).
    eapply wp_mono.
    + eapply (IH (l1 ++ [i]) l2 Tn vn s' p'); [exact (proj2 Hk)|by eapply kept_periods|
        done| |done|simpl in *; lia].
      rewrite <- app_assoc. by eapply kept_qchain.
    + intros [Tn' vn'] s2 [Hk2 Hp2]. rewrite <- app_assoc in Hp2.
      split; [exact (kept_trans _ _ _ _ Hk Hk2)|done].
Qed.
End loops.

(** ** Events and the timer *)

Section events.
Context (E : env) (me : nat).

(** Asking a VCPU for its next event changes no VCPU. *)
Lemma event_hook_kept i v p s :
  all_good s -> s_vcpus s !! i = Some v -> s_pcpus s !! me = Some p ->
  wp (let! h := hooks_of E i in run_hook me i (next_event h))
    (fun _ s' => kept_by bshape s s') s.
Proof.
  intros Hg Hi Hp. apply wp_bind. eapply wp_hooks_of; [exact Hi|].
  eapply run_hook_wp; [exact Hi|exact Hp|].
  set (h0 := mkHctx v (s_clk s) (pcpu_overhead p)).
  assert (good (h_v h0)) as Hgv by (by eapply Forall_lookup_1).
  destruct (proj1 (proj2 (hooks_sound (e_tsc E) h0 Hgv))) as (ev & h' & Eh & Hv').
  exists ev, h'. split; [exact Eh|]. rewrite Hv'. change (h_v h0) with v.
  rewrite (list_insert_id (s_vcpus s) i v) by done.
  set (s1 := set_clk (h_clk h') (set_vcpus (s_vcpus s) s)).
  by eapply (kept_pc bshape s1 me p).
Qed.

Lemma event_loop tcur Tnext queue fuel l1 l2 tdelta s p :
  all_good s -> s_pcpus s !! me = Some p -> qchain (s_vcpus s) queue (l1 ++ l2) ->
  (length l2 < fuel)%nat ->
  wp (mloop fuel (event_body E me tcur Tnext queue) (list.last l1, tdelta))
    (fun _ s' => kept_by bshape s s') s.
Proof.
  revert l1 l2 tdelta s p.
  induction fuel as [|fuel IH]; intros l1 l2 tdelta s p Hg Hp Hq Hf; [lia|].
  cbn [mloop]. apply wp_bind. unfold event_body at 1. apply wp_bind.
  eapply read_loc_chain; [exact Hq|]. destruct l2 as [|i l2]; cbn [hd_error].
  { by apply wp_ret, wp_ret. }
  destruct (qchain_lt _ _ _ i Hq ltac:(set_solver)) as [v Hv].
  apply wp_bind. eapply wp_get_vcpu; [exact Hv|].
  assert (forall s', kept_by bshape s s' -> forall t,
    wp (mloop fuel (event_body E me tcur Tnext queue) (Some i, t))
      (fun _ s' => kept_by bshape s s') s') as Hnext.
  { intros s' Hk t. destruct (kept_lookup_pc _ _ _ _ _ Hk Hp) as (p' & Hp' & _).
    eapply wp_mono.
    - rewrite <- (last_snoc i l1). eapply (IH (l1 ++ [i]) l2 t s' p');
        [exact (proj2 Hk)|done| |simpl in *; lia].
      rewrite <- app_assoc. eapply kept_qchain; [by apply bkept_kept|done].
    - intros t2 s2 Hk2. exact (kept_trans _ _ _ _ Hk Hk2). }
  destruct (_ || _).
  - apply wp_seq. eapply wp_mono; [by eapply event_hook_kept|].
    intros ev s' Hk. destruct (_ && _); apply wp_ret; by apply Hnext.
  - apply wp_ret. by apply Hnext.
Qed.

Lemma timer_count_range tdelta :
  0 < e_tsc_freq E < 2 ^ 64 -> QUANTUM_HZ <= e_bus_freq E ->
  exists count, timer_count E tdelta = Ok count /\
    1 <= count <= e_bus_freq E / QUANTUM_HZ.
Proof.
  intros Hf Hbus. unfold timer_count.
  assert (exists q, div64_64 (u64 (tdelta * e_bus_freq E)) (e_tsc_freq E) = Ok q) as [q ->].
  { pose proof (u64_range (tdelta * e_bus_freq E)).
    destruct (Z.lt_ge_cases (e_tsc_freq E) (2 ^ 32)).
    - eexists. apply div64_64_small; lia.
    - edestruct div64_64_large as (q & Eq & _); [| |exists q; exact Eq]; lia. }
  cbn [obind]. eexists. split; [done|].
  assert (1 <= e_bus_freq E / QUANTUM_HZ)
    by (apply Z.div_le_lower_bound; unfold QUANTUM_HZ in *; lia).
  pose proof (u32_range q). repeat case_match; try lia.
Qed.

Lemma keeps_set_timer n c vcpu tdelta :
  0 < e_tsc_freq E < 2 ^ 64 -> QUANTUM_HZ <= e_bus_freq E ->
  (me < c)%nat -> (forall i, vcpu = Some i -> (i < n)%nat) ->
  keeps bshape n c (set_timer E me vcpu tdelta).
Proof.
  intros Hf Hbus Hc Hi. unfold set_timer. destruct (0 <? tdelta); [|apply keeps_ret].
  destruct (timer_count_range tdelta Hf Hbus) as (count & Ecount & _).
  apply keeps_bind.
  - intros s Hg _ _. eapply wp_lift; [exact Ecount|]. by apply kept_refl.
  - intros x. apply keeps_bind; [|intros _].
    + destruct vcpu as [i|]; [specialize (Hi i eq_refl)|]; keeps_tac.
    + apply keeps_bind; [by apply keeps_timer|intros _; apply keeps_ret].
Qed.
End events.
