(* ===== verification/SchedThm.v ===== *)
(** * The invariant of the VCPU scheduler

    [sched_wf] describes the two-level queues of one CPU.  The theorems show that
    [vcpu_schedule] returns in a state that satisfies it again, runs the highest
    priority VCPU with budget left, and programs the timer within its bounds. *)

From Stdlib Require Import ZArith Lia.
From S2P Require Import Prelude Div64 TaskQueue ReplQueue Vcpu MainVcpu IoVcpu.
From S2P Require Import VcpuSched SchedLemmas SchedInv.
From stdpp Require Import base gmap sets fin_sets numbers strings list.
Local Open Scope Z_scope.

(** ** Second-level scheduling *)

Definition set_task_slot (tr rq ns : Z) (v : vcpu) : vcpu :=
  set_v_next_schedule ns (set_v_tr tr (set_v_runqueue rq v)).

Lemma set_vcpus_twice i v v' vs s :
  (i < length vs)%nat ->
  set_vcpus (<[i := v']> (s_vcpus (set_vcpus (<[i := v]> vs) s))) (set_vcpus (<[i := v]> vs) s)
  = set_vcpus (<[i := v']> vs) s.
Proof. intros Hi. unfold set_vcpus. cbn. by rewrite list_insert_insert_eq. Qed.

Lemma remove_spec_head x l : NoDup (x :: l) -> remove_spec (x :: l) x = l.
Proof. intros H. apply (remove_spec_split [] x l H). Qed.

Lemma round_robin_wp i v ts s (Q : unit -> sched -> Prop) :
  s_vcpus s !! i = Some v -> chain (s_tasks s) (v_runqueue v) ts -> ts <> [] ->
  (forall tr rq ns, tr ∈ ts -> chain (s_tasks s) rq (remove_spec ts tr) ->
     Q tt (set_vcpus (<[i := set_task_slot tr rq ns v]> (s_vcpus s)) s)) ->
  wp (round_robin i) Q s.
Proof.
  intros Hi Hts Hne HQ. unfold round_robin. apply wp_bind. eapply wp_get_vcpu; [exact Hi|].
  apply wp_bind, wp_gets, wp_bind.
  destruct (queue_remove_head_chain _ _ _ Hts) as (q' & Eq & Hq').
  eapply wp_lift; [exact Eq|]. destruct ts as [|x ts]; [done|]. cbn [tail hd_error default] in *.
  pose proof (lookup_lt_Some _ _ _ Hi) as Hlt.
  apply wp_bind. eapply wp_mod_vcpu; [exact Hi|].
  apply wp_bind. eapply wp_mod_vcpu; [by apply list_lookup_insert_eq|].
  rewrite set_vcpus_twice by done.
  eapply wp_mod_vcpu; [by apply list_lookup_insert_eq|].
  rewrite set_vcpus_twice by done. apply HQ; [apply elem_of_cons; by left|].
  rewrite remove_spec_head; [done|]. by eapply chain_NoDup.
Qed.

Lemma set_task_slot_same rq v : set_task_slot (v_tr v) rq (v_next_schedule v) v = set_v_runqueue rq v.
Proof. by destruct v. Qed.

(** [vcpu_internal_schedule] on a VCPU with waiting tasks: one of them becomes its
    task and leaves the run queue. *)
Lemma internal_schedule_wp i v ts s (Q : unit -> sched -> Prop) :
  s_vcpus s !! i = Some v -> chain (s_tasks s) (v_runqueue v) ts -> ts <> [] ->
  (v_tr v = 0 -> v_next_schedule v = 0) ->
  (forall tr rq ns tasks', tr ∈ ts -> chain tasks' rq (remove_spec ts tr) ->
     same_but_next (s_tasks s) tasks' ->
     (forall x, x ∉ ts -> tasks' !! x = s_tasks s !! x) ->
     Q tt (set_tasks tasks' (set_vcpus (<[i := set_task_slot tr rq ns v]> (s_vcpus s)) s))) ->
  wp (vcpu_internal_schedule i) Q s.
Proof.
  intros Hi Hts Hne Htr HQ. unfold vcpu_internal_schedule. apply wp_bind.
  eapply wp_get_vcpu; [exact Hi|].
  assert (wp (round_robin i) Q s) as Hrr.
  { eapply round_robin_wp; [exact Hi|exact Hts|done|]. intros tr rq ns Hin Hrq.
    by apply (HQ tr rq ns (s_tasks s)). }
  destruct (Z.eqb_spec (v_next_schedule v) 0); [done|].
  destruct (v_next_schedule v <=? _); [done|]. cbn [orb].
  assert (v_tr v <> 0) as Htr0 by tauto. apply wp_bind, wp_gets, wp_bind.
  eapply wp_lift; [by apply vcpu_in_runqueue_chain|].
  destruct (bool_decide_reflect (v_tr v ∈ ts)) as [Hin|]; [|done].
  destruct (vcpu_remove_from_runqueue_chain _ _ _ _ Hts Htr0)
    as (rq & tasks' & Erm & Hrq & Hs & Hf).
  apply wp_bind. eapply wp_lift; [exact Erm|]. apply wp_bind.
  eapply wp_mod_vcpu; [exact Hi|]. apply wp_modify.
  rewrite <- set_task_slot_same. by apply HQ.
Qed.

(** ** The invariant *)

(** The queues of CPU [me]: the VCPUs [l] wait on [queue], the tasks [rqs !! i] on
    the run queue of VCPU [i].  A VCPU of the CPU is on the queue exactly when it
    is runnable; no task waits twice; a VCPU that never ran has no task slot. *)
Record queues_wf (me : nat) (s : sched) (queue : option nat) (l : list nat)
    (rqs : list (list Z)) : Prop := {
  qw_good : all_good s;
  qw_T : periods_pos s;
  qw_queue : qchain (s_vcpus s) queue l;
  qw_on i v : s_vcpus s !! i = Some v -> v_cpu v = Z.of_nat me ->
    (i ∈ l <-> v_runnable v = true);
  qw_home i v : i ∈ l -> s_vcpus s !! i = Some v -> v_cpu v = Z.of_nat me;
  qw_len : length rqs = length (s_vcpus s);
  qw_rq i v ts : s_vcpus s !! i = Some v -> rqs !! i = Some ts ->
    chain (s_tasks s) (v_runqueue v) ts /\ (v_tr v = 0 -> v_next_schedule v = 0);
  qw_disj i j ts us x : i <> j -> rqs !! i = Some ts -> rqs !! j = Some us ->
    x ∈ ts -> x ∉ us
}.

(** Every VCPU on the queue has a task to run. *)
Definition busy (l : list nat) (rqs : list (list Z)) : Prop :=
  forall i, i ∈ l -> rqs !! i <> Some [].

(** The VCPU that runs is the current one. *)
Definition running_wf (me : nat) (s : sched) (cur : option nat) : Prop :=
  (forall i v, s_vcpus s !! i = Some v -> v_cpu v = Z.of_nat me ->
     (v_running v = true <-> cur = Some i)) /\
  (forall c, cur = Some c -> exists v, s_vcpus s !! c = Some v /\ v_cpu v = Z.of_nat me).

Lemma kept_vcpus sh s s' i v' :
  kept_by sh s s' -> s_vcpus s' !! i = Some v' ->
  exists v, s_vcpus s !! i = Some v /\ sh v' = sh v.
Proof.
  intros [E _] Hi. injection E as Ev _ _. apply (f_equal (.!! i)) in Ev.
  rewrite !list_lookup_fmap, Hi in Ev. destruct (s_vcpus s !! i) as [v|]; [|done].
  exists v. split; [done|]. by apply (inj Some).
Qed.

Lemma kept_tasks sh s s' : kept_by sh s s' -> s_tasks s' = s_tasks s.
Proof. intros [E _]. by injection E. Qed.

Lemma queues_wf_rkept me s s' queue l rqs :
  kept_by rshape s s' -> queues_wf me s queue l rqs -> queues_wf me s' queue l rqs.
Proof.
  intros Hk []. split.
  - apply Hk.
  - by eapply rkept_periods.
  - by eapply rkept_qchain.
  - intros i v' Hi Hc. destruct (kept_vcpus _ _ _ _ _ Hk Hi) as (v & Hv & Hs).
    injection Hs as ? ? Er Ec. rewrite Er. eapply qw_on0; [exact Hv|congruence].
  - intros i v' Hil Hi. destruct (kept_vcpus _ _ _ _ _ Hk Hi) as (v & Hv & Hs).
    injection Hs as ? ? Er Ec. rewrite Ec. by eapply qw_home0.
  - destruct (kept_lengths _ _ _ Hk). congruence.
  - intros i v' ts Hi Hts. destruct (kept_vcpus _ _ _ _ _ Hk Hi) as (v & Hv & Hs).
    rewrite (kept_tasks _ _ _ Hk).
    assert (v_runqueue v' = v_runqueue v /\ v_tr v' = v_tr v /\
            v_next_schedule v' = v_next_schedule v) as (-> & -> & ->) by (by injection Hs).
    by eapply qw_rq0.
  - done.
Qed.

Lemma queues_wf_kept me s s' queue l rqs :
  kept s s' -> queues_wf me s queue l rqs -> queues_wf me s' queue l rqs.
Proof. intros Hk%kept_rkept. by apply queues_wf_rkept. Qed.

Lemma running_wf_kept me s s' cur : kept s s' -> running_wf me s cur -> running_wf me s' cur.
Proof.
  intros Hk [H1 H2]. split.
  - intros i v' Hi Hc. destruct (kept_vcpus _ _ _ _ _ Hk Hi) as (v & Hv & Hs).
    injection Hs as ? ? ? Er Ec. rewrite Er. eapply H1; [exact Hv|congruence].
  - intros c Hcur. destruct (H2 c Hcur) as (v & Hv & Hc).
    destruct (kept_lookup_vcpu _ _ _ _ _ Hk Hv) as (v' & Hv' & Hs & _). exists v'.
    split; [done|]. injection Hs as ? ? ? ? Ec. congruence.
Qed.

(** Second-level scheduling keeps the queues. *)
Lemma queues_wf_slot me s queue l rqs i v ts tr rq ns tasks' :
  queues_wf me s queue l rqs -> s_vcpus s !! i = Some v -> rqs !! i = Some ts ->
  tr ∈ ts -> chain tasks' rq (remove_spec ts tr) ->
  (forall x, x ∉ ts -> tasks' !! x = s_tasks s !! x) ->
  queues_wf me
    (set_tasks tasks' (set_vcpus (<[i := set_task_slot tr rq ns v]> (s_vcpus s)) s))
    queue l (<[i := remove_spec ts tr]> rqs).
Proof.
  intros [] Hi Hts Htr Hrq Hf. pose proof (lookup_lt_Some _ _ _ Hi) as Hlt.
  pose proof (lookup_lt_Some _ _ _ Hts) as Hlt'.
  assert (tr <> 0) as Htr0 by (eapply chain_nonzero; [by eapply qw_rq0|done]).
  assert (forall j w', <[i := set_task_slot tr rq ns v]> (s_vcpus s) !! j = Some w' ->
    exists w, s_vcpus s !! j = Some w /\ v_next w' = v_next w /\ v_runnable w' = v_runnable w /\
      v_cpu w' = v_cpu w /\ v_T w' = v_T w /\ (good w -> good w')) as Hback.
  { intros j w' Hj. destruct (decide (j = i)) as [->|Hne].
    - rewrite list_lookup_insert_eq in Hj by done. injection Hj as <-. exists v.
      repeat (split; [done|]). by apply good_ext.
    - rewrite list_lookup_insert_ne in Hj by done. by exists w'. }
  assert (forall x y, x ∈ remove_spec ts tr -> y = x -> y ∈ ts) as Hsub.
  { intros x y Hx ->. unfold remove_spec in Hx. by apply list_elem_of_filter in Hx as []. }
  split; cbn [s_vcpus s_tasks set_tasks set_vcpus].
  - apply Forall_lookup. intros j w' Hj. destruct (Hback j w' Hj) as (w & Hw & _ & _ & _ & _ & Hgw).
    apply Hgw. by eapply Forall_lookup_1.
  - apply Forall_lookup. cbn. intros j w' Hj.
    destruct (Hback j w' Hj) as (w & Hw & _ & _ & _ & -> & _).
    by eapply (Forall_lookup_1 _ _ _ _ qw_T0).
  - eapply qchain_next; [|exact qw_queue0]. intros j _.
    destruct (decide (j = i)) as [->|Hne].
    + rewrite list_lookup_insert_eq by done. by rewrite Hi.
    + by rewrite list_lookup_insert_ne.
  - intros j w' Hj. destruct (Hback j w' Hj) as (w & Hw & _ & -> & -> & _). by apply qw_on0.
  - intros j w' Hjl Hj. destruct (Hback j w' Hj) as (w & Hw & _ & _ & -> & _).
    by eapply qw_home0.
  - by rewrite !length_insert.
  - intros j w' us Hj Hus. destruct (decide (j = i)) as [->|Hne].
    + rewrite list_lookup_insert_eq in Hj by done. rewrite list_lookup_insert_eq in Hus by done.
      by simplify_eq.
    + rewrite list_lookup_insert_ne in Hj by done. rewrite list_lookup_insert_ne in Hus by done.
      destruct (qw_rq0 j w' us Hj Hus) as [Hch ?]. split; [|done].
      eapply chain_frame; [|exact Hch]. intros x Hx. apply Hf. intros Hx'.
      by eapply (qw_disj0 j i us ts x).
  - intros j k us ws x Hjk Hus Hws Hx Hx'.
    destruct (decide (j = i)) as [->|Hj], (decide (k = i)) as [->|Hk]; [done| | |].
    + rewrite list_lookup_insert_eq in Hus by done. rewrite list_lookup_insert_ne in Hws by done.
      simplify_eq. eapply (qw_disj0 i k ts ws x); eauto.
    + rewrite list_lookup_insert_ne in Hus by done. rewrite list_lookup_insert_eq in Hws by done.
      simplify_eq. eapply (qw_disj0 j i us ts x); eauto.
    + rewrite list_lookup_insert_ne in Hus, Hws by done. by eapply (qw_disj0 j k us ws x).
Qed.

(** ** Leaving the queue *)

(** A VCPU but for its place on the queue. *)
Definition core (v : vcpu) : vcpu := set_v_next None (set_v_runnable false v).

Lemma core_fields v w : core w = core v ->
  v_type w = v_type v /\ v_running w = v_running v /\ v_cpu w = v_cpu v /\ v_tr w = v_tr v /\
  v_runqueue w = v_runqueue v /\ v_next_schedule w = v_next_schedule v /\ v_C w = v_C v /\
  v_T w = v_T v /\ v_b w = v_b v /\ v_usage w = v_usage v /\ v_part w = v_part v.
Proof. intros H. injection H. tauto. Qed.

Definition same_core (s s' : sched) : Prop :=
  s_tasks s' = s_tasks s /\ s_pcpus s' = s_pcpus s /\
  core <$> s_vcpus s' = core <$> s_vcpus s.

Lemma same_core_vcpu s s' j w' :
  same_core s s' -> s_vcpus s' !! j = Some w' ->
  exists w, s_vcpus s !! j = Some w /\ core w' = core w.
Proof.
  intros (_ & _ & E) Hj. apply (f_equal (.!! j)) in E.
  rewrite !list_lookup_fmap, Hj in E. destruct (s_vcpus s !! j) as [w|]; [|done].
  exists w. split; [done|]. by apply (inj Some).
Qed.

Lemma queues_wf_core me s s' queue queue' l l' rqs :
  queues_wf me s queue l rqs -> same_core s s' -> qchain (s_vcpus s') queue' l' ->
  (forall j w', s_vcpus s' !! j = Some w' -> v_cpu w' = Z.of_nat me ->
     (j ∈ l' <-> v_runnable w' = true)) ->
  (forall j, j ∈ l' -> j ∈ l) ->
  queues_wf me s' queue' l' rqs.
Proof.
  intros [] Hc Hq Hon Hsub. pose proof Hc as (Et & _ & Ev). split.
  - apply Forall_lookup. intros j w' Hj. destruct (same_core_vcpu _ _ _ _ Hc Hj) as (w & Hw & Hcw).
    apply core_fields in Hcw as (? & ? & ? & ? & ? & ? & ? & ? & ? & ? & ?).
    eapply (good_ext w); [done..|]. by eapply Forall_lookup_1.
  - apply Forall_lookup. intros j w' Hj. destruct (same_core_vcpu _ _ _ _ Hc Hj) as (w & Hw & Hcw).
    apply core_fields in Hcw as (? & ? & ? & ? & ? & ? & ? & -> & _).
    by eapply (Forall_lookup_1 _ _ _ _ qw_T0).
  - done.
  - done.
  - intros j w' Hjl Hj. destruct (same_core_vcpu _ _ _ _ Hc Hj) as (w & Hw & Hcw).
    apply core_fields in Hcw as (_ & _ & -> & _). eapply qw_home0; [by apply Hsub|done].
  - apply (f_equal length) in Ev. rewrite !length_fmap in Ev. congruence.
  - intros j w' us Hj Hus. destruct (same_core_vcpu _ _ _ _ Hc Hj) as (w & Hw & Hcw).
    apply core_fields in Hcw as (_ & _ & _ & -> & -> & -> & _). rewrite Et. by eapply qw_rq0.
  - done.
Qed.

Lemma qchain_insert_ne vs h l i v' :
  i ∉ l -> qchain vs h l -> qchain (<[i := v']> vs) h l.
Proof.
  intros Hi. apply qchain_next. intros j Hj. rewrite list_lookup_insert_ne; [done|].
  intros ->. done.
Qed.

(** Unlinking [i] from the place that points to it. *)
Lemma qchain_unlink vs h l1 p i l2 vp v :
  qchain vs h (l1 ++ p :: i :: l2) -> vs !! p = Some vp -> vs !! i = Some v ->
  qchain (<[p := set_v_next (v_next v) vp]> vs) h (l1 ++ p :: l2).
Proof.
  intros H Hp Hi. pose proof (qchain_NoDup _ _ _ H) as Hnd. revert h H Hnd.
  induction l1 as [|x l1 IH]; intros h; cbn.
  - intros (-> & vp' & Hp' & Ei & v' & Hi' & H2) Hnd. simplify_eq. split; [done|].
    exists (set_v_next (v_next v) vp).
    split; [apply list_lookup_insert_eq; by eapply lookup_lt_Some|]. cbn.
    apply qchain_insert_ne; [|done]. inversion_clear Hnd. set_solver.
  - intros (-> & vx & Hx & H) [Hxl Hnd]%NoDup_cons. split; [done|].
    exists vx. split; [|by apply IH]. rewrite list_lookup_insert_ne; [done|]. set_solver.
Qed.

Lemma core_insert (vs : list vcpu) i v v' :
  vs !! i = Some v -> core v' = core v -> core <$> <[i := v']> vs = core <$> vs.
Proof.
  intros Hi Hc. rewrite list_fmap_insert, Hc. apply list_insert_id.
  by rewrite list_lookup_fmap, Hi.
Qed.

Lemma unlink_wp me s queue l1 i l2 rqs :
  queues_wf me s queue (l1 ++ i :: l2) rqs ->
  wp (unlink queue (list.last l1) i) (fun queue' s' =>
    queues_wf me s' queue' (l1 ++ l2) rqs /\ same_core s s') s.
Proof.
  intros Hwf. pose proof (qw_queue _ _ _ _ _ Hwf) as Hq.
  destruct (qchain_lt _ _ _ i Hq ltac:(set_solver)) as [v Hv].
  pose proof (qchain_NoDup _ _ _ Hq) as Hnd. pose proof (lookup_lt_Some _ _ _ Hv) as Hlt.
  unfold unlink. apply wp_bind. eapply read_loc_chain; [exact Hq|]. cbn [hd_error].
  apply wp_bind. eapply wp_lift; [done|]. apply wp_bind. eapply wp_get_vcpu; [exact Hv|].
  assert (i ∉ l1 ++ l2) as Hil.
  { apply NoDup_app in Hnd as (_ & Hd & [Hi2 _]%NoDup_cons). intros [?|?]%elem_of_app; [|done].
    eapply Hd; [done|]. by apply elem_of_cons; left. }
  apply wp_bind. destruct (decide (l1 = [])) as [->|Hne].
  - apply wp_ret, wp_bind. eapply wp_mod_vcpu; [exact Hv|]. apply wp_ret.
    assert (same_core s (set_vcpus (<[i := set_v_runnable false v]> (s_vcpus s)) s)) as Hc
      by (split; [done|split; [done|by eapply core_insert]]).
    split; [|done]. eapply queues_wf_core; [exact Hwf|exact Hc| | |set_solver]; cbn in *.
    + destruct Hq as (_ & v' & Hv' & Hq). simplify_eq. by apply qchain_insert_ne.
    + intros j w' Hj Hcpu. destruct (decide (j = i)) as [->|Hji].
      * rewrite list_lookup_insert_eq in Hj by done. by injection Hj as <-.
      * rewrite list_lookup_insert_ne in Hj by done.
        rewrite <- (qw_on _ _ _ _ _ Hwf j w' Hj Hcpu). set_solver.
  - destruct (exists_last Hne) as (l0 & p & ->). rewrite last_snoc in *.
    rewrite <- app_assoc in *. cbn in Hq, Hil, Hnd |- *.
    destruct (qchain_lt _ _ _ p Hq ltac:(set_solver)) as [vp Hvp].
    assert (p <> i) as Hpi by set_solver.
    apply wp_bind. eapply wp_mod_vcpu; [exact Hvp|]. apply wp_ret, wp_bind.
    eapply (wp_mod_vcpu _ _ v); [cbn; by rewrite list_lookup_insert_ne|]. apply wp_ret.
    match goal with |- queues_wf _ ?s2 _ _ _ /\ _ => assert (same_core s s2) as Hc end.
    { split; [done|]. split; [done|]. cbn. rewrite (core_insert _ _ v);
        [|by rewrite list_lookup_insert_ne|done]. by eapply core_insert. }
    split; [|done]. eapply queues_wf_core; [exact Hwf|exact Hc| | |set_solver]; cbn in *.
    + apply qchain_insert_ne; [set_solver|]. by eapply qchain_unlink.
    + intros j w' Hj Hcpu. destruct (decide (j = i)) as [->|Hji].
      * rewrite list_lookup_insert_eq in Hj by (by rewrite length_insert).
        injection Hj as <-. cbn. set_solver.
      * rewrite list_lookup_insert_ne in Hj by done.
        destruct (decide (j = p)) as [->|Hjp].
        -- rewrite list_lookup_insert_eq in Hj by (by eapply lookup_lt_Some).
           injection Hj as <-. cbn in *.
           rewrite <- (qw_on _ _ _ _ _ Hwf p vp Hvp Hcpu). set_solver.
        -- rewrite list_lookup_insert_ne in Hj by done.
           rewrite <- (qw_on _ _ _ _ _ Hwf j w' Hj Hcpu). set_solver.
Qed.

(** ** Dispatching a VCPU *)

(** What the choice of the next VCPU depends on. *)
Definition vkey (v : vcpu) : Z * Z * Z * bool := (v_T v, v_b v, v_cpu v, v_running v).

Definition same_key (s s' : sched) : Prop := vkey <$> s_vcpus s' = vkey <$> s_vcpus s.

Lemma same_key_trans s1 s2 s3 : same_key s1 s2 -> same_key s2 s3 -> same_key s1 s3.
Proof. unfold same_key. congruence. Qed.

Lemma same_key_vcpu s s' j w' :
  same_key s s' -> s_vcpus s' !! j = Some w' ->
  exists w, s_vcpus s !! j = Some w /\ v_T w' = v_T w /\ v_b w' = v_b w /\
    v_cpu w' = v_cpu w /\ v_running w' = v_running w.
Proof.
  intros E Hj. apply (f_equal (.!! j)) in E.
  rewrite !list_lookup_fmap, Hj in E. destruct (s_vcpus s !! j) as [w|]; [|done].
  exists w. split; [done|]. by injection E.
Qed.

Lemma bkept_key s s' : kept_by bshape s s' -> same_key s s'.
Proof.
  intros [E _]. injection E as Ev _ _. unfold same_key.
  apply (f_equal (fmap vkey)) in Ev. rewrite <- !list_fmap_compose in Ev. exact Ev.
Qed.

Lemma core_key s s' : same_core s s' -> same_key s s'.
Proof.
  intros (_ & _ & Ev). unfold same_key.
  apply (f_equal (fmap vkey)) in Ev. rewrite <- !list_fmap_compose in Ev. exact Ev.
Qed.

Lemma running_wf_key me s s' cur : same_key s s' -> running_wf me s cur -> running_wf me s' cur.
Proof.
  intros Hk [H1 H2]. split.
  - intros i v' Hi Hc. destruct (same_key_vcpu _ _ _ _ Hk Hi) as (v & Hv & _ & _ & Ec & Er).
    rewrite Er. eapply H1; [exact Hv|congruence].
  - intros c Hcur. destruct (H2 c Hcur) as (v & Hv & Hc).
    unfold same_key in Hk. apply (f_equal (.!! c)) in Hk.
    rewrite !list_lookup_fmap, Hv in Hk. destruct (s_vcpus s' !! c) as [v'|]; [|done].
    exists v'. split; [done|]. injection Hk as _ _ -> _. done.
Qed.

(** The control blocks themselves are not created or destroyed. *)
Definition same_tasks (s s' : sched) : Prop :=
  forall x, is_Some (s_tasks s !! x) -> is_Some (s_tasks s' !! x).

Section dispatch.
Context (E : env) (me : nat).
Hypothesis Hnehalem : e_nehalem E = false.

(** What [dispatch] and the idle branch leave behind: the queues are well-formed,
    budgets and running flags are those of [s], the per-CPU variables name the
    choice. *)
Record dispatched (s : sched) (p : percpu) (cur' queue' : option nat) (s' : sched) : Prop := {
  dp_wf : exists l' rqs', queues_wf me s' queue' l' rqs' /\ busy l' rqs';
  dp_key : same_key s s';
  dp_tasks : same_tasks s s';
  dp_pc : exists p', s_pcpus s' !! me = Some p' /\
    pshape p' = pshape (set_queue queue' (set_current cur' p))
}.

Lemma dispatch_wp cur queue l1 i l2 rqs s p :
  queues_wf me s queue (l1 ++ i :: l2) rqs -> busy (l1 ++ i :: l2) rqs ->
  s_pcpus s !! me = Some p ->
  wp (dispatch E me cur queue (list.last l1)) (fun '(vc, next, queue') s' =>
    vc = Some i /\ dispatched s p (Some i) queue' s' /\
    next <> 0 /\ is_Some (s_tasks s' !! next) /\
    exists v', s_vcpus s' !! i = Some v' /\ v_tr v' = next) s.
Proof.
  intros Hwf Hbusy Hp. pose proof (qw_queue _ _ _ _ _ Hwf) as Hq.
  destruct (qchain_lt _ _ _ i Hq ltac:(set_solver)) as [v Hv].
  pose proof (lookup_lt_Some _ _ _ Hv) as Hlt.
  destruct (lookup_lt_is_Some_2 rqs i) as [ts Hts];
    [by rewrite (qw_len _ _ _ _ _ Hwf)|].
  destruct (qw_rq _ _ _ _ _ Hwf i v ts Hv Hts) as [Hch Htr].
  assert (ts <> []) as Hne. { intros ->. eapply (Hbusy i); [set_solver|done]. }
  unfold dispatch. apply wp_bind. eapply read_loc_chain; [exact Hq|]. cbn [hd_error].
  apply wp_bind. eapply wp_lift; [done|]. apply wp_bind.
  eapply internal_schedule_wp; [exact Hv|exact Hch|done|done|].
  intros tr rq ns tasks' Htrin Hrq Hsame Hf.
  pose proof (queues_wf_slot me s queue _ rqs i v ts tr rq ns tasks' Hwf Hv Hts Htrin Hrq Hf)
    as Hwf1.
  set (s1 := set_tasks tasks' _) in *.
  assert (s_vcpus s1 !! i = Some (set_task_slot tr rq ns v)) as Hv1
    by (by apply list_lookup_insert_eq).
  assert (same_key s s1) as Hk1.
  { unfold same_key, s1. cbn. rewrite list_fmap_insert. apply list_insert_id.
    by rewrite list_lookup_fmap, Hv. }
  assert (tr <> 0) as Htr0 by (eapply chain_nonzero; [exact Hch|done]).
  assert (is_Some (tasks' !! tr)) as Htrt.
  { eapply same_but_next_dom; [exact Hsame|]. eapply chain_lookup; [exact Hch|done]. }
  apply wp_bind. eapply wp_get_vcpu; [exact Hv1|]. cbn [set_task_slot v_runqueue].
  apply wp_bind. unfold set_task_slot at 1, set_v_next_schedule, set_v_tr, set_v_runqueue.
  cbn [v_runqueue].
  (* either way: a queue, and a state with the same VCPUs but for the links *)
  assert (wp (if rq =? 0 then unlink queue (list.last l1) i else ret queue)
    (fun queue' s2 => same_core s1 s2 /\
       exists l' rqs', queues_wf me s2 queue' l' rqs' /\ busy l' rqs') s1) as Hun.
  { destruct (Z.eqb_spec rq 0) as [->|Hrq0].
    - eapply wp_mono; [by apply unlink_wp|]. intros queue' s2 [Hwf2 Hc].
      split; [done|]. eexists _, _. split; [exact Hwf2|].
      intros j Hj. assert (j <> i) as Hji.
      { intros ->. apply qchain_NoDup in Hq. apply NoDup_app in Hq as (_ & Hd & [H2 _]%NoDup_cons).
        apply elem_of_app in Hj as [Hj|Hj]; [|done]. eapply Hd; [done|].
        apply elem_of_cons. by left. }
      rewrite list_lookup_insert_ne by done. apply Hbusy. set_solver.
    - apply wp_ret. split; [done|]. eexists _, _. split; [exact Hwf1|].
      intros j Hj. destruct (decide (j = i)) as [->|Hji].
      + rewrite list_lookup_insert_eq by (by eapply lookup_lt_Some). intros [= Habs].
        rewrite Habs in Hrq. done.
      + rewrite list_lookup_insert_ne by done. by apply Hbusy. }
  eapply wp_mono; [exact Hun|]. cbn beta. clear Hun.
  intros queue' s2 (Hc & l' & rqs' & Hwf2 & Hb2).
  assert (exists v2, s_vcpus s2 !! i = Some v2 /\ v_tr v2 = tr) as (v2 & Hv2 & Htr2).
  { destruct Hc as (_ & _ & Ev). apply (f_equal (.!! i)) in Ev.
    rewrite !list_lookup_fmap, Hv1 in Ev. destruct (s_vcpus s2 !! i) as [v2|]; [|done].
    exists v2. split; [done|]. apply (inj Some) in Ev.
    by apply core_fields in Ev as (_ & _ & _ & -> & _). }
  apply wp_bind. eapply wp_get_vcpu; [exact Hv2|].
  unfold perfmon_vcpu_acnt_end. rewrite Hnehalem.
  apply wp_bind. apply (wp_mono _ (fun _ s' => s' = s2)).
  { apply wp_when; [|done]. intros _. by destruct cur. }
  intros _ ? ->. pose proof Hc as (Et & Epc & _).
  apply wp_bind. eapply wp_mod_pc; [rewrite Epc; exact Hp|].
  apply wp_bind. eapply wp_mod_pc.
  { cbn. rewrite list_lookup_insert_eq; [done|]. rewrite Epc. by eapply lookup_lt_Some. }
  apply wp_ret. split; [done|]. split; [|split; [by rewrite Htr2|split]].
  - split.
    + exists l', rqs'. split; [|done]. by destruct Hwf2.
    + eapply same_key_trans; [exact Hk1|]. exact (core_key _ _ Hc).
    + intros x Hx. cbn. rewrite Et. cbn. by eapply same_but_next_dom.
    + cbn. eexists. rewrite list_lookup_insert_eq;
        [|rewrite length_insert, Epc; by eapply lookup_lt_Some]. by split.
  - cbn. by rewrite Et, Htr2.
  - cbn. eauto.
Qed.
End dispatch.

(** ** The choice *)

(** The VCPU [vc] and its task [next], chosen among the queue [l]: the VCPU has
    budget and none of higher priority has any; or there is none at all. *)
Definition chosen (me : nat) (s : sched) (l : list nat) (vc : option nat) (next : Z) : Prop :=
  match vc with
  | Some i => i ∈ l /\ exists v, s_vcpus s !! i = Some v /\ 0 < v_b v /\ v_tr v = next /\
      next <> 0 /\ is_Some (s_tasks s !! next) /\ v_cpu v = Z.of_nat me /\
      forall j w, j ∈ l -> s_vcpus s !! j = Some w -> v_T w < v_T v -> v_b w <= 0
  | None => next = 0 /\ forall j w, j ∈ l -> s_vcpus s !! j = Some w -> v_b w <= 0
  end.

Lemma chosen_bkept me s s' l vc next :
  kept_by bshape s s' -> chosen me s l vc next -> chosen me s' l vc next.
Proof.
  intros Hk. pose proof (bkept_key _ _ Hk) as Hkey. destruct vc as [i|]; cbn.
  - intros (Hil & v & Hv & Hb & Htr & Hn & Ht & Hcpu & Hall). split; [done|].
    destruct (kept_lookup_vcpu _ _ _ _ _ Hk Hv) as (v' & Hv' & Hs & _).
    assert (v_b v' = v_b v /\ v_tr v' = v_tr v /\ v_T v' = v_T v /\ v_cpu v' = v_cpu v)
      as (Eb & Etr & ET & Ecpu) by (by injection Hs).
    exists v'. rewrite Eb, Etr, ET, Ecpu, (kept_tasks _ _ _ (bkept_kept _ _ Hk)).
    do 6 (split; [done|]). intros j w' Hj Hw'.
    destruct (same_key_vcpu _ _ _ _ Hkey Hw') as (w & Hw & -> & -> & _). by eapply Hall.
  - intros [-> Hall]. split; [done|]. intros j w' Hj Hw'.
    destruct (same_key_vcpu _ _ _ _ Hkey Hw') as (w & Hw & _ & -> & _). by eapply Hall.
Qed.

(** The state after [if (queue)], or after any step that only accounts. *)
Record scheduled (me : nat) (s : sched) (p : percpu) (l : list nat) (vc : option nat)
    (next : Z) (s' : sched) : Prop := {
  sd_pc : exists p', s_pcpus s' !! me = Some p' /\ (next <> 0 -> vcpu_current p' = vc) /\
    vcpu_idle_task p' = vcpu_idle_task p /\ current_task p' = current_task p /\
    exists l' rqs', queues_wf me s' (vcpu_queue p') l' rqs' /\ busy l' rqs';
  sd_run : forall c, running_wf me s c -> running_wf me s' c;
  sd_tasks : same_tasks s s';
  sd_chosen : chosen me s' l vc next
}.

Lemma scheduled_bkept me s p l vc next s1 s2 :
  scheduled me s p l vc next s1 -> kept_by bshape s1 s2 -> scheduled me s p l vc next s2.
Proof.
  intros [Hpc Hrun Ht Hc] Hk. pose proof (bkept_kept _ _ Hk) as Hk'. split.
  - destruct Hpc as (p1 & Hp1 & E1 & E2 & E3 & l' & rqs' & Hwf & Hb).
    destruct (kept_lookup_pc _ _ _ _ _ Hk Hp1) as (p2 & Hp2 & Hs). exists p2.
    split; [done|]. injection Hs as Eq Ec Ei Et. rewrite Eq, Ec, Ei, Et.
    repeat (split; [done|]). exists l', rqs'. split; [|done]. by eapply queues_wf_kept.
  - intros c Hc'. eapply running_wf_kept; [exact Hk'|]. by apply Hrun.
  - intros x Hx. rewrite (kept_tasks _ _ _ Hk'). by apply Ht.
  - by eapply chosen_bkept.
Qed.

Section schedule.
Context (E : env) (me : nat).
Hypothesis Hnehalem : e_nehalem E = false.
Hypothesis Htsc : 0 < e_tsc_freq E < 2 ^ 64.
Hypothesis Hbus : QUANTUM_HZ <= e_bus_freq E.

(** The branch taken after the selection. *)
Lemma branch_wp cur queue l rqs s p Tnext vnext :
  queues_wf me s queue l rqs -> busy l rqs -> s_pcpus s !! me = Some p ->
  vcpu_queue p = queue -> picked s l Tnext vnext ->
  wp (match vnext with
      | Some loc => dispatch E me cur queue loc
      | None =>
          perfmon_vcpu_acnt_end E cur ;;!
          mod_pc me (set_current None) ;;!
          ret (None, 0, queue)
      end) (fun '(vc, next, queue') s' =>
        scheduled me s p l vc next s' /\
        exists p' l', s_pcpus s' !! me = Some p' /\ vcpu_queue p' = queue' /\
          qchain (s_vcpus s') queue' l') s.
Proof.
  intros Hwf Hbusy Hp Hpq Hpick. destruct vnext as [loc|].
  - destruct Hpick as (l1 & i & l2 & v & -> & -> & Hv & HT & Hb & Hbest & _).
    eapply wp_mono; [by eapply dispatch_wp|]. intros [[vc next] queue'] s'.
    intros (-> & [(l' & rqs' & Hwf' & Hb') Hkey Htasks (p' & Hp' & Hps)] & Hn & Ht & v' & Hv' & Htr).
    injection Hps as Eq Ec Ei Et. split.
    + split.
      * exists p'. rewrite Eq, Ec, Ei, Et. do 4 (split; [done|]). by exists l', rqs'.
      * intros c. by apply running_wf_key.
      * done.
      * split; [set_solver|]. exists v'.
        destruct (same_key_vcpu _ _ _ _ Hkey Hv') as (v0 & Hv0 & ET & EB & EC & _). simplify_eq.
        do 2 (split; [done || lia|]). do 3 (split; [done|]).
        split; [rewrite EC; eapply (qw_home _ _ _ _ _ Hwf i); [set_solver|done]|]. intros j w' Hj Hw' HTj.
        destruct (same_key_vcpu _ _ _ _ Hkey Hw') as (w & Hw & ETw & EBw & _).
        rewrite EBw. apply (Hbest j w Hj Hw). lia.
    + exists p', l'. split; [done|]. split; [done|]. by destruct Hwf'.
  - destruct Hpick as [-> Hnone]. unfold perfmon_vcpu_acnt_end. rewrite Hnehalem.
    apply wp_bind. apply (wp_mono _ (fun _ s' => s' = s)); [by destruct cur|].
    intros _ ? ->. apply wp_bind. eapply wp_mod_pc; [exact Hp|]. apply wp_ret.
    assert (forall f, <[me := f]> (s_pcpus s) !! me = Some f) as Hme.
    { intros f. apply list_lookup_insert_eq. by eapply lookup_lt_Some. }
    split; [split|]; cbn.
    + exists (set_current None p). split; [apply Hme|]. do 3 (split; [done|]). cbn.
      rewrite Hpq. exists l, rqs. split; [|done]. by destruct Hwf.
    + done.
    + by intros x Hx.
    + done.
    + exists (set_current None p), l. split; [apply Hme|]. split; [done|]. by destruct Hwf.
Qed.

Lemma schedule_queue_wp tcur cur queue l rqs s p :
  queues_wf me s queue l rqs -> busy l rqs -> s_pcpus s !! me = Some p ->
  vcpu_queue p = queue ->
  wp (schedule_queue E me tcur cur queue) (fun '(vc, next, _) s' =>
    scheduled me s p l vc next s') s.
Proof.
  intros Hwf Hbusy Hp Hpq. pose proof Hwf as [Hg HT Hq _ _ _ _ _].
  unfold schedule_queue, pick_next. apply wp_bind, wp_bind, wp_gets.
  eapply wp_mono; [eapply (pick_loop E me tcur queue _ [] l 0 None s p); try done|].
  { by split; [|set_solver]. }
  { unfold walk_fuel. pose proof (qchain_length _ _ _ Hq). lia. }
  intros [Tnext vnext] s1 [Hk1 Hpick]. cbn [app] in Hpick.
  destruct (kept_lookup_pc _ _ _ _ _ Hk1 Hp) as (p1 & Hp1 & Hps1).
  injection Hps1 as Eq1 Ec1 Ei1 Et1.
  apply wp_bind. eapply wp_mono.
  { eapply (branch_wp cur queue l rqs s1 p1 Tnext vnext); [by eapply queues_wf_kept|done|
      done|congruence|done]. }
  intros [[vc next] queue'] s2 (Hsd & p2 & l2 & Hp2 & Eq2 & Hq2).
  assert (scheduled me s p l vc next s2) as Hsd0.
  { destruct Hsd as [(p' & Hp' & E1 & E2 & E3 & Hl) Hrun Htasks Hch]. split.
    - exists p'. rewrite E2, E3, Ei1, Et1. by do 4 (split; [done|]).
    - intros c Hc. apply Hrun. by eapply running_wf_kept.
    - intros x Hx. apply Htasks. by rewrite (kept_tasks _ _ _ Hk1).
    - done. }
  clear Hsd. assert (all_good s2) as Hg2.
  { destruct Hsd0 as [(p' & _ & _ & _ & _ & l' & rqs' & Hwf' & _) _ _ _]. by destruct Hwf'. }
  apply wp_bind. apply (wp_mono _ (fun _ s' => s' = s2)).
  { destruct vc as [i|]; [|by apply wp_ret].
    destruct Hsd0 as [_ _ _ (_ & v & Hv & _)]. apply wp_bind.
    eapply wp_get_vcpu; [exact Hv|]. by apply wp_ret. }
  intros tdelta ? ->. apply wp_bind.
  unfold next_important_event. apply wp_bind, wp_gets. eapply wp_mono.
  { eapply (event_loop E me tcur Tnext queue' _ [] l2 tdelta s2 p2); try done.
    unfold walk_fuel. pose proof (qchain_length _ _ _ Hq2). lia. }
  intros tdelta' s3 Hk3. pose proof (scheduled_bkept _ _ _ _ _ _ _ _ Hsd0 Hk3) as Hsd3.
  apply wp_bind. eapply wp_mono.
  { eapply (keeps_set_timer E me (length (s_vcpus s3)) (length (s_pcpus s3)) vc tdelta' Htsc Hbus);
      [| |exact (proj2 Hk3)|done|done].
    - destruct Hsd3 as [(p' & Hp' & _) _ _ _]. by eapply lookup_lt_Some.
    - intros i ->. destruct Hsd3 as [_ _ _ (_ & v & Hv & _)]. by eapply lookup_lt_Some. }
  intros ts s4 Hk4. apply wp_ret. by eapply scheduled_bkept.
Qed.
End schedule.

(** ** The whole scheduler *)

(** The tasks the CPU may switch to exist. *)
Definition tasks_ok (E : env) (me : nat) (s : sched) (p : percpu) : Prop :=
  (vcpu_idle_task p <> 0 -> is_Some (s_tasks s !! vcpu_idle_task p)) /\
  e_idleTSS E me <> 0 /\ is_Some (s_tasks s !! e_idleTSS E me) /\
  (current_task p <> 0 -> is_Some (s_tasks s !! current_task p)).

Record sched_wf (E : env) (me : nat) (s : sched) (p : percpu) (l : list nat)
    (rqs : list (list Z)) : Prop := {
  sw_pc : s_pcpus s !! me = Some p;
  sw_queues : queues_wf me s (vcpu_queue p) l rqs;
  sw_busy : busy l rqs;
  sw_running : running_wf me s (vcpu_current p);
  sw_tasks : tasks_ok E me s p
}.

(** The state after the choice has been committed. *)
Definition committed (E : env) (me : nat) (l : list nat) (s' : sched) : Prop :=
  exists p' l' rqs', sched_wf E me s' p' l' rqs' /\
  match vcpu_current p' with
  | Some i => i ∈ l /\ exists v, s_vcpus s' !! i = Some v /\ 0 < v_b v /\
      v_running v = true /\ current_task p' = v_tr v /\
      forall j w, j ∈ l -> s_vcpus s' !! j = Some w -> v_T w < v_T v -> v_b w <= 0
  | None => current_task p' = vcpu_idle_task p' /\
      forall j w, j ∈ l -> s_vcpus s' !! j = Some w -> v_b w <= 0
  end.

(** What the choice is about, but for the running flag. *)
Definition vkey' (v : vcpu) : Z * Z * Z * Z := (v_T v, v_b v, v_cpu v, v_tr v).

Lemma ready_ext v w d : fshape w = fshape v -> ready v d -> ready w d.
Proof.
  intros Hs. assert (v_type w = v_type v /\ v_T w = v_T v /\ v_b w = v_b v /\
    v_usage w = v_usage v /\ v_part w = v_part v) as (Et & ET & Eb & Eu & Ep) by (by injection Hs).
  unfold ready. rewrite Et. destruct (v_type v).
  - unfold main_ready. rewrite ET. intros [? Hw]. split; [done|]. intros sv Hsv. apply Hw.
    by eapply represents_ext.
  - intros (p & sv & Hp & (i & Ei & []) & Hrest). exists p, sv. split; [done|].
    split; [|done]. exists i. split; [congruence|]. split; congruence.
Qed.

(** Setting the running flag of a VCPU. *)
Lemma rkept_running s i v b :
  all_good s -> s_vcpus s !! i = Some v ->
  kept_by rshape s (set_vcpus (<[i := set_v_running b v]> (s_vcpus s)) s).
Proof.
  intros Hg Hi. eapply kept_vcpu; [done|exact Hi|done|].
  apply (good_ext v); [done..|]. by eapply Forall_lookup_1.
Qed.

(** The choice made, the task [next'] to switch to known, [cur] still flagged as
    running. *)
Record selected (E : env) (me : nat) (l : list nat) (cur vc : option nat) (next next' : Z)
    (s : sched) : Prop := {
  se_chosen : chosen me s l vc next;
  se_next : is_Some (s_tasks s !! next') /\ next' <> 0 /\ (next <> 0 -> next' = next);
  se_running : running_wf me s cur;
  se_pc : exists p, s_pcpus s !! me = Some p /\ vcpu_current p = vc /\
    tasks_ok E me s p /\ (next = 0 -> next' = vcpu_idle_task p) /\
    exists l' rqs', queues_wf me s (vcpu_queue p) l' rqs' /\ busy l' rqs'
}.

Lemma selected_bkept E me l cur vc next next' s s' :
  selected E me l cur vc next next' s -> kept_by bshape s s' ->
  selected E me l cur vc next next' s'.
Proof.
  intros [Hch Hn Hrun (p & Hp & Hc & Hok & Hi & l' & rqs' & Hwf & Hb)] Hk.
  pose proof (bkept_kept _ _ Hk) as Hk'. pose proof (kept_tasks _ _ _ Hk) as Et. split.
  - by eapply chosen_bkept.
  - by rewrite Et.
  - by eapply running_wf_kept.
  - destruct (kept_lookup_pc _ _ _ _ _ Hk Hp) as (p' & Hp' & Hs). exists p'.
    injection Hs as Eq Ec Ei Ect. unfold tasks_ok. rewrite Eq, Ec, Ei, Ect, Et.
    do 4 (split; [done|]). exists l', rqs'. split; [|done]. by eapply queues_wf_kept.
Qed.

(** Reading the choice off the final state. *)
Lemma committed_chosen me s s2 s3 p l vc next next' :
  chosen me s l vc next -> running_wf me s2 vc ->
  (next <> 0 -> next' = next) -> (next = 0 -> next' = vcpu_idle_task p) ->
  vkey' <$> s_vcpus s2 = vkey' <$> s_vcpus s -> s_vcpus s3 = s_vcpus s2 ->
  match vc with
  | Some i => i ∈ l /\ exists v, s_vcpus s3 !! i = Some v /\ 0 < v_b v /\
      v_running v = true /\ next' = v_tr v /\
      forall j w, j ∈ l -> s_vcpus s3 !! j = Some w -> v_T w < v_T v -> v_b w <= 0
  | None => next' = vcpu_idle_task p /\
      forall j w, j ∈ l -> s_vcpus s3 !! j = Some w -> v_b w <= 0
  end.
Proof.
  intros Hch [Hrun _] Hn Hz Ek ->.
  assert (forall j w', s_vcpus s2 !! j = Some w' -> exists w, s_vcpus s !! j = Some w /\
    v_T w' = v_T w /\ v_b w' = v_b w) as Hback.
  { intros j w' Hj. apply (f_equal (.!! j)) in Ek. rewrite !list_lookup_fmap, Hj in Ek.
    destruct (s_vcpus s !! j) as [w|]; [|done]. exists w. split; [done|]. by injection Ek. }
  destruct vc as [i|]; cbn in Hch.
  - destruct Hch as (Hil & v & Hv & Hb & Htr & Hn0 & _ & Hcpu & Hall). split; [done|].
    apply (f_equal (.!! i)) in Ek as Eki. rewrite !list_lookup_fmap, Hv in Eki.
    destruct (s_vcpus s2 !! i) as [v2|] eqn:Hv2; [|done]. injection Eki as ET EB EC Etr.
    exists v2. split; [done|]. split; [lia|].
    split; [apply (Hrun i v2 Hv2); [congruence|done]|]. split; [rewrite Hn by done; congruence|].
    intros j w' Hj Hw' HT. destruct (Hback j w' Hw') as (w & Hw & ETw & EBw).
    rewrite EBw. apply (Hall j w Hj Hw). lia.
  - destruct Hch as [-> Hall]. split; [by apply Hz|]. intros j w' Hj Hw'.
    destruct (Hback j w' Hw') as (w & Hw & _ & ->). by eapply Hall.
Qed.

Section whole.
Context (E : env) (me : nat).
Hypothesis Hnehalem : e_nehalem E = false.
Hypothesis Htsc : 0 < e_tsc_freq E < 2 ^ 64.
Hypothesis Hbus : QUANTUM_HZ <= e_bus_freq E.

(** Charging the current VCPU, or the idle time. *)
Lemma charge_wp p l rqs s tdelta :
  sched_wf E me s p l rqs ->
  (forall c v, vcpu_current p = Some c -> s_vcpus s !! c = Some v -> ready v tdelta) ->
  wp (match vcpu_current p with
      | Some c =>
          vcpu_acnt_end_timeslice E c ;;!
          let! h := hooks_of E c in
          run_hook me c (end_timeslice h tdelta)
      | None => idle_time_acnt_end E me
      end) (fun _ s' => kept s s') s.
Proof.
  intros [Hp Hq _ [_ Hcur] _] Hready. pose proof (qw_good _ _ _ _ _ Hq) as Hg.
  pose proof (lookup_lt_Some _ _ _ Hp) as Hme. destruct (vcpu_current p) as [c|].
  - destruct (Hcur c eq_refl) as (v & Hv & _). specialize (Hready c v eq_refl Hv).
    pose proof (lookup_lt_Some _ _ _ Hv) as Hc. apply wp_bind. eapply wp_mono.
    { by eapply (keeps_acnt_end E _ _ c Hc). }
    intros ? s1 Hk1. cbn beta in Hk1. destruct (kept_lookup_vcpu _ _ _ _ _ Hk1 Hv) as (v1 & Hv1 & Hs & _).
    destruct (kept_lookup_pc _ _ _ _ _ Hk1 Hp) as (p1 & Hp1 & _).
    apply wp_bind. eapply wp_hooks_of; [exact Hv1|]. eapply wp_mono.
    { eapply (run_hook_kept _ _ _ _ _ _ (fun _ _ => True)); [exact (proj2 Hk1)|exact Hv1|
        exact Hp1|].
      intros h <-. assert (good (h_v h)) as Hgv.
      { eapply Forall_lookup_1; [exact (proj2 Hk1)|exact Hv1]. }
      destruct (proj2 (proj2 (hooks_sound (e_tsc E) h Hgv)) tdelta) as (h' & Eh & Hg' & Hs').
      { by eapply ready_ext. }
      by exists tt, h'. }
    intros ? s2 [Hk2 _]. eapply kept_trans; [|exact Hk2]. by apply bkept_kept, fkept_bkept.
  - eapply wp_mono; [by eapply (keeps_idle_end E _ _ me Hme)|]. intros ? s1. apply bkept_kept.
Qed.

(** Choosing the idle task when there is no other. *)
Lemma select_idle_wp s p l cur vc next s1 :
  scheduled me s p l vc next s1 -> tasks_ok E me s p -> running_wf me s cur ->
  wp (select_idle E me next) (fun next' s2 =>
    selected E me l cur vc next next' s2) s1.
Proof.
  intros [(p1 & Hp1 & Ec & Ei & Et & l' & rqs' & Hwf & Hb) Hrun Htasks Hch]
    (Hi1 & Hi0 & Hi2 & Hi3) Hcur%Hrun.
  pose proof (qw_good _ _ _ _ _ Hwf) as Hg. unfold select_idle. apply wp_bind.
  assert (tasks_ok E me s1 p1) as Hok1.
  { unfold tasks_ok. rewrite Ei, Et. split; [by intros ?; apply Htasks, Hi1|].
    split; [done|]. split; [by apply Htasks|]. intros ?. by apply Htasks, Hi3. }
  assert (forall q, <[me := q]> (s_pcpus s1) !! me = Some q) as Hme.
  { intros q. apply list_lookup_insert_eq. by eapply lookup_lt_Some. }
  destruct (Z.eqb_spec next 0) as [->|Hn].
  - assert (vc = None) as ->.
    { destruct vc; [|done]. by destruct Hch as (_ & v & _ & _ & _ & ? & _). }
    apply wp_bind. eapply wp_get_pc; [exact Hp1|]. apply wp_bind.
    eapply wp_mod_pc; [exact Hp1|]. apply wp_ret.
    destruct (Z.eqb_spec (vcpu_idle_task p1) 0) as [E0|E0].
    + apply wp_bind. eapply wp_mod_pc; [cbn; apply Hme|]. apply wp_ret. cbn.
      rewrite list_insert_insert_eq. split; [done|by split; [apply Htasks|]|done|].
      eexists. split; [apply Hme|]. cbn. split; [done|].
      split; [|split; [done|]].
      * split; [intros _; by apply Htasks|]. split; [done|]. split; [by apply Htasks|].
        by apply Hok1.
      * exists l', rqs'. split; [|done]. by destruct Hwf.
    + apply wp_ret. split; [done|by split; [apply Hok1|]|done|].
      eexists. split; [apply Hme|]. cbn. split; [done|]. split; [done|]. split; [done|].
      exists l', rqs'. split; [|done]. by destruct Hwf.
  - apply wp_ret. destruct (Z.eqb_spec next 0); [done|]. apply wp_ret.
    destruct vc as [i|]; [|by destruct Hch].
    pose proof Hch as (_ & v & _ & _ & _ & _ & Ht & _). split; [done|done|done|].
    exists p1. split; [done|].
    split; [by apply Ec|]. split; [done|]. split; [done|]. by exists l', rqs'.
Qed.

(** The relation between a state and the same one with other running flags. *)
Definition reflagged (s s' : sched) : Prop :=
  kept_by rshape s s' /\ s_pcpus s' = s_pcpus s /\
  vkey' <$> s_vcpus s' = vkey' <$> s_vcpus s.

Lemma reflagged_insert s i v b :
  all_good s -> s_vcpus s !! i = Some v ->
  reflagged s (set_vcpus (<[i := set_v_running b v]> (s_vcpus s)) s).
Proof.
  intros Hg Hi. split; [by apply rkept_running|]. split; [done|]. cbn.
  rewrite list_fmap_insert. apply list_insert_id. by rewrite list_lookup_fmap, Hi.
Qed.

Lemma clear_running s cur :
  running_wf me s cur -> all_good s ->
  wp (match cur with Some c => mod_vcpu c (set_v_running false) | None => ret tt end)
    (fun _ s' => reflagged s s' /\ running_wf me s' None) s.
Proof.
  intros [H1 H2] Hg. destruct cur as [c|]; [|by apply wp_ret].
  destruct (H2 c eq_refl) as (v & Hv & Hc). pose proof (lookup_lt_Some _ _ _ Hv).
  eapply wp_mod_vcpu; [exact Hv|]. split; [by apply reflagged_insert|]. split; [|done].
  cbn. intros i w Hi Hw. destruct (decide (i = c)) as [->|Hne].
  - rewrite list_lookup_insert_eq in Hi by done. by injection Hi as <-.
  - rewrite list_lookup_insert_ne in Hi by done. rewrite (H1 i w Hi Hw). naive_solver.
Qed.

Lemma mark_running s vc :
  running_wf me s None -> all_good s ->
  (forall i, vc = Some i -> exists v, s_vcpus s !! i = Some v /\ v_cpu v = Z.of_nat me) ->
  wp (match vc with Some i => mod_vcpu i (set_v_running true) | None => ret tt end)
    (fun _ s' => reflagged s s' /\ running_wf me s' vc) s.
Proof.
  intros [H1 _] Hg Hvc. destruct vc as [c|]; [|by apply wp_ret].
  destruct (Hvc c eq_refl) as (v & Hv & Hc). pose proof (lookup_lt_Some _ _ _ Hv).
  eapply wp_mod_vcpu; [exact Hv|]. split; [by apply reflagged_insert|]. split; cbn.
  - intros i w Hi Hw. destruct (decide (i = c)) as [->|Hne].
    + rewrite list_lookup_insert_eq in Hi by done. by injection Hi as <-.
    + rewrite list_lookup_insert_ne in Hi by done. rewrite (H1 i w Hi Hw). naive_solver.
  - intros c' [= <-]. eexists. split; [by apply list_lookup_insert_eq|done].
Qed.

Lemma switch_wp s p next :
  s_pcpus s !! me = Some p -> is_Some (s_tasks s !! next) ->
  (current_task p <> 0 -> is_Some (s_tasks s !! current_task p)) ->
  wp (switch_unless_running me next) (fun _ s' =>
    s_vcpus s' = s_vcpus s /\ s_tasks s' = s_tasks s /\
    s_pcpus s' !! me = Some (set_current_task next p)) s.
Proof.
  intros Hp [t Ht] Hcur. unfold switch_unless_running. apply wp_bind.
  eapply wp_get_pc; [exact Hp|]. destruct (Z.eqb_spec (current_task p) next) as [<-|Hne].
  { apply wp_ret. do 2 (split; [done|]). by destruct p. }
  unfold software_context_switch. apply wp_bind. eapply wp_get_pc; [exact Hp|].
  apply wp_bind. apply (wp_mono _ (fun _ s' => s' = s)).
  { apply wp_when; [|done]. destruct (Z.eqb_spec (current_task p) 0); [done|]. intros _.
    destruct (Hcur n) as [t' Ht']. apply wp_bind. unfold lookup_task. apply wp_bind, wp_gets.
    eapply wp_lift; [unfold lookup_TSS; by rewrite Ht'|]. by apply wp_ret. }
  intros _ ? ->. apply wp_bind. unfold lookup_task. apply wp_bind, wp_gets.
  eapply wp_lift; [unfold lookup_TSS; by rewrite Ht|]. eapply wp_mod_pc; [exact Hp|].
  do 2 (split; [done|]). cbn. apply list_lookup_insert_eq. by eapply lookup_lt_Some.
Qed.

(** The last lines of [vcpu_schedule]. *)
Lemma commit_wp l cur vc next next' s :
  selected E me l cur vc next next' s ->
  wp (match cur with Some c => mod_vcpu c (set_v_running false) | None => ret tt end ;;!
      match vc with Some i => mod_vcpu i (set_v_running true) | None => ret tt end ;;!
      switch_unless_running me next') (fun _ s' => committed E me l s') s.
Proof.
  intros [Hch (Hn & Hn0 & Hnn) Hrun (p & Hp & Hc & Hok & Hi & l' & rqs' & Hwf & Hb)].
  pose proof (qw_good _ _ _ _ _ Hwf) as Hg. apply wp_bind.
  eapply wp_mono; [by apply clear_running|]. intros _ s1 [(Hk1 & Ep1 & Ek1) Hrun1].
  assert (forall j w, s_vcpus s !! j = Some w -> exists w1, s_vcpus s1 !! j = Some w1 /\
    vkey' w1 = vkey' w) as Hfwd1.
  { intros j w Hj. apply (f_equal (.!! j)) in Ek1. rewrite !list_lookup_fmap, Hj in Ek1.
    destruct (s_vcpus s1 !! j) as [w1|]; [|done]. exists w1. split; [done|]. by apply (inj Some). }
  apply wp_bind. eapply wp_mono.
  { apply mark_running; [exact Hrun1|exact (proj2 Hk1)|]. intros i ->.
    destruct Hch as (_ & v & Hv & _ & _ & _ & _ & Hcpu & _).
    destruct (Hfwd1 i v Hv) as (v1 & Hv1 & Ekv). exists v1. split; [done|].
    injection Ekv as _ _ -> _. done. }
  intros _ s2 [(Hk2 & Ep2 & Ek2) Hrun2].
  assert (s_tasks s2 = s_tasks s) as Et2
    by (by rewrite (kept_tasks _ _ _ Hk2), (kept_tasks _ _ _ Hk1)).
  assert (vkey' <$> s_vcpus s2 = vkey' <$> s_vcpus s) as Ek by congruence.
  rewrite Ep1 in Ep2. eapply wp_mono.
  { apply (switch_wp s2 p); [by rewrite Ep2|by rewrite Et2|rewrite Et2; apply Hok]. }
  intros _ s3 (Ev3 & Et3 & Hp3).
  assert (queues_wf me s2 (vcpu_queue p) l' rqs') as Hwf2
    by (eapply queues_wf_rkept; [exact Hk2|]; by eapply queues_wf_rkept).
  exists (set_current_task next' p), l', rqs'. split.
  - split; cbn.
    + done.
    + destruct Hwf2. split; unfold all_good, periods_pos in *; rewrite ?Ev3, ?Et3; eassumption.
    + done.
    + rewrite Hc. unfold running_wf in *. by rewrite Ev3.
    + unfold tasks_ok in *. cbn. rewrite Et3, Et2. destruct Hok as (? & ? & ? & ?).
      do 3 (split; [done|]). by intros _.
  - cbn. rewrite Hc. by eapply committed_chosen.
Qed.

(** The accounting between the choice and the switch. *)
Lemma begin_wp cur l vc next s p s1 (timer_set : bool) :
  scheduled me s p l vc next s1 ->
  wp (when (negb timer_set) (LAPIC_start_timer me (e_bus_freq E / QUANTUM_HZ)) ;;!
      match vc with
      | Some i =>
          vcpu_acnt_begin_timeslice E i ;;!
          when (negb (bool_decide (cur = Some i))) (perfmon_vcpu_acnt_start E (Some i))
      | None => idle_time_acnt_begin E me
      end) (fun _ s2 => scheduled me s p l vc next s2) s1.
Proof.
  intros Hsd. pose proof Hsd as [(p1 & Hp1 & _ & _ & _ & l' & rqs' & Hwf & _) _ _ Hch].
  pose proof (lookup_lt_Some _ _ _ Hp1) as Hme.
  assert (keeps bshape (length (s_vcpus s1)) (length (s_pcpus s1))
    (when (negb timer_set) (LAPIC_start_timer me (e_bus_freq E / QUANTUM_HZ)) ;;!
      match vc with
      | Some i =>
          vcpu_acnt_begin_timeslice E i ;;!
          when (negb (bool_decide (cur = Some i))) (perfmon_vcpu_acnt_start E (Some i))
      | None => idle_time_acnt_begin E me
      end)) as Hkeeps.
  { apply keeps_bind; [by apply keeps_when, keeps_timer|intros _].
    destruct vc as [i|]; [|by apply keeps_idle_begin].
    destruct Hch as (_ & v & Hv & _). apply keeps_bind.
    - apply keeps_acnt_begin. by eapply lookup_lt_Some.
    - intros _. by apply keeps_when, keeps_perfmon_start. }
  eapply wp_mono; [apply Hkeeps; [by destruct Hwf|done|done]|].
  intros ? s2 Hk. by eapply scheduled_bkept.
Qed.

(** A step that keeps the shape keeps the choice. *)
Lemma selected_step {A B} l cur vc next next' s (m : M sched A) (k : A -> M sched B) Q :
  selected E me l cur vc next next' s ->
  ((me < length (s_pcpus s))%nat ->
     keeps bshape (length (s_vcpus s)) (length (s_pcpus s)) m) ->
  (forall a s', selected E me l cur vc next next' s' -> wp (k a) Q s') ->
  wp (bind m k) Q s.
Proof.
  intros Hsel Hm Hk. pose proof Hsel as [_ _ _ (p & Hp & _ & _ & _ & l' & rqs' & Hwf & _)].
  apply wp_bind. eapply wp_mono.
  { apply Hm; [by eapply lookup_lt_Some|by destruct Hwf|done|done]. }
  intros a s' Hkept. apply Hk. by eapply selected_bkept.
Qed.

Lemma scheduled_idle s p rqs :
  queues_wf me s (vcpu_queue p) [] rqs -> s_pcpus s !! me = Some p ->
  scheduled me s p [] None 0 s.
Proof.
  intros Hwf Hp. split.
  - exists p. do 4 (split; [done|]). exists [], rqs. split; [done|]. intros i Hi. set_solver.
  - done.
  - by intros x.
  - split; [done|]. set_solver.
Qed.

Lemma vcpu_schedule_ok s p l rqs :
  sched_wf E me s p l rqs ->
  (forall c v, vcpu_current p = Some c -> s_vcpus s !! c = Some v ->
     ready v (u64 (e_tsc E (s_clk s) - pcpu_tprev p))) ->
  wp (vcpu_schedule E me) (fun _ s' => committed E me l s') s.
Proof.
  intros Hsw Hready. pose proof Hsw as [Hp Hq Hb Hrun Hok].
  unfold vcpu_schedule. apply wp_bind. eapply wp_get_pc; [exact Hp|]. apply wp_bind.
  set (s0 := set_clk (S (s_clk s)) s).
  assert (sched_wf E me s0 p l rqs) as Hsw0.
  { split; [done| |done|done|done]. eapply queues_wf_kept; [|exact Hq].
    apply kept_clk. by destruct Hq. }
  apply (wp_mono _ (fun t s' => t = e_tsc E (s_clk s) /\ s' = s0)); [done|].
  intros tcur ? [-> ->]. apply wp_bind. eapply wp_mono.
  { apply (charge_wp p l rqs s0); [done|]. exact Hready. }
  intros ? s1 Hk1. cbn beta in Hk1.
  destruct (kept_lookup_pc _ _ _ _ _ Hk1 Hp) as (p1 & Hp1 & Hs1).
  injection Hs1 as Eq1 Ec1 Ei1 Et1.
  assert (queues_wf me s1 (vcpu_queue p1) l rqs) as Hq1.
  { rewrite Eq1. eapply queues_wf_kept; [exact Hk1|]. apply Hsw0. }
  apply wp_bind.
  apply (wp_mono _ (fun '(vc, next, _) s2 => scheduled me s1 p1 l vc next s2)).
  { rewrite <- Eq1. destruct (vcpu_queue p1) as [h|] eqn:Ehd.
    - rewrite <- Ehd in *. eapply (schedule_queue_wp E me Hnehalem Htsc Hbus); [exact Hq1|done|done|done].
    - apply wp_ret. assert (l = []) as ->.
      { destruct Hq1 as [_ _ Hch _ _ _ _ _]. destruct l; [done|]. by destruct Hch. }
      eapply scheduled_idle; [by rewrite Ehd|done]. }
  intros [[vc next] timer_set] s2 Hsd.
  apply wp_seq. eapply wp_mono; [by apply begin_wp|]. intros ? s3 Hsd3. cbn beta in Hsd3.
  apply wp_bind. eapply wp_mono.
  { eapply (select_idle_wp s1 p1 l (vcpu_current p)); [exact Hsd3| |].
    - unfold tasks_ok. rewrite Ei1, Et1, (kept_tasks _ _ _ Hk1). apply Hok.
    - eapply running_wf_kept; [exact Hk1|]. apply Hsw0. }
  intros next' s4 Hsel4. cbn beta in Hsel4.
  eapply selected_step; [exact Hsel4|intros; keeps_tac|]. intros ? s5 Hsel5.
  eapply selected_step; [exact Hsel5|intros; keeps_tac|]. intros now s6 Hsel6.
  eapply selected_step; [exact Hsel6|intros; keeps_tac|]. intros ? s7 Hsel7.
  by eapply commit_wp.
Qed.
End whole.
