(* ===== verification/SchedWake.v ===== *)
(** * Waking a task up

    [vcpu_wakeup] keeps the invariant of the scheduler: the task joins the run
    queue of its VCPU, and the VCPU the queue of its CPU. *)

From Stdlib Require Import ZArith Lia.
From S2P Require Import Prelude Div64 TaskQueue ReplQueue Vcpu MainVcpu IoVcpu.
From S2P Require Import VcpuSched SchedLemmas SchedInv SchedThm.
From stdpp Require Import base gmap sets fin_sets numbers strings list.
Local Open Scope Z_scope.

(** ** Unblocking *)

(** A VCPU that may be unblocked at the reads [n], [n + 1] of the clock. *)
Definition unblockable (tsc : nat -> Z) (v : vcpu) (n : nat) : Prop :=
  match v_type v with
  | MAIN_VCPU => 0 < tsc (S n) < 2 ^ 62
  | IO_VCPU => 0 < tsc n /\ exists p sv, pibs_params p /\ io_represents p v sv /\ pibs_ok p sv
  end.

Lemma unblock_sound tsc h :
  good (h_v h) -> unblockable tsc (h_v h) (h_clk h) ->
  exists h', unblock (vcpu_hooks_table tsc (v_type (h_v h))) h = Ok (tt, h') /\
    good (h_v h') /\ vshape (h_v h') = vshape (h_v h).
Proof.
  intros Hg Hu. unfold good in Hg. unfold unblockable in Hu.
  destruct (v_type (h_v h)) eqn:Et; cbn [vcpu_hooks_table unblock main_vcpu_hooks io_vcpu_hooks].
  - destruct Hg as (Hb & HC & sv & Hinv).
    destruct (unblock_check_refines tsc (v_C (h_v h)) h sv) as (v' & n & E & Hup);
      [apply Hinv|apply Hinv|lia|destruct Hinv as (_ & _ & ?); lia|done|].
    pose proof (proj2 (proj2 (framed_main_hooks tsc 0 0)) _ _ _ E) as Hs.
    eexists. split; [exact E|]. split; [|done]. unfold good.
    rewrite (vshape_type _ _ Hs), Et. unfold main_good. rewrite (vshape_C _ _ Hs).
    split; [destruct Hup as (m & -> & _); done|]. split; [done|].
    eexists. split; [by eapply updated_represents|].
    split; [apply unblock_check_ok; [apply Hinv|lia]|].
    destruct Hinv as (_ & _ & Hu'). unfold Spec.advance. by repeat case_match.
  - destruct Hu as (Hnow & p & sv & Hp & Hrep & Hok).
    destruct (io_unblock_refines tsc p h sv Hp Hrep Hok Hnow) as (h' & E & Hr & _).
    pose proof (proj2 (proj2 (framed_io_hooks tsc 0 0)) _ _ _ E) as Hs.
    exists h'. split; [exact E|]. split; [|done]. unfold good.
    rewrite (vshape_type _ _ Hs), Et.
    destruct (pibs_unblock_ok p (tsc (h_clk h)) sv Hp Hok Hnow) as ([Hb' _ _ Hr'] & _).
    destruct Hr as (i' & E' & [_ _ _ Eb _ _ _ Er0]). split; [lia|]. exists i'. split; [done|].
    destruct (Pibs.r _) as [[t a]|] eqn:Er; cbn in Er0; [|done].
    destruct (Hr' t a eq_refl). lia.
Qed.

(** ** Joining the queue of the CPU *)

Definition queue_join (l : list nat) (i : nat) : list nat := if decide (i ∈ l) then l else l ++ [i].

(** The walk to the end of the queue. *)
Lemma queue_end_loop queue i fuel l1 l2 s :
  qchain (s_vcpus s) queue (l1 ++ l2) -> i ∉ l1 -> (length l2 < fuel)%nat ->
  wp (mloop fuel (fun loc =>
      let! cur := read_loc queue loc in
      match cur with
      | None => ret (Break (Some loc))
      | Some j => if (j =? i)%nat then ret (Break None) else ret (Continue (Some j))
      end) (list.last l1))
    (fun r s' => s' = s /\
       r = if decide (i ∈ l2) then None else Some (list.last (l1 ++ l2))) s.
Proof.
  revert l1 l2. induction fuel as [|fuel IH]; intros l1 l2 Hq Hi Hf; [lia|].
  cbn [mloop]. apply wp_bind, wp_bind. eapply read_loc_chain; [exact Hq|].
  destruct l2 as [|j l2]; cbn [hd_error].
  - apply wp_ret, wp_ret. split; [done|]. rewrite decide_False by set_solver.
    by rewrite app_nil_r.
  - destruct (Nat.eqb_spec j i) as [->|Hj]; apply wp_ret.
    + apply wp_ret. split; [done|]. rewrite decide_True by set_solver. done.
    + rewrite <- (last_snoc j l1). eapply wp_mono.
      { apply (IH (l1 ++ [j]) l2); [by rewrite <- app_assoc|set_solver|simpl in *; lia]. }
      intros r s' [-> ->]. split; [done|]. rewrite <- app_assoc. cbn.
      destruct (decide (i ∈ l2)), (decide (i ∈ j :: l2)); set_solver.
Qed.

Lemma qchain_snoc vs h l i v p vp :
  qchain vs h l -> i ∉ l -> vs !! i = Some v -> list.last l = Some p -> vs !! p = Some vp ->
  qchain (<[p := set_v_next (Some i) vp]> (<[i := set_v_next None v]> vs)) h (l ++ [i]).
Proof.
  intros H Hi Hv Hlast Hp. pose proof (qchain_NoDup _ _ _ H) as Hnd.
  revert h H. induction l as [|x l IH]; intros h; cbn; [done|].
  intros (-> & w & Hw & H). split; [done|]. apply NoDup_cons in Hnd as [Hx Hnd].
  assert (p <> i) as Hpi.
  { intros ->. apply Hi. apply last_Some in Hlast as (l' & ->). set_solver. }
  destruct l as [|y l].
  - cbn in Hlast. injection Hlast as ->. simplify_eq. exists (set_v_next (Some i) vp).
    split; [apply list_lookup_insert_eq; rewrite length_insert; by eapply lookup_lt_Some|].
    cbn. split; [done|]. exists (set_v_next None v).
    split; [|done]. rewrite list_lookup_insert_ne by done.
    apply list_lookup_insert_eq. by eapply lookup_lt_Some.
  - change (list.last (x :: y :: l)) with (list.last (y :: l)) in Hlast.
    exists w. split.
    + rewrite !list_lookup_insert_ne; [done|set_solver|].
      intros ->. apply Hx. apply last_Some in Hlast as (l' & ->). set_solver.
    + apply IH; [set_solver|done|done|done].
Qed.

Lemma vcpu_queue_append_wp queue i l v s :
  qchain (s_vcpus s) queue l -> s_vcpus s !! i = Some v ->
  wp (vcpu_queue_append queue i) (fun queue' s' =>
    qchain (s_vcpus s') queue' (queue_join l i) /\ same_core s s' /\ s_clk s' = s_clk s /\
    v_runnable <$> s_vcpus s' = v_runnable <$> s_vcpus s) s.
Proof.
  intros Hq Hv. unfold vcpu_queue_append, queue_end. apply wp_bind, wp_bind, wp_gets.
  eapply wp_mono.
  { apply (queue_end_loop queue i _ [] l); [done|set_solver|].
    unfold walk_fuel. pose proof (qchain_length _ _ _ Hq). lia. }
  intros r ? [-> ->]. unfold queue_join. destruct (decide (i ∈ l)) as [Hi|Hi]; [by apply wp_ret|].
  apply wp_bind. eapply wp_mod_vcpu; [exact Hv|]. cbn [app].
  assert (forall vs : list vcpu, forall k w w', vs !! k = Some w -> v_runnable w' = v_runnable w ->
    v_runnable <$> <[k := w']> vs = v_runnable <$> vs) as Hrun.
  { intros vs k w w' Hk E. rewrite list_fmap_insert, E. apply list_insert_id.
    by rewrite list_lookup_fmap, Hk. }
  destruct (list.last l) as [p|] eqn:Hlast.
  - destruct (qchain_lt _ _ _ p Hq) as [vp Hvp].
    { apply last_Some in Hlast as (l' & ->). set_solver. }
    assert (p <> i) as Hpi.
    { intros ->. apply Hi. apply last_Some in Hlast as (l' & ->). set_solver. }
    assert (<[i := set_v_next None v]> (s_vcpus s) !! p = Some vp) as Hvp'
      by (by rewrite list_lookup_insert_ne).
    unfold write_loc. apply wp_bind. eapply wp_mod_vcpu; [exact Hvp'|]. apply wp_ret. cbn.
    split; [by apply qchain_snoc|]. split.
    + split; [done|]. split; [done|]. cbn. rewrite (core_insert _ _ vp) by done.
      by apply (core_insert _ _ v).
    + split; [done|]. rewrite (Hrun _ _ vp) by done. by apply (Hrun _ _ v).
  - apply last_None in Hlast as ->. apply wp_ret. cbn.
    split; [|split; [|split; [done|by apply (Hrun _ _ v)]]].
    + split; [done|]. eexists. split; [apply list_lookup_insert_eq; by eapply lookup_lt_Some|done].
    + split; [done|]. split; [done|]. by apply (core_insert _ _ v).
Qed.

(** ** Joining the run queue of the VCPU *)

(** The part of [queues_wf] that does not mention the queue of VCPUs. *)
Record core_wf (s : sched) (rqs : list (list Z)) : Prop := {
  cw_good : all_good s;
  cw_T : periods_pos s;
  cw_len : length rqs = length (s_vcpus s);
  cw_rq i v ts : s_vcpus s !! i = Some v -> rqs !! i = Some ts ->
    chain (s_tasks s) (v_runqueue v) ts /\ (v_tr v = 0 -> v_next_schedule v = 0);
  cw_disj i j ts us x : i <> j -> rqs !! i = Some ts -> rqs !! j = Some us ->
    x ∈ ts -> x ∉ us
}.

Lemma core_wf_of me s queue l rqs : queues_wf me s queue l rqs -> core_wf s rqs.
Proof. by intros []. Qed.

(** [same s s'] up to fields the run queues do not depend on. *)
Lemma core_wf_ext s s' rqs :
  core_wf s rqs -> s_tasks s' = s_tasks s -> length (s_vcpus s') = length (s_vcpus s) ->
  (forall j w', s_vcpus s' !! j = Some w' -> exists w, s_vcpus s !! j = Some w /\
     v_runqueue w' = v_runqueue w /\ v_tr w' = v_tr w /\ v_T w' = v_T w /\
     v_next_schedule w' = v_next_schedule w) ->
  all_good s' -> core_wf s' rqs.
Proof.
  intros [] Et El Hback Hg. split; [done| |congruence| |done].
  - apply Forall_lookup. intros j w' Hj. destruct (Hback j w' Hj) as (w & Hw & _ & _ & -> & _).
    by eapply (Forall_lookup_1 _ _ _ _ cw_T0).
  - intros j w' us Hj Hus. destruct (Hback j w' Hj) as (w & Hw & -> & -> & _ & ->).
    rewrite Et. by eapply cw_rq0.
Qed.

Lemma core_wf_kept s s' rqs : kept s s' -> core_wf s rqs -> core_wf s' rqs.
Proof.
  intros Hk Hc. eapply core_wf_ext; [exact Hc|by eapply kept_tasks|by eapply kept_lengths| |].
  - intros j w' Hj. destruct (kept_vcpus _ _ _ _ _ Hk Hj) as (w & Hw & Hs). exists w.
    split; [done|]. by injection Hs.
  - exact (proj2 Hk).
Qed.

Lemma same_core_good s s' : same_core s s' -> all_good s -> all_good s'.
Proof.
  intros Hc Hg. apply Forall_lookup. intros j w' Hj.
  destruct (same_core_vcpu _ _ _ _ Hc Hj) as (w & Hw & Hcw).
  apply core_fields in Hcw as (? & ? & ? & ? & ? & ? & ? & ? & ? & ? & ?).
  eapply (good_ext w); [done..|]. by eapply Forall_lookup_1.
Qed.

Lemma core_wf_core s s' rqs : same_core s s' -> core_wf s rqs -> core_wf s' rqs.
Proof.
  intros Hc Hwf. pose proof Hc as (Et & _ & Ev).
  eapply core_wf_ext; [exact Hwf|done| | |].
  - apply (f_equal length) in Ev. by rewrite !length_fmap in Ev.
  - intros j w' Hj. destruct (same_core_vcpu _ _ _ _ Hc Hj) as (w & Hw & Hcw). exists w.
    split; [done|]. apply core_fields in Hcw. tauto.
  - eapply same_core_good; [exact Hc|]. by destruct Hwf.
Qed.

Lemma append_spec_elem l x y : y ∈ append_spec l x <-> y ∈ l \/ y = x.
Proof. unfold append_spec. destruct (decide (x ∈ l)); set_solver. Qed.

(** Appending [task] to a run queue that holds [ts] changes the [next] field of
    these tasks at most. *)
Definition touched (ts : list Z) (task : Z) (s s' : sched) : Prop :=
  same_but_next (s_tasks s) (s_tasks s') /\
  forall x, x ∉ task :: ts -> s_tasks s' !! x = s_tasks s !! x.

Lemma touched_same ts task s s' : touched ts task s s' -> same_tasks s s'.
Proof. intros [H _] x. by apply same_but_next_dom. Qed.

Lemma runqueue_append_wp s rqs i v ts task :
  core_wf s rqs -> s_vcpus s !! i = Some v -> rqs !! i = Some ts ->
  task <> 0 -> is_Some (s_tasks s !! task) ->
  (forall j us, rqs !! j = Some us -> task ∈ us -> j = i) ->
  wp (vcpu_runqueue_append i task) (fun _ s' =>
    core_wf s' (<[i := append_spec ts task]> rqs) /\ touched ts task s s' /\
    s_pcpus s' = s_pcpus s /\ s_clk s' = s_clk s /\
    exists rq, s_vcpus s' = <[i := set_v_runqueue rq v]> (s_vcpus s)) s.
Proof.
  intros [] Hv Hts H0 [t Ht] Hnew. destruct (cw_rq0 i v ts Hv Hts) as [Hch Htr].
  destruct (queue_append_chain _ _ _ _ _ Hch H0 Ht) as (rq & tasks' & E & Hch' & Hsame & Hf & _).
  pose proof (lookup_lt_Some _ _ _ Hv) as Hi. pose proof (lookup_lt_Some _ _ _ Hts) as Hi'.
  unfold vcpu_runqueue_append. apply wp_bind. eapply wp_get_vcpu; [exact Hv|].
  apply wp_bind, wp_gets, wp_bind. eapply wp_lift; [exact E|]. apply wp_bind, wp_modify.
  eapply wp_mod_vcpu; [exact Hv|]. split; [|split; [|by eauto]].
  2:{ by split. }
  assert (forall j us x, j <> i -> rqs !! j = Some us -> x ∈ us -> x ∉ task :: ts) as Hother.
  { intros j us x Hj Hus Hx [->|Hx']%elem_of_cons; [by apply Hj; eapply Hnew|].
    by eapply (cw_disj0 j i us ts x). }
  split; cbn.
  - apply Forall_insert; [done|]. apply (good_ext v); [done..|]. by eapply Forall_lookup_1.
  - apply Forall_insert; [done|]. cbn. by eapply (Forall_lookup_1 _ _ _ _ cw_T0).
  - by rewrite !length_insert.
  - intros j w us Hj Hus. destruct (decide (j = i)) as [->|Hne].
    + rewrite list_lookup_insert_eq in Hj by done. rewrite list_lookup_insert_eq in Hus by done.
      by simplify_eq.
    + rewrite list_lookup_insert_ne in Hj by done. rewrite list_lookup_insert_ne in Hus by done.
      destruct (cw_rq0 j w us Hj Hus) as [Hchj ?]. split; [|done].
      eapply chain_frame; [|exact Hchj]. intros x Hx. apply Hf. by eapply Hother.
  - intros j k us ws x Hjk Hus Hws Hx Hx'.
    destruct (decide (j = i)) as [->|Hj], (decide (k = i)) as [->|Hk]; [done| | |].
    + rewrite list_lookup_insert_eq in Hus by done. rewrite list_lookup_insert_ne in Hws by done.
      simplify_eq. apply append_spec_elem in Hx. eapply (Hother k ws x); [done..|]. set_solver.
    + rewrite list_lookup_insert_ne in Hus by done. rewrite list_lookup_insert_eq in Hws by done.
      simplify_eq. apply append_spec_elem in Hx'. eapply (Hother j us x); [done..|]. set_solver.
    + rewrite list_lookup_insert_ne in Hus, Hws by done. by eapply (cw_disj0 j k us ws x).
Qed.

Lemma unblockable_ext tsc v w n :
  v_type w = v_type v -> v_T w = v_T v -> v_b w = v_b v -> v_usage w = v_usage v ->
  v_part w = v_part v -> unblockable tsc v n -> unblockable tsc w n.
Proof.
  intros Et ET Eb Eu Ep. unfold unblockable. rewrite Et. destruct (v_type v); [done|].
  intros (? & p & sv & Hp & (i & Ei & []) & Hok). split; [done|]. exists p, sv.
  split; [done|]. split; [|done]. exists i. split; [congruence|]. split; congruence.
Qed.

Section enqueue.
Context (E : env) (me c : nat).

(** The unblock hook of a VCPU that was blocked. *)
Lemma unblock_wp i v pm s :
  all_good s -> s_vcpus s !! i = Some v -> s_pcpus s !! me = Some pm ->
  (v_runnable v = false -> v_running v = false -> unblockable (e_tsc E) v (s_clk s)) ->
  wp (when (negb (v_runnable v) && negb (v_running v))
       (let! h := hooks_of E i in run_hook me i (unblock h)))
    (fun _ s' => kept s s') s.
Proof.
  intros Hg Hv Hp Hu. apply wp_when; [|by intros _; apply kept_refl].
  intros [Hr%negb_true_iff Hr'%negb_true_iff]%andb_true_iff.
  apply wp_bind. eapply wp_hooks_of; [exact Hv|].
  eapply run_hook_wp; [exact Hv|exact Hp|].
  set (h0 := mkHctx v (s_clk s) (pcpu_overhead pm)).
  destruct (unblock_sound (e_tsc E) h0) as (h' & Eh & Hg' & Hs).
  { by eapply Forall_lookup_1. }
  { by apply Hu. }
  exists tt, h'. split; [exact Eh|].
  eapply kept_trans; [by eapply (kept_vcpu vshape s i v (h_v h'))|].
  set (s1 := set_vcpus _ s). assert (all_good s1) by (by apply Forall_insert).
  by eapply (kept_pc vshape (set_clk (h_clk h') s1) me pm).
Qed.

(** How a VCPU of the final state relates to the initial one. *)
Definition traced (i : nat) (s s' : sched) : Prop :=
  length (s_vcpus s') = length (s_vcpus s) /\
  forall j w', s_vcpus s' !! j = Some w' -> exists w, s_vcpus s !! j = Some w /\
    v_cpu w' = v_cpu w /\ v_running w' = v_running w /\
    (j <> i -> v_runnable w' = v_runnable w) /\ v_type w' = v_type w.

(** What waking a task of VCPU [i] does to the queues of its CPU [c]. *)
Record enqueued (s : sched) (p : percpu) (l : list nat) (rqs : list (list Z)) (i : nat)
    (task : Z) (s' : sched) : Prop := {
  eq_queues : exists p' ts, s_pcpus s' !! c = Some p' /\ rqs !! i = Some ts /\
    vcpu_current p' = vcpu_current p /\ vcpu_idle_task p' = vcpu_idle_task p /\
    current_task p' = current_task p /\
    queues_wf c s' (vcpu_queue p') (queue_join l i) (<[i := append_spec ts task]> rqs) /\
    busy (queue_join l i) (<[i := append_spec ts task]> rqs);
  eq_running : forall cur, running_wf c s cur -> running_wf c s' cur;
  eq_tasks : forall ts, rqs !! i = Some ts -> touched ts task s s';
  eq_traced : traced i s s'
}.

Lemma busy_join l rqs i ts task :
  busy l rqs -> (i < length rqs)%nat ->
  busy (queue_join l i) (<[i := append_spec ts task]> rqs).
Proof.
  intros Hb Hi j Hj. destruct (decide (j = i)) as [->|Hne].
  - rewrite list_lookup_insert_eq by done. intros [= H].
    assert (task ∈ append_spec ts task) as Ht by (apply append_spec_elem; by right).
    rewrite H in Ht. set_solver.
  - rewrite list_lookup_insert_ne by done. apply Hb. unfold queue_join in Hj.
    destruct (decide (i ∈ l)); set_solver.
Qed.

(** A field that is the same list in two states is the same for each VCPU. *)
Lemma fmap_vcpu {A} (f : vcpu -> A) (vs vs' : list vcpu) j w' :
  f <$> vs' = f <$> vs -> vs' !! j = Some w' -> exists w, vs !! j = Some w /\ f w' = f w.
Proof.
  intros Ef Hj. apply (f_equal (.!! j)) in Ef. rewrite !list_lookup_fmap, Hj in Ef.
  destruct (vs !! j) as [w|]; [|done]. exists w. split; [done|]. by apply (inj Some).
Qed.

Lemma traced_running i s s' cur : traced i s s' -> running_wf c s cur -> running_wf c s' cur.
Proof.
  intros [Hl Ht] [H1 H2]. split.
  - intros j w' Hj Hc. destruct (Ht j w' Hj) as (w & Hw & Ec & Er & _). rewrite Er.
    eapply H1; [exact Hw|congruence].
  - intros k Hk. destruct (H2 k Hk) as (w & Hw & Hc).
    destruct (lookup_lt_is_Some_2 (s_vcpus s') k) as [w' Hw'].
    { rewrite Hl. by eapply lookup_lt_Some. }
    exists w'. split; [done|]. destruct (Ht k w' Hw') as (w0 & Hw0 & Ec & _).
    simplify_eq. congruence.
Qed.

Lemma traced_queues i s s' queue queue' l rqs rqs' v v' :
  queues_wf c s queue l rqs -> traced i s s' -> core_wf s' rqs' ->
  qchain (s_vcpus s') queue' (queue_join l i) ->
  s_vcpus s !! i = Some v -> v_cpu v = Z.of_nat c ->
  s_vcpus s' !! i = Some v' -> v_runnable v' = true ->
  queues_wf c s' queue' (queue_join l i) rqs'.
Proof.
  intros Hwf [_ Ht] [] Hq Hv Hc Hv' Hr. split; try done.
  - intros j w' Hj Hcj. destruct (Ht j w' Hj) as (w & Hw & Ec & _ & Er & _).
    destruct (decide (j = i)) as [->|Hne].
    + simplify_eq. split; [done|]. intros _. unfold queue_join. destruct (decide (i ∈ l)); set_solver.
    + rewrite (Er Hne), <- (qw_on _ _ _ _ _ Hwf j w Hw) by congruence.
      unfold queue_join. destruct (decide (i ∈ l)); set_solver.
  - intros j w' Hj Hw'. destruct (Ht j w' Hw') as (w & Hw & -> & _).
    destruct (decide (j = i)) as [->|Hne]; [by simplify_eq|].
    eapply (qw_home _ _ _ _ _ Hwf j); [|done]. unfold queue_join in Hj.
    destruct (decide (i ∈ l)); set_solver.
Qed.

(** After the queues have been linked: the VCPU [v3] still has the flags of [v]. *)
Record linked (s : sched) (p : percpu) (l : list nat) (rqs : list (list Z)) (i : nat)
    (v : vcpu) (ts : list Z) (task : Z) (s3 : sched) : Prop := {
  lk_core : core_wf s3 rqs;
  lk_traced : traced i s s3;
  lk_vcpu : exists v3 rq, s_vcpus s3 !! i = Some v3 /\
    core v3 = core (set_v_runqueue rq v) /\ v_runnable v3 = v_runnable v;
  lk_pc : exists queue', s_pcpus s3 = <[c := set_queue queue' p]> (s_pcpus s) /\
    qchain (s_vcpus s3) queue' (queue_join l i);
  lk_clk : s_clk s3 = s_clk s;
  lk_tasks : touched ts task s s3
}.

Lemma link_queues_wp s p l rqs i v ts task :
  queues_wf c s (vcpu_queue p) l rqs ->
  s_pcpus s !! c = Some p -> s_vcpus s !! i = Some v -> v_cpu v = Z.of_nat c ->
  rqs !! i = Some ts -> task <> 0 -> is_Some (s_tasks s !! task) ->
  (forall j us, rqs !! j = Some us -> task ∈ us -> j = i) ->
  wp (link_queues i task) (fun _ s3 =>
    linked s p l (<[i := append_spec ts task]> rqs) i v ts task s3) s.
Proof.
  intros Hwf Hp Hv Hc Hts H0 Ht Hnew. pose proof (lookup_lt_Some _ _ _ Hv) as Hi.
  unfold link_queues. apply wp_bind. eapply wp_mono.
  { eapply runqueue_append_wp; [by eapply core_wf_of|exact Hv|exact Hts|done|done|done]. }
  intros _ s1 (Hcw1 & Htasks1 & Epc1 & Eclk1 & rq & Ev1).
  assert (s_vcpus s1 !! i = Some (set_v_runqueue rq v)) as Hv1
    by (rewrite Ev1; by apply list_lookup_insert_eq).
  apply wp_bind. eapply wp_get_vcpu; [exact Hv1|]. cbn [v_cpu set_v_runqueue].
  rewrite Hc, Nat2Z.id. apply wp_bind. eapply wp_get_pc; [by rewrite Epc1|].
  assert (qchain (s_vcpus s1) (vcpu_queue p) l) as Hq1.
  { rewrite Ev1. eapply qchain_next; [|exact (qw_queue _ _ _ _ _ Hwf)]. intros j _.
    destruct (decide (j = i)) as [->|Hne].
    - rewrite list_lookup_insert_eq by done. by rewrite Hv.
    - by rewrite list_lookup_insert_ne. }
  apply wp_bind. eapply wp_mono; [by eapply vcpu_queue_append_wp|].
  intros queue' s2 (Hq2 & Hc2 & Eclk2 & Er2). pose proof Hc2 as (Et2 & Epc2 & Ev2).
  assert (traced i s s2) as Htr.
  { split.
    - apply (f_equal length) in Ev2. rewrite !length_fmap, Ev1, length_insert in Ev2. exact Ev2.
    - intros j w' Hj. destruct (same_core_vcpu _ _ _ _ Hc2 Hj) as (w1 & Hw1 & Hcw).
      destruct (fmap_vcpu _ _ _ _ _ Er2 Hj) as (w1' & Hw1' & Er).
      assert (w1' = w1) as -> by congruence.
      apply core_fields in Hcw as (Ety & Erun & Ecpu & _). rewrite Er, Erun, Ecpu, Ety.
      rewrite Ev1 in Hw1. destruct (decide (j = i)) as [->|Hne].
      + rewrite list_lookup_insert_eq in Hw1 by done. injection Hw1 as <-. by exists v.
      + rewrite list_lookup_insert_ne in Hw1 by done. by exists w1. }
  eapply wp_mod_pc; [rewrite Epc2, Epc1; exact Hp|]. split; cbn.
  - pose proof (core_wf_core _ _ _ Hc2 Hcw1) as Hcw2. by destruct Hcw2.
  - done.
  - destruct (lookup_lt_is_Some_2 (s_vcpus s2) i) as [v3 Hv3]; [by rewrite (proj1 Htr)|].
    exists v3, rq. split; [done|].
    destruct (same_core_vcpu _ _ _ _ Hc2 Hv3) as (w & Hw & Hcw).
    destruct (fmap_vcpu _ _ _ _ _ Er2 Hv3) as (w' & Hw' & Er).
    assert (w' = w) as -> by congruence.
    assert (w = set_v_runqueue rq v) as -> by congruence. by split.
  - exists queue'. by rewrite Epc2, Epc1.
  - congruence.
  - unfold touched. cbn. by rewrite Et2.
Qed.

Lemma traced_kept i s s1 s2 : traced i s s1 -> kept s1 s2 -> traced i s s2.
Proof.
  intros [Hl Ht] Hk. destruct (kept_lengths _ _ _ Hk) as [El _]. split; [congruence|].
  intros j w' Hj. destruct (kept_vcpus _ _ _ _ _ Hk Hj) as (w1 & Hw1 & Hs).
  destruct (Ht j w1 Hw1) as (w & Hw & Ec & Er & Ern & Ety). exists w. split; [done|].
  injection Hs as Ety' _ Er' Erun' Ecpu'. rewrite Er', Erun', Ecpu', Ety'. done.
Qed.

(** Marking the VCPU runnable. *)
Lemma mark_runnable s s3 s4 i v3 v4 :
  traced i s s3 -> s_vcpus s3 !! i = Some v3 -> kept s3 s4 -> s_vcpus s4 !! i = Some v4 ->
  vshape v4 = vshape v3 ->
  traced i s (set_vcpus (<[i := set_v_runnable true v4]> (s_vcpus s4)) s4).
Proof.
  intros Htr3 Hv3 Hk4 Hv4 Hs4. pose proof (lookup_lt_Some _ _ _ Hv4) as Hi4. split; cbn.
  - rewrite length_insert. destruct (kept_lengths _ _ _ Hk4) as [-> _]. apply Htr3.
  - intros j w5 Hj. destruct (decide (j = i)) as [->|Hne].
    + rewrite list_lookup_insert_eq in Hj by done.
      injection Hj as <-. destruct (proj2 Htr3 i v3 Hv3) as (w & Hw & Ec & Er & _ & Ety).
      exists w. split; [done|]. injection Hs4 as Ety4 _ _ Erun4 Ecpu4. cbn.
      rewrite Erun4, Ecpu4, Ety4. done.
    + rewrite list_lookup_insert_ne in Hj by done.
      destruct (kept_vcpus _ _ _ _ _ Hk4 Hj) as (w3 & Hw3 & Hs3).
      destruct (proj2 Htr3 j w3 Hw3) as (w & Hw & Ec & Er & Ern & Ety).
      exists w. split; [done|]. injection Hs3 as Ety3 _ Er3 Erun3 Ecpu3.
      rewrite Er3, Erun3, Ecpu3, Ety3. done.
Qed.

Lemma enqueue_wp s p pm l rqs i v task :
  queues_wf c s (vcpu_queue p) l rqs -> busy l rqs ->
  s_pcpus s !! c = Some p -> s_pcpus s !! me = Some pm ->
  s_vcpus s !! i = Some v -> v_cpu v = Z.of_nat c ->
  task <> 0 -> is_Some (s_tasks s !! task) ->
  (forall j us, rqs !! j = Some us -> task ∈ us -> j = i) ->
  (v_runnable v = false -> v_running v = false -> unblockable (e_tsc E) v (s_clk s)) ->
  wp (enqueue E me i task) (fun _ s' => enqueued s p l rqs i task s') s.
Proof.
  intros Hwf Hb Hp Hpm Hv Hc H0 Ht Hnew Hu. pose proof (lookup_lt_Some _ _ _ Hv) as Hi.
  destruct (lookup_lt_is_Some_2 rqs i) as [ts Hts]; [by rewrite (qw_len _ _ _ _ _ Hwf)|].
  unfold enqueue. apply wp_bind. eapply wp_mono; [by eapply link_queues_wp|].
  intros _ s3 [Hcw3 Htr3 (v3 & rq & Hv3 & Hcv3 & Erv3) (queue' & Epc3 & Hq3) Eclk Htasks].
  destruct (lookup_lt_is_Some_2 (s_pcpus s3) me) as [pm3 Hpm3].
  { rewrite Epc3, length_insert. by eapply lookup_lt_Some. }
  apply wp_bind. eapply wp_get_vcpu; [exact Hv3|]. apply wp_bind. eapply wp_mono.
  { eapply (unblock_wp i v3 pm3 s3); [by destruct Hcw3|done|done|].
    rewrite Erv3. apply core_fields in Hcv3 as (? & Erun & ? & ? & ? & ? & ? & ? & ? & ? & ?).
    rewrite Erun, Eclk. intros Hr1 Hr2. eapply (unblockable_ext _ v); [done..|]. by apply Hu. }
  intros ? s4 Hk4. cbn beta in Hk4.
  destruct (kept_lookup_vcpu _ _ _ _ _ Hk4 Hv3) as (v4 & Hv4 & Hs4 & _).
  eapply wp_mod_vcpu; [exact Hv4|]. pose proof (lookup_lt_Some _ _ _ Hv4) as Hi4.
  pose proof (mark_runnable _ _ _ _ _ _ Htr3 Hv3 Hk4 Hv4 Hs4) as Htr5.
  destruct (kept_lookup_pc vshape s3 s4 c (set_queue queue' p)) as (p5 & Hp5 & Hps5);
    [done|rewrite Epc3; apply list_lookup_insert_eq; by eapply lookup_lt_Some|].
  injection Hps5 as Eq5 Ecur5 Eidle5 Etask5. split.
  - exists p5, ts. rewrite Eq5. do 5 (split; [done|]).
    split; [|apply busy_join; [done|by eapply lookup_lt_Some]].
    eapply traced_queues; [exact Hwf|exact Htr5| | |exact Hv|done|
      cbn; by apply list_lookup_insert_eq|done].
    + eapply core_wf_core; [|by eapply core_wf_kept].
      split; [done|split; [done|by apply (core_insert _ _ v4)]].
    + eapply qchain_next; [|eapply kept_qchain; [exact Hk4|exact Hq3]]. intros j _. cbn.
      destruct (decide (j = i)) as [->|Hne].
      * rewrite list_lookup_insert_eq by done. by rewrite Hv4.
      * by rewrite list_lookup_insert_ne.
  - intros cur. by eapply traced_running.
  - intros us Hus. assert (us = ts) as -> by congruence. unfold touched. cbn.
    by rewrite (kept_tasks _ _ _ Hk4).
  - done.
Qed.
End enqueue.

(** ** Binding a task to a VCPU *)

(** The VCPUs are those of [init_params]. *)
Definition types_ok (s : sched) : Prop := v_type <$> s_vcpus s = vp_type <$> init_params.

Definition next_binding (b : Z) : Z := if NUM_VCPUS <=? s32 (b + 1) then 0 else s32 (b + 1).

(** One round of [bind_next]. *)
Lemma bind_next_round fuel task b t s ty (Q : Z -> sched -> Prop) :
  s_tasks s !! task = Some t -> 0 <= b < NUM_VCPUS -> types_ok s ->
  vp_type <$> init_params !! Z.to_nat b = Some ty ->
  (let s' := set_tasks (<[task := set_cpu b t]> (s_tasks s)) s in
   if decide (ty = MAIN_VCPU) then Q (next_binding b) s'
   else wp (mloop fuel (bind_body task) (next_binding b)) Q s') ->
  wp (mloop (S fuel) (bind_body task) b) Q s.
Proof.
  intros Ht Hb Hty Ety HQ. cbn [mloop]. apply wp_bind. unfold bind_body at 1.
  assert (NUM_VCPUS = 7) as HN by reflexivity. rewrite HN in Hb.
  unfold mod_task, lookup_task at 1. apply wp_bind, wp_bind, wp_bind, wp_gets.
  eapply wp_lift; [unfold lookup_TSS; by rewrite Ht|]. apply wp_modify.
  apply wp_bind. unfold lookup_task. apply wp_bind, wp_gets.
  eapply wp_lift; [unfold lookup_TSS; cbn; by rewrite lookup_insert_eq|].
  rewrite u16_small by lia. apply wp_bind. cbn [tss_cpu set_cpu].
  eapply (wp_lift _ (Z.to_nat b)).
  { unfold vcpu_lookup. rewrite HN. by destruct (Z.leb_spec 0 b), (Z.ltb_spec b 7); try lia. }
  unfold types_ok in Hty. apply (f_equal (.!! Z.to_nat b)) in Hty.
  rewrite !list_lookup_fmap, Ety in Hty.
  destruct (s_vcpus s !! Z.to_nat b) as [v|] eqn:Hv; [|done]. injection Hty as Ev.
  apply wp_bind. eapply wp_get_vcpu; [exact Hv|]. rewrite Ev.
  destruct (decide (ty = MAIN_VCPU)) as [->|Hne].
  - rewrite bool_decide_true by done. apply wp_ret, wp_ret. exact HQ.
  - rewrite bool_decide_false by done. apply wp_ret. exact HQ.
Qed.

Lemma set_cpu_twice a b t : set_cpu a (set_cpu b t) = set_cpu a t.
Proof. done. Qed.

(** What binding the task promises. *)
Definition bound (task : Z) (t : quest_tss) (s : sched) (b' : Z) (s' : sched) : Prop :=
  0 <= b' < NUM_VCPUS /\
  exists k, 0 <= k < NUM_VCPUS /\
    vp_type <$> init_params !! Z.to_nat k = Some MAIN_VCPU /\
    s' = set_tasks (<[task := set_cpu k t]> (s_tasks s)) s.

Lemma bound_again task t a s b' s' :
  bound task (set_cpu a t) (set_tasks (<[task := set_cpu a t]> (s_tasks s)) s) b' s' ->
  bound task t s b' s'.
Proof.
  intros (Hb & k & Hk & Ht & ->). split; [done|]. exists k. split; [done|]. split; [done|].
  unfold set_tasks. cbn. by rewrite insert_insert_eq.
Qed.

Lemma bind_main fuel task b t s :
  s_tasks s !! task = Some t -> b = 0 \/ b = 1 \/ b = 2 \/ b = 3 -> types_ok s ->
  wp (mloop (S fuel) (bind_body task) b) (bound task t s) s.
Proof.
  intros Ht Hb Hty. assert (0 <= b < NUM_VCPUS) as Hr by (change NUM_VCPUS with 7; lia).
  assert (vp_type <$> init_params !! Z.to_nat b = Some MAIN_VCPU) as Em
    by (destruct Hb as [->|[->|[->| ->]]]; reflexivity).
  eapply bind_next_round; [exact Ht|done|done|exact Em|]. cbv zeta.
  rewrite decide_True by done. split; [|by exists b].
  destruct Hb as [->|[->|[->| ->]]]; vm_compute; split; congruence.
Qed.

Lemma bind_io fuel task b t s :
  s_tasks s !! task = Some t -> b = 4 \/ b = 5 \/ b = 6 -> types_ok s ->
  (forall s' a, s_tasks s' !! task = Some (set_cpu a t) -> types_ok s' ->
     wp (mloop fuel (bind_body task) (next_binding b)) (bound task (set_cpu a t) s') s') ->
  wp (mloop (S fuel) (bind_body task) b) (bound task t s) s.
Proof.
  intros Ht Hb Hty Hk. assert (0 <= b < NUM_VCPUS) as Hr by (change NUM_VCPUS with 7; lia).
  assert (vp_type <$> init_params !! Z.to_nat b = Some IO_VCPU) as Em
    by (destruct Hb as [->|[->| ->]]; reflexivity).
  eapply bind_next_round; [exact Ht|done|done|exact Em|]. cbv zeta.
  rewrite decide_False by done. eapply wp_mono.
  - apply (Hk _ b); [cbn; apply lookup_insert_eq|done].
  - intros b' s'. apply bound_again.
Qed.

Lemma bind_next_wp task b t s :
  s_tasks s !! task = Some t -> 0 <= b < NUM_VCPUS -> types_ok s ->
  wp (bind_next task b) (bound task t s) s.
Proof.
  intros Ht Hb Hty. change NUM_VCPUS with 7 in Hb. unfold bind_next.
  change (length init_params) with 7%nat.
  destruct (Z.lt_ge_cases b 4); [apply bind_main; [done|lia|done]|].
  assert (forall t s, s_tasks s !! task = Some t -> types_ok s ->
    wp (mloop 6 (bind_body task) 6) (bound task t s) s) as H6.
  { intros t' s' Ht' Hty'. apply bind_io; [done|lia|done|]. intros s2 a Ht2 Hty2.
    change (next_binding 6) with 0. apply bind_main; [done|lia|done]. }
  assert (forall t s, s_tasks s !! task = Some t -> types_ok s ->
    wp (mloop 7 (bind_body task) 5) (bound task t s) s) as H5.
  { intros t' s' Ht' Hty'. apply bind_io; [done|lia|done|]. intros s2 a Ht2 Hty2.
    change (next_binding 5) with 6. by apply H6. }
  assert (b = 4 \/ b = 5 \/ b = 6) as [->|[->| ->]] by lia.
  - apply bind_io; [done|lia|done|]. intros s2 a Ht2 Hty2.
    change (next_binding 4) with 5. by apply H5.
  - apply bind_io; [done|lia|done|]. intros s2 a Ht2 Hty2.
    change (next_binding 5) with 6. apply bind_io; [done|lia|done|]. intros s3 a3 Ht3 Hty3.
    change (next_binding 6) with 0. apply bind_main; [done|lia|done].
  - apply bind_io; [done|lia|done|]. intros s2 a Ht2 Hty2.
    change (next_binding 6) with 0. apply bind_main; [done|lia|done].
Qed.
