(* ===== verification/SchedTheorems.v ===== *)
(** * The theorems on the VCPU scheduler *)

From Stdlib Require Import ZArith Lia.
From S2P Require Import Prelude Div64 TaskQueue ReplQueue Vcpu MainVcpu IoVcpu.
From S2P Require Import VcpuSched SchedLemmas SchedInv SchedThm SchedWake.
From stdpp Require Import base gmap sets fin_sets numbers strings list.
Local Open Scope Z_scope.

(** ** Waking up *)

(** The preemption check at the end of [vcpu_wakeup]. *)
Definition preempted (s : sched) (p : percpu) (v : vcpu) : Prop :=
  0 < v_b v ->
  (forall k w, vcpu_current p = Some k -> s_vcpus s !! k = Some w -> v_T v < v_T w) ->
  lapic_timer p = 1.

Section wakeup.
Context (E : env) (me : nat).

Lemma preempt_wp s p i v :
  s_pcpus s !! me = Some p -> s_vcpus s !! i = Some v -> all_good s ->
  (forall k, vcpu_current p = Some k -> is_Some (s_vcpus s !! k)) ->
  wp (let! preempt :=
        (match vcpu_current p with
         | None => ret true
         | Some c => let! cv := get_vcpu c in ret (v_T v <? v_T cv)
         end) in
      when ((0 <? v_b v) && preempt) (LAPIC_start_timer me 1))
    (fun _ s' => kept_by fshape s s' /\
       exists p', s_pcpus s' !! me = Some p' /\ pshape p' = pshape p /\ preempted s' p' v) s.
Proof.
  intros Hp Hv Hg Hcur. apply wp_bind.
  apply (wp_mono _ (fun b s' => s' = s /\ (b = false ->
    exists k w, vcpu_current p = Some k /\ s_vcpus s !! k = Some w /\ v_T w <= v_T v))).
  { destruct (vcpu_current p) as [k|]; [|by apply wp_ret].
    destruct (Hcur k eq_refl) as [w Hw]. apply wp_bind. eapply wp_get_vcpu; [exact Hw|].
    apply wp_ret. split; [done|]. intros ?%Z.ltb_ge. by exists k, w. }
  intros b ? [-> Hb]. apply wp_when.
  - intros _. eapply wp_mod_pc; [exact Hp|]. split; [by eapply kept_pc|].
    eexists. split; [cbn; apply list_lookup_insert_eq; by eapply lookup_lt_Some|]. by split.
  - intros Hf. split; [by apply kept_refl|]. exists p. do 2 (split; [done|]).
    intros Hpos Hall. apply andb_false_iff in Hf as [?%Z.ltb_ge|Hbf]; [lia|].
    destruct (Hb Hbf) as (k & w & Hk & Hw & Hle). specialize (Hall k w Hk Hw). lia.
Qed.

Lemma vcpu_wakeup_ok s p l rqs task t i v :
  sched_wf E me s p l rqs -> task <> 0 -> s_tasks s !! task = Some t ->
  tss_cpu t = Z.of_nat i -> (i < length init_params)%nat ->
  s_vcpus s !! i = Some v -> v_cpu v = Z.of_nat me ->
  (forall j us, rqs !! j = Some us -> task ∈ us -> j = i) ->
  (v_runnable v = false -> v_running v = false -> unblockable (e_tsc E) v (s_clk s)) ->
  wp (vcpu_wakeup E me task) (fun _ s' =>
    exists p' ts v', rqs !! i = Some ts /\
      sched_wf E me s' p' (queue_join l i) (<[i := append_spec ts task]> rqs) /\
      s_vcpus s' !! i = Some v' /\ v_runnable v' = true /\ preempted s' p' v' /\
      touched ts task s s' /\ traced i s s' /\
      vcpu_idle_task p' = vcpu_idle_task p /\ current_task p' = current_task p) s.
Proof.
  intros [Hp Hq Hb Hrun Hok] H0 Ht Hcpu Hi7 Hv Hc Hnew Hu.
  assert (wp (lookup_task task) (fun t' s' => t' = t /\ s' = s) s) as Hlook.
  { apply wp_bind, wp_gets. eapply wp_lift; [unfold lookup_TSS; by rewrite Ht|done]. }
  unfold vcpu_wakeup. apply wp_bind. eapply wp_mono; [exact Hlook|]. intros t' ? [-> ->].
  destruct (Z.eqb_spec (tss_cpu t) 0xFF) as [Hff|_].
  { rewrite Hcpu in Hff. simpl in Hi7. lia. }
  apply wp_bind, wp_ret, wp_bind. eapply wp_mono; [exact Hlook|]. intros t' ? [-> ->].
  apply wp_bind. eapply (wp_lift _ i).
  { rewrite Hcpu. unfold vcpu_lookup, NUM_VCPUS.
    destruct (Z.leb_spec 0 (Z.of_nat i)), (Z.ltb_spec (Z.of_nat i) (Z.of_nat (length init_params)));
      try lia. cbn [andb]. by rewrite Nat2Z.id. }
  apply wp_bind. eapply wp_mono; [by eapply (enqueue_wp E me me)|].
  intros ? s1 [(p1 & ts & Hp1 & Hts & Ecur & Eidle & Etask & Hq1 & Hb1) Hrun1 Hto1 Htr1].
  specialize (Hto1 ts Hts). pose proof (touched_same _ _ _ _ Hto1) as Htasks1.
  apply wp_bind. eapply wp_get_pc; [exact Hp1|]. apply wp_bind.
  set (s2 := set_clk (S (s_clk s1)) s1).
  apply (wp_mono _ (fun _ s' => s' = s2)); [done|]. intros now ? ->.
  assert (kept s1 s2) as Hk2 by (apply kept_clk; by destruct Hq1).
  pose proof (qw_queue _ _ _ _ _ Hq1) as Hch.
  assert (i ∈ queue_join l i) as Hij by (unfold queue_join; destruct (decide (i ∈ l)); set_solver).
  destruct (qchain_lt _ _ _ i Hch Hij) as [v1 Hv1].
  apply wp_seq. eapply wp_mono.
  { eapply (update_hook_kept E me i v1 p1); [apply Hk2|exact Hv1|exact Hp1]. }
  intros ? s3 (Hk3 & v3 & Hv3 & _ & _). pose proof (kept_trans _ _ _ _ Hk2 Hk3) as Hk13.
  apply wp_bind. eapply wp_get_vcpu; [exact Hv3|].
  destruct (kept_lookup_pc _ _ _ _ _ Hk13 Hp1) as (p3 & Hp3 & Hps3).
  injection Hps3 as Eq3 Ecur3 Eidle3 Etask3.
  rewrite <- Ecur3. eapply wp_mono.
  { apply (preempt_wp s3 p3 i v3); [done|done|apply Hk3|]. intros k Hk.
    rewrite Ecur3, Ecur in Hk. destruct (Hrun1 _ Hrun) as [_ Hex].
    destruct (Hex k Hk) as (w & Hw & _).
    destruct (kept_lookup_vcpu _ _ _ _ _ Hk13 Hw) as (w' & Hw' & _). by exists w'. }
  intros ? s4 (Hk4 & p4 & Hp4 & Hps4 & Hpre). injection Hps4 as Eq4 Ecur4 Eidle4 Etask4.
  assert (kept s1 s4) as Hk14 by (eapply kept_trans; [exact Hk13|];
    by apply bkept_kept, fkept_bkept).
  destruct (kept_lookup_vcpu _ _ _ _ _ Hk4 Hv3) as (v4 & Hv4 & Hs4 & _).
  exists p4, ts, v4. split; [done|]. split; [split|].
  - done.
  - rewrite Eq4, Eq3. by eapply queues_wf_kept.
  - done.
  - rewrite Ecur4, Ecur3, Ecur. eapply running_wf_kept; [exact Hk14|]. by apply Hrun1.
  - unfold tasks_ok in *. rewrite Eidle4, Eidle3, Eidle, Etask4, Etask3, Etask.
    rewrite (kept_tasks _ _ _ Hk14). destruct Hok as (? & ? & ? & ?).
    split; [intros ?; apply Htasks1; auto|]. split; [done|].
    split; [by apply Htasks1|]. intros ?. apply Htasks1; auto.
  - split; [done|].
    assert (v_b v4 = v_b v3 /\ v_T v4 = v_T v3) as [Eb ET] by (by injection Hs4).
    assert (touched ts task s s4 /\ traced i s s4 /\ vcpu_idle_task p4 = vcpu_idle_task p /\
      current_task p4 = current_task p) as Htt.
    { split; [unfold touched; by rewrite (kept_tasks _ _ _ Hk14)|].
      split; [by eapply traced_kept|]. split; congruence. }
    split; [|split; [unfold preempted; rewrite Eb, ET; exact Hpre|exact Htt]].
    pose proof (queues_wf_kept _ _ _ _ _ _ Hk14 Hq1) as Hq4.
    apply (qw_on _ _ _ _ _ Hq4 i v4 Hv4); [|done].
    by eapply (qw_home _ _ _ _ _ Hq4 i v4).
Qed.
End wakeup.

(** ** Percentages *)

Lemma lor_shift whole frac :
  0 <= whole < 2 ^ 16 -> 0 <= frac < 2 ^ 16 ->
  Z.lor (Z.shiftl whole 16) frac = whole * 2 ^ 16 + frac.
Proof.
  intros Hw Hf. rewrite Z.shiftl_mul_pow2 by lia. symmetry.
  rewrite <- Z.lxor_lor, <- Z.add_nocarry_lxor; [done| |];
    (apply Z.bits_inj'; intros n Hn; rewrite Z.land_spec, Z.bits_0;
     destruct (Z.lt_ge_cases n 16);
     [rewrite Z.mul_pow2_bits_low by lia; done|
      rewrite (Z.bits_above_log2 frac n); [apply andb_false_r|lia|];
      destruct (Z.eq_dec frac 0) as [->|]; [simpl; lia|];
      apply Z.log2_lt_pow2; [lia|];
      apply Z.lt_le_trans with (2 ^ 16); [lia|apply Z.pow_le_mono_r; lia]]).
Qed.

(** ** Properties *)

(** C1: [vcpu_schedule] returns from every well-formed state whose current VCPU, if any,
    can be charged the time elapsed ([ready]: its times stay clear of the 64-bit horizon),
    on a processor without the performance counters of Nehalem (whose accounting divides by
    the number of instructions retired, which may be 0), in a well-formed state.  It runs the VCPU of the queue that has the shortest period among those
    with budget left (with the budget just refreshed), and a waiting task of it;
    it idles only when no VCPU of the queue has budget.  The VCPU marked running is
    the current one, and a VCPU is on the queue exactly when it is runnable (the
    panics of [check_run_invariants]). *)
Theorem vcpu_schedule_correct E me s p l rqs :
  e_nehalem E = false -> 0 < e_tsc_freq E < 2 ^ 64 -> QUANTUM_HZ <= e_bus_freq E ->
  sched_wf E me s p l rqs ->
  (forall c v, vcpu_current p = Some c -> s_vcpus s !! c = Some v ->
     ready v (u64 (e_tsc E (s_clk s) - pcpu_tprev p))) ->
  exists s', vcpu_schedule E me s = Ok (tt, s') /\ committed E me l s'.
Proof.
  intros Hn Hf Hb Hwf Hr.
  destruct (proj1 (wp_Ok _ _ _) (vcpu_schedule_ok E me Hn Hf Hb s p l rqs Hwf Hr))
    as ([] & s' & Es & Hc). by exists s'.
Qed.

(** C2: [vcpu_wakeup] of a task bound to a VCPU of the executing CPU, if the clock lets the
    VCPU be unblocked when it is neither runnable nor running ([unblockable]), returns and
    keeps the invariant: the task is at the end of the run queue of its VCPU unless it was
    on it, the VCPU is runnable and on the queue of this CPU, and when it has budget and a shorter
    period than the current VCPU the timer is set to fire at once. *)
Theorem vcpu_wakeup_correct E me s p l rqs task t i v :
  sched_wf E me s p l rqs -> task <> 0 -> s_tasks s !! task = Some t ->
  tss_cpu t = Z.of_nat i -> (i < length init_params)%nat ->
  s_vcpus s !! i = Some v -> v_cpu v = Z.of_nat me ->
  (forall j us, rqs !! j = Some us -> task ∈ us -> j = i) ->
  (v_runnable v = false -> v_running v = false -> unblockable (e_tsc E) v (s_clk s)) ->
  exists s' p' ts v', vcpu_wakeup E me task s = Ok (tt, s') /\ rqs !! i = Some ts /\
    sched_wf E me s' p' (queue_join l i) (<[i := append_spec ts task]> rqs) /\
    s_vcpus s' !! i = Some v' /\ v_runnable v' = true /\ preempted s' p' v'.
Proof.
  intros. edestruct (proj1 (wp_Ok _ _ _) (vcpu_wakeup_ok E me s p l rqs task t i v
    ltac:(eassumption) ltac:(eassumption) ltac:(eassumption) ltac:(eassumption)
    ltac:(eassumption) ltac:(eassumption) ltac:(eassumption) ltac:(eassumption)
    ltac:(eassumption))) as ([] & s' & Es & p' & ts & v' & Hpost).
  exists s', p', ts, v'. tauto.
Qed.

(** a task without a VCPU is bound, after at most 7 rounds, to a main VCPU, and
    the static counter stays a valid index. *)
Theorem bind_next_correct task b t s :
  s_tasks s !! task = Some t -> 0 <= b < NUM_VCPUS -> types_ok s ->
  exists b' k, 0 <= b' < NUM_VCPUS /\ 0 <= k < NUM_VCPUS /\
    vp_type <$> init_params !! Z.to_nat k = Some MAIN_VCPU /\
    bind_next task b s = Ok (b', set_tasks (<[task := set_cpu k t]> (s_tasks s)) s).
Proof.
  intros Ht Hb Hty.
  destruct (proj1 (wp_Ok _ _ _) (bind_next_wp task b t s Ht Hb Hty))
    as (b' & s' & Es & Hb' & k & Hk & Hm & ->). by exists b', k.
Qed.

(** [compute_percentage] packs the share [usage / overall] as percent and
    hundredths: exactly when the interval is below 2^32 cycles, at most two
    hundredths too high otherwise. *)
Theorem compute_percentage_correct overall usage :
  0 < overall < 2 ^ 64 -> 0 <= usage <= overall -> usage * 10000 < 2 ^ 64 ->
  exists res, compute_percentage overall usage = Ok (res / 100 * 2 ^ 16 + res mod 100) /\
    usage * 10000 / overall <= res <= usage * 10000 / overall + 2 /\
    (overall < 2 ^ 32 -> res = usage * 10000 / overall).
Proof.
  intros Ho Hu Hm. unfold compute_percentage. rewrite u64_small by lia.
  assert (exists res, div64_64 (usage * 10000) overall = Ok res /\
    usage * 10000 / overall <= res <= usage * 10000 / overall + 2 /\
    (overall < 2 ^ 32 -> res = usage * 10000 / overall)) as (res & -> & Hres & Hex).
  { destruct (Z.lt_ge_cases overall (2 ^ 32)).
    - rewrite div64_64_small by lia. eexists. split; [done|]. split; [lia|done].
    - destruct (div64_64_large (usage * 10000) overall) as (q & -> & Hq); [lia|lia|].
      exists q. split; [done|]. split; [done|]. lia. }
  exists res. split; [|done]. cbn [obind].
  assert (usage * 10000 / overall <= 10000) by (apply Z.div_le_upper_bound; nia).
  assert (0 <= usage * 10000 / overall) by (apply Z.div_pos; lia).
  pose proof (Z.div_mod res 100 ltac:(lia)) as Hdm.
  pose proof (Z.mod_pos_bound res 100 ltac:(lia)).
  rewrite (u16_small res), (u16_small (res / 100)) by (lia || (split; [apply Z.div_pos; lia|lia])).
  replace (res - res / 100 * 100) with (res mod 100) by lia.
  rewrite u16_small by lia. f_equal. apply lor_shift; [|lia].
  split; [apply Z.div_pos; lia|]. lia.
Qed.

(** ** Witnesses: two main VCPUs with periods 100 and 50, a task waiting on each,
    an idle task 0x40 and a sleeping task 0x48 of the first VCPU. *)

Definition example_env : env :=
  mkEnv (fun n => 12 + Z.of_nat n) (fun _ _ => 0) (fun _ _ => 0) false 0
    100000000 3000000000 1 (fun _ => 0x40).

Definition example_main (next : option nat) (T rq : Z) : vcpu :=
  mkVcpu MAIN_VCPU next true false 0 0 rq 10 0 0 0 20 T 20 0
    (PMain (mkMain 0 example_queue)) zero_stats.

Definition example_table : gmap Z quest_tss :=
  <[0x28 := zero_tss]> (<[0x30 := zero_tss]> (<[0x40 := zero_tss]> (<[0x48 := zero_tss]> ∅))).

Definition example_pc : percpu := mkPc (Some 0%nat) None 0 0 0 0 0 0 0 0.

Definition example_sched : sched :=
  mkSched [example_main (Some 1%nat) 100 0x28; example_main None 50 0x30] example_table
    [example_pc] 0 0 1 1.

Lemma example_main_good next T rq : good (example_main next T rq).
Proof.
  split; [simpl; lia|]. split; [simpl; lia|]. exists example_server.
  split; [|split; [exact example_server_ok|simpl; lia]].
  exists (mkMain 0 example_queue). repeat split. exact example_queue_rep.
Qed.

(** Lookups in the two-element lists of the example. *)
Lemma lookup_two {A} (a b x : A) (i : nat) :
  [a; b] !! i = Some x -> (i = 0%nat /\ x = a) \/ (i = 1%nat /\ x = b).
Proof. destruct i as [|[|i]]; cbn; intros H; [naive_solver|naive_solver|by destruct i]. Qed.

Ltac two H := apply lookup_two in H as [[-> ->]|[-> ->]].

Lemma example_sched_wf :
  sched_wf example_env 0 example_sched example_pc [0%nat; 1%nat] [[0x28]; [0x30]].
Proof.
  split.
  - reflexivity.
  - split.
    + repeat constructor; apply example_main_good.
    + repeat constructor.
    + split; [done|]. eexists. split; [reflexivity|]. split; [done|].
      eexists. split; [reflexivity|]. done.
    + intros i v Hv _. two Hv; split; (done || set_solver).
    + intros i v _ Hv. by two Hv.
    + reflexivity.
    + intros i v ts Hv Hts. two Hv; injection Hts as <-; (split; [|done]);
        (split; [done|]; split; [lia|]; eexists; split; [reflexivity|done]).
    + intros i j ts us x Hij Hts Hus Hx Hx'. two Hts; two Hus; try done;
        apply list_elem_of_singleton in Hx; apply list_elem_of_singleton in Hx'; congruence.
  - intros i Hi Habs. by apply lookup_two in Habs as [[_ ?]|[_ ?]].
  - split; [|done]. intros i v Hv _. by two Hv.
  - split; [done|]. split; [done|]. split; [by eexists|]. done.
Qed.

Lemma vcpu_schedule_correct_witness :
  exists s', vcpu_schedule example_env 0 example_sched = Ok (tt, s') /\
    committed example_env 0 [0%nat; 1%nat] s' /\
    vcpu_current <$> s_pcpus s' !! 0%nat = Some (Some 1%nat).
Proof.
  destruct (vcpu_schedule_correct example_env 0 example_sched example_pc
    [0%nat; 1%nat] [[0x28]; [0x30]]) as (s' & E & H).
  - reflexivity.
  - simpl. lia.
  - vm_compute. discriminate.
  - exact example_sched_wf.
  - intros c v Hc. discriminate Hc.
  - exists s'. split; [exact E|]. split; [exact H|].
    assert (match vcpu_schedule example_env 0 example_sched with
            | Ok (_, s) => vcpu_current <$> s_pcpus s !! 0%nat = Some (Some 1%nat)
            | Err _ => False
            end) as Hrun by (vm_compute; reflexivity).
    rewrite E in Hrun. exact Hrun.
Defined.

Lemma vcpu_wakeup_correct_witness :
  exists s' p' v', vcpu_wakeup example_env 0 0x48 example_sched = Ok (tt, s') /\
    sched_wf example_env 0 s' p' [0%nat; 1%nat] [[0x28; 0x48]; [0x30]] /\
    s_vcpus s' !! 0%nat = Some v' /\ preempted s' p' v'.
Proof.
  destruct (vcpu_wakeup_correct example_env 0 example_sched example_pc [0%nat; 1%nat]
    [[0x28]; [0x30]] 0x48 zero_tss 0 (example_main (Some 1%nat) 100 0x28))
    as (s' & p' & ts & v' & E & Hts & Hwf & Hv & _ & Hpre).
  - exact example_sched_wf.
  - discriminate.
  - reflexivity.
  - reflexivity.
  - simpl. lia.
  - reflexivity.
  - reflexivity.
  - intros j us Hus Hin. two Hus; [reflexivity|]. apply list_elem_of_singleton in Hin.
    discriminate.
  - discriminate.
  - injection Hts as <-. exists s', p', v'. split; [exact E|]. split; [exact Hwf|].
    split; [exact Hv|exact Hpre].
Defined.

Definition example_bound_sched : sched :=
  mkSched (fmap (fun p => mkVcpu (vp_type p) None false false 0 0 0 0 0 0 0 0 1 0 0
                            (PMain (mkMain 0 empty_repl_queue)) zero_stats) init_params)
    example_table [example_pc] 0 0 1 4.

Lemma bind_next_correct_witness :
  exists b' k, bind_next 0x48 4 example_bound_sched =
    Ok (b', set_tasks (<[0x48 := set_cpu k zero_tss]> example_table) example_bound_sched) /\
    0 <= k < NUM_VCPUS.
Proof.
  destruct (bind_next_correct 0x48 4 zero_tss example_bound_sched) as (b' & k & _ & Hk & _ & E).
  - reflexivity.
  - vm_compute. split; congruence.
  - reflexivity.
  - exists b', k. split; [exact E|exact Hk].
Defined.

Lemma compute_percentage_correct_witness :
  exists res, compute_percentage 3000000 1000000 = Ok (res / 100 * 2 ^ 16 + res mod 100) /\
    res = 3333.
Proof.
  destruct (compute_percentage_correct 3000000 1000000) as (res & E & _ & H); [lia|lia|lia|].
  exists res. split; [exact E|]. rewrite H by lia. reflexivity.
Defined.
