(* ===== verification/SchedTimer.v ===== *)
(** * The timer of the scheduler

    [vcpu_schedule] leaves the local APIC timer armed with a count of at most one quantum,
    so that the CPU comes back to the scheduler.  [wlp] is what holds if a computation
    returns; that [vcpu_schedule] returns is [SchedThm.vcpu_schedule_ok]. *)

From Stdlib Require Import ZArith Lia.
From S2P Require Import Prelude Div64 TaskQueue ReplQueue Vcpu MainVcpu IoVcpu.
From S2P Require Import VcpuSched SchedLemmas SchedInv SchedThm SchedWake SchedTheorems.
From stdpp Require Import base gmap sets fin_sets numbers strings list.
Local Open Scope Z_scope.

(** ** What holds if a computation returns *)

Definition wlp {S A} (m : M S A) (Q : A -> S -> Prop) (s : S) : Prop :=
  forall a s', m s = Ok (a, s') -> Q a s'.

Lemma wlp_bind {S A B} (m : M S A) (k : A -> M S B) Q s :
  wlp m (fun a => wlp (k a) Q) s -> wlp (bind m k) Q s.
Proof.
  intros Hm b s' E. unfold bind in E. destruct (m s) as [[a s1]|e] eqn:Em; [|done]. by apply (Hm a s1).
Qed.

Lemma wlp_skip {S A B} (m : M S A) (k : A -> M S B) Q s :
  (forall a s', wlp (k a) Q s') -> wlp (bind m k) Q s.
Proof. intros Hk. apply wlp_bind. intros a s' _. apply Hk. Qed.

Lemma wlp_ret {S A} (a : A) (Q : A -> S -> Prop) s : Q a s -> wlp (ret a) Q s.
Proof. intros HQ ? ? [= <- <-]. done. Qed.

Lemma wlp_mono {S A} (m : M S A) (Q Q' : A -> S -> Prop) s : wlp m Q s -> (forall a s', Q a s' -> Q' a s') -> wlp m Q' s.
Proof. intros Hm HQ a s' E. by apply HQ, Hm. Qed.

Lemma wlp_lift {S A} (o : outcome A) (Q : A -> S -> Prop) s : (forall a, o = Ok a -> Q a s) -> wlp (lift o) Q s.
Proof. intros HQ a s' E. unfold lift in E. destruct o; [|done]. injection E as <- <-. by apply HQ. Qed.

(** ** The timer *)

Section timer.
Context (E : env) (me : nat).

Definition quantum : Z := e_bus_freq E / QUANTUM_HZ.

(** The timer of the CPU is armed. *)
Definition armed (s : sched) : Prop :=
  exists p, s_pcpus s !! me = Some p /\ 1 <= lapic_timer p <= quantum.

(** [m] leaves the timer alone. *)
Definition quiet {A} (m : M sched A) : Prop := forall s, armed s -> wlp m (fun _ => armed) s.

Lemma quiet_ret {A} (a : A) : quiet (ret a).
Proof. intros s Hs. by apply wlp_ret. Qed.

Lemma quiet_bind {A B} (m : M sched A) (k : A -> M sched B) : quiet m -> (forall a, quiet (k a)) -> quiet (bind m k).
Proof. intros Hm Hk s Hs. apply wlp_bind. eapply wlp_mono; [by apply Hm|]. intros a s'. apply Hk. Qed.

Lemma quiet_when (b : bool) (m : M sched unit) : quiet m -> quiet (when b m).
Proof. intros Hm. destruct b; [done|apply quiet_ret]. Qed.

(** A computation that changes neither the per-CPU variables ... *)
Lemma quiet_pcpus {A} (m : M sched A) : (forall s a s', m s = Ok (a, s') -> s_pcpus s' = s_pcpus s) -> quiet m.
Proof. intros Hm s (p & Hp & Ht) a s' Es. exists p. by rewrite (Hm _ _ _ Es). Qed.

(** ... nor, of those, the timer. *)
Lemma quiet_mod_pc c f : (forall p, lapic_timer (f p) = lapic_timer p) -> quiet (mod_pc c f).
Proof.
  intros Hf s (p & Hp & Ht). unfold mod_pc. apply wlp_bind. intros q s' Eq. unfold get_pc in Eq.
  destruct (s_pcpus s !! c) as [q'|] eqn:Ec; [|done]. injection Eq as -> <-. intros a s' [= _ <-].
  unfold armed. cbn. destruct (decide (c = me)) as [->|Hne].
  - rewrite list_lookup_insert_eq by (by eapply lookup_lt_Some). exists (f q). split; [done|]. rewrite Hf. congruence.
  - rewrite list_lookup_insert_ne by done. by exists p.
Qed.

Lemma quiet_mod_vcpu i f : quiet (mod_vcpu i f).
Proof.
  apply quiet_pcpus. intros s a s'. unfold mod_vcpu, bind, get_vcpu, put_vcpu, modify.
  destruct (s_vcpus s !! i); [|done]. by intros [= _ <-].
Qed.
Lemma quiet_get_vcpu i : quiet (get_vcpu i).
Proof. apply quiet_pcpus. intros s a s'. unfold get_vcpu. destruct (s_vcpus s !! i); [|done]. by intros [= _ <-]. Qed.
Lemma quiet_get_pc c : quiet (get_pc c).
Proof. apply quiet_pcpus. intros s a s'. unfold get_pc. destruct (s_pcpus s !! c); [|done]. by intros [= _ <-]. Qed.
Lemma quiet_lookup_task x : quiet (lookup_task x).
Proof.
  apply quiet_pcpus. intros s a s'. unfold lookup_task, bind, gets, lift, lookup_TSS, of_option.
  destruct (s_tasks s !! x); [|done]. by intros [= _ <-].
Qed.
Lemma quiet_read {A} (f : nat -> A) : quiet (fun s => Ok (f (s_clk s), set_clk (S (s_clk s)) s)).
Proof. apply quiet_pcpus. by intros s a s' [= _ <-]. Qed.

Hint Resolve quiet_ret quiet_mod_vcpu quiet_get_vcpu quiet_get_pc quiet_lookup_task : quiet.

Ltac quiet_tac :=
  repeat first
    [ progress intros
    | solve [auto with quiet]
    | apply quiet_mod_pc; done
    | apply quiet_bind
    | apply quiet_when
    | apply (quiet_read (e_tsc E))
    | apply (quiet_read (fun n => e_pmc E n 0))
    | apply (quiet_read (fun n => e_pmc E n 1))
    | apply (quiet_read (fun n => e_uncore E n 0))
    | progress unfold read_tsc, perfmon_pmc_read, perfmon_uncore_pmc_read, perfmon_get_misses, perfmon_pervcpu_reset,
        software_context_switch
    | case_match ].

Lemma quiet_begin i : quiet (vcpu_acnt_begin_timeslice E i).
Proof. unfold vcpu_acnt_begin_timeslice. quiet_tac. Qed.
Lemma quiet_perfmon_start v : quiet (perfmon_vcpu_acnt_start E v).
Proof. unfold perfmon_vcpu_acnt_start. quiet_tac. Qed.
Lemma quiet_idle_begin : quiet (idle_time_acnt_begin E me).
Proof. unfold idle_time_acnt_begin. quiet_tac. Qed.
Lemma quiet_select_idle next : quiet (select_idle E me next).
Proof. unfold select_idle. quiet_tac. Qed.
Lemma quiet_switch next : quiet (switch_unless_running me next).
Proof. unfold switch_unless_running. quiet_tac. Qed.

(** Arming it. *)
Lemma start_timer_armed count s : 1 <= count <= quantum -> wlp (LAPIC_start_timer me count) (fun _ => armed) s.
Proof.
  intros Hc. unfold LAPIC_start_timer, mod_pc. apply wlp_bind. intros p s' Ep. unfold get_pc in Ep.
  destruct (s_pcpus s !! me) as [q|] eqn:Eq; [|done]. injection Ep as -> <-. intros a s' [= _ <-].
  exists (set_lapic_timer count p). cbn. split; [|done]. apply list_lookup_insert_eq. by eapply lookup_lt_Some.
Qed.

Context (Htsc : 0 < e_tsc_freq E < 2 ^ 64) (Hbus : QUANTUM_HZ <= e_bus_freq E).

Lemma quantum_pos : 1 <= quantum.
Proof. apply Z.div_le_lower_bound; [done|]. lia. Qed.

Lemma set_timer_armed vc tdelta s : wlp (set_timer E me vc tdelta) (fun b s' => b = true -> armed s') s.
Proof.
  unfold set_timer. destruct (0 <? tdelta); [|by apply wlp_ret].
  apply wlp_bind, wlp_lift. intros count Ec. destruct (timer_count_range E tdelta Htsc Hbus) as (c & Ec' & Hc).
  rewrite Ec in Ec'. injection Ec' as <-. apply wlp_skip. intros _ s1. apply wlp_bind.
  eapply wlp_mono; [by apply start_timer_armed|]. intros [] s2 Ha. by apply wlp_ret.
Qed.

Lemma schedule_queue_armed tcur cur queue s :
  wlp (schedule_queue E me tcur cur queue) (fun '(_, _, timer_set) s' => timer_set = true -> armed s') s.
Proof.
  unfold schedule_queue. apply wlp_skip. intros [Tnext vnext] s1. apply wlp_skip. intros [[vc next] q] s2.
  apply wlp_skip. intros td s3. apply wlp_skip. intros td' s4. apply wlp_bind.
  eapply wlp_mono; [apply set_timer_armed|]. intros b s5 Hb. by apply wlp_ret.
Qed.

Lemma vcpu_schedule_armed s : wlp (vcpu_schedule E me) (fun _ => armed) s.
Proof.
  unfold vcpu_schedule. apply wlp_skip. intros p s1. apply wlp_skip. intros tcur s2. apply wlp_skip. intros _ s3.
  apply wlp_bind. eapply (wlp_mono _ (fun '(_, _, timer_set) s' => timer_set = true -> armed s')).
  { destruct (vcpu_queue p); [apply schedule_queue_armed|by apply wlp_ret]. }
  intros [[vc next] timer_set] s4 Hset. apply wlp_bind. eapply (wlp_mono _ (fun _ => armed)).
  { destruct timer_set; [apply wlp_ret; by apply Hset|]. apply start_timer_armed. pose proof quantum_pos. unfold quantum in *. lia. }
  intros _ s5 Ha. revert s5 Ha. match goal with |- forall s5, armed s5 -> wlp ?m _ s5 => change (quiet m) end.
  apply quiet_bind; [destruct vc; [apply quiet_bind; [apply quiet_begin|intros _; apply quiet_when, quiet_perfmon_start]|
    apply quiet_idle_begin]|intros _].
  apply quiet_bind; [apply quiet_select_idle|intros next']. quiet_tac; apply quiet_switch.
Qed.
End timer.

(** ** Theorem *)

(** C36: [vcpu_schedule] always leaves the timer of the CPU armed, with a count between 1
    and one quantum, whatever the next event is and even when the product or the distance
    to the event wrapped: from every well-formed state (on a processor without the
    performance counters of Nehalem, whose accounting may divide by zero, and with a current
    VCPU that can be charged what has elapsed). *)
Theorem schedule_arms_timer E me s p l rqs :
  e_nehalem E = false -> 0 < e_tsc_freq E < 2 ^ 64 -> QUANTUM_HZ <= e_bus_freq E ->
  sched_wf E me s p l rqs ->
  (forall c v, vcpu_current p = Some c -> s_vcpus s !! c = Some v ->
     ready v (u64 (e_tsc E (s_clk s) - pcpu_tprev p))) ->
  exists s' p', vcpu_schedule E me s = Ok (tt, s') /\ s_pcpus s' !! me = Some p' /\
    1 <= lapic_timer p' <= e_bus_freq E / QUANTUM_HZ.
Proof.
  intros Hn Hf Hb Hwf Hr.
  destruct (proj1 (wp_Ok _ _ _) (vcpu_schedule_ok E me Hn Hf Hb s p l rqs Hwf Hr)) as ([] & s' & Es & _).
  destruct (vcpu_schedule_armed E me Hf Hb s tt s' Es) as (p' & Hp' & Ht). exists s', p'. done.
Qed.

Lemma schedule_arms_timer_witness :
  exists s' p', vcpu_schedule example_env 0 example_sched = Ok (tt, s') /\ s_pcpus s' !! 0%nat = Some p' /\
    1 <= lapic_timer p' <= 100000.
Proof.
  destruct (schedule_arms_timer example_env 0 example_sched example_pc [0%nat; 1%nat] [[0x28]; [0x30]])
    as (s' & p' & E & Hp & Ht).
  - reflexivity.
  - simpl. lia.
  - vm_compute. discriminate.
  - exact example_sched_wf.
  - discriminate.
  - exists s', p'. split; [exact E|]. split; [exact Hp|exact Ht].
Defined.
