(* ===== verification/CheckInv.v ===== *)
(** * The self-check of the VCPU scheduler

    [check_run_invariants] of sched/vcpu.c, which [vcpu_schedule] calls first when
    the kernel is built with [CHECK_INVARIANTS]: it panics when the flags, the queue
    and the replenishments of the VCPUs contradict each other.  On a single CPU it
    never does in a state that satisfies [sched_wf]. *)

From Stdlib Require Import ZArith Lia.
From S2P Require Import Prelude Div64 TaskQueue ReplQueue Vcpu MainVcpu IoVcpu.
From S2P Require Import VcpuSched SchedLemmas SchedInv SchedThm SchedWake SchedTheorems.
From stdpp Require Import base gmap sets fin_sets numbers strings list.
Local Open Scope Z_scope.

(** ** The check *)

(** [for (q = queue; q; q = q->next) if (q == v) ...] *)
Definition search_body (i : nat) (q : option nat) : M sched (control (option nat) bool) :=
  match q with
  | None => ret (Break false)
  | Some j =>
      if bool_decide (j = i) then ret (Break true)
      else let! w := get_vcpu j in ret (Continue (v_next w))
  end.

Definition on_queue (queue : option nat) (i : nat) : M sched bool :=
  let! fuel := gets walk_fuel in mloop fuel (search_body i) queue.

(** The sum of the replenishments. *)
Definition sum_body (arr : list replenishment) (st : option nat * Z)
  : outcome (control (option nat * Z) Z) :=
  let '(r, sum) := st in
  match r with
  | None => Ok (Break sum)
  | Some k => let? e := repl_get arr k in Ok (Continue (r_next e, u64 (sum + r_b e)))
  end.

Definition sum_repls (v : vcpu) : outcome Z :=
  match v_part v with
  | PMain m => loop (S (Z.to_nat MAX_REPL)) (sum_body (rq_array (m_Q m))) (rq_head (m_Q m), 0)
  | PIo _ => Err WrongUnionMember
  end.

Definition check_vcpu (queue cur : option nat) (i : nat) : M sched unit :=
  let! v := get_vcpu i in
  (if v_running v && negb (bool_decide (cur = Some i))
   then fail (Panic "vcpu running is not current") else ret tt) ;;!
  let! found := on_queue queue i in
  (if v_runnable v
   then if found : bool then ret tt else fail (Panic "vcpu runnable is not on queue")
   else if found : bool then fail (Panic "vcpu not runnable is on queue") else ret tt) ;;!
  if bool_decide (v_type v = MAIN_VCPU) then
    let! sum := lift (sum_repls v) in
    if sum =? v_C v then ret tt else fail (Panic "vcpu replenishments out of whack")
  else ret tt.

Definition check_body (queue cur : option nat) (i : nat) : M sched (control nat unit) :=
  if (i <? length init_params)%nat
  then check_vcpu queue cur i ;;! ret (Continue (S i))
  else ret (Break tt).

Definition check_run_invariants (me : nat) : M sched unit :=
  let! p := get_pc me in
  let queue := vcpu_queue p in
  let cur := vcpu_current p in
  match cur with
  | None => ret tt
  | Some c => let! v := get_vcpu c in
              if v_running v then ret tt else fail (Panic "current is not running")
  end ;;!
  mloop (S (length init_params)) (check_body queue cur) 0%nat.

(** ** Lemmas *)

Lemma search_chain i s : forall l fuel q, qchain (s_vcpus s) q l -> (length l < fuel)%nat ->
  mloop fuel (search_body i) q s = Ok (bool_decide (i ∈ l), s).
Proof.
  induction l as [|j l IH]; intros fuel q Hq Hf; (destruct fuel as [|fuel]; [simpl in Hf; lia|]);
    rewrite mloop_S; cbn [qchain] in Hq.
  - subst q. done.
  - destruct Hq as (-> & w & Hw & Hl). cbn [search_body].
    destruct (decide (j = i)) as [->|Hne].
    + rewrite bool_decide_true by done. unfold bind, ret. rewrite bool_decide_true by set_solver. done.
    + rewrite bool_decide_false by done. rewrite bind_assoc.
      rewrite (bind_Ok_eq _ _ _ w s) by (unfold get_vcpu; by rewrite Hw). rewrite ret_bind.
      rewrite IH by (done || (simpl in Hf; lia)). do 2 f_equal. apply bool_decide_ext. set_solver.
Qed.

Lemma on_queue_chain queue l i s : qchain (s_vcpus s) queue l ->
  on_queue queue i s = Ok (bool_decide (i ∈ l), s).
Proof.
  intros Hq. unfold on_queue. rewrite (bind_Ok_eq _ _ _ (walk_fuel s) s) by done.
  apply search_chain; [done|]. unfold walk_fuel. pose proof (qchain_length _ _ _ Hq). lia.
Qed.

(** Nothing wraps: the amounts are positive and add up to less than 2^64. *)
Lemma sum_chain arr : forall l fuel h acc, rchain arr h l -> (length l < fuel)%nat ->
  Forall (fun e => 0 < fst e /\ 0 < snd e) l.*2 -> 0 <= acc -> acc + budget l.*2 < 2 ^ 64 ->
  loop fuel (sum_body arr) (h, acc) = Ok (acc + budget l.*2).
Proof.
  induction l as [|[k [t b]] l IH]; intros fuel h acc Hl Hf Hpos Hacc Hb;
    (destruct fuel as [|fuel]; [simpl in Hf; lia|]); cbn [loop]; cbn [rchain] in Hl.
  - subst h. cbn. f_equal. lia.
  - destruct Hl as (-> & n & Hk & Hl). cbn [sum_body]. unfold repl_get. rewrite Hk.
    cbn [of_option obind r_b r_next]. cbn in Hpos. apply Forall_cons in Hpos as [[_ Hb0] Hpos].
    cbn in Hb, Hb0. assert (0 <= budget l.*2).
    { clear -Hpos. induction Hpos as [|e es [_ He] _ IH]; cbn; [lia|]. unfold budget in IH. lia. }
    unfold budget in *. cbn. rewrite u64_small by lia.
    rewrite IH; [f_equal; lia|done|simpl in Hf; lia|done|lia|lia].
Qed.

Lemma sum_repls_good v : v_type v = MAIN_VCPU -> good v -> sum_repls v = Ok (v_C v).
Proof.
  intros Ht Hg. unfold good in Hg. rewrite Ht in Hg.
  destruct Hg as (_ & HC & sv & (m & Ep & (l & Hok & El) & _) & Hso & _).
  unfold sum_repls. rewrite Ep. destruct Hso as [_ Hpos Hbud _ Hsz]. rewrite El in *.
  rewrite sum_chain with (l := l); [f_equal; lia|by apply Hok| |done|lia|lia].
  rewrite length_fmap in Hsz. change (Z.to_nat MAX_REPL) with 32%nat. lia.
Qed.

Section silent.
Context (E : env) (me : nat) (s : sched) (p : percpu) (l : list nat) (rqs : list (list Z)).
Context (Hwf : sched_wf E me s p l rqs).
Context (Hone : forall i v, s_vcpus s !! i = Some v -> v_cpu v = Z.of_nat me).

Lemma check_vcpu_silent i v : s_vcpus s !! i = Some v ->
  check_vcpu (vcpu_queue p) (vcpu_current p) i s = Ok (tt, s).
Proof using Hwf Hone.
  intros Hv. destruct Hwf as [_ Hq _ [Hrun _] _]. pose proof (Hone i v Hv) as Hc.
  unfold check_vcpu. rewrite (bind_Ok_eq _ _ _ v s) by (unfold get_vcpu; by rewrite Hv).
  rewrite (bind_Ok_eq _ _ _ tt s).
  2:{ destruct (v_running v) eqn:Er; [|done]. rewrite bool_decide_true by (by apply (Hrun i v)). done. }
  rewrite (bind_Ok_eq _ _ _ (bool_decide (i ∈ l)) s) by (apply on_queue_chain, Hq).
  rewrite (bind_Ok_eq _ _ _ tt s).
  2:{ pose proof (qw_on _ _ _ _ _ Hq i v Hv Hc) as Hon.
      destruct (v_runnable v); [rewrite bool_decide_true by (by apply Hon)|
        rewrite bool_decide_false by (intros ?%Hon; done)]; done. }
  destruct (bool_decide_reflect (v_type v = MAIN_VCPU)) as [Ht|]; [|done].
  rewrite sum_repls_good; [|done|].
  - unfold bind, lift. by rewrite Z.eqb_refl.
  - eapply Forall_lookup_1; [exact (qw_good _ _ _ _ _ Hq)|exact Hv].
Qed.

Lemma check_loop_silent : length (s_vcpus s) = length init_params ->
  forall fuel i, (length init_params - i < fuel)%nat ->
  mloop fuel (check_body (vcpu_queue p) (vcpu_current p)) i s = Ok (tt, s).
Proof using Hwf Hone.
  intros Hlen. induction fuel as [|fuel IH]; intros i Hf; [lia|].
  rewrite mloop_S. unfold check_body at 1.
  destruct (Nat.ltb_spec i (length init_params)) as [Hlt|]; [|done].
  destruct (s_vcpus s !! i) as [v|] eqn:Hv; [|apply lookup_ge_None in Hv; lia].
  rewrite bind_assoc. rewrite (bind_Ok_eq _ _ _ tt s) by (by eapply check_vcpu_silent).
  rewrite ret_bind. apply IH. lia.
Qed.
End silent.

(** When all VCPUs belong to one CPU, the self-check of the scheduler passes in
    every state that satisfies the invariant: it returns without a panic and
    changes nothing. *)
Theorem check_run_invariants_silent E me s p l rqs :
  sched_wf E me s p l rqs -> length (s_vcpus s) = length init_params ->
  (forall i v, s_vcpus s !! i = Some v -> v_cpu v = Z.of_nat me) ->
  check_run_invariants me s = Ok (tt, s).
Proof.
  intros Hwf Hlen Hone. pose proof Hwf as [Hpc _ _ [Hrun Hcur] _]. unfold check_run_invariants.
  rewrite (bind_Ok_eq _ _ _ p s) by (unfold get_pc; by rewrite Hpc). cbv zeta.
  rewrite (bind_Ok_eq _ _ _ tt s).
  2:{ destruct (vcpu_current p) as [c|] eqn:Ec; [|done]. destruct (Hcur c eq_refl) as (v & Hv & Hc).
      rewrite (bind_Ok_eq _ _ _ v s) by (unfold get_vcpu; by rewrite Hv).
      by rewrite (proj2 (Hrun c v Hv Hc) eq_refl). }
  eapply check_loop_silent; [done|done|done|lia].
Qed.

(** A full table: the two VCPUs of [example_sched] and otherwise idle ones. *)
Definition idle_main : vcpu :=
  mkVcpu MAIN_VCPU None false false 0 0 0 10 0 0 0 20 100 0 0
    (PMain (mkMain 0 example_queue)) zero_stats.
Definition full_sched : sched :=
  set_vcpus (s_vcpus example_sched ++ replicate (length init_params - 2) idle_main) example_sched.
Definition full_rqs : list (list Z) := [[0x28]; [0x30]] ++ replicate (length init_params - 2) [].

Lemma idle_main_good : good idle_main.
Proof.
  split; [simpl; lia|]. split; [simpl; lia|]. exists example_server.
  split; [|split; [exact example_server_ok|simpl; lia]].
  exists (mkMain 0 example_queue). repeat split. exact example_queue_rep.
Qed.

Lemma lookup_full {A} (a b c x : A) n (i : nat) : ([a; b] ++ replicate n c) !! i = Some x ->
  (i = 0%nat /\ x = a) \/ (i = 1%nat /\ x = b) \/ ((2 <= i)%nat /\ x = c).
Proof.
  intros [H|[Hi H]]%lookup_app_Some.
  - apply lookup_two in H. tauto.
  - apply lookup_replicate in H as [-> _]. cbn in Hi. auto.
Qed.

Ltac full H := apply lookup_full in H as [[-> ->]|[[-> ->]|[? ->]]].

Lemma full_sched_wf : sched_wf example_env 0 full_sched example_pc [0%nat; 1%nat] full_rqs.
Proof.
  split.
  - reflexivity.
  - split.
    + cbn [s_vcpus full_sched set_vcpus]. apply Forall_app. split.
      * repeat constructor; apply example_main_good.
      * apply Forall_replicate, idle_main_good.
    + repeat constructor.
    + split; [done|]. eexists. split; [reflexivity|]. split; [done|].
      eexists. split; [reflexivity|]. done.
    + intros i v Hv _. full Hv; split; try done; try set_solver.
      intros Hi. repeat (apply elem_of_cons in Hi as [->|Hi]; [lia|]). by apply elem_of_nil in Hi.
    + intros i v _ Hv. by full Hv.
    + reflexivity.
    + intros i v ts Hv Hts. full Hv; [injection Hts as <-..|].
      1,2: split; [|done]; (split; [done|]; split; [lia|]; eexists; split; [reflexivity|done]).
      apply lookup_full in Hts as [[? _]|[[? _]|[_ ->]]]; [lia|lia|done].
    + intros i j ts us x Hij Hts Hus Hx Hx'. full Hts; full Hus; try done;
        try (by apply elem_of_nil in Hx); try (by apply elem_of_nil in Hx');
        apply list_elem_of_singleton in Hx; apply list_elem_of_singleton in Hx'; congruence.
  - intros i Hi Habs. apply lookup_full in Habs as [[_ ?]|[[_ ?]|[? _]]]; [done..|].
    repeat (apply elem_of_cons in Hi as [->|Hi]; [lia|]). by apply elem_of_nil in Hi.
  - split; [|done]. intros i v Hv _. by full Hv.
  - split; [done|]. split; [done|]. split; [by eexists|]. done.
Qed.

Lemma check_run_invariants_silent_witness : check_run_invariants 0 full_sched = Ok (tt, full_sched).
Proof.
  apply (check_run_invariants_silent example_env 0 full_sched example_pc [0%nat; 1%nat] full_rqs).
  - exact full_sched_wf.
  - reflexivity.
  - intros i v Hv. full Hv; reflexivity.
Defined.

(** With a second CPU the check is too strong: a VCPU that runs there is not the
    current one here. *)
Example check_run_invariants_second_cpu :
  let s := set_vcpus (<[2%nat := set_v_running true (set_v_cpu 1 idle_main)]> (s_vcpus full_sched)) full_sched in
  check_run_invariants 0 s = Err (Panic "vcpu running is not current").
Proof. vm_compute. reflexivity. Qed.
