(* ===== verification/Physical.v ===== *)
(** * Physical memory: the frame bitmap of mem/physical.c

    [mm_table] is an array of [PHYS_INDEX_MAX] words of 32 bits, a set bit for a
    free frame of 4 KiB; [mm_limit] is the number of frames of the machine.  The
    bitmap macros are those of include/kernel.h.  A word outside the array is
    [OutOfBounds].  The abstraction of the state is the function [is_free] from
    frame numbers to bool; the theorems state allocation and release on it. *)

From Stdlib Require Import ZArith Lia.
From S2P Require Import Prelude.
From stdpp Require Import base numbers strings list.
Local Open Scope Z_scope.

Create HintDb phys.

(** ** State and operations *)

Definition PHYS_INDEX_MAX : Z := 32768.

Record phys := mkPhys { mm_table : list Z; mm_limit : Z }.

Definition set_mm_table (t : list Z) (s : phys) : phys := mkPhys t (mm_limit s).

(** [1 << (index & 31)] *)
Definition BITMAP_BIT (index : Z) : Z := Z.shiftl 1 (Z.land index 31).

Definition BITMAP_WORD (table : list Z) (index : Z) : outcome Z :=
  of_option OutOfBounds (table !! Z.to_nat (Z.shiftr index 5)).

Definition BITMAP_SET (table : list Z) (index : Z) : outcome (list Z) :=
  let? w := BITMAP_WORD table index in
  Ok (<[Z.to_nat (Z.shiftr index 5) := u32 (Z.lor w (BITMAP_BIT index))]> table).

Definition BITMAP_CLR (table : list Z) (index : Z) : outcome (list Z) :=
  let? w := BITMAP_WORD table index in
  Ok (<[Z.to_nat (Z.shiftr index 5) := u32 (Z.land w (Z.lnot (BITMAP_BIT index)))]> table).

Definition BITMAP_TST (table : list Z) (index : Z) : outcome bool :=
  let? w := BITMAP_WORD table index in
  Ok (negb (Z.land w (BITMAP_BIT index) =? 0)).

(** The bound on the rounds of every loop: a loop that goes further has left the
    table. *)
Definition frame_fuel (s : phys) : nat := S (32 * length (mm_table s)).

(** The frame address that the functions return; [-1] when there is none. *)
Definition NO_FRAME : Z := u32 (-1).

Definition alloc_body (limit : Z) (i : Z) : M phys (control Z Z) :=
  if i <? limit then
    let! t := gets mm_table in
    let! b := lift (BITMAP_TST t i) in
    if b then
      let! t' := lift (BITMAP_CLR t i) in
      modify (set_mm_table t') ;;!
      ret (Break (u32 (Z.shiftl i 12)))
    else ret (Continue (i + 1))
  else ret (Break NO_FRAME).

Definition alloc_phys_frame : M phys Z :=
  let! s := get in
  mloop (frame_fuel s) (alloc_body (mm_limit s)) 0.

(** The first inner loop: the offset of the first frame of the window that is not
    free. *)
Definition window_body (table : list Z) (i count : Z) (j : Z)
  : outcome (control Z (option Z)) :=
  if j <? count then
    let? b := BITMAP_TST table (i + j) in
    Ok (if b then Continue (j + 1) else Break (Some j))
  else Ok (Break None).

(** The second inner loop: take the frames of the window. *)
Definition claim_body (i count : Z) (j : Z) : M phys (control Z unit) :=
  if j <? count then
    let! t := gets mm_table in
    let! t' := lift (BITMAP_CLR t (i + j)) in
    modify (set_mm_table t') ;;!
    ret (Continue (j + 1))
  else ret (Break tt).

Definition frames_body (bound count : Z) (i : Z) : M phys (control Z Z) :=
  if i <? bound then
    let! s := get in
    let! used := lift (loop (frame_fuel s) (window_body (mm_table s) i count) 0) in
    match used with
    | Some j => ret (Continue (i + j + 1))
    | None =>
        mloop (frame_fuel s) (claim_body i count) 0 ;;!
        ret (Break (u32 (Z.shiftl i 12)))
    end
  else ret (Break NO_FRAME).

(** [mm_limit - count + 1] is computed, and compared with, unsigned. *)
Definition alloc_phys_frames (count : Z) : M phys Z :=
  let! s := get in
  mloop (frame_fuel s) (frames_body (u32 (mm_limit s - count + 1)) count) 0.

Definition free_phys_frame (frame : Z) : M phys unit :=
  let! t := gets mm_table in
  let! t' := lift (BITMAP_SET t (Z.shiftr frame 12)) in
  modify (set_mm_table t').

Definition release_body (frame count : Z) (i : Z) : M phys (control Z unit) :=
  if i <? count then
    let! t := gets mm_table in
    let! t' := lift (BITMAP_SET t (u32 (frame + i))) in
    modify (set_mm_table t') ;;!
    ret (Continue (i + 1))
  else ret (Break tt).

Definition free_phys_frames (frame count : Z) : M phys unit :=
  let! s := get in
  mloop (frame_fuel s) (release_body (Z.shiftr frame 12) count) 0.

(** ** The abstraction *)

(** Whether the table says that frame [i] is free. *)
Definition is_free (s : phys) (i : Z) : bool :=
  match mm_table s !! Z.to_nat (Z.shiftr i 5) with
  | Some w => Z.testbit w (i mod 32)
  | None => false
  end.

Record phys_wf (s : phys) : Prop := {
  pw_length : Z.of_nat (length (mm_table s)) = PHYS_INDEX_MAX;
  pw_words : Forall (fun w => 0 <= w < 2 ^ 32) (mm_table s);
  pw_limit : 0 <= mm_limit s <= 32 * PHYS_INDEX_MAX
}.

(** [s'] is [s] with the frames from [lo] to [hi - 1] marked [b], and no other. *)
Record marked (s s' : phys) (lo hi : Z) (b : bool) : Prop := {
  mk_wf : phys_wf s';
  mk_limit : mm_limit s' = mm_limit s;
  mk_free : forall k, 0 <= k -> is_free s' k = if (lo <=? k) && (k <? hi) then b else is_free s k
}.

(** A window of [count] free frames from [i], below the limit. *)
Definition window (s : phys) (i count : Z) : Prop :=
  0 <= i /\ i + count <= mm_limit s /\
  forall k, i <= k < i + count -> is_free s k = true.

(** ** The bitmap operations on the abstraction *)

Lemma bitmap_bit i : 0 <= i -> BITMAP_BIT i = Z.shiftl 1 (i mod 32).
Proof. intros Hi. unfold BITMAP_BIT. change 31 with (Z.ones 5).
  by rewrite Z.land_ones. Qed.

Lemma tst_testbit w k : 0 <= k -> negb (Z.land w (Z.shiftl 1 k) =? 0) = Z.testbit w k.
Proof.
  intros Hk. rewrite Z.shiftl_1_l. destruct (Z.testbit w k) eqn:E.
  - destruct (Z.eqb_spec (Z.land w (2 ^ k)) 0) as [H|H]; [|done].
    apply (f_equal (fun z => Z.testbit z k)) in H.
    by rewrite Z.land_spec, Z.pow2_bits_true, E, Z.bits_0 in H by done.
  - destruct (Z.eqb_spec (Z.land w (2 ^ k)) 0) as [H|H]; [done|].
    destruct H. apply Z.bits_inj'. intros n Hn. rewrite Z.land_spec, Z.bits_0.
    destruct (decide (n = k)) as [->|Hne]; [by rewrite E|].
    by rewrite Z.pow2_bits_false, andb_false_r by lia.
Qed.

Lemma frame_split i k :
  0 <= i -> 0 <= k -> Z.shiftr i 5 = Z.shiftr k 5 -> i mod 32 = k mod 32 -> i = k.
Proof.
  intros Hi Hk. rewrite !Z.shiftr_div_pow2 by lia. change (2 ^ 5) with 32. intros.
  rewrite (Z.div_mod i 32), (Z.div_mod k 32) by lia. congruence.
Qed.

Lemma table_word s i :
  phys_wf s -> 0 <= i < 32 * PHYS_INDEX_MAX ->
  exists w, mm_table s !! Z.to_nat (Z.shiftr i 5) = Some w /\ 0 <= w < 2 ^ 32.
Proof.
  intros Hwf Hi. destruct (lookup_lt_is_Some_2 (mm_table s) (Z.to_nat (Z.shiftr i 5))) as [w Hw].
  - pose proof (pw_length s Hwf). rewrite Z.shiftr_div_pow2 by lia. change (2 ^ 5) with 32.
    assert (i / 32 < PHYS_INDEX_MAX) by (apply Z.div_lt_upper_bound; lia).
    assert (0 <= i / 32) by (apply Z.div_pos; lia). lia.
  - exists w. split; [done|]. by eapply Forall_lookup_1 in Hw; [|apply (pw_words s)].
Qed.

Lemma bitmap_tst_ok s i :
  phys_wf s -> 0 <= i < 32 * PHYS_INDEX_MAX ->
  BITMAP_TST (mm_table s) i = Ok (is_free s i).
Proof.
  intros Hwf Hi. destruct (table_word s i Hwf Hi) as (w & Hw & _).
  unfold BITMAP_TST, BITMAP_WORD, is_free. rewrite Hw. cbn [of_option obind].
  pose proof (Z.mod_pos_bound i 32 ltac:(lia)). by rewrite bitmap_bit, tst_testbit by lia.
Qed.

(** Outside the table nothing is free and the macros read beyond it. *)
Lemma bitmap_tst_out s i :
  phys_wf s -> 32 * PHYS_INDEX_MAX <= i -> BITMAP_TST (mm_table s) i = Err OutOfBounds.
Proof.
  intros Hwf Hi. unfold BITMAP_TST, BITMAP_WORD. rewrite lookup_ge_None_2; [done|].
  pose proof (pw_length s Hwf). rewrite Z.shiftr_div_pow2 by lia. change (2 ^ 5) with 32.
  assert (PHYS_INDEX_MAX <= i / 32) by (apply Z.div_le_lower_bound; lia). lia.
Qed.

(** Replacing a word by one that differs in the bit of frame [i] marks frame [i]. *)
Lemma insert_marked s i w w' b :
  phys_wf s -> 0 <= i -> mm_table s !! Z.to_nat (Z.shiftr i 5) = Some w ->
  0 <= w' < 2 ^ 32 ->
  (forall n, 0 <= n -> Z.testbit w' n = if n =? i mod 32 then b else Z.testbit w n) ->
  marked s (set_mm_table (<[Z.to_nat (Z.shiftr i 5) := w']> (mm_table s)) s) i (i + 1) b.
Proof.
  intros Hwf Hi Hw Hw' Hbit. split; [split| |]; cbn [mm_table mm_limit set_mm_table].
  - rewrite length_insert. apply Hwf.
  - apply Forall_insert; [apply Hwf|done].
  - apply Hwf.
  - done.
  - intros k Hk. unfold is_free. cbn [mm_table set_mm_table].
    pose proof (Z.mod_pos_bound k 32 ltac:(lia)).
    assert (0 <= Z.shiftr i 5) by (by apply Z.shiftr_nonneg).
    assert (0 <= Z.shiftr k 5) by (by apply Z.shiftr_nonneg).
    destruct (decide (Z.shiftr k 5 = Z.shiftr i 5)) as [E|E].
    + rewrite E, list_lookup_insert_eq, Hw by (by eapply lookup_lt_Some). rewrite Hbit by lia.
      destruct (Z.eqb_spec (k mod 32) (i mod 32)) as [E'|E'].
      * assert (k = i) as -> by (by apply frame_split).
        by rewrite (proj2 (Z.leb_le i i)), (proj2 (Z.ltb_lt i (i + 1))) by lia.
      * destruct (decide (k = i)) as [->|]; [done|].
        destruct (Z.leb_spec i k), (Z.ltb_spec k (i + 1)); try lia; done.
    + rewrite list_lookup_insert_ne by lia.
      destruct (decide (k = i)) as [->|]; [done|].
      destruct (Z.leb_spec i k), (Z.ltb_spec k (i + 1)); try lia; done.
Qed.

Lemma bitmap_set_ok s i :
  phys_wf s -> 0 <= i < 32 * PHYS_INDEX_MAX ->
  exists t, BITMAP_SET (mm_table s) i = Ok t /\ marked s (set_mm_table t s) i (i + 1) true.
Proof.
  intros Hwf Hi. destruct (table_word s i Hwf Hi) as (w & Hw & Hr).
  pose proof (Z.mod_pos_bound i 32 ltac:(lia)) as Hm.
  unfold BITMAP_SET, BITMAP_WORD. rewrite Hw. cbn [of_option obind]. eexists. split; [done|].
  rewrite bitmap_bit, Z.shiftl_1_l by lia.
  assert (0 <= 2 ^ (i mod 32) < 2 ^ 32)
    by (split; [apply Z.pow_nonneg; lia | apply Z.pow_lt_mono_r; lia]).
  assert (0 <= Z.lor w (2 ^ (i mod 32)) < 2 ^ 32) by (apply lor_range; lia).
  rewrite u32_small by done. apply (insert_marked s i w); [done|lia|done|done|].
  intros n Hn. rewrite Z.lor_spec, Z.pow2_bits_eqb by lia.
  rewrite (Z.eqb_sym n). destruct (i mod 32 =? n); [apply orb_true_r|apply orb_false_r].
Qed.

Lemma bitmap_clr_ok s i :
  phys_wf s -> 0 <= i < 32 * PHYS_INDEX_MAX ->
  exists t, BITMAP_CLR (mm_table s) i = Ok t /\ marked s (set_mm_table t s) i (i + 1) false.
Proof.
  intros Hwf Hi. destruct (table_word s i Hwf Hi) as (w & Hw & Hr).
  pose proof (Z.mod_pos_bound i 32 ltac:(lia)) as Hm.
  unfold BITMAP_CLR, BITMAP_WORD. rewrite Hw. cbn [of_option obind]. eexists. split; [done|].
  rewrite bitmap_bit, Z.shiftl_1_l by lia.
  assert (0 <= Z.land w (Z.lnot (2 ^ (i mod 32))) < 2 ^ 32) by (apply land_range; lia).
  rewrite u32_small by done. apply (insert_marked s i w); [done|lia|done|done|].
  intros n Hn. rewrite Z.land_spec, Z.lnot_spec, Z.pow2_bits_eqb by lia.
  rewrite (Z.eqb_sym n). destruct (i mod 32 =? n); [apply andb_false_r|apply andb_true_r].
Qed.

(** Marking consecutive ranges. *)
Lemma marked_nothing s i b : phys_wf s -> marked s s i i b.
Proof.
  intros Hwf. split; [done|done|]. intros k Hk.
  by destruct (Z.leb_spec i k), (Z.ltb_spec k i); try lia.
Qed.

Lemma marked_extend s s1 s2 lo mid hi b :
  lo <= mid <= hi -> marked s s1 lo mid b -> marked s1 s2 mid hi b -> marked s s2 lo hi b.
Proof.
  intros Hle [_ L1 F1] [W2 L2 F2]. split; [done|congruence|]. intros k Hk.
  rewrite F2, F1 by done.
  destruct (Z.leb_spec lo k), (Z.ltb_spec k mid), (Z.leb_spec mid k), (Z.ltb_spec k hi);
    cbn; try lia; done.
Qed.

#[export] Hint Resolve mk_wf marked_nothing : phys.

(** ** Loops *)

Lemma frame_fuel_eq s : phys_wf s -> Z.of_nat (frame_fuel s) = 32 * PHYS_INDEX_MAX + 1.
Proof. intros Hwf. unfold frame_fuel. pose proof (pw_length s Hwf). lia. Qed.

Lemma frame_address i : 0 <= i < 32 * PHYS_INDEX_MAX -> u32 (Z.shiftl i 12) = 4096 * i.
Proof.
  intros Hi. unfold PHYS_INDEX_MAX in Hi. rewrite Z.shiftl_mul_pow2, u32_small by lia. lia.
Qed.

(** What the allocation of one frame returns: the lowest free frame, or none. *)
Definition frame_allocated (s : phys) (r : Z) (s' : phys) : Prop :=
  (exists i, r = 4096 * i /\ window s i 1 /\ (forall k, 0 <= k < i -> is_free s k = false) /\
             marked s s' i (i + 1) false) \/
  (r = NO_FRAME /\ s' = s /\ forall k, 0 <= k < mm_limit s -> is_free s k = false).

Lemma alloc_phys_frame_wp s : phys_wf s -> wp alloc_phys_frame (frame_allocated s) s.
Proof.
  intros Hwf. pose proof (frame_fuel_eq s Hwf) as Hfuel. pose proof (pw_limit s Hwf) as Hlim.
  unfold alloc_phys_frame. apply wp_bind. unfold wp at 1, get.
  apply (wp_mloop _
    (fun i s' => s' = s /\ 0 <= i <= mm_limit s /\ forall k, 0 <= k < i -> is_free s k = false) _
    (fun i _ => Z.to_nat (mm_limit s - i))).
  - intros i s' (-> & Hi & Hfree). unfold alloc_body. zcase.
    + apply wp_bind, wp_gets, wp_bind.
      eapply wp_lift; [apply bitmap_tst_ok; [done|lia]|].
      destruct (is_free s i) eqn:E.
      * destruct (bitmap_clr_ok s i Hwf) as (t & Ht & Hm); [lia|].
        apply wp_bind. eapply wp_lift; [done|]. apply wp_bind, wp_modify, wp_ret.
        left. exists i. rewrite frame_address by lia. split; [done|].
        split; [|done]. repeat split; [lia|lia|]. intros k Hk. by replace k with i by lia.
      * apply wp_ret. split; [|lia]. split; [done|]. split; [lia|].
        intros k Hk. destruct (decide (k = i)) as [->|]; [done|]. apply Hfree. lia.
    + apply wp_ret. right. split; [done|]. split; [done|]. intros k Hk. apply Hfree. lia.
  - split; [done|]. split; [lia|]. intros k Hk. lia.
  - lia.
Qed.

Lemma window_loop s i count :
  phys_wf s -> 0 <= i -> 0 <= count -> i + count <= 32 * PHYS_INDEX_MAX ->
  exists r, loop (frame_fuel s) (window_body (mm_table s) i count) 0 = Ok r /\
    match r with
    | Some j => 0 <= j < count /\ is_free s (i + j) = false
    | None => forall k, i <= k < i + count -> is_free s k = true
    end.
Proof.
  intros Hwf Hi Hc Hic. pose proof (frame_fuel_eq s Hwf) as Hfuel.
  apply (loop_measure _
    (fun j => 0 <= j <= count /\ forall k, i <= k < i + j -> is_free s k = true) _
    (fun j => Z.to_nat (count - j))).
  - intros j [Hj Hall]. unfold window_body. zcase.
    + rewrite bitmap_tst_ok by (done || lia). cbn [obind].
      destruct (is_free s (i + j)) eqn:E; [left|right; eexists; split; [done|]; by split; [lia|]].
      eexists. split; [done|]. split; [|lia]. split; [lia|].
      intros k Hk. destruct (decide (k = i + j)) as [->|]; [done|]. apply Hall. lia.
    + right. eexists. split; [done|]. intros k Hk. apply Hall. lia.
  - split; [lia|]. intros k Hk. lia.
  - lia.
Qed.

Lemma claim_loop s i count :
  phys_wf s -> 0 <= i -> 0 <= count -> i + count <= 32 * PHYS_INDEX_MAX ->
  wp (mloop (frame_fuel s) (claim_body i count) 0)
     (fun _ s' => marked s s' i (i + count) false) s.
Proof.
  intros Hwf Hi Hc Hic. pose proof (frame_fuel_eq s Hwf) as Hfuel.
  apply (wp_mloop _ (fun j s' => 0 <= j <= count /\ marked s s' i (i + j) false) _
    (fun j _ => Z.to_nat (count - j))).
  - intros j s' [Hj Hm]. unfold claim_body. zcase.
    + destruct (bitmap_clr_ok s' (i + j)) as (t & Ht & Hm'); [eauto with phys|lia|].
      apply wp_bind, wp_gets, wp_bind. eapply wp_lift; [done|].
      apply wp_bind, wp_modify, wp_ret. split; [|lia]. split; [lia|].
      eapply marked_extend; [|done|]; [lia|]. by replace (i + (j + 1)) with (i + j + 1) by lia.
    + apply wp_ret. by replace count with j by lia.
  - split; [lia|]. rewrite Z.add_0_r. by apply marked_nothing.
  - lia.
Qed.

(** What the allocation of [count] frames returns: the lowest window, or none. *)
Definition frames_allocated (s : phys) (count r : Z) (s' : phys) : Prop :=
  (exists i, r = u32 (4096 * i) /\ window s i count /\
             (forall k, 0 <= k < i -> ~ window s k count) /\
             marked s s' i (i + count) false) \/
  (r = NO_FRAME /\ s' = s /\ forall k, ~ window s k count).

Lemma alloc_phys_frames_wp s count :
  phys_wf s -> 0 <= count <= mm_limit s + 1 ->
  wp (alloc_phys_frames count) (frames_allocated s count) s.
Proof.
  intros Hwf Hc. pose proof (frame_fuel_eq s Hwf) as Hfuel. pose proof (pw_limit s Hwf) as Hlim.
  unfold PHYS_INDEX_MAX in Hlim.
  unfold alloc_phys_frames. apply wp_bind. unfold wp at 1, get.
  rewrite u32_small by lia.
  apply (wp_mloop _
    (fun i s' => s' = s /\ 0 <= i /\ forall k, 0 <= k < i -> ~ window s k count) _
    (fun i _ => Z.to_nat (mm_limit s - i))).
  - intros i s' (-> & Hi & Hno). unfold frames_body. zcase.
    + apply wp_bind. unfold wp at 1, get.
      destruct (window_loop s i count Hwf) as (r & Hr & Hres); [lia|lia|unfold PHYS_INDEX_MAX; lia|].
      apply wp_bind. eapply wp_lift; [done|]. destruct r as [j|].
      * apply wp_ret. split; [|lia]. split; [done|]. split; [lia|].
        intros k Hk Hw. destruct Hres as [Hj Hnf].
        destruct (decide (k < i)) as [Hlt|Hge]; [by apply (Hno k); [lia|]|].
        destruct Hw as (_ & _ & Hw). rewrite Hw in Hnf; [done|lia].
      * apply wp_bind. eapply wp_mono; [apply claim_loop; [done|lia|lia|unfold PHYS_INDEX_MAX; lia]|].
        intros [] s1 Hm. apply wp_ret. left. exists i.
        rewrite Z.shiftl_mul_pow2 by lia. split; [f_equal; lia|].
        split; [repeat split; [lia|lia|done]|]. done.
    + apply wp_ret. right. split; [done|]. split; [done|]. intros k (Hk & Hkc & Hw).
      apply (Hno k); [lia|]. done.
  - split; [done|]. split; [lia|]. intros k Hk. lia.
  - unfold PHYS_INDEX_MAX in Hfuel. lia.
Qed.

Lemma free_phys_frames_wp s i count :
  phys_wf s -> 0 <= i -> 1 <= count -> i + count <= 32 * PHYS_INDEX_MAX ->
  wp (free_phys_frames (4096 * i) count) (fun _ s' => marked s s' i (i + count) true) s.
Proof.
  intros Hwf Hi Hc Hic. pose proof (frame_fuel_eq s Hwf) as Hfuel.
  unfold PHYS_INDEX_MAX in Hic. unfold free_phys_frames. apply wp_bind. unfold wp at 1, get.
  rewrite Z.shiftr_div_pow2, (Z.mul_comm 4096), Z.div_mul by lia.
  apply (wp_mloop _ (fun j s' => 0 <= j <= count /\ marked s s' i (i + j) true) _
    (fun j _ => Z.to_nat (count - j))).
  - intros j s' [Hj Hm]. unfold release_body. zcase.
    + destruct (bitmap_set_ok s' (i + j)) as (t & Ht & Hm');
        [eauto with phys|unfold PHYS_INDEX_MAX; lia|].
      apply wp_bind, wp_gets, wp_bind. rewrite u32_small by lia. eapply wp_lift; [done|].
      apply wp_bind, wp_modify, wp_ret. split; [|lia]. split; [lia|].
      eapply marked_extend; [|done|]; [lia|]. by replace (i + (j + 1)) with (i + j + 1) by lia.
    + apply wp_ret. by replace count with j by lia.
  - split; [lia|]. rewrite Z.add_0_r. by apply marked_nothing.
  - unfold PHYS_INDEX_MAX in Hfuel. lia.
Qed.

Lemma free_phys_frame_wp s i :
  phys_wf s -> 0 <= i < 32 * PHYS_INDEX_MAX ->
  wp (free_phys_frame (4096 * i)) (fun _ s' => marked s s' i (i + 1) true) s.
Proof.
  intros Hwf Hi. destruct (bitmap_set_ok s i Hwf Hi) as (t & Ht & Hm).
  unfold free_phys_frame. apply wp_bind, wp_gets, wp_bind.
  rewrite Z.shiftr_div_pow2, (Z.mul_comm 4096), Z.div_mul by lia.
  eapply wp_lift; [done|]. by apply wp_modify.
Qed.

(** The abstraction determines the table. *)
Lemma phys_ext s s' :
  phys_wf s -> phys_wf s' -> mm_limit s = mm_limit s' ->
  (forall k, 0 <= k -> is_free s k = is_free s' k) -> s = s'.
Proof.
  intros Hwf Hwf' Hlim Hfree. destruct s as [t l], s' as [t' l']. cbn in Hlim. subst l'.
  f_equal. apply (list_eq_same_length t t' (length t)); [|done|].
  - pose proof (pw_length _ Hwf). pose proof (pw_length _ Hwf'). cbn in *. lia.
  - intros j w w' Hj Hw Hw'. apply Z.bits_inj'. intros n Hn.
    pose proof (Forall_lookup_1 _ _ _ _ (pw_words _ Hwf) Hw) as Hr.
    pose proof (Forall_lookup_1 _ _ _ _ (pw_words _ Hwf') Hw') as Hr'. cbn in Hr, Hr'.
    destruct (decide (n < 32)) as [Hlt|Hge].
    + specialize (Hfree (32 * Z.of_nat j + n) ltac:(lia)). unfold is_free in Hfree.
      cbn [mm_table] in Hfree. rewrite Z.shiftr_div_pow2 in Hfree by lia.
      change (2 ^ 5) with 32 in Hfree.
      replace ((32 * Z.of_nat j + n) / 32) with (Z.of_nat j) in Hfree
        by (rewrite Z.add_comm, Z.mul_comm, Z.div_add, Z.div_small by lia; lia).
      replace ((32 * Z.of_nat j + n) mod 32) with n in Hfree
        by (rewrite Z.add_comm, Z.mul_comm, Z.mod_add, Z.mod_small by lia; lia).
      by rewrite Nat2Z.id, Hw, Hw' in Hfree.
    + rewrite <- (Z.mod_small w (2 ^ 32)), <- (Z.mod_small w' (2 ^ 32)) by lia.
      by rewrite !Z.mod_pow2_bits_high by lia.
Qed.

Lemma marked_back s s1 s2 i count :
  phys_wf s -> window s i count -> marked s s1 i (i + count) false ->
  marked s1 s2 i (i + count) true -> s2 = s.
Proof.
  intros Hwf (Hi & _ & Hw) [_ L1 F1] [W2 L2 F2]. apply phys_ext; [done|done|congruence|].
  intros k Hk. rewrite F2, F1 by done.
  destruct (Z.leb_spec i k), (Z.ltb_spec k (i + count)); cbn; try done.
  symmetry. apply Hw. lia.
Qed.

(** *** Requests larger than the memory *)

Lemma window_over s i count :
  phys_wf s -> 0 <= i <= 32 * PHYS_INDEX_MAX -> mm_limit s < count ->
  (forall k, mm_limit s <= k -> is_free s k = false) ->
  forall fuel j, 0 <= j -> (j = 0 \/ i + j <= mm_limit s) -> 32 * PHYS_INDEX_MAX - i - j < Z.of_nat fuel ->
  loop fuel (window_body (mm_table s) i count) j = Err OutOfBounds \/
  exists j', loop fuel (window_body (mm_table s) i count) j = Ok (Some j') /\
             0 <= j' /\ i + j' < 32 * PHYS_INDEX_MAX.
Proof.
  intros Hwf Hi Hc Hno fuel. pose proof (pw_limit s Hwf) as Hlim.
  induction fuel as [|fuel IH]; intros j Hj Hor Hf; [lia|].
  cbn [loop]. unfold window_body at 1 3. rewrite (proj2 (Z.ltb_lt j count)) by lia.
  destruct (decide (i + j < 32 * PHYS_INDEX_MAX)) as [Hin|Hout].
  - rewrite bitmap_tst_ok by (done || lia). cbn [obind].
    destruct (is_free s (i + j)) eqn:E; [|right; eauto with lia].
    apply IH; [lia| |lia]. right.
    destruct (decide (mm_limit s <= i + j)) as [Hle|]; [|lia]. by rewrite Hno in E.
  - left. rewrite bitmap_tst_out by (done || lia). done.
Qed.

Lemma frames_over s count bound :
  phys_wf s -> mm_limit s < count -> 32 * PHYS_INDEX_MAX < bound ->
  (forall k, mm_limit s <= k -> is_free s k = false) ->
  forall fuel i, 0 <= i <= 32 * PHYS_INDEX_MAX -> 32 * PHYS_INDEX_MAX - i < Z.of_nat fuel ->
  mloop fuel (frames_body bound count) i s = Err OutOfBounds.
Proof.
  intros Hwf Hc Hb Hno fuel. pose proof (frame_fuel_eq s Hwf) as Hfuel.
  induction fuel as [|fuel IH]; intros i Hi Hf; [lia|].
  cbn [mloop]. unfold frames_body at 1. rewrite (proj2 (Z.ltb_lt i bound)) by lia.
  unfold bind, get, lift at 1.
  destruct (window_over s i count Hwf Hi Hc Hno (frame_fuel s) 0) as [->|(j & -> & Hj & Hij)];
    [lia|lia|lia|done|].
  unfold ret. apply IH; lia.
Qed.

(** ** Theorems *)

(** [alloc_phys_frame] returns from every well-formed state: with the address
    of the lowest free frame below [mm_limit], which it marks used and no other,
    or with -1 and the table unchanged when there is none. *)
Theorem alloc_phys_frame_lowest s :
  phys_wf s ->
  exists r s', alloc_phys_frame s = Ok (r, s') /\ frame_allocated s r s'.
Proof. intros Hwf. by apply wp_Ok, alloc_phys_frame_wp. Qed.

(** [alloc_phys_frames], whose search skips past every used frame it meets,
    returns the lowest window of [count] free frames below [mm_limit] and marks
    exactly that window used, or returns -1 with the table unchanged when there is
    no such window; it never reads outside the table as long as [count] does not
    exceed [mm_limit + 1]. *)
Theorem alloc_phys_frames_lowest s count :
  phys_wf s -> 0 <= count <= mm_limit s + 1 ->
  exists r s', alloc_phys_frames count s = Ok (r, s') /\ frames_allocated s count r s'.
Proof. intros Hwf Hc. by apply wp_Ok, alloc_phys_frames_wp. Qed.

(** allocating a window and freeing it again restores the table, bit for bit. *)
Theorem phys_frames_roundtrip s count r s1 :
  phys_wf s -> 1 <= count <= mm_limit s + 1 ->
  alloc_phys_frames count s = Ok (r, s1) -> r <> NO_FRAME ->
  free_phys_frames r count s1 = Ok (tt, s).
Proof.
  intros Hwf Hc Hal Hr. pose proof (pw_limit s Hwf) as Hlim.
  destruct (proj1 (wp_Ok _ _ _) (alloc_phys_frames_wp s count Hwf ltac:(lia)))
    as (r' & s' & Heq & [(i & -> & Hw & _ & Hm)|(-> & _)]); [|congruence].
  assert (r = u32 (4096 * i) /\ s1 = s') as [-> ->] by (split; congruence).
  pose proof Hw as (Hi & Hic & _). unfold PHYS_INDEX_MAX in Hlim.
  rewrite u32_small by lia.
  destruct (proj1 (wp_Ok _ _ _) (free_phys_frames_wp s' i count (mk_wf _ _ _ _ _ Hm) Hi ltac:(lia)
    ltac:(unfold PHYS_INDEX_MAX; lia))) as ([] & s2 & -> & Hm2).
  by rewrite (marked_back s s' s2 i count).
Qed.

(** a request for more than [mm_limit + 1] frames is not refused: the unsigned
    bound [mm_limit - count + 1] wraps around and the search runs off the end of
    [mm_table]. *)
Theorem alloc_phys_frames_oversized s count :
  phys_wf s -> mm_limit s + 1 < count < 2 ^ 31 ->
  (forall k, mm_limit s <= k -> is_free s k = false) ->
  alloc_phys_frames count s = Err OutOfBounds.
Proof.
  intros Hwf Hc Hno. pose proof (frame_fuel_eq s Hwf) as Hfuel.
  pose proof (pw_limit s Hwf) as Hlim. unfold PHYS_INDEX_MAX in *.
  unfold alloc_phys_frames, bind, get. apply frames_over; unfold PHYS_INDEX_MAX; try done; try lia.
  unfold u32. replace (mm_limit s - count + 1)
    with (mm_limit s - count + 1 + 2 ^ 32 + (-1) * 2 ^ 32) by lia.
  rewrite Z.mod_add, Z.mod_small by lia. lia.
Qed.

(** *** Witnesses: a machine of three frames, the second in use. *)

Definition example_phys : phys :=
  mkPhys (5 :: replicate (Z.to_nat PHYS_INDEX_MAX - 1) 0) 3.

Lemma example_phys_wf : phys_wf example_phys.
Proof.
  split.
  - unfold example_phys. cbn [mm_table length]. rewrite length_replicate. unfold PHYS_INDEX_MAX. lia.
  - constructor; [lia|]. apply Forall_replicate. lia.
  - unfold example_phys, PHYS_INDEX_MAX. cbn [mm_limit]. lia.
Defined.

Lemma example_phys_above k : 3 <= k -> is_free example_phys k = false.
Proof.
  intros Hk. unfold is_free, example_phys. cbn [mm_table].
  rewrite Z.shiftr_div_pow2 by lia. change (2 ^ 5) with 32.
  pose proof (Z.div_pos k 32 ltac:(lia) ltac:(lia)).
  destruct (Z.to_nat (k / 32)) as [|n] eqn:E.
  - cbn [lookup list_lookup]. assert (k / 32 = 0) by lia. assert (k < 32) by (pose proof (Z.div_mod k 32 ltac:(lia));
      pose proof (Z.mod_pos_bound k 32 ltac:(lia)); lia).
    rewrite Z.mod_small by lia. apply Z.bits_above_log2; [lia|]. cbn. lia.
  - rewrite lookup_cons_ne_0 by done. cbn [pred].
    destruct (decide (n < Z.to_nat PHYS_INDEX_MAX - 1)%nat).
    + rewrite lookup_replicate_2 by done. apply Z.bits_0.
    + by rewrite lookup_ge_None_2 by (rewrite length_replicate; lia).
Defined.

Lemma alloc_phys_frame_lowest_witness :
  exists r s', alloc_phys_frame example_phys = Ok (r, s') /\ frame_allocated example_phys r s'.
Proof. apply (alloc_phys_frame_lowest example_phys), example_phys_wf. Defined.

Lemma alloc_phys_frames_lowest_witness :
  exists r s', alloc_phys_frames 2 example_phys = Ok (r, s') /\ frames_allocated example_phys 2 r s'.
Proof. apply (alloc_phys_frames_lowest example_phys 2); [apply example_phys_wf|cbn; lia]. Defined.

Lemma phys_frames_roundtrip_witness :
  exists r s1, alloc_phys_frames 1 example_phys = Ok (r, s1) /\
               free_phys_frames r 1 s1 = Ok (tt, example_phys).
Proof.
  destruct (proj1 (wp_Ok _ _ _) (alloc_phys_frames_wp example_phys 1 example_phys_wf ltac:(cbn; lia)))
    as (r & s1 & Heq & Hres).
  exists r, s1. split; [done|].
  apply (phys_frames_roundtrip example_phys 1); [apply example_phys_wf|cbn; lia|done|].
  intros ->. destruct Hres as [(i & Hi & (H0 & Hle & _) & _)|(_ & _ & Hno)].
  - cbn in Hle. rewrite u32_small in Hi by lia. change NO_FRAME with 4294967295 in Hi. lia.
  - apply (Hno 0). split; [lia|]. split; [cbn; lia|]. intros k Hk. by replace k with 0 by lia.
Defined.

Lemma alloc_phys_frames_oversized_witness : alloc_phys_frames 5 example_phys = Err OutOfBounds.
Proof.
  apply (alloc_phys_frames_oversized example_phys 5);
    [apply example_phys_wf|cbn; lia|apply example_phys_above].
Defined.
