(* ===== verification/Virtual.v ===== *)
(** * Virtual memory: the kernel page table and the page-table tools of mem/virtual.c

    The state is the physical memory, a map from word-aligned physical addresses
    to 32-bit words (an absent word is zero), the set of the slots of the kernel
    page table that were written since they were last invalidated, and the frame
    bitmap of [Physical].  The kernel page table maps the 4 MiB window from
    [_kernelstart]; it contains itself, at [KERN_PGT], and every access of the
    code to it is an access through the window, translated by the table in memory
    as the processor does.  An access through an entry that is not present is
    [PageFault], through one that was changed and not yet invalidated [StaleTLB].

    Outside the model: accesses below the window ([NullDeref]; the code makes them
    only through the null pointer that a failed mapping returns), the user and
    write permission bits, and the TLBs of other processors. *)

From Stdlib Require Import ZArith Lia.
From S2P Require Import Prelude Physical.
From stdpp Require Import base gmap sets fin_sets numbers strings list.
Local Open Scope Z_scope.

Create HintDb virt.

(** ** Constants and data *)

(** The link address of the kernel (ldscripts/quest.ld) and its page table. *)
Definition kernelstart : Z := 0xFFC00000.
Definition KERN_PGT : Z := 0xFFFF1000.
(** The slot of the kernel page table that maps the table itself. *)
Definition KERN_PGT_SLOT : Z := 0x3F1.

Definition PGTBL_NUM_ENTRIES : Z := 0x400.
Definition PGDIR_NUM_ENTRIES : Z := 0x400.
Definition PGDIR_KERNEL_BEGIN : Z := 0x300.
Definition PGDIR_KERNEL_STACK : Z := 0x3FE.
Definition PAGE_SIZE : Z := 4096.

(** The fields of [linear_address_t], [pgtbl_entry_t] and [pgdir_entry_t], whose
    other members are the word [raw] itself. *)
Definition la_offset (raw : Z) : Z := Z.land raw 0xFFF.
Definition la_pgtbl_i (raw : Z) : Z := Z.land (Z.shiftr raw 12) 0x3FF.
Definition la_pgdir_i (raw : Z) : Z := Z.shiftr raw 22.
Definition pt_present (raw : Z) : bool := Z.testbit raw 0.
Definition pd_page_size (raw : Z) : bool := Z.testbit raw 7.
Definition pt_framenum (raw : Z) : Z := Z.shiftr raw 12.
Definition pd_big_framenum (raw : Z) : Z := Z.shiftr raw 22.
Definition FRAMENUM_TO_FRAME (x : Z) : Z := u32 (Z.shiftl x 12).
Definition FRAME_TO_FRAMENUM (x : Z) : Z := Z.shiftr x 12.
Definition BIGFRAMENUM_TO_FRAME (x : Z) : Z := u32 (Z.shiftl x 22).

Record pgtbl_t := mkPgtbl { table_pa : Z; table_va : Z; starting_va : Z }.
Record pgdir_t := mkPgdir { dir_pa : Z; dir_va : Z }.

Record mmu := mkMmu { pmem : gmap Z Z; stale : gset Z; frames : phys }.

Definition set_pmem (m : gmap Z Z) (s : mmu) : mmu := mkMmu m (stale s) (frames s).
Definition set_stale (x : gset Z) (s : mmu) : mmu := mkMmu (pmem s) x (frames s).
Definition set_frames (f : phys) (s : mmu) : mmu := mkMmu (pmem s) (stale s) f.

(** A word of physical memory; zero words are not stored. *)
Definition rd (m : gmap Z Z) (pa : Z) : Z := default 0 (m !! pa).
Definition wr (pa v : Z) (m : gmap Z Z) : gmap Z Z :=
  if v =? 0 then delete pa m else <[pa := v]> m.

(** An operation of the frame allocator. *)
Definition on_frames {A} (m : M phys A) : M mmu A :=
  fun s => match m (frames s) with
           | Ok (a, f) => Ok (a, set_frames f s)
           | Err e => Err e
           end.

(** ** The operations *)

Section virtual.
(** The frame of the kernel page table and the page directory in [cr3]. *)
Context (kpt pdbr : Z).

(** *** Memory accesses *)

Definition pread (pa : Z) : M mmu Z := gets (fun s => rd (pmem s) pa).

(** A write to the kernel page table leaves the changed slot stale. *)
Definition pwrite (pa v : Z) : M mmu unit :=
  modify (fun s => set_pmem (wr pa v (pmem s))
    (if (kpt <=? pa) && (pa <? kpt + PAGE_SIZE)
     then set_stale ({[ Z.shiftr (pa - kpt) 2 ]} ∪ stale s) s else s)).

(** The slot of the window that translates [va]. *)
Definition slot (va : Z) : Z := Z.land (Z.shiftr va 12) 0x3FF.

Definition translate (va : Z) : M mmu Z :=
  if kernelstart <=? va then
    let! e := pread (kpt + 4 * slot va) in
    let! st := gets stale in
    if bool_decide (slot va ∈ st) then fail StaleTLB
    else if pt_present e then ret (Z.land e 0xFFFFF000 + la_offset va)
    else fail PageFault
  else fail NullDeref.

Definition vread (va : Z) : M mmu Z :=
  let! pa := translate va in pread pa.

Definition vwrite (va v : Z) : M mmu unit :=
  let! pa := translate va in pwrite pa v.

Definition invalidate_page (va : Z) : M mmu unit :=
  when (kernelstart <=? va) (modify (fun s => set_stale (stale s ∖ {[ slot va ]}) s)).

(** [page_table[i]] of [uint32 *page_table = (uint32 * ) KERN_PGT], and a word of
    the table or directory at [base]. *)
Definition entry (base i : Z) : Z := u32 (base + 4 * i).

(** *** The kernel window *)

Definition map_page_body (phys_frame : Z) (i : Z) : M mmu (control Z Z) :=
  if i <? 0x400 then
    let! e := vread (entry KERN_PGT i) in
    if e =? 0 then
      vwrite (entry KERN_PGT i) phys_frame ;;!
      let va := u32 (kernelstart + Z.shiftl i 12) in
      invalidate_page va ;;!
      ret (Break va)
    else ret (Continue (i + 1))
  else ret (Break 0).

Definition map_virtual_page (phys_frame : Z) : M mmu Z :=
  mloop 1025 (map_page_body phys_frame) 0.

(** The loops of [map_contiguous_virtual_pages] and [map_virtual_pages], which
    differ in the entry they write for page [j], [entry_of j]. *)
Definition free_body (i count : Z) (j : Z) : M mmu (control Z (option Z)) :=
  if j <? count then
    let! e := vread (entry KERN_PGT (i + j)) in
    ret (if e =? 0 then Continue (j + 1) else Break (Some j))
  else ret (Break None).

Definition fill_body (entry_of : Z -> outcome Z) (i count : Z) (j : Z)
  : M mmu (control Z unit) :=
  if j <? count then
    let! e := lift (entry_of j) in
    vwrite (entry KERN_PGT (i + j)) e ;;!
    ret (Continue (j + 1))
  else ret (Break tt).

Definition flush_body (va count : Z) (j : Z) : M mmu (control Z unit) :=
  if j <? count then
    invalidate_page (u32 (va + j * 0x1000)) ;;!
    ret (Continue (j + 1))
  else ret (Break tt).

Definition window_round (entry_of : Z -> outcome Z) (bound count : Z) (i : Z)
  : M mmu (control Z Z) :=
  if i <? bound then
    let! e := vread (entry KERN_PGT i) in
    if e =? 0 then
      let! used := mloop 1026 (free_body i count) 0 in
      match used with
      | Some j => ret (Continue (i + j + 1))
      | None =>
          mloop 1026 (fill_body entry_of i count) 0 ;;!
          let va := u32 (kernelstart + Z.shiftl i 12) in
          mloop 1026 (flush_body va count) 0 ;;!
          ret (Break va)
      end
    else ret (Continue (i + 1))
  else ret (Break 0).

Definition map_window (entry_of : Z -> outcome Z) (count : Z) : M mmu Z :=
  if count =? 0 then ret 0
  else mloop 1026 (window_round entry_of (u32 (0x400 - count + 1)) count) 0.

Definition map_contiguous_virtual_pages (phys_frame count : Z) : M mmu Z :=
  map_window (fun j => Ok (u32 (phys_frame + j * 0x1000))) count.

Definition map_virtual_pages (phys_frames : list Z) (count : Z) : M mmu Z :=
  map_window (fun j => of_option OutOfBounds (phys_frames !! Z.to_nat j)) count.

Definition unmap_virtual_page (virt_addr : Z) : M mmu unit :=
  vwrite (entry KERN_PGT (slot virt_addr)) 0 ;;!
  invalidate_page virt_addr.

Definition unmap_body (virt_addr count : Z) (j : Z) : M mmu (control Z unit) :=
  if j <? count then
    unmap_virtual_page (u32 (virt_addr + j * 0x1000)) ;;!
    ret (Continue (j + 1))
  else ret (Break tt).

Definition unmap_virtual_pages (virt_addr count : Z) : M mmu unit :=
  mloop (S (Z.to_nat count)) (unmap_body virt_addr count) 0.

(** *** Translation by the page tables *)

Definition get_phys_addr (va : Z) : M mmu Z :=
  let! virt_pdbr := map_virtual_page (Z.lor pdbr 3) in
  let! pde := vread (entry virt_pdbr (la_pgdir_i va)) in
  let phys_ptbr := Z.land pde 0xFFFFF000 in
  let! virt_ptbr := map_virtual_page (Z.lor phys_ptbr 3) in
  let! pte := vread (entry virt_ptbr (la_pgtbl_i va)) in
  let phys_frame := Z.land pte 0xFFFFF000 in
  let pa := u32 (phys_frame + la_offset va) in
  unmap_virtual_page virt_ptbr ;;!
  unmap_virtual_page virt_pdbr ;;!
  ret pa.

Definition map_pt_body (raw : Z) (tbl : pgtbl_t) (i : Z) : M mmu (control Z Z) :=
  if i <? PGTBL_NUM_ENTRIES then
    let! e := vread (entry (table_va tbl) i) in
    if pt_present e then ret (Continue (i + 1))
    else
      vwrite (entry (table_va tbl) i) raw ;;!
      let va := u32 (starting_va tbl + Z.shiftl i 12) in
      invalidate_page va ;;!
      ret (Break va)
  else ret (Break 0).

Definition map_virtual_page_pt (raw : Z) (tbl : pgtbl_t) : M mmu Z :=
  if table_va tbl =? 0 then ret 0
  else mloop 1025 (map_pt_body raw tbl) 0.

(** One round of either search of [map_pgdir_entry]. *)
Definition pgdir_try (dir : pgdir_t) (raw : Z) (i : Z) : M mmu bool :=
  let! e := vread (entry (dir_va dir) i) in
  if pt_present e then ret false
  else vwrite (entry (dir_va dir) i) raw ;;! ret true.

(** From the top: [i] is unsigned, so [i >= 0] always holds and after entry 0 the
    index wraps around; the model gives the search twice the rounds of the
    directory before it reports that it did not stop. *)
Definition from_top_body (dir : pgdir_t) (raw : Z) (i : Z) : M mmu (control Z (option Z)) :=
  let! hit := pgdir_try dir raw i in
  ret (if hit : bool then Break (Some (u32 (Z.shiftl i 22))) else Continue (u32 (i - 1))).

Definition from_bottom_body (dir : pgdir_t) (raw : Z) (i : Z) : M mmu (control Z (option Z)) :=
  if i <? PGDIR_NUM_ENTRIES then
    let! hit := pgdir_try dir raw i in
    ret (if hit : bool then Break (Some (u32 (Z.shiftl i 22))) else Continue (i + 1))
  else ret (Break None).

(** The result and [*tbl]; [old] is what [*tbl] held before. *)
Definition map_pgdir_entry (dir : pgdir_t) (from_top : bool) (raw : Z) (old : pgtbl_t)
  : M mmu (bool * pgtbl_t) :=
  let pa := FRAMENUM_TO_FRAME (pt_framenum raw) in
  let! r := (if from_top then mloop 2048 (from_top_body dir raw) PGDIR_NUM_ENTRIES
             else mloop 1025 (from_bottom_body dir raw) 0) in
  ret (match r with
       | Some va => (true, mkPgtbl pa 0 va)
       | None => (false, mkPgtbl pa 0 (starting_va old))
       end).

Definition pgdir_get_frame (dir : pgdir_t) (va : Z) : M mmu Z :=
  let! e := vread (entry (dir_va dir) (la_pgdir_i va)) in
  if negb (pt_present e) then ret NO_FRAME
  else if pd_page_size e then ret (BIGFRAMENUM_TO_FRAME (pd_big_framenum e))
  else
    let! table := map_virtual_page (Z.lor (FRAMENUM_TO_FRAME (pt_framenum e)) 3) in
    if table =? 0 then ret NO_FRAME
    else
      let! p := vread (entry table (la_pgtbl_i va)) in
      if negb (pt_present p) then unmap_virtual_page table ;;! ret NO_FRAME
      else
        let frame := FRAMENUM_TO_FRAME (pt_framenum p) in
        unmap_virtual_page table ;;!
        ret frame.

Definition pgdir_get_phys_addr (dir : pgdir_t) (va : Z) : M mmu Z :=
  let! frame := pgdir_get_frame dir (Z.land va (u32 (Z.lnot (PAGE_SIZE - 1)))) in
  if frame =? NO_FRAME then ret NO_FRAME
  else ret (u32 (frame + la_offset va)).

(** *** Cloning address spaces *)

(** [memset (p, 0, 4096)] and [memcpy (dst, src, 4096)], word by word. *)
Definition clear_body (p : Z) (k : Z) : M mmu (control Z unit) :=
  if k <? 1024 then vwrite (entry p k) 0 ;;! ret (Continue (k + 1)) else ret (Break tt).
Definition clear_page (p : Z) : M mmu unit := mloop 1025 (clear_body p) 0.

Definition copy_body (dst src : Z) (k : Z) : M mmu (control Z unit) :=
  if k <? 1024 then
    let! w := vread (entry src k) in
    vwrite (entry dst k) w ;;! ret (Continue (k + 1))
  else ret (Break tt).
Definition copy_page (dst src : Z) : M mmu unit := mloop 1025 (copy_body dst src) 0.

(** [e.flags.raw = f] and [e.framenum = n] on the word [e]. *)
Definition with_flags (e f : Z) : Z := Z.lor (Z.land e 0xFFFFF000) (Z.land f 0xFFF).
Definition with_framenum (e n : Z) : Z := Z.lor (Z.land e 0xFFF) (u32 (Z.shiftl n 12)).

(** One entry of [clone_page_table]; [Break false] is [goto abort_tbl_va]. *)
Definition clone_entry (tbl new_tbl : pgtbl_t) (i : Z) : M mmu (control Z bool) :=
  if i <? PGTBL_NUM_ENTRIES then
    let! e := vread (entry (table_va tbl) i) in
    if pt_present e then
      let! new_frame := on_frames alloc_phys_frame in
      let old_frame := FRAMENUM_TO_FRAME (pt_framenum e) in
      let! old_page_tmp := map_virtual_page (Z.lor old_frame 3) in
      if old_page_tmp =? 0 then ret (Break false)
      else
        let! new_page_tmp := map_virtual_page (Z.lor new_frame 3) in
        if new_page_tmp =? 0 then
          unmap_virtual_page old_page_tmp ;;! ret (Break false)
        else
          copy_page new_page_tmp old_page_tmp ;;!
          let! e := vread (entry (table_va tbl) i) in
          let! n := vread (entry (table_va new_tbl) i) in
          vwrite (entry (table_va new_tbl) i) (with_flags n e) ;;!
          let! n := vread (entry (table_va new_tbl) i) in
          vwrite (entry (table_va new_tbl) i) (with_framenum n (FRAME_TO_FRAMENUM new_frame)) ;;!
          unmap_virtual_page old_page_tmp ;;!
          unmap_virtual_page new_page_tmp ;;!
          ret (Continue (i + 1))
    else ret (Continue (i + 1))
  else ret (Break true).

Definition clone_page_table (tbl : pgtbl_t) : M mmu pgtbl_t :=
  let! pa := on_frames alloc_phys_frame in
  if pa =? NO_FRAME then ret (mkPgtbl NO_FRAME 0 0)
  else
    let! va := map_virtual_page (Z.lor pa 3) in
    if va =? 0 then on_frames (free_phys_frame pa) ;;! ret (mkPgtbl NO_FRAME 0 0)
    else
      let new_tbl := mkPgtbl pa va (starting_va tbl) in
      clear_page va ;;!
      let! done := mloop 1025 (clone_entry tbl new_tbl) 0 in
      if done : bool then ret new_tbl
      else
        unmap_virtual_page va ;;!
        on_frames (free_phys_frame pa) ;;!
        ret (mkPgtbl NO_FRAME 0 (starting_va tbl)).

(** One entry of [clone_page_directory]; [Break false] is [goto abort_pgd_va]. *)
Definition clone_dir_entry (dir new_dir : pgdir_t) (i : Z) : M mmu (control Z bool) :=
  if i <? PGDIR_NUM_ENTRIES then
    let! e := vread (entry (dir_va dir) i) in
    if pt_present e then
      if (PGDIR_KERNEL_BEGIN <=? i) && negb (i =? PGDIR_KERNEL_STACK) then
        vwrite (entry (dir_va new_dir) i) e ;;! ret (Continue (i + 1))
      else if pd_page_size e then fail (Panic "userspace 4 MiB pages not supported")
      else
        let tpa := FRAMENUM_TO_FRAME (pt_framenum e) in
        let! tva := map_virtual_page (Z.lor tpa 3) in
        if tva =? 0 then ret (Break false)
        else
          let! new_tbl := clone_page_table (mkPgtbl tpa tva (u32 (Z.shiftl i 22))) in
          unmap_virtual_page tva ;;!
          if table_pa new_tbl =? NO_FRAME then ret (Break false)
          else
            unmap_virtual_page (table_va new_tbl) ;;!
            let! e := vread (entry (dir_va dir) i) in
            let! n := vread (entry (dir_va new_dir) i) in
            vwrite (entry (dir_va new_dir) i) (with_flags n e) ;;!
            let! n := vread (entry (dir_va new_dir) i) in
            vwrite (entry (dir_va new_dir) i)
              (with_framenum n (FRAME_TO_FRAMENUM (table_pa new_tbl))) ;;!
            ret (Continue (i + 1))
    else ret (Continue (i + 1))
  else ret (Break true).

Definition clone_page_directory (dir : pgdir_t) : M mmu pgdir_t :=
  let! pa := on_frames alloc_phys_frame in
  if pa =? NO_FRAME then ret (mkPgdir NO_FRAME 0)
  else
    let! va := map_virtual_page (Z.lor pa 3) in
    if va =? 0 then on_frames (free_phys_frame pa) ;;! ret (mkPgdir NO_FRAME 0)
    else
      let new_dir := mkPgdir pa va in
      clear_page va ;;!
      let! done := mloop 1025 (clone_dir_entry dir new_dir) 0 in
      if done : bool then ret new_dir
      else
        unmap_virtual_page va ;;!
        on_frames (free_phys_frame pa) ;;!
        ret (mkPgdir NO_FRAME 0).
End virtual.

(** ** Memory lemmas *)

Lemma rd_wr pa v m pa' : rd (wr pa v m) pa' = if pa' =? pa then v else rd m pa'.
Proof.
  unfold rd, wr. destruct (Z.eqb_spec v 0) as [->|Hv], (Z.eqb_spec pa' pa) as [->|Hne].
  - by rewrite lookup_delete_eq.
  - by rewrite lookup_delete_ne.
  - by rewrite lookup_insert_eq.
  - by rewrite lookup_insert_ne.
Qed.

(** No zero word is stored and every word has 32 bits. *)
Definition mem_wf (m : gmap Z Z) : Prop := map_Forall (fun _ w => 0 < w < 2 ^ 32) m.

Lemma rd_range m pa : mem_wf m -> 0 <= rd m pa < 2 ^ 32.
Proof.
  intros Hm. unfold rd. destruct (m !! pa) as [w|] eqn:E; [|cbn; lia].
  cbn [default from_option]. pose proof (Hm pa w E). cbn in *. unfold id. lia.
Qed.

Lemma wr_wf pa v m : mem_wf m -> 0 <= v < 2 ^ 32 -> mem_wf (wr pa v m).
Proof.
  intros Hm Hv. unfold wr. destruct (Z.eqb_spec v 0).
  - by apply map_Forall_delete.
  - apply map_Forall_insert_2; [lia|done].
Qed.

(** Memories with the same words are equal. *)
Lemma mem_ext m m' : mem_wf m -> mem_wf m' -> (forall pa, rd m pa = rd m' pa) -> m = m'.
Proof.
  intros Hm Hm' Heq. apply map_eq. intros pa. specialize (Heq pa). unfold rd in Heq.
  destruct (m !! pa) as [w|] eqn:E, (m' !! pa) as [w'|] eqn:E'; cbn in Heq; unfold id in Heq.
  - congruence.
  - specialize (Hm pa w E). cbn in Hm. lia.
  - specialize (Hm' pa w' E'). cbn in Hm'. lia.
  - done.
Qed.

(** *** Addresses: a page number and an offset *)

Lemma land_ones_mod x n : 0 <= n -> Z.land x (Z.ones n) = x mod 2 ^ n.
Proof. intros. by apply Z.land_ones. Qed.

Lemma la_offset_mod va : la_offset va = va mod 4096.
Proof. apply (land_ones_mod va 12). lia. Qed.

Lemma slot_mod va : slot va = (va / 4096) mod 1024.
Proof.
  unfold slot. rewrite Z.shiftr_div_pow2 by lia. apply (land_ones_mod (va / 2 ^ 12) 10). lia.
Qed.

Lemma la_pgtbl_i_slot va : la_pgtbl_i va = slot va.
Proof. done. Qed.

(** Masking the flags off rounds down to the frame. *)
Lemma frame_mask e : 0 <= e < 2 ^ 32 -> Z.land e 0xFFFFF000 = e - e mod 4096.
Proof.
  intros He. change 0xFFFFF000 with (Z.ldiff (Z.ones 32) (Z.ones 12)).
  assert (Z.land e (Z.ldiff (Z.ones 32) (Z.ones 12)) = Z.ldiff e (Z.ones 12)) as ->.
  { apply Z.bits_inj'. intros n Hn. rewrite Z.land_spec, !Z.ldiff_spec.
    destruct (decide (n < 32)).
    - by rewrite (Z.ones_spec_low 32) by lia.
    - rewrite <- (Z.mod_small e (2 ^ 32)), Z.mod_pow2_bits_high by lia. done. }
  rewrite Z.ldiff_ones_r, Z.shiftr_div_pow2, Z.shiftl_mul_pow2 by lia.
  change (2 ^ 12) with 4096. pose proof (Z.div_mod e 4096 ltac:(lia)). lia.
Qed.

Lemma window_slot i o :
  0 <= i < 1024 -> 0 <= o < 4096 -> slot (kernelstart + 4096 * i + o) = i.
Proof.
  intros Hi Ho. rewrite slot_mod. unfold kernelstart.
  replace (0xFFC00000 + 4096 * i + o) with (o + (1023 * 1024 + i) * 4096) by lia.
  rewrite Z.div_add, Z.div_small, Z.add_0_l by lia.
  rewrite Z.add_comm, Z.mod_add by lia. by apply Z.mod_small.
Qed.

Lemma window_offset i o :
  0 <= o < 4096 -> la_offset (kernelstart + 4096 * i + o) = o.
Proof.
  intros Ho. rewrite la_offset_mod. unfold kernelstart.
  replace (0xFFC00000 + 4096 * i + o) with (o + (1023 * 1024 + i) * 4096) by lia.
  rewrite Z.mod_add by lia. by apply Z.mod_small.
Qed.

(** An entry for an aligned frame with the flags present and writeable. *)
Lemma mapped_entry f :
  f mod 4096 = 0 -> 0 <= f < 2 ^ 32 ->
  0 <= Z.lor f 3 < 2 ^ 32 /\ pt_present (Z.lor f 3) = true /\ Z.land (Z.lor f 3) 0xFFFFF000 = f.
Proof.
  intros Hf Hr. split; [apply lor_range; lia|]. split.
  - unfold pt_present. rewrite Z.lor_spec. apply orb_true_r.
  - rewrite Z.land_lor_distr_l, frame_mask, Hf by done. rewrite Z.sub_0_r. apply Z.lor_0_r.
Qed.

Lemma frame_mask_aligned e : 0 <= e < 2 ^ 32 ->
  Z.land e 0xFFFFF000 mod 4096 = 0 /\ 0 <= Z.land e 0xFFFFF000 < 2 ^ 32.
Proof.
  intros He. rewrite frame_mask by done. pose proof (Z.mod_pos_bound e 4096 ltac:(lia)).
  pose proof (Z.div_mod e 4096 ltac:(lia)). split; [|lia].
  replace (e - e mod 4096) with (e / 4096 * 4096) by lia. apply Z.mod_mul. lia.
Qed.

Lemma framenum_frame e : 0 <= e < 2 ^ 32 ->
  FRAMENUM_TO_FRAME (pt_framenum e) = Z.land e 0xFFFFF000.
Proof.
  intros He. unfold FRAMENUM_TO_FRAME, pt_framenum. rewrite frame_mask by done.
  rewrite Z.shiftr_div_pow2, Z.shiftl_mul_pow2 by lia. change (2 ^ 12) with 4096.
  pose proof (Z.div_mod e 4096 ltac:(lia)). pose proof (Z.mod_pos_bound e 4096 ltac:(lia)).
  rewrite u32_small by lia. lia.
Qed.

(** ** The window *)

Section window.
Context (kpt : Z).

(** Entry [i] of the kernel page table, and the state with entry [i] replaced. *)
Definition pte (s : mmu) (i : Z) : Z := rd (pmem s) (kpt + 4 * i).
Definition upd_pte (i e : Z) (s : mmu) : mmu := set_pmem (wr (kpt + 4 * i) e (pmem s)) s.

(** The kernel page table maps itself and its slot can be used. *)
Record vm_ok (s : mmu) : Prop := {
  vo_words : mem_wf (pmem s);
  vo_present : pt_present (pte s KERN_PGT_SLOT) = true;
  vo_self : Z.land (pte s KERN_PGT_SLOT) 0xFFFFF000 = kpt;
  vo_fresh : KERN_PGT_SLOT ∉ stale s
}.

(** Between operations, moreover, no slot is stale. *)
Record vm_wf (s : mmu) : Prop := {
  vw_ok : vm_ok s;
  vw_stale : stale s = ∅
}.

Lemma vm_kpt s : vm_ok s -> kpt mod 4096 = 0 /\ 0 <= kpt < 2 ^ 32.
Proof.
  intros Hok. rewrite <- (vo_self s Hok) at 1 2 3. apply frame_mask_aligned.
  apply rd_range, Hok.
Qed.

Lemma pte_range s i : vm_ok s -> 0 <= pte s i < 2 ^ 32.
Proof. intros Hok. apply rd_range, Hok. Qed.

Lemma pte_self s : vm_ok s -> pte s KERN_PGT_SLOT <> 0.
Proof. intros Hok E. pose proof (vo_present s Hok) as H. by rewrite E in H. Qed.

Lemma pte_upd s i e k : pte (upd_pte i e s) k = if k =? i then e else pte s k.
Proof.
  unfold pte, upd_pte. cbn [pmem set_pmem]. rewrite rd_wr.
  destruct (Z.eqb_spec (kpt + 4 * k) (kpt + 4 * i)), (Z.eqb_spec k i); try done; lia.
Qed.

Lemma upd_ok s i e :
  vm_ok s -> i <> KERN_PGT_SLOT -> 0 <= e < 2 ^ 32 -> vm_ok (upd_pte i e s).
Proof.
  intros Hok Hi He. split.
  - apply wr_wf; [apply Hok|done].
  - rewrite pte_upd. destruct (Z.eqb_spec KERN_PGT_SLOT i); [congruence|apply Hok].
  - rewrite pte_upd. destruct (Z.eqb_spec KERN_PGT_SLOT i); [congruence|apply Hok].
  - apply Hok.
Qed.

Lemma upd_wf s i e :
  vm_wf s -> i <> KERN_PGT_SLOT -> 0 <= e < 2 ^ 32 -> vm_wf (upd_pte i e s).
Proof. intros Hwf Hi He. split; [by apply upd_ok; [apply Hwf| |]|apply Hwf]. Qed.

(** Mapping a free slot and unmapping it restores the memory. *)
Lemma upd_back s i e :
  vm_ok s -> 0 <= e < 2 ^ 32 -> pte s i = 0 -> upd_pte i 0 (upd_pte i e s) = s.
Proof.
  intros Hok He Hi. destruct s as [m st f]. unfold upd_pte, set_pmem. cbn [pmem stale frames].
  f_equal. apply mem_ext.
  - apply wr_wf; [|lia]. apply wr_wf; [apply Hok|done].
  - apply Hok.
  - intros pa. rewrite !rd_wr. destruct (Z.eqb_spec pa (kpt + 4 * i)) as [->|]; done.
Qed.

(** *** Accesses *)

Lemma translate_window s i o e :
  0 <= i < 1024 -> 0 <= o < 4096 -> pte s i = e -> pt_present e = true -> i ∉ stale s ->
  translate kpt (kernelstart + 4096 * i + o) s = Ok (Z.land e 0xFFFFF000 + o, s).
Proof.
  intros Hi Ho He Hp Hst. unfold translate.
  rewrite (proj2 (Z.leb_le _ _)) by (unfold kernelstart; lia).
  rewrite window_slot, window_offset by done.
  unfold bind, pread, gets. fold (pte s i). rewrite He, bool_decide_false by done. by rewrite Hp.
Qed.

Lemma pt_address i : 0 <= i < 1024 ->
  entry KERN_PGT i = kernelstart + 4096 * KERN_PGT_SLOT + 4 * i.
Proof.
  intros Hi. unfold entry, KERN_PGT, kernelstart, KERN_PGT_SLOT. rewrite u32_small; lia.
Qed.

Lemma vread_pt s i : vm_ok s -> 0 <= i < 1024 ->
  vread kpt (entry KERN_PGT i) s = Ok (pte s i, s).
Proof.
  intros Hok Hi. unfold vread, bind. rewrite pt_address by done.
  rewrite (translate_window s KERN_PGT_SLOT (4 * i) (pte s KERN_PGT_SLOT));
    [|unfold KERN_PGT_SLOT; lia|lia|done|apply Hok|apply Hok].
  by rewrite (vo_self s Hok).
Qed.

Lemma pwrite_pt s i e : 0 <= i < 1024 ->
  pwrite kpt (kpt + 4 * i) e s = Ok (tt, set_stale ({[ i ]} ∪ stale s) (upd_pte i e s)).
Proof.
  intros Hi. unfold pwrite, modify, PAGE_SIZE.
  rewrite (proj2 (Z.leb_le _ _)), (proj2 (Z.ltb_lt _ _)) by lia. cbn [andb].
  replace (kpt + 4 * i - kpt) with (4 * i) by lia.
  assert (Z.shiftr (4 * i) 2 = i) as ->; [|done].
  rewrite Z.shiftr_div_pow2, (Z.mul_comm 4) by lia. by apply Z.div_mul.
Qed.

Lemma vwrite_pt s i e : vm_ok s -> 0 <= i < 1024 ->
  vwrite kpt (entry KERN_PGT i) e s = Ok (tt, set_stale ({[ i ]} ∪ stale s) (upd_pte i e s)).
Proof.
  intros Hok Hi. unfold vwrite, bind. rewrite pt_address by done.
  rewrite (translate_window s KERN_PGT_SLOT (4 * i) (pte s KERN_PGT_SLOT));
    [|unfold KERN_PGT_SLOT; lia|lia|done|apply Hok|apply Hok].
  rewrite (vo_self s Hok). by apply pwrite_pt.
Qed.

Lemma invalidate_window s i o : 0 <= i < 1024 -> 0 <= o < 4096 ->
  invalidate_page (kernelstart + 4096 * i + o) s = Ok (tt, set_stale (stale s ∖ {[ i ]}) s).
Proof.
  intros Hi Ho. unfold invalidate_page.
  rewrite (proj2 (Z.leb_le _ _)) by (unfold kernelstart; lia). by rewrite window_slot.
Qed.

Lemma invalidate_slot s i : 0 <= i < 1024 ->
  invalidate_page (kernelstart + 4096 * i) s = Ok (tt, set_stale (stale s ∖ {[ i ]}) s).
Proof. intros Hi. rewrite <- (invalidate_window s i 0) by lia. by rewrite Z.add_0_r. Qed.

Lemma restale s i e : i ∉ stale s ->
  set_stale (({[ i ]} ∪ stale s) ∖ {[ i ]}) (upd_pte i e s) = upd_pte i e s.
Proof.
  intros Hi. unfold upd_pte, set_stale, set_pmem. cbn [pmem stale frames]. f_equal. set_solver.
Qed.

Lemma window_va i : 0 <= i < 1024 ->
  u32 (kernelstart + Z.shiftl i 12) = kernelstart + 4096 * i.
Proof.
  intros Hi. rewrite Z.shiftl_mul_pow2 by lia. unfold kernelstart. rewrite u32_small; lia.
Qed.

(** *** Mapping and unmapping one page *)

(** What mapping a page returns: the lowest free slot, now holding the entry, or
    null when all slots are taken. *)
Definition page_mapped (s : mmu) (e va : Z) (s' : mmu) : Prop :=
  (exists i, 0 <= i < 1024 /\ pte s i = 0 /\ (forall k, 0 <= k < i -> pte s k <> 0) /\
             va = kernelstart + 4096 * i /\ s' = upd_pte i e s) \/
  (va = 0 /\ s' = s /\ forall k, 0 <= k < 1024 -> pte s k <> 0).

Lemma map_virtual_page_wp s e :
  vm_wf s -> wp (map_virtual_page kpt e) (page_mapped s e) s.
Proof.
  intros Hwf. pose proof (vw_ok s Hwf) as Hok. pose proof (vw_stale s Hwf) as Hst.
  apply (wp_mloop _
    (fun i s' => s' = s /\ 0 <= i <= 1024 /\ forall k, 0 <= k < i -> pte s k <> 0) _
    (fun i _ => Z.to_nat (1024 - i))).
  - intros i s' (-> & Hi & Hused). unfold map_page_body. zcase.
    + apply wp_bind. unfold wp at 1. rewrite vread_pt by (done || lia).
      destruct (Z.eqb_spec (pte s i) 0) as [E|E].
      * apply wp_bind. unfold wp at 1. rewrite vwrite_pt by (done || lia).
        apply wp_bind. unfold wp at 1. rewrite window_va by lia.
        rewrite invalidate_slot by lia. apply wp_ret. left. exists i.
        split; [lia|]. split; [done|]. split; [done|]. split; [done|].
        apply restale. rewrite Hst. set_solver.
      * apply wp_ret. split; [|lia]. split; [done|]. split; [lia|].
        intros k Hk. destruct (decide (k = i)) as [->|]; [done|]. apply Hused. lia.
    + apply wp_ret. right. split; [done|]. split; [done|]. intros k Hk. apply Hused. lia.
  - split; [done|]. split; [lia|]. intros k Hk. lia.
  - lia.
Qed.

Lemma unmap_ok s i o :
  vm_wf s -> 0 <= i < 1024 -> 0 <= o < 4096 ->
  unmap_virtual_page kpt (kernelstart + 4096 * i + o) s = Ok (tt, upd_pte i 0 s).
Proof.
  intros Hwf Hi Ho. unfold unmap_virtual_page, bind. rewrite window_slot by done.
  rewrite vwrite_pt by (done || apply Hwf). rewrite invalidate_window by done.
  f_equal. f_equal. apply restale. rewrite (vw_stale s Hwf). set_solver.
Qed.
End window.
