(* ===== verification/VirtualThm.v ===== *)
(** * Virtual memory: theorems

    The reference definition is [walk], the two-level translation that the
    processor performs on a page directory in physical memory.  The temporary
    mappings that the code makes to read a directory or a table leave the memory as
    it was, and what the code reads through them is what [walk] reads. *)

From Stdlib Require Import ZArith Lia.
From S2P Require Import Prelude Physical Virtual.
From stdpp Require Import base gmap sets fin_sets numbers strings list.
Local Open Scope Z_scope.

(** ** The reference translation *)

Inductive walked : Type :=
| NotPresent
| SmallPage (frame : Z)
| BigPage (frame : Z).

Definition walk (m : gmap Z Z) (dir va : Z) : walked :=
  let pde := rd m (dir + 4 * (va / 2 ^ 22)) in
  if negb (pt_present pde) then NotPresent
  else if pd_page_size pde then BigPage (pde / 2 ^ 22 * 2 ^ 22)
  else
    let pte := rd m (pde / 4096 * 4096 + 4 * ((va / 4096) mod 1024)) in
    if negb (pt_present pte) then NotPresent else SmallPage (pte / 4096 * 4096).

(** The physical address of [va]. *)
Definition resolve (m : gmap Z Z) (dir va : Z) : option Z :=
  match walk m dir va with
  | NotPresent => None
  | SmallPage f => Some (f + va mod 4096)
  | BigPage f => Some (f + va mod 2 ^ 22)
  end.

Lemma frame_mask_div e : 0 <= e < 2 ^ 32 -> Z.land e 0xFFFFF000 = e / 4096 * 4096.
Proof.
  intros He. rewrite frame_mask by done. pose proof (Z.div_mod e 4096 ltac:(lia)). lia.
Qed.

Lemma la_pgdir_i_div va : la_pgdir_i va = va / 2 ^ 22.
Proof. unfold la_pgdir_i. by rewrite Z.shiftr_div_pow2 by lia. Qed.

Lemma pgdir_i_range va : 0 <= va < 2 ^ 32 -> 0 <= va / 2 ^ 22 < 1024.
Proof. intros Hva. split; [apply Z.div_pos; lia|apply Z.div_lt_upper_bound; lia]. Qed.

Lemma big_frame e : 0 <= e < 2 ^ 32 -> BIGFRAMENUM_TO_FRAME (pd_big_framenum e) = e / 2 ^ 22 * 2 ^ 22.
Proof.
  intros He. unfold BIGFRAMENUM_TO_FRAME, pd_big_framenum.
  rewrite Z.shiftr_div_pow2, Z.shiftl_mul_pow2 by lia.
  pose proof (Z.div_mod e (2 ^ 22) ltac:(lia)). pose proof (Z.mod_pos_bound e (2 ^ 22) ltac:(lia)).
  apply u32_small. lia.
Qed.

Section walk.
Context (kpt : Z).
Notation pte := (pte kpt).
Notation upd_pte := (upd_pte kpt).
Notation vm_wf := (vm_wf kpt).

(** A word of the page that slot [i] maps. *)
Lemma vread_slot s i k f :
  vm_ok kpt s -> i ∉ stale s -> 0 <= i < 1024 -> 0 <= k < 1024 ->
  pt_present (pte s i) = true -> Z.land (pte s i) 0xFFFFF000 = f ->
  vread kpt (entry (kernelstart + 4096 * i) k) s = Ok (rd (pmem s) (f + 4 * k), s).
Proof.
  intros Hok Hst Hi Hk Hp Hf. unfold vread, bind, entry.
  rewrite u32_small by (unfold kernelstart; lia).
  rewrite (translate_window kpt s i (4 * k) (pte s i)) by (done || lia). by rewrite Hf.
Qed.

(** Through the mapping of an aligned frame at a free slot [i] the code reads the
    frame, except the word that the mapping itself has changed. *)
Lemma vread_mapped s i k f :
  vm_wf s -> 0 <= i < 1024 -> 0 <= k < 1024 -> pte s i = 0 ->
  f mod 4096 = 0 -> 0 <= f < 2 ^ 32 -> f + 4 * k <> kpt + 4 * i ->
  vread kpt (entry (kernelstart + 4096 * i) k) (upd_pte i (Z.lor f 3) s) =
  Ok (rd (pmem s) (f + 4 * k), upd_pte i (Z.lor f 3) s).
Proof.
  intros Hwf Hi Hk Hfree Hal Hf Hne. destruct (mapped_entry f Hal Hf) as (Hr & Hp & Hm).
  assert (i <> KERN_PGT_SLOT) by (intros ->; by apply (pte_self kpt s (vw_ok _ _ Hwf))).
  rewrite (vread_slot _ i k f); try done.
  - cbn [pmem set_pmem Virtual.upd_pte]. rewrite rd_wr.
    by rewrite (proj2 (Z.eqb_neq _ _)) by done.
  - apply upd_ok; [apply Hwf|done|done].
  - cbn [stale set_pmem Virtual.upd_pte]. rewrite (vw_stale _ _ Hwf). set_solver.
  - by rewrite pte_upd, Z.eqb_refl.
  - by rewrite pte_upd, Z.eqb_refl.
Qed.

(** At least one free slot. *)
Definition has_slot (s : mmu) : Prop := exists i, 0 <= i < 1024 /\ pte s i = 0.

Lemma map_page_free s e :
  vm_wf s -> has_slot s ->
  exists i, 0 <= i < 1024 /\ pte s i = 0 /\ i <> KERN_PGT_SLOT /\
    map_virtual_page kpt e s = Ok (kernelstart + 4096 * i, upd_pte i e s).
Proof.
  intros Hwf (j & Hj & Hpj).
  destruct (proj1 (wp_Ok _ _ _) (map_virtual_page_wp kpt s e Hwf))
    as (va & s' & Heq & [(i & Hi & Hp & _ & -> & ->)|(_ & _ & Hno)]).
  - exists i. repeat split; try done; try lia.
    intros ->. by apply (pte_self kpt s (vw_ok _ _ Hwf)).
  - by destruct (Hno j Hj).
Qed.

Lemma unmap_slot s i :
  vm_wf s -> 0 <= i < 1024 ->
  unmap_virtual_page kpt (kernelstart + 4096 * i) s = Ok (tt, upd_pte i 0 s).
Proof. intros Hwf Hi. rewrite <- (unmap_ok kpt s i 0) by (done || lia). by rewrite Z.add_0_r. Qed.

(** *** [pgdir_get_frame] *)

(** [dir] is mapped in the window: its virtual address translates to its physical
    address. *)
Definition dir_mapped (s : mmu) (dir : pgdir_t) : Prop :=
  exists d, 0 <= d < 1024 /\ dir_va dir = kernelstart + 4096 * d /\
    pt_present (pte s d) = true /\ Z.land (pte s d) 0xFFFFF000 = dir_pa dir.

(** The word of the second level does not lie in a free slot of the kernel page
    table itself. *)
Definition not_a_free_slot (s : mmu) (pa : Z) : Prop :=
  forall i, 0 <= i < 1024 -> pte s i = 0 -> pa <> kpt + 4 * i.

Definition frame_of (w : walked) : Z :=
  match w with NotPresent => NO_FRAME | SmallPage f => f | BigPage f => f end.

Lemma pgdir_get_frame_ok s dir va :
  vm_wf s -> has_slot s -> dir_mapped s dir -> 0 <= va < 2 ^ 32 ->
  not_a_free_slot s (rd (pmem s) (dir_pa dir + 4 * (va / 2 ^ 22)) / 4096 * 4096
                     + 4 * ((va / 4096) mod 1024)) ->
  pgdir_get_frame kpt dir va s = Ok (frame_of (walk (pmem s) (dir_pa dir) va), s).
Proof.
  intros Hwf Hslot (d & Hd & Hva & Hdp & Hdf) Hr Hnf. pose proof (vw_ok _ _ Hwf) as Hok.
  pose proof (pgdir_i_range va Hr) as Hdi. pose proof (Z.mod_pos_bound (va / 4096) 1024 ltac:(lia)) as Hti.
  unfold pgdir_get_frame, walk. rewrite Hva, la_pgdir_i_div.
  rewrite (bind_Ok_eq _ _ _ _ _ (vread_slot s d _ (dir_pa dir) Hok ltac:(rewrite (vw_stale _ _ Hwf); set_solver) Hd Hdi Hdp Hdf)).
  set (pde := rd (pmem s) (dir_pa dir + 4 * (va / 2 ^ 22))) in *.
  pose proof (rd_range (pmem s) (dir_pa dir + 4 * (va / 2 ^ 22)) (vo_words _ _ Hok)) as Hpde. fold pde in Hpde.
  destruct (pt_present pde); cbn [negb]; [|done].
  rewrite big_frame by done. destruct (pd_page_size pde); [done|].
  rewrite framenum_frame by done.
  destruct (frame_mask_aligned pde Hpde) as [Hal Hfr].
  destruct (map_page_free s (Z.lor (Z.land pde 0xFFFFF000) 3) Hwf Hslot) as (i & Hi & Hp & Hne & Hmap).
  rewrite (bind_Ok_eq _ _ _ _ _ Hmap).
  rewrite (proj2 (Z.eqb_neq _ _)) by (unfold kernelstart; lia).
  rewrite la_pgtbl_i_slot, slot_mod.
  destruct (mapped_entry _ Hal Hfr) as (He & _ & _).
  rewrite (bind_Ok_eq _ _ _ _ _ (vread_mapped s i _ _ Hwf Hi Hti Hp Hal Hfr
    ltac:(rewrite frame_mask_div by done; by apply Hnf))).
  rewrite frame_mask_div by done.
  set (p := rd (pmem s) (pde / 4096 * 4096 + 4 * ((va / 4096) mod 1024))).
  pose proof (rd_range (pmem s) (pde / 4096 * 4096 + 4 * ((va / 4096) mod 1024)) (vo_words _ _ Hok)) as Hpr.
  fold p in Hpr.
  rewrite <- frame_mask_div by done.
  assert (unmap_virtual_page kpt (kernelstart + 4096 * i) (upd_pte i (Z.lor (Z.land pde 0xFFFFF000) 3) s) = Ok (tt, s)) as Hun.
  { rewrite unmap_slot by (done || by apply upd_wf). by rewrite upd_back. }
  destruct (pt_present p); cbn [negb]; rewrite (bind_Ok_eq _ _ _ _ _ Hun); [|done].
  by rewrite framenum_frame, frame_mask_div by done.
Qed.

(** *** [get_phys_addr] *)

(** Two free slots. *)
Definition has_two_slots (s : mmu) : Prop :=
  exists i j, 0 <= i < 1024 /\ 0 <= j < 1024 /\ i <> j /\ pte s i = 0 /\ pte s j = 0.

Lemma two_slots_left s i e :
  has_two_slots s -> 0 <= i < 1024 -> has_slot s /\ has_slot (upd_pte i e s).
Proof.
  intros (a & b & Ha & Hb & Hab & Hpa & Hpb) Hi. split; [by exists a|].
  destruct (decide (a = i)) as [->|Hne].
  - exists b. split; [done|]. rewrite pte_upd. by rewrite (proj2 (Z.eqb_neq _ _)) by lia.
  - exists a. split; [done|]. rewrite pte_upd. by rewrite (proj2 (Z.eqb_neq _ _)) by lia.
Qed.

(** A word that is not zero is not the free slot that was mapped. *)
Lemma nonzero_word s i pa : pte s i = 0 -> rd (pmem s) pa <> 0 -> pa <> kpt + 4 * i.
Proof. intros Hi Hpa ->. by apply Hpa. Qed.

Lemma present_nonzero e : pt_present e = true -> e <> 0.
Proof. by intros H ->. Qed.

Lemma rd_upd s i e pa : pa <> kpt + 4 * i -> rd (pmem (upd_pte i e s)) pa = rd (pmem s) pa.
Proof.
  intros Hne. cbn [pmem set_pmem Virtual.upd_pte]. by rewrite rd_wr, (proj2 (Z.eqb_neq _ _)).
Qed.

Lemma get_phys_addr_ok s pdbr va f :
  vm_wf s -> has_two_slots s -> pdbr mod 4096 = 0 -> 0 <= pdbr < 2 ^ 32 -> 0 <= va < 2 ^ 32 ->
  walk (pmem s) pdbr va = SmallPage f ->
  get_phys_addr kpt pdbr va s = Ok (u32 (f + va mod 4096), s).
Proof.
  intros Hwf Hslots Hal Hpd Hva. pose proof (vw_ok _ _ Hwf) as Hok.
  pose proof (pgdir_i_range va Hva) as Hdi.
  pose proof (Z.mod_pos_bound (va / 4096) 1024 ltac:(lia)) as Hti.
  unfold walk. set (pde := rd (pmem s) (pdbr + 4 * (va / 2 ^ 22))).
  assert (0 <= pde < 2 ^ 32) as Hpde by apply (rd_range _ _ (vo_words _ _ Hok)).
  destruct (pt_present pde) eqn:Hp1; cbn [negb]; [|done].
  destruct (pd_page_size pde); [done|].
  set (w := rd (pmem s) (pde / 4096 * 4096 + 4 * ((va / 4096) mod 1024))).
  assert (0 <= w < 2 ^ 32) as Hw by apply (rd_range _ _ (vo_words _ _ Hok)).
  destruct (pt_present w) eqn:Hp2; cbn [negb]; [|done]. intros [= <-].
  apply present_nonzero in Hp1, Hp2.
  destruct (frame_mask_aligned pde Hpde) as [Hal2 Hfr2].
  destruct (mapped_entry _ Hal Hpd) as (He1 & _ & _).
  destruct (mapped_entry _ Hal2 Hfr2) as (He2 & _ & _).
  destruct (map_page_free s (Z.lor pdbr 3) Hwf) as (i & Hi & Hpi & Hnei & Hmap1);
    [by apply (two_slots_left s 0 0); [|lia]|].
  assert (vm_wf (upd_pte i (Z.lor pdbr 3) s)) as Hwf1 by (by apply upd_wf).
  destruct (map_page_free (upd_pte i (Z.lor pdbr 3) s) (Z.lor (Z.land pde 0xFFFFF000) 3) Hwf1)
    as (j & Hj & Hpj & Hnej & Hmap2); [by apply two_slots_left|].
  assert (j <> i) as Hij by (intros ->; rewrite pte_upd, Z.eqb_refl in Hpj; destruct (mapped_entry _ Hal Hpd) as (_ & Hpr & _); by apply present_nonzero in Hpr).
  assert (pte s j = 0) as Hpj' by (rewrite pte_upd in Hpj; by rewrite (proj2 (Z.eqb_neq _ _)) in Hpj).
  unfold get_phys_addr. rewrite (bind_Ok_eq _ _ _ _ _ Hmap1), la_pgdir_i_div.
  rewrite (bind_Ok_eq _ _ _ _ _ (vread_mapped s i _ _ Hwf Hi Hdi Hpi Hal Hpd (nonzero_word s i _ Hpi Hp1))).
  fold pde. rewrite (bind_Ok_eq _ _ _ _ _ Hmap2), la_pgtbl_i_slot, slot_mod.
  rewrite (bind_Ok_eq _ _ _ _ _ (vread_mapped (upd_pte i (Z.lor pdbr 3) s) j _ _ Hwf1 Hj Hti Hpj Hal2 Hfr2
    ltac:(rewrite frame_mask_div by done; apply (nonzero_word s j _ Hpj' Hp2)))).
  assert (rd (pmem (upd_pte i (Z.lor pdbr 3) s))
            (Z.land pde 0xFFFFF000 + 4 * ((va / 4096) mod 1024)) = w) as ->
    by (rewrite frame_mask_div, rd_upd by (done || by apply (nonzero_word s i _ Hpi Hp2)); done).
  rewrite (bind_Ok_eq _ _ _ _ _ (unmap_slot _ j (upd_wf _ _ _ _ Hwf1 Hnej He2) Hj)).
  rewrite upd_back by (done || apply Hwf1).
  rewrite (bind_Ok_eq _ _ _ _ _ (unmap_slot _ i Hwf1 Hi)), upd_back by done.
  by rewrite frame_mask_div, la_offset_mod.
Qed.

(** An entry of a table that could not be mapped. *)
Lemma vread_null s k : 0 <= k < 1024 -> vread kpt (entry 0 k) s = Err NullDeref.
Proof.
  intros Hk. unfold entry. rewrite u32_small by lia. unfold vread, translate, bind at 1.
  rewrite (proj2 (Z.leb_gt _ _)) by (unfold kernelstart; lia). done.
Qed.

(** Nor does it look whether the page table could be mapped. *)
Lemma get_phys_addr_one_slot s pdbr va f :
  vm_wf s -> has_slot s -> ~ has_two_slots s -> pdbr mod 4096 = 0 -> 0 <= pdbr < 2 ^ 32 -> 0 <= va < 2 ^ 32 ->
  walk (pmem s) pdbr va = SmallPage f -> get_phys_addr kpt pdbr va s = Err NullDeref.
Proof.
  intros Hwf Hslot Hno Hal Hpd Hva Hw. pose proof (vw_ok _ _ Hwf) as Hok. pose proof (pgdir_i_range va Hva) as Hdi.
  pose proof (Z.mod_pos_bound (va / 4096) 1024 ltac:(lia)) as Hti.
  destruct (map_page_free s (Z.lor pdbr 3) Hwf Hslot) as (i & Hi & Hpi & Hnei & Hmap1).
  destruct (mapped_entry _ Hal Hpd) as (He1 & Hpr & _).
  assert (vm_wf (upd_pte i (Z.lor pdbr 3) s)) as Hwf1 by (by apply upd_wf).
  assert (rd (pmem s) (pdbr + 4 * (va / 2 ^ 22)) <> 0) as Hp1.
  { unfold walk in Hw. destruct (pt_present _) eqn:Hp1 in Hw; [|done]. by apply present_nonzero in Hp1. }
  unfold get_phys_addr. rewrite (bind_Ok_eq _ _ _ _ _ Hmap1), la_pgdir_i_div.
  rewrite (bind_Ok_eq _ _ _ _ _ (vread_mapped s i _ _ Hwf Hi Hdi Hpi Hal Hpd (nonzero_word s i _ Hpi Hp1))).
  match goal with |- bind (map_virtual_page _ ?e) _ ?s1 = _ =>
    destruct (proj1 (wp_Ok _ _ _) (map_virtual_page_wp kpt s1 e Hwf1)) as (v & s' & Heq & [(j & Hj & Hpj & _)|(-> & -> & _)]) end.
  - destruct Hno. exists i, j. rewrite pte_upd in Hpj. destruct (Z.eqb_spec j i) as [->|Hne]; [by apply present_nonzero in Hpr|].
    split_and!; try done; lia.
  - rewrite (bind_Ok_eq _ _ _ _ _ Heq), la_pgtbl_i_slot, slot_mod. unfold bind at 1. by rewrite vread_null.
Qed.

Lemma classic_slot s : has_slot s \/ ~ has_slot s.
Proof.
  destruct (decide (Exists (fun i => pte s i = 0) (seqZ 0 1024))) as [He|Hn].
  - left. apply Exists_exists in He as (i & Hi%elem_of_seqZ & Hp). exists i. split; [lia|done].
  - right. intros (i & Hi & Hp). apply Hn, Exists_exists. exists i. split; [apply elem_of_seqZ; lia|done].
Qed.

(** Without a free slot the code dereferences the null pointer that
    [map_virtual_page] returns. *)
Lemma get_phys_addr_full s pdbr va :
  vm_wf s -> ~ has_slot s -> 0 <= va < 2 ^ 32 -> get_phys_addr kpt pdbr va s = Err NullDeref.
Proof.
  intros Hwf Hno Hva. unfold get_phys_addr.
  destruct (proj1 (wp_Ok _ _ _) (map_virtual_page_wp kpt s (Z.lor pdbr 3) Hwf))
    as (v & s' & Heq & [(i & Hi & Hp & _)|(-> & -> & _)]); [destruct Hno; by exists i|].
  rewrite (bind_Ok_eq _ _ _ _ _ Heq). pose proof (pgdir_i_range va Hva).
  unfold entry. rewrite la_pgdir_i_div, u32_small by lia.
  unfold vread, translate, bind at 1 2.
  rewrite (proj2 (Z.leb_gt _ _)) by (unfold kernelstart; lia). done.
Qed.

(** *** [pgdir_get_phys_addr] *)

Lemma page_of va : 0 <= va < 2 ^ 32 ->
  Z.land va (u32 (Z.lnot (PAGE_SIZE - 1))) = va / 4096 * 4096.
Proof. intros Hva. change (u32 (Z.lnot (PAGE_SIZE - 1))) with 0xFFFFF000. by apply frame_mask_div. Qed.

Lemma walk_page m dir va : walk m dir (va / 4096 * 4096) = walk m dir va.
Proof.
  unfold walk. rewrite Z.div_mul by lia.
  replace (va / 4096 * 4096 / 2 ^ 22) with (va / 2 ^ 22); [done|].
  change (2 ^ 22) with (4096 * 1024). rewrite <- !Z.div_div, Z.div_mul by lia. done.
Qed.

Lemma aligned_not_none f n : f = n * 4096 -> f =? NO_FRAME = false.
Proof. intros ->. apply Z.eqb_neq. change NO_FRAME with 4294967295. lia. Qed.

Lemma walk_frame_range m dir va :
  mem_wf m ->
  match walk m dir va with
  | NotPresent => True
  | SmallPage f => exists n, f = n * 4096 /\ 0 <= f /\ f + 4096 <= 2 ^ 32
  | BigPage f => exists n, f = n * 4096 /\ 0 <= f /\ f + 2 ^ 22 <= 2 ^ 32
  end.
Proof.
  intros Hm. unfold walk. set (pde := rd m (dir + _)).
  pose proof (rd_range m (dir + 4 * (va / 2 ^ 22)) Hm) as Hpde. fold pde in Hpde.
  destruct (negb (pt_present pde)); [done|]. destruct (pd_page_size pde).
  - pose proof (pgdir_i_range pde Hpde). exists (pde / 2 ^ 22 * 1024). lia.
  - set (w := rd m (pde / 4096 * 4096 + _)).
    pose proof (rd_range m (pde / 4096 * 4096 + 4 * ((va / 4096) mod 1024)) Hm) as Hw. fold w in Hw.
    destruct (negb (pt_present w)); [done|]. exists (w / 4096).
    assert (0 <= w / 4096 < 2 ^ 20) by (split; [apply Z.div_pos|apply Z.div_lt_upper_bound]; lia).
    lia.
Qed.

Lemma pgdir_get_phys_addr_ok s dir va :
  vm_wf s -> has_slot s -> dir_mapped s dir -> 0 <= va < 2 ^ 32 ->
  not_a_free_slot s (rd (pmem s) (dir_pa dir + 4 * (va / 2 ^ 22)) / 4096 * 4096
                     + 4 * ((va / 4096) mod 1024)) ->
  pgdir_get_phys_addr kpt dir va s =
  Ok (match walk (pmem s) (dir_pa dir) va with
      | NotPresent => NO_FRAME
      | SmallPage f | BigPage f => f + va mod 4096
      end, s).
Proof.
  intros Hwf Hslot Hdir Hva Hnf. pose proof (Z.mod_pos_bound va 4096 ltac:(lia)) as Hoff.
  assert (va / 4096 * 4096 / 2 ^ 22 = va / 2 ^ 22) as Hdd
    by (change (2 ^ 22) with (4096 * 1024); by rewrite <- !Z.div_div, Z.div_mul by lia).
  assert (0 <= va / 4096 * 4096 < 2 ^ 32) as Hr
    by (pose proof (Z.div_mod va 4096 ltac:(lia)); lia).
  unfold pgdir_get_phys_addr. rewrite page_of by done.
  rewrite (bind_Ok_eq _ _ _ _ _ (pgdir_get_frame_ok s dir (va / 4096 * 4096) Hwf Hslot Hdir Hr
    ltac:(rewrite Hdd, Z.div_mul by lia; done))), walk_page, la_offset_mod.
  pose proof (walk_frame_range (pmem s) (dir_pa dir) va (vo_words _ _ (vw_ok _ _ Hwf))) as Hf.
  destruct (walk (pmem s) (dir_pa dir) va) as [|f|f]; cbn [frame_of].
  - done.
  - destruct Hf as (n & Hn & H0 & Hle). rewrite (aligned_not_none f n) by done.
    by rewrite u32_small by lia.
  - destruct Hf as (n & Hn & H0 & Hle). rewrite (aligned_not_none f n) by done.
    by rewrite u32_small by lia.
Qed.
End walk.

(** ** Windows of pages *)

Section windows.
Context (kpt : Z).
Notation pte := (pte kpt).
Notation upd_pte := (upd_pte kpt).
Notation vm_wf := (vm_wf kpt).
Notation vm_ok := (vm_ok kpt).

(** [s'] is [s] with the slots from [i] to [i + n - 1] holding [e 0], [e 1], ... *)
Record filled (e : Z -> Z) (i n : Z) (s s' : mmu) : Prop := {
  fi_slots : forall j, 0 <= j < n -> pte s' (i + j) = e j;
  fi_rest : forall pa, (forall j, 0 <= j < n -> pa <> kpt + 4 * (i + j)) ->
            rd (pmem s') pa = rd (pmem s) pa;
  fi_frames : frames s' = frames s
}.

(** [count] free slots from [i]. *)
Definition free_window (s : mmu) (i count : Z) : Prop :=
  0 <= i /\ i + count <= 1024 /\ forall k, i <= k < i + count -> pte s k = 0.

Lemma filled_none e i s : filled e i 0 s s.
Proof. by split; [intros; lia|..]. Qed.

Lemma filled_upd e i n s s' :
  0 <= n -> filled e i n s s' -> filled e i (n + 1) s (upd_pte (i + n) (e n) s').
Proof.
  intros Hn [Hs Hr Hf]. split.
  - intros j Hj. rewrite pte_upd.
    destruct (Z.eqb_spec (i + j) (i + n)); [by replace j with n by lia|]. apply Hs. lia.
  - intros pa Hpa. cbn [pmem set_pmem Virtual.upd_pte]. rewrite rd_wr.
    rewrite (proj2 (Z.eqb_neq _ _)) by (apply Hpa; lia). apply Hr. intros j Hj. apply Hpa. lia.
  - done.
Qed.

Lemma filled_stale e i n s s' st : filled e i n s s' -> filled e i n s (set_stale st s').
Proof. by intros [??]; split. Qed.

Lemma free_loop s i count :
  vm_ok s -> 0 <= i -> 0 <= count -> i + count <= 1024 ->
  wp (mloop 1026 (free_body kpt i count) 0)
     (fun r s' => s' = s /\ match r with
                            | Some j => 0 <= j < count /\ pte s (i + j) <> 0
                            | None => free_window s i count
                            end) s.
Proof.
  intros Hok Hi Hc Hic.
  apply (wp_mloop _
    (fun j s' => s' = s /\ 0 <= j <= count /\ forall k, i <= k < i + j -> pte s k = 0) _
    (fun j _ => Z.to_nat (count - j))).
  - intros j s' (-> & Hj & Hall). unfold free_body. zcase.
    + apply wp_bind. unfold wp at 1. rewrite vread_pt by (done || lia). apply wp_ret.
      destruct (Z.eqb_spec (pte s (i + j)) 0) as [E|E].
      * split; [|lia]. split; [done|]. split; [lia|]. intros k Hk.
        destruct (decide (k = i + j)) as [->|]; [done|]. apply Hall. lia.
      * split; [done|]. split; [lia|done].
    + apply wp_ret. split; [done|]. split; [done|]. split; [done|].
      intros k Hk. apply Hall. lia.
  - split; [done|]. split; [lia|]. intros k Hk. lia.
  - lia.
Qed.

(** While the window is being filled the filled slots are the stale ones. *)
Definition filling (e : Z -> Z) (i n : Z) (s s' : mmu) : Prop :=
  vm_ok s' /\ filled e i n s s' /\ forall x, x ∈ stale s' <-> i <= x < i + n.

Lemma fill_loop s entry_of e i count :
  vm_wf s -> free_window s i count -> 0 <= count ->
  (forall j, 0 <= j < count -> entry_of j = Ok (e j) /\ 0 <= e j < 2 ^ 32) ->
  wp (mloop 1026 (fill_body kpt entry_of i count) 0) (fun _ s' => filling e i count s s') s.
Proof.
  intros Hwf (Hi & Hic & Hfree) Hc He.
  assert (forall k, i <= k < i + count -> k <> KERN_PGT_SLOT) as Hself.
  { intros k Hk ->. apply (pte_self kpt s (vw_ok _ _ Hwf)). by apply Hfree. }
  apply (wp_mloop _ (fun j s' => 0 <= j <= count /\ filling e i j s s') _
    (fun j _ => Z.to_nat (count - j))).
  - intros j s' (Hj & Hok & Hfi & Hst). unfold fill_body. zcase.
    + destruct (He j ltac:(lia)) as [Hent Hr].
      apply wp_bind. eapply wp_lift; [exact Hent|].
      apply wp_bind. unfold wp at 1. rewrite vwrite_pt by (done || lia). apply wp_ret.
      split; [|lia]. split; [lia|]. split; [|split].
      * pose proof (upd_ok kpt s' (i + j) (e j) Hok (Hself (i + j) ltac:(lia)) Hr) as Hok'.
        split; [apply Hok'|apply Hok'|apply Hok'|].
        cbn [stale set_stale]. rewrite elem_of_union, elem_of_singleton. intros [E|E].
        -- by apply (Hself (i + j)); [lia|].
        -- by apply (vo_fresh _ _ Hok).
      * by apply filled_stale, filled_upd; [lia|].
      * intros x. cbn [stale set_stale]. rewrite elem_of_union, elem_of_singleton, Hst. lia.
    + apply wp_ret. by replace count with j by lia.
  - split; [lia|]. split; [apply Hwf|]. split; [apply filled_none|].
    intros x. rewrite (vw_stale _ _ Hwf). split; [set_solver|lia].
  - lia.
Qed.

Lemma flush_va i j : 0 <= i -> 0 <= j -> i + j < 1024 ->
  u32 (kernelstart + 4096 * i + j * 0x1000) = kernelstart + 4096 * (i + j).
Proof. intros. rewrite u32_small; unfold kernelstart; lia. Qed.

Lemma flush_loop s i count :
  0 <= i -> 0 <= count -> i + count <= 1024 ->
  (forall x, x ∈ stale s <-> i <= x < i + count) ->
  wp (mloop 1026 (flush_body (kernelstart + 4096 * i) count) 0) (fun _ s' => s' = set_stale ∅ s) s.
Proof.
  intros Hi Hc Hic Hst.
  apply (wp_mloop _ (fun j s' => 0 <= j <= count /\ exists st, s' = set_stale st s /\
      forall x, x ∈ st <-> i + j <= x < i + count) _ (fun j _ => Z.to_nat (count - j))).
  - intros j s' (Hj & st & -> & Hx). unfold flush_body. zcase.
    + apply wp_bind. unfold wp at 1. rewrite flush_va, invalidate_slot by lia. apply wp_ret.
      split; [|lia]. split; [lia|]. eexists. split; [reflexivity|].
      intros x. cbn [stale set_stale]. rewrite elem_of_difference, elem_of_singleton, Hx. lia.
    + apply wp_ret. f_equal. apply set_eq. intros x. rewrite Hx. split; [lia|set_solver].
  - split; [lia|]. exists (stale s). split; [by destruct s|]. intros x. rewrite Hst. lia.
  - lia.
Qed.

(** What mapping a window returns: the lowest free window, now filled, or null. *)
Definition window_mapped (e : Z -> Z) (count : Z) (s : mmu) (va : Z) (s' : mmu) : Prop :=
  (exists i, free_window s i count /\ (forall k, 0 <= k < i -> ~ free_window s k count) /\
     va = kernelstart + 4096 * i /\ vm_wf s' /\ filled e i count s s') \/
  (va = 0 /\ s' = s /\ forall k, ~ free_window s k count).

Lemma map_window_wp s entry_of e count :
  vm_wf s -> 1 <= count <= 1024 ->
  (forall j, 0 <= j < count -> entry_of j = Ok (e j) /\ 0 <= e j < 2 ^ 32) ->
  wp (map_window kpt entry_of count) (window_mapped e count s) s.
Proof.
  intros Hwf Hc He. pose proof (vw_ok _ _ Hwf) as Hok. unfold map_window.
  rewrite (proj2 (Z.eqb_neq _ _)) by lia. rewrite u32_small by lia.
  apply (wp_mloop _
    (fun i s' => s' = s /\ 0 <= i /\ forall k, 0 <= k < i -> ~ free_window s k count) _
    (fun i _ => Z.to_nat (1024 - i))).
  - intros i s' (-> & Hi & Hno). unfold window_round. zcase.
    + apply wp_bind. unfold wp at 1. rewrite vread_pt by (done || lia).
      destruct (Z.eqb_spec (pte s i) 0) as [E|E].
      * apply wp_bind. eapply wp_mono; [apply free_loop; [done|lia..]|].
        intros [j|] s' [-> Hr].
        -- apply wp_ret. split; [|lia]. split; [done|]. split; [lia|].
           intros k Hk Hw. destruct (decide (k < i)); [by apply (Hno k); [lia|]|].
           destruct Hr as [Hj Hne]. apply Hne, Hw. lia.
        -- apply wp_bind. eapply wp_mono; [apply (fill_loop s entry_of e); [done|done|lia|done]|].
           intros [] s1 (Hok1 & Hfi & Hst). apply wp_bind. rewrite window_va by lia.
           eapply wp_mono; [apply flush_loop; [lia|lia|lia|done]|].
           intros [] s2 ->. apply wp_ret. left. exists i. split; [done|]. split; [done|].
           split; [done|]. split; [|by destruct Hfi; split]. split; [|done].
           split; [apply Hok1|apply Hok1|apply Hok1|cbn; set_solver].
      * apply wp_ret. split; [|lia]. split; [done|]. split; [lia|].
        intros k Hk Hw. destruct (decide (k < i)); [by apply (Hno k); [lia|]|].
        apply E, Hw. lia.
    + apply wp_ret. right. split; [done|]. split; [done|]. intros k Hw.
      apply (Hno k); [|done]. destruct Hw as (H0 & H1 & _). lia.
  - split; [done|]. split; [lia|]. intros k Hk. lia.
  - lia.
Qed.

(** *** Contiguous windows *)

Lemma lor_3 f : f mod 4096 = 0 -> Z.lor f 3 = f + 3.
Proof.
  intros Hf. assert (Z.land f 3 = 0) as Hl.
  { change 3 with (Z.ones 2). rewrite Z.land_ones by lia. change (2 ^ 2) with 4.
    pose proof (Z.div_mod f 4096 ltac:(lia)). replace f with (f / 4096 * 1024 * 4) by lia.
    apply Z.mod_mul. lia. }
  by rewrite <- Z.lxor_lor, <- Z.add_nocarry_lxor.
Qed.

(** Entry [j] of a contiguous window of the frames from [f]. *)
Definition contiguous_entry (f j : Z) : Z := u32 (Z.lor f 3 + j * 0x1000).

Lemma contiguous_entry_ok f j count :
  f mod 4096 = 0 -> 0 <= f -> f + 4096 * count <= 2 ^ 32 -> 0 <= j < count ->
  0 <= contiguous_entry f j < 2 ^ 32 /\ pt_present (contiguous_entry f j) = true /\
  Z.land (contiguous_entry f j) 0xFFFFF000 = f + 4096 * j.
Proof.
  intros Hal H0 Hle Hj. unfold contiguous_entry. rewrite lor_3 by done.
  replace (f + 3 + j * 0x1000) with ((f + 4096 * j) + 3) by lia.
  assert ((f + 4096 * j) mod 4096 = 0) as Hal'
    by (rewrite (Z.mul_comm 4096), Z.mod_add by lia; done).
  rewrite <- lor_3 by done.
  destruct (mapped_entry (f + 4096 * j) Hal' ltac:(lia)) as (Hr & Hp & Hm).
  by rewrite u32_small.
Qed.

Lemma contiguous_translate s s' f i count o :
  vm_wf s' -> filled (contiguous_entry f) i count s s' -> 0 <= i -> i + count <= 1024 ->
  f mod 4096 = 0 -> 0 <= f -> f + 4096 * count <= 2 ^ 32 -> 0 <= o < 4096 * count ->
  translate kpt (kernelstart + 4096 * i + o) s' = Ok (f + o, s').
Proof.
  intros Hwf Hfi Hi Hic Hal H0 Hle Ho.
  pose proof (Z.div_mod o 4096 ltac:(lia)) as Hdm. pose proof (Z.mod_pos_bound o 4096 ltac:(lia)).
  assert (0 <= o / 4096 < count) as Hj
    by (split; [apply Z.div_pos|apply Z.div_lt_upper_bound]; lia).
  destruct (contiguous_entry_ok f (o / 4096) count Hal H0 Hle Hj) as (_ & Hp & Hm).
  replace (kernelstart + 4096 * i + o) with (kernelstart + 4096 * (i + o / 4096) + o mod 4096) by lia.
  rewrite (translate_window kpt s' _ _ (contiguous_entry f (o / 4096))).
  - rewrite Hm. do 2 f_equal. lia.
  - lia.
  - done.
  - by apply (fi_slots _ _ _ _ _ Hfi).
  - done.
  - rewrite (vw_stale _ _ Hwf). set_solver.
Qed.

(** *** Unmapping a window *)

Lemma mmu_ext s s' :
  vm_wf s -> vm_wf s' -> frames s = frames s' ->
  (forall pa, rd (pmem s) pa = rd (pmem s') pa) -> s = s'.
Proof.
  intros Hwf Hwf' Hf Hrd. pose proof (vw_stale _ _ Hwf) as E. pose proof (vw_stale _ _ Hwf') as E'.
  destruct s as [m st f], s' as [m' st' f']. cbn in *. subst. f_equal.
  apply mem_ext; [apply Hwf|apply Hwf'|done].
Qed.

(** Filling a free window and clearing it again is no change. *)
Lemma filled_back s s' s2 e i count :
  vm_wf s -> vm_wf s2 -> free_window s i count -> filled e i count s s' ->
  filled (fun _ => 0) i count s' s2 -> s2 = s.
Proof.
  intros Hwf Hwf2 (Hi & Hic & Hfree) [_ Hr Hf] [Hs2 Hr2 Hf2].
  apply mmu_ext; [done|done|congruence|]. intros pa.
  remember ((pa - kpt) / 4) as k eqn:Ek.
  destruct (decide (pa = kpt + 4 * k /\ i <= k < i + count)) as [[Hpa Hk]|Hno].
  - specialize (Hs2 (k - i) ltac:(lia)). replace (i + (k - i)) with k in Hs2 by lia.
    rewrite Hpa. transitivity 0; [exact Hs2|]. symmetry. by apply Hfree.
  - assert (forall j, 0 <= j < count -> pa <> kpt + 4 * (i + j)) as Hne.
    { intros j Hj ->. apply Hno. rewrite Ek.
      replace (kpt + 4 * (i + j) - kpt) with ((i + j) * 4) by lia. rewrite Z.div_mul by lia. lia. }
    by rewrite Hr2, Hr.
Qed.

Lemma unmap_pages_wp s i count :
  vm_wf s -> 0 <= i -> 0 <= count -> i + count <= 1024 ->
  (forall k, i <= k < i + count -> k <> KERN_PGT_SLOT) ->
  wp (unmap_virtual_pages kpt (kernelstart + 4096 * i) count)
     (fun _ s' => vm_wf s' /\ filled (fun _ => 0) i count s s') s.
Proof.
  intros Hwf Hi Hc Hic Hself.
  apply (wp_mloop _ (fun j s1 => 0 <= j <= count /\ vm_wf s1 /\ filled (fun _ => 0) i j s s1) _
    (fun j _ => Z.to_nat (count - j))).
  - intros j s1 (Hj & Hwf1 & Hfi). unfold unmap_body. zcase.
    + apply wp_bind. unfold wp at 1. rewrite flush_va, unmap_slot by (done || lia). apply wp_ret.
      split; [|lia]. split; [lia|]. split; [by apply upd_wf; [done|apply Hself; lia|lia]|].
      by apply filled_upd; [lia|].
    + apply wp_ret. by assert (j = count) as -> by lia.
  - split; [lia|]. split; [done|]. apply filled_none.
  - lia.
Qed.

Lemma unmap_pages_ok s s' e i count :
  vm_wf s -> vm_wf s' -> 0 <= count -> free_window s i count -> filled e i count s s' ->
  unmap_virtual_pages kpt (kernelstart + 4096 * i) count s' = Ok (tt, s).
Proof.
  intros Hwf Hwf' Hc (Hi & Hic & Hfree) Hfi0.
  assert (forall k, i <= k < i + count -> k <> KERN_PGT_SLOT) as Hself.
  { intros k Hk ->. apply (pte_self kpt s (vw_ok _ _ Hwf)). by apply Hfree. }
  pose proof (unmap_pages_wp s' i count Hwf' Hi Hc Hic Hself) as ([] & s2 & -> & Hwf2 & Hfi)%wp_Ok.
  by rewrite (filled_back s s' s2 e i count).
Qed.
End windows.

(** ** Theorems *)

(** C24: [get_phys_addr] of an address in a mapped 4 KiB page, which maps the page
    directory and then the page table temporarily into the kernel window to read them,
    returns the physical address that the two-level walk gives, and leaves memory, stale
    slots and frames as they were, if two slots of the window are free; if not, it
    dereferences a null pointer.  Large pages and addresses that are not mapped it does
    not recognise. *)
Theorem get_phys_addr_walks kpt pdbr s va f :
  vm_wf kpt s -> pdbr mod 4096 = 0 -> 0 <= pdbr < 2 ^ 32 ->
  0 <= va < 2 ^ 32 -> walk (pmem s) pdbr va = SmallPage f ->
  (has_two_slots kpt s -> get_phys_addr kpt pdbr va s = Ok (f + va mod 4096, s)) /\
  (~ has_two_slots kpt s -> get_phys_addr kpt pdbr va s = Err NullDeref).
Proof.
  intros Hwf Hal Hpd Hva Hw. split.
  - intros Hsl. rewrite (get_phys_addr_ok kpt s pdbr va f) by done.
    pose proof (walk_frame_range (pmem s) pdbr va (vo_words _ _ (vw_ok _ _ Hwf))) as Hf.
    rewrite Hw in Hf. destruct Hf as (n & _ & H0 & Hle).
    pose proof (Z.mod_pos_bound va 4096 ltac:(lia)). by rewrite u32_small by lia.
  - intros Hno. destruct (classic_slot kpt s) as [Hsl|Hsl].
    + by apply (get_phys_addr_one_slot kpt s pdbr va f).
    + by apply get_phys_addr_full.
Qed.

(** When the window has no free slot, [get_phys_addr] does not report the
    failure of its temporary mapping but dereferences the null pointer. *)
Theorem get_phys_addr_no_slot kpt pdbr s va :
  vm_wf kpt s -> ~ has_slot kpt s -> 0 <= va < 2 ^ 32 ->
  get_phys_addr kpt pdbr va s = Err NullDeref.
Proof. apply get_phys_addr_full. Qed.

(** [pgdir_get_phys_addr] agrees with the two-level walk on 4 KiB pages and
    reports -1 for an address that is not mapped; on a 4 MiB page it adds only the
    low 12 bits of the address to the frame and is right exactly when bits 12 to 21
    of the address are zero. *)
Theorem pgdir_get_phys_addr_walks kpt s dir va :
  vm_wf kpt s -> has_slot kpt s -> dir_mapped kpt s dir -> 0 <= va < 2 ^ 32 ->
  not_a_free_slot kpt s (rd (pmem s) (dir_pa dir + 4 * (va / 2 ^ 22)) / 4096 * 4096
                         + 4 * ((va / 4096) mod 1024)) ->
  exists r, pgdir_get_phys_addr kpt dir va s = Ok (r, s) /\
    match walk (pmem s) (dir_pa dir) va with
    | NotPresent => r = NO_FRAME
    | SmallPage _ => resolve (pmem s) (dir_pa dir) va = Some r
    | BigPage f => r = f + va mod 4096 /\
        (resolve (pmem s) (dir_pa dir) va = Some r <-> (va / 4096) mod 1024 = 0)
    end.
Proof.
  intros Hwf Hsl Hdir Hva Hnf. eexists. split; [by apply pgdir_get_phys_addr_ok|].
  unfold resolve. destruct (walk (pmem s) (dir_pa dir) va) as [|f|f]; [done|done|].
  split; [done|]. change (2 ^ 22) with (4096 * 1024). rewrite Z.rem_mul_r by lia.
  split; [intros [= H]; lia|]. intros ->. f_equal. lia.
Qed.

(** C23: [map_contiguous_virtual_pages] maps [count] frames at the lowest window of
    free slots: every byte of the returned range translates to the corresponding
    byte of physical memory, nothing else in memory changes, and
    [unmap_virtual_pages] undoes it; when there is no such window it returns null
    and changes nothing. *)
Theorem map_contiguous_correct kpt s f count :
  vm_wf kpt s -> 1 <= count <= 1024 -> f mod 4096 = 0 -> 0 <= f -> f + 4096 * count <= 2 ^ 32 ->
  exists va s', map_contiguous_virtual_pages kpt (Z.lor f 3) count s = Ok (va, s') /\
    ((vm_wf kpt s' /\
      (exists i, free_window kpt s i count /\ (forall k, 0 <= k < i -> ~ free_window kpt s k count) /\
                 va = kernelstart + 4096 * i) /\
      (forall o, 0 <= o < 4096 * count -> translate kpt (va + o) s' = Ok (f + o, s')) /\
      unmap_virtual_pages kpt va count s' = Ok (tt, s)) \/
     (va = 0 /\ s' = s /\ forall k, ~ free_window kpt s k count)).
Proof.
  intros Hwf Hc Hal H0 Hle.
  assert (forall j, 0 <= j < count -> Ok (u32 (Z.lor f 3 + j * 0x1000)) = Ok (contiguous_entry f j) /\
    0 <= contiguous_entry f j < 2 ^ 32) as He
    by (intros j Hj; split; [done|by apply (contiguous_entry_ok f j count)]).
  destruct (proj1 (wp_Ok _ _ _) (map_window_wp kpt s _ (contiguous_entry f) count Hwf Hc He))
    as (va & s' & Heq & Hres).
  exists va, s'. split; [exact Heq|]. destruct Hres as [(i & Hw & Hlow & -> & Hwf' & Hfi)|Hno]; [left|by right].
  split; [done|]. split; [by exists i|]. pose proof Hw as (Hi & Hic & _). split.
  - intros o Ho. by apply (contiguous_translate kpt s s' f i count).
  - eapply unmap_pages_ok; [done|done|lia|done|exact Hfi].
Qed.

(** searching from the top, [map_pgdir_entry] starts one entry past the end of
    the directory: when the word that follows the directory in the window does not
    look present, the entry is written there, the directory is unchanged, and the
    table is announced at address 0. *)
Theorem map_pgdir_entry_from_top kpt s d f raw old :
  vm_wf kpt s -> 0 <= d -> d + 1 < 1024 ->
  pt_present (pte kpt s (d + 1)) = true -> Z.land (pte kpt s (d + 1)) 0xFFFFF000 = f ->
  f <> kpt -> pt_present (rd (pmem s) f) = false ->
  map_pgdir_entry kpt (mkPgdir 0 (kernelstart + 4096 * d)) true raw old s =
  Ok ((true, mkPgtbl (FRAMENUM_TO_FRAME (pt_framenum raw)) 0 0), set_pmem (wr f raw (pmem s)) s).
Proof.
  intros Hwf H0 Hd Hp Hf Hne Hfree.
  assert (entry (kernelstart + 4096 * d) PGDIR_NUM_ENTRIES = kernelstart + 4096 * (d + 1) + 0) as Hent
    by (unfold entry, PGDIR_NUM_ENTRIES, kernelstart; rewrite u32_small; lia).
  assert (translate kpt (kernelstart + 4096 * (d + 1) + 0) s = Ok (f, s)) as Htr.
  { rewrite (translate_window kpt s (d + 1) 0 (pte kpt s (d + 1)));
      [by rewrite Hf, Z.add_0_r|lia|lia|done|done|]. rewrite (vw_stale _ _ Hwf). set_solver. }
  assert (f mod 4096 = 0) as Hal
    by (rewrite <- Hf; apply frame_mask_aligned, pte_range, Hwf).
  destruct (vm_kpt kpt s (vw_ok _ _ Hwf)) as [Hkal _].
  assert ((kpt <=? f) && (f <? kpt + PAGE_SIZE) = false) as Hout.
  { apply andb_false_iff. destruct (Z.leb_spec kpt f); [right|by left]. apply Z.ltb_ge.
    pose proof (Z.div_mod f 4096 ltac:(lia)). pose proof (Z.div_mod kpt 4096 ltac:(lia)).
    unfold PAGE_SIZE. lia. }
  assert (pgdir_try kpt (mkPgdir 0 (kernelstart + 4096 * d)) raw PGDIR_NUM_ENTRIES s =
          Ok (true, set_pmem (wr f raw (pmem s)) s)) as Htry.
  { unfold pgdir_try, vread, vwrite, bind. cbn [dir_va]. rewrite Hent, Htr.
    unfold pread, gets. rewrite Hfree, Htr. unfold pwrite, modify. by rewrite Hout. }
  unfold map_pgdir_entry. rewrite (mloop_S 2047). unfold from_top_body at 1.
  unfold bind. by rewrite Htry.
Qed.

(** *** Witnesses

    The kernel page table is the frame at 0x1000.  Slot 0 maps the page directory
    at 0x2000, slot 1 the frame at 0x5000.  The directory has a page table at
    0x3000, which maps page 5 of its region to 0x7000, and a 4 MiB page. *)

Definition example_mmu : mmu :=
  mkMmu (list_to_map [(0x1FC4, 0x1003); (0x1000, 0x2003); (0x1004, 0x5003);
                      (0x2004, 0x3003); (0x2008, 0xC00083); (0x3014, 0x7003)])
        ∅ (mkPhys [] 0).

(** The same table with every slot taken. *)
Definition full_mmu : mmu :=
  mkMmu (list_to_map ((fun i => (0x1000 + 4 * i, 0x1003)) <$> seqZ 0 1024)) ∅ (mkPhys [] 0).

Ltac solve_example := vm_compute; repeat split; congruence.

Lemma example_mmu_wf : vm_wf 0x1000 example_mmu.
Proof.
  split; [split|]; [|reflexivity|reflexivity|set_solver|reflexivity].
  apply (bool_decide_unpack _). vm_compute. exact I.
Defined.

Lemma full_mmu_wf : vm_wf 0x1000 full_mmu.
Proof.
  split; [split|]; [|reflexivity|reflexivity|set_solver|reflexivity].
  apply (bool_decide_unpack _). vm_compute. exact I.
Defined.

Lemma full_mmu_full : ~ has_slot 0x1000 full_mmu.
Proof.
  assert (Forall (fun i => pte 0x1000 full_mmu i <> 0) (seqZ 0 1024)) as H
    by (apply (bool_decide_unpack _); vm_compute; exact I).
  intros (i & Hi & Hp). rewrite Forall_forall in H. apply (H i); [|done].
  apply elem_of_seqZ. lia.
Defined.

Lemma example_slots : has_two_slots 0x1000 example_mmu.
Proof. exists 2, 3. solve_example. Defined.

Lemma get_phys_addr_walks_witness :
  get_phys_addr 0x1000 0x2000 0x405678 example_mmu = Ok (0x7678, example_mmu).
Proof.
  apply (get_phys_addr_walks 0x1000 0x2000 example_mmu 0x405678 0x7000);
    [apply example_mmu_wf|reflexivity|lia|lia|reflexivity|apply example_slots].
Defined.

Lemma get_phys_addr_no_slot_witness :
  get_phys_addr 0x1000 0x2000 0x405678 full_mmu = Err NullDeref.
Proof.
  apply (get_phys_addr_no_slot 0x1000 0x2000 full_mmu 0x405678);
    [apply full_mmu_wf|apply full_mmu_full|lia].
Defined.

Lemma example_dir_mapped : dir_mapped 0x1000 example_mmu (mkPgdir 0x2000 kernelstart).
Proof. exists 0. solve_example. Defined.

(** Address 0x812345 lies in the 4 MiB page at 0xC00000. *)
Lemma pgdir_get_phys_addr_walks_witness :
  exists r, pgdir_get_phys_addr 0x1000 (mkPgdir 0x2000 kernelstart) 0x812345 example_mmu =
              Ok (r, example_mmu) /\
    r = 0xC00000 + 0x345 /\
    (resolve (pmem example_mmu) 0x2000 0x812345 = Some r <-> (0x812345 / 4096) mod 1024 = 0).
Proof.
  apply (pgdir_get_phys_addr_walks 0x1000 example_mmu (mkPgdir 0x2000 kernelstart) 0x812345);
    [apply example_mmu_wf|exists 2; solve_example|apply example_dir_mapped|lia|].
  intros i Hi _. vm_compute (rd _ _ / _ * _ + _). lia.
Defined.

Lemma map_contiguous_correct_witness :
  exists va s', map_contiguous_virtual_pages 0x1000 (Z.lor 0x9000 3) 2 example_mmu = Ok (va, s') /\
    ((vm_wf 0x1000 s' /\
      (exists i, free_window 0x1000 example_mmu i 2 /\
                 (forall k, 0 <= k < i -> ~ free_window 0x1000 example_mmu k 2) /\
                 va = kernelstart + 4096 * i) /\
      (forall o, 0 <= o < 4096 * 2 -> translate 0x1000 (va + o) s' = Ok (0x9000 + o, s')) /\
      unmap_virtual_pages 0x1000 va 2 s' = Ok (tt, example_mmu)) \/
     (va = 0 /\ s' = example_mmu /\ forall k, ~ free_window 0x1000 example_mmu k 2)).
Proof.
  apply (map_contiguous_correct 0x1000 example_mmu 0x9000 2);
    [apply example_mmu_wf|lia|reflexivity|lia|lia].
Defined.

Lemma map_pgdir_entry_from_top_witness :
  map_pgdir_entry 0x1000 (mkPgdir 0 (kernelstart + 4096 * 0)) true 0xA003 (mkPgtbl 0 0 0) example_mmu =
  Ok ((true, mkPgtbl 0xA000 0 0), set_pmem (wr 0x5000 0xA003 (pmem example_mmu)) example_mmu).
Proof.
  apply (map_pgdir_entry_from_top 0x1000 example_mmu 0 0x5000 0xA003 (mkPgtbl 0 0 0));
    [apply example_mmu_wf|lia|lia|reflexivity|reflexivity|lia|reflexivity].
Defined.
