(* ===== verification/Clone.v ===== *)
(** * Cloning an address space: clone_page_table and clone_page_directory

    The functions of mem/virtual.c that [fork] uses, defined in [Virtual], against the
    translation of the processor ([VirtualThm.walk]).  [ext] relates the states before
    and after: no frame becomes free and the words of frames that were in use, among
    them the kernel page table, are as before.  A clone lives in frames that were free,
    which separates it from everything that existed. *)

From Stdlib Require Import ZArith Lia.
From S2P Require Import Prelude Physical Virtual VirtualThm.
From stdpp Require Import base gmap sets fin_sets numbers strings list.
Local Open Scope Z_scope.

(** ** Counting *)

(** At least [n] numbers satisfy [P]. *)
Definition at_least (P : Z -> Prop) (n : nat) : Prop :=
  exists l : list Z, NoDup l /\ length l = n /\ Forall P l.

Lemma at_least_take P P' n a : at_least P (S n) -> (forall x, P x -> x <> a -> P' x) -> at_least P' n.
Proof.
  intros (l & Hnd & Hlen & Hl) HP.
  assert (exists l', NoDup l' /\ length l' = n /\ Forall P l' /\ a ∉ l') as (l' & H1 & H2 & H3 & H4).
  { destruct (decide (a ∈ l)) as [[k Hk]%elem_of_Permutation|Hn].
    - rewrite Hk in Hnd, Hl, Hlen. apply NoDup_cons in Hnd as [? ?]. inversion Hl; subst.
      exists k. split_and!; [done| |done|done]. cbn in Hlen. congruence.
    - destruct l as [|x l]; [done|]. apply NoDup_cons in Hnd as [? ?]. inversion Hl; subst.
      exists l. split_and!; [done| |done|set_solver]. by injection Hlen. }
  exists l'. split_and!; [done|done|]. rewrite Forall_forall in *. intros x Hx. apply HP; [by apply H3|].
  by intros ->.
Qed.

Lemma at_least_one P n : at_least P (S n) -> exists x, P x.
Proof. intros ([|x l] & _ & Hlen & Hl); [done|]. inversion Hl; subst. eauto. Qed.

Lemma at_least_fewer P n m : at_least P n -> (m <= n)%nat -> at_least P m.
Proof.
  intros (l & Hnd & Hlen & Hl) Hm. exists (take m l). split_and!.
  - eapply sublist_NoDup; [exact Hnd|apply sublist_take].
  - rewrite length_take. lia.
  - by apply Forall_take.
Qed.

Lemma at_least_mono P P' n : at_least P n -> (forall x, P x -> P' x) -> at_least P' n.
Proof. intros (l & H1 & H2 & H3) HP. exists l. split_and!; [done..|]. by eapply Forall_impl. Qed.

Lemma sum_list_with_agree {A} (f g : A -> nat) l :
  (forall x, x ∈ l -> f x = g x) -> sum_list_with f l = sum_list_with g l.
Proof. induction l as [|x l IH]; intros H; cbn [sum_list_with]; [done|]. rewrite H, IH; set_solver. Qed.

(** ** Addresses *)

Lemma frame_word f k : f mod 4096 = 0 -> 0 <= k < 1024 -> (f + 4 * k) / 4096 = f / 4096.
Proof.
  intros Hf Hk. pose proof (Z.div_mod f 4096 ltac:(lia)).
  symmetry. apply (Z.div_unique_pos _ _ _ (4 * k)); lia.
Qed.

Lemma same_page f g : f mod 4096 = 0 -> g mod 4096 = 0 -> f / 4096 = g / 4096 -> f = g.
Proof. intros Hf Hg H. pose proof (Z.div_mod f 4096 ltac:(lia)). pose proof (Z.div_mod g 4096 ltac:(lia)). lia. Qed.

Lemma frame_page n : (4096 * n) mod 4096 = 0 /\ 4096 * n / 4096 = n.
Proof. rewrite Z.mul_comm. split; [apply Z.mod_mul|apply Z.div_mul]; lia. Qed.

(** The entry that the two bit-field assignments build from a zero word. *)
Lemma new_entry e f : 0 <= e < 2 ^ 32 -> f mod 4096 = 0 -> 0 <= f < 2 ^ 32 ->
  with_framenum (with_flags 0 e) (FRAME_TO_FRAMENUM f) = e mod 4096 + f.
Proof.
  intros He Hf Hr. unfold with_framenum, with_flags, FRAME_TO_FRAMENUM.
  rewrite Z.land_0_l, Z.lor_0_l. rewrite Z.shiftr_div_pow2, Z.shiftl_mul_pow2 by lia.
  change (2 ^ 12) with 4096. pose proof (Z.div_mod f 4096 ltac:(lia)).
  replace (f / 4096 * 4096) with f by lia. rewrite u32_small by done.
  change 0xFFF with (Z.ones 12). rewrite !Z.land_ones by lia. change (2 ^ 12) with 4096.
  rewrite Z.mod_mod by lia. pose proof (Z.mod_pos_bound e 4096 ltac:(lia)) as Hm.
  replace f with (Z.shiftl (f / 4096) 12) by (rewrite Z.shiftl_mul_pow2; lia).
  rewrite <- Z.lxor_lor, <- Z.add_nocarry_lxor; [done|..];
    (apply Z.bits_inj'; intros n Hn; rewrite Z.land_spec, Z.bits_0;
     destruct (decide (n < 12)); [rewrite Z.shiftl_spec_low by lia; apply andb_false_r|]);
    rewrite <- (Z.mod_small (e mod 4096) (2 ^ 12)) by lia; by rewrite Z.mod_pow2_bits_high by lia.
Qed.

Lemma entry_split e f : f mod 4096 = 0 -> 0 <= f ->
  (e mod 4096 + f) / 4096 * 4096 = f /\ (e mod 4096 + f) mod 4096 = e mod 4096.
Proof.
  intros Hf H0. pose proof (Z.div_mod f 4096 ltac:(lia)). pose proof (Z.mod_pos_bound e 4096 ltac:(lia)).
  assert ((e mod 4096 + f) / 4096 = f / 4096) as E by (symmetry; apply (Z.div_unique_pos _ _ _ (e mod 4096)); lia).
  rewrite (Z.mod_eq (e mod 4096 + f)), !E by lia. lia.
Qed.

Lemma low_bit e n : 0 <= n < 12 -> Z.testbit (e mod 4096) n = Z.testbit e n.
Proof. intros Hn. change 4096 with (2 ^ 12). by rewrite Z.mod_pow2_bits_low by lia. Qed.

(** The flags of an entry are those of the entry it was made from. *)
Lemma entry_flags e f : f mod 4096 = 0 -> 0 <= f ->
  pt_present (e mod 4096 + f) = pt_present e /\ pd_page_size (e mod 4096 + f) = pd_page_size e.
Proof.
  intros Hf H0. unfold pt_present, pd_page_size. destruct (entry_split e f Hf H0) as [_ E].
  rewrite <- !(low_bit (e mod 4096 + f)), E, !low_bit by lia. done.
Qed.

Section clone.
Context (kpt : Z).
Notation pte := (pte kpt).
Notation upd_pte := (upd_pte kpt).
Notation vm_wf := (vm_wf kpt).

(** ** States *)

Definition frame_free (s : mmu) (n : Z) : Prop := 0 <= n < mm_limit (frames s) /\ is_free (frames s) n = true.
Definition slot_free (s : mmu) (i : Z) : Prop := 0 <= i < 1024 /\ pte s i = 0.

(** The frame of address [f] is in use, and is not the kernel page table. *)
Definition in_use (s : mmu) (f : Z) : Prop :=
  is_free (frames s) (f / 4096) = false /\ f / 4096 <> kpt / 4096.

Record sys_ok (s : mmu) : Prop := mkSys {
  so_vm : vm_wf s;
  so_phys : phys_wf (frames s);
  so_kpt : is_free (frames s) (kpt / 4096) = false
}.

Record ext (s s' : mmu) : Prop := mkExt {
  ex_sys : sys_ok s';
  ex_limit : mm_limit (frames s') = mm_limit (frames s);
  ex_free : forall n, 0 <= n -> is_free (frames s') n = true -> is_free (frames s) n = true;
  ex_mem : forall pa, 0 <= pa -> is_free (frames s) (pa / 4096) = false -> rd (pmem s') pa = rd (pmem s) pa
}.

Lemma ext_refl s : sys_ok s -> ext s s.
Proof. by split. Qed.

Lemma ext_trans s1 s2 s3 : ext s1 s2 -> ext s2 s3 -> ext s1 s3.
Proof.
  intros [S1 L1 F1 M1] [S2 L2 F2 M2]. split; [done|congruence|auto|].
  intros pa H0 Hf. assert (0 <= pa / 4096) by (apply Z.div_pos; lia).
  rewrite M2, M1; try done. destruct (is_free (frames s2) (pa / 4096)) eqn:E; [|done].
  apply F1 in E; [congruence|done].
Qed.

Lemma sys_kpt s : sys_ok s -> kpt mod 4096 = 0 /\ 0 <= kpt < 2 ^ 32.
Proof. intros Hs. eapply vm_kpt, (vw_ok _ _ (so_vm _ Hs)). Qed.

(** Slot [i] maps the frame at [f]. *)
Definition slot_maps (s : mmu) (i f : Z) : Prop :=
  0 <= i < 1024 /\ pt_present (pte s i) = true /\ Z.land (pte s i) 0xFFFFF000 = f.

Lemma slot_maps_aligned s i f : vm_wf s -> slot_maps s i f -> f mod 4096 = 0 /\ 0 <= f < 2 ^ 32.
Proof. intros Hs (_ & _ & <-). apply frame_mask_aligned, pte_range, Hs. Qed.

Lemma read_slot s i f k : vm_wf s -> slot_maps s i f -> 0 <= k < 1024 ->
  vread kpt (entry (kernelstart + 4096 * i) k) s = Ok (rd (pmem s) (f + 4 * k), s).
Proof.
  intros Hs (Hi & Hp & Hf) Hk. apply vread_slot; try done; [apply Hs|]. rewrite (vw_stale _ _ Hs). set_solver.
Qed.

(** A write to a word outside the kernel page table. *)
Definition poke (pa v : Z) (s : mmu) : mmu := set_pmem (wr pa v (pmem s)) s.

Lemma poke_vm s pa v : vm_wf s -> pa / 4096 <> kpt / 4096 -> 0 <= v < 2 ^ 32 -> vm_wf (poke pa v s).
Proof.
  intros Hs Hpa Hv. pose proof (vm_kpt kpt s (vw_ok _ _ Hs)) as [Hal _].
  assert (forall i, 0 <= i < 1024 -> pte (poke pa v s) i = pte s i) as Hp.
  { intros i Hi. unfold Virtual.pte, poke. cbn [pmem set_pmem]. rewrite rd_wr.
    rewrite (proj2 (Z.eqb_neq _ _)); [done|]. intros <-. apply Hpa. by apply frame_word. }
  destruct Hs as [[H1 H2 H3 H4] H5]. split; [split|done].
  - by apply wr_wf.
  - by rewrite Hp by (unfold KERN_PGT_SLOT; lia).
  - by rewrite Hp by (unfold KERN_PGT_SLOT; lia).
  - done.
Qed.

Lemma write_slot s i f k v : vm_wf s -> slot_maps s i f -> f / 4096 <> kpt / 4096 -> 0 <= k < 1024 ->
  vwrite kpt (entry (kernelstart + 4096 * i) k) v s = Ok (tt, poke (f + 4 * k) v s).
Proof.
  intros Hs Hm Hf Hk. pose proof Hm as (Hi & Hp & Hfr).
  destruct (slot_maps_aligned s i f Hs Hm) as [Hal Hr]. pose proof (vm_kpt kpt s (vw_ok _ _ Hs)) as [Hkal _].
  unfold vwrite, bind, entry. rewrite u32_small by (unfold kernelstart; lia).
  rewrite (translate_window kpt s i (4 * k) (pte s i)); [|lia|lia|done|done|rewrite (vw_stale _ _ Hs); set_solver].
  rewrite Hfr. unfold pwrite, modify, PAGE_SIZE.
  assert ((kpt <=? f + 4 * k) && (f + 4 * k <? kpt + 4096) = false) as ->; [|done].
  pose proof (frame_word f k Hal Hk). apply andb_false_iff.
  destruct (Z.leb_spec kpt (f + 4 * k)); [right; apply Z.ltb_ge|by left].
  destruct (Z.le_gt_cases (kpt + 4096) (f + 4 * k)); [done|]. exfalso. apply Hf.
  rewrite <- (frame_word f k) by done. symmetry. pose proof (Z.div_mod kpt 4096 ltac:(lia)).
  apply (Z.div_unique_pos _ _ _ (f + 4 * k - kpt)); lia.
Qed.

(** [s'] is [s] with the words [g 0], ..., [g 1023] in the frame at [f]. *)
Record wrote (f : Z) (g : Z -> Z) (s s' : mmu) : Prop := mkWrote {
  wo_vm : vm_wf s';
  wo_frames : frames s' = frames s;
  wo_words : forall k, 0 <= k < 1024 -> rd (pmem s') (f + 4 * k) = g k;
  wo_rest : forall pa, pa / 4096 <> f / 4096 -> rd (pmem s') pa = rd (pmem s) pa
}.

(** Only words of the frame at [f] below word [k] are written. *)
Record writing (f : Z) (g : Z -> Z) (s : mmu) (k : Z) (s' : mmu) : Prop := mkWriting {
  wi_range : 0 <= k <= 1024;
  wi_vm : vm_wf s';
  wi_frames : frames s' = frames s;
  wi_words : forall j, 0 <= j < k -> rd (pmem s') (f + 4 * j) = g j;
  wi_rest : forall pa, pa / 4096 <> f / 4096 -> rd (pmem s') pa = rd (pmem s) pa
}.

Lemma writing_start f g s : vm_wf s -> writing f g s 0 s.
Proof. intros Hs. split; try done; lia. Qed.

Lemma writing_step f g s k s' : f mod 4096 = 0 -> f / 4096 <> kpt / 4096 -> k < 1024 -> 0 <= g k < 2 ^ 32 ->
  writing f g s k s' -> writing f g s (k + 1) (poke (f + 4 * k) (g k) s').
Proof.
  intros Hal Hf Hk Hg [Hr Hv Hfr Hw Hrest]. pose proof (frame_word f k Hal ltac:(lia)) as Hpg.
  split; [lia|apply poke_vm; [done|congruence|done]|done| |].
  - intros j Hj. cbn [pmem poke set_pmem]. rewrite rd_wr.
    destruct (Z.eqb_spec (f + 4 * j) (f + 4 * k)); [f_equal; lia|]. apply Hw. lia.
  - intros pa Hpa. cbn [pmem poke set_pmem]. rewrite rd_wr, (proj2 (Z.eqb_neq _ _)); [by apply Hrest|].
    intros ->. congruence.
Qed.

Lemma writing_slot f g s k s' i a : f / 4096 <> kpt / 4096 -> writing f g s k s' ->
  slot_maps s i a -> vm_wf s -> slot_maps s' i a.
Proof.
  intros Hf [_ _ _ _ Hrest] (Hi & Hp & Ha) Hs. pose proof (vm_kpt kpt s (vw_ok _ _ Hs)) as [Hal _].
  assert (pte s' i = pte s i) as E.
  { apply Hrest. rewrite frame_word by done. congruence. }
  unfold slot_maps. by rewrite E.
Qed.

(** [memset] and [memcpy] of a page through the window. *)
Lemma clear_page_ok s i f : vm_wf s -> slot_maps s i f -> f / 4096 <> kpt / 4096 ->
  wp (clear_page kpt (kernelstart + 4096 * i)) (fun _ s' => wrote f (fun _ => 0) s s') s.
Proof.
  intros Hs Hm Hf. destruct (slot_maps_aligned s i f Hs Hm) as [Hal Hr]. unfold clear_page.
  apply (wp_mloop _ (writing f (fun _ => 0) s) _ (fun k _ => Z.to_nat (1024 - k)));
    [|by apply writing_start|lia].
  intros k s' Hw. unfold clear_body. pose proof Hw as [Hk Hv Hfr Hwd Hrest]. zcase.
  - apply wp_bind, wp_Ok. eexists _, _. split.
    { apply (write_slot s' i f); [done| |done|lia]. by eapply writing_slot. }
    apply wp_ret. split; [by apply (writing_step f (fun _ => 0))|lia].
  - apply wp_ret. split; try done. intros j Hj. apply Hwd. lia.
Qed.

Lemma copy_page_ok s i f j g : vm_wf s -> slot_maps s i f -> slot_maps s j g ->
  f / 4096 <> kpt / 4096 -> g / 4096 <> f / 4096 ->
  wp (copy_page kpt (kernelstart + 4096 * i) (kernelstart + 4096 * j))
    (fun _ s' => wrote f (fun k => rd (pmem s) (g + 4 * k)) s s') s.
Proof.
  intros Hs Hm Hmj Hf Hg. destruct (slot_maps_aligned s i f Hs Hm) as [Hal Hr].
  destruct (slot_maps_aligned s j g Hs Hmj) as [Hgal _]. unfold copy_page.
  apply (wp_mloop _ (writing f (fun k => rd (pmem s) (g + 4 * k)) s) _ (fun k _ => Z.to_nat (1024 - k)));
    [|by apply writing_start|lia].
  intros k s' Hw. unfold copy_body. pose proof Hw as [Hk Hv Hfr Hwd Hrest]. zcase.
  - apply wp_bind, wp_Ok. eexists _, _. split.
    { apply (read_slot s' j g); [done| |lia]. by eapply writing_slot. }
    rewrite Hrest by (rewrite frame_word by (done || lia); done).
    apply wp_bind, wp_Ok. eexists _, _. split.
    { apply (write_slot s' i f); [done| |done|lia]. by eapply writing_slot. }
    apply wp_ret. split; [|lia]. apply (writing_step f (fun k => rd (pmem s) (g + 4 * k))); try done.
    apply rd_range, (vo_words _ _ (vw_ok _ _ Hs)).
  - apply wp_ret. split; try done. intros j' Hj. apply Hwd. lia.
Qed.

(** ** Allocating and mapping *)

Lemma alloc_fresh s n : sys_ok s -> at_least (frame_free s) (S n) ->
  exists f p, on_frames alloc_phys_frame s = Ok (4096 * f, set_frames p s) /\
    0 <= f < 2 ^ 20 /\ is_free (frames s) f = true /\ f <> kpt / 4096 /\
    marked (frames s) p f (f + 1) false /\
    sys_ok (set_frames p s) /\ at_least (frame_free (set_frames p s)) n.
Proof.
  intros Hs Hn. destruct (at_least_one _ _ Hn) as (b & Hb & Hbf).
  destruct (proj1 (wp_Ok _ _ _) (alloc_phys_frame_wp (frames s) (so_phys _ Hs))) as (r & p & E & Hr).
  destruct Hr as [(f & -> & (Hf & Hfl & Hff) & _ & Hm)|(_ & _ & Hno)]; [|by rewrite Hno in Hbf].
  pose proof (pw_limit _ (so_phys _ Hs)) as Hlim. unfold PHYS_INDEX_MAX in Hlim.
  specialize (Hff f ltac:(lia)). exists f, p. pose proof Hm as [Hp Hl Hfr].
  assert (0 <= kpt / 4096) by (destruct (sys_kpt s Hs); apply Z.div_pos; lia).
  split_and!; try done; try lia.
  - unfold on_frames. by rewrite E.
  - intros ->. pose proof (so_kpt _ Hs). congruence.
  - destruct Hs as [[[H1 H2 H3 H4] H5] H6 H7]. split; [split; [split|]|done|]; try done.
    cbn [frames set_frames]. rewrite Hfr by done. by destruct (_ && _).
  - eapply at_least_take with (a := f); [exact Hn|]. intros x [Hx Hxf] Hne. split; cbn [frames set_frames].
    + by rewrite Hl.
    + rewrite Hfr by lia. destruct (Z.leb_spec f x), (Z.ltb_spec x (f + 1)); try done. lia.
Qed.

Lemma upd_sys s i e : sys_ok s -> i <> KERN_PGT_SLOT -> 0 <= e < 2 ^ 32 -> sys_ok (upd_pte i e s).
Proof. intros [H1 H2 H3] Hi He. split; [by apply upd_wf|done|done]. Qed.

Lemma slot_maps_upd s i f : f mod 4096 = 0 -> 0 <= f < 2 ^ 32 -> 0 <= i < 1024 ->
  slot_maps (upd_pte i (Z.lor f 3) s) i f.
Proof.
  intros Hal Hr Hi. destruct (mapped_entry f Hal Hr) as (_ & Hp & Hf).
  split; [done|]. by rewrite pte_upd, Z.eqb_refl.
Qed.

Lemma slot_maps_other s i j e f : slot_maps s i f -> pte s j = 0 -> slot_maps (upd_pte j e s) i f.
Proof.
  intros (Hi & Hp & Hf) Hj. split; [done|]. rewrite pte_upd.
  destruct (Z.eqb_spec i j) as [->|]; [by rewrite Hj in Hp|done].
Qed.

(** Mapping a frame temporarily at a free slot. *)
Lemma map_fresh s n f : sys_ok s -> at_least (slot_free s) (S n) -> f mod 4096 = 0 -> 0 <= f < 2 ^ 32 ->
  exists i, map_virtual_page kpt (Z.lor f 3) s = Ok (kernelstart + 4096 * i, upd_pte i (Z.lor f 3) s) /\
    0 <= i < 1024 /\ pte s i = 0 /\ i <> KERN_PGT_SLOT /\ sys_ok (upd_pte i (Z.lor f 3) s) /\
    slot_maps (upd_pte i (Z.lor f 3) s) i f /\
    at_least (slot_free (upd_pte i (Z.lor f 3) s)) n.
Proof.
  intros Hs Hn Hal Hr. destruct (mapped_entry f Hal Hr) as (He & _ & _).
  destruct (map_page_free kpt s (Z.lor f 3) (so_vm _ Hs)) as (i & Hi & Hp & Hne & E).
  { destruct (at_least_one _ _ Hn) as (j & Hj & Hpj). by exists j. }
  exists i. split_and!; try done; try lia.
  - by apply upd_sys.
  - by apply slot_maps_upd.
  - eapply at_least_take with (a := i); [exact Hn|]. intros x [Hx Hp'] Hxi. split; [done|].
    by rewrite pte_upd, (proj2 (Z.eqb_neq x i)).
Qed.

(** ** One page *)

Definition page_of (e : Z) : Z := e / 4096 * 4096.

Lemma page_of_aligned e : 0 <= e < 2 ^ 32 ->
  page_of e mod 4096 = 0 /\ 0 <= page_of e < 2 ^ 32 /\ FRAMENUM_TO_FRAME (pt_framenum e) = page_of e /\
  page_of e / 4096 = e / 4096.
Proof.
  intros He. destruct (frame_mask_aligned e He) as [H1 H2]. rewrite framenum_frame by done.
  rewrite frame_mask_div in * by done. unfold page_of. split_and!; try done; try lia. by rewrite Z.div_mul by lia.
Qed.

(** Entry [i] of the table at [N] is made from [e], for a copy at [P] of its page. *)
Record cloned_entry (N i e P : Z) (s s' : mmu) : Prop := mkCloned {
  ce_sys : sys_ok s';
  ce_limit : mm_limit (frames s') = mm_limit (frames s);
  ce_frame : P mod 4096 = 0 /\ 0 <= P < 2 ^ 32 /\ is_free (frames s) (P / 4096) = true /\ P / 4096 <> kpt / 4096;
  ce_free : forall m, 0 <= m -> is_free (frames s') m = if m =? P / 4096 then false else is_free (frames s) m;
  ce_entry : rd (pmem s') (N + 4 * i) = e mod 4096 + P;
  ce_page : forall k, 0 <= k < 1024 -> rd (pmem s') (P + 4 * k) = rd (pmem s) (page_of e + 4 * k);
  ce_rest : forall pa, pa / 4096 <> P / 4096 -> pa <> N + 4 * i -> rd (pmem s') pa = rd (pmem s) pa
}.

(** Undoing the mappings of slots [a] and [b] after the writes. *)
Lemma unmap_two s a b : vm_wf s -> 0 <= a < 1024 -> 0 <= b < 1024 -> a <> KERN_PGT_SLOT -> b <> KERN_PGT_SLOT ->
  exists s', (unmap_virtual_page kpt (kernelstart + 4096 * a) ;;!
              unmap_virtual_page kpt (kernelstart + 4096 * b)) s = Ok (tt, s') /\
    vm_wf s' /\ frames s' = frames s /\
    forall pa, rd (pmem s') pa = if (pa =? kpt + 4 * a) || (pa =? kpt + 4 * b) then 0 else rd (pmem s) pa.
Proof.
  intros Hs Ha Hb Hna Hnb. exists (upd_pte b 0 (upd_pte a 0 s)).
  assert (vm_wf (upd_pte a 0 s)) as Ha' by (by apply upd_wf). split_and!.
  - erewrite bind_Ok_eq by (by apply unmap_slot). by apply unmap_slot.
  - by apply upd_wf.
  - done.
  - intros pa. unfold Virtual.upd_pte. cbn [pmem set_pmem]. rewrite !rd_wr.
    by destruct (pa =? kpt + 4 * b), (pa =? kpt + 4 * a).
Qed.

(** The assignments of the flags and of the frame number of a new entry. *)
Lemma set_entry_ok {A} s t T nt N i e f (k : M mmu A) :
  vm_wf s -> slot_maps s t T -> slot_maps s nt N -> N / 4096 <> kpt / 4096 -> 0 <= i < 1024 ->
  rd (pmem s) (T + 4 * i) = e -> rd (pmem s) (N + 4 * i) = 0 -> f mod 4096 = 0 -> 0 <= f < 2 ^ 32 ->
  exists s', (let! e := vread kpt (entry (kernelstart + 4096 * t) i) in
    let! n := vread kpt (entry (kernelstart + 4096 * nt) i) in
    vwrite kpt (entry (kernelstart + 4096 * nt) i) (with_flags n e) ;;!
    let! n := vread kpt (entry (kernelstart + 4096 * nt) i) in
    vwrite kpt (entry (kernelstart + 4096 * nt) i) (with_framenum n (FRAME_TO_FRAMENUM f)) ;;! k) s = k s' /\
    vm_wf s' /\ frames s' = frames s /\
    forall pa, rd (pmem s') pa = if pa =? N + 4 * i then e mod 4096 + f else rd (pmem s) pa.
Proof.
  intros Hs HT HN HNk Hi He HN0 Hal Hr. destruct (slot_maps_aligned s nt N Hs HN) as [HNal _].
  destruct (vm_kpt kpt s (vw_ok _ _ Hs)) as [Hkal _].
  assert (0 <= e < 2 ^ 32) as Her by (rewrite <- He; apply rd_range, (vo_words _ _ (vw_ok _ _ Hs))).
  pose proof (frame_word N i HNal Hi) as HNi. pose proof (Z.mod_pos_bound e 4096 ltac:(lia)) as Hem.
  assert (with_flags 0 e = e mod 4096) as Ewf
    by (unfold with_flags; rewrite Z.land_0_l, Z.lor_0_l; by apply (land_ones_mod e 12)).
  pose proof (new_entry e f Her Hal Hr) as Enew. rewrite Ewf in Enew.
  set (s1 := poke (N + 4 * i) (e mod 4096) s).
  assert (vm_wf s1) as Hs1 by (apply poke_vm; [done|congruence|lia]).
  assert (slot_maps s1 nt N) as HN1.
  { destruct HN as (H1 & H2 & H3). assert (pte s1 nt = pte s nt) as E; [|unfold slot_maps; by rewrite E].
    unfold Virtual.pte, s1, poke. cbn [pmem set_pmem]. rewrite rd_wr, (proj2 (Z.eqb_neq _ _)); [done|].
    intros E. apply HNk. rewrite <- HNi, <- E. by apply frame_word. }
  assert (rd (pmem s1) (N + 4 * i) = e mod 4096) as E1
    by (unfold s1, poke; cbn [pmem set_pmem]; by rewrite rd_wr, Z.eqb_refl).
  exists (poke (N + 4 * i) (e mod 4096 + f) s1). split_and!.
  - erewrite bind_Ok_eq by (by apply (read_slot s t T)). erewrite bind_Ok_eq by (by apply (read_slot s nt N)).
    rewrite He, HN0, Ewf. erewrite bind_Ok_eq by (by apply (write_slot s nt N)).
    erewrite bind_Ok_eq by (by apply (read_slot s1 nt N)). rewrite E1, Enew.
    by erewrite bind_Ok_eq by (by apply (write_slot s1 nt N)).
  - apply poke_vm; [done|congruence|]. pose proof (Z.div_mod f 4096 ltac:(lia)). lia.
  - done.
  - intros pa. unfold s1, poke. cbn [pmem set_pmem]. rewrite !rd_wr. by destruct (_ =? _).
Qed.

(** The frames at [O] and [P] are mapped at the slots [a] and [b], which were free. *)
Record pair_mapped (O P a b : Z) (s s' : mmu) : Prop := mkPair {
  pm_sys : sys_ok s';
  pm_range : 0 <= a < 1024 /\ 0 <= b < 1024 /\ a <> KERN_PGT_SLOT /\ b <> KERN_PGT_SLOT;
  pm_old : slot_maps s' a O;
  pm_new : slot_maps s' b P;
  pm_other : forall j g, slot_maps s j g -> slot_maps s' j g;
  pm_frames : frames s' = frames s;
  pm_zero : pte s a = 0 /\ pte s b = 0;
  pm_rest : forall pa, pa <> kpt + 4 * a -> pa <> kpt + 4 * b -> rd (pmem s') pa = rd (pmem s) pa
}.

Lemma map_pair s O P : sys_ok s -> at_least (slot_free s) 2 ->
  O mod 4096 = 0 -> 0 <= O < 2 ^ 32 -> P mod 4096 = 0 -> 0 <= P < 2 ^ 32 ->
  exists a b s1 s2, map_virtual_page kpt (Z.lor O 3) s = Ok (kernelstart + 4096 * a, s1) /\
    map_virtual_page kpt (Z.lor P 3) s1 = Ok (kernelstart + 4096 * b, s2) /\ pair_mapped O P a b s s2.
Proof.
  intros Hs Hsl HOal HOr HPal HPr.
  destruct (map_fresh s 1 O) as (a & E1 & Ha & Hpa & Hna & Hs2 & Hm2 & Hsl2); [done..|].
  destruct (map_fresh (upd_pte a (Z.lor O 3) s) 0 P) as (b & E2 & Hb & Hpb & Hnb & Hs3 & Hm3 & _); [done..|].
  exists a, b, (upd_pte a (Z.lor O 3) s), (upd_pte b (Z.lor P 3) (upd_pte a (Z.lor O 3) s)).
  split_and!; [done|done|]. assert (a <> b) as Hab.
  { intros <-. destruct Hm2 as (_ & Hp & _). by rewrite Hpb in Hp. }
  split; try done.
  - by apply slot_maps_other.
  - intros j g Hj. apply slot_maps_other; [by apply slot_maps_other|done].
  - split; [done|]. rewrite pte_upd in Hpb. by destruct (Z.eqb_spec b a); [congruence|].
  - intros pa H1 H2. by rewrite !rd_upd.
Qed.

Lemma clone_entry_ok s t T sv nt N sv' i n :
  sys_ok s -> slot_maps s t T -> slot_maps s nt N -> in_use s T -> in_use s N -> 0 <= i < 1024 ->
  let e := rd (pmem s) (T + 4 * i) in
  pt_present e = true -> in_use s (page_of e) -> rd (pmem s) (N + 4 * i) = 0 ->
  at_least (slot_free s) 2 -> at_least (frame_free s) (S n) ->
  exists s' P,
    clone_entry kpt (mkPgtbl T (kernelstart + 4096 * t) sv) (mkPgtbl N (kernelstart + 4096 * nt) sv') i s =
      Ok (Continue (i + 1), s') /\
    cloned_entry N i e P s s' /\ at_least (frame_free s') n.
Proof.
  intros Hs HT HN [HTf HTk] [HNf HNk] Hi e Hp [HOf HOk] HN0 Hsl Hfr.
  destruct (sys_kpt s Hs) as [Hkal Hkr].
  destruct (slot_maps_aligned s t T (so_vm _ Hs) HT) as [HTal _].
  destruct (slot_maps_aligned s nt N (so_vm _ Hs) HN) as [HNal _].
  assert (0 <= e < 2 ^ 32) as He by (apply rd_range, (vo_words _ _ (vw_ok _ _ (so_vm _ Hs)))).
  destruct (page_of_aligned e He) as (HOal & HOr & HOeq & _). set (O := page_of e) in *.
  destruct (alloc_fresh s n Hs Hfr) as (f & p & Ealloc & Hf & Hff & Hfk & Hmark & Hs1 & Hfr1).
  destruct (frame_page f) as [HPal HPdiv]. set (P := 4096 * f) in *.
  destruct (map_pair (set_frames p s) O P Hs1 Hsl) as (a & b & s2 & s3 & Emap1 & Emap2 & Hpair); [done|done|done|lia|].
  pose proof Hpair as [Hs3 (Ha & Hb & Hna & Hnb) HO3 HP3 Hoth Hf3 [Hza Hzb] Hrd3].
  destruct (proj1 (wp_Ok _ _ _) (copy_page_ok s3 b P a O (so_vm _ Hs3) HP3 HO3 ltac:(congruence) ltac:(congruence)))
    as ([] & s4 & Ecopy & [Hv4 Hf4 Hw4 Hr4]).
  assert (forall pa, pa / 4096 <> kpt / 4096 -> pa <> kpt + 4 * a /\ pa <> kpt + 4 * b) as Hnk
    by (intros pa Hpa; split; intros ->; apply Hpa; by apply frame_word).
  assert (forall x, is_free (frames s) (x / 4096) = false -> x / 4096 <> kpt / 4096 -> rd (pmem s4) x = rd (pmem s) x) as Hr4'
    by (intros x Hx Hx'; rewrite Hr4 by congruence; by apply Hrd3; apply Hnk).
  assert (forall j g, slot_maps s j g -> slot_maps s4 j g) as Hsm4.
  { intros j g (Hj & Hg1 & Hg2)%Hoth. unfold slot_maps, Virtual.pte in *.
    by rewrite Hr4 by (rewrite frame_word by done; congruence). }
  destruct (set_entry_ok s4 t T nt N i e P
    (unmap_virtual_page kpt (kernelstart + 4096 * a) ;;!
     unmap_virtual_page kpt (kernelstart + 4096 * b) ;;! ret (@Continue Z bool (i + 1))))
    as (s5 & E5 & Hv5 & Hf5 & Hr5);
    [done|by apply Hsm4|by apply Hsm4|done|done| | |done|lia|];
    [rewrite Hr4'; [done|by rewrite frame_word..]|rewrite Hr4'; [done|by rewrite frame_word..]|].
  destruct (unmap_two s5 a b Hv5 Ha Hb Hna Hnb) as (s6 & E6 & Hv6 & Hf6 & Hr6).
  exists s6, P. assert (frames s6 = p) as Ef6 by (rewrite Hf6, Hf5, Hf4, Hf3; done).
  split; [|split].
  - unfold clone_entry. rewrite (proj2 (Z.ltb_lt i PGTBL_NUM_ENTRIES)) by (unfold PGTBL_NUM_ENTRIES; lia).
    cbn [table_va]. erewrite bind_Ok_eq by (by apply (read_slot s t T); [apply Hs|done|]). fold e. rewrite Hp.
    erewrite bind_Ok_eq by exact Ealloc. rewrite HOeq. erewrite bind_Ok_eq by exact Emap1.
    rewrite (proj2 (Z.eqb_neq _ 0)) by (unfold kernelstart; lia). erewrite bind_Ok_eq by exact Emap2.
    rewrite (proj2 (Z.eqb_neq _ 0)) by (unfold kernelstart; lia). erewrite bind_Ok_eq by exact Ecopy.
    rewrite E5, <- bind_assoc. by erewrite bind_Ok_eq by exact E6.
  - assert (forall pa, pa / 4096 <> kpt / 4096 -> rd (pmem s6) pa = rd (pmem s5) pa) as Hr6'.
    { intros pa Hpa. destruct (Hnk pa Hpa). by rewrite Hr6, !(proj2 (Z.eqb_neq _ _)) by done. }
    split; rewrite ?Ef6; [|apply Hmark| | | | |].
    + split; [done|rewrite Ef6; apply Hmark|rewrite Ef6; apply (so_kpt _ Hs1)].
    + rewrite HPdiv. split_and!; try done; lia.
    + intros m Hm. rewrite (mk_free _ _ _ _ _ Hmark), HPdiv by done.
      destruct (Z.eqb_spec m f), (Z.leb_spec f m), (Z.ltb_spec m (f + 1)); try done; lia.
    + rewrite Hr6', Hr5, Z.eqb_refl; [done|by rewrite frame_word].
    + intros k Hk. rewrite Hr6', Hr5 by (rewrite frame_word by done; congruence).
      rewrite (proj2 (Z.eqb_neq _ _)); [|intros E; apply (f_equal (fun x => x / 4096)) in E; rewrite !frame_word in E by done; congruence].
      rewrite Hw4 by done. apply Hrd3; apply Hnk; by rewrite frame_word.
    + intros pa Hpa HpaN. rewrite Hr6, Hr5, (proj2 (Z.eqb_neq pa (N + 4 * i))) by done.
      destruct (Z.eqb_spec pa (kpt + 4 * a)) as [->|H1]; [cbn [orb]; by rewrite <- Hza|].
      destruct (Z.eqb_spec pa (kpt + 4 * b)) as [->|H2]; [cbn [orb]; by rewrite <- Hzb|]. cbn [orb].
      rewrite Hr4 by done. by apply Hrd3.
  - eapply at_least_mono; [exact Hfr1|]. intros x [H1 H2]. split; by rewrite Ef6.
Qed.

(** ** One table *)

(** The entries of the table at [T] from [i] that are present. *)
Definition pages_from (s : mmu) (T i : Z) : nat :=
  sum_list_with (fun k => if pt_present (rd (pmem s) (T + 4 * k)) then 1%nat else 0%nat) (seqZ i (1024 - i)).

Lemma pages_from_step s T i : i < 1024 ->
  pages_from s T i = ((if pt_present (rd (pmem s) (T + 4 * i)) then 1 else 0) + pages_from s T (i + 1))%nat.
Proof.
  intros Hi. unfold pages_from. rewrite seqZ_cons by lia. cbn [sum_list_with].
  do 2 f_equal. f_equal; lia.
Qed.

Lemma pages_from_agree s s' T : (forall k, 0 <= k < 1024 -> rd (pmem s') (T + 4 * k) = rd (pmem s) (T + 4 * k)) ->
  pages_from s' T 0 = pages_from s T 0.
Proof.
  intros H. apply sum_list_with_agree. intros k Hk%elem_of_seqZ. by rewrite H by lia.
Qed.

(** Every page of the table at [T] is in use. *)
Definition table_ok (s : mmu) (T : Z) : Prop := in_use s T /\ forall k, 0 <= k < 1024 ->
  pt_present (rd (pmem s) (T + 4 * k)) = true -> in_use s (page_of (rd (pmem s) (T + 4 * k))).

(** The frame at [P] was free and is taken. *)
Definition fresh_frame (s s' : mmu) (P : Z) : Prop :=
  P mod 4096 = 0 /\ 0 <= P < 2 ^ 32 /\ is_free (frames s) (P / 4096) = true /\
  is_free (frames s') (P / 4096) = false /\ P / 4096 <> kpt / 4096.

(** Entry [w] is entry [e] with a fresh copy of its page. *)
Definition entry_cloned (s s' : mmu) (N e w : Z) : Prop :=
  if pt_present e then
    exists P, w = e mod 4096 + P /\ fresh_frame s s' P /\ P / 4096 <> N / 4096 /\
      forall j, 0 <= j < 1024 -> rd (pmem s') (P + 4 * j) = rd (pmem s) (page_of e + 4 * j)
  else w = 0.

(** The frames taken from [s] to [s'] are the one at [N] and those of the pages of the
    first [i] entries of the table in it. *)
Definition taken_by_table (s s' : mmu) (T N i : Z) : Prop :=
  forall m, 0 <= m -> is_free (frames s) m = true -> is_free (frames s') m = false ->
    m = N / 4096 \/ exists k, 0 <= k < i /\ pt_present (rd (pmem s) (T + 4 * k)) = true /\
                              rd (pmem s') (N + 4 * k) / 4096 = m.

(** The first [i] entries of the table at [N] are clones; no two share a page. *)
Record table_cloned (s s' : mmu) (T N i : Z) : Prop := mkTableCloned {
  tc_entry : forall k, 0 <= k < i -> entry_cloned s s' N (rd (pmem s) (T + 4 * k)) (rd (pmem s') (N + 4 * k));
  tc_apart : forall k k', 0 <= k < i -> 0 <= k' < i -> k <> k' ->
    pt_present (rd (pmem s) (T + 4 * k)) = true -> pt_present (rd (pmem s) (T + 4 * k')) = true ->
    rd (pmem s') (N + 4 * k) / 4096 <> rd (pmem s') (N + 4 * k') / 4096
}.

Lemma div_nonneg x : 0 <= x -> 0 <= x / 4096.
Proof. intros. apply Z.div_pos; lia. Qed.

(** What is in use is not fresh. *)
Lemma fresh_not_in_use s s' P x : fresh_frame s s' P -> is_free (frames s) (x / 4096) = false -> x / 4096 <> P / 4096.
Proof. intros (_ & _ & Hf & _) Hx E. congruence. Qed.

Lemma ext_word nt e s u pa : 0 <= nt < 1024 -> sys_ok s -> ext (upd_pte nt e s) u -> 0 <= pa ->
  is_free (frames s) (pa / 4096) = false -> pa / 4096 <> kpt / 4096 -> rd (pmem u) pa = rd (pmem s) pa.
Proof.
  intros Hnt Hs [_ _ _ Hm] H0 Hf Hk. rewrite Hm by done. apply rd_upd. intros ->. apply Hk.
  apply frame_word; [|done]. by destruct (sys_kpt s Hs).
Qed.

Lemma ext_pte s u i : sys_ok s -> ext s u -> 0 <= i < 1024 -> pte u i = pte s i.
Proof.
  intros Hs [_ _ _ Hm] Hi. destruct (sys_kpt s Hs) as [Hal Hr]. apply Hm; [lia|].
  rewrite frame_word by done. apply Hs.
Qed.

Lemma ext_slot s u i f : sys_ok s -> ext s u -> slot_maps s i f -> slot_maps u i f.
Proof. intros Hs He (Hi & H1 & H2). unfold slot_maps. by rewrite (ext_pte s u). Qed.

Lemma ext_slots s u n : sys_ok s -> ext s u -> at_least (slot_free s) n -> at_least (slot_free u) n.
Proof.
  intros Hs He Hn. eapply at_least_mono; [exact Hn|]. intros i [Hi Hp]. split; [done|]. by rewrite (ext_pte s u).
Qed.

Lemma ext_used s u x : ext s u -> 0 <= x -> in_use s x -> in_use u x.
Proof.
  intros [_ _ Hf _] Hx [Hu Hk]. split; [|done]. destruct (is_free (frames u) (x / 4096)) eqn:E; [|done].
  apply Hf in E; [congruence|by apply div_nonneg].
Qed.

(** The clones that were made stay when an entry [N + 4 * i] and a fresh page [P] are written. *)
Lemma entry_cloned_step s u u' N i e e0 P w : 0 <= i < 1024 -> N mod 4096 = 0 ->
  cloned_entry N i e0 P u u' -> entry_cloned s u N e w -> entry_cloned s u' N e w.
Proof.
  intros Hi HN Hce. unfold entry_cloned. destruct (pt_present e); [|done].
  intros (Q & -> & (HQa & HQr & HQf & HQt & HQk) & HQN & Hj). pose proof (div_nonneg Q ltac:(lia)).
  pose proof (ce_frame _ _ _ _ _ _ Hce) as (_ & _ & HPf & _).
  assert (Q / 4096 <> P / 4096) by congruence. exists Q. split; [done|]. split; [|split; [done|]].
  - split_and!; try done; try lia. rewrite (ce_free _ _ _ _ _ _ Hce) by done. by destruct (_ =? _).
  - intros j Hjr. rewrite (ce_rest _ _ _ _ _ _ Hce); [by apply Hj|by rewrite frame_word|].
    intros E. apply (f_equal (fun x => x / 4096)) in E. rewrite !frame_word in E by done. congruence.
Qed.

Section table.
(** A table at [T], mapped at slot [t], in the state [s] in which the clone begins; the
    clone is at [N], mapped at slot [nt]. *)
Context (s : mmu) (t T sv nt N : Z) (n : nat).
Context (Hs : sys_ok s) (Ht : slot_maps s t T) (Htab : table_ok s T).
Context (Hnt : 0 <= nt < 1024) (Hnt0 : pte s nt = 0) (HNal : N mod 4096 = 0) (HNr : 0 <= N < 2 ^ 32).
Context (HNf : is_free (frames s) (N / 4096) = true).

Notation base := (upd_pte nt (Z.lor N 3) s).
Context (Hbase : sys_ok base).

Record cloning (i : Z) (u : mmu) : Prop := mkCloning {
  cl_range : 0 <= i <= 1024;
  cl_ext : ext base u;
  cl_new : is_free (frames u) (N / 4096) = false;
  cl_done : table_cloned s u T N i;
  cl_taken : taken_by_table s u T N i;
  cl_todo : forall k, i <= k < 1024 -> rd (pmem u) (N + 4 * k) = 0;
  cl_frames : at_least (frame_free u) (pages_from s T i + n)
}.

Lemma new_not_kpt : N / 4096 <> kpt / 4096.
Proof using Hs HNf. intros E. rewrite E in HNf. pose proof (so_kpt _ Hs). congruence. Qed.

Lemma cloning_word i u pa : cloning i u -> 0 <= pa -> in_use s pa -> rd (pmem u) pa = rd (pmem s) pa.
Proof using Hs Hnt. intros [_ He _ _ _ _ _] H0 [H1 H2]. by eapply (ext_word nt _ s u). Qed.

(** The step from [u] to [u'] by [cloned_entry]. *)
Lemma cloning_step i u u' e P : cloning i u -> i < 1024 -> e = rd (pmem s) (T + 4 * i) -> pt_present e = true ->
  cloned_entry N i e P u u' -> at_least (frame_free u') (pages_from s T (i + 1) + n) ->
  cloning (i + 1) u'.
Proof using All.
  intros Hcl Hi He Hp Hce Hfr'. pose proof Hcl as [Hr Hext Hnew [Hdone Hap] Htk Htodo Hfr].
  pose proof Hce as [Hs' Hl' (HPal & HPr & HPf & HPk) Hfree Hent Hpage Hrest].
  pose proof new_not_kpt as HNk. pose proof (div_nonneg N ltac:(lia)) as HN0.
  assert (0 <= P / 4096) as HP0 by (apply div_nonneg; lia).
  assert (N / 4096 <> P / 4096) as HNP by congruence.
  assert (is_free (frames s) (P / 4096) = true) as HPs by (apply (ex_free _ _ Hext); [done|done]).
  assert (0 <= e < 2 ^ 32) as Her by (subst e; apply rd_range, (vo_words _ _ (vw_ok _ _ (so_vm _ Hs)))).
  destruct (page_of_aligned e Her) as (HOal & HOr & _ & _).
  assert (in_use s (page_of e)) as HO by (subst e; apply Htab; [lia|done]).
  assert (forall k, 0 <= k < 1024 -> k <> i -> rd (pmem u') (N + 4 * k) = rd (pmem u) (N + 4 * k)) as Hold.
  { intros k Hk Hki. apply Hrest; [by rewrite frame_word|lia]. }
  split; [lia| | | | | |done].
  - split; [done|rewrite Hl'; apply Hext| |].
    + intros m Hm Hfm. rewrite Hfree in Hfm by done. destruct (m =? P / 4096); [done|]. by apply Hext.
    + intros pa H0 Hpa. rewrite <- (ex_mem _ _ Hext) by done. cbn [frames set_pmem Virtual.upd_pte] in Hpa.
      apply Hrest; [congruence|]. intros ->. rewrite frame_word in Hpa by (done || lia). congruence.
  - rewrite Hfree by done. by rewrite (proj2 (Z.eqb_neq _ _)).
  - split.
    + intros k Hk. destruct (decide (k = i)) as [->|Hki].
      * rewrite <- He. unfold entry_cloned. rewrite Hp. exists P. split; [done|]. split.
        -- split_and!; try done; try lia. by rewrite Hfree, Z.eqb_refl.
        -- split; [congruence|]. intros j Hj. rewrite Hpage by done.
           apply (cloning_word i); [done|lia|]. unfold in_use. by rewrite frame_word.
      * rewrite Hold by lia. apply (entry_cloned_step s u u' N i _ e P); [lia|done|done|]. apply Hdone. lia.
    + assert (forall k, 0 <= k < i -> pt_present (rd (pmem s) (T + 4 * k)) = true ->
        rd (pmem u) (N + 4 * k) / 4096 <> P / 4096) as Hnew_apart.
      { intros k Hk Hpk. specialize (Hdone k Hk). unfold entry_cloned in Hdone. rewrite Hpk in Hdone.
        destruct Hdone as (Q & -> & (HQa & HQr & _ & HQt & _) & _).
        destruct (entry_split (rd (pmem s) (T + 4 * k)) Q HQa ltac:(lia)) as [E _].
        apply (f_equal (fun x => x / 4096)) in E. rewrite Z.div_mul in E by lia. congruence. }
      destruct (entry_split e P HPal ltac:(lia)) as [EP _].
      apply (f_equal (fun x => x / 4096)) in EP. rewrite Z.div_mul in EP by lia.
      intros k k' Hk Hk' Hne Hpk Hpk'.
      destruct (decide (k = i)) as [->|], (decide (k' = i)) as [->|]; [done|..]; rewrite ?Hent, ?EP, ?Hold by lia.
      * intros E. apply (Hnew_apart k'); [lia|done|done].
      * apply Hnew_apart; [lia|done].
      * apply Hap; (done || lia).
  - intros m Hm Hms Hmu. rewrite Hfree in Hmu by done. destruct (Z.eqb_spec m (P / 4096)) as [->|Hne].
    + right. exists i. split; [lia|]. split; [by rewrite <- He|]. rewrite Hent.
      destruct (entry_split e P HPal ltac:(lia)) as [EP _].
      apply (f_equal (fun x => x / 4096)) in EP. by rewrite Z.div_mul in EP by lia.
    + destruct (Htk m Hm Hms Hmu) as [->|(k & Hk & Hpk & Ek)]; [by left|right].
      exists k. split; [lia|]. split; [done|]. by rewrite Hold by lia.
  - intros k Hk. rewrite Hold by lia. apply Htodo. lia.
Qed.

(** An entry that is not present leaves a zero. *)
Lemma cloning_skip i u : cloning i u -> i < 1024 -> pt_present (rd (pmem s) (T + 4 * i)) = false ->
  cloning (i + 1) u.
Proof.
  intros [Hr Hext Hnew [Hdone Hap] Htk Htodo Hfr] Hi Hp. split; [lia|done|done| | | |].
  - split.
    + intros k Hk. destruct (decide (k = i)) as [->|]; [|apply Hdone; lia].
      unfold entry_cloned. rewrite Hp. apply Htodo. lia.
    + intros k k' Hk Hk' Hne Hpk Hpk'.
      destruct (decide (k = i)) as [->|]; [congruence|]. destruct (decide (k' = i)) as [->|]; [congruence|].
      apply Hap; (done || lia).
  - intros m Hm Hms Hmu. destruct (Htk m Hm Hms Hmu) as [->|(k & Hk & Hpk & Ek)]; [by left|right].
    exists k. split; [lia|done].
  - intros k Hk. apply Htodo. lia.
  - rewrite pages_from_step, Hp in Hfr by done. exact Hfr.
Qed.

Lemma cloning_round i u : at_least (slot_free base) 2 -> cloning i u -> i < 1024 ->
  wp (clone_entry kpt (mkPgtbl T (kernelstart + 4096 * t) sv) (mkPgtbl N (kernelstart + 4096 * nt) sv) i)
    (fun c u' => c = Continue (i + 1) /\ cloning (i + 1) u') u.
Proof using All.
  intros Hsl Hcl Hi. pose proof Hcl as [Hr Hext Hnew Hdone _ Htodo Hfr].
  pose proof (ex_sys _ _ Hext) as Hu. destruct Htab as [HT Hpages].
  destruct (slot_maps_aligned s t T (so_vm _ Hs) Ht) as [HTal HTr].
  assert (slot_maps u t T) as Ht' by (eapply ext_slot; [exact Hbase|done|]; by apply slot_maps_other).
  assert (rd (pmem u) (T + 4 * i) = rd (pmem s) (T + 4 * i)) as ET.
  { apply (cloning_word i); [done|lia|]. unfold in_use. by rewrite frame_word by (done || lia). }
  destruct (pt_present (rd (pmem s) (T + 4 * i))) eqn:Hp.
  - rewrite pages_from_step, Hp in Hfr by done.
    destruct (page_of_aligned (rd (pmem s) (T + 4 * i))) as (_ & HOr & _ & _);
      [apply rd_range, (vo_words _ _ (vw_ok _ _ (so_vm _ Hs)))|].
    destruct (clone_entry_ok u t T sv nt N sv i (pages_from s T (i + 1) + n)) as (u' & P & E & Hce & Hfr');
      rewrite ?ET; try done; try lia.
    + eapply ext_slot; [exact Hbase|done|]. by apply slot_maps_upd.
    + apply (ext_used base); [done|lia|done].
    + split; [done|apply new_not_kpt].
    + apply (ext_used base); [done|lia|]. apply Hpages; [lia|done].
    + apply Htodo. lia.
    + by apply (ext_slots base).
    + apply wp_Ok. eexists _, _. split; [exact E|]. split; [done|].
      rewrite ET in Hce. by apply (cloning_step i u u' (rd (pmem s) (T + 4 * i)) P).
  - unfold clone_entry. rewrite (proj2 (Z.ltb_lt i PGTBL_NUM_ENTRIES)) by (unfold PGTBL_NUM_ENTRIES; lia).
    cbn [table_va]. apply wp_bind, wp_Ok. eexists _, _.
    split; [apply (read_slot u t T); [apply Hu|done|lia]|]. rewrite ET, Hp. apply wp_ret.
    split; [done|]. by apply cloning_skip.
Qed.

Lemma cloning_loop u : at_least (slot_free base) 2 -> cloning 0 u ->
  wp (mloop 1025 (clone_entry kpt (mkPgtbl T (kernelstart + 4096 * t) sv)
                    (mkPgtbl N (kernelstart + 4096 * nt) sv)) 0)
    (fun r u' => r = true /\ cloning 1024 u') u.
Proof using All.
  intros Hsl Hcl. apply (wp_mloop _ cloning _ (fun i _ => Z.to_nat (1024 - i))); [|done|lia].
  intros i u' Hi. destruct (Z.ltb_spec i 1024) as [Hlt|Hge].
  - eapply wp_mono; [by apply cloning_round|]. intros c u'' [-> Hcl']. split; [done|].
    pose proof (cl_range _ _ Hi). lia.
  - unfold clone_entry. rewrite (proj2 (Z.ltb_ge i PGTBL_NUM_ENTRIES)) by (unfold PGTBL_NUM_ENTRIES; lia).
    apply wp_ret. split; [done|]. pose proof (cl_range _ _ Hi). by replace 1024 with i by lia.
Qed.
End table.

(** A fresh page of zeros at [N], mapped at slot [nt]: how both kinds of clone begin. *)
Lemma fresh_page_ok s n m : sys_ok s -> at_least (slot_free s) (S m) -> at_least (frame_free s) (S n) ->
  exists N nt s1 s2 s3, on_frames alloc_phys_frame s = Ok (N, s1) /\
    map_virtual_page kpt (Z.lor N 3) s1 = Ok (kernelstart + 4096 * nt, s2) /\
    clear_page kpt (kernelstart + 4096 * nt) s2 = Ok (tt, s3) /\
    0 <= nt < 1024 /\ nt <> KERN_PGT_SLOT /\ pte s nt = 0 /\ fresh_frame s s3 N /\
    sys_ok (upd_pte nt (Z.lor N 3) s) /\ ext (upd_pte nt (Z.lor N 3) s) s3 /\
    (forall k, 0 <= k < 1024 -> rd (pmem s3) (N + 4 * k) = 0) /\
    (forall k, 0 <= k -> is_free (frames s) k = true -> is_free (frames s3) k = false -> k = N / 4096) /\
    at_least (slot_free (upd_pte nt (Z.lor N 3) s)) m /\ at_least (frame_free s3) n.
Proof.
  intros Hs Hsl Hfr.
  destruct (alloc_fresh s _ Hs Hfr) as (f & p & Ealloc & Hf & Hff & Hfk & Hmark & Hs1 & Hfr1).
  destruct (frame_page f) as [HNal HNdiv]. set (N := 4096 * f) in *. set (s1 := set_frames p s) in *.
  destruct (map_fresh s1 m N Hs1 Hsl HNal ltac:(lia)) as (nt & Emap & Hnt & Hnt0 & Hne & Hs2 & Hm2 & Hsl2).
  set (s2 := upd_pte nt (Z.lor N 3) s1) in *.
  destruct (proj1 (wp_Ok _ _ _) (clear_page_ok s2 nt N (so_vm _ Hs2) Hm2 ltac:(congruence)))
    as ([] & s3 & Eclear & [Hv3 Hf3 Hw3 Hr3]).
  destruct (mapped_entry N HNal ltac:(lia)) as (He & _ & _).
  assert (frames s3 = p) as Ef3 by (by rewrite Hf3).
  assert (is_free p f = false) as Hfp.
  { rewrite (mk_free _ _ _ _ _ Hmark) by lia. by rewrite (proj2 (Z.leb_le _ _)), (proj2 (Z.ltb_lt _ _)) by lia. }
  exists N, nt, s1, s2, s3. split_and!; try done; try lia.
  - split_and!; rewrite ?HNdiv, ?Ef3; try done; lia.
  - by apply upd_sys.
  - split.
    + split; [done|rewrite Ef3; apply Hs1|rewrite Ef3; apply (so_kpt _ Hs1)].
    + rewrite Ef3. apply Hmark.
    + intros k Hk. rewrite Ef3, (mk_free _ _ _ _ _ Hmark) by done. by destruct (_ && _).
    + intros pa H0 Hpa. cbn [frames set_pmem Virtual.upd_pte] in Hpa. rewrite Hr3; [done|]. congruence.
  - intros k Hk Hks. rewrite Ef3, (mk_free _ _ _ _ _ Hmark), HNdiv by done.
    destruct (Z.leb_spec f k), (Z.ltb_spec k (f + 1)); cbn [andb]; try congruence. lia.
  - eapply at_least_mono; [exact Hfr1|]. intros x [H1 H2]. split; by rewrite Ef3.
Qed.

(** The clone of a table: mapped at a slot that was free, in frames that were free. *)
Lemma clone_page_table_ok s t T sv n :
  sys_ok s -> slot_maps s t T -> table_ok s T -> at_least (slot_free s) 3 ->
  at_least (frame_free s) (S (pages_from s T 0 + n)) ->
  exists s' N nt, clone_page_table kpt (mkPgtbl T (kernelstart + 4096 * t) sv) s =
      Ok (mkPgtbl N (kernelstart + 4096 * nt) sv, s') /\
    0 <= nt < 1024 /\ nt <> KERN_PGT_SLOT /\ pte s nt = 0 /\ fresh_frame s s' N /\
    ext (upd_pte nt (Z.lor N 3) s) s' /\ table_cloned s s' T N 1024 /\
    taken_by_table s s' T N 1024 /\ at_least (frame_free s') n.
Proof.
  intros Hs Ht Htab Hsl Hfr.
  destruct (fresh_page_ok s _ 2 Hs Hsl Hfr) as (N & nt & s1 & s2 & s3 & Ealloc & Emap & Eclear &
    Hnt & Hne & Hnt0 & (HNal & HNr & HNf & HNt & HNk) & Hbase & Hext3 & Hz & Hex & Hsl2 & Hfr3).
  assert (cloning s T nt N n 0 s3) as Hcl.
  { split; try done; try lia; [split; intros; lia|]. intros m Hm Hms Hmu. left. by apply Hex. }
  destruct (proj1 (wp_Ok _ _ _) (cloning_loop s t T sv nt N n Hs Ht Htab Hnt Hnt0 HNal HNr
    HNf Hbase s3 Hsl2 Hcl)) as (r & s4 & Eloop & -> & [_ Hext Hnew Htc Htk _ Hfr4]).
  exists s4, N, nt. split_and!; try done; try lia.
  unfold clone_page_table. erewrite bind_Ok_eq by exact Ealloc.
  pose proof (Z.div_mod N 4096 ltac:(lia)). rewrite (aligned_not_none N (N / 4096)) by lia.
  erewrite bind_Ok_eq by exact Emap.
  rewrite (proj2 (Z.eqb_neq _ 0)) by (unfold kernelstart; lia). cbv zeta. cbn [starting_va].
  erewrite bind_Ok_eq by exact Eclear. by erewrite bind_Ok_eq by exact Eloop.
Qed.
End clone.
