(* ===== verification/CloneThm.v ===== *)
(** * Cloning an address space: the page directory

    [clone_page_directory] of mem/virtual.c against the translation of the processor:
    user pages get fresh copies, no two of them share a frame, kernel entries are
    shared, and what existed before is untouched. *)

From Stdlib Require Import ZArith Lia.
From S2P Require Import Prelude Physical Virtual VirtualThm Clone.
From stdpp Require Import base gmap sets fin_sets numbers strings list.
Local Open Scope Z_scope.

(** Kernel entries, except the one of the kernel stack, are shared. *)
Definition shared (i : Z) : bool := (PGDIR_KERNEL_BEGIN <=? i) && negb (i =? PGDIR_KERNEL_STACK).

Section clone.
Context (kpt : Z).
Notation pte := (pte kpt).
Notation upd_pte := (upd_pte kpt).
Notation sys_ok := (sys_ok kpt).
Notation ext := (ext kpt).
Notation in_use := (in_use kpt).
Notation slot_maps := (slot_maps kpt).
Notation table_cloned := (table_cloned kpt).
Notation fresh_frame := (fresh_frame kpt).

(** ** A cloned table in other states *)

Lemma cloned_page s0 u0 T N k i : table_cloned s0 u0 T N i -> 0 <= k < i ->
  pt_present (rd (pmem s0) (T + 4 * k)) = true ->
  exists P, rd (pmem u0) (N + 4 * k) = rd (pmem s0) (T + 4 * k) mod 4096 + P /\
    fresh_frame s0 u0 P /\ P / 4096 <> N / 4096 /\ rd (pmem u0) (N + 4 * k) / 4096 = P / 4096 /\
    forall j, 0 <= j < 1024 ->
      rd (pmem u0) (P + 4 * j) = rd (pmem s0) (page_of (rd (pmem s0) (T + 4 * k)) + 4 * j).
Proof.
  intros [Hd _] Hk Hp. specialize (Hd k Hk). unfold entry_cloned in Hd. rewrite Hp in Hd.
  destruct Hd as (P & E & HP & HPN & Hj). exists P. split_and!; try done.
  destruct HP as (Ha & Hr & _). destruct (entry_split (rd (pmem s0) (T + 4 * k)) P Ha ltac:(lia)) as [E' _].
  apply (f_equal (fun x => x / 4096)) in E'. rewrite Z.div_mul in E' by lia. by rewrite E.
Qed.

(** A table that was cloned from [s0] to [u0], seen from [s] and [u]: its sources are
    the same in [s], its words and those of its pages the same in [u]. *)
Lemma table_cloned_transport s0 u0 s u T N :
  T mod 4096 = 0 -> 0 <= T -> table_ok kpt s T -> sys_ok s ->
  (forall pa, 0 <= pa -> in_use s pa -> rd (pmem s0) pa = rd (pmem s) pa) ->
  (forall m, 0 <= m -> is_free (frames s0) m = true -> is_free (frames s) m = true) ->
  (forall m, 0 <= m -> is_free (frames u0) m = false -> is_free (frames u) m = false) ->
  (forall k, 0 <= k < 1024 -> rd (pmem u) (N + 4 * k) = rd (pmem u0) (N + 4 * k)) ->
  (forall P k j, fresh_frame s0 u0 P -> 0 <= k < 1024 -> pt_present (rd (pmem s0) (T + 4 * k)) = true ->
     rd (pmem u0) (N + 4 * k) / 4096 = P / 4096 -> 0 <= j < 1024 ->
     rd (pmem u) (P + 4 * j) = rd (pmem u0) (P + 4 * j)) ->
  table_cloned s0 u0 T N 1024 -> table_cloned s u T N 1024.
Proof.
  intros HTal HT0 [[HTf HTk] Hpages] Hs H1 H2 H3 H4 H5 Htc.
  assert (forall k, 0 <= k < 1024 -> rd (pmem s0) (T + 4 * k) = rd (pmem s) (T + 4 * k)) as HT.
  { intros k Hk. apply H1; [lia|]. unfold Clone.in_use. by rewrite frame_word. }
  split.
  - intros k Hk. rewrite H4 by done. unfold entry_cloned.
    destruct (pt_present (rd (pmem s) (T + 4 * k))) eqn:Hp.
    + destruct (cloned_page _ _ _ _ k _ Htc) as (P & E & HP & HPN & Ediv & Hj); [done|by rewrite HT|].
      pose proof HP as (Ha & Hr & Hf0 & Hf & Hk'). pose proof (div_nonneg P ltac:(lia)).
      rewrite HT in E by done. exists P. split_and!; [done| |done|].
      * split_and!; try done; try lia; auto.
      * intros j Hjr. rewrite (H5 P k j), Hj, HT by (done || by rewrite HT).
        destruct (page_of_aligned (rd (pmem s) (T + 4 * k))) as (HOa & HOr & _);
          [apply rd_range, (vo_words _ _ (vw_ok _ _ (so_vm _ _ Hs)))|].
        apply H1; [lia|]. specialize (Hpages k Hk Hp). unfold Clone.in_use in *. by rewrite frame_word.
    + destruct Htc as [Hd _]. specialize (Hd k Hk). unfold entry_cloned in Hd. by rewrite HT, Hp in Hd.
  - intros k k' Hk Hk' Hne Hp Hp'. rewrite !H4 by done. by apply Htc; rewrite ?HT.
Qed.

(** ** One entry of the directory *)

(** From [u] to [u']: entry [i] of the directory at [ND] is made from [e], with a clone
    at [N] of its table. *)
Record table_step (ND i e N : Z) (u u' : mmu) : Prop := mkStep {
  ts_sys : sys_ok u';
  ts_limit : mm_limit (frames u') = mm_limit (frames u);
  ts_free : forall m, 0 <= m -> is_free (frames u') m = true -> is_free (frames u) m = true;
  ts_fresh : fresh_frame u u' N;
  ts_entry : rd (pmem u') (ND + 4 * i) = e mod 4096 + N;
  ts_table : table_cloned u u' (page_of e) N 1024;
  ts_taken : taken_by_table u u' (page_of e) N 1024;
  ts_rest : forall pa, 0 <= pa -> is_free (frames u) (pa / 4096) = false -> pa <> ND + 4 * i ->
    rd (pmem u') pa = rd (pmem u) pa
}.

Lemma frame_none f : f mod 4096 = 0 -> f =? NO_FRAME = false.
Proof.
  intros Hf. apply (aligned_not_none f (f / 4096)). pose proof (Z.div_mod f 4096 ltac:(lia)). lia.
Qed.

(** The table is mapped at slot [a] and its clone, made from there, at slot [nt]; both
    are unmapped. *)
Lemma table_step_mem u a T nt N u2 u4 :
  sys_ok u -> 0 <= a < 1024 -> a <> KERN_PGT_SLOT -> pte u a = 0 -> 0 <= nt < 1024 ->
  sys_ok (upd_pte a (Z.lor T 3) u) -> pt_present (Z.lor T 3) = true ->
  pte (upd_pte a (Z.lor T 3) u) nt = 0 ->
  ext (upd_pte nt (Z.lor N 3) (upd_pte a (Z.lor T 3) u)) u2 ->
  (forall pa, rd (pmem u4) pa = if (pa =? kpt + 4 * a) || (pa =? kpt + 4 * nt) then 0 else rd (pmem u2) pa) ->
  forall pa, 0 <= pa -> is_free (frames u) (pa / 4096) = false -> rd (pmem u4) pa = rd (pmem u) pa.
Proof.
  intros Hu Ha Hna Ha0 Hnt Hu1 Hp Hnt0 He Hr4 pa H0 Hpa. rewrite Hr4.
  assert (nt <> a) as Hne.
  { intros ->. rewrite pte_upd, Z.eqb_refl in Hnt0. by rewrite Hnt0 in Hp. }
  rewrite pte_upd, (proj2 (Z.eqb_neq nt a)) in Hnt0 by done.
  destruct (Z.eqb_spec pa (kpt + 4 * a)) as [->|H1]; [by rewrite <- Ha0|].
  destruct (Z.eqb_spec pa (kpt + 4 * nt)) as [->|H2]; [by rewrite <- Hnt0|]. cbn [orb].
  rewrite (ex_mem _ _ _ He) by done. by rewrite !rd_upd.
Qed.

(** The words of a frame that was free do not belong to the slots or to the directory. *)
Lemma fresh_word_kept u u2 u5 a nt ND i e N F j :
  kpt mod 4096 = 0 -> 0 <= a < 1024 -> 0 <= nt < 1024 -> ND mod 4096 = 0 -> 0 <= i < 1024 -> in_use u ND ->
  (forall pa, rd (pmem u5) pa = if pa =? ND + 4 * i then e mod 4096 + N
     else if (pa =? kpt + 4 * a) || (pa =? kpt + 4 * nt) then 0 else rd (pmem u2) pa) ->
  F mod 4096 = 0 -> is_free (frames u) (F / 4096) = true -> F / 4096 <> kpt / 4096 -> 0 <= j < 1024 ->
  rd (pmem u5) (F + 4 * j) = rd (pmem u2) (F + 4 * j).
Proof.
  intros Hk Ha Hnt HND Hi [HNDf _] Hr HF HFf HFk Hj.
  assert (forall x k, x mod 4096 = 0 -> 0 <= k < 1024 -> F / 4096 <> x / 4096 -> F + 4 * j <> x + 4 * k) as Hne.
  { intros x k Hx Hkr Hneq E. apply (f_equal (fun x => x / 4096)) in E. by rewrite !frame_word in E. }
  rewrite Hr, !(proj2 (Z.eqb_neq _ _)); [done|..]; apply Hne; try done. congruence.
Qed.

Lemma clone_table_entry_ok u d D nd ND i n :
  sys_ok u -> slot_maps u d D -> slot_maps u nd ND -> in_use u D -> in_use u ND -> 0 <= i < 1024 ->
  let e := rd (pmem u) (D + 4 * i) in
  pt_present e = true -> shared i = false -> pd_page_size e = false -> table_ok kpt u (page_of e) ->
  rd (pmem u) (ND + 4 * i) = 0 -> at_least (slot_free kpt u) 4 ->
  at_least (frame_free u) (S (pages_from u (page_of e) 0 + n)) ->
  exists u' N, clone_dir_entry kpt (mkPgdir D (kernelstart + 4096 * d)) (mkPgdir ND (kernelstart + 4096 * nd)) i u =
      Ok (Continue (i + 1), u') /\
    table_step ND i e N u u' /\ at_least (frame_free u') n.
Proof.
  intros Hu Hd Hnd HD HND Hi e Hp Hsh Hbig Htab HN0 Hsl Hfr.
  destruct (sys_kpt _ u Hu) as [Hkal Hkr].
  destruct (slot_maps_aligned _ u d D (so_vm _ _ Hu) Hd) as [HDal HDr].
  destruct (slot_maps_aligned _ u nd ND (so_vm _ _ Hu) Hnd) as [HNDal HNDr].
  assert (0 <= e < 2 ^ 32) as He by (apply rd_range, (vo_words _ _ (vw_ok _ _ (so_vm _ _ Hu)))).
  destruct (page_of_aligned e He) as (HTal & HTr & HTeq & _). set (T := page_of e) in *.
  (* the table is mapped *)
  destruct (map_fresh kpt u 3 T Hu Hsl HTal HTr) as (a & Emap & Ha & Ha0 & Hna & Hu1 & Hm1 & Hsl1).
  destruct (mapped_entry T HTal HTr) as (_ & HTp & _). set (u1 := upd_pte a (Z.lor T 3) u) in *.
  assert (forall pa, pa / 4096 <> kpt / 4096 -> rd (pmem u1) pa = rd (pmem u) pa) as Hr1.
  { intros pa Hpa. apply rd_upd. intros ->. apply Hpa. by apply frame_word. }
  assert (forall k, 0 <= k < 1024 -> rd (pmem u1) (T + 4 * k) = rd (pmem u) (T + 4 * k)) as HT1.
  { intros k Hk. apply Hr1. rewrite frame_word by done. apply Htab. }
  assert (table_ok kpt u1 T) as Htab1.
  { destruct Htab as [H1 H2]. split; [done|]. intros k Hk. rewrite HT1 by done. by apply H2. }
  rewrite <- (pages_from_agree u u1) in Hfr by done.
  (* its clone *)
  destruct (clone_page_table_ok kpt u1 a T (u32 (Z.shiftl i 22)) n Hu1 Hm1 Htab1 Hsl1 Hfr)
    as (u2 & N & nt & Eclone & Hnt & Hnnt & Hnt0 & HN & Hext & Htc & Htk & Hfr2).
  pose proof HN as (HNal & HNr & HNf & HNt & HNk).
  destruct (unmap_two kpt u2 a nt (so_vm _ _ (ex_sys _ _ _ Hext)) Ha Hnt Hna Hnnt) as (u4 & E4 & Hv4 & Hf4 & Hr4).
  pose proof (table_step_mem u a T nt N u2 u4 Hu Ha Hna Ha0 Hnt Hu1 HTp Hnt0 Hext Hr4) as Hmem4.
  assert (forall j g, slot_maps u j g -> slot_maps u4 j g) as Hsm.
  { intros j g (Hj & Hg1 & Hg2). unfold Clone.slot_maps, Virtual.pte in *.
    rewrite Hmem4; [done|lia|]. rewrite frame_word by done. apply Hu. }
  assert (forall x k, is_free (frames u) (x / 4096) = false -> x mod 4096 = 0 -> 0 <= x -> 0 <= k < 1024 ->
    rd (pmem u4) (x + 4 * k) = rd (pmem u) (x + 4 * k)) as Hw4.
  { intros x k Hx Hxa Hx0 Hk. apply Hmem4; [lia|]. by rewrite frame_word. }
  (* the new entry *)
  destruct (set_entry_ok kpt u4 d D nd ND i e N (ret (@Continue Z bool (i + 1))))
    as (u5 & E5 & Hv5 & Hf5 & Hr5);
    [done|by apply Hsm|by apply Hsm|apply HND|done|apply Hw4; [apply HD|done|lia|done]
    |rewrite Hw4; [done|apply HND|done|lia|done]|done|done|].
  assert (forall pa, rd (pmem u5) pa = if pa =? ND + 4 * i then e mod 4096 + N
     else if (pa =? kpt + 4 * a) || (pa =? kpt + 4 * nt) then 0 else rd (pmem u2) pa) as Hr52
    by (intros pa; by rewrite Hr5, Hr4).
  exists u5, N. split; [|split].
  - unfold clone_dir_entry. rewrite (proj2 (Z.ltb_lt i PGDIR_NUM_ENTRIES)) by (unfold PGDIR_NUM_ENTRIES; lia).
    cbn [dir_va]. erewrite bind_Ok_eq by (by apply (read_slot kpt u d D); [apply Hu|done|]). fold e. rewrite Hp.
    fold (shared i). rewrite Hsh, Hbig, HTeq. erewrite bind_Ok_eq by exact Emap.
    rewrite (proj2 (Z.eqb_neq _ 0)) by (unfold kernelstart; lia). erewrite bind_Ok_eq by exact Eclone.
    cbn [table_pa table_va]. rewrite frame_none, <- bind_assoc by done.
    erewrite bind_Ok_eq by exact E4. exact E5.
  - assert (frames u5 = frames u2) as Ef by congruence.
    split; rewrite ?Ef; [|apply Hext|apply Hext| | | | |].
    + split; [done|rewrite Ef; apply Hext|rewrite Ef; apply Hext].
    + split_and!; try done; try lia. by rewrite Ef.
    + by rewrite Hr5, Z.eqb_refl.
    + apply (table_cloned_transport u1 u2 u u5 T N); try done; try lia.
      * intros pa H0 [_ Hpa]. by apply Hr1.
      * intros m _. by rewrite Ef.
      * intros k Hk. by apply (fresh_word_kept u u2 u5 a nt ND i e N).
      * intros P k j (HPal & HPr & HPf & _ & HPk) _ _ _ Hj. by apply (fresh_word_kept u u2 u5 a nt ND i e N).
    + intros m Hm Hmu Hmu'. rewrite Ef in Hmu'. destruct (Htk m Hm Hmu Hmu') as [->|(k & Hk & Hpk & Ek)]; [by left|right].
      exists k. split; [done|]. split; [by rewrite <- HT1|].
      by rewrite (fresh_word_kept u u2 u5 a nt ND i e N).
    + intros pa H0 Hpa Hne. rewrite Hr5, (proj2 (Z.eqb_neq _ _)) by done. by apply Hmem4.
  - eapply at_least_mono; [exact Hfr2|]. intros x [H1 H2]. split; congruence.
Qed.

(** ** The directory *)

(** Entry [i] of the directory at [D] has a table that is cloned. *)
Definition has_table (s : mmu) (D i : Z) : bool := pt_present (rd (pmem s) (D + 4 * i)) && negb (shared i).

Definition table_of (s : mmu) (D i : Z) : Z := page_of (rd (pmem s) (D + 4 * i)).

(** The frames that the clone of the entries from [i] takes. *)
Definition tables_from (s : mmu) (D i : Z) : nat :=
  sum_list_with (fun k => if has_table s D k then S (pages_from s (table_of s D k) 0) else 0%nat)
    (seqZ i (1024 - i)).

Lemma tables_from_step s D i : i < 1024 -> tables_from s D i =
  ((if has_table s D i then S (pages_from s (table_of s D i) 0) else 0) + tables_from s D (i + 1))%nat.
Proof.
  intros Hi. unfold tables_from. rewrite seqZ_cons by lia. cbn [sum_list_with]. do 2 f_equal. f_equal; lia.
Qed.

(** The user part of the address space at [D] consists of 4 KiB pages in use. *)
Definition space_ok (s : mmu) (D : Z) : Prop := in_use s D /\ forall i, 0 <= i < 1024 ->
  has_table s D i = true -> pd_page_size (rd (pmem s) (D + 4 * i)) = false /\ table_ok kpt s (table_of s D i).

(** Page [j] of the table of entry [i]. *)
Definition has_page (s : mmu) (D i j : Z) : bool :=
  has_table s D i && pt_present (rd (pmem s) (table_of s D i + 4 * j)).
Definition frame_number (s : mmu) (D i j : Z) : Z := rd (pmem s) (table_of s D i + 4 * j) / 4096.

Record dir_entry_cloned (s u : mmu) (D ND i : Z) : Prop := mkDirEntry {
  de_absent : pt_present (rd (pmem s) (D + 4 * i)) = false -> rd (pmem u) (ND + 4 * i) = 0;
  de_shared : pt_present (rd (pmem s) (D + 4 * i)) = true -> shared i = true ->
    rd (pmem u) (ND + 4 * i) = rd (pmem s) (D + 4 * i);
  de_entry : has_table s D i = true ->
    rd (pmem u) (ND + 4 * i) = rd (pmem s) (D + 4 * i) mod 4096 + table_of u ND i;
  de_fresh : has_table s D i = true -> fresh_frame s u (table_of u ND i) /\ table_of u ND i / 4096 <> ND / 4096;
  de_table : has_table s D i = true -> table_cloned s u (table_of s D i) (table_of u ND i) 1024;
  de_avoids : forall j, 0 <= j < 1024 -> has_page s D i j = true -> frame_number u ND i j <> ND / 4096
}.

Section dir.
Context (s : mmu) (d D nd ND : Z) (n : nat).
Context (Hs : sys_ok s) (Hd : slot_maps s d D) (Hsp : space_ok s D).
Context (Hnd : 0 <= nd < 1024) (Hnd0 : pte s nd = 0) (HNal : ND mod 4096 = 0) (HNr : 0 <= ND < 2 ^ 32).
Context (HNf : is_free (frames s) (ND / 4096) = true).

Notation base := (upd_pte nd (Z.lor ND 3) s).
Context (Hbase : sys_ok base).

Record cloning_dir (i : Z) (u : mmu) : Prop := mkCloningDir {
  cd_range : 0 <= i <= 1024;
  cd_ext : ext base u;
  cd_new : is_free (frames u) (ND / 4096) = false;
  cd_done : forall k, 0 <= k < i -> dir_entry_cloned s u D ND k;
  cd_apart : forall k k' j j', 0 <= k < i -> 0 <= k' < i -> k <> k' -> 0 <= j < 1024 -> 0 <= j' < 1024 ->
    has_page s D k j = true -> has_page s D k' j' = true -> frame_number u ND k j <> frame_number u ND k' j';
  cd_tables : forall k k' j, 0 <= k < i -> 0 <= k' < i -> 0 <= j < 1024 ->
    has_page s D k j = true -> has_table s D k' = true -> frame_number u ND k j <> table_of u ND k' / 4096;
  cd_taken : forall m, 0 <= m -> is_free (frames s) m = true -> is_free (frames u) m = false ->
    m = ND / 4096 \/ exists k, 0 <= k < i /\ has_table s D k = true /\
      (m = table_of u ND k / 4096 \/ exists j, 0 <= j < 1024 /\ has_page s D k j = true /\ frame_number u ND k j = m);
  cd_todo : forall k, i <= k < 1024 -> rd (pmem u) (ND + 4 * k) = 0;
  cd_frames : at_least (frame_free u) (tables_from s D i + n)
}.

Lemma dir_not_kpt : ND / 4096 <> kpt / 4096.
Proof using Hs HNf. intros E. rewrite E in HNf. pose proof (so_kpt _ _ Hs). congruence. Qed.

Lemma space_word i u pa : cloning_dir i u -> 0 <= pa -> in_use s pa -> rd (pmem u) pa = rd (pmem s) pa.
Proof using Hs Hnd. intros [_ He _ _ _ _ _ _] H0 [H1 H2]. by eapply (ext_word kpt nd _ s u). Qed.

Lemma frame_word_used x k : x mod 4096 = 0 -> 0 <= k < 1024 -> in_use s x -> in_use s (x + 4 * k).
Proof. intros Hx Hk. unfold Clone.in_use. by rewrite frame_word. Qed.

Lemma dir_entry_word i u k : cloning_dir i u -> 0 <= k < 1024 -> rd (pmem u) (D + 4 * k) = rd (pmem s) (D + 4 * k).
Proof using Hs Hnd Hd Hsp.
  intros Hc Hk. destruct (slot_maps_aligned _ s d D (so_vm _ _ Hs) Hd) as [HDa HDr].
  apply (space_word i); [done|lia|]. exact (frame_word_used D k HDa Hk (proj1 Hsp)).
Qed.

(** The part of the directory that is done stays when words of frames that are in use,
    other than entry [i], stay. *)
Lemma dir_entry_kept i u u' k : cloning_dir i u -> 0 <= k < i -> i < 1024 ->
  (forall m, 0 <= m -> is_free (frames u) m = false -> is_free (frames u') m = false) ->
  (forall pa, 0 <= pa -> is_free (frames u) (pa / 4096) = false -> pa <> ND + 4 * i ->
     rd (pmem u') pa = rd (pmem u) pa) ->
  table_of u' ND k = table_of u ND k /\ dir_entry_cloned s u' D ND k /\
  (forall j, 0 <= j < 1024 -> has_table s D k = true -> frame_number u' ND k j = frame_number u ND k j).
Proof using All.
  intros Hc Hk Hi Hfree Hmem. pose proof Hc as [_ Hext Hnew Hdone _ _ _ _].
  destruct (Hdone k Hk) as [Ha Hsh He Hfr Ht Hav].
  assert (rd (pmem u') (ND + 4 * k) = rd (pmem u) (ND + 4 * k)) as EN.
  { apply Hmem; [lia| |lia]. by rewrite frame_word by (done || lia). }
  assert (table_of u' ND k = table_of u ND k) as ET by (unfold table_of; by rewrite EN).
  assert (has_table s D k = true -> forall F j, F mod 4096 = 0 -> 0 <= F -> is_free (frames u) (F / 4096) = false ->
    F / 4096 <> ND / 4096 -> 0 <= j < 1024 -> rd (pmem u') (F + 4 * j) = rd (pmem u) (F + 4 * j)) as Hw.
  { intros _ F j HFa HF0 HFf HFN Hj. apply Hmem; [lia|by rewrite frame_word|].
    intros E. apply (f_equal (fun x => x / 4096)) in E. rewrite !frame_word in E by (done || lia). done. }
  assert (forall j, 0 <= j < 1024 -> has_table s D k = true -> frame_number u' ND k j = frame_number u ND k j) as Hfn.
  { intros j Hj Hh. unfold frame_number. rewrite ET. destruct (Hfr Hh) as [(Ha' & Hr' & _ & Hf' & _) HneN].
    by rewrite Hw by (done || lia). }
  split; [done|]. split; [|done]. split; rewrite ?EN, ?ET; try done.
  - intros Hh. destruct (Hfr Hh) as [(Ha' & Hr' & Hf0 & Hf' & Hk') HneN]. split; [|done].
    split_and!; try done; try lia. apply Hfree; [apply div_nonneg; lia|done].
  - intros Hh. destruct (Hfr Hh) as [(Ha' & Hr' & Hf0 & Hf' & Hk') HneN].
    destruct Hsp as [_ Htabs]. destruct (Htabs k ltac:(lia) Hh) as [_ Htok].
    destruct (page_of_aligned (rd (pmem s) (D + 4 * k))) as (HTa & HTr & _);
      [apply rd_range, (vo_words _ _ (vw_ok _ _ (so_vm _ _ Hs)))|].
    apply (table_cloned_transport s u s u' (table_of s D k)); try done; try (by apply Ht).
    + unfold table_of. lia.
    + intros j Hj. apply Hw; (done || lia).
    + intros P j j' (HPa & HPr & HPf & HPt & _) Hj Hp E Hj'. apply Hw; try done; try lia.
      rewrite <- E. apply (Hav j); [done|]. unfold has_page. by rewrite Hh, Hp.
  - intros j Hj Hh. rewrite Hfn; [by apply Hav|done|]. unfold has_page in Hh. by apply andb_true_iff in Hh as [].
Qed.

Lemma page_has_table k j : has_page s D k j = true -> has_table s D k = true.
Proof. by intros [? _]%andb_true_iff. Qed.

(** The pages and tables of the clones are taken. *)
Lemma cloned_taken u k : dir_entry_cloned s u D ND k ->
  (forall j, 0 <= j < 1024 -> has_page s D k j = true -> is_free (frames u) (frame_number u ND k j) = false) /\
  (has_table s D k = true -> is_free (frames u) (table_of u ND k / 4096) = false).
Proof.
  intros [_ _ _ Hf Ht _]. split; [|intros Hh; by destruct (Hf Hh) as [(_ & _ & _ & ? & _) _]].
  intros j Hj [Hh Hp]%andb_true_iff.
  destruct (cloned_page _ _ _ _ j _ (Ht Hh) Hj Hp) as (P & _ & (_ & _ & _ & HPt & _) & _ & EP & _).
  unfold frame_number. by rewrite EP.
Qed.

Lemma cloning_dir_step i u u' : cloning_dir i u -> i < 1024 -> sys_ok u' ->
  mm_limit (frames u') = mm_limit (frames u) ->
  (forall m, 0 <= m -> is_free (frames u') m = true -> is_free (frames u) m = true) ->
  (forall pa, 0 <= pa -> is_free (frames u) (pa / 4096) = false -> pa <> ND + 4 * i ->
     rd (pmem u') pa = rd (pmem u) pa) ->
  dir_entry_cloned s u' D ND i ->
  (forall j, 0 <= j < 1024 -> has_page s D i j = true -> is_free (frames u) (frame_number u' ND i j) = true) ->
  (has_table s D i = true -> is_free (frames u) (table_of u' ND i / 4096) = true) ->
  (forall m, 0 <= m -> is_free (frames u) m = true -> is_free (frames u') m = false ->
     has_table s D i = true /\
     (m = table_of u' ND i / 4096 \/ exists j, 0 <= j < 1024 /\ has_page s D i j = true /\ frame_number u' ND i j = m)) ->
  at_least (frame_free u') (tables_from s D (i + 1) + n) -> cloning_dir (i + 1) u'.
Proof using All.
  intros Hc Hi Hs' Hlim Hfree Hmem Hnew Hpg Htb Hnt Hfr. pose proof Hc as [Hr Hext HN Hdone Hapart Htabs Htk Htodo _].
  assert (forall m, 0 <= m -> is_free (frames u) m = false -> is_free (frames u') m = false) as Hfree'.
  { intros m Hm E. destruct (is_free (frames u') m) eqn:E'; [|done]. apply Hfree in E'; [congruence|done]. }
  assert (forall k, 0 <= k < i -> table_of u' ND k = table_of u ND k /\ dir_entry_cloned s u' D ND k /\
    (forall j, 0 <= j < 1024 -> has_table s D k = true -> frame_number u' ND k j = frame_number u ND k j)) as Hkept
    by (intros k Hk; by apply (dir_entry_kept i u u' k)).
  assert (forall k j, 0 <= k < i -> 0 <= j < 1024 -> has_page s D k j = true ->
    is_free (frames u) (frame_number u ND k j) = false) as Hpt
    by (intros k j Hk; by apply cloned_taken, Hdone).
  assert (forall k, 0 <= k < i -> has_table s D k = true ->
    is_free (frames u) (table_of u ND k / 4096) = false) as Htt by (intros k Hk; by apply cloned_taken, Hdone).
  pose proof page_has_table as Hpht.
  split; [lia| | | | | | | |done].
  - split; [done|rewrite Hlim; apply Hext| |].
    + intros m Hm E. by apply Hext, Hfree.
    + intros pa H0 Hpa. rewrite <- (ex_mem _ _ _ Hext) by done. apply Hmem; [done| |].
      * destruct (is_free (frames u) (pa / 4096)) eqn:E; [|done].
        apply Hext in E; [congruence|by apply div_nonneg].
      * intros ->. rewrite frame_word in Hpa by (done || lia). cbn [frames set_pmem Virtual.upd_pte] in Hpa. congruence.
  - apply Hfree'; [apply div_nonneg; lia|done].
  - intros k Hk. destruct (decide (k = i)) as [->|]; [done|]. apply Hkept. lia.
  - intros k k' j j' Hk Hk' Hne Hj Hj' Hp Hp'.
    destruct (decide (k = i)) as [->|], (decide (k' = i)) as [->|]; [done|..].
    + rewrite (proj2 (proj2 (Hkept k' ltac:(lia)))) by eauto. intros E.
      specialize (Hpg j Hj Hp). rewrite E, Hpt in Hpg by (done || lia). done.
    + rewrite (proj2 (proj2 (Hkept k ltac:(lia)))) by eauto. intros E.
      specialize (Hpg j' Hj' Hp'). rewrite <- E, Hpt in Hpg by (done || lia). done.
    + rewrite (proj2 (proj2 (Hkept k ltac:(lia)))), (proj2 (proj2 (Hkept k' ltac:(lia)))) by eauto.
      apply Hapart; (done || lia).
  - intros k k' j Hk Hk' Hj Hp Hh E.
    destruct (decide (k = i)) as [->|], (decide (k' = i)) as [->|].
    + destruct Hnew as [_ _ _ _ Ht _]. apply andb_true_iff in Hp as [_ Hp].
      destruct (cloned_page _ _ _ _ j _ (Ht Hh) Hj Hp) as (P & _ & _ & HPN & EP & _).
      unfold frame_number in E. congruence.
    + specialize (Hpg j Hj Hp). rewrite E, (proj1 (Hkept k' ltac:(lia))), Htt in Hpg by (done || lia). done.
    + specialize (Htb Hh). rewrite <- E, (proj2 (proj2 (Hkept k ltac:(lia)))), Hpt in Htb by (eauto || lia). done.
    + rewrite (proj2 (proj2 (Hkept k ltac:(lia)))), (proj1 (Hkept k' ltac:(lia))) in E by eauto.
      revert E. apply Htabs; (done || lia).
  - intros m Hm Hms Hmu. destruct (is_free (frames u) m) eqn:Em.
    + right. exists i. split; [lia|]. by apply Hnt.
    + destruct (Htk m Hm Hms Em) as [->|(k & Hk & Hhk & Hcase)]; [by left|right]. exists k. split; [lia|].
      split; [done|]. destruct (Hkept k Hk) as (Et & _ & Efn). rewrite Et.
      destruct Hcase as [?|(j & Hj & Hpj & Ej)]; [by left|right]. exists j. by rewrite Efn.
  - intros k Hk. rewrite Hmem; [apply Htodo; lia|lia| |lia]. by rewrite frame_word by (done || lia).
Qed.

Lemma no_table_no_page k j : has_table s D k = false -> has_page s D k j = false.
Proof. unfold has_page. by intros ->. Qed.

(** An entry that is absent or shared. *)
Lemma plain_entry u i w : cloning_dir i u -> has_table s D i = false ->
  w = (if pt_present (rd (pmem s) (D + 4 * i)) then rd (pmem s) (D + 4 * i) else 0) ->
  rd (pmem u) (ND + 4 * i) = w -> dir_entry_cloned s u D ND i.
Proof.
  intros Hc Hh -> E. split; rewrite ?Hh; try done.
  - intros Hp. by rewrite Hp in E.
  - intros Hp _. by rewrite Hp in E.
  - intros j _. by rewrite no_table_no_page.
Qed.

Lemma table_entry u u' i N : cloning_dir i u -> i < 1024 -> has_table s D i = true ->
  table_step ND i (rd (pmem s) (D + 4 * i)) N u u' -> dir_entry_cloned s u' D ND i /\
  (forall j, 0 <= j < 1024 -> has_page s D i j = true -> is_free (frames u) (frame_number u' ND i j) = true) /\
  (forall m, 0 <= m -> is_free (frames u) m = true -> is_free (frames u') m = false ->
     m = table_of u' ND i / 4096 \/
     exists j, 0 <= j < 1024 /\ has_page s D i j = true /\ frame_number u' ND i j = m).
Proof using All.
  intros Hc Hi Hh [Hsys Hlim Hfree Hfresh Hent Htc Htkn Hrest]. pose proof Hc as [Hr Hext HN Hdone _ _ _ _ _].
  pose proof Hfresh as (HNa & HNr' & HNf' & HNt & HNk).
  assert (table_of u' ND i = N) as ET by (unfold table_of, page_of; rewrite Hent; by apply entry_split; [|lia]).
  destruct Hsp as [_ Htabs]. destruct (Htabs i ltac:(lia) Hh) as [_ Htok].
  destruct (page_of_aligned (rd (pmem s) (D + 4 * i))) as (HTa & HTr & _);
    [apply rd_range, (vo_words _ _ (vw_ok _ _ (so_vm _ _ Hs)))|].
  assert (forall j, 0 <= j < 1024 -> rd (pmem u) (table_of s D i + 4 * j) = rd (pmem s) (table_of s D i + 4 * j)) as HT.
  { intros j Hj. apply (space_word i); [done|unfold table_of; lia|]. exact (frame_word_used (table_of s D i) j HTa Hj (proj1 Htok)). }
  assert (forall j, 0 <= j < 1024 -> has_page s D i j = true ->
    is_free (frames u) (frame_number u' ND i j) = true) as Hpages.
  { intros j Hj [_ Hp]%andb_true_iff. unfold frame_number. rewrite ET.
    destruct (cloned_page _ _ _ _ j _ Htc Hj) as (P & _ & (_ & _ & HPf & _) & _ & -> & _); [|done].
    fold (table_of s D i). by rewrite HT. }
  split_and!; [|done|]; cycle 1.
  { intros m Hm Hmu Hmu'. rewrite ET. unfold frame_number. rewrite ET.
    destruct (Htkn m Hm Hmu Hmu') as [->|(k & Hk & Hpk & Ek)]; [by left|right]. exists k.
    split_and!; [lia|lia| |done]. fold (table_of s D i) in Hpk. unfold has_page. by rewrite Hh, <- HT. }
  split; rewrite ?ET; try done.
  - intros Hp. unfold has_table in Hh. by rewrite Hp in Hh.
  - intros _ Hsh. unfold has_table in Hh. by rewrite Hsh, andb_false_r in Hh.
  - intros _. split; [|congruence]. split_and!; try done; try lia. apply Hext; [apply div_nonneg; lia|done].
  - intros _. apply (table_cloned_transport u u' s u' (table_of s D i)); try done.
    + unfold table_of. lia.
    + intros pa. by apply (space_word i).
    + intros m Hm E. by apply Hext.
  - intros j Hj Hp E. specialize (Hpages j Hj Hp). congruence.
Qed.

Notation dir_t := (mkPgdir D (kernelstart + 4096 * d)).
Notation new_t := (mkPgdir ND (kernelstart + 4096 * nd)).

Lemma dir_slots i u : cloning_dir i u -> slot_maps u d D /\ slot_maps u nd ND.
Proof using Hs Hd Hnd Hnd0 HNal HNr Hbase.
  intros [_ Hext _ _ _ _ _ _ _]. split; (eapply ext_slot; [exact Hbase|exact Hext|]).
  - by apply slot_maps_other.
  - by apply slot_maps_upd.
Qed.

(** The three kinds of rounds. *)
Lemma dir_round_table i u : at_least (slot_free kpt base) 4 -> cloning_dir i u -> i < 1024 ->
  has_table s D i = true ->
  wp (clone_dir_entry kpt dir_t new_t i) (fun c u' => c = Continue (i + 1) /\ cloning_dir (i + 1) u') u.
Proof using All.
  intros Hsl Hc Hi Hh. pose proof Hc as [Hr Hext HN Hdone _ _ Htk Htodo Hfr]. pose proof (ex_sys _ _ _ Hext) as Hu.
  destruct (dir_slots i u Hc) as [Hud Hund]. pose proof (dir_entry_word i u i Hc ltac:(lia)) as ED.
  destruct (slot_maps_aligned _ s d D (so_vm _ _ Hs) Hd) as [HDa HDr].
  destruct Hsp as [HD Htabs]. destruct (Htabs i ltac:(lia) Hh) as [Hbig Htok].
  destruct (page_of_aligned (rd (pmem s) (D + 4 * i))) as (HTa & HTr & _);
    [apply rd_range, (vo_words _ _ (vw_ok _ _ (so_vm _ _ Hs)))|]. fold (table_of s D i) in HTa, HTr.
  assert (forall j, 0 <= j < 1024 -> rd (pmem u) (table_of s D i + 4 * j) = rd (pmem s) (table_of s D i + 4 * j)) as HT.
  { intros j Hj. apply (space_word i); [done|lia|]. exact (frame_word_used _ j HTa Hj (proj1 Htok)). }
  assert (table_ok kpt u (table_of s D i)) as Htok'.
  { destruct Htok as [H1 H2]. split; [apply (ext_used kpt base); [done|lia|done]|].
    intros j Hj. rewrite HT by done. intros Hp. apply (ext_used kpt base); [done| |by apply H2].
    destruct (page_of_aligned (rd (pmem s) (table_of s D i + 4 * j))) as (_ & ? & _);
      [apply rd_range, (vo_words _ _ (vw_ok _ _ (so_vm _ _ Hs)))|lia]. }
  pose proof Hh as [Hp Hnsh%negb_true_iff]%andb_true_iff.
  rewrite tables_from_step, Hh in Hfr by done.
  destruct (clone_table_entry_ok u d D nd ND i (tables_from s D (i + 1) + n)) as (u' & N & E & Hstep & Hfr');
    rewrite ?ED; try done; try lia.
  - apply (ext_used kpt base); [done|lia|done].
  - split; [done|apply dir_not_kpt].
  - apply Htodo. lia.
  - by apply (ext_slots kpt base).
  - fold (table_of s D i). by rewrite (pages_from_agree s u), Nat.add_assoc.
  - rewrite ED in Hstep. apply wp_Ok. eexists _, _. split; [exact E|]. split; [done|].
    destruct (table_entry u u' i N Hc Hi Hh Hstep) as (Hent & Hpg & Htaken).
    apply (cloning_dir_step i u u'); try done; try apply Hstep; [|by intros; split; [|apply Htaken]].
    intros _. pose proof (ts_fresh _ _ _ _ _ _ Hstep) as (HNa' & HNr' & HNf' & _).
    replace (table_of u' ND i) with N; [done|]. unfold table_of, page_of. rewrite (ts_entry _ _ _ _ _ _ Hstep).
    symmetry. by apply entry_split; [|lia].
Qed.

Lemma dir_round_plain i u : cloning_dir i u -> i < 1024 -> has_table s D i = false ->
  wp (clone_dir_entry kpt dir_t new_t i) (fun c u' => c = Continue (i + 1) /\ cloning_dir (i + 1) u') u.
Proof using All.
  intros Hc Hi Hh. pose proof Hc as [Hr Hext HN Hdone _ _ Htk Htodo Hfr]. pose proof (ex_sys _ _ _ Hext) as Hu.
  destruct (dir_slots i u Hc) as [Hud Hund]. pose proof (dir_entry_word i u i Hc ltac:(lia)) as ED.
  rewrite tables_from_step, Hh in Hfr by done. cbn [Nat.add] in Hfr.
  assert (forall u', (forall j, 0 <= j < 1024 -> has_page s D i j = true ->
    is_free (frames u) (frame_number u' ND i j) = true)) as Hno by (intros u' j _; by rewrite no_table_no_page).
  unfold clone_dir_entry. rewrite (proj2 (Z.ltb_lt i PGDIR_NUM_ENTRIES)) by (unfold PGDIR_NUM_ENTRIES; lia).
  cbn [dir_va]. apply wp_bind, wp_Ok. eexists _, _.
  split; [apply (read_slot kpt u d D); [apply Hu|done|lia]|]. rewrite ED. fold (shared i).
  destruct (pt_present (rd (pmem s) (D + 4 * i))) eqn:Hp.
  - assert (shared i = true) as Hsh by (unfold has_table in Hh; rewrite Hp in Hh; by apply negb_false_iff).
    rewrite Hsh. apply wp_bind, wp_Ok. eexists _, _.
    split; [apply (write_slot kpt u nd ND); [apply Hu|done|apply dir_not_kpt|lia]|].
    apply wp_ret. split; [done|]. set (u' := poke _ _ u).
    assert (forall pa, pa <> ND + 4 * i -> rd (pmem u') pa = rd (pmem u) pa) as Hr'
      by (intros pa Hpa; unfold u', poke; cbn [pmem set_pmem]; by rewrite rd_wr, (proj2 (Z.eqb_neq _ _))).
    apply (cloning_dir_step i u u'); try done; [|by intros; apply Hr'| |apply Hno|by rewrite Hh|by unfold u', poke; cbn [frames set_pmem]; intros m _ ->].
    + destruct Hu as [Hv Hph Hk]. split; [|done|done]. apply poke_vm; [done| |].
      * rewrite frame_word by (done || lia). apply dir_not_kpt.
      * apply rd_range, (vo_words _ _ (vw_ok _ _ (so_vm _ _ Hs))).
    + split; rewrite ?Hh; try done; try congruence.
      * intros _ _. unfold u', poke. cbn [pmem set_pmem]. by rewrite rd_wr, Z.eqb_refl.
      * intros j _. by rewrite no_table_no_page.
  - apply wp_ret. split; [done|]. apply (cloning_dir_step i u u); try done; [|apply Hno|by rewrite Hh|by intros m _ ->].
    eapply plain_entry; [done|done|done|]. rewrite Hp. apply Htodo. lia.
Qed.

Lemma cloning_dir_loop u : at_least (slot_free kpt base) 4 -> cloning_dir 0 u ->
  wp (mloop 1025 (clone_dir_entry kpt dir_t new_t) 0) (fun r u' => r = true /\ cloning_dir 1024 u') u.
Proof using All.
  intros Hsl Hc. apply (wp_mloop _ cloning_dir _ (fun i _ => Z.to_nat (1024 - i))); [|done|lia].
  intros i u' Hi. pose proof (cd_range _ _ Hi). destruct (Z.ltb_spec i 1024) as [Hlt|Hge].
  - assert (wp (clone_dir_entry kpt dir_t new_t i) (fun c u' => c = Continue (i + 1) /\ cloning_dir (i + 1) u') u') as Hw
      by (destruct (has_table s D i) eqn:Hh; [by apply dir_round_table|by apply dir_round_plain]).
    eapply wp_mono; [exact Hw|]. intros c u'' [-> Hc']. split; [done|]. lia.
  - unfold clone_dir_entry. rewrite (proj2 (Z.ltb_ge i PGDIR_NUM_ENTRIES)) by (unfold PGDIR_NUM_ENTRIES; lia).
    apply wp_ret. split; [done|]. by replace 1024 with i by lia.
Qed.
End dir.

Lemma clone_page_directory_ok s d D n :
  sys_ok s -> slot_maps s d D -> space_ok s D -> at_least (slot_free kpt s) 5 ->
  at_least (frame_free s) (S (tables_from s D 0 + n)) ->
  exists s' ND nd, clone_page_directory kpt (mkPgdir D (kernelstart + 4096 * d)) s =
      Ok (mkPgdir ND (kernelstart + 4096 * nd), s') /\
    0 <= nd < 1024 /\ pte s nd = 0 /\ fresh_frame s s' ND /\
    sys_ok (upd_pte nd (Z.lor ND 3) s) /\ cloning_dir s D nd ND n 1024 s'.
Proof.
  intros Hs Hd Hsp Hsl Hfr.
  destruct (fresh_page_ok kpt s _ 4 Hs Hsl Hfr) as (N & nt & s1 & s2 & s3 & Ealloc & Emap & Eclear &
    Hnt & Hne & Hnt0 & (HNal & HNr & HNf & HNt & HNk) & Hbase & Hext3 & Hz & Hex & Hsl2 & Hfr3).
  assert (cloning_dir s D nt N n 0 s3) as Hcl.
  { split; try done; try lia; try (intros; lia). intros m Hm Hms Hmu. left. by apply Hex. }
  destruct (proj1 (wp_Ok _ _ _) (cloning_dir_loop s d D nt N n Hs Hd Hsp Hnt Hnt0 HNal HNr
    HNf Hbase s3 Hsl2 Hcl)) as (r & s4 & Eloop & -> & Hc).
  exists s4, N, nt. pose proof Hc as [_ _ Hnew _ _ _ _ _ _]. split_and!; try done; try lia.
  unfold clone_page_directory. erewrite bind_Ok_eq by exact Ealloc. rewrite frame_none by done.
  erewrite bind_Ok_eq by exact Emap. rewrite (proj2 (Z.eqb_neq _ 0)) by (unfold kernelstart; lia). cbv zeta.
  erewrite bind_Ok_eq by exact Eclear. by erewrite bind_Ok_eq by exact Eloop.
Qed.

(** ** What the processor sees *)

Definition user_address (va : Z) : Prop := 0 <= va < 2 ^ 32 /\ shared (va / 2 ^ 22) = false.

(** The directory [ND] in [s'] is a clone of [D] in [s]. *)
Record clone_of (s : mmu) (D : Z) (s' : mmu) (ND : Z) : Prop := mkCloneOf {
  co_user : forall va, user_address va ->
    match walk (pmem s) D va with
    | NotPresent => walk (pmem s') ND va = NotPresent
    | SmallPage f => exists f', walk (pmem s') ND va = SmallPage f' /\ fresh_frame s s' f' /\
        forall j, 0 <= j < 1024 -> rd (pmem s') (f' + 4 * j) = rd (pmem s) (f + 4 * j)
    | BigPage _ => False
    end;
  co_apart : forall va va' f f', user_address va -> user_address va' -> va / 4096 <> va' / 4096 ->
    walk (pmem s') ND va = SmallPage f -> walk (pmem s') ND va' = SmallPage f' -> f <> f';
  co_kernel : forall va, 0 <= va < 2 ^ 32 -> shared (va / 2 ^ 22) = true ->
    walk (pmem s') ND va = walk (pmem s') D va;
  co_parent : forall va, user_address va -> walk (pmem s') D va = walk (pmem s) D va
}.

Section seen.
Context (s s' : mmu) (d D nd ND : Z) (n : nat).
Context (Hs : sys_ok s) (Hd : slot_maps s d D) (Hsp : space_ok s D) (Hnd : 0 <= nd < 1024).
Context (Hc : cloning_dir s D nd ND n 1024 s').

Lemma page_index va : 0 <= (va / 4096) mod 1024 < 1024.
Proof. apply Z.mod_pos_bound. lia. Qed.

Lemma entry_page_of e : e / 4096 * 4096 = page_of e.
Proof. done. Qed.

Lemma walk_no_pde m D' va : pt_present (rd m (D' + 4 * (va / 2 ^ 22))) = false -> walk m D' va = NotPresent.
Proof. intros H. unfold walk. by rewrite H. Qed.

Lemma walk_table m D' va e : rd m (D' + 4 * (va / 2 ^ 22)) = e -> pt_present e = true -> pd_page_size e = false ->
  walk m D' va = let w := rd m (page_of e + 4 * ((va / 4096) mod 1024)) in
    if pt_present w then SmallPage (page_of w) else NotPresent.
Proof. intros <- Hp Hb. unfold walk. rewrite Hp, Hb. cbn [negb]. cbv zeta. unfold page_of. set (w := rd m (_ + 4 * ((va / 4096) mod 1024))). by destruct (pt_present w). Qed.

Lemma parent_entry k : 0 <= k < 1024 -> rd (pmem s') (D + 4 * k) = rd (pmem s) (D + 4 * k).
Proof using All. intros Hk. by eapply (dir_entry_word s d D nd ND n). Qed.

(** The clone of a page. *)
Lemma clone_walk va : user_address va ->
  let i := va / 2 ^ 22 in let j := (va / 4096) mod 1024 in
  if has_page s D i j then
    walk (pmem s') ND va = SmallPage (page_of (rd (pmem s') (table_of s' ND i + 4 * j))) /\
    walk (pmem s) D va = SmallPage (page_of (rd (pmem s) (table_of s D i + 4 * j)))
  else walk (pmem s') ND va = NotPresent /\ walk (pmem s) D va = NotPresent.
Proof using All.
  intros [Hr Hush] i j. pose proof (pgdir_i_range va Hr) as Hi. pose proof (page_index va) as Hj.
  fold i in Hi, Hush. fold j in Hj. destruct (cd_done _ _ _ _ _ _ _ Hc i Hi) as [Ha Hsh He Hf Ht _].
  unfold has_page. destruct (has_table s D i) eqn:Hh; cbn [andb].
  - pose proof Hh as [Hp _]%andb_true_iff. destruct (proj2 Hsp i Hi Hh) as [Hbig _].
    destruct (Hf eq_refl) as [(HNa & HNr & _) _]. specialize (Ht eq_refl).
    assert (walk (pmem s) D va = if pt_present (rd (pmem s) (table_of s D i + 4 * j))
      then SmallPage (page_of (rd (pmem s) (table_of s D i + 4 * j))) else NotPresent) as ->
      by (rewrite (walk_table _ _ _ _ eq_refl); [done|exact Hp|exact Hbig]).
    destruct (entry_flags (rd (pmem s) (D + 4 * i)) (table_of s' ND i) HNa ltac:(lia)) as [Ef1 Ef2].
    rewrite <- He in Ef1, Ef2 by done.
    assert (walk (pmem s') ND va = if pt_present (rd (pmem s') (table_of s' ND i + 4 * j))
      then SmallPage (page_of (rd (pmem s') (table_of s' ND i + 4 * j))) else NotPresent) as ->
      by (rewrite (walk_table _ _ _ _ eq_refl); [done|fold i; congruence|fold i; congruence]).
    destruct (pt_present (rd (pmem s) (table_of s D i + 4 * j))) eqn:Hpt.
    + destruct (cloned_page _ _ _ _ j _ Ht Hj Hpt) as (P & E & (HPa & HPr & _) & _).
      destruct (entry_flags (rd (pmem s) (table_of s D i + 4 * j)) P HPa ltac:(lia)) as [Ef _].
      by rewrite E, Ef, Hpt.
    + pose proof (tc_entry _ _ _ _ _ _ Ht j Hj) as Hen. unfold entry_cloned in Hen. rewrite Hpt in Hen. by rewrite Hen.
  - unfold has_table in Hh. rewrite Hush, andb_true_r in Hh. rewrite !walk_no_pde; [done|done|].
    fold i. by rewrite Ha.
Qed.

Lemma same_entry va va' : 0 <= va -> 0 <= va' -> va / 2 ^ 22 = va' / 2 ^ 22 ->
  (va / 4096) mod 1024 = (va' / 4096) mod 1024 -> va / 4096 = va' / 4096.
Proof.
  intros H0 H0' E1 E2. change (2 ^ 22) with (4096 * 1024) in E1. rewrite <- !Z.div_div in E1 by lia.
  rewrite (Z.div_mod (va / 4096) 1024), (Z.div_mod (va' / 4096) 1024) by lia. congruence.
Qed.

Lemma clone_seen : clone_of s D s' ND.
Proof using All.
  assert (forall e, page_of e / 4096 = e / 4096) as Hpo by (intros e; unfold page_of; by rewrite Z.div_mul by lia).
  split.
  - intros va Hva. pose proof (clone_walk va Hva) as Hw. pose proof (page_index va) as Hj.
    pose proof (pgdir_i_range va (proj1 Hva)) as Hi. cbv zeta in Hw.
    destruct (has_page s D (va / 2 ^ 22) ((va / 4096) mod 1024)) eqn:Hp; destruct Hw as [-> ->]; [|done].
    apply andb_true_iff in Hp as [Hh Hp]. destruct (cd_done _ _ _ _ _ _ _ Hc _ Hi) as [_ _ _ _ Ht _].
    destruct (cloned_page _ _ _ _ _ _ (Ht Hh) Hj Hp) as (P & E & HP & _ & Ediv & Hpg).
    assert (page_of (rd (pmem s') (table_of s' ND (va / 2 ^ 22) + 4 * ((va / 4096) mod 1024))) = P) as ->.
    { rewrite E. apply entry_split; [apply HP|]. destruct HP as (_ & ? & _). lia. }
    exists P. by split_and!.
  - intros va va' f f' Hva Hva' Hne. pose proof (clone_walk va Hva) as Hw. pose proof (clone_walk va' Hva') as Hw'.
    cbv zeta in Hw, Hw'. pose proof (page_index va) as Hj. pose proof (page_index va') as Hj'.
    pose proof (pgdir_i_range va (proj1 Hva)) as Hi. pose proof (pgdir_i_range va' (proj1 Hva')) as Hi'.
    destruct (has_page s D (va / 2 ^ 22) _) eqn:Hp; destruct Hw as [-> _]; [intros [= <-]|done].
    destruct (has_page s D (va' / 2 ^ 22) _) eqn:Hp'; destruct Hw' as [-> _]; [intros [= <-]|done].
    intros E. apply (f_equal (fun x => x / 4096)) in E. rewrite !Hpo in E. revert E.
    destruct (decide (va / 2 ^ 22 = va' / 2 ^ 22)) as [Ei|Ei].
    + apply andb_true_iff in Hp as [Hh Hp], Hp' as [_ Hp']. rewrite Ei in *.
      destruct (cd_done _ _ _ _ _ _ _ Hc _ Hi') as [_ _ _ _ Ht _]. apply (Ht Hh); try done.
      intros Ej. apply Hne. apply same_entry; try done; [apply Hva|apply Hva'].
    + by apply (cd_apart _ _ _ _ _ _ _ Hc).
  - intros va Hr Hsh. pose proof (pgdir_i_range va Hr) as Hi. pose proof (parent_entry _ Hi) as Ep.
    destruct (cd_done _ _ _ _ _ _ _ Hc _ Hi) as [Ha Hsh' _ _ _ _].
    destruct (pt_present (rd (pmem s) (D + 4 * (va / 2 ^ 22)))) eqn:Hp.
    + unfold walk. by rewrite Hsh', Ep.
    + rewrite !walk_no_pde; [done|by rewrite Ep|by rewrite Ha].
  - intros va [Hr Hush]. pose proof (pgdir_i_range va Hr) as Hi. pose proof (parent_entry _ Hi) as Ep.
    pose proof (page_index va) as Hj.
    destruct (pt_present (rd (pmem s) (D + 4 * (va / 2 ^ 22)))) eqn:Hp.
    + assert (has_table s D (va / 2 ^ 22) = true) as Hh by (unfold has_table; by rewrite Hp, Hush).
      destruct (proj2 Hsp _ Hi Hh) as [Hbig Htok].
      rewrite (walk_table (pmem s') D va _ Ep), (walk_table (pmem s) D va _ eq_refl) by done.
      destruct (page_of_aligned (rd (pmem s) (D + 4 * (va / 2 ^ 22)))) as (HTa & HTr & _);
        [apply rd_range, (vo_words _ _ (vw_ok _ _ (so_vm _ _ Hs)))|].
      rewrite (space_word s D nd ND n Hs Hnd 1024 s'); [done|done|lia|].
      exact (frame_word_used s _ _ HTa Hj (proj1 Htok)).
    + by rewrite !walk_no_pde by (done || by rewrite Ep).
Qed.
End seen.
End clone.

(** ** The theorem *)

(** C12: [clone_page_directory] of an address space whose user part consists of 4 KiB pages,
    with enough free frames for the copies and five free slots of the window, returns a
    directory, mapped at a slot that was free, in which every user page is a copy of the
    parent's in a frame of its own that was free before, and kernel addresses translate
    as in the parent.  Nothing that was in use changes, apart from that slot: in
    particular the parent translates as before and its pages keep their contents. *)
Theorem clone_page_directory_correct kpt s d D :
  sys_ok kpt s -> slot_maps kpt s d D -> space_ok kpt s D -> at_least (slot_free kpt s) 5 ->
  at_least (frame_free s) (S (tables_from s D 0)) ->
  exists s' ND nd, clone_page_directory kpt (mkPgdir D (kernelstart + 4096 * d)) s =
      Ok (mkPgdir ND (kernelstart + 4096 * nd), s') /\
    slot_free kpt s nd /\ slot_maps kpt s' nd ND /\ fresh_frame kpt s s' ND /\
    ext kpt (upd_pte kpt nd (Z.lor ND 3) s) s' /\ clone_of kpt s D s' ND.
Proof.
  intros Hs Hd Hsp Hsl Hfr.
  destruct (clone_page_directory_ok kpt s d D 0 Hs Hd Hsp Hsl ltac:(by rewrite Nat.add_0_r)) as (s' & ND & nd & E & Hnd & Hnd0 & HN & Hb & Hc).
  pose proof HN as (HNa & HNr & _). exists s', ND, nd. split_and!; try done; try lia.
  - eapply ext_slot; [exact Hb|apply Hc|]. by apply slot_maps_upd.
  - apply Hc.
  - by apply (clone_seen kpt s s' d D nd ND 0).
Qed.

(** ** An example

    The kernel page table at 0x1000; slot 0 maps the directory at 0x2000, which has a
    table at 0x3000 with one page at 0x7000 for user address 0x405000, a table at 0x4000
    with one page at 0x6000 for user address 0x200000, and the kernel entry.  Frames 0 to 31 are in use, 32 to 63 are free. *)

Definition fork_mmu : mmu :=
  mkMmu (list_to_map [(0x1000, 0x2003); (0x1FC4, 0x1003); (0x2000, 0x4007); (0x2004, 0x3007);
                      (0x2FFC, 0x1003); (0x3014, 0x7007); (0x4800, 0x6007); (0x7008, 0xCAFE)])
        ∅ (mkPhys (0 :: replicate 32767 (2 ^ 32 - 1)) 64).

Lemma fork_words pa : pa ∉ [0x1000; 0x1FC4; 0x2000; 0x2004; 0x2FFC; 0x3014; 0x4800; 0x7008] -> rd (pmem fork_mmu) pa = 0.
Proof.
  intros H. unfold rd. cbn [pmem fork_mmu list_to_map foldr fst snd].
  rewrite !lookup_insert_ne, lookup_empty by set_solver. done.
Qed.

Lemma fork_used n : 0 <= n < 32 -> is_free (frames fork_mmu) n = false.
Proof.
  intros Hn. unfold is_free. rewrite Z.shiftr_div_pow2, Z.div_small by lia.
  cbn [Z.to_nat frames fork_mmu mm_table lookup list_lookup]. apply Z.bits_0.
Qed.

Lemma fork_free n : 32 <= n < 64 -> is_free (frames fork_mmu) n = true.
Proof.
  intros Hn. unfold is_free. rewrite Z.shiftr_div_pow2 by lia.
  assert (n / 2 ^ 5 = 1) as -> by (symmetry; apply (Z.div_unique_pos _ _ _ (n - 32)); lia).
  change (Z.to_nat 1) with 1%nat. cbn [frames fork_mmu mm_table]. rewrite lookup_cons.
  rewrite lookup_replicate_2 by (apply Nat.ltb_lt; vm_compute; reflexivity). change (2 ^ 32 - 1) with (Z.ones 32).
  pose proof (Z.mod_pos_bound n 32 ltac:(lia)). apply Z.ones_spec_low. lia.
Qed.

Lemma fork_sys : sys_ok 0x1000 fork_mmu.
Proof.
  split; [| |by apply fork_used].
  - split; [|done]. split; [|done|done|set_solver]. unfold mem_wf.
    cbn [pmem fork_mmu list_to_map foldr fst snd]. do 8 (apply map_Forall_insert_2; [lia|]).
    apply map_Forall_empty.
  - split; [done| |done]. cbn [frames fork_mmu mm_table].
    apply Forall_cons. split; [lia|]. by apply Forall_replicate.
Qed.

Lemma fork_in_use f : 0 <= f / 4096 < 32 -> f / 4096 <> 1 -> in_use 0x1000 fork_mmu f.
Proof. intros Hf Hne. split; [by apply fork_used|done]. Qed.

(** An index at which a word of the example is present. *)
Lemma fork_present f i : 0 <= i < 1024 -> f mod 4096 = 0 -> pt_present (rd (pmem fork_mmu) (f + 4 * i)) = true ->
  f + 4 * i ∈ [0x1000; 0x1FC4; 0x2000; 0x2004; 0x2FFC; 0x3014; 0x4800; 0x7008].
Proof.
  intros Hi Hf Hp. destruct (decide (f + 4 * i ∈ [0x1000; 0x1FC4; 0x2000; 0x2004; 0x2FFC; 0x3014; 0x4800; 0x7008])); [done|].
  by rewrite fork_words in Hp.
Qed.

Lemma fork_space : space_ok 0x1000 fork_mmu 0x2000.
Proof.
  split; [by apply fork_in_use|]. intros i Hi [Hp Hsh]%andb_true_iff.
  pose proof (fork_present 0x2000 i Hi ltac:(done) Hp) as Hin.
  assert (i = 0 \/ i = 1 \/ i = 1023) as [-> | [-> | ->]]; [|split; [done|]|split; [done|]|done].
  { rewrite !elem_of_cons, elem_of_nil in Hin. lia. }
  - change (table_of fork_mmu 0x2000 0) with 0x4000. split; [by apply fork_in_use|].
    intros k Hk Hpk. pose proof (fork_present 0x4000 k Hk ltac:(done) Hpk) as Hin'.
    assert (k = 0x200) as -> by (rewrite !elem_of_cons, elem_of_nil in Hin'; lia). by apply fork_in_use.
  - change (table_of fork_mmu 0x2000 1) with 0x3000. split; [by apply fork_in_use|].
    intros k Hk Hpk. pose proof (fork_present 0x3000 k Hk ltac:(done) Hpk) as Hin'.
    assert (k = 5) as -> by (rewrite !elem_of_cons, elem_of_nil in Hin'; lia). by apply fork_in_use.
Qed.

Lemma fork_frames : at_least (frame_free fork_mmu) (S (tables_from fork_mmu 0x2000 0)).
Proof.
  assert (tables_from fork_mmu 0x2000 0 = 4%nat) as -> by (vm_compute; reflexivity).
  exists [32; 33; 34; 35; 36]. split; [apply (bool_decide_unpack _); vm_compute; exact I|]. split; [reflexivity|].
  repeat constructor; try lia; apply fork_free; lia.
Qed.

(** The clone of the example has a page of its own with the word of the parent's. *)
Lemma clone_page_directory_correct_witness :
  exists s' ND nd f, clone_page_directory 0x1000 (mkPgdir 0x2000 kernelstart) fork_mmu =
      Ok (mkPgdir ND (kernelstart + 4096 * nd), s') /\
    walk (pmem s') ND 0x405008 = SmallPage f /\ 32 <= f / 4096 /\ rd (pmem s') (f + 4 * 2) = 0xCAFE.
Proof.
  destruct (clone_page_directory_correct 0x1000 fork_mmu 0 0x2000) as (s' & ND & nd & E & _ & _ & _ & _ & Hc).
  - apply fork_sys.
  - split; [lia|]. split; reflexivity.
  - apply fork_space.
  - exists [1; 2; 3; 4; 5]. split; [apply (bool_decide_unpack _); vm_compute; exact I|]. split; [reflexivity|].
    repeat constructor; try lia.
  - exact fork_frames.
  - assert (user_address 0x405008) as Hu by (split; [lia|reflexivity]).
    destruct (co_user _ _ _ _ _ Hc 0x405008 Hu) as (f & Hw & Hf & Hcopy).
    exists s', ND, nd, f. split; [exact E|]. split; [exact Hw|]. split.
    + destruct Hf as (_ & Hr & Hff & _). destruct (Z.le_gt_cases 32 (f / 4096)) as [|Hlt]; [done|].
      rewrite fork_used in Hff; [done|]. split; [apply Z.div_pos; lia|done].
    + rewrite Hcopy by lia. reflexivity.
Defined.
