(* ===== verification/Exit.v ===== *)
(** * Releasing an address space: the memory part of __exit

    The loops of [__exit] (interrupt_handler.c) that return the frames of the exiting
    process to the bitmap, against the tables of its address space, and the balance of
    [fork] and [exit]: what [clone_page_directory] takes is given back, except the copies
    of the video pages. *)

From Stdlib Require Import ZArith Lia.
From S2P Require Import Prelude Physical Virtual VirtualThm Clone CloneThm.
From stdpp Require Import base gmap sets fin_sets numbers strings list.
Local Open Scope Z_scope.

(** ** The code *)

(** [BITMAP_SET (mm_table, index)]. *)
Definition release_frame (index : Z) : M mmu unit :=
  on_frames (let! t := gets mm_table in
             let! t' := lift (BITMAP_SET t index) in
             modify (set_mm_table t')).

Section exit.
Context (kpt : Z).

(** The loop over [j]. *)
Definition exit_page_body (i tmp_page : Z) (j : Z) : M mmu (control Z unit) :=
  if j <? 1024 then
    let! w := vread kpt (entry tmp_page j) in
    when (negb (w =? 0))
      (when ((j <? 0x200) || (0x20F <? j) || negb (i =? 0))
         (let! w := vread kpt (entry tmp_page j) in
          release_frame (Z.shiftr w 12))) ;;!
    ret (Continue (j + 1))
  else ret (Break tt).

(** The loop over [i]. *)
Definition exit_table_body (virt_addr : Z) (i : Z) : M mmu (control Z unit) :=
  if i <? 1023 then
    let! e := vread kpt (entry virt_addr i) in
    when (negb (e =? 0) && (Z.land e 0x80 =? 0))
      (let! tmp_page := map_virtual_page kpt (Z.lor e 3) in
       mloop 1025 (exit_page_body i tmp_page) 0 ;;!
       unmap_virtual_page kpt tmp_page ;;!
       let! e := vread kpt (entry virt_addr i) in
       release_frame (Z.shiftr e 12)) ;;!
    ret (Continue (i + 1))
  else ret (Break tt).

(** From [phys_addr = get_pdbr ()] to [unmap_virtual_page (virt_addr)]. *)
Definition exit_memory (phys_addr : Z) : M mmu unit :=
  let! virt_addr := map_virtual_page kpt (Z.lor phys_addr 3) in
  mloop 1024 (exit_table_body virt_addr) 0 ;;!
  release_frame (Z.shiftr phys_addr 12) ;;!
  unmap_virtual_page kpt virt_addr.

(** The part of [_fork] on the address space: the physical address of the new directory. *)
Definition fork_memory (phys_addr : Z) : M mmu Z :=
  let! virt_addr := map_virtual_page kpt (Z.lor phys_addr 3) in
  if virt_addr =? 0 then fail (Panic "_fork: virt_addr: out of memory")
  else
    let parentpgd := mkPgdir phys_addr virt_addr in
    let! childpgd := clone_page_directory kpt parentpgd in
    if dir_pa childpgd =? NO_FRAME then fail (Panic "_fork: clone_page_directory: failed")
    else
      unmap_virtual_page kpt (dir_va parentpgd) ;;!
      unmap_virtual_page kpt (dir_va childpgd) ;;!
      ret (dir_pa childpgd).
End exit.

(** ** Specification *)

(** The frames in [P] become free, and no other. *)
Record freed (P : Z -> Prop) (f f' : phys) : Prop := mkFreed {
  fr_wf : phys_wf f';
  fr_limit : mm_limit f' = mm_limit f;
  fr_free : forall m, 0 <= m -> (is_free f' m = true <-> is_free f m = true \/ P m)
}.

(** The entries whose pages are video memory. *)
Definition video (i j : Z) : bool := (i =? 0) && (0x200 <=? j) && (j <=? 0x20F).

(** Entry [i] of the directory at [D] is one whose table is released. *)
Definition tabled (s : mmu) (D i : Z) : bool :=
  negb (rd (pmem s) (D + 4 * i) =? 0) && negb (pd_page_size (rd (pmem s) (D + 4 * i))).

(** The frames of the first [n] pages of the table of entry [i]. *)
Definition page_frames (s : mmu) (T i n m : Z) : Prop :=
  exists j, 0 <= j < n /\ rd (pmem s) (T + 4 * j) <> 0 /\ video i j = false /\ m = rd (pmem s) (T + 4 * j) / 4096.

(** The frames of the tables of the first [n] entries, and of their pages. *)
Definition table_frames (s : mmu) (D n m : Z) : Prop :=
  exists i, 0 <= i < n /\ tabled s D i = true /\
    (m = rd (pmem s) (D + 4 * i) / 4096 \/ page_frames s (table_of s D i) i 1024 m).

(** The frames of the address space at [D] that are released. *)
Definition space_frames (s : mmu) (D m : Z) : Prop := m = D / 4096 \/ table_frames s D 1023 m.

(** ** The bitmap *)

Lemma freed_none f : phys_wf f -> freed (fun _ => False) f f.
Proof. intros Hf. split; [done|done|]. tauto. Qed.

Lemma freed_trans P Q f1 f2 f3 : freed P f1 f2 -> freed Q f2 f3 -> freed (fun m => P m \/ Q m) f1 f3.
Proof.
  intros [_ L1 F1] [W2 L2 F2]. split; [done|congruence|]. intros m Hm. rewrite F2, F1 by done. tauto.
Qed.

Lemma freed_iff P Q f f' : freed P f f' -> (forall m, 0 <= m -> (P m <-> Q m)) -> freed Q f f'.
Proof. intros [W L F] H. split; [done|done|]. intros m Hm. by rewrite F, H. Qed.

Lemma release_frame_ok s n : phys_wf (frames s) -> 0 <= n < 2 ^ 20 ->
  exists p, release_frame n s = Ok (tt, set_frames p s) /\ freed (fun m => m = n) (frames s) p.
Proof.
  intros Hf Hn. destruct (bitmap_set_ok (frames s) n Hf) as (t & Et & Hm); [unfold PHYS_INDEX_MAX; lia|].
  exists (set_mm_table t (frames s)). split.
  - unfold release_frame, on_frames, bind, gets, lift, modify. by rewrite Et.
  - destruct Hm as [W L F]. split; [done|done|]. intros m H0. rewrite F by done.
    destruct (Z.leb_spec n m), (Z.ltb_spec m (n + 1)); cbn; (split; [intros ?|intros [?|?]]); try done; lia || tauto.
Qed.

Lemma frame_index w : 0 <= w < 2 ^ 32 -> Z.shiftr w 12 = w / 4096 /\ 0 <= w / 4096 < 2 ^ 20.
Proof.
  intros Hw. rewrite Z.shiftr_div_pow2 by lia. split; [done|].
  split; [apply Z.div_pos; lia|apply Z.div_lt_upper_bound; lia].
Qed.

Section exit.
Context (kpt : Z).
Notation pte := (pte kpt).
Notation upd_pte := (upd_pte kpt).
Notation vm_wf := (vm_wf kpt).
Notation slot_maps := (slot_maps kpt).
Notation slot_free := (slot_free kpt).

Lemma frames_vm s p : vm_wf s -> vm_wf (set_frames p s).
Proof. intros [[H1 H2 H3 H4] H5]. by split; [split|]. Qed.

(** One more page. *)
Lemma page_frames_step s T i j (P : Prop) m :
  (P <-> rd (pmem s) (T + 4 * j) <> 0 /\ video i j = false /\ m = rd (pmem s) (T + 4 * j) / 4096) -> 0 <= j ->
  (page_frames s T i j m \/ P <-> page_frames s T i (j + 1) m).
Proof.
  intros HP Hj. rewrite HP. split.
  - intros [(k & Hk & Hrest)|Hrest]; [exists k|exists j]; (split; [lia|done]).
  - intros (k & Hk & Hrest). destruct (decide (k = j)) as [->|]; [by right|left]. exists k. split; [lia|done].
Qed.

Lemma video_cond i j : (j <? 0x200) || (0x20F <? j) || negb (i =? 0) = negb (video i j).
Proof. unfold video. rewrite !negb_andb, Z.leb_antisym, (Z.leb_antisym 0x20F), !negb_involutive.
  by destruct (i =? 0), (j <? 0x200), (0x20F <? j). Qed.

Lemma exit_pages_ok s a T i : vm_wf s -> phys_wf (frames s) -> slot_maps s a T ->
  exists p, mloop 1025 (exit_page_body kpt i (kernelstart + 4096 * a)) 0 s = Ok (tt, set_frames p s) /\
    freed (page_frames s T i 1024) (frames s) p.
Proof.
  intros Hs Hf Ha.
  assert (wp (mloop 1025 (exit_page_body kpt i (kernelstart + 4096 * a)) 0)
    (fun _ u => exists p, u = set_frames p s /\ freed (page_frames s T i 1024) (frames s) p) s) as Hwp.
  { apply (wp_mloop _ (fun j u => 0 <= j <= 1024 /\ exists p, u = set_frames p s /\
      freed (page_frames s T i j) (frames s) p) _ (fun j _ => Z.to_nat (1024 - j))); [| |lia].
    - intros j u (Hj & p & -> & Hp). unfold exit_page_body. zcase; cycle 1.
      { apply wp_ret. exists p. split; [done|]. by replace 1024 with j by lia. }
      assert (0 <= rd (pmem s) (T + 4 * j) < 2 ^ 32) as Hw by (apply rd_range, (vo_words _ _ (vw_ok _ _ Hs))).
      pose proof (read_slot kpt (set_frames p s) a T j (frames_vm s p Hs) Ha ltac:(lia)) as Er.
      cbn [pmem set_frames] in Er. set (w := rd (pmem s) (T + 4 * j)) in *.
      apply wp_bind, wp_Ok. eexists _, _. split; [exact Er|]. apply wp_bind. rewrite video_cond.
      assert (forall p', freed (fun m => w <> 0 /\ video i j = false /\ m = w / 4096) p p' ->
        freed (page_frames s T i (j + 1)) (frames s) p') as Hnext.
      { intros p' Hp'. eapply freed_iff; [by eapply freed_trans|]. intros m _. apply page_frames_step; [done|lia]. }
      assert (freed (fun _ => False) p p) as Hnone by (apply freed_none, Hp).
      apply wp_when; [intros Ew%negb_true_iff%Z.eqb_neq|intros Ew%negb_false_iff%Z.eqb_eq];
        [apply wp_when; [intros Ev%negb_true_iff|intros Ev%negb_false_iff]|].
      + apply wp_bind, wp_Ok. eexists _, _. split; [exact Er|]. destruct (frame_index w Hw) as [-> Hi].
        destruct (release_frame_ok (set_frames p s) (w / 4096) (fr_wf _ _ _ Hp) Hi) as (p' & E & Hp').
        apply wp_Ok. eexists _, _. split; [exact E|]. apply wp_ret. split; [|lia]. split; [lia|].
        exists p'. split; [done|]. apply Hnext. eapply freed_iff; [exact Hp'|]. intros m _. tauto.
      + apply wp_ret. split; [|lia]. split; [lia|]. exists p. split; [done|]. apply Hnext.
        eapply freed_iff; [exact Hnone|]. intros m _. split; [done|]. intros (? & ? & _). congruence.
      + apply wp_ret. split; [|lia]. split; [lia|]. exists p. split; [done|]. apply Hnext.
        eapply freed_iff; [exact Hnone|]. intros m _. split; [done|]. intros (? & ? & _). congruence.
    - split; [lia|]. exists (frames s). split; [by destruct s|].
      eapply freed_iff; [by apply freed_none|]. intros m _. split; [done|]. intros (j & Hj & _). lia. }
  apply wp_Ok in Hwp as ([] & u & E & p & -> & Hp). by exists p.
Qed.

(** A directory or table entry [x] is mapped. *)
Lemma map_word s n x : vm_wf s -> at_least (slot_free s) (S n) -> 0 <= x < 2 ^ 32 ->
  exists a, map_virtual_page kpt (Z.lor x 3) s = Ok (kernelstart + 4096 * a, upd_pte a (Z.lor x 3) s) /\
    0 <= a < 1024 /\ pte s a = 0 /\ vm_wf (upd_pte a (Z.lor x 3) s) /\
    slot_maps (upd_pte a (Z.lor x 3) s) a (page_of x) /\ at_least (slot_free (upd_pte a (Z.lor x 3) s)) n.
Proof.
  intros Hs Hn Hx. assert (0 <= Z.lor x 3 < 2 ^ 32) as Hr by (apply lor_range; lia).
  assert (Z.lor x 3 / 4096 = x / 4096) as Ed.
  { change 4096 with (2 ^ 12). rewrite <- !Z.shiftr_div_pow2, Z.shiftr_lor by lia. apply Z.lor_0_r. }
  destruct (map_page_free kpt s (Z.lor x 3) Hs) as (a & Ha & Hp & Hne & E).
  { destruct (at_least_one _ _ Hn) as (j & Hj & Hpj). by exists j. }
  exists a. split_and!; try done; try lia.
  - by apply upd_wf.
  - split; [done|]. rewrite pte_upd, Z.eqb_refl, frame_mask_div, Ed by done. split; [|done].
    unfold pt_present. rewrite Z.lor_spec. apply orb_true_r.
  - eapply at_least_take with (a := a); [exact Hn|]. intros y [Hy Hp'] Hya. split; [done|].
    by rewrite pte_upd, (proj2 (Z.eqb_neq y a)).
Qed.

(** A word outside the kernel page table. *)
Lemma upd_word s a x T k : vm_wf s -> 0 <= a < 1024 -> T mod 4096 = 0 -> T / 4096 <> kpt / 4096 -> 0 <= k < 1024 ->
  rd (pmem (upd_pte a x s)) (T + 4 * k) = rd (pmem s) (T + 4 * k).
Proof.
  intros Hs Ha HT Hne Hk. destruct (vm_kpt kpt s (vw_ok _ _ Hs)) as [Hkal _]. apply rd_upd. intros E.
  apply (f_equal (fun x => x / 4096)) in E. by rewrite !frame_word in E.
Qed.

(** The same words outside the kernel page table. *)
Definition same_words (s s' : mmu) : Prop := forall T k, T mod 4096 = 0 -> T / 4096 <> kpt / 4096 -> 0 <= k < 1024 ->
  rd (pmem s') (T + 4 * k) = rd (pmem s) (T + 4 * k).

Lemma page_frames_agree s s' T i m : T mod 4096 = 0 -> T / 4096 <> kpt / 4096 -> same_words s s' ->
  (page_frames s' T i 1024 m <-> page_frames s T i 1024 m).
Proof.
  intros HT Hne Hw. split; intros (j & Hj & H); exists j; (split; [done|]);
    [rewrite Hw in H by done|rewrite Hw by done]; done.
Qed.

Lemma unmap_back s a x p : vm_wf s -> 0 <= a < 1024 -> 0 <= x < 2 ^ 32 -> pte s a = 0 ->
  unmap_virtual_page kpt (kernelstart + 4096 * a) (set_frames p (upd_pte a x s)) = Ok (tt, set_frames p s).
Proof.
  intros Hs Ha Hx Hp. assert (a <> KERN_PGT_SLOT) by (intros ->; by apply (pte_self kpt s (vw_ok _ _ Hs))).
  rewrite unmap_slot by (done || by apply frames_vm, upd_wf).
  do 2 f_equal. apply (upd_back kpt (set_frames p s) a x); [apply (frames_vm s p Hs)|done|done].
Qed.

Lemma tabled_cond e : negb (e =? 0) && (Z.land e 0x80 =? 0) = negb (e =? 0) && negb (pd_page_size e).
Proof.
  f_equal. change 0x80 with (Z.shiftl 1 7). unfold pd_page_size. by rewrite <- tst_testbit, negb_involutive.
Qed.

(** The table of entry [i] and its pages. *)
Lemma exit_table_ok s d D i : vm_wf s -> phys_wf (frames s) -> slot_maps s d D -> at_least (slot_free s) 1 ->
  0 <= i < 1023 -> tabled s D i = true -> table_of s D i / 4096 <> kpt / 4096 ->
  exists p, exit_table_body kpt (kernelstart + 4096 * d) i s = Ok (Continue (i + 1), set_frames p s) /\
    freed (fun m => m = rd (pmem s) (D + 4 * i) / 4096 \/ page_frames s (table_of s D i) i 1024 m) (frames s) p.
Proof.
  intros Hs Hf Hd Hsl Hi Ht Hne. set (e := rd (pmem s) (D + 4 * i)) in *.
  assert (0 <= e < 2 ^ 32) as He by (apply rd_range, (vo_words _ _ (vw_ok _ _ Hs))).
  destruct (page_of_aligned e He) as (HTal & HTr & _ & HTd). change (table_of s D i) with (page_of e) in *.
  destruct (map_word s 0 e Hs Hsl He) as (a & Emap & Ha & Ha0 & Hs1 & Hm1 & _).
  destruct (exit_pages_ok (upd_pte a (Z.lor e 3) s) a (page_of e) i Hs1 Hf Hm1) as (p & Ep & Hp).
  destruct (frame_index e He) as [Es Hn].
  destruct (release_frame_ok (set_frames p s) (e / 4096) (fr_wf _ _ _ Hp) Hn) as (p' & Er & Hp').
  pose proof (read_slot kpt s d D i Hs Hd ltac:(lia)) as Erd. fold e in Erd.
  pose proof (read_slot kpt (set_frames p s) d D i (frames_vm s p Hs) Hd ltac:(lia)) as Erd'.
  cbn [pmem set_frames] in Erd'. fold e in Erd'.
  exists p'. split.
  - unfold exit_table_body. rewrite (proj2 (Z.ltb_lt i 1023)) by lia. erewrite bind_Ok_eq by exact Erd.
    rewrite tabled_cond. unfold tabled in Ht. fold e in Ht. rewrite Ht. cbn [when].
    erewrite (bind_Ok_eq _ (fun _ => ret _)); [done|].
    erewrite bind_Ok_eq by exact Emap. erewrite bind_Ok_eq by exact Ep.
    erewrite bind_Ok_eq by (apply unmap_back; [done|done|apply lor_range; lia|done]).
    erewrite bind_Ok_eq by exact Erd'. rewrite Es. exact Er.
  - eapply freed_iff; [by eapply freed_trans|]. intros m _. cbn beta. rewrite (page_frames_agree s) by (done || congruence || by intros T k HT Hk; apply upd_word). tauto.
Qed.

Lemma table_frames_step s D i (P : Prop) m :
  (P <-> tabled s D i = true /\
     (m = rd (pmem s) (D + 4 * i) / 4096 \/ page_frames s (table_of s D i) i 1024 m)) -> 0 <= i ->
  (table_frames s D i m \/ P <-> table_frames s D (i + 1) m).
Proof.
  intros HP Hi. rewrite HP. split.
  - intros [(k & Hk & Hrest)|Hrest]; [exists k|exists i]; (split; [lia|done]).
  - intros (k & Hk & Hrest). destruct (decide (k = i)) as [->|]; [by right|left]. exists k. split; [lia|done].
Qed.

Lemma exit_tables_ok s d D : vm_wf s -> phys_wf (frames s) -> slot_maps s d D -> at_least (slot_free s) 1 ->
  (forall i, 0 <= i < 1023 -> tabled s D i = true -> table_of s D i / 4096 <> kpt / 4096) ->
  exists p, mloop 1024 (exit_table_body kpt (kernelstart + 4096 * d)) 0 s = Ok (tt, set_frames p s) /\
    freed (table_frames s D 1023) (frames s) p.
Proof.
  intros Hs Hf Hd Hsl Hne.
  assert (wp (mloop 1024 (exit_table_body kpt (kernelstart + 4096 * d)) 0)
    (fun _ u => exists p, u = set_frames p s /\ freed (table_frames s D 1023) (frames s) p) s) as Hwp.
  { apply (wp_mloop _ (fun i u => 0 <= i <= 1023 /\ exists p, u = set_frames p s /\
      freed (table_frames s D i) (frames s) p) _ (fun i _ => Z.to_nat (1023 - i))); [| |lia].
    - intros i u (Hi & p & -> & Hp). destruct (Z.ltb_spec i 1023); cycle 1.
      { unfold exit_table_body. rewrite (proj2 (Z.ltb_ge i 1023)) by lia. apply wp_ret. exists p.
        split; [done|]. by replace 1023 with i by lia. }
      destruct (tabled s D i) eqn:Ht.
      + destruct (exit_table_ok (set_frames p s) d D i (frames_vm s p Hs) (fr_wf _ _ _ Hp) Hd Hsl
          ltac:(lia) Ht (Hne i ltac:(lia) Ht)) as (p' & E & Hp').
        apply wp_Ok. eexists _, _. split; [exact E|]. split; [|lia]. split; [lia|]. exists p'. split; [done|].
        eapply freed_iff; [by eapply freed_trans|]. intros m _. apply table_frames_step; [|lia].
        rewrite Ht. cbn [pmem set_frames]. tauto.
      + unfold exit_table_body. rewrite (proj2 (Z.ltb_lt i 1023)) by lia. apply wp_bind, wp_Ok.
        eexists _, _. split; [apply (read_slot kpt _ d D i (frames_vm s p Hs) Hd ltac:(lia))|].
        rewrite tabled_cond. cbn [pmem set_frames]. unfold tabled in Ht. rewrite Ht.
        apply wp_bind, wp_when; [done|intros _]. apply wp_ret. split; [|lia]. split; [lia|]. exists p.
        split; [done|]. eapply freed_iff; [exact Hp|]. intros m _.
        rewrite <- (table_frames_step s D i False m); [tauto| |lia]. unfold tabled. rewrite Ht.
        split; [done|]. by intros [? _].
    - split; [lia|]. exists (frames s). split; [by destruct s|].
      eapply freed_iff; [by apply freed_none|]. intros m _. split; [done|]. intros (j & Hj & _). lia. }
  apply wp_Ok in Hwp as ([] & u & E & p & -> & Hp). by exists p.
Qed.

(** The directory [D] can be released: neither it nor a table is the kernel's. *)
Definition exitable (s : mmu) (D : Z) : Prop :=
  D mod 4096 = 0 /\ 0 <= D < 2 ^ 32 /\ D / 4096 <> kpt / 4096 /\
  forall i, 0 <= i < 1023 -> tabled s D i = true -> table_of s D i / 4096 <> kpt / 4096.

Lemma table_of_aligned s D i : vm_wf s -> table_of s D i mod 4096 = 0 /\ 0 <= table_of s D i < 2 ^ 32.
Proof.
  intros Hs. destruct (page_of_aligned (rd (pmem s) (D + 4 * i))) as (? & ? & _); [|done].
  apply rd_range, (vo_words _ _ (vw_ok _ _ Hs)).
Qed.

Lemma tabled_agree s s' D i : D mod 4096 = 0 -> D / 4096 <> kpt / 4096 -> same_words s s' -> 0 <= i < 1024 ->
  rd (pmem s') (D + 4 * i) = rd (pmem s) (D + 4 * i) /\ tabled s' D i = tabled s D i /\ table_of s' D i = table_of s D i.
Proof. intros Ha Hk Hw Hi. unfold tabled, table_of. by rewrite Hw. Qed.

Lemma table_frames_agree s s' D m : vm_wf s -> exitable s D -> same_words s s' ->
  (table_frames s' D 1023 m <-> table_frames s D 1023 m).
Proof.
  intros Hs (HDal & HDr & HDk & Htk) Hw.
  split; intros (i & Hi & Hti & H); exists i; destruct (tabled_agree s s' D i HDal HDk Hw ltac:(lia)) as (E1 & E2 & E3);
    rewrite E2, ?E1, ?E3 in *; (do 2 (split; [done|])); (destruct H as [H|H]; [by left|right]); revert H;
    rewrite (page_frames_agree s s') by (done || by (apply Htk || apply table_of_aligned)); done.
Qed.

Lemma exitable_agree s s' D : exitable s D -> same_words s s' -> exitable s' D.
Proof.
  intros (HDal & HDr & HDk & Htk) Hw. do 3 (split; [done|]). intros i Hi.
  destruct (tabled_agree s s' D i HDal HDk Hw ltac:(lia)) as (_ & -> & ->). by apply Htk.
Qed.

Lemma exit_memory_ok s D : vm_wf s -> phys_wf (frames s) -> exitable s D -> at_least (slot_free s) 2 ->
  exists p, exit_memory kpt D s = Ok (tt, set_frames p s) /\ freed (space_frames s D) (frames s) p.
Proof.
  intros Hs Hf Hex Hsl. pose proof Hex as (HDal & HDr & HDk & _).
  destruct (map_word s 1 D Hs Hsl HDr) as (d & Emap & Hd & Hd0 & Hs1 & Hm1 & Hsl1).
  destruct (mapped_entry D HDal HDr) as (Hx & _ & _).
  assert (page_of D = D) as HpD by (unfold page_of; pose proof (Z.div_mod D 4096 ltac:(lia)); lia).
  rewrite HpD in Hm1. set (s1 := upd_pte d (Z.lor D 3) s) in *.
  assert (same_words s s1) as Hw by (intros T k HT Hne Hk; by apply upd_word).
  destruct (exit_tables_ok s1 d D Hs1 Hf Hm1 Hsl1) as (p & Ep & Hp); [by apply (exitable_agree s s1)|].
  destruct (frame_index D HDr) as [Es Hn].
  destruct (release_frame_ok (set_frames p s1) (D / 4096) (fr_wf _ _ _ Hp) Hn) as (p' & Er & Hp').
  exists p'. split.
  - unfold exit_memory. erewrite bind_Ok_eq by exact Emap. erewrite bind_Ok_eq by exact Ep. rewrite Es.
    erewrite bind_Ok_eq by exact Er. by apply unmap_back.
  - eapply freed_iff; [by eapply freed_trans|]. intros m _. unfold space_frames. cbn beta.
    rewrite (table_frames_agree s s1) by done. tauto.
Qed.

(** ** What a clone takes and what its exit gives back *)

Section balance.
Context (s s' : mmu) (d D nd ND : Z) (n : nat).
Context (Hs : sys_ok kpt s) (Hd : slot_maps s d D) (Hsp : space_ok kpt s D).
Context (HN : fresh_frame kpt s s' ND) (Hc : cloning_dir kpt s D nd ND n 1024 s').
(** The shared tables of the kernel are 4 MiB pages, but for the last one. *)
Context (Hbig : forall i, 0 <= i < 1023 -> shared i = true -> pt_present (rd (pmem s) (D + 4 * i)) = true ->
  pd_page_size (rd (pmem s) (D + 4 * i)) = true).

Lemma child_tabled i : 0 <= i < 1023 -> tabled s' ND i = has_table s D i.
Proof using Hs Hd Hsp Hc Hbig.
  intros Hi. destruct (cd_done _ _ _ _ _ _ _ _ Hc i ltac:(lia)) as [Ha Hsh He Hf _ _]. unfold tabled.
  destruct (has_table s D i) eqn:Hh.
  - pose proof Hh as [Hp _]%andb_true_iff. destruct (Hf eq_refl) as [(HNa & HNr & _) _].
    destruct (proj2 Hsp i ltac:(lia) Hh) as [Hps _].
    destruct (entry_flags (rd (pmem s) (D + 4 * i)) (table_of s' ND i) HNa ltac:(lia)) as [E1 E2].
    rewrite He by done. rewrite E2, Hps, (proj2 (Z.eqb_neq _ 0)); [done|]. apply present_nonzero. by rewrite E1.
  - unfold has_table in Hh. destruct (pt_present (rd (pmem s) (D + 4 * i))) eqn:Hp.
    + apply negb_false_iff in Hh. by rewrite Hsh, Hbig, andb_false_r.
    + by rewrite Ha.
Qed.

Lemma child_word i j : 0 <= i < 1024 -> 0 <= j < 1024 -> has_table s D i = true ->
  (rd (pmem s') (table_of s' ND i + 4 * j) <> 0 <-> has_page s D i j = true).
Proof using Hc.
  intros Hi Hj Hh. destruct (cd_done _ _ _ _ _ _ _ _ Hc i Hi) as [_ _ _ _ Ht _]. specialize (Ht Hh).
  unfold has_page. rewrite Hh. cbn [andb]. destruct (pt_present (rd (pmem s) (table_of s D i + 4 * j))) eqn:Hp.
  - split; [done|intros _]. destruct (cloned_page _ _ _ _ _ j _ Ht Hj Hp) as (P & -> & (HPa & HPr & _) & _).
    destruct (entry_flags (rd (pmem s) (table_of s D i + 4 * j)) P HPa ltac:(lia)) as [E1 _].
    apply present_nonzero. by rewrite E1.
  - pose proof (tc_entry _ _ _ _ _ _ Ht j Hj) as He. unfold entry_cloned in He. by rewrite Hp in He.
Qed.

(** The frames of the clone. *)
Definition child_frames (m : Z) : Prop :=
  m = ND / 4096 \/ exists i, 0 <= i < 1023 /\ has_table s D i = true /\
    (m = table_of s' ND i / 4096 \/
     exists j, 0 <= j < 1024 /\ has_page s D i j = true /\ video i j = false /\ m = frame_number s' ND i j).

Lemma child_space m : space_frames s' ND m <-> child_frames m.
Proof using Hs Hd Hsp Hc Hbig.
  assert (forall e, page_of e / 4096 = e / 4096) as Hpo by (intros e; unfold page_of; by rewrite Z.div_mul by lia).
  unfold space_frames, child_frames. f_equiv. unfold table_frames.
  split; intros (i & Hi & Ht & H); exists i; rewrite child_tabled in * by done; (do 2 (split; [done|]));
    (destruct H as [H|(j & Hj & H)]; [left; unfold table_of in *; by rewrite Hpo in *|right; exists j; split; [done|]]).
  - destruct H as (H1 & H2 & H3). by rewrite <- child_word by (done || lia).
  - destruct H as (H1 & H2 & H3). by rewrite child_word by (done || lia).
Qed.

(** The copies of the video pages. *)
Definition video_frames (m : Z) : Prop :=
  exists j, 0x200 <= j <= 0x20F /\ has_page s D 0 j = true /\ frame_number s' ND 0 j = m.

Lemma child_page i j : 0 <= i < 1024 -> 0 <= j < 1024 -> has_page s D i j = true ->
  is_free (frames s) (frame_number s' ND i j) = true /\ is_free (frames s') (frame_number s' ND i j) = false.
Proof using Hc.
  intros Hi Hj [Hh Hp]%andb_true_iff. destruct (cd_done _ _ _ _ _ _ _ _ Hc i Hi) as [_ _ _ _ Ht _].
  destruct (cloned_page _ _ _ _ _ j _ (Ht Hh) Hj Hp) as (P & _ & (_ & _ & HPf & HPt & _) & _ & EP & _).
  unfold frame_number. by rewrite EP.
Qed.

Lemma child_was_free m : child_frames m -> is_free (frames s) m = true.
Proof using HN Hc.
  intros [->|(i & Hi & Hh & [->|(j & Hj & Hp & _ & ->)])].
  - by destruct HN as (_ & _ & ? & _).
  - destruct (cd_done _ _ _ _ _ _ _ _ Hc i ltac:(lia)) as [_ _ _ Hf _ _]. by destruct (Hf Hh) as [(_ & _ & ? & _) _].
  - by apply child_page; [lia|..].
Qed.

Lemma video_spec i j : video i j = true <-> i = 0 /\ 0x200 <= j <= 0x20F.
Proof. unfold video. rewrite !andb_true_iff, Z.eqb_eq, !Z.leb_le. lia. Qed.

(** A page of the clone is the only user of its frame. *)
Lemma child_apart i j i' j' : 0 <= i < 1024 -> 0 <= j < 1024 -> 0 <= i' < 1024 -> 0 <= j' < 1024 ->
  has_page s D i j = true -> has_page s D i' j' = true ->
  frame_number s' ND i j = frame_number s' ND i' j' -> i = i' /\ j = j'.
Proof using Hc.
  intros Hi Hj Hi' Hj' Hp Hp' E. destruct (decide (i = i')) as [->|Hne]; cycle 1.
  { by destruct (cd_apart _ _ _ _ _ _ _ _ Hc i i' j j'). }
  split; [done|]. destruct (decide (j = j')) as [|Hne]; [done|].
  apply andb_true_iff in Hp as [Hh Hp], Hp' as [_ Hp'].
  destruct (cd_done _ _ _ _ _ _ _ _ Hc i' Hi') as [_ _ _ _ Ht _].
  by destruct (tc_apart _ _ _ _ _ _ (Ht Hh) j j').
Qed.

Lemma video_kept m : video_frames m -> ~ child_frames m.
Proof using Hc.
  intros (j & Hj & Hp & <-) [E|(i & Hi & Hh & [E|(j' & Hj' & Hp' & Hv & E)])].
  - destruct (cd_done _ _ _ _ _ _ _ _ Hc 0 ltac:(lia)) as [_ _ _ _ _ Hav]. by apply (Hav j); [lia|..].
  - revert E. by apply (cd_tables _ _ _ _ _ _ _ _ Hc); try lia.
  - destruct (child_apart 0 j i j') as [<- <-]; try done; try lia.
    by rewrite (proj2 (video_spec 0 j)) in Hv.
Qed.

(** What is taken is in use by the clone, or is a copy of a video page. *)
Lemma taken_frames m : 0 <= m -> is_free (frames s) m = true ->
  (is_free (frames s') m = true \/ child_frames m <-> ~ video_frames m).
Proof using Hc.
  intros Hm Hf. split.
  - intros [Hf'|Hch] Hv; [|by eapply video_kept]. destruct Hv as (j & Hj & Hp & <-).
    destruct (child_page 0 j ltac:(lia) ltac:(lia) Hp) as [_ ?]. congruence.
  - intros Hnv. destruct (is_free (frames s') m) eqn:E; [by left|right].
    destruct (cd_taken _ _ _ _ _ _ _ _ Hc m Hm Hf E) as [->|(i & Hi & Hh & H)]; [by left|right].
    assert (i < 1023) as Hi'.
    { destruct (decide (i = 1023)) as [->|]; [|lia]. by apply andb_true_iff in Hh as [_ ?]. }
    exists i. split; [lia|]. split; [done|]. destruct H as [?|(j & Hj & Hp & <-)]; [by left|right].
    exists j. do 2 (split; [done|]). split; [|done]. destruct (video i j) eqn:Ev; [|done].
    apply video_spec in Ev as [-> Hj']. destruct Hnv. by exists j.
Qed.
End balance.

(** ** The address space part of fork *)

Notation sys_ok := (sys_ok kpt).
Notation in_use := (in_use kpt).
Notation space_ok := (space_ok kpt).
Notation ext := (ext kpt).
Notation clone_of := (clone_of kpt).

Lemma same_words_upd s a x : vm_wf s -> 0 <= a < 1024 -> same_words s (upd_pte a x s).
Proof. intros Hs Ha T k HT Hne Hk. by apply upd_word. Qed.

(** The same words of the frames in use, but for the kernel page table. *)
Definition same_used (s s' : mmu) : Prop := forall T k, T mod 4096 = 0 -> 0 <= T -> in_use s T -> 0 <= k < 1024 ->
  rd (pmem s') (T + 4 * k) = rd (pmem s) (T + 4 * k).

Lemma same_words_used s s' : same_words s s' -> same_used s s'.
Proof. intros H T k HT _ [_ Hne] Hk. by apply H. Qed.

Lemma ext_same_used s s' : ext s s' -> same_used s s'.
Proof. intros He T k HT H0 [Hf _] Hk. apply (ex_mem _ _ _ He); [lia|]. by rewrite frame_word. Qed.

(** The address space of [D] is the same in [s'], where other frames may be taken. *)
Section space_agree.
Context (s s' : mmu) (D : Z).
Context (Hs : vm_wf s) (HDal : D mod 4096 = 0) (HD0 : 0 <= D) (Hsp : space_ok s D) (Hw : same_used s s').

Lemma has_table_agree i : 0 <= i < 1024 -> has_table s' D i = has_table s D i /\
  table_of s' D i = table_of s D i /\ rd (pmem s') (D + 4 * i) = rd (pmem s) (D + 4 * i).
Proof using HDal HD0 Hsp Hw. intros Hi. unfold has_table, table_of. by rewrite Hw by (done || apply Hsp). Qed.

Lemma table_word_agree i j : 0 <= i < 1024 -> 0 <= j < 1024 -> has_table s D i = true ->
  rd (pmem s') (table_of s D i + 4 * j) = rd (pmem s) (table_of s D i + 4 * j).
Proof using Hs Hsp Hw.
  intros Hi Hj Hh. destruct (proj2 Hsp i Hi Hh) as [_ [Hne _]]. destruct (table_of_aligned s D i Hs). by apply Hw; [|lia|..].
Qed.

Lemma has_page_agree i j : 0 <= i < 1024 -> 0 <= j < 1024 -> has_page s' D i j = has_page s D i j.
Proof using Hs HDal HD0 Hsp Hw.
  intros Hi Hj. unfold has_page. destruct (has_table_agree i Hi) as (-> & -> & _).
  destruct (has_table s D i) eqn:Hh; [|done]. by rewrite table_word_agree.
Qed.

Lemma space_ok_agree :
  (forall m, 0 <= m -> is_free (frames s) m = false -> is_free (frames s') m = false) -> space_ok s' D.
Proof using Hs HDal HD0 Hsp Hw.
  intros Hf. pose proof Hsp as [HD Htabs].
  assert (forall x, 0 <= x -> in_use s x -> in_use s' x) as Hu
    by (intros x Hx [Hxf Hxk]; split; [by apply Hf; [apply div_nonneg|]|done]).
  split; [by apply Hu|]. intros i Hi. destruct (has_table_agree i Hi) as (-> & -> & ->). intros Hh.
  destruct (Htabs i Hi Hh) as [Hb [Ht Hpages]]. split; [done|].
  destruct (table_of_aligned s D i Hs) as [_ Hr]. split; [apply Hu; [lia|done]|]. intros k Hk.
  rewrite table_word_agree by done. intros Hp. apply Hu; [|by apply Hpages].
  destruct (page_of_aligned (rd (pmem s) (table_of s D i + 4 * k))) as (_ & ? & _); [|lia].
  apply rd_range, (vo_words _ _ (vw_ok _ _ Hs)).
Qed.

Lemma tables_from_agree : tables_from s' D 0 = tables_from s D 0.
Proof using Hs HDal HD0 Hsp Hw.
  apply sum_list_with_agree. intros i Hi%elem_of_seqZ. destruct (has_table_agree i ltac:(lia)) as (-> & -> & _).
  destruct (has_table s D i) eqn:Hh; [|done]. f_equal. apply pages_from_agree. intros k Hk.
  by apply table_word_agree; [lia|..].
Qed.

Lemma walk_agree va : user_address va -> walk (pmem s') D va = walk (pmem s) D va.
Proof using Hs HDal HD0 Hsp Hw.
  intros [Hr Hush]. pose proof (pgdir_i_range va Hr) as Hi. destruct (has_table_agree _ Hi) as (_ & _ & E).
  destruct (pt_present (rd (pmem s) (D + 4 * (va / 2 ^ 22)))) eqn:Hp.
  - assert (has_table s D (va / 2 ^ 22) = true) as Hh by (unfold has_table; by rewrite Hp, Hush).
    destruct (proj2 Hsp _ Hi Hh) as [Hb _]. rewrite (walk_table (pmem s') _ _ _ E), (walk_table (pmem s) _ _ _ eq_refl) by done.
    change (page_of (rd (pmem s) (D + 4 * (va / 2 ^ 22)))) with (table_of s D (va / 2 ^ 22)).
    by rewrite table_word_agree by (done || apply page_index).
  - by rewrite !walk_no_pde by (done || by rewrite E).
Qed.

(** A page of the address space is not the kernel page table. *)
Lemma walk_page_in_use va f : user_address va -> walk (pmem s) D va = SmallPage f -> f mod 4096 = 0 /\ in_use s f.
Proof using Hs Hsp.
  intros [Hr Hush]. pose proof (pgdir_i_range va Hr) as Hi.
  destruct (pt_present (rd (pmem s) (D + 4 * (va / 2 ^ 22)))) eqn:Hp; [|by rewrite walk_no_pde].
  assert (has_table s D (va / 2 ^ 22) = true) as Hh by (unfold has_table; by rewrite Hp, Hush).
  destruct (proj2 Hsp _ Hi Hh) as [Hb [_ Hpages]]. rewrite (walk_table (pmem s) _ _ _ eq_refl) by done. cbv zeta.
  change (page_of (rd (pmem s) (D + 4 * (va / 2 ^ 22)))) with (table_of s D (va / 2 ^ 22)).
  destruct (pt_present (rd (pmem s) (table_of s D (va / 2 ^ 22) + _))) eqn:Hpt; [intros [= <-]|done].
  split; [|by apply Hpages; [apply page_index|]]. apply page_of_aligned, rd_range, (vo_words _ _ (vw_ok _ _ Hs)).
Qed.
End space_agree.

(** The clone is made in [s0], where the parent is mapped at slot [d]; [s'] is the state
    after it and [s1] the one after the two unmappings. *)
Record forked (s s0 s' s1 : mmu) (d D nd ND : Z) (n : nat) : Prop := mkForked {
  fk_start : s0 = upd_pte d (Z.lor D 3) s;
  fk_sys : sys_ok s0;
  fk_slot : slot_maps s0 d D;
  fk_space : space_ok s0 D;
  fk_nd : 0 <= nd < 1024;
  fk_fresh : fresh_frame kpt s0 s' ND;
  fk_clone : cloning_dir kpt s0 D nd ND n 1024 s';
  fk_words0 : same_words s s0;
  fk_words : same_words s' s1;
  fk_frames : frames s1 = frames s';
  fk_ext : ext s s1
}.

Lemma fork_memory_ok s D n : sys_ok s -> D mod 4096 = 0 -> 0 <= D < 2 ^ 32 -> space_ok s D ->
  at_least (slot_free s) 6 -> at_least (frame_free s) (S (tables_from s D 0 + n)) ->
  exists s0 s' s1 d nd ND, fork_memory kpt D s = Ok (ND, s1) /\ forked s s0 s' s1 d D nd ND n.
Proof.
  intros Hs HDal HDr Hsp Hsl Hfr. pose proof (so_vm _ _ Hs) as Hv.
  destruct (map_fresh kpt s 5 D Hs Hsl HDal HDr) as (d & Emap & Hd & Hd0 & Hnd & Hs0 & Hm0 & Hsl0).
  set (s0 := upd_pte d (Z.lor D 3) s) in *.
  assert (same_words s s0) as Hw0 by (by apply same_words_upd).
  assert (space_ok s0 D) as Hsp0 by (apply (space_ok_agree s s0); try done; [lia|by apply same_words_used]).
  rewrite <- (tables_from_agree s s0 D Hv HDal (proj1 HDr) Hsp (same_words_used _ _ Hw0)) in Hfr.
  destruct (clone_page_directory_ok kpt s0 d D n Hs0 Hm0 Hsp0 Hsl0 Hfr)
    as (s' & ND & nd & Eclone & Hndr & Hnd0 & HN & Hbase & Hc).
  pose proof (cd_ext _ _ _ _ _ _ _ _ Hc) as Hext. pose proof (ex_sys _ _ _ Hext) as Hs'.
  assert (nd <> d) as Hne.
  { intros ->. destruct Hm0 as (_ & Hp & _). by rewrite Hnd0 in Hp. }
  assert (nd <> KERN_PGT_SLOT) as Hndk by (intros ->; by apply (pte_self kpt s0 (vw_ok _ _ (so_vm _ _ Hs0)))).
  destruct (unmap_two kpt s' d nd (so_vm _ _ Hs') Hd Hndr Hnd Hndk) as (s1 & E1 & Hv1 & Hf1 & Hr1).
  destruct (sys_kpt kpt s Hs) as [Hkal Hkr]. pose proof HN as (HNal & HNr & _).
  exists s0, s', s1, d, nd, ND. split.
  - unfold fork_memory. erewrite bind_Ok_eq by exact Emap.
    rewrite (proj2 (Z.eqb_neq _ 0)) by (unfold kernelstart; lia). cbv zeta. erewrite bind_Ok_eq by exact Eclone.
    cbn [dir_pa dir_va]. rewrite frame_none, <- bind_assoc by done. by erewrite bind_Ok_eq by exact E1.
  - split; try done.
    + intros T k HT HTk Hk. rewrite Hr1, !(proj2 (Z.eqb_neq _ _)); [done|..];
        intros E; apply (f_equal (fun x => x / 4096)) in E; by rewrite !frame_word in E.
    + split; rewrite ?Hf1.
      * split; rewrite ?Hf1; [done|apply Hs'|apply Hs'].
      * apply Hext.
      * apply Hext.
      * intros pa H0 Hpa. rewrite Hr1.
        destruct (Z.eqb_spec pa (kpt + 4 * d)) as [->|Hpd]; [by rewrite <- Hd0|].
        destruct (Z.eqb_spec pa (kpt + 4 * nd)) as [->|Hpn]; cbn [orb].
        -- unfold s0 in Hnd0. rewrite pte_upd, (proj2 (Z.eqb_neq _ _)) in Hnd0 by done. by rewrite <- Hnd0.
        -- rewrite (ex_mem _ _ _ Hext) by done. unfold s0. by rewrite !rd_upd.
Qed.

(** The clone, seen after the unmappings. *)
Lemma forked_clone s s0 s' s1 d D nd ND n : sys_ok s -> space_ok s D -> D mod 4096 = 0 -> 0 <= D ->
  forked s s0 s' s1 d D nd ND n -> fresh_frame kpt s s1 ND /\ clone_of s D s1 ND.
Proof.
  intros Hs Hsp HDal HD0 [E0 Hs0 Hm0 Hsp0 Hnd HN Hc Hw0 Hw Ef Hext].
  assert (frames s0 = frames s) as Ef0 by (by rewrite E0).
  assert (forall P, fresh_frame kpt s0 s' P -> fresh_frame kpt s s1 P) as Hfresh.
  { intros P. unfold fresh_frame. by rewrite Ef, Ef0. }
  assert (forall va, user_address va -> walk (pmem s0) D va = walk (pmem s) D va) as HwD
    by (intros va; apply walk_agree; try done; [apply Hs|by apply same_words_used]).
  pose proof (clone_seen kpt s0 s' d D nd ND n Hs0 Hm0 Hsp0 Hnd Hc) as [Hu Ha Hk Hp].
  assert (forall i, 0 <= i < 1024 -> rd (pmem s1) (ND + 4 * i) = rd (pmem s') (ND + 4 * i)) as HwN.
  { intros i Hi. destruct HN as (HNa & _ & _ & _ & HNk). by apply Hw. }
  assert (forall i, 0 <= i < 1024 -> rd (pmem s1) (D + 4 * i) = rd (pmem s') (D + 4 * i)) as HwD'.
  { intros i Hi. apply Hw; [done|apply Hsp|done]. }
  assert (forall va, user_address va -> walk (pmem s1) ND va = walk (pmem s') ND va) as HwN'.
  { intros va [Hr Hush]. pose proof (pgdir_i_range va Hr) as Hi. specialize (HwN _ Hi).
    destruct (cd_done _ _ _ _ _ _ _ _ Hc _ Hi) as [Hab _ He Hf _ _].
    destruct (has_table s0 D (va / 2 ^ 22)) eqn:Hh.
    - destruct (Hf eq_refl) as [(HTa & HTr & _ & _ & HTk) _]. pose proof Hh as [Hpt _]%andb_true_iff.
      destruct (proj2 Hsp0 _ Hi Hh) as [Hb _].
      destruct (entry_flags (rd (pmem s0) (D + 4 * (va / 2 ^ 22))) (table_of s' ND (va / 2 ^ 22)) HTa ltac:(lia)) as [F1 F2].
      rewrite <- He in F1, F2 by done. rewrite (walk_table (pmem s1) _ _ _ HwN), (walk_table (pmem s') _ _ _ eq_refl) by congruence.
      change (page_of (rd (pmem s') (ND + 4 * (va / 2 ^ 22)))) with (table_of s' ND (va / 2 ^ 22)).
      by rewrite Hw by (done || apply page_index).
    - unfold has_table in Hh. rewrite Hush, andb_true_r in Hh. by rewrite !walk_no_pde by (rewrite ?HwN; by rewrite Hab). }
  split; [by apply Hfresh|]. split.
  - intros va Hva. specialize (Hu va Hva). rewrite HwD in Hu by done. rewrite HwN' by done.
    destruct (walk (pmem s) D va) as [|f|] eqn:E; [done| |done].
    destruct Hu as (f' & E' & Hf' & Hcopy). exists f'. split; [done|]. split; [by apply Hfresh|]. intros j Hj.
    destruct Hf' as (Hfa & _ & _ & _ & Hfk). destruct (walk_page_in_use s D (so_vm _ _ Hs) Hsp va f Hva E) as [Hal [_ Hfk']].
    by rewrite Hw, Hcopy, Hw0.
  - intros va va' f f' Hva Hva' Hne. rewrite !HwN' by done. by apply Ha.
  - intros va Hr Hsh. pose proof (pgdir_i_range va Hr) as Hi. specialize (HwN _ Hi). specialize (HwD' _ Hi).
    destruct (cd_done _ _ _ _ _ _ _ _ Hc _ Hi) as [Hab Hshd _ _ _ _].
    assert (rd (pmem s') (D + 4 * (va / 2 ^ 22)) = rd (pmem s0) (D + 4 * (va / 2 ^ 22))) as Ep
      by (by eapply (dir_entry_word kpt s0 d D nd ND n)).
    destruct (pt_present (rd (pmem s0) (D + 4 * (va / 2 ^ 22)))) eqn:Hpr.
    + unfold walk. by rewrite HwN, HwD', Hshd, Ep.
    + by rewrite !walk_no_pde by (rewrite ?HwN, ?HwD', ?Ep, ?Hab; done).
  - intros va Hva. apply walk_agree; try done; [apply Hs|by apply ext_same_used].
Qed.
End exit.

(** ** Theorems *)

(** [__exit] returns to the bitmap the frame of the page directory, of every page table in
    it and of every page in those, except 4 MiB pages, the entry of the kernel and the
    pages of video memory; it changes no other frame and no word of memory. *)
Theorem exit_memory_correct kpt s D :
  vm_wf kpt s -> phys_wf (frames s) -> exitable kpt s D -> at_least (slot_free kpt s) 2 ->
  exists p, exit_memory kpt D s = Ok (tt, set_frames p s) /\ phys_wf p /\ mm_limit p = mm_limit (frames s) /\
    forall m, 0 <= m -> (is_free p m = true <-> is_free (frames s) m = true \/ space_frames s D m).
Proof.
  intros Hs Hf He Hsl. destruct (exit_memory_ok kpt s D Hs Hf He Hsl) as (p & E & [W L F]). by exists p.
Qed.

(** C13: A process that is forked and exits gives back the frames that the fork took, except
    the copies of the video pages of the parent: [leak] names one frame for each of them,
    which stays marked in use. *)
Theorem fork_exit_balance kpt s D :
  sys_ok kpt s -> D mod 4096 = 0 -> 0 <= D < 2 ^ 32 -> space_ok kpt s D ->
  (forall i, 0 <= i < 1023 -> shared i = true -> pt_present (rd (pmem s) (D + 4 * i)) = true ->
     pd_page_size (rd (pmem s) (D + 4 * i)) = true) ->
  at_least (slot_free kpt s) 6 -> at_least (frame_free s) (S (tables_from s D 0)) ->
  exists ND s1 s2 leak, fork_memory kpt D s = Ok (ND, s1) /\ exit_memory kpt ND s1 = Ok (tt, s2) /\
    (forall pa, 0 <= pa -> is_free (frames s) (pa / 4096) = false -> rd (pmem s2) pa = rd (pmem s) pa) /\
    (forall j j', 0x200 <= j <= 0x20F -> 0x200 <= j' <= 0x20F -> has_page s D 0 j = true ->
       has_page s D 0 j' = true -> is_free (frames s) (leak j) = true /\ (leak j = leak j' -> j = j')) /\
    forall m, 0 <= m -> (is_free (frames s2) m = true <-> is_free (frames s) m = true /\
      ~ exists j, 0x200 <= j <= 0x20F /\ has_page s D 0 j = true /\ leak j = m).
Proof.
  intros Hs HDal HDr Hsp Hbig Hsl Hfr.
  destruct (fork_memory_ok kpt s D 0 Hs HDal HDr Hsp Hsl ltac:(by rewrite Nat.add_0_r)) as (s0 & s' & s1 & d & nd & ND & Efork & Hfk).
  pose proof Hfk as [E0 Hs0 Hm0 Hsp0 Hnd HN Hc Hw0 Hw Ef Hext]. pose proof (ex_sys _ _ _ Hext) as Hs1.
  assert (frames s0 = frames s) as Ef0 by (by rewrite E0).
  assert (forall i, 0 <= i < 1023 -> shared i = true -> pt_present (rd (pmem s0) (D + 4 * i)) = true ->
    pd_page_size (rd (pmem s0) (D + 4 * i)) = true) as Hbig0.
  { intros i Hi. rewrite Hw0 by (done || apply Hsp || lia). by apply Hbig. }
  assert (forall j, 0 <= j < 1024 -> has_page s0 D 0 j = has_page s D 0 j) as Hpg.
  { intros j Hj. apply (has_page_agree kpt); try done; try lia; [apply Hs|by apply same_words_used]. }
  assert (exitable kpt s' ND) as Hex.
  { pose proof HN as (HNa & HNr & _ & _ & HNk). split_and!; try done; try lia. intros i Hi.
    rewrite (child_tabled kpt s0 s' d D nd ND 0) by done. intros Hh.
    destruct (cd_done _ _ _ _ _ _ _ _ Hc i ltac:(lia)) as [_ _ _ Hf _ _].
    by destruct (Hf Hh) as [(_ & _ & _ & _ & ?) _]. }
  destruct (exit_memory_ok kpt s1 ND (so_vm _ _ Hs1) (so_phys _ _ Hs1)) as (p & Eexit & [_ _ F]).
  { by apply (exitable_agree kpt s' s1). }
  { eapply at_least_fewer; [by apply (ext_slots kpt s s1)|lia]. }
  exists ND, s1, (set_frames p s1), (frame_number s' ND 0). split_and!; try done.
  - apply Hext.
  - intros j j' Hj Hj' Hp Hp'. rewrite <- Hpg in Hp, Hp' by lia. split.
    + rewrite <- Ef0. by apply (child_page kpt s0 s' D nd ND 0 Hc); try lia.
    + intros E. by destruct (child_apart kpt s0 s' D nd ND 0 Hc 0 j 0 j'); try lia.
  - intros m Hm. cbn [frames set_frames]. rewrite F by done.
    assert (space_frames s1 ND m <-> child_frames s0 s' D ND m) as ->.
    { rewrite <- (child_space kpt s0 s' d D nd ND 0) by done. unfold space_frames.
      by rewrite (table_frames_agree kpt s' s1) by (done || apply so_vm, (ex_sys _ _ _ (cd_ext _ _ _ _ _ _ _ _ Hc))). }
    assert ((exists j, 0x200 <= j <= 0x20F /\ has_page s D 0 j = true /\ frame_number s' ND 0 j = m) <->
      video_frames s0 s' D ND m) as ->.
    { unfold video_frames. f_equiv. intros j. split; intros (Hj & Hp & H); (split; [done|]); (split; [|done]);
        [rewrite Hpg by lia|rewrite <- Hpg by lia]; exact Hp. }
    rewrite Ef, <- Ef0. destruct (is_free (frames s0) m) eqn:E.
    + rewrite (taken_frames kpt s0 s' D nd ND 0) by done. tauto.
    + split; [|by intros [? _]]. intros [H|H].
      * apply (ex_free _ _ _ (cd_ext _ _ _ _ _ _ _ _ Hc)) in H; [|done].
        change (is_free (frames s0) m = true) in H. congruence.
      * apply (child_was_free kpt s0 s' D nd ND 0 HN Hc) in H. congruence.
Qed.

(** *** The example of [CloneThm], with one video page *)

Lemma fork_slots : at_least (slot_free 0x1000 fork_mmu) 6.
Proof.
  exists [1; 2; 3; 4; 5; 6]. split; [apply (bool_decide_unpack _); vm_compute; exact I|]. split; [reflexivity|].
  repeat constructor; try lia.
Qed.

Lemma fork_exitable : exitable 0x1000 fork_mmu 0x2000.
Proof.
  split_and!; try done. intros i Hi [Hz _]%andb_true_iff. apply negb_true_iff, Z.eqb_neq in Hz.
  destruct (decide (0x2000 + 4 * i ∈ [0x1000; 0x1FC4; 0x2000; 0x2004; 0x2FFC; 0x3014; 0x4800; 0x7008])) as [Hin|Hin];
    [|by rewrite fork_words in Hz].
  assert (i = 0 \/ i = 1) as [-> | ->] by (rewrite !elem_of_cons, elem_of_nil in Hin; lia);
    apply Z.eqb_neq; vm_compute; reflexivity.
Qed.

(** The directory, the two tables and the page at 0x7000 become free; the page at 0x6000,
    which is mapped as video memory, does not. *)
Lemma exit_memory_correct_witness :
  exists p, exit_memory 0x1000 0x2000 fork_mmu = Ok (tt, set_frames p fork_mmu) /\
    is_free p 2 = true /\ is_free p 3 = true /\ is_free p 4 = true /\ is_free p 7 = true /\ is_free p 9 = false.
Proof.
  destruct (exit_memory_correct 0x1000 fork_mmu 0x2000) as (p & E & _ & _ & F).
  - apply fork_sys.
  - apply fork_sys.
  - apply fork_exitable.
  - eapply at_least_fewer; [exact fork_slots|lia].
  - exists p. split; [exact E|]. split_and!.
    + apply F; [lia|]. right. left. reflexivity.
    + apply F; [lia|]. right. right. exists 1. split; [lia|]. split; [reflexivity|]. left. reflexivity.
    + apply F; [lia|]. right. right. exists 0. split; [lia|]. split; [reflexivity|]. left. reflexivity.
    + apply F; [lia|]. right. right. exists 1. split; [lia|]. split; [reflexivity|]. right. exists 5.
      split; [lia|]. split; [discriminate|]. split; reflexivity.
    + clear E. destruct (is_free p 9) eqn:E9; [|reflexivity]. exfalso. apply F in E9; [|lia]. clear F.
      destruct E9 as [H|[H|(i & Hi & [Hz _]%andb_true_iff & H)]]; [by rewrite fork_used in H by lia|discriminate|].
      apply negb_true_iff, Z.eqb_neq in Hz.
      assert (i = 0 \/ i = 1) as Hi'.
      { destruct (decide (0x2000 + 4 * i ∈ [0x1000; 0x1FC4; 0x2000; 0x2004; 0x2FFC; 0x3014; 0x4800; 0x7008])) as [Hin|Hin];
          [|by rewrite fork_words in Hz]. rewrite !elem_of_cons, elem_of_nil in Hin. lia. }
      destruct H as [H|(j & Hj & Hw & _ & H)]; [by destruct Hi' as [-> | ->]; vm_compute in H|].
      destruct Hi' as [-> | ->].
      * change (table_of fork_mmu 0x2000 0) with 0x4000 in H, Hw.
        destruct (decide (j = 0x200)) as [->|Hne]; [vm_compute in H; discriminate H|]. rewrite fork_words in Hw; [done|].
        rewrite !elem_of_cons, elem_of_nil. lia.
      * change (table_of fork_mmu 0x2000 1) with 0x3000 in H, Hw.
        destruct (decide (j = 5)) as [->|Hne]; [vm_compute in H; discriminate H|]. rewrite fork_words in Hw; [done|].
        rewrite !elem_of_cons, elem_of_nil. lia.
Defined.

(** One frame is lost. *)
Lemma fork_exit_balance_witness :
  exists ND s1 s2 f, fork_memory 0x1000 0x2000 fork_mmu = Ok (ND, s1) /\ exit_memory 0x1000 ND s1 = Ok (tt, s2) /\
    is_free (frames fork_mmu) f = true /\ is_free (frames s2) f = false /\
    forall m, 0 <= m -> m <> f -> is_free (frames s2) m = is_free (frames fork_mmu) m.
Proof.
  destruct (fork_exit_balance 0x1000 fork_mmu 0x2000) as (ND & s1 & s2 & leak & E1 & E2 & _ & Hl & F).
  - apply fork_sys.
  - reflexivity.
  - lia.
  - apply fork_space.
  - intros i Hi Hsh Hp. pose proof (fork_present 0x2000 i ltac:(lia) ltac:(done) Hp) as Hin.
    assert (i = 0 \/ i = 1) as [-> | ->] by (rewrite !elem_of_cons, elem_of_nil in Hin; lia); discriminate.
  - exact fork_slots.
  - exact fork_frames.
  - destruct (Hl 0x200 0x200) as [Hfree _]; [lia|lia|reflexivity|reflexivity|].
    assert (forall j, 0x200 <= j <= 0x20F -> has_page fork_mmu 0x2000 0 j = true -> j = 0x200) as Hone.
    { intros j Hj [_ Hp]%andb_true_iff. change (table_of fork_mmu 0x2000 0) with 0x4000 in Hp.
      apply fork_present in Hp; [|lia|done]. rewrite !elem_of_cons, elem_of_nil in Hp. lia. }
    assert (forall m, 0 <= m -> (is_free (frames s2) m = true <-> is_free (frames fork_mmu) m = true /\ m <> leak 0x200)) as F'.
    { intros m Hm. rewrite F by done. f_equiv. split.
      - intros Hno ->. apply Hno. exists 0x200. split; [lia|]. split; reflexivity.
      - intros Hne (j & Hj & Hp & <-). apply Hne. by rewrite (Hone j Hj Hp). }
    assert (0 <= leak 0x200) as H0.
    { destruct (Z.le_gt_cases 0 (leak 0x200)) as [|Hneg]; [done|]. exfalso. revert Hfree. clear -Hneg.
      unfold is_free. rewrite Z.shiftr_div_pow2 by lia.
      assert (leak 0x200 / 2 ^ 5 < 0) by (apply Z.div_lt_upper_bound; lia).
      replace (Z.to_nat (leak 0x200 / 2 ^ 5)) with 0%nat by lia. cbn [frames fork_mmu mm_table lookup list_lookup].
      by rewrite Z.bits_0. }
    exists ND, s1, s2, (leak 0x200). split; [exact E1|]. split; [exact E2|]. split; [exact Hfree|]. clear E1 E2. split.
    + destruct (is_free (frames s2) (leak 0x200)) eqn:E; [|reflexivity]. apply F' in E as [_ Hne]; [|done]. by destruct Hne.
    + intros m Hm Hne. specialize (F' m Hm).
      destruct (is_free (frames s2) m), (is_free (frames fork_mmu) m); try reflexivity; exfalso; [destruct (proj1 F' eq_refl) as [? _]; discriminate|].
      discriminate (proj2 F' (conj eq_refl Hne)).
Defined.
