(* ===== verification/Spinlock.v ===== *)
(** * Spin locks: include/smp/spinlock.h

    The other files take a critical section for one step.  Here several processors run
    critical sections over shared data under one spin lock, an atomic exchange at a time;
    the theorem says that every execution gives what the critical sections give one after
    another, in the order in which they took the lock. *)

From Stdlib Require Import ZArith Lia.
From S2P Require Import Prelude.
From stdpp Require Import base numbers list relations.
Local Open Scope Z_scope.

(** ** The code *)

Record spinlock := mkLock { lock_word : Z }.

Definition spinlock_init : spinlock := mkLock 0.

(** [lock xchgl]: the old word and the lock. *)
Definition xchg (x : Z) (l : spinlock) : Z * spinlock := (lock_word l, mkLock x).

(** One round of the loop of [spinlock_lock]: [true] when the lock was taken.  The [x] of
    a further round is the word that was read, which is 1 again.  On a machine with one
    processor the lock is not used. *)
Definition spinlock_lock_round (mp_enabled : bool) (l : spinlock) : bool * spinlock :=
  if mp_enabled then let '(x, l) := xchg 1 l in (x =? 0, l) else (true, l).

Definition spinlock_unlock (l : spinlock) : spinlock := (xchg 0 l).2.

(** ** Processors *)

Section processors.
(** The data the lock protects; a critical section is a list of steps on it. *)
Context {D : Type}.
Notation section := (list (D -> D)).

(** What a processor does, with the critical sections it has still to run. *)
Inductive cpu :=
| Outside (todo : list section)
| Spinning (s : section) (todo : list section)
| Inside (rest : section) (todo : list section).

(** [c_log]: the critical sections that took the lock, in order, with their processors. *)
Record conf := mkConf { c_lock : spinlock; c_data : D; c_cpus : list cpu; c_log : list (nat * section) }.

Inductive step : conf -> conf -> Prop :=
| step_start c i s todo :
    c_cpus c !! i = Some (Outside (s :: todo)) ->
    step c (mkConf (c_lock c) (c_data c) (<[i := Spinning s todo]> (c_cpus c)) (c_log c))
| step_spin c i s todo l :
    c_cpus c !! i = Some (Spinning s todo) -> spinlock_lock_round true (c_lock c) = (false, l) ->
    step c (mkConf l (c_data c) (c_cpus c) (c_log c))
| step_take c i s todo l :
    c_cpus c !! i = Some (Spinning s todo) -> spinlock_lock_round true (c_lock c) = (true, l) ->
    step c (mkConf l (c_data c) (<[i := Inside s todo]> (c_cpus c)) (c_log c ++ [(i, s)]))
| step_work c i f rest todo :
    c_cpus c !! i = Some (Inside (f :: rest) todo) ->
    step c (mkConf (c_lock c) (f (c_data c)) (<[i := Inside rest todo]> (c_cpus c)) (c_log c))
| step_leave c i todo :
    c_cpus c !! i = Some (Inside [] todo) ->
    step c (mkConf (spinlock_unlock (c_lock c)) (c_data c) (<[i := Outside todo]> (c_cpus c)) (c_log c)).

Definition run (s : section) (d : D) : D := foldl (fun d f => f d) d s.
Definition run_log (log : list (nat * section)) (d : D) : D := foldl (fun d e => run e.2 d) d log.

Arguments run : simpl never.
Arguments run_log : simpl never.

(** The critical sections that a processor has still to enter. *)
Definition to_enter (c : cpu) : list section :=
  match c with Outside todo => todo | Spinning s todo => s :: todo | Inside _ todo => todo end.
Definition entered (i : nat) (log : list (nat * section)) : list section := snd <$> filter (fun e => e.1 = i) log.

(** The invariant: at most one processor is inside, the lock is taken exactly then, and
    the data, once it is done, is what the log gives. *)
Record conf_ok (d0 : D) (progs : list (list section)) (c : conf) : Prop := mkConfOk {
  ck_lock : lock_word (c_lock c) = 0 \/ lock_word (c_lock c) = 1;
  ck_free : lock_word (c_lock c) = 0 ->
    (forall i rest todo, c_cpus c !! i <> Some (Inside rest todo)) /\ c_data c = run_log (c_log c) d0;
  ck_taken : lock_word (c_lock c) = 1 ->
    exists i rest todo, c_cpus c !! i = Some (Inside rest todo) /\ run rest (c_data c) = run_log (c_log c) d0 /\
      forall j rest' todo', c_cpus c !! j = Some (Inside rest' todo') -> j = i;
  ck_progs : forall i p, c_cpus c !! i = Some p -> exists prog, progs !! i = Some prog /\ prog = entered i (c_log c) ++ to_enter p;
  ck_cpus : length (c_cpus c) = length progs
}.

Lemma lock_round l b l' : spinlock_lock_round true l = (b, l') -> lock_word l' = 1 /\ b = (lock_word l =? 0).
Proof. intros [= <- <-]. done. Qed.

(** Changing what a processor does, without entering or leaving. *)
Lemma progs_insert d0 progs c i p p' log : conf_ok d0 progs c -> c_cpus c !! i = Some p ->
  (forall j, j <> i -> entered j log = entered j (c_log c)) ->
  entered i log ++ to_enter p' = entered i (c_log c) ++ to_enter p ->
  forall j q, <[i := p']> (c_cpus c) !! j = Some q -> exists prog, progs !! j = Some prog /\ prog = entered j log ++ to_enter q.
Proof.
  intros Hc Hi Hlog Hp j q Hj. destruct (decide (j = i)) as [->|Hne].
  - rewrite list_lookup_insert_eq in Hj by (by eapply lookup_lt_Some). injection Hj as <-.
    destruct (ck_progs _ _ _ Hc i p Hi) as (prog & Hprog & ->). eexists. split; [exact Hprog|]. by rewrite Hp.
  - rewrite list_lookup_insert_ne in Hj by done. rewrite Hlog by done. by apply (ck_progs _ _ _ Hc).
Qed.

Lemma entered_snoc i j s log : entered j (log ++ [(i, s)]) = entered j log ++ (if decide (i = j) then [s] else []).
Proof.
  unfold entered. rewrite filter_app, fmap_app. f_equal. rewrite filter_cons, filter_nil. cbn. by destruct (decide (i = j)).
Qed.

Lemma run_log_snoc log i s d : run_log (log ++ [(i, s)]) d = run s (run_log log d).
Proof. unfold run_log. by rewrite foldl_app. Qed.

Lemma step_ok d0 progs c c' : step c c' -> conf_ok d0 progs c -> conf_ok d0 progs c'.
Proof.
  intros Hstep Hc. pose proof Hc as [Hw Hfree Htaken Hpr Hlen]. destruct Hstep as [c i s todo Hi|c i s todo l Hi Hl|c i s todo l Hi Hl|c i f rest todo Hi|c i todo Hi].
  - assert (forall j rest td, <[i:=Spinning s todo]> (c_cpus c) !! j = Some (Inside rest td) <-> c_cpus c !! j = Some (Inside rest td)) as Hin.
    { intros j rest td. destruct (decide (j = i)) as [->|]; [|by rewrite list_lookup_insert_ne].
      rewrite list_lookup_insert_eq by (by eapply lookup_lt_Some). rewrite Hi. done. }
    split; cbn; [done| | |by eapply progs_insert|by rewrite length_insert].
    + intros H0. destruct (Hfree H0) as [Hno Hd]. split; [|done]. intros j rest td Hj. apply Hin in Hj. by eapply Hno.
    + intros H1. destruct (Htaken H1) as (k & rest & td & Hk & Hd & Hu). exists k, rest, td.
      split; [by apply Hin|]. split; [done|]. intros j r' t' Hj. apply Hin in Hj. by eapply Hu.
  - apply lock_round in Hl as [Hl Hb]. symmetry in Hb. apply Z.eqb_neq in Hb. assert (lock_word (c_lock c) = 1) as H1 by tauto.
    split; cbn; [by right|lia| |done|done]. intros _. by apply Htaken.
  - apply lock_round in Hl as [Hl Hb]. symmetry in Hb. apply Z.eqb_eq in Hb. destruct (Hfree Hb) as [Hno Hd].
    split; cbn; [by right|lia| | |by rewrite length_insert].
    + intros _. exists i, s, todo. split; [apply list_lookup_insert_eq; by eapply lookup_lt_Some|].
      split; [by rewrite run_log_snoc, Hd|]. intros j r' t' Hj. destruct (decide (j = i)) as [|Hne]; [done|].
      rewrite list_lookup_insert_ne in Hj by done. by destruct (Hno j r' t').
    + eapply progs_insert; [done|exact Hi| |]; [intros j Hj; rewrite entered_snoc, decide_False by done; by rewrite app_nil_r|].
      rewrite entered_snoc, decide_True by done. cbn. by rewrite <- app_assoc.
  - destruct (decide (lock_word (c_lock c) = 0)) as [H0|H0]; [by destruct (proj1 (Hfree H0) i (f :: rest) todo)|].
    assert (lock_word (c_lock c) = 1) as H1 by tauto. destruct (Htaken H1) as (k & r & td & Hk & Hd & Hu).
    pose proof (Hu _ _ _ Hi) as ->. rewrite Hk in Hi. injection Hi as -> ->.
    split; cbn; [done|lia| |by eapply progs_insert|by rewrite length_insert].
    intros _. exists k, rest, todo. split; [apply list_lookup_insert_eq; by eapply lookup_lt_Some|]. split; [done|].
    intros j r' t' Hj. destruct (decide (j = k)) as [|Hne]; [done|]. rewrite list_lookup_insert_ne in Hj by done. by eapply Hu.
  - destruct (decide (lock_word (c_lock c) = 0)) as [H0|H0]; [by destruct (proj1 (Hfree H0) i [] todo)|].
    assert (lock_word (c_lock c) = 1) as H1 by tauto. destruct (Htaken H1) as (k & r & td & Hk & Hd & Hu).
    pose proof (Hu _ _ _ Hi) as ->. rewrite Hk in Hi. injection Hi as -> ->.
    split; cbn; [by left| |done|by eapply progs_insert|by rewrite length_insert].
    intros _. split; [|done]. intros j r' t' Hj. destruct (decide (j = k)) as [->|Hne].
    + rewrite list_lookup_insert_eq in Hj by (by eapply lookup_lt_Some). done.
    + rewrite list_lookup_insert_ne in Hj by done. apply Hne. by eapply Hu.
Qed.

Definition initial (d0 : D) (progs : list (list section)) : conf := mkConf spinlock_init d0 (Outside <$> progs) [].

Lemma initial_ok d0 progs : conf_ok d0 progs (initial d0 progs).
Proof.
  split; cbn; [by left| |done| |by rewrite length_fmap].
  - intros _. split; [|done]. intros i rest todo Hi. rewrite list_lookup_fmap in Hi. by destruct (progs !! i).
  - intros i p Hi. rewrite list_lookup_fmap in Hi. destruct (progs !! i) as [prog|] eqn:E; [|done]. injection Hi as <-. by exists prog.
Qed.

(** Progress: a configuration in which a processor has something to do has a step that
    is not a vain exchange. *)
Lemma step_progress d0 progs c : conf_ok d0 progs c -> (exists i p, c_cpus c !! i = Some p /\ p <> Outside []) ->
  exists c', step c c' /\ (c_cpus c' <> c_cpus c).
Proof.
  intros Hc (i & p & Hi & Hp). pose proof Hc as [Hw Hfree Htaken _ _].
  assert (forall j p q, c_cpus c !! j = Some p -> p <> q -> <[j := q]> (c_cpus c) <> c_cpus c) as Hne.
  { intros j p' q Hj Hpq E. apply (f_equal (fun l => l !! j)) in E.
    rewrite list_lookup_insert_eq, Hj in E by (by eapply lookup_lt_Some). congruence. }
  destruct (decide (lock_word (c_lock c) = 0)) as [H0|H0].
  - destruct (Hfree H0) as [Hno _]. destruct p as [[|s todo]|s todo|rest todo]; [done| | |by destruct (Hno i rest todo)].
    + eexists. split; [by eapply step_start|]. cbn. by eapply Hne.
    + eexists. split; [eapply (step_take _ _ _ _ (mkLock 1)); [exact Hi|]; unfold spinlock_lock_round; cbn; by rewrite H0|].
      cbn. by eapply Hne.
  - destruct (Htaken ltac:(tauto)) as (k & [|f rest] & todo & Hk & _); eexists.
    + split; [by eapply step_leave|]. cbn. by eapply Hne.
    + split; [by eapply step_work|]. cbn. eapply Hne; [exact Hk|]. intros [= E]. apply (f_equal length) in E. cbn in E. lia.
Qed.
End processors.
Arguments cpu : clear implicits.
Arguments conf : clear implicits.

(** ** Theorem *)

(** C28: Critical sections under a spin lock are atomic: in every configuration that can be
    reached, at most one processor is inside; when none is, the data is the result of the
    critical sections that took the lock, run one after another in that order; the order
    keeps that of each processor's program; and while a processor has something to do,
    some processor can go on. *)
Theorem critical_sections_atomic {D : Type} (d0 : D) (progs : list (list (list (D -> D)))) c :
  rtc step (initial d0 progs) c ->
  (forall i j r t r' t', c_cpus c !! i = Some (Inside r t) -> c_cpus c !! j = Some (Inside r' t') -> i = j) /\
  ((forall i r t, c_cpus c !! i <> Some (Inside r t)) -> c_data c = run_log (c_log c) d0) /\
  (forall i prog, progs !! i = Some prog -> exists p, c_cpus c !! i = Some p /\ prog = entered i (c_log c) ++ to_enter p) /\
  ((exists i p, c_cpus c !! i = Some p /\ p <> Outside []) -> exists c', step c c' /\ c_cpus c' <> c_cpus c).
Proof.
  intros Hrtc. assert (conf_ok d0 progs c) as Hc.
  { apply (rtc_ind_r (R := step) (conf_ok d0 progs) (initial d0 progs)); [apply initial_ok| |exact Hrtc].
    intros c1 c2 _ Hst. by apply step_ok. }
  pose proof Hc as [Hw Hfree Htaken Hpr Hlen]. split_and!.
  - intros i j r t r' t' Hi Hj. destruct Hw as [H0|H1]; [by destruct (proj1 (Hfree H0) i r t)|].
    destruct (Htaken H1) as (k & _ & _ & _ & _ & Hu). rewrite (Hu _ _ _ Hi), (Hu _ _ _ Hj). done.
  - intros Hno. destruct Hw as [H0|H1]; [by apply Hfree|]. destruct (Htaken H1) as (k & r & t & Hk & _). by destruct (Hno k r t).
  - intros i prog Hi. destruct (lookup_lt_is_Some_2 (c_cpus c) i) as [p Hp]; [rewrite Hlen; by eapply lookup_lt_Some|].
    exists p. split; [done|]. destruct (Hpr i p Hp) as (prog' & Hp' & ->). congruence.
  - by apply (step_progress d0 progs).
Qed.

(** *** Two processors that increment a counter by reading and writing it *)

Definition read_it (d : Z * Z) : Z * Z := (d.1, d.1).
Definition write_it (d : Z * Z) : Z * Z := (d.2 + 1, d.2).
Definition incr : list (Z * Z -> Z * Z) := [read_it; write_it].

Lemma critical_sections_atomic_witness :
  exists c, c_log c = [(1%nat, incr); (0%nat, incr)] /\ c_data c = run_log (c_log c) (5, 0) /\ (c_data c).1 = 7.
Proof.
  set (c := mkConf (mkLock 0) (7, 6) [Outside []; Outside []] [(1%nat, incr); (0%nat, incr)]).
  destruct (critical_sections_atomic (5, 0) [[incr]; [incr]] c) as (_ & Hd & _).
  - eapply rtc_l; [apply (step_start _ 0 incr []); reflexivity|]. cbn.
    eapply rtc_l; [apply (step_start _ 1 incr []); reflexivity|]. cbn.
    eapply rtc_l; [apply (step_take _ 1 incr [] (mkLock 1)); reflexivity|]. cbn.
    eapply rtc_l; [apply (step_spin _ 0 incr [] (mkLock 1)); reflexivity|]. cbn.
    eapply rtc_l; [apply (step_work _ 1 read_it [write_it] []); reflexivity|]. cbn.
    eapply rtc_l; [apply (step_work _ 1 write_it [] []); reflexivity|]. cbn.
    eapply rtc_l; [apply (step_leave _ 1 []); reflexivity|]. cbn.
    eapply rtc_l; [apply (step_take _ 0 incr [] (mkLock 1)); reflexivity|]. cbn.
    eapply rtc_l; [apply (step_work _ 0 read_it [write_it] []); reflexivity|]. cbn.
    eapply rtc_l; [apply (step_work _ 0 write_it [] []); reflexivity|]. cbn.
    eapply rtc_l; [apply (step_leave _ 0 []); reflexivity|]. cbn. apply rtc_refl.
  - exists c. split; [reflexivity|]. split; [|reflexivity]. apply Hd. intros [|[|i]] r t Hi; discriminate Hi.
Defined.
