(* ===== verification/Waitqueue.v ===== *)
(** * Wait queues and the interface of the scheduler

    Semaphores, circular buffers and the sleep queue keep tasks on queues that are
    linked through the same [next] field as the run queues, and call [wakeup] and
    [schedule] of the scheduler.  [Scheduler] is what they call, [SchedulerLaws]
    what they rely on: a wake-up makes the task ready and changes no [next] field
    but those of the task and of ready tasks.  [vcpu_scheduler] is the scheduler of
    sched/vcpu.c and [vcpu_scheduler_laws] shows that it keeps the promise.

    [wakeup_queue] of sched/sched.c is modelled and verified against the
    interface. *)

From Stdlib Require Import ZArith Lia.
From S2P Require Import Prelude Div64 TaskQueue ReplQueue Vcpu MainVcpu IoVcpu.
From S2P Require Import VcpuSched SchedLemmas SchedInv SchedThm SchedWake SchedTheorems.
From stdpp Require Import base gmap sets fin_sets numbers strings list.
Local Open Scope Z_scope.

(** ** The interface *)

Class Scheduler (W : Type) := {
  w_tasks : W -> gmap Z quest_tss;
  w_set_tasks : gmap Z quest_tss -> W -> W;
  (** [str ()], the selector of the running task *)
  w_str : M W Z;
  w_rdtsc : M W Z;
  wakeup : Z -> M W unit;
  schedule : M W unit
}.

(** [ready w x]: task [x] is on a run queue; [wakeable w x]: [x] may be woken. *)
Class SchedulerLaws (W : Type) `{Scheduler W} := {
  w_inv : W -> Prop;
  ready : W -> Z -> Prop;
  wakeable : W -> Z -> Prop;
  tasks_set : forall tasks w, w_tasks (w_set_tasks tasks w) = tasks;
  set_twice : forall tasks tasks' w,
    w_set_tasks tasks (w_set_tasks tasks' w) = w_set_tasks tasks w;
  set_same : forall w, w_set_tasks (w_tasks w) w = w;
  wakeable_task : forall w x, wakeable w x -> x <> 0 /\ is_Some (w_tasks w !! x);
  (** Tasks that are not ready may be relinked; the other fields, but for the
      binding to a VCPU, are not the scheduler's. *)
  set_tasks_ok : forall w tasks,
    w_inv w ->
    (forall x, ready w x -> tss_next <$> tasks !! x = tss_next <$> w_tasks w !! x) ->
    (forall x, tss_cpu <$> tasks !! x = tss_cpu <$> w_tasks w !! x) ->
    w_inv (w_set_tasks tasks w) /\
    (forall x, ready (w_set_tasks tasks w) x <-> ready w x) /\
    (forall x, wakeable w x -> wakeable (w_set_tasks tasks w) x);
  str_ok : forall w, w_inv w -> exists c, w_str w = Ok (c, w);
  rdtsc_ok : forall w, w_inv w ->
    wp w_rdtsc (fun now w' =>
      0 <= now < 2 ^ 64 /\ w_inv w' /\ w_tasks w' = w_tasks w /\
      (forall y, ready w' y <-> ready w y) /\ (forall y, wakeable w y -> wakeable w' y) /\
      (forall c, w_str w = Ok (c, w) -> w_str w' = Ok (c, w'))) w;
  wakeup_ok : forall w x,
    w_inv w -> wakeable w x ->
    wp (wakeup x) (fun _ w' =>
      w_inv w' /\ same_but_next (w_tasks w) (w_tasks w') /\
      (forall y, y <> x -> ~ ready w y -> w_tasks w' !! y = w_tasks w !! y) /\
      (forall y, ready w' y <-> ready w y \/ y = x) /\
      (forall y, wakeable w y -> wakeable w' y)) w
}.

Section wakeup_queue.
Context {W : Type} `{SchedulerLaws W}.

(** ** [wakeup_queue] *)

Definition wakeup_queue_body (q : Z) : M W (control Z Z) :=
  let! tasks := gets w_tasks in
  let! '(head, q) := lift (queue_remove_head tasks q) in
  if head =? 0 then ret (Break q)
  else wakeup head ;;! ret (Continue q).

(** [q] is the queue; the result is the queue afterwards. *)
Definition wakeup_queue (q : Z) : M W Z :=
  let! tasks := gets w_tasks in
  mloop (queue_fuel tasks) wakeup_queue_body q.

(** *** Specification *)

(** The tasks [l] can be woken: none is on a run queue. *)
Definition sleeping (w : W) (l : list Z) : Prop :=
  forall x, x ∈ l -> wakeable w x /\ ~ ready w x.

(** [w'] is [w] with the tasks [l] made ready. *)
Record awoken (l : list Z) (w w' : W) : Prop := {
  aw_inv : w_inv w';
  aw_same : same_but_next (w_tasks w) (w_tasks w');
  aw_frame : forall y, y ∉ l -> ~ ready w y -> w_tasks w' !! y = w_tasks w !! y;
  aw_ready : forall y, ready w' y <-> ready w y \/ y ∈ l;
  aw_wakeable : forall y, wakeable w y -> wakeable w' y
}.

Lemma awoken_nil w : w_inv w -> awoken [] w w.
Proof. intros Hi. split; [done|done|done|set_solver|done]. Qed.

Lemma awoken_step l w w1 w2 x :
  awoken l w w1 ->
  w_inv w2 -> same_but_next (w_tasks w1) (w_tasks w2) ->
  (forall y, y <> x -> ~ ready w1 y -> w_tasks w2 !! y = w_tasks w1 !! y) ->
  (forall y, ready w2 y <-> ready w1 y \/ y = x) ->
  (forall y, wakeable w1 y -> wakeable w2 y) ->
  awoken (l ++ [x]) w w2.
Proof.
  intros [Hi Hs Hf Hr Hw] Hi2 Hs2 Hf2 Hr2 Hw2. split.
  - done.
  - intros y. by rewrite Hs2, Hs.
  - intros y Hy Hny. rewrite Hf2, Hf; [done|set_solver|done|set_solver|].
    rewrite Hr. set_solver.
  - intros y. rewrite Hr2, Hr. set_solver.
  - auto.
Qed.

Lemma sleeping_chain w l w' q l' :
  awoken l w w' -> (forall x, x ∈ l' -> x ∉ l) -> sleeping w l' ->
  chain (w_tasks w) q l' -> chain (w_tasks w') q l'.
Proof.
  intros Ha Hd Hs. apply chain_frame. intros x Hx. eapply aw_frame; [done|by apply Hd|].
  by apply Hs.
Qed.

(** One wake-up of the loop. *)
Lemma wakeup_queue_round w w1 q done x l :
  awoken done w w1 -> sleeping w (done ++ x :: l) -> NoDup (done ++ x :: l) ->
  chain (w_tasks w1) q (x :: l) ->
  wp (wakeup_queue_body q) (fun c w2 =>
    exists q', c = Continue q' /\ awoken (done ++ [x]) w w2 /\ chain (w_tasks w2) q' l) w1.
Proof.
  intros Ha Hs Hnd (-> & Hx0 & t & Ht & Hl).
  unfold wakeup_queue_body. apply wp_bind, wp_gets, wp_bind.
  eapply (wp_lift _ (x, tss_next t)).
  { unfold queue_remove_head, lookup_TSS. rewrite (proj2 (Z.eqb_neq _ _)) by done. by rewrite Ht. }
  rewrite (proj2 (Z.eqb_neq _ _)) by done. apply wp_bind.
  destruct (Hs x ltac:(set_solver)) as [Hwx Hrx].
  eapply wp_mono; [apply wakeup_ok; [apply Ha|by apply (aw_wakeable _ _ _ Ha)]|].
  intros [] w2 (Hi2 & Hs2 & Hf2 & Hr2 & Hw2). apply wp_ret. eexists. split; [done|].
  split; [by eapply awoken_step|]. eapply chain_frame; [|exact Hl]. intros y Hy.
  apply NoDup_app in Hnd as (_ & Hdis & Hnd). apply NoDup_cons in Hnd as [Hxl _].
  apply Hf2; [by intros ->|]. rewrite (aw_ready _ _ _ Ha). intros [Hr|Hd].
  - destruct (Hs y ltac:(set_solver)) as [_ Hn]. done.
  - apply (Hdis y Hd). set_solver.
Qed.

Lemma wakeup_queue_loop w l : forall fuel w1 q done,
  awoken done w w1 -> sleeping w (done ++ l) -> NoDup (done ++ l) ->
  chain (w_tasks w1) q l -> (length l < fuel)%nat ->
  wp (mloop fuel wakeup_queue_body q) (fun q' w' => q' = 0 /\ awoken (done ++ l) w w') w1.
Proof.
  induction l as [|x l IH]; intros [|fuel] w1 q done Ha Hs Hnd Hc Hf; cbn [length] in Hf; try lia.
  - cbn [mloop]. cbn in Hc. subst q. apply wp_bind. unfold wakeup_queue_body.
    apply wp_bind, wp_gets, wp_bind. eapply (wp_lift _ (0, 0)); [done|].
    cbn. split; [done|]. by rewrite app_nil_r.
  - cbn [mloop]. apply wp_bind. eapply wp_mono; [by eapply wakeup_queue_round|].
    intros c w2 (q' & -> & Ha2 & Hc2).
    replace (done ++ x :: l) with ((done ++ [x]) ++ l) in * by (by rewrite <- app_assoc).
    apply IH; [done|done|done|done|lia].
Qed.

(** [wakeup_queue] wakes the tasks of the queue, in order, and leaves it empty. *)
Lemma wakeup_queue_wp w q l :
  w_inv w -> chain (w_tasks w) q l -> sleeping w l ->
  wp (wakeup_queue q) (fun q' w' => q' = 0 /\ awoken l w w') w.
Proof.
  intros Hi Hc Hs. unfold wakeup_queue. apply wp_bind, wp_gets.
  apply (wakeup_queue_loop w l (queue_fuel (w_tasks w)) w q []);
    [by apply awoken_nil|done|by eapply chain_NoDup|done|].
  unfold queue_fuel. pose proof (chain_length _ _ _ Hc). lia.
Qed.
End wakeup_queue.

(** ** The VCPU scheduler keeps the promise *)

Section vcpu_scheduler.
Context (E : env) (me : nat).
(** The clock stays clear of zero and of the 64-bit horizon. *)
Context (Htsc : forall n, 0 < e_tsc E n < 2 ^ 62).

Definition vcpu_scheduler : Scheduler sched := {|
  w_tasks := s_tasks;
  w_set_tasks := set_tasks;
  w_str := let! p := get_pc me in ret (current_task p);
  w_rdtsc := read_tsc E;
  wakeup := vcpu_wakeup E me;
  schedule := vcpu_schedule E me
|}.

Definition on_runqueue (s : sched) (i : nat) (x : Z) : Prop :=
  exists v ts, s_vcpus s !! i = Some v /\ chain (s_tasks s) (v_runqueue v) ts /\ x ∈ ts.

(** A task that may be woken is bound to a main VCPU of this CPU and on no run
    queue but the one of its VCPU. *)
Definition bound_here (s : sched) (x : Z) : Prop :=
  x <> 0 /\ exists t i v,
    s_tasks s !! x = Some t /\ tss_cpu t = Z.of_nat i /\ (i < length init_params)%nat /\
    s_vcpus s !! i = Some v /\ v_cpu v = Z.of_nat me /\ v_type v = MAIN_VCPU /\
    forall j, on_runqueue s j x -> j = i.

Definition sched_inv (s : sched) : Prop := exists p l rqs, sched_wf E me s p l rqs.

Lemma on_runqueue_rqs s p l rqs j x :
  sched_wf E me s p l rqs ->
  (on_runqueue s j x <-> exists us, rqs !! j = Some us /\ x ∈ us).
Proof.
  intros Hwf. pose proof (sw_queues _ _ _ _ _ _ Hwf) as Hq. split.
  - intros (v & ts & Hv & Hch & Hx).
    destruct (lookup_lt_is_Some_2 rqs j) as [us Hus];
      [rewrite (qw_len _ _ _ _ _ Hq); by eapply lookup_lt_Some|].
    destruct (qw_rq _ _ _ _ _ Hq j v us Hv Hus) as [Hch' _].
    exists us. split; [done|]. by rewrite (chain_det _ _ _ _ Hch' Hch).
  - intros (us & Hus & Hx).
    destruct (lookup_lt_is_Some_2 (s_vcpus s) j) as [v Hv];
      [rewrite <- (qw_len _ _ _ _ _ Hq); by eapply lookup_lt_Some|].
    destruct (qw_rq _ _ _ _ _ Hq j v us Hv Hus) as [Hch' _]. by exists v, us.
Qed.

(** Relinking tasks that are on no run queue. *)
Lemma relink_ok s tasks :
  (forall x, (exists j, on_runqueue s j x) -> tss_next <$> tasks !! x = tss_next <$> s_tasks s !! x) ->
  (forall x, tss_cpu <$> tasks !! x = tss_cpu <$> s_tasks s !! x) ->
  sched_inv s ->
  sched_inv (set_tasks tasks s) /\
  (forall j x, on_runqueue (set_tasks tasks s) j x <-> on_runqueue s j x).
Proof.
  intros Heq Hcpu (p & l & rqs & Hwf). pose proof (sw_queues _ _ _ _ _ _ Hwf) as Hq.
  assert (forall x, is_Some (s_tasks s !! x) -> is_Some (tasks !! x)) as Hdom.
  { intros x [t Ht]. specialize (Hcpu x). rewrite Ht in Hcpu. by destruct (tasks !! x). }
  assert (forall i us x, rqs !! i = Some us -> x ∈ us ->
    tss_next <$> tasks !! x = tss_next <$> s_tasks s !! x) as Hrq.
  { intros i us x Hus Hx. apply Heq. exists i. apply (on_runqueue_rqs _ _ _ _ _ _ Hwf). eauto. }
  assert (sched_wf E me (set_tasks tasks s) p l rqs) as Hwf'.
  { destruct Hwf as [Hp Hq' Hb Hr (Ht1 & Ht2 & Ht3 & Ht4)]. split; [done| |done|done|].
    - split; try (by apply Hq'). intros i v ts Hv Hts. cbn.
      destruct (qw_rq _ _ _ _ _ Hq' i v ts Hv Hts) as [Hch ?]. split; [|done].
      eapply chain_next_eq; [|exact Hch]. eauto.
    - unfold tasks_ok. cbn. split; [intros ?; apply Hdom; auto|]. split; [done|].
      split; [by apply Hdom|]. intros ?; apply Hdom; auto. }
  split; [by exists p, l, rqs|].
  intros j x. by rewrite (on_runqueue_rqs _ _ _ _ _ _ Hwf'), (on_runqueue_rqs _ _ _ _ _ _ Hwf).
Qed.

(** The run queues after [task] was appended to run queue [i]. *)
Lemma appended_elem (rqs : list (list Z)) i ts task j x :
  rqs !! i = Some ts ->
  ((exists us, <[i := append_spec ts task]> rqs !! j = Some us /\ x ∈ us) <->
   (exists us, rqs !! j = Some us /\ x ∈ us) \/ (j = i /\ x = task)).
Proof.
  intros Hts. pose proof (lookup_lt_Some _ _ _ Hts) as Hi.
  destruct (decide (j = i)) as [->|Hne].
  - rewrite list_lookup_insert_eq by done. split.
    + intros (us & [= <-] & Hx). apply append_spec_elem in Hx as [Hx|Hx]; [left; eauto|by right].
    + intros [(us & Hus & Hx)|[_ ->]]; (eexists; split; [done|]); apply append_spec_elem;
        [left; congruence|by right].
  - rewrite list_lookup_insert_ne by done. split; [by left|]. intros [?|[? _]]; [done|congruence].
Qed.

Lemma traced_binding i s s' j w :
  traced i s s' -> s_vcpus s !! j = Some w ->
  exists w', s_vcpus s' !! j = Some w' /\ v_cpu w' = v_cpu w /\ v_type w' = v_type w.
Proof.
  intros [Hl Ht] Hw. destruct (lookup_lt_is_Some_2 (s_vcpus s') j) as [w' Hw'];
    [rewrite Hl; by eapply lookup_lt_Some|].
  destruct (Ht j w' Hw') as (w0 & Hw0 & Ec & _ & _ & Ety). exists w'. by simplify_eq.
Qed.

Lemma same_but_next_cpu tasks tasks' x :
  same_but_next tasks tasks' -> tss_cpu <$> tasks' !! x = tss_cpu <$> tasks !! x.
Proof.
  intros Hs. specialize (Hs x). destruct (tasks' !! x), (tasks !! x); try done. cbn in *.
  apply (inj Some) in Hs. injection Hs as. congruence.
Qed.

Lemma wakeup_law s x :
  sched_inv s -> bound_here s x ->
  wp (vcpu_wakeup E me x) (fun _ s' =>
    sched_inv s' /\ same_but_next (s_tasks s) (s_tasks s') /\
    (forall y, y <> x -> ~ (exists j, on_runqueue s j y) -> s_tasks s' !! y = s_tasks s !! y) /\
    (forall y, (exists j, on_runqueue s' j y) <-> (exists j, on_runqueue s j y) \/ y = x) /\
    (forall y, bound_here s y -> bound_here s' y)) s.
Proof.
  intros (p & l & rqs & Hwf) (H0 & t & i & v & Ht & Hcpu & Hi & Hv & Hc & Hty & Hon).
  eapply wp_mono.
  { eapply (vcpu_wakeup_ok E me s p l rqs x t i v); try done.
    - intros j us Hus Hx. apply Hon, (on_runqueue_rqs _ _ _ _ _ _ Hwf). eauto.
    - intros _ _. unfold unblockable. rewrite Hty. apply Htsc. }
  intros [] s' (p' & ts & v' & Hts & Hwf' & _ & _ & _ & [Hsame Hframe] & Htr & _).
  assert (forall j y, on_runqueue s' j y <-> on_runqueue s j y \/ (j = i /\ y = x)) as Hrq.
  { intros j y. rewrite (on_runqueue_rqs _ _ _ _ _ _ Hwf'), (on_runqueue_rqs _ _ _ _ _ _ Hwf).
    by apply appended_elem. }
  split; [by exists p', (queue_join l i), (<[i := append_spec ts x]> rqs)|].
  split; [done|]. split; [|split].
  - intros y Hy Hny. apply Hframe. intros [->|Hyt]%elem_of_cons; [done|]. apply Hny.
    exists i. apply (on_runqueue_rqs _ _ _ _ _ _ Hwf). eauto.
  - intros y. setoid_rewrite Hrq. naive_solver.
  - intros y (Hy0 & ty & k & w & Hty' & Hcy & Hk & Hw & Hwc & Hwt & Hony). split; [done|].
    pose proof (same_but_next_cpu _ _ y Hsame) as Hcs. rewrite Hty' in Hcs.
    destruct (s_tasks s' !! y) as [ty'|] eqn:Ey; [|done]. injection Hcs as Hcs.
    destruct (traced_binding _ _ _ _ _ Htr Hw) as (w' & Hw' & Ec & Et).
    exists ty', k, w'. split; [done|]. split; [congruence|]. split; [done|]. split; [done|].
    split; [congruence|]. split; [congruence|].
    intros j [Hj|[-> ->]]%Hrq; [by apply Hony|]. congruence || (simplify_eq; lia).
Qed.

Lemma bound_relink s tasks x :
  (forall j y, on_runqueue (set_tasks tasks s) j y <-> on_runqueue s j y) ->
  (forall y, tss_cpu <$> tasks !! y = tss_cpu <$> s_tasks s !! y) ->
  bound_here s x -> bound_here (set_tasks tasks s) x.
Proof.
  intros Hrq Hcpu (H0 & t & i & v & Ht & Hc & Hi & Hv & Hvc & Hty & Hon). split; [done|].
  specialize (Hcpu x). rewrite Ht in Hcpu. cbn. destruct (tasks !! x) as [t'|]; [|done].
  injection Hcpu as Hcpu. exists t', i, v. split; [done|]. split; [congruence|].
  do 4 (split; [done|]). intros j Hj%Hrq. by apply Hon.
Qed.

#[refine] Definition vcpu_scheduler_laws : @SchedulerLaws sched vcpu_scheduler :=
  {| w_inv := sched_inv;
     ready := fun s x => exists j, on_runqueue s j x;
     wakeable := bound_here |}.
Proof.
  - done.
  - done.
  - by intros [].
  - intros w x (H0 & t & i & v & Ht & _). split; [done|]. by exists t.
  - intros w tasks Hi Hr Hc. destruct (relink_ok w tasks Hr Hc Hi) as [Hi' Hrq].
    split; [done|]. split; [intros x; cbn; by setoid_rewrite Hrq|].
    intros x. by apply bound_relink.
  - intros w (p & l & rqs & Hwf). exists (current_task p). cbn. unfold bind, get_pc, gets.
    by rewrite (sw_pc _ _ _ _ _ _ Hwf).
  - intros w (p & l & rqs & Hwf). unfold wp, w_rdtsc, vcpu_scheduler, read_tsc.
    pose proof (Htsc (s_clk w)). split; [lia|].
    split; [exists p, l, rqs; destruct Hwf as [? [] ? ? ?]; by split|].
    do 3 (split; [done|]). intros c. cbn. unfold bind, get_pc. cbn.
    rewrite (sw_pc _ _ _ _ _ _ Hwf). unfold ret. congruence.
  - intros w x. apply wakeup_law.
Defined.
End vcpu_scheduler.

(** ** Theorems *)

(** the VCPU scheduler satisfies the interface, so [wakeup_queue] on a queue of
    sleeping tasks that are bound to main VCPUs of this CPU returns, empties the
    queue, makes exactly its tasks ready in addition to those that were, changes no
    control block of another sleeping task, and keeps the invariant of the
    scheduler. *)
Theorem wakeup_queue_correct E me s q l :
  (forall n, 0 < e_tsc E n < 2 ^ 62) ->
  sched_inv E me s -> chain (s_tasks s) q l ->
  (forall x, x ∈ l -> bound_here me s x /\ ~ exists j, on_runqueue s j x) ->
  exists s', @wakeup_queue sched (vcpu_scheduler E me) q s = Ok (0, s') /\
    sched_inv E me s' /\ same_but_next (s_tasks s) (s_tasks s') /\
    (forall y, (exists j, on_runqueue s' j y) <-> (exists j, on_runqueue s j y) \/ y ∈ l) /\
    (forall y, y ∉ l -> ~ (exists j, on_runqueue s j y) -> s_tasks s' !! y = s_tasks s !! y).
Proof.
  intros Htsc Hi Hc Hs. pose (Laws := vcpu_scheduler_laws E me Htsc).
  destruct (proj1 (wp_Ok _ _ _) (@wakeup_queue_wp sched _ Laws s q l Hi Hc Hs))
    as (q' & s' & Heq & -> & [Hi' Hsame Hf Hr _]).
  exists s'. split; [exact Heq|]. split; [exact Hi'|]. split; [exact Hsame|].
  split; [exact Hr|]. intros y Hy Hn. by apply Hf.
Qed.

(** *** A concrete scheduler with two sleepers, 0x48 and 0x50 *)

Definition calm_env : env :=
  mkEnv (fun _ => 100) (fun _ _ => 0) (fun _ _ => 0) false 0 100000000 3000000000 1 (fun _ => 0x40).

Definition sleepers_table : gmap Z quest_tss :=
  <[0x28 := zero_tss]> (<[0x30 := zero_tss]> (<[0x40 := zero_tss]>
    (<[0x48 := set_next 0x50 (set_time 50 zero_tss)]> (<[0x50 := set_time 9999 zero_tss]> ∅)))).

Definition sleepers_sched : sched := set_tasks sleepers_table example_sched.

Lemma calm_clock n : 0 < e_tsc calm_env n < 2 ^ 62.
Proof. cbn. lia. Qed.

Lemma sleepers_wf : sched_wf calm_env 0 sleepers_sched example_pc [0%nat; 1%nat] [[0x28]; [0x30]].
Proof.
  destruct example_sched_wf as [Hp [] Hb Hr Ht]. split; [done| |done|done|].
  - split; try done. intros i v ts Hv Hts. two Hv; injection Hts as <-; (split; [|done]);
      (split; [done|]; split; [lia|]; eexists; split; [reflexivity|done]).
  - split; [done|]. split; [done|]. split; [by eexists|]. done.
Qed.

Lemma sleepers_queue j x : on_runqueue sleepers_sched j x -> (j = 0%nat /\ x = 0x28) \/ (j = 1%nat /\ x = 0x30).
Proof.
  intros (us & Hus & Hx)%(on_runqueue_rqs calm_env 0 _ _ _ _ _ _ sleepers_wf).
  two Hus; apply list_elem_of_singleton in Hx; auto.
Qed.

Lemma sleepers_bound x :
  x ∈ [0x48; 0x50] -> bound_here 0 sleepers_sched x /\ ~ exists j, on_runqueue sleepers_sched j x.
Proof.
  intros Hx. assert (x = 0x48 \/ x = 0x50) as Hor by set_solver.
  split; [|intros (j & [[_ ?]|[_ ?]]%sleepers_queue); lia].
  split; [lia|]. destruct Hor as [-> | ->]; (eexists _, 0%nat, _; split; [reflexivity|];
    split; [done|]; split; [cbn; lia|]; do 3 (split; [reflexivity|]);
    intros j [[_ ?]|[_ ?]]%sleepers_queue; lia).
Qed.

Lemma sleepers_chain : chain (s_tasks sleepers_sched) 0x48 [0x48; 0x50].
Proof.
  split; [done|]. split; [lia|]. eexists. split; [reflexivity|].
  split; [done|]. split; [lia|]. eexists. split; [reflexivity|]. done.
Qed.

Lemma wakeup_queue_correct_witness :
  exists s', @wakeup_queue sched (vcpu_scheduler calm_env 0) 0x48 sleepers_sched = Ok (0, s') /\
    sched_inv calm_env 0 s' /\
    (forall y, (exists j, on_runqueue s' j y) <->
               (exists j, on_runqueue sleepers_sched j y) \/ y ∈ [0x48; 0x50]).
Proof.
  destruct (wakeup_queue_correct calm_env 0 sleepers_sched 0x48 [0x48; 0x50] calm_clock)
    as (s' & E & Hi & _ & Hr & _).
  - eexists _, _, _. exact sleepers_wf.
  - exact sleepers_chain.
  - exact sleepers_bound.
  - exists s'. split; [exact E|]. split; [exact Hi|exact Hr].
Defined.
