(* ===== verification/Sleep.v ===== *)
(** * The sleep queue of sched/sleep.c

    Sleeping tasks are queued on [sleepqueue] with the time stamp at which they
    are to be woken in their [time] field.  As in [TaskQueue], a routine takes the
    selector stored in [sleepqueue] and returns the new one; the scheduler is the
    interface [Scheduler]. *)

From Stdlib Require Import ZArith Lia.
From S2P Require Import Prelude Div64 TaskQueue ReplQueue Vcpu VcpuSched SchedThm SchedTheorems Waitqueue.
From stdpp Require Import base gmap sets fin_sets numbers strings list.
Local Open Scope Z_scope.

Section sleep.
Context {W : Type} `{Scheduler W}.
(** The globals [tsc_freq] and [mp_enabled]. *)
Context (tsc_freq : Z) (mp_enabled : bool).

(** ** Operations *)

Definition compute_finish (usec : Z) : M W Z :=
  let! start := w_rdtsc in
  let! ticks := lift (div64_64 (u64 (tsc_freq * usec)) 1000000) in
  ret (u64 (start + ticks)).

Definition get_tss (x : Z) : M W quest_tss :=
  let! tasks := gets w_tasks in lift (lookup_TSS tasks x).

Definition put_tss (x : Z) (t : quest_tss) : M W unit :=
  modify (fun w => w_set_tasks (<[x := t]> (w_tasks w)) w).

Definition spin_body (finish : Z) (_ : unit) : M W (control unit unit) :=
  let! value := w_rdtsc in
  ret (if finish <=? value then Break tt else Continue tt).

(** Spin; [fuel] bounds the number of times the counter is read. *)
Definition tsc_delay_usec (fuel : nat) (usec : Z) : M W unit :=
  let! finish := compute_finish usec in
  mloop fuel (spin_body finish) tt.

(** [queue_append (&queue, sel)] *)
Definition put_on (queue sel : Z) : M W Z :=
  let! tasks := gets w_tasks in
  let! '(queue, tasks) := lift (queue_append tasks queue sel) in
  modify (w_set_tasks tasks) ;;!
  ret queue.

(** [sched_usleep] up to the call of the scheduler. *)
Definition fall_asleep (usec sleepqueue : Z) : M W Z :=
  let! finish := compute_finish usec in
  let! sel := w_str in
  let! tssp := get_tss sel in
  put_tss sel (set_time finish tssp) ;;!
  put_on sleepqueue sel.

Definition sched_usleep (fuel : nat) (usec sleepqueue : Z) : M W Z :=
  if mp_enabled then
    let! sleepqueue := fall_asleep usec sleepqueue in
    schedule ;;!
    ret sleepqueue
  else tsc_delay_usec fuel usec ;;! ret sleepqueue.

(** The walk of [process_sleepqueue] holds the address [q] of a selector: of
    [sleepqueue] itself ([None]) or of the [next] field of a task. *)
Definition read_q (sleepqueue : Z) (q : option Z) : M W Z :=
  match q with
  | None => ret sleepqueue
  | Some p => let! t := get_tss p in ret (tss_next t)
  end.

Definition write_q (q : option Z) (next sleepqueue : Z) : M W Z :=
  match q with
  | None => ret next
  | Some p => let! t := get_tss p in put_tss p (set_next next t) ;;! ret sleepqueue
  end.

Definition process_body (now : Z) (st : Z * option Z * Z)
  : M W (control (Z * option Z * Z) Z) :=
  let '(sleepqueue, q, cur) := st in
  let! tssp := get_tss cur in
  let next := tss_next tssp in
  let! '(sleepqueue, q) :=
    (if tss_time tssp <=? now then
       let! x := read_q sleepqueue q in
       wakeup x ;;!
       let! sleepqueue := write_q q next sleepqueue in
       let! tssp := get_tss cur in
       put_tss cur (set_time 0 tssp) ;;!
       ret (sleepqueue, q)
     else ret (sleepqueue, Some cur)) in
  if next =? 0 then ret (Break sleepqueue)
  else
    let! cur := read_q sleepqueue q in
    ret (Continue (sleepqueue, q, cur)).

Definition process_sleepqueue (sleepqueue : Z) : M W Z :=
  let! now := w_rdtsc in
  if sleepqueue =? 0 then ret sleepqueue
  else
    let! tasks := gets w_tasks in
    mloop (queue_fuel tasks) (process_body now) (sleepqueue, None, sleepqueue).
End sleep.

(** ** Specification *)

Section laws.
Context {W : Type} `{SchedulerLaws W}.

(** The time at which task [x] is to be woken. *)
Definition wake_time (w : W) (x : Z) : Z :=
  match w_tasks w !! x with Some t => tss_time t | None => 0 end.

(** [w'] is [w] after the walk kept the tasks [ks] asleep and woke the tasks [ds]. *)
Record swept (ks ds : list Z) (w w' : W) : Prop := {
  sp_inv : w_inv w';
  sp_ready : forall y, ready w' y <-> ready w y \/ y ∈ ds;
  sp_wakeable : forall y, wakeable w y -> wakeable w' y;
  sp_frame : forall y, y ∉ ks -> y ∉ ds -> ~ ready w y -> w_tasks w' !! y = w_tasks w !! y;
  sp_same : forall y, y ∉ ds -> set_next 0 <$> w_tasks w' !! y = set_next 0 <$> w_tasks w !! y;
  sp_time : forall y, y ∈ ds -> tss_time <$> w_tasks w' !! y = Some 0
}.

Lemma wp_get_tss (w : W) x t (Q : quest_tss -> W -> Prop) :
  w_tasks w !! x = Some t -> Q t w -> wp (get_tss x) Q w.
Proof.
  intros Ht HQ. unfold get_tss. apply wp_bind, wp_gets. eapply wp_lift; [|exact HQ].
  unfold lookup_TSS. by rewrite Ht.
Qed.

Lemma wp_put_tss (w : W) x t (Q : unit -> W -> Prop) :
  Q tt (w_set_tasks (<[x := t]> (w_tasks w)) w) -> wp (put_tss x t) Q w.
Proof. intros HQ. by apply wp_modify. Qed.

Lemma swept_nil w : w_inv w -> swept [] [] w w.
Proof. intros Hi. split; try done; set_solver. Qed.

Lemma swept_keep ks ds w w1 x : swept ks ds w w1 -> swept (ks ++ [x]) ds w w1.
Proof.
  intros []. split; try done. intros y Hy. apply sp_frame0. set_solver.
Qed.

Lemma swept_tss ks ds w w1 y :
  swept ks ds w w1 -> is_Some (w_tasks w !! y) -> y ∉ ds -> is_Some (w_tasks w1 !! y).
Proof.
  intros Hs [t Ht] Hy. pose proof (sp_same _ _ _ _ Hs y Hy) as E. rewrite Ht in E.
  by destruct (w_tasks w1 !! y).
Qed.

(** The writes after a wake-up: the selector at [q] skips the task, whose time is
    cleared. *)
Definition relinked (ks : list Z) (x next : Z) (tx : quest_tss) (tasks : gmap Z quest_tss)
  : gmap Z quest_tss :=
  <[x := set_time 0 tx]>
    (match list.last ks with
     | Some p => match tasks !! p with
                 | Some tp => <[p := set_next next tp]> tasks
                 | None => tasks
                 end
     | None => tasks
     end).

Lemma relinked_other ks x next tx tasks y :
  y ∉ ks -> y <> x -> relinked ks x next tx tasks !! y = tasks !! y.
Proof.
  intros Hy Hne. unfold relinked. rewrite lookup_insert_ne by done.
  destruct (list.last ks) as [p|] eqn:El; [|done].
  destruct (tasks !! p); [|done]. rewrite lookup_insert_ne; [done|].
  intros ->. apply Hy. apply last_Some in El as [l ->]. set_solver.
Qed.

Lemma relinked_same ks x next tx tasks y :
  y <> x -> set_next 0 <$> relinked ks x next tx tasks !! y = set_next 0 <$> tasks !! y.
Proof.
  intros Hne. unfold relinked. rewrite lookup_insert_ne by done.
  destruct (list.last ks) as [p|]; [|done].
  destruct (tasks !! p) as [tp|] eqn:Ep; [|done].
  destruct (decide (y = p)) as [->|]; [by rewrite lookup_insert_eq, Ep|by rewrite lookup_insert_ne].
Qed.

(** The queue without the task that was woken. *)
Lemma relinked_chain tasks tasks2 q ks x r tx tx2 :
  chain tasks q (ks ++ x :: r) -> tasks !! x = Some tx ->
  (forall y, y ∈ ks ++ r -> tasks2 !! y = tasks !! y) ->
  chain (relinked ks x (tss_next tx) tx2 tasks2)
    (match list.last ks with None => tss_next tx | Some _ => q end) (ks ++ r).
Proof.
  intros Hc Hx Heq. pose proof (chain_NoDup _ _ _ Hc) as Hnd.
  apply NoDup_app in Hnd as (_ & Hdis & [Hxr _]%NoDup_cons).
  assert (x ∉ ks ++ r) as Hxn by (intros [Hk|?]%elem_of_app; [apply (Hdis x Hk); set_solver|done]).
  unfold relinked. apply chain_insert_ne; [done|].
  destruct (list.last ks) as [p|] eqn:El.
  - assert (p ∈ ks) as Hp by (apply last_Some in El as [l ->]; set_solver).
    destruct (chain_lookup _ _ _ p Hc ltac:(set_solver)) as [tp Htp].
    rewrite Heq, Htp by set_solver.
    eapply chain_frame; [|by eapply chain_unlink].
    intros y Hy. destruct (decide (y = p)) as [->|]; [by rewrite !lookup_insert_eq|].
    rewrite !lookup_insert_ne by done. by apply Heq.
  - apply last_None in El as ->. cbn in Hc |- *. destruct Hc as (-> & _ & t & Ht & Hr).
    simplify_eq. eapply chain_frame; [|exact Hr]. intros y Hy. apply Heq. set_solver.
Qed.

Lemma set_next_field {A} (g : quest_tss -> A) (o o' : option quest_tss) :
  (forall n t, g (set_next n t) = g t) -> set_next 0 <$> o = set_next 0 <$> o' -> g <$> o = g <$> o'.
Proof.
  intros Hg E. destruct o as [t|], o' as [t'|]; try done. cbn in *. apply (inj Some) in E.
  by rewrite <- (Hg 0 t), E, Hg.
Qed.

(** Clearing the time and relinking keeps what the scheduler relies on. *)
Lemma relinked_ok w ks x next tx :
  w_inv w -> w_tasks w !! x = Some tx -> (forall y, y ∈ ks -> y <> x -> ~ ready w y) ->
  w_inv (w_set_tasks (relinked ks x next tx (w_tasks w)) w) /\
  (forall y, ready (w_set_tasks (relinked ks x next tx (w_tasks w)) w) y <-> ready w y) /\
  (forall y, wakeable w y -> wakeable (w_set_tasks (relinked ks x next tx (w_tasks w)) w) y).
Proof.
  intros Hi Hx Hks. apply set_tasks_ok; [done| |].
  - intros y Hy. destruct (decide (y = x)) as [->|Hne].
    + unfold relinked. by rewrite lookup_insert_eq, Hx.
    + rewrite relinked_other; [done| |done]. intros Hk. by apply (Hks y).
  - intros y. destruct (decide (y = x)) as [->|Hne].
    + unfold relinked. by rewrite lookup_insert_eq, Hx.
    + apply set_next_field; [done|by apply relinked_same].
Qed.

(** What the queue still holds is asleep. *)
Definition asleep (w : W) (ds l : list Z) : Prop :=
  forall y, y ∈ l -> wakeable w y /\ ~ ready w y /\ y ∉ ds.

Lemma swept_wake w w1 w2 ks ds x next tx2 :
  swept ks ds w w1 -> asleep w ds (x :: ks) -> x ∉ ks ->
  w_inv w2 -> same_but_next (w_tasks w1) (w_tasks w2) ->
  (forall y, y <> x -> ~ ready w1 y -> w_tasks w2 !! y = w_tasks w1 !! y) ->
  (forall y, ready w2 y <-> ready w1 y \/ y = x) ->
  (forall y, wakeable w1 y -> wakeable w2 y) ->
  w_tasks w2 !! x = Some tx2 ->
  swept ks (ds ++ [x]) w (w_set_tasks (relinked ks x next tx2 (w_tasks w2)) w2).
Proof.
  intros Hs Ha Hxk Hi2 Hs2 Hf2 Hr2 Hw2 Hx2. pose proof Hs as [Hi1 Hr1 Hw1 Hf1 Hsa1 Ht1].
  destruct (relinked_ok w2 ks x next tx2 Hi2 Hx2) as (Hi3 & Hr3 & Hw3).
  { intros y Hy Hne. rewrite Hr2, Hr1. destruct (Ha y ltac:(set_solver)) as (_ & Hn & Hd). tauto. }
  split; rewrite ?tasks_set.
  - done.
  - intros y. rewrite Hr3, Hr2, Hr1. set_solver.
  - auto.
  - intros y Hy Hyd Hny. rewrite relinked_other by set_solver.
    rewrite Hf2; [|set_solver|rewrite Hr1; set_solver]. apply Hf1; [done|set_solver|done].
  - intros y Hy. rewrite relinked_same by set_solver. rewrite Hs2. apply Hsa1. set_solver.
  - intros y [Hyd|Hyx]%elem_of_app.
    + assert (y <> x) as Hne by (intros ->; by destruct (Ha x ltac:(set_solver)) as (_ & _ & ?)).
      rewrite (set_next_field tss_time _ (w_tasks w1 !! y)); [by apply Ht1|done|].
      by rewrite relinked_same.
    + apply list_elem_of_singleton in Hyx as ->. unfold relinked. by rewrite lookup_insert_eq.
Qed.

Lemma chain_before tasks h ks x r :
  chain tasks h (ks ++ x :: r) ->
  match list.last ks with
  | None => h = x
  | Some p => exists tp, tasks !! p = Some tp /\ tss_next tp = x
  end.
Proof.
  intros Hc. destruct (list.last ks) as [p|] eqn:El.
  - apply last_Some in El as [l ->]. rewrite <- app_assoc in Hc. apply chain_suffix in Hc.
    destruct Hc as (_ & _ & tp & Htp & Hn & _). by exists tp.
  - apply last_None in El as ->. by destruct Hc as (-> & _).
Qed.

Lemma read_q_wp (w : W) q ks x r (Q : Z -> W -> Prop) :
  chain (w_tasks w) q (ks ++ x :: r) -> Q x w -> wp (read_q q (list.last ks)) Q w.
Proof.
  intros Hc HQ. pose proof (chain_before _ _ _ _ _ Hc) as Hb. unfold read_q.
  destruct (list.last ks) as [p|]; [|by subst q].
  destruct Hb as (tp & Htp & <-). apply wp_bind. eapply wp_get_tss; [exact Htp|]. by apply wp_ret.
Qed.

(** Waking one task of the queue. *)
Lemma wake_one w w1 q ks ds x r tx :
  swept ks ds w w1 -> chain (w_tasks w1) q (ks ++ x :: r) -> asleep w ds (ks ++ x :: r) ->
  w_tasks w1 !! x = Some tx ->
  wp (let! y := read_q q (list.last ks) in
      wakeup y ;;!
      let! q := write_q (list.last ks) (tss_next tx) q in
      let! tssp := get_tss x in
      put_tss x (set_time 0 tssp) ;;!
      ret (q, list.last ks))
     (fun st w3 => snd st = list.last ks /\ swept ks (ds ++ [x]) w w3 /\
        chain (w_tasks w3) (fst st) (ks ++ r)) w1.
Proof.
  intros Hs Hc Ha Hx. pose proof (chain_NoDup _ _ _ Hc) as Hnd.
  apply NoDup_app in Hnd as (_ & Hdis & [Hxr _]%NoDup_cons).
  assert (x ∉ ks) as Hxk by (intros Hk; apply (Hdis x Hk); set_solver).
  destruct (Ha x ltac:(set_solver)) as (Hwx & Hnx & Hdx).
  apply wp_bind. eapply read_q_wp; [exact Hc|]. apply wp_bind.
  eapply wp_mono; [apply wakeup_ok; [apply Hs|by apply (sp_wakeable _ _ _ _ Hs)]|].
  intros [] w2 (Hi2 & Hs2 & Hf2 & Hr2 & Hw2).
  assert (forall y, y ∈ ks ++ r -> w_tasks w2 !! y = w_tasks w1 !! y) as Heq.
  { intros y Hy. destruct (Ha y ltac:(set_solver)) as (_ & Hn & Hd).
    apply Hf2; [set_solver|]. rewrite (sp_ready _ _ _ _ Hs). tauto. }
  destruct (same_but_next_dom _ _ x Hs2 ltac:(by eexists)) as [tx2 Hx2].
  assert (swept ks (ds ++ [x]) w (w_set_tasks (relinked ks x (tss_next tx) tx2 (w_tasks w2)) w2)) as Hsw
    by (eapply swept_wake; try done; intros y Hy; apply Ha; set_solver).
  pose proof (relinked_chain _ _ _ _ _ _ _ tx2 Hc Hx Heq) as Hc3.
  unfold relinked, write_q in *. destruct (list.last ks) as [p|] eqn:El.
  - assert (p ∈ ks) as Hp by (apply last_Some in El as [l ->]; set_solver).
    destruct (chain_lookup _ _ _ p Hc ltac:(set_solver)) as [tp Htp].
    assert (w_tasks w2 !! p = Some tp) as Htp2 by (rewrite Heq by set_solver; exact Htp).
    rewrite Htp2 in Hsw, Hc3. apply wp_bind, wp_bind. eapply wp_get_tss; [exact Htp2|].
    apply wp_bind, wp_put_tss, wp_ret, wp_bind.
    eapply (wp_get_tss _ x tx2);
      [rewrite tasks_set, lookup_insert_ne; [done|by intros ->]|].
    apply wp_bind, wp_put_tss, wp_ret. rewrite tasks_set, set_twice, tasks_set. done.
  - apply wp_bind, wp_ret, wp_bind. eapply wp_get_tss; [exact Hx2|].
    apply wp_bind, wp_put_tss, wp_ret. rewrite tasks_set. done.
Qed.

Lemma swept_wake_time ks ds w w1 x tx :
  swept ks ds w w1 -> x ∉ ks -> asleep w ds [x] -> w_tasks w1 !! x = Some tx ->
  tss_time tx = wake_time w x.
Proof.
  intros Hs Hk Ha Hx. destruct (Ha x ltac:(set_solver)) as (_ & Hn & Hd).
  rewrite (sp_frame _ _ _ _ Hs x Hk Hd Hn) in Hx. unfold wake_time. by rewrite Hx.
Qed.

(** One round of the walk. *)
Definition round_ks (w : W) (now : Z) (ks : list Z) (x : Z) : list Z :=
  if wake_time w x <=? now then ks else ks ++ [x].
Definition round_ds (w : W) (now : Z) (ds : list Z) (x : Z) : list Z :=
  if wake_time w x <=? now then ds ++ [x] else ds.

Lemma process_round w w1 now q ks ds x r :
  swept ks ds w w1 -> chain (w_tasks w1) q (ks ++ x :: r) -> asleep w ds (ks ++ x :: r) ->
  wp (process_body now (q, list.last ks, x)) (fun c w2 => exists q',
    c = match r with
        | [] => Break q'
        | y :: _ => Continue (q', list.last (round_ks w now ks x), y)
        end /\
    swept (round_ks w now ks x) (round_ds w now ds x) w w2 /\
    chain (w_tasks w2) q' (round_ks w now ks x ++ r)) w1.
Proof.
  intros Hs Hc Ha. destruct (chain_lookup _ _ _ x Hc ltac:(set_solver)) as [tx Hx].
  pose proof (chain_NoDup _ _ _ Hc) as Hnd. apply NoDup_app in Hnd as (_ & Hdis & _).
  assert (x ∉ ks) as Hxk by (intros Hk; apply (Hdis x Hk); set_solver).
  pose proof (swept_wake_time ks ds w w1 x tx Hs Hxk ltac:(intros y Hy; apply Ha; set_solver) Hx) as Ht.
  pose proof (chain_suffix _ _ _ _ _ Hc) as (_ & _ & tx' & Hx' & Hr). simplify_eq.
  unfold process_body. apply wp_bind. eapply wp_get_tss; [exact Hx|]. apply wp_bind.
  apply (wp_mono _ (fun st w2 => snd st = list.last (round_ks w now ks x) /\
    swept (round_ks w now ks x) (round_ds w now ds x) w w2 /\
    chain (w_tasks w2) (fst st) (round_ks w now ks x ++ r))).
  { unfold round_ks, round_ds. rewrite Ht. destruct (wake_time w x <=? now).
    - by apply wake_one.
    - apply wp_ret. rewrite last_snoc, <- app_assoc. split; [done|]. split; [by apply swept_keep|done]. }
  intros [q' loc] w2 (Hloc & Hs2 & Hc2). cbn [fst snd] in *. subst loc.
  destruct r as [|y r].
  - cbn in Hr. rewrite Hr. apply wp_ret. by exists q'.
  - destruct Hr as (Hy & Hy0 & _). rewrite (proj2 (Z.eqb_neq _ _)) by congruence.
    apply wp_bind. eapply read_q_wp; [exact Hc2|]. apply wp_ret. by exists q'.
Qed.

(** The tasks to be woken at [now] and those that sleep on. *)
Definition expired (w : W) (now : Z) (l : list Z) : list Z :=
  filter (fun x => wake_time w x <= now) l.
Definition pending (w : W) (now : Z) (l : list Z) : list Z :=
  filter (fun x => ~ wake_time w x <= now) l.

Lemma round_pending w now ks x r :
  round_ks w now ks x ++ pending w now r = ks ++ pending w now (x :: r).
Proof.
  unfold round_ks, pending. rewrite filter_cons. destruct (Z.leb_spec (wake_time w x) now).
  - by rewrite decide_False by lia.
  - by rewrite decide_True, <- app_assoc by lia.
Qed.

Lemma round_expired w now ds x r :
  round_ds w now ds x ++ expired w now r = ds ++ expired w now (x :: r).
Proof.
  unfold round_ds, expired. rewrite filter_cons. destruct (Z.leb_spec (wake_time w x) now).
  - by rewrite decide_True, <- app_assoc by lia.
  - by rewrite decide_False by lia.
Qed.

Lemma round_asleep w now ks ds x r :
  asleep w ds (ks ++ x :: r) -> NoDup (ks ++ x :: r) ->
  asleep w (round_ds w now ds x) (round_ks w now ks x ++ r).
Proof.
  intros Ha Hnd y Hy. apply NoDup_app in Hnd as (_ & Hdis & [Hxr _]%NoDup_cons).
  unfold round_ds, round_ks in *. destruct (wake_time w x <=? now).
  - destruct (Ha y ltac:(set_solver)) as (H1 & H2 & H3). split; [done|]. split; [done|].
    intros [?|Hyx]%elem_of_app; [done|]. apply list_elem_of_singleton in Hyx as ->.
    apply elem_of_app in Hy as [Hk|?]; [apply (Hdis x Hk); set_solver|done].
  - apply Ha. rewrite <- app_assoc in Hy. done.
Qed.

Lemma process_loop w now : forall r x fuel w1 q ks ds,
  swept ks ds w w1 -> chain (w_tasks w1) q (ks ++ x :: r) -> asleep w ds (ks ++ x :: r) ->
  (length r < fuel)%nat ->
  wp (mloop fuel (process_body now) (q, list.last ks, x)) (fun q' w' =>
    swept (ks ++ pending w now (x :: r)) (ds ++ expired w now (x :: r)) w w' /\
    chain (w_tasks w') q' (ks ++ pending w now (x :: r))) w1.
Proof.
  induction r as [|y r IH]; intros x [|fuel] w1 q ks ds Hs Hc Ha Hf; cbn [length] in Hf; try lia;
    pose proof (chain_NoDup _ _ _ Hc) as Hnd;
    rewrite mloop_S; apply wp_bind; (eapply wp_mono; [by apply process_round|]);
    intros c w2 (q' & -> & Hs2 & Hc2).
  - apply wp_ret. rewrite <- round_pending, <- round_expired.
    unfold pending, expired. rewrite !filter_nil, !app_nil_r in *. done.
  - rewrite <- round_pending, <- round_expired.
    apply IH; [done|done|by apply round_asleep|lia].
Qed.

Lemma swept_rdtsc ks ds w w0 w' :
  w_tasks w0 = w_tasks w -> (forall y, ready w0 y <-> ready w y) ->
  (forall y, wakeable w y -> wakeable w0 y) -> swept ks ds w0 w' -> swept ks ds w w'.
Proof.
  intros Et Er Ew []. rewrite Et in *. split; try done.
  - intros y. by rewrite sp_ready0, Er.
  - auto.
  - intros y. rewrite <- Er. auto.
Qed.

Lemma process_sleepqueue_wp w q l :
  w_inv w -> chain (w_tasks w) q l -> sleeping w l ->
  wp (process_sleepqueue q) (fun q' w' => exists now w0, w_rdtsc w = Ok (now, w0) /\
    swept (pending w now l) (expired w now l) w w' /\ chain (w_tasks w') q' (pending w now l)) w.
Proof.
  intros Hi Hc Hs. unfold process_sleepqueue. apply wp_bind.
  destruct (proj1 (wp_Ok _ _ _) (rdtsc_ok w Hi)) as (now & w0 & E & _ & Hi0 & Et & Hr0 & Hw0 & _).
  unfold wp at 1. rewrite E.
  assert (forall x, wake_time w0 x = wake_time w x) as Htime
    by (intros x; unfold wake_time; by rewrite Et).
  destruct l as [|x l].
  - cbn in Hc. subst q. cbn. exists now, w0. split; [done|].
    split; [|done]. eapply swept_rdtsc; [done..|]. by apply swept_nil.
  - pose proof Hc as (Hq & Hx0 & _). subst q. rewrite (proj2 (Z.eqb_neq _ _)) by done.
    apply wp_bind, wp_gets. eapply wp_mono.
    { apply (process_loop w0 now l x _ w0 x [] []); [by apply swept_nil|by rewrite Et| |].
      - intros y Hy. destruct (Hs y Hy). split; [auto|]. split; [by rewrite Hr0|set_solver].
      - pose proof (chain_length _ _ _ Hc). unfold queue_fuel. rewrite Et. cbn [length] in *. lia. }
    intros q' w' [Hsw Hch]. exists now, w0. split; [done|].
    assert (pending w0 now (x :: l) = pending w now (x :: l)) as Ep
      by (unfold pending; apply list_filter_iff; intros y; by rewrite Htime).
    assert (expired w0 now (x :: l) = expired w now (x :: l)) as Ee
      by (unfold expired; apply list_filter_iff; intros y; by rewrite Htime).
    rewrite Ep in *. rewrite Ee in *. split; [|done]. by eapply swept_rdtsc.
Qed.

(** *** Falling asleep *)

Lemma sleeping_append w l c :
  sleeping w l -> wakeable w c -> ~ ready w c -> sleeping w (append_spec l c).
Proof.
  intros Hs Hw Hr x Hx. unfold append_spec in Hx. destruct (decide (c ∈ l)); [by apply Hs|].
  apply elem_of_app in Hx as [Hx|Hx]; [by apply Hs|].
  apply list_elem_of_singleton in Hx as ->. done.
Qed.

(** Queueing a task that is not ready. *)
Lemma put_on_wp w q l c :
  w_inv w -> chain (w_tasks w) q l -> sleeping w l -> wakeable w c -> ~ ready w c ->
  wp (put_on q c) (fun q' w' =>
    w_inv w' /\ chain (w_tasks w') q' (append_spec l c) /\ sleeping w' (append_spec l c) /\
    same_but_next (w_tasks w) (w_tasks w') /\ (forall y, ready w' y <-> ready w y)) w.
Proof.
  intros Hi Hc Hs Hwc Hrc. destruct (wakeable_task w c Hwc) as [Hc0 [tc Htc]].
  destruct (queue_append_chain _ _ _ _ _ Hc Hc0 Htc) as (q' & tasks' & Eq & Hc' & Hsame & Hf & _).
  destruct (set_tasks_ok w tasks' Hi) as (Hi' & Hr' & Hw').
  { intros x Hx. rewrite Hf; [done|]. intros [->|Hxl]%elem_of_cons; [done|].
    by destruct (Hs x Hxl). }
  { intros x. apply set_next_field; [done|]. apply Hsame. }
  unfold put_on. apply wp_bind, wp_gets, wp_bind. eapply wp_lift; [exact Eq|].
  apply wp_bind, wp_modify, wp_ret. rewrite tasks_set.
  split; [done|]. split; [done|]. split; [|done].
  apply sleeping_append; [|by apply Hw'|by rewrite Hr'].
  intros x Hx. destruct (Hs x Hx). split; [by apply Hw'|by rewrite Hr'].
Qed.

(** Setting the wake-up time is invisible to the scheduler. *)
Lemma set_time_ok w x t v :
  w_inv w -> w_tasks w !! x = Some t ->
  w_inv (w_set_tasks (<[x := set_time v t]> (w_tasks w)) w) /\
  (forall y, ready (w_set_tasks (<[x := set_time v t]> (w_tasks w)) w) y <-> ready w y) /\
  (forall y, wakeable w y -> wakeable (w_set_tasks (<[x := set_time v t]> (w_tasks w)) w) y).
Proof.
  intros Hi Hx. apply set_tasks_ok; [done| |]; intros y; [intros _|];
    (destruct (decide (y = x)) as [->|]; [by rewrite lookup_insert_eq, Hx|by rewrite lookup_insert_ne]).
Qed.

(** The time stamp [usec] microseconds after [start]. *)
Definition finish_time (tsc_freq start usec : Z) : Z := u64 (start + tsc_freq * usec / 1000000).

Lemma fall_asleep_wp tsc_freq usec w q l c :
  w_inv w -> chain (w_tasks w) q l -> sleeping w l ->
  w_str w = Ok (c, w) -> wakeable w c -> ~ ready w c -> 0 <= tsc_freq * usec < 2 ^ 64 ->
  wp (fall_asleep tsc_freq usec q) (fun q' w' => exists start w0, w_rdtsc w = Ok (start, w0) /\
    w_inv w' /\ chain (w_tasks w') q' (append_spec l c) /\ sleeping w' (append_spec l c) /\
    wake_time w' c = finish_time tsc_freq start usec /\
    (forall y, y <> c -> wake_time w' y = wake_time w y) /\
    (forall y, ready w' y <-> ready w y)) w.
Proof.
  intros Hi Hc Hs Hstr Hwc Hrc Hm.
  destruct (proj1 (wp_Ok _ _ _) (rdtsc_ok w Hi)) as (start & w0 & E & _ & Hi0 & Et & Hr0 & Hw0 & Hstr0).
  unfold fall_asleep, compute_finish. apply wp_bind, wp_bind. unfold wp at 1. rewrite E.
  apply wp_bind. rewrite u64_small by done.
  eapply wp_lift; [apply div64_64_small; lia|]. apply wp_ret, wp_bind.
  unfold wp at 1. rewrite (Hstr0 c Hstr). destruct (wakeable_task w c Hwc) as [Hc0 [tc Htc]].
  assert (w_tasks w0 !! c = Some tc) as Htc0 by (by rewrite Et).
  apply wp_bind. eapply wp_get_tss; [exact Htc0|]. apply wp_bind, wp_put_tss.
  set (v := u64 (start + tsc_freq * usec / 1000000)).
  destruct (set_time_ok w0 c tc v Hi0 Htc0) as (Hi1 & Hr1 & Hw1).
  set (w1 := w_set_tasks (<[c := set_time v tc]> (w_tasks w0)) w0) in *.
  assert (w_tasks w1 = <[c := set_time v tc]> (w_tasks w)) as Et1
    by (unfold w1; rewrite tasks_set; by rewrite Et).
  eapply wp_mono.
  { apply (put_on_wp w1 q l c); [done| | |by auto|by rewrite Hr1, Hr0].
    - rewrite Et1. eapply chain_next_eq; [|exact Hc]. intros x _.
      destruct (decide (x = c)) as [->|]; [by rewrite lookup_insert_eq, Htc|by rewrite lookup_insert_ne].
    - intros x Hx. destruct (Hs x Hx). split; [auto|by rewrite Hr1, Hr0]. }
  intros q' w' (Hi' & Hc' & Hs' & Hsame & Hr'). exists start, w0.
  do 4 (split; [done|]). rewrite Et1 in Hsame. split; [|split].
  - pose proof (set_next_field tss_time _ _ ltac:(done) (Hsame c)) as Hf.
    rewrite lookup_insert_eq in Hf. unfold wake_time. destruct (w_tasks w' !! c); [|done].
    by injection Hf as ->.
  - intros y Hy. pose proof (set_next_field tss_time _ _ ltac:(done) (Hsame y)) as Hf.
    rewrite lookup_insert_ne in Hf by done. unfold wake_time.
    destruct (w_tasks w' !! y), (w_tasks w !! y); try done. by injection Hf as ->.
  - intros y. by rewrite Hr', Hr1, Hr0.
Qed.
End laws.

(** ** Theorems *)

(** C26: for every scheduler that satisfies the interface, [process_sleepqueue] walks
    the sleep queue to its end: it wakes exactly the tasks whose time has come,
    clears their time, keeps the others queued in order with their time, and keeps
    the invariant of the scheduler. *)
Theorem process_sleepqueue_correct {W} `{SchedulerLaws W} (w : W) q l :
  w_inv w -> chain (w_tasks w) q l -> sleeping w l ->
  exists now w0 q' w', w_rdtsc w = Ok (now, w0) /\
    process_sleepqueue q w = Ok (q', w') /\ w_inv w' /\
    chain (w_tasks w') q' (pending w now l) /\
    (forall y, ready w' y <-> ready w y \/ y ∈ expired w now l) /\
    (forall y, y ∈ expired w now l -> wake_time w' y = 0) /\
    (forall y, y ∉ expired w now l -> wake_time w' y = wake_time w y).
Proof.
  intros Hi Hc Hs.
  destruct (proj1 (wp_Ok _ _ _) (process_sleepqueue_wp w q l Hi Hc Hs))
    as (q' & w' & E & now & w0 & Er & [Hi' Hr _ _ Hsame Htime] & Hch).
  exists now, w0, q', w'. do 5 (split; [done|]). split.
  - intros y Hy. specialize (Htime y Hy). unfold wake_time.
    destruct (w_tasks w' !! y); [|done]. by injection Htime.
  - intros y Hy. pose proof (set_next_field tss_time _ _ ltac:(done) (Hsame y Hy)) as Hf.
    unfold wake_time. destruct (w_tasks w' !! y), (w_tasks w !! y); try done. by injection Hf.
Qed.

(** [sched_usleep], up to the call of the scheduler, queues the running task at
    the end of the sleep queue with the time stamp [usec] microseconds after now,
    and disturbs neither the other sleepers nor the run queues. *)
Theorem fall_asleep_correct {W} `{SchedulerLaws W} tsc_freq usec (w : W) q l c :
  w_inv w -> chain (w_tasks w) q l -> sleeping w l ->
  w_str w = Ok (c, w) -> wakeable w c -> ~ ready w c -> 0 <= tsc_freq * usec < 2 ^ 64 ->
  exists start w0 q' w', w_rdtsc w = Ok (start, w0) /\
    fall_asleep tsc_freq usec q w = Ok (q', w') /\
    w_inv w' /\ chain (w_tasks w') q' (append_spec l c) /\ sleeping w' (append_spec l c) /\
    wake_time w' c = u64 (start + tsc_freq * usec / 1000000) /\
    (forall y, y <> c -> wake_time w' y = wake_time w y) /\
    (forall y, ready w' y <-> ready w y).
Proof.
  intros. destruct (proj1 (wp_Ok _ _ _) (fall_asleep_wp tsc_freq usec w q l c
    ltac:(done) ltac:(done) ltac:(done) ltac:(done) ltac:(done) ltac:(done) ltac:(done)))
    as (q' & w' & E & start & w0 & Er & Hpost).
  exists start, w0, q', w'. by split.
Qed.

(** *** Witnesses on the VCPU scheduler with the sleepers 0x48 (due at 50) and 0x50
    (due at 9999), at time 100 *)

Lemma process_sleepqueue_correct_witness :
  exists q' s', @process_sleepqueue sched (vcpu_scheduler calm_env 0) 0x48 sleepers_sched = Ok (q', s') /\
    chain (s_tasks s') q' [0x50] /\
    (forall y, (exists j, on_runqueue s' j y) <-> (exists j, on_runqueue sleepers_sched j y) \/ y ∈ [0x48]).
Proof.
  destruct (@process_sleepqueue_correct sched (vcpu_scheduler calm_env 0)
    (vcpu_scheduler_laws calm_env 0 calm_clock) sleepers_sched 0x48 [0x48; 0x50])
    as (now & w0 & q' & s' & En & E & _ & Hch & Hr & _).
  - eexists _, _, _. exact sleepers_wf.
  - exact sleepers_chain.
  - exact sleepers_bound.
  - assert (now = 100) as -> by (cbn in En; unfold read_tsc in En; cbn in En; congruence).
    exists q', s'. split; [exact E|]. split; [exact Hch|exact Hr].
Defined.

(** The running task 0x40 sleeps for 20 microseconds at 3 GHz. *)
Definition drowsy_sched : sched := set_pcpus [set_current_task 0x40 example_pc] sleepers_sched.

Lemma drowsy_wf :
  sched_wf calm_env 0 drowsy_sched (set_current_task 0x40 example_pc) [0%nat; 1%nat] [[0x28]; [0x30]].
Proof.
  destruct sleepers_wf as [Hp [] Hb Hr Ht]. split; [done|by split|done|done|].
  destruct Ht as (? & ? & ? & ?). split; [done|]. split; [done|]. split; [done|]. by eexists.
Qed.

Lemma drowsy_bound : bound_here 0 drowsy_sched 0x40 /\ ~ exists j, on_runqueue drowsy_sched j 0x40.
Proof.
  split; [|intros (j & [[_ ?]|[_ ?]]%sleepers_queue); lia].
  split; [lia|]. eexists _, 0%nat, _. split; [reflexivity|]. split; [done|]. split; [cbn; lia|].
  do 3 (split; [reflexivity|]). intros j [[_ ?]|[_ ?]]%sleepers_queue; lia.
Qed.

Lemma fall_asleep_correct_witness :
  exists q' s', @fall_asleep sched (vcpu_scheduler calm_env 0) 3000000000 20 0x48 drowsy_sched = Ok (q', s') /\
    chain (s_tasks s') q' [0x48; 0x50; 0x40] /\
    @wake_time sched (vcpu_scheduler calm_env 0) s' 0x40 = 60100.
Proof.
  destruct (@fall_asleep_correct sched (vcpu_scheduler calm_env 0)
    (vcpu_scheduler_laws calm_env 0 calm_clock) 3000000000 20 drowsy_sched 0x48 [0x48; 0x50] 0x40)
    as (start & w0 & q' & s' & En & E & _ & Hch & _ & Ht & _).
  - eexists _, _, _. exact drowsy_wf.
  - exact sleepers_chain.
  - exact sleepers_bound.
  - reflexivity.
  - apply drowsy_bound.
  - apply drowsy_bound.
  - lia.
  - assert (start = 100) as -> by (cbn in En; unfold read_tsc in En; cbn in En; congruence).
    exists q', s'. split; [exact E|]. split; [exact Hch|exact Ht].
Defined.
