(* ===== verification/Semaphore.v ===== *)
(** * Counting semaphores: smp/semaphore.c

    The critical sections under [sem->lock] are atomic steps.  [semaphore_wait] is a
    loop whose rounds are separated by a call of the scheduler, during which other
    tasks run: [wait_round] is one round, and [sem_step] the interleaving of the
    rounds of all tasks with signals and with the rest of the system.  The
    scheduler is the interface [Scheduler]. *)

From Stdlib Require Import ZArith Lia.
From S2P Require Import Prelude TaskQueue ReplQueue Vcpu VcpuSched SchedThm SchedTheorems Waitqueue Sleep.
From stdpp Require Import base gmap sets fin_sets numbers strings list relations.
Local Open Scope Z_scope.

(** ** Operations *)

Section ops.
Context {W : Type} `{Scheduler W}.

Definition semaphore_init (max init : Z) : semaphore := mkSem init max 0 0.

(** The status and the semaphore after [sem->s += s] and the wake-ups. *)
Definition semaphore_signal (sem : semaphore) (s : Z) : M W (Z * semaphore) :=
  let v := s32 (sem_s sem + s) in
  let '(v, status) := if sem_max sem <? v then (sem_max sem, -1) else (v, 0) in
  let! waitqueue := wakeup_queue (sem_waitqueue sem) in
  ret (status, mkSem v (sem_max sem) (sem_lock sem) waitqueue).

(** One round of [semaphore_wait]: [true] when the units were taken, [false] when
    the running task was queued and [schedule] is called. *)
Definition wait_round (sem : semaphore) (s : Z) : M W (bool * semaphore) :=
  if s <=? sem_s sem then
    ret (true, mkSem (s32 (sem_s sem - s)) (sem_max sem) (sem_lock sem) (sem_waitqueue sem))
  else
    let! sel := w_str in
    let! waitqueue := put_on (sem_waitqueue sem) sel in
    ret (false, mkSem (sem_s sem) (sem_max sem) (sem_lock sem) waitqueue).

Definition semaphore_destroy (sem : semaphore) : Z := 0.
End ops.

(** ** The interleaving *)

(** The tasks inside [semaphore_wait] with the units they want; those of them whose last
    round failed and that have not been made ready since; and the units taken, the units
    signalled and the units that did not fit under the maximum so far. *)
Record sem_conf (W : Type) := mkConf {
  c_w : W;
  c_sem : semaphore;
  c_want : gmap Z Z;
  c_asleep : gset Z;
  c_taken : Z;
  c_given : Z;
  c_lost : Z
}.
Arguments mkConf {W}.
Arguments c_w {W}.
Arguments c_sem {W}.
Arguments c_want {W}.
Arguments c_asleep {W}.
Arguments c_taken {W}.
Arguments c_given {W}.
Arguments c_lost {W}.

Section steps.
Context {W : Type} `{SchedulerLaws W}.

(** The tasks queued on the semaphore. *)
Definition queued (c : sem_conf W) (l : list Z) : Prop :=
  chain (w_tasks (c_w c)) (sem_waitqueue (c_sem c)) l.

Inductive sem_step : sem_conf W -> sem_conf W -> Prop :=
(** A task calls [semaphore_wait]. *)
| step_call c t n :
    c_want c !! t = None -> 0 < n ->
    sem_step c (mkConf (c_w c) (c_sem c) (<[t := n]> (c_want c)) (c_asleep c) (c_taken c) (c_given c) (c_lost c))
(** The running task makes a round: it is in its first, or was woken. *)
| step_round c t n took sem' w' :
    c_want c !! t = Some n -> t ∉ c_asleep c ->
    w_str (c_w c) = Ok (t, c_w c) -> wakeable (c_w c) t -> ~ ready (c_w c) t ->
    wait_round (c_sem c) n (c_w c) = Ok ((took, sem'), w') ->
    sem_step c (mkConf w' sem' (if took : bool then delete t (c_want c) else c_want c)
                  (if took then c_asleep c else {[t]} ∪ c_asleep c)
                  (c_taken c + if took then n else 0) (c_given c) (c_lost c))
(** A task or an interrupt handler signals; who is ready afterwards sleeps no more. *)
| step_signal c n status sem' w' asleep' :
    0 <= n -> sem_s (c_sem c) + n < 2 ^ 31 ->
    semaphore_signal (c_sem c) n (c_w c) = Ok ((status, sem'), w') ->
    (forall t, t ∈ asleep' <-> t ∈ c_asleep c /\ ~ ready w' t) ->
    sem_step c (mkConf w' sem' (c_want c) asleep' (c_taken c) (c_given c + n)
                  (c_lost c + Z.max 0 (sem_s (c_sem c) + n - sem_max (c_sem c))))
(** The rest of the system runs and leaves the queued tasks alone. *)
| step_other c w' :
    w_inv w' ->
    (forall l, queued c l -> chain (w_tasks w') (sem_waitqueue (c_sem c)) l /\ sleeping w' l) ->
    sem_step c (mkConf w' (c_sem c) (c_want c) (c_asleep c) (c_taken c) (c_given c) (c_lost c)).

(** The invariant of a semaphore with [init] units of [max]. *)
Record sem_inv (max init : Z) (c : sem_conf W) : Prop := {
  si_w : w_inv (c_w c);
  si_max : sem_max (c_sem c) = max;
  si_range : 0 <= sem_s (c_sem c) <= max;
  si_units : sem_s (c_sem c) + c_taken c + c_lost c = init + c_given c;
  si_queue : exists l, queued c l /\ sleeping (c_w c) l /\ forall t, t ∈ l <-> t ∈ c_asleep c;
  si_want : forall t, t ∈ c_asleep c -> exists n, c_want c !! t = Some n /\ sem_s (c_sem c) < n;
  si_positive : forall t n, c_want c !! t = Some n -> 0 < n
}.

(** ** The operations *)

Lemma semaphore_signal_wp sem n (w : W) l :
  w_inv w -> chain (w_tasks w) (sem_waitqueue sem) l -> sleeping w l ->
  0 <= sem_s sem <= sem_max sem -> 0 <= n -> sem_s sem + n < 2 ^ 31 ->
  wp (semaphore_signal sem n) (fun r w' =>
    r = (if sem_max sem <? sem_s sem + n then -1 else 0,
         mkSem (Z.min (sem_s sem + n) (sem_max sem)) (sem_max sem) (sem_lock sem) 0) /\
    awoken l w w') w.
Proof.
  intros Hi Hc Hs Hr Hn Hlt. unfold semaphore_signal. rewrite s32_small by lia.
  destruct (Z.ltb_spec (sem_max sem) (sem_s sem + n)); apply wp_bind;
    (eapply wp_mono; [by apply (wakeup_queue_wp w _ l)|]); intros q w' [-> Ha]; apply wp_ret;
    (split; [|done]); do 2 f_equal; lia.
Qed.

Lemma wait_round_wp sem n (w : W) l c :
  w_inv w -> chain (w_tasks w) (sem_waitqueue sem) l -> sleeping w l ->
  w_str w = Ok (c, w) -> wakeable w c -> ~ ready w c ->
  0 <= sem_s sem < 2 ^ 31 -> 0 < n ->
  wp (wait_round sem n) (fun r w' =>
    if n <=? sem_s sem
    then w' = w /\ r = (true, mkSem (sem_s sem - n) (sem_max sem) (sem_lock sem) (sem_waitqueue sem))
    else exists q', r = (false, mkSem (sem_s sem) (sem_max sem) (sem_lock sem) q') /\
         w_inv w' /\ chain (w_tasks w') q' (append_spec l c) /\ sleeping w' (append_spec l c) /\
         (forall y, ready w' y <-> ready w y)) w.
Proof.
  intros Hi Hc Hs Hstr Hwc Hrc Hr Hn. unfold wait_round. zcase.
  - apply wp_ret. rewrite s32_small by lia. done.
  - apply wp_bind. unfold wp at 1. rewrite Hstr. apply wp_bind.
    eapply wp_mono; [by apply (put_on_wp w _ l c)|].
    intros q' w' (Hi' & Hc' & Hs' & _ & Hr'). apply wp_ret. exists q'. done.
Qed.

(** ** The invariant along every interleaving *)

Lemma append_spec_mem l (x y : Z) : y ∈ append_spec l x <-> y ∈ l \/ y = x.
Proof. unfold append_spec. destruct (decide (x ∈ l)); set_solver. Qed.

Lemma sem_step_inv max init c c' :
  max < 2 ^ 31 -> sem_step c c' -> sem_inv max init c -> sem_inv max init c'.
Proof.
  intros Hmax Hstep [Hw Em Hr Hu (l & Hq & Hs & Hl) Hwant Hpos].
  destruct Hstep as [c t n Hnone Hn|c t n took sem' w' Ht Hna Hstr Hwk Hnr Hround|
                     c n status sem' w' asleep' Hn Hlt Hsig Hasl|c w' Hw' Hkeep].
  - split; cbn; try done.
    + exists l. by do 2 (split; [done|]).
    + intros x Hx. destruct (Hwant x Hx) as (m & Hm & Hlt). exists m. split; [|done].
      rewrite lookup_insert_ne; [done|]. congruence.
    + intros x m [[-> ->]|[_ Hx]]%lookup_insert_Some; [done|eauto].
  - pose proof (Hpos _ _ Ht) as Hn.
    pose proof (wait_round_wp (c_sem c) n (c_w c) l t Hw Hq Hs Hstr Hwk Hnr ltac:(lia) Hn) as Hwp.
    unfold wp in Hwp. rewrite Hround in Hwp. destruct (Z.leb_spec n (sem_s (c_sem c))).
    + destruct Hwp as [-> [= -> ->]]. split; cbn; try done; try lia.
      * exists l. by do 2 (split; [done|]).
      * intros x Hx. destruct (Hwant x Hx) as (m & Hm & Hlt). exists m. split; [|lia].
        rewrite lookup_delete_ne; [done|]. by intros <-.
      * intros x m Hx. apply lookup_delete_Some in Hx as [_ Hx]. eauto.
    + destruct Hwp as (q' & [= -> ->] & Hi' & Hc' & Hs' & _). split; cbn; try done; try lia.
      * exists (append_spec l t). do 2 (split; [done|]). intros x. rewrite append_spec_mem, Hl. set_solver.
      * intros x [->%elem_of_singleton|Hx]%elem_of_union; [by exists n|auto].
  - pose proof (semaphore_signal_wp (c_sem c) n (c_w c) l Hw Hq Hs ltac:(lia) Hn Hlt) as Hwp.
    unfold wp in Hwp. rewrite Hsig in Hwp. destruct Hwp as [[= _ ->] Ha].
    assert (forall t, t ∉ asleep') as Hnone.
    { intros t [Hta Hnr]%Hasl. apply Hnr, (aw_ready _ _ _ Ha). right. by apply Hl. }
    split; cbn; try done; try lia.
    + apply Ha.
    + exists []. split; [done|]. split; [intros x; set_solver|]. intros t. pose proof (Hnone t). set_solver.
    + by intros t Ht%Hnone.
  - destruct (Hkeep l Hq). split; cbn; try done. exists l. by do 2 (split; [done|]).
Qed.
End steps.

(** ** Theorems *)

(** [semaphore_signal] adds the units up to the maximum, reports -1 exactly when
    the maximum was exceeded, empties the wait queue and makes every task that was
    on it ready: no waiter is left behind. *)
Theorem semaphore_signal_correct {W} `{SchedulerLaws W} sem n (w : W) l :
  w_inv w -> chain (w_tasks w) (sem_waitqueue sem) l -> sleeping w l ->
  0 <= sem_s sem <= sem_max sem -> 0 <= n -> sem_s sem + n < 2 ^ 31 ->
  exists w', semaphore_signal sem n w =
      Ok ((if sem_max sem <? sem_s sem + n then -1 else 0,
           mkSem (Z.min (sem_s sem + n) (sem_max sem)) (sem_max sem) (sem_lock sem) 0), w') /\
    w_inv w' /\ forall y, ready w' y <-> ready w y \/ y ∈ l.
Proof.
  intros. destruct (proj1 (wp_Ok _ _ _) (semaphore_signal_wp sem n w l
    ltac:(done) ltac:(done) ltac:(done) ltac:(done) ltac:(done) ltac:(done)))
    as (r & w' & E & -> & [Hi _ _ Hr _]).
  exists w'. by split.
Qed.

(** C27: along every interleaving of waits, signals and other activity no unit of a
    semaphore appears or disappears: its value and the units taken are the initial units
    and those signalled, less what a signal gave beyond the maximum.  The tasks whose wait
    failed and that have not been made ready are exactly those on the wait queue; none of
    them is on a run queue, and each wants more than the present value: no wake-up is
    lost. *)
Theorem semaphore_safe {W} `{SchedulerLaws W} max init (w : W) c :
  w_inv w -> 0 <= init <= max -> max < 2 ^ 31 ->
  rtc sem_step (mkConf w (semaphore_init max init) ∅ ∅ 0 0 0) c ->
  0 <= sem_s (c_sem c) <= max /\
  sem_s (c_sem c) + c_taken c = init + c_given c - c_lost c /\
  exists l, queued c l /\ (forall t, t ∈ l <-> t ∈ c_asleep c) /\
    forall t, t ∈ l -> ~ ready (c_w c) t /\ exists n, c_want c !! t = Some n /\ sem_s (c_sem c) < n.
Proof.
  intros Hi Hinit Hmax Hrtc.
  assert (sem_inv max init c) as [_ _ Hr Hu (l & Hq & Hs & Hl) Hwant _].
  { apply (rtc_ind_r (R := sem_step) (sem_inv max init)
      (mkConf w (semaphore_init max init) ∅ ∅ 0 0 0)); [| |exact Hrtc].
    - split; cbn; try done; try lia. exists []. split; [done|]. split; intros x; set_solver.
    - intros c1 c2 _ Hst Hinv. by apply (sem_step_inv max init c1 c2). }
  split; [done|]. split; [lia|]. exists l. do 2 (split; [done|]). intros t Ht. split; [by apply Hs|by apply Hwant, Hl].
Qed.

(** *** Witnesses: two tasks wait on an empty semaphore *)

Definition example_sem : semaphore := mkSem 0 5 0 0x48.

Lemma semaphore_signal_correct_witness :
  exists s', @semaphore_signal sched (vcpu_scheduler calm_env 0) example_sem 3 sleepers_sched =
      Ok ((0, mkSem 3 5 0 0), s') /\
    forall y, (exists j, on_runqueue s' j y) <->
              (exists j, on_runqueue sleepers_sched j y) \/ y ∈ [0x48; 0x50].
Proof.
  destruct (@semaphore_signal_correct sched (vcpu_scheduler calm_env 0)
    (vcpu_scheduler_laws calm_env 0 calm_clock) example_sem 3 sleepers_sched [0x48; 0x50])
    as (s' & E & _ & Hr).
  - eexists _, _, _. exact sleepers_wf.
  - exact sleepers_chain.
  - exact sleepers_bound.
  - cbn. lia.
  - lia.
  - cbn. lia.
  - exists s'. split; [exact E|exact Hr].
Defined.

(** The running task 0x40 wants 2 units of a semaphore without any, and is queued. *)
Lemma semaphore_safe_witness :
  exists c : sem_conf sched, c_asleep c = {[0x40]} /\ sem_waitqueue (c_sem c) = 0x40 /\ sem_s (c_sem c) + c_taken c = 0 /\
    exists n, c_want c !! 0x40 = Some n /\ sem_s (c_sem c) < n.
Proof.
  pose (H := vcpu_scheduler calm_env 0). pose (L := vcpu_scheduler_laws calm_env 0 calm_clock).
  set (w' := match wait_round (semaphore_init 5 0) 2 drowsy_sched with Ok (_, w') => w' | Err _ => drowsy_sched end).
  set (c := mkConf w' (mkSem 0 5 0 0x40) {[0x40 := 2]} {[0x40]} 0 0 0).
  destruct (@semaphore_safe sched H L 5 0 drowsy_sched c) as (_ & Hu & l & _ & Hl & Hwant).
  - eexists _, _, _. exact drowsy_wf.
  - lia.
  - lia.
  - eapply rtc_l; [|apply rtc_once].
    + apply (step_call (mkConf drowsy_sched (semaphore_init 5 0) ∅ ∅ 0 0 0) 0x40 2); [done|lia].
    + pose proof (step_round (mkConf drowsy_sched (semaphore_init 5 0) {[0x40 := 2]} ∅ 0 0 0) 0x40 2 false (mkSem 0 5 0 0x40) w') as Hst.
      unfold c. rewrite <- (right_id_L ∅ (∪) {[0x40]}). apply Hst.
      * done.
      * set_solver.
      * reflexivity.
      * apply drowsy_bound.
      * apply drowsy_bound.
      * vm_compute. reflexivity.
  - exists c. do 2 (split; [done|]). split; [exact Hu|]. apply Hwant. apply Hl. apply elem_of_singleton. reflexivity.
Defined.
