(* ===== verification/Process.v ===== *)
(** * Processes: fork, waitpid, exit and sched_setparam

    The system calls of interrupt_handler.c that create, wait for and end processes,
    with [lookup_TSS] of kernel.c and [duplicate_TSS].  The state has three parts: the
    memory of [Virtual], the global descriptor table and the world of the scheduler,
    which is the interface [Scheduler] of [Waitqueue] with the task register.

    A control block occupies a page of its own: its frame and its mapping are in the
    memory and in the descriptor table, its contents in the table of tasks of the
    scheduler, under the selector; the block of a task that has exited is removed.  The
    kernel lock makes each system call, up to the point where it calls the scheduler,
    one step. *)

From Stdlib Require Import ZArith Lia.
From S2P Require Import Prelude TaskQueue Physical Virtual Clone CloneThm Exit.
From S2P Require Import VcpuSched Waitqueue Sleep Semaphore.
From stdpp Require Import base gmap sets fin_sets numbers strings list.
Local Open Scope Z_scope.

(** ** Data *)

(** A segment descriptor. *)
Record descriptor := mkDesc {
  uLimit0 : Z;
  pBase0 : Z;
  pBase1 : Z;
  uType : Z;
  uDPL : Z;
  fPresent : bool;
  uLimit1 : Z;
  f_available : bool;
  f0 : bool;
  fX : bool;
  fGranularity : bool;
  pBase2 : Z
}.

Definition zero_descriptor : descriptor := mkDesc 0 0 0 0 0 false 0 false false false false 0.

Record sched_param := mkParam { sched_priority : Z; sp_C : Z; sp_T : Z; sp_m : Z; sp_k : Z }.

Definition set_waitqueue (q : Z) (t : quest_tss) : quest_tss :=
  mkTss (tss_ESP t) (tss_EBP t) (tss_initial_EIP t) (tss_CR3 t) (tss_EFLAGS t)
    (tss_Msem t) (tss_M t) (tss_next t) q (tss_busy t) (tss_priority t) (tss_time t) (tss_cpu t).

Definition set_priority (x : Z) (t : quest_tss) : quest_tss :=
  mkTss (tss_ESP t) (tss_EBP t) (tss_initial_EIP t) (tss_CR3 t) (tss_EFLAGS t)
    (tss_Msem t) (tss_M t) (tss_next t) (tss_waitqueue t) (tss_busy t) x (tss_time t) (tss_cpu t).

(** The assignments of [duplicate_TSS] to the cleared control block. *)
Definition child_tss (child_eip child_ebp child_esp child_eflags child_directory : Z) : quest_tss :=
  mkTss child_esp child_ebp child_eip child_directory (Z.land child_eflags 0xFFFFBFFF)
    (semaphore_init 1 0) (replicate 32 0) 0 0 false 0 0 0xFF.

(** The descriptor of the control block at [pTSS], over the old one. *)
Definition tss_descriptor (pTSS : Z) (d : descriptor) : descriptor :=
  mkDesc 0xFFF (Z.land pTSS 0xFFFF) (Z.land (Z.shiftr pTSS 16) 0xFF) 0x09 0 true 0
    (f_available d) false false false (Z.shiftr pTSS 24).

(** The task register: [ltr]. *)
Class TaskRegister (W : Type) := w_ltr : Z -> M W unit.

Record proc (W : Type) := mkProc {
  p_mmu : mmu;
  p_gdt : list descriptor;
  p_world : W
}.
Arguments mkProc {W}.
Arguments p_mmu {W}.
Arguments p_gdt {W}.
Arguments p_world {W}.

(** ** Operations *)

Section ops.
Context {W : Type} `{Scheduler W} `{TaskRegister W}.
(** The kernel page table and the page directory in [cr3]. *)
Context (kpt pdbr : Z).

Definition on_mmu {A} (m : M mmu A) : M (proc W) A :=
  fun p => match m (p_mmu p) with
           | Ok (a, s) => Ok (a, mkProc s (p_gdt p) (p_world p))
           | Err e => Err e
           end.
Definition on_world {A} (m : M W A) : M (proc W) A :=
  fun p => match m (p_world p) with
           | Ok (a, w) => Ok (a, mkProc (p_mmu p) (p_gdt p) w)
           | Err e => Err e
           end.

(** [ad[i]] of the 256 descriptors at [KERN_GDT]. *)
Definition get_desc (i : Z) : M (proc W) descriptor :=
  let! g := gets p_gdt in lift (of_option OutOfBounds (g !! Z.to_nat i)).
Definition put_desc (i : Z) (d : descriptor) : M (proc W) unit :=
  modify (fun p => mkProc (p_mmu p) (<[Z.to_nat i := d]> (p_gdt p)) (p_world p)).

Definition desc_base (d : descriptor) : Z :=
  Z.lor (Z.lor (pBase0 d) (Z.shiftl (pBase1 d) 16)) (u32 (Z.shiftl (pBase2 d) 24)).

(** The address that [lookup_TSS] and [lookup_GDT_selector] of kernel.c return. *)
Definition lookup_TSS_va (selector : Z) : M (proc W) Z :=
  let! d := get_desc (Z.shiftr selector 3) in ret (desc_base d).

Definition get_GDT_descriptor (selector : Z) : M (proc W) descriptor := get_desc (Z.shiftr selector 3).

(** *** duplicate_TSS *)

Definition free_desc_body (i : Z) : M (proc W) (control Z Z) :=
  if i <? 256 then
    let! d := get_desc i in
    ret (if fPresent d then Continue (i + 1) else Break i)
  else ret (Break i).

(** The word at [child_esp] in the child. *)
Definition set_child_eip (child_eip child_esp child_directory : Z) : M mmu unit :=
  let! dir_va := map_virtual_page kpt (Z.lor child_directory 3) in
  if dir_va =? 0 then fail (Panic "child_pgdir: out of memory")
  else
    let! esp_frame := pgdir_get_frame kpt (mkPgdir child_directory dir_va)
                        (Z.land child_esp (u32 (Z.lnot 0xFFF))) in
    let! esp_virt := map_virtual_page kpt (Z.lor esp_frame 3) in
    if esp_virt =? 0 then fail (Panic "esp_virt: out of memory")
    else
      vwrite kpt (entry esp_virt (Z.shiftr (la_offset child_esp) 2)) child_eip ;;!
      unmap_virtual_page kpt dir_va ;;!
      unmap_virtual_page kpt esp_virt.

(** The page of the new control block. *)
Definition new_tss_page : M mmu Z :=
  let! pa := on_frames alloc_phys_frame in
  let! pTSS := map_virtual_page kpt (u32 (pa + 3)) in
  clear_page kpt pTSS ;;!
  ret pTSS.

Definition duplicate_TSS (child_eip child_ebp child_esp child_eflags child_directory : Z) : M (proc W) Z :=
  let! pTSS := on_mmu new_tss_page in
  let! i := mloop 257 free_desc_body 1 in
  if i =? 256 then fail (Panic "No free selector for TSS")
  else
    let! d := get_desc i in
    put_desc i (tss_descriptor pTSS d) ;;!
    on_mmu (set_child_eip child_eip child_esp child_directory) ;;!
    let selector := u16 (Z.shiftl i 3) in
    on_world (put_tss selector (child_tss child_eip child_ebp child_esp child_eflags child_directory)) ;;!
    ret selector.

(** *** fork *)

(** [_fork] in the parent, up to [wakeup]; the registers that its assembly reads are
    arguments. *)
Definition fork_child (eip this_ebp this_esp eflags : Z) : M (proc W) Z :=
  let! child_directory := on_mmu (fork_memory kpt pdbr) in
  let! child_gdt_index := duplicate_TSS eip this_ebp this_esp eflags child_directory in
  let! me := on_world w_str in
  let! parent := on_world (get_tss me) in
  let! child := on_world (get_tss child_gdt_index) in
  on_world (put_tss child_gdt_index (set_priority (tss_priority parent) child)) ;;!
  ret child_gdt_index.

Definition _fork (eip this_ebp this_esp eflags : Z) : M (proc W) Z :=
  if eip =? 0 then ret 0
  else
    let! child_gdt_index := fork_child eip this_ebp this_esp eflags in
    on_world (wakeup child_gdt_index) ;;!
    ret child_gdt_index.

(** *** waitpid *)

(** [_waitpid] up to [schedule]: [true] when the caller was queued. *)
Definition waitpid_wait (pid : Z) : M (proc W) bool :=
  let! ptss := lookup_TSS_va pid in
  if negb (ptss =? 0) then
    let! me := on_world w_str in
    let! t := on_world (get_tss pid) in
    let! q := on_world (put_on (tss_waitqueue t) me) in
    let! t := on_world (get_tss pid) in
    on_world (put_tss pid (set_waitqueue q t)) ;;!
    ret true
  else ret false.

Definition _waitpid (pid : Z) : M (proc W) Z :=
  let! queued := waitpid_wait pid in
  if queued : bool then on_world schedule ;;! ret 0 else ret (u32 (-1)).

(** *** exit *)

(** [while ((waiter = queue_remove_head (&ptss->waitqueue))) wakeup (waiter);] *)
Definition exit_waiters_body (tss : Z) (_ : unit) : M W (control unit unit) :=
  let! t := get_tss tss in
  let! tasks := gets w_tasks in
  let! '(waiter, q) := lift (queue_remove_head tasks (tss_waitqueue t)) in
  put_tss tss (set_waitqueue q t) ;;!
  if waiter =? 0 then ret (Break tt)
  else wakeup waiter ;;! ret (Continue tt).

Definition exit_waiters (tss : Z) : M W unit :=
  let! tasks := gets w_tasks in
  mloop (queue_fuel tasks) (exit_waiters_body tss) tt.

(** The frame of the page at [ptss], from the kernel page table. *)
Definition release_tss_page (ptss : Z) : M mmu unit :=
  let! e := vread kpt (entry KERN_PGT (slot ptss)) in
  release_frame (Z.shiftr e 12).

(** [__exit] up to [schedule], from which it does not return. *)
Definition exit_process : M (proc W) unit :=
  on_mmu (exit_memory kpt pdbr) ;;!
  let! tss := on_world w_str in
  on_world (w_ltr 0) ;;!
  let! ptss := lookup_TSS_va tss in
  on_world (exit_waiters tss) ;;!
  on_mmu (release_tss_page ptss) ;;!
  put_desc (Z.shiftr tss 3) zero_descriptor ;;!
  on_mmu (unmap_virtual_page kpt ptss) ;;!
  on_world (modify (fun w => w_set_tasks (delete tss (w_tasks w)) w)).

Definition __exit : M (proc W) unit :=
  exit_process ;;! on_world schedule.

(** *** sched_setparam *)

(** The division of [int]s; [INT_MIN / -1] traps as well. *)
Definition int_div (a b : Z) : outcome Z :=
  if (b =? 0) || ((a =? - 2 ^ 31) && (b =? -1)) then Err DivideError else Ok (Z.quot a b).

Definition setparam_priority (p : sched_param) : outcome Z :=
  if sched_priority p =? -1 then
    let? q := int_div (s32 (sp_k p * sp_T p)) (sp_m p) in Ok (u32 q)
  else Ok (u32 (sched_priority p)).

(** [true] when the task exists; the caller then calls [schedule]. *)
Definition setparam_set (pid : Z) (param : sched_param) : M (proc W) bool :=
  let! ptss := lookup_TSS_va pid in
  if negb (ptss =? 0) then
    let! priority := lift (setparam_priority param) in
    let! t := on_world (get_tss pid) in
    on_world (put_tss pid (set_priority priority t)) ;;!
    let! me := on_world w_str in
    on_world (wakeup me) ;;!
    ret true
  else ret false.

Definition _sched_setparam (pid : Z) (param : sched_param) : M (proc W) Z :=
  let! found := setparam_set pid param in
  if found : bool then on_world schedule ;;! ret 0 else ret (-1).
End ops.
