(* ===== verification/ProcessThm.v ===== *)
(** * Processes: theorems

    Waiting for a process and its exit, over the interface of the scheduler extended by
    what [__exit] relies on ([TaskingLaws]), which the scheduler of sched/vcpu.c
    provides; what [fork] gives the child; the round trip of the address of a control
    block through its descriptor; the errors. *)

From Stdlib Require Import ZArith Lia.
From S2P Require Import Prelude TaskQueue Physical Virtual VirtualThm Clone CloneThm Exit.
From S2P Require Import ReplQueue Vcpu VcpuSched SchedLemmas SchedThm SchedWake SchedTheorems Waitqueue Sleep Semaphore Process.
From stdpp Require Import base gmap sets fin_sets numbers strings list relations.
Local Open Scope Z_scope.

(** ** The interface *)

(** [idle w x]: the CPU may idle with task [x], which therefore never exits. *)
Class TaskingLaws (W : Type) `{SchedulerLaws W} `{TaskRegister W} := {
  idle : W -> Z -> Prop;
  ltr_ok : forall w x, w_inv w -> (x <> 0 -> is_Some (w_tasks w !! x)) ->
    wp (w_ltr x) (fun _ w' =>
      w_inv w' /\ w_tasks w' = w_tasks w /\ w_str w' = Ok (x, w') /\
      (forall y, ready w' y <-> ready w y) /\ (forall y, wakeable w y -> wakeable w' y) /\
      (forall y, idle w' y -> idle w y)) w;
  set_tasks_str : forall w tasks c,
    w_str w = Ok (c, w) -> w_str (w_set_tasks tasks w) = Ok (c, w_set_tasks tasks w);
  set_tasks_idle : forall w tasks y, idle (w_set_tasks tasks w) y -> idle w y;
  wakeup_idle : forall w x, w_inv w -> wakeable w x ->
    wp (wakeup x) (fun _ w' =>
      (forall y, idle w' y -> idle w y) /\ (forall c, w_str w = Ok (c, w) -> w_str w' = Ok (c, w'))) w;
  retire_ok : forall w x,
    w_inv w -> w_str w = Ok (0, w) -> ~ ready w x -> ~ idle w x ->
    w_inv (w_set_tasks (delete x (w_tasks w)) w) /\
    (forall y, ready (w_set_tasks (delete x (w_tasks w)) w) y <-> ready w y) /\
    (forall y, y <> x -> wakeable w y -> wakeable (w_set_tasks (delete x (w_tasks w)) w) y)
}.

(** *** The VCPU scheduler *)

Section vcpu.
Context (E : env) (me : nat) (Htsc : forall n, 0 < e_tsc E n < 2 ^ 62).

Definition vcpu_task_register : TaskRegister sched := fun x => mod_pc me (set_current_task x).

Definition vcpu_idle (s : sched) (x : Z) : Prop :=
  x = e_idleTSS E me \/ exists p, s_pcpus s !! me = Some p /\ x = vcpu_idle_task p.

Lemma str_current s c : @w_str sched (vcpu_scheduler E me) s = Ok (c, s) <->
  current_task <$> s_pcpus s !! me = Some c.
Proof.
  unfold w_str, vcpu_scheduler, bind, get_pc, gets, lift, of_option, ret. cbn.
  destruct (s_pcpus s !! me) as [p|]; cbn; split; congruence.
Qed.

Lemma ltr_law s x : sched_inv E me s -> (x <> 0 -> is_Some (s_tasks s !! x)) ->
  wp (vcpu_task_register x) (fun _ s' =>
    sched_inv E me s' /\ s_tasks s' = s_tasks s /\ @w_str sched (vcpu_scheduler E me) s' = Ok (x, s') /\
    (forall j y, on_runqueue s' j y <-> on_runqueue s j y) /\
    (forall y, bound_here me s y -> bound_here me s' y) /\ (forall y, vcpu_idle s' y -> vcpu_idle s y)) s.
Proof.
  intros (p & l & rqs & Hwf) Hx. pose proof (sw_pc _ _ _ _ _ _ Hwf) as Hp.
  pose proof (lookup_lt_Some _ _ _ Hp) as Hlt.
  unfold vcpu_task_register, mod_pc. apply wp_bind. eapply wp_get_pc; [exact Hp|]. apply wp_modify.
  set (s' := set_pcpus _ s).
  assert (s_pcpus s' !! me = Some (set_current_task x p)) as Hp' by (by apply list_lookup_insert_eq).
  split_and!.
  - exists (set_current_task x p), l, rqs. destruct Hwf as [_ [] Hb Hr (H1 & H2 & H3 & _)].
    split; [done| |done|done|done]. by split.
  - done.
  - apply str_current. by rewrite Hp'.
  - done.
  - done.
  - intros y [->|(q & Hq & ->)]; [by left|right]. exists p. split; [done|]. by rewrite Hp' in Hq; injection Hq as <-.
Qed.

Lemma wakeup_idle_law s x : sched_inv E me s -> bound_here me s x ->
  wp (vcpu_wakeup E me x) (fun _ s' => (forall y, vcpu_idle s' y -> vcpu_idle s y) /\
    forall c, @w_str sched (vcpu_scheduler E me) s = Ok (c, s) -> @w_str sched (vcpu_scheduler E me) s' = Ok (c, s')) s.
Proof.
  intros (p & l & rqs & Hwf) (H0 & t & i & v & Ht & Hcpu & Hi & Hv & Hc & Hty & Hon).
  pose proof (sw_pc _ _ _ _ _ _ Hwf) as Hp. eapply wp_mono.
  { eapply (vcpu_wakeup_ok E me s p l rqs x t i v); try done.
    - intros j us Hus Hx. apply Hon, (on_runqueue_rqs E me _ _ _ _ _ _ Hwf). eauto.
    - intros _ _. unfold unblockable. rewrite Hty. apply Htsc. }
  intros [] s' (p' & ts & v' & _ & Hwf' & _ & _ & _ & _ & _ & Ei & Ec).
  pose proof (sw_pc _ _ _ _ _ _ Hwf') as Hp'. split.
  - intros y [->|(q & Hq & ->)]; [by left|right]. exists p. split; [done|]. congruence.
  - intros c. rewrite !str_current, Hp, Hp'. cbn. congruence.
Qed.

Lemma retire_law s x : sched_inv E me s -> @w_str sched (vcpu_scheduler E me) s = Ok (0, s) ->
  ~ (exists j, on_runqueue s j x) -> ~ vcpu_idle s x ->
  sched_inv E me (set_tasks (delete x (s_tasks s)) s) /\
  (forall j y, on_runqueue (set_tasks (delete x (s_tasks s)) s) j y <-> on_runqueue s j y) /\
  (forall y, y <> x -> bound_here me s y -> bound_here me (set_tasks (delete x (s_tasks s)) s) y).
Proof.
  intros (p & l & rqs & Hwf) Hstr Hnr Hni. pose proof (sw_pc _ _ _ _ _ _ Hwf) as Hp.
  assert (current_task p = 0) as Hc by (apply str_current in Hstr; rewrite Hp in Hstr; cbn in Hstr; congruence).
  assert (vcpu_idle_task p <> x) as Hi1 by (intros <-; apply Hni; right; by exists p).
  assert (e_idleTSS E me <> x) as Hi2 by (intros <-; apply Hni; by left).
  set (s' := set_tasks (delete x (s_tasks s)) s).
  assert (sched_wf E me s' p l rqs) as Hwf'.
  { pose proof Hwf as [_ Hq Hb Hr (Ht1 & Ht2 & Ht3 & Ht4)]. split; [done| |done|done|].
    - split; try (by apply Hq). intros i v ts Hv Hts. destruct (qw_rq _ _ _ _ _ Hq i v ts Hv Hts) as [Hch ?].
      split; [|done]. eapply chain_frame; [|exact Hch]. intros y Hy. cbn. rewrite lookup_delete_ne; [done|].
      intros ->. apply Hnr. exists i. apply (on_runqueue_rqs E me _ _ _ _ _ _ Hwf). eauto.
    - unfold tasks_ok. cbn. rewrite !lookup_delete_ne by done. do 3 (split; [done|]). by rewrite Hc. }
  assert (forall j y, on_runqueue s' j y <-> on_runqueue s j y) as Hrq.
  { intros j y. by rewrite (on_runqueue_rqs E me _ _ _ _ _ _ Hwf'), (on_runqueue_rqs E me _ _ _ _ _ _ Hwf). }
  split; [by exists p, l, rqs|]. split; [done|].
  intros y Hy (H0 & t & i & v & Ht & Hrest). split; [done|]. exists t, i, v. cbn. rewrite lookup_delete_ne by done.
  split; [done|]. destruct Hrest as (H1 & H2 & H3 & H4 & H5 & Hon). do 5 (split; [done|]).
  intros j Hj%Hrq. by apply Hon.
Qed.

#[refine] Definition vcpu_tasking_laws :
  @TaskingLaws sched (vcpu_scheduler E me) (vcpu_scheduler_laws E me Htsc) vcpu_task_register :=
  {| idle := vcpu_idle |}.
Proof.
  - intros w x Hw Hx. eapply wp_mono; [by apply ltr_law|]. intros [] w' (H1 & H2 & H3 & H4 & H5 & H6).
    split_and!; try done. intros y. cbn. by setoid_rewrite H4.
  - intros w tasks c. by rewrite !str_current.
  - done.
  - intros w x. apply wakeup_idle_law.
  - intros w x H1 H2 H3 H4. destruct (retire_law w x H1 H2 H3 H4) as (H5 & H6 & H7).
    split_and!; try done. intros y. cbn. by setoid_rewrite H6.
Defined.
End vcpu.

(** ** Wait queues of tasks *)

Section world.
Context {W : Type} `{TaskingLaws W}.

(** A field that is not the scheduler's is changed. *)
Lemma put_field_ok w x t t' : w_inv w -> w_tasks w !! x = Some t -> tss_next t' = tss_next t -> tss_cpu t' = tss_cpu t ->
  let w' := w_set_tasks (<[x := t']> (w_tasks w)) w in
  w_inv w' /\ (forall y, ready w' y <-> ready w y) /\ (forall y, wakeable w y -> wakeable w' y).
Proof.
  intros Hi Hx En Ec. apply set_tasks_ok; [done| |]; intros y; [intros _|];
    (destruct (decide (y = x)) as [->|]; [rewrite lookup_insert_eq, Hx; cbn; congruence|by rewrite lookup_insert_ne]).
Qed.

(** Queues do not see it. *)
Lemma put_field_chain tasks x t t' q l : tasks !! x = Some t -> tss_next t' = tss_next t ->
  chain tasks q l -> chain (<[x := t']> tasks) q l.
Proof.
  intros Hx En. apply chain_next_eq. intros y _. destruct (decide (y = x)) as [->|].
  - rewrite lookup_insert_eq, Hx. cbn. congruence.
  - by rewrite lookup_insert_ne.
Qed.

(** [Q pid] are the tasks that wait for [pid]: the queue of its control block, if it exists,
    and none of them is on a run queue. *)
Record wait_lists (w : W) (Q : Z -> list Z) : Prop := mkWaitLists {
  wl_queue : forall pid t, w_tasks w !! pid = Some t -> chain (w_tasks w) (tss_waitqueue t) (Q pid);
  wl_alive : forall pid c, c ∈ Q pid -> is_Some (w_tasks w !! pid);
  wl_sleep : forall pid, sleeping w (Q pid);
  wl_once : forall pid pid' c, c ∈ Q pid -> c ∈ Q pid' -> pid = pid'
}.

Definition upd_list (Q : Z -> list Z) (pid : Z) (l : list Z) : Z -> list Z :=
  fun x => if x =? pid then l else Q x.

(** The running task, which waits for nobody, waits for [pid]. *)
Lemma wait_lists_append w Q me pid t :
  w_inv w -> wait_lists w Q -> w_tasks w !! pid = Some t -> wakeable w me -> ~ ready w me ->
  (forall x, me ∉ Q x) ->
  wp (let! q := put_on (tss_waitqueue t) me in
      let! t := get_tss pid in
      put_tss pid (set_waitqueue q t)) (fun _ w' =>
    w_inv w' /\ wait_lists w' (upd_list Q pid (Q pid ++ [me])) /\ (forall y, ready w' y <-> ready w y)) w.
Proof.
  intros Hi [Hq Ha Hs Ho] Ht Hwm Hrm Hfree. destruct (wakeable_task w me Hwm) as [Hm0 [tm Htm]].
  destruct (queue_append_chain _ _ _ _ _ (Hq pid t Ht) Hm0 Htm) as (q' & tasks' & Eq & Hc' & Hsame & Hf & _).
  assert (append_spec (Q pid) me = Q pid ++ [me]) as Eapp
    by (unfold append_spec; by destruct (decide (me ∈ Q pid)) as [Hin|]; [destruct (Hfree pid)|]).
  rewrite Eapp in Hc'.
  destruct (set_tasks_ok w tasks' Hi) as (Hi' & Hr' & Hw').
  { intros x Hx. rewrite Hf; [done|]. intros [->|Hxl]%elem_of_cons; [done|]. by destruct (Hs pid x Hxl). }
  { intros x. apply set_next_field; [done|]. apply Hsame. }
  assert (forall x u, tasks' !! x = Some u -> exists u', w_tasks w !! x = Some u' /\ tss_waitqueue u = tss_waitqueue u') as Hwq.
  { intros x u Hu. pose proof (Hsame x) as E. rewrite Hu in E. destruct (w_tasks w !! x) as [u'|]; [|done].
    exists u'. split; [done|]. cbn in E. injection E as. congruence. }
  assert (exists t', tasks' !! pid = Some t') as [t' Ht'].
  { pose proof (Hsame pid) as E. rewrite Ht in E. destruct (tasks' !! pid); [eauto|done]. }
  unfold put_on, get_tss, put_tss. apply wp_bind, wp_bind, wp_gets, wp_bind. eapply wp_lift; [exact Eq|].
  apply wp_bind, wp_modify, wp_ret, wp_bind, wp_bind, wp_gets. rewrite tasks_set.
  eapply wp_lift; [unfold TaskQueue.lookup_TSS; by rewrite Ht'|]. apply wp_modify. rewrite tasks_set.
  destruct (put_field_ok (w_set_tasks tasks' w) pid t' (set_waitqueue q' t')) as (Hi2 & Hr2 & Hw2);
    [done|by rewrite tasks_set|done|done|]. rewrite tasks_set in Hi2, Hr2, Hw2.
  split; [done|]. split; [|intros y; by rewrite Hr2, Hr']. split; rewrite ?tasks_set.
  - intros x u Hu. apply (put_field_chain tasks' pid t'); [done|done|]. unfold upd_list.
    destruct (Z.eqb_spec x pid) as [->|Hne].
    + rewrite lookup_insert_eq in Hu. injection Hu as <-. exact Hc'.
    + rewrite lookup_insert_ne in Hu by done. destruct (Hwq x u Hu) as (u' & Hu' & ->).
      eapply chain_frame; [|by apply Hq]. intros y Hy. apply Hf. intros [->|Hy']%elem_of_cons; [by apply (Hfree x)|].
      apply Hne. by apply (Ho x pid y).
  - intros x c. unfold upd_list. destruct (Z.eqb_spec x pid) as [->|Hne].
    + intros _. rewrite lookup_insert_eq. eauto.
    + intros Hc%Ha. rewrite lookup_insert_ne by done. destruct Hc as [u Hu]. pose proof (Hsame x) as E.
      rewrite Hu in E. destruct (tasks' !! x); [eauto|done].
  - assert (forall c, wakeable w c -> ~ ready w c -> wakeable (w_set_tasks (<[pid:=set_waitqueue q' t']> tasks') (w_set_tasks tasks' w)) c /\
      ~ ready (w_set_tasks (<[pid:=set_waitqueue q' t']> tasks') (w_set_tasks tasks' w)) c) as Hk.
    { intros c Hc1 Hc2. split; [by apply Hw2, Hw'|]. by rewrite Hr2, Hr'. }
    intros x c. unfold upd_list. destruct (x =? pid).
    + intros [Hc|Hc]%elem_of_app; [by destruct (Hs pid c Hc); apply Hk|]. apply list_elem_of_singleton in Hc as ->. by apply Hk.
    + intros Hc. destruct (Hs x c Hc). by apply Hk.
  - intros x y c. unfold upd_list. destruct (Z.eqb_spec x pid) as [->|Hx], (Z.eqb_spec y pid) as [->|Hy]; try done.
    + intros [Hc|Hc]%elem_of_app Hc'2; [by apply (Ho pid y c)|]. apply list_elem_of_singleton in Hc as ->. by destruct (Hfree y).
    + intros Hc'2 [Hc|Hc]%elem_of_app; [by apply (Ho x pid c)|]. apply list_elem_of_singleton in Hc as ->. by destruct (Hfree x).
    + by apply Ho.
Qed.

(** *** The exit of a task *)

Lemma upd_list_same Q x l : upd_list Q x l x = l.
Proof. unfold upd_list. by rewrite Z.eqb_refl. Qed.

Lemma upd_list_sub Q x l pid c : (forall c, c ∈ l -> c ∈ Q x) -> c ∈ upd_list Q x l pid -> c ∈ Q pid.
Proof. intros Hl. unfold upd_list. destruct (Z.eqb_spec pid x) as [->|]; [apply Hl|done]. Qed.

(** The queue of [x] becomes a part of itself. *)
Lemma wait_lists_shrink w Q x t q l :
  w_inv w -> wait_lists w Q -> w_tasks w !! x = Some t -> chain (w_tasks w) q l -> (forall c, c ∈ l -> c ∈ Q x) ->
  let w' := w_set_tasks (<[x := set_waitqueue q t]> (w_tasks w)) w in
  w_inv w' /\ wait_lists w' (upd_list Q x l) /\ (forall z, ready w' z <-> ready w z) /\
  (forall z, wakeable w z -> wakeable w' z).
Proof.
  intros Hi [Hq Ha Hs Ho] Hx Hc Hl w'.
  destruct (put_field_ok w x t (set_waitqueue q t) Hi Hx eq_refl eq_refl) as (Hi' & Hr & Hw).
  assert (forall pid c, c ∈ upd_list Q x l pid -> c ∈ Q pid) as Hsub by (intros pid c; by apply upd_list_sub).
  split; [done|]. split; [|done]. unfold w' in *. split; rewrite ?tasks_set.
  - intros pid u Hu. apply (put_field_chain _ x t); [done|done|]. unfold upd_list.
    destruct (Z.eqb_spec pid x) as [->|Hne].
    + rewrite lookup_insert_eq in Hu. by injection Hu as <-.
    + rewrite lookup_insert_ne in Hu by done. by apply Hq.
  - intros pid c Hcc%Hsub%Ha. destruct (decide (pid = x)) as [->|]; [rewrite lookup_insert_eq; eauto|by rewrite lookup_insert_ne].
  - intros pid c Hcc%Hsub. destruct (Hs pid c Hcc). split; [by apply Hw|by rewrite Hr].
  - intros pid pid' c Hc1%Hsub Hc2%Hsub. by eapply Ho.
Qed.

(** [y], which waits for nobody, is woken. *)
Lemma wait_lists_wakeup w w' Q y :
  wait_lists w Q -> (forall pid, y ∉ Q pid) -> same_but_next (w_tasks w) (w_tasks w') ->
  (forall z, z <> y -> ~ ready w z -> w_tasks w' !! z = w_tasks w !! z) ->
  (forall z, ready w' z <-> ready w z \/ z = y) -> (forall z, wakeable w z -> wakeable w' z) ->
  wait_lists w' Q.
Proof.
  intros [Hq Ha Hs Ho] Hy Hsame Hf Hr Hw. split; [| | |done].
  - intros pid u Hu. pose proof (Hsame pid) as E. rewrite Hu in E.
    destruct (w_tasks w !! pid) as [u'|] eqn:Hu'; [|done]. cbn in E.
    assert (tss_waitqueue u = tss_waitqueue u') as -> by (injection E as; congruence).
    eapply chain_frame; [|by apply Hq]. intros c Hc. apply Hf; [intros ->; by apply (Hy pid)|]. by apply (Hs pid).
  - intros pid c Hc%Ha. by eapply same_but_next_dom.
  - intros pid c Hc. destruct (Hs pid c Hc). split; [by apply Hw|]. rewrite Hr. intros [?| ->]; [done|]. by apply (Hy pid).
Qed.

(** What the waiters of [x] and the others see of its exit. *)
Record released (x : Z) (Q : Z -> list Z) (w w' : W) : Prop := mkReleased {
  rl_inv : w_inv w';
  rl_lists : wait_lists w' (upd_list Q x []);
  rl_ready : forall y, ready w' y <-> ready w y \/ y ∈ Q x;
  rl_wakeable : forall y, wakeable w y -> wakeable w' y;
  rl_str : w_str w' = Ok (0, w');
  rl_idle : forall y, idle w' y -> idle w y;
  rl_task : is_Some (w_tasks w' !! x)
}.

Lemma upd_list_twice Q x l l' : forall pid, upd_list (upd_list Q x l) x l' pid = upd_list Q x l' pid.
Proof. intros pid. unfold upd_list. by destruct (pid =? x). Qed.

Lemma wait_lists_ext w Q Q' : (forall pid, Q pid = Q' pid) -> wait_lists w Q -> wait_lists w Q'.
Proof.
  intros E [Hq Ha Hs Ho]. split.
  - intros pid t Ht. rewrite <- E. by apply Hq.
  - intros pid c Hc. rewrite <- E in Hc. by eapply Ha.
  - intros pid. rewrite <- E. apply Hs.
  - intros pid pid' c. rewrite <- !E. apply Ho.
Qed.

Lemma exit_waiters_loop x l : forall fuel w Q t,
  w_inv w -> wait_lists w Q -> w_tasks w !! x = Some t -> w_str w = Ok (0, w) -> Q x = l -> (length l < fuel)%nat ->
  wp (mloop fuel (exit_waiters_body x) tt) (fun _ w' => released x Q w w') w.
Proof.
  induction l as [|y l IH]; intros [|fuel] w Q t Hi Hwl Hx Hstr EQ Hf; cbn [length] in Hf; try lia;
    cbn [mloop]; apply wp_bind; unfold exit_waiters_body, get_tss, put_tss;
    apply wp_bind, wp_bind, wp_gets; (eapply wp_lift; [unfold TaskQueue.lookup_TSS; by rewrite Hx|]);
    apply wp_bind, wp_gets, wp_bind; pose proof (wl_queue _ _ Hwl x t Hx) as Hch; rewrite EQ in Hch.
  - cbn in Hch. eapply (wp_lift _ (0, 0)); [by rewrite Hch|]. cbn [Z.eqb]. apply wp_bind, wp_modify, wp_ret, wp_ret.
    destruct (wait_lists_shrink w Q x t 0 [] Hi Hwl Hx eq_refl ltac:(set_solver)) as (Hi' & Hwl' & Hr & Hw).
    split; try done.
    + intros y. rewrite Hr, EQ. set_solver.
    + by apply set_tasks_str.
    + intros y. apply set_tasks_idle.
    + rewrite tasks_set, lookup_insert_eq. eauto.
  - pose proof (chain_NoDup _ _ _ Hch) as [Hyl _]%NoDup_cons. destruct Hch as (Ey & Hy0 & ty & Hty & Hch). rewrite Ey.
    eapply (wp_lift _ (y, tss_next ty)).
    { unfold queue_remove_head, TaskQueue.lookup_TSS. rewrite (proj2 (Z.eqb_neq _ _)) by done. by rewrite Hty. }
    destruct (wait_lists_shrink w Q x t (tss_next ty) l Hi Hwl Hx Hch) as (Hi1 & Hwl1 & Hr1 & Hw1); [rewrite EQ; set_solver|].
    apply wp_bind, wp_modify. set (w1 := w_set_tasks _ w) in *.
    rewrite (proj2 (Z.eqb_neq _ _)) by done. apply wp_bind.
    destruct (wl_sleep _ _ Hwl x y) as [Hwy Hry]; [rewrite EQ; set_solver|].
    pose proof (wakeup_idle w1 y Hi1 (Hw1 y Hwy)) as ([] & w2 & Ewk & Hidle & Hstr2)%wp_Ok.
    pose proof (wakeup_ok w1 y Hi1 (Hw1 y Hwy)) as Hok. unfold wp in Hok. rewrite Ewk in Hok.
    destruct Hok as (Hi2 & Hsame & Hframe & Hr2 & Hw2). unfold wp. rewrite Ewk.
    assert (wait_lists w2 (upd_list Q x l)) as Hwl2.
    { apply (wait_lists_wakeup w1 w2 _ y); try done. intros pid. unfold upd_list.
      destruct (Z.eqb_spec pid x) as [->|Hne]; [done|]. intros Hin. apply Hne.
      apply (wl_once _ _ Hwl pid x y Hin). rewrite EQ. set_solver. }
    assert (exists t2, w_tasks w2 !! x = Some t2) as [t2 Ht2].
    { eapply same_but_next_dom; [exact Hsame|]. unfold w1. rewrite tasks_set, lookup_insert_eq. eauto. }
    eapply wp_mono; [apply (IH fuel w2 (upd_list Q x l) t2); try done|].
    + apply Hstr2. by apply set_tasks_str.
    + apply upd_list_same.
    + lia.
    + intros [] w' [Ri Rl Rr Rw Rs Rd Rt]. split; try done.
      * by eapply wait_lists_ext; [apply upd_list_twice|].
      * intros z. rewrite Rr, Hr2, Hr1, upd_list_same, EQ, elem_of_cons. tauto.
      * intros z Hz. by apply Rw, Hw2, Hw1.
      * intros z Hz. eapply set_tasks_idle, Hidle, Rd, Hz.
Qed.

Lemma wait_lists_delete w Q x : w_inv w -> wait_lists w (upd_list Q x []) -> (forall pid, x ∉ Q pid) ->
  w_str w = Ok (0, w) -> ~ ready w x -> ~ idle w x ->
  let w' := w_set_tasks (delete x (w_tasks w)) w in
  w_inv w' /\ wait_lists w' (upd_list Q x []) /\ (forall y, ready w' y <-> ready w y).
Proof.
  intros Hi [Hq Ha Hs Ho] Hx Hstr Hr Hd w'. destruct (retire_ok w x Hi Hstr Hr Hd) as (Hi' & Hr' & Hw').
  assert (forall pid c, c ∈ upd_list Q x [] pid -> c <> x /\ pid <> x) as Hne.
  { intros pid c. unfold upd_list. destruct (Z.eqb_spec pid x); [set_solver|]. intros Hc.
    split; [intros ->; by apply (Hx pid)|done]. }
  split; [done|]. split; [|done]. unfold w'. split; rewrite ?tasks_set.
  - intros pid u [Hp Hu]%lookup_delete_Some. eapply chain_frame; [|by apply Hq]. intros c Hc.
    rewrite lookup_delete_ne; [done|]. destruct (Hne pid c Hc). congruence.
  - intros pid c Hc. destruct (Hne pid c Hc). rewrite lookup_delete_ne by congruence. by eapply Ha.
  - intros pid c Hc. destruct (Hne pid c Hc), (Hs pid c Hc). split; [by apply Hw'|by rewrite Hr'].
  - done.
Qed.

(** The waiters of an exiting task, at the level of the scheduler. *)
Lemma exit_world w Q x t :
  w_inv w -> wait_lists w Q -> w_tasks w !! x = Some t -> (forall pid, x ∉ Q pid) -> ~ ready w x -> ~ idle w x ->
  exists w1 w2, w_ltr 0 w = Ok (tt, w1) /\ exit_waiters x w1 = Ok (tt, w2) /\
    let w3 := w_set_tasks (delete x (w_tasks w2)) w2 in
    w_inv w3 /\ wait_lists w3 (upd_list Q x []) /\ (forall y, ready w3 y <-> ready w y \/ y ∈ Q x) /\
    w_tasks w3 !! x = None.
Proof.
  intros Hi Hwl Ht Hx Hr Hd.
  pose proof (ltr_ok w 0 Hi ltac:(done)) as ([] & w1 & Eltr & Hi1 & Et & Hstr & Hr1 & Hw1 & Hd1)%wp_Ok.
  assert (wait_lists w1 Q) as Hwl1.
  { destruct Hwl as [Hq Ha Hs Ho]. split; rewrite ?Et; try done.
    intros pid c Hc. destruct (Hs pid c Hc). split; [by apply Hw1|by rewrite Hr1]. }
  assert (w_tasks w1 !! x = Some t) as Ht1 by (by rewrite Et).
  assert (length (Q x) < queue_fuel (w_tasks w1))%nat as Hfuel.
  { unfold queue_fuel. pose proof (chain_length _ _ _ (wl_queue _ _ Hwl1 x t Ht1)). lia. }
  pose proof (exit_waiters_loop x (Q x) (queue_fuel (w_tasks w1)) w1 Q t Hi1 Hwl1 Ht1 Hstr eq_refl Hfuel)
    as ([] & w2 & E2 & [Ri Rl Rr Rw Rs Rd Rt])%wp_Ok.
  exists w1, w2. split; [done|]. split.
  { unfold exit_waiters. by erewrite bind_Ok_eq. }
  destruct (wait_lists_delete w2 Q x Ri Rl Hx Rs) as (Hi3 & Hl3 & Hr3).
  - rewrite Rr, Hr1. intros [?|?]; [done|by apply (Hx x)].
  - intros Hid. by apply Hd, Hd1, Rd.
  - cbv zeta. split; [done|]. split; [done|]. split; [intros y; by rewrite Hr3, Rr, Hr1|].
    by rewrite tasks_set, lookup_delete_eq.
Qed.
End world.

(** ** Descriptors *)

(** The address of a control block survives the round trip through its descriptor. *)
Lemma desc_base_tss p d : 0 <= p < 2 ^ 32 -> desc_base (tss_descriptor p d) = p.
Proof.
  intros Hp. unfold desc_base, tss_descriptor. cbn [pBase0 pBase1 pBase2].
  assert (0 <= Z.shiftr p 24 < 2 ^ 8) as Hh.
  { rewrite Z.shiftr_div_pow2 by lia. split; [apply Z.div_pos; lia|apply Z.div_lt_upper_bound; lia]. }
  rewrite u32_small by (rewrite Z.shiftl_mul_pow2; lia).
  change 0xFFFF with (Z.ones 16). change 0xFF with (Z.ones 8).
  apply Z.bits_inj'. intros n Hn. rewrite !Z.lor_spec.
  destruct (Z.lt_ge_cases n 16) as [H16|H16].
  { rewrite !(Z.shiftl_spec_low _ _ n), Z.land_spec, Z.ones_spec_low, !orb_false_r, andb_true_r by lia. done. }
  rewrite (Z.land_spec p), (Z.ones_spec_high 16), andb_false_r by lia. cbn [orb].
  rewrite (Z.shiftl_spec _ 16), Z.land_spec, Z.shiftr_spec by lia. replace (n - 16 + 16) with n by lia.
  destruct (Z.lt_ge_cases n 24) as [H24|H24].
  - rewrite (Z.shiftl_spec_low _ _ n), Z.ones_spec_low, andb_true_r, orb_false_r by lia. done.
  - rewrite (Z.shiftl_spec _ 24), Z.shiftr_spec, Z.ones_spec_high, andb_false_r by lia. cbn [orb]. f_equal. lia.
Qed.

(** ** The exit of a process *)

Section exit.
Context {W : Type} `{TaskingLaws W}.
Context (kpt : Z).

(** Process [x], with the page directory at [D], can exit: its control block is the page
    at slot [k] of the kernel window, in the frame at [f]. *)
Record can_exit (p : proc W) (D x k f : Z) : Prop := mkCanExit {
  ce_mem : sys_ok kpt (p_mmu p);
  ce_space : exitable kpt (p_mmu p) D;
  ce_slots : at_least (slot_free kpt (p_mmu p)) 2;
  ce_gdt : exists d, p_gdt p !! Z.to_nat (Z.shiftr x 3) = Some d /\ desc_base d = kernelstart + 4096 * k;
  ce_slot : slot_maps kpt (p_mmu p) k f;
  ce_kpt : k <> KERN_PGT_SLOT
}.

Lemma release_tss_page_ok s k f : vm_wf kpt s -> phys_wf (frames s) -> slot_maps kpt s k f ->
  exists p, release_tss_page kpt (kernelstart + 4096 * k) s = Ok (tt, set_frames p s) /\
    freed (fun m => m = f / 4096) (frames s) p.
Proof.
  intros Hs Hf (Hk & Hp & <-). pose proof (pte_range kpt s k (vw_ok _ _ Hs)) as He.
  destruct (frame_index (pte kpt s k) He) as [Es Hn].
  destruct (release_frame_ok s (pte kpt s k / 4096) Hf Hn) as (p & Er & Hp').
  exists p. split.
  - unfold release_tss_page. rewrite <- (Z.add_0_r (kernelstart + 4096 * k)), window_slot by lia.
    erewrite bind_Ok_eq by (by apply vread_pt; [apply Hs|]). by rewrite Es.
  - by rewrite frame_mask_div, Z.div_mul by (done || lia).
Qed.

(** The state after the exit. *)
Record exited (p : proc W) (D x k f : Z) (Q : Z -> list Z) (p' : proc W) : Prop := mkExited {
  xd_inv : w_inv (p_world p');
  xd_lists : wait_lists (p_world p') (upd_list Q x []);
  xd_ready : forall y, ready (p_world p') y <-> ready (p_world p) y \/ y ∈ Q x;
  xd_task : w_tasks (p_world p') !! x = None;
  xd_gdt : p_gdt p' = <[Z.to_nat (Z.shiftr x 3) := zero_descriptor]> (p_gdt p);
  xd_free : forall m, 0 <= m -> (is_free (frames (p_mmu p')) m = true <->
    is_free (frames (p_mmu p)) m = true \/ space_frames (p_mmu p) D m \/ m = f / 4096);
  xd_words : forall pa, rd (pmem (p_mmu p')) pa = if pa =? kpt + 4 * k then 0 else rd (pmem (p_mmu p)) pa;
  xd_vm : vm_wf kpt (p_mmu p')
}.

Lemma exit_process_ok p D x k f Q t :
  can_exit p D x k f -> w_inv (p_world p) -> wait_lists (p_world p) Q -> w_str (p_world p) = Ok (x, p_world p) ->
  w_tasks (p_world p) !! x = Some t -> (forall pid, x ∉ Q pid) -> ~ ready (p_world p) x -> ~ idle (p_world p) x ->
  exists p', exit_process kpt D p = Ok (tt, p') /\ exited p D x k f Q p'.
Proof.
  intros [Hs Hex Hsl (d & Hd & Hb) Hk Hnk] Hi Hwl Hstr Ht Hx Hr Hidle.
  pose proof (so_vm _ _ Hs) as Hv. pose proof Hk as (Hkr & _).
  destruct (exit_memory_ok kpt (p_mmu p) D Hv (so_phys _ _ Hs) Hex Hsl) as (f1 & E1 & F1).
  destruct (release_tss_page_ok (set_frames f1 (p_mmu p)) k f (frames_vm kpt _ f1 Hv) (fr_wf _ _ _ F1) Hk) as (f2 & E2 & F2).
  destruct (exit_world (p_world p) Q x t Hi Hwl Ht Hx Hr Hidle) as (w1 & w2 & Eltr & Ewait & Hi3 & Hl3 & Hr3 & Ht3).
  set (s2 := set_frames f2 (p_mmu p)). assert (vm_wf kpt s2) as Hv2 by (by apply frames_vm).
  exists (mkProc (upd_pte kpt k 0 s2) (<[Z.to_nat (Z.shiftr x 3) := zero_descriptor]> (p_gdt p))
    (w_set_tasks (delete x (w_tasks w2)) w2)). split.
  - unfold exit_process, on_mmu, on_world, bind at 1. rewrite E1. unfold bind at 1. cbn [p_world p_mmu p_gdt].
    rewrite Hstr. unfold bind at 1. cbn [p_world p_mmu p_gdt]. rewrite Eltr. unfold bind at 1.
    unfold lookup_TSS_va, get_desc, bind at 1, bind at 1, gets, lift, ret. cbn [p_world p_mmu p_gdt]. rewrite Hd.
    cbn [of_option]. rewrite Hb. unfold bind at 1. cbn [p_world p_mmu p_gdt]. rewrite Ewait. unfold bind at 1.
    cbn [p_world p_mmu p_gdt]. rewrite E2. unfold bind at 1, put_desc, modify at 1. cbn [p_world p_mmu p_gdt].
    unfold bind at 1. cbn [p_world p_mmu p_gdt]. fold s2. change (set_frames f2 (set_frames f1 (p_mmu p))) with s2.
    by rewrite unmap_slot.
  - split; cbn [p_world p_mmu p_gdt]; try done.
    + intros m Hm. change (frames (upd_pte kpt k 0 s2)) with f2. rewrite (fr_free _ _ _ F2) by done.
      cbn [frames set_frames]. rewrite (fr_free _ _ _ F1) by done. tauto.
    + intros pa. unfold Virtual.upd_pte. cbn [pmem set_pmem]. by rewrite rd_wr.
    + by apply upd_wf.
Qed.
End exit.

(** ** Waiting for a process, along every interleaving *)

(** The processes inside [_waitpid], with the process they wait for. *)
Record wait_conf (W : Type) := mkWc { wc_p : proc W; wc_waits : gmap Z Z }.
Arguments mkWc {W}.
Arguments wc_p {W}.
Arguments wc_waits {W}.

Section steps.
Context {W : Type} `{TaskingLaws W}.
Context (kpt : Z).

(** The running process [x] may end: it waits for nobody and is not the idle task. *)
Definition may_end (c : wait_conf W) (x : Z) : Prop :=
  w_str (p_world (wc_p c)) = Ok (x, p_world (wc_p c)) /\ is_Some (w_tasks (p_world (wc_p c)) !! x) /\
  wc_waits c !! x = None /\ ~ ready (p_world (wc_p c)) x /\ ~ idle (p_world (wc_p c)) x.

Inductive wait_step : wait_conf W -> wait_conf W -> Prop :=
(** The running task calls [_waitpid] for a process that exists. *)
| ws_wait c me pid p' :
    w_str (p_world (wc_p c)) = Ok (me, p_world (wc_p c)) ->
    wakeable (p_world (wc_p c)) me -> ~ ready (p_world (wc_p c)) me -> wc_waits c !! me = None ->
    waitpid_wait pid (wc_p c) = Ok (true, p') ->
    wait_step c (mkWc p' (<[me := pid]> (wc_waits c)))
(** The running process exits. *)
| ws_exit c x D k f p' :
    may_end c x -> can_exit kpt (wc_p c) D x k f -> exit_process kpt D (wc_p c) = Ok (tt, p') ->
    wait_step c (mkWc p' (filter (fun e => e.2 <> x) (wc_waits c)))
(** The rest of the system runs and leaves the waiting tasks alone. *)
| ws_other c p' :
    w_inv (p_world p') ->
    (forall Q, wait_lists (p_world (wc_p c)) Q -> wait_lists (p_world p') Q) ->
    wait_step c (mkWc p' (wc_waits c)).

Definition wait_inv (c : wait_conf W) : Prop :=
  w_inv (p_world (wc_p c)) /\ exists Q, wait_lists (p_world (wc_p c)) Q /\
  forall y pid, wc_waits c !! y = Some pid <-> y ∈ Q pid.

(** What a successful [waitpid_wait] did. *)
Lemma waitpid_wait_inv pid (p p' : proc W) : waitpid_wait pid p = Ok (true, p') ->
  exists me t w0, w_str (p_world p) = Ok (me, w0) /\ w_tasks w0 !! pid = Some t /\
    (let! q := put_on (tss_waitqueue t) me in
     let! t := get_tss pid in
     put_tss pid (set_waitqueue q t)) w0 = Ok (tt, p_world p').
Proof.
  unfold waitpid_wait. intros (ptss & p1 & E1 & E2)%bind_Ok.
  assert (p1 = p) as ->.
  { unfold lookup_TSS_va, get_desc in E1. apply bind_Ok in E1 as (d & p2 & E1 & [= _ <-]).
    apply bind_Ok in E1 as (g & p3 & [= <- <-] & E1). by apply lift_Ok in E1 as [_ ->]. }
  destruct (negb (ptss =? 0)); [|done].
  apply bind_Ok in E2 as (me & p2 & Estr & E2). unfold on_world in Estr.
  destruct (w_str (p_world p)) as [[me' w0]|] eqn:Es; [|done]. injection Estr as -> <-.
  apply bind_Ok in E2 as (t & p3 & Et & E2). unfold on_world, get_tss, bind, gets, lift, TaskQueue.lookup_TSS in Et.
  cbn [p_world p_mmu p_gdt] in Et. destruct (w_tasks w0 !! pid) as [t'|] eqn:Ht; [|done]. cbn in Et. injection Et as <- <-.
  exists me, t', w0. do 2 (split; [done|]). revert E2. unfold bind, on_world. cbn [p_world p_mmu p_gdt].
  destruct (put_on (tss_waitqueue t') me w0) as [[q w1]|]; [|done]. cbn [p_world p_mmu p_gdt].
  destruct (get_tss pid w1) as [[t2 w2]|]; [|done]. cbn [p_world p_mmu p_gdt].
  destruct (put_tss pid (set_waitqueue q t2) w2) as [[[] w3]|]; [|done]. by intros [= <-].
Qed.

Lemma waits_upd (ws : gmap Z Z) Q me pid l :
  (forall y x, ws !! y = Some x <-> y ∈ Q x) -> ws !! me = None -> l = Q pid ++ [me] ->
  forall y x, <[me := pid]> ws !! y = Some x <-> y ∈ upd_list Q pid l x.
Proof.
  intros HQ Hme -> y x. unfold upd_list. destruct (decide (y = me)) as [->|Hy].
  - rewrite lookup_insert_eq. destruct (Z.eqb_spec x pid) as [->|Hx].
    + split; [set_solver|done].
    + rewrite <- HQ, Hme. split; [|done]. congruence.
  - rewrite lookup_insert_ne, HQ by done. destruct (Z.eqb_spec x pid) as [->|Hx]; [|done].
    rewrite elem_of_app, list_elem_of_singleton. tauto.
Qed.

Lemma waits_filter (ws : gmap Z Z) Q x :
  (forall y pid, ws !! y = Some pid <-> y ∈ Q pid) ->
  forall y pid, filter (fun e => e.2 <> x) ws !! y = Some pid <-> y ∈ upd_list Q x [] pid.
Proof.
  intros HQ y pid. rewrite map_lookup_filter_Some, HQ. cbn. unfold upd_list.
  destruct (Z.eqb_spec pid x) as [->|]; [|tauto]. split; [tauto|set_solver].
Qed.

(** The exit of a process from a state of the interleaving. *)
Lemma wait_exit c x D k f Q :
  w_inv (p_world (wc_p c)) -> wait_lists (p_world (wc_p c)) Q ->
  (forall y pid, wc_waits c !! y = Some pid <-> y ∈ Q pid) -> may_end c x -> can_exit kpt (wc_p c) D x k f ->
  exists p', exit_process kpt D (wc_p c) = Ok (tt, p') /\ exited kpt (wc_p c) D x k f Q p'.
Proof.
  intros Hi Hwl HQ (Hstr & [t Ht] & Hn & Hr & Hd) Hce. eapply exit_process_ok; try done.
  intros pid Hin. apply HQ in Hin. congruence.
Qed.

Lemma wait_step_inv c c' : wait_step c c' -> wait_inv c -> wait_inv c'.
Proof.
  intros Hst (Hi & Q & Hwl & HQ). destruct Hst as [c me pid p' Hstr Hwm Hrm Hn Hw|c x D k f p' Hm Hce He|c p' Hi' Hk].
  - destruct (waitpid_wait_inv pid _ _ Hw) as (me' & t & w0 & Es & Ht & Ew).
    rewrite Hstr in Es. injection Es as <- <-.
    pose proof (wait_lists_append (p_world (wc_p c)) Q me pid t Hi Hwl Ht Hwm Hrm) as Hwp.
    unfold wp in Hwp. rewrite Ew in Hwp. destruct Hwp as (Hi' & Hl' & _).
    { intros x Hx. apply HQ in Hx. congruence. }
    split; [done|]. eexists. split; [exact Hl'|]. cbn [wc_waits]. by apply waits_upd.
  - destruct (wait_exit c x D k f Q Hi Hwl HQ Hm Hce) as (p2 & E & Hx). rewrite He in E. injection E as <-.
    split; [apply Hx|]. exists (upd_list Q x []). split; [apply Hx|]. cbn [wc_waits]. by apply waits_filter.
  - split; [done|]. exists Q. split; [by apply Hk|done].
Qed.

Lemma wait_run p c : w_inv (p_world p) -> wait_lists (p_world p) (fun _ => []) ->
  rtc wait_step (mkWc p ∅) c -> wait_inv c.
Proof.
  intros Hi Hwl Hrtc. apply (rtc_ind_r (R := wait_step) wait_inv (mkWc p ∅)); [| |exact Hrtc].
  - split; [done|]. exists (fun _ => []). split; [done|]. intros y pid. cbn. rewrite lookup_empty. set_solver.
  - intros c1 c2 _ Hst. by apply wait_step_inv.
Qed.

(** After the exit there is no such process. *)
Lemma waitpid_gone x (p : proc W) d : p_gdt p !! Z.to_nat (Z.shiftr x 3) = Some d -> desc_base d = 0 ->
  _waitpid x p = Ok (u32 (-1), p).
Proof.
  intros Hd Hb. assert (lookup_TSS_va x p = Ok (0, p)) as E.
  { unfold lookup_TSS_va, get_desc, bind, gets, lift, ret. by rewrite Hd, <- Hb. }
  unfold _waitpid, waitpid_wait. unfold bind at 1 2. by rewrite E.
Qed.
End steps.

(** ** Theorems *)

(** The exit of a process: its memory and the frame of its control block are free, its
    descriptor is cleared, so that waiting for it fails, its control block is gone and
    exactly the tasks that waited for it are ready in addition to those that were. *)
Theorem exit_process_correct {W} `{TaskingLaws W} kpt (p : proc W) D x k f Q t :
  can_exit kpt p D x k f -> w_inv (p_world p) -> wait_lists (p_world p) Q ->
  w_str (p_world p) = Ok (x, p_world p) -> w_tasks (p_world p) !! x = Some t -> (forall pid, x ∉ Q pid) ->
  ~ ready (p_world p) x -> ~ idle (p_world p) x ->
  exists p', exit_process kpt D p = Ok (tt, p') /\ exited kpt p D x k f Q p' /\ _waitpid x p' = Ok (u32 (-1), p').
Proof.
  intros Hce Hi Hwl Hstr Ht Hx Hr Hd.
  destruct (exit_process_ok kpt p D x k f Q t Hce Hi Hwl Hstr Ht Hx Hr Hd) as (p' & E & Hp').
  exists p'. split; [done|]. split; [done|]. apply (waitpid_gone x p' zero_descriptor); [|done].
  rewrite (xd_gdt _ _ _ _ _ _ _ _ Hp'). apply list_lookup_insert_eq.
  destruct Hce as [_ _ _ (d & Hg & _) _ _]. by eapply lookup_lt_Some.
Qed.

(** C11: Along every interleaving of waits, exits and other activity, a process that called
    [_waitpid] for an existing process [pid] is on no run queue while it waits, [pid]
    still exists, and the exit of [pid] returns and makes it ready, together with exactly
    the other processes that wait for [pid]. *)
Theorem waitpid_exit_wakes {W} `{TaskingLaws W} kpt (p : proc W) c y pid :
  w_inv (p_world p) -> wait_lists (p_world p) (fun _ => []) -> rtc (wait_step kpt) (mkWc p ∅) c ->
  wc_waits c !! y = Some pid ->
  ~ ready (p_world (wc_p c)) y /\ is_Some (w_tasks (p_world (wc_p c)) !! pid) /\
  forall D k f, may_end c pid -> can_exit kpt (wc_p c) D pid k f ->
    exists p', exit_process kpt D (wc_p c) = Ok (tt, p') /\ ready (p_world p') y /\
      forall z, ready (p_world p') z <-> ready (p_world (wc_p c)) z \/ wc_waits c !! z = Some pid.
Proof.
  intros Hi Hwl Hrtc Hy. destruct (wait_run kpt p c Hi Hwl Hrtc) as (Hi' & Q & Hwl' & HQ).
  pose proof (proj1 (HQ y pid) Hy) as Hin. split; [by destruct (wl_sleep _ _ Hwl' pid y Hin)|].
  split; [by eapply (wl_alive _ _ Hwl')|]. intros D k f Hm Hce.
  destruct (wait_exit kpt c pid D k f Q Hi' Hwl' HQ Hm Hce) as (p' & E & Hx). exists p'. split; [done|].
  assert (forall z, ready (p_world p') z <-> ready (p_world (wc_p c)) z \/ wc_waits c !! z = Some pid) as Hr
    by (intros z; by rewrite (xd_ready _ _ _ _ _ _ _ _ Hx), HQ).
  split; [|done]. apply Hr. by right.
Qed.

(** *** An example

    Task 0x48 waits for process 0x58, whose control block is the page at slot 8 and whose
    address space is the one of [fork_mmu]; then 0x58 runs and exits. *)

Definition waiting_tasks (q : Z) : gmap Z quest_tss :=
  <[0x58 := set_waitqueue q zero_tss]> (<[0x48 := set_time 50 zero_tss]> sleepers_table).

Definition waiting_sched (q current : Z) : sched :=
  set_tasks (waiting_tasks q)
    (set_pcpus (<[0%nat := set_current_task current example_pc]> (s_pcpus example_sched)) example_sched).

Definition exit_mmu : mmu := upd_pte 0x1000 8 0x9003 fork_mmu.

Definition exit_gdt : list descriptor :=
  <[11%nat := tss_descriptor (kernelstart + 4096 * 8) zero_descriptor]> (replicate 256 zero_descriptor).

Definition waiting_proc (q current : Z) : proc sched := mkProc exit_mmu exit_gdt (waiting_sched q current).

Lemma waiting_wf q c : is_Some (waiting_tasks q !! c) ->
  sched_wf calm_env 0 (waiting_sched q c) (set_current_task c example_pc) [0%nat; 1%nat] [[0x28]; [0x30]].
Proof.
  intros Hc. destruct sleepers_wf as [Hp [] Hb Hr Ht]. split; [done| |done|done|].
  - split; try done. intros i v ts Hv Hts. two Hv; injection Hts as <-; (split; [|done]);
      (split; [done|]; split; [lia|]; eexists; split; [reflexivity|done]).
  - split; [done|]. split; [done|]. split; [by eexists|]. done.
Qed.

Lemma waiting_queue q c j x : is_Some (waiting_tasks q !! c) ->
  on_runqueue (waiting_sched q c) j x -> (j = 0%nat /\ x = 0x28) \/ (j = 1%nat /\ x = 0x30).
Proof.
  intros Hc (us & Hus & Hx)%(on_runqueue_rqs calm_env 0 _ _ _ _ _ _ (waiting_wf q c Hc)).
  two Hus; apply list_elem_of_singleton in Hx; auto.
Qed.

Lemma waiting_bound q c x : is_Some (waiting_tasks q !! c) -> x = 0x48 \/ x = 0x58 ->
  bound_here 0 (waiting_sched q c) x /\ ~ exists j, on_runqueue (waiting_sched q c) j x.
Proof.
  intros Hc Hx. split; [|intros (j & [[_ ?]|[_ ?]]%waiting_queue); [lia|lia|done]].
  split; [lia|]. destruct Hx as [-> | ->]; (eexists _, 0%nat, _; split; [reflexivity|];
    split; [done|]; split; [cbn; lia|]; do 3 (split; [reflexivity|]);
    intros j [[_ ?]|[_ ?]]%waiting_queue; [lia|lia|done]).
Qed.

#[local] Instance calm_scheduler : Scheduler sched := vcpu_scheduler calm_env 0.
#[local] Instance calm_laws : SchedulerLaws sched := vcpu_scheduler_laws calm_env 0 calm_clock.
#[local] Instance calm_register : TaskRegister sched := vcpu_task_register 0.
#[local] Instance calm_tasking : TaskingLaws sched := vcpu_tasking_laws calm_env 0 calm_clock.

Lemma waiting_lists q c l : is_Some (waiting_tasks q !! c) -> (q = 0 /\ l = []) \/ (q = 0x48 /\ l = [0x48]) ->
  wait_lists (waiting_sched q c) (upd_list (fun _ => []) 0x58 l).
Proof.
  intros Hc Hq. assert (forall pid x, x ∈ upd_list (fun _ => []) 0x58 l pid -> pid = 0x58 /\ x = 0x48) as Hin.
  { intros pid x. unfold upd_list. destruct (Z.eqb_spec pid 0x58) as [->|]; [|set_solver].
    destruct Hq as [[_ ->]|[_ ->]]; set_solver. }
  split.
  - intros pid t Ht. cbn in Ht. unfold waiting_tasks, sleepers_table in Ht.
    repeat (apply lookup_insert_Some in Ht as [[<- <-]|[? Ht]]); try done.
    destruct Hq as [[-> ->]|[-> ->]]; [done|]. split; [done|]. split; [lia|]. eexists. split; reflexivity.
  - intros pid x [-> _]%Hin. by eexists.
  - intros pid x [_ ->]%Hin. by apply waiting_bound; [|left].
  - by intros pid pid' x [-> _]%Hin [-> _]%Hin.
Qed.

Lemma exit_mmu_ok : sys_ok 0x1000 exit_mmu.
Proof. apply upd_sys; [apply fork_sys|done|lia]. Qed.

Lemma exit_can q c : can_exit 0x1000 (waiting_proc q c) 0x2000 0x58 8 0x9000.
Proof.
  split.
  - apply exit_mmu_ok.
  - apply (exitable_agree 0x1000 fork_mmu); [apply fork_exitable|]. by apply same_words_upd; [apply fork_sys|].
  - exists [1; 2]. split; [apply (bool_decide_unpack _); vm_compute; exact I|]. split; [reflexivity|]. repeat constructor; lia.
  - exists (tss_descriptor (kernelstart + 4096 * 8) zero_descriptor). split; [reflexivity|]. by apply desc_base_tss.
  - split; [lia|]. by split.
  - done.
Qed.

Lemma exit_process_correct_witness :
  exists p', exit_process 0x1000 0x2000 (waiting_proc 0x48 0x58) = Ok (tt, p') /\
    ready (p_world p') 0x48 /\ is_free (frames (p_mmu p')) 9 = true /\ _waitpid 0x58 p' = Ok (u32 (-1), p').
Proof.
  assert (is_Some (waiting_tasks 0x48 !! 0x58)) as Hc by (eexists; reflexivity).
  destruct (waiting_bound 0x48 0x58 0x58 Hc (or_intror eq_refl)) as [_ Hr].
  destruct (exit_process_correct 0x1000 (waiting_proc 0x48 0x58) 0x2000 0x58 8 0x9000
    (upd_list (fun _ => []) 0x58 [0x48]) (set_waitqueue 0x48 zero_tss)) as (p' & E & Hx & Hgone).
  - apply exit_can.
  - eexists _, _, _. exact (waiting_wf 0x48 0x58 Hc).
  - apply waiting_lists; [exact Hc|]. right. split; reflexivity.
  - reflexivity.
  - reflexivity.
  - intros pid. unfold upd_list. destruct (pid =? 0x58); set_solver.
  - exact Hr.
  - intros [Hi|(q & Hq & Hi)]; [discriminate Hi|]. injection Hq as <-. discriminate Hi.
  - exists p'. split; [exact E|]. split; [|split; [|exact Hgone]].
    + apply (xd_ready _ _ _ _ _ _ _ _ Hx). right. rewrite upd_list_same. by apply list_elem_of_singleton.
    + apply (xd_free _ _ _ _ _ _ _ _ Hx); [lia|]. right. right. reflexivity.
Defined.

Lemma waitpid_exit_wakes_witness :
  exists p', exit_process 0x1000 0x2000 (waiting_proc 0x48 0x58) = Ok (tt, p') /\ ready (p_world p') 0x48.
Proof.
  assert (forall q, is_Some (waiting_tasks q !! 0x58)) as Hc by (intros q; eexists; reflexivity).
  assert (forall q, is_Some (waiting_tasks q !! 0x48)) as Hc' by (intros q; eexists; reflexivity).
  destruct (waiting_bound 0 0x48 0x48 (Hc' 0) (or_introl eq_refl)) as [Hw Hr].
  destruct (waiting_bound 0x48 0x58 0x58 (Hc 0x48) (or_intror eq_refl)) as [_ Hr'].
  destruct (waitpid_exit_wakes 0x1000 (waiting_proc 0 0x48) (mkWc (waiting_proc 0x48 0x58) {[0x48 := 0x58]}) 0x48 0x58)
    as (_ & _ & Hexit).
  - eexists _, _, _. exact (waiting_wf 0 0x48 (Hc' 0)).
  - apply (wait_lists_ext _ (upd_list (fun _ => []) 0x58 [])); [intros pid; unfold upd_list; by destruct (pid =? 0x58)|].
    apply waiting_lists; [apply Hc'|]. by left.
  - apply (rtc_l _ _ (mkWc (waiting_proc 0x48 0x48) {[0x48 := 0x58]})).
    + apply (ws_wait 0x1000 (mkWc (waiting_proc 0 0x48) ∅) 0x48 0x58); try done. 
    + apply rtc_once. refine (ws_other 0x1000 _ (waiting_proc 0x48 0x58) _ _).
      * eexists _, _, _. exact (waiting_wf 0x48 0x58 (Hc 0x48)).
      * intros Q [Hq Ha Hs Ho]. split; [exact Hq|exact Ha| |exact Ho]. intros pid x Hx. exact (Hs pid x Hx).
  - reflexivity.
  - destruct (Hexit 0x2000 8 0x9000) as (p' & E & Hy & _).
    + split; [reflexivity|]. split; [apply Hc|]. split; [reflexivity|]. split; [exact Hr'|].
      intros [Hi|(q & Hq & Hi)]; [discriminate Hi|]. injection Hq as <-. discriminate Hi.
    + apply exit_can.
    + exists p'. split; [exact E|exact Hy].
Defined.

(** ** Arguments that are not checked *)

(** The process number of [_waitpid] comes from the caller; the 256 descriptors of the
    table end at 2048. *)
Lemma waitpid_outside_table {W} `{Scheduler W} pid (p : proc W) :
  length (p_gdt p) = 256%nat -> 2048 <= pid -> _waitpid pid p = Err OutOfBounds.
Proof.
  intros Hl Hp. unfold _waitpid, waitpid_wait, lookup_TSS_va, get_desc, bind, gets, lift.
  rewrite lookup_ge_None_2; [done|]. rewrite Z.shiftr_div_pow2 by lia. change (2 ^ 3) with 8.
  assert (256 <= pid / 8) by (apply Z.div_le_lower_bound; lia). lia.
Qed.

(** So do the parameters of [_sched_setparam]: a window of no mandatory instances divides
    by zero in the kernel. *)
Lemma setparam_divides {W} `{Scheduler W} pid C T k (p : proc W) d :
  p_gdt p !! Z.to_nat (Z.shiftr pid 3) = Some d -> desc_base d <> 0 ->
  _sched_setparam pid (mkParam (-1) C T 0 k) p = Err DivideError.
Proof.
  intros Hd Hb. unfold _sched_setparam, setparam_set, lookup_TSS_va, get_desc, bind, gets, lift, ret.
  rewrite Hd. cbn [of_option]. by rewrite (proj2 (Z.eqb_neq _ _)).
Qed.

(** With valid parameters the priority is set. *)
Lemma setparam_value prio C T m k : - 2 ^ 31 <= k * T < 2 ^ 31 -> m <> 0 -> m <> -1 ->
  setparam_priority (mkParam prio C T m k) = Ok (u32 (if prio =? -1 then Z.quot (k * T) m else prio)).
Proof.
  intros Hr Hm Hm1. unfold setparam_priority, int_div. cbn [sched_priority sp_k sp_T sp_m].
  destruct (prio =? -1); [|done]. rewrite s32_small by done. rewrite (proj2 (Z.eqb_neq m 0)), (proj2 (Z.eqb_neq m (-1))) by done.
  by rewrite andb_false_r.
Qed.
