(* ===== verification/ForkThm.v ===== *)
(** * What fork gives the child

    [fork_child] (interrupt_handler.c, [_fork] and [duplicate_TSS] up to the wake-up of the
    child): the child has an address space of its own, equal to the parent's except that
    its kernel stack returns to the program point the parent chose, a control block with
    the registers of the parent, and a descriptor through which that block is found. *)

From Stdlib Require Import ZArith Lia.
From S2P Require Import Prelude TaskQueue Physical Virtual VirtualThm Clone CloneThm Exit.
From S2P Require Import VcpuSched SchedTheorems Waitqueue Sleep Semaphore Process ProcessThm.
From stdpp Require Import base gmap sets fin_sets numbers strings list.
Local Open Scope Z_scope.

Section memory.
Context (kpt : Z).
Notation pte := (pte kpt).
Notation upd_pte := (upd_pte kpt).
Notation vm_wf := (vm_wf kpt).
Notation sys_ok := (sys_ok kpt).
Notation space_ok := (space_ok kpt).
Notation slot_free := (slot_free kpt).
Notation ext := (ext kpt).

(** ** The address space of the child *)

Lemma child_has_table s s' d D nd ND n i : sys_ok s -> slot_maps kpt s d D -> cloning_dir kpt s D nd ND n 1024 s' ->
  0 <= i < 1024 -> shared i = false -> has_table s' ND i = has_table s D i.
Proof.
  intros Hs Hd Hc Hi Hsh. destruct (cd_done _ _ _ _ _ _ _ _ Hc i Hi) as [Ha _ He Hf _ _].
  unfold has_table at 1. rewrite Hsh. cbn [negb]. rewrite andb_true_r. destruct (has_table s D i) eqn:Hh.
  - destruct (Hf eq_refl) as [(HNa & HNr & _) _]. pose proof Hh as [Hp _]%andb_true_iff.
    destruct (entry_flags (rd (pmem s) (D + 4 * i)) (table_of s' ND i) HNa ltac:(lia)) as [E _]. by rewrite He, E.
  - unfold has_table in Hh. rewrite Hsh, andb_true_r in Hh. by rewrite Ha.
Qed.

(** The child's address space is well formed: it can be cloned in turn. *)
Lemma child_space_ok s s' d D nd ND n : sys_ok s -> slot_maps kpt s d D -> space_ok s D ->
  fresh_frame kpt s s' ND -> cloning_dir kpt s D nd ND n 1024 s' -> space_ok s' ND.
Proof.
  intros Hs Hd Hsp (HNa & HNr & _ & HNt & HNk) Hc. split; [by split|]. intros i Hi Hh.
  assert (shared i = false) as Hsh by (apply andb_true_iff in Hh as [_ ?]; by apply negb_true_iff).
  rewrite (child_has_table s s' d D nd ND n) in Hh by done. pose proof Hh as [Hp _]%andb_true_iff.
  destruct (cd_done _ _ _ _ _ _ _ _ Hc i Hi) as [_ _ He Hf Ht _]. specialize (Ht Hh).
  destruct (Hf Hh) as [(HTa & HTr & _ & HTt & HTk) _]. destruct (proj2 Hsp i Hi Hh) as [Hb _]. split.
  - rewrite He by done. by rewrite (proj2 (entry_flags (rd (pmem s) (D + 4 * i)) _ HTa ltac:(lia))).
  - split; [by split|]. intros k Hk Hpk.
    destruct (pt_present (rd (pmem s) (table_of s D i + 4 * k))) eqn:Hpt.
    + destruct (cloned_page _ _ _ _ _ k _ Ht Hk Hpt) as (P & E & (HPa & HPr & _ & HPt & HPk) & _).
      rewrite E. unfold Clone.in_use. replace (page_of _) with P; [done|]. symmetry. by apply entry_split; [|lia].
    + pose proof (tc_entry _ _ _ _ _ _ Ht k Hk) as Hen. unfold entry_cloned in Hen. rewrite Hpt in Hen.
      by rewrite Hen in Hpk.
Qed.

Lemma forked_space s s0 s' s1 d D nd ND n : forked kpt s s0 s' s1 d D nd ND n -> space_ok s1 ND.
Proof.
  intros [E0 Hs0 Hm0 Hsp0 Hnd HN Hc Hw0 Hw Ef Hext].
  pose proof (child_space_ok s0 s' d D nd ND n Hs0 Hm0 Hsp0 HN Hc) as Hsp.
  pose proof HN as (HNa & HNr & _).
  apply (space_ok_agree kpt s' s1); try done; [|lia|by apply same_words_used|by rewrite Ef].
  apply so_vm, (ex_sys _ _ _ (cd_ext _ _ _ _ _ _ _ _ Hc)).
Qed.

(** ** The word on the child's stack *)

Lemma user_has_table s D va f : user_address va -> walk (pmem s) D va = SmallPage f -> has_table s D (va / 2 ^ 22) = true.
Proof.
  intros [_ Hush] Hwalk. unfold has_table. rewrite Hush, andb_true_r. destruct (pt_present _) eqn:Hp; [done|].
  by rewrite walk_no_pde in Hwalk.
Qed.

Lemma get_frame_user s d D va f :
  vm_wf s -> space_ok s D -> slot_maps kpt s d D -> at_least (slot_free s) 1 -> user_address va ->
  walk (pmem s) D va = SmallPage f ->
  pgdir_get_frame kpt (mkPgdir D (kernelstart + 4096 * d)) (Z.land va (u32 (Z.lnot 0xFFF))) s = Ok (f, s).
Proof.
  intros Hs Hsp Hd Hsl Hu Hwalk. pose proof Hu as [Hr _]. pose proof (user_has_table s D va f Hu Hwalk) as Hh.
  pose proof (pgdir_i_range va Hr) as Hi. pose proof (page_index va) as Hj.
  change 0xFFF with (PAGE_SIZE - 1). rewrite VirtualThm.page_of by done.
  rewrite (pgdir_get_frame_ok kpt s); cbn [dir_pa dir_va].
  - by rewrite walk_page, Hwalk.
  - done.
  - destruct (at_least_one _ _ Hsl) as (x & Hx). by exists x.
  - exists d. destruct Hd as (? & Hp1 & Hl1). split_and!; (done || lia).
  - pose proof (Z.div_mod va 4096 ltac:(lia)). pose proof (Z.mod_pos_bound va 4096 ltac:(lia)). lia.
  - assert (va / 4096 * 4096 / 2 ^ 22 = va / 2 ^ 22) as ->
      by (change (2 ^ 22) with (4096 * 1024); rewrite <- !Z.div_div, Z.div_mul by lia; done).
    rewrite Z.div_mul by lia. intros x Hx _ E.
    destruct (proj2 Hsp _ Hi Hh) as [_ [[_ Hne] _]]. apply Hne. destruct (table_of_aligned kpt s D (va / 2 ^ 22) Hs).
    apply (f_equal (fun x => x / 4096)) in E. by rewrite !frame_word in E by (done || apply (vm_kpt kpt s (vw_ok _ _ Hs))).
Qed.

(** The index of the word at [esp] in its page. *)
Lemma word_index esp : esp mod 4 = 0 ->
  0 <= Z.shiftr (la_offset esp) 2 < 1024 /\ 4 * Z.shiftr (la_offset esp) 2 = esp mod 4096.
Proof.
  intros Hesp. rewrite la_offset_mod, Z.shiftr_div_pow2 by lia. change (2 ^ 2) with 4.
  pose proof (Z.mod_pos_bound esp 4096 ltac:(lia)).
  assert ((esp mod 4096) mod 4 = 0) as Hm.
  { change 4096 with (4 * 1024). rewrite Z.rem_mul_r, Hesp, Z.add_0_l, Z.mul_comm by lia. apply Z.mod_mul. lia. }
  pose proof (Z.div_mod (esp mod 4096) 4 ltac:(lia)). lia.
Qed.

(** Writing the word at [esp] in the space of [D], given the frame of its page. *)
Lemma set_word_ok s D esp eip f :
  vm_wf s -> D mod 4096 = 0 -> 0 <= D < 2 ^ 32 -> at_least (slot_free s) 2 -> esp mod 4 = 0 -> 0 <= eip < 2 ^ 32 ->
  f mod 4096 = 0 -> 0 <= f < 2 ^ 32 -> f / 4096 <> kpt / 4096 ->
  (forall a, let s1 := upd_pte a (Z.lor D 3) s in
     0 <= a < 1024 -> pte s a = 0 -> vm_wf s1 -> slot_maps kpt s1 a D -> at_least (slot_free s1) 1 ->
     pgdir_get_frame kpt (mkPgdir D (kernelstart + 4096 * a)) (Z.land esp (u32 (Z.lnot 0xFFF))) s1 = Ok (f, s1)) ->
  exists s', set_child_eip kpt eip esp D s = Ok (tt, s') /\ vm_wf s' /\ frames s' = frames s /\
    forall pa, rd (pmem s') pa = if pa =? f + esp mod 4096 then eip else rd (pmem s) pa.
Proof.
  intros Hs HDal HDr Hsl Hesp Heip Hfal Hfr Hfk Hget.
  destruct (map_word kpt s 1 D Hs Hsl HDr) as (a & Ea & Ha & Ha0 & Hs1 & Hm1 & Hsl1).
  assert (page_of D = D) as HpD by (unfold page_of; pose proof (Z.div_mod D 4096 ltac:(lia)); lia).
  rewrite HpD in Hm1. specialize (Hget a Ha Ha0 Hs1 Hm1 Hsl1). set (s1 := upd_pte a (Z.lor D 3) s) in *.
  destruct (map_word kpt s1 0 f Hs1 Hsl1 Hfr) as (b & Eb & Hb & Hb0 & Hs2 & Hm2 & _).
  assert (page_of f = f) as Hpf by (unfold page_of; pose proof (Z.div_mod f 4096 ltac:(lia)); lia).
  rewrite Hpf in Hm2. set (s2 := upd_pte b (Z.lor f 3) s1) in *.
  destruct (word_index esp Hesp) as [Hk Ek]. set (k := Z.shiftr (la_offset esp) 2) in *.
  pose proof (write_slot kpt s2 b f k eip Hs2 Hm2 Hfk Hk) as Ewr.
  assert (vm_wf (poke (f + 4 * k) eip s2)) as Hs3 by (apply poke_vm; [done| |done]; by rewrite frame_word).
  assert (b <> a) as Hba.
  { intros ->. destruct Hm1 as (_ & Hp & _). by rewrite Hb0 in Hp. }
  assert (forall x s0, pte s0 x = 0 -> vm_wf s0 -> x <> KERN_PGT_SLOT) as Hnk.
  { intros x s0 Hx Hv ->. by apply (pte_self kpt s0 (vw_ok _ _ Hv)). }
  destruct (unmap_two kpt _ a b Hs3 Ha Hb (Hnk a s Ha0 Hs) (Hnk b s1 Hb0 Hs1)) as (s4 & E4 & Hs4 & Hf4 & Hr4).
  exists s4. split; [|split; [done|split; [by rewrite Hf4|]]].
  - unfold set_child_eip. erewrite bind_Ok_eq by exact Ea. rewrite (proj2 (Z.eqb_neq _ 0)) by (unfold kernelstart; lia).
    erewrite bind_Ok_eq by exact Hget. erewrite bind_Ok_eq by exact Eb.
    rewrite (proj2 (Z.eqb_neq _ 0)) by (unfold kernelstart; lia). fold k. by erewrite bind_Ok_eq by exact Ewr.
  - intros pa. rewrite <- Ek, Hr4. destruct (vm_kpt kpt s (vw_ok _ _ Hs)) as [Hkal _].
    assert (forall x, 0 <= x < 1024 -> kpt + 4 * x =? f + 4 * k = false) as Hne.
    { intros x Hx. apply Z.eqb_neq. intros E. apply (f_equal (fun x => x / 4096)) in E. by rewrite !frame_word in E. }
    destruct (Z.eqb_spec pa (kpt + 4 * a)) as [->|Hpa]; [cbn [orb]; rewrite Hne by done; by rewrite <- Ha0|].
    destruct (Z.eqb_spec pa (kpt + 4 * b)) as [->|Hpb]; cbn [orb].
    + rewrite Hne by done. unfold s1 in Hb0. rewrite pte_upd, (proj2 (Z.eqb_neq _ _)) in Hb0 by done. by rewrite <- Hb0.
    + unfold poke. cbn [pmem set_pmem]. rewrite rd_wr. unfold s2, s1. by rewrite !rd_upd.
Qed.

Lemma set_child_eip_ok s D esp eip f :
  vm_wf s -> D mod 4096 = 0 -> 0 <= D < 2 ^ 32 -> space_ok s D -> at_least (slot_free s) 2 ->
  user_address esp -> esp mod 4 = 0 -> 0 <= eip < 2 ^ 32 -> walk (pmem s) D esp = SmallPage f ->
  exists s', set_child_eip kpt eip esp D s = Ok (tt, s') /\ vm_wf s' /\ frames s' = frames s /\
    forall pa, rd (pmem s') pa = if pa =? f + esp mod 4096 then eip else rd (pmem s) pa.
Proof.
  intros Hs HDal HDr Hsp Hsl Hu Hesp Heip Hwalk.
  destruct (walk_page_in_use kpt s D Hs Hsp esp f Hu Hwalk) as [Hfal [Hff Hfk]].
  pose proof (walk_frame_range (pmem s) D esp (vo_words _ _ (vw_ok _ _ Hs))) as Hfr. rewrite Hwalk in Hfr.
  destruct Hfr as (n & _ & Hf0 & Hf1). apply set_word_ok; try done; try lia. intros a s1 Ha Ha0 Hs1 Hm1 Hsl1.
  assert (same_words kpt s s1) as Hw by (by apply same_words_upd).
  apply get_frame_user; try done.
  - apply (space_ok_agree kpt s s1); try done; [lia|by apply same_words_used].
  - rewrite (walk_agree kpt s s1); try done; [lia|by apply same_words_used].
Qed.

(** A user page of the child is neither its directory nor one of its tables. *)
Lemma forked_page s s0 s' s1 d D nd ND n va f : forked kpt s s0 s' s1 d D nd ND n -> user_address va ->
  walk (pmem s1) ND va = SmallPage f ->
  f / 4096 <> ND / 4096 /\
  forall i, 0 <= i < 1024 -> has_table s1 ND i = true -> f / 4096 <> table_of s1 ND i / 4096.
Proof.
  intros [E0 Hs0 Hm0 Hsp0 Hnd HN Hc Hw0 Hw Ef Hext] Hu Hwalk.
  pose proof (child_space_ok s0 s' d D nd ND n Hs0 Hm0 Hsp0 HN Hc) as Hsp.
  pose proof (so_vm _ _ (ex_sys _ _ _ (cd_ext _ _ _ _ _ _ _ _ Hc))) as Hv.
  pose proof HN as (HNa & HNr & _). pose proof (same_words_used kpt s' s1 Hw) as Hw'.
  rewrite (walk_agree kpt s' s1) in Hwalk; try done; [|lia].
  pose proof (clone_walk kpt s0 s' d D nd ND n Hs0 Hm0 Hsp0 Hnd Hc va Hu) as Hcw. cbv zeta in Hcw.
  pose proof (pgdir_i_range va (proj1 Hu)) as Hi. pose proof (page_index va) as Hj.
  destruct (has_page s0 D (va / 2 ^ 22) ((va / 4096) mod 1024)) eqn:Hp; destruct Hcw as [Ew _]; [|congruence].
  assert (f / 4096 = frame_number s' ND (va / 2 ^ 22) ((va / 4096) mod 1024)) as ->.
  { rewrite Ew in Hwalk. injection Hwalk as <-. unfold page_of, frame_number. by rewrite Z.div_mul by lia. }
  split.
  - destruct (cd_done _ _ _ _ _ _ _ _ Hc _ Hi) as [_ _ _ _ _ Hav]. by apply Hav.
  - intros i Hir Hh. destruct (has_table_agree kpt s' s1 ND HNa (proj1 HNr) Hsp Hw' i Hir) as (Eh & -> & _).
    rewrite Eh in Hh. assert (shared i = false) as Hsh by (apply andb_true_iff in Hh as [_ ?]; by apply negb_true_iff).
    rewrite (child_has_table s0 s' d D nd ND n) in Hh by done.
    by apply (cd_tables _ _ _ _ _ _ _ _ Hc).
Qed.

(** A write to a word of another frame than the directory and its tables. *)
Lemma walk_poked s s' D F va : vm_wf s -> D mod 4096 = 0 ->
  (forall i, 0 <= i < 1024 -> has_table s D i = true -> pd_page_size (rd (pmem s) (D + 4 * i)) = false) ->
  (forall pa, pa / 4096 <> F / 4096 -> rd (pmem s') pa = rd (pmem s) pa) ->
  F / 4096 <> D / 4096 -> (forall i, 0 <= i < 1024 -> has_table s D i = true -> F / 4096 <> table_of s D i / 4096) ->
  user_address va -> walk (pmem s') D va = walk (pmem s) D va.
Proof.
  intros Hs HDal Hbig Hrest HFD HFT [Hr Hush]. pose proof (pgdir_i_range va Hr) as Hi. pose proof (page_index va) as Hj.
  assert (rd (pmem s') (D + 4 * (va / 2 ^ 22)) = rd (pmem s) (D + 4 * (va / 2 ^ 22))) as E.
  { apply Hrest. by rewrite frame_word. }
  destruct (pt_present (rd (pmem s) (D + 4 * (va / 2 ^ 22)))) eqn:Hp.
  - assert (has_table s D (va / 2 ^ 22) = true) as Hh by (unfold has_table; by rewrite Hp, Hush).
    pose proof (Hbig _ Hi Hh) as Hb. rewrite (walk_table (pmem s') _ _ _ E), (walk_table (pmem s) _ _ _ eq_refl) by done.
    change (page_of (rd (pmem s) (D + 4 * (va / 2 ^ 22)))) with (table_of s D (va / 2 ^ 22)).
    destruct (table_of_aligned kpt s D (va / 2 ^ 22) Hs).
    by rewrite Hrest by (rewrite frame_word by done; by apply not_eq_sym, HFT).
  - by rewrite !walk_no_pde by (done || by rewrite E).
Qed.

Lemma new_tss_page_ok s m : sys_ok s -> at_least (slot_free s) (S m) -> at_least (frame_free s) 1 ->
  exists F k s', new_tss_page kpt s = Ok (kernelstart + 4096 * k, s') /\
    0 <= k < 1024 /\ k <> KERN_PGT_SLOT /\ pte s k = 0 /\ fresh_frame kpt s s' F /\
    sys_ok (upd_pte k (Z.lor F 3) s) /\ ext (upd_pte k (Z.lor F 3) s) s' /\
    at_least (slot_free (upd_pte k (Z.lor F 3) s)) m.
Proof.
  intros Hs Hsl Hfr. destruct (fresh_page_ok kpt s 0 m Hs Hsl Hfr) as (N & nt & s1 & s2 & s3 & Ealloc & Emap & Eclear &
    Hnt & Hne & Hnt0 & HN & Hbase & Hext & _ & _ & Hsl2 & _).
  exists N, nt, s3. split_and!; try done; try lia. pose proof HN as (HNal & HNr & _).
  assert (u32 (N + 3) = Z.lor N 3) as E3.
  { destruct (mapped_entry N HNal HNr) as (Hr & _ & _). rewrite lor_3 in * by done. by apply u32_small. }
  unfold new_tss_page. erewrite bind_Ok_eq by exact Ealloc. rewrite E3. erewrite bind_Ok_eq by exact Emap.
  by erewrite bind_Ok_eq by exact Eclear.
Qed.

(** From [s] to [s'] a process is forked from the address space at [D]: the child's is at
    [ND] and its control block is the frame at [F], mapped at slot [k].  What was in use
    is as before, but for that slot. *)
Record fork_image (s : mmu) (D esp eip : Z) (s' : mmu) (ND F k : Z) : Prop := mkForkImage {
  fi_ext : ext (upd_pte k (Z.lor F 3) s) s';
  fi_slot : slot_free s k;
  fi_tss : fresh_frame kpt s s' F;
  fi_dir : fresh_frame kpt s s' ND;
  fi_user : forall va, user_address va ->
    match walk (pmem s) D va with
    | NotPresent => walk (pmem s') ND va = NotPresent
    | SmallPage f => exists f', walk (pmem s') ND va = SmallPage f' /\ fresh_frame kpt s s' f' /\
        forall j, 0 <= j < 1024 -> rd (pmem s') (f' + 4 * j) =
          if (va / 4096 =? esp / 4096) && (4 * j =? esp mod 4096) then eip else rd (pmem s) (f + 4 * j)
    | BigPage _ => False
    end;
  fi_kernel : forall va, 0 <= va < 2 ^ 32 -> shared (va / 2 ^ 22) = true ->
    walk (pmem s') ND va = walk (pmem s') D va;
  fi_parent : forall va, user_address va -> walk (pmem s') D va = walk (pmem s) D va
}.

Lemma walk_same_page m D va va' : va / 4096 = va' / 4096 -> walk m D va = walk m D va'.
Proof. intros E. by rewrite <- (walk_page m D va), E, walk_page. Qed.

Section space.
Context (s s0 s1' s1 s3 s4 : mmu) (d D nd ND F k esp eip fs : Z) (n : nat).
Context (Hs : sys_ok s) (HDal : D mod 4096 = 0) (HDr : 0 <= D < 2 ^ 32) (Hsp : space_ok s D).
Context (Hfk : forked kpt s s0 s1' s1 d D nd ND n).
Context (Hk : 0 <= k < 1024) (Hk0 : pte s1 k = 0) (HF : fresh_frame kpt s1 s3 F).
Context (Hext : ext (upd_pte k (Z.lor F 3) s1) s3).
Context (Hesp : user_address esp) (Hfs : walk (pmem s1) ND esp = SmallPage fs) (Hfsf : fresh_frame kpt s s1 fs).
Context (Hv4 : vm_wf s4) (Hf4 : frames s4 = frames s3).
Context (Hr4 : forall pa, rd (pmem s4) pa = if pa =? fs + esp mod 4096 then eip else rd (pmem s3) pa).

Lemma stack_word : (fs + esp mod 4096) / 4096 = fs / 4096.
Proof using Hfsf.
  destruct Hfsf as (Ha & _). pose proof (Z.mod_pos_bound esp 4096 ltac:(lia)). pose proof (Z.div_mod fs 4096 ltac:(lia)).
  symmetry. apply (Z.div_unique_pos _ _ _ (esp mod 4096)); lia.
Qed.

Lemma other_word pa : pa / 4096 <> fs / 4096 -> rd (pmem s4) pa = rd (pmem s3) pa.
Proof using Hfsf Hr4. intros Hne. rewrite Hr4, (proj2 (Z.eqb_neq _ _)); [done|]. intros ->. by rewrite stack_word in Hne. Qed.

Lemma fork_pte i : 0 <= i < 1024 -> pte s1 i = pte s i.
Proof using Hs Hfk. intros Hi. apply (ext_pte kpt s s1); [done|apply Hfk|done]. Qed.

Lemma used_kept m : 0 <= m -> is_free (frames s1) m = false -> is_free (frames s4) m = false.
Proof using Hext Hf4.
  intros Hm E. rewrite Hf4. destruct (is_free (frames s3) m) eqn:E'; [|done].
  apply (ex_free _ _ _ Hext) in E'; [|done]. change (is_free (frames s1) m = true) in E'. congruence.
Qed.

Lemma fresh_kept P : fresh_frame kpt s s1 P -> fresh_frame kpt s s4 P.
Proof using Hext Hf4.
  intros (Ha & Hr & Hf & Ht & Hk'). split_and!; try done; try lia. apply used_kept; [apply div_nonneg; lia|done].
Qed.

Lemma space_ext : ext (upd_pte k (Z.lor F 3) s) s4.
Proof using All.
  pose proof (fk_ext _ _ _ _ _ _ _ _ _ _ Hfk) as He. split.
  - destruct (ex_sys _ _ _ Hext) as [_ Hp Hkf]. split; rewrite ?Hf4; done.
  - rewrite Hf4, (ex_limit _ _ _ Hext). apply He.
  - intros m Hm. rewrite Hf4. intros E. apply (ex_free _ _ _ Hext) in E; [|done]. by apply (ex_free _ _ _ He).
  - intros pa H0 Hpa. change (is_free (frames s) (pa / 4096) = false) in Hpa.
    rewrite other_word; [|destruct Hfsf as (_ & _ & Hff & _); congruence].
    rewrite (ex_mem _ _ _ Hext); [|done|].
    + destruct (decide (pa = kpt + 4 * k)) as [->|Hne].
      * unfold Virtual.upd_pte. cbn [pmem set_pmem]. by rewrite !rd_wr, Z.eqb_refl.
      * rewrite !rd_upd by done. by apply (ex_mem _ _ _ He).
    + change (is_free (frames s1) (pa / 4096) = false). destruct (is_free (frames s1) (pa / 4096)) eqn:E; [|done].
      apply (ex_free _ _ _ He) in E; [congruence|by apply div_nonneg].
Qed.

Lemma used_words : same_used kpt s1 s3.
Proof using Hext Hk Hfk.
  pose proof (ex_sys _ _ _ (fk_ext _ _ _ _ _ _ _ _ _ _ Hfk)) as Hs1. intros T j HT H0 [Hf Hne] Hj.
  rewrite (ex_mem _ _ _ Hext); [|lia|by rewrite frame_word]. apply upd_word; try done. apply Hs1.
Qed.

Lemma child_walk va : user_address va -> walk (pmem s4) ND va = walk (pmem s1) ND va.
Proof using All.
  intros Hu. pose proof (ex_sys _ _ _ (fk_ext _ _ _ _ _ _ _ _ _ _ Hfk)) as Hs1.
  pose proof (forked_space _ _ _ _ _ _ _ _ _ Hfk) as HspN.
  destruct (fk_fresh _ _ _ _ _ _ _ _ _ _ Hfk) as (HNa & HNr & _).
  destruct (forked_page _ _ _ _ _ _ _ _ _ esp fs Hfk Hesp Hfs) as [HfN HfT].
  rewrite <- (walk_agree kpt s1 s3 ND (so_vm _ _ Hs1) HNa (proj1 HNr) HspN used_words va Hu).
  apply (walk_poked s3 s4 ND fs); try done.
  - apply so_vm, (ex_sys _ _ _ Hext).
  - intros i Hi. destruct (has_table_agree kpt s1 s3 ND HNa (proj1 HNr) HspN used_words i Hi) as (-> & _ & ->).
    intros Hh. by destruct (proj2 HspN i Hi Hh).
  - apply other_word.
  - intros i Hi. destruct (has_table_agree kpt s1 s3 ND HNa (proj1 HNr) HspN used_words i Hi) as (-> & -> & _). by apply HfT.
Qed.

Lemma space_user va : clone_of kpt s D s1 ND -> user_address va ->
  match walk (pmem s) D va with
  | NotPresent => walk (pmem s4) ND va = NotPresent
  | SmallPage f => exists f', walk (pmem s4) ND va = SmallPage f' /\ fresh_frame kpt s s4 f' /\
      forall j, 0 <= j < 1024 -> rd (pmem s4) (f' + 4 * j) =
        if (va / 4096 =? esp / 4096) && (4 * j =? esp mod 4096) then eip else rd (pmem s) (f + 4 * j)
  | BigPage _ => False
  end.
Proof using All.
  intros Hcl Hu. pose proof (co_user _ _ _ _ _ Hcl va Hu) as Hc. rewrite child_walk by done.
  destruct (walk (pmem s) D va) as [|f|]; [done| |done]. destruct Hc as (f' & Ew & Hf' & Hcopy).
  exists f'. split; [done|]. split; [by apply fresh_kept|]. intros j Hj. pose proof Hf' as (Hfa & Hfr & _ & Hft & Hfk').
  assert (rd (pmem s3) (f' + 4 * j) = rd (pmem s) (f + 4 * j)) as E3.
  { rewrite <- Hcopy by done. apply used_words; try done; try lia. }
  destruct (Z.eqb_spec (va / 4096) (esp / 4096)) as [Epg|Epg]; cbn [andb].
  - assert (f' = fs) as -> by (rewrite (walk_same_page _ _ _ _ Epg) in Ew; congruence).
    rewrite Hr4. destruct (Z.eqb_spec (fs + 4 * j) (fs + esp mod 4096)), (Z.eqb_spec (4 * j) (esp mod 4096)); (done || lia).
  - rewrite other_word; [done|]. rewrite frame_word by done. intros E.
    apply (co_apart _ _ _ _ _ Hcl va esp f' fs); try done. destruct Hfsf as (Hsa & _). by apply same_page.
Qed.

Lemma space_kernel va : clone_of kpt s D s1 ND -> 0 <= va < 2 ^ 32 -> shared (va / 2 ^ 22) = true ->
  walk (pmem s4) ND va = walk (pmem s4) D va.
Proof using All.
  intros Hcl Hr Hsh. pose proof (pgdir_i_range va Hr) as Hi.
  pose proof Hfk as [E0 Hs0 Hm0 Hsp0 Hnd HN Hc Hw0 Hw Ef He].
  destruct (fresh_kept ND) as (HNa & HNr & HNf & _ & HNk).
  { by apply (forked_clone kpt s s0 s1' s1 d D nd ND n Hs Hsp HDal (proj1 HDr) Hfk). }
  destruct (forked_page _ _ _ _ _ _ _ _ _ esp fs Hfk Hesp Hfs) as [HfN _].
  assert (is_free (frames s1) (ND / 4096) = false) as HNu by (rewrite Ef; by destruct HN as (_ & _ & _ & ? & _)).
  pose proof Hsp as [[HDf HDk] _].
  assert (is_free (frames s1) (D / 4096) = false) as HDu.
  { destruct (is_free (frames s1) (D / 4096)) eqn:E; [|done]. apply (ex_free _ _ _ He) in E; [congruence|apply div_nonneg; lia]. }
  assert (rd (pmem s4) (ND + 4 * (va / 2 ^ 22)) = rd (pmem s1) (ND + 4 * (va / 2 ^ 22))) as EN.
  { rewrite other_word by (by rewrite frame_word by done; apply not_eq_sym). by apply used_words; [|lia|..]. }
  assert (rd (pmem s4) (D + 4 * (va / 2 ^ 22)) = rd (pmem s1) (D + 4 * (va / 2 ^ 22))) as ED.
  { rewrite other_word; [by apply used_words; [|lia|..]|]. rewrite frame_word by done.
    destruct Hfsf as (_ & _ & Hff & _). congruence. }
  destruct (cd_done _ _ _ _ _ _ _ _ Hc _ Hi) as [Hab Hshd _ _ _ _].
  rewrite Hw in EN, ED by done.
  assert (rd (pmem s1') (D + 4 * (va / 2 ^ 22)) = rd (pmem s0) (D + 4 * (va / 2 ^ 22))) as Ep
    by (by eapply (dir_entry_word kpt s0 d D nd ND n)).
  destruct (pt_present (rd (pmem s0) (D + 4 * (va / 2 ^ 22)))) eqn:Hpr.
  - unfold walk. by rewrite EN, ED, Hshd, Ep.
  - by rewrite !walk_no_pde by (rewrite ?EN, ?ED, ?Ep, ?Hab; done).
Qed.

Lemma space_parent va : user_address va -> walk (pmem s4) D va = walk (pmem s) D va.
Proof using All.
  intros Hu. apply (walk_agree kpt); try done; [apply Hs|lia|]. intros T j HT H0 [Hf Hne] Hj.
  rewrite (ex_mem _ _ _ space_ext); [|lia|by rewrite frame_word]. apply upd_word; try done. apply Hs.
Qed.
End space.

(** The three steps on memory: the address space, the page of the control block and the
    word on the stack. *)
Lemma fork_image_ok s D esp eip fp :
  sys_ok s -> D mod 4096 = 0 -> 0 <= D < 2 ^ 32 -> space_ok s D -> at_least (slot_free s) 6 ->
  at_least (frame_free s) (S (tables_from s D 0 + 1)) ->
  user_address esp -> esp mod 4 = 0 -> 0 <= eip < 2 ^ 32 -> walk (pmem s) D esp = SmallPage fp ->
  exists ND F k s1 s3 s4, fork_memory kpt D s = Ok (ND, s1) /\
    new_tss_page kpt s1 = Ok (kernelstart + 4096 * k, s3) /\ set_child_eip kpt eip esp ND s3 = Ok (tt, s4) /\
    0 <= k < 1024 /\ fork_image s D esp eip s4 ND F k.
Proof.
  intros Hs HDal HDr Hsp Hsl Hfr Hu Hal Heip Hwalk.
  destruct (fork_memory_ok kpt s D 1 Hs HDal HDr Hsp Hsl Hfr) as (s0 & s1' & s1 & d & nd & ND & Efork & Hfk).
  pose proof (fk_ext _ _ _ _ _ _ _ _ _ _ Hfk) as He. pose proof (ex_sys _ _ _ He) as Hs1.
  destruct (forked_clone kpt _ _ _ _ _ _ _ _ _ Hs Hsp HDal (proj1 HDr) Hfk) as [HND Hcl].
  pose proof (forked_space _ _ _ _ _ _ _ _ _ Hfk) as HspN. pose proof HND as (HNa & HNr & _).
  pose proof (ext_slots kpt s s1 6 Hs He Hsl) as Hsl1.
  assert (at_least (frame_free s1) 1) as Hfr1.
  { pose proof (cd_frames _ _ _ _ _ _ _ _ (fk_clone _ _ _ _ _ _ _ _ _ _ Hfk)) as Hc.
    unfold tables_from in Hc. replace (1024 - 1024) with 0 in Hc by lia. cbn [seqZ sum_list_with Nat.add] in Hc.
    eapply at_least_mono; [exact Hc|]. intros x. unfold frame_free. by rewrite (fk_frames _ _ _ _ _ _ _ _ _ _ Hfk). }
  destruct (new_tss_page_ok s1 5 Hs1 Hsl1 Hfr1) as (F & k & s3 & Etss & Hk & Hkn & Hk0 & HF & Hb & Hext & Hsl3).
  pose proof (co_user _ _ _ _ _ Hcl esp Hu) as Hst. rewrite Hwalk in Hst. destruct Hst as (fs & Hfs & Hfsf & _).
  assert (same_used kpt s1 s3) as Hsu by (by apply (used_words s s0 s1' s1 s3 d D nd ND F k 1)).
  assert (walk (pmem s3) ND esp = SmallPage fs) as Hfs3.
  { rewrite (walk_agree kpt s1 s3 ND (so_vm _ _ Hs1) HNa (proj1 HNr) HspN Hsu) by done. done. }
  assert (forall m, 0 <= m -> is_free (frames s1) m = false -> is_free (frames s3) m = false) as Hused.
  { intros m Hm E. destruct (is_free (frames s3) m) eqn:E'; [|done]. apply (ex_free _ _ _ Hext) in E'; [|done].
    change (is_free (frames s1) m = true) in E'. congruence. }
  pose proof (ex_sys _ _ _ Hext) as Hs3.
  destruct (set_child_eip_ok s3 ND esp eip fs (so_vm _ _ Hs3) HNa HNr) as (s4 & Eset & Hv4 & Hf4 & Hr4); try done.
  { apply (space_ok_agree kpt s1 s3); try done; [apply Hs1|lia]. }
  { eapply at_least_fewer; [eapply (ext_slots kpt); [exact Hb|exact Hext|exact Hsl3]|lia]. }
  exists ND, F, k, s1, s3, s4. split_and!; try done; try lia. 
  assert (fresh_frame kpt s s4 F) as HF4.
  { destruct HF as (Ha & Hr & Hff & Hft & Hfk'). split_and!; try done; try lia; [|by rewrite Hf4].
    apply (ex_free _ _ _ He); [apply div_nonneg; lia|done]. }
  split; try done.
  - by apply (space_ext s s0 s1' s1 s3 s4 d D nd ND F k esp eip fs 1).
  - split; [done|]. by rewrite <- (ext_pte kpt s s1).
  - by apply (fresh_kept s s1 s3 s4 F k).
  - intros va Hva. by apply (space_user s s0 s1' s1 s3 s4 d D nd ND F k esp eip fs 1).
  - intros va. by apply (space_kernel s s0 s1' s1 s3 s4 d D nd ND F k esp eip fs 1).
  - intros va. by apply (space_parent s s0 s1' s1 s3 s4 d D nd ND F k esp eip fs 1).
Qed.
End memory.

(** ** The descriptor *)

Section process.
Context {W : Type} `{TaskingLaws W}.
Context (kpt : Z).

(** [i] is the first free descriptor, [d] its contents. *)
Definition first_free (gdt : list descriptor) (i : Z) (d : descriptor) : Prop :=
  1 <= i < 256 /\ gdt !! Z.to_nat i = Some d /\ fPresent d = false /\
  forall j, 1 <= j < i -> exists e, gdt !! Z.to_nat j = Some e /\ fPresent e = true.

Lemma free_desc_ok (p : proc W) i d : first_free (p_gdt p) i d -> mloop 257 free_desc_body 1 p = Ok (i, p).
Proof.
  intros (Hi & Hd & Hf & Hbefore).
  assert (wp (mloop 257 free_desc_body 1) (fun r p' => r = i /\ p' = p) p) as Hwp.
  { apply (wp_mloop _ (fun j p' => 1 <= j <= i /\ p' = p) _ (fun j _ => Z.to_nat (256 - j))); [|split; [lia|done]|lia].
    intros j p' [Hj ->]. unfold free_desc_body. rewrite (proj2 (Z.ltb_lt j 256)) by lia.
    unfold get_desc. apply wp_bind, wp_bind, wp_gets. destruct (decide (j = i)) as [->|Hne].
    - eapply wp_lift; [by rewrite Hd|]. apply wp_ret. by rewrite Hf.
    - destruct (Hbefore j ltac:(lia)) as (e & He & Hp). eapply wp_lift; [by rewrite He|]. apply wp_ret. rewrite Hp.
      split; [|lia]. split; [lia|done]. }
  apply wp_Ok in Hwp as (r & p' & E & -> & ->). exact E.
Qed.

Lemma selector_index i : 0 <= i < 256 -> u16 (Z.shiftl i 3) = 8 * i /\ Z.shiftr (8 * i) 3 = i.
Proof.
  intros Hi. rewrite Z.shiftl_mul_pow2, Z.shiftr_div_pow2 by lia. change (2 ^ 3) with 8.
  split; [unfold u16; rewrite Z.mod_small; lia|]. by rewrite Z.mul_comm, Z.div_mul by lia.
Qed.

Lemma duplicate_TSS_ok (p : proc W) eip ebp esp eflags D i d k s3 s4 :
  new_tss_page kpt (p_mmu p) = Ok (kernelstart + 4096 * k, s3) -> set_child_eip kpt eip esp D s3 = Ok (tt, s4) ->
  first_free (p_gdt p) i d ->
  duplicate_TSS kpt eip ebp esp eflags D p = Ok (8 * i,
    mkProc s4 (<[Z.to_nat i := tss_descriptor (kernelstart + 4096 * k) d]> (p_gdt p))
      (w_set_tasks (<[8 * i := child_tss eip ebp esp eflags D]> (w_tasks (p_world p))) (p_world p))).
Proof.
  intros E3 E4 Hfree. pose proof Hfree as (Hi & Hd & _). destruct (selector_index i ltac:(lia)) as [Esel _].
  unfold duplicate_TSS.
  assert (on_mmu (new_tss_page kpt) p = Ok (kernelstart + 4096 * k, mkProc s3 (p_gdt p) (p_world p))) as E
    by (unfold on_mmu; by rewrite E3).
  erewrite bind_Ok_eq by exact E. set (p1 := mkProc s3 (p_gdt p) (p_world p)) in *.
  erewrite bind_Ok_eq by (apply (free_desc_ok p1 i d); exact Hfree).
  rewrite (proj2 (Z.eqb_neq i 256)) by lia.
  assert (get_desc i p1 = Ok (d, p1)) as Eget by (unfold get_desc, bind, gets, lift; cbn [p_gdt p1]; by rewrite Hd).
  erewrite bind_Ok_eq by exact Eget. unfold put_desc, modify, bind at 1. cbn [p_mmu p_gdt p_world p1].
  unfold on_mmu, bind at 1. cbn [p_mmu p_gdt p_world]. rewrite E4, Esel.
  unfold on_world, put_tss, modify, bind, ret. by cbn [p_mmu p_gdt p_world].
Qed.

Lemma fork_child_ok (p : proc W) D eip ebp esp eflags ND k s1 s3 s4 i d me tp :
  fork_memory kpt D (p_mmu p) = Ok (ND, s1) -> new_tss_page kpt s1 = Ok (kernelstart + 4096 * k, s3) ->
  set_child_eip kpt eip esp ND s3 = Ok (tt, s4) -> first_free (p_gdt p) i d ->
  w_str (p_world p) = Ok (me, p_world p) -> w_tasks (p_world p) !! me = Some tp ->
  w_tasks (p_world p) !! (8 * i) = None ->
  fork_child kpt D eip ebp esp eflags p = Ok (8 * i,
    mkProc s4 (<[Z.to_nat i := tss_descriptor (kernelstart + 4096 * k) d]> (p_gdt p))
      (w_set_tasks (<[8 * i := set_priority (tss_priority tp) (child_tss eip ebp esp eflags ND)]>
         (w_tasks (p_world p))) (p_world p))).
Proof.
  intros E1 E3 E4 Hfree Hstr Htp Hnew. unfold fork_child, on_mmu, bind at 1. rewrite E1.
  erewrite bind_Ok_eq by (by apply (duplicate_TSS_ok (mkProc s1 (p_gdt p) (p_world p)) eip ebp esp eflags ND i d k s3 s4)).
  cbn [p_mmu p_gdt p_world]. set (w1 := w_set_tasks _ (p_world p)).
  assert (w_str w1 = Ok (me, w1)) as Hstr1 by (by apply set_tasks_str).
  assert (w_tasks w1 !! me = Some tp) as Hme1.
  { unfold w1. rewrite tasks_set, lookup_insert_ne; [done|]. intros <-. congruence. }
  assert (w_tasks w1 !! (8 * i) = Some (child_tss eip ebp esp eflags ND)) as Hc1
    by (unfold w1; by rewrite tasks_set, lookup_insert_eq).
  unfold on_world, bind at 1. cbn [p_mmu p_gdt p_world]. rewrite Hstr1. unfold bind at 1. cbn [p_mmu p_gdt p_world].
  unfold get_tss, bind at 1, gets at 1, lift at 1, TaskQueue.lookup_TSS at 1. rewrite Hme1. cbn [of_option].
  unfold bind at 1. cbn [p_mmu p_gdt p_world]. unfold bind at 1, gets, lift, TaskQueue.lookup_TSS. rewrite Hc1. cbn [of_option].
  unfold bind, put_tss, modify, ret. cbn [p_mmu p_gdt p_world]. unfold w1.
  by rewrite tasks_set, set_twice, insert_insert_eq.
Qed.
End process.

(** The mask of [duplicate_TSS] clears the flag NT. *)
Lemma without_NT eflags n : 0 <= n < 32 -> Z.testbit (Z.land eflags 0xFFFFBFFF) n = Z.testbit eflags n && negb (n =? 14).
Proof.
  intros Hn. rewrite Z.land_spec. f_equal. assert (n ∈ seqZ 0 32) as Hin by (apply elem_of_seqZ; lia).
  clear Hn. revert n Hin. apply Forall_forall. by repeat constructor.
Qed.

(** ** The theorem *)

(** C9: [fork] (up to the wake-up) succeeds when there are frames for the copies, the
    directory and the control block, six free slots of the window and a free descriptor.
    The child has an address space of its own ([fork_image]): every user page is a copy of
    the parent's in a frame that was free, except that the word at its stack pointer is the
    program point to continue from; kernel addresses translate as in the parent; nothing
    that was in use changes.  Its control block, found through the new descriptor, has
    the stack pointer, frame pointer, flags (but NT) and program point that were passed, the
    new directory and the priority of the parent; it is bound to no VCPU, on no queue, waits
    for no message and nobody waits for it; the other control blocks stay. *)
Theorem fork_child_correct {W} `{TaskingLaws W} kpt (p : proc W) D eip ebp esp eflags fp i d me tp :
  sys_ok kpt (p_mmu p) -> D mod 4096 = 0 -> 0 <= D < 2 ^ 32 -> space_ok kpt (p_mmu p) D ->
  at_least (slot_free kpt (p_mmu p)) 6 -> at_least (frame_free (p_mmu p)) (S (tables_from (p_mmu p) D 0 + 1)) ->
  user_address esp -> esp mod 4 = 0 -> 0 <= eip < 2 ^ 32 -> walk (pmem (p_mmu p)) D esp = SmallPage fp ->
  first_free (p_gdt p) i d -> w_str (p_world p) = Ok (me, p_world p) -> w_tasks (p_world p) !! me = Some tp ->
  w_tasks (p_world p) !! (8 * i) = None ->
  exists p' ND F k, fork_child kpt D eip ebp esp eflags p = Ok (8 * i, p') /\
    fork_image kpt (p_mmu p) D esp eip (p_mmu p') ND F k /\
    lookup_TSS_va (8 * i) p' = Ok (kernelstart + 4096 * k, p') /\
    (forall j, j <> Z.to_nat i -> p_gdt p' !! j = p_gdt p !! j) /\
    (forall x, x <> 8 * i -> w_tasks (p_world p') !! x = w_tasks (p_world p) !! x) /\
    exists t, w_tasks (p_world p') !! (8 * i) = Some t /\
      tss_ESP t = esp /\ tss_EBP t = ebp /\ tss_initial_EIP t = eip /\ tss_CR3 t = ND /\
      (forall n, 0 <= n < 32 -> Z.testbit (tss_EFLAGS t) n = Z.testbit eflags n && negb (n =? 14)) /\
      tss_priority t = tss_priority tp /\ tss_cpu t = 0xFF /\ tss_next t = 0 /\ tss_waitqueue t = 0 /\
      sem_s (tss_Msem t) = 0 /\ sem_max (tss_Msem t) = 1 /\ sem_waitqueue (tss_Msem t) = 0.
Proof.
  intros Hs HDal HDr Hsp Hsl Hfr Hu Hal Heip Hwalk Hfree Hstr Htp Hnew.
  destruct (fork_image_ok kpt (p_mmu p) D esp eip fp Hs HDal HDr Hsp Hsl Hfr Hu Hal Heip Hwalk)
    as (ND & F & k & s1 & s3 & s4 & E1 & E3 & E4 & Hk & Hspace).
  eexists _, ND, F, k. split; [by eapply fork_child_ok|]. cbn [p_mmu p_gdt p_world]. split; [done|].
  pose proof Hfree as (Hi & Hd & _). destruct (selector_index i ltac:(lia)) as [_ Eidx]. split_and!.
  - unfold lookup_TSS_va, get_desc, bind, gets, lift, ret. cbn [p_gdt]. rewrite Eidx, list_lookup_insert_eq
      by (by eapply lookup_lt_Some). cbn [of_option]. do 2 f_equal. apply desc_base_tss. unfold kernelstart. lia.
  - intros j Hj. by rewrite list_lookup_insert_ne.
  - intros x Hx. by rewrite tasks_set, lookup_insert_ne.
  - eexists. rewrite tasks_set, lookup_insert_eq. split; [done|]. cbn. split_and!; try done. apply without_NT.
Qed.

(** *** The example of [CloneThm], with 11 descriptors in use *)

#[local] Instance fork_scheduler : Scheduler sched := vcpu_scheduler calm_env 0.
#[local] Instance fork_laws : SchedulerLaws sched := vcpu_scheduler_laws calm_env 0 calm_clock.
#[local] Instance fork_register : TaskRegister sched := vcpu_task_register 0.
#[local] Instance fork_tasking : TaskingLaws sched := vcpu_tasking_laws calm_env 0 calm_clock.

Definition fork_gdt : list descriptor :=
  replicate 12 (tss_descriptor kernelstart zero_descriptor) ++ replicate 244 zero_descriptor.

Definition fork_proc : proc sched := mkProc fork_mmu fork_gdt (waiting_sched 0 0x48).

(** The child, process 0x60, has a page of its own in which the word at 0x405008 is the
    program point 0x1234 and the next one is copied. *)
Lemma fork_child_correct_witness :
  exists p' ND F k f, fork_child 0x1000 0x2000 0x1234 0x405010 0x405008 0x202 fork_proc = Ok (0x60, p') /\
    fork_image 0x1000 fork_mmu 0x2000 0x405008 0x1234 (p_mmu p') ND F k /\
    walk (pmem (p_mmu p')) ND 0x405008 = SmallPage f /\ rd (pmem (p_mmu p')) (f + 8) = 0x1234 /\
    rd (pmem (p_mmu p')) (f + 12) = 0 /\
    exists t, w_tasks (p_world p') !! 0x60 = Some t /\ tss_ESP t = 0x405008 /\ tss_EBP t = 0x405010 /\
      tss_initial_EIP t = 0x1234 /\ tss_CR3 t = ND.
Proof.
  assert (user_address 0x405008) as Hu by (split; [lia|reflexivity]).
  destruct (fork_child_correct 0x1000 fork_proc 0x2000 0x1234 0x405010 0x405008 0x202 0x7000 12 zero_descriptor
    0x48 (set_time 50 zero_tss)) as (p' & ND & F & k & E & Hf & _ & _ & _ & t & Ht & Hesp & Hebp & Heip & Hcr3 & _).
  - apply fork_sys.
  - reflexivity.
  - lia.
  - apply fork_space.
  - exact fork_slots.
  - assert (S (tables_from fork_mmu 0x2000 0 + 1) = 6%nat) as E by (vm_compute; reflexivity).
    change (p_mmu fork_proc) with fork_mmu. rewrite E. exists [32; 33; 34; 35; 36; 37].
    split; [apply (bool_decide_unpack _); vm_compute; exact I|]. split; [reflexivity|].
    repeat constructor; try lia; apply fork_free; lia.
  - exact Hu.
  - reflexivity.
  - lia.
  - reflexivity.
  - split; [lia|]. split; [reflexivity|]. split; [reflexivity|]. intros j Hj.
    exists (tss_descriptor kernelstart zero_descriptor). split; [|reflexivity]. cbn [p_gdt fork_proc]. unfold fork_gdt.
    rewrite lookup_app_l by (rewrite length_replicate; lia). apply lookup_replicate_2. lia.
  - reflexivity.
  - reflexivity.
  - reflexivity.
  - destruct (fi_user _ _ _ _ _ _ _ _ _ Hf 0x405008 Hu) as (f & Hw & _ & Hcopy).
    exists p', ND, F, k, f. split; [exact E|]. split; [exact Hf|]. split; [exact Hw|].
    split; [exact (Hcopy 2 ltac:(lia))|]. split; [exact (Hcopy 3 ltac:(lia))|].
    exists t. split; [exact Ht|]. split; [exact Hesp|]. split; [exact Hebp|]. split; [exact Heip|exact Hcr3].
Defined.
