(* ===== verification/Shm.v ===== *)
(** * Memory information and shared memory: _meminfo

    The system call [_meminfo] of interrupt_handler.c: the amount of free memory and the
    allocation, attachment, detachment and release of frames that processes share.  A
    shared frame is attached at the first free entry of the first page table of the
    caller.  The user addresses in the TLB are outside the model. *)

From Stdlib Require Import ZArith Lia.
From S2P Require Import Prelude Physical Virtual VirtualThm Clone CloneThm Exit ForkThm.
From stdpp Require Import base gmap sets fin_sets numbers strings list.
Local Open Scope Z_scope.

(** ** Operations *)

Section shm.
(** The kernel page table and the page directory in [cr3]. *)
Context (kpt pdbr : Z).

(** Case 0: the loop over the bitmap; [j] counts. *)
Definition count_body (limit : Z) : Z * Z -> M phys (control (Z * Z) Z) := fun '(i, j) =>
  if i <? limit then
    let! t := gets mm_table in
    let! b := lift (BITMAP_TST t i) in
    ret (Continue (i + 1, if b : bool then j + 1 else j))
  else ret (Break j).

Definition free_memory : M phys Z :=
  let! s := get in
  let! j := mloop (frame_fuel s) (count_body (mm_limit s)) (0, 0) in
  ret (u32 (Z.shiftl j 12)).

(** Case 1; the test [frame < 0] of the unsigned [frame] never holds. *)
Definition shared_mem_alloc : M mmu Z :=
  let! frame := on_frames alloc_phys_frame in
  let! virt := map_virtual_page kpt (Z.lor frame 3) in
  clear_page kpt virt ;;!
  unmap_virtual_page kpt virt ;;!
  ret frame.

(** Case 2: the search for an empty entry. *)
Definition attach_body (frame ptab1_virt : Z) (i : Z) : M mmu (control Z Z) :=
  if i <? 1024 then
    let! e := vread kpt (entry ptab1_virt i) in
    if Z.land e 1 =? 0 then
      vwrite kpt (entry ptab1_virt i) (Z.lor frame 7) ;;!
      ret (Break (u32 (Z.shiftl i 12)))
    else ret (Continue (i + 1))
  else ret (Break (u32 (-1))).

Definition shared_mem_attach (frame : Z) : M mmu Z :=
  let! f := gets frames in
  if mm_limit f <=? Z.shiftr frame 12 then ret (u32 (-1))
  else
    let! b := lift (BITMAP_TST (mm_table f) (Z.shiftr frame 12)) in
    if b : bool then ret (u32 (-1))
    else
      let! pgd_virt := map_virtual_page kpt (Z.lor pdbr 3) in
      let! e := vread kpt (entry pgd_virt 0) in
      let! ptab1_virt := map_virtual_page kpt (Z.lor e 3) in
      let! addr := mloop 1024 (attach_body frame ptab1_virt) 1 in
      unmap_virtual_page kpt ptab1_virt ;;!
      unmap_virtual_page kpt pgd_virt ;;!
      ret addr.

(** Case 3. *)
Definition shared_mem_detach (edx : Z) : M mmu Z :=
  let i := Z.land (Z.shiftr edx 12) 0x3FF in
  let! pgd_virt := map_virtual_page kpt (Z.lor pdbr 3) in
  let! e := vread kpt (entry pgd_virt 0) in
  let! ptab1_virt := map_virtual_page kpt (Z.lor e 3) in
  vwrite kpt (entry ptab1_virt i) 0 ;;!
  unmap_virtual_page kpt ptab1_virt ;;!
  unmap_virtual_page kpt pgd_virt ;;!
  ret 0.

(** Case 4. *)
Definition shared_mem_free (frame : Z) : M mmu Z :=
  release_frame (Z.shiftr frame 12) ;;! ret 0.

Definition _meminfo (eax edx : Z) : M mmu Z :=
  if eax =? 0 then on_frames free_memory
  else if eax =? 1 then shared_mem_alloc
  else if eax =? 2 then shared_mem_attach edx
  else if eax =? 3 then shared_mem_detach edx
  else if eax =? 4 then shared_mem_free edx
  else ret (u32 (-1)).
End shm.

(** ** Free memory *)

(** The free frames below [n]. *)
Definition free_frames (f : phys) (n : Z) : list Z := filter (fun i => is_free f i = true) (seqZ 0 n).

Lemma free_frames_step f i : 0 <= i ->
  free_frames f (i + 1) = free_frames f i ++ (if is_free f i then [i] else []).
Proof.
  intros Hi. unfold free_frames. rewrite (seqZ_app 0 i 1), Z.add_0_l by lia.
  rewrite filter_app. f_equal. rewrite (seqZ_cons i 1) by lia. cbn. by destruct (is_free f i) eqn:E; rewrite ?E.
Qed.

Lemma free_memory_ok f : phys_wf f ->
  free_memory f = Ok (u32 (4096 * Z.of_nat (length (free_frames f (mm_limit f)))), f).
Proof.
  intros Hf. pose proof (pw_limit f Hf) as Hl. pose proof (frame_fuel_eq f Hf) as Hfuel.
  assert (wp (mloop (frame_fuel f) (count_body (mm_limit f)) (0, 0)) (fun j f' => f' = f /\
    j = Z.of_nat (length (free_frames f (mm_limit f)))) f) as Hwp.
  { apply (wp_mloop _ (fun '(i, j) f' => f' = f /\ 0 <= i <= mm_limit f /\ j = Z.of_nat (length (free_frames f i))) _
      (fun '(i, _) _ => Z.to_nat (mm_limit f - i))); [|split; [done|split; [lia|done]]|lia].
    intros [i j] f' (-> & Hi & ->). unfold count_body. zcase.
    - apply wp_bind, wp_gets, wp_bind. eapply wp_lift; [apply bitmap_tst_ok; [done|lia]|]. apply wp_ret.
      split; [|lia]. split; [done|]. split; [lia|]. rewrite free_frames_step, length_app by lia.
      destruct (is_free f i); cbn [length]; lia.
    - apply wp_ret. split; [done|]. by replace (mm_limit f) with i by lia. }
  apply wp_Ok in Hwp as (j & f' & E & -> & ->).
  unfold free_memory, bind at 1, get. erewrite bind_Ok_eq by exact E. rewrite Z.shiftl_mul_pow2 by lia.
  unfold ret. do 3 f_equal. lia.
Qed.

Section proofs.
Context (kpt : Z).
Notation pte := (pte kpt).
Notation upd_pte := (upd_pte kpt).
Notation vm_wf := (vm_wf kpt).
Notation slot_free := (slot_free kpt).
Notation same_words := (same_words kpt).

(** ** The first page table *)

(** The table of entry 0 of [D] is [T], and neither is the kernel page table. *)
Definition first_table (s : mmu) (D T : Z) : Prop :=
  D mod 4096 = 0 /\ 0 <= D < 2 ^ 32 /\ D / 4096 <> kpt / 4096 /\
  table_of s D 0 = T /\ T / 4096 <> kpt / 4096.

(** [body] runs with the first table mapped; it changes words as [w] says, none of the
    kernel page table. *)
Lemma with_first_table s D T (body : Z -> M mmu Z) (r : Z) (w : Z -> Z -> Z) :
  vm_wf s -> first_table s D T -> at_least (slot_free s) 2 ->
  (forall s2 b, vm_wf s2 -> slot_maps kpt s2 b T -> same_words s s2 -> frames s2 = frames s ->
     exists s3, body (kernelstart + 4096 * b) s2 = Ok (r, s3) /\ vm_wf s3 /\ frames s3 = frames s2 /\
       forall pa, rd (pmem s3) pa = w pa (rd (pmem s2) pa)) ->
  (forall k v, 0 <= k < 1024 -> w (kpt + 4 * k) v = v) ->
  exists s', (let! pgd_virt := map_virtual_page kpt (Z.lor D 3) in
    let! e := vread kpt (entry pgd_virt 0) in
    let! ptab1_virt := map_virtual_page kpt (Z.lor e 3) in
    let! x := body ptab1_virt in
    unmap_virtual_page kpt ptab1_virt ;;!
    unmap_virtual_page kpt pgd_virt ;;! ret x) s = Ok (r, s') /\
    vm_wf s' /\ frames s' = frames s /\ forall pa, rd (pmem s') pa = w pa (rd (pmem s) pa).
Proof.
  intros Hs (HDal & HDr & HDk & HT & HTk) Hsl Hbody Hw.
  destruct (map_word kpt s 1 D Hs Hsl HDr) as (a & Ea & Ha & Ha0 & Hs1 & Hm1 & Hsl1).
  assert (page_of D = D) as HpD by (unfold page_of; pose proof (Z.div_mod D 4096 ltac:(lia)); lia).
  rewrite HpD in Hm1. set (s1 := upd_pte a (Z.lor D 3) s) in *.
  assert (same_words s s1) as Hw1 by (by apply same_words_upd).
  pose proof (read_slot kpt s1 a D 0 Hs1 Hm1 ltac:(lia)) as Er. rewrite Hw1 in Er by (done || lia).
  set (e := rd (pmem s) (D + 4 * 0)) in *.
  assert (0 <= e < 2 ^ 32) as He by (apply rd_range, (vo_words _ _ (vw_ok _ _ Hs))).
  destruct (map_word kpt s1 0 e Hs1 Hsl1 He) as (b & Eb & Hb & Hb0 & Hs2 & Hm2 & _).
  change (page_of e) with (table_of s D 0) in Hm2. rewrite HT in Hm2. set (s2 := upd_pte b (Z.lor e 3) s1) in *.
  assert (same_words s s2) as Hw2.
  { intros X k HX HXk Hk. rewrite <- Hw1 by done. by apply same_words_upd. }
  destruct (Hbody s2 b Hs2 Hm2 Hw2 eq_refl) as (s3 & Ebody & Hs3 & Hf3 & Hr3).
  assert (b <> a) as Hba by (intros ->; destruct Hm1 as (_ & Hp & _); by rewrite Hb0 in Hp).
  assert (forall x s0, pte s0 x = 0 -> vm_wf s0 -> x <> KERN_PGT_SLOT) as Hnk.
  { intros x s0 Hx Hv ->. by apply (pte_self kpt s0 (vw_ok _ _ Hv)). }
  destruct (unmap_two kpt s3 b a Hs3 Hb Ha (Hnk b s1 Hb0 Hs1) (Hnk a s Ha0 Hs)) as (s4 & E4 & Hs4 & Hf4 & Hr4).
  exists s4. split; [|split; [done|split; [by rewrite Hf4, Hf3|]]].
  - erewrite bind_Ok_eq by exact Ea. erewrite bind_Ok_eq by exact Er. erewrite bind_Ok_eq by exact Eb.
    erewrite bind_Ok_eq by exact Ebody. rewrite <- bind_assoc. by erewrite bind_Ok_eq by exact E4.
  - intros pa. rewrite Hr4.
    destruct (Z.eqb_spec pa (kpt + 4 * b)) as [->|Hpb]; [|destruct (Z.eqb_spec pa (kpt + 4 * a)) as [->|Hpa]]; cbn [orb].
    + rewrite Hw by done. unfold s1 in Hb0. rewrite pte_upd, (proj2 (Z.eqb_neq _ _)) in Hb0 by done. by rewrite <- Hb0.
    + by rewrite Hw, <- Ha0 by done.
    + rewrite Hr3. unfold s2, s1. by rewrite !rd_upd.
Qed.

(** The word [v] is written to entry [i] of the table at [T]. *)
Definition write_at (T i v : Z) (pa x : Z) : Z := if pa =? T + 4 * i then v else x.

Lemma write_at_kpt s T i v k x : vm_wf s -> T mod 4096 = 0 -> T / 4096 <> kpt / 4096 -> 0 <= i < 1024 -> 0 <= k < 1024 ->
  write_at T i v (kpt + 4 * k) x = x.
Proof.
  intros Hs HT Hne Hi Hk. destruct (vm_kpt kpt s (vw_ok _ _ Hs)) as [Hal _]. unfold write_at.
  rewrite (proj2 (Z.eqb_neq _ _)); [done|]. intros E. apply (f_equal (fun x => x / 4096)) in E. by rewrite !frame_word in E.
Qed.

Lemma first_aligned s D T : vm_wf s -> first_table s D T -> T mod 4096 = 0 /\ 0 <= T < 2 ^ 32.
Proof. intros Hs (_ & _ & _ & <- & _). by apply (table_of_aligned kpt). Qed.

Lemma shared_mem_detach_ok s D T edx : vm_wf s -> first_table s D T -> at_least (slot_free s) 2 -> 0 <= edx < 2 ^ 32 ->
  exists s', shared_mem_detach kpt D edx s = Ok (0, s') /\ vm_wf s' /\ frames s' = frames s /\
    forall pa, rd (pmem s') pa = write_at T ((edx / 4096) mod 1024) 0 pa (rd (pmem s) pa).
Proof.
  intros Hs Hft Hsl Hedx. destruct (first_aligned s D T Hs Hft) as [HTal HTr]. pose proof Hft as (_ & _ & _ & _ & HTk).
  pose proof (slot_mod edx) as Ei. unfold slot in Ei. set (i := (edx / 4096) mod 1024) in *.
  assert (0 <= i < 1024) as Hi by (apply Z.mod_pos_bound; lia).
  destruct (with_first_table s D T (fun t => vwrite kpt (entry t i) 0 ;;! ret 0) 0 (write_at T i 0) Hs Hft Hsl)
    as (s' & E & Hs' & Hf' & Hr').
  - intros s2 b Hs2 Hm2 _ _. exists (poke (T + 4 * i) 0 s2). split_and!.
    + by erewrite bind_Ok_eq by (by apply (write_slot kpt s2 b T)).
    + apply poke_vm; [done|by rewrite frame_word|lia].
    + done.
    + intros pa. unfold poke. cbn [pmem set_pmem]. apply rd_wr.
  - intros k v Hk. by apply (write_at_kpt s).
  - exists s'. split; [|done]. unfold shared_mem_detach. rewrite Ei, <- E.
    unfold bind. repeat (match goal with |- context [match ?m with _ => _ end] => destruct m as [[]|]; try done end).
Qed.

(** ** Attaching *)

(** [i] is the first free entry of the table at [T], from 1; 1024 when there is none. *)
Definition free_entry (s : mmu) (T i : Z) : Prop :=
  1 <= i <= 1024 /\ (forall j, 1 <= j < i -> pt_present (rd (pmem s) (T + 4 * j)) = true) /\
  (i < 1024 -> pt_present (rd (pmem s) (T + 4 * i)) = false).

Lemma absent_cond e : (Z.land e 1 =? 0) = negb (pt_present e).
Proof. change 1 with (Z.shiftl 1 0) at 1. unfold pt_present. by rewrite <- tst_testbit, negb_involutive. Qed.

Lemma attach_loop s b T frame i : vm_wf s -> slot_maps kpt s b T -> T / 4096 <> kpt / 4096 -> free_entry s T i ->
  mloop 1024 (attach_body kpt frame (kernelstart + 4096 * b)) 1 s =
    if i <? 1024 then Ok (4096 * i, poke (T + 4 * i) (Z.lor frame 7) s) else Ok (u32 (-1), s).
Proof.
  intros Hs Hm HTk (Hi & Hbefore & Hfree).
  assert (wp (mloop 1024 (attach_body kpt frame (kernelstart + 4096 * b)) 1) (fun r s' =>
    Ok (r, s') = if i <? 1024 then Ok (4096 * i, poke (T + 4 * i) (Z.lor frame 7) s) else Ok (u32 (-1), s)) s) as Hwp.
  { apply (wp_mloop _ (fun j s' => s' = s /\ 1 <= j <= i) _ (fun j _ => Z.to_nat (1024 - j))); [|split; [done|lia]|lia].
    intros j s' [-> Hj]. unfold attach_body. destruct (Z.ltb_spec j 1024); cycle 1.
    { apply wp_ret. by rewrite (proj2 (Z.ltb_ge i 1024)) by lia. }
    apply wp_bind, wp_Ok. eexists _, _. split; [apply (read_slot kpt s b T); (done || lia)|]. rewrite absent_cond.
    destruct (decide (j = i)) as [->|Hne].
    - rewrite Hfree by lia. cbn [negb]. apply wp_bind, wp_Ok. eexists _, _.
      split; [apply (write_slot kpt s b T); (done || lia)|]. apply wp_ret. rewrite (proj2 (Z.ltb_lt i 1024)) by lia.
      rewrite Z.shiftl_mul_pow2, u32_small by lia. do 2 f_equal. lia.
    - rewrite Hbefore by lia. apply wp_ret. split; [split; [done|lia]|lia]. }
  apply wp_Ok in Hwp as (r & s' & E & <-). exact E.
Qed.

(** The frame at [f], of number below the limit, is attached at the first free entry. *)
Lemma shared_mem_attach_ok s D T f i : vm_wf s -> phys_wf (frames s) -> first_table s D T -> at_least (slot_free s) 2 ->
  0 <= f < 2 ^ 32 -> f / 4096 < mm_limit (frames s) -> is_free (frames s) (f / 4096) = false -> free_entry s T i ->
  exists s', shared_mem_attach kpt D f s = Ok (if i <? 1024 then 4096 * i else u32 (-1), s') /\
    vm_wf s' /\ frames s' = frames s /\
    forall pa, rd (pmem s') pa = if i <? 1024 then write_at T i (Z.lor f 7) pa (rd (pmem s) pa) else rd (pmem s) pa.
Proof.
  intros Hs Hf Hft Hsl Hfr Hlim Hused Hfe. destruct (first_aligned s D T Hs Hft) as [HTal HTr].
  pose proof Hft as (_ & _ & _ & _ & HTk). pose proof Hfe as (Hi & _). destruct (frame_index f Hfr) as [Es Hn].
  destruct (with_first_table s D T (fun t => mloop 1024 (attach_body kpt f t) 1) (if i <? 1024 then 4096 * i else u32 (-1))
    (fun pa x => if i <? 1024 then write_at T i (Z.lor f 7) pa x else x) Hs Hft Hsl) as (s' & E & Hs' & Hf' & Hr').
  - intros s2 b Hs2 Hm2 Hw2 _. rewrite (attach_loop s2 b T f i Hs2 Hm2 HTk); cycle 1.
    { destruct Hfe as (_ & Hb & Hfree). split; [done|]. split; [intros j Hj|intros Hi']; rewrite Hw2 by (done || lia); auto. }
    destruct (Z.ltb_spec i 1024); eexists; (split; [done|]); [|done]. split_and!.
    + apply poke_vm; [done|by rewrite frame_word by (done || lia)|]. apply lor_range; lia.
    + done.
    + intros pa. unfold poke. cbn [pmem set_pmem]. apply rd_wr.
  - intros k v Hk. destruct (Z.ltb_spec i 1024); [|done]. apply (write_at_kpt s); (done || lia).
  - exists s'. split; [|done]. unfold shared_mem_attach, bind at 1, gets. rewrite Es, (proj2 (Z.leb_gt _ _)) by done.
    erewrite bind_Ok_eq; [|unfold lift; rewrite bitmap_tst_ok, Hused by (done || (unfold PHYS_INDEX_MAX; lia)); reflexivity].
    exact E.
Qed.

(** ** Translation *)

(** The table at [T] belongs to entry 0 of [D] only. *)
Definition own_table (s : mmu) (D T : Z) : Prop :=
  first_table s D T /\ has_table s D 0 = true /\ T / 4096 <> D / 4096 /\
  (forall i, 0 <= i < 1024 -> has_table s D i = true -> pd_page_size (rd (pmem s) (D + 4 * i)) = false) /\
  forall i, 1 <= i < 1024 -> has_table s D i = true -> T / 4096 <> table_of s D i / 4096.

(** The words of [D] and of its other tables do not depend on entry [i] of [T]. *)
Lemma attached_walk s s' D T i v : vm_wf s -> own_table s D T -> 0 <= i < 1024 ->
  (forall pa, rd (pmem s') pa = write_at T i v pa (rd (pmem s) pa)) ->
  (pt_present v = true -> walk (pmem s') D (4096 * i) = SmallPage (page_of v)) /\
  forall va, user_address va -> va / 4096 <> i -> walk (pmem s') D va = walk (pmem s) D va.
Proof.
  intros Hs (Hft & Hh & HTD & Hbig & Hother) Hi Hr. destruct (first_aligned s D T Hs Hft) as [HTal HTr].
  pose proof Hft as (HDal & HDr & HDk & HT & HTk).
  assert (forall x k, x mod 4096 = 0 -> 0 <= k < 1024 -> T / 4096 <> x / 4096 ->
    rd (pmem s') (x + 4 * k) = rd (pmem s) (x + 4 * k)) as Hword.
  { intros x k Hx Hk Hne. rewrite Hr. unfold write_at. rewrite (proj2 (Z.eqb_neq _ _)); [done|]. intros E.
    apply (f_equal (fun x => x / 4096)) in E. rewrite !frame_word in E by done. congruence. }
  split.
  - intros Hv. assert (4096 * i / 2 ^ 22 = 0) as E0 by (apply Z.div_small; lia).
    assert ((4096 * i / 4096) mod 1024 = i) as E1.
    { rewrite (Z.mul_comm 4096), Z.div_mul by lia. by apply Z.mod_small. }
    pose proof Hh as [Hp _]%andb_true_iff. pose proof (Hword D 0 HDal ltac:(lia) HTD) as EW.
    rewrite (walk_table (pmem s') D _ (rd (pmem s) (D + 4 * 0))); [|by rewrite E0|done|by apply Hbig].
    change (page_of (rd (pmem s) (D + 4 * 0))) with (table_of s D 0). rewrite HT, E1. cbv zeta.
    rewrite Hr. unfold write_at. by rewrite Z.eqb_refl, Hv.
  - intros va [Hva Hush] Hne. pose proof (pgdir_i_range va Hva) as Hd. pose proof (page_index va) as Hj.
    pose proof (Hword D (va / 2 ^ 22) HDal Hd HTD) as E.
    destruct (pt_present (rd (pmem s) (D + 4 * (va / 2 ^ 22)))) eqn:Hp; [|by rewrite !walk_no_pde by (done || by rewrite E)].
    assert (has_table s D (va / 2 ^ 22) = true) as Hhv by (unfold has_table; by rewrite Hp, Hush).
    rewrite (walk_table (pmem s') _ _ _ E), (walk_table (pmem s) _ _ _ eq_refl) by (done || by apply Hbig).
    change (page_of (rd (pmem s) (D + 4 * (va / 2 ^ 22)))) with (table_of s D (va / 2 ^ 22)). cbv zeta.
    destruct (decide (va / 2 ^ 22 = 0)) as [Ez|Enz].
    + rewrite Ez, HT, Hr. unfold write_at. rewrite (proj2 (Z.eqb_neq _ _)); [done|]. intros E4. apply Hne.
      assert (va / 4096 < 1024) by (apply Z.div_lt_upper_bound; [lia|]; destruct (Z.lt_ge_cases va (4096 * 1024)) as [|Hge]; [done|];
        assert (1 <= va / 2 ^ 22) by (apply Z.div_le_lower_bound; lia); lia).
      rewrite Z.mod_small in E4 by (split; [apply div_nonneg; lia|done]). lia.
    + destruct (table_of_aligned kpt s D (va / 2 ^ 22) Hs). rewrite Hword; [done|done|done|]. by apply Hother; [lia|].
Qed.

(** ** Allocating *)

Lemma attached_entry f : f mod 4096 = 0 -> 0 <= f < 2 ^ 32 ->
  pt_present (Z.lor f 7) = true /\ page_of (Z.lor f 7) = f.
Proof.
  intros Hf Hr. split; [unfold pt_present; rewrite Z.lor_spec; apply orb_true_r|]. unfold page_of.
  change 4096 with (2 ^ 12) at 1. rewrite <- Z.shiftr_div_pow2, Z.shiftr_lor by lia. change (Z.shiftr 7 12) with 0.
  rewrite Z.lor_0_r, Z.shiftr_div_pow2 by lia. change (2 ^ 12) with 4096. pose proof (Z.div_mod f 4096 ltac:(lia)). lia.
Qed.

Lemma shared_mem_alloc_ok s : sys_ok kpt s -> at_least (slot_free s) 1 -> at_least (frame_free s) 1 ->
  exists f s', shared_mem_alloc kpt s = Ok (f, s') /\ fresh_frame kpt s s' f /\ ext kpt s s' /\
    f / 4096 < mm_limit (frames s) /\
    (forall k, 0 <= k < 1024 -> rd (pmem s') (f + 4 * k) = 0) /\
    (forall m, 0 <= m -> is_free (frames s') m = if m =? f / 4096 then false else is_free (frames s) m).
Proof.
  intros Hs Hsl Hfr. destruct (fresh_page_ok kpt s 0 0 Hs Hsl Hfr) as (f & nt & s1 & s2 & s3 & Ealloc & Emap & Eclear &
    Hnt & Hne & Hnt0 & Hf & Hbase & Hext & Hz & Hex & _ & _).
  pose proof (ex_sys _ _ _ Hext) as Hs3. pose proof (so_vm _ _ Hs3) as Hv3. pose proof Hf as (Hfa & Hfr' & Hff & Hft & Hfk).
  destruct (sys_kpt kpt s Hs) as [Hkal Hkr].
  assert (forall pa, pa <> kpt + 4 * nt -> rd (pmem (upd_pte nt 0 s3)) pa = rd (pmem s3) pa) as Hr
    by (intros pa Hpa; by apply rd_upd).
  assert (f / 4096 < mm_limit (frames s)) as Hlim.
  { pose proof (alloc_phys_frame_wp (frames s) (so_phys _ _ Hs)) as Ha. unfold wp in Ha. unfold on_frames in Ealloc.
    destruct (alloc_phys_frame (frames s)) as [[r p]|]; [|done]. injection Ealloc as -> _.
    destruct Ha as [(n & -> & (Hn & Hl & _) & _)|(-> & _)]; [|done]. destruct (frame_page n) as [_ ->]. lia. }
  exists f, (upd_pte nt 0 s3). split_and!; try done; try lia.
  - unfold shared_mem_alloc. erewrite bind_Ok_eq by exact Ealloc. erewrite bind_Ok_eq by exact Emap.
    erewrite bind_Ok_eq by exact Eclear. by erewrite bind_Ok_eq by (by apply unmap_slot).
  - split; [by apply upd_sys|apply Hext|apply Hext|]. intros pa H0 Hpa.
    destruct (decide (pa = kpt + 4 * nt)) as [->|Hne'].
    + transitivity 0; [unfold Virtual.upd_pte; cbn [pmem set_pmem]; by rewrite rd_wr, Z.eqb_refl|by rewrite <- Hnt0].
    + rewrite Hr, (ex_mem _ _ _ Hext), rd_upd by done. done.
  - intros k Hk. rewrite Hr; [by apply Hz|]. intros E. apply (f_equal (fun x => x / 4096)) in E. by rewrite !frame_word in E.
  - intros m Hm. change (frames (upd_pte nt 0 s3)) with (frames s3). destruct (Z.eqb_spec m (f / 4096)) as [->|Hmf]; [done|].
    destruct (is_free (frames s) m) eqn:E, (is_free (frames s3) m) eqn:E'; try done.
    + exfalso. by apply Hmf, Hex.
    + apply (ex_free _ _ _ Hext) in E'; [|done]. change (is_free (frames s) m = true) in E'. congruence.
Qed.

(** Writing an entry of the first table. *)
Lemma write_at_first s s' D T i v n : vm_wf s -> first_table s D T -> T / 4096 <> D / 4096 -> 0 <= i < 1024 ->
  (forall pa, rd (pmem s') pa = write_at T i v pa (rd (pmem s) pa)) -> at_least (slot_free s) n ->
  first_table s' D T /\ at_least (slot_free s') n.
Proof.
  intros Hs Hft HTD Hi Hr Hn. destruct (first_aligned s D T Hs Hft) as [HTal HTr].
  pose proof Hft as (HDal & HDr & HDk & HT & HTk). split.
  - do 3 (split; [done|]). split; [|done]. rewrite <- HT. unfold table_of. rewrite Hr. unfold write_at.
    rewrite (proj2 (Z.eqb_neq _ _)); [done|]. intros E. apply (f_equal (fun x => x / 4096)) in E.
    rewrite !frame_word in E by (done || lia). congruence.
  - eapply at_least_mono; [exact Hn|]. intros x [Hx Hp]. split; [done|]. unfold Virtual.pte in *.
    by rewrite Hr, (write_at_kpt s).
Qed.

(** The address space after an allocation. *)
Lemma own_table_ext s s' D T i : sys_ok kpt s -> space_ok kpt s D -> own_table s D T -> free_entry s T i ->
  ext kpt s s' -> own_table s' D T /\ free_entry s' T i /\
  (forall k, 0 <= k < 1024 -> rd (pmem s') (T + 4 * k) = rd (pmem s) (T + 4 * k)) /\
  forall va, user_address va -> walk (pmem s') D va = walk (pmem s) D va.
Proof.
  intros Hs Hsp ((HDal & HDr & HDk & HT & HTk) & Hh & HTD & Hbig & Hother) (Hi & Hbefore & Hfree) He.
  pose proof (ext_same_used kpt s s' He) as Hw. pose proof (so_vm _ _ Hs) as Hv.
  assert (forall j, 0 <= j < 1024 -> has_table s' D j = has_table s D j /\ table_of s' D j = table_of s D j /\
    rd (pmem s') (D + 4 * j) = rd (pmem s) (D + 4 * j)) as Ha by (apply (has_table_agree kpt); (done || lia)).
  assert (forall k, 0 <= k < 1024 -> rd (pmem s') (T + 4 * k) = rd (pmem s) (T + 4 * k)) as HwT.
  { intros k Hk. rewrite <- HT. apply (table_word_agree kpt s s' D); (done || lia). }
  split_and!; try done; try lia.
  - destruct (Ha 0 ltac:(lia)) as (E1 & E2 & E3). split; [by rewrite <- HT in *|]. split; [by rewrite E1|]. split; [done|].
    split; [intros j Hj; destruct (Ha j Hj) as (-> & _ & ->); by apply Hbig|].
    intros j Hj. destruct (Ha j ltac:(lia)) as (-> & -> & _). by apply Hother.
  - split; [done|]. split; [intros j Hj|intros Hi']; rewrite HwT by lia; [by apply Hbefore|by apply Hfree].
  - intros va. apply (walk_agree kpt); (done || lia).
Qed.
End proofs.

(** ** Theorems *)

(** C34: Shared memory: allocation returns a frame that was free, cleared; attaching it maps it
    at the first free entry of the first page table, where the processor then finds it, and
    no other user address translates differently; detaching restores the state and freeing
    restores the bitmap. *)
Theorem shared_memory_roundtrip kpt s D T i :
  sys_ok kpt s -> space_ok kpt s D -> own_table kpt s D T -> free_entry s T i -> i < 1024 ->
  rd (pmem s) (T + 4 * i) = 0 -> at_least (slot_free kpt s) 2 -> at_least (frame_free s) 1 ->
  exists f s1 s2 s3,
    _meminfo kpt D 1 0 s = Ok (f, s1) /\ fresh_frame kpt s s1 f /\
    (forall k, 0 <= k < 1024 -> rd (pmem s1) (f + 4 * k) = 0) /\
    _meminfo kpt D 2 f s1 = Ok (4096 * i, s2) /\ walk (pmem s2) D (4096 * i) = SmallPage f /\
    (forall va, user_address va -> va / 4096 <> i -> walk (pmem s2) D va = walk (pmem s) D va) /\
    _meminfo kpt D 3 (4096 * i) s2 = Ok (0, s1) /\
    _meminfo kpt D 4 f s1 = Ok (0, s3) /\ frames s3 = frames s /\
    (forall pa, 0 <= pa -> is_free (frames s) (pa / 4096) = false -> rd (pmem s3) pa = rd (pmem s) pa).
Proof.
  intros Hs Hsp Hown Hfe Hi Hz Hsl Hfr.
  destruct (shared_mem_alloc_ok kpt s Hs (at_least_fewer _ _ 1 Hsl ltac:(lia)) Hfr) as (f & s1 & E1 & Hf & He & Hlim & Hzero & Hbits).
  pose proof Hf as (Hfa & Hfr' & Hff & Hft & Hfk). pose proof (ex_sys _ _ _ He) as Hs1. pose proof (so_vm _ _ Hs1) as Hv1.
  destruct (own_table_ext kpt s s1 D T i Hs Hsp Hown Hfe He) as (Hown1 & Hfe1 & HwT & Hwalk).
  pose proof (ext_slots kpt s s1 2 Hs He Hsl) as Hsl1. pose proof Hfe as (Hi1 & _).
  destruct (shared_mem_attach_ok kpt s1 D T f i Hv1 (so_phys _ _ Hs1) (proj1 Hown1) Hsl1 Hfr') as (s2 & E2 & Hv2 & Hf2 & Hr2); try done.
  { by rewrite (ex_limit _ _ _ He). }
  rewrite (proj2 (Z.ltb_lt i 1024)) in E2, Hr2 by done.
  destruct (attached_walk kpt s1 s2 D T i (Z.lor f 7) Hv1 Hown1 ltac:(lia) Hr2) as [Hat Hrest].
  destruct (attached_entry f Hfa Hfr') as [Hp7 Hpg7].
  destruct (write_at_first kpt s1 s2 D T i (Z.lor f 7) 2 Hv1 (proj1 Hown1) (proj1 (proj2 (proj2 Hown1))) ltac:(lia) Hr2 Hsl1)
    as [Hft2 Hsl2].
  destruct (shared_mem_detach_ok kpt s2 D T (4096 * i) Hv2 Hft2 Hsl2 ltac:(lia)) as (s1' & E3 & Hv3 & Hf3 & Hr3).
  assert (s1' = s1) as ->.
  { apply (mmu_ext kpt); try done; [congruence|]. intros pa. rewrite Hr3, Hr2. unfold write_at.
    rewrite (Z.mul_comm 4096), Z.div_mul, Z.mod_small by lia.
    destruct (Z.eqb_spec pa (T + 4 * i)) as [->|]; [|done]. by rewrite HwT by lia. }
  destruct (frame_index f Hfr') as [Es Hn].
  destruct (release_frame_ok s1 (f / 4096) (so_phys _ _ Hs1) Hn) as (p & E4 & [Hpw Hpl Hpf]).
  exists f, s1, s2, (set_frames p s1). split_and!; try done.
  - by rewrite Hat, Hpg7.
  - intros va Hva Hne. by rewrite Hrest, Hwalk.
  - change (_meminfo kpt D 4 f s1) with (shared_mem_free f s1). unfold shared_mem_free, bind. by rewrite Es, E4.
  - apply phys_ext; [done|apply Hs|cbn; by rewrite Hpl, (ex_limit _ _ _ He)|]. intros m Hm. cbn [frames set_frames].
    specialize (Hpf m Hm). rewrite Hbits in Hpf by done. destruct (Z.eqb_spec m (f / 4096)) as [Em|Hne].
    + rewrite Em in *. rewrite Hff. by apply Hpf; right.
    + destruct (is_free p m), (is_free (frames s) m); try done; [by destruct (proj1 Hpf eq_refl)|].
      by apply Hpf; left.
  - apply He.
Qed.

(** C38: A frame that a process attached is released when that process exits, whoever else has
    it attached: the other process [D'] still finds it at its address, while the bitmap
    says that it is free. *)
Theorem exit_frees_shared kpt s D D' va va' f :
  sys_ok kpt s -> exitable kpt s D -> at_least (slot_free kpt s) 2 -> va / 2 ^ 22 < 1023 ->
  user_address va -> video (va / 2 ^ 22) ((va / 4096) mod 1024) = false ->
  walk (pmem s) D va = SmallPage f -> walk (pmem s) D' va' = SmallPage f ->
  exists s', exit_memory kpt D s = Ok (tt, s') /\ walk (pmem s') D' va' = SmallPage f /\
    is_free (frames s') (f / 4096) = true.
Proof.
  intros Hs Hex Hsl Hlt Hu Hv Hw Hw'. pose proof Hu as [Hr _]. pose proof (pgdir_i_range va Hr) as Hi.
  pose proof (page_index va) as Hj.
  destruct (exit_memory_ok kpt s D (so_vm _ _ Hs) (so_phys _ _ Hs) Hex Hsl) as (p & E & [_ _ F]).
  exists (set_frames p s). split; [done|]. split; [done|]. cbn [frames set_frames].
  pose proof (user_has_table s D va f Hu Hw) as Hh. pose proof Hh as [Hp _]%andb_true_iff.
  assert (pd_page_size (rd (pmem s) (D + 4 * (va / 2 ^ 22))) = false) as Hb.
  { destruct (pd_page_size (rd (pmem s) (D + 4 * (va / 2 ^ 22)))) eqn:Hb; [|done].
    unfold walk in Hw. rewrite Hp in Hw. cbn [negb] in Hw. by rewrite Hb in Hw. }
  rewrite (walk_table (pmem s) D va _ eq_refl Hp Hb) in Hw. cbv zeta in Hw.
  change (page_of (rd (pmem s) (D + 4 * (va / 2 ^ 22)))) with (table_of s D (va / 2 ^ 22)) in Hw.
  set (e := rd (pmem s) (table_of s D (va / 2 ^ 22) + 4 * ((va / 4096) mod 1024))) in Hw.
  destruct (pt_present e) eqn:He; [|done]. injection Hw as <-.
  assert (page_of e / 4096 = e / 4096) as Ee by (unfold page_of; by rewrite Z.div_mul by lia).
  assert (0 <= e) by (apply rd_range, (vo_words _ _ (vw_ok _ _ (so_vm _ _ Hs)))).
  apply F; [apply div_nonneg; unfold page_of; apply Z.mul_nonneg_nonneg; [by apply div_nonneg|lia]|].
  right. right. exists (va / 2 ^ 22). split; [lia|]. split.
  - unfold tabled. rewrite Hb, (proj2 (Z.eqb_neq _ 0)); [done|]. by apply present_nonzero.
  - right. exists ((va / 4096) mod 1024). split; [done|]. split; [by apply present_nonzero|]. by split; [|rewrite Ee].
Qed.

(** *** Examples *)

Lemma fork_own : own_table 0x1000 fork_mmu 0x2000 0x4000.
Proof.
  split; [by split_and!|]. split; [reflexivity|]. split; [done|]. split.
  - intros i Hi Hh. by destruct (proj2 fork_space i Hi Hh).
  - intros i Hi [Hp Hsh]%andb_true_iff. pose proof (fork_present 0x2000 i ltac:(lia) ltac:(done) Hp) as Hin.
    assert (i = 1 \/ i = 1023) as [-> | ->] by (rewrite !elem_of_cons, elem_of_nil in Hin; lia); [|done].
    apply Z.eqb_neq. vm_compute. reflexivity.
Qed.

Lemma shared_memory_roundtrip_witness :
  exists f s1 s2, _meminfo 0x1000 0x2000 1 0 fork_mmu = Ok (f, s1) /\ is_free (frames fork_mmu) (f / 4096) = true /\
    _meminfo 0x1000 0x2000 2 f s1 = Ok (0x1000, s2) /\ walk (pmem s2) 0x2000 0x1000 = SmallPage f /\
    _meminfo 0x1000 0x2000 3 0x1000 s2 = Ok (0, s1).
Proof.
  destruct (shared_memory_roundtrip 0x1000 fork_mmu 0x2000 0x4000 1)
    as (f & s1 & s2 & s3 & E1 & (_ & _ & Hf & _) & _ & E2 & Hw & _ & E3 & _).
  - apply fork_sys.
  - apply fork_space.
  - apply fork_own.
  - split; [lia|]. split; [intros j Hj; lia|]. intros _. reflexivity.
  - lia.
  - reflexivity.
  - eapply at_least_fewer; [exact fork_slots|lia].
  - exists [32]. split; [apply NoDup_singleton|]. split; [reflexivity|]. repeat constructor; try lia; apply fork_free; lia.
  - exists f, s1, s2. split; [exact E1|]. split; [exact Hf|]. split; [exact E2|]. split; [exact Hw|exact E3].
Defined.

(** A second directory at 0x8000, with a table at 0x9000 that maps the page at 0x7000 too. *)
Definition share_mmu : mmu := poke 0x8000 0x9007 (poke 0x9004 0x7007 fork_mmu).

Lemma share_word pa : pa < 0x8000 -> rd (pmem share_mmu) pa = rd (pmem fork_mmu) pa.
Proof. intros Hpa. unfold share_mmu, poke. cbn [pmem set_pmem]. by rewrite !rd_wr, !(proj2 (Z.eqb_neq _ _)) by lia. Qed.

Lemma share_sys : sys_ok 0x1000 share_mmu.
Proof. destruct fork_sys as [Hv Hp Hk]. split; [|done|done]. by do 2 (apply poke_vm; [|done|lia]). Qed.

Lemma exit_frees_shared_witness :
  exists s', exit_memory 0x1000 0x2000 share_mmu = Ok (tt, s') /\
    walk (pmem s') 0x8000 0x1000 = SmallPage 0x7000 /\ is_free (frames s') 7 = true.
Proof.
  destruct (exit_frees_shared 0x1000 share_mmu 0x2000 0x8000 0x405000 0x1000 0x7000) as (s' & E & Hw & Hf).
  - apply share_sys.
  - destruct fork_exitable as (H1 & H2 & H3 & H4). split; [exact H1|]. split; [exact H2|]. split; [exact H3|].
    intros i Hi. unfold tabled, table_of. rewrite !share_word by lia. exact (H4 i Hi).
  - exists [1; 2]. split; [apply (bool_decide_unpack _); vm_compute; exact I|]. split; [reflexivity|].
    repeat constructor; try lia.
  - vm_compute. reflexivity.
  - split; [lia|reflexivity].
  - reflexivity.
  - reflexivity.
  - reflexivity.
  - exists s'. split; [exact E|]. split; [exact Hw|exact Hf].
Defined.
