(* ===== verification/KThread.v ===== *)
(** * Kernel threads

    [create_kernel_thread_args], [start_kernel_thread] and [begin_kernel_threads] of
    kernel.c, with the end of [_sw_jmp_task] of sched/task.S, by which a new thread starts.
    A thread gets a stack in kernel memory on which the code prepares a call: the address
    of [exit_kernel_thread] to return to, then the arguments.  [duplicate_TSS] puts the
    program point to start from in the place of the former, so the thread starts with its
    stack one word off; the theorem of this file says what it finds there. *)

From Stdlib Require Import ZArith Lia.
From S2P Require Import Prelude TaskQueue Physical Virtual VirtualThm Clone CloneThm Exit.
From S2P Require Import VcpuSched SchedTheorems Waitqueue Sleep Semaphore Process ProcessThm ForkThm.
From stdpp Require Import base gmap sets fin_sets numbers strings list.
Local Open Scope Z_scope.

(** ** Data *)

Record kernel (W : Type) := mkKernel {
  k_proc : proc W;
  kernel_threads_running : bool;
  kernel_thread_waitq : Z
}.
Arguments mkKernel {W}.
Arguments k_proc {W}.
Arguments kernel_threads_running {W}.
Arguments kernel_thread_waitq {W}.

(** ** Operations *)

Section ops.
Context {W : Type} `{Scheduler W}.
(** The kernel page table; the address of the first page directory; the address of
    [exit_kernel_thread]; the flags register. *)
Context (kpt page_dir exit_kernel_thread eflags : Z).

Definition on_proc {A} (m : M (proc W) A) : M (kernel W) A :=
  fun k => match m (k_proc k) with
           | Ok (a, p) => Ok (a, mkKernel p (kernel_threads_running k) (kernel_thread_waitq k))
           | Err e => Err e
           end.

(** [for (i=0; i<n; i++) stack[i+1] = va_arg (args, uint);] *)
Definition push_body (stack : Z) (args : list Z) (i : Z) : M mmu (control Z unit) :=
  if i <? Z.of_nat (length args) then
    let! a := lift (of_option OutOfBounds (args !! Z.to_nat i)) in
    vwrite kpt (entry stack (i + 1)) a ;;!
    ret (Continue (i + 1))
  else ret (Break tt).

(** From [esp -= sizeof (void * ) * (n + 1)] to the setting of the priority. *)
Definition make_thread (eip esp : Z) (args : list Z) : M (proc W) Z :=
  let n := Z.of_nat (length args) in
  let stack := u32 (esp - 4 * (n + 1)) in
  on_mmu (mloop (S (length args)) (push_body stack args) 0) ;;!
  on_mmu (vwrite kpt (entry stack 0) exit_kernel_thread) ;;!
  let! pid := duplicate_TSS kpt eip 0 stack eflags page_dir in
  let! t := on_world (get_tss pid) in
  on_world (put_tss pid (set_priority 0x1f t)) ;;!
  ret pid.

(** [if (kernel_threads_running) wakeup (pid); else queue_append (&kernel_thread_waitq, pid);] *)
Definition start_thread (pid : Z) : M (kernel W) unit :=
  let! running := gets kernel_threads_running in
  if running : bool then on_proc (on_world (wakeup pid))
  else
    let! waitq := gets kernel_thread_waitq in
    let! q := on_proc (on_world (put_on waitq pid)) in
    modify (fun k => mkKernel (k_proc k) (kernel_threads_running k) q).

Definition create_kernel_thread_args (eip esp : Z) (run : bool) (args : list Z) : M (kernel W) Z :=
  let! pid := on_proc (make_thread eip esp args) in
  when run (start_thread pid) ;;!
  ret pid.

Definition start_kernel_thread (eip esp : Z) : M (kernel W) Z := create_kernel_thread_args eip esp true [].

Definition begin_kernel_threads : M (kernel W) unit :=
  let! running := gets kernel_threads_running in
  when (negb running)
    (let! waitq := gets kernel_thread_waitq in
     let! q := on_proc (on_world (wakeup_queue waitq)) in
     modify (fun k => mkKernel (k_proc k) true q)).

(** The end of [_sw_jmp_task] for a thread of the kernel, whose page directory is not
    loaded: the stack pointer, the flags by way of the stack, and [ret].  The result is
    the program point and the stack pointer. *)
Definition enter_task (t : quest_tss) : M mmu (Z * Z) :=
  vwrite kpt (u32 (tss_ESP t - 4)) (tss_EFLAGS t) ;;!
  let! eip := vread kpt (tss_ESP t) in
  ret (eip, u32 (tss_ESP t + 4)).
End ops.

(** ** Words on a stack *)

Fixpoint pokes (pa : Z) (l : list Z) (s : mmu) : mmu :=
  match l with
  | [] => s
  | v :: l => pokes (pa + 4) l (poke pa v s)
  end.

Lemma rd_poke s pa v pa' : rd (pmem (poke pa v s)) pa' = if pa' =? pa then v else rd (pmem s) pa'.
Proof. unfold poke. cbn [pmem set_pmem]. apply rd_wr. Qed.

Lemma pokes_frames pa l s : frames (pokes pa l s) = frames s.
Proof. revert pa s. induction l as [|v l IH]; intros pa s; [done|]. cbn. by rewrite IH. Qed.

Lemma pokes_outside pa l s pa' : (pa' < pa \/ pa + 4 * Z.of_nat (length l) <= pa') ->
  rd (pmem (pokes pa l s)) pa' = rd (pmem s) pa'.
Proof.
  revert pa s. induction l as [|v l IH]; intros pa s Hpa; [done|]. cbn [pokes length] in *.
  rewrite IH by lia. by rewrite rd_poke, (proj2 (Z.eqb_neq _ _)) by lia.
Qed.

Lemma pokes_word pa l s i v : l !! i = Some v -> rd (pmem (pokes pa l s)) (pa + 4 * Z.of_nat i) = v.
Proof.
  revert pa s i. induction l as [|x l IH]; intros pa s [|i] Hi; try done.
  - injection Hi as <-. cbn [pokes]. rewrite pokes_outside by lia. by rewrite rd_poke, (proj2 (Z.eqb_eq _ _)) by lia.
  - cbn [pokes]. rewrite <- (IH (pa + 4) (poke pa x s) i Hi). f_equal. lia.
Qed.

Section memory.
Context (kpt : Z).
Notation pte := (pte kpt).
Notation upd_pte := (upd_pte kpt).
Notation vm_wf := (vm_wf kpt).
Notation sys_ok := (sys_ok kpt).
Notation slot_free := (slot_free kpt).
Notation slot_maps := (slot_maps kpt).

Lemma poke_sys s pa v : sys_ok s -> pa / 4096 <> kpt / 4096 -> 0 <= v < 2 ^ 32 -> sys_ok (poke pa v s).
Proof. intros [Hv Hp Hk] Hpa Hr. split; [by apply poke_vm|done|done]. Qed.

Lemma poke_pte s pa v i : vm_wf s -> pa / 4096 <> kpt / 4096 -> 0 <= i < 1024 -> pte (poke pa v s) i = pte s i.
Proof.
  intros Hs Hpa Hi. unfold Virtual.pte. rewrite rd_poke, (proj2 (Z.eqb_neq _ _)); [done|]. intros <-. apply Hpa.
  apply frame_word; [|done]. apply (vm_kpt kpt s (vw_ok _ _ Hs)).
Qed.

Lemma poke_maps s pa v i f : vm_wf s -> pa / 4096 <> kpt / 4096 -> slot_maps s i f -> slot_maps (poke pa v s) i f.
Proof. intros Hs Hpa (Hi & H1 & H2). unfold Clone.slot_maps. by rewrite poke_pte. Qed.

Lemma pokes_slots pa l s n : vm_wf s -> (forall i, 0 <= i < 1024 -> pte (pokes pa l s) i = pte s i) ->
  at_least (slot_free s) n -> at_least (slot_free (pokes pa l s)) n.
Proof. intros Hs Hp Hsl. eapply at_least_mono; [exact Hsl|]. intros x [Hx H0]. split; [done|]. by rewrite Hp. Qed.

(** The stack page is the frame [f] at slot [j]; the words from number [c] on. *)
Section stack.
Context (j f : Z) (Hf : f mod 4096 = 0) (Hfk : f / 4096 <> kpt / 4096).

Lemma stack_entry c i : 0 <= j < 1024 -> 0 <= c -> 0 <= i -> c + i < 1024 ->
  entry (kernelstart + 4096 * j + 4 * c) i = entry (kernelstart + 4096 * j) (c + i).
Proof. intros. unfold entry. f_equal. lia. Qed.

Lemma push_one s c v : sys_ok s -> slot_maps s j f -> 0 <= c < 1024 -> 0 <= v < 2 ^ 32 ->
  vwrite kpt (entry (kernelstart + 4096 * j) c) v s = Ok (tt, poke (f + 4 * c) v s) /\
  sys_ok (poke (f + 4 * c) v s) /\ (forall i, 0 <= i < 1024 -> pte (poke (f + 4 * c) v s) i = pte s i) /\
  slot_maps (poke (f + 4 * c) v s) j f.
Proof using Hf Hfk.
  intros Hs Hm Hc Hv. pose proof (so_vm _ _ Hs) as Hvm. rewrite <- (frame_word f c Hf Hc) in Hfk.
  split; [apply write_slot; try done; by rewrite frame_word in Hfk|]. split; [by apply poke_sys|]. split; [|by apply poke_maps].
  intros i Hi. by apply poke_pte.
Qed.

Lemma push_loop args c : forall l s i, 0 <= c -> args = take (Z.to_nat i) args ++ l ->
  0 <= i -> Z.of_nat (length args) = i + Z.of_nat (length l) -> c + 1 + Z.of_nat (length args) <= 1024 ->
  Forall (fun v => 0 <= v < 2 ^ 32) l -> sys_ok s -> slot_maps s j f ->
  let s' := pokes (f + 4 * (c + 1 + i)) l s in
  mloop (S (length l)) (push_body kpt (kernelstart + 4096 * j + 4 * c) args) i s = Ok (tt, s') /\
  sys_ok s' /\ (forall k, 0 <= k < 1024 -> pte s' k = pte s k) /\ slot_maps s' j f.
Proof using Hf Hfk.
  induction l as [|v l IH]; intros s i Hc Hargs Hi Hlen Hroom Hl Hs Hm s'; cbn [length] in *.
  - split; [|done]. rewrite mloop_S. unfold push_body. by rewrite (proj2 (Z.ltb_ge _ _)) by lia.
  - apply Forall_cons in Hl as [Hv Hl]. pose proof Hm as [Hj _].
    assert (args !! Z.to_nat i = Some v) as Hget.
    { rewrite Hargs, lookup_app_r, length_take_le, Nat.sub_diag by (rewrite ?length_take; lia). done. }
    destruct (push_one s (c + 1 + i) v Hs Hm ltac:(lia) Hv) as (E & Hs1 & Hp1 & Hm1).
    destruct (IH (poke (f + 4 * (c + 1 + i)) v s) (i + 1)) as (E' & Hs2 & Hp2 & Hm2); try done; try lia.
    { rewrite Hargs at 1. replace (Z.to_nat (i + 1)) with (S (Z.to_nat i)) by lia.
      by rewrite (take_S_r _ _ _ Hget), <- app_assoc. }
    unfold s'. cbn [pokes]. replace (f + 4 * (c + 1 + i) + 4) with (f + 4 * (c + 1 + (i + 1))) by lia.
    split; [|split; [done|split; [|done]]; intros k Hk; by rewrite Hp2, Hp1].
    rewrite mloop_S. unfold push_body at 1. rewrite (proj2 (Z.ltb_lt _ _)) by lia.
    rewrite Hget, stack_entry by lia. replace (c + (i + 1)) with (c + 1 + i) by lia.
    rewrite (bind_Ok_eq _ _ s (Continue (i + 1)) (poke (f + 4 * (c + 1 + i)) v s)); [exact E'|].
    unfold bind, lift, of_option. by rewrite E.
Qed.
End stack.

(** The frame of a page of the kernel window, through a directory whose last entry leads
    to the kernel page table. *)
Definition kernel_dir (s : mmu) (D : Z) : Prop :=
  let e := rd (pmem s) (D + 4 * 1023) in pt_present e = true /\ pd_page_size e = false /\ page_of e = kpt.

Lemma kernel_index j o : 0 <= j < 1024 -> 0 <= o < 4096 ->
  (kernelstart + 4096 * j + o) / 2 ^ 22 = 1023 /\ ((kernelstart + 4096 * j + o) / 4096) mod 1024 = j /\
  (kernelstart + 4096 * j + o) mod 4096 = o /\ 0 <= kernelstart + 4096 * j + o < 2 ^ 32.
Proof.
  intros Hj Ho. unfold kernelstart.
  assert ((0xFFC00000 + 4096 * j + o) / 4096 = 1023 * 1024 + j) as E.
  { symmetry. apply (Z.div_unique_pos _ _ _ o); lia. }
  split_and!; [symmetry; apply (Z.div_unique_pos _ _ _ (4096 * j + o)); lia| | |lia|lia].
  - rewrite E. symmetry. apply (Z.mod_unique_pos _ _ 1023); lia.
  - symmetry. apply (Z.mod_unique_pos _ _ (1023 * 1024 + j)); lia.
Qed.

Lemma get_frame_kernel s d D j f o : vm_wf s -> slot_maps s d D -> kernel_dir s D -> at_least (slot_free s) 1 ->
  slot_maps s j f -> 0 <= o < 4096 ->
  pgdir_get_frame kpt (mkPgdir D (kernelstart + 4096 * d)) (Z.land (kernelstart + 4096 * j + o) (u32 (Z.lnot 0xFFF))) s = Ok (f, s).
Proof.
  intros Hs Hd (Hp & Hb & Hk) Hsl (Hj & Hpj & Hfj) Ho. destruct (kernel_index j o Hj Ho) as (E1 & E2 & E3 & Hr).
  set (va := kernelstart + 4096 * j + o) in *. change 0xFFF with (PAGE_SIZE - 1). rewrite VirtualThm.page_of by done.
  rewrite (pgdir_get_frame_ok kpt s); cbn [dir_pa dir_va].
  - rewrite walk_page. erewrite walk_table; [|by rewrite E1|done|done]. cbv zeta. rewrite Hk, E2.
    change (rd (pmem s) (kpt + 4 * j)) with (pte s j). rewrite Hpj. cbn [frame_of].
    rewrite <- Hfj, frame_mask_div by (by apply pte_range, Hs). done.
  - done.
  - destruct (at_least_one _ _ Hsl) as (x & Hx). by exists x.
  - exists d. destruct Hd as (? & Hp1 & Hl1). split_and!; (done || lia).
  - pose proof (Z.div_mod va 4096 ltac:(lia)). pose proof (Z.mod_pos_bound va 4096 ltac:(lia)). lia.
  - assert (va / 4096 * 4096 / 2 ^ 22 = va / 2 ^ 22) as ->
      by (change (2 ^ 22) with (4096 * 1024); rewrite <- !Z.div_div, Z.div_mul by lia; done).
    rewrite Z.div_mul, E1, E2 by lia. change (_ / 4096 * 4096) with (page_of (rd (pmem s) (D + 4 * 1023))). rewrite Hk.
    intros x Hx Hx0 E. assert (x = j) as -> by lia. by rewrite Hx0 in Hpj.
Qed.
(** The page of the stack and the directory are in use, and different. *)
Record thread_space (s : mmu) (D j f : Z) : Prop := mkThreadSpace {
  th_dir_aligned : D mod 4096 = 0;
  th_dir_range : 0 <= D < 2 ^ 32;
  th_dir_used : in_use kpt s D;
  th_dir : kernel_dir s D;
  th_stack : slot_maps s j f;
  th_stack_used : in_use kpt s f;
  th_apart : f / 4096 <> D / 4096
}.

Lemma dir_word_agree s s' D : rd (pmem s') (D + 4 * 1023) = rd (pmem s) (D + 4 * 1023) -> kernel_dir s D -> kernel_dir s' D.
Proof. unfold kernel_dir. by intros ->. Qed.

Lemma thread_memory_ok s D j f c args eip x :
  sys_ok s -> thread_space s D j f -> 0 <= c -> c + 1 + Z.of_nat (length args) <= 1024 ->
  Forall (fun v => 0 <= v < 2 ^ 32) args -> 0 <= eip < 2 ^ 32 -> 0 <= x < 2 ^ 32 ->
  at_least (slot_free s) 3 -> at_least (frame_free s) 1 ->
  let stack := kernelstart + 4096 * j + 4 * c in
  exists m1 m2 k s3 s4,
    mloop (S (length args)) (push_body kpt stack args) 0 s = Ok (tt, m1) /\
    vwrite kpt (entry stack 0) x m1 = Ok (tt, m2) /\
    new_tss_page kpt m2 = Ok (kernelstart + 4096 * k, s3) /\
    set_child_eip kpt eip stack D s3 = Ok (tt, s4) /\ 0 <= k < 1024 /\ vm_wf s4 /\ slot_maps s4 j f /\
    forall i, 0 <= i < 1024 -> rd (pmem s4) (f + 4 * i) =
      if i =? c then eip else rd (pmem (pokes (f + 4 * (c + 1)) args s)) (f + 4 * i).
Proof.
  intros Hs [HDa HDr [HDu HDk] HD Hm [Hfu Hfk] Hfd] Hc Hroom Hargs Heip Hx Hsl Hfr stack.
  pose proof Hm as [Hj _]. destruct (slot_maps_aligned _ _ _ _ (so_vm _ _ Hs) Hm) as [Hfa Hfr'].
  assert (forall i, 0 <= i < 1024 -> (f + 4 * i) / 4096 = f / 4096) as Hin by (intros; by apply frame_word).
  assert ((D + 4 * 1023) / 4096 = D / 4096) as HD1023 by (by apply frame_word).
  destruct (push_loop j f Hfa Hfk args c args s 0) as (E1 & Hs1 & Hp1 & Hm1); try done; try lia.
  replace (c + 1 + 0) with (c + 1) in * by lia. set (m1 := pokes _ args s) in *.
  destruct (push_one j f Hfa Hfk m1 c x Hs1 Hm1 ltac:(lia) Hx) as (E2 & Hs2 & Hp2 & Hm2). set (m2 := poke _ x m1) in *.
  assert (forall i, 0 <= i < 1024 -> pte m2 i = pte s i) as Hp by (intros i Hi; by rewrite Hp2, Hp1).
  assert (frames m2 = frames s) as Ef by (apply pokes_frames).
  assert (at_least (slot_free m2) 3) as Hsl2.
  { eapply at_least_mono; [exact Hsl|]. intros y [Hy H0]. split; [done|]. by rewrite Hp. }
  destruct (new_tss_page_ok kpt m2 2 Hs2 Hsl2) as (F & k & s3 & E3 & Hk & Hkn & Hk0 & HF & Hs3' & Hext & Hsl3).
  { eapply at_least_mono; [exact Hfr|]. intros y. unfold frame_free. by rewrite Ef. }
  pose proof (ex_sys _ _ _ Hext) as Hs3.
  assert (forall pa, 0 <= pa -> pa / 4096 <> kpt / 4096 -> is_free (frames s) (pa / 4096) = false ->
            rd (pmem s3) pa = rd (pmem m2) pa) as Hkeep.
  { intros pa H0 Hne Hu. rewrite (ex_mem _ _ _ Hext); [|done|by rewrite <- Ef in Hu]. apply rd_upd. intros ->. apply Hne.
    apply frame_word; [apply (vm_kpt kpt s (vw_ok _ _ (so_vm _ _ Hs)))|done]. }
  assert (slot_maps s3 j f) as Hm3.
  { apply (ext_slot kpt _ _ _ _ Hs3' Hext). destruct Hm2 as (_ & H1 & H2). unfold Clone.slot_maps.
    rewrite pte_upd, (proj2 (Z.eqb_neq j k)); [done|]. intros ->. by rewrite Hk0 in H1. }
  assert (kernel_dir s3 D) as HD3.
  { apply (dir_word_agree s); [|done]. rewrite Hkeep by (lia || by rewrite HD1023). unfold m2, m1.
    assert (forall i, 0 <= i < 1024 -> D + 4 * 1023 <> f + 4 * i) as Hne.
    { intros i Hi E. apply (f_equal (fun x => x / 4096)) in E. rewrite HD1023, Hin in E by done. congruence. }
    rewrite rd_poke, (proj2 (Z.eqb_neq _ _)) by (by apply Hne; lia). apply pokes_outside.
    destruct (Z_lt_le_dec (D + 4 * 1023) (f + 4 * (c + 1))); [by left|right].
    destruct (Z_lt_le_dec (D + 4 * 1023) (f + 4096)); [|lia]. exfalso. apply Hfd. rewrite <- HD1023.
    pose proof (Z.div_mod f 4096 ltac:(lia)). apply (Z.div_unique_pos _ _ _ (D + 4 * 1023 - f)); lia. }
  destruct (kernel_index j (4 * c) Hj ltac:(lia)) as (_ & _ & Eoff & _). fold stack in Eoff.
  destruct (set_word_ok kpt s3 D stack eip f (so_vm _ _ Hs3) HDa HDr) as (s4 & E4 & Hv4 & _ & Hr4); try done.
  { eapply (ext_slots kpt); [exact Hs3'|exact Hext|exact Hsl3]. }
  { pose proof (Z.div_mod stack 4096 ltac:(lia)). rewrite Eoff in *.
    replace stack with ((1024 * (stack / 4096) + c) * 4) by lia. by apply Z.mod_mul. }
  { intros a s1 Ha Ha0 Hs1' Hma Hsla. apply get_frame_kernel; try done; [| |lia].
    - apply (dir_word_agree s3); [|done]. apply rd_upd. intros E. apply HDk. rewrite <- HD1023, E.
      apply frame_word; [apply (vm_kpt kpt s (vw_ok _ _ (so_vm _ _ Hs)))|done].
    - destruct Hm3 as (_ & H1 & H2). unfold Clone.slot_maps. unfold s1. rewrite pte_upd, (proj2 (Z.eqb_neq j a)); [done|].
      intros ->. by rewrite Ha0 in H1. }
  rewrite Eoff in Hr4. exists m1, m2, k, s3, s4. split_and!; try done; try lia.
  - unfold stack. rewrite stack_entry by lia. by rewrite Z.add_0_r.
  - destruct Hm3 as (_ & H1 & H2). unfold Clone.slot_maps, Virtual.pte. rewrite Hr4, (proj2 (Z.eqb_neq _ _)); [done|].
    intros E. apply Hfk. rewrite <- (Hin c), <- E by lia.
    apply frame_word; [apply (vm_kpt kpt s (vw_ok _ _ (so_vm _ _ Hs)))|done].
  - intros i Hi. rewrite Hr4. destruct (Z.eqb_spec i c) as [->|Hne]; [by rewrite Z.eqb_refl|].
    rewrite (proj2 (Z.eqb_neq _ _)) by lia. rewrite Hkeep by (lia || by rewrite Hin). unfold m2.
    by rewrite rd_poke, (proj2 (Z.eqb_neq _ _)) by lia.
Qed.
End memory.

(** ** Threads *)

Section threads.
Context {W : Type} `{TaskingLaws W}.
Context (kpt page_dir exit_kernel_thread eflags : Z).

Lemma make_thread_ok (p : proc W) eip esp args stack m1 m2 k s3 s4 i d :
  u32 (esp - 4 * (Z.of_nat (length args) + 1)) = stack ->
  mloop (S (length args)) (push_body kpt stack args) 0 (p_mmu p) = Ok (tt, m1) ->
  vwrite kpt (entry stack 0) exit_kernel_thread m1 = Ok (tt, m2) ->
  new_tss_page kpt m2 = Ok (kernelstart + 4096 * k, s3) -> set_child_eip kpt eip stack page_dir s3 = Ok (tt, s4) ->
  first_free (p_gdt p) i d ->
  make_thread kpt page_dir exit_kernel_thread eflags eip esp args p = Ok (8 * i,
    mkProc s4 (<[Z.to_nat i := tss_descriptor (kernelstart + 4096 * k) d]> (p_gdt p))
      (w_set_tasks (<[8 * i := set_priority 0x1f (child_tss eip 0 stack eflags page_dir)]> (w_tasks (p_world p))) (p_world p))).
Proof.
  intros Estack E1 E2 E3 E4 Hfree. unfold make_thread. rewrite Estack. unfold on_mmu, bind at 1. rewrite E1.
  unfold bind at 1. cbn [p_mmu p_gdt p_world]. rewrite E2.
  erewrite bind_Ok_eq by (by apply (duplicate_TSS_ok kpt (mkProc m2 (p_gdt p) (p_world p)) eip 0 stack eflags page_dir i d k s3 s4)).
  cbn [p_mmu p_gdt p_world]. unfold on_world, get_tss, bind at 1, bind at 1, gets, lift, TaskQueue.lookup_TSS.
  cbn [p_mmu p_gdt p_world]. rewrite tasks_set, lookup_insert_eq. cbn [of_option].
  unfold bind, put_tss, modify, ret. cbn [p_mmu p_gdt p_world]. by rewrite tasks_set, set_twice, insert_insert_eq.
Qed.

(** Starting a thread before the scheduler runs queues it; after that, it is ready. *)
Lemma start_thread_ok (k : kernel W) pid l :
  w_inv (p_world (k_proc k)) -> chain (w_tasks (p_world (k_proc k))) (kernel_thread_waitq k) l ->
  sleeping (p_world (k_proc k)) l -> wakeable (p_world (k_proc k)) pid -> ~ ready (p_world (k_proc k)) pid ->
  wp (start_thread pid) (fun _ k' =>
    let w := p_world (k_proc k) in let w' := p_world (k_proc k') in
    w_inv w' /\ kernel_threads_running k' = kernel_threads_running k /\
    if kernel_threads_running k then forall y, ready w' y <-> ready w y \/ y = pid
    else chain (w_tasks w') (kernel_thread_waitq k') (append_spec l pid) /\ sleeping w' (append_spec l pid) /\
         forall y, ready w' y <-> ready w y) k.
Proof.
  intros Hi Hc Hs Hw Hr. unfold start_thread. apply wp_bind, wp_gets.
  destruct (kernel_threads_running k) eqn:Erun.
  - destruct (proj1 (wp_Ok _ _ _) (wakeup_ok _ _ Hi Hw)) as ([] & w' & E & Hi' & _ & _ & Hr' & _).
    apply wp_Ok. eexists tt, _. unfold on_proc, on_world. rewrite E. split; [done|]. cbn [k_proc p_world kernel_threads_running].
    by rewrite Erun.
  - apply wp_bind, wp_gets, wp_bind.
    destruct (proj1 (wp_Ok _ _ _) (put_on_wp _ _ _ _ Hi Hc Hs Hw Hr)) as (q & w' & E & Hi' & Hc' & Hs' & _ & Hr').
    apply wp_Ok. eexists q, _. unfold on_proc, on_world. rewrite E. split; [done|]. apply wp_modify.
    cbn [k_proc p_world kernel_threads_running kernel_thread_waitq]. by rewrite Erun.
Qed.

(** [begin_kernel_threads] makes exactly the queued threads ready, the first time. *)
Lemma begin_kernel_threads_ok (k : kernel W) l :
  w_inv (p_world (k_proc k)) -> chain (w_tasks (p_world (k_proc k))) (kernel_thread_waitq k) l ->
  sleeping (p_world (k_proc k)) l -> kernel_threads_running k = false ->
  exists k', begin_kernel_threads k = Ok (tt, k') /\ begin_kernel_threads k' = Ok (tt, k') /\
    kernel_threads_running k' = true /\ kernel_thread_waitq k' = 0 /\
    w_inv (p_world (k_proc k')) /\
    forall y, ready (p_world (k_proc k')) y <-> ready (p_world (k_proc k)) y \/ y ∈ l.
Proof.
  intros Hi Hc Hs Hrun.
  destruct (proj1 (wp_Ok _ _ _) (wakeup_queue_wp _ _ _ Hi Hc Hs)) as (q & w' & E & -> & [Hi' _ _ Hr' _]).
  eexists. split; [|split; [|split; [|split; [|split]]]].
  - unfold begin_kernel_threads, bind, gets, when. rewrite Hrun. cbn [negb].
    unfold on_proc, on_world. rewrite E. reflexivity.
  - done.
  - done.
  - done.
  - exact Hi'.
  - exact Hr'.
Qed.
End threads.

(** ** Theorem *)

(** A kernel thread created with the arguments [args] starts at [eip], with the words
    [args ++ [old]] from its stack pointer on, where [old] is the word that was at the top
    of its stack: its first argument is in the place of the return address, every other
    argument one place too low, and in the place of the last one is a word the caller did
    not write.  The address of [exit_kernel_thread] is not on the stack. *)
Theorem kernel_thread_entry {W} `{TaskingLaws W} kpt page_dir exit_kernel_thread eflags (p : proc W) eip args j f c i d :
  sys_ok kpt (p_mmu p) -> thread_space kpt (p_mmu p) page_dir j f ->
  1 <= c -> c + 1 + Z.of_nat (length args) < 1024 ->
  Forall (fun v => 0 <= v < 2 ^ 32) args -> 0 <= eip < 2 ^ 32 -> 0 <= exit_kernel_thread < 2 ^ 32 -> 0 <= eflags < 2 ^ 32 ->
  at_least (slot_free kpt (p_mmu p)) 3 -> at_least (frame_free (p_mmu p)) 1 ->
  first_free (p_gdt p) i d ->
  let n := Z.of_nat (length args) in
  let esp := kernelstart + 4096 * j + 4 * (c + 1 + n) in
  let old := rd (pmem (p_mmu p)) (f + 4 * (c + 1 + n)) in
  exists p' t s, make_thread kpt page_dir exit_kernel_thread eflags eip esp args p = Ok (8 * i, p') /\
    w_tasks (p_world p') !! (8 * i) = Some t /\
    enter_task kpt t (p_mmu p') = Ok ((eip, esp - 4 * n), s) /\
    forall q v, (args ++ [old]) !! q = Some v -> vread kpt (entry (esp - 4 * n) (Z.of_nat q)) s = Ok (v, s).
Proof.
  intros Hs Hsp Hc Hroom Hargs Heip Hx Hfl Hsl Hfr Hfree n esp old. pose proof (th_stack _ _ _ _ _ Hsp) as Hm.
  destruct (thread_memory_ok kpt (p_mmu p) page_dir j f c args eip exit_kernel_thread)
    as (m1 & m2 & k & s3 & s4 & E1 & E2 & E3 & E4 & Hk & Hv4 & Hm4 & Hr4); try done; try lia.
  pose proof Hm as [Hj _]. destruct (slot_maps_aligned _ _ _ _ (so_vm _ _ Hs) Hm) as [Hfa Hfr'].
  pose proof (proj2 (th_stack_used _ _ _ _ _ Hsp)) as Hfk. set (stack := kernelstart + 4096 * j + 4 * c) in *.
  assert (u32 (esp - 4 * (n + 1)) = stack) as Estack by (rewrite u32_small; unfold esp, stack, kernelstart; lia).
  eexists _, _, (poke (f + 4 * (c - 1)) (Z.land eflags 0xFFFFBFFF) s4).
  split; [by eapply make_thread_ok|]. cbn [p_mmu p_gdt p_world]. split; [by rewrite tasks_set, lookup_insert_eq|].
  set (s5 := poke _ _ s4).
  assert (slot_maps kpt s5 j f) as Hm5 by (apply poke_maps; [done| |done]; by rewrite frame_word by lia).
  assert (vm_wf kpt s5) as Hv5.
  { apply poke_vm; [done|by rewrite frame_word by lia|]. change (2 ^ 32) with (2 ^ 32). by apply land_range. }
  assert (forall y, c <= y < 1024 -> vread kpt (entry (kernelstart + 4096 * j) y) s5 = Ok (rd (pmem s4) (f + 4 * y), s5)) as Hrd.
  { intros y Hy. rewrite (read_slot kpt s5 j f y Hv5 Hm5) by lia. unfold s5. by rewrite rd_poke, (proj2 (Z.eqb_neq _ _)) by lia. }
  assert (forall y, 0 <= y < 1024 -> entry (kernelstart + 4096 * j) y = kernelstart + 4096 * j + 4 * y) as Hent.
  { intros y Hy. unfold entry. rewrite u32_small; unfold kernelstart; lia. }
  split.
  - unfold enter_task. cbn [tss_ESP tss_EFLAGS set_priority child_tss].
    erewrite bind_Ok_eq.
    2:{ replace (u32 (stack - 4)) with (entry (kernelstart + 4096 * j) (c - 1)).
        - apply write_slot; try done; lia.
        - rewrite Hent by lia. rewrite u32_small; unfold stack, kernelstart; lia. }
    fold s5. replace stack with (entry (kernelstart + 4096 * j) c) by (by rewrite Hent by lia).
    rewrite (bind_Ok_eq _ _ _ _ _ (Hrd c ltac:(lia))), Hr4, Z.eqb_refl by lia.
    rewrite Hent by lia. unfold ret. rewrite u32_small by (unfold kernelstart; lia). do 3 f_equal. unfold esp. lia.
  - intros q v Hq. assert (Z.of_nat q <= n) as Hqn.
    { apply lookup_lt_Some in Hq. rewrite length_app in Hq. cbn in Hq. lia. }
    replace (esp - 4 * n) with (kernelstart + 4096 * j + 4 * (c + 1)) by (unfold esp; lia).
    rewrite stack_entry, Hrd, Hr4, (proj2 (Z.eqb_neq _ _)) by lia. do 2 f_equal.
    apply lookup_app_Some in Hq as [Hq|[Hlen Hq]].
    + rewrite <- (pokes_word (f + 4 * (c + 1)) args (p_mmu p) q v Hq). f_equal. lia.
    + destruct (q - length args)%nat as [|r] eqn:Er; [|by destruct r]. injection Hq as <-.
      rewrite pokes_outside by lia. unfold old. f_equal. lia.
Qed.

(** *** A thread with two arguments, on a stack in the frame at 0x9000 *)

#[local] Instance thread_scheduler : Scheduler sched := vcpu_scheduler calm_env 0.
#[local] Instance thread_laws : SchedulerLaws sched := vcpu_scheduler_laws calm_env 0 calm_clock.
#[local] Instance thread_register : TaskRegister sched := vcpu_task_register 0.
#[local] Instance thread_tasking : TaskingLaws sched := vcpu_tasking_laws calm_env 0 calm_clock.

Definition thread_proc : proc sched := mkProc exit_mmu fork_gdt (waiting_sched 0 0x48).

Lemma thread_proc_space : thread_space 0x1000 exit_mmu 0x2000 8 0x9000.
Proof.
  split; done || lia.
Qed.

(** The thread is called as if by the program point 11, with the arguments 22 and 0
    instead of 11 and 22. *)
Lemma kernel_thread_entry_witness :
  exists p' t s, make_thread 0x1000 0x2000 0xFFC12340 0x202 0xFFC56780 (0xFFC08000 + 4 * 1023) [11; 22] thread_proc = Ok (0x60, p') /\
    w_tasks (p_world p') !! 0x60 = Some t /\
    enter_task 0x1000 t (p_mmu p') = Ok ((0xFFC56780, 0xFFC08FF4), s) /\
    vread 0x1000 0xFFC08FF4 s = Ok (11, s) /\ vread 0x1000 0xFFC08FF8 s = Ok (22, s) /\ vread 0x1000 0xFFC08FFC s = Ok (0, s).
Proof.
  destruct (kernel_thread_entry 0x1000 0x2000 0xFFC12340 0x202 thread_proc 0xFFC56780 [11; 22] 8 0x9000 1020 12 zero_descriptor)
    as (p' & t & s & E & Ht & Ee & Hw).
  - apply exit_mmu_ok.
  - apply thread_proc_space.
  - lia.
  - cbn. lia.
  - repeat constructor; lia.
  - lia.
  - lia.
  - lia.
  - exists [1; 2; 3]. split; [apply (bool_decide_unpack _); vm_compute; exact I|]. split; [reflexivity|]. repeat constructor; lia.
  - exists [32]. split; [apply (bool_decide_unpack _); vm_compute; exact I|]. split; [reflexivity|].
    repeat constructor; lia.
  - split; [lia|]. split; [reflexivity|]. split; [reflexivity|]. intros j Hj.
    exists (tss_descriptor kernelstart zero_descriptor). split; [|reflexivity]. cbn [p_gdt thread_proc]. unfold fork_gdt.
    rewrite lookup_app_l by (rewrite length_replicate; lia). apply lookup_replicate_2. lia.
  - exists p', t, s. split; [exact E|]. split; [exact Ht|]. split; [exact Ee|].
    split; [exact (Hw 0%nat 11 eq_refl)|]. split; [exact (Hw 1%nat 22 eq_refl)|].
    exact (Hw 2%nat (rd (pmem exit_mmu) 0x9FFC) eq_refl).
Defined.
