(* ===== verification/Vectors.v ===== *)
(** * Interrupt vectors and the interrupt descriptor table

    The table of handlers at the head of interrupt_handler.c (registration, dispatch,
    search for a vector that is not in use), the end-of-interrupt message of smp/apic.c,
    and the operations of kernel.c on the interrupt descriptor table.

    A handler is the address of a function; what the function does is a parameter, a
    computation over the same state, since a handler may register others.  Writes to
    ports and to the local APIC are recorded in order. *)

From Stdlib Require Import ZArith Lia.
From S2P Require Import Prelude.
From stdpp Require Import base numbers strings list.
Local Open Scope Z_scope.

Definition MINIMUM_VECTOR_PRIORITY : Z := 0x4.
Definition PIC2_BASE_IRQ : Z := 0x28.

(** A write to a device: [outb (value, port)] or [MP_LAPIC_WRITE (LAPIC_EOI, value)]. *)
Inductive device_write := Outb (value port : Z) | LapicEoi (value : Z).

Record irq (K : Type) := mkIrq {
  vector_handlers : list Z;
  device_writes : list device_write;
  irq_world : K
}.
Arguments mkIrq {K}.
Arguments vector_handlers {K}.
Arguments device_writes {K}.
Arguments irq_world {K}.

Definition set_handlers {K} (l : list Z) (s : irq K) : irq K := mkIrq l (device_writes s) (irq_world s).
Definition write_device {K} (w : device_write) : M (irq K) unit :=
  modify (fun s => mkIrq (vector_handlers s) (device_writes s ++ [w]) (irq_world s)).

(** A gate of the interrupt descriptor table. *)
Record idt_descriptor := mkGate {
  g_pBase0 : Z;
  g_pSeg : Z;
  g_fReserved : Z;
  g_fZero0 : Z;
  g_fType : Z;
  g_f32bit : bool;
  g_fZero1 : bool;
  g_uDPL : Z;
  g_fPresent : bool;
  g_pBase1 : Z
}.

Definition KERN_IDT_LEN : Z := 0x7FF.

(** ** Operations *)

(** *** The interrupt descriptor table, the array at [KERN_IDT] *)

Definition set_present (b : bool) (g : idt_descriptor) : idt_descriptor :=
  mkGate (g_pBase0 g) (g_pSeg g) (g_fReserved g) (g_fZero0 g) (g_fType g) (g_f32bit g) (g_fZero1 g) (g_uDPL g) b (g_pBase1 g).

Definition get_idt_descriptor (n : Z) : M (list idt_descriptor) idt_descriptor :=
  let! t := get in lift (of_option OutOfBounds (t !! Z.to_nat n)).

Definition set_idt_descriptor (n : Z) (d : idt_descriptor) : M (list idt_descriptor) unit :=
  let! _ := get_idt_descriptor n in modify (fun t => <[Z.to_nat n := d]> t).

(** [if (ptr[i].pBase0) ptr[i].fPresent = present;] *)
Definition mask_idt_entry (present : bool) (i : Z) : M (list idt_descriptor) unit :=
  let! g := get_idt_descriptor i in
  when (negb (g_pBase0 g =? 0)) (set_idt_descriptor i (set_present present g)).

Definition mask_body (present : bool) (len : Z) (i : Z) : M (list idt_descriptor) (control Z unit) :=
  if i <? Z.shiftr len 3 then mask_idt_entry present i ;;! ret (Continue (u16 (i + 1)))
  else ret (Break tt).

Definition disable_idt : M (list idt_descriptor) unit := mloop 256 (mask_body false KERN_IDT_LEN) 0.
Definition enable_idt : M (list idt_descriptor) unit := mloop 256 (mask_body true KERN_IDT_LEN) 0.
Definition enable_idt_entry (i : Z) : M (list idt_descriptor) unit := mask_idt_entry true i.

(** The writes to the fields of a gate, which is not present between the first and the last. *)
Definition gate_for (addr dpl : Z) : idt_descriptor :=
  mkGate (Z.land addr 0x0000FFFF) 0x08 0 0 0x6 true false (Z.land dpl 3) true
    (Z.shiftr (Z.land addr 0xFFFF0000) 16).

Definition set_idt_descriptor_by_addr (n addr dpl : Z) : M (list idt_descriptor) unit :=
  set_idt_descriptor n (gate_for addr dpl).

(** *** The table of handlers *)

Section vectors.
Context {K : Type}.
(** The address of [default_vector_handler], the other handlers, and whether the local
    APIC is in use. *)
Context (default_handler : Z) (handler_code : Z -> Z -> M (irq K) Z) (mp_apic_mode : bool).

Definition default_vector_handler (vec : Z) : M (irq K) Z := ret 0.

(** The call of a function pointer. *)
Definition call_handler (func vec : Z) : M (irq K) Z :=
  if func =? default_handler then default_vector_handler vec else handler_code func vec.

Definition read_handler (vec : Z) : M (irq K) Z :=
  let! t := gets vector_handlers in lift (of_option OutOfBounds (t !! Z.to_nat vec)).

Definition set_vector_handler (vec func : Z) : M (irq K) unit :=
  let! _ := read_handler vec in
  modify (fun s => set_handlers (<[Z.to_nat vec := func]> (vector_handlers s)) s).

Definition clr_vector_handler (vec : Z) : M (irq K) unit := set_vector_handler vec default_handler.

Definition get_vector_handler (vec : Z) : M (irq K) Z :=
  let! f := read_handler vec in
  ret (if negb (f =? 0) then f else default_handler).

Definition send_eoi : M (irq K) unit :=
  if mp_apic_mode then write_device (LapicEoi 0) else write_device (Outb 0x20 0x20).

Definition dispatch_vector (vec : Z) : M (irq K) Z :=
  let! func := read_handler (u8 vec) in
  let! v := (if negb (func =? 0) then call_handler func (u8 vec) else ret 0) in
  when (negb mp_apic_mode && (PIC2_BASE_IRQ <=? vec) && (vec <? PIC2_BASE_IRQ + 8))
    (write_device (Outb 0x20 0xA0)) ;;!
  send_eoi ;;!
  ret v.

Definition unused_body (i : Z) : M (irq K) (control Z Z) :=
  if i <? 0xFF then
    let! f := read_handler i in
    ret (if f =? default_handler then Break i else Continue (u8 (i + 1)))
  else
    let! f := read_handler i in
    ret (Break (if f =? default_handler then i else 0)).

Definition find_unused_vector (min_prio : Z) : M (irq K) Z :=
  if (min_prio <? MINIMUM_VECTOR_PRIORITY) || (0xF <? min_prio) then ret 0
  else mloop 257 unused_body (u8 (Z.shiftl min_prio 4)).

Definition init_vector_body (i : Z) : M (irq K) (control Z unit) :=
  if i <? 256 then set_vector_handler i default_handler ;;! ret (Continue (i + 1))
  else ret (Break tt).

Definition init_interrupt_handlers : M (irq K) unit := mloop 257 init_vector_body 0.

(** ** Lemmas *)

Definition table_ok (s : irq K) : Prop := length (vector_handlers s) = 256%nat.

Lemma read_handler_ok s v : table_ok s -> 0 <= v < 256 ->
  exists f, vector_handlers s !! Z.to_nat v = Some f /\ read_handler v s = Ok (f, s).
Proof.
  intros Hs Hv. destruct (lookup_lt_is_Some_2 (vector_handlers s) (Z.to_nat v)) as [f Hf]; [unfold table_ok in Hs; lia|].
  exists f. split; [done|]. unfold read_handler. erewrite bind_Ok_eq by done. by rewrite Hf.
Qed.

Lemma set_vector_handler_ok s v f : table_ok s -> 0 <= v < 256 ->
  set_vector_handler v f s = Ok (tt, set_handlers (<[Z.to_nat v := f]> (vector_handlers s)) s) /\
  table_ok (set_handlers (<[Z.to_nat v := f]> (vector_handlers s)) s).
Proof.
  intros Hs Hv. destruct (read_handler_ok s v Hs Hv) as (g & _ & Hr). split.
  - unfold set_vector_handler. by erewrite bind_Ok_eq by exact Hr.
  - unfold table_ok. cbn. by rewrite length_insert.
Qed.

(** [v] is the first vector from [lo] on whose handler is the default. *)
Definition first_unused (s : irq K) (lo v : Z) : Prop :=
  lo <= v < 256 /\ vector_handlers s !! Z.to_nat v = Some default_handler /\
  forall j, lo <= j < v -> vector_handlers s !! Z.to_nat j <> Some default_handler.

Lemma unused_loop fuel s i : table_ok s -> 0 < i < 256 -> (Z.to_nat (256 - i) <= fuel)%nat ->
  exists r, mloop fuel unused_body i s = Ok (r, s) /\
    (first_unused s i r \/
     r = 0 /\ forall j, i <= j < 256 -> vector_handlers s !! Z.to_nat j <> Some default_handler).
Proof.
  intros Hs. revert i. induction fuel as [|fuel IH]; intros i Hi Hfuel; [lia|].
  destruct (read_handler_ok s i Hs ltac:(lia)) as (f & Hf & Hr).
  rewrite mloop_S. unfold unused_body at 1. destruct (Z.ltb_spec i 0xFF) as [Hlt|Hge].
  - destruct (Z.eqb_spec f default_handler) as [->|Hne].
    + exists i. split; [|left; by split; [lia|]; split; [|lia]].
      erewrite bind_Ok_eq by (by erewrite bind_Ok_eq by exact Hr). by rewrite Z.eqb_refl.
    + destruct (IH (i + 1)) as (r & Er & Hor); [lia..|]. exists r. split.
      * erewrite bind_Ok_eq by (by erewrite bind_Ok_eq by exact Hr).
        rewrite (proj2 (Z.eqb_neq _ _) Hne). rewrite u8_small by lia. exact Er.
      * assert (forall j, i <= j -> j = i \/ i + 1 <= j) as Hj by lia.
        destruct Hor as [(Hr1 & Hr2 & Hr3)|[-> Hn]]; [left|right; split; [done|]].
        -- split; [lia|]. split; [done|]. intros j Hij. destruct (Hj j) as [->|]; [lia|congruence|apply Hr3; lia].
        -- intros j Hij. destruct (Hj j) as [->|]; [lia|congruence|apply Hn; lia].
  - assert (i = 255) as -> by lia. exists (if f =? default_handler then 255 else 0). split.
    + erewrite bind_Ok_eq by (by erewrite bind_Ok_eq by exact Hr). done.
    + destruct (Z.eqb_spec f default_handler) as [->|Hne]; [left|right].
      * split; [lia|]. split; [done|lia].
      * split; [done|]. intros j Hj. assert (j = 255) as -> by lia. congruence.
Qed.

Lemma find_unused_vector_ok s p : table_ok s -> 0 <= p < 256 ->
  exists r, find_unused_vector p s = Ok (r, s) /\
    (4 <= p <= 15 /\ first_unused s (16 * p) r \/
     r = 0 /\ (4 <= p <= 15 -> forall j, 16 * p <= j < 256 -> vector_handlers s !! Z.to_nat j <> Some default_handler)).
Proof.
  intros Hs Hp. unfold find_unused_vector, MINIMUM_VECTOR_PRIORITY.
  destruct (Z.ltb_spec p 4) as [|H4]; [exists 0; split; [done|right; split; [done|lia]]|].
  destruct (Z.ltb_spec 0xF p) as [|H15]; [exists 0; split; [done|right; split; [done|lia]]|]. cbn [orb].
  replace (u8 (Z.shiftl p 4)) with (16 * p) by (rewrite Z.shiftl_mul_pow2, u8_small by lia; lia).
  destruct (unused_loop 257 s (16 * p) Hs ltac:(lia) ltac:(lia)) as (r & Er & Hor).
  exists r. split; [done|]. destruct Hor as [|[]]; [by left|by right].
Qed.

(** The messages that end an interrupt. *)
Definition eoi_writes (vec : Z) : list device_write :=
  if mp_apic_mode then [LapicEoi 0]
  else if (0x28 <=? vec) && (vec <? 0x30) then [Outb 0x20 0xA0; Outb 0x20 0x20] else [Outb 0x20 0x20].

Lemma dispatch_vector_ok s s' vec f v : table_ok s -> 0 <= vec < 256 -> vector_handlers s !! Z.to_nat vec = Some f ->
  f <> 0 -> call_handler f vec s = Ok (v, s') ->
  dispatch_vector vec s = Ok (v, mkIrq (vector_handlers s') (device_writes s' ++ eoi_writes vec) (irq_world s')).
Proof.
  intros Hs Hv Hf Hf0 Hcall. destruct (read_handler_ok s vec Hs Hv) as (g & Hg & Hr).
  rewrite Hf in Hg. injection Hg as <-. unfold dispatch_vector. rewrite u8_small by lia.
  erewrite bind_Ok_eq by exact Hr. rewrite (proj2 (Z.eqb_neq f 0) Hf0). cbn [negb].
  erewrite bind_Ok_eq by exact Hcall. unfold eoi_writes, send_eoi, PIC2_BASE_IRQ, when, write_device.
  destruct mp_apic_mode; cbn [negb andb]; [by erewrite bind_Ok_eq by done|].
  change (0x28 + 8) with 0x30. destruct ((0x28 <=? vec) && (vec <? 0x30)); cbn; by rewrite <- ?app_assoc.
Qed.

Lemma init_loop n i s : table_ok s -> 0 <= i <= 256 -> (Z.to_nat (256 - i) < n)%nat ->
  (forall j, 0 <= j < i -> vector_handlers s !! Z.to_nat j = Some default_handler) ->
  exists s', mloop n init_vector_body i s = Ok (tt, s') /\ table_ok s' /\
    device_writes s' = device_writes s /\ irq_world s' = irq_world s /\
    forall j, 0 <= j < 256 -> vector_handlers s' !! Z.to_nat j = Some default_handler.
Proof.
  revert i s. induction n as [|n IH]; intros i s Hs Hi Hn Hd; [lia|].
  rewrite mloop_S. unfold init_vector_body at 1. destruct (Z.ltb_spec i 256) as [Hlt|Hge].
  - destruct (set_vector_handler_ok s i default_handler Hs ltac:(lia)) as [E Hok].
    set (s1 := set_handlers _ s) in *.
    destruct (IH (i + 1) s1 Hok) as (s' & E' & Hs' & Hrest); [lia..| |].
    + intros j Hj. unfold s1. cbn. destruct (decide (j = i)) as [->|].
      * apply list_lookup_insert_eq. unfold table_ok in Hs. lia.
      * rewrite list_lookup_insert_ne by lia. apply Hd. lia.
    + exists s'. split; [|done]. erewrite bind_Ok_eq by (by erewrite bind_Ok_eq by exact E). exact E'.
  - exists s. split; [done|]. split; [done|]. split; [done|]. split; [done|]. intros j Hj. apply Hd. lia.
Qed.

Lemma init_interrupt_handlers_ok s : table_ok s ->
  exists s', init_interrupt_handlers s = Ok (tt, s') /\ table_ok s' /\
    device_writes s' = device_writes s /\ irq_world s' = irq_world s /\
    forall j, 0 <= j < 256 -> vector_handlers s' !! Z.to_nat j = Some default_handler.
Proof. intros Hs. apply init_loop; [done|lia..]. Qed.
End vectors.
Arguments table_ok {K} s.

(** ** The interrupt descriptor table *)

(** The address at which the processor continues, from the format of a gate. *)
Definition gate_target (g : idt_descriptor) : Z := g_pBase0 g + 2 ^ 16 * g_pBase1 g.

Lemma get_idt_ok (t : list idt_descriptor) n : length t = 256%nat -> 0 <= n < 256 ->
  exists g, t !! Z.to_nat n = Some g /\ get_idt_descriptor n t = Ok (g, t).
Proof.
  intros Ht Hn. destruct (lookup_lt_is_Some_2 t (Z.to_nat n)) as [g Hg]; [lia|]. exists g. split; [done|].
  unfold get_idt_descriptor. erewrite bind_Ok_eq by done. by rewrite Hg.
Qed.

Lemma set_idt_ok (t : list idt_descriptor) n d : length t = 256%nat -> 0 <= n < 256 ->
  set_idt_descriptor n d t = Ok (tt, <[Z.to_nat n := d]> t).
Proof.
  intros Ht Hn. destruct (get_idt_ok t n Ht Hn) as (g & _ & E). unfold set_idt_descriptor. by erewrite bind_Ok_eq by exact E.
Qed.

Lemma gate_for_target addr dpl : 0 <= addr < 2 ^ 32 -> gate_target (gate_for addr dpl) = addr.
Proof.
  intros Ha. unfold gate_target, gate_for. cbn.
  change 0xFFFF with (Z.ones 16). rewrite Z.land_ones by lia.
  rewrite Z.shiftr_land. change (Z.shiftr 0xFFFF0000 16) with (Z.ones 16).
  rewrite Z.land_ones, Z.shiftr_div_pow2 by lia.
  rewrite (Z.mod_small (addr / 2 ^ 16)) by (split; [apply Z.div_pos|apply Z.div_lt_upper_bound]; lia).
  pose proof (Z.div_mod addr (2 ^ 16) ltac:(lia)). lia.
Qed.

(** A gate written by address leads the processor to that address, with the privilege
    level asked for, and the other gates stay. *)
Lemma set_idt_descriptor_by_addr_ok (t : list idt_descriptor) n addr dpl :
  length t = 256%nat -> 0 <= n < 256 -> 0 <= addr < 2 ^ 32 -> 0 <= dpl < 4 ->
  exists t' g, set_idt_descriptor_by_addr n addr dpl t = Ok (tt, t') /\ get_idt_descriptor n t' = Ok (g, t') /\
    gate_target g = addr /\ g_uDPL g = dpl /\ g_fPresent g = true /\ g_fType g = 6 /\
    forall m, m <> Z.to_nat n -> t' !! m = t !! m.
Proof.
  intros Ht Hn Ha Hd. exists (<[Z.to_nat n := gate_for addr dpl]> t), (gate_for addr dpl).
  split; [by apply set_idt_ok|]. split; [|split; [by apply gate_for_target|]].
  - unfold get_idt_descriptor. erewrite bind_Ok_eq by done. by rewrite list_lookup_insert_eq by lia.
  - split; [change (Z.land dpl (Z.ones 2) = dpl); rewrite Z.land_ones, Z.mod_small; lia|]. split; [done|]. split; [done|].
    intros m Hm. by apply list_lookup_insert_ne.
Qed.

(** What masking does to a gate of the table. *)
Definition masked (b : bool) (lo : Z) (n : nat) (g : idt_descriptor) : idt_descriptor :=
  if (lo <=? Z.of_nat n) && (Z.of_nat n <? 255) && negb (g_pBase0 g =? 0) then set_present b g else g.

Lemma masked_below b lo n g : Z.of_nat n < lo -> masked b lo n g = g.
Proof. intros H. unfold masked. by rewrite (proj2 (Z.leb_gt _ _) H). Qed.

Lemma mask_loop b fuel i (t : list idt_descriptor) : length t = 256%nat -> 0 <= i <= 255 -> (Z.to_nat (255 - i) < fuel)%nat ->
  mloop fuel (mask_body b KERN_IDT_LEN) i t = Ok (tt, imap (masked b i) t).
Proof.
  revert i t. induction fuel as [|fuel IH]; intros i t Ht Hi Hf; [lia|].
  rewrite mloop_S. unfold mask_body at 1. change (Z.shiftr KERN_IDT_LEN 3) with 255.
  destruct (Z.ltb_spec i 255) as [Hlt|Hge].
  - destruct (get_idt_ok t i Ht ltac:(lia)) as (g & Hg & E).
    set (t1 := <[Z.to_nat i := masked b i (Z.to_nat i) g]> t).
    assert (mask_idt_entry b i t = Ok (tt, t1)) as Em.
    { unfold mask_idt_entry. erewrite bind_Ok_eq by exact E. unfold t1, masked, when. rewrite Z2Nat.id by lia.
      rewrite (proj2 (Z.leb_le i i)), (proj2 (Z.ltb_lt i 255)) by lia. cbn [andb].
      destruct (negb _); [by apply set_idt_ok; [|lia]|]. by rewrite list_insert_id by done. }
    erewrite bind_Ok_eq by (erewrite bind_Ok_eq by exact Em; reflexivity). rewrite u16_small by lia.
    rewrite IH; [|by unfold t1; rewrite length_insert|lia..]. do 2 f_equal.
    apply list_eq. intros m. rewrite !list_lookup_imap. unfold t1. destruct (decide (m = Z.to_nat i)) as [->|Hm].
    + rewrite list_lookup_insert_eq, Hg by lia. cbn. f_equal. apply masked_below. lia.
    + rewrite list_lookup_insert_ne by done. destruct (t !! m) as [h|]; [|done]. cbn. f_equal. unfold masked.
      destruct (Z.leb_spec (i + 1) (Z.of_nat m)), (Z.leb_spec i (Z.of_nat m)); try lia; done.
  - assert (i = 255) as -> by lia. rewrite ret_bind. unfold ret. do 2 f_equal. symmetry. apply list_eq. intros m.
    rewrite list_lookup_imap. destruct (t !! m) as [h|] eqn:Hm; [|done]. cbn. f_equal. unfold masked.
    destruct (Z.leb_spec 255 (Z.of_nat m)), (Z.ltb_spec (Z.of_nat m) 255); try lia; done.
Qed.

Lemma disable_idt_ok t : length t = 256%nat -> disable_idt t = Ok (tt, imap (masked false 0) t).
Proof. intros Ht. apply mask_loop; [done|lia..]. Qed.
Lemma enable_idt_ok t : length t = 256%nat -> enable_idt t = Ok (tt, imap (masked true 0) t).
Proof. intros Ht. apply mask_loop; [done|lia..]. Qed.

(** Masking and unmasking the table gives back every gate that was present; the gate of
    vector 0xFF, which [find_unused_vector] hands out like any other, is never masked. *)
Lemma disable_enable_idt t : length t = 256%nat ->
  Forall (fun g => g_pBase0 g <> 0 -> g_fPresent g = true) t ->
  exists t1, disable_idt t = Ok (tt, t1) /\ enable_idt t1 = Ok (tt, t) /\ t1 !! 255%nat = t !! 255%nat /\
    forall n g, (n < 255)%nat -> t1 !! n = Some g -> g_pBase0 g <> 0 -> g_fPresent g = false.
Proof.
  intros Ht Hp. eexists. split; [by apply disable_idt_ok|]. split; [|split].
  - rewrite enable_idt_ok by by rewrite length_imap. do 2 f_equal. apply list_eq. intros m. rewrite !list_lookup_imap.
    destruct (t !! m) as [g|] eqn:Hm; [|done]. cbn. f_equal. unfold masked at 1. unfold masked.
    destruct ((0 <=? Z.of_nat m) && (Z.of_nat m <? 255)); cbn [andb]; [|done].
    destruct (Z.eqb_spec (g_pBase0 g) 0) as [H0|H0]; cbn [negb]; [by rewrite (proj2 (Z.eqb_eq _ _) H0)|].
    cbn [g_pBase0 set_present]. rewrite (proj2 (Z.eqb_neq _ _) H0). cbn [negb].
    specialize (proj1 (Forall_lookup _ _) Hp m g Hm H0). destruct g. cbn. by intros ->.
  - rewrite list_lookup_imap. by destruct (t !! 255%nat).
  - intros n g Hn Hg H0. rewrite list_lookup_imap in Hg. destruct (t !! n) as [h|]; [|done]. cbn in Hg. injection Hg as <-.
    unfold masked in *. rewrite (proj2 (Z.leb_le 0 _)), (proj2 (Z.ltb_lt _ 255)) in * by lia. cbn [andb] in *.
    destruct (Z.eqb_spec (g_pBase0 h) 0); cbn [negb] in *; done.
Qed.
