(* ===== verification/IoApic.v ===== *)
(** * Routing of PCI interrupts

    drivers/pci/pci_irq.c (the table of routes, mapping a route to a vector with a
    handler) and the part of smp/apic.c that programs the redirection entries of the I/O
    APICs.  An I/O APIC is a device with a register that selects and a register that reads
    or writes the selected one; the device at [mp_IOAPIC_addr] is addressed.  The theorem
    composes both with the table of handlers of [Vectors]. *)

From Stdlib Require Import ZArith Lia.
From S2P Require Import Prelude Vectors.
From stdpp Require Import base gmap sets fin_sets numbers strings list.
Local Open Scope Z_scope.

(** ** Data *)

Record mp_IOAPIC_info := mkInfo { io_id : Z; io_address : Z; startGSI : Z; numGSIs : Z }.

Inductive delivery_mode := DeliveryFixed | DeliveryLowestPriority | DeliverySMI | DeliveryNMI | DeliveryINIT | DeliveryEXTINT.
Inductive destination_mode := DestinationPhysical | DestinationLogical.
Inductive irq_polarity := PolarityDefault | PolarityHigh | PolarityLow.
Inductive irq_trigger := TriggerDefault | TriggerEdge | TriggerLevel.

Definition delivery_bits (m : delivery_mode) : Z :=
  match m with
  | DeliveryFixed => 0x000
  | DeliveryLowestPriority => 0x100
  | DeliverySMI => 0x200
  | DeliveryNMI => 0x400
  | DeliveryINIT => 0x500
  | DeliveryEXTINT => 0x700
  end.
Definition destination_bits (m : destination_mode) : Z :=
  match m with DestinationPhysical => 0x000 | DestinationLogical => 0x800 end.
Definition IOAPIC_TRIGGER_EDGE : Z := 0x0000.
Definition IOAPIC_TRIGGER_LEVEL : Z := 0x8000.
Definition IOAPIC_POLARITY_HIGH : Z := 0x0000.
Definition IOAPIC_POLARITY_LOW : Z := 0x2000.
Definition IOAPIC_REDIR : Z := 0x10.

Record pci_irq_t := mkPciIrq {
  pi_bus : Z;
  pi_dev : Z;
  pi_pin : Z;
  pi_gsi : Z;
  pi_trigger : irq_trigger;
  pi_polarity : irq_polarity
}.

Definition PCI_IRQ_MAX_COUNT : nat := 1024.

(** An I/O APIC: the selected register, and the registers that are not 0. *)
Record ioapic := mkIoapic { io_regsel : Z; io_regs : gmap Z Z }.

Record apics := mkApics {
  mp_IOAPIC_addr : Z;
  ioapics : gmap Z ioapic;
  pci_irqs : list pci_irq_t
}.

Definition set_addr (a : Z) (s : apics) : apics := mkApics a (ioapics s) (pci_irqs s).
Definition set_ioapics (m : gmap Z ioapic) (s : apics) : apics := mkApics (mp_IOAPIC_addr s) m (pci_irqs s).

(** ** Operations *)

(** [MP_IOAPIC_WRITE (IOAPIC_REGSEL, y)], [MP_IOAPIC_WRITE (IOAPIC_RW, y)] and
    [MP_IOAPIC_READ (IOAPIC_RW)]. *)
Definition current_ioapic : M apics ioapic :=
  let! s := get in lift (of_option PageFault (ioapics s !! mp_IOAPIC_addr s)).
Definition put_ioapic (d : ioapic) : M apics unit :=
  modify (fun s => set_ioapics (<[mp_IOAPIC_addr s := d]> (ioapics s)) s).
Definition ioapic_select (y : Z) : M apics unit :=
  let! d := current_ioapic in put_ioapic (mkIoapic y (io_regs d)).
Definition ioapic_write (y : Z) : M apics unit :=
  let! d := current_ioapic in put_ioapic (mkIoapic (io_regsel d) (<[io_regsel d := y]> (io_regs d))).
Definition ioapic_read : M apics Z :=
  let! d := current_ioapic in ret (default 0 (io_regs d !! io_regsel d)).

Definition IOAPIC_read64 (reg : Z) : M apics Z :=
  ioapic_select (reg + 1) ;;!
  let! high := ioapic_read in
  ioapic_select reg ;;!
  let! low := ioapic_read in
  ret (Z.lor (u64 (Z.shiftl high 32)) low).

Definition IOAPIC_write64 (reg v : Z) : M apics unit :=
  ioapic_select reg ;;!
  ioapic_write 0x10000 ;;!
  ioapic_select (reg + 1) ;;!
  ioapic_write (u32 (Z.shiftr v 32)) ;;!
  ioapic_select reg ;;!
  ioapic_write (Z.land v 0xFFFFFFFF).

Section ops.
(** The tables of the machine: whether it has no APIC, and its I/O APICs. *)
Context (mp_ISA_PC : bool) (mp_IOAPICs : list mp_IOAPIC_info).

(** The search for the I/O APIC of a GSI: it and the GSI within it. *)
Fixpoint find_ioapic (l : list mp_IOAPIC_info) (GSI : Z) : option (mp_IOAPIC_info * Z) :=
  match l with
  | [] => None
  | a :: l =>
      if (startGSI a <=? GSI) && (GSI <? u32 (startGSI a + numGSIs a)) then Some (a, u32 (GSI - startGSI a))
      else find_ioapic l GSI
  end.

(** The common frame of [IOAPIC_map_GSI] and [IOAPIC_get_GSI_mapping]: [body] with the
    macros set to the I/O APIC of the GSI; -1 when there is none. *)
Definition with_ioapic {A} (GSI : Z) (body : Z -> M apics A) : M apics (option (Z * A)) :=
  if mp_ISA_PC then ret None
  else
    match find_ioapic mp_IOAPICs GSI with
    | None => ret None
    | Some (a, GSI) =>
        let! old_addr := gets mp_IOAPIC_addr in
        modify (set_addr (io_address a)) ;;!
        if old_addr =? 0 then ret None
        else
          let! r := body GSI in
          modify (set_addr old_addr) ;;!
          ret (Some (s32 GSI, r))
    end.

Definition IOAPIC_map_GSI (GSI vector flags : Z) : M apics Z :=
  let! r := with_ioapic GSI (fun GSI => IOAPIC_write64 (u8 (IOAPIC_REDIR + GSI * 2)) (Z.lor flags vector)) in
  ret (match r with Some (g, _) => g | None => -1 end).

(** The result, the vector and the flags. *)
Definition IOAPIC_get_GSI_mapping (GSI : Z) : M apics (Z * option (Z * Z)) :=
  let! r := with_ioapic GSI (fun GSI => IOAPIC_read64 (u8 (IOAPIC_REDIR + GSI * 2))) in
  ret (match r with
       | Some (g, entry) => (g, Some (Z.land entry 0xFF, Z.land entry (u64 (Z.lnot 0xFF))))
       | None => (-1, None)
       end).

(** *** drivers/pci/pci_irq.c *)

Definition pci_irq_register (irq : pci_irq_t) : M apics unit :=
  let! t := gets pci_irqs in
  if (PCI_IRQ_MAX_COUNT <=? length t)%nat then ret tt
  else modify (fun s => mkApics (mp_IOAPIC_addr s) (ioapics s) (pci_irqs s ++ [irq])).

Fixpoint find_route (l : list pci_irq_t) (bus dev pin : Z) : option pci_irq_t :=
  match l with
  | [] => None
  | i :: l => if (pi_bus i =? bus) && (pi_dev i =? dev) && (pi_pin i =? pin) then Some i else find_route l bus dev pin
  end.
Definition pci_irq_find (bus dev pin : Z) : M apics (option pci_irq_t) :=
  let! t := gets pci_irqs in ret (find_route t bus dev pin).

Definition redirection (irq : pci_irq_t) (vector destmask : Z) (destmode : destination_mode) (delivmode : delivery_mode) : Z :=
  let flags := vector in
  let flags := Z.lor flags (u64 (Z.shiftl destmask 56)) in
  let flags := Z.lor flags (destination_bits destmode) in
  let flags := Z.lor flags (delivery_bits delivmode) in
  let flags := Z.lor flags
    (match pi_polarity irq with
     | PolarityLow | PolarityDefault => IOAPIC_POLARITY_LOW
     | PolarityHigh => IOAPIC_POLARITY_HIGH
     end) in
  Z.lor flags
    (match pi_trigger irq with
     | TriggerLevel | TriggerDefault => IOAPIC_TRIGGER_LEVEL
     | TriggerEdge => IOAPIC_TRIGGER_EDGE
     end).

Definition pci_irq_map (irq : pci_irq_t) (vector destmask : Z) (destmode : destination_mode) (delivmode : delivery_mode)
    : M apics bool :=
  let! r := IOAPIC_map_GSI (pi_gsi irq) vector (redirection irq vector destmask destmode delivmode) in
  ret (0 <=? r).

Definition pci_irq_unmap (irq : pci_irq_t) : M apics bool :=
  let! r := IOAPIC_map_GSI (pi_gsi irq) 0 0x10000 in ret (0 <=? r).

Definition on_apics {A} (m : M apics A) : M (Vectors.irq apics) A :=
  fun s => match m (irq_world s) with
           | Ok (a, w) => Ok (a, mkIrq (vector_handlers s) (device_writes s) w)
           | Err e => Err e
           end.

Definition pci_irq_map_handler (default_handler : Z) (irq : pci_irq_t) (handler destmask : Z)
    (destmode : destination_mode) (delivmode : delivery_mode) : M (Vectors.irq apics) bool :=
  let! vector := find_unused_vector default_handler MINIMUM_VECTOR_PRIORITY in
  if vector =? 0 then ret false
  else
    let! mapped := on_apics (pci_irq_map irq vector destmask destmode delivmode) in
    if negb mapped then ret false
    else set_vector_handler vector handler ;;! ret true.
End ops.

(** *** Initialisation *)

Record mp_int_override := mkOverride { src_bus : Z; src_IRQ : Z; dest_GSI : Z }.

Fixpoint IRQ_to_GSI (mp_ISA_bus_id : Z) (l : list mp_int_override) (bus irq : Z) : outcome Z :=
  match l with
  | [] => if negb (bus =? mp_ISA_bus_id) then Err (Panic "IRQ_to_GSI only implemented for ISA bus.") else Ok irq
  | o :: l => if (bus =? src_bus o) && (irq =? src_IRQ o) then Ok (dest_GSI o) else IRQ_to_GSI mp_ISA_bus_id l bus irq
  end.

Section init.
Context (mp_ISA_PC : bool) (mp_IOAPICs : list mp_IOAPIC_info) (mp_ISA_bus_id : Z) (mp_overrides : list mp_int_override).

Definition disable_entry (n : Z) (j : Z) : M apics (control Z unit) :=
  if j <? n then IOAPIC_write64 (u8 (IOAPIC_REDIR + j * 2)) 0x10000 ;;! ret (Continue (j + 1))
  else ret (Break tt).
Fixpoint disable_entries (l : list mp_IOAPIC_info) : M apics unit :=
  match l with
  | [] => ret tt
  | a :: l => mloop (S (Z.to_nat (numGSIs a))) (disable_entry (numGSIs a)) 0 ;;! disable_entries l
  end.

Definition IOAPIC_init : M (Vectors.irq apics) unit :=
  write_device (Outb 0xFF 0x21) ;;!
  write_device (Outb 0xFF 0xA1) ;;!
  on_apics (disable_entries mp_IOAPICs) ;;!
  let! gsi := lift (IRQ_to_GSI mp_ISA_bus_id mp_overrides mp_ISA_bus_id 0) in
  on_apics (IOAPIC_map_GSI mp_ISA_PC mp_IOAPICs gsi 0x20 0xFF00000000000800) ;;!
  write_device (Outb 0x70 0x22) ;;!
  write_device (Outb 0x01 0x23).
End init.

(** ** Redirection entries *)

Definition reg_of (d : ioapic) (r : Z) : Z := default 0 (io_regs d !! r).
Definition entry64 (d : ioapic) (reg : Z) : Z := Z.lor (u64 (Z.shiftl (reg_of d (reg + 1)) 32)) (reg_of d reg).
Definition upd_dev (d : ioapic) (s : apics) : apics := set_ioapics (<[mp_IOAPIC_addr s := d]> (ioapics s)) s.

Lemma upd_dev_twice d d' s : upd_dev d (upd_dev d' s) = upd_dev d s.
Proof. unfold upd_dev, set_ioapics. cbn. by rewrite insert_insert_eq. Qed.

Lemma upd_dev_at d s : ioapics (upd_dev d s) !! mp_IOAPIC_addr (upd_dev d s) = Some d.
Proof. cbn. apply lookup_insert_eq. Qed.

Lemma ioapic_select_ok s d y : ioapics s !! mp_IOAPIC_addr s = Some d ->
  ioapic_select y s = Ok (tt, upd_dev (mkIoapic y (io_regs d)) s).
Proof. intros Hd. unfold ioapic_select, current_ioapic, bind, get, lift. by rewrite Hd. Qed.

Lemma ioapic_write_ok s d y : ioapics s !! mp_IOAPIC_addr s = Some d ->
  ioapic_write y s = Ok (tt, upd_dev (mkIoapic (io_regsel d) (<[io_regsel d := y]> (io_regs d))) s).
Proof. intros Hd. unfold ioapic_write, current_ioapic, bind, get, lift. by rewrite Hd. Qed.

Lemma ioapic_read_ok s d : ioapics s !! mp_IOAPIC_addr s = Some d -> ioapic_read s = Ok (reg_of d (io_regsel d), s).
Proof. intros Hd. unfold ioapic_read, current_ioapic, bind, get, lift. by rewrite Hd. Qed.

(** The device after [IOAPIC_write64]. *)
Definition written (reg v : Z) (d : ioapic) : ioapic :=
  mkIoapic reg (<[reg := Z.land v 0xFFFFFFFF]> (<[reg + 1 := u32 (Z.shiftr v 32)]> (<[reg := 0x10000]> (io_regs d)))).

Lemma IOAPIC_write64_ok s d reg v : ioapics s !! mp_IOAPIC_addr s = Some d ->
  IOAPIC_write64 reg v s = Ok (tt, upd_dev (written reg v d) s).
Proof.
  intros Hd. unfold IOAPIC_write64.
  erewrite bind_Ok_eq by (by apply ioapic_select_ok).
  erewrite bind_Ok_eq by (apply ioapic_write_ok, upd_dev_at). rewrite upd_dev_twice.
  erewrite bind_Ok_eq by (apply ioapic_select_ok, upd_dev_at). rewrite upd_dev_twice.
  erewrite bind_Ok_eq by (apply ioapic_write_ok, upd_dev_at). rewrite upd_dev_twice.
  erewrite bind_Ok_eq by (apply ioapic_select_ok, upd_dev_at). rewrite upd_dev_twice.
  erewrite ioapic_write_ok by apply upd_dev_at. by rewrite upd_dev_twice.
Qed.

Lemma IOAPIC_read64_ok s d reg : ioapics s !! mp_IOAPIC_addr s = Some d ->
  IOAPIC_read64 reg s = Ok (entry64 d reg, upd_dev (mkIoapic reg (io_regs d)) s).
Proof.
  intros Hd. unfold IOAPIC_read64.
  erewrite bind_Ok_eq by (by apply ioapic_select_ok).
  erewrite bind_Ok_eq by (apply ioapic_read_ok, upd_dev_at).
  erewrite bind_Ok_eq by (apply ioapic_select_ok, upd_dev_at). rewrite upd_dev_twice.
  erewrite bind_Ok_eq by (apply ioapic_read_ok, upd_dev_at). done.
Qed.

Lemma written_entry reg v d : 0 <= v < 2 ^ 64 -> entry64 (written reg v d) reg = v.
Proof.
  intros Hv. unfold entry64, reg_of, written. cbn [io_regs].
  rewrite lookup_insert_eq, lookup_insert_ne, lookup_insert_eq by lia. cbn [from_option id].
  rewrite Z.shiftr_div_pow2 by lia.
  pose proof (Z.div_mod v (2 ^ 32) ltac:(lia)) as Ediv. pose proof (Z.mod_pos_bound v (2 ^ 32) ltac:(lia)) as Hmod.
  set (h := v / 2 ^ 32) in *. change 0xFFFFFFFF with (Z.ones 32). rewrite Z.land_ones by lia. set (l := v mod 2 ^ 32) in *.
  assert (0 <= h < 2 ^ 32) as Hh by lia. rewrite u32_small by lia.
  rewrite Z.shiftl_mul_pow2, u64_small by lia. rewrite <- Z.shiftl_mul_pow2 by lia.
  assert (Z.land (Z.shiftl h 32) l = 0) as El.
  { apply Z.bits_inj'. intros n Hn. rewrite Z.land_spec, Z.bits_0. destruct (Z_lt_le_dec n 32).
    - by rewrite Z.shiftl_spec_low by lia.
    - unfold l. rewrite Z.mod_pow2_bits_high by lia. by rewrite andb_false_r. }
  rewrite <- Z.lxor_lor, <- Z.add_nocarry_lxor by done. rewrite Z.shiftl_mul_pow2 by lia. lia.
Qed.

Lemma written_other reg v d reg' : reg' <> reg -> reg' <> reg + 1 -> reg' + 1 <> reg ->
  entry64 (written reg v d) reg' = entry64 d reg'.
Proof. intros H1 H2 H3. unfold entry64, reg_of, written. cbn [io_regs]. by rewrite !lookup_insert_ne by lia. Qed.

(** The entries that [IOAPIC_init] disables are all written to the I/O APIC that the macros
    address, as often as there are I/O APICs; the others keep theirs. *)
Lemma disable_loop fuel n j s d : ioapics s !! mp_IOAPIC_addr s = Some d -> (Z.to_nat (n - j) < fuel)%nat ->
  exists d', mloop fuel (disable_entry n) j s = Ok (tt, upd_dev d' s).
Proof.
  revert j s d. induction fuel as [|fuel IH]; intros j s d Hd Hf; [lia|]. rewrite mloop_S. unfold disable_entry at 1.
  destruct (Z.ltb_spec j n).
  - destruct (IH (j + 1) (upd_dev (written (u8 (IOAPIC_REDIR + j * 2)) 0x10000 d) s) _ (upd_dev_at _ _)) as (d' & E); [lia|].
    exists d'. rewrite upd_dev_twice in E.
    erewrite bind_Ok_eq by (erewrite bind_Ok_eq by (by apply IOAPIC_write64_ok); reflexivity). exact E.
  - exists d. rewrite ret_bind. unfold ret, upd_dev, set_ioapics. rewrite insert_id by done. by destruct s.
Qed.

Lemma disable_entries_other l s d : ioapics s !! mp_IOAPIC_addr s = Some d ->
  exists s', disable_entries l s = Ok (tt, s') /\
    forall a, a <> mp_IOAPIC_addr s -> ioapics s' !! a = ioapics s !! a.
Proof.
  revert s d. induction l as [|a l IH]; intros s d Hd; [by exists s|].
  destruct (disable_loop (S (Z.to_nat (numGSIs a))) (numGSIs a) 0 s d Hd ltac:(lia)) as (d' & E).
  destruct (IH (upd_dev d' s) _ (upd_dev_at _ _)) as (s' & E' & Hs'). exists s'.
  split; [cbn; by erewrite bind_Ok_eq by exact E|]. intros b Hb. rewrite Hs' by done. cbn. by rewrite lookup_insert_ne.
Qed.

Section apics.
Context (mp_IOAPICs : list mp_IOAPIC_info).
Notation find := (find_ioapic mp_IOAPICs).

(** The machine has the I/O APICs of the table, each with at most 120 entries, which the
    register number of 8 bits can reach. *)
Record apics_ok (s : apics) : Prop := mkApicsOk {
  ao_addr : mp_IOAPIC_addr s <> 0;
  ao_nodup : NoDup (io_address <$> mp_IOAPICs);
  ao_range : forall a, a ∈ mp_IOAPICs -> 0 <= startGSI a /\ 0 <= numGSIs a <= 120 /\ startGSI a + numGSIs a < 2 ^ 31;
  ao_there : forall a, a ∈ mp_IOAPICs -> is_Some (ioapics s !! io_address a)
}.

Definition gsi_entry (s : apics) (g : Z) : option Z :=
  match find g with
  | Some (a, o) => (fun d => entry64 d (0x10 + o * 2)) <$> ioapics s !! io_address a
  | None => None
  end.

Lemma find_ioapic_spec s g a o : apics_ok s -> find g = Some (a, o) ->
  a ∈ mp_IOAPICs /\ g = startGSI a + o /\ 0 <= o < numGSIs a.
Proof.
  intros [_ _ Hr _]. revert Hr. induction mp_IOAPICs as [|b l IH]; [done|]. cbn. intros Hr Hf.
  destruct (Hr b ltac:(set_solver)) as (H1 & H2 & H3). rewrite u32_small in Hf by lia.
  destruct (Z.leb_spec (startGSI b) g); cbn [andb] in Hf; [destruct (Z.ltb_spec g (startGSI b + numGSIs b)); cbn [andb] in Hf|].
  - injection Hf as <- <-. rewrite u32_small by lia. split; [set_solver|lia].
  - destruct (IH ltac:(set_solver) Hf) as (? & ? & ?). split; [set_solver|lia].
  - destruct (IH ltac:(set_solver) Hf) as (? & ? & ?). split; [set_solver|lia].
Qed.

Lemma same_ioapic s a b : apics_ok s -> a ∈ mp_IOAPICs -> b ∈ mp_IOAPICs -> io_address a = io_address b -> a = b.
Proof.
  intros [_ Hnd _ _] (i & Ha)%list_elem_of_lookup (j & Hb)%list_elem_of_lookup E.
  assert (i = j) as ->; [|congruence]. eapply NoDup_lookup; [exact Hnd| |]; rewrite list_lookup_fmap.
  - by rewrite Ha.
  - rewrite Hb. cbn. by rewrite E.
Qed.

(** Programming the entry of a GSI changes that entry only. *)
Lemma IOAPIC_map_GSI_ok s g v flags a o : apics_ok s -> find g = Some (a, o) ->
  0 <= flags < 2 ^ 64 -> 0 <= v < 256 ->
  exists s', IOAPIC_map_GSI false mp_IOAPICs g v flags s = Ok (o, s') /\ apics_ok s' /\
    gsi_entry s' g = Some (Z.lor flags v) /\ (forall g', g' <> g -> gsi_entry s' g' = gsi_entry s g').
Proof.
  intros Hs Hf Hfl Hv. destruct (find_ioapic_spec s g a o Hs Hf) as (Ha & Hg & Ho).
  pose proof Hs as [Haddr Hnd Hr Ht]. destruct (Hr a Ha) as (H1 & H2 & H3). destruct (Ht a Ha) as [d Hd].
  assert (0 <= Z.lor flags v < 2 ^ 64) as Hlor by (apply lor_range; lia).
  set (s1 := upd_dev (written (0x10 + o * 2) (Z.lor flags v) d) (set_addr (io_address a) s)).
  assert (IOAPIC_map_GSI false mp_IOAPICs g v flags s = Ok (o, set_addr (mp_IOAPIC_addr s) s1)) as E.
  { unfold IOAPIC_map_GSI, with_ioapic. rewrite Hf. unfold bind at 1, bind at 1, gets at 1, bind at 1, modify at 1.
    rewrite (proj2 (Z.eqb_neq _ 0)) by done. unfold IOAPIC_REDIR. rewrite u8_small by lia.
    erewrite bind_Ok_eq by (apply IOAPIC_write64_ok; cbn; exact Hd).
    unfold bind, modify, ret. rewrite s32_small by lia. done. }
  eexists. split; [exact E|]. assert (forall b, ioapics (set_addr (mp_IOAPIC_addr s) s1) !! b =
    if bool_decide (b = io_address a) then Some (written (0x10 + o * 2) (Z.lor flags v) d) else ioapics s !! b) as Hl.
  { intros b. cbn. case_bool_decide as Eb; [subst b; apply lookup_insert_eq|by apply lookup_insert_ne]. }
  split; [|split].
  - split; try done. intros b Hb. rewrite Hl. case_bool_decide; [done|by apply Ht].
  - unfold gsi_entry. rewrite Hf, Hl, bool_decide_eq_true_2 by done. cbn. f_equal. by apply written_entry.
  - intros g' Hne. unfold gsi_entry. destruct (find g') as [[b o']|] eqn:Hf'; [|done]. rewrite Hl.
    destruct (find_ioapic_spec s g' b o' Hs Hf') as (Hb & Hg' & Ho'). case_bool_decide as Eb; [|done].
    apply (same_ioapic s) in Eb; [|done..]. subst b. rewrite Hd. cbn. f_equal. apply written_other; lia.
Qed.

(** Reading a mapping back. *)
Lemma IOAPIC_get_GSI_mapping_ok s g a o e : apics_ok s -> find g = Some (a, o) -> gsi_entry s g = Some e ->
  exists s', IOAPIC_get_GSI_mapping false mp_IOAPICs g s =
      Ok ((o, Some (Z.land e 0xFF, Z.land e (u64 (Z.lnot 0xFF)))), s') /\ apics_ok s' /\
    forall g', gsi_entry s' g' = gsi_entry s g'.
Proof.
  intros Hs Hf He. destruct (find_ioapic_spec s g a o Hs Hf) as (Ha & Hg & Ho).
  pose proof Hs as [Haddr Hnd Hr Ht]. destruct (Hr a Ha) as (H1 & H2 & H3). destruct (Ht a Ha) as [d Hd].
  unfold gsi_entry in He. rewrite Hf, Hd in He. injection He as <-.
  set (s1 := upd_dev (mkIoapic (0x10 + o * 2) (io_regs d)) (set_addr (io_address a) s)).
  exists (set_addr (mp_IOAPIC_addr s) s1). split.
  { unfold IOAPIC_get_GSI_mapping, with_ioapic. rewrite Hf. unfold bind at 1, bind at 1, gets at 1, bind at 1, modify at 1.
    rewrite (proj2 (Z.eqb_neq _ 0)) by done. unfold IOAPIC_REDIR. rewrite u8_small by lia.
    erewrite bind_Ok_eq by (apply IOAPIC_read64_ok; cbn; exact Hd).
    unfold bind, modify, ret. rewrite s32_small by lia. done. }
  assert (forall b, (fun d => io_regs d) <$> ioapics (set_addr (mp_IOAPIC_addr s) s1) !! b = (fun d => io_regs d) <$> ioapics s !! b) as Hl.
  { intros b. cbn. destruct (decide (b = io_address a)) as [->|]; [rewrite lookup_insert_eq, Hd; done|by rewrite lookup_insert_ne]. }
  split.
  - split; try done. intros b Hb. specialize (Hl (io_address b)). destruct (Ht b Hb) as [x Hx]. rewrite Hx in Hl.
    destruct (ioapics (set_addr _ _) !! _) as [y|]; [by exists y|discriminate Hl].
  - intros g'. unfold gsi_entry. destruct (find g') as [[b o']|]; [|done]. specialize (Hl (io_address b)).
    destruct (ioapics (set_addr _ _) !! io_address b), (ioapics s !! io_address b); try discriminate; [|done].
    cbn in *. injection Hl as Hl. unfold entry64, reg_of. by rewrite Hl.
Qed.
End apics.

(** ** Drivers *)

Lemma redirection_range irq v dm dest deliv : 0 <= v < 256 -> 0 <= dm < 256 -> 0 <= redirection irq v dm dest deliv < 2 ^ 64.
Proof.
  intros Hv Hd. unfold redirection. cbv zeta. pose proof (u64_range (Z.shiftl dm 56)).
  repeat apply lor_range; try lia; try (by destruct dest); try (by destruct deliv);
    try (by destruct (pi_polarity irq)); by destruct (pi_trigger irq).
Qed.

(** The entry holds the vector and is not masked. *)
Lemma redirection_bits irq v dm dest deliv : 0 <= v < 256 -> 0 <= dm < 256 ->
  Z.land (redirection irq v dm dest deliv) 0xFF = v /\ Z.testbit (redirection irq v dm dest deliv) 16 = false /\
  Z.lor (redirection irq v dm dest deliv) v = redirection irq v dm dest deliv.
Proof.
  intros Hv Hd. assert (u64 (Z.shiftl dm 56) = Z.shiftl dm 56) as Es.
  { apply u64_small. rewrite Z.shiftl_mul_pow2 by lia. lia. }
  unfold redirection. cbv zeta. rewrite Es. split_and!.
  - rewrite !Z.land_lor_distr_l.
    assert (Z.land (Z.shiftl dm 56) 0xFF = 0) as ->.
    { apply Z.bits_inj'. intros n Hn. rewrite Z.land_spec, Z.bits_0. destruct (Z_lt_le_dec n 56).
      - by rewrite Z.shiftl_spec_low.
      - change 0xFF with (Z.ones 8). rewrite Z.ones_spec_high by lia. apply andb_false_r. }
    assert (Z.land v 0xFF = v) as -> by (change 0xFF with (Z.ones 8); rewrite Z.land_ones by lia; by apply Z.mod_small).
    assert (Z.land (destination_bits dest) 0xFF = 0) as -> by (by destruct dest).
    assert (Z.land (delivery_bits deliv) 0xFF = 0) as -> by (by destruct deliv).
    destruct (pi_polarity irq), (pi_trigger irq); cbn; by rewrite !Z.lor_0_r.
  - rewrite !Z.lor_spec, Z.shiftl_spec_low by lia.
    assert (Z.testbit v 16 = false) as -> by (apply Z.bits_above_log2; [lia|]; destruct (decide (v = 0)) as [->|]; [done|];
      apply Z.log2_lt_pow2; lia).
    by destruct dest, deliv, (pi_polarity irq), (pi_trigger irq).
  - apply Z.bits_inj'. intros n _. rewrite !Z.lor_spec. by destruct (Z.testbit v n); rewrite ?orb_true_r, ?orb_false_r.
Qed.

Section drivers.
Context (mp_IOAPICs : list mp_IOAPIC_info) (default_handler destmask : Z) (destmode : destination_mode) (delivmode : delivery_mode).
Context (Hdm : 0 <= destmask < 256).
Notation map_handler irq h := (pci_irq_map_handler false mp_IOAPICs default_handler irq h destmask destmode delivmode).
Notation entry_for irq v := (redirection irq v destmask destmode delivmode).

Definition machine_ok (s : irq apics) : Prop := table_ok s /\ apics_ok mp_IOAPICs (irq_world s).

(** The handlers and the entries that were in use stay. *)
Record undisturbed (gsis : list Z) (s s' : irq apics) : Prop := mkUndisturbed {
  un_ok : machine_ok s';
  un_writes : device_writes s' = device_writes s;
  un_handlers : forall v g, vector_handlers s !! v = Some g -> g <> default_handler -> vector_handlers s' !! v = Some g;
  un_entries : forall g, g ∉ gsis -> gsi_entry mp_IOAPICs (irq_world s') g = gsi_entry mp_IOAPICs (irq_world s) g
}.

(** The interrupt of the route [i] is delivered as a vector, whose handler is [h]. *)
Definition routed (s s' : irq apics) (i : pci_irq_t) (h : Z) : Prop :=
  exists v, 64 <= v < 256 /\ vector_handlers s !! Z.to_nat v = Some default_handler /\
    vector_handlers s' !! Z.to_nat v = Some h /\ gsi_entry mp_IOAPICs (irq_world s') (pi_gsi i) = Some (entry_for i v).

Definition no_vector (s : irq apics) : Prop :=
  forall v, 64 <= v < 256 -> vector_handlers s !! Z.to_nat v <> Some default_handler.

Lemma map_handler_ok s i h : machine_ok s -> is_Some (find_ioapic mp_IOAPICs (pi_gsi i)) ->
  exists b s', map_handler i h s = Ok (b, s') /\ undisturbed [pi_gsi i] s s' /\
    if b : bool then routed s s' i h else no_vector s'.
Proof using Hdm.
  intros [Ht Ha] [[a o] Hf].
  destruct (find_unused_vector_ok default_handler s MINIMUM_VECTOR_PRIORITY Ht) as (v & Ev & Hv); [done|].
  unfold pci_irq_map_handler. erewrite bind_Ok_eq by exact Ev. destruct Hv as [[_ (Hlo & Hd & _)]|[-> Hnone]].
  - change (16 * MINIMUM_VECTOR_PRIORITY) with 64 in Hlo. rewrite (proj2 (Z.eqb_neq v 0)) by lia.
    pose proof (redirection_range i v destmask destmode delivmode ltac:(lia) Hdm) as Hrange.
    destruct (IOAPIC_map_GSI_ok mp_IOAPICs (irq_world s) (pi_gsi i) v (entry_for i v) a o Ha Hf Hrange ltac:(lia))
      as (w & Ew & Hw & He & Hrest).
    destruct (find_ioapic_spec mp_IOAPICs _ _ _ _ Ha Hf) as (_ & _ & Ho).
    destruct (redirection_bits i v destmask destmode delivmode ltac:(lia) Hdm) as (_ & _ & El). rewrite El in He.
    set (s1 := mkIrq (vector_handlers s) (device_writes s) w).
    assert (table_ok s1) as Ht1 by done.
    destruct (set_vector_handler_ok s1 v h Ht1 ltac:(lia)) as [Es Hok]. set (s2 := set_handlers _ s1) in *.
    exists true, s2. split; [|split].
    + unfold pci_irq_map, on_apics. unfold bind at 1. unfold bind at 1. rewrite Ew. unfold ret at 1.
      rewrite (proj2 (Z.leb_le 0 o)) by lia. cbn [negb]. fold s1. by erewrite bind_Ok_eq by exact Es.
    + split; [by split|done| |].
      * intros x g Hx Hg. cbn. destruct (decide (x = Z.to_nat v)) as [->|]; [congruence|by rewrite list_lookup_insert_ne].
      * intros g Hg. cbn. apply Hrest. set_solver.
    + exists v. split; [done|]. split; [done|]. split; [|done]. cbn. apply list_lookup_insert_eq. unfold table_ok in Ht. lia.
  - exists false, s. split; [done|]. split; [by split|]. intros v Hv. apply Hnone; [done|exact Hv].
Qed.

(** Drivers that map their interrupts one after another. *)
Fixpoint map_handlers (reqs : list (pci_irq_t * Z)) : M (irq apics) (list bool) :=
  match reqs with
  | [] => ret []
  | (i, h) :: reqs =>
      let! b := map_handler i h in
      let! bs := map_handlers reqs in
      ret (b :: bs)
  end.

Lemma undisturbed_unused gsis s s' v : machine_ok s -> undisturbed gsis s s' -> 0 <= v < 256 ->
  vector_handlers s' !! Z.to_nat v = Some default_handler -> vector_handlers s !! Z.to_nat v = Some default_handler.
Proof.
  intros [Ht _] [_ _ Hh _] Hv Hd.
  destruct (lookup_lt_is_Some_2 (vector_handlers s) (Z.to_nat v)) as [g Hg]; [unfold table_ok in Ht; lia|].
  destruct (decide (g = default_handler)) as [->|Hne]; [done|]. specialize (Hh _ _ Hg Hne). congruence.
Qed.

Lemma map_handlers_ok reqs s : machine_ok s -> NoDup ((fun r => pi_gsi r.1) <$> reqs) ->
  Forall (fun r => is_Some (find_ioapic mp_IOAPICs (pi_gsi r.1)) /\ r.2 <> default_handler) reqs ->
  exists bs s', map_handlers reqs s = Ok (bs, s') /\ undisturbed ((fun r => pi_gsi r.1) <$> reqs) s s' /\
    Forall2 (fun (b : bool) r => if b then routed s s' r.1 r.2 else no_vector s') bs reqs.
Proof using Hdm.
  revert s. induction reqs as [|[i h] reqs IH]; intros s Hs Hnd Hr.
  - exists [], s. split; [done|]. split; [by split|constructor].
  - rewrite fmap_cons in *. apply NoDup_cons in Hnd as [Hi Hnd]. apply Forall_cons in Hr as [[Hf Hh] Hr]. cbn [fst snd] in *.
    destruct (map_handler_ok s i h Hs Hf) as (b & s1 & E1 & U1 & Hb).
    destruct (IH s1 (un_ok _ _ _ U1) Hnd Hr) as (bs & s2 & E2 & U2 & H2). exists (b :: bs), s2.
    split; [cbn; erewrite bind_Ok_eq by exact E1; by erewrite bind_Ok_eq by exact E2|]. split.
    + destruct U1 as [O1 W1 P1 G1], U2 as [O2 W2 P2 G2]. split; [done|congruence| |].
      * intros v g Hv Hg. by apply P2; [apply P1|].
      * intros g Hg. rewrite G2, G1; [done|set_solver|set_solver].
    + constructor.
      * cbn [fst snd]. destruct b; [|intros v Hv Hd; apply (Hb v Hv); eapply undisturbed_unused; [apply U1|exact U2|lia|done]].
        destruct Hb as (v & Hlo & Hd & Hn & He). exists v. split; [done|]. split; [done|].
        split; [by apply (un_handlers _ _ _ U2)|]. by rewrite (un_entries _ _ _ U2).
      * eapply Forall2_impl; [exact H2|]. intros b' [i' h'] Hb'. cbn [fst snd] in *. destruct b'; [|done].
        destruct Hb' as (v & Hlo & Hd & Hn & He). exists v. split; [done|]. split; [|done].
        eapply undisturbed_unused; [exact Hs|exact U1|lia|done].
Qed.
End drivers.

(** ** Theorem *)

(** C35: Drivers that map interrupts of different inputs of the I/O APICs to handlers succeed
    as long as a vector of the minimum priority is unused.  Then the entry of each input
    holds a vector that was unused, not masked; a processor that receives that vector
    dispatches it to the handler of that driver, and then acknowledges it.  Handlers and
    entries that were in use before stay. *)
Theorem pci_interrupts_reach_handlers mp_IOAPICs default_handler handler_code apic_mode destmask destmode delivmode
    (s : irq apics) (reqs : list (pci_irq_t * Z)) :
  0 <= destmask < 256 -> table_ok s -> apics_ok mp_IOAPICs (irq_world s) ->
  NoDup ((fun r => pi_gsi r.1) <$> reqs) ->
  Forall (fun r => is_Some (find_ioapic mp_IOAPICs (pi_gsi r.1)) /\ r.2 <> default_handler /\ r.2 <> 0) reqs ->
  exists bs s', map_handlers mp_IOAPICs default_handler destmask destmode delivmode reqs s = Ok (bs, s') /\
    length bs = length reqs /\ undisturbed mp_IOAPICs default_handler ((fun r => pi_gsi r.1) <$> reqs) s s' /\
    forall n i h b, reqs !! n = Some (i, h) -> bs !! n = Some b ->
      if b : bool then
        exists v e, gsi_entry mp_IOAPICs (irq_world s') (pi_gsi i) = Some e /\ Z.land e 0xFF = v /\ Z.testbit e 16 = false /\
          64 <= v < 256 /\ vector_handlers s !! Z.to_nat v = Some default_handler /\
          forall x s'', handler_code h v s' = Ok (x, s'') ->
            dispatch_vector default_handler handler_code apic_mode v s' =
              Ok (x, mkIrq (vector_handlers s'') (device_writes s'' ++ eoi_writes apic_mode v) (irq_world s''))
      else no_vector default_handler s'.
Proof.
  intros Hdm Ht Ha Hnd Hr.
  destruct (map_handlers_ok mp_IOAPICs default_handler destmask destmode delivmode Hdm reqs s) as (bs & s' & E & U & H2); try done.
  { eapply Forall_impl; [exact Hr|]. intros r (H1 & H2 & _). by split. }
  exists bs, s'. split; [done|]. split; [by eapply Forall2_length|]. split; [done|]. intros n i h b Hn Hb.
  pose proof (Forall2_lookup_lr _ _ _ _ _ _ H2 Hb Hn) as Hres. cbn [fst snd] in Hres. destruct b; [|done].
  destruct Hres as (v & Hlo & Hd & Hh & He). eexists v, _. split; [exact He|].
  destruct (redirection_bits i v destmask destmode delivmode ltac:(lia) Hdm) as (Hb1 & Hb2 & _).
  destruct (proj1 (Forall_lookup _ _) Hr n (i, h) Hn) as (_ & Hne & Hne0). cbn [fst snd] in *.
  split_and!; try done; try lia. intros x s'' Hcode.
  eapply dispatch_vector_ok; [apply U|lia|exact Hh|done|]. unfold call_handler. by rewrite (proj2 (Z.eqb_neq _ _) Hne).
Qed.

(** *** Two I/O APICs of 24 entries, and three devices *)

Definition demo_ioapics : list mp_IOAPIC_info := [mkInfo 1 0xFEC00000 0 24; mkInfo 2 0xFEC10000 24 24].
Definition demo_apics : irq apics :=
  mkIrq (replicate 256 1000) []
    (mkApics 0xFEC00000 (<[0xFEC00000 := mkIoapic 0 ∅]> (<[0xFEC10000 := mkIoapic 0 ∅]> ∅)) []).
Definition demo_reqs : list (pci_irq_t * Z) :=
  [(mkPciIrq 0 3 1 16 TriggerDefault PolarityDefault, 2000); (mkPciIrq 0 4 1 30 TriggerLevel PolarityLow, 3000);
   (mkPciIrq 1 5 2 17 TriggerEdge PolarityHigh, 4000)].

Lemma pci_interrupts_reach_handlers_witness :
  exists bs s', map_handlers demo_ioapics 1000 1 DestinationLogical DeliveryFixed demo_reqs demo_apics = Ok (bs, s') /\
    bs = [true; true; true] /\ gsi_entry demo_ioapics (irq_world s') 30 = Some 0x010000000000A841 /\
    exists v, dispatch_vector 1000 (fun h x => ret (h + x)) true v s' = Ok (3000 + v, mkIrq (vector_handlers s') [LapicEoi 0] (irq_world s')).
Proof.
  destruct (pci_interrupts_reach_handlers demo_ioapics 1000 (fun h x => ret (h + x)) true 1 DestinationLogical DeliveryFixed
    demo_apics demo_reqs) as (bs & s' & E & _ & _ & H).
  - lia.
  - reflexivity.
  - split; [cbn; lia| | |].
    + apply (bool_decide_unpack _). vm_compute. exact I.
    + intros a Ha. repeat (apply elem_of_cons in Ha as [->|Ha]; [cbn; lia|]). by apply elem_of_nil in Ha.
    + intros a Ha. repeat (apply elem_of_cons in Ha as [->|Ha]; [by eexists|]). by apply elem_of_nil in Ha.
  - apply (bool_decide_unpack _). vm_compute. exact I.
  - repeat constructor; try (by eexists); cbn; lia.
  - vm_compute in E. injection E as <- <-. eexists _, _. split; [vm_compute; reflexivity|]. split; [reflexivity|].
    split; [vm_compute; reflexivity|].
    destruct (H 1%nat _ _ true eq_refl eq_refl) as (v & e & _ & _ & _ & _ & _ & D).
    exists v. exact (D (3000 + v) _ eq_refl).
Defined.
