(* ===== verification/Circular.v ===== *)
(** * Circular buffers: util/circular.c

    A buffer of [num_elts] slots of [elt_size] bytes each, with an insertion and a
    removal pointer (offsets into the buffer) and two wait queues.  As in
    [Semaphore], a blocking call is a loop whose rounds are separated by a call of
    the scheduler; [insert_round] and [remove_round] are one round, a critical
    section under [c->lock].  The buffer implements a bounded FIFO queue. *)

From Stdlib Require Import ZArith Lia.
From S2P Require Import Prelude TaskQueue ReplQueue Vcpu VcpuSched SchedThm SchedTheorems Waitqueue Sleep.
From stdpp Require Import base gmap sets fin_sets numbers strings list.
Local Open Scope Z_scope.

(** ** Data *)

Record circular := mkCirc {
  cb_buffer : list Z;
  cb_insert_ptr : Z;
  cb_remove_ptr : Z;
  cb_buffer_end : Z;
  cb_num_elts : Z;
  cb_elt_size : Z;
  cb_cur_count : Z;
  cb_ins_waitq : Z;
  cb_rem_waitq : Z
}.

Definition circular_init (buffer : list Z) (num_elts elt_size : Z) : circular :=
  mkCirc buffer 0 0 (num_elts * elt_size) num_elts elt_size 0 0 0.

(** [memcpy] into and out of the buffer. *)
Definition copy_in (buf : list Z) (off : Z) (bytes : list Z) : outcome (list Z) :=
  let o := Z.to_nat off in
  if (o + length bytes <=? length buf)%nat
  then Ok (take o buf ++ bytes ++ drop (o + length bytes) buf)
  else Err OutOfBounds.

Definition copy_out (buf : list Z) (off size : Z) : outcome (list Z) :=
  let o := Z.to_nat off in
  let n := Z.to_nat size in
  if (o + n <=? length buf)%nat then Ok (take n (drop o buf)) else Err OutOfBounds.

(** The pointer to the next slot. *)
Definition advance_ptr (c : circular) (p : Z) : Z :=
  let p := p + cb_elt_size c in
  if cb_buffer_end c <=? p then 0 else p.

Section ops.
Context {W : Type} `{Scheduler W}.

(** One round of [generic_circular_insert]: [Some ret] when the call returns,
    [None] when the running task was queued and [schedule] is called.  [nowait] is
    the flag CIRCULAR_FLAG_NOWAIT; [elt] are the [elt_size] bytes at the pointer
    argument. *)
Definition insert_round (c : circular) (elt : list Z) (nowait : bool)
  : M W (option Z * circular) :=
  if cb_cur_count c =? cb_num_elts c then
    if nowait then ret (Some (-1), c)
    else
      let! sel := w_str in
      let! q := put_on (cb_ins_waitq c) sel in
      ret (None, mkCirc (cb_buffer c) (cb_insert_ptr c) (cb_remove_ptr c) (cb_buffer_end c)
                   (cb_num_elts c) (cb_elt_size c) (cb_cur_count c) q (cb_rem_waitq c))
  else
    let! buf := lift (copy_in (cb_buffer c) (cb_insert_ptr c) elt) in
    let ret' := s32 (cb_cur_count c + 1) in
    let! q := wakeup_queue (cb_rem_waitq c) in
    ret (Some ret', mkCirc buf (advance_ptr c (cb_insert_ptr c)) (cb_remove_ptr c) (cb_buffer_end c)
                      (cb_num_elts c) (cb_elt_size c) ret' (cb_ins_waitq c) q).

(** One round of [generic_circular_remove]; the bytes are those copied to
    [out_elt]. *)
Definition remove_round (c : circular) (nowait : bool)
  : M W (option (Z * list Z) * circular) :=
  if cb_cur_count c =? 0 then
    if nowait then ret (Some (-1, []), c)
    else
      let! sel := w_str in
      let! q := put_on (cb_rem_waitq c) sel in
      ret (None, mkCirc (cb_buffer c) (cb_insert_ptr c) (cb_remove_ptr c) (cb_buffer_end c)
                   (cb_num_elts c) (cb_elt_size c) (cb_cur_count c) (cb_ins_waitq c) q)
  else
    let! out := lift (copy_out (cb_buffer c) (cb_remove_ptr c) (cb_elt_size c)) in
    let ret' := s32 (cb_cur_count c - 1) in
    let! q := wakeup_queue (cb_ins_waitq c) in
    ret (Some (ret', out),
         mkCirc (cb_buffer c) (cb_insert_ptr c) (advance_ptr c (cb_remove_ptr c)) (cb_buffer_end c)
           (cb_num_elts c) (cb_elt_size c) ret' q (cb_rem_waitq c)).
End ops.

(** ** The FIFO queue a buffer holds *)

(** Slot [j] of a buffer of slots of [n] bytes. *)
Definition bslot (n : nat) (buf : list Z) (j : nat) : list Z := take n (drop (j * n) buf).

Lemma bslot_length n buf j num :
  length buf = (num * n)%nat -> (j < num)%nat -> length (bslot n buf j) = n.
Proof. intros Hl Hj. unfold bslot. rewrite length_take, length_drop. nia. Qed.

Lemma copy_in_slot n buf j elt num :
  length buf = (num * n)%nat -> (j < num)%nat -> length elt = n ->
  exists buf', copy_in buf (Z.of_nat (j * n)) elt = Ok buf' /\ length buf' = length buf /\
    forall k, (k < num)%nat -> bslot n buf' k = if decide (k = j) then elt else bslot n buf k.
Proof.
  intros Hl Hj He. unfold copy_in. rewrite Nat2Z.id, He.
  destruct (Nat.leb_spec (j * n + n) (length buf)); [|nia].
  eexists. split; [done|]. split.
  { rewrite !length_app, length_take, length_drop. lia. }
  intros k Hk. apply list_eq. intros i. unfold bslot.
  destruct (decide (i < n)%nat) as [Hi|Hi].
  2:{ rewrite lookup_take_ge by lia. destruct (decide (k = j)).
      - by rewrite lookup_ge_None_2 by lia.
      - by rewrite lookup_take_ge by lia. }
  rewrite lookup_take_lt, lookup_drop by lia. destruct (decide (k = j)) as [->|Hne].
  - rewrite lookup_app_r by (rewrite length_take; lia). rewrite length_take.
    rewrite lookup_app_l by lia. f_equal. lia.
  - rewrite lookup_take_lt, lookup_drop by lia.
    destruct (decide (k < j)%nat).
    + rewrite lookup_app_l by (rewrite length_take; nia). by rewrite lookup_take_lt by nia.
    + rewrite lookup_app_r by (rewrite length_take; nia). rewrite length_take.
      rewrite lookup_app_r by nia. rewrite lookup_drop. f_equal. nia.
Qed.

Lemma copy_out_slot n buf j num :
  length buf = (num * n)%nat -> (j < num)%nat ->
  copy_out buf (Z.of_nat (j * n)) (Z.of_nat n) = Ok (bslot n buf j).
Proof.
  intros Hl Hj. unfold copy_out. rewrite !Nat2Z.id.
  destruct (Nat.leb_spec (j * n + n) (length buf)); [done|nia].
Qed.

(** [c] holds the elements [els], oldest first, from slot [r] on. *)
Record holds (c : circular) (r : nat) (els : list (list Z)) : Prop := {
  ho_num : 0 < cb_num_elts c;
  ho_size : 0 < cb_elt_size c;
  ho_small : cb_num_elts c * cb_elt_size c < 2 ^ 31;
  ho_end : cb_buffer_end c = cb_num_elts c * cb_elt_size c;
  ho_buffer : length (cb_buffer c) = (Z.to_nat (cb_num_elts c) * Z.to_nat (cb_elt_size c))%nat;
  ho_r : (r < Z.to_nat (cb_num_elts c))%nat;
  ho_remove : cb_remove_ptr c = Z.of_nat (r * Z.to_nat (cb_elt_size c));
  ho_insert : cb_insert_ptr c =
    Z.of_nat (((r + length els) mod Z.to_nat (cb_num_elts c)) * Z.to_nat (cb_elt_size c));
  ho_count : cb_cur_count c = Z.of_nat (length els);
  ho_cap : (length els <= Z.to_nat (cb_num_elts c))%nat;
  ho_slots : forall k e, els !! k = Some e ->
    bslot (Z.to_nat (cb_elt_size c)) (cb_buffer c) ((r + k) mod Z.to_nat (cb_num_elts c)) = e
}.

Lemma holds_init buf num size :
  0 < num -> 0 < size -> num * size < 2 ^ 31 -> Z.of_nat (length buf) = num * size ->
  holds (circular_init buf num size) 0 [].
Proof.
  intros Hn Hs Hm Hl. split; cbn [circular_init cb_num_elts cb_elt_size cb_buffer cb_buffer_end
    cb_insert_ptr cb_remove_ptr cb_cur_count length]; try done; try lia.
  rewrite Nat.Div0.mod_0_l. lia.
Qed.

(** Advancing a pointer. *)
Lemma advance_slot c j :
  0 < cb_num_elts c -> 0 < cb_elt_size c -> cb_buffer_end c = cb_num_elts c * cb_elt_size c ->
  (j < Z.to_nat (cb_num_elts c))%nat ->
  advance_ptr c (Z.of_nat (j * Z.to_nat (cb_elt_size c))) =
  Z.of_nat ((S j mod Z.to_nat (cb_num_elts c)) * Z.to_nat (cb_elt_size c)).
Proof.
  intros Hn Hs He Hj. unfold advance_ptr. rewrite He.
  destruct (decide (S j = Z.to_nat (cb_num_elts c))) as [E|E].
  - rewrite E, Nat.Div0.mod_same. rewrite (proj2 (Z.leb_le _ _)) by nia. done.
  - rewrite Nat.mod_small by lia. rewrite (proj2 (Z.leb_gt _ _)) by nia. lia.
Qed.

(** Taking the element at slot [r] out. *)
Lemma holds_remove c r e els q q' :
  holds c r (e :: els) ->
  holds (mkCirc (cb_buffer c) (cb_insert_ptr c) (advance_ptr c (cb_remove_ptr c)) (cb_buffer_end c)
           (cb_num_elts c) (cb_elt_size c) (cb_cur_count c - 1) q q')
    (S r mod Z.to_nat (cb_num_elts c)) els.
Proof.
  intros []. split; cbn [cb_buffer cb_insert_ptr cb_remove_ptr cb_buffer_end cb_num_elts cb_elt_size
    cb_cur_count]; try done; cbn [length] in *; try lia.
  - apply Nat.mod_upper_bound. lia.
  - rewrite ho_remove0. by apply advance_slot.
  - rewrite ho_insert0. rewrite Nat.Div0.add_mod_idemp_l. do 3 f_equal. lia.
  - intros k x Hx. rewrite Nat.Div0.add_mod_idemp_l.
    rewrite <- (ho_slots0 (S k) x Hx). f_equal. f_equal. lia.
Qed.

(** The slots of a full turn are distinct. *)
Lemma slots_distinct r k l num :
  (0 < num)%nat -> (r < num)%nat -> (k < num)%nat -> (l < num)%nat ->
  ((r + k) mod num = (r + l) mod num)%nat -> k = l.
Proof.
  intros Hn Hr Hk Hl E.
  pose proof (Nat.div_mod (r + k) num ltac:(lia)) as D1.
  pose proof (Nat.div_mod (r + l) num ltac:(lia)) as D2.
  assert ((r + k) / num < 2)%nat by (apply Nat.Div0.div_lt_upper_bound; lia).
  assert ((r + l) / num < 2)%nat by (apply Nat.Div0.div_lt_upper_bound; lia).
  destruct ((r + k) / num)%nat as [|[|]], ((r + l) / num)%nat as [|[|]]; lia.
Qed.

(** Putting an element into the slot after the last. *)
Lemma holds_insert c r els elt q q' :
  holds c r els -> (length els < Z.to_nat (cb_num_elts c))%nat ->
  length elt = Z.to_nat (cb_elt_size c) ->
  exists buf', copy_in (cb_buffer c) (cb_insert_ptr c) elt = Ok buf' /\
    holds (mkCirc buf' (advance_ptr c (cb_insert_ptr c)) (cb_remove_ptr c) (cb_buffer_end c)
             (cb_num_elts c) (cb_elt_size c) (cb_cur_count c + 1) q q') r (els ++ [elt]).
Proof.
  intros Hh Hfree Hlen. pose proof Hh as [].
  set (num := Z.to_nat (cb_num_elts c)) in *. set (n := Z.to_nat (cb_elt_size c)) in *.
  set (j := ((r + length els) mod num)%nat) in *.
  assert (j < num)%nat as Hj by (apply Nat.mod_upper_bound; lia).
  destruct (copy_in_slot n (cb_buffer c) j elt num ho_buffer0 Hj Hlen) as (buf' & E & Hl & Hslots).
  exists buf'. rewrite ho_insert0. split; [exact E|].
  split; cbn [cb_buffer cb_insert_ptr cb_remove_ptr cb_buffer_end cb_num_elts cb_elt_size
    cb_cur_count]; try done; rewrite ?length_app; cbn [length]; fold num n; try lia.
  - unfold n. rewrite advance_slot by done. fold num n. f_equal. f_equal. unfold j.
    replace (r + (length els + 1))%nat with (1 + (r + length els))%nat by lia.
    change (S ((r + length els) mod num)) with (1 + (r + length els) mod num)%nat.
    by rewrite Nat.Div0.add_mod_idemp_r.
  - intros k e Hk. rewrite Hslots by (apply Nat.mod_upper_bound; lia).
    destruct (decide (k = length els)) as [->|Hne].
    + rewrite decide_True by done. rewrite lookup_app_r, Nat.sub_diag in Hk by lia. by injection Hk.
    + assert (k < length els)%nat as Hlt
        by (apply lookup_lt_Some in Hk; rewrite length_app in Hk; cbn in Hk; lia).
      rewrite lookup_app_l in Hk by done. rewrite decide_False; [by apply ho_slots0|].
      unfold j. intros Heq. apply slots_distinct in Heq; lia.
Qed.

(** ** The rounds *)

Section rounds.
Context {W : Type} `{SchedulerLaws W}.

(** The wait queues of [c] hold [li] and [lr]; their tasks are asleep and on one
    queue only. *)
Record waits (w : W) (c : circular) (li lr : list Z) : Prop := {
  wt_inv : w_inv w;
  wt_ins : chain (w_tasks w) (cb_ins_waitq c) li;
  wt_rem : chain (w_tasks w) (cb_rem_waitq c) lr;
  wt_ins_sleep : sleeping w li;
  wt_rem_sleep : sleeping w lr;
  wt_disj : forall x, x ∈ li -> x ∉ lr
}.

(** After the tasks [l] were woken the other queue is as it was. *)
Lemma awoken_other (w w' : W) l l' q :
  awoken l w w' -> sleeping w l' -> (forall x, x ∈ l' -> x ∉ l) ->
  chain (w_tasks w) q l' -> chain (w_tasks w') q l' /\ sleeping w' l'.
Proof.
  intros Ha Hs Hd Hc. split; [by eapply sleeping_chain|].
  intros x Hx. destruct (Hs x Hx) as [Hw Hr]. split; [by apply (aw_wakeable _ _ _ Ha)|].
  rewrite (aw_ready _ _ _ Ha). intros [?|?]; [done|]. by apply (Hd x).
Qed.

Definition with_ins_waitq (c : circular) (q : Z) : circular :=
  mkCirc (cb_buffer c) (cb_insert_ptr c) (cb_remove_ptr c) (cb_buffer_end c)
    (cb_num_elts c) (cb_elt_size c) (cb_cur_count c) q (cb_rem_waitq c).

(** What one round of an insertion does. *)
Definition inserted (w : W) (c : circular) (r : nat) (els : list (list Z)) (elt : list Z)
    (nowait : bool) (li lr : list Z) (res : option Z * circular) (w' : W) : Prop :=
  let '(o, c') := res in
  if decide (Z.of_nat (length els) = cb_num_elts c) then
    if nowait then o = Some (-1) /\ c' = c /\ w' = w
    else o = None /\ exists t q, w_str w = Ok (t, w) /\ c' = with_ins_waitq c q /\
         w_inv w' /\ chain (w_tasks w') q (append_spec li t)
  else
    o = Some (Z.of_nat (length els) + 1) /\ holds c' r (els ++ [elt]) /\
    cb_num_elts c' = cb_num_elts c /\ cb_elt_size c' = cb_elt_size c /\
    waits w' c' li [] /\ (forall y, ready w' y <-> ready w y \/ y ∈ lr).

Lemma insert_round_wp (w : W) c r els elt nowait li lr :
  holds c r els -> waits w c li lr -> Z.of_nat (length elt) = cb_elt_size c ->
  (nowait = false -> forall t, w_str w = Ok (t, w) -> wakeable w t /\ ~ ready w t) ->
  wp (insert_round c elt nowait) (inserted w c r els elt nowait li lr) w.
Proof.
  intros Hh [Hi Hci Hcr Hsi Hsr Hd] Hlen Hcur. pose proof Hh as [].
  unfold insert_round, inserted. rewrite ho_count0.
  destruct (Z.eqb_spec (Z.of_nat (length els)) (cb_num_elts c)) as [Efull|Efull].
  - destruct nowait; [apply wp_ret; by rewrite decide_True|].
    destruct (str_ok w Hi) as [t Ht]. apply wp_bind. unfold wp at 1. rewrite Ht.
    destruct (Hcur eq_refl t Ht) as [Hwt Hrt]. apply wp_bind.
    eapply wp_mono; [by apply (put_on_wp w _ li t)|].
    intros q w' (Hi' & Hc' & _). apply wp_ret. rewrite decide_True by done. split; [done|].
    exists t, q. split; [done|]. split; [by unfold with_ins_waitq; rewrite <- ho_count0|]. done.
  - destruct (holds_insert c r els elt (cb_ins_waitq c) 0 Hh) as (buf' & E & Hh'); [lia|lia|].
    apply wp_bind. eapply wp_lift; [exact E|]. apply wp_bind.
    eapply wp_mono; [by apply (wakeup_queue_wp w _ lr)|]. intros q w' [-> Ha]. apply wp_ret.
    rewrite decide_False by done. rewrite s32_small by nia. split; [done|].
    split; [by rewrite <- ho_count0|]. split; [done|]. split; [done|].
    split; [|apply Ha]. destruct (awoken_other w w' lr li _ Ha Hsi Hd Hci) as [Hci' Hsi'].
    split; cbn; try done; [apply Ha|set_solver|set_solver].
Qed.

(** What one round of a removal does. *)
Definition removed (w : W) (c : circular) (r : nat) (els : list (list Z))
    (nowait : bool) (li lr : list Z) (res : option (Z * list Z) * circular) (w' : W) : Prop :=
  let '(o, c') := res in
  match els with
  | [] => if nowait then o = Some (-1, []) /\ c' = c /\ w' = w
          else o = None /\ exists t q, w_str w = Ok (t, w) /\
               cb_rem_waitq c' = q /\ holds c' r [] /\
               w_inv w' /\ chain (w_tasks w') q (append_spec lr t)
  | e :: els' =>
      o = Some (Z.of_nat (length els'), e) /\
      (exists r', holds c' r' els') /\
      cb_num_elts c' = cb_num_elts c /\ cb_elt_size c' = cb_elt_size c /\
      waits w' c' [] lr /\ (forall y, ready w' y <-> ready w y \/ y ∈ li)
  end.

Lemma remove_round_wp (w : W) c r els nowait li lr :
  holds c r els -> waits w c li lr ->
  (els = [] -> nowait = false -> forall t, w_str w = Ok (t, w) -> wakeable w t /\ ~ ready w t) ->
  wp (remove_round c nowait) (removed w c r els nowait li lr) w.
Proof.
  intros Hh [Hi Hci Hcr Hsi Hsr Hd] Hcur. pose proof Hh as [].
  unfold remove_round, removed. rewrite ho_count0. destruct els as [|e els].
  - rewrite (proj2 (Z.eqb_eq _ 0)) by done. destruct nowait; [by apply wp_ret|].
    destruct (str_ok w Hi) as [t Ht]. apply wp_bind. unfold wp at 1. rewrite Ht.
    destruct (Hcur eq_refl eq_refl t Ht) as [Hwt Hrt]. apply wp_bind.
    eapply wp_mono; [by apply (put_on_wp w _ lr t)|].
    intros q w' (Hi' & Hc' & _). apply wp_ret. split; [done|]. exists t, q.
    split; [done|]. split; [done|]. split; [by rewrite <- ho_count0; split|]. done.
  - cbn [length]. rewrite (proj2 (Z.eqb_neq _ 0)) by lia.
    apply wp_bind. eapply wp_lift.
    { rewrite ho_remove0. rewrite <- (Z2Nat.id (cb_elt_size c)) at 2 by lia.
      by apply (copy_out_slot _ _ _ (Z.to_nat (cb_num_elts c))). }
    apply wp_bind. eapply wp_mono; [by apply (wakeup_queue_wp w _ li)|]. intros q w' [-> Ha].
    apply wp_ret. cbn [length] in *. rewrite s32_small by nia. split.
    { f_equal. f_equal; [lia|]. rewrite <- (ho_slots0 0%nat e eq_refl).
      rewrite Nat.add_0_r, Nat.mod_small by lia. done. }
    pose proof (holds_remove c r e els 0 (cb_rem_waitq c) Hh) as Hh'. rewrite ho_count0 in Hh'.
    cbn [length] in Hh'. split; [eexists; exact Hh'|]. split; [done|]. split; [done|]. split; [|apply Ha].
    destruct (awoken_other w w' li lr _ Ha Hsr ltac:(intros x Hx Hx'; by apply (Hd x)) Hcr)
      as [Hcr' Hsr'].
    split; cbn; try done; [apply Ha|set_solver|set_solver].
Qed.
End rounds.

(** ** Theorems *)

(** C29: one round of [generic_circular_insert] implements the insertion into a
    bounded FIFO queue: on a full buffer it returns -1 (no waiting) or queues the
    running task; otherwise the element is appended behind those in the buffer, the
    new count is returned, and all tasks that wait to remove are made ready. *)
Theorem circular_insert_refines {W} `{SchedulerLaws W} (w : W) c r els elt nowait li lr :
  holds c r els -> waits w c li lr -> Z.of_nat (length elt) = cb_elt_size c ->
  (forall t, w_str w = Ok (t, w) -> wakeable w t /\ ~ ready w t) ->
  exists res w', insert_round c elt nowait w = Ok (res, w') /\
    inserted w c r els elt nowait li lr res w'.
Proof. intros. apply wp_Ok, insert_round_wp; auto. Qed.

(** one round of [generic_circular_remove] implements the removal of the oldest
    element: its bytes are copied out unchanged, whatever turn of the buffer they
    were written in, the remaining count is returned and all tasks that wait to
    insert are made ready; on an empty buffer it returns -1 or queues the task. *)
Theorem circular_remove_refines {W} `{SchedulerLaws W} (w : W) c r els nowait li lr :
  holds c r els -> waits w c li lr ->
  (forall t, w_str w = Ok (t, w) -> wakeable w t /\ ~ ready w t) ->
  exists res w', remove_round c nowait w = Ok (res, w') /\
    removed w c r els nowait li lr res w'.
Proof. intros. apply wp_Ok, remove_round_wp; auto. Qed.

(** *** Witnesses: two slots of two bytes; two tasks wait to remove *)

Definition example_circ : circular := mkCirc [7; 8; 0; 0] 2 0 4 2 2 1 0 0x48.

Lemma example_circ_holds : holds example_circ 0 [[7; 8]].
Proof.
  split; cbn; try lia; try done.
  intros [|k] e He; [by injection He as <-|done].
Qed.

Lemma example_circ_waits :
  @waits sched (vcpu_scheduler calm_env 0) (vcpu_scheduler_laws calm_env 0 calm_clock)
    drowsy_sched example_circ [] [0x48; 0x50].
Proof.
  split.
  - eexists _, _, _. exact drowsy_wf.
  - done.
  - exact sleepers_chain.
  - intros x Hx. set_solver.
  - exact sleepers_bound.
  - set_solver.
Qed.

Lemma drowsy_running t :
  @w_str sched (vcpu_scheduler calm_env 0) drowsy_sched = Ok (t, drowsy_sched) ->
  bound_here 0 drowsy_sched t /\ ~ exists j, on_runqueue drowsy_sched j t.
Proof.
  intros [= <-]. split; [|intros (j & [[_ ?]|[_ ?]]%sleepers_queue); lia].
  split; [lia|]. eexists _, 0%nat, _. split; [reflexivity|]. split; [done|]. split; [cbn; lia|].
  do 3 (split; [reflexivity|]). intros j [[_ ?]|[_ ?]]%sleepers_queue; lia.
Qed.

Lemma circular_insert_refines_witness :
  exists c' s', @insert_round sched (vcpu_scheduler calm_env 0) example_circ [5; 6] false drowsy_sched =
      Ok ((Some 2, c'), s') /\ holds c' 0 [[7; 8]; [5; 6]].
Proof.
  destruct (@circular_insert_refines sched (vcpu_scheduler calm_env 0)
    (vcpu_scheduler_laws calm_env 0 calm_clock) drowsy_sched example_circ 0 [[7; 8]] [5; 6] false
    [] [0x48; 0x50] example_circ_holds example_circ_waits eq_refl drowsy_running)
    as ([o c'] & s' & E & Ho & Hh & _).
  subst o. exists c', s'. split; [exact E|exact Hh].
Defined.

Lemma circular_remove_refines_witness :
  exists c' s', @remove_round sched (vcpu_scheduler calm_env 0) example_circ false drowsy_sched =
      Ok ((Some (0, [7; 8]), c'), s') /\ exists r', holds c' r' [].
Proof.
  destruct (@circular_remove_refines sched (vcpu_scheduler calm_env 0)
    (vcpu_scheduler_laws calm_env 0 calm_clock) drowsy_sched example_circ 0 [[7; 8]] false
    [] [0x48; 0x50] example_circ_holds example_circ_waits drowsy_running)
    as ([o c'] & s' & E & Ho & Hh & _).
  subst o. exists c', s'. split; [exact E|exact Hh].
Defined.
