(* ===== verification/Keyboard.v ===== *)
(** * Keyboard: drivers/input/keyboard_8042.c and keymap.c

    The interrupt handler turns the bytes of the keyboard controller into key events: it
    keeps the keys that are held in a table of five entries and puts a copy of the table
    into a circular buffer at each change, with the key that changed marked.  A reader
    takes the events out and translates them to characters.  The buffer is that of
    [Circular], of 16 slots of 20 bytes each.

    The abstract keyboard is the set of keys held and a queue of at most 16 events.  The
    byte of the data port is an argument of the handler; messages on the serial line are
    left out.  Of the status port there is a list of the values it will show; after the
    reset that Ctrl-Alt-Del asks for nothing goes on: it is the error [Reset].  What is
    proved about texts is for one-byte scancodes, since the prefix of the others is lost
    ([extended_prefix_lost]). *)

From Stdlib Require Import ZArith Lia.
From S2P Require Import Prelude TaskQueue Waitqueue Sleep Circular SchedTheorems VcpuSched.
From stdpp Require Import base gmap sets fin_sets numbers strings list.
Local Open Scope Z_scope.

(** ** Data *)

Definition KEYBOARD_BUFFER_SIZE : Z := 16.
Definition KEY_EVENT_MAX : nat := 5.

Record key := mkKey {
  k_scancode : Z;
  k_present : bool;
  k_pressed : bool;
  k_release : bool;
  k_latest : bool
}.

(** The four bytes of a key, with its bit fields. *)
Definition key_bytes (k : key) : list Z :=
  [k_scancode k mod 256; k_scancode k / 256;
   Z.b2z (k_present k) + 2 * Z.b2z (k_pressed k) + 4 * Z.b2z (k_release k) + 8 * Z.b2z (k_latest k); 0].
Definition event_bytes (e : list key) : list Z := e ≫= key_bytes.

Fixpoint event_of_bytes (n : nat) (b : list Z) : list key :=
  match n, b with
  | S n, lo :: hi :: f :: _ :: b =>
      mkKey (lo + 256 * hi) (Z.testbit f 0) (Z.testbit f 1) (Z.testbit f 2) (Z.testbit f 3) :: event_of_bytes n b
  | _, _ => []
  end.

(** The statics of the driver, what reads of the status port will return, and the scheduler. *)
Record keyboard (W : Type) := mkKbd {
  cur_event : list key;
  kb_escape : Z;
  keyb_buffer : circular;
  kb_status : list Z;
  kb_world : W
}.
Arguments mkKbd {W}.
Arguments cur_event {W}.
Arguments kb_escape {W}.
Arguments keyb_buffer {W}.
Arguments kb_status {W}.
Arguments kb_world {W}.

Definition clean_key : key := mkKey 0 false false false false.

(** ** The interrupt handler *)

Definition key_is (code : Z) (k : key) : Prop := k_present k = true /\ k_scancode k = code.
Definition key_free (k : key) : Prop := k_present k = false.
#[global] Instance key_is_dec code k : Decision (key_is code k).
Proof. unfold key_is. apply _. Defined.
#[global] Instance key_free_dec k : Decision (key_free k).
Proof. unfold key_free. apply _. Defined.

Section ops.
Context {W : Type} `{Scheduler W}.

Definition set_event (e : list key) (s : keyboard W) : keyboard W :=
  mkKbd e (kb_escape s) (keyb_buffer s) (kb_status s) (kb_world s).
Definition set_escape (x : Z) (s : keyboard W) : keyboard W :=
  mkKbd (cur_event s) x (keyb_buffer s) (kb_status s) (kb_world s).

Definition upd_key (i : nat) (f : key -> key) : M (keyboard W) unit :=
  modify (fun s => set_event (alter f i (cur_event s)) s).

Definition clean_entry (i : nat) : M (keyboard W) unit := upd_key i (fun _ => clean_key).

(** [circular_insert_nowait (&keyb_buffer, (void * )&cur_event)]. *)
Definition insert_event : M (keyboard W) Z :=
  fun s => match insert_round (keyb_buffer s) (event_bytes (cur_event s)) true (kb_world s) with
           | Ok ((o, c), w) => Ok (default (-1) o, mkKbd (cur_event s) (kb_escape s) c (kb_status s) w)
           | Err e => Err e
           end.

Definition release_key (code : Z) : M (keyboard W) unit :=
  let! e := gets cur_event in
  match list_find (key_is code) e with
  | Some (i, _) =>
      upd_key i (fun k => mkKey (k_scancode k) (k_present k) false true true) ;;!
      let! _ := insert_event in
      clean_entry i
  | None => ret tt
  end.

Definition press_key (code : Z) : M (keyboard W) unit :=
  let! e := gets cur_event in
  let entry := match list_find (key_is code) e with
               | Some (i, _) => Some i
               | None => fst <$> list_find key_free e
               end in
  match entry with
  | Some i =>
      upd_key i (fun k => mkKey code true true (k_release k) true) ;;!
      let! _ := insert_event in
      upd_key i (fun k => mkKey (k_scancode k) (k_present k) (k_pressed k) (k_release k) false)
  | None => ret tt
  end.

Definition down (codes : list Z) (k : key) : bool :=
  k_present k && k_pressed k && bool_decide (k_scancode k ∈ codes).

Definition control_alt_del (e : list key) : bool :=
  existsb (down [0x001d; 0xe01d]) e && existsb (down [0x0038; 0xe038]) e && existsb (down [0x0053; 0xe053]) e.

Definition set_status (l : list Z) (s : keyboard W) : keyboard W :=
  mkKbd (cur_event s) (kb_escape s) (keyb_buffer s) l (kb_world s).

(** [while (((state = inb (KEYBOARD_STATUS_PORT)) & 2) != 0);] *)
Fixpoint wait_input_empty (status : list Z) : M (keyboard W) unit :=
  match status with
  | [] => fail OutOfFuel
  | state :: status => modify (set_status status) ;;! if negb (Z.land state 2 =? 0) then wait_input_empty status else ret tt
  end.

(** [outb (0xFE, KEYBOARD_STATUS_PORT)] pulls the reset line of the processor; until then it
    is halted. *)
Definition check_control_alt_del : M (keyboard W) unit :=
  let! e := gets cur_event in
  when (control_alt_del e)
    (let! status := gets kb_status in wait_input_empty status ;;! fail Reset).

(** [code] is an [uint8]: of [code |= (escape << 8)] nothing remains. *)
Definition kbd_irq_handler (byte : Z) : M (keyboard W) Z :=
  let! escape := gets kb_escape in
  let code := if negb (escape =? 0) then u8 (Z.lor byte (Z.shiftl escape 8)) else byte in
  when (negb (escape =? 0)) (modify (set_escape 0)) ;;!
  (if (code =? 0xE0) || (code =? 0xE1) then modify (set_escape code)
   else if negb (Z.land code 0x80 =? 0) then release_key (Z.land code (u8 (Z.lnot 0x80)))
   else press_key code) ;;!
  check_control_alt_del ;;!
  ret 0.

(** [init_keyboard_8042], but for the registration of the handler. *)
Definition init_keyboard_8042 (space status : list Z) (w : W) : keyboard W :=
  mkKbd (replicate KEY_EVENT_MAX clean_key) 0 (circular_init space KEYBOARD_BUFFER_SIZE 20) status w.

(** ** The key map *)

Definition lcase_scancode : list Z :=
  [0; 27; 49; 50; 51; 52; 53; 54; 55; 56; 57; 48; 45; 61; 127; 9; 113; 119; 101; 114; 116; 121; 117; 105; 111; 112; 91; 93;
   10; 0; 97; 115; 100; 102; 103; 104; 106; 107; 108; 59; 39; 96; 0; 92; 122; 120; 99; 118; 98; 110; 109; 44; 46; 47; 0; 42;
   0; 32] ++ replicate 13 0 ++ [55; 56; 57; 45; 52; 53; 54; 43; 49; 50; 51; 48; 46] ++ replicate 44 0.
Definition ucase_scancode : list Z :=
  [0; 27; 49; 50; 51; 52; 53; 54; 55; 56; 57; 48; 45; 61; 127; 9; 81; 87; 69; 82; 84; 89; 85; 73; 79; 80; 91; 93; 10; 0; 65;
   83; 68; 70; 71; 72; 74; 75; 76; 59; 39; 96; 0; 92; 90; 88; 67; 86; 66; 78; 77; 44; 46; 47; 0; 42; 0; 32] ++
  replicate 13 0 ++ [55; 56; 57; 45; 52; 53; 54; 43; 49; 50; 51; 48; 46] ++ replicate 44 0.

(** One key of an event: the modifiers and the character code. *)
Definition scan_key : bool * bool * bool * Z -> key -> bool * bool * bool * Z := fun '(shiftmod, ctrlmod, altmod, char_code) k =>
  if k_present k && k_pressed k then
    if bool_decide (k_scancode k ∈ [0x2A; 0x36]) then (true, ctrlmod, altmod, char_code)
    else if bool_decide (k_scancode k ∈ [0x1D; 0xE01D]) then (shiftmod, true, altmod, char_code)
    else if bool_decide (k_scancode k ∈ [0x38; 0xE038]) then (shiftmod, ctrlmod, true, char_code)
    else if (k_scancode k <? 128) && k_latest k then (shiftmod, ctrlmod, altmod, u8 (k_scancode k))
    else (shiftmod, ctrlmod, altmod, char_code)
  else (shiftmod, ctrlmod, altmod, char_code).

(** [keyboard_8042_next]: [None] when the running task was queued. *)
Definition keyboard_8042_next : M (keyboard W) (option (list key)) :=
  fun s => match remove_round (keyb_buffer s) false (kb_world s) with
           | Ok ((o, c), w) => Ok ((fun r => event_of_bytes KEY_EVENT_MAX r.2) <$> o,
                                   mkKbd (cur_event s) (kb_escape s) c (kb_status s) w)
           | Err e => Err e
           end.

(** One round of the loop of [keymap_getchar]. *)
Definition getchar_body (_ : unit) : M (keyboard W) (control unit (option Z)) :=
  let! o := keyboard_8042_next in
  match o with
  | None => ret (Break None)
  | Some e =>
      let '(shiftmod, _, _, char_code) := foldl scan_key (false, false, false, 0) e in
      if char_code =? 0 then ret (Continue tt)
      else
        let! c := lift (of_option OutOfBounds
                          ((if shiftmod then ucase_scancode else lcase_scancode) !! Z.to_nat char_code)) in
        ret (Break (Some c))
  end.

(** The character, or [None] when the task has to wait; each round takes an event. *)
Definition keymap_getchar : M (keyboard W) (option Z) :=
  let! s := get in mloop (S (Z.to_nat (cb_cur_count (keyb_buffer s)))) getchar_body tt.

(** The system call [_getchar] of interrupt_handler.c: a character, or the code of the key
    that changed, with the bit of a release. *)
Definition latest_key (k : key) : Prop := k_latest k = true.
#[global] Instance latest_key_dec k : Decision (latest_key k).
Proof. unfold latest_key. apply _. Defined.

Definition event_code (e : list key) : Z :=
  match list_find latest_key e with
  | Some (_, k) => if k_release k then Z.lor (k_scancode k) 0x80 else k_scancode k
  | None => 0
  end.

Definition _getchar (ebx : Z) : M (keyboard W) (option Z) :=
  if ebx =? 0 then keymap_getchar
  else let! o := keyboard_8042_next in ret (event_code <$> o).
End ops.

(** ** The abstract keyboard *)

(** A change of the keyboard: the keys down afterwards, the key, whether it went down. *)
Record change := mkChange { ch_down : gset Z; ch_key : Z; ch_press : bool }.

Definition push (q : list change) (c : change) : list change :=
  if decide (length q = 16%nat) then q else q ++ [c].

(** The keys held and the queue of events, after a one-byte scancode. *)
Definition spec_byte (st : gset Z * list change) (byte : Z) : gset Z * list change :=
  let '(held, q) := st in
  if 0x80 <=? byte then
    let c := byte - 0x80 in
    if decide (c ∈ held) then (held ∖ {[c]}, push q (mkChange (held ∖ {[c]}) c false)) else (held, q)
  else if decide (byte ∈ held \/ (size held < 5)%nat) then
    ({[byte]} ∪ held, push q (mkChange ({[byte]} ∪ held) byte true))
  else (held, q).

(** The scancodes of one byte, and the keys that reset the machine when they are held together. *)
Definition one_byte (b : Z) : Prop := 0 <= b < 256 /\ b <> 0xE0 /\ b <> 0xE1.
Definition resets (held : gset Z) : Prop := 0x1D ∈ held /\ 0x38 ∈ held /\ 0x53 ∈ held.
#[global] Instance resets_dec held : Decision (resets held).
Proof. unfold resets. apply _. Defined.

(** The keyboard after the scancodes of [bytes]; [None] when the machine was reset. *)
Fixpoint spec_bytes (st : gset Z * list change) (bytes : list Z) : option (gset Z * list change) :=
  match bytes with
  | [] => Some st
  | b :: bytes => let st := spec_byte st b in if decide (resets st.1) then None else spec_bytes st bytes
  end.

(** The character of a change: none for a release, for a modifier and for code 0. *)
Definition char_of (c : change) : option Z :=
  if ch_press c && bool_decide (ch_key c ∉ [0; 0x2A; 0x36; 0x1D; 0x38]) then
    Some (default 0 ((if decide (0x2A ∈ ch_down c \/ 0x36 ∈ ch_down c) then ucase_scancode else lcase_scancode) !! Z.to_nat (ch_key c)))
  else None.

(** The bytes that change the keyboard, when [held] are the keys down. *)
Fixpoint effective (held : gset Z) (bytes : list Z) : list Z :=
  match bytes with
  | [] => []
  | b :: bytes =>
      if 0x80 <=? b then
        if decide (b - 0x80 ∈ held) then b :: effective (held ∖ {[b - 0x80]}) bytes else effective held bytes
      else if decide (b ∈ held \/ (size held < 5)%nat) then b :: effective ({[b]} ∪ held) bytes
      else effective held bytes
  end.

(** ** The table of keys *)

Definition slot_key (o : option Z) : key :=
  match o with Some c => mkKey c true true false false | None => clean_key end.

Definition held_codes (slots : list (option Z)) : list Z := omap id slots.
Arguments held_codes : simpl never.

Record slots_ok (slots : list (option Z)) (held : gset Z) : Prop := mkSlotsOk {
  sl_length : length slots = 5%nat;
  sl_nodup : NoDup (held_codes slots);
  sl_held : forall c, c ∈ held <-> c ∈ held_codes slots;
  sl_range : forall c, c ∈ held -> 0 <= c < 128
}.

Lemma held_codes_elem slots c : c ∈ held_codes slots <-> Some c ∈ slots.
Proof.
  unfold held_codes. rewrite list_elem_of_omap. split; [intros (x & Hx & E)|intros Hx; by exists (Some c)].
  unfold id in E. by subst x.
Qed.

Lemma held_split slots i o : slots !! i = Some o ->
  held_codes slots ≡ₚ (match o with Some c => [c] | None => [] end) ++ held_codes (<[i := None]> slots).
Proof.
  intros Hi. rewrite (insert_take_drop _ _ _ (lookup_lt_Some _ _ _ Hi)). rewrite <- (take_drop_middle slots i o Hi) at 1.
  unfold held_codes. rewrite !omap_app. destruct o as [c|]; cbn; [|done]. by rewrite Permutation_middle.
Qed.

Lemma slots_size slots held : slots_ok slots held -> size held = length (held_codes slots).
Proof.
  intros [_ Hnd Hh _]. assert (held = list_to_set (held_codes slots)) as -> by (apply set_eq; intros c; rewrite Hh; by rewrite elem_of_list_to_set).
  by apply size_list_to_set.
Qed.

Lemma held_codes_cons o slots : held_codes (o :: slots) = option_list o ++ held_codes slots.
Proof. by destruct o. Qed.
Lemma held_codes_app l k : held_codes (l ++ k) = held_codes l ++ held_codes k.
Proof. apply omap_app. Qed.

Lemma held_codes_length slots : (length (held_codes slots) <= length slots)%nat.
Proof. induction slots as [|[c|] slots IH]; [done| |]; rewrite held_codes_cons; cbn; lia. Qed.

Lemma slots_full slots : (forall i, slots !! i <> Some None) -> length (held_codes slots) = length slots.
Proof.
  induction slots as [|[c|] slots IH]; intros H; [done| |].
  - rewrite held_codes_cons. cbn. f_equal. apply IH. intros i. apply (H (S i)).
  - by destruct (H 0%nat).
Qed.

Lemma slots_release slots held i c : slots_ok slots held -> slots !! i = Some (Some c) ->
  slots_ok (<[i := None]> slots) (held ∖ {[c]}).
Proof.
  intros Hs Hi. pose proof Hs as [Hl Hnd Hh Hr]. pose proof (held_split slots i _ Hi) as Hp. cbn in Hp.
  pose proof Hnd as Hnd'. rewrite Hp in Hnd'. apply NoDup_cons in Hnd' as [Hc Hnd']. split.
  - by rewrite length_insert.
  - done.
  - intros x. rewrite elem_of_difference, Hh, Hp, elem_of_cons, elem_of_singleton. split; [naive_solver|].
    intros Hx. split; [by right|]. by intros ->.
  - set_solver.
Qed.

Lemma slots_press slots held i c : slots_ok slots held -> slots !! i = Some None -> c ∉ held -> 0 <= c < 128 ->
  slots_ok (<[i := Some c]> slots) ({[c]} ∪ held).
Proof.
  intros Hs Hi Hc Hcr. pose proof Hs as [Hl Hnd Hh Hr].
  assert (held_codes (<[i := Some c]> slots) ≡ₚ c :: held_codes slots) as Hp.
  { rewrite (held_split (<[i := Some c]> slots) i (Some c)) by (apply list_lookup_insert_eq; by eapply lookup_lt_Some).
    rewrite (held_split slots i None Hi). cbn. by rewrite list_insert_insert_eq. }
  split.
  - by rewrite length_insert.
  - rewrite Hp. constructor; [by rewrite <- Hh|done].
  - intros x. rewrite Hp, elem_of_cons, elem_of_union, elem_of_singleton, Hh. done.
  - intros x [->%elem_of_singleton|Hx]%elem_of_union; [done|by apply Hr].
Qed.

(** Searching the table. *)
Lemma find_held slots held c : slots_ok slots held ->
  match list_find (key_is c) (slot_key <$> slots) with
  | Some (i, k) => slots !! i = Some (Some c) /\ c ∈ held
  | None => c ∉ held
  end.
Proof.
  intros [_ _ Hh _]. destruct (list_find _ _) as [[i k]|] eqn:E.
  - apply list_find_Some in E as (Hi & [Hp Hk] & _). rewrite list_lookup_fmap in Hi.
    destruct (slots !! i) as [[x|]|] eqn:Ei; cbn in Hi; [|by simplify_eq/=..]. injection Hi as <-. cbn in Hk. subst x.
    split; [done|]. rewrite Hh, held_codes_elem. by eapply list_elem_of_lookup_2.
  - apply list_find_None in E. rewrite Hh, held_codes_elem. intros Hc. apply (proj1 (Forall_forall _ _) E (slot_key (Some c))); [|done].
    by apply list_elem_of_fmap_2.
Qed.

Lemma find_free slots held : slots_ok slots held ->
  match list_find key_free (slot_key <$> slots) with
  | Some (i, k) => slots !! i = Some None /\ (size held < 5)%nat
  | None => size held = 5%nat
  end.
Proof.
  intros Hs. pose proof (slots_size _ _ Hs) as Hsz. pose proof Hs as [Hl _ _ _]. destruct (list_find _ _) as [[i k]|] eqn:E.
  - apply list_find_Some in E as (Hi & Hp & _). rewrite list_lookup_fmap in Hi.
    destruct (slots !! i) as [[x|]|] eqn:Ei; cbn in Hi; [injection Hi as <-; discriminate Hp| |done].
    split; [done|]. rewrite Hsz. rewrite <- (take_drop_middle slots i None Ei) in Hl |- *.
    rewrite held_codes_app, held_codes_cons. rewrite !length_app in *. cbn in *.
    pose proof (held_codes_length (take i slots)). pose proof (held_codes_length (drop (S i) slots)). lia.
  - apply list_find_None in E. rewrite Hsz, slots_full; [done|]. intros i Hi.
    apply (proj1 (Forall_forall _ _) E clean_key); [|done]. apply list_elem_of_fmap. exists None. split; [done|].
    by eapply list_elem_of_lookup_2.
Qed.

(** ** Events *)

(** The table [slots] with entry [i] marked as the key [c] that changed. *)
Definition marked (slots : list (option Z)) (i : nat) (c : Z) (press : bool) : list key :=
  <[i := mkKey c true press (negb press) true]> (slot_key <$> slots).

Definition rep_event (e : list key) (ch : change) : Prop :=
  exists slots i, slots_ok slots (ch_down ch) /\ 0 <= ch_key ch < 128 /\
    slots !! i = Some (if ch_press ch then Some (ch_key ch) else None) /\ e = marked slots i (ch_key ch) (ch_press ch).

Lemma event_bytes_cons k e : event_bytes (k :: e) = key_bytes k ++ event_bytes e.
Proof. done. Qed.

Lemma event_bytes_length e : length (event_bytes e) = (4 * length e)%nat.
Proof. induction e as [|k e IH]; [done|]. rewrite event_bytes_cons, length_app, IH. cbn [length key_bytes]. lia. Qed.

Lemma flag_bits a b c d : let f := Z.b2z a + 2 * Z.b2z b + 4 * Z.b2z c + 8 * Z.b2z d in
  Z.testbit f 0 = a /\ Z.testbit f 1 = b /\ Z.testbit f 2 = c /\ Z.testbit f 3 = d.
Proof. by destruct a, b, c, d. Qed.

Lemma event_bytes_roundtrip e : Forall (fun k => 0 <= k_scancode k < 2 ^ 16) e ->
  event_of_bytes (length e) (event_bytes e) = e.
Proof.
  induction 1 as [|k e Hk _ IH]; [done|]. rewrite event_bytes_cons. cbn [length event_of_bytes key_bytes app]. destruct (flag_bits (k_present k) (k_pressed k) (k_release k) (k_latest k)) as (-> & -> & -> & ->).
  destruct k as [c ? ? ? ?]; cbn in *. f_equal; [f_equal|exact IH]. pose proof (Z.div_mod c 256). lia.
Qed.

Lemma alter_at (l : list key) i f x : l !! i = Some x -> alter f i l = <[i := f x]> l.
Proof.
  intros Hx. apply list_eq. intros j. destruct (decide (i = j)) as [<-|].
  - rewrite list_lookup_alter_eq, Hx, list_lookup_insert_eq by (by eapply lookup_lt_Some). done.
  - by rewrite list_lookup_alter_ne, list_lookup_insert_ne.
Qed.

Lemma marked_elem slots i c press k : (i < length slots)%nat -> k ∈ marked slots i c press ->
  k = mkKey c true press (negb press) true \/ exists j o, j <> i /\ slots !! j = Some o /\ k = slot_key o.
Proof.
  intros Hi (j & Hj)%list_elem_of_lookup. unfold marked in Hj. destruct (decide (j = i)) as [->|Hne].
  - rewrite list_lookup_insert_eq in Hj by (by rewrite length_fmap). left. congruence.
  - rewrite list_lookup_insert_ne, list_lookup_fmap in Hj by done. destruct (slots !! j) as [o|] eqn:E; [|done].
    injection Hj as <-. right. eauto.
Qed.

Lemma marked_codes slots i c press down : slots_ok slots down -> 0 <= c < 128 -> (i < length slots)%nat ->
  Forall (fun k => 0 <= k_scancode k < 2 ^ 16) (marked slots i c press) /\ length (marked slots i c press) = 5%nat.
Proof.
  intros [Hl _ Hh Hr] Hc Hi. split; [|unfold marked; by rewrite length_insert, length_fmap].
  apply Forall_forall. intros k [->|(j & o & _ & Hj & ->)]%marked_elem; [cbn; lia| |done].
  destruct o as [x|]; [|cbn; lia]. assert (x ∈ down) as Hx.
  { rewrite Hh, held_codes_elem. by eapply list_elem_of_lookup_2. }
  specialize (Hr x Hx). cbn. lia.
Qed.

Lemma rep_event_bytes e ch : rep_event e ch -> length e = 5%nat /\ event_of_bytes 5 (event_bytes e) = e.
Proof.
  intros (slots & i & Hs & Hc & Hi & ->).
  destruct (marked_codes slots i (ch_key ch) (ch_press ch) _ Hs Hc) as [Hf Hl]; [by eapply lookup_lt_Some|].
  split; [done|]. rewrite <- Hl at 1. by apply event_bytes_roundtrip.
Qed.

(** *** The scan of an event *)

Definition modifiers : list Z := [0x2A; 0x36; 0x1D; 0xE01D; 0x38; 0xE038].
Definition char_key (k : key) : bool :=
  k_present k && k_pressed k && k_latest k && (k_scancode k <? 128) && bool_decide (k_scancode k ∉ modifiers).

Lemma scan_fold c : forall e sh ct al cc, (forall k, k ∈ e -> char_key k = true -> u8 (k_scancode k) = c) ->
  exists ct' al', foldl scan_key (sh, ct, al, cc) e =
    (sh || existsb (down [0x2A; 0x36]) e, ct', al', if existsb char_key e then c else cc).
Proof.
  induction e as [|k e IH]; intros sh ct al cc Hc; cbn [foldl existsb]; [exists ct, al; by rewrite orb_false_r|].
  assert (forall sh ct al cc, exists ct' al', foldl scan_key (sh, ct, al, cc) e =
    (sh || existsb (down [0x2A; 0x36]) e, ct', al', if existsb char_key e then c else cc)) as IH'
    by (intros; apply IH; intros; apply Hc; [by apply elem_of_cons; right|done]).
  specialize (Hc k ltac:(by apply elem_of_cons; left)). unfold scan_key at 2, down at 1, char_key at 1. unfold char_key at 1 in Hc.
  destruct (k_present k && k_pressed k) eqn:Epp; cbn [andb] in *; [|apply IH'].
  destruct (decide (k_scancode k ∈ [0x2A; 0x36])) as [Hs|Hs].
  { rewrite !(bool_decide_eq_true_2 _ Hs). destruct (IH' true ct al cc) as (ct' & al' & ->). exists ct', al'.
    rewrite (bool_decide_eq_false_2 (k_scancode k ∉ modifiers)) by (unfold modifiers; set_solver). rewrite andb_false_r. cbn.
    by rewrite orb_true_r. }
  rewrite !(bool_decide_eq_false_2 _ Hs). cbn [orb].
  destruct (decide (k_scancode k ∈ [0x1D; 0xE01D])) as [Hs'|Hs'].
  { rewrite (bool_decide_eq_true_2 _ Hs').
    rewrite (bool_decide_eq_false_2 (k_scancode k ∉ modifiers)) by (unfold modifiers; set_solver). rewrite andb_false_r. apply IH'. }
  rewrite (bool_decide_eq_false_2 _ Hs').
  destruct (decide (k_scancode k ∈ [0x38; 0xE038])) as [Hs''|Hs''].
  { rewrite (bool_decide_eq_true_2 _ Hs'').
    rewrite (bool_decide_eq_false_2 (k_scancode k ∉ modifiers)) by (unfold modifiers; set_solver). rewrite andb_false_r. apply IH'. }
  rewrite (bool_decide_eq_false_2 _ Hs'').
  rewrite (bool_decide_eq_true_2 (k_scancode k ∉ modifiers)) in * by (unfold modifiers; set_solver). rewrite !andb_true_r in *.
  rewrite (andb_comm (k_scancode k <? 128)). destruct (k_latest k && (k_scancode k <? 128)); cbn [orb]; [|apply IH'].
  rewrite Hc by done. destruct (IH' sh ct al c) as (ct' & al' & ->). exists ct', al'. by destruct (existsb char_key e).
Qed.

Lemma marked_down slots i c press held codes : slots_ok slots held ->
  slots !! i = Some (if press : bool then Some c else None) ->
  existsb (down codes) (marked slots i c press) = true <-> exists x, x ∈ codes /\ x ∈ held.
Proof.
  intros [Hl _ Hh _] Hi. pose proof (lookup_lt_Some _ _ _ Hi) as Hlt.
  assert (forall x, x ∈ held <-> exists j, slots !! j = Some (Some x)) as Hin.
  { intros x. rewrite Hh, held_codes_elem. apply list_elem_of_lookup. }
  rewrite existsb_exists. split.
  - intros (k & Hk & Hd). apply list_elem_of_In in Hk. unfold down in Hd. apply andb_prop in Hd as [Hp Hc].
    apply andb_prop in Hp as [Hp1 Hp2]. apply bool_decide_eq_true in Hc. exists (k_scancode k). split; [done|]. apply Hin.
    apply marked_elem in Hk as [->|(j & o & _ & Hj & ->)]; [|by exists j; destruct o|done].
    cbn in *. subst press. by exists i.
  - intros (x & Hx & (j & Hj)%Hin).
    assert (marked slots i c press !! j = Some (if decide (j = i) then mkKey c true press (negb press) true else slot_key (Some x))) as Hm.
    { unfold marked. destruct (decide (j = i)) as [->|].
      - by rewrite list_lookup_insert_eq by (by rewrite length_fmap).
      - by rewrite list_lookup_insert_ne, list_lookup_fmap, Hj by done. }
    eexists. split; [apply list_elem_of_In; eapply list_elem_of_lookup_2, Hm|].
    destruct (decide (j = i)) as [->|]; [|unfold down; cbn; by rewrite bool_decide_eq_true_2].
    rewrite Hj in Hi. destruct press; [|done]. injection Hi as ->. unfold down. cbn. by rewrite bool_decide_eq_true_2.
Qed.

(** The character code and the shift key of an event. *)
Lemma scan_event e ch : rep_event e ch ->
  exists ct al, foldl scan_key (false, false, false, 0) e =
    (bool_decide (0x2A ∈ ch_down ch \/ 0x36 ∈ ch_down ch), ct, al,
     if ch_press ch && bool_decide (ch_key ch ∉ [0; 0x2A; 0x36; 0x1D; 0x38]) then ch_key ch else 0).
Proof.
  intros (slots & i & Hs & Hc & Hi & ->). pose proof (lookup_lt_Some _ _ _ Hi) as Hlt.
  set (mk := mkKey (ch_key ch) true (ch_press ch) (negb (ch_press ch)) true).
  assert (forall k, k ∈ marked slots i (ch_key ch) (ch_press ch) -> char_key k = true -> k = mk) as Hk.
  { intros k [->|(j & o & _ & _ & ->)]%marked_elem Hck; [done| |done]. by destruct o. }
  destruct (scan_fold (ch_key ch) (marked slots i (ch_key ch) (ch_press ch)) false false false 0) as (ct & al & ->).
  { intros k Hin Hck. rewrite (Hk k Hin Hck). apply u8_small. cbn. lia. }
  exists ct, al. cbn [orb]. f_equal; [f_equal; f_equal|].
  - apply eq_true_iff_eq. rewrite (marked_down slots i _ _ _ _ Hs Hi), bool_decide_eq_true. split.
    + intros (x & Hx & Hin). apply elem_of_cons in Hx as [->|Hx]; [by left|]. apply list_elem_of_singleton in Hx as ->. by right.
    + intros [Hin|Hin]; eexists; (split; [|exact Hin]); set_solver.
  - assert (existsb char_key (marked slots i (ch_key ch) (ch_press ch)) = char_key mk) as ->.
    { apply eq_true_iff_eq. rewrite existsb_exists. split.
      - intros (k & Hin%list_elem_of_In & Hck). by rewrite <- (Hk k Hin Hck).
      - intros Hck. exists mk. split; [|done]. apply list_elem_of_In. apply (list_elem_of_lookup_2 _ i). unfold marked.
        by rewrite list_lookup_insert_eq by (by rewrite length_fmap). }
    unfold char_key, mk. cbn [k_present k_pressed k_latest k_scancode]. rewrite (proj2 (Z.ltb_lt _ _)), !andb_true_r by lia.
    cbn [andb]. destruct (ch_press ch); cbn [andb]; [|done].
    destruct (decide (ch_key ch = 0)) as [E0|E0].
    + rewrite E0. by repeat case_bool_decide.
    + assert (ch_key ch ∉ modifiers <-> ch_key ch ∉ [0; 0x2A; 0x36; 0x1D; 0x38]) as Hiff.
      { unfold modifiers. rewrite !not_elem_of_cons. split; intros Hn; split_and?; naive_solver lia. }
      by rewrite (bool_decide_ext _ _ Hiff).
Qed.

(** ** Refinement *)

Section refinement.
Context {W : Type} `{SchedulerLaws W}.

(** The buffer holds the events [es] and the readers [lr] wait for more. *)
Record buffered (b : circular) (w : W) (r : nat) (es : list (list key)) (lr : list Z) : Prop := mkBuffered {
  bf_holds : holds b r (event_bytes <$> es);
  bf_num : cb_num_elts b = 16;
  bf_size : cb_elt_size b = 20;
  bf_waits : waits w b [] lr
}.

Definition buffer_rep (b : circular) (w : W) (q : list change) : Prop :=
  exists r es lr, buffered b w r es lr /\ Forall2 rep_event es q.

(** The driver represents the keyboard with the keys [held] and the events [q]. *)
Record kb_rep (s : keyboard W) (held : gset Z) (q : list change) : Prop := mkKbRep {
  kr_slots : exists slots, cur_event s = slot_key <$> slots /\ slots_ok slots held;
  kr_escape : kb_escape s = 0;
  kr_buffer : buffer_rep (keyb_buffer s) (kb_world s) q;
  kr_status : Exists (fun state => Z.land state 2 = 0) (kb_status s)
}.

Lemma insert_event_ok s q ch : buffer_rep (keyb_buffer s) (kb_world s) q -> rep_event (cur_event s) ch ->
  exists x c w, insert_event s = Ok (x, mkKbd (cur_event s) (kb_escape s) c (kb_status s) w) /\
    buffer_rep c w (push q ch).
Proof.
  intros (r & es & lr & [Hh Hn Hz Hw] & H2) Hev. pose proof (rep_event_bytes _ _ Hev) as [Hlen _].
  pose proof (Forall2_length _ _ _ H2) as Hlq.
  destruct (proj1 (wp_Ok _ _ _) (insert_round_wp (kb_world s) (keyb_buffer s) r _ (event_bytes (cur_event s)) true [] lr Hh Hw
    ltac:(rewrite event_bytes_length, Hlen; lia) ltac:(done))) as ([o c] & w & E & Hins).
  unfold inserted in Hins. rewrite length_fmap, Hn in Hins. unfold insert_event. rewrite E. eexists _, c, w. split; [done|].
  unfold push. destruct (decide (Z.of_nat (length es) = 16)) as [Hfull|Hroom].
  - destruct Hins as (-> & -> & ->). rewrite decide_True by lia. by exists r, es, lr.
  - destruct Hins as (-> & Hh' & Hn' & Hz' & Hw' & _). rewrite decide_False by lia. exists r, (es ++ [cur_event s]), [].
    split; [|apply Forall2_app; [done|by constructor]].
    split; cbn; [by rewrite fmap_app|congruence|congruence|done].
Qed.

Lemma release_ok s held q c : kb_rep s held q ->
  exists s', release_key c s = Ok (tt, s') /\
    let st := if decide (c ∈ held) then (held ∖ {[c]}, push q (mkChange (held ∖ {[c]}) c false)) else (held, q) in
    kb_rep s' st.1 st.2.
Proof.
  intros [(slots & Ee & Hs) Hesc Hb Hst]. unfold release_key. unfold bind at 1, gets. rewrite Ee.
  pose proof (find_held slots held c Hs) as Hf. destruct (list_find _ _) as [[i k]|].
  - destruct Hf as [Hi Hc]. rewrite decide_True by done. set (held' := held ∖ {[c]}).
    pose proof (slots_release slots held i c Hs Hi) as Hs'. set (s1 := set_event (marked (<[i:=None]> slots) i c false) s).
    assert (upd_key i (fun k => mkKey (k_scancode k) (k_present k) false true true) s = Ok (tt, s1)) as E1.
    { unfold upd_key, modify, s1, marked. rewrite Ee. do 3 f_equal.
      rewrite (alter_at _ i _ (slot_key (Some c))) by (by rewrite list_lookup_fmap, Hi).
      by rewrite list_fmap_insert, list_insert_insert_eq. }
    assert (rep_event (cur_event s1) (mkChange held' c false)) as Hev.
    { exists (<[i:=None]> slots), i. split; [done|]. split; [by apply (sl_range _ _ Hs)|].
      split; [apply list_lookup_insert_eq; by eapply lookup_lt_Some|done]. }
    destruct (insert_event_ok s1 q _ Hb Hev) as (x & b & w & E2 & Hb').
    erewrite bind_Ok_eq by exact E1. erewrite bind_Ok_eq by exact E2. eexists. split; [reflexivity|]. split.
    + exists (<[i:=None]> slots). split; [|done]. cbn. unfold marked. rewrite list_fmap_insert.
      rewrite (alter_at _ i _ (mkKey c true false true true)) by (apply list_lookup_insert_eq; rewrite length_insert, length_fmap; by eapply lookup_lt_Some).
      by rewrite !list_insert_insert_eq.
    + done.
    + apply Hb'.
    + done.
  - rewrite decide_False by done. exists s. split; [done|]. split; [by exists slots|done..].
Qed.

Lemma press_event_ok s q slots slots' held i c : buffer_rep (keyb_buffer s) (kb_world s) q -> kb_escape s = 0 -> Exists (fun state => Z.land state 2 = 0) (kb_status s) ->
  slots_ok slots' held -> slots' !! i = Some (Some c) -> slots' = <[i := Some c]> slots -> (i < length slots)%nat ->
  cur_event s = slot_key <$> slots -> 0 <= c < 128 ->
  exists s', (upd_key i (fun k => mkKey c true true (k_release k) true) ;;!
    let! _ := insert_event in
    upd_key i (fun k => mkKey (k_scancode k) (k_present k) (k_pressed k) (k_release k) false)) s = Ok (tt, s') /\
    kb_rep s' held (push q (mkChange held c true)).
Proof.
  intros Hb Hesc Hst Hs Hi -> Hlt Ee Hc. destruct (lookup_lt_is_Some_2 slots i Hlt) as [o Ho].
  set (s1 := set_event (marked (<[i:=Some c]> slots) i c true) s).
  assert (upd_key i (fun k => mkKey c true true (k_release k) true) s = Ok (tt, s1)) as E1.
  { unfold upd_key, modify, s1, marked. rewrite Ee. do 3 f_equal.
    rewrite (alter_at _ i _ (slot_key o)) by (by rewrite list_lookup_fmap, Ho).
    rewrite list_fmap_insert, list_insert_insert_eq. by destruct o. }
  destruct (insert_event_ok s1 q (mkChange held c true) Hb) as (x & b & w & E2 & Hb'); [by exists (<[i:=Some c]> slots), i|].
  erewrite bind_Ok_eq by exact E1. erewrite bind_Ok_eq by exact E2. eexists. split; [reflexivity|]. split.
  - exists (<[i:=Some c]> slots). split; [|done]. cbn. unfold marked. rewrite list_fmap_insert.
    rewrite (alter_at _ i _ (mkKey c true true false true)) by (apply list_lookup_insert_eq; rewrite length_insert, length_fmap; done).
    by rewrite !list_insert_insert_eq.
  - done.
  - apply Hb'.
  - done.
Qed.

Lemma press_ok s held q c : kb_rep s held q -> 0 <= c < 128 ->
  exists s', press_key c s = Ok (tt, s') /\
    let st := if decide (c ∈ held \/ (size held < 5)%nat)
              then ({[c]} ∪ held, push q (mkChange ({[c]} ∪ held) c true)) else (held, q) in
    kb_rep s' st.1 st.2.
Proof.
  intros [(slots & Ee & Hs) Hesc Hb Hst] Hc. unfold press_key. unfold bind at 1, gets. rewrite Ee.
  pose proof (find_held slots held c Hs) as Hf. destruct (list_find (key_is c) _) as [[i k]|].
  - destruct Hf as [Hi Hin]. rewrite decide_True by (by left). cbn [fst snd].
    assert ({[c]} ∪ held = held) as -> by set_solver. assert (slots = <[i := Some c]> slots) as Eid by (by rewrite list_insert_id).
    eapply (press_event_ok s q slots slots); try done. by eapply lookup_lt_Some.
  - pose proof (find_free slots held Hs) as Hfr. destruct (list_find key_free _) as [[i k]|]; cbn [fmap option_fmap option_map fst].
    + destruct Hfr as [Hi Hsz]. rewrite decide_True by (by right). cbn [fst snd]. pose proof (lookup_lt_Some _ _ _ Hi).
      eapply (press_event_ok s q slots (<[i := Some c]> slots)); try done.
      * by apply slots_press.
      * by apply list_lookup_insert_eq.
    + rewrite decide_False by (intros [?|?]; [done|lia]). exists s. split; [done|]. split; [by exists slots|done..].
Qed.

(** Between two interrupts an entry of the table is down when its key is held. *)
Lemma slots_down slots held codes : slots_ok slots held ->
  existsb (down codes) (slot_key <$> slots) = true <-> exists c, c ∈ codes /\ c ∈ held.
Proof.
  intros [_ _ Hh _]. rewrite existsb_exists. split.
  - intros (k & Hk & Hd). apply list_elem_of_In, list_elem_of_fmap in Hk as ([c|] & -> & Hc); [|done].
    unfold down in Hd. cbn in Hd. apply bool_decide_eq_true in Hd. exists c. by rewrite Hh, held_codes_elem.
  - intros (c & Hc & Hin). rewrite Hh, held_codes_elem in Hin. exists (slot_key (Some c)).
    split; [by apply list_elem_of_In, list_elem_of_fmap_2|]. unfold down. cbn. by apply bool_decide_eq_true.
Qed.

Lemma control_alt_del_held slots held : slots_ok slots held ->
  control_alt_del (slot_key <$> slots) = bool_decide (resets held).
Proof.
  intros Hs. apply eq_true_iff_eq. unfold control_alt_del, resets. rewrite bool_decide_eq_true, !andb_true_iff, !(slots_down _ _ _ Hs).
  pose proof (sl_range _ _ Hs) as Hr. split.
  - intros [[(a & Ha & Hina) (b & Hb & Hinb)] (c & Hc & Hinc)]. pose proof (Hr a Hina). pose proof (Hr b Hinb). pose proof (Hr c Hinc).
    apply elem_of_cons in Ha as [->|Ha%list_elem_of_singleton]; [|lia]. apply elem_of_cons in Hb as [->|Hb%list_elem_of_singleton]; [|lia].
    by apply elem_of_cons in Hc as [->|Hc%list_elem_of_singleton]; [|lia].
  - intros (H1 & H2 & H3). split; [split|]; eexists; (split; [by apply elem_of_cons; left|done]).
Qed.

Lemma wait_input_ok status : forall s : keyboard W, Exists (fun state => Z.land state 2 = 0) status ->
  exists s', wait_input_empty status s = Ok (tt, s').
Proof.
  induction status as [|state status IH]; intros s Hex; [by apply Exists_nil in Hex|]. cbn [wait_input_empty].
  erewrite bind_Ok_eq by reflexivity. destruct (Z.eqb_spec (Z.land state 2) 0) as [|Hne]; cbn [negb]; [by eexists|].
  apply Exists_cons in Hex as [?|Hex]; [done|]. by apply IH.
Qed.

Lemma check_ok s held q : kb_rep s held q ->
  check_control_alt_del s = if decide (resets held) then Err Reset else Ok (tt, s).
Proof.
  intros [(slots & Ee & Hs) _ _ Hst]. unfold check_control_alt_del. erewrite bind_Ok_eq by reflexivity.
  rewrite Ee, (control_alt_del_held _ _ Hs). destruct (decide (resets held)) as [Hr|Hr].
  - rewrite (bool_decide_eq_true_2 _ Hr). cbn [when]. erewrite bind_Ok_eq by reflexivity.
    destruct (wait_input_ok (kb_status s) s Hst) as [s' E]. by erewrite bind_Ok_eq by exact E.
  - by rewrite (bool_decide_eq_false_2 _ Hr).
Qed.

Lemma escaped_byte esc byte : esc = 0 \/ esc = 0xE0 \/ esc = 0xE1 -> 0 <= byte < 256 ->
  (if negb (esc =? 0) then u8 (Z.lor byte (Z.shiftl esc 8)) else byte) = byte.
Proof.
  intros Hesc Hb. destruct (Z.eqb_spec esc 0) as [|Hne]; [done|]. cbn [negb]. unfold u8. rewrite <- Z.land_ones by lia.
  rewrite Z.land_lor_distr_l, !Z.land_ones, Z.shiftl_mul_pow2, Z.mod_mul, Z.lor_0_r by lia. by apply Z.mod_small.
Qed.

Lemma release_bit byte : 0 <= byte < 256 -> Z.land byte 0x80 = if 0x80 <=? byte then 0x80 else 0.
Proof.
  intros Hb. apply Z.bits_inj'. intros n Hn. rewrite Z.land_spec. change 0x80 with (2 ^ 7).
  rewrite Z.pow2_bits_eqb by lia. destruct (Z.eqb_spec 7 n) as [<-|Hne].
  - rewrite andb_true_r, Z.testbit_odd, Z.shiftr_div_pow2 by lia. destruct (Z.leb_spec (2 ^ 7) byte).
    + assert (byte / 2 ^ 7 = 1) as -> by (symmetry; apply (Z.div_unique_pos _ _ _ (byte - 2 ^ 7)); lia). done.
    + by rewrite Z.div_small by lia.
  - rewrite andb_false_r. destruct (2 ^ 7 <=? byte); [by rewrite Z.pow2_bits_false by lia|by rewrite Z.bits_0].
Qed.

(** One interrupt. *)
Lemma kbd_irq_ok s held q byte : kb_rep s held q -> one_byte byte ->
  if decide (resets (spec_byte (held, q) byte).1) then kbd_irq_handler byte s = Err Reset
  else exists s', kbd_irq_handler byte s = Ok (0, s') /\ kb_rep s' (spec_byte (held, q) byte).1 (spec_byte (held, q) byte).2.
Proof.
  intros Hr (Hb & He0 & He1). unfold kbd_irq_handler.
  rewrite (bind_Ok_eq (gets kb_escape) _ s 0 s) by (unfold gets; by rewrite (kr_escape _ _ _ Hr)). cbv beta zeta. cbn [Z.eqb negb].
  rewrite (bind_Ok_eq (when false _) _ s tt s) by reflexivity. rewrite (proj2 (Z.eqb_neq byte 0xE0)), (proj2 (Z.eqb_neq byte 0xE1)) by done. cbn [orb].
  assert (exists s2, (if negb (Z.land byte 0x80 =? 0) then release_key (Z.land byte (u8 (Z.lnot 0x80))) else press_key byte) s = Ok (tt, s2) /\
     kb_rep s2 (spec_byte (held, q) byte).1 (spec_byte (held, q) byte).2) as (s2 & E2 & Hr2).
  { unfold spec_byte. rewrite (release_bit byte Hb). destruct (Z.leb_spec 0x80 byte) as [Hge|Hlt]; cbn [negb Z.eqb].
    - replace (Z.land byte (u8 (Z.lnot 0x80))) with (byte - 0x80); [by apply release_ok|].
      change (u8 (Z.lnot 0x80)) with (Z.ones 7). rewrite Z.land_ones by lia. apply (Z.mod_unique_pos _ _ 1); lia.
    - apply press_ok; [done|lia]. }
  erewrite bind_Ok_eq by exact E2. pose proof (check_ok s2 _ _ Hr2) as E3. destruct (decide (resets _)).
  - unfold bind. by rewrite E3.
  - erewrite bind_Ok_eq by exact E3. by exists s2.
Qed.

(** Taking an event out. *)
Lemma next_event_ok s held ch q : kb_rep s held (ch :: q) ->
  exists e s', keyboard_8042_next s = Ok (Some e, s') /\ rep_event e ch /\ kb_rep s' held q /\
    cb_cur_count (keyb_buffer s) = Z.of_nat (length (ch :: q)) /\ cb_cur_count (keyb_buffer s') = Z.of_nat (length q).
Proof.
  intros [Hsl Hesc (r & es & lr & [Hh Hn Hz Hw] & H2) Hst]. pose proof (Forall2_length _ _ _ H2) as Hlen.
  destruct es as [|e es]; [by inversion H2|]. apply Forall2_cons in H2 as [Hev H2].
  destruct (proj1 (wp_Ok _ _ _) (remove_round_wp (kb_world s) (keyb_buffer s) r _ false [] lr Hh Hw ltac:(done)))
    as ([o c] & w & E & Hrem). rewrite fmap_cons in Hrem. destruct Hrem as (-> & (r' & Hh') & Hn' & Hz' & Hw' & _).
  pose proof (rep_event_bytes _ _ Hev) as [_ Ebytes].
  exists e, (mkKbd (cur_event s) (kb_escape s) c (kb_status s) w). split_and!.
  - unfold keyboard_8042_next. rewrite E. cbn [fmap option_fmap option_map snd]. by unfold KEY_EVENT_MAX; rewrite Ebytes.
  - done.
  - split; [done|done| |done]. exists r', es, lr. split; [|done]. split; cbn; [done|congruence|congruence|done].
  - rewrite (ho_count _ _ _ Hh), length_fmap. by rewrite Hlen.
  - cbn. rewrite (ho_count _ _ _ Hh'), length_fmap. cbn in Hlen. congruence.
Qed.

(** The first character of a queue, and what remains. *)
Fixpoint read_char (q : list change) : option (Z * list change) :=
  match q with
  | [] => None
  | ch :: q => match char_of ch with Some x => Some (x, q) | None => read_char q end
  end.

Lemma getchar_loop q : forall fuel s held x q', (length q < fuel)%nat -> kb_rep s held q -> read_char q = Some (x, q') ->
  exists s', mloop fuel getchar_body tt s = Ok (Some x, s') /\ kb_rep s' held q'.
Proof.
  induction q as [|ch q IH]; intros [|fuel] s held x q' Hf Hr Hrd; cbn [length] in Hf; try lia; [done|].
  destruct (next_event_ok s held ch q Hr) as (e & s1 & E1 & Hev & Hr1 & _). destruct (scan_event e ch Hev) as (ct & al & Escan).
  rewrite mloop_S. unfold getchar_body at 1. cbn [read_char] in Hrd. unfold char_of in Hrd.
  destruct (ch_press ch && bool_decide (ch_key ch ∉ [0; 0x2A; 0x36; 0x1D; 0x38])) eqn:Ech.
  - injection Hrd as <- <-. apply andb_prop in Ech as [_ Hk]. apply bool_decide_eq_true in Hk.
    destruct Hev as (slots & i & _ & Hc & _). exists s1. split; [|done].
    assert (exists v, (if bool_decide (0x2A ∈ ch_down ch \/ 0x36 ∈ ch_down ch) then ucase_scancode else lcase_scancode)
              !! Z.to_nat (ch_key ch) = Some v) as [v Hv].
    { apply lookup_lt_is_Some_2. case_bool_decide; cbn; lia. }
    rewrite (bind_Ok_eq _ _ s (Break (Some v)) s1).
    + unfold ret. do 3 f_equal. destruct (decide (0x2A ∈ ch_down ch \/ 0x36 ∈ ch_down ch)) as [Hd|Hd];
        [rewrite (bool_decide_eq_true_2 _ Hd) in Hv|rewrite (bool_decide_eq_false_2 _ Hd) in Hv]; by rewrite Hv.
    + erewrite bind_Ok_eq by exact E1. cbv beta iota. rewrite Escan. rewrite (proj2 (Z.eqb_neq _ 0)) by set_solver.
      unfold bind, lift. by rewrite Hv.
  - destruct (IH fuel s1 held x q' ltac:(lia) Hr1 Hrd) as (s' & E & Hr'). exists s'. split; [|done].
    rewrite (bind_Ok_eq _ _ s (Continue tt) s1); [exact E|]. erewrite bind_Ok_eq by exact E1. cbv beta iota. by rewrite Escan.
Qed.

Lemma keymap_getchar_ok s held q x q' : kb_rep s held q -> read_char q = Some (x, q') ->
  exists s', keymap_getchar s = Ok (Some x, s') /\ kb_rep s' held q'.
Proof.
  intros Hr Hrd. unfold keymap_getchar. unfold bind at 1, get. apply (getchar_loop q); [|done|done].
  destruct q as [|ch q]; [done|]. destruct (next_event_ok s held ch q Hr) as (_ & _ & _ & _ & _ & -> & _). lia.
Qed.

(** *** Typing and reading *)

Fixpoint type_bytes (bytes : list Z) : M (keyboard W) unit :=
  match bytes with
  | [] => ret tt
  | b :: bytes => kbd_irq_handler b ;;! type_bytes bytes
  end.

Fixpoint read_chars (n : nat) : M (keyboard W) (list (option Z)) :=
  match n with
  | O => ret []
  | S n => let! c := keymap_getchar in let! cs := read_chars n in ret (c :: cs)
  end.

Lemma type_bytes_ok bytes : forall s held q, kb_rep s held q -> Forall one_byte bytes ->
  match spec_bytes (held, q) bytes with
  | Some st => exists s', type_bytes bytes s = Ok (tt, s') /\ kb_rep s' st.1 st.2
  | None => type_bytes bytes s = Err Reset
  end.
Proof.
  induction bytes as [|b bytes IH]; intros s held q Hr Hb; [by exists s|]. apply Forall_cons in Hb as [Hb Hbs].
  pose proof (kbd_irq_ok s held q b Hr Hb) as Hirq. cbn [spec_bytes type_bytes]. destruct (spec_byte (held, q) b) as [held1 q1] eqn:Es.
  cbn [fst snd] in *. destruct (decide (resets held1)); [unfold bind; by rewrite Hirq|].
  destruct Hirq as (s1 & E1 & Hr1). erewrite bind_Ok_eq by exact E1. by apply IH.
Qed.

Lemma read_char_first q x cs : omap char_of q = x :: cs -> exists q', read_char q = Some (x, q') /\ omap char_of q' = cs.
Proof.
  induction q as [|ch q IH]; [done|]. cbn. destruct (char_of ch) as [y|]; [|exact IH]. intros [= <- <-]. by exists q.
Qed.

Lemma read_chars_ok n : forall s held q, kb_rep s held q -> length (omap char_of q) = n ->
  exists s', read_chars n s = Ok (Some <$> omap char_of q, s') /\ exists q', kb_rep s' held q' /\ omap char_of q' = [].
Proof.
  induction n as [|n IH]; intros s held q Hr Hn.
  - exists s. destruct (omap char_of q) eqn:E; [|done]. split; [done|]. by exists q.
  - destruct (omap char_of q) as [|x cs] eqn:E; [done|]. destruct (read_char_first q x cs E) as (q1 & Erd & Eq1).
    destruct (keymap_getchar_ok s held q x q1 Hr Erd) as (s1 & E1 & Hr1).
    destruct (IH s1 held q1 Hr1) as (s' & E' & Hrest); [rewrite Eq1; by injection Hn|]. rewrite Eq1 in E'.
    exists s'. split; [|done]. cbn. erewrite bind_Ok_eq by exact E1. by erewrite bind_Ok_eq by exact E'.
Qed.

(** *** Raw codes *)

Definition code_of (ch : change) : Z := if ch_press ch then ch_key ch else ch_key ch + 0x80.

Lemma low_bits_apart c : 0 <= c < 128 -> Z.land c 0x80 = 0.
Proof. intros Hc. rewrite release_bit by lia. by rewrite (proj2 (Z.leb_gt _ _)) by lia. Qed.

Lemma event_code_ok e ch : rep_event e ch -> event_code e = code_of ch.
Proof.
  intros (slots & i & Hs & Hc & Hi & ->). pose proof (lookup_lt_Some _ _ _ Hi) as Hlt.
  set (mk := mkKey (ch_key ch) true (ch_press ch) (negb (ch_press ch)) true).
  assert (list_find latest_key (marked slots i (ch_key ch) (ch_press ch)) = Some (i, mk)) as E.
  { apply list_find_Some. split; [apply list_lookup_insert_eq; by rewrite length_fmap|]. split; [done|].
    intros j y Hj Hji. unfold marked in Hj. rewrite list_lookup_insert_ne, list_lookup_fmap in Hj by lia.
    destruct (slots !! j) as [[x|]|]; [injection Hj as <-; done..|done]. }
  unfold event_code, code_of. rewrite E. cbn [k_release k_scancode mk]. destruct (ch_press ch); cbn [negb]; [done|].
  pose proof (low_bits_apart _ Hc) as El. by rewrite <- Z.lxor_lor, <- Z.add_nocarry_lxor.
Qed.

Fixpoint read_codes (n : nat) : M (keyboard W) (list (option Z)) :=
  match n with
  | O => ret []
  | S n => let! c := _getchar 1 in let! cs := read_codes n in ret (c :: cs)
  end.

Lemma read_codes_ok q : forall s held, kb_rep s held q ->
  exists s', read_codes (length q) s = Ok ((fun ch => Some (code_of ch)) <$> q, s') /\ kb_rep s' held [].
Proof.
  induction q as [|ch q IH]; intros s held Hr; [by exists s|].
  destruct (next_event_ok s held ch q Hr) as (e & s1 & E1 & Hev & Hr1 & _). destruct (IH s1 held Hr1) as (s' & E' & Hr').
  exists s'. split; [|done]. cbn [read_codes length]. unfold _getchar. cbn [Z.eqb].
  rewrite (bind_Ok_eq _ _ s (Some (code_of ch)) s1); [by erewrite bind_Ok_eq by exact E'|].
  erewrite bind_Ok_eq by exact E1. cbn. by rewrite (event_code_ok e ch Hev).
Qed.

Lemma init_rep (w : W) space status : w_inv w -> length space = 320%nat -> Exists (fun state => Z.land state 2 = 0) status ->
  kb_rep (init_keyboard_8042 space status w) ∅ [].
Proof.
  intros Hw Hsp Hst. split; [| | |done].
  - exists (replicate 5 None). split; [done|]. split; [done|constructor| |]; intros c; unfold held_codes; cbn; set_solver.
  - done.
  - exists 0%nat, [], []. split; [|constructor]. split; [|done|done|].
    + cbn. apply holds_init; unfold KEYBOARD_BUFFER_SIZE; lia.
    + split; cbn; try done; intros x; set_solver.
Qed.
End refinement.

(** ** Theorems *)

(** After each one-byte scancode the driver represents the abstract keyboard after it: a key
    that goes down joins the keys held, unless five others are, a key that is held and goes
    up leaves them, and either change is put into the queue of events unless the queue is
    full.  The handler returns unless Ctrl, Alt and Del are then held together; then the
    machine is reset. *)
Theorem kbd_irq_refines {W} `{SchedulerLaws W} (s : keyboard W) held q byte :
  kb_rep s held q -> one_byte byte ->
  if decide (resets (spec_byte (held, q) byte).1) then kbd_irq_handler byte s = Err Reset
  else exists s', kbd_irq_handler byte s = Ok (0, s') /\ kb_rep s' (spec_byte (held, q) byte).1 (spec_byte (held, q) byte).2.
Proof. apply kbd_irq_ok. Qed.

(** C33: What is typed is what is read: from the initial state, after any one-byte scancodes,
    reading returns the characters of the changes in the queue, in order and in upper case
    exactly where a shift key was down.  Only when Ctrl, Alt and Del are held together on the
    way does typing not end: the machine is reset, once the controller takes the command. *)
Theorem typed_is_read {W} `{SchedulerLaws W} (w : W) space status bytes :
  w_inv w -> length space = 320%nat -> Exists (fun state => Z.land state 2 = 0) status -> Forall one_byte bytes ->
  match spec_bytes (∅, []) bytes with
  | Some (_, q) => let chars := omap char_of q in
      exists s1 s2, type_bytes bytes (init_keyboard_8042 space status w) = Ok (tt, s1) /\
        read_chars (length chars) s1 = Ok (Some <$> chars, s2)
  | None => type_bytes bytes (init_keyboard_8042 space status w) = Err Reset
  end.
Proof.
  intros Hw Hsp Hst Hb. pose proof (type_bytes_ok bytes _ ∅ [] (init_rep w space status Hw Hsp Hst) Hb) as Ht.
  destruct (spec_bytes (∅, []) bytes) as [[held q]|]; [|done]. destruct Ht as (s1 & E1 & Hr1). cbv zeta.
  destruct (read_chars_ok (length (omap char_of q)) s1 _ _ Hr1 eq_refl) as (s2 & E2 & _). by exists s1, s2.
Qed.

Lemma push_room q c : (length q < 16)%nat -> push q c = q ++ [c].
Proof. intros Hq. unfold push. by rewrite decide_False by lia. Qed.

Lemma effective_codes bytes : forall held q st, (length q + length (effective held bytes) <= 16)%nat ->
  spec_bytes (held, q) bytes = Some st -> code_of <$> st.2 = (code_of <$> q) ++ effective held bytes.
Proof.
  induction bytes as [|b bytes IH]; intros held q st Hn; cbn [spec_bytes effective] in *; [intros [= <-]; by rewrite app_nil_r|].
  destruct (decide (resets _)); [done|]. unfold spec_byte. destruct (Z.leb_spec 0x80 b).
  - destruct (decide (b - 0x80 ∈ held)); [|by apply IH]. cbn [length] in Hn. rewrite push_room by lia.
    intros ->%IH; [|rewrite length_app; cbn; lia]. rewrite fmap_app, <- app_assoc. cbn. unfold code_of at 2. cbn. do 2 f_equal. lia.
  - destruct (decide (b ∈ held \/ (size held < 5)%nat)); [|by apply IH]. cbn [length] in Hn. rewrite push_room by lia.
    intros ->%IH; [|rewrite length_app; cbn; lia]. by rewrite fmap_app, <- app_assoc.
Qed.

(** The raw codes that [_getchar] returns are the scancodes that changed the keyboard, in
    order, as long as they are not more than the buffer holds: presses and releases are told
    apart, and nothing is lost or made up. *)
Theorem raw_codes_roundtrip {W} `{SchedulerLaws W} (w : W) space status bytes :
  w_inv w -> length space = 320%nat -> Exists (fun state => Z.land state 2 = 0) status -> Forall one_byte bytes ->
  is_Some (spec_bytes (∅, []) bytes) -> (length (effective ∅ bytes) <= 16)%nat ->
  exists s1 s2, type_bytes bytes (init_keyboard_8042 space status w) = Ok (tt, s1) /\
    read_codes (length (effective ∅ bytes)) s1 = Ok (Some <$> effective ∅ bytes, s2).
Proof.
  intros Hw Hsp Hst Hb [st Est] Hroom. pose proof (type_bytes_ok bytes _ ∅ [] (init_rep w space status Hw Hsp Hst) Hb) as Ht.
  rewrite Est in Ht. destruct Ht as (s1 & E1 & Hr1).
  destruct (read_codes_ok _ s1 _ Hr1) as (s2 & E2 & _). pose proof (effective_codes bytes ∅ [] st Hroom Est) as Ecodes. cbn [fmap list_fmap app] in Ecodes.
  exists s1, s2. split; [done|]. rewrite <- Ecodes. rewrite length_fmap, E2, <- list_fmap_compose. done.
Qed.

(** The prefix of an extended key is lost: an interrupt with the byte 0xE0 and one with
    the next byte have the effect of the latter alone.  So the right Ctrl and Alt keys,
    which [check_control_alt_del] and [keymap_getchar] look for as 0xE01D and 0xE038, are
    the left ones, and the arrow keys are keys of the number pad. *)
Theorem extended_prefix_lost {W} `{Scheduler W} (s : keyboard W) byte :
  kb_escape s = 0 -> control_alt_del (cur_event s) = false -> 0 <= byte < 256 ->
  (kbd_irq_handler 0xE0 ;;! kbd_irq_handler byte) s = kbd_irq_handler byte s.
Proof.
  intros Hesc Hcad Hb. assert (kbd_irq_handler 0xE0 s = Ok (0, set_escape 0xE0 s)) as E.
  { unfold kbd_irq_handler, bind, gets, when, modify, ret. rewrite Hesc. cbn.
    unfold check_control_alt_del, bind, gets, when, ret. cbn. by rewrite Hcad. }
  erewrite bind_Ok_eq by exact E. unfold kbd_irq_handler.
  rewrite (bind_Ok_eq (gets kb_escape) _ (set_escape 0xE0 s) 0xE0 (set_escape 0xE0 s) eq_refl).
  rewrite (bind_Ok_eq (gets kb_escape) _ s 0 s) by (unfold gets; by rewrite Hesc).
  cbv beta. rewrite (escaped_byte 0xE0 byte (or_intror (or_introl eq_refl)) Hb). cbn [negb Z.eqb].
  rewrite (bind_Ok_eq (when true (modify (set_escape 0))) _ (set_escape 0xE0 s) tt s).
  - by rewrite (bind_Ok_eq (when false (modify (set_escape 0))) _ s tt s).
  - unfold when, modify, set_escape. cbn. by destruct s; cbn in *; subst.
Qed.

(** *** Shift and H, released, then I *)

#[local] Instance kb_scheduler : Scheduler sched := vcpu_scheduler calm_env 0.
#[local] Instance kb_laws : SchedulerLaws sched := vcpu_scheduler_laws calm_env 0 calm_clock.

Lemma typed_is_read_witness :
  (exists s1 s2, type_bytes [0x2A; 0x23; 0xA3; 0xAA; 0x17; 0x97] (init_keyboard_8042 (replicate 320 0) [0x1E; 0x1C] sleepers_sched) = Ok (tt, s1) /\
    read_chars 2 s1 = Ok ([Some 72; Some 105], s2)) /\
  type_bytes [0x1D; 0x38; 0x53; 0xD3] (init_keyboard_8042 (replicate 320 0) [0x1E; 0x1C] sleepers_sched) = Err Reset.
Proof.
  split.
  - apply (typed_is_read sleepers_sched (replicate 320 0) [0x1E; 0x1C] [0x2A; 0x23; 0xA3; 0xAA; 0x17; 0x97]).
    + eexists _, _, _. exact sleepers_wf.
    + reflexivity.
    + right. left. reflexivity.
    + repeat constructor; lia.
  - apply (typed_is_read sleepers_sched (replicate 320 0) [0x1E; 0x1C] [0x1D; 0x38; 0x53; 0xD3]).
    + eexists _, _, _. exact sleepers_wf.
    + reflexivity.
    + right. left. reflexivity.
    + repeat constructor; lia.
Defined.

Lemma kbd_irq_refines_witness :
  exists s', kbd_irq_handler 0x1E (init_keyboard_8042 (replicate 320 0) [0x1C] sleepers_sched) = Ok (0, s') /\
    kb_rep s' {[0x1E]} [mkChange {[0x1E]} 0x1E true].
Proof.
  refine (kbd_irq_refines (init_keyboard_8042 (replicate 320 0) [0x1C] sleepers_sched) ∅ [] 0x1E _ _).
  - apply init_rep; [|done|by left]. eexists _, _, _. exact sleepers_wf.
  - repeat split; lia.
Defined.

Lemma extended_prefix_lost_witness :
  (kbd_irq_handler 0xE0 ;;! kbd_irq_handler 0x1D) (init_keyboard_8042 (replicate 320 0) [] sleepers_sched) =
  kbd_irq_handler 0x1D (init_keyboard_8042 (replicate 320 0) [] sleepers_sched).
Proof. apply extended_prefix_lost; [reflexivity|reflexivity|lia]. Defined.

Lemma raw_codes_roundtrip_witness :
  exists s1 s2, type_bytes [0x2A; 0x48; 0xC8; 0x85; 0xAA] (init_keyboard_8042 (replicate 320 0) [0x1C] sleepers_sched) = Ok (tt, s1) /\
    read_codes 4 s1 = Ok ([Some 0x2A; Some 0x48; Some 0xC8; Some 0xAA], s2).
Proof.
  destruct (raw_codes_roundtrip sleepers_sched (replicate 320 0) [0x1C] [0x2A; 0x48; 0xC8; 0x85; 0xAA]) as (s1 & s2 & E1 & E2).
  - eexists _, _, _. exact sleepers_wf.
  - reflexivity.
  - by left.
  - repeat constructor; lia.
  - eexists. vm_compute. reflexivity.
  - apply Nat.leb_le. vm_compute. reflexivity.
  - exists s1, s2. split; [exact E1|exact E2].
Defined.
