(* ===== verification/Ext2.v ===== *)
(** * The ext2 reader: fs/ext2/fsys_ext2fs.c

    The file system keeps its working data in one static buffer, [fsys_buf]: the
    superblock, a block of group descriptors, the current inode and two blocks of
    block pointers, at offsets that depend on the block size.  The buffer is flat
    memory here as in the code, since reading the block of an inode overwrites the
    pointer blocks that follow it.  The disk is a parameter: a byte for every byte
    address, read in sectors of 512 bytes by [ReadSectorLBA].

    A read or write outside [fsys_buf] is [OutOfBounds], and so is a [memcpy] whose
    length is negative.  The CHS mode, disabled in the code by [int CHS = 0], is
    left out of [devread]. *)

From Stdlib Require Import ZArith Lia.
From S2P Require Import Prelude.
From stdpp Require Import base gmap numbers strings list.
Local Open Scope Z_scope.

(** ** String and integer helpers *)

Definition chr_0 : Z := 48.
Definition chr_a : Z := 97.
Definition chr_d : Z := 100.
Definition chr_x : Z := 120.
Definition chr_minus : Z := 45.
Definition chr_slash : Z := 47.

Definition digit (r : Z) : Z := if r <? 10 then r + chr_0 else r + chr_a - 10.

(** The digits of [ud], least significant first: the [do] loop of [itoa]. *)
Definition itoa_body (divisor : Z) (st : Z * list Z) : outcome (control (Z * list Z) (list Z)) :=
  let '(ud, out) := st in
  let out := out ++ [digit (ud mod divisor)] in
  let ud := ud / divisor in
  Ok (if ud =? 0 then Break out else Continue (ud, out)).

(** The loop that reverses the digits in place, from both ends inwards. *)
Definition swap_body (st : list Z * (nat * nat)) : outcome (control (list Z * (nat * nat)) (list Z)) :=
  let '(buf, (p1, p2)) := st in
  if (p1 <? p2)%nat then
    let? a := of_option OutOfBounds (buf !! p1) in
    let? b := of_option OutOfBounds (buf !! p2) in
    Ok (Continue (<[p2 := a]> (<[p1 := b]> buf), (S p1, pred p2)))
  else Ok (Break buf).

(** The string that [itoa] stores, without the final NUL. *)
Definition itoa (base d : Z) : outcome (list Z) :=
  let '(sign, ud, divisor) :=
    if (base =? chr_d) && (d <? 0) then ([chr_minus], u32 (- d), 10)
    else if base =? chr_x then ([], u32 d, 16)
    else ([], u32 d, 10) in
  let? digits := loop 33 (itoa_body divisor) (ud, []) in
  let? digits := loop (S (length digits)) swap_body (digits, (0%nat, pred (length digits))) in
  Ok (sign ++ digits).

(** Strings are lists of characters without the final NUL. *)
Fixpoint substring (s1 s2 : list Z) : Z :=
  match s1, s2 with
  | [], [] => 0
  | [], _ :: _ => -1
  | _ :: _, [] => 1
  | a :: s1', b :: s2' => if a =? b then substring s1' s2' else 1
  end.

Definition isspace (c : Z) : bool :=
  (c =? 32) || (c =? 9) || (c =? 13) || (c =? 10).

(** Flat memory, and the byte-by-byte copies of [memmove]: upwards when the target
    is below the source, downwards otherwise. *)
Definition mem := Z -> Z.
Definition set_byte (a v : Z) (m : mem) : mem := fun x => if x =? a then v else m x.

Fixpoint movsb_up (n : nat) (to from : Z) (m : mem) : mem :=
  match n with
  | O => m
  | S n' => movsb_up n' (to + 1) (from + 1) (set_byte to (m from) m)
  end.

Fixpoint movsb_down (n : nat) (to from : Z) (m : mem) : mem :=
  match n with
  | O => m
  | S n' => movsb_down n' (to - 1) (from - 1) (set_byte to (m from) m)
  end.

Definition memmove (to from len : Z) (m : mem) : mem :=
  if to <? from then movsb_up (Z.to_nat len) to from m
  else movsb_down (Z.to_nat len) (len - 1 + to) (len - 1 + from) m.

(** Cylinder, head and sector. *)
Definition LBAtoCHS (LBA : Z) : Z * Z * Z :=
  let cylinder := Z.quot LBA (16 * 63) in
  let temp := Z.rem LBA (16 * 63) in
  (cylinder, Z.quot temp 63, Z.rem temp 63 + 1).

(** [bsfl] on [~word]: the lowest zero bit. *)
Definition ffz (word : Z) : outcome Z :=
  match list_find (fun k => Z.testbit (u32 (Z.lnot word)) k = true) (seqZ 0 32) with
  | Some (_, k) => Ok k
  | None => Err (Panic "bsf of zero")
  end.

Definition log2 (n : Z) : outcome Z := ffz (u32 (Z.lnot n)).

(** ** Layout *)

Definition SECTOR_SIZE : Z := 0x200.
Definition SECTOR_BITS : Z := 9.
Definition DEV_BSIZE : Z := 512.
Definition BLOCK_SIZE : Z := 1024.
Definition WHICH_SUPER : Z := 1.
Definition SBLOCK : Z := WHICH_SUPER * BLOCK_SIZE / DEV_BSIZE.
Definition FSYS_BUF_SIZE : Z := 0x8000.
Definition EXT2_NDIR_BLOCKS : Z := 12.
Definition EXT2_IND_BLOCK : Z := EXT2_NDIR_BLOCKS.
Definition EXT2_DIND_BLOCK : Z := EXT2_IND_BLOCK + 1.
Definition EXT2_TIND_BLOCK : Z := EXT2_DIND_BLOCK + 1.
Definition EXT2_SUPER_MAGIC : Z := 0xEF53.
Definition EXT2_ROOT_INO : Z := 2.
Definition PATH_MAX : Z := 1024.
Definition MAX_LINK_COUNT : Z := 5.

(** Offsets of the fields of [struct ext2_super_block] that the code uses, and its
    size; likewise for the other structures. *)
Definition sizeof_super : Z := 1024.
Definition s_first_data_block : Z := 20.
Definition s_log_block_size : Z := 24.
Definition s_inodes_per_group : Z := 40.
Definition s_magic : Z := 56.
Definition sizeof_group_desc : Z := 32.
Definition bg_inode_table : Z := 8.
Definition sizeof_inode : Z := 128.
Definition i_mode : Z := 0.
Definition i_size : Z := 4.
Definition i_blocks : Z := 28.
Definition i_block : Z := 40.
Definition i_file_acl : Z := 104.
Definition de_inode : Z := 0.
Definition de_rec_len : Z := 4.
Definition de_name_len : Z := 6.
Definition de_name : Z := 8.

Definition S_IFMT : Z := 0xF000.
Definition S_ISLNK (m : Z) : bool := Z.land m S_IFMT =? 0xA000.
Definition S_ISREG (m : Z) : bool := Z.land m S_IFMT =? 0x8000.
Definition S_ISDIR (m : Z) : bool := Z.land m S_IFMT =? 0x4000.

Definition ERR_BAD_FILETYPE : Z := 2.
Definition ERR_FILELENGTH : Z := 14.
Definition ERR_FILE_NOT_FOUND : Z := 15.
Definition ERR_FSYS_CORRUPT : Z := 16.
Definition ERR_SYMLINK_LOOP : Z := 26.

(** ** State *)

Record fs := mkFs {
  fsys_buf : mem;
  mapblock1 : Z;
  mapblock2 : Z;
  errnum : Z;
  filepos : Z;
  filemax : Z
}.

Definition set_fsys_buf (m : mem) (s : fs) : fs :=
  mkFs m (mapblock1 s) (mapblock2 s) (errnum s) (filepos s) (filemax s).
Definition set_mapblock1 (x : Z) (s : fs) : fs :=
  mkFs (fsys_buf s) x (mapblock2 s) (errnum s) (filepos s) (filemax s).
Definition set_mapblock2 (x : Z) (s : fs) : fs :=
  mkFs (fsys_buf s) (mapblock1 s) x (errnum s) (filepos s) (filemax s).
Definition set_errnum (x : Z) (s : fs) : fs :=
  mkFs (fsys_buf s) (mapblock1 s) (mapblock2 s) x (filepos s) (filemax s).
Definition set_filepos (x : Z) (s : fs) : fs :=
  mkFs (fsys_buf s) (mapblock1 s) (mapblock2 s) (errnum s) x (filemax s).
Definition set_filemax (x : Z) (s : fs) : fs :=
  mkFs (fsys_buf s) (mapblock1 s) (mapblock2 s) (errnum s) (filepos s) x.

(** Little-endian words of memory. *)
Definition ld16 (m : mem) (a : Z) : Z := m a + 256 * m (a + 1).
Definition ld32 (m : mem) (a : Z) : Z := ld16 m a + 65536 * ld16 m (a + 2).

Definition store (off : Z) (bytes : list Z) (m : mem) : mem := fun a =>
  if (off <=? a) && (a <? off + Z.of_nat (length bytes))
  then nth (Z.to_nat (a - off)) bytes 0 else m a.

(** Accesses of [n] bytes to the buffer. *)
Definition in_buf (off n : Z) : bool := (0 <=? off) && (off + n <=? FSYS_BUF_SIZE).

Definition get8 (off : Z) : M fs Z :=
  if in_buf off 1 then gets (fun s => fsys_buf s off) else fail OutOfBounds.
Definition get16 (off : Z) : M fs Z :=
  if in_buf off 2 then gets (fun s => ld16 (fsys_buf s) off) else fail OutOfBounds.
Definition get32 (off : Z) : M fs Z :=
  if in_buf off 4 then gets (fun s => ld32 (fsys_buf s) off) else fail OutOfBounds.
Definition put_bytes (off : Z) (bytes : list Z) : M fs unit :=
  if in_buf off (Z.of_nat (length bytes))
  then modify (fun s => set_fsys_buf (store off bytes (fsys_buf s)) s)
  else fail OutOfBounds.

(** The block size from the superblock, and the regions of the buffer. *)
Definition SUPERBLOCK : Z := 0.
Definition GROUP_DESC : Z := SUPERBLOCK + sizeof_super.

Definition EXT2_BLOCK_SIZE_BITS : M fs Z :=
  let! l := get32 (SUPERBLOCK + s_log_block_size) in ret (u32 (l + 10)).
Definition EXT2_BLOCK_SIZE : M fs Z :=
  let! b := EXT2_BLOCK_SIZE_BITS in ret (s32 (Z.shiftl 1 b)).
Definition INODE : M fs Z := let! bs := EXT2_BLOCK_SIZE in ret (GROUP_DESC + bs).
Definition DATABLOCK1 : M fs Z := let! i := INODE in ret (i + sizeof_inode).
Definition DATABLOCK2 : M fs Z :=
  let! d := DATABLOCK1 in let! bs := EXT2_BLOCK_SIZE in ret (d + bs).
Definition EXT2_ADDR_PER_BLOCK : M fs Z := let! bs := EXT2_BLOCK_SIZE in ret (bs / 4).
Definition EXT2_ADDR_PER_BLOCK_BITS : M fs Z :=
  let! a := EXT2_ADDR_PER_BLOCK in lift (log2 a).
Definition EXT2_DESC_PER_BLOCK : M fs Z :=
  let! bs := EXT2_BLOCK_SIZE in ret (bs / sizeof_group_desc).

(** A field of the current inode. *)
Definition inode32 (field : Z) : M fs Z := let! i := INODE in get32 (i + field).
Definition inode16 (field : Z) : M fs Z := let! i := INODE in get16 (i + field).

Section ext2.
(** The contents of the disk, byte by byte. *)
Context (disk : Z -> Z).

(** ** The device *)

Definition ReadSectorLBA (lba : Z) : list Z :=
  (fun k => disk (SECTOR_SIZE * u32 lba + k)) <$> seqZ 0 SECTOR_SIZE.

Definition whole_body (st : list Z * Z * Z)
  : outcome (control (list Z * Z * Z) (list Z * Z * Z)) :=
  let '(out, byte_len, sector) := st in
  Ok (if SECTOR_SIZE <=? byte_len
      then Continue (out ++ ReadSectorLBA sector, byte_len - SECTOR_SIZE, s32 (sector + 1))
      else Break st).

(** The bytes that [devread] stores at [buf]. *)
Definition devread (sector byte_offset byte_len : Z) : outcome (list Z) :=
  let sector := s32 (sector + 63) in
  let sector := s32 (sector + Z.shiftr byte_offset SECTOR_BITS) in
  let byte_offset := Z.land byte_offset (SECTOR_SIZE - 1) in
  let st :=
    if byte_offset =? 0 then ([], byte_len, sector)
    else (drop (Z.to_nat byte_offset) (ReadSectorLBA sector),
          byte_len - (SECTOR_SIZE - byte_offset), s32 (sector + 1)) in
  let? '(out, byte_len, sector) := loop (S (Z.to_nat (byte_len / SECTOR_SIZE))) whole_body st in
  if byte_len =? 0 then Ok out
  else if byte_len <? 0 then Err OutOfBounds
  else Ok (out ++ take (Z.to_nat byte_len) (ReadSectorLBA sector)).

(** ** Blocks *)

Definition ext2fs_mount : M fs Z :=
  let! bytes := lift (devread SBLOCK 0 sizeof_super) in
  put_bytes SUPERBLOCK bytes ;;!
  let! magic := get16 (SUPERBLOCK + s_magic) in
  ret (if magic =? EXT2_SUPER_MAGIC then 1 else 0).

(** The result is that of [devread], which always reports success. *)
Definition ext2_rdfsb (fsblock buffer : Z) : M fs Z :=
  let! bs := EXT2_BLOCK_SIZE in
  let! bytes := lift (devread (s32 (fsblock * (bs / DEV_BSIZE))) 0 bs) in
  put_bytes buffer bytes ;;!
  ret 1.

(** [if (!ok) { errnum = ERR_FSYS_CORRUPT; return -1; }] around the rest [k]. *)
Definition or_corrupt (ok : Z) (k : M fs Z) : M fs Z :=
  if ok =? 0 then modify (set_errnum ERR_FSYS_CORRUPT) ;;! ret (-1) else k.

(** Read block [which] of the inode into DATABLOCK1 unless it is there. *)
Definition load_map1 (tag which : Z) : M fs Z :=
  let! mb := gets mapblock1 in
  if mb =? tag then ret 1
  else
    let! b := inode32 (i_block + 4 * which) in
    let! d1 := DATABLOCK1 in
    ext2_rdfsb (s32 b) d1.

Definition ind_block (logical_block : Z) : M fs Z :=
  let! ok := load_map1 1 EXT2_IND_BLOCK in
  or_corrupt ok (
    modify (set_mapblock1 1) ;;!
    let! d1 := DATABLOCK1 in
    let! b := get32 (d1 + 4 * logical_block) in
    ret (s32 b)).

Definition dind_block (logical_block : Z) : M fs Z :=
  let! ok := load_map1 2 EXT2_DIND_BLOCK in
  or_corrupt ok (
    modify (set_mapblock1 2) ;;!
    let! bits := EXT2_ADDR_PER_BLOCK_BITS in
    let! apb := EXT2_ADDR_PER_BLOCK in
    let! d1 := DATABLOCK1 in
    let! d2 := DATABLOCK2 in
    let! bnum := get32 (d1 + 4 * Z.shiftr logical_block bits) in
    let bnum := s32 bnum in
    let! mb2 := gets mapblock2 in
    let! ok := (if bnum =? mb2 then ret 1 else ext2_rdfsb bnum d2) in
    or_corrupt ok (
      modify (set_mapblock2 bnum) ;;!
      let! b := get32 (d2 + 4 * Z.land logical_block (apb - 1)) in
      ret (s32 b))).

Definition tind_block (logical_block : Z) : M fs Z :=
  let! ok := load_map1 3 EXT2_TIND_BLOCK in
  or_corrupt ok (
    modify (set_mapblock1 3) ;;!
    let! bits := EXT2_ADDR_PER_BLOCK_BITS in
    let! apb := EXT2_ADDR_PER_BLOCK in
    let! d1 := DATABLOCK1 in
    let! d2 := DATABLOCK2 in
    let! b1 := get32 (d1 + 4 * Z.shiftr logical_block (bits * 2)) in
    let! ok := ext2_rdfsb (s32 b1) d2 in
    or_corrupt ok (
      let! b2 := get32 (d2 + 4 * Z.land (Z.shiftr logical_block bits) (apb - 1)) in
      let! ok := ext2_rdfsb (s32 b2) d2 in
      or_corrupt ok (
        let! b := get32 (d2 + 4 * Z.land logical_block (apb - 1)) in
        ret (s32 b)))).

Definition ext2fs_block_map (logical_block : Z) : M fs Z :=
  if logical_block <? EXT2_NDIR_BLOCKS then
    let! b := inode32 (i_block + 4 * logical_block) in ret (s32 b)
  else
    let logical_block := logical_block - EXT2_NDIR_BLOCKS in
    let! apb := EXT2_ADDR_PER_BLOCK in
    if logical_block <? apb then ind_block logical_block
    else
      let logical_block := logical_block - apb in
      let! bits := EXT2_ADDR_PER_BLOCK_BITS in
      if logical_block <? Z.shiftl 1 (bits * 2) then dind_block logical_block
      else
        modify (set_mapblock2 (-1)) ;;!
        tind_block (logical_block - Z.shiftl 1 (bits * 2)).

(** ** Reading files *)

(** One round of [ext2fs_read]: [len] bytes are left, [ret'] were counted and [out]
    is what was stored at the buffer of the caller. *)
Definition read_body (st : Z * Z * list Z) : M fs (control (Z * Z * list Z) (Z * list Z)) :=
  let '(len, ret', out) := st in
  if 0 <? len then
    let! bits := EXT2_BLOCK_SIZE_BITS in
    let! bs := EXT2_BLOCK_SIZE in
    let! pos := gets filepos in
    let logical_block := Z.shiftr pos bits in
    let offset := Z.land pos (bs - 1) in
    let! map := ext2fs_block_map logical_block in
    if map <? 0 then ret (Break (ret', out))
    else
      let size := bs - offset in
      let size := if len <? size then len else size in
      let! bytes :=
        (if map =? 0 then ret (replicate (Z.to_nat size) 0)
         else lift (devread (s32 (map * (bs / DEV_BSIZE))) offset size)) in
      modify (set_filepos (s32 (pos + size))) ;;!
      ret (Continue (len - size, ret' + size, out ++ bytes))
  else ret (Break (ret', out)).

(** The number of bytes and the bytes stored at [buf]. *)
Definition ext2fs_read (len : Z) : M fs (Z * list Z) :=
  let! '(ret', out) := mloop (S (Z.to_nat len)) read_body (len, 0, []) in
  let! e := gets errnum in
  ret (if e =? 0 then ret' else 0, out).

Definition ext2_is_fast_symlink : M fs bool :=
  let! acl := inode32 i_file_acl in
  let! bs := EXT2_BLOCK_SIZE in
  let ea_blocks := if acl =? 0 then 0 else bs / DEV_BSIZE in
  let! b := inode32 i_blocks in
  ret (b =? ea_blocks).

(** ** Looking a path up *)

(** Read the inode [ino] to the fixed location. *)
Definition load_inode (ino : Z) : M fs Z :=
  let! ipg := get32 (SUPERBLOCK + s_inodes_per_group) in
  if ipg =? 0 then fail DivideError
  else
    let group_id := s32 (u32 (ino - 1) / ipg) in
    let! dpb := EXT2_DESC_PER_BLOCK in
    let! dpb_bits := lift (log2 dpb) in
    let group_desc := Z.shiftr group_id dpb_bits in
    let desc := Z.land group_id (dpb - 1) in
    let! first := get32 (SUPERBLOCK + s_first_data_block) in
    let! ok := ext2_rdfsb (s32 (WHICH_SUPER + group_desc + first)) GROUP_DESC in
    if ok =? 0 then ret 0
    else
      let! table := get32 (GROUP_DESC + sizeof_group_desc * desc + bg_inode_table) in
      let! bs := EXT2_BLOCK_SIZE in
      let! ipb_bits := lift (log2 (bs / sizeof_inode)) in
      let ino_blk := s32 (table + Z.shiftr (u32 (ino - 1) mod ipg) ipb_bits) in
      let! i := INODE in
      let! ok := ext2_rdfsb ino_blk i in
      if ok =? 0 then ret 0
      else
        modify (set_mapblock1 (-1)) ;;!
        modify (set_mapblock2 (-1)) ;;!
        let raw_inode := i + sizeof_inode * Z.land (u32 (ino - 1)) (bs / sizeof_inode - 1) in
        modify (fun s => set_fsys_buf (memmove i raw_inode sizeof_inode (fsys_buf s)) s) ;;!
        ret 1.

(** The characters up to the first one that satisfies [stop]. *)
Fixpoint span (stop : Z -> bool) (s : list Z) : list Z * list Z :=
  match s with
  | [] => ([], [])
  | c :: s' => if stop c then ([], s)
               else let '(a, b) := span stop s' in (c :: a, b)
  end.

Fixpoint skip_slashes (s : list Z) : list Z :=
  match s with
  | c :: s' => if c =? chr_slash then skip_slashes s' else s
  | [] => []
  end.

(** The string at [a], at most [n] characters. *)
Fixpoint cstring (n : nat) (m : mem) (a : Z) : list Z :=
  match n with
  | O => []
  | S n' => if m a =? 0 then [] else m a :: cstring n' m (a + 1)
  end.

(** One entry of the search through the directory [INODE] for [name]: the state is
    the location and the result of the last comparison.  [Break (Some ino)] leaves
    the loop with an entry, [Break None] returns -1. *)
Definition entry_body (name : list Z) (st : Z * Z) : M fs (control (Z * Z) (option Z)) :=
  let '(loc, str_chk) := st in
  let! size := inode32 i_size in
  if size <=? u32 loc then modify (set_errnum ERR_FILE_NOT_FOUND) ;;! ret (Break None)
  else
    let! bits := EXT2_BLOCK_SIZE_BITS in
    let! bs := EXT2_BLOCK_SIZE in
    let! map := ext2fs_block_map (Z.shiftr loc bits) in
    modify (set_mapblock2 (-1)) ;;!
    let! d2 := DATABLOCK2 in
    let! ok := (if map <? 0 then ret 0 else ext2_rdfsb map d2) in
    if ok =? 0 then modify (set_errnum ERR_FSYS_CORRUPT) ;;! ret (Break None)
    else
      let dp := d2 + Z.land loc (bs - 1) in
      let! rec_len := get16 (dp + de_rec_len) in
      let! ino := get32 (dp + de_inode) in
      let! name_len := get8 (dp + de_name_len) in
      let! str_chk :=
        (if ino =? 0 then ret str_chk
         else
           let! _ := get8 (dp + de_name + name_len) in
           let! m := gets fsys_buf in
           ret (substring name (cstring (Z.to_nat name_len) m (dp + de_name)))) in
      if (ino =? 0) || negb (str_chk =? 0)
      then ret (Continue (s32 (loc + rec_len), str_chk))
      else ret (Break (Some ino)).

Definition find_entry (name : list Z) : M fs (option Z) :=
  let! size := inode32 i_size in
  mloop (S (Z.to_nat size)) (entry_body name) (0, 0).

(** The walk: current inode, parent, remaining name, links followed so far and the
    buffer for links. *)
Record walk_st := mkWalk {
  wk_ino : Z;
  wk_updir : Z;
  wk_name : list Z;
  wk_links : Z;
  wk_linkbuf : mem
}.

(** Follow the symbolic link in [INODE]. *)
Definition follow_link (w : walk_st) : M fs (control walk_st Z) :=
  let links := wk_links w + 1 in
  if MAX_LINK_COUNT <? links then modify (set_errnum ERR_SYMLINK_LOOP) ;;! ret (Break (-1))
  else
    let '(name, _) := span isspace (wk_name w) in
    let len := Z.of_nat (length name) in
    let! size := inode32 i_size in
    modify (set_filemax (s32 size)) ;;!
    let! fm := gets filemax in
    if PATH_MAX - 2 <? u32 (fm + len) then modify (set_errnum ERR_FILELENGTH) ;;! ret (Break (-1))
    else if fm <? 0 then fail OutOfBounds
    else
      let buf := store fm name (wk_linkbuf w) in
      let buf := set_byte (fm + len) 0 buf in
      let! fast := ext2_is_fast_symlink in
      let! i := INODE in
      let! m := gets fsys_buf in
      let buf := if fast : bool
                 then store 0 ((fun k => m (i + i_block + k)) <$> seqZ 0 fm) buf
                 else buf in
      let dirname := cstring (Z.to_nat PATH_MAX) buf 0 in
      match dirname with
      | c :: _ =>
          if c =? chr_slash
          then ret (Continue (mkWalk EXT2_ROOT_INO EXT2_ROOT_INO dirname links buf))
          else ret (Continue (mkWalk (wk_updir w) (wk_updir w) dirname links buf))
      | [] => ret (Continue (mkWalk (wk_updir w) (wk_updir w) dirname links buf))
      end.

(** Look the next component up in the directory [INODE]. *)
Definition next_component (w : walk_st) : M fs (control walk_st Z) :=
  let dirname := skip_slashes (wk_name w) in
  let! size := inode32 i_size in
  let! mode := inode16 i_mode in
  if (size =? 0) || negb (S_ISDIR mode) then
    modify (set_errnum ERR_BAD_FILETYPE) ;;! ret (Break (-1))
  else
    let '(name, rest) := span (fun c => isspace c || (c =? chr_slash)) dirname in
    let! r := find_entry name in
    match r with
    | None => ret (Break (-1))
    | Some ino => ret (Continue (mkWalk (s32 ino) (wk_ino w) rest (wk_links w) (wk_linkbuf w)))
    end.

Definition dir_body (w : walk_st) : M fs (control walk_st Z) :=
  let! ok := load_inode (wk_ino w) in
  if ok =? 0 then ret (Break (-1))
  else
    let! mode := inode16 i_mode in
    if S_ISLNK mode then follow_link w
    else
      let at_end := match wk_name w with [] => true | c :: _ => isspace c end in
      if at_end then
        if negb (S_ISREG mode) then
          modify (set_errnum ERR_BAD_FILETYPE) ;;! ret (Break (-1))
        else
          let! size := inode32 i_size in
          modify (set_filemax (s32 size)) ;;!
          let! fm := gets filemax in
          ret (Break fm)
      else next_component w.

(** Every round follows a link, of which there are at most five and each leaves a
    name of at most [PATH_MAX] characters, or takes a component off the name. *)
Definition dir_fuel (dirname : list Z) : nat :=
  (length dirname + 6 * Z.to_nat PATH_MAX + 8)%nat.

(** [junk] is what the uninitialised buffer for links holds. *)
Definition ext2fs_dir (junk : mem) (dirname : list Z) : M fs Z :=
  modify (set_filepos 0) ;;!
  modify (set_filemax 0) ;;!
  modify (set_errnum 0) ;;!
  mloop (dir_fuel dirname) dir_body (mkWalk EXT2_ROOT_INO EXT2_ROOT_INO dirname 0 junk).
End ext2.
