(* ===== verification/Ext2Thm.v ===== *)
(** * The ext2 reader: the device and the helpers

    [devread] against the bytes of the partition, and [memmove], [substring] and
    [LBAtoCHS] against what they are for. *)

From Stdlib Require Import ZArith Lia.
From S2P Require Import Prelude Ext2.
From stdpp Require Import base gmap numbers strings list.
Local Open Scope Z_scope.

(** ** Copying *)

Lemma movsb_up_spec n : forall to from m a, to < from ->
  movsb_up n to from m a =
  if (to <=? a) && (a <? to + Z.of_nat n) then m (from + (a - to)) else m a.
Proof.
  induction n as [|n IH]; intros to from m a Hlt; cbn [movsb_up].
  - destruct (Z.leb_spec to a), (Z.ltb_spec a (to + Z.of_nat 0)); cbn; try done; lia.
  - rewrite IH by lia. unfold set_byte.
    destruct (Z.leb_spec (to + 1) a), (Z.ltb_spec a (to + 1 + Z.of_nat n)), (Z.leb_spec to a),
      (Z.ltb_spec a (to + Z.of_nat (S n))), (Z.eqb_spec a to),
      (Z.eqb_spec (from + 1 + (a - (to + 1))) to); cbn; try lia; f_equal; lia.
Qed.

Lemma movsb_down_spec n : forall to from m a, from <= to ->
  movsb_down n to from m a =
  if (to - Z.of_nat n <? a) && (a <=? to) then m (from + (a - to)) else m a.
Proof.
  induction n as [|n IH]; intros to from m a Hle; cbn [movsb_down].
  - destruct (Z.ltb_spec (to - Z.of_nat 0) a), (Z.leb_spec a to); cbn; try done; lia.
  - rewrite IH by lia. unfold set_byte.
    destruct (Z.ltb_spec (to - 1 - Z.of_nat n) a), (Z.leb_spec a (to - 1)),
      (Z.ltb_spec (to - Z.of_nat (S n)) a), (Z.leb_spec a to), (Z.eqb_spec a to),
      (Z.eqb_spec (from - 1 + (a - (to - 1))) to); cbn; try lia; f_equal; lia.
Qed.

(** The two directions together. *)
Lemma memmove_copies to from len m a :
  memmove to from len m a =
  if (to <=? a) && (a <? to + len) then m (from + (a - to)) else m a.
Proof.
  unfold memmove. destruct (Z.leb_spec 0 len).
  - destruct (Z.ltb_spec to from).
    + rewrite movsb_up_spec by lia. by rewrite Z2Nat.id by lia.
    + rewrite movsb_down_spec by lia. rewrite Z2Nat.id by lia.
      destruct (Z.ltb_spec (len - 1 + to - len) a), (Z.leb_spec a (len - 1 + to)),
        (Z.leb_spec to a), (Z.ltb_spec a (to + len)); cbn; try lia; f_equal; lia.
  - rewrite Z2Nat.nonpos by lia. cbn [movsb_up movsb_down].
    destruct (Z.leb_spec to a), (Z.ltb_spec a (to + len)); cbn; try lia; by destruct (to <? from).
Qed.

(** [memmove] copies [len] bytes as if all of them were read before any is
    written, however source and target overlap, and changes nothing else. *)
Theorem memmove_correct to from len m :
  (forall k, 0 <= k < len -> memmove to from len m (to + k) = m (from + k)) /\
  (forall a, a < to \/ to + len <= a -> memmove to from len m a = m a).
Proof.
  split; [intros k Hk | intros a Ha]; rewrite memmove_copies; zcase; zcase; cbn [andb]; try lia; f_equal; lia.
Qed.

(** ** Names and geometry *)

Lemma prefix_cons_iff (a b : Z) s1 s2 : (a :: s1) `prefix_of` (b :: s2) <-> a = b /\ s1 `prefix_of` s2.
Proof.
  split; [|intros [-> ?]; by apply prefix_cons].
  intros H. split; [by apply prefix_cons_inv_1 in H | by apply prefix_cons_inv_2 in H].
Qed.

(** [substring] returns 0 exactly when the names are equal, -1 exactly when the
    first is a proper prefix of the second, and 1 otherwise. *)
Theorem substring_correct s1 s2 :
  (substring s1 s2 = 0 <-> s1 = s2) /\
  (substring s1 s2 = -1 <-> s1 `prefix_of` s2 /\ s1 <> s2) /\
  (substring s1 s2 = 1 <-> ~ s1 `prefix_of` s2).
Proof.
  revert s2. induction s1 as [|a s1 IH]; intros [|b s2]; cbn [substring].
  - pose proof (prefix_nil (@nil Z)). naive_solver.
  - pose proof (prefix_nil (b :: s2)). naive_solver.
  - assert (~ (a :: s1) `prefix_of` []) by apply prefix_nil_not. naive_solver.
  - destruct (Z.eqb_spec a b) as [->|Hne].
    + destruct (IH s2) as (-> & -> & ->). rewrite prefix_cons_iff. naive_solver.
    + assert (~ (a :: s1) `prefix_of` (b :: s2)) by (rewrite prefix_cons_iff; tauto). naive_solver.
Qed.

(** [LBAtoCHS] numbers heads below 16 and sectors from 1 to 63, and loses nothing. *)
Lemma LBAtoCHS_roundtrip LBA : 0 <= LBA ->
  let '(cylinder, head, sector) := LBAtoCHS LBA in
  0 <= head < 16 /\ 1 <= sector <= 63 /\ 0 <= cylinder /\
  (cylinder * 16 + head) * 63 + (sector - 1) = LBA.
Proof.
  intros HL. unfold LBAtoCHS. cbv zeta.
  rewrite (Z.quot_div_nonneg LBA), (Z.rem_mod_nonneg LBA) by lia.
  pose proof (Z.mod_pos_bound LBA (16 * 63) ltac:(lia)) as Ht.
  pose proof (Z.div_mod LBA (16 * 63) ltac:(lia)) as HLBA.
  pose proof (Z.div_pos LBA (16 * 63) ltac:(lia) ltac:(lia)).
  revert Ht HLBA. generalize (LBA mod (16 * 63)) as t, (LBA / (16 * 63)) as c. intros t c Ht HLBA.
  rewrite Z.quot_div_nonneg, Z.rem_mod_nonneg by lia.
  pose proof (Z.mod_pos_bound t 63 ltac:(lia)). pose proof (Z.div_mod t 63 ltac:(lia)). lia.
Qed.

(** ** The device *)

Section device.
Context (disk : Z -> Z).

(** [n] bytes of the disk from address [a]. *)
Definition bytes_at (a n : Z) : list Z := disk <$> seqZ a n.

Lemma bytes_at_length a n : 0 <= n -> Z.of_nat (length (bytes_at a n)) = n.
Proof. intros Hn. unfold bytes_at. rewrite length_fmap, length_seqZ. lia. Qed.

Lemma bytes_at_app a n k : 0 <= n -> 0 <= k -> bytes_at a (n + k) = bytes_at a n ++ bytes_at (a + n) k.
Proof. intros Hn Hk. unfold bytes_at. by rewrite seqZ_app, fmap_app. Qed.

Lemma sector_bytes lba : 0 <= lba < 2 ^ 32 -> ReadSectorLBA disk lba = bytes_at (512 * lba) 512.
Proof.
  intros Hl. unfold ReadSectorLBA, bytes_at, SECTOR_SIZE. rewrite u32_small by done.
  assert (seqZ (512 * lba) 512 = Z.add (512 * lba) <$> seqZ 0 512) as ->
    by (rewrite fmap_add_seqZ; f_equal; lia).
  by rewrite <- list_fmap_compose.
Qed.

Lemma sector_drop lba o : 0 <= lba < 2 ^ 32 -> 0 <= o <= 512 ->
  drop (Z.to_nat o) (ReadSectorLBA disk lba) = bytes_at (512 * lba + o) (512 - o).
Proof.
  intros Hl Ho. rewrite sector_bytes by done. replace 512 with (o + (512 - o)) at 2 by lia.
  rewrite bytes_at_app by lia. apply drop_app_length'.
  pose proof (bytes_at_length (512 * lba) o ltac:(lia)). lia.
Qed.

Lemma sector_take lba o : 0 <= lba < 2 ^ 32 -> 0 <= o <= 512 ->
  take (Z.to_nat o) (ReadSectorLBA disk lba) = bytes_at (512 * lba) o.
Proof.
  intros Hl Ho. rewrite sector_bytes by done. replace 512 with (o + (512 - o)) at 2 by lia.
  rewrite bytes_at_app by lia. apply take_app_length'.
  pose proof (bytes_at_length (512 * lba) o ltac:(lia)). lia.
Qed.

(** The loop over whole sectors. *)
Lemma whole_loop : forall fuel out len sector,
  0 <= sector -> 0 <= len -> sector + len / 512 + 1 < 2 ^ 31 -> len / 512 < Z.of_nat fuel ->
  loop fuel (whole_body disk) (out, len, sector) =
  Ok (out ++ bytes_at (512 * sector) (512 * (len / 512)), len mod 512, sector + len / 512).
Proof.
  induction fuel as [|fuel IH]; intros out len sector Hs Hl Hb Hf.
  { pose proof (Z.div_pos len 512 Hl ltac:(lia)). lia. }
  cbn [loop]. unfold whole_body at 1, SECTOR_SIZE. zcase; cbn [obind].
  - assert (len / 512 = (len - 512) / 512 + 1) as E
      by (rewrite <- (Z.div_add (len - 512) 1) by lia; f_equal; lia).
    pose proof (Z.div_pos (len - 512) 512 ltac:(lia) ltac:(lia)).
    rewrite s32_small, IH by lia. rewrite <- app_assoc, sector_bytes by lia.
    rewrite E. replace (512 * ((len - 512) / 512 + 1)) with (512 + 512 * ((len - 512) / 512)) by lia.
    rewrite bytes_at_app by lia. f_equal. f_equal; [f_equal|lia].
    + do 3 f_equal. lia.
    + replace len with (len - 512 + 1 * 512) at 2 by lia. by rewrite Z.mod_add.
  - rewrite Z.div_small, Z.mod_small by lia. rewrite Z.add_0_r. cbn. by rewrite app_nil_r.
Qed.

(** Where byte [byte_offset] after the start of [sector] of the partition lies. *)
Definition part_address (sector byte_offset : Z) : Z := 512 * (sector + 63) + byte_offset.

Lemma devread_ok sector off len :
  0 <= sector -> 0 <= off -> 0 <= len ->
  sector + off / 512 + len / 512 + 66 < 2 ^ 31 ->
  (off mod 512 = 0 \/ 512 - off mod 512 <= len) ->
  devread disk sector off len = Ok (bytes_at (part_address sector off) len).
Proof.
  intros Hs Ho Hl Hb Hcond. pose proof (Z.div_pos off 512 Ho ltac:(lia)).
  pose proof (Z.div_pos len 512 Hl ltac:(lia)). pose proof (Z.mod_pos_bound off 512 ltac:(lia)) as Hm.
  pose proof (Z.div_mod off 512 ltac:(lia)) as Hdm.
  unfold devread. rewrite (s32_small (sector + 63)) by lia.
  unfold SECTOR_BITS, SECTOR_SIZE. rewrite Z.shiftr_div_pow2 by lia. change (2 ^ 9) with 512.
  change (512 - 1) with (Z.ones 9). rewrite Z.land_ones by lia. change (2 ^ 9) with 512.
  rewrite (s32_small (sector + 63 + off / 512)) by lia.
  destruct (Z.eqb_spec (off mod 512) 0) as [E|E].
  - rewrite whole_loop by lia. cbn [obind]. rewrite app_nil_l.
    pose proof (Z.mod_pos_bound len 512 ltac:(lia)) as Hlm.
    pose proof (Z.div_mod len 512 ltac:(lia)) as Hld.
    assert (512 * (sector + 63 + off / 512) = part_address sector off) as Ha by (unfold part_address; lia).
    destruct (Z.eqb_spec (len mod 512) 0) as [E'|E'].
    + rewrite Ha. do 2 f_equal. lia.
    + rewrite (proj2 (Z.ltb_ge _ _)), sector_take by lia. rewrite Ha.
      replace (512 * (sector + 63 + off / 512 + len / 512))
        with (part_address sector off + 512 * (len / 512)) by (unfold part_address; lia).
      rewrite <- bytes_at_app by lia. do 2 f_equal. lia.
  - destruct Hcond as [?|Hcond]; [done|]. set (p := 512 - off mod 512) in *.
    assert ((len - p) / 512 <= len / 512) by (apply Z.div_le_mono; lia).
    pose proof (Z.div_pos (len - p) 512 ltac:(lia) ltac:(lia)).
    rewrite (s32_small (sector + 63 + off / 512 + 1)) by lia.
    rewrite whole_loop by lia. cbn [obind].
    pose proof (Z.mod_pos_bound (len - p) 512 ltac:(lia)) as Hlm.
    pose proof (Z.div_mod (len - p) 512 ltac:(lia)) as Hld.
    rewrite sector_drop by lia. fold p.
    replace (512 * (sector + 63 + off / 512) + off mod 512) with (part_address sector off)
      by (unfold part_address; lia).
    replace (512 * (sector + 63 + off / 512 + 1)) with (part_address sector off + p)
      by (unfold part_address, p; lia).
    rewrite <- bytes_at_app by lia.
    destruct (Z.eqb_spec ((len - p) mod 512) 0) as [E'|E'].
    + do 2 f_equal. lia.
    + rewrite (proj2 (Z.ltb_ge _ _)), sector_take by lia.
      replace (512 * (sector + 63 + off / 512 + 1 + (len - p) / 512))
        with (part_address sector off + (p + 512 * ((len - p) / 512))) by (unfold part_address, p; lia).
      rewrite <- bytes_at_app by lia. do 2 f_equal. lia.
Qed.

(** A short read that neither starts at nor reaches a sector boundary. *)
Lemma devread_short sector off len :
  0 <= sector -> 0 <= off -> 0 <= len -> sector + off / 512 + 66 < 2 ^ 31 ->
  off mod 512 <> 0 -> len < 512 - off mod 512 ->
  devread disk sector off len = Err OutOfBounds.
Proof.
  intros Hs Ho Hl Hb Hne Hlt. pose proof (Z.div_pos off 512 Ho ltac:(lia)).
  pose proof (Z.mod_pos_bound off 512 ltac:(lia)) as Hm.
  unfold devread. rewrite (s32_small (sector + 63)) by lia.
  unfold SECTOR_BITS, SECTOR_SIZE. rewrite Z.shiftr_div_pow2 by lia. change (2 ^ 9) with 512.
  change (512 - 1) with (Z.ones 9). rewrite Z.land_ones by lia. change (2 ^ 9) with 512.
  rewrite (proj2 (Z.eqb_neq (off mod 512) 0)) by done. cbn [loop]. unfold whole_body at 1, SECTOR_SIZE.
  rewrite (proj2 (Z.leb_gt _ _)) by lia. cbn [obind].
  rewrite (proj2 (Z.eqb_neq _ 0)), (proj2 (Z.ltb_lt _ 0)) by lia. done.
Qed.
End device.


(** [devread] stores the bytes of the partition from the given place, whether the
    read starts or ends inside a sector, except when it starts inside a sector and
    does not reach the end of it: then the remaining length becomes negative and is
    passed to [memcpy]. *)
Theorem devread_correct disk sector byte_offset byte_len :
  0 <= sector -> 0 <= byte_offset -> 0 <= byte_len ->
  sector + byte_offset / 512 + byte_len / 512 + 66 < 2 ^ 31 ->
  devread disk sector byte_offset byte_len =
  if (byte_offset mod 512 =? 0) || (512 - byte_offset mod 512 <=? byte_len)
  then Ok (bytes_at disk (part_address sector byte_offset) byte_len)
  else Err OutOfBounds.
Proof.
  intros Hs Ho Hl Hb. pose proof (Z.div_pos byte_len 512 Hl ltac:(lia)).
  destruct (Z.eqb_spec (byte_offset mod 512) 0); cbn [orb]; [apply devread_ok; auto|].
  destruct (Z.leb_spec (512 - byte_offset mod 512) byte_len); [apply devread_ok; auto|].
  apply devread_short; lia.
Qed.

(** A disk on which byte [a] is [a mod 256]: a read across a sector boundary, and
    the short read. *)
Lemma devread_correct_witness :
  devread (fun a => a mod 256) 2 510 4 = Ok [254; 255; 0; 1] /\
  devread (fun a => a mod 256) 2 8 8 = Err OutOfBounds.
Proof.
  split; (rewrite devread_correct; [vm_compute; reflexivity | vm_compute; congruence ..]).
Defined.
