(* ===== verification/Ext2Map.v ===== *)
(** * The ext2 reader: blocks of a file

    [bmap] is the reference for [ext2fs_block_map]: the block of a file that the
    pointer tree of its inode designates, read from the disk without any cache, with
    0 for a hole at any level.  [cache_ok] says what the two pointer blocks in
    [fsys_buf] hold when [mapblock1] and [mapblock2] say that they are loaded; the
    reader returns the block of the reference and keeps [cache_ok].  [file_byte] is
    the reference for [ext2fs_read]. *)

From Stdlib Require Import ZArith Lia.
From S2P Require Import Prelude Ext2 Ext2Thm.
From stdpp Require Import base gmap numbers strings list.
Local Open Scope Z_scope.

(** ** Memory *)

Lemma store_in off bytes m a : off <= a < off + Z.of_nat (length bytes) ->
  store off bytes m a = nth (Z.to_nat (a - off)) bytes 0.
Proof. intros H. unfold store. rewrite (proj2 (Z.leb_le _ _)), (proj2 (Z.ltb_lt _ _)) by lia. done. Qed.

Lemma store_out off bytes m a : a < off \/ off + Z.of_nat (length bytes) <= a ->
  store off bytes m a = m a.
Proof. intros H. unfold store. zcase; zcase; cbn; try done; lia. Qed.

Lemma ld32_agree m m' a a' : (forall k, 0 <= k < 4 -> m (a + k) = m' (a' + k)) -> ld32 m a = ld32 m' a'.
Proof.
  intros H. unfold ld32, ld16.
  pose proof (H 0 ltac:(lia)) as H0. rewrite !Z.add_0_r in H0.
  replace (a + 2 + 1) with (a + 3) by lia. replace (a' + 2 + 1) with (a' + 3) by lia.
  rewrite H0, !H by lia. done.
Qed.

Lemma bytes_at_nth disk a n k : 0 <= k < n -> nth (Z.to_nat k) (bytes_at disk a n) 0 = disk (a + k).
Proof.
  intros Hk. apply nth_lookup_Some. unfold bytes_at. rewrite list_lookup_fmap.
  rewrite (proj2 (lookup_seqZ a n (Z.to_nat k) (a + k))) by lia. done.
Qed.

Lemma in_buf_true off n : 0 <= off -> off + n <= FSYS_BUF_SIZE -> in_buf off n = true.
Proof. intros H1 H2. unfold in_buf. by rewrite !(proj2 (Z.leb_le _ _)). Qed.

Lemma get32_Ok off s : 0 <= off -> off + 4 <= FSYS_BUF_SIZE -> get32 off s = Ok (ld32 (fsys_buf s) off, s).
Proof. intros H1 H2. unfold get32. by rewrite in_buf_true. Qed.

Section map.
Context (disk : Z -> Z) (lg : Z) (Hlg : 0 <= lg <= 3).

(** ** Sizes

    [lg] is [s_log_block_size]; with blocks of at most 8 KiB the regions fit in
    [fsys_buf]. *)

Definition bsize : Z := 2 ^ (lg + 10).
Definition addrs : Z := 2 ^ (lg + 8).
Definition inode_at : Z := 1024 + bsize.
Definition data1_at : Z := inode_at + 128.
Definition data2_at : Z := data1_at + bsize.

Definition sized (s : fs) : Prop := ld32 (fsys_buf s) s_log_block_size = lg.

Lemma bsize_addrs : bsize = 4 * addrs.
Proof using Hlg.
  unfold bsize, addrs. replace (lg + 10) with (2 + (lg + 8)) by lia. by rewrite Z.pow_add_r by lia.
Qed.

Lemma addrs_range : 256 <= addrs <= 2048.
Proof using Hlg.
  unfold addrs. split; [apply (Z.pow_le_mono_r 2 8)|apply (Z.pow_le_mono_r 2 _ 11)]; lia.
Qed.

Lemma EXT2_BLOCK_SIZE_BITS_Ok s : sized s -> EXT2_BLOCK_SIZE_BITS s = Ok (lg + 10, s).
Proof using Hlg.
  intros Hs. unfold EXT2_BLOCK_SIZE_BITS. erewrite bind_Ok_eq by (by apply get32_Ok).
  unfold SUPERBLOCK. rewrite Z.add_0_l, Hs, u32_small by lia. done.
Qed.

Lemma EXT2_BLOCK_SIZE_Ok s : sized s -> EXT2_BLOCK_SIZE s = Ok (bsize, s).
Proof using Hlg.
  intros Hs. unfold EXT2_BLOCK_SIZE. erewrite bind_Ok_eq by (by apply EXT2_BLOCK_SIZE_BITS_Ok).
  rewrite Z.shiftl_1_l. fold bsize. pose proof addrs_range. pose proof bsize_addrs.
  rewrite s32_small by lia. done.
Qed.

Lemma INODE_Ok s : sized s -> INODE s = Ok (inode_at, s).
Proof using Hlg. intros Hs. unfold INODE. by erewrite bind_Ok_eq by (by apply EXT2_BLOCK_SIZE_Ok). Qed.

Lemma DATABLOCK1_Ok s : sized s -> DATABLOCK1 s = Ok (data1_at, s).
Proof using Hlg. intros Hs. unfold DATABLOCK1. by erewrite bind_Ok_eq by (by apply INODE_Ok). Qed.

Lemma DATABLOCK2_Ok s : sized s -> DATABLOCK2 s = Ok (data2_at, s).
Proof using Hlg.
  intros Hs. unfold DATABLOCK2. erewrite bind_Ok_eq by (by apply DATABLOCK1_Ok).
  by erewrite bind_Ok_eq by (by apply EXT2_BLOCK_SIZE_Ok).
Qed.

Lemma EXT2_ADDR_PER_BLOCK_Ok s : sized s -> EXT2_ADDR_PER_BLOCK s = Ok (addrs, s).
Proof using Hlg.
  intros Hs. unfold EXT2_ADDR_PER_BLOCK. erewrite bind_Ok_eq by (by apply EXT2_BLOCK_SIZE_Ok).
  rewrite bsize_addrs, Z.mul_comm, Z.div_mul by lia. done.
Qed.

Lemma EXT2_ADDR_PER_BLOCK_BITS_Ok s : sized s -> EXT2_ADDR_PER_BLOCK_BITS s = Ok (lg + 8, s).
Proof using Hlg.
  intros Hs. unfold EXT2_ADDR_PER_BLOCK_BITS. erewrite bind_Ok_eq by (by apply EXT2_ADDR_PER_BLOCK_Ok).
  assert (log2 addrs = Ok (lg + 8)) as E; [|unfold lift; by rewrite E].
  assert (lg = 0 \/ lg = 1 \/ lg = 2 \/ lg = 3) as [H|[H|[H|H]]] by lia;
    unfold addrs; rewrite H; vm_compute; reflexivity.
Qed.

Lemma inode32_Ok s field : sized s -> 0 <= field <= 124 ->
  inode32 field s = Ok (ld32 (fsys_buf s) (inode_at + field), s).
Proof using Hlg.
  intros Hs Hf. unfold inode32. erewrite bind_Ok_eq by (by apply INODE_Ok).
  pose proof addrs_range. pose proof bsize_addrs.
  apply get32_Ok; unfold inode_at, FSYS_BUF_SIZE; lia.
Qed.

(** ** The pointer tree *)

(** The address of block [b] on the disk, and pointer [i] in that block. *)
Definition block_address (b : Z) : Z := 512 * 63 + bsize * b.
Definition disk_ptr (b i : Z) : Z := s32 (ld32 disk (block_address b + 4 * i)).

(** A block pointer that is not a hole and whose sectors have representable numbers. *)
Definition valid_block (b : Z) : Prop := 1 <= b /\ (b + 1) * (bsize / 512) + 66 < 2 ^ 31.

Definition inode_ptr (m : mem) (i : Z) : Z := s32 (ld32 m (inode_at + i_block + 4 * i)).

(** Pointer [i] of the pointer block [b]: a hole has holes only. *)
Definition deref (b i : Z) : Z := if b =? 0 then 0 else disk_ptr b i.

Definition bmap (m : mem) (lb : Z) : Z :=
  if lb <? 12 then inode_ptr m lb
  else let lb := lb - 12 in
  if lb <? addrs then deref (inode_ptr m 12) lb
  else let lb := lb - addrs in
  if lb <? addrs * addrs then deref (deref (inode_ptr m 13) (lb / addrs)) (lb mod addrs)
  else let lb := lb - addrs * addrs in
  deref (deref (deref (inode_ptr m 14) (lb / (addrs * addrs))) ((lb / addrs) mod addrs)) (lb mod addrs).

(** The pointer blocks on the way to logical block [lb] are valid. *)
Definition path_ok (m : mem) (lb : Z) : Prop :=
  if lb <? 12 then 0 <= lb
  else let lb := lb - 12 in
  if lb <? addrs then valid_block (inode_ptr m 12)
  else let lb := lb - addrs in
  if lb <? addrs * addrs
  then valid_block (inode_ptr m 13) /\ valid_block (disk_ptr (inode_ptr m 13) (lb / addrs))
  else let lb := lb - addrs * addrs in
  lb / (addrs * addrs) < addrs /\ valid_block (inode_ptr m 14) /\
  let b1 := disk_ptr (inode_ptr m 14) (lb / (addrs * addrs)) in
  valid_block b1 /\ valid_block (disk_ptr b1 ((lb / addrs) mod addrs)).

#[global] Instance valid_block_dec b : Decision (valid_block b).
Proof. unfold valid_block. apply _. Defined.

#[global] Instance path_ok_dec m lb : Decision (path_ok m lb).
Proof. unfold path_ok. cbv zeta. repeat case_match; apply _. Defined.

(** The buffer holds block [b] of the disk from [off]. *)
Definition holds (m : mem) (off b : Z) : Prop :=
  forall a, 0 <= a < bsize -> m (off + a) = disk (block_address b + a).

Record cache_ok (s : fs) : Prop := mkCache {
  cache_map1 : forall t, 1 <= t <= 3 -> mapblock1 s = t ->
    holds (fsys_buf s) data1_at (inode_ptr (fsys_buf s) (11 + t));
  cache_map2 : mapblock2 s <> -1 -> holds (fsys_buf s) data2_at (mapblock2 s)
}.

(** What the reader never touches: everything below DATABLOCK1 and the position. *)
Record kept (s s' : fs) : Prop := mkKept {
  kept_buf : forall a, a < data1_at -> fsys_buf s' a = fsys_buf s a;
  kept_errnum : errnum s' = errnum s;
  kept_filepos : filepos s' = filepos s;
  kept_filemax : filemax s' = filemax s
}.

Lemma bsize_sectors : bsize = 512 * (bsize / 512) /\ 2 <= bsize / 512 <= 16.
Proof using Hlg.
  unfold bsize. replace (2 ^ (lg + 10)) with (2 ^ (lg + 1) * 512)
    by (change 512 with (2 ^ 9); rewrite <- Z.pow_add_r by lia; f_equal; lia).
  rewrite Z.div_mul by lia. split; [lia|].
  split; [apply (Z.pow_le_mono_r 2 1)|apply (Z.pow_le_mono_r 2 _ 4)]; lia.
Qed.

Lemma regions : 1024 <= bsize /\ data2_at + bsize <= FSYS_BUF_SIZE.
Proof using Hlg.
  pose proof addrs_range. pose proof bsize_addrs.
  unfold data2_at, data1_at, inode_at, FSYS_BUF_SIZE. lia.
Qed.

Lemma part_block b : part_address (b * (bsize / 512)) 0 = block_address b.
Proof using Hlg. unfold part_address, block_address. pose proof bsize_sectors. nia. Qed.

(** ** Loading a block *)

Definition load (off b : Z) (s : fs) : fs :=
  set_fsys_buf (store off (bytes_at disk (block_address b) bsize) (fsys_buf s)) s.

Lemma ext2_rdfsb_Ok s b off : sized s -> valid_block b -> 0 <= off -> off + bsize <= FSYS_BUF_SIZE ->
  ext2_rdfsb disk b off s = Ok (1, load off b s).
Proof using Hlg.
  intros Hs [Hb1 Hb2] Ho1 Ho2. unfold ext2_rdfsb. pose proof bsize_sectors as [Eb Hbs].
  erewrite bind_Ok_eq by (by apply EXT2_BLOCK_SIZE_Ok). unfold DEV_BSIZE.
  assert (0 <= b * (bsize / 512)) by nia.
  rewrite s32_small by nia.
  erewrite bind_Ok_eq; [|unfold lift; rewrite devread_ok; [reflexivity|lia|lia|lia| |by left]].
  2:{ rewrite Z.div_0_l by lia. nia. }
  rewrite part_block. unfold put_bytes.
  rewrite bytes_at_length by lia. rewrite in_buf_true by lia. done.
Qed.

Lemma load_holds off b s : holds (fsys_buf (load off b s)) off b.
Proof using Hlg.
  pose proof bsize_sectors. intros a Ha. cbn. rewrite store_in by (rewrite bytes_at_length; lia).
  replace (off + a - off) with a by lia. by apply bytes_at_nth.
Qed.

Lemma load_out off b s a : a < off \/ off + bsize <= a -> fsys_buf (load off b s) a = fsys_buf s a.
Proof using Hlg. pose proof bsize_sectors. intros Ha. cbn. apply store_out. rewrite bytes_at_length; lia. Qed.

Lemma holds_ptr m off b i : holds m off b -> 0 <= i < addrs -> s32 (ld32 m (off + 4 * i)) = disk_ptr b i.
Proof using Hlg.
  intros H Hi. unfold disk_ptr. f_equal. apply ld32_agree. intros k Hk.
  rewrite <- !Z.add_assoc. apply H. pose proof bsize_addrs. lia.
Qed.

Lemma get32_data m off b i s : fsys_buf s = m -> holds m off b -> 0 <= i < addrs -> 0 <= off ->
  off + bsize <= FSYS_BUF_SIZE -> get32 (off + 4 * i) s = Ok (ld32 m (off + 4 * i), s).
Proof using Hlg. intros <- H Hi H1 H2. pose proof bsize_addrs. apply get32_Ok; lia. Qed.

(** ** What is kept *)

Lemma same_below_refl s : kept s s.
Proof. by split. Qed.

Lemma same_below_trans s1 s2 s3 : kept s1 s2 -> kept s2 s3 -> kept s1 s3.
Proof. intros [] []. split; [intros a Ha; rewrite kept_buf1, kept_buf0 by done| | |]; congruence. Qed.

Lemma kept_sized s s' : kept s s' -> sized s -> sized s'.
Proof using Hlg.
  intros [H _ _ _] Hs. unfold sized in *. rewrite <- Hs. apply ld32_agree. intros k Hk.
  apply H. pose proof regions. unfold data1_at, inode_at, s_log_block_size. lia.
Qed.

Lemma kept_inode_ptr s s' i : kept s s' -> i <= 14 -> inode_ptr (fsys_buf s') i = inode_ptr (fsys_buf s) i.
Proof.
  intros [H _ _ _] Hi. unfold inode_ptr. f_equal. apply ld32_agree. intros k Hk.
  apply H. unfold data1_at, i_block. lia.
Qed.

Lemma load_kept off b s : data1_at <= off -> kept s (load off b s).
Proof using Hlg. intros Ho. split; [|done..]. intros a Ha. apply load_out. lia. Qed.

Lemma set_map1_kept t s : kept s (set_mapblock1 t s).
Proof. by split. Qed.
Lemma set_map2_kept t s : kept s (set_mapblock2 t s).
Proof. by split. Qed.

(** Only DATABLOCK2 and [mapblock2] differ. *)
Lemma cache_map1_step s s' t : kept s s' -> (forall a, a < data2_at -> fsys_buf s' a = fsys_buf s a) ->
  1 <= t <= 3 -> holds (fsys_buf s) data1_at (inode_ptr (fsys_buf s) (11 + t)) ->
  holds (fsys_buf s') data1_at (inode_ptr (fsys_buf s') (11 + t)).
Proof.
  intros Hk Hb Ht H. rewrite (kept_inode_ptr s s') by (done || lia).
  intros a Ha. rewrite Hb by (unfold data2_at; lia). by apply H.
Qed.

(** ** The map *)

(** The post-condition of the routines that map a block. *)
Definition maps_to (s : fs) (b : Z) : Z -> fs -> Prop :=
  fun r s' => r = b /\ kept s s' /\ cache_ok s'.

(** DATABLOCK1 has the pointer block that tag [t] stands for. *)
Lemma load_map1_ok t s : sized s -> cache_ok s -> 1 <= t <= 3 -> valid_block (inode_ptr (fsys_buf s) (11 + t)) ->
  wp (load_map1 disk t (11 + t))
    (fun ok s' => ok = 1 /\ kept s s' /\ mapblock2 s' = mapblock2 s /\
       holds (fsys_buf s') data1_at (inode_ptr (fsys_buf s) (11 + t)) /\ cache_ok (set_mapblock1 t s')) s.
Proof using Hlg.
  intros Hs [Hc1 Hc2] Ht Hv. pose proof regions as [Hr1 Hr2]. unfold load_map1. apply wp_bind, wp_gets.
  destruct (Z.eqb_spec (mapblock1 s) t) as [E|E].
  - apply wp_ret. split_and!; [done|by apply same_below_refl|done|by apply Hc1|].
    split; cbn; [|done]. intros t' _ <-. by apply Hc1.
  - apply wp_Ok. erewrite bind_Ok_eq by (apply inode32_Ok; [done|unfold i_block; lia]).
    erewrite bind_Ok_eq by (by apply DATABLOCK1_Ok).
    rewrite Z.add_assoc. fold (inode_ptr (fsys_buf s) (11 + t)).
    rewrite ext2_rdfsb_Ok by (unfold data2_at, data1_at, inode_at in *; lia || done).
    eexists _, _. split; [done|].
    assert (kept s (load data1_at (inode_ptr (fsys_buf s) (11 + t)) s)) as Hk by (apply load_kept; lia).
    split_and!; [done|done|done|apply load_holds|].
    split; cbn [mapblock1 mapblock2 fsys_buf set_mapblock1].
    + intros t' _ <-. rewrite (kept_inode_ptr _ _ _ Hk) by lia. apply load_holds.
    + intros Hm a Ha. rewrite load_out by (unfold data2_at; lia). by apply Hc2.
Qed.

Lemma ind_block_ok s lb : sized s -> cache_ok s -> 0 <= lb < addrs -> valid_block (inode_ptr (fsys_buf s) 12) ->
  wp (ind_block disk lb) (maps_to s (disk_ptr (inode_ptr (fsys_buf s) 12) lb)) s.
Proof using Hlg.
  intros Hs Hc Hl Hv. pose proof regions as [Hr1 Hr2]. unfold ind_block. apply wp_bind.
  eapply wp_mono; [by apply (load_map1_ok 1)|]. intros ok s1 (-> & Hk & _ & Hh & Hc').
  cbn [or_corrupt Z.eqb]. apply wp_bind, wp_modify.
  assert (kept s (set_mapblock1 1 s1)) as Hk' by (eapply same_below_trans; [done|apply set_map1_kept]).
  apply wp_Ok. erewrite bind_Ok_eq by (apply DATABLOCK1_Ok; by eapply kept_sized).
  erewrite bind_Ok_eq
    by (eapply get32_data; [done|exact Hh|done|unfold data1_at, inode_at; lia|unfold data2_at in *; lia]).
  eexists _, _. split; [done|]. split_and!; [|done|done]. by apply holds_ptr.
Qed.

(** A block of pointers in DATABLOCK2. *)
Lemma load2_ok s b : sized s -> valid_block b ->
  ext2_rdfsb disk b data2_at s = Ok (1, load data2_at b s) /\
  kept s (load data2_at b s) /\ sized (load data2_at b s) /\
  (forall t, 1 <= t <= 3 -> holds (fsys_buf s) data1_at (inode_ptr (fsys_buf s) (11 + t)) ->
     holds (fsys_buf (load data2_at b s)) data1_at (inode_ptr (fsys_buf (load data2_at b s)) (11 + t))).
Proof using Hlg.
  intros Hs Hv. pose proof regions as [Hr1 Hr2].
  assert (kept s (load data2_at b s)) as Hk by (apply load_kept; unfold data2_at; lia).
  split_and!; [apply ext2_rdfsb_Ok; try done; unfold data2_at, data1_at, inode_at; lia|done|by eapply kept_sized|].
  intros t Ht H. eapply cache_map1_step; try done. intros a Ha. apply load_out. lia.
Qed.

Lemma get_data1 s b i : holds (fsys_buf s) data1_at b -> 0 <= i < addrs ->
  get32 (data1_at + 4 * i) s = Ok (ld32 (fsys_buf s) (data1_at + 4 * i), s).
Proof using Hlg.
  intros H Hi. pose proof regions. eapply get32_data; try done;
    unfold data2_at, data1_at, inode_at in *; lia.
Qed.

Lemma get_data2 s b i : holds (fsys_buf s) data2_at b -> 0 <= i < addrs ->
  get32 (data2_at + 4 * i) s = Ok (ld32 (fsys_buf s) (data2_at + 4 * i), s).
Proof using Hlg.
  intros H Hi. pose proof regions. eapply get32_data; try done;
    unfold data2_at, data1_at, inode_at in *; lia.
Qed.

Lemma shiftr_addrs lb : Z.shiftr lb (lg + 8) = lb / addrs.
Proof using Hlg. by rewrite Z.shiftr_div_pow2 by lia. Qed.

Lemma land_addrs lb : Z.land lb (addrs - 1) = lb mod addrs.
Proof using Hlg.
  unfold addrs. replace (2 ^ (lg + 8) - 1) with (Z.ones (lg + 8)) by (rewrite Z.ones_equiv; lia).
  by rewrite Z.land_ones by lia.
Qed.

(** DATABLOCK2 has block [b], read or not. *)
Lemma load_map2_ok s b : sized s -> cache_ok s -> valid_block b ->
  wp (if b =? mapblock2 s then ret 1 else ext2_rdfsb disk b data2_at)
    (fun ok s' => ok = 1 /\ kept s s' /\ holds (fsys_buf s') data2_at b /\ cache_ok (set_mapblock2 b s')) s.
Proof using Hlg.
  intros Hs [Hc1 Hc2] Hv. destruct (Z.eqb_spec b (mapblock2 s)) as [->|Hne].
  - destruct Hv as [Hv _]. apply wp_ret.
    split_and!; [done|by apply same_below_refl|apply Hc2; lia|by split].
  - destruct (load2_ok s b Hs Hv) as (E & Hk & _ & Hc). apply wp_Ok. eexists _, _. split; [exact E|].
    split_and!; [done|done|apply load_holds|]. split; cbn [mapblock1 mapblock2 fsys_buf set_mapblock2].
    + intros t Ht Hm. apply Hc; [done|]. by apply Hc1.
    + intros _. apply load_holds.
Qed.

Lemma dind_block_ok s lb : sized s -> cache_ok s -> 0 <= lb < addrs * addrs ->
  valid_block (inode_ptr (fsys_buf s) 13) ->
  valid_block (disk_ptr (inode_ptr (fsys_buf s) 13) (lb / addrs)) ->
  wp (dind_block disk lb)
    (maps_to s (disk_ptr (disk_ptr (inode_ptr (fsys_buf s) 13) (lb / addrs)) (lb mod addrs))) s.
Proof using Hlg.
  intros Hs Hc Hl Hv Hv2. pose proof addrs_range as Ha. unfold dind_block. apply wp_bind.
  eapply wp_mono; [by apply (load_map1_ok 2)|]. intros ok s1 (-> & Hk & Hm2 & Hh & Hc').
  cbn [or_corrupt Z.eqb]. apply wp_bind, wp_modify.
  set (s2 := set_mapblock1 2 s1) in *.
  assert (kept s s2) as Hk' by (eapply same_below_trans; [done|apply set_map1_kept]).
  assert (sized s2) as Hs2 by (by eapply kept_sized).
  assert (0 <= lb / addrs < addrs) as Hq by (split; [apply Z.div_pos|apply Z.div_lt_upper_bound]; lia).
  pose proof (Z.mod_pos_bound lb addrs ltac:(lia)) as Hm.
  apply wp_Ok. erewrite bind_Ok_eq by (by apply EXT2_ADDR_PER_BLOCK_BITS_Ok).
  erewrite bind_Ok_eq by (by apply EXT2_ADDR_PER_BLOCK_Ok).
  erewrite bind_Ok_eq by (by apply DATABLOCK1_Ok). erewrite bind_Ok_eq by (by apply DATABLOCK2_Ok).
  rewrite shiftr_addrs, land_addrs. erewrite bind_Ok_eq by (by eapply get_data1). cbv zeta.
  rewrite (holds_ptr _ _ _ _ Hh) by done. set (bn := disk_ptr _ (lb / addrs)) in *.
  rewrite bind_Ok_eq with (a := mapblock2 s2) (s1 := s2) by done. apply wp_Ok, wp_bind.
  eapply wp_mono; [by apply load_map2_ok|]. intros ok s3 (-> & Hk3 & Hh3 & Hc3).
  cbn [or_corrupt Z.eqb]. apply wp_bind, wp_modify, wp_Ok.
  erewrite bind_Ok_eq by (by eapply get_data2). eexists _, _. split; [done|].
  split_and!; [by apply holds_ptr| |done].
  eapply same_below_trans; [done|]. eapply same_below_trans; [done|]. apply set_map2_kept.
Qed.

Lemma shiftr_addrs2 lb : Z.shiftr lb ((lg + 8) * 2) = lb / (addrs * addrs).
Proof using Hlg.
  unfold addrs. rewrite Z.shiftr_div_pow2, <- Z.pow_add_r by lia. do 2 f_equal. lia.
Qed.

Lemma tind_block_ok s lb : sized s -> cache_ok s -> mapblock2 s = -1 -> 0 <= lb ->
  lb / (addrs * addrs) < addrs -> valid_block (inode_ptr (fsys_buf s) 14) ->
  let b1 := disk_ptr (inode_ptr (fsys_buf s) 14) (lb / (addrs * addrs)) in
  valid_block b1 -> valid_block (disk_ptr b1 ((lb / addrs) mod addrs)) ->
  wp (tind_block disk lb) (maps_to s (disk_ptr (disk_ptr b1 ((lb / addrs) mod addrs)) (lb mod addrs))) s.
Proof using Hlg.
  intros Hs Hc Hm2 Hl Hq Hv b1 Hv1 Hv2. pose proof addrs_range as Ha. unfold tind_block. apply wp_bind.
  eapply wp_mono; [by apply (load_map1_ok 3)|]. intros ok s1 (-> & Hk & Hm2' & Hh & Hc').
  cbn [or_corrupt Z.eqb]. apply wp_bind, wp_modify.
  set (s2 := set_mapblock1 3 s1) in *.
  assert (kept s s2) as Hk' by (eapply same_below_trans; [done|apply set_map1_kept]).
  assert (sized s2) as Hs2 by (by eapply kept_sized).
  assert (0 <= lb / (addrs * addrs)) by (apply Z.div_pos; lia).
  pose proof (Z.mod_pos_bound lb addrs ltac:(lia)). pose proof (Z.mod_pos_bound (lb / addrs) addrs ltac:(lia)).
  apply wp_Ok. erewrite bind_Ok_eq by (by apply EXT2_ADDR_PER_BLOCK_BITS_Ok).
  erewrite bind_Ok_eq by (by apply EXT2_ADDR_PER_BLOCK_Ok).
  erewrite bind_Ok_eq by (by apply DATABLOCK1_Ok). erewrite bind_Ok_eq by (by apply DATABLOCK2_Ok).
  rewrite shiftr_addrs2, shiftr_addrs, !land_addrs. erewrite bind_Ok_eq by (by eapply get_data1).
  rewrite (holds_ptr _ _ _ _ Hh) by done. fold b1.
  destruct (load2_ok s2 b1 Hs2 Hv1) as (E3 & Hk3 & Hs3 & Hc3). erewrite bind_Ok_eq by exact E3.
  cbn [or_corrupt Z.eqb]. pose proof (load_holds data2_at b1 s2) as Hh3.
  set (s3 := load data2_at b1 s2) in *.
  erewrite bind_Ok_eq by (by eapply get_data2). rewrite (holds_ptr _ _ _ _ Hh3) by done.
  set (b2 := disk_ptr b1 _) in *.
  destruct (load2_ok s3 b2 Hs3 Hv2) as (E4 & Hk4 & Hs4 & Hc4). erewrite bind_Ok_eq by exact E4.
  cbn [or_corrupt Z.eqb]. pose proof (load_holds data2_at b2 s3) as Hh4.
  erewrite bind_Ok_eq by (by eapply get_data2). rewrite (holds_ptr _ _ _ _ Hh4) by done.
  eexists _, _. split; [done|]. split_and!; [done|by eauto using same_below_trans|].
  split; [|by cbn; rewrite Hm2', Hm2].
  intros t Ht Hm. apply Hc4, Hc3; [done..|]. by apply Hc'.
Qed.

Lemma deref_valid b i : valid_block b -> deref b i = disk_ptr b i.
Proof. intros [H _]. unfold deref. by rewrite (proj2 (Z.eqb_neq b 0)) by lia. Qed.

Lemma ext2fs_block_map_ok s lb : sized s -> cache_ok s -> path_ok (fsys_buf s) lb ->
  wp (ext2fs_block_map disk lb) (maps_to s (bmap (fsys_buf s) lb)) s.
Proof using Hlg.
  intros Hs Hc. pose proof addrs_range as Ha. unfold path_ok, bmap, ext2fs_block_map, EXT2_NDIR_BLOCKS.
  destruct (Z.ltb_spec lb 12).
  { intros H0. apply wp_Ok. erewrite bind_Ok_eq by (apply inode32_Ok; [done|unfold i_block; lia]).
    eexists _, _. split; [done|]. split_and!; [|by apply same_below_refl|done].
    by rewrite Z.add_assoc. }
  cbv zeta. intros Hp. apply wp_Ok. erewrite bind_Ok_eq by (by apply EXT2_ADDR_PER_BLOCK_Ok).
  destruct (Z.ltb_spec (lb - 12) addrs).
  { apply wp_Ok. rewrite deref_valid by done. apply ind_block_ok; try done. lia. }
  erewrite bind_Ok_eq by (by apply EXT2_ADDR_PER_BLOCK_BITS_Ok).
  assert (Z.shiftl 1 ((lg + 8) * 2) = addrs * addrs) as ->
    by (rewrite Z.shiftl_1_l; unfold addrs; rewrite <- Z.pow_add_r by lia; f_equal; lia).
  destruct (Z.ltb_spec (lb - 12 - addrs) (addrs * addrs)).
  { destruct Hp as [Hp1 Hp2]. apply wp_Ok. rewrite (deref_valid (inode_ptr _ _)) by done.
    rewrite deref_valid by done. apply dind_block_ok; try done. lia. }
  destruct Hp as (Hq & Hp0 & Hp1 & Hp2). rewrite (deref_valid (inode_ptr _ _)) by done.
  rewrite (deref_valid (disk_ptr (inode_ptr _ _) _)), deref_valid by done.
  apply wp_Ok, wp_bind, wp_modify.
  eapply wp_mono; [apply tind_block_ok; try done; [|lia]|].
  - destruct Hc as [Hc1 Hc2]. split; [done|]. by intros [].
  - intros r s' (-> & Hk & Hc'). split_and!; [done| |done].
    eapply same_below_trans; [apply set_map2_kept|done].
Qed.

(** ** Reading *)

(** Byte [p] of the file of the inode in [m]. *)
Definition file_byte (m : mem) (p : Z) : Z :=
  let b := bmap m (p / bsize) in
  if b =? 0 then 0 else disk (block_address b + p mod bsize).

(** The blocks of bytes [p], ..., [p + n - 1] can be found and read. *)
Definition readable (m : mem) (p n : Z) : Prop :=
  forall q, p <= q < p + n ->
    path_ok m (q / bsize) /\ (bmap m (q / bsize) = 0 \/ valid_block (bmap m (q / bsize))).

Lemma bmap_agree m m' lb : (forall i, i <= 14 -> inode_ptr m' i = inode_ptr m i) -> bmap m' lb = bmap m lb.
Proof.
  intros H. unfold bmap. destruct (Z.ltb_spec lb 12); [apply H; lia|]. by rewrite !H by lia.
Qed.

Lemma path_ok_agree m m' lb : (forall i, i <= 14 -> inode_ptr m' i = inode_ptr m i) ->
  path_ok m lb -> path_ok m' lb.
Proof. intros H. unfold path_ok. by rewrite !H by lia. Qed.

Lemma readable_agree m m' p n : (forall i, i <= 14 -> inode_ptr m' i = inode_ptr m i) ->
  readable m p n -> readable m' p n.
Proof.
  intros H Hr q Hq. destruct (Hr q Hq) as [H1 H2]. rewrite (bmap_agree m m') by done.
  split; [by eapply path_ok_agree|done].
Qed.

Lemma kept_set_filepos p s s' : kept s s' -> kept (set_filepos p s) (set_filepos p s').
Proof. intros []. by split. Qed.

Lemma shiftr_bsize p : Z.shiftr p (lg + 10) = p / bsize.
Proof using Hlg. by rewrite Z.shiftr_div_pow2 by lia. Qed.

Lemma land_bsize p : Z.land p (bsize - 1) = p mod bsize.
Proof using Hlg.
  unfold bsize. replace (2 ^ (lg + 10) - 1) with (Z.ones (lg + 10)) by (rewrite Z.ones_equiv; lia).
  by rewrite Z.land_ones by lia.
Qed.

(** Bytes within one block. *)
Lemma block_place p k : 0 <= p -> 0 <= k -> p mod bsize + k < bsize ->
  (p + k) / bsize = p / bsize /\ (p + k) mod bsize = p mod bsize + k.
Proof using Hlg.
  intros Hp Hk Hlt. pose proof regions as [Hb _]. pose proof (Z.div_mod p bsize ltac:(lia)).
  pose proof (Z.mod_pos_bound p bsize ltac:(lia)).
  split; [symmetry; apply (Z.div_unique_pos _ _ _ (p mod bsize + k))
         |symmetry; apply (Z.mod_unique_pos _ _ (p / bsize))]; lia.
Qed.

Lemma block_bytes m p n : 0 <= p -> 0 <= n -> p mod bsize + n <= bsize ->
  file_byte m <$> seqZ p n =
  if bmap m (p / bsize) =? 0 then replicate (Z.to_nat n) 0
  else bytes_at disk (block_address (bmap m (p / bsize)) + p mod bsize) n.
Proof using Hlg.
  intros Hp Hn Hle. apply list_eq_same_length with (length (file_byte m <$> seqZ p n)); [|done|].
  - destruct (_ =? 0); unfold bytes_at; by rewrite ?length_replicate, ?length_fmap, ?length_seqZ.
  - intros i x y _. rewrite list_lookup_fmap_Some. intros (q & -> & [-> Hi]%lookup_seqZ).
    destruct (block_place p (Z.of_nat i)) as [E1 E2]; [lia..|]. unfold file_byte. rewrite E1, E2.
    destruct (_ =? 0); [by intros [-> _]%lookup_replicate_1|].
    unfold bytes_at. rewrite list_lookup_fmap_Some. intros (q & -> & [-> _]%lookup_seqZ). f_equal. lia.
Qed.

(** The rounds of [ext2fs_read] for [len] bytes at [p]: what is left starts at a sector or reaches the next one. *)
Record read_inv (s0 : fs) (p len : Z) (st : Z * Z * list Z) (s : fs) : Prop := mkReadInv {
  ri_left : 0 <= st.1.1 <= len;
  ri_ret : st.1.2 = len - st.1.1;
  ri_out : st.2 = file_byte (fsys_buf s0) <$> seqZ p st.1.2;
  ri_kept : kept (set_filepos (p + st.1.2) s0) s;
  ri_sized : sized s;
  ri_cache : cache_ok s;
  ri_sector : st.1.1 = 0 \/ (p + st.1.2) mod 512 = 0 \/ 512 - (p + st.1.2) mod 512 <= st.1.1
}.

(** The bytes of one round. *)
Lemma chunk_bytes s pos b off size :
  b = bmap (fsys_buf s) (pos / bsize) -> off = pos mod bsize -> b = 0 \/ valid_block b ->
  0 <= pos -> 0 <= size -> off + size <= bsize ->
  (off mod 512 = 0 \/ 512 - off mod 512 <= size) ->
  (if b =? 0 then ret (replicate (Z.to_nat size) 0)
   else lift (devread disk (s32 (b * (bsize / DEV_BSIZE))) off size)) s =
  Ok (file_byte (fsys_buf s) <$> seqZ pos size, s).
Proof using Hlg.
  intros Eb Eo Hb Hp Hn Hle Hsec. subst off. rewrite block_bytes, <- Eb by lia.
  destruct (Z.eqb_spec b 0) as [|Hne]; [done|]. destruct Hb as [|[Hb1 Hb2]]; [done|].
  pose proof bsize_sectors as [Ebs Hbs]. unfold DEV_BSIZE.
  pose proof (Z.mod_pos_bound pos bsize ltac:(lia)) as Hm.
  assert (0 <= b * (bsize / 512)) by nia.
  rewrite s32_small by nia. unfold lift. rewrite devread_ok; try done; try lia.
  - do 2 f_equal. unfold part_address, block_address. f_equal. nia.
  - assert (pos mod bsize / 512 + size / 512 <= bsize / 512); [|nia].
    pose proof (Z.div_mod (pos mod bsize) 512 ltac:(lia)). pose proof (Z.div_mod size 512 ltac:(lia)).
    pose proof (Z.mod_pos_bound (pos mod bsize) 512 ltac:(lia)).
    pose proof (Z.mod_pos_bound size 512 ltac:(lia)). lia.
Qed.

Lemma kept_agree s p s' : kept (set_filepos p s) s' ->
  forall i, i <= 14 -> inode_ptr (fsys_buf s') i = inode_ptr (fsys_buf s) i.
Proof. intros H i Hi. by apply (kept_inode_ptr (set_filepos p s)). Qed.

Lemma file_byte_agree m m' q : (forall i, i <= 14 -> inode_ptr m' i = inode_ptr m i) ->
  file_byte m' q = file_byte m q.
Proof. intros H. unfold file_byte. by rewrite (bmap_agree m m') by done. Qed.

Lemma mod_sector p : 0 <= p -> (p mod bsize) mod 512 = p mod 512.
Proof using Hlg.
  intros Hp. pose proof bsize_sectors as [Eb Hbs]. pose proof (Z.div_mod p bsize ltac:(lia)) as E.
  rewrite E at 2. rewrite Eb at 2.
  replace (512 * (bsize / 512) * (p / bsize) + p mod bsize)
    with (p mod bsize + (bsize / 512 * (p / bsize)) * 512) by lia.
  by rewrite Z.mod_add by lia.
Qed.

(** A round reads up to the end of the block. *)
Lemma read_round s0 p len st s : 0 <= p -> p + len < 2 ^ 31 -> readable (fsys_buf s0) p len ->
  read_inv s0 p len st s -> 0 < st.1.1 ->
  let size := Z.min st.1.1 (bsize - (p + st.1.2) mod bsize) in
  wp (read_body disk st) (fun c s' =>
    c = Continue (st.1.1 - size, st.1.2 + size,
                  st.2 ++ (file_byte (fsys_buf s0) <$> seqZ (p + st.1.2) size)) /\
    kept (set_filepos (p + st.1.2 + size) s0) s' /\ sized s' /\ cache_ok s') s.
Proof using Hlg.
  intros Hp Hpl Hr [Hleft Hret Hout Hk Hs Hc Hsec] Hpos size. destruct st as [[len' ret'] out].
  cbn [fst snd] in *. unfold read_body. rewrite (proj2 (Z.ltb_lt 0 len')) by done.
  pose proof bsize_sectors as [Eb Hbs]. apply wp_Ok.
  erewrite bind_Ok_eq by (by apply EXT2_BLOCK_SIZE_BITS_Ok). erewrite bind_Ok_eq by (by apply EXT2_BLOCK_SIZE_Ok).
  rewrite bind_Ok_eq with (a := filepos s) (s1 := s) by done. cbv zeta.
  rewrite (kept_filepos _ _ Hk). cbn [filepos set_filepos]. rewrite shiftr_bsize, land_bsize.
  set (pos := p + ret') in *. pose proof (Z.mod_pos_bound pos bsize ltac:(lia)) as Hm.
  pose proof (kept_agree _ _ _ Hk) as Hag.
  destruct (Hr pos ltac:(lia)) as [Hpath Hval]. apply wp_Ok, wp_bind.
  eapply wp_mono; [apply ext2fs_block_map_ok; [done|done|by eapply path_ok_agree]|].
  intros b s1 (-> & Hk1 & Hc1). rewrite (bmap_agree (fsys_buf s0)) by done.
  assert (kept (set_filepos pos s0) s1) as Hk' by (by eapply same_below_trans).
  pose proof (kept_agree _ _ _ Hk') as Hag'.
  rewrite (proj2 (Z.ltb_ge _ 0)) by (destruct Hval as [->|[? _]]; lia).
  assert ((if len' <? bsize - pos mod bsize then len' else bsize - pos mod bsize) = size) as ->
    by (unfold size; destruct (Z.ltb_spec len' (bsize - pos mod bsize)); lia).
  pose proof (mod_sector pos ltac:(lia)) as Hms.
  pose proof (Z.mod_le (pos mod bsize) 512 ltac:(lia) ltac:(lia)).
  apply wp_Ok. erewrite bind_Ok_eq.
  2:{ apply (chunk_bytes s1 pos); try done; unfold size in *; try lia.
      - symmetry. by apply bmap_agree.
      - rewrite Hms. destruct Hsec as [?|[?|?]]; [lia|by left|].
        right. pose proof (Z.mod_pos_bound pos 512 ltac:(lia)).
        pose proof (Z.div_mod (pos mod bsize) 512 ltac:(lia)). nia. }
  erewrite bind_Ok_eq by done. eexists _, _. split; [done|].
  rewrite s32_small by (unfold size; lia).
  split_and!.
  - do 3 f_equal. apply list_fmap_ext. intros i q _. by apply file_byte_agree.
  - eapply kept_set_filepos in Hk'. exact Hk'.
  - eapply kept_sized; [exact (kept_set_filepos (pos + size) _ _ Hk1)|done].
  - destruct Hc1 as [H1 H2]. by split.
Qed.

(** The first round and the step from one round to the next. *)
Lemma read_start s len : sized s -> cache_ok s -> 0 <= len ->
  filepos s mod 512 = 0 \/ 512 - filepos s mod 512 <= len ->
  read_inv s (filepos s) len (len, 0, []) s.
Proof using Hlg.
  intros Hs Hc Hl Hsec. split; cbn [fst snd]; rewrite ?Z.add_0_r; try done; try lia.
Qed.

Lemma read_next s0 p len st s s' : 0 <= p -> read_inv s0 p len st s -> 0 < st.1.1 ->
  let size := Z.min st.1.1 (bsize - (p + st.1.2) mod bsize) in
  kept (set_filepos (p + st.1.2 + size) s0) s' -> sized s' -> cache_ok s' ->
  read_inv s0 p len (st.1.1 - size, st.1.2 + size,
                     st.2 ++ (file_byte (fsys_buf s0) <$> seqZ (p + st.1.2) size)) s' /\
  (Z.to_nat (st.1.1 - size) < Z.to_nat st.1.1)%nat.
Proof using Hlg.
  intros Hp [Hleft Hret Hout Hk Hs Hc Hsec] Hpos size Hk' Hs' Hc'.
  destruct st as [[len' ret'] out]. cbn [fst snd] in *. set (pos := p + ret') in *.
  pose proof bsize_sectors as [Eb Hbs]. pose proof (Z.mod_pos_bound pos bsize ltac:(lia)) as Hm.
  split; [|unfold size; lia]. split; cbn [fst snd]; try done; try (unfold size; lia).
  - rewrite Hout, seqZ_app, fmap_app by (unfold size; lia). done.
  - by replace (p + (ret' + size)) with (pos + size) by (unfold pos; lia).
  - destruct (Z.le_gt_cases len' (bsize - pos mod bsize)); [left; unfold size; lia|right; left].
    replace size with (bsize - pos mod bsize) by (unfold size; lia).
    pose proof (Z.div_mod pos bsize ltac:(lia)).
    replace (p + (ret' + (bsize - pos mod bsize))) with ((bsize / 512 * (pos / bsize + 1)) * 512)
      by (unfold pos in *; nia).
    by apply Z.mod_mul.
Qed.

Lemma ext2fs_read_ok s len : sized s -> cache_ok s -> errnum s = 0 -> 0 <= filepos s -> 0 <= len ->
  filepos s + len < 2 ^ 31 -> readable (fsys_buf s) (filepos s) len ->
  filepos s mod 512 = 0 \/ 512 - filepos s mod 512 <= len ->
  wp (ext2fs_read disk len) (fun r s' =>
    r = (len, file_byte (fsys_buf s) <$> seqZ (filepos s) len) /\
    kept (set_filepos (filepos s + len) s) s' /\ cache_ok s') s.
Proof using Hlg.
  intros Hs Hc He Hp Hl Hpl Hr Hsec. set (p := filepos s) in *. unfold ext2fs_read. apply wp_bind.
  eapply wp_mono with (fun r s' => r = (len, file_byte (fsys_buf s) <$> seqZ p len) /\
                                   kept (set_filepos (p + len) s) s' /\ cache_ok s').
  - apply (wp_mloop _ (read_inv s p len) _ (fun st _ => Z.to_nat st.1.1)); cbn [fst]; [|by apply read_start|lia].
    intros st s1 Hi. pose proof Hi as [Hleft Hret Hout Hk Hs1 Hc1 Hsec1].
    destruct (Z.ltb_spec 0 st.1.1) as [Hlt|Hge].
    + eapply wp_mono; [by apply (read_round s p len)|]. intros c s2 (-> & Hk2 & Hs2 & Hc2).
      by eapply read_next.
    + destruct st as [[len' ret'] out]. cbn [fst snd] in *. unfold read_body.
      rewrite (proj2 (Z.ltb_ge 0 len')) by lia. apply wp_ret. replace ret' with len in * by lia.
      by subst out.
  - intros r s' (-> & Hk & Hc'). apply wp_bind, wp_gets, wp_ret.
    rewrite (kept_errnum _ _ Hk). cbn [errnum set_filepos]. by rewrite He.
Qed.

(** ** Inodes *)

Lemma log2_sizes : log2 (bsize / sizeof_group_desc) = Ok (lg + 5) /\ log2 (bsize / sizeof_inode) = Ok (lg + 3).
Proof using Hlg.
  assert (lg = 0 \/ lg = 1 \/ lg = 2 \/ lg = 3) as [H|[H|[H|H]]] by lia;
    unfold bsize; rewrite H; vm_compute; auto.
Qed.

Lemma desc_sizes : bsize / sizeof_group_desc = 2 ^ (lg + 5) /\ bsize / sizeof_inode = 2 ^ (lg + 3) /\
  bsize = 32 * 2 ^ (lg + 5) /\ bsize = 128 * 2 ^ (lg + 3).
Proof using Hlg.
  assert (lg = 0 \/ lg = 1 \/ lg = 2 \/ lg = 3) as [H|[H|[H|H]]] by lia;
    unfold bsize; rewrite H; vm_compute; auto.
Qed.

Lemma land_pow2 k x : 0 <= k -> Z.land x (2 ^ k - 1) = x mod 2 ^ k.
Proof.
  intros Hk. replace (2 ^ k - 1) with (Z.ones k) by (rewrite Z.ones_equiv; lia). by apply Z.land_ones.
Qed.

(** Where the format puts the descriptor of the group of [ino], the block table of
    that group and the inode. *)
Definition group_of (m : mem) (ino : Z) : Z := (ino - 1) / ld32 m s_inodes_per_group.
Definition index_of (m : mem) (ino : Z) : Z := (ino - 1) mod ld32 m s_inodes_per_group.
Definition desc_address (m : mem) (ino : Z) : Z :=
  block_address (ld32 m s_first_data_block + 1) + 32 * group_of m ino.
Definition table_of (m : mem) (ino : Z) : Z := ld32 disk (desc_address m ino + bg_inode_table).
Definition inode_address (m : mem) (ino : Z) : Z :=
  block_address (table_of m ino) + 128 * index_of m ino.

(** The inode can be read: the superblock is sensible and the blocks are valid. *)
Record inode_ok (m : mem) (ino : Z) : Prop := mkInodeOk {
  ino_range : 1 <= ino < 2 ^ 31;
  ino_group : 0 < ld32 m s_inodes_per_group;
  ino_whole : ld32 m s_inodes_per_group mod 2 ^ (lg + 3) = 0;
  ino_desc : valid_block (1 + group_of m ino / 2 ^ (lg + 5) + ld32 m s_first_data_block);
  ino_table : valid_block (table_of m ino + index_of m ino / 2 ^ (lg + 3))
}.

Lemma load_super off b s a : sizeof_super <= off -> a < sizeof_super -> fsys_buf (load off b s) a = fsys_buf s a.
Proof using Hlg. intros Ho Ha. apply load_out. lia. Qed.

Lemma load_sized off b s : sizeof_super <= off -> sized s -> sized (load off b s).
Proof using Hlg.
  intros Ho Hs. unfold sized in *. rewrite <- Hs. apply ld32_agree. intros k Hk.
  apply load_super; [done|]. unfold s_log_block_size, sizeof_super. lia.
Qed.

(** The place of the descriptor within the block that is read. *)
Lemma desc_place m ino : 0 <= group_of m ino ->
  block_address (1 + group_of m ino / 2 ^ (lg + 5) + ld32 m s_first_data_block) +
    32 * (group_of m ino mod 2 ^ (lg + 5)) = desc_address m ino.
Proof using Hlg.
  intros Hg. unfold desc_address, block_address. destruct desc_sizes as (_ & _ & E & _).
  pose proof (Z.div_mod (group_of m ino) (2 ^ (lg + 5)) ltac:(lia)). nia.
Qed.

Lemma inode_place m ino : inode_ok m ino ->
  block_address (table_of m ino + index_of m ino / 2 ^ (lg + 3)) + 128 * ((ino - 1) mod 2 ^ (lg + 3)) =
  inode_address m ino.
Proof using Hlg.
  intros [Hi Hg Hw _ _]. unfold inode_address, block_address. destruct desc_sizes as (_ & _ & _ & E).
  assert ((ino - 1) mod 2 ^ (lg + 3) = index_of m ino mod 2 ^ (lg + 3)) as ->.
  { unfold index_of. apply Z.mod_divide in Hw as [c Hc]; [|lia]. rewrite Hc.
    pose proof (Z.div_mod (ino - 1) (c * 2 ^ (lg + 3)) ltac:(nia)) as Hd.
    rewrite Hd at 1. replace (c * 2 ^ (lg + 3) * ((ino - 1) / (c * 2 ^ (lg + 3))))
      with ((c * ((ino - 1) / (c * 2 ^ (lg + 3)))) * 2 ^ (lg + 3)) by lia.
    by rewrite Z.add_comm, Z.mod_add by lia. }
  pose proof (Z.div_mod (index_of m ino) (2 ^ (lg + 3)) ltac:(lia)). nia.
Qed.

(** The state after [load_inode]: the inode is in place and no pointer block is cached. *)
Record inode_loaded (s : fs) (ino : Z) (s' : fs) : Prop := mkLoaded {
  il_inode : forall k, 0 <= k < 128 -> fsys_buf s' (inode_at + k) = disk (inode_address (fsys_buf s) ino + k);
  il_super : forall a, a < sizeof_super -> fsys_buf s' a = fsys_buf s a;
  il_sized : sized s';
  il_cache : cache_ok s';
  il_errnum : errnum s' = errnum s;
  il_filepos : filepos s' = filepos s
}.

(** The last part: the block of the inode goes to INODE and the inode to its front. *)
Definition place_inode (b ino : Z) (s : fs) : fs :=
  let s := load inode_at b s in
  set_fsys_buf (memmove inode_at (inode_at + 128 * ((ino - 1) mod 2 ^ (lg + 3))) 128 (fsys_buf s))
    (set_mapblock2 (-1) (set_mapblock1 (-1) s)).

Lemma place_inode_loaded b ino s s0 :
  (forall a, a < sizeof_super -> fsys_buf s a = fsys_buf s0 a) -> errnum s = errnum s0 ->
  filepos s = filepos s0 -> sized s ->
  block_address b + 128 * ((ino - 1) mod 2 ^ (lg + 3)) = inode_address (fsys_buf s0) ino ->
  inode_loaded s0 ino (place_inode b ino s).
Proof using Hlg.
  intros Hsup He Hf Hs Ha. pose proof regions as [Hr _]. destruct desc_sizes as (_ & _ & _ & E).
  pose proof (Z.mod_pos_bound (ino - 1) (2 ^ (lg + 3)) ltac:(lia)) as Hm.
  assert (forall a, a < sizeof_super -> fsys_buf (place_inode b ino s) a = fsys_buf s a) as Hk.
  { intros a Hlt. unfold place_inode. cbn [fsys_buf set_fsys_buf]. rewrite memmove_copies.
    rewrite (proj2 (Z.leb_gt _ _)) by (unfold inode_at, sizeof_super in *; lia). cbn [andb].
    apply load_super; [unfold inode_at, sizeof_super; lia|done]. }
  split; [| |  | |done|done].
  - intros k Hk'. unfold place_inode. cbn [fsys_buf set_fsys_buf]. rewrite memmove_copies.
    rewrite (proj2 (Z.leb_le _ _)), (proj2 (Z.ltb_lt _ _)) by lia. cbn [andb].
    rewrite <- Ha. replace (inode_at + 128 * ((ino - 1) mod 2 ^ (lg + 3)) + (inode_at + k - inode_at))
      with (inode_at + (128 * ((ino - 1) mod 2 ^ (lg + 3)) + k)) by lia.
    rewrite load_holds by nia. f_equal. lia.
  - intros a Hlt. rewrite Hk by done. by apply Hsup.
  - unfold sized in *. rewrite <- Hs. apply ld32_agree. intros k Hk'. apply Hk.
    unfold s_log_block_size, sizeof_super. lia.
  - split; [intros t Ht [=]; lia|by intros []].
Qed.

Lemma valid_range b : valid_block b -> - 2 ^ 31 <= b < 2 ^ 31.
Proof using Hlg. intros [H1 H2]. pose proof bsize_sectors. nia. Qed.

(** The word of the group descriptor that names the inode table. *)
Lemma desc_word s ino : 0 <= group_of (fsys_buf s) ino ->
  ld32 (fsys_buf (load GROUP_DESC
          (1 + group_of (fsys_buf s) ino / 2 ^ (lg + 5) + ld32 (fsys_buf s) s_first_data_block) s))
    (GROUP_DESC + sizeof_group_desc * (group_of (fsys_buf s) ino mod 2 ^ (lg + 5)) + bg_inode_table) =
  table_of (fsys_buf s) ino.
Proof using Hlg.
  intros Hg. destruct desc_sizes as (_ & _ & E & _). unfold table_of. apply ld32_agree. intros k Hk.
  pose proof (Z.mod_pos_bound (group_of (fsys_buf s) ino) (2 ^ (lg + 5)) ltac:(lia)) as Hm.
  rewrite <- desc_place by done. unfold sizeof_group_desc, bg_inode_table.
  rewrite <- !Z.add_assoc. rewrite load_holds by lia. f_equal; lia.
Qed.

Lemma load_inode_ok s ino : sized s -> inode_ok (fsys_buf s) ino ->
  wp (load_inode disk ino) (fun r s' => r = 1 /\ inode_loaded s ino s') s.
Proof using Hlg.
  intros Hs Hi. pose proof Hi as [Hr Hg Hw Hd Ht]. pose proof regions as [Hr1 Hr2].
  destruct desc_sizes as (Ed & Ei & E32 & E128), log2_sizes as [Ld Li].
  assert (0 <= group_of (fsys_buf s) ino <= ino - 1) as Hgr.
  { unfold group_of. split; [apply Z.div_pos; lia|apply Z.div_le_upper_bound; nia]. }
  unfold load_inode, SUPERBLOCK. rewrite !Z.add_0_l. apply wp_Ok.
  erewrite bind_Ok_eq by (by apply get32_Ok). rewrite (proj2 (Z.eqb_neq _ 0)) by lia. cbv zeta.
  unfold EXT2_DESC_PER_BLOCK. rewrite bind_assoc. erewrite bind_Ok_eq by (by apply EXT2_BLOCK_SIZE_Ok).
  rewrite ret_bind. erewrite bind_Ok_eq by (unfold lift; by rewrite Ld).
  erewrite bind_Ok_eq by (by apply get32_Ok).
  rewrite Ed, land_pow2, Z.shiftr_div_pow2, (u32_small (ino - 1)) by lia.
  fold (group_of (fsys_buf s) ino). rewrite (s32_small (group_of _ _)) by lia.
  set (gb := 1 + group_of (fsys_buf s) ino / 2 ^ (lg + 5) + ld32 (fsys_buf s) s_first_data_block) in *.
  assert (WHICH_SUPER + group_of (fsys_buf s) ino / 2 ^ (lg + 5) + ld32 (fsys_buf s) s_first_data_block = gb)
    as -> by done.
  rewrite (s32_small gb) by (by apply valid_range).
  erewrite bind_Ok_eq by (apply ext2_rdfsb_Ok; try done; unfold GROUP_DESC, SUPERBLOCK, sizeof_super, data2_at, data1_at, inode_at in *; lia).
  cbn [Z.eqb]. set (s1 := load GROUP_DESC gb s).
  assert (sized s1) as Hs1 by (by apply load_sized).
  pose proof (Z.mod_pos_bound (group_of (fsys_buf s) ino) (2 ^ (lg + 5)) ltac:(lia)) as Hm.
  erewrite bind_Ok_eq
    by (apply get32_Ok; unfold GROUP_DESC, SUPERBLOCK, sizeof_super, sizeof_group_desc, bg_inode_table,
          data2_at, data1_at, inode_at in *; lia).
  pose proof (desc_word s ino ltac:(lia)) as Ew. fold gb in Ew. fold s1 in Ew. rewrite Ew.
  erewrite bind_Ok_eq by (by apply EXT2_BLOCK_SIZE_Ok). erewrite bind_Ok_eq by (unfold lift; by rewrite Li).
  erewrite bind_Ok_eq by (by apply INODE_Ok).
  rewrite Z.shiftr_div_pow2 by lia. fold (index_of (fsys_buf s) ino).
  rewrite s32_small by (by apply valid_range).
  erewrite bind_Ok_eq by (apply ext2_rdfsb_Ok; try done; unfold data2_at, data1_at, inode_at in *; lia).
  cbn [Z.eqb]. eexists _, (place_inode _ ino s1). split.
  - unfold bind, modify, ret, place_inode. rewrite Ei, land_pow2 by lia. done.
  - split; [done|]. apply place_inode_loaded; [|done|done|done|by apply inode_place].
    intros a Ha. by apply load_super.
Qed.
End map.

(** ** The theorems *)

(** C7: With a valid pointer path, [ext2fs_block_map] returns the block that the
    pointer tree of the inode designates, at every level of indirection and whatever
    pointer blocks are cached; it touches only the cache, which stays right. *)
Theorem ext2fs_block_map_correct disk lg s logical_block :
  0 <= lg <= 3 -> sized lg s -> cache_ok disk lg s -> path_ok disk lg (fsys_buf s) logical_block ->
  exists s', ext2fs_block_map disk logical_block s = Ok (bmap disk lg (fsys_buf s) logical_block, s') /\
    kept lg s s' /\ cache_ok disk lg s'.
Proof.
  intros Hlg Hs Hc Hp. destruct (proj1 (wp_Ok _ _ _) (ext2fs_block_map_ok disk lg Hlg s _ Hs Hc Hp))
    as (r & s' & E & -> & Hk & Hc'). eauto.
Qed.

(** [ext2fs_read] returns the bytes of the file from the current position, with
    zeros for holes, across block boundaries, and advances the position by their
    number, when the read starts at a sector or reaches the next one. *)
Theorem ext2fs_read_correct disk lg s len :
  0 <= lg <= 3 -> sized lg s -> cache_ok disk lg s -> errnum s = 0 ->
  0 <= filepos s -> 0 <= len -> filepos s + len < 2 ^ 31 ->
  readable disk lg (fsys_buf s) (filepos s) len ->
  filepos s mod 512 = 0 \/ 512 - filepos s mod 512 <= len ->
  exists s', ext2fs_read disk len s =
    Ok ((len, file_byte disk lg (fsys_buf s) <$> seqZ (filepos s) len), s') /\
    kept lg (set_filepos (filepos s + len) s) s' /\ cache_ok disk lg s'.
Proof.
  intros Hlg Hs Hc He Hp Hl Hpl Hr Hsec.
  destruct (proj1 (wp_Ok _ _ _) (ext2fs_read_ok disk lg Hlg s len Hs Hc He Hp Hl Hpl Hr Hsec))
    as (r & s' & E & -> & Hk & Hc'). eauto.
Qed.

(** Looking inode [ino] up brings its 128 bytes on the disk, at the place that the
    group descriptors give, to the front of the INODE region, keeps the superblock and
    leaves no stale pointer block in the cache. *)
Theorem load_inode_correct disk lg s ino :
  0 <= lg <= 3 -> sized lg s -> inode_ok disk lg (fsys_buf s) ino ->
  exists s', load_inode disk ino s = Ok (1, s') /\ inode_loaded disk lg s ino s'.
Proof.
  intros Hlg Hs Hi. destruct (proj1 (wp_Ok _ _ _) (load_inode_ok disk lg Hlg s ino Hs Hi))
    as (r & s' & E & -> & Hil). eauto.
Qed.

(** Memory from the words it holds, and a state with nothing cached. *)
Fixpoint words (l : list (Z * Z)) : mem :=
  match l with
  | [] => fun _ => 0
  | (a, v) :: l' => store a [v mod 256; v / 256 mod 256; v / 65536 mod 256; v / 16777216] (words l')
  end.

Definition fresh (m : mem) (pos : Z) : fs := mkFs m (-1) (-1) 0 pos 0.

Lemma fresh_cache disk lg m pos : cache_ok disk lg (fresh m pos).
Proof. split; [cbn; intros t Ht [=]; lia|by intros []]. Qed.

(** A double indirect block: the inode points to block 5, which points to block 6. *)
Definition demo_disk : mem := words [(512 * 63 + 1024 * 5 + 4, 6); (512 * 63 + 1024 * 6 + 12, 9)].
Definition demo_buf : mem := words [(2048 + 40 + 4 * 13, 5)].

Lemma ext2fs_block_map_correct_witness :
  exists s', ext2fs_block_map demo_disk (12 + 256 + 256 + 3) (fresh demo_buf 0) = Ok (9, s') /\
    cache_ok demo_disk 0 s'.
Proof.
  destruct (ext2fs_block_map_correct demo_disk 0 (fresh demo_buf 0) (12 + 256 + 256 + 3))
    as (s' & E & _ & Hc).
  - lia.
  - vm_compute. reflexivity.
  - apply fresh_cache.
  - apply (bool_decide_unpack _). vm_compute. exact I.
  - exists s'. split; [|exact Hc]. rewrite E. f_equal.
Defined.

(** Block 0 of the file is block 7, block 1 is a hole. *)
Definition read_disk : mem := words [(512 * 63 + 1024 * 7 + 1000, 0x04030201); (512 * 63 + 1024 * 7 + 1020, 0x08070605)].
Definition read_buf : mem := words [(2048 + 40, 7)].

Lemma ext2fs_read_correct_witness :
  exists s', ext2fs_read read_disk 30 (fresh read_buf 1000) =
    Ok ((30, [1; 2; 3; 4] ++ replicate 16 0 ++ [5; 6; 7; 8] ++ replicate 6 0), s') /\
    filepos s' = 1030.
Proof.
  destruct (ext2fs_read_correct read_disk 0 (fresh read_buf 1000) 30) as (s' & E & Hk & _).
  - lia.
  - vm_compute. reflexivity.
  - apply fresh_cache.
  - reflexivity.
  - cbn. lia.
  - lia.
  - cbn. lia.
  - intros q Hq. cbn in Hq. change (bsize 0) with 1024.
    assert (q / 1024 = 0 \/ q / 1024 = 1) as [-> | ->]
      by (pose proof (Z.div_mod q 1024 ltac:(lia)); pose proof (Z.mod_pos_bound q 1024 ltac:(lia)); lia);
      (split; [apply (bool_decide_unpack _); vm_compute; exact I|]); [right|left];
      [apply (bool_decide_unpack _); vm_compute; exact I|vm_compute; reflexivity].
  - right. vm_compute. congruence.
  - exists s'. split; [rewrite E; vm_compute; reflexivity|]. by rewrite (kept_filepos _ _ _ Hk).
Defined.

(** 32 inodes in each group; inode 34 is the second one of group 1, whose table is
    at block 20. *)
Definition ino_disk : mem := words [(512 * 63 + 1024 * 2 + 32 + 8, 20); (512 * 63 + 1024 * 20 + 128, 0x81a4)].
Definition ino_buf : mem := words [(20, 1); (40, 32)].

Lemma load_inode_correct_witness :
  exists s', load_inode ino_disk 34 (fresh ino_buf 0) = Ok (1, s') /\
    ld16 (fsys_buf s') 2048 = 0x81a4.
Proof.
  destruct (load_inode_correct ino_disk 0 (fresh ino_buf 0) 34) as (s' & E & Hl).
  - lia.
  - vm_compute. reflexivity.
  - split; [lia|vm_compute; reflexivity|vm_compute; reflexivity|..];
      apply (bool_decide_unpack _); vm_compute; exact I.
  - exists s'. split; [exact E|]. pose proof (il_inode _ _ _ _ _ Hl) as H.
    unfold ld16. change 2048 with (inode_at 0 + 0). rewrite <- Z.add_assoc, !H by lia.
    vm_compute. reflexivity.
Defined.

(** A hole in the pointer tree itself is not recognised: for a file whose single
    indirect block is missing, every block behind it is a hole, but
    [ext2fs_block_map] takes block 0 of the partition for the pointer block. *)
Theorem ext2fs_block_map_sparse :
  exists disk s, cache_ok disk 0 s /\ bmap disk 0 (fsys_buf s) 12 = 0 /\
    exists s', ext2fs_block_map disk 12 s = Ok (77, s').
Proof.
  exists (words [(512 * 63, 77)]), (fresh (words []) 0).
  split; [apply fresh_cache|]. split; [vm_compute; reflexivity|].
  destruct (ext2fs_block_map _ _ _) as [[r s']|e] eqn:E; [exists s'|];
    apply (f_equal (fun o => match o with Ok (r, _) => r | Err _ => -1 end)) in E;
    vm_compute in E; subst; done.
Qed.
