(* ===== verification/Ext2Dir.v ===== *)
(** * The ext2 reader: directories and paths

    A file system is seen as a finite map from inode numbers to [node]s: files with
    their bytes, directories with their entries, symbolic links with their text.
    [represents] says when the disk holds a node at an inode, [resolve] is what a path
    denotes in such a map, and the theorems show that [find_entry] and [ext2fs_dir]
    compute it, errors included, whatever the buffers hold. *)

From Stdlib Require Import ZArith Lia.
From S2P Require Import Prelude Ext2 Ext2Thm Ext2Map.
From stdpp Require Import base gmap numbers strings list.
Local Open Scope Z_scope.

(** ** The abstract file system *)

Inductive node :=
| File (bytes : list Z)
| Dir (entries : list (Z * list Z))
| Link (text : list Z)
| Special.

Inductive answer := Found (ino : Z) | NotFound | BadType | TooManyLinks | TooLong.

(** The first entry in use with that name. *)
Definition lookup_name (entries : list (Z * list Z)) (name : list Z) : option Z :=
  (fun r => r.2.1) <$> list_find (fun e => e.1 <> 0 /\ e.2 = name) entries.

(** A path ends at a NUL or at white space. *)
Definition path_end (name : list Z) : bool := match name with [] => true | c :: _ => isspace c end.

Definition starts_with_slash (name : list Z) : bool :=
  match name with c :: _ => c =? chr_slash | [] => false end.

(** The first component and what follows it. *)
Definition component (name : list Z) : list Z * list Z :=
  span (fun c => isspace c || (c =? chr_slash)) (skip_slashes name).

Fixpoint resolve (nodes : gmap Z node) (fuel : nat) (ino up : Z) (name : list Z) (links : Z)
  : option answer :=
  match fuel, nodes !! ino with
  | S fuel', Some (Link text) =>
      let name' := text ++ (span isspace name).1 in
      if MAX_LINK_COUNT <=? links then Some TooManyLinks
      else if PATH_MAX - 2 <? Z.of_nat (length name') then Some TooLong
      else
        let from := if starts_with_slash name' then EXT2_ROOT_INO else up in
        resolve nodes fuel' from from name' (links + 1)
  | S fuel', Some n =>
      match path_end name, n with
      | true, File _ => Some (Found ino)
      | false, Dir ((_ :: _) as entries) =>
          let '(c, rest) := component name in
          match lookup_name entries c with
          | Some ino' => resolve nodes fuel' ino' ino rest links
          | None => Some NotFound
          end
      | _, _ => Some BadType
      end
  | _, _ => None
  end.

(** ** Strings *)

Lemma span_app stop l : (span stop l).1 ++ (span stop l).2 = l.
Proof.
  induction l as [|c l IH]; [done|]. cbn [span]. destruct (stop c); [done|].
  destruct (span stop l) as [a b]. cbn in *. by rewrite IH.
Qed.

Lemma skip_slashes_length l : (length (skip_slashes l) <= length l)%nat.
Proof. induction l as [|c l IH]; [done|]. cbn [skip_slashes]. destruct (_ =? _); cbn; lia. Qed.

(** Taking a component off makes the name shorter. *)
Lemma component_shorter name : path_end name = false -> (length (component name).2 < length name)%nat.
Proof.
  destruct name as [|c name]; [done|]. cbn [path_end]. intros Hc. unfold component. cbn [skip_slashes].
  destruct (Z.eqb_spec c chr_slash) as [->|Hne].
  - pose proof (skip_slashes_length name).
    pose proof (f_equal length (span_app (fun c => isspace c || (c =? chr_slash)) (skip_slashes name))) as H'.
    rewrite length_app in H'. cbn. lia.
  - cbn [span]. rewrite Hc, (proj2 (Z.eqb_neq c chr_slash)) by done. cbn [orb].
    pose proof (f_equal length (span_app (fun c => isspace c || (c =? chr_slash)) name)) as H'.
    destruct (span _ name) as [a b]. rewrite length_app in H'. cbn in *. lia.
Qed.

Lemma span_nonzero stop l : Forall (fun c => c <> 0) l ->
  Forall (fun c => c <> 0) (span stop l).1 /\ Forall (fun c => c <> 0) (span stop l).2.
Proof. intros H. rewrite <- (span_app stop l) in H. by apply Forall_app in H. Qed.

Lemma skip_slashes_nonzero l : Forall (fun c => c <> 0) l -> Forall (fun c => c <> 0) (skip_slashes l).
Proof. induction 1; cbn [skip_slashes]; [done|]. destruct (_ =? _); [done|]. by constructor. Qed.

(** Memory holds a list of bytes from [a]. *)
Definition has_bytes (m : mem) (a : Z) (l : list Z) : Prop :=
  forall k : nat, (k < length l)%nat -> m (a + Z.of_nat k) = nth k l 0.

Lemma has_bytes_cons m a x l : has_bytes m a (x :: l) <-> m a = x /\ has_bytes m (a + 1) l.
Proof.
  split.
  - intros H. split; [specialize (H 0%nat); cbn in H; rewrite Z.add_0_r in H; apply H; lia|].
    intros k Hk. specialize (H (S k)). cbn in H. rewrite <- H by lia. f_equal. lia.
  - intros [H0 H] [|k] Hk; cbn in *; [by rewrite Z.add_0_r|]. rewrite <- H by lia. f_equal. lia.
Qed.

Lemma cstring_exact l : forall m a, Forall (fun c => c <> 0) l -> has_bytes m a l ->
  cstring (length l) m a = l.
Proof.
  induction l as [|x l IH]; intros m a Hnz Hm; [done|]. cbn [cstring length].
  apply has_bytes_cons in Hm as [-> Hm]. inversion Hnz; subst.
  rewrite (proj2 (Z.eqb_neq x 0)) by done. f_equal. by apply IH.
Qed.

Lemma cstring_ends l : forall n m a, Forall (fun c => c <> 0) l -> has_bytes m a l ->
  m (a + Z.of_nat (length l)) = 0 -> (length l < n)%nat -> cstring n m a = l.
Proof.
  induction l as [|x l IH]; intros [|n] m a Hnz Hm H0 Hn; cbn in *; try lia.
  - rewrite Z.add_0_r in H0. by rewrite H0.
  - apply has_bytes_cons in Hm as [-> Hm]. inversion Hnz; subst.
    rewrite (proj2 (Z.eqb_neq x 0)) by done. f_equal. apply IH; try done; [|lia].
    rewrite <- H0. f_equal. lia.
Qed.

Section dir.
Context (disk : mem) (lg : Z) (Hlg : 0 <= lg <= 3) (sb : mem).
Hypothesis Hsb : ld32 sb s_log_block_size = lg.

(** ** The file system on the disk *)

Local Notation inode_at := (inode_at lg).

(** The inode [ino] of the disk, at the place where the reader keeps the current one. *)
Definition on_disk (ino : Z) : mem := fun a => disk (inode_address disk lg sb ino + (a - inode_at)).

Definition mode_of (ino : Z) : Z := ld16 (on_disk ino) (inode_at + i_mode).
Definition size_of (ino : Z) : Z := ld32 (on_disk ino) (inode_at + i_size).
Definition data_of (ino : Z) : mem := file_byte disk lg (on_disk ino).

(** An entry at byte [pos] of a directory; it does not cross the end of a block. *)
Record entry_at (d : mem) (pos : Z) (e : Z * list Z) : Prop := mkEntryAt {
  ea_inode : ld32 d (pos + de_inode) = e.1;
  ea_len : d (pos + de_name_len) = Z.of_nat (length e.2);
  ea_name : has_bytes d (pos + de_name) e.2;
  ea_text : e.1 <> 0 -> Forall (fun c => c <> 0) e.2;
  ea_fits : pos mod bsize lg + de_name + Z.of_nat (length e.2) <= bsize lg
}.

Fixpoint entries_at (d : mem) (size pos : Z) (l : list (Z * list Z)) : Prop :=
  match l with
  | [] => pos = size
  | e :: l' =>
      let r := ld16 d (pos + de_rec_len) in
      entry_at d pos e /\ 0 < r /\ entries_at d size (pos + r) l'
  end.

(** Every block of a directory is there. *)
Definition no_holes (ino size : Z) : Prop := forall q, 0 <= q < size ->
  path_ok disk lg (on_disk ino) (q / bsize lg) /\ valid_block lg (bmap disk lg (on_disk ino) (q / bsize lg)).

Definition ea_blocks (ino : Z) : Z :=
  if ld32 (on_disk ino) (inode_at + i_file_acl) =? 0 then 0 else bsize lg / 512.

Definition represents (ino : Z) (n : node) : Prop :=
  inode_ok disk lg sb ino /\
  match n with
  | File bytes =>
      S_ISREG (mode_of ino) = true /\ size_of ino = Z.of_nat (length bytes) /\ size_of ino < 2 ^ 31 /\
      readable disk lg (on_disk ino) 0 (size_of ino) /\ has_bytes (data_of ino) 0 bytes
  | Dir l =>
      S_ISDIR (mode_of ino) = true /\ size_of ino < 2 ^ 31 /\ no_holes ino (size_of ino) /\
      entries_at (data_of ino) (size_of ino) 0 l
  | Link text =>
      S_ISLNK (mode_of ino) = true /\ size_of ino = Z.of_nat (length text) /\
      Z.of_nat (length text) <= 60 /\ Forall (fun c => c <> 0) text /\
      ld32 (on_disk ino) (inode_at + i_blocks) = ea_blocks ino /\
      has_bytes (on_disk ino) (inode_at + i_block) text
  | Special =>
      S_ISREG (mode_of ino) = false /\ S_ISDIR (mode_of ino) = false /\ S_ISLNK (mode_of ino) = false
  end.

(** The disk holds the whole map, which has the root and what its entries name. *)
Record tree_ok (nodes : gmap Z node) : Prop := mkTree {
  tree_node : forall ino n, nodes !! ino = Some n -> represents ino n;
  tree_root : is_Some (nodes !! EXT2_ROOT_INO);
  tree_closed : forall ino l i name, nodes !! ino = Some (Dir l) -> (i, name) ∈ l -> i <> 0 ->
    is_Some (nodes !! i)
}.

(** ** The current inode *)

(** The superblock is the one of the disk and nothing went wrong. *)
Record ready (s : fs) : Prop := mkReady {
  rd_super : forall a, a < sizeof_super -> fsys_buf s a = sb a;
  rd_errnum : errnum s = 0;
  rd_filepos : filepos s = 0
}.

(** The inode [ino] is the current one. *)
Record current (ino : Z) (s : fs) : Prop := mkCurrent {
  cu_ready : ready s;
  cu_inode : forall k, 0 <= k < 128 -> fsys_buf s (inode_at + k) = on_disk ino (inode_at + k);
  cu_cache : cache_ok disk lg s
}.

Lemma ready_word s f : ready s -> f + 4 <= sizeof_super -> ld32 (fsys_buf s) f = ld32 sb f.
Proof. intros [H _ _] Hf. apply ld32_agree. intros k Hk. apply H. lia. Qed.

Lemma ready_sized s : ready s -> sized lg s.
Proof using Hsb. intros H. unfold sized. rewrite ready_word; [done|done|]. by vm_compute. Qed.

Lemma ready_inode_address s ino : ready s ->
  inode_address disk lg (fsys_buf s) ino = inode_address disk lg sb ino.
Proof.
  intros H. unfold inode_address, table_of, desc_address, index_of, group_of.
  by rewrite !(ready_word s) by (done || by vm_compute).
Qed.

Lemma ready_inode_ok s ino : ready s -> inode_ok disk lg sb ino -> inode_ok disk lg (fsys_buf s) ino.
Proof.
  intros H [H1 H2 H3 H4 H5]. unfold table_of, desc_address, index_of, group_of in *.
  split; unfold table_of, desc_address, index_of, group_of; rewrite ?(ready_word s) by (done || by vm_compute); done.
Qed.

Lemma load_current s ino : ready s -> inode_ok disk lg sb ino ->
  wp (load_inode disk ino) (fun r s' => r = 1 /\ current ino s') s.
Proof using Hlg Hsb.
  intros Hr Hi. eapply wp_mono; [apply (load_inode_ok disk lg Hlg); [by apply ready_sized|by apply ready_inode_ok]|].
  intros r s' [-> [H1 H2 H3 H4 H5 H6]]. split; [done|]. pose proof Hr as [Hr1 Hr2 Hr3]. split; [split| |done].
  - intros a Ha. by rewrite H2, Hr1.
  - congruence.
  - congruence.
  - intros k Hk. rewrite H1, ready_inode_address by done. unfold on_disk. f_equal. lia.
Qed.

Lemma current_sized ino s : current ino s -> sized lg s.
Proof using Hsb. intros [H _ _]. by apply ready_sized. Qed.

Lemma current_inode32 ino s f : current ino s -> 0 <= f <= 124 ->
  inode32 f s = Ok (ld32 (on_disk ino) (inode_at + f), s).
Proof using Hlg Hsb.
  intros Hc Hf. rewrite (inode32_Ok lg Hlg) by (done || by eapply current_sized).
  do 2 f_equal. apply ld32_agree. intros k Hk. rewrite <- Z.add_assoc. apply Hc. lia.
Qed.

Lemma current_mode ino s : current ino s -> inode16 i_mode s = Ok (mode_of ino, s).
Proof using Hlg Hsb.
  intros Hc. unfold inode16. erewrite bind_Ok_eq by (apply (INODE_Ok lg Hlg); by eapply current_sized).
  pose proof (regions lg Hlg) as [Hr1 Hr2]. unfold get16.
  rewrite in_buf_true by (unfold data2_at, data1_at, Ext2Map.inode_at, i_mode in *; lia).
  unfold mode_of, ld16, gets. rewrite <- Z.add_assoc. unfold i_mode. by rewrite !(cu_inode _ _ Hc) by lia.
Qed.

Lemma current_kept ino s s' : current ino s -> kept lg s s' -> cache_ok disk lg s' -> current ino s'.
Proof using Hlg.
  intros [[H1 H2 H3] H4 _] [K1 K2 K3 _] Hc. pose proof (regions lg Hlg) as [Hr1 Hr2]. split; [split| |done].
  - intros a Ha. rewrite K1; [by apply H1|]. unfold data1_at, Ext2Map.inode_at, sizeof_super in *. lia.
  - congruence.
  - congruence.
  - intros k Hk. rewrite K1; [by apply H4|]. unfold data1_at. lia.
Qed.

Lemma current_ptr ino s : current ino s ->
  forall i, 0 <= i <= 14 -> inode_ptr lg (fsys_buf s) i = inode_ptr lg (on_disk ino) i.
Proof.
  intros [_ H _] i Hi. unfold inode_ptr. f_equal. apply ld32_agree. intros k Hk.
  rewrite <- !Z.add_assoc. apply H. unfold i_block. lia.
Qed.

Lemma current_bmap ino s lb : current ino s -> 0 <= lb ->
  bmap disk lg (fsys_buf s) lb = bmap disk lg (on_disk ino) lb.
Proof.
  intros Hc Hl. unfold bmap. pose proof (current_ptr _ _ Hc) as H.
  destruct (Z.ltb_spec lb 12); [apply H; lia|]. by rewrite !H by lia.
Qed.

Lemma current_path ino s lb : current ino s -> path_ok disk lg (on_disk ino) lb ->
  path_ok disk lg (fsys_buf s) lb.
Proof. intros Hc. unfold path_ok. by rewrite !(current_ptr _ _ Hc) by lia. Qed.

(** ** Searching a directory *)

(** The block of byte [pos] in DATABLOCK2: what [entry_body] does before it looks at
    the entry, and that it is a prefix of it. *)
Definition read_dir_block (lb : Z) : M fs (Z * Z) :=
  let! map := ext2fs_block_map disk lb in
  modify (set_mapblock2 (-1)) ;;!
  let! d2 := DATABLOCK2 in
  let! ok := (if map <? 0 then ret 0 else ext2_rdfsb disk map d2) in
  ret (d2, ok).

Lemma wp_read_dir_block {A} lb (k : Z -> Z -> M fs A) Q s :
  wp (read_dir_block lb) (fun r s' => wp (k r.1 r.2) Q s') s ->
  wp (let! map := ext2fs_block_map disk lb in
      modify (set_mapblock2 (-1)) ;;!
      let! d2 := DATABLOCK2 in
      let! ok := (if map <? 0 then ret 0 else ext2_rdfsb disk map d2) in
      k d2 ok) Q s.
Proof.
  unfold read_dir_block, wp, bind, modify, ret. destruct (ext2fs_block_map _ _ _) as [[]|]; [|done].
  destruct (DATABLOCK2 _) as [[]|]; [|done]. by destruct (_ <? 0); [|destruct (ext2_rdfsb _ _ _ _) as [[]|]].
Qed.

Lemma dir_block ino s pos : current ino s -> no_holes ino (size_of ino) -> 0 <= pos < size_of ino ->
  wp (read_dir_block (pos / bsize lg))
    (fun r s' => r = (data2_at lg, 1) /\ current ino s' /\
       forall k, 0 <= k -> pos mod bsize lg + k < bsize lg ->
         fsys_buf s' (data2_at lg + pos mod bsize lg + k) = data_of ino (pos + k)) s.
Proof using Hlg Hsb.
  intros Hc Hn Hp. destruct (Hn pos Hp) as [Hpath Hv]. pose proof (regions lg Hlg) as [Hr1 Hr2].
  assert (0 <= pos / bsize lg) as Hl by (apply Z.div_pos; lia).
  apply wp_bind. eapply wp_mono.
  { apply (ext2fs_block_map_ok disk lg Hlg); [by eapply current_sized|apply Hc|by eapply current_path]. }
  intros map s1 (-> & Hk1 & Hc1). rewrite (current_bmap ino) by done.
  set (b := bmap disk lg (on_disk ino) (pos / bsize lg)) in *.
  apply wp_bind, wp_modify, wp_bind. apply wp_Ok.
  assert (current ino (set_mapblock2 (-1) s1)) as Hcur.
  { eapply current_kept; [done|eapply same_below_trans; [done|apply set_map2_kept]|].
    destruct Hc1 as [H1 H2]. split; [done|by intros []]. }
  eexists _, _. split; [apply (DATABLOCK2_Ok lg Hlg); by eapply current_sized|]. cbv beta.
  rewrite (proj2 (Z.ltb_ge b 0)) by (destruct Hv; lia).
  destruct (load2_ok disk lg Hlg _ b (current_sized _ _ Hcur) Hv) as (E & Hk2 & Hs2 & Hm2).
  apply wp_bind, wp_Ok. eexists _, _. split; [exact E|]. apply wp_ret. split; [done|]. split.
  - eapply current_kept; [done|done|]. pose proof (cu_cache _ _ Hcur) as [H1 H2].
    split; [|by intros []]. intros t Ht Hmt. apply Hm2; [done|]. by apply H1.
  - intros k Hk Hlt. pose proof (load_holds disk lg Hlg (data2_at lg) b (set_mapblock2 (-1) s1)) as Hh.
    pose proof (Z.mod_pos_bound pos (bsize lg) ltac:(lia)).
    rewrite <- Z.add_assoc, Hh by lia. unfold data_of, file_byte.
    destruct (block_place lg Hlg pos k) as [-> ->]; [lia..|]. fold b.
    rewrite (proj2 (Z.eqb_neq b 0)) by (destruct Hv; lia). by rewrite Z.add_assoc.
Qed.

(** The fields of an entry, read from a copy [m'] of its block at [dp]. *)
Lemma entry_copy d pos e m' dp :
  entry_at d pos e ->
  (forall k, 0 <= k -> pos mod bsize lg + k < bsize lg -> m' (dp + k) = d (pos + k)) ->
  ld16 m' (dp + de_rec_len) = ld16 d (pos + de_rec_len) /\ ld32 m' (dp + de_inode) = e.1 /\
  m' (dp + de_name_len) = Z.of_nat (length e.2) /\
  (e.1 <> 0 -> cstring (length e.2) m' (dp + de_name) = e.2).
Proof.
  intros [H1 H2 H3 H4 H5] Hm. unfold de_name, de_inode, de_rec_len, de_name_len in *.
  split_and!.
  - unfold ld16. rewrite <- !Z.add_assoc. by rewrite !Hm by lia.
  - rewrite <- H1. apply ld32_agree. intros k Hk. rewrite <- !Z.add_assoc. apply Hm; lia.
  - by rewrite Hm, H2 by lia.
  - intros Hi. apply cstring_exact; [by apply H4|]. intros k Hk.
    rewrite <- H3 by done. rewrite <- !Z.add_assoc. apply Hm; lia.
Qed.

(** One round of the search. *)
Lemma entry_step ino s pos str e name :
  current ino s -> size_of ino < 2 ^ 31 -> no_holes ino (size_of ino) -> 0 <= pos < size_of ino ->
  entry_at (data_of ino) pos e -> pos + ld16 (data_of ino) (pos + de_rec_len) <= size_of ino ->
  0 < ld16 (data_of ino) (pos + de_rec_len) ->
  wp (entry_body disk name (pos, str)) (fun c s' => current ino s' /\
    if decide (e.1 <> 0 /\ e.2 = name) then c = Break (Some e.1)
    else exists str', c = Continue (pos + ld16 (data_of ino) (pos + de_rec_len), str')) s.
Proof using Hlg Hsb.
  intros Hc Hsz Hn Hp He Hle Hpos. unfold entry_body. pose proof (regions lg Hlg) as [Hr1 Hr2].
  pose proof (addrs_range lg Hlg) as Har. pose proof (bsize_addrs lg Hlg) as Hba.
  apply wp_Ok. erewrite bind_Ok_eq by (apply (current_inode32 ino); [done|by vm_compute]). fold (size_of ino).
  rewrite u32_small, (proj2 (Z.leb_gt (size_of ino) pos)) by lia.
  erewrite bind_Ok_eq by (apply (EXT2_BLOCK_SIZE_BITS_Ok lg Hlg); by eapply current_sized).
  erewrite bind_Ok_eq by (apply (EXT2_BLOCK_SIZE_Ok lg Hlg); by eapply current_sized).
  rewrite (shiftr_bsize lg Hlg), (land_bsize lg Hlg). apply wp_Ok.
  apply wp_read_dir_block. eapply wp_mono; [by apply dir_block|].
  intros r s3 (-> & Hc3 & Hb). cbn [fst snd Z.eqb].
  destruct (entry_copy (data_of ino) pos e (fsys_buf s3) (data2_at lg + pos mod bsize lg) He Hb)
    as (E1 & E2 & E3 & E4).
  pose proof (ea_fits _ _ _ He) as Hf. pose proof (Z.mod_pos_bound pos (bsize lg) ltac:(lia)).
  set (dp := data2_at lg + pos mod bsize lg) in *.
  assert (0 <= dp /\ dp + 8 + Z.of_nat (length e.2) + 1 <= FSYS_BUF_SIZE) as Hdp.
  { unfold dp, data2_at, data1_at, Ext2Map.inode_at, de_name, FSYS_BUF_SIZE in *. lia. }
  unfold get16, get32, get8, de_rec_len, de_inode, de_name_len, de_name in *.
  rewrite !in_buf_true by lia. apply wp_bind, wp_gets, wp_bind, wp_gets, wp_bind, wp_gets.
  rewrite E1, E2, E3, Nat2Z.id.
  destruct (Z.eqb_spec e.1 0) as [E0|E0]; cbn [orb].
  - apply wp_bind, wp_ret, wp_ret. split; [done|]. rewrite decide_False by tauto.
    rewrite s32_small by lia. eauto.
  - rewrite in_buf_true by lia. apply wp_bind, wp_bind, wp_gets, wp_bind, wp_gets, wp_ret.
    rewrite E4 by done. destruct (Z.eqb_spec (substring name e.2) 0) as [Es|Es]; cbn [negb].
    + apply wp_ret. split; [done|]. apply substring_correct in Es. by rewrite decide_True.
    + apply wp_ret. split; [done|]. rewrite decide_False by (intros [_ <-]; apply Es; by apply substring_correct).
      rewrite s32_small by lia. eauto.
Qed.

Lemma lookup_name_cons e l name :
  lookup_name (e :: l) name = if decide (e.1 <> 0 /\ e.2 = name) then Some e.1 else lookup_name l name.
Proof.
  unfold lookup_name. cbn [list_find]. destruct (decide _); [done|]. by destruct (list_find _ l) as [[]|].
Qed.

Lemma entries_le d size : forall l pos, entries_at d size pos l -> pos <= size.
Proof. induction l as [|e l IH]; intros pos; cbn [entries_at]; [lia|]. intros (_ & H & Hr%IH). lia. Qed.

Lemma search_ok ino name : size_of ino < 2 ^ 31 -> no_holes ino (size_of ino) ->
  forall l pos str s fuel, entries_at (data_of ino) (size_of ino) pos l -> 0 <= pos -> current ino s ->
  (Z.to_nat (size_of ino - pos) < fuel)%nat ->
  wp (mloop fuel (entry_body disk name) (pos, str)) (fun r s' => r = lookup_name l name /\
    match r with Some _ => current ino s' | None => errnum s' = ERR_FILE_NOT_FOUND end) s.
Proof using Hlg Hsb.
  intros Hsz Hn l. induction l as [|e l IH]; intros pos str s fuel Hl Hp Hc Hf;
    (destruct fuel as [|fuel]; [lia|]); cbn [mloop]; apply wp_bind; cbn [entries_at] in Hl.
  - subst pos. unfold entry_body. apply wp_bind, wp_Ok. eexists _, _.
    split; [apply (current_inode32 ino); [done|by vm_compute]|]. fold (size_of ino).
    rewrite u32_small, Z.leb_refl by lia. by apply wp_bind, wp_modify, wp_ret, wp_ret.
  - destruct Hl as (He & Hr & Hl). pose proof (entries_le _ _ _ _ Hl).
    eapply wp_mono; [apply (entry_step ino s pos str e); try done; lia|].
    intros c s' [Hc' Hm]. rewrite lookup_name_cons. destruct (decide _).
    + subst c. by apply wp_ret.
    + destruct Hm as [str' ->]. apply IH; [done|lia|done|lia].
Qed.

Lemma find_entry_ok ino s l name : current ino s -> represents ino (Dir l) ->
  wp (find_entry disk name) (fun r s' => r = lookup_name l name /\
    match r with Some _ => current ino s' | None => errnum s' = ERR_FILE_NOT_FOUND end) s.
Proof using Hlg Hsb.
  intros Hc (_ & _ & Hsz & Hn & Hl). unfold find_entry. apply wp_bind, wp_Ok. eexists _, _.
  split; [apply (current_inode32 ino); [done|by vm_compute]|]. fold (size_of ino).
  apply (search_ok ino); try done. lia.
Qed.

(** ** Following a link *)

Lemma has_bytes_app m a l1 l2 : has_bytes m a (l1 ++ l2) <->
  has_bytes m a l1 /\ has_bytes m (a + Z.of_nat (length l1)) l2.
Proof.
  revert a. induction l1 as [|x l1 IH]; intros a; cbn [app length].
  - rewrite Z.add_0_r. split; [|tauto]. intros H. split; [|done]. intros k Hk. cbn in Hk. lia.
  - rewrite !has_bytes_cons, IH. replace (a + 1 + Z.of_nat (length l1)) with (a + Z.of_nat (S (length l1))) by lia.
    tauto.
Qed.

Lemma store_has off l m : has_bytes (store off l m) off l.
Proof. intros k Hk. rewrite store_in by lia. f_equal. lia. Qed.

(** The buffer for links after the copies holds the text and the name. *)
Lemma linkbuf_string text name junk :
  Forall (fun c => c <> 0) text -> Forall (fun c => c <> 0) name ->
  Z.of_nat (length (text ++ name)) <= PATH_MAX - 2 ->
  let fm := Z.of_nat (length text) in
  cstring (Z.to_nat PATH_MAX)
    (store 0 text (set_byte (fm + Z.of_nat (length name)) 0 (store fm name junk))) 0 = text ++ name.
Proof.
  intros Ht Hn Hl fm. rewrite length_app in Hl. apply cstring_ends; [by apply Forall_app| | |].
  - apply has_bytes_app. split; [apply store_has|]. intros k Hk. fold fm. rewrite Z.add_0_l.
    rewrite store_out by lia. unfold set_byte. rewrite (proj2 (Z.eqb_neq _ _)) by lia.
    by apply store_has.
  - rewrite store_out by (rewrite length_app; lia). unfold set_byte.
    rewrite length_app. by rewrite (proj2 (Z.eqb_eq _ _)) by lia.
  - rewrite length_app. unfold PATH_MAX in *. lia.
Qed.

Lemma current_text ino s text : current ino s -> has_bytes (on_disk ino) (inode_at + i_block) text ->
  Z.of_nat (length text) <= 60 ->
  (fun k => fsys_buf s (inode_at + i_block + k)) <$> seqZ 0 (Z.of_nat (length text)) = text.
Proof.
  intros Hc Hb Hl. apply list_eq_same_length with (length text); [done|by rewrite length_fmap, length_seqZ, Nat2Z.id|].
  intros k x y Hk. rewrite list_lookup_fmap_Some. intros (q & -> & [-> _]%lookup_seqZ) Hy.
  rewrite Z.add_0_l, <- Z.add_assoc, (cu_inode _ _ Hc) by (unfold i_block; lia).
  rewrite Z.add_assoc, Hb by done. by apply nth_lookup_Some.
Qed.

(** What a round of the walk leaves: an answer with its code, or the next round. *)
Definition code_of (a : answer) : Z :=
  match a with
  | Found _ => 0
  | NotFound => ERR_FILE_NOT_FOUND
  | BadType => ERR_BAD_FILETYPE
  | TooManyLinks => ERR_SYMLINK_LOOP
  | TooLong => ERR_FILELENGTH
  end.

Definition answers (a : answer) (r : Z) (s : fs) : Prop :=
  errnum s = code_of a /\
  match a with
  | Found ino => current ino s /\ r = size_of ino /\ filemax s = size_of ino
  | _ => r = -1
  end.

Definition goes_on (ino up : Z) (name : list Z) (links : Z) (c : control walk_st Z) (s : fs) : Prop :=
  ready s /\ exists buf, c = Continue (mkWalk ino up name links buf).

Lemma ready_filemax x s : ready s -> ready (set_filemax x s).
Proof. by intros []. Qed.

Lemma current_filemax ino x s : current ino s -> current ino (set_filemax x s).
Proof. intros [H1 H2 [H3 H4]]. by split; [apply ready_filemax|..]. Qed.

Lemma fast_link ino s text : current ino s -> represents ino (Link text) -> ext2_is_fast_symlink s = Ok (true, s).
Proof using Hlg Hsb.
  intros Hc (_ & _ & _ & _ & _ & Hb & _). unfold ext2_is_fast_symlink.
  erewrite bind_Ok_eq by (apply (current_inode32 ino); [done|by vm_compute]).
  erewrite bind_Ok_eq by (apply (EXT2_BLOCK_SIZE_Ok lg Hlg); by eapply current_sized).
  erewrite bind_Ok_eq by (apply (current_inode32 ino); [done|by vm_compute]).
  rewrite Hb. unfold ea_blocks, DEV_BSIZE, ret. by rewrite Z.eqb_refl.
Qed.

Lemma follow_link_ok ino s w text :
  let name' := text ++ (span isspace (wk_name w)).1 in
  let from := if starts_with_slash name' then EXT2_ROOT_INO else wk_updir w in
  current ino s -> represents ino (Link text) -> Forall (fun c => c <> 0) (wk_name w) ->
  Z.of_nat (length (wk_name w)) < 2 ^ 31 ->
  wp (follow_link w) (fun c s' =>
    if MAX_LINK_COUNT <=? wk_links w then c = Break (-1) /\ answers TooManyLinks (-1) s'
    else if PATH_MAX - 2 <? Z.of_nat (length name') then c = Break (-1) /\ answers TooLong (-1) s'
    else goes_on from from name' (wk_links w + 1) c s') s.
Proof using Hlg Hsb.
  intros name' from Hc Hrep Hnz Hlen. pose proof Hrep as (_ & _ & Hsz & H60 & Htz & _ & Htext).
  unfold follow_link. replace (MAX_LINK_COUNT <? wk_links w + 1) with (MAX_LINK_COUNT <=? wk_links w)
    by (destruct (Z.leb_spec MAX_LINK_COUNT (wk_links w)), (Z.ltb_spec MAX_LINK_COUNT (wk_links w + 1)); lia).
  destruct (MAX_LINK_COUNT <=? wk_links w); [by apply wp_bind, wp_modify, wp_ret|].
  pose proof (span_nonzero isspace _ Hnz) as [Hn1 _].
  pose proof (f_equal length (span_app isspace (wk_name w))) as Hsp. rewrite length_app in Hsp.
  destruct (span isspace (wk_name w)) as [name rest]. cbn [fst snd] in *.
  apply wp_Ok. erewrite bind_Ok_eq by (apply (current_inode32 ino); [done|by vm_compute]).
  fold (size_of ino). rewrite Hsz, s32_small by lia. apply wp_Ok, wp_bind, wp_modify, wp_bind, wp_gets.
  cbn [filemax set_filemax]. rewrite u32_small by lia.
  assert (Z.of_nat (length text) + Z.of_nat (length name) = Z.of_nat (length name')) as El
    by (unfold name'; rewrite length_app; lia).
  rewrite El. destruct (Z.ltb_spec (PATH_MAX - 2) (Z.of_nat (length name'))); [by apply wp_bind, wp_modify, wp_ret|].
  rewrite (proj2 (Z.ltb_ge _ 0)) by lia. apply current_filemax with (x := Z.of_nat (length text)) in Hc.
  apply wp_Ok. erewrite bind_Ok_eq by (by eapply fast_link).
  erewrite bind_Ok_eq by (apply (INODE_Ok lg Hlg); by eapply current_sized).
  erewrite bind_Ok_eq by done. rewrite (current_text ino) by done.
  rewrite <- El, linkbuf_string by done. fold name'. apply wp_Ok. unfold from.
  destruct name' as [|c rest'] eqn:En; cbn [starts_with_slash].
  - apply wp_ret. split; [apply Hc|eauto].
  - destruct (c =? chr_slash); apply wp_ret; (split; [apply Hc|eauto]).
Qed.

(** ** Walking a path *)

Lemma lookup_name_in l name i : lookup_name l name = Some i -> i <> 0 /\ (i, name) ∈ l.
Proof.
  unfold lookup_name. destruct (list_find _ l) as [[k [i' name']]|] eqn:E; [|done]. intros [= <-].
  apply list_find_Some in E as (Hk & [Hi Hn] & _). cbn in *. subst. split; [done|].
  by eapply list_elem_of_lookup_2.
Qed.

Definition is_link (n : node) : bool := match n with Link _ => true | _ => false end.

Lemma link_mode ino n : represents ino n -> S_ISLNK (mode_of ino) = is_link n.
Proof.
  intros [_ H]. unfold S_ISREG, S_ISDIR, S_ISLNK in *.
  destruct n; cbn [is_link]; try tauto; destruct H as [E _]; apply Z.eqb_eq in E; by rewrite E.
Qed.

(** The branches of [dir_body] for what is not a link. *)
Lemma next_component_ok ino s w n : current ino s -> represents ino n -> is_link n = false -> wk_ino w = ino ->
  wp (next_component disk w) (fun c s' =>
    match n with
    | Dir ((_ :: _) as l) =>
        match lookup_name l (component (wk_name w)).1 with
        | Some i => goes_on (s32 i) ino (component (wk_name w)).2 (wk_links w) c s'
        | None => c = Break (-1) /\ answers NotFound (-1) s'
        end
    | _ => c = Break (-1) /\ answers BadType (-1) s'
    end) s.
Proof using Hlg Hsb.
  intros Hc Hrep Hnl Hw. unfold next_component. apply wp_Ok.
  erewrite bind_Ok_eq by (apply (current_inode32 ino); [done|by vm_compute]).
  erewrite bind_Ok_eq by (by apply current_mode). fold (size_of ino). apply wp_Ok.
  assert (S_ISDIR (mode_of ino) = match n with Dir _ => true | _ => false end) as Hmode.
  { destruct Hrep as [_ H]. unfold S_ISREG, S_ISDIR, S_ISLNK in *.
    destruct n; try tauto; destruct H as [E _]; apply Z.eqb_eq in E; by rewrite E. }
  rewrite Hmode. destruct n as [b|[|e l]|t|]; try done; cbn [negb]; rewrite ?orb_true_r;
    try (by apply wp_bind, wp_modify, wp_ret).
  - destruct Hrep as (_ & _ & _ & _ & Hl). cbn in Hl. rewrite <- Hl. by apply wp_bind, wp_modify, wp_ret.
  - pose proof Hrep as (_ & _ & _ & _ & (_ & Hr & Hl)). apply entries_le in Hl.
    rewrite (proj2 (Z.eqb_neq (size_of ino) 0)) by lia. cbn [orb].
    unfold component. destruct (span _ _) as [c rest]. cbn [fst snd].
    apply wp_bind. eapply wp_mono; [by apply (find_entry_ok ino s (e :: l))|].
    intros r s' [-> Hr']. destruct (lookup_name (e :: l) c) as [i|].
    + apply wp_ret. split; [apply Hr'|]. subst. eauto.
    + by apply wp_ret.
Qed.

Lemma at_end_ok ino s n : current ino s -> represents ino n -> is_link n = false ->
  wp (if negb (S_ISREG (mode_of ino)) then
        modify (set_errnum ERR_BAD_FILETYPE) ;;! ret (Break (-1))
      else
        let! size := inode32 i_size in
        modify (set_filemax (s32 size)) ;;!
        let! fm := gets filemax in
        ret (Break fm) : M fs (control walk_st Z))
    (fun c s' => match n with
                 | File _ => exists r, c = Break r /\ answers (Found ino) r s'
                 | _ => c = Break (-1) /\ answers BadType (-1) s'
                 end) s.
Proof using Hlg Hsb.
  intros Hc [_ H] Hnl. destruct n as [b|l|t|]; try done.
  - destruct H as (-> & Hsz & Hlt & _). cbn [negb]. apply wp_Ok.
    erewrite bind_Ok_eq by (apply (current_inode32 ino); [done|by vm_compute]). fold (size_of ino).
    rewrite s32_small by lia. apply wp_Ok, wp_bind, wp_modify, wp_bind, wp_gets, wp_ret. eexists.
    split; [done|]. apply current_filemax with (x := size_of ino) in Hc. split; [apply Hc|done].
  - assert (S_ISREG (mode_of ino) = false) as ->; [|by apply wp_bind, wp_modify, wp_ret].
    destruct H as [E _]. unfold S_ISDIR, S_ISREG in *. apply Z.eqb_eq in E. by rewrite E.
  - destruct H as (-> & _). by apply wp_bind, wp_modify, wp_ret.
Qed.

(** The walk from [w] against [resolve]: every round takes the name or the number of
    links left down. *)
Definition walk_measure (w : walk_st) : nat :=
  (length (wk_name w) + Z.to_nat PATH_MAX * Z.to_nat (MAX_LINK_COUNT - wk_links w))%nat.

Record walk_ok (nodes : gmap Z node) (w : walk_st) : Prop := mkWalkOk {
  wo_ino : is_Some (nodes !! wk_ino w);
  wo_up : is_Some (nodes !! wk_updir w);
  wo_name : Forall (fun c => c <> 0) (wk_name w);
  wo_length : Z.of_nat (length (wk_name w)) < 2 ^ 31;
  wo_links : 0 <= wk_links w <= MAX_LINK_COUNT
}.

Lemma component_nonzero name : Forall (fun c => c <> 0) name -> Forall (fun c => c <> 0) (component name).2.
Proof. intros H. by apply span_nonzero, skip_slashes_nonzero. Qed.

(** The next rounds of [resolve] are over nodes again. *)
Lemma walk_ok_link nodes w text buf : tree_ok nodes -> walk_ok nodes w -> nodes !! wk_ino w = Some (Link text) ->
  let name' := text ++ (span isspace (wk_name w)).1 in
  let from := if starts_with_slash name' then EXT2_ROOT_INO else wk_updir w in
  let w' := mkWalk from from name' (wk_links w + 1) buf in
  wk_links w < MAX_LINK_COUNT -> Z.of_nat (length name') <= PATH_MAX - 2 ->
  walk_ok nodes w' /\ (walk_measure w' < walk_measure w)%nat.
Proof using Hlg Hsb.
  intros Ht [Hino Hup Hnz Hlen Hlk] Hn name' from w' Hl Hl'.
  destruct (tree_node _ Ht _ _ Hn) as (_ & _ & _ & _ & Htz & _).
  assert (is_Some (nodes !! from)) as Hfrom.
  { unfold from. destruct (starts_with_slash name'); [apply Ht|done]. }
  split; [|unfold walk_measure, PATH_MAX, MAX_LINK_COUNT in *; unfold w'; cbn [wk_name wk_links]; lia].
  split; unfold w'; cbn [wk_ino wk_updir wk_name wk_links]; try done; [|unfold PATH_MAX in *; lia|lia].
  apply Forall_app. split; [done|]. by apply span_nonzero.
Qed.

Lemma walk_ok_dir nodes w l i buf : tree_ok nodes -> walk_ok nodes w -> nodes !! wk_ino w = Some (Dir l) ->
  path_end (wk_name w) = false -> lookup_name l (component (wk_name w)).1 = Some i ->
  let w' := mkWalk i (wk_ino w) (component (wk_name w)).2 (wk_links w) buf in
  walk_ok nodes w' /\ (walk_measure w' < walk_measure w)%nat /\ s32 i = i.
Proof using Hlg Hsb.
  intros Ht [Hino Hup Hnz Hlen Hlk] Hn He [Hi0 Hin]%lookup_name_in w'.
  pose proof (component_shorter _ He) as Hs. pose proof (component_nonzero _ Hnz).
  pose proof (tree_closed _ Ht _ _ _ _ Hn Hin Hi0) as [n' Hn'].
  destruct (tree_node _ Ht _ _ Hn') as [[Hr _ _ _ _] _].
  split; [split; unfold w'; cbn [wk_ino wk_updir wk_name wk_links]; eauto; lia|].
  split; [unfold walk_measure, w'; cbn [wk_name wk_links]; lia|apply s32_small; lia].
Qed.

Lemma resolve_total nodes : tree_ok nodes -> forall fuel w, walk_ok nodes w -> (walk_measure w < fuel)%nat ->
  exists a, resolve nodes fuel (wk_ino w) (wk_updir w) (wk_name w) (wk_links w) = Some a.
Proof using Hlg Hsb.
  intros Ht. induction fuel as [|fuel IH]; intros w Hw Hf; [lia|].
  destruct (wo_ino _ _ Hw) as [n Hn]. cbn [resolve]. rewrite Hn. destruct n as [b|[|e l]|text|].
  - destruct (path_end _); eauto.
  - destruct (path_end _); eauto.
  - destruct (path_end _) eqn:He; [eauto|]. destruct (component _) as [c rest] eqn:Ec.
    destruct (lookup_name (e :: l) c) as [i|] eqn:El; [|eauto].
    destruct (walk_ok_dir nodes w _ i (wk_linkbuf w) Ht Hw Hn He) as (Hw' & Hm & _); [by rewrite Ec|].
    rewrite Ec in *. cbn [fst snd] in *. exact (IH _ Hw' ltac:(lia)).
  - destruct (Z.leb_spec MAX_LINK_COUNT (wk_links w)); [eauto|].
    destruct (Z.ltb_spec (PATH_MAX - 2) (Z.of_nat (length (text ++ (span isspace (wk_name w)).1)))); [eauto|].
    destruct (walk_ok_link nodes w text (wk_linkbuf w)) as (Hw' & Hm); [done..|].
    exact (IH _ Hw' ltac:(lia)).
  - destruct (path_end _); eauto.
Qed.

(** A round, by the kind of the node. *)
Lemma dir_body_wp ino s w n Q : ready s -> represents ino n -> wk_ino w = ino ->
  (forall s1, current ino s1 ->
    wp (if is_link n then follow_link w
        else if path_end (wk_name w) then
          if negb (S_ISREG (mode_of ino)) then modify (set_errnum ERR_BAD_FILETYPE) ;;! ret (Break (-1))
          else let! size := inode32 i_size in modify (set_filemax (s32 size)) ;;!
               let! fm := gets filemax in ret (Break fm)
        else next_component disk w) Q s1) ->
  wp (dir_body disk w) Q s.
Proof using Hlg Hsb.
  intros Hr Hrep Hw HQ. unfold dir_body. apply wp_bind. rewrite Hw.
  eapply wp_mono; [apply load_current; [done|apply Hrep]|].
  intros r s1 [-> Hc]. cbn [Z.eqb]. apply wp_Ok. erewrite bind_Ok_eq by (by apply current_mode).
  rewrite (link_mode _ n) by done. apply wp_Ok. by apply HQ.
Qed.

Lemma walk_resolves nodes : tree_ok nodes -> forall fuel w s a, walk_ok nodes w -> ready s ->
  resolve nodes fuel (wk_ino w) (wk_updir w) (wk_name w) (wk_links w) = Some a ->
  wp (mloop fuel (dir_body disk) w) (answers a) s.
Proof using Hlg Hsb.
  intros Ht. induction fuel as [|fuel IH]; intros w s a Hw Hr Hres; [done|].
  pose proof Hw as [[n Hn] Hup Hnz Hlen Hlk]. pose proof (tree_node _ Ht _ _ Hn) as Hrep.
  cbn [mloop]. apply wp_bind. apply (dir_body_wp (wk_ino w) s w n); [done..|]. intros s1 Hc.
  cbn [resolve] in Hres. rewrite Hn in Hres. destruct (is_link n) eqn:Hlink.
  - destruct n as [| |text|]; try done. eapply wp_mono; [by apply (follow_link_ok (wk_ino w))|].
    intros c s2 Hpost. cbv beta zeta in Hpost.
    destruct (Z.leb_spec MAX_LINK_COUNT (wk_links w)); [destruct Hpost as [-> ?]; by simplify_eq|].
    destruct (Z.ltb_spec (PATH_MAX - 2) (Z.of_nat (length (text ++ (span isspace (wk_name w)).1))));
      [destruct Hpost as [-> ?]; by simplify_eq|].
    destruct Hpost as [Hr2 [buf ->]]. apply IH; [by apply walk_ok_link|done|done].
  - destruct (path_end (wk_name w)) eqn:He.
    + eapply wp_mono; [by apply (at_end_ok (wk_ino w) s1 n)|]. intros c s2 Hpost.
      destruct n; try done; [destruct Hpost as (r & -> & ?)|destruct Hpost as [-> ?]..]; simplify_eq; by apply wp_ret.
    + eapply wp_mono; [by apply (next_component_ok (wk_ino w) s1 w n)|]. intros c s2 Hpost.
      destruct n as [b|[|e l]|t|]; try done; try (destruct Hpost as [-> ?]; simplify_eq; by apply wp_ret).
      destruct (component (wk_name w)) as [c1 rest] eqn:Ec. cbn [fst snd] in Hpost.
      destruct (lookup_name (e :: l) c1) as [i|] eqn:El; [|destruct Hpost as [-> ?]; simplify_eq; by apply wp_ret].
      destruct Hpost as [Hr2 [buf ->]].
      destruct (walk_ok_dir nodes w _ i buf Ht Hw Hn He) as (Hw' & _ & Ei); [by rewrite Ec|].
      rewrite Ec in Hw'. apply IH; cbn [wk_ino wk_updir wk_name wk_links]; rewrite ?Ei; done.
Qed.
End dir.

(** ** The theorems *)

Lemma ext2fs_dir_ok disk lg sb nodes s path junk :
  0 <= lg <= 3 -> ld32 sb s_log_block_size = lg -> tree_ok disk lg sb nodes ->
  (forall a, a < sizeof_super -> fsys_buf s a = sb a) ->
  Forall (fun c => c <> 0) path -> Z.of_nat (length path) < 2 ^ 31 ->
  exists a, resolve nodes (dir_fuel path) EXT2_ROOT_INO EXT2_ROOT_INO path 0 = Some a /\
    wp (ext2fs_dir disk junk path) (answers disk lg sb a) s.
Proof.
  intros Hlg Hsb Ht Hs Hp Hlen.
  set (w := mkWalk EXT2_ROOT_INO EXT2_ROOT_INO path 0 junk).
  assert (walk_ok nodes w) as Hw by (split; cbn; try done; apply Ht).
  destruct (resolve_total disk lg Hlg sb Hsb nodes Ht (dir_fuel path) w Hw) as [a Ha].
  { unfold walk_measure, dir_fuel, PATH_MAX, MAX_LINK_COUNT, w. cbn [wk_name wk_links]. lia. }
  exists a. split; [exact Ha|]. unfold ext2fs_dir.
  apply wp_bind, wp_modify, wp_bind, wp_modify, wp_bind, wp_modify.
  by apply (walk_resolves disk lg Hlg sb Hsb nodes Ht).
Qed.

(** On a disk that holds a file system, [ext2fs_dir] of any path comes back within the
    rounds it has, and with what the path denotes: the size of the file, whose inode is
    then the current one, or -1 and the code of what went wrong (no such entry, not a
    directory or file, too many links, a name that gets too long).  The old contents of
    the buffers and of the stack do not matter. *)
Theorem ext2fs_dir_correct disk lg sb nodes s path junk :
  0 <= lg <= 3 -> ld32 sb s_log_block_size = lg -> tree_ok disk lg sb nodes ->
  (forall a, a < sizeof_super -> fsys_buf s a = sb a) ->
  Forall (fun c => c <> 0) path -> Z.of_nat (length path) < 2 ^ 31 ->
  exists a r s', resolve nodes (dir_fuel path) EXT2_ROOT_INO EXT2_ROOT_INO path 0 = Some a /\
    ext2fs_dir disk junk path s = Ok (r, s') /\ answers disk lg sb a r s'.
Proof.
  intros Hlg Hsb Ht Hs Hp Hlen.
  destruct (ext2fs_dir_ok disk lg sb nodes s path junk) as (a & Ha & (r & s' & E & H)%wp_Ok); [done..|]. eauto 6.
Qed.

(** The current inode is the one of a file: reading it from the start. *)
Lemma read_file disk lg sb ino bytes s :
  0 <= lg <= 3 -> ld32 sb s_log_block_size = lg -> represents disk lg sb ino (File bytes) ->
  current disk lg sb ino s ->
  exists s', ext2fs_read disk (Z.of_nat (length bytes)) s = Ok ((Z.of_nat (length bytes), bytes), s').
Proof.
  intros Hlg Hsb (_ & _ & Hsz & Hlt & Hrd & Hb) Hc. pose proof Hc as [[_ He Hf] _ _].
  pose proof (regions lg Hlg) as [Hbs _].
  assert (forall q, 0 <= q -> 0 <= q / bsize lg) as Hq by (intros; apply Z.div_pos; lia).
  assert (readable disk lg (fsys_buf s) 0 (Z.of_nat (length bytes))) as Hr'.
  { intros q Hq'. rewrite <- Hsz in Hq'. destruct (Hrd q Hq') as [H1 H2].
    rewrite (current_bmap disk lg sb ino) by (done || (apply Hq; lia)). split; [|done]. by eapply current_path. }
  pose proof (ext2fs_read_ok disk lg Hlg s (Z.of_nat (length bytes)) (current_sized disk lg sb Hsb _ _ Hc)
    (cu_cache _ _ _ _ _ Hc) He) as Hread. rewrite Hf in Hread.
  apply wp_Ok in Hread as (r & s' & E & -> & _); [|lia|lia|lia|done|by left].
  exists s'. rewrite E. do 3 f_equal.
  apply list_eq_same_length with (length bytes); [done|by rewrite length_fmap, length_seqZ, Nat2Z.id|].
  intros k x y Hk. rewrite list_lookup_fmap_Some. intros (q & -> & [-> _]%lookup_seqZ) Hy.
  unfold file_byte. rewrite (current_bmap disk lg sb ino) by (done || (apply Hq; lia)).
  specialize (Hb k Hk). unfold data_of, file_byte in Hb. rewrite Hb. by apply nth_lookup_Some.
Qed.

(** C8: A path that denotes a file: opening it gives its length, and reading that many bytes
    gives its contents. *)
Theorem ext2fs_open_read disk lg sb nodes s path junk ino bytes :
  0 <= lg <= 3 -> ld32 sb s_log_block_size = lg -> tree_ok disk lg sb nodes ->
  (forall a, a < sizeof_super -> fsys_buf s a = sb a) ->
  Forall (fun c => c <> 0) path -> Z.of_nat (length path) < 2 ^ 31 ->
  resolve nodes (dir_fuel path) EXT2_ROOT_INO EXT2_ROOT_INO path 0 = Some (Found ino) ->
  nodes !! ino = Some (File bytes) ->
  exists s1 s2, ext2fs_dir disk junk path s = Ok (Z.of_nat (length bytes), s1) /\
    ext2fs_read disk (Z.of_nat (length bytes)) s1 = Ok ((Z.of_nat (length bytes), bytes), s2).
Proof.
  intros Hlg Hsb Ht Hs Hp Hlen Hres Hf.
  destruct (ext2fs_dir_ok disk lg sb nodes s path junk) as (a & Ha & (r & s1 & E & _ & H)%wp_Ok); [done..|].
  assert (a = Found ino) as -> by congruence. destruct H as (Hc & -> & _).
  pose proof (tree_node _ _ _ _ Ht _ _ Hf) as Hrep.
  destruct (read_file disk lg sb ino bytes s1) as [s2 E2]; [done..|].
  destruct Hrep as (_ & _ & Hsz & _). rewrite Hsz in E. eauto.
Qed.

(** ** An example disk

    Blocks of 1 KiB, eight inodes in a group, their table at block 5.  The root at
    inode 2 has a file [hi] at inode 3, an unused entry and a link [ln] to [/hi] at
    inode 4. *)

Definition dir_sb : mem := words [(20, 1); (40, 8)].
Definition inode_word (ino f v : Z) : Z * Z := (512 * 63 + 1024 * 5 + 128 * (ino - 1) + f, v).
Definition block_word (b f v : Z) : Z * Z := (512 * 63 + 1024 * b + f, v).
Definition dir_disk : mem := words (
  block_word 2 8 5 ::
  inode_word 2 0 0x41ed :: inode_word 2 4 1024 :: inode_word 2 40 8 ::
  block_word 8 0 3 :: block_word 8 4 (12 + 65536 * 2) :: block_word 8 8 0x6968 ::
  block_word 8 12 0 :: block_word 8 16 12 ::
  block_word 8 24 4 :: block_word 8 28 (1000 + 65536 * 2) :: block_word 8 32 0x6e6c ::
  inode_word 3 0 0x81a4 :: inode_word 3 4 5 :: inode_word 3 40 9 ::
  block_word 9 0 0x6c6c6568 :: block_word 9 4 0x6f ::
  inode_word 4 0 0xa1ff :: inode_word 4 4 3 :: inode_word 4 40 0x0069682f :: []).

Definition hello : list Z := [0x68; 0x65; 0x6c; 0x6c; 0x6f].
Definition dir_nodes : gmap Z node :=
  <[2 := Dir [(3, [0x68; 0x69]); (0, []); (4, [0x6c; 0x6e])]]> (
  <[3 := File hello]> (<[4 := Link [0x2f; 0x68; 0x69]]> ∅)).

Ltac solve_bytes := intros k Hk; cbn in Hk; do 6 (destruct k as [|k]; [lia || (vm_compute; reflexivity)|]); lia.
Ltac solve_dec := apply (bool_decide_unpack _); vm_compute; exact I.

Lemma dir_inode_ok ino : ino = 2 \/ ino = 3 \/ ino = 4 -> inode_ok dir_disk 0 dir_sb ino.
Proof.
  intros [-> | [-> | -> ] ]; (split; [lia|vm_compute; reflexivity|vm_compute; reflexivity|solve_dec|solve_dec]).
Qed.

Lemma dir_entry_ok pos e : In (pos, e) [(0, (3, [0x68; 0x69])); (12, (0, [])); (24, (4, [0x6c; 0x6e]))] ->
  entry_at 0 (data_of dir_disk 0 dir_sb 2) pos e.
Proof.
  intros [[= <- <-]|[[= <- <-]|[[= <- <-]|[]]]];
    (split; [vm_compute; reflexivity|vm_compute; reflexivity|solve_bytes| |vm_compute; congruence]);
    intros _; solve_dec.
Qed.

Lemma dir_entries_ok :
  entries_at 0 (data_of dir_disk 0 dir_sb 2) (size_of dir_disk 0 dir_sb 2) 0
    [(3, [0x68; 0x69]); (0, []); (4, [0x6c; 0x6e])].
Proof.
  cbn [entries_at]. unfold de_rec_len.
  assert (ld16 (data_of dir_disk 0 dir_sb 2) (0 + 4) = 12) as -> by (vm_compute; reflexivity).
  assert (ld16 (data_of dir_disk 0 dir_sb 2) (0 + 12 + 4) = 12) as -> by (vm_compute; reflexivity).
  assert (ld16 (data_of dir_disk 0 dir_sb 2) (0 + 12 + 12 + 4) = 1000) as -> by (vm_compute; reflexivity).
  assert (size_of dir_disk 0 dir_sb 2 = 1024) as -> by (vm_compute; reflexivity).
  split_and!; try lia; apply dir_entry_ok; cbn; tauto.
Qed.

Lemma dir_tree_ok : tree_ok dir_disk 0 dir_sb dir_nodes.
Proof.
  split.
  - intros ino n. unfold dir_nodes. rewrite !lookup_insert_Some, lookup_empty.
    intros [[<- <-]|[_ [[<- <-]|[_ [[<- <-]|[_ [=]]]]]]]; (split; [apply dir_inode_ok; auto|]).
    + split_and!; [vm_compute; reflexivity|vm_compute; reflexivity| |].
      * change (size_of dir_disk 0 dir_sb 2) with 1024. intros q Hq. change (bsize 0) with 1024.
        rewrite Z.div_small by lia. split; solve_dec.
      * apply dir_entries_ok.
    + split_and!; [vm_compute; reflexivity|vm_compute; reflexivity|vm_compute; reflexivity| |solve_bytes].
      change (size_of dir_disk 0 dir_sb 3) with 5. intros q Hq. change (bsize 0) with 1024.
      rewrite Z.div_small by lia. split; [solve_dec|right; solve_dec].
    + split_and!; [vm_compute; reflexivity|vm_compute; reflexivity|cbn; lia| |vm_compute; reflexivity|solve_bytes].
      repeat constructor; lia.
  - eexists. vm_compute. reflexivity.
  - intros ino l i name. unfold dir_nodes at 1. rewrite !lookup_insert_Some, lookup_empty.
    intros [[_ [= <-]]|[_ [[_ [=]]|[_ [[_ [=]]|[_ [=]]]]]]].
    rewrite !elem_of_cons. intros [[= -> ->]|[[= -> ->]|[[= -> ->]|Hin]]] Hi; try done; [by eexists..|].
    by apply not_elem_of_nil in Hin.
Qed.

(** [/ln] is the file, through the link. *)
Lemma ext2fs_open_read_witness :
  exists s1 s2, ext2fs_dir dir_disk (fun _ => 7) [0x2f; 0x6c; 0x6e] (Ext2Map.fresh dir_sb 3) = Ok (5, s1) /\
    ext2fs_read dir_disk 5 s1 = Ok ((5, hello), s2).
Proof.
  apply (ext2fs_open_read dir_disk 0 dir_sb dir_nodes _ _ _ 3 hello).
  - lia.
  - vm_compute. reflexivity.
  - apply dir_tree_ok.
  - done.
  - repeat constructor; lia.
  - cbn. lia.
  - vm_compute. reflexivity.
  - vm_compute. reflexivity.
Defined.

(** [/lx] is not there. *)
Lemma ext2fs_dir_correct_witness :
  exists s', ext2fs_dir dir_disk (fun _ => 7) [0x2f; 0x6c; 0x78] (Ext2Map.fresh dir_sb 3) = Ok (-1, s') /\
    errnum s' = ERR_FILE_NOT_FOUND.
Proof.
  destruct (ext2fs_dir_correct dir_disk 0 dir_sb dir_nodes (Ext2Map.fresh dir_sb 3) [0x2f; 0x6c; 0x78] (fun _ => 7))
    as (a & r & s' & Ha & E & He & Hr).
  - lia.
  - vm_compute. reflexivity.
  - apply dir_tree_ok.
  - done.
  - repeat constructor; lia.
  - cbn. lia.
  - vm_compute in Ha. injection Ha as <-. cbn in He, Hr. subst r. exists s'. by split.
Defined.
