(* ===== verification/Printf.v ===== *)
(** * Formatted output: util/printf.c

    [closure_vprintf] as a function from the format string and the arguments to the
    characters that it passes to [putc].  A string is the list of its characters
    without the final NUL.  The variable arguments are a list of values; taking one
    of another kind than was passed, or one that was not passed, is [BadVararg].

    The printed fields are characterised by [field_text]: how many digits, zeros and
    padding characters each conversion produces. *)

From Stdlib Require Import ZArith Lia Ascii.
From S2P Require Import Prelude.
From stdpp Require Import base numbers strings list.
Local Open Scope Z_scope.

Definition chr (c : ascii) : Z := Z.of_N (N_of_ascii c).
Definition str (s : string) : list Z := chr <$> String.list_ascii_of_string s.

(** ** The arguments *)

(** A 32-bit word, a 64-bit word or a pointer to a string, which may be null. *)
Inductive arg : Type :=
| A32 (x : Z)
| A64 (x : Z)
| AStr (s : option (list Z)).

Definition arg32 (args : list arg) : outcome (Z * list arg) :=
  match args with A32 x :: args' => Ok (u32 x, args') | _ => Err BadVararg end.
Definition arg64 (args : list arg) : outcome (Z * list arg) :=
  match args with A64 x :: args' => Ok (u64 x, args') | _ => Err BadVararg end.
Definition argstr (args : list arg) : outcome (option (list Z) * list arg) :=
  match args with AStr s :: args' => Ok (s, args') | _ => Err BadVararg end.

(** ** Numbers *)

Definition base10_u32_divisors : list Z :=
  [1000000000; 100000000; 10000000; 1000000; 100000; 10000; 1000; 100; 10; 1].

(** What a directive has collected. *)
Record spec := mkSpec {
  sp_precision : Z;
  sp_width : Z;
  sp_mode : bool;
  sp_padding : Z;
  sp_ells : Z
}.

Definition spec0 : spec := mkSpec 0 0 false (chr " ") 0.

(** The macro [HANDLE_OPTIONS (q, max_w, end_i)] in round [i]: the new values of
    [print_padding] and [print_digits], and whether a padding character is put. *)
Definition HANDLE_OPTIONS (sp : spec) (q max_w end_i i : Z) (print_padding print_digits : bool)
  : bool * bool * bool :=
  let print_digits := if negb (q =? 0) || (i =? end_i) then true else print_digits in
  let print_padding :=
    if (q =? 0) && negb print_digits && (max_w - sp_width sp <=? i) then true else print_padding in
  let print_digits :=
    if (q =? 0) && negb print_digits && (max_w - sp_precision sp <=? i) then true else print_digits in
  (print_padding, print_digits, (q =? 0) && print_padding && negb print_digits).

(** The loop over the digits [qs] of a number, from round [i]. *)
Fixpoint put_digits (sp : spec) (max_w : Z) (upper : bool) (i : Z) (qs : list Z)
    (print_padding print_digits : bool) : list Z :=
  match qs with
  | [] => []
  | q :: qs' =>
      let '(print_padding, print_digits, pad) :=
        HANDLE_OPTIONS sp q max_w (max_w - 1) i print_padding print_digits in
      (if pad : bool then [sp_padding sp] else []) ++
      (if print_digits : bool
       then [if 9 <? q then (if upper then chr "A" else chr "a") + q - 10 else chr "0" + q]
       else []) ++
      put_digits sp max_w upper (i + 1) qs' print_padding print_digits
  end.

(** Digit [i] of [w] hexadecimal digits. *)
Definition hex_digit (w x i : Z) : Z := Z.land (Z.shiftr x (Z.shiftl (w - 1 - i) 2)) 0xF.

(** [q = x / divisors[i]; x %= divisors[i];] *)
Fixpoint dec_digits (divisors : list Z) (x : Z) : list Z :=
  match divisors with
  | [] => []
  | d :: divisors' => x / d :: dec_digits divisors' (x mod d)
  end.

Definition put_hex (sp : spec) (upper : bool) (w x : Z) : list Z :=
  put_digits sp w upper 0 (hex_digit w x <$> seqZ 0 w) false false.
Definition put_dec (sp : spec) (x : Z) : list Z :=
  put_digits sp 10 true 0 (dec_digits base10_u32_divisors x) false false.

(** [%p]: eight digits, always. *)
Definition put_pointer (x : Z) : list Z :=
  (fun i => let li := hex_digit 8 x i in if 9 <? li then chr "A" + li - 10 else chr "0" + li) <$> seqZ 0 8.

(** [%s]: at most [precision] characters when the precision is positive. *)
Definition put_string (sp : spec) (s : option (list Z)) : list Z :=
  match s with
  | Some s => if 0 <? sp_precision sp then take (Z.to_nat (sp_precision sp)) s else s
  | None => str "(null)"
  end.

(** ** Directives *)

(** A digit in a directive. *)
Definition take_digit (sp : spec) (c : Z) : spec :=
  if sp_mode sp then
    mkSpec (s32 (s32 (sp_precision sp * 10) + (c - chr "0"))) (sp_width sp) (sp_mode sp) (sp_padding sp) (sp_ells sp)
  else if (sp_width sp =? 0) && (c =? chr "0") then
    mkSpec (sp_precision sp) (sp_width sp) (sp_mode sp) (chr "0") (sp_ells sp)
  else
    mkSpec (sp_precision sp) (s32 (s32 (sp_width sp * 10) + (c - chr "0"))) (sp_mode sp) (sp_padding sp) (sp_ells sp).

Definition put_x (sp : spec) (upper : bool) (args : list arg) : outcome (list Z * list arg) :=
  if sp_ells sp =? 2 then let? '(x, args) := arg64 args in Ok (put_hex sp upper 16 x, args)
  else let? '(x, args) := arg32 args in Ok (put_hex sp upper 8 x, args).

(** The conversions; [None] for a character that is not one. *)
Definition conversion (sp : spec) (c : Z) (args : list arg) : option (outcome (list Z * list arg)) :=
  if c =? chr "p" then Some (let? '(x, args) := arg32 args in Ok (put_pointer x, args))
  else if c =? chr "x" then Some (put_x sp false args)
  else if c =? chr "X" then Some (put_x sp true args)
  else if c =? chr "u" then Some (let? '(x, args) := arg32 args in Ok (put_dec sp x, args))
  else if c =? chr "d" then
    Some (let? '(x, args) := arg32 args in
          let x := s32 x in
          if x <? 0 then Ok (chr "-" :: put_dec sp (u32 (s32 (- x))), args)
          else Ok (put_dec sp (u32 x), args))
  else if c =? chr "s" then Some (let? '(s, args) := argstr args in Ok (put_string sp s, args))
  else if c =? chr "c" then Some (let? '(x, args) := arg32 args in Ok ([u8 x], args))
  else if c =? chr "%" then Some (Ok ([chr "%"], args))
  else None.

(** The characters after a [%]: the output, what follows the conversion and the
    remaining arguments.  When the string ends before a conversion the code goes on
    behind its end. *)
Fixpoint directive (sp : spec) (fmt : list Z) (args : list arg)
  : outcome (list Z * list Z * list arg) :=
  match fmt with
  | [] => Err OutOfBounds
  | c :: fmt' =>
      match conversion sp c args with
      | Some r => let? '(out, args) := r in Ok (out, fmt', args)
      | None =>
          if c =? chr "l" then
            directive (mkSpec (sp_precision sp) (sp_width sp) (sp_mode sp) (sp_padding sp) (s32 (sp_ells sp + 1))) fmt' args
          else if c =? chr "." then
            directive (mkSpec (sp_precision sp) (sp_width sp) true (sp_padding sp) (sp_ells sp)) fmt' args
          else if (chr "0" <=? c) && (c <=? chr "9") then directive (take_digit sp c) fmt' args
          else directive sp fmt' args
      end
  end.

Definition vprintf_body (st : list Z * list arg * list Z)
  : outcome (control (list Z * list arg * list Z) (list Z)) :=
  let '(fmt, args, out) := st in
  match fmt with
  | [] => Ok (Break out)
  | c :: fmt' =>
      if c =? chr "%" then
        let? '(o, fmt'', args) := directive spec0 fmt' args in
        Ok (Continue (fmt'', args, out ++ o))
      else Ok (Continue (fmt', args, out ++ [c]))
  end.

(** What is passed to [putc], in order. *)
Definition closure_vprintf (fmt : list Z) (args : list arg) : outcome (list Z) :=
  loop (S (length fmt)) vprintf_body (fmt, args, []).

Example printf_examples :
  closure_vprintf (str "V%02d=%5u %.8llX%%%s") [A32 3; A32 42; A64 0xCAFE; AStr (Some (str "ok"))] =
    Ok (str "V03=   42 0000CAFE%ok") /\
  closure_vprintf (str "%d") [A32 (-2147483648)] = Ok (str "-2147483648").
Proof. split; vm_compute; reflexivity. Qed.

(** ** The reference *)

(** The [n] digits of [x] in base [b], most significant first, and the number that a
    list of digits stands for. *)
Definition digits (b n x : Z) : list Z := (fun i => x / b ^ (n - 1 - i) mod b) <$> seqZ 0 n.
Definition value_from (b acc : Z) (qs : list Z) : Z := foldl (fun acc q => acc * b + q) acc qs.
Definition value (b : Z) (qs : list Z) : Z := value_from b 0 qs.

Fixpoint strip (qs : list Z) : list Z :=
  match qs with
  | q :: qs' => if q =? 0 then strip qs' else qs
  | [] => []
  end.

Definition digit_char (upper : bool) (q : Z) : Z :=
  if 9 <? q then (if upper then chr "A" else chr "a") + q - 10 else chr "0" + q.

(** How many digits are printed: the significant ones, at least one, and as many as
    the precision asks for; never more than there are. *)
Definition field_digits (sp : spec) (qs : list Z) : Z :=
  Z.max (Z.of_nat (length (strip qs))) (Z.max 1 (Z.min (sp_precision sp) (Z.of_nat (length qs)))).

(** The field: padding up to the width (or the number of digits there are), then the
    digits. *)
Definition field_text (sp : spec) (upper : bool) (qs : list Z) : list Z :=
  let n := field_digits sp qs in
  let N := Z.of_nat (length qs) in
  replicate (Z.to_nat (Z.min (sp_width sp) N - n)) (sp_padding sp) ++
  (digit_char upper <$> drop (Z.to_nat (N - n)) qs).

(** *** The loop over the digits *)

Lemma put_digits_on sp N upper : forall qs i pp,
  put_digits sp N upper i qs pp true = digit_char upper <$> qs.
Proof.
  induction qs as [|q qs IH]; intros i pp; [done|]. cbn [put_digits]. unfold HANDLE_OPTIONS.
  assert ((if negb (q =? 0) || (i =? N - 1) then true else true) = true) as -> by (by destruct (_ || _)).
  cbn [negb]. rewrite !andb_false_r. cbn. by rewrite IH.
Qed.

(** Digits are not on yet: [pp] only if the width was reached. *)
Lemma put_digits_off sp upper N : 0 <= sp_width sp -> 0 <= sp_precision sp -> forall qs i pp,
  qs <> [] -> 0 <= i -> i + Z.of_nat (length qs) = N -> (pp = true -> N - sp_width sp <= i) ->
  let n := field_digits sp qs in
  put_digits sp N upper i qs pp false =
  replicate (Z.to_nat (Z.min (sp_width sp) (Z.of_nat (length qs)) - n)) (sp_padding sp) ++
  (digit_char upper <$> drop (Z.to_nat (Z.of_nat (length qs) - n)) qs).
Proof.
  intros Hw Hp. induction qs as [|q qs IH]; intros i pp Hne Hi HN Hpp n; [done|]. clear Hne.
  cbn [put_digits]. unfold HANDLE_OPTIONS. cbn [length] in *.
  destruct (Z.eqb_spec q 0) as [->|Hq]; cbn [negb orb andb].
  2:{ rewrite put_digits_on. subst n. unfold field_digits. cbn [strip length].
      rewrite (proj2 (Z.eqb_neq q 0)) by done. cbn [length].
      rewrite !Z2Nat.nonpos by lia. done. }
  destruct (Z.eqb_spec i (N - 1)) as [Hlast|Hlast]; cbn [negb orb andb].
  { destruct qs; [|cbn in *; lia]. cbn. subst n. unfold field_digits. cbn.
    rewrite andb_false_r, !Z2Nat.nonpos by lia. done. }
  assert (qs <> []) as Hne by (intros ->; cbn in *; lia).
  assert (strip (0 :: qs) = strip qs) as Es by done.
  destruct (Z.leb_spec (N - sp_precision sp) i) as [Hpr|Hpr]; cbn [negb].
  { rewrite andb_false_r. cbn [app]. rewrite put_digits_on. subst n. unfold field_digits. cbn [length].
    rewrite !Z2Nat.nonpos by lia. done. }
  assert (field_digits sp (0 :: qs) = field_digits sp qs) as En.
  { unfold field_digits. rewrite Es. cbn [length]. lia. }
  subst n. rewrite En. rewrite andb_true_r.
  assert (length (strip qs) <= length qs)%nat as Hsl.
  { clear. induction qs as [|q qs IH]; cbn; [lia|]. destruct (_ =? _); cbn; lia. }
  assert (1 <= field_digits sp qs <= Z.of_nat (length qs)) as Hfd.
  { unfold field_digits. destruct qs; [done|]. cbn [length] in *. lia. }
  rewrite (IH (i + 1)); [|done|lia|lia|].
  2:{ destruct (Z.leb_spec (N - sp_width sp) i); [lia|]. intros H'%Hpp. lia. }
  rewrite app_nil_l. rewrite app_assoc. f_equal.
  - destruct (Z.leb_spec (N - sp_width sp) i) as [Hw'|Hw'].
    + replace (Z.to_nat (Z.min (sp_width sp) (Z.of_nat (S (length qs))) - field_digits sp qs))
        with (S (Z.to_nat (Z.min (sp_width sp) (Z.of_nat (length qs)) - field_digits sp qs))) by lia.
      done.
    + destruct pp; [specialize (Hpp eq_refl); lia|]. cbn [app]. f_equal. lia.
  - replace (Z.to_nat (Z.of_nat (S (length qs)) - field_digits sp qs))
      with (S (Z.to_nat (Z.of_nat (length qs) - field_digits sp qs))) by lia. done.
Qed.

Lemma put_digits_field sp upper qs : 0 <= sp_width sp -> 0 <= sp_precision sp -> qs <> [] ->
  put_digits sp (Z.of_nat (length qs)) upper 0 qs false false = field_text sp upper qs.
Proof. intros Hw Hp Hne. by apply put_digits_off. Qed.

(** *** Digits *)

Lemma digits_S b n x : 0 <= n -> digits b (n + 1) x = x / b ^ n mod b :: digits b n x.
Proof.
  intros Hn. unfold digits. rewrite seqZ_cons by lia. cbn [fmap list_fmap].
  f_equal; [do 3 f_equal; lia|]. replace (Z.pred (n + 1)) with n by lia.
  change (Z.succ 0) with (1 + 0). rewrite <- (fmap_add_seqZ 1 0 n), <- list_fmap_compose.
  apply list_fmap_ext. intros k i _. cbn. do 3 f_equal. lia.
Qed.

Lemma digits_length b n x : 0 <= n -> Z.of_nat (length (digits b n x)) = n.
Proof. intros Hn. unfold digits. rewrite length_fmap, length_seqZ. lia. Qed.

Lemma digits_range b n x : 0 < b -> Forall (fun q => 0 <= q < b) (digits b n x).
Proof. intros Hb. apply Forall_fmap, Forall_forall. intros i _. by apply Z.mod_pos_bound. Qed.

Lemma value_from_digits b x : 2 <= b -> forall n acc,
  value_from b acc (digits b (Z.of_nat n) x) = acc * b ^ Z.of_nat n + x mod b ^ Z.of_nat n.
Proof.
  intros Hb. induction n as [|n IH]; intros acc.
  - change (Z.of_nat 0) with 0. rewrite Z.pow_0_r, Z.mod_1_r.
    unfold value_from, digits. rewrite seqZ_nil by lia. cbn. lia.
  - rewrite Nat2Z.inj_succ. unfold Z.succ. rewrite digits_S by lia.
    unfold value_from in *. cbn [foldl]. rewrite IH. rewrite Z.pow_add_r, Z.pow_1_r by lia.
    pose proof (Z.pow_pos_nonneg b (Z.of_nat n) ltac:(lia) ltac:(lia)).
    rewrite (Z.rem_mul_r x (b ^ Z.of_nat n) b) by lia. nia.
Qed.

Lemma value_digits b n x : 2 <= b -> 0 <= n -> 0 <= x < b ^ n -> value b (digits b n x) = x.
Proof.
  intros Hb Hn Hx. unfold value. rewrite <- (Z2Nat.id n) in * by lia.
  rewrite value_from_digits by done. rewrite Z.mod_small by done. lia.
Qed.

Lemma digits_mod b n x : 0 < b -> 0 <= n -> digits b n (x mod b ^ n) = digits b n x.
Proof.
  intros Hb Hn. unfold digits. apply list_fmap_ext. intros k i Hi. apply lookup_seqZ in Hi as [-> Hk].
  set (j := n - 1 - (0 + Z.of_nat k)). pose proof (Z.pow_pos_nonneg b n Hb Hn).
  pose proof (Z.pow_pos_nonneg b j Hb ltac:(lia)). pose proof (Z.div_mod x (b ^ n) ltac:(lia)) as E.
  set (r := x mod b ^ n) in *. rewrite E.
  replace (b ^ n) with (b ^ (n - j - 1) * b * b ^ j)
    by (replace b with (b ^ 1) at 2 by lia; rewrite <- !Z.pow_add_r by lia; f_equal; lia).
  replace (b ^ (n - j - 1) * b * b ^ j * (x / (b ^ (n - j - 1) * b * b ^ j)) + r)
    with (r + (b ^ (n - j - 1) * (x / (b ^ (n - j - 1) * b * b ^ j)) * b) * b ^ j) by lia.
  by rewrite Z.div_add, Z.mod_add by lia.
Qed.

(** The digits of a decimal number by repeated remainders. *)
Lemma dec_digits_pow x : forall n, 0 <= x < 10 ^ Z.of_nat n ->
  dec_digits ((fun i => 10 ^ (Z.of_nat n - 1 - i)) <$> seqZ 0 (Z.of_nat n)) x = digits 10 (Z.of_nat n) x.
Proof.
  intros n. revert x. induction n as [|n IH]; intros x Hx; [done|].
  rewrite Nat2Z.inj_succ in *. unfold Z.succ in *. rewrite digits_S by lia.
  rewrite seqZ_cons by lia. cbn [fmap list_fmap dec_digits].
  replace (Z.of_nat n + 1 - 1 - 0) with (Z.of_nat n) by lia.
  rewrite Z.pow_add_r, Z.pow_1_r in Hx by lia. f_equal.
  - rewrite Z.mod_small; [done|]. split; [apply Z.div_pos; lia|apply Z.div_lt_upper_bound; lia].
  - replace (Z.pred (Z.of_nat n + 1)) with (Z.of_nat n) by lia. change (Z.succ 0) with (1 + 0).
    rewrite <- (fmap_add_seqZ 1 0 (Z.of_nat n)), <- list_fmap_compose.
    rewrite <- (digits_mod 10 _ x), <- IH by (lia || (apply Z.mod_pos_bound; lia)).
    f_equal. apply list_fmap_ext. intros k i _. cbn. f_equal. lia.
Qed.

Lemma dec_digits_ok x : 0 <= x < 2 ^ 32 -> dec_digits base10_u32_divisors x = digits 10 10 x.
Proof. intros Hx. change (digits 10 10 x) with (digits 10 (Z.of_nat 10) x). by rewrite <- (dec_digits_pow x 10) by lia. Qed.

Lemma hex_digits_ok w x : 0 <= w -> hex_digit w x <$> seqZ 0 w = digits 16 w x.
Proof.
  intros Hw. unfold digits. apply list_fmap_ext. intros k i [-> Hk]%lookup_seqZ. unfold hex_digit.
  rewrite Z.shiftl_mul_pow2 by lia. rewrite Z.shiftr_div_pow2 by lia.
  change 0xF with (Z.ones 4). rewrite Z.land_ones by lia. change (2 ^ 4) with 16.
  replace (16 ^ (w - 1 - (0 + Z.of_nat k))) with (2 ^ ((w - 1 - (0 + Z.of_nat k)) * 2 ^ 2)); [done|].
  change 16 with (2 ^ 4). rewrite <- Z.pow_mul_r by lia. f_equal. lia.
Qed.

(** The two kinds of number fields. *)
Lemma put_dec_text sp x : 0 <= sp_width sp -> 0 <= sp_precision sp -> 0 <= x < 2 ^ 32 ->
  put_dec sp x = field_text sp true (digits 10 10 x).
Proof.
  intros Hw Hp Hx. unfold put_dec. rewrite dec_digits_ok by done.
  by rewrite <- put_digits_field by done.
Qed.

Lemma put_hex_text sp upper w x : 0 <= sp_width sp -> 0 <= sp_precision sp -> 0 < w ->
  put_hex sp upper w x = field_text sp upper (digits 16 w x).
Proof.
  intros Hw Hp Hx. unfold put_hex. rewrite hex_digits_ok by lia.
  rewrite <- put_digits_field, digits_length; try done; try lia.
  intros E. apply (f_equal length) in E. pose proof (digits_length 16 w x ltac:(lia)). cbn in E. lia.
Qed.

(** *** Reading a field back *)

Definition char_digit (c : Z) : option Z :=
  if (48 <=? c) && (c <=? 57) then Some (c - 48)
  else if (65 <=? c) && (c <=? 70) then Some (c - 55)
  else if (97 <=? c) && (c <=? 102) then Some (c - 87)
  else None.

Fixpoint skip_spaces (s : list Z) : list Z :=
  match s with
  | c :: s' => if c =? 32 then skip_spaces s' else s
  | [] => []
  end.

Definition read_number (b : Z) (s : list Z) : option Z :=
  value b <$> mapM char_digit (skip_spaces s).

Lemma digit_char_cases upper q : 0 <= q < 16 ->
  (48 <= digit_char upper q <= 57 \/ 65 <= digit_char upper q <= 70 \/ 97 <= digit_char upper q <= 102) /\
  char_digit (digit_char upper q) = Some q.
Proof.
  intros Hq. unfold digit_char. change (chr "0") with 48. change (chr "A") with 65.
  change (chr "a") with 97. unfold char_digit.
  destruct (Z.ltb_spec 9 q), upper; (split; [lia|]); repeat zcase; cbn [andb]; try lia; f_equal; lia.
Qed.

Lemma read_digits upper qs : Forall (fun q => 0 <= q < 16) qs ->
  mapM char_digit (digit_char upper <$> qs) = Some qs.
Proof.
  induction 1 as [|q qs Hq _ IH]; [done|]. cbn [fmap list_fmap].
  apply mapM_Some_2. constructor; [by apply digit_char_cases|]. by apply mapM_Some_1.
Qed.

Lemma strip_zeros qs : exists k, qs = replicate k 0 ++ strip qs.
Proof.
  induction qs as [|q qs [k IH]]; [by exists 0%nat|]. cbn [strip].
  destruct (Z.eqb_spec q 0) as [->|]; [|by exists 0%nat]. exists (S k). cbn. by rewrite <- IH.
Qed.

Lemma value_zeros b k qs : value b (replicate k 0 ++ qs) = value b qs.
Proof. unfold value, value_from. induction k as [|k IH]; [done|]. cbn. exact IH. Qed.

Lemma value_drop b n qs : (n + length (strip qs) <= length qs)%nat -> value b (drop n qs) = value b qs.
Proof.
  intros Hn. destruct (strip_zeros qs) as [k E]. rewrite E in Hn |- *.
  rewrite length_app, length_replicate in Hn. rewrite <- E in Hn.
  rewrite drop_app_le by (rewrite length_replicate; lia). rewrite drop_replicate.
  by rewrite !value_zeros.
Qed.

Lemma strip_length qs : (length (strip qs) <= length qs)%nat.
Proof. destruct (strip_zeros qs) as [k E]. rewrite E at 2. rewrite length_app. lia. Qed.

Lemma skip_spaces_replicate k s : skip_spaces (replicate k 32 ++ s) = skip_spaces s.
Proof. by induction k. Qed.

Lemma skip_spaces_digits upper qs : Forall (fun q => 0 <= q < 16) qs ->
  skip_spaces (digit_char upper <$> qs) = digit_char upper <$> qs.
Proof.
  intros H. destruct H as [|q qs Hq _]; [done|]. cbn [fmap list_fmap skip_spaces].
  destruct (digit_char_cases upper q Hq) as [Hc _].
  by rewrite (proj2 (Z.eqb_neq (digit_char upper q) 32)) by lia.
Qed.

Lemma field_roundtrip b sp upper qs : Forall (fun q => 0 <= q < 16) qs -> qs <> [] ->
  sp_padding sp = 32 \/ sp_padding sp = 48 ->
  read_number b (field_text sp upper qs) = Some (value b qs).
Proof.
  intros Hqs Hne Hpad. unfold read_number, field_text.
  set (n := field_digits sp qs). set (k := Z.to_nat (_ - n)). set (j := Z.to_nat (_ - n)).
  assert (value b (drop j qs) = value b qs) as Ev.
  { apply value_drop. pose proof (strip_length qs). subst j n. unfold field_digits. lia. }
  assert (Forall (fun q => 0 <= q < 16) (drop j qs)) as Hd by (by apply Forall_drop).
  destruct Hpad as [-> | ->].
  - rewrite skip_spaces_replicate, skip_spaces_digits, read_digits by done. cbn. by rewrite Ev.
  - assert (replicate k 48 ++ (digit_char upper <$> drop j qs) =
            digit_char upper <$> (replicate k 0 ++ drop j qs)) as ->
      by (rewrite fmap_app; f_equal; by rewrite fmap_replicate).
    assert (Forall (fun q => 0 <= q < 16) (replicate k 0 ++ drop j qs))
      by (apply Forall_app; split; [by apply Forall_replicate|done]).
    rewrite skip_spaces_digits, read_digits by done. cbn. by rewrite value_zeros, Ev.
Qed.

(** ** Formats

    The formats that the kernel uses, as a tree, the string that writes one and what
    it means. *)

Inductive conv : Type :=
| Hex (upper : bool)
| Unsigned
| Decimal
| Pointer
| Text
| Character
| Percent.

#[global] Instance conv_eq_dec : EqDecision conv.
Proof. solve_decision. Defined.

Record dir := mkDir {
  d_zero : bool;
  d_width : list Z;
  d_prec : option (list Z);
  d_long : nat;
  d_conv : conv
}.

Inductive item : Type :=
| Lit (c : Z)
| Dir (d : dir).

Definition conv_char (k : conv) : Z :=
  match k with
  | Hex true => chr "X" | Hex false => chr "x" | Unsigned => chr "u" | Decimal => chr "d"
  | Pointer => chr "p" | Text => chr "s" | Character => chr "c" | Percent => chr "%"
  end.

Definition show_flags (d : dir) : list Z :=
  (if d_zero d then [chr "0"] else []) ++ (Z.add (chr "0") <$> d_width d) ++
  match d_prec d with Some ds => chr "." :: (Z.add (chr "0") <$> ds) | None => [] end ++
  replicate (d_long d) (chr "l").

Definition show_item (i : item) : list Z :=
  match i with
  | Lit c => [c]
  | Dir d => chr "%" :: show_flags d ++ [conv_char (d_conv d)]
  end.

Definition show (f : list item) : list Z := concat (show_item <$> f).

(** Widths and precisions are decimal numbers that fit an [int]; a width does not
    start with 0. *)
Record dir_wf (d : dir) : Prop := mkDirWf {
  dw_width : Forall (fun q => 0 <= q < 10) (d_width d);
  dw_lead : hd_error (d_width d) <> Some 0;
  dw_width_max : value 10 (d_width d) < 2 ^ 31;
  dw_prec : Forall (fun q => 0 <= q < 10) (default [] (d_prec d));
  dw_prec_max : value 10 (default [] (d_prec d)) < 2 ^ 31;
  dw_long : (d_long d <= 2)%nat
}.

Definition item_wf (i : item) : Prop :=
  match i with Lit c => c <> chr "%" | Dir d => dir_wf d end.

Definition spec_of (d : dir) : spec :=
  mkSpec (value 10 (default [] (d_prec d))) (value 10 (d_width d))
    (bool_decide (is_Some (d_prec d))) (if d_zero d then chr "0" else chr " ") (Z.of_nat (d_long d)).

(** What a directive prints. *)
Definition meaning (d : dir) (args : list arg) : outcome (list Z * list arg) :=
  let sp := spec_of d in
  match d_conv d with
  | Hex upper =>
      if (d_long d =? 2)%nat
      then let? '(x, args) := arg64 args in Ok (field_text sp upper (digits 16 16 x), args)
      else let? '(x, args) := arg32 args in Ok (field_text sp upper (digits 16 8 x), args)
  | Unsigned => let? '(x, args) := arg32 args in Ok (field_text sp true (digits 10 10 x), args)
  | Decimal =>
      let? '(x, args) := arg32 args in
      Ok ((if s32 x <? 0 then [chr "-"] else []) ++ field_text sp true (digits 10 10 (Z.abs (s32 x))), args)
  | Pointer => let? '(x, args) := arg32 args in Ok (digit_char true <$> digits 16 8 x, args)
  | Text => let? '(s, args) := argstr args in Ok (put_string sp s, args)
  | Character => let? '(x, args) := arg32 args in Ok ([u8 x], args)
  | Percent => Ok ([chr "%"], args)
  end.

Fixpoint render (f : list item) (args : list arg) : outcome (list Z) :=
  match f with
  | [] => Ok []
  | Lit c :: f' => let? out := render f' args in Ok (c :: out)
  | Dir d :: f' =>
      let? '(o, args) := meaning d args in
      let? out := render f' args in Ok (o ++ out)
  end.

(** *** Directives *)

Lemma conversion_flag sp c args :
  48 <= c <= 57 \/ c = chr "l" \/ c = chr "." -> conversion sp c args = None.
Proof.
  intros Hc. unfold conversion. change (chr "p") with 112. change (chr "x") with 120.
  change (chr "X") with 88. change (chr "u") with 117. change (chr "d") with 100.
  change (chr "s") with 115. change (chr "c") with 99. change (chr "%") with 37.
  assert (48 <= c <= 57 \/ c = 108 \/ c = 46) as H by exact Hc.
  by rewrite !(proj2 (Z.eqb_neq c _)) by lia.
Qed.

Lemma directive_digit sp q rest args : 0 <= q < 10 ->
  directive sp (chr "0" + q :: rest) args = directive (take_digit sp (chr "0" + q)) rest args.
Proof.
  intros Hq. cbn [directive]. change (chr "0") with 48. rewrite conversion_flag by lia.
  change (chr "l") with 108. change (chr ".") with 46. change (chr "9") with 57.
  rewrite (proj2 (Z.eqb_neq _ 108)), (proj2 (Z.eqb_neq _ 46)) by lia.
  rewrite (proj2 (Z.leb_le 48 _)), (proj2 (Z.leb_le _ 57)) by lia. done.
Qed.

Lemma value_from_mono qs : forall acc, Forall (fun q => 0 <= q < 10) qs -> 0 <= acc ->
  acc <= value_from 10 acc qs.
Proof.
  induction qs as [|q qs IH]; intros acc Hqs Hacc; [done|]. apply Forall_cons in Hqs as [Hq Hqs].
  unfold value_from in *. cbn [foldl]. specialize (IH (acc * 10 + q) Hqs ltac:(lia)). lia.
Qed.

Lemma directive_width p pad e rest args : forall qs w,
  Forall (fun q => 0 <= q < 10) qs -> 0 <= w -> (w = 0 -> hd_error qs <> Some 0) ->
  value_from 10 w qs < 2 ^ 31 ->
  directive (mkSpec p w false pad e) ((Z.add (chr "0") <$> qs) ++ rest) args =
  directive (mkSpec p (value_from 10 w qs) false pad e) rest args.
Proof.
  induction qs as [|q qs IH]; intros w Hqs Hw H0 Hv; [done|]. apply Forall_cons in Hqs as [Hq Hqs].
  cbn [fmap list_fmap app]. rewrite directive_digit by done.
  pose proof (value_from_mono qs (w * 10 + q) Hqs ltac:(lia)) as Hm.
  unfold value_from in *. cbn [foldl] in *. unfold take_digit. cbn [sp_mode sp_width sp_precision sp_padding sp_ells].
  assert ((w =? 0) && (chr "0" + q =? chr "0") = false) as ->.
  { destruct (Z.eqb_spec w 0) as [->|]; [|done]. specialize (H0 eq_refl).
    apply Z.eqb_neq. intros ?. apply H0. cbn. f_equal. lia. }
  replace (chr "0" + q - chr "0") with q by lia. rewrite (s32_small (w * 10)), s32_small by lia.
  apply IH; try done; try lia. intros ?. destruct (decide (w = 0)) as [->|]; [|lia].
  exfalso. apply (H0 eq_refl). cbn. f_equal. lia.
Qed.

Lemma directive_prec w pad e rest args : forall qs p,
  Forall (fun q => 0 <= q < 10) qs -> 0 <= p -> value_from 10 p qs < 2 ^ 31 ->
  directive (mkSpec p w true pad e) ((Z.add (chr "0") <$> qs) ++ rest) args =
  directive (mkSpec (value_from 10 p qs) w true pad e) rest args.
Proof.
  induction qs as [|q qs IH]; intros p Hqs Hp Hv; [done|]. apply Forall_cons in Hqs as [Hq Hqs].
  cbn [fmap list_fmap app]. rewrite directive_digit by done.
  pose proof (value_from_mono qs (p * 10 + q) Hqs ltac:(lia)) as Hm.
  unfold value_from in *. cbn [foldl] in *. unfold take_digit. cbn [sp_mode sp_width sp_precision sp_padding sp_ells].
  replace (chr "0" + q - chr "0") with q by lia. rewrite (s32_small (p * 10)), s32_small by lia.
  apply IH; try done; lia.
Qed.

Lemma directive_long p w m pad rest args : forall n e, 0 <= e -> e + Z.of_nat n < 2 ^ 31 ->
  directive (mkSpec p w m pad e) (replicate n (chr "l") ++ rest) args =
  directive (mkSpec p w m pad (e + Z.of_nat n)) rest args.
Proof.
  induction n as [|n IH]; intros e He Hn; [by rewrite Z.add_0_r|].
  cbn [replicate app directive]. rewrite conversion_flag by auto.
  change (chr "l" =? chr "l") with true. cbn [sp_mode sp_width sp_precision sp_padding sp_ells].
  rewrite s32_small by lia. rewrite IH by lia. do 2 f_equal. lia.
Qed.

Lemma directive_flags d rest args : dir_wf d ->
  directive spec0 (show_flags d ++ rest) args = directive (spec_of d) rest args.
Proof.
  intros [Hw Hlead Hwm Hp Hpm Hl]. unfold show_flags, spec_of, spec0.
  assert (forall pad fmt, directive (mkSpec 0 0 false pad 0) ((Z.add (chr "0") <$> d_width d) ++ fmt) args =
            directive (mkSpec 0 (value 10 (d_width d)) false pad 0) fmt args) as Hwid
    by (intros; by apply directive_width).
  assert (forall pad, directive (mkSpec 0 (value 10 (d_width d)) false pad 0)
            (match d_prec d with Some ds => chr "." :: (Z.add (chr "0") <$> ds) | None => [] end ++
             replicate (d_long d) (chr "l") ++ rest) args =
          directive (mkSpec (value 10 (default [] (d_prec d))) (value 10 (d_width d))
            (bool_decide (is_Some (d_prec d))) pad (Z.of_nat (d_long d))) rest args) as Hprec.
  { intros pad. destruct (d_prec d) as [ds|]; cbn [default] in *.
    - cbn [app directive]. rewrite conversion_flag by auto. change (chr "." =? chr "l") with false.
      change (chr "." =? chr ".") with true. cbn [sp_mode sp_width sp_precision sp_padding sp_ells].
      rewrite directive_prec by done. by rewrite directive_long by lia.
    - cbn [app]. by rewrite directive_long by lia. }
  rewrite <- !app_assoc. destruct (d_zero d).
  - cbn [app]. replace (chr "0") with (chr "0" + 0) at 1 by lia. rewrite directive_digit by lia.
    rewrite Z.add_0_r. unfold take_digit. cbn [sp_mode sp_width sp_precision sp_padding sp_ells].
    change ((0 =? 0) && (chr "0" =? chr "0")) with true. cbn iota. by rewrite Hwid, Hprec.
  - cbn [app]. by rewrite Hwid, Hprec.
Qed.

Lemma spec_of_nonneg d : dir_wf d -> 0 <= sp_width (spec_of d) /\ 0 <= sp_precision (spec_of d).
Proof.
  intros [Hw _ _ Hp _ _]. cbn.
  split; [apply (value_from_mono (d_width d) 0)|apply (value_from_mono (default [] (d_prec d)) 0)]; done.
Qed.

Lemma s32_u32 x : s32 (u32 x) = s32 x.
Proof. unfold s32, signed, u32. f_equal. by rewrite Zplus_mod_idemp_l. Qed.

(** [x *= -1] of a negative [x], the smallest one included, read as unsigned. *)
Lemma negate_abs x : s32 x < 0 -> u32 (s32 (- s32 x)) = Z.abs (s32 x).
Proof.
  intros Hx. pose proof (s32_range x) as Hr. destruct (decide (s32 x = - 2 ^ 31)) as [->|Hne]; [done|].
  rewrite s32_small by lia. rewrite u32_small by lia. lia.
Qed.

Lemma arg32_range args x args' : arg32 args = Ok (x, args') -> 0 <= x < 2 ^ 32.
Proof. destruct args as [|[]]; try done. intros [= <- _]. apply u32_range. Qed.

Lemma conversion_meaning d args : dir_wf d ->
  conversion (spec_of d) (conv_char (d_conv d)) args = Some (meaning d args).
Proof.
  intros Hd. pose proof (spec_of_nonneg d Hd) as [Hw Hp]. pose proof (dw_long d Hd) as Hl.
  unfold meaning. destruct (d_conv d) as [[]| | | | | |]; cbn [conv_char]; unfold conversion; cbn -[put_x put_dec put_string];
    try reflexivity; f_equal.
  1,2: unfold put_x; cbn [sp_ells spec_of];
    (destruct (Nat.eqb_spec (d_long d) 2) as [->|Hne];
      [change (Z.of_nat 2 =? 2) with true; destruct (arg64 args) as [[x a]|]; [|done]; cbn [obind]
      |rewrite (proj2 (Z.eqb_neq _ 2)) by lia; destruct (arg32 args) as [[x a]|]; [|done]; cbn [obind]];
     by rewrite put_hex_text by done).
  - destruct (arg32 args) as [[x a]|] eqn:E; [|done]. cbn [obind]. apply arg32_range in E.
    by rewrite put_dec_text.
  - destruct (arg32 args) as [[x a]|] eqn:E; [|done]. cbn [obind]. apply arg32_range in E.
    pose proof (s32_range x). destruct (Z.ltb_spec (s32 x) 0) as [Hn|Hn].
    + rewrite negate_abs by done. rewrite put_dec_text by (done || lia). done.
    + rewrite put_dec_text by (done || apply u32_range). rewrite u32_small by lia.
      by rewrite Z.abs_eq by lia.
  - destruct (arg32 args) as [[x a]|] eqn:E; [|done]. cbn [obind]. do 2 f_equal.
    unfold put_pointer. rewrite <- hex_digits_ok by lia. by rewrite <- list_fmap_compose.
Qed.

Lemma directive_ok d rest args : dir_wf d ->
  directive spec0 (show_flags d ++ conv_char (d_conv d) :: rest) args =
  let? '(o, args) := meaning d args in Ok (o, rest, args).
Proof.
  intros Hd. rewrite directive_flags by done. cbn [directive]. by rewrite conversion_meaning.
Qed.

Lemma vprintf_loop : forall f fuel args out, Forall item_wf f -> (length (show f) < fuel)%nat ->
  loop fuel vprintf_body (show f, args, out) = let? o := render f args in Ok (out ++ o).
Proof.
  induction f as [|[c|d] f IH]; intros fuel args out Hf Hfuel;
    (destruct fuel as [|fuel]; [lia|]); cbn [loop].
  - cbn. by rewrite app_nil_r.
  - apply Forall_cons in Hf as [Hc Hf]. cbn in Hc, Hfuel |- *.
    rewrite (proj2 (Z.eqb_neq c (chr "%"))) by done. cbn [obind]. fold (show f).
    rewrite IH by (done || (unfold show; lia)). destruct (render f args); cbn [obind]; [|done].
    by rewrite <- app_assoc.
  - apply Forall_cons in Hf as [Hd Hf]. unfold show in Hfuel |- *.
    cbn [fmap list_fmap concat show_item] in Hfuel |- *. fold (show f) in *.
    cbn [app vprintf_body]. change (chr "%" =? chr "%") with true. cbn iota.
    rewrite <- app_assoc. cbn [app]. rewrite directive_ok by done. cbn [render].
    destruct (meaning d args) as [[o args']|]; cbn [obind]; [|done].
    rewrite IH; [|done|]. 2:{ cbn in Hfuel. rewrite !length_app in Hfuel. lia. }
    destruct (render f args'); cbn [obind]; [|done]. by rewrite <- app_assoc.
Qed.

(** C19: [closure_vprintf] prints what the format means: for every format made of
    ordinary characters and of directives with zero flag, width, precision and length,
    the characters put are those of the fields, in order, and every argument is
    taken once. *)
Theorem closure_vprintf_renders f args : Forall item_wf f ->
  closure_vprintf (show f) args = render f args.
Proof.
  intros Hf. unfold closure_vprintf. rewrite vprintf_loop by (done || lia).
  by destruct (render f args).
Qed.

(** A number printed with [%u] or [%x] of any width, precision and padding reads
    back as the number. *)
Theorem printf_number_roundtrip d x : dir_wf d ->
  d_conv d = Unsigned \/ d_conv d = Hex true \/ d_conv d = Hex false -> d_long d <> 2%nat ->
  0 <= x < 2 ^ 32 ->
  exists text, closure_vprintf (show [Dir d]) [A32 x] = Ok text /\
    read_number (if bool_decide (d_conv d = Unsigned) then 10 else 16) text = Some x.
Proof.
  intros Hd Hc Hl Hx. assert (item_wf (Dir d)) as Hi by done.
  unfold closure_vprintf. rewrite vprintf_loop by (auto || lia). cbn [render]. unfold meaning.
  assert (sp_padding (spec_of d) = 32 \/ sp_padding (spec_of d) = 48) as Hpad
    by (cbn; destruct (d_zero d); auto).
  assert (forall b n upper, 2 <= b <= 16 -> 0 < n -> x < b ^ n ->
    read_number b (field_text (spec_of d) upper (digits b n x)) = Some x) as Hrt.
  { intros b n upper Hb Hn Hlt. rewrite field_roundtrip; [by rewrite value_digits by lia| | |done].
    - eapply Forall_impl; [apply digits_range; lia|]. cbn. lia.
    - intros E. apply (f_equal length) in E. pose proof (digits_length b n x ltac:(lia)). cbn in E. lia. }
  cbn [arg32]. rewrite u32_small by lia.
  destruct Hc as [-> | [-> | ->]]; [|rewrite (proj2 (Nat.eqb_neq _ 2)) by done..]; cbn [obind app];
    rewrite app_nil_r; eexists; (split; [done|]); cbn; apply Hrt; lia.
Qed.

(** Behind a format the loop goes on with the rest of the string. *)
Lemma vprintf_loop_err rest e :
  (forall fuel args out, (length rest < fuel)%nat -> loop fuel vprintf_body (rest, args, out) = Err e) ->
  forall f fuel args out o, Forall item_wf f -> (length (show f ++ rest) < fuel)%nat ->
  render f args = Ok o -> loop fuel vprintf_body (show f ++ rest, args, out) = Err e.
Proof.
  intros Hrest. induction f as [|[c|d] f IH]; intros fuel args out o Hf Hfuel Hr; [by apply Hrest|..];
    (destruct fuel as [|fuel]; [lia|]); cbn [loop]; apply Forall_cons in Hf as [Hd Hf]; cbn [render] in Hr.
  - cbn in Hd, Hfuel |- *. rewrite (proj2 (Z.eqb_neq c (chr "%"))) by done. cbn [obind]. fold (show f) in *.
    destruct (render f args) as [o'|] eqn:E; [|done]. eapply IH; [done|lia|done].
  - unfold show in Hfuel |- *. cbn [fmap list_fmap concat show_item] in Hfuel |- *. fold (show f) in *.
    cbn [app vprintf_body] in Hfuel |- *. change (chr "%" =? chr "%") with true. cbn iota.
    rewrite <- !app_assoc in Hfuel |- *. cbn [app] in Hfuel |- *. rewrite directive_ok by done.
    destruct (meaning d args) as [[o1 args']|]; cbn [obind] in Hr |- *; [|done].
    destruct (render f args') as [o'|] eqn:E; [|done]. eapply IH; [done| |done].
    cbn [length] in Hfuel. rewrite length_app in Hfuel. cbn [length] in Hfuel. lia.
Qed.

(** A format that ends inside a directive is read beyond its end, whatever comes
    before. *)
Theorem closure_vprintf_open_directive f d args out :
  Forall item_wf f -> dir_wf d -> render f args = Ok out ->
  closure_vprintf (show f ++ chr "%" :: show_flags d) args = Err OutOfBounds.
Proof.
  intros Hf Hd Hr. unfold closure_vprintf. eapply vprintf_loop_err; [|done|lia|done].
  intros [|fuel] args' out' Hfuel; [lia|]. cbn [loop vprintf_body].
  change (chr "%" =? chr "%") with true. cbn iota.
  rewrite <- (app_nil_r (show_flags d)), directive_flags by done. done.
Qed.

(** [%02d=%5u %.8llX], as the statistics of the scheduler are printed. *)
Definition stats_format : list item :=
  [Dir (mkDir true [2] None 0 Decimal); Lit (chr "="); Dir (mkDir false [5] None 0 Unsigned); Lit (chr " ");
   Dir (mkDir false [] (Some [8]) 2 (Hex true))].

Lemma stats_format_wf : Forall item_wf stats_format.
Proof. repeat constructor; done. Qed.

Lemma closure_vprintf_renders_witness :
  closure_vprintf (str "%02d=%5u %.8llX") [A32 (-7); A32 42; A64 0xCAFE] = Ok (str "-07=   42 0000CAFE").
Proof.
  change (str "%02d=%5u %.8llX") with (show stats_format).
  rewrite (closure_vprintf_renders stats_format); [vm_compute; reflexivity|exact stats_format_wf].
Defined.

Lemma printf_number_roundtrip_witness :
  exists text, closure_vprintf (str "%012.4x") [A32 0xBEEF] = Ok text /\ read_number 16 text = Some 0xBEEF.
Proof.
  change (str "%012.4x") with (show [Dir (mkDir true [1; 2] (Some [4]) 0 (Hex false))]).
  apply (printf_number_roundtrip (mkDir true [1; 2] (Some [4]) 0 (Hex false)) 0xBEEF).
  - repeat constructor; done.
  - auto.
  - discriminate.
  - lia.
Defined.

Lemma closure_vprintf_open_directive_witness :
  closure_vprintf (str "%02d=%5u %.8llX 100%") [A32 (-7); A32 42; A64 0xCAFE] = Err OutOfBounds.
Proof.
  change (str "%02d=%5u %.8llX 100%")
    with (show (stats_format ++ (Lit <$> str " 100")) ++ chr "%" :: show_flags (mkDir false [] None 0 Percent)).
  eapply closure_vprintf_open_directive.
  - apply Forall_app. split; [exact stats_format_wf|]. repeat constructor; discriminate.
  - repeat constructor; done.
  - vm_compute. reflexivity.
Defined.
