(* ===== verification/Pow2.v ===== *)
(** * The power-of-two allocator: mem/pow2.c

    Blocks of 2^5 to 2^16 bytes.  The free blocks of a size are kept in a chain of
    header pages, each an array of up to [POW2_MAX_COUNT] pointers; the blocks in use
    in a table of descriptors [pointer | index].  A header is the address of its page
    and the pointers in it; a chain is the list of its headers.

    The allocator takes pages from mem/physical.c and mem/virtual.c.  [PageOps] is
    what it calls; its state is [W].  The bytes of the blocks belong to the callers:
    [memset] of a block is checked against its size and not otherwise modelled. *)

From Stdlib Require Import ZArith Lia.
From S2P Require Import Prelude.
From stdpp Require Import base gmap sets fin_sets numbers strings list.
Local Open Scope Z_scope.

(** ** The page allocators *)

Class PageOps (W : Type) := {
  alloc_frame : M W Z;
  alloc_frames : Z -> M W Z;
  free_frame : Z -> M W unit;
  free_frames : Z -> Z -> M W unit;
  map_page : Z -> M W Z;
  map_pages : list Z -> Z -> M W Z;
  map_contiguous : Z -> Z -> M W Z;
  unmap_page : Z -> M W unit;
  unmap_pages : Z -> Z -> M W unit;
  phys_addr : Z -> M W Z
}.

(** ** Constants and data *)

Definition POW2_MIN_POW : Z := 5.
Definition POW2_MAX_POW : Z := 16.
Definition POW2_MIN_SIZE : Z := Z.shiftl 1 POW2_MIN_POW.
Definition POW2_MAX_SIZE : Z := Z.shiftl 1 POW2_MAX_POW.
Definition POW2_TABLE_LEN : Z := POW2_MAX_POW - POW2_MIN_POW + 1.
Definition POW2_MAX_POW_FRAMES : Z := Z.shiftl 1 (POW2_MAX_POW - 12).
Definition POW2_MASK_POW : Z := Z.shiftl 1 POW2_MIN_POW - 1.
Definition POW2_MAX_COUNT : Z := Z.shiftr (0x1000 - 8) 2.

Record POW2_HEADER := mkHeader { hdr_page : Z; hdr_ptrs : list Z }.
Definition hdr_count (h : POW2_HEADER) : Z := Z.of_nat (length (hdr_ptrs h)).

(** The statics; [pow2_used_count] is the length of the used part of the table. *)
Record pow2 (W : Type) := mkPow2 {
  pow2_table : list (list POW2_HEADER);
  pow2_used_table : Z;
  pow2_used : list Z;
  pow2_used_table_pages : Z;
  p2_world : W
}.
Arguments mkPow2 {W}.
Arguments pow2_table {W}.
Arguments pow2_used_table {W}.
Arguments pow2_used {W}.
Arguments pow2_used_table_pages {W}.
Arguments p2_world {W}.

Section ops.
Context {W : Type} `{PageOps W}.

Definition set_table (t : list (list POW2_HEADER)) (s : pow2 W) : pow2 W :=
  mkPow2 t (pow2_used_table s) (pow2_used s) (pow2_used_table_pages s) (p2_world s).
Definition set_used (u : list Z) (s : pow2 W) : pow2 W :=
  mkPow2 (pow2_table s) (pow2_used_table s) u (pow2_used_table_pages s) (p2_world s).
Definition set_used_table (va pages : Z) (s : pow2 W) : pow2 W :=
  mkPow2 (pow2_table s) va (pow2_used s) pages (p2_world s).
Definition set_world (w : W) (s : pow2 W) : pow2 W :=
  mkPow2 (pow2_table s) (pow2_used_table s) (pow2_used s) (pow2_used_table_pages s) w.

Definition with_world {A} (m : M W A) : M (pow2 W) A := fun s =>
  match m (p2_world s) with Ok (a, w) => Ok (a, set_world w s) | Err e => Err e end.

Definition get_chain (index : Z) : M (pow2 W) (list POW2_HEADER) :=
  let! t := gets pow2_table in
  lift (of_option OutOfBounds (t !! Z.to_nat (index - POW2_MIN_POW))).
Definition put_chain (index : Z) (c : list POW2_HEADER) : M (pow2 W) unit :=
  modify (fun s => set_table (<[Z.to_nat (index - POW2_MIN_POW) := c]> (pow2_table s)) s).

(** [map_virtual_page (alloc_phys_frame () | 3)], then [memset (.., 0, 0x1000)]. *)
Definition new_page : M W Z :=
  let! f := alloc_frame in
  let! va := map_page (Z.lor f 3) in
  if va =? 0 then fail NullDeref else ret va.

(** ** Free blocks *)

(** The walk of [pow2_add_free_block] along a chain. *)
Fixpoint add_walk (ptr : Z) (c : list POW2_HEADER) : M W (list POW2_HEADER) :=
  match c with
  | [] => fail NullDeref
  | h :: c' =>
      if hdr_count h <? POW2_MAX_COUNT then
        ret (mkHeader (hdr_page h) (hdr_ptrs h ++ [ptr]) :: c')
      else
        match c' with
        | [] => let! va := new_page in ret [h; mkHeader va [ptr]]
        | _ => let! c'' := add_walk ptr c' in ret (h :: c'')
        end
  end.

Definition pow2_add_free_block (ptr index : Z) : M (pow2 W) unit :=
  let! c := get_chain index in
  let! c := with_world (add_walk ptr c) in
  put_chain index c.

(** The header page is given back. *)
Definition release_header (va : Z) : M W unit :=
  let! frame := phys_addr va in
  unmap_page va ;;!
  free_frame frame.

(** The walk of [pow2_get_free_block]: [prev] when a next pointer was followed.
    [None] when a header without blocks is met. *)
Fixpoint get_walk (prev : bool) (c : list POW2_HEADER) : M W (option (Z * list POW2_HEADER)) :=
  match c with
  | [] => fail NullDeref
  | h :: c' =>
      if hdr_count h =? 0 then ret None
      else if (hdr_count h <? POW2_MAX_COUNT) || bool_decide (c' = []) then
        let! ptr := lift (of_option OutOfBounds (last (hdr_ptrs h))) in
        let ptrs := removelast (hdr_ptrs h) in
        if prev && bool_decide (ptrs = []) then
          release_header (hdr_page h) ;;! ret (Some (ptr, []))
        else ret (Some (ptr, mkHeader (hdr_page h) ptrs :: c'))
      else
        let! r := get_walk true c' in
        match r with
        | None => ret None
        | Some (ptr, c'') => ret (Some (ptr, h :: c''))
        end
  end.

Definition frame_body (st : Z * list Z) : M W (control (Z * list Z) (list Z)) :=
  let '(i, fs) := st in
  if i <? POW2_MAX_POW_FRAMES then
    let! f := alloc_frame in ret (Continue (i + 1, fs ++ [Z.lor f 3]))
  else ret (Break fs).

(** "grab new pages" *)
Definition new_block : M W Z :=
  let! fs := mloop (S (Z.to_nat POW2_MAX_POW_FRAMES)) frame_body (0, []) in
  map_pages fs POW2_MAX_POW_FRAMES.

(** [fuel] bounds the recursion, which climbs from [index] to [POW2_MAX_POW]. *)
Fixpoint get_block (fuel : nat) (index : Z) : M (pow2 W) Z :=
  let! c := get_chain index in
  let! r := with_world (get_walk false c) in
  match r with
  | Some (ptr, c') => put_chain index c' ;;! ret ptr
  | None =>
      if index <? POW2_MAX_POW then
        match fuel with
        | O => fail OutOfFuel
        | S fuel' =>
            let! ptr1 := get_block fuel' (index + 1) in
            let ptr2 := u32 (ptr1 + Z.shiftl 1 index) in
            pow2_add_free_block ptr1 index ;;!
            ret ptr2
        end
      else with_world new_block
  end.

Definition pow2_get_free_block (index : Z) : M (pow2 W) Z := get_block (Z.to_nat POW2_TABLE_LEN) index.

(** ** Blocks in use *)

(** The table moves to [count] pages; [memcpy] writes to them. *)
Definition grow_table (old old_pages count used : Z) : M W Z :=
  let! frames := alloc_frames count in
  let! virt := map_contiguous (Z.lor frames 3) count in
  if (virt =? 0) && (0 <? used) then fail NullDeref
  else
    let! old_frames := phys_addr old in
    unmap_pages old old_pages ;;!
    free_frames old_frames old_pages ;;!
    ret virt.

Definition pow2_insert_used_table (ptr index : Z) : M (pow2 W) unit :=
  let! s := get in
  let used := Z.of_nat (length (pow2_used s)) in
  when (pow2_used_table_pages s * 0x400 <=? used)
    (let count := u32 (pow2_used_table_pages s + 1) in
     let! virt := with_world (grow_table (pow2_used_table s) (pow2_used_table_pages s) count used) in
     modify (set_used_table virt count)) ;;!
  modify (fun s => set_used (pow2_used s ++ [Z.lor ptr index]) s).

(** The descriptor of [ptr] is replaced by the last one. *)
Definition remove_at {A} (i : nat) (u : list A) : list A :=
  match last u with
  | None => u
  | Some x => removelast (<[i := x]> u)
  end.

Definition pow2_remove_used_table (ptr : Z) : M (pow2 W) (option Z) :=
  let! u := gets pow2_used in
  match list_find (fun d => Z.ldiff d POW2_MASK_POW = ptr) u with
  | Some (i, d) => modify (set_used (remove_at i u)) ;;! ret (Some (Z.land d POW2_MASK_POW))
  | None => ret None
  end.

(** ** The interface of the allocator *)

Definition pow2_compute_index (size : Z) : Z :=
  if size <=? POW2_MIN_SIZE then POW2_MIN_POW
  else if POW2_MAX_SIZE <=? size then POW2_MAX_POW
  else Z.log2 (size - 1) + 1.

(** [memset] of [size] bytes of a block. *)
Definition clear_block (ptr index size : Z) : M (pow2 W) unit :=
  if (ptr =? 0) && (0 <? size) then fail NullDeref
  else if Z.shiftl 1 index <? size then fail OutOfBounds
  else ret tt.

(** The index and the pointer. *)
Definition pow2_alloc (size : Z) : M (pow2 W) (Z * Z) :=
  let index := pow2_compute_index size in
  let! ptr := pow2_get_free_block index in
  pow2_insert_used_table ptr index ;;!
  clear_block ptr index size ;;!
  ret (index, ptr).

Definition pow2_free (ptr : Z) : M (pow2 W) unit :=
  let! r := pow2_remove_used_table ptr in
  match r with
  | Some index => pow2_add_free_block ptr index
  | None => ret tt
  end.

Definition init_body (st : Z * list (list POW2_HEADER)) : M W (control (Z * list (list POW2_HEADER)) (list (list POW2_HEADER))) :=
  let '(i, t) := st in
  if i <? POW2_TABLE_LEN then
    let! va := new_page in ret (Continue (i + 1, t ++ [[mkHeader va []]]))
  else ret (Break t).

Definition pow2_init : M (pow2 W) unit :=
  let! t := with_world (mloop (S (Z.to_nat POW2_TABLE_LEN)) init_body (0, [])) in
  modify (set_table t) ;;!
  let! va := with_world new_page in
  modify (fun s => set_used [] (set_used_table va 1 s)).
End ops.
