(* ===== verification/Pow2Thm.v ===== *)
(** * The power-of-two allocator: invariant and theorems

    [PageLaws] is what the allocator relies on: the page allocators hand out pages
    that are not handed out already.  The heap consists of the blocks of 2^16 bytes
    taken from them.  [pow2_wf] says that the free blocks, the blocks in use and the
    blocks under way cover the heap exactly, without overlap. *)

From Stdlib Require Import ZArith Lia.
From S2P Require Import Prelude Pow2.
From stdpp Require Import base gmap sets fin_sets numbers strings list.
Local Open Scope Z_scope.

(** ** What the page allocators promise *)

(** [own] are the extents of pages handed out, with their lengths, that can be given
    back; [blk] the blocks of sixteen pages. *)
Definition occupied (own : gmap Z Z) (blk : gset Z) (page : Z) : Prop :=
  (exists va n, own !! va = Some n /\ va / 4096 <= page < va / 4096 + n) \/
  (exists va, va ∈ blk /\ va / 4096 <= page < va / 4096 + 16).

Definition good_va (va n : Z) : Prop := va mod 4096 = 0 /\ 0 < va /\ va + 4096 * n <= 2 ^ 32.

Definition fresh_pages (own : gmap Z Z) (blk : gset Z) (va n : Z) : Prop :=
  good_va va n /\ forall page, va / 4096 <= page < va / 4096 + n -> ~ occupied own blk page.

(** [holding w own blk n]: in the state [w] these pages are handed out, and there is
    room for [n] more. *)
Class PageLaws (W : Type) `{PageOps W} := {
  holding : W -> gmap Z Z -> gset Z -> Z -> Prop;
  holding_le w own blk n m : holding w own blk n -> 0 <= m <= n -> holding w own blk m;
  page_law w own blk n : holding w own blk (1 + n) -> 0 <= n ->
    wp new_page (fun va w' => fresh_pages own blk va 1 /\ holding w' (<[va := 1]> own) blk n) w;
  block_law w own blk n : holding w own blk (16 + n) -> 0 <= n ->
    wp new_block (fun va w' => fresh_pages own blk va 16 /\ holding w' own ({[va]} ∪ blk) n) w;
  release_law w own blk n va : holding w own blk n -> 0 <= n -> own !! va = Some 1 ->
    wp (release_header va) (fun _ w' => holding w' (delete va own) blk n) w;
  grow_law w own blk n va p c used : holding w own blk (c + n) -> 0 <= n -> own !! va = Some p ->
    0 < c -> wp (grow_table va p c used)
      (fun va' w' => fresh_pages own blk va' c /\ holding w' (<[va' := c]> (delete va own)) blk n) w
}.

(** ** Blocks *)

(** A block is a pointer and an index; it covers units of 32 bytes. *)
Definition block_units (b : Z * Z) : list Z := seqZ (b.1 / 32) (2 ^ (b.2 - 5)).
Definition units (bs : list (Z * Z)) : list Z := concat (block_units <$> bs).

Definition block_ok (b : Z * Z) : Prop :=
  b.1 mod 32 = 0 /\ 5 <= b.2 <= 16 /\ 0 < b.1 /\ b.1 + 2 ^ b.2 <= 2 ^ 32.

Definition disjoint_blocks (a b : Z * Z) : Prop :=
  a.1 + 2 ^ a.2 <= b.1 \/ b.1 + 2 ^ b.2 <= a.1.

Definition big (va : Z) : Z * Z := (va, 16).

Lemma units_cons b bs : units (b :: bs) = block_units b ++ units bs.
Proof. done. Qed.

Lemma units_app a b : units (a ++ b) = units a ++ units b.
Proof. unfold units. by rewrite fmap_app, concat_app. Qed.

#[global] Instance units_perm : Proper ((≡ₚ) ==> (≡ₚ)) units.
Proof. intros a b Hab. unfold units. by rewrite Hab. Qed.

Lemma pow_split i : 5 <= i -> 2 ^ (i + 1 - 5) = 2 ^ (i - 5) + 2 ^ (i - 5) /\ 2 ^ i = 32 * 2 ^ (i - 5).
Proof.
  intros Hi. split.
  - replace (i + 1 - 5) with (Z.succ (i - 5)) by lia. rewrite Z.pow_succ_r by lia. lia.
  - change 32 with (2 ^ 5). rewrite <- Z.pow_add_r by lia. f_equal. lia.
Qed.

(** A block consists of its two halves. *)
Lemma split_units p i : 5 <= i -> p mod 32 = 0 ->
  block_units (p, i + 1) = block_units (p, i) ++ block_units (p + 2 ^ i, i).
Proof.
  intros Hi Hp. unfold block_units. cbn [fst snd]. destruct (pow_split i Hi) as [E1 E2].
  pose proof (Z.pow_pos_nonneg 2 (i - 5) ltac:(lia) ltac:(lia)).
  rewrite E1, seqZ_app by lia. do 2 f_equal. rewrite E2.
  replace (p + 32 * 2 ^ (i - 5)) with (p + 2 ^ (i - 5) * 32) by lia. by rewrite Z.div_add by lia.
Qed.

Lemma split_ok p i : block_ok (p, i + 1) -> 5 <= i -> block_ok (p, i) /\ block_ok (p + 2 ^ i, i).
Proof.
  intros (Hm & Hi & Hp & Hle) H5. unfold block_ok in *. cbn [fst snd] in *.
  destruct (pow_split i H5) as [_ E2]. replace (i + 1) with (Z.succ i) in Hle by lia.
  rewrite Z.pow_succ_r in Hle by lia. pose proof (Z.pow_pos_nonneg 2 (i - 5) ltac:(lia) ltac:(lia)).
  split; (split; [|lia]); [done|]. rewrite E2.
  replace (p + 32 * 2 ^ (i - 5)) with (p + 2 ^ (i - 5) * 32) by lia. by rewrite Z.mod_add by lia.
Qed.

(** Blocks without a common unit do not overlap. *)
Lemma units_disjoint a b : block_ok a -> block_ok b ->
  (forall u, u ∈ block_units a -> u ∉ block_units b) -> disjoint_blocks a b.
Proof.
  intros (Ha & Hia & Hpa & _) (Hb & Hib & Hpb & _) Hu. unfold disjoint_blocks, block_units in *.
  destruct (pow_split a.2 ltac:(lia)) as [_ Ea]. destruct (pow_split b.2 ltac:(lia)) as [_ Eb].
  pose proof (Z.div_mod a.1 32 ltac:(lia)). pose proof (Z.div_mod b.1 32 ltac:(lia)).
  pose proof (Z.pow_pos_nonneg 2 (a.2 - 5) ltac:(lia) ltac:(lia)).
  pose proof (Z.pow_pos_nonneg 2 (b.2 - 5) ltac:(lia) ltac:(lia)).
  destruct (Z.le_gt_cases (a.1 + 2 ^ a.2) b.1); [by left|].
  destruct (Z.le_gt_cases (b.1 + 2 ^ b.2) a.1); [by right|]. exfalso.
  apply (Hu (Z.max (a.1 / 32) (b.1 / 32))); apply elem_of_seqZ; lia.
Qed.

Lemma NoDup_units_disjoint a b bs : NoDup (units (a :: bs)) -> b ∈ bs ->
  forall u, u ∈ block_units a -> u ∉ block_units b.
Proof.
  rewrite units_cons. intros (_ & Hd & _)%NoDup_app Hb u Hu Hub. apply (Hd u Hu).
  apply list_elem_of_In, in_concat. exists (block_units b).
  split; [|by apply list_elem_of_In]. apply list_elem_of_In, list_elem_of_fmap. by exists b.
Qed.

(** The heap. *)
Lemma big_units_page va u : va mod 4096 = 0 -> u ∈ block_units (big va) ->
  va / 4096 <= u / 128 < va / 4096 + 16.
Proof.
  intros Hva [H1 H2]%elem_of_seqZ. cbn [big fst snd] in *. change (2 ^ (16 - 5)) with 2048 in H2.
  assert (va / 32 = va / 4096 * 128) as E.
  { pose proof (Z.div_mod va 4096 ltac:(lia)) as Hd. rewrite Hva in Hd.
    rewrite Hd at 1. replace (4096 * (va / 4096) + 0) with (va / 4096 * 128 * 32) by lia.
    by rewrite Z.div_mul by lia. }
  split; [apply Z.div_le_lower_bound|apply Z.div_lt_upper_bound]; lia.
Qed.

(** ** Chains *)

(** All the headers but the last are full, and only the first may be empty. *)
Fixpoint chain_ok (first : bool) (c : list POW2_HEADER) : Prop :=
  match c with
  | [] => False
  | h :: c' =>
      (first = false -> hdr_ptrs h <> []) /\
      match c' with
      | [] => hdr_count h <= POW2_MAX_COUNT
      | _ => hdr_count h = POW2_MAX_COUNT /\ chain_ok false c'
      end
  end.

Definition chain_ptrs (c : list POW2_HEADER) : list Z := concat (hdr_ptrs <$> c).
Definition chain_pages (c : list POW2_HEADER) : list Z := hdr_page <$> c.

(** The pages of the allocator itself: the table of the blocks in use and the headers. *)
Definition pages_ok (own : gmap Z Z) (ut up : Z) (hs : list Z) : Prop :=
  own !! ut = Some up /\ NoDup (ut :: hs) /\ Forall (fun p => own !! p = Some 1) hs.

Lemma fresh_not_owned own blk va n va' m :
  fresh_pages own blk va n -> 1 <= n -> own !! va' = Some m -> 1 <= m -> va' <> va.
Proof.
  intros [_ Hf] Hn Ho Hm ->. apply (Hf (va / 4096)); [lia|]. left. exists va, m. split; [done|lia].
Qed.

Lemma pages_ok_add own blk ut up hs va : pages_ok own ut up hs -> 1 <= up ->
  fresh_pages own blk va 1 -> pages_ok (<[va := 1]> own) ut up (va :: hs).
Proof.
  intros (Hu & Hd & Hh) Hup Hf. rewrite Forall_forall in Hh. apply NoDup_cons in Hd as [Hd1 Hd2].
  assert (ut <> va) as Hut by (apply (fresh_not_owned own blk va 1 ut up); [done|lia|done|lia]).
  assert (forall p, p ∈ hs -> p <> va) as Hne
    by (intros p Hp; apply (fresh_not_owned own blk va 1 p 1); [done|lia|auto|lia]).
  assert (va ∉ hs) as Hva by (intros Hin; by apply (Hne va)).
  split_and!.
  - rewrite lookup_insert_ne; [done|congruence].
  - rewrite !NoDup_cons, not_elem_of_cons. auto.
  - apply Forall_cons. split; [apply lookup_insert_eq|]. apply Forall_forall. intros p Hp.
    rewrite lookup_insert_ne; [by apply Hh|]. intros <-. by apply Hva.
Qed.

Lemma pages_ok_del own ut up hs va : pages_ok own ut up (va :: hs) ->
  own !! va = Some 1 /\ pages_ok (delete va own) ut up hs.
Proof.
  intros (Hu & Hd & [Hv Hh]%Forall_cons). apply NoDup_cons in Hd as [Hd1 Hd2].
  apply NoDup_cons in Hd2 as [Hd2 Hd3]. apply not_elem_of_cons in Hd1 as [Hne Hd1].
  split; [done|]. split_and!.
  - by rewrite lookup_delete_ne by done.
  - by apply NoDup_cons.
  - rewrite Forall_forall in *. intros p Hp. rewrite lookup_delete_ne by set_solver. by apply Hh.
Qed.

Lemma pages_ok_grow own blk ut up hs va c : pages_ok own ut up hs -> 1 <= c ->
  fresh_pages own blk va c -> pages_ok (<[va := c]> (delete ut own)) va c hs.
Proof.
  intros (Hu & Hd & Hh) Hc Hf. rewrite Forall_forall in Hh. apply NoDup_cons in Hd as [Hd1 Hd2].
  assert (forall p, p ∈ hs -> p <> va) as Hne
    by (intros p Hp; apply (fresh_not_owned own blk va c p 1); [done|lia|auto|lia]).
  split_and!.
  - by rewrite lookup_insert_eq.
  - apply NoDup_cons. split; [|done]. intros Hin. by apply (Hne va).
  - apply Forall_forall. intros p Hp. rewrite lookup_insert_ne by (by apply not_eq_sym, Hne).
    rewrite lookup_delete_ne by set_solver. by apply Hh.
Qed.

#[global] Instance pages_ok_perm own ut up : Proper ((≡ₚ) ==> iff) (pages_ok own ut up).
Proof. intros a b Hab. unfold pages_ok. by rewrite Hab. Qed.

(** The allocator's own pages are not part of the heap. *)
Definition apart (own : gmap Z Z) (blk : gset Z) : Prop :=
  forall va n, own !! va = Some n -> 1 <= n /\
    forall b, b ∈ blk -> va / 4096 + n <= b / 4096 \/ b / 4096 + 16 <= va / 4096.

Lemma fresh_apart own blk va n va' m : fresh_pages own blk va n ->
  (own !! va' = Some m \/ va' ∈ blk /\ m = 16) -> 1 <= n -> 1 <= m ->
  va / 4096 + n <= va' / 4096 \/ va' / 4096 + m <= va / 4096.
Proof.
  intros [_ Hf] Ho Hn Hm.
  destruct (Z.le_gt_cases (va / 4096 + n) (va' / 4096)); [by left|].
  destruct (Z.le_gt_cases (va' / 4096 + m) (va / 4096)); [by right|].
  exfalso. apply (Hf (Z.max (va / 4096) (va' / 4096))); [lia|].
  destruct Ho as [Ho|[Ho ->]]; [left; exists va', m|right; exists va']; (split; [done|lia]).
Qed.

Lemma apart_insert own blk va n : apart own blk -> fresh_pages own blk va n -> 1 <= n ->
  apart (<[va := n]> own) blk.
Proof.
  intros Ha Hf Hn va' m [[<- <-]|[_ Ho]]%lookup_insert_Some; [|by apply Ha].
  split; [done|]. intros b Hb. apply (fresh_apart own blk); [done|by right|lia|lia].
Qed.

Lemma apart_delete own blk va : apart own blk -> apart (delete va own) blk.
Proof. intros Ha va' n [_ Ho]%lookup_delete_Some. by apply Ha. Qed.

Lemma apart_block own blk va : apart own blk -> fresh_pages own blk va 16 ->
  apart own ({[va]} ∪ blk).
Proof.
  intros Ha Hf va' m Ho. destruct (Ha va' m Ho) as [Hm Hb]. split; [done|].
  intros b [->%elem_of_singleton|Hin]%elem_of_union; [|by apply Hb].
  pose proof (fresh_apart own blk va 16 va' m Hf (or_introl Ho)). lia.
Qed.

Section chains.
Context {W : Type} `{PageLaws W}.

Lemma MAX_COUNT_val : POW2_MAX_COUNT = 1022.
Proof. reflexivity. Qed.

(** An empty chain is one empty header. *)
Lemma chain_empty c : chain_ok true c -> chain_ptrs c = [] -> exists p, c = [mkHeader p []].
Proof.
  destruct c as [|[p ps] c]; cbn; [done|]. intros [_ Hc] [-> Hcs]%app_eq_nil.
  destruct c as [|h c]; [by exists p|]. destruct Hc as [Hc _].
  unfold hdr_count in Hc. cbn in Hc. rewrite MAX_COUNT_val in Hc. lia.
Qed.

Lemma chain_later c : chain_ok false c -> chain_ptrs c <> [].
Proof. destruct c as [|h c]; [done|]. intros [Hh _]. intros [E _]%app_eq_nil. by apply Hh. Qed.

(** What adding a pointer does to the pages of a chain. *)
Definition chain_grown (own own' : gmap Z Z) (blk : gset Z) (hs hs' : list Z) : Prop :=
  (own' = own /\ hs' = hs) \/
  (exists va, fresh_pages own blk va 1 /\ own' = <[va := 1]> own /\ hs' = hs ++ [va]).

Lemma add_walk_ok ptr c : forall first w own blk m n, chain_ok first c -> 0 <= n ->
  holding w own blk m -> (m = 1 + n \/ (chain_ptrs c = [] /\ m = n)) ->
  wp (add_walk ptr c) (fun c' w' => chain_ok first c' /\ chain_ptrs c' = chain_ptrs c ++ [ptr] /\
    exists own', chain_grown own own' blk (chain_pages c) (chain_pages c') /\
      holding w' own' blk n) w.
Proof.
  induction c as [|h c IH]; intros first w own blk m n Hc Hn Hw Hm; [done|].
  destruct Hc as [Hh Hc]. cbn [add_walk]. zcase.
  - apply wp_ret. destruct c as [|h' c'].
    2: { destruct Hc as [Hc _]. lia. }
    split_and!.
    + cbn. split; [by destruct (hdr_ptrs h)|]. unfold hdr_count in *. cbn. rewrite length_app. cbn. lia.
    + unfold chain_ptrs. cbn. by rewrite !app_nil_r.
    + exists own. split; [by left|]. apply (holding_le _ _ _ m); [done|lia].
  - assert (chain_ptrs (h :: c) <> []) as Hne.
    { intros [E _]%app_eq_nil. unfold hdr_count in *. rewrite E in *. cbn in *.
      rewrite MAX_COUNT_val in *. lia. }
    destruct Hm as [->|[? _]]; [|done]. destruct c as [|h' c'].
    + apply wp_bind. eapply wp_mono; [by apply (page_law w own blk n)|].
      intros va w' [Hva Hw']. apply wp_ret. split_and!.
      * cbn. split; [done|]. split; [unfold hdr_count in *; lia|]. split; [done|].
        unfold hdr_count. cbn. rewrite MAX_COUNT_val. lia.
      * unfold chain_ptrs. cbn. by rewrite !app_nil_r.
      * exists (<[va := 1]> own). split; [|done]. right. by exists va.
    + destruct Hc as [Hc1 Hc2]. apply wp_bind.
      eapply wp_mono; [by apply (IH false w own blk (1 + n) n); auto|].
      intros c'' w' (Hok & Hp & own' & Hg & Hw'). apply wp_ret. split_and!.
      * destruct c'' as [|h'' c'']; [done|]. by cbn [chain_ok].
      * unfold chain_ptrs in *. rewrite fmap_cons. cbn [concat]. rewrite Hp. cbn. by rewrite !app_assoc.
      * exists own'. split; [|done]. destruct Hg as [[-> E]|(va & Hva & -> & E)].
        -- left. split; [done|]. unfold chain_pages in *. rewrite fmap_cons. by rewrite E.
        -- right. exists va. split_and!; [done..|]. unfold chain_pages in *.
           rewrite fmap_cons. by rewrite E.
Qed.

(** Taking the last pointer of a chain may give its last header page back. *)
Definition chain_shrunk (own own' : gmap Z Z) (hs hs' : list Z) : Prop :=
  (own' = own /\ hs' = hs) \/ (exists va, own' = delete va own /\ hs = hs' ++ [va]).

Definition rest_ok (first : bool) (c : list POW2_HEADER) : Prop :=
  (first = false /\ c = []) \/ chain_ok first c.

Lemma rest_cons h first c : hdr_count h = POW2_MAX_COUNT -> rest_ok false c ->
  chain_ok first (h :: c).
Proof.
  intros Hh Hc. cbn [chain_ok]. split.
  - intros _ E. unfold hdr_count in Hh. rewrite E in Hh. by rewrite MAX_COUNT_val in Hh.
  - destruct Hc as [[_ ->]|Hc]; [lia|]. by destruct c.
Qed.

Lemma chain_shrunk_cons own own' p hs hs' :
  chain_shrunk own own' hs hs' -> chain_shrunk own own' (p :: hs) (p :: hs').
Proof.
  intros [[-> ->]|(va & -> & ->)]; [by left|]. right. by exists va.
Qed.

Lemma get_walk_ok c : forall first w own blk n, chain_ok first c -> 0 <= n ->
  holding w own blk n -> Forall (fun p => own !! p = Some 1) (chain_pages c) ->
  wp (get_walk (negb first) c) (fun r w' =>
    match r with
    | None => chain_ptrs c = [] /\ w' = w
    | Some (ptr, c') => rest_ok first c' /\ chain_ptrs c = chain_ptrs c' ++ [ptr] /\
        exists own', chain_shrunk own own' (chain_pages c) (chain_pages c') /\ holding w' own' blk n
    end) w.
Proof.
  induction c as [|[p ps] c IH]; intros first w own blk n Hc Hn Hw Hp; [done|].
  destruct Hc as [Hh Hc]. cbn [get_walk hdr_page hdr_ptrs] in *. apply Forall_cons in Hp as [Hp Hps].
  unfold hdr_count in Hc |- * at 1. cbn [hdr_ptrs] in *. destruct (Z.eqb_spec (Z.of_nat (length ps)) 0) as [E|E].
  { apply wp_ret. destruct ps; [|done]. destruct c as [|h c]; [done|]. cbn in Hc. destruct Hc as [Hc _].
    by rewrite MAX_COUNT_val in Hc. }
  destruct ps as [|x ps _] using rev_ind; [done|]. destruct c as [|h c].
  - rewrite bool_decide_eq_true_2 by done. rewrite orb_true_r, last_snoc, removelast_last.
    apply wp_bind. apply (wp_lift _ x); [done|].
    destruct (negb first && bool_decide (ps = [])) eqn:Eps.
    + apply andb_prop in Eps as [Ef ->%bool_decide_eq_true]. apply negb_true_iff in Ef. subst first.
      apply wp_bind. eapply wp_mono; [by apply (release_law w own blk n p)|].
      intros ? w' Hw'. apply wp_ret. split_and!; [by left|done|].
      exists (delete p own). split; [|done]. right. by exists p.
    + apply wp_ret. split_and!.
      * right. cbn. split.
        -- intros ->. cbn in Eps. by apply bool_decide_eq_false in Eps.
        -- unfold hdr_count in *. cbn in *. rewrite length_app in Hc. cbn in Hc. lia.
      * unfold chain_ptrs. cbn. by rewrite !app_nil_r.
      * exists own. split; [by left|done].
  - destruct Hc as [Hc1 Hc2]. rewrite bool_decide_eq_false_2 by done. rewrite orb_false_r.
    rewrite (proj2 (Z.ltb_ge _ _)) by (unfold hdr_count; cbn [hdr_ptrs]; lia).
    apply wp_bind. eapply wp_mono; [by apply (IH false w own blk n)|].
    intros [[ptr c']|] w'.
    + intros (Hr & E' & own' & Hs & Hw'). apply wp_ret. split_and!.
      * right. by apply rest_cons.
      * unfold chain_ptrs in *. rewrite fmap_cons. cbn [concat hdr_ptrs]. rewrite E'. cbn. by rewrite !app_assoc.
      * exists own'. split; [|done]. by apply chain_shrunk_cons.
    + intros [E' _]. by destruct (chain_later (h :: c)).
Qed.
End chains.

(** ** The table *)

Definition gather {A B} (f : nat -> A -> list B) (t : list A) : list B := concat (imap f t).

(** Replacing one entry of a table replaces what is gathered from it. *)
Lemma gather_insert {A B} (f : nat -> A -> list B) t k c : t !! k = Some c ->
  exists R, gather f t ≡ₚ f k c ++ R /\ forall c', gather f (<[k := c']> t) ≡ₚ f k c' ++ R.
Proof.
  intros Hk. exists (concat (imap f (take k t)) ++ concat (imap (fun i => f (S k + i)%nat) (drop (S k) t))).
  pose proof (lookup_lt_Some _ _ _ Hk) as Hlt.
  assert (forall c', gather f (<[k := c']> t) ≡ₚ f k c' ++ concat (imap f (take k t)) ++
    concat (imap (fun i => f (S k + i)%nat) (drop (S k) t))) as HR.
  { intros c'. unfold gather. rewrite insert_take_drop, imap_app, concat_app by done.
    rewrite imap_cons. cbn [concat]. rewrite length_take_le, Nat.add_0_r by lia.
    rewrite Permutation_app_swap_app. do 2 f_equiv.
    replace (imap _ (drop (S k) t)) with (imap (fun i => f (S k + i)%nat) (drop (S k) t)); [done|].
    apply imap_ext. intros i x _. cbn. f_equal. lia. }
  split; [|done]. rewrite <- (list_insert_id t k c) at 1 by done. apply HR.
Qed.

Definition free_of (k : nat) (c : list POW2_HEADER) : list (Z * Z) :=
  (fun p => (p, POW2_MIN_POW + Z.of_nat k)) <$> chain_ptrs c.
Definition free_blocks (t : list (list POW2_HEADER)) : list (Z * Z) := gather free_of t.
Definition header_pages (t : list (list POW2_HEADER)) : list Z := gather (fun _ c => chain_pages c) t.

(** ** The invariant *)

(** The descriptor of a block in use. *)
Definition descriptor (b : Z * Z) : Z := Z.lor b.1 b.2.

(** [ub] are the blocks in use, [fl] blocks taken from the table and not handed out
    yet; there is room for [n] more pages. *)
Record pow2_wf {W} `{PageLaws W} (s : pow2 W) (own : gmap Z Z) (blk : gset Z)
    (ub fl : list (Z * Z)) (n : Z) : Prop := {
  wf_holding : holding (p2_world s) own blk n;
  wf_len : length (pow2_table s) = 12%nat;
  wf_chains : Forall (chain_ok true) (pow2_table s);
  wf_used : pow2_used s = descriptor <$> ub;
  wf_pages : pages_ok own (pow2_used_table s) (pow2_used_table_pages s) (header_pages (pow2_table s));
  wf_room : 1 <= pow2_used_table_pages s <= 2 ^ 20 /\
    Z.of_nat (length (pow2_used s)) <= pow2_used_table_pages s * 0x400;
  wf_blocks : Forall block_ok (free_blocks (pow2_table s) ++ ub ++ fl);
  wf_units : units (free_blocks (pow2_table s) ++ ub ++ fl) ≡ₚ units (big <$> elements blk);
  wf_nodup : NoDup (units (big <$> elements blk));
  wf_heap : forall va, va ∈ blk -> good_va va 16;
  wf_apart : apart own blk
}.

Section steps.
Context {W : Type} `{PageLaws W}.
Implicit Types (s : pow2 W) (own : gmap Z Z) (blk : gset Z) (ub fl : list (Z * Z)).

Lemma wp_world {A} (m : M W A) Q s :
  wp m (fun a w => Q a (set_world w s)) (p2_world s) -> wp (with_world m) Q s.
Proof. unfold wp, with_world. by destruct (m (p2_world s)) as [[a w]|e]. Qed.

Lemma wf_le s own blk ub fl n m :
  pow2_wf s own blk ub fl n -> 0 <= m <= n -> pow2_wf s own blk ub fl m.
Proof. intros [] Hm. split; try done. by apply (holding_le _ _ _ n). Qed.

Lemma wf_perm s own blk ub fl fl' n :
  pow2_wf s own blk ub fl n -> fl ≡ₚ fl' -> pow2_wf s own blk ub fl' n.
Proof. intros [] Hp. split; try done; by rewrite <- Hp. Qed.

Lemma wf_chain s own blk ub fl n index : pow2_wf s own blk ub fl n -> 5 <= index <= 16 ->
  exists c, pow2_table s !! Z.to_nat (index - POW2_MIN_POW) = Some c /\ chain_ok true c /\
    Forall (fun p => own !! p = Some 1) (chain_pages c).
Proof.
  intros Hwf Hi. destruct (lookup_lt_is_Some_2 (pow2_table s) (Z.to_nat (index - POW2_MIN_POW))) as [c Hc].
  { rewrite (wf_len _ _ _ _ _ _ Hwf). unfold POW2_MIN_POW. lia. }
  exists c. split_and!; [done|by eapply Forall_lookup_1, Hc; apply Hwf|].
  destruct (gather_insert (fun _ c => chain_pages c) _ _ _ Hc) as (R & HR & _).
  destruct (wf_pages _ _ _ _ _ _ Hwf) as (_ & _ & Hp). unfold header_pages in Hp.
  rewrite HR in Hp. by apply Forall_app in Hp as [? _].
Qed.

Lemma wp_get_chain s index c Q : pow2_table s !! Z.to_nat (index - POW2_MIN_POW) = Some c ->
  Q c s -> wp (get_chain index) Q s.
Proof.
  intros Hc HQ. unfold get_chain. apply wp_bind, wp_gets. rewrite Hc. by apply (wp_lift _ c).
Qed.

(** Replacing a chain, with its pages and its blocks. *)
Lemma wf_put s own blk ub fl n k c c' own' w' n' fl' :
  pow2_wf s own blk ub fl n -> pow2_table s !! k = Some c ->
  chain_ok true c' -> holding w' own' blk n' ->
  (forall R, pages_ok own (pow2_used_table s) (pow2_used_table_pages s) (chain_pages c ++ R) ->
    pages_ok own' (pow2_used_table s) (pow2_used_table_pages s) (chain_pages c' ++ R)) ->
  apart own' blk -> free_of k c' ++ fl' ≡ₚ free_of k c ++ fl ->
  pow2_wf (set_table (<[k := c']> (pow2_table s)) (set_world w' s)) own' blk ub fl' n'.
Proof.
  intros [Hw Hl Hc Hu Hp Hr Hb Hun Hnd Hh Ha] Hk Hc' Hw' Hp' Ha' Hfree.
  destruct (gather_insert (fun _ c => chain_pages c) _ _ _ Hk) as (R & HR & HR').
  destruct (gather_insert free_of _ _ _ Hk) as (F & HF & HF').
  assert (free_blocks (<[k := c']> (pow2_table s)) ++ ub ++ fl' ≡ₚ
          free_blocks (pow2_table s) ++ ub ++ fl) as Hperm.
  { unfold free_blocks. rewrite HF, (HF' c'). rewrite <- !app_assoc.
    rewrite (Permutation_app_comm F (ub ++ fl')), (Permutation_app_comm F (ub ++ fl)).
    rewrite (Permutation_app_comm ub fl), (Permutation_app_comm ub fl'), !app_assoc.
    by rewrite Hfree. }
  split; cbn; try done.
  - by rewrite length_insert.
  - by apply Forall_insert.
  - unfold header_pages in *. rewrite (HR' c'). apply Hp'. by rewrite <- HR.
  - by rewrite Hperm.
  - by rewrite Hperm.
Qed.

Lemma grown_pages own own' blk ut up hs hs' R : chain_grown own own' blk hs hs' -> 1 <= up ->
  pages_ok own ut up (hs ++ R) -> pages_ok own' ut up (hs' ++ R).
Proof.
  intros [[-> ->]|(va & Hva & -> & ->)] Hup Hp; [done|].
  rewrite <- app_assoc. change ([va] ++ R) with (va :: R). rewrite <- Permutation_middle.
  by apply (pages_ok_add own blk).
Qed.

Lemma shrunk_pages own own' ut up hs hs' R : chain_shrunk own own' hs hs' ->
  pages_ok own ut up (hs ++ R) -> pages_ok own' ut up (hs' ++ R).
Proof.
  intros [[-> ->]|(va & -> & ->)] Hp; [done|].
  rewrite <- app_assoc in Hp. change ([va] ++ R) with (va :: R) in Hp.
  rewrite <- Permutation_middle in Hp. by apply (pages_ok_del own ut up _ va) in Hp as [_ ?].
Qed.

Lemma free_of_snoc k c c' ptr index : 5 <= index -> k = Z.to_nat (index - POW2_MIN_POW) ->
  chain_ptrs c' = chain_ptrs c ++ [ptr] -> free_of k c' = free_of k c ++ [(ptr, index)].
Proof.
  intros Hi -> E. unfold free_of. rewrite E, fmap_app. do 2 f_equal. unfold POW2_MIN_POW. cbn.
  do 2 f_equal. lia.
Qed.

(** A block that goes back to an empty chain takes no page. *)
Lemma add_free_block_ok s own blk ub fl ptr index m n :
  pow2_wf s own blk ub ((ptr, index) :: fl) m -> 5 <= index <= 16 -> 0 <= n ->
  (m = 1 + n \/ (exists p, pow2_table s !! Z.to_nat (index - POW2_MIN_POW) = Some [mkHeader p []]) /\ m = n) ->
  wp (pow2_add_free_block ptr index) (fun _ s' =>
    (exists own', pow2_wf s' own' blk ub fl n) /\
    pow2_used_table_pages s' = pow2_used_table_pages s /\
    forall k, k <> Z.to_nat (index - POW2_MIN_POW) -> pow2_table s' !! k = pow2_table s !! k) s.
Proof.
  intros Hwf Hi Hn Hm. destruct (wf_chain _ _ _ _ _ _ index Hwf Hi) as (c & Hc & Hok & Hpg).
  unfold pow2_add_free_block. apply wp_bind. apply (wp_get_chain _ _ c); [done|].
  apply wp_bind, wp_world. eapply wp_mono.
  - apply (add_walk_ok ptr c true _ own blk m n); [done|done|apply Hwf|].
    destruct Hm as [?|[[p Hp] ?]]; [by left|]. right. split; [|done].
    rewrite Hc in Hp. by injection Hp as ->.
  - intros c' w' (Hok' & Hptrs & own' & Hg & Hw'). apply wp_modify.
    split_and!; [exists own'|done|intros k Hk; by apply list_lookup_insert_ne].
    apply (wf_put s own blk ub ((ptr, index) :: fl) m _ c); [done..| | |].
    + intros R. eapply grown_pages; [done|]. apply Hwf.
    + destruct Hg as [[-> _]|(va & Hva & -> & _)]; [apply Hwf|].
      apply apart_insert; [apply Hwf|done|lia].
    + rewrite (free_of_snoc _ c c' ptr index) by (done || lia). by rewrite <- app_assoc.
Qed.

(** A block under way is split into its halves. *)
Lemma wf_split s own blk ub fl p i n : pow2_wf s own blk ub ((p, i + 1) :: fl) n -> 5 <= i ->
  block_ok (p, i + 1) /\ pow2_wf s own blk ub ((p, i) :: (p + 2 ^ i, i) :: fl) n.
Proof.
  intros [Hw Hl Hc Hu Hp Hr Hb Hun Hnd Hh Ha] Hi. rewrite !Forall_app, Forall_cons in Hb.
  destruct Hb as (Hb1 & Hb2 & Hb3 & Hb4). split; [done|].
  destruct (split_ok p i Hb3 Hi) as [Ho1 Ho2]. split; try done.
  - rewrite !Forall_app, !Forall_cons. done.
  - rewrite <- Hun. rewrite !units_app, !units_cons, split_units; [|done|by apply Hb3].
    by rewrite !app_assoc.
Qed.

(** A new block of the heap. *)
Lemma wf_new_block s own blk ub fl n w' va : pow2_wf s own blk ub fl (16 + n) -> 0 <= n ->
  fresh_pages own blk va 16 -> holding w' own ({[va]} ∪ blk) n ->
  pow2_wf (set_world w' s) own ({[va]} ∪ blk) ub ((va, 16) :: fl) n.
Proof.
  intros [Hw Hl Hc Hu Hp Hr Hb Hun Hnd Hh Ha] Hn Hf Hw'.
  assert (va ∉ blk) as Hva.
  { intros Hin. apply (proj2 Hf (va / 4096)); [lia|]. right. exists va. split; [done|lia]. }
  assert (big <$> elements ({[va]} ∪ blk) ≡ₚ (va, 16) :: (big <$> elements blk)) as He.
  { rewrite elements_union_singleton by done. done. }
  destruct Hf as [Hgood Hf]. destruct Hgood as (Hmod & Hpos & Hend).
  split; cbn; try done.
  - rewrite !Forall_app, ?Forall_cons in *. split_and!; [apply Hb..| |apply Hb].
    unfold block_ok. cbn [fst snd]. split_and!; [|lia..].
    apply Z.mod_divide; [done|]. apply Z.mod_divide in Hmod as [k ->]; [|done]. exists (k * 128). lia.
  - rewrite He, units_cons, <- Hun. rewrite <- Permutation_middle. cbn [app]. by rewrite <- Permutation_middle.
  - rewrite He, units_cons. apply NoDup_app. split_and!; [apply NoDup_seqZ| |done].
    intros u Hu1 Hu2. apply list_elem_of_In, in_concat in Hu2 as (l & Hl1 & Hl2).
    apply list_elem_of_In in Hl1, Hl2. apply list_elem_of_fmap in Hl1 as (b & -> & Hb1).
    apply list_elem_of_fmap in Hb1 as (va' & -> & Hva'%elem_of_elements).
    apply (Hf (u / 128)); [by apply big_units_page|]. right. exists va'. split; [done|].
    apply big_units_page; [apply Hh, Hva'|done].
  - intros va' [->%elem_of_singleton|Hin]%elem_of_union; [done|by apply Hh].
  - by apply apart_block.
Qed.

(** [pow2_get_free_block]: the chains below the index are left as they are. *)
Definition got_block s (blk : gset Z) ub fl (index n : Z) (ptr : Z) s' : Prop :=
  (exists own' blk', pow2_wf s' own' blk' ub ((ptr, index) :: fl) n /\ blk ⊆ blk') /\
  pow2_used_table_pages s' = pow2_used_table_pages s /\
  forall k, (k < Z.to_nat (index - POW2_MIN_POW))%nat -> pow2_table s' !! k = pow2_table s !! k.

(** The part of [get_block] for an empty chain. *)
Definition refill (fuel : nat) (index : Z) : M (pow2 W) Z :=
  if index <? POW2_MAX_POW then
    match fuel with
    | O => fail OutOfFuel
    | S fuel' =>
        let! ptr1 := get_block fuel' (index + 1) in
        pow2_add_free_block ptr1 index ;;! ret (u32 (ptr1 + Z.shiftl 1 index))
    end
  else with_world new_block.

Lemma get_block_eq fuel index : get_block fuel index =
  let! c := get_chain index in
  let! r := with_world (get_walk false c) in
  match r with Some (ptr, c') => put_chain index c' ;;! ret ptr | None => refill fuel index end.
Proof. by destruct fuel. Qed.

Lemma get_block_step fuel index s own blk ub fl n :
  pow2_wf s own blk ub fl (16 + n) -> 5 <= index <= 16 -> 0 <= n ->
  (forall p, pow2_table s !! Z.to_nat (index - POW2_MIN_POW) = Some [mkHeader p []] ->
    wp (refill fuel index) (got_block s blk ub fl index n) s) ->
  wp (get_block fuel index) (got_block s blk ub fl index n) s.
Proof.
  intros Hwf Hi Hn Hrefill. destruct (wf_chain _ _ _ _ _ _ index Hwf Hi) as (c & Hc & Hok & Hpg).
  rewrite get_block_eq. apply wp_bind, (wp_get_chain _ _ c); [done|]. apply wp_bind, wp_world.
  eapply wp_mono; [apply (get_walk_ok c true _ own blk (16 + n)); [done|lia|apply Hwf|done]|].
  intros [[ptr c']|] w'.
  - intros (Hr & Hptrs & own' & Hs & Hw'). destruct Hr as [[? _]|Hok']; [done|].
    apply wp_bind, wp_modify, wp_ret. split_and!; [|done|].
    + exists own', blk. split; [|done]. apply (wf_put s own blk ub fl (16 + n) _ c); try done.
      * by apply (holding_le _ _ _ (16 + n)); [|lia].
      * intros R. by apply shrunk_pages.
      * destruct Hs as [[-> _]|(va & -> & _)]; [apply Hwf|]. apply apart_delete, Hwf.
      * rewrite (free_of_snoc _ c' c ptr index) by (done || lia). by rewrite <- app_assoc.
    + intros k Hk. cbn. apply list_lookup_insert_ne. lia.
  - intros [Hptrs ->]. destruct (chain_empty c Hok Hptrs) as [p ->].
    replace (set_world (p2_world s) s) with s by (by destruct s). by apply (Hrefill p).
Qed.

Lemma refill_top fuel s own blk ub fl n : pow2_wf s own blk ub fl (16 + n) -> 0 <= n ->
  wp (refill fuel 16) (got_block s blk ub fl 16 n) s.
Proof.
  intros Hwf Hn. apply wp_world. eapply wp_mono; [by apply (block_law _ own blk n), Hn; apply Hwf|].
  intros va w' [Hva Hw']. split_and!; [|done|done]. exists own, ({[va]} ∪ blk).
  split; [by apply wf_new_block|set_solver].
Qed.

Lemma get_block_ok fuel : forall index s own blk ub fl n,
  pow2_wf s own blk ub fl (16 + n) -> 5 <= index <= 16 -> 16 - index <= Z.of_nat fuel -> 0 <= n ->
  wp (get_block fuel index) (got_block s blk ub fl index n) s.
Proof.
  induction fuel as [|fuel IH]; intros index s own blk ub fl n Hwf Hi Hf Hn;
    (apply (get_block_step _ _ _ own); [done..|]); intros p Hp.
  { replace index with 16 by lia. by apply (refill_top _ _ own). }
  destruct (Z.eq_dec index 16) as [->|]; [by apply (refill_top _ _ own)|].
  unfold refill, POW2_MAX_POW. zcase; [|lia].
  apply wp_bind. eapply wp_mono; [apply (IH (index + 1) s own blk ub fl n); [done|lia..]|].
  intros ptr1 s1 ((own1 & blk1 & Hwf1 & Hsub) & Hpages & Hlow).
  destruct (wf_split _ _ _ _ _ _ _ _ Hwf1) as [(_ & _ & Hpos & Hend) Hwf2]; [lia|]. cbn [fst snd] in *.
  apply wp_bind. eapply wp_mono.
  - apply (add_free_block_ok s1 own1 blk1 ub _ ptr1 index n n Hwf2); [lia|done|].
    right. split; [|done]. exists p. rewrite Hlow; [done|]. unfold POW2_MIN_POW. lia.
  - intros ? s2 ((own2 & Hwf3) & Hpages2 & Hlow2). apply wp_ret.
    assert (0 < 2 ^ index < 2 ^ (index + 1)) as Hpow
      by (split; [apply Z.pow_pos_nonneg|apply Z.pow_lt_mono_r]; lia).
    rewrite Z.shiftl_1_l, u32_small by lia. split_and!; [by exists own2, blk1|congruence|].
    intros k Hk. rewrite Hlow2 by lia. apply Hlow. unfold POW2_MIN_POW in *. lia.
Qed.

(** *** The table of the blocks in use *)

Lemma lor_small_add p i : p mod 32 = 0 -> 0 <= i < 32 ->
  Z.land (Z.lor p i) POW2_MASK_POW = i /\ Z.ldiff (Z.lor p i) POW2_MASK_POW = p.
Proof.
  intros Hp Hi. change POW2_MASK_POW with (Z.ones 5). apply Z.mod_divide in Hp as [k ->]; [|lia].
  replace (k * 32) with (Z.shiftl k 5) by (rewrite Z.shiftl_mul_pow2 by lia; lia).
  assert (forall m, 5 <= m -> Z.testbit i m = false) as Hhi.
  { intros m Hm. apply Z.testbit_false; [lia|]. rewrite Z.div_small; [done|].
    split; [lia|]. apply Z.lt_le_trans with (2 ^ 5); [lia|]. apply Z.pow_le_mono_r; lia. }
  split; apply Z.bits_inj'; intros m Hm.
  - rewrite Z.land_spec, Z.lor_spec, Z.shiftl_spec, Z.testbit_ones_nonneg by lia.
    destruct (Z.ltb_spec m 5).
    + by rewrite Z.testbit_neg_r, andb_true_r by lia.
    + by rewrite andb_false_r, Hhi by lia.
  - rewrite Z.ldiff_spec, Z.lor_spec, Z.shiftl_spec, Z.testbit_ones_nonneg by lia.
    destruct (Z.ltb_spec m 5).
    + by rewrite andb_false_r, Z.testbit_neg_r by lia.
    + by rewrite andb_true_r, Hhi, orb_false_r by lia.
Qed.

Lemma remove_at_fmap {A B} (f : A -> B) i u : remove_at i (f <$> u) = f <$> remove_at i u.
Proof.
  unfold remove_at. rewrite fmap_last. destruct (last u) as [x|]; [|done]. cbn.
  rewrite <- list_fmap_insert.
  induction (<[i := x]> u) as [|a [|b l] IH]; [done..|]. cbn in *. by f_equal.
Qed.

Lemma remove_at_perm {A} i (u : list A) x : u !! i = Some x -> u ≡ₚ x :: remove_at i u.
Proof.
  intros Hi. destruct u as [|y u _] using rev_ind; [done|]. unfold remove_at. rewrite last_snoc.
  destruct (decide (i < length u)%nat) as [Hlt|Hge].
  - rewrite insert_app_l, removelast_last by done. rewrite lookup_app_l in Hi by done.
    rewrite <- (take_drop_middle u i x Hi) at 1. rewrite insert_take_drop by done.
    rewrite <- (Permutation_cons_append _ y), <- !Permutation_middle. apply perm_swap.
  - assert (i = length u) as ->.
    { apply lookup_lt_Some in Hi. rewrite length_app in Hi. cbn in Hi. lia. }
    rewrite list_lookup_middle in Hi by done. injection Hi as ->.
    rewrite insert_app_r_alt, Nat.sub_diag by lia. cbn [insert list_insert].
    rewrite removelast_last. by rewrite Permutation_app_comm.
Qed.

(** A block under way goes into the table. *)
Lemma wf_use s own blk ub fl ptr index n own' w' ut up u :
  pow2_wf s own blk ub ((ptr, index) :: fl) n -> holding w' own' blk u ->
  pages_ok own' ut up (header_pages (pow2_table s)) -> 1 <= up <= 2 ^ 20 ->
  Z.of_nat (length (pow2_used s)) < up * 0x400 -> apart own' blk ->
  pow2_wf (set_used (pow2_used s ++ [Z.lor ptr index]) (set_used_table ut up (set_world w' s)))
    own' blk (ub ++ [(ptr, index)]) fl u.
Proof.
  intros [Hw Hl Hc Hu Hp Hr Hb Hun Hnd Hh Ha] Hw' Hp' Hup Hlen Ha'.
  split; cbn; try done.
  - by rewrite fmap_app, Hu.
  - rewrite length_app. cbn. lia.
  - by rewrite <- app_assoc.
  - by rewrite <- app_assoc.
Qed.

Lemma insert_used_ok s own blk ub fl ptr index n :
  pow2_wf s own blk ub ((ptr, index) :: fl) (pow2_used_table_pages s + 1 + n) -> 0 <= n ->
  wp (pow2_insert_used_table ptr index)
    (fun _ s' => exists own', pow2_wf s' own' blk (ub ++ [(ptr, index)]) fl n) s.
Proof.
  intros Hwf Hn. pose proof (wf_room _ _ _ _ _ _ Hwf) as [Hup Hlen].
  unfold pow2_insert_used_table. apply wp_bind. change (wp (gets id) ?Q s) with (wp get Q s).
  apply wp_gets. apply wp_bind, wp_when.
  - intros _. rewrite u32_small by lia. apply wp_bind, wp_world. eapply wp_mono.
    + apply (grow_law _ own blk n); [apply Hwf|done|apply Hwf|lia].
    + intros va w' [Hf Hw']. apply wp_modify, wp_modify. eexists.
      apply (wf_use s own blk ub fl ptr index _ _ w' va (pow2_used_table_pages s + 1) n Hwf Hw').
      * eapply pages_ok_grow; [apply Hwf|lia|done].
      * destruct Hf as [(_ & ? & ?) _]. lia.
      * lia.
      * apply apart_insert; [apply apart_delete, Hwf| |lia]. split; [apply Hf|].
        intros page Hpage Ho. apply (proj2 Hf page Hpage). destruct Ho as [(v & m & Hv & Hm)|Hb]; [|by right].
        left. exists v, m. apply lookup_delete_Some in Hv as [_ ?]. done.
  - intros Hlt%Z.leb_gt. apply wp_modify. exists own.
    pose proof (wf_use s own blk ub fl ptr index _ own (p2_world s) (pow2_used_table s)
      (pow2_used_table_pages s) n Hwf) as Huse. destruct s. apply Huse; [|apply Hwf|lia|done|apply Hwf].
    eapply holding_le; [apply Hwf|]. cbn in *. lia.
Qed.

(** *** Blocks in use *)

Lemma wf_ub s own blk ub fl n b : pow2_wf s own blk ub fl n -> b ∈ ub ++ fl -> block_ok b.
Proof. intros [] Hb. rewrite Forall_forall in *. set_solver. Qed.

Lemma wf_disjoint s own blk ub fl n a us : pow2_wf s own blk ub fl n -> ub ++ fl ≡ₚ a :: us ->
  forall b, b ∈ us -> disjoint_blocks a b.
Proof.
  intros Hwf Hp b Hb. pose proof (wf_units _ _ _ _ _ _ Hwf) as Hun.
  pose proof (wf_nodup _ _ _ _ _ _ Hwf) as Hnd. rewrite <- Hun, Hp in Hnd.
  rewrite <- Permutation_middle in Hnd.
  apply units_disjoint; [| |eapply NoDup_units_disjoint; [exact Hnd|set_solver]];
    (eapply wf_ub; [exact Hwf|rewrite Hp; set_solver]).
Qed.

(** The bytes of a block lie in pages of the heap. *)
Lemma wf_byte_page s own blk ub fl n b a : pow2_wf s own blk ub fl n -> b ∈ ub ++ fl ->
  b.1 <= a < b.1 + 2 ^ b.2 -> exists va, va ∈ blk /\ va / 4096 <= a / 4096 < va / 4096 + 16.
Proof.
  intros Hwf Hb Ha. destruct (wf_ub _ _ _ _ _ _ _ Hwf Hb) as (Hm & Hi & _ & _).
  destruct (pow_split b.2 ltac:(lia)) as [_ E2].
  assert (a / 32 ∈ units (big <$> elements blk)) as Hu.
  { rewrite <- (wf_units _ _ _ _ _ _ Hwf). apply list_elem_of_In, in_concat.
    exists (block_units b). split; apply list_elem_of_In.
    - apply list_elem_of_fmap. exists b. split; [done|]. set_solver.
    - apply elem_of_seqZ. pose proof (Z.div_mod b.1 32 ltac:(lia)) as Hd. rewrite Hm in Hd.
      split; [apply Z.div_le_mono; lia|apply Z.div_lt_upper_bound; lia]. }
  apply list_elem_of_In, in_concat in Hu as (l & Hl & Hu). apply list_elem_of_In in Hl, Hu.
  rewrite <- list_fmap_compose in Hl. apply list_elem_of_fmap in Hl as (v & -> & Hv%elem_of_elements).
  apply big_units_page in Hu; [|by apply (wf_heap _ _ _ _ _ _ Hwf)].
  rewrite Z.div_div in Hu by lia. by exists v.
Qed.

(** No byte of a block lies in a page of the allocator itself. *)
Definition block_apart (own : gmap Z Z) (b : Z * Z) : Prop :=
  forall a, b.1 <= a < b.1 + 2 ^ b.2 -> forall va m, own !! va = Some m ->
    ~ va / 4096 <= a / 4096 < va / 4096 + m.

Lemma wf_block_apart s own blk ub fl n b : pow2_wf s own blk ub fl n -> b ∈ ub ++ fl ->
  block_apart own b.
Proof.
  intros Hwf Hb a Ha va m Ho Hpage. destruct (wf_byte_page _ _ _ _ _ _ _ a Hwf Hb Ha) as (v & Hv & Hp).
  destruct (wf_apart _ _ _ _ _ _ Hwf va m Ho) as [_ Hap]. specialize (Hap v Hv). lia.
Qed.

(** *** Sizes *)

Lemma compute_index_ok size : 0 <= size ->
  let index := pow2_compute_index size in
  5 <= index <= 16 /\ (size <= 2 ^ 16 -> size <= 2 ^ index) /\ (index = 5 \/ 2 ^ (index - 1) < size).
Proof.
  intros Hs. unfold pow2_compute_index. change POW2_MIN_SIZE with 32. change POW2_MAX_SIZE with 65536.
  change POW2_MIN_POW with 5. change POW2_MAX_POW with 16. cbn zeta. zcase; [lia|]. zcase; [lia|].
  destruct (Z.log2_spec (size - 1) ltac:(lia)) as [Hlo Hhi].
  assert (5 <= Z.log2 (size - 1)) by (apply Z.log2_le_pow2; lia).
  assert (Z.log2 (size - 1) < 16) by (apply Z.log2_lt_pow2; lia).
  replace (Z.log2 (size - 1) + 1 - 1) with (Z.log2 (size - 1)) by lia.
  rewrite <- Z.add_1_r in Hhi. lia.
Qed.
End steps.

(** ** Theorems *)

Section theorems.
Context {W : Type} `{PageLaws W}.
Implicit Types (s : pow2 W) (own : gmap Z Z) (blk : gset Z) (ub fl : list (Z * Z)).

(** [pow2_alloc] up to the clearing of the block. *)
Lemma alloc_block_ok s own blk ub n index :
  pow2_wf s own blk ub [] (16 + (pow2_used_table_pages s + 1 + n)) -> 0 <= n -> 5 <= index <= 16 ->
  wp (let! ptr := pow2_get_free_block index in pow2_insert_used_table ptr index ;;! ret ptr)
    (fun ptr s' => 0 < ptr /\ exists own' blk', pow2_wf s' own' blk' (ub ++ [(ptr, index)]) [] n) s.
Proof.
  intros Hwf Hn Hi. pose proof (wf_room _ _ _ _ _ _ Hwf) as [Hup _]. apply wp_bind. eapply wp_mono.
  - apply (get_block_ok _ index s own blk ub []); [done|done|change (Z.to_nat POW2_TABLE_LEN) with 12%nat; lia|lia].
  - intros ptr s1 ((own1 & blk1 & Hwf1 & _) & Hpages & _). rewrite <- Hpages in Hwf1.
    destruct (wf_ub _ _ _ _ _ _ (ptr, index) Hwf1 ltac:(set_solver)) as (_ & _ & Hpos & _).
    apply wp_bind. eapply wp_mono; [by apply (insert_used_ok s1 own1 blk1 ub [] ptr index n)|].
    intros ? s2 (own2 & Hwf2). apply wp_ret. split; [done|]. by exists own2, blk1.
Qed.

(** The clearing reports a size that the block does not have. *)
Lemma pow2_alloc_eq size s ptr s' : let index := pow2_compute_index size in
  (let! ptr := pow2_get_free_block index in pow2_insert_used_table ptr index ;;! ret ptr) s = Ok (ptr, s') ->
  0 < ptr -> pow2_alloc size s = if 2 ^ index <? size then Err OutOfBounds else Ok ((index, ptr), s').
Proof.
  cbn zeta. intros (p & s1 & E1 & (u & s2 & E2 & E3)%bind_Ok)%bind_Ok Hpos. injection E3 as -> ->.
  unfold pow2_alloc. rewrite (bind_Ok_eq _ _ _ _ _ E1), (bind_Ok_eq _ _ _ _ _ E2). unfold clear_block.
  rewrite (proj2 (Z.eqb_neq ptr 0)), Z.shiftl_1_l by lia. cbn [andb].
  by destruct (2 ^ pow2_compute_index size <? size).
Qed.

(** C14: [pow2_alloc] of at most 64K, with room for its pages, returns a block that is
    large enough and no larger than needed, that overlaps neither a block in use nor
    the allocator's own pages, and that is in use afterwards. *)
Theorem pow2_alloc_correct s own blk ub n size :
  pow2_wf s own blk ub [] (16 + (pow2_used_table_pages s + 1 + n)) -> 0 <= n -> 0 <= size <= 2 ^ 16 ->
  exists index ptr s' own' blk',
    pow2_alloc size s = Ok ((index, ptr), s') /\
    pow2_wf s' own' blk' (ub ++ [(ptr, index)]) [] n /\
    size <= 2 ^ index /\ (index = 5 \/ 2 ^ (index - 1) < size) /\
    (forall b, b ∈ ub -> disjoint_blocks (ptr, index) b) /\ block_apart own' (ptr, index).
Proof.
  intros Hwf Hn Hs. destruct (compute_index_ok size ltac:(lia)) as (Hi & Hfit & Hmin).
  set (index := pow2_compute_index size) in *. specialize (Hfit ltac:(lia)).
  pose proof (alloc_block_ok s own blk ub n index Hwf Hn Hi) as (ptr & s' & E & Hpos & own' & blk' & Hwf')%wp_Ok.
  exists index, ptr, s', own', blk'. split_and!; [|done..| |].
  - rewrite (pow2_alloc_eq size s ptr s') by done. fold index.
    by rewrite (proj2 (Z.ltb_ge (2 ^ index) size)) by lia.
  - eapply wf_disjoint; [exact Hwf'|]. by rewrite app_nil_r, Permutation_app_comm.
  - eapply wf_block_apart; [exact Hwf'|set_solver].
Qed.

(** [pow2_alloc] of more than 64K takes a block of 64K and clears past its end. *)
Theorem pow2_alloc_oversize s own blk ub n size :
  pow2_wf s own blk ub [] (16 + (pow2_used_table_pages s + 1 + n)) -> 0 <= n -> 2 ^ 16 < size < 2 ^ 32 ->
  pow2_compute_index size = 16 /\ pow2_alloc size s = Err OutOfBounds.
Proof.
  intros Hwf Hn Hs. destruct (compute_index_ok size ltac:(lia)) as (Hi & _ & _).
  assert (pow2_compute_index size = 16) as Hidx.
  { unfold pow2_compute_index. change POW2_MIN_SIZE with 32. change POW2_MAX_SIZE with 65536.
    zcase; [lia|]. zcase; [done|lia]. }
  split; [done|].
  pose proof (alloc_block_ok s own blk ub n _ Hwf Hn Hi) as (ptr & s' & E & Hpos & _)%wp_Ok.
  rewrite (pow2_alloc_eq size s ptr s') by done. by rewrite Hidx, (proj2 (Z.ltb_lt (2 ^ 16) size)) by lia.
Qed.

(** The search for a pointer in the table. *)
Lemma remove_used_ok s own blk ub fl n ptr index : pow2_wf s own blk ub fl n -> (ptr, index) ∈ ub ->
  exists i, ub !! i = Some (ptr, index) /\
    pow2_remove_used_table ptr s = Ok (Some index, set_used (descriptor <$> remove_at i ub) s).
Proof.
  intros Hwf Hin. pose proof (wf_used _ _ _ _ _ _ Hwf) as Hu.
  assert (forall b, b ∈ ub -> Z.land (descriptor b) POW2_MASK_POW = b.2 /\
    Z.ldiff (descriptor b) POW2_MASK_POW = b.1) as Hdesc.
  { intros b Hb. destruct (wf_ub _ _ _ _ _ _ b Hwf ltac:(set_solver)) as (Hm & Hi & _). apply lor_small_add; [done|lia]. }
  unfold pow2_remove_used_table, bind, gets. rewrite Hu.
  destruct (list_find _ (descriptor <$> ub)) as [[i d]|] eqn:Ef.
  2: { apply list_find_None in Ef. rewrite Forall_fmap, Forall_forall in Ef.
       destruct (Ef _ Hin). cbn. by apply (Hdesc (ptr, index)). }
  apply list_find_Some in Ef as (Hl & Hd & _). rewrite list_lookup_fmap in Hl.
  apply fmap_Some in Hl as ([p j] & Hl & ->). destruct (Hdesc (p, j)) as [Hj Hp];
    [by apply list_elem_of_lookup; exists i|]. cbn in Hj, Hp. rewrite Hp in Hd. subst p.
  assert (j = index) as ->.
  { pose proof (remove_at_perm i ub _ Hl) as Hperm. rewrite Hperm in Hin.
    apply elem_of_cons in Hin as [Hin|Hin]; [congruence|].
    destruct (wf_disjoint _ _ _ _ _ _ (ptr, j) (remove_at i ub ++ fl) Hwf) with (b := (ptr, index)) as [Hc|Hc];
      [by rewrite Hperm at 1|set_solver|cbn in Hc..].
    - pose proof (Z.pow_pos_nonneg 2 j). destruct (wf_ub _ _ _ _ _ _ (ptr, j) Hwf) as (_ & ? & _); [|cbn in *; lia].
      rewrite Hperm. set_solver.
    - pose proof (Z.pow_pos_nonneg 2 index). destruct (wf_ub _ _ _ _ _ _ (ptr, index) Hwf) as (_ & ? & _); [|cbn in *; lia].
      rewrite Hperm. set_solver. }
  exists i. split; [done|]. cbn. by rewrite Hj, remove_at_fmap.
Qed.

(** C16: [pow2_free] of a block in use makes it free; the other blocks stay in use. *)
Theorem pow2_free_correct s own blk ub n ptr index :
  pow2_wf s own blk ub [] (1 + n) -> 0 <= n -> (ptr, index) ∈ ub ->
  exists s' own' ub', pow2_free ptr s = Ok (tt, s') /\ ub ≡ₚ (ptr, index) :: ub' /\
    pow2_wf s' own' blk ub' [] n.
Proof.
  intros Hwf Hn Hin. destruct (remove_used_ok _ _ _ _ _ _ _ _ Hwf Hin) as (i & Hi & E).
  pose proof (remove_at_perm i ub _ Hi) as Hperm. set (ub' := remove_at i ub) in *.
  destruct (wf_ub _ _ _ _ _ _ (ptr, index) Hwf ltac:(set_solver)) as (_ & Hidx & _).
  assert (pow2_wf (set_used (descriptor <$> ub') s) own blk ub' [(ptr, index)] (1 + n)) as Hwf1.
  { destruct Hwf as [Hw Hl Hc Hu Hp Hr Hb Hun Hnd Hh Ha]. rewrite app_nil_r in Hb, Hun.
    assert (ub' ++ [(ptr, index)] ≡ₚ ub) as Hp' by (by rewrite Hperm, Permutation_app_comm).
    split; cbn; try done; [|by rewrite Hp'..].
    split; [apply Hr|]. rewrite Hu, length_fmap in Hr. rewrite length_fmap.
    apply Permutation_length in Hperm. cbn in Hperm. lia. }
  pose proof (add_free_block_ok _ own blk ub' [] ptr index (1 + n) n Hwf1 Hidx Hn (or_introl eq_refl))
    as ([] & s' & E' & (own' & Hwf') & _)%wp_Ok.
  exists s', own', ub'. split_and!; [|done..]. unfold pow2_free. by rewrite (bind_Ok_eq _ _ _ _ _ E).
Qed.

(** [pow2_free] of any other pointer does nothing. *)
Theorem pow2_free_unknown s own blk ub fl n ptr :
  pow2_wf s own blk ub fl n -> (forall index, (ptr, index) ∉ ub) -> pow2_free ptr s = Ok (tt, s).
Proof.
  intros Hwf Hno. unfold pow2_free, pow2_remove_used_table, bind, gets.
  rewrite (wf_used _ _ _ _ _ _ Hwf). destruct (list_find _ _) as [[i d]|] eqn:Ef; [|done].
  apply list_find_Some in Ef as (Hl & Hd & _). rewrite list_lookup_fmap in Hl.
  apply fmap_Some in Hl as (b & Hl & ->). apply list_elem_of_lookup_2 in Hl.
  destruct (wf_ub _ _ _ _ _ _ b Hwf ltac:(set_solver)) as (Hm & Hi & _).
  destruct (lor_small_add b.1 b.2 Hm ltac:(lia)) as [_ E]. unfold descriptor in Hd. rewrite E in Hd.
  destruct (Hno b.2). rewrite <- Hd. by destruct b.
Qed.

(** The chains that [pow2_init] has set up. *)
Definition init_inv (n : Z) (st : Z * list (list POW2_HEADER)) (w : W) : Prop :=
  let '(i, t) := st in
  0 <= i <= 12 /\ length t = Z.to_nat i /\ exists own, holding w own ∅ (12 - i + (1 + n)) /\
    apart own ∅ /\ Forall (chain_ok true) t /\ free_blocks t = [] /\
    NoDup (header_pages t) /\ Forall (fun p => own !! p = Some 1) (header_pages t).

Lemma gather_snoc {A B} (f : nat -> A -> list B) t c : gather f (t ++ [c]) = gather f t ++ f (length t) c.
Proof. unfold gather. rewrite imap_app, concat_app. cbn. by rewrite Nat.add_0_r, app_nil_r. Qed.

Lemma init_body_ok n st w : 0 <= n -> init_inv n st w ->
  wp (init_body st) (fun c w' => match c with
    | Continue st' => init_inv n st' w' /\ (Z.to_nat (12 - st'.1) < Z.to_nat (12 - st.1))%nat
    | Break t => init_inv n (12, t) w'
    end) w.
Proof.
  destruct st as [i t]. intros Hn (Hi & Hl & own & Hw & Ha & Hc & Hfree & Hnd & Hp).
  unfold init_body. change POW2_TABLE_LEN with 12. zcase.
  - apply wp_bind. replace (12 - i + (1 + n)) with (1 + (12 - (i + 1) + (1 + n))) in Hw by lia.
    eapply wp_mono; [apply (page_law w own ∅ _ Hw); lia|]. intros va w' [Hf Hw']. apply wp_ret.
    assert (forall p, p ∈ header_pages t -> p <> va) as Hne.
    { rewrite Forall_forall in Hp. intros p Hin.
      apply (fresh_not_owned own ∅ va 1 p 1); [done|lia|auto|lia]. }
    split; [|cbn; lia]. split; [lia|]. split; [rewrite length_app; cbn; lia|].
    exists (<[va := 1]> own). split_and!; [done|by apply apart_insert| | | |].
    + apply Forall_app. split; [done|]. apply Forall_singleton. cbn. rewrite MAX_COUNT_val.
      split; [done|]. unfold hdr_count. cbn. lia.
    + unfold free_blocks in *. by rewrite gather_snoc, Hfree.
    + unfold header_pages in *. rewrite gather_snoc. apply NoDup_app. split_and!; [done| |apply NoDup_singleton].
      intros p Hin ->%list_elem_of_singleton. by apply (Hne va).
    + unfold header_pages in *. rewrite gather_snoc. apply Forall_app. split.
      * rewrite Forall_forall in *. intros p Hin. rewrite lookup_insert_ne; [by apply Hp|].
        intros <-. by apply (Hne va).
      * apply Forall_singleton, lookup_insert_eq.
  - apply wp_ret. replace i with 12 in * by lia. split; [lia|]. split; [done|]. by exists own.
Qed.

Lemma pow2_init_ok s n : holding (p2_world s) ∅ ∅ (13 + n) -> 0 <= n ->
  wp pow2_init (fun _ s' => pow2_used_table_pages s' = 1 /\ exists own', pow2_wf s' own' ∅ [] [] n) s.
Proof.
  intros Hw Hn. unfold pow2_init. apply wp_bind, wp_world. eapply wp_mono.
  - apply (wp_mloop init_body (init_inv n) (fun t w' => init_inv n (12, t) w') (fun st _ => Z.to_nat (12 - st.1))).
    + intros st w. by apply init_body_ok.
    + split; [lia|]. split; [done|]. exists ∅. split_and!; [|by intros ? ?|done..|apply NoDup_nil_2|done].
      by replace (12 - 0 + (1 + n)) with (13 + n) by lia.
    + change (Z.to_nat POW2_TABLE_LEN) with 12%nat. cbn [fst]. lia.
  - intros t w (_ & Hl & own & Hw1 & Ha & Hc & Hfree & Hnd & Hp). cbn [Z.sub] in Hw1.
    apply wp_bind, wp_modify, wp_bind, wp_world. cbn [p2_world set_table set_world].
    replace (12 + -12 + (1 + n)) with (1 + n) in Hw1 by lia.
    eapply wp_mono; [by apply (page_law w own ∅ n Hw1)|]. intros va w' [Hf Hw']. apply wp_modify.
    split; [done|]. exists (<[va := 1]> own). pose proof Hp as Hp'. rewrite Forall_forall in Hp.
    assert (va ∉ header_pages t) as Hne.
    { intros Hin. by apply (fresh_not_owned own ∅ va 1 va 1 Hf ltac:(lia) (Hp va Hin)). }
    split; cbn; try done.
    + split_and!; [apply lookup_insert_eq|by apply NoDup_cons|]. apply Forall_forall. intros p Hin.
      rewrite lookup_insert_ne; [by apply Hp|]. by intros <-.
    + change (Forall block_ok (free_blocks t ++ [])). by rewrite Hfree.
    + change (units (free_blocks t ++ []) ≡ₚ []). by rewrite Hfree.
    + apply NoDup_nil_2.
    + by apply apart_insert.
Qed.

Lemma pow2_init_result s n : holding (p2_world s) ∅ ∅ (13 + n) -> 0 <= n ->
  exists s' own', pow2_init s = Ok (tt, s') /\ pow2_used_table_pages s' = 1 /\ pow2_wf s' own' ∅ [] [] n.
Proof.
  intros Hw Hn. pose proof (pow2_init_ok s n Hw Hn) as ([] & s' & E & Hp & own' & Hwf)%wp_Ok. by exists s', own'.
Qed.

(** [pow2_init], with room for its thirteen pages, sets up an allocator without blocks. *)
Theorem pow2_init_correct s n : holding (p2_world s) ∅ ∅ (13 + n) -> 0 <= n ->
  exists s' own', pow2_init s = Ok (tt, s') /\ pow2_wf s' own' ∅ [] [] n.
Proof.
  intros Hw Hn. destruct (pow2_init_result s n Hw Hn) as (s' & own' & E & _ & Hwf). by exists s', own'.
Qed.
End theorems.
