(* ===== verification/Pow2Mmu.v ===== *)
(** * The power-of-two allocator on the kernel's page allocators

    [mmu_pages] is the instance of the interface [PageOps] by mem/physical.c and
    mem/virtual.c, and [mmu_laws] proves the laws [PageLaws] of it, so that the
    theorems on the allocator hold of the composed system.  [mmu_inv] also says that
    the pages handed out are backed by different frames, none of them free. *)

From Stdlib Require Import ZArith Lia.
From S2P Require Import Prelude Physical Virtual VirtualThm Pow2 Pow2Thm.
From stdpp Require Import base gmap sets fin_sets numbers strings list.
Local Open Scope Z_scope.

#[export] Instance mmu_pages (kpt pdbr : Z) : PageOps mmu := {
  alloc_frame := on_frames alloc_phys_frame;
  alloc_frames c := on_frames (alloc_phys_frames c);
  free_frame f := on_frames (free_phys_frame f);
  free_frames f c := on_frames (free_phys_frames f c);
  map_page e := map_virtual_page kpt e;
  map_pages es c := map_virtual_pages kpt es c;
  map_contiguous e c := map_contiguous_virtual_pages kpt e c;
  unmap_page va := unmap_virtual_page kpt va;
  unmap_pages va c := unmap_virtual_pages kpt va c;
  phys_addr va := get_phys_addr kpt pdbr va
}.

Section mmu.
(** The kernel page table, and a page directory that maps the window by it. *)
Context (kpt pdbr : Z).
Context (Hdir : pdbr mod 4096 = 0 /\ 0 <= pdbr < 2 ^ 32 /\ pdbr <> kpt).
Implicit Types (w : mmu) (own : gmap Z Z) (blk : gset Z) (fs : list Z).

(** ** The invariant *)

Definition first_page : Z := kernelstart / 4096.

(** Slot [i] of the window is handed out. *)
Definition held own blk (i : Z) : Prop := occupied own blk (first_page + i).

Definition extent (va m i : Z) : Prop :=
  va = kernelstart + 4096 * i /\ 0 <= i /\ 1 <= m /\ i + m <= 1024.

(** [fs] are frames taken from the bitmap and not mapped yet; [ns] and [nf] more
    pages and frames are available. *)
Record mmu_inv w own blk fs (ns nf : Z) : Prop := {
  mi_vm : vm_wf kpt w;
  mi_phys : phys_wf (frames w);
  mi_pde : exists e, rd (pmem w) (pdbr + 4 * 1023) = e /\ pt_present e = true /\
    pd_page_size e = false /\ e / 4096 * 4096 = kpt;
  mi_own : forall va m, own !! va = Some m -> exists i f, extent va m i /\
    forall j, 0 <= j < m -> pte kpt w (i + j) = 4096 * (f + j) + 3;
  mi_blk : forall va, va ∈ blk -> exists i, extent va 16 i;
  mi_disj : forall va m page, own !! va = Some m -> va / 4096 <= page < va / 4096 + m ->
    ~ occupied (delete va own) blk page;
  mi_held : forall i, 0 <= i < 1024 -> held own blk i -> i <> KERN_PGT_SLOT /\
    exists f, pte kpt w i = 4096 * f + 3 /\ 0 <= f < mm_limit (frames w) /\
      is_free (frames w) f = false /\ f ∉ fs;
  mi_alias : forall i j, 0 <= i < 1024 -> 0 <= j < 1024 -> held own blk i -> held own blk j ->
    pte kpt w i = pte kpt w j -> i = j;
  mi_claimed : NoDup fs /\ Forall (fun f => 0 <= f < mm_limit (frames w) /\ is_free (frames w) f = false) fs;
  mi_slots : exists a, free_window kpt w a (ns + 2);
  mi_frames : exists b, window (frames w) b nf
}.

(** ** Frames *)

Lemma wp_frames {A} (m : M phys A) Q w :
  wp m (fun a f => Q a (set_frames f w)) (frames w) -> wp (on_frames m) Q w.
Proof. unfold wp, on_frames. by destruct (m (frames w)) as [[a f]|e]. Qed.

Lemma pte_frames w f i : pte kpt (set_frames f w) i = pte kpt w i.
Proof. done. Qed.

Lemma vm_frames w f : vm_wf kpt w -> vm_wf kpt (set_frames f w).
Proof. intros [[H1 H2 H3 H4] H5]. split; [split|]; done. Qed.

(** Frames become claimed. *)
Lemma inv_claim w own blk fs ns nf i c p' : mmu_inv w own blk fs ns (c + nf) -> 1 <= c -> 0 <= nf ->
  window (frames w) i c -> (forall b, window (frames w) b (c + nf) -> i <= b) ->
  marked (frames w) p' i (i + c) false ->
  mmu_inv (set_frames p' w) own blk (fs ++ seqZ i c) ns nf.
Proof.
  intros [Hvm Hph Hpde Hown Hblk Hdisj Hheld Hal [Hnd Hcl] Hsl [b Hfr]] Hc Hnf Hw Hlow [Hph' Hlim Hfree].
  assert (forall f, f ∈ seqZ i c -> is_free (frames w) f = true /\ 0 <= f < mm_limit (frames w)) as Hnew.
  { intros f Hf%elem_of_seqZ. destruct Hw as (? & ? & Hw). split; [apply Hw|]; lia. }
  assert (forall f, 0 <= f -> is_free (frames w) f = false -> is_free p' f = false) as Hold.
  { intros f Hf E. rewrite Hfree by done. by destruct (_ && _). }
  split; cbn [frames set_frames pmem]; try done.
  - by apply vm_frames.
  - intros k Hk Hh. destruct (Hheld k Hk Hh) as (Hne & f & E & Hf & Hnf' & Hin). split; [done|].
    exists f. rewrite Hlim. split_and!; [done|lia|lia|apply Hold; [lia|done]|].
    intros [?|Hs]%elem_of_app; [done|]. destruct (Hnew f Hs) as [? _]. congruence.
  - rewrite Hlim. split.
    + apply NoDup_app. split_and!; [done| |apply NoDup_seqZ]. intros f Hf1 Hf2.
      rewrite Forall_forall in Hcl. destruct (Hcl f Hf1) as [_ ?]. destruct (Hnew f Hf2) as [? _]. congruence.
    + apply Forall_app. split.
      * eapply Forall_impl; [exact Hcl|]. intros f [Hf E]. split; [done|]. apply Hold; [lia|done].
      * apply Forall_forall. intros f Hf. split; [by apply Hnew|]. destruct (Hnew f Hf) as [_ ?].
        apply elem_of_seqZ in Hf. rewrite Hfree by lia.
        by rewrite (proj2 (Z.leb_le _ _)), (proj2 (Z.ltb_lt _ _)) by lia.
  - exists (b + c). specialize (Hlow b Hfr). destruct Hfr as (Hb & Hbl & Hbf).
    split_and!; [lia|lia|]. intros k Hk. rewrite Hfree by lia.
    rewrite (proj2 (Z.ltb_ge k (i + c))), andb_false_r by lia. apply Hbf. lia.
Qed.

Lemma alloc_frame_ok w own blk fs ns nf : mmu_inv w own blk fs ns (1 + nf) -> 0 <= nf ->
  wp (on_frames alloc_phys_frame)
    (fun r w' => exists f, r = 4096 * f /\ mmu_inv w' own blk (fs ++ [f]) ns nf) w.
Proof.
  intros Hinv Hnf. apply wp_frames. eapply wp_mono; [apply alloc_phys_frame_wp, Hinv|].
  intros r p' [(i & -> & Hw & Hlow & Hm)|(_ & _ & Hno)].
  - exists i. split; [done|]. change [i] with (seqZ i 1). apply inv_claim; try done.
    intros b (Hb & Hbl & Hbf). destruct (Z.le_gt_cases i b) as [|Hlt]; [done|].
    specialize (Hbf b ltac:(lia)). rewrite Hlow in Hbf; [done|lia].
  - destruct (mi_frames _ _ _ _ _ _ Hinv) as (b & Hb & Hbl & Hbf).
    specialize (Hbf b ltac:(lia)). rewrite Hno in Hbf; [done|lia].
Qed.

Lemma alloc_frames_ok w own blk fs ns nf c : mmu_inv w own blk fs ns (c + nf) -> 1 <= c -> 0 <= nf ->
  wp (on_frames (alloc_phys_frames c))
    (fun r w' => exists f, r = 4096 * f /\ mmu_inv w' own blk (fs ++ seqZ f c) ns nf) w.
Proof.
  intros Hinv Hc Hnf. destruct (mi_frames _ _ _ _ _ _ Hinv) as (b & Hb).
  assert (window (frames w) b c) as Hbc.
  { destruct Hb as (? & ? & Hb). split_and!; [lia..|]. intros k Hk. apply Hb. lia. }
  pose proof (pw_limit _ (mi_phys _ _ _ _ _ _ Hinv)) as Hlim. unfold PHYS_INDEX_MAX in Hlim.
  apply wp_frames. eapply wp_mono.
  - apply alloc_phys_frames_wp; [apply Hinv|]. destruct Hbc as (? & ? & _). lia.
  - intros r p' [(i & -> & Hw & Hlow & Hm)|(_ & _ & Hno)]; [|by destruct (Hno b)].
    exists i. destruct Hw as (Hi & Hil & Hif). rewrite u32_small by lia. split; [done|].
    apply inv_claim; try done. intros b' (Hb' & Hbl' & Hbf').
    destruct (Z.le_gt_cases i b') as [|Hlt]; [done|]. exfalso. apply (Hlow b'); [lia|].
    split_and!; [lia..|]. intros k Hk. apply Hbf'. lia.
Qed.

(** Claimed frames go back to the bitmap. *)
Lemma inv_release w own blk fs ns nf f m p' : mmu_inv w own blk (fs ++ seqZ f m) ns nf -> 1 <= m ->
  0 <= f -> marked (frames w) p' f (f + m) true -> mmu_inv (set_frames p' w) own blk fs ns nf.
Proof.
  intros [Hvm Hph Hpde Hown Hblk Hdisj Hheld Hal [Hnd Hcl] Hsl [b Hfr]] Hm Hf [Hph' Hlim Hfree].
  apply NoDup_app in Hnd as (Hnd1 & Hnd2 & _). apply Forall_app in Hcl as [Hcl _].
  assert (forall g, 0 <= g -> g ∉ seqZ f m -> is_free p' g = is_free (frames w) g) as Hold.
  { intros g Hg Hin. rewrite elem_of_seqZ in Hin. rewrite Hfree by done.
    destruct (Z.leb_spec f g), (Z.ltb_spec g (f + m)); try done. lia. }
  split; cbn [frames set_frames pmem]; try done.
  - by apply vm_frames.
  - intros k Hk Hh. destruct (Hheld k Hk Hh) as (Hne & g & E & Hg & Hg' & Hin). split; [done|].
    apply not_elem_of_app in Hin as [Hin1 Hin2]. exists g. rewrite Hlim, Hold by (done || lia). done.
  - split; [done|]. rewrite Hlim, Forall_forall in *. intros g Hg. destruct (Hcl g Hg) as [? ?].
    rewrite Hold; [done|lia|by apply Hnd2].
  - exists b. destruct Hfr as (Hb & Hbl & Hbf). split_and!; [done|lia|]. intros k Hk. rewrite Hfree by lia.
    destruct (_ && _); [done|]. by apply Hbf.
Qed.

(** ** Slots *)

Lemma va_page i : (kernelstart + 4096 * i) / 4096 = first_page + i.
Proof. unfold first_page. rewrite (Z.mul_comm 4096), Z.div_add; lia. Qed.

Lemma occupied_insert own blk va c page : own !! va = None ->
  (occupied (<[va := c]> own) blk page <->
   occupied own blk page \/ va / 4096 <= page < va / 4096 + c).
Proof.
  intros Hva. unfold occupied. split.
  - intros [(v & n & [[<- <-]|[Hne Hv]]%lookup_insert_Some & Hp)|Hb]; [by right|left; left; eauto|auto].
  - intros [[(v & n & Hv & Hp)|Hb]|Hp]; [left|by right|left].
    + exists v, n. rewrite lookup_insert_ne; [done|]. intros <-. congruence.
    + exists va, c. by rewrite lookup_insert_eq.
Qed.

Lemma occupied_block own blk va page :
  occupied own ({[va]} ∪ blk) page <-> occupied own blk page \/ va / 4096 <= page < va / 4096 + 16.
Proof. unfold occupied. set_solver. Qed.

Lemma occupied_delete own blk va page : occupied (delete va own) blk page -> occupied own blk page.
Proof. intros [(v & n & [_ Hv]%lookup_delete_Some & Hp)|Hb]; [left; eauto|by right]. Qed.

(** Pages handed out lie in the window. *)
Lemma inv_page w own blk fs ns nf page : mmu_inv w own blk fs ns nf -> occupied own blk page ->
  exists k, page = first_page + k /\ 0 <= k < 1024.
Proof.
  intros Hinv [(va & m & Hva & Hp)|(va & Hva & Hp)].
  - destruct (mi_own _ _ _ _ _ _ Hinv va m Hva) as (i & f & (-> & Hi & Hm & Him) & _).
    rewrite va_page in Hp. exists (page - first_page). lia.
  - destruct (mi_blk _ _ _ _ _ _ Hinv va Hva) as (i & (-> & Hi & Hm & Him)).
    rewrite va_page in Hp. exists (page - first_page). lia.
Qed.

Lemma inv_fresh w own blk fs ns nf i c : mmu_inv w own blk fs ns nf -> free_window kpt w i c -> 1 <= c ->
  fresh_pages own blk (kernelstart + 4096 * i) c.
Proof.
  intros Hinv (Hi & Hic & Hfree) Hc. split.
  - unfold good_va, kernelstart. split_and!; [|lia..]. rewrite (Z.mul_comm 4096), Z.mod_add; [done|lia].
  - rewrite va_page. intros page Hp Ho. destruct (inv_page _ _ _ _ _ _ _ Hinv Ho) as (k & -> & Hk).
    destruct (mi_held _ _ _ _ _ _ Hinv k Hk Ho) as (_ & f & E & Hf & _). rewrite Hfree in E by lia. lia.
Qed.

Lemma dir_word i : 0 <= i < 1024 -> (exists s, vm_wf kpt s) -> pdbr + 4 * 1023 <> kpt + 4 * i.
Proof.
  intros Hi [s Hs]. destruct (vm_kpt kpt s (vw_ok _ _ Hs)) as [Hk _]. destruct Hdir as (Hp & _ & Hne).
  pose proof (Z.div_mod kpt 4096 ltac:(lia)). pose proof (Z.div_mod pdbr 4096 ltac:(lia)). lia.
Qed.

Lemma filled_rest e i n w w' k : filled kpt e i n w w' -> ~ i <= k < i + n -> pte kpt w' k = pte kpt w k.
Proof. intros Hf Hk. apply (fi_rest _ _ _ _ _ _ Hf). intros j Hj. lia. Qed.

(** The entry for frame [j] of a list. *)
Definition frame_entry fs (j : Z) : Z := 4096 * (fs !!! Z.to_nat j) + 3.

(** Claimed frames are mapped at a free window. *)
Lemma inv_map w own blk fs ns nf i c w' own' blk' : mmu_inv w own blk fs (c + ns) nf ->
  Z.of_nat (length fs) = c -> 1 <= c -> 0 <= ns ->
  free_window kpt w i c -> (forall a, free_window kpt w a (c + ns + 2) -> i <= a) ->
  vm_wf kpt w' -> filled kpt (frame_entry fs) i c w w' ->
  (forall page, occupied own' blk' page <-> occupied own blk page \/ first_page + i <= page < first_page + i + c) ->
  (forall va m, own' !! va = Some m -> exists i f, extent va m i /\
    forall j, 0 <= j < m -> pte kpt w' (i + j) = 4096 * (f + j) + 3) ->
  (forall va, va ∈ blk' -> exists i, extent va 16 i) ->
  (forall va m page, own' !! va = Some m -> va / 4096 <= page < va / 4096 + m ->
    ~ occupied (delete va own') blk' page) ->
  mmu_inv w' own' blk' [] ns nf.
Proof.
  intros Hinv Hlen Hc Hns (Hi & Hic & Hfree) Hlow Hvm' Hfill Hocc Hown' Hblk' Hdisj'.
  destruct Hinv as [Hvm Hph Hpde Hown Hblk Hdisj Hheld Hal [Hnd Hcl] [a Hsl] Hfr].
  assert (forall k, 0 <= k < 1024 -> held own' blk' k ->
    (held own blk k /\ ~ i <= k < i + c /\ pte kpt w' k = pte kpt w k) \/
    (i <= k < i + c /\ exists n g, fs !! n = Some g /\ k = i + Z.of_nat n /\ pte kpt w' k = 4096 * g + 3))
    as Hsplit.
  { intros k Hk [Hh|Hin]%Hocc.
    - left. assert (~ i <= k < i + c) as Hout.
      { intros Hin. destruct (Hheld k Hk Hh) as (_ & f & E & Hf & _). rewrite Hfree in E by done. lia. }
      split_and!; [done..|]. by eapply filled_rest.
    - right. split; [lia|]. destruct (lookup_lt_is_Some_2 fs (Z.to_nat (k - i))) as [g Hg]; [lia|].
      exists (Z.to_nat (k - i)), g. split_and!; [done|lia|]. replace k with (i + (k - i)) at 1 by lia.
      rewrite (fi_slots _ _ _ _ _ _ Hfill) by lia. unfold frame_entry. by rewrite (list_lookup_total_correct _ _ _ Hg). }
  assert (frames w' = frames w) as Efr by apply Hfill. rewrite Forall_forall in Hcl.
  split; rewrite ?Efr; try done.
  - rewrite (fi_rest _ _ _ _ _ _ Hfill); [done|]. intros j Hj. apply dir_word; [lia|by exists w].
  - intros k Hk Hh. destruct (Hsplit k Hk Hh) as [(Hh0 & Hout & ->)|(Hin & n & g & Hg & -> & ->)].
    + destruct (Hheld k Hk Hh0) as (Hne & f & E & Hf & Hff & _). split; [done|]. exists f.
      split_and!; [done|lia..|done|apply not_elem_of_nil].
    + split. { intros E. apply (pte_self kpt w (vw_ok _ _ Hvm)). rewrite <- E. apply Hfree. lia. }
      exists g. destruct (Hcl g) as [Hg1 Hg2]; [by eapply list_elem_of_lookup_2|].
      split_and!; [done|lia..|done|apply not_elem_of_nil].
  - intros k l Hk Hl Hhk Hhl E.
    destruct (Hsplit k Hk Hhk) as [(Hk0 & Hkout & Ek)|(Hkin & n & g & Hg & -> & Ek)],
      (Hsplit l Hl Hhl) as [(Hl0 & Hlout & El)|(Hlin & n' & g' & Hg' & -> & El)].
    + apply Hal; [done..|congruence].
    + destruct (Hheld k Hk Hk0) as (_ & f & Ef & _ & _ & Hno). destruct Hno.
      apply (list_elem_of_lookup_2 _ n'). rewrite Hg'. f_equal. lia.
    + destruct (Hheld l Hl Hl0) as (_ & f & Ef & _ & _ & Hno). destruct Hno.
      apply (list_elem_of_lookup_2 _ n). rewrite Hg. f_equal. lia.
    + assert (g = g') as <- by lia. by rewrite (NoDup_lookup _ _ _ _ Hnd Hg Hg').
  - split; [apply NoDup_nil_2|done].
  - exists (a + c). specialize (Hlow a Hsl). destruct Hsl as (Ha & Hal' & Haf).
    split_and!; [lia..|]. intros k Hk. rewrite (filled_rest _ _ _ _ _ _ Hfill) by lia. apply Haf. lia.
Qed.

Lemma fresh_own own blk va c : fresh_pages own blk va c -> 1 <= c ->
  (forall m, own !! va = Some m -> 1 <= m) -> own !! va = None.
Proof.
  intros Hf Hc Hpos. destruct (own !! va) as [m|] eqn:E; [|done].
  by destruct (fresh_not_owned own blk va c va m Hf ltac:(lia) E (Hpos m eq_refl)).
Qed.

Lemma inv_pos w own blk fs ns nf va m : mmu_inv w own blk fs ns nf -> own !! va = Some m -> 1 <= m.
Proof. intros Hinv Hva. by destruct (mi_own _ _ _ _ _ _ Hinv va m Hva) as (i & f & (_ & _ & ? & _) & _). Qed.

(** Extents handed out before keep their entries. *)
Lemma own_kept w own blk fs ns nf e i c w' : mmu_inv w own blk fs ns nf -> free_window kpt w i c -> 1 <= c ->
  filled kpt e i c w w' -> forall va m, own !! va = Some m -> exists i f, extent va m i /\
    forall j, 0 <= j < m -> pte kpt w' (i + j) = 4096 * (f + j) + 3.
Proof.
  intros Hinv Hw Hc Hfill va m Hva. destruct (mi_own _ _ _ _ _ _ Hinv va m Hva) as (k & f & Hext & Hpte).
  exists k, f. split; [done|]. intros j Hj. rewrite (filled_rest _ _ _ _ _ _ Hfill); [by apply Hpte|].
  intros Hin. destruct Hw as (_ & _ & Hfree). specialize (Hpte j Hj). rewrite Hfree in Hpte by done.
  destruct Hext as (-> & Hk & Hm & Hkm).
  destruct (mi_held _ _ _ _ _ _ Hinv (k + j)) as (_ & g & Eg & Hg & _); [lia| |].
  - left. exists (kernelstart + 4096 * k), m. rewrite va_page. split; [done|lia].
  - rewrite Hfree in Eg by done. lia.
Qed.

Lemma inv_map_own w own blk f ns nf i c w' : mmu_inv w own blk (seqZ f c) (c + ns) nf -> 1 <= c -> 0 <= ns ->
  free_window kpt w i c -> (forall a, free_window kpt w a (c + ns + 2) -> i <= a) ->
  vm_wf kpt w' -> filled kpt (frame_entry (seqZ f c)) i c w w' ->
  mmu_inv w' (<[kernelstart + 4096 * i := c]> own) blk [] ns nf.
Proof.
  intros Hinv Hc Hns Hw Hlow Hvm' Hfill. pose proof (inv_fresh _ _ _ _ _ _ i c Hinv Hw Hc) as Hf.
  set (va := kernelstart + 4096 * i) in *.
  assert (own !! va = None) as Hva.
  { apply (fresh_own own blk va c); [done..|]. intros m Hm. by eapply inv_pos. }
  apply (inv_map w own blk (seqZ f c) ns nf i c w'); try done.
  - rewrite length_seqZ. lia.
  - intros page. rewrite occupied_insert by done. unfold va. by rewrite va_page.
  - intros v m [[<- <-]|[_ Hv]]%lookup_insert_Some; [|by eapply own_kept].
    exists i, f. destruct Hw as (Hi & Hic & _). split; [done|]. intros j Hj.
    rewrite (fi_slots _ _ _ _ _ _ Hfill) by done. unfold frame_entry.
    rewrite (list_lookup_total_correct _ _ (f + j)); [lia|]. rewrite lookup_seqZ. lia.
  - apply (mi_blk _ _ _ _ _ _ Hinv).
  - intros v m page [[<- <-]|[Hne Hv]]%lookup_insert_Some Hp Ho.
    + rewrite delete_insert_eq in Ho. apply (proj2 Hf page Hp). by eapply occupied_delete.
    + rewrite delete_insert_ne in Ho by done.
      rewrite occupied_insert in Ho by (by rewrite lookup_delete_ne by done). destruct Ho as [Ho|Ho].
      * by apply (mi_disj _ _ _ _ _ _ Hinv v m page).
      * apply (proj2 Hf page Ho). left. eauto.
Qed.

Lemma inv_map_blk w own blk fs ns nf i w' : mmu_inv w own blk fs (16 + ns) nf -> length fs = 16%nat -> 0 <= ns ->
  free_window kpt w i 16 -> (forall a, free_window kpt w a (16 + ns + 2) -> i <= a) ->
  vm_wf kpt w' -> filled kpt (frame_entry fs) i 16 w w' ->
  mmu_inv w' own ({[kernelstart + 4096 * i]} ∪ blk) [] ns nf.
Proof.
  intros Hinv Hlen Hns Hw Hlow Hvm' Hfill. pose proof (inv_fresh _ _ _ _ _ _ i 16 Hinv Hw ltac:(lia)) as Hf.
  apply (inv_map w own blk fs ns nf i 16 w'); try done; [lia| | | |].
  - intros page. rewrite occupied_block. by rewrite va_page.
  - by eapply own_kept.
  - intros va [->%elem_of_singleton|Hin]%elem_of_union; [|by apply (mi_blk _ _ _ _ _ _ Hinv)].
    exists i. by destruct Hw as (? & ? & _).
  - intros v m page Hv Hp [Ho|Ho]%occupied_block; [by apply (mi_disj _ _ _ _ _ _ Hinv v m page)|].
    apply (proj2 Hf page Ho). left. eauto.
Qed.

(** An extent is unmapped: its frames are claimed again. *)
Lemma inv_unmap w own blk ns nf va m i f w' : mmu_inv w own blk [] ns nf -> own !! va = Some m ->
  extent va m i -> (forall j, 0 <= j < m -> pte kpt w (i + j) = 4096 * (f + j) + 3) ->
  vm_wf kpt w' -> filled kpt (fun _ => 0) i m w w' ->
  0 <= f /\ mmu_inv w' (delete va own) blk (seqZ f m) ns nf.
Proof.
  intros [Hvm Hph Hpde Hown Hblk Hdisj Hheld Hal _ [a Hsl] Hfr] Hva (-> & Hi & Hm & Him) Hpte Hvm' Hfill.
  assert (forall j, 0 <= j < m -> held own blk (i + j)) as Hin.
  { intros j Hj. left. exists (kernelstart + 4096 * i), m. rewrite va_page. split; [done|lia]. }
  assert (forall g, g ∈ seqZ f m -> 0 <= g < mm_limit (frames w) /\ is_free (frames w) g = false) as Hcl.
  { intros g Hg%elem_of_seqZ. destruct (Hheld (i + (g - f))) as (_ & g' & E & Hg' & Hfr' & _); [lia|apply Hin; lia|].
    rewrite Hpte in E by lia. by assert (g' = g) as -> by lia. }
  assert (forall k, 0 <= k < 1024 -> held (delete (kernelstart + 4096 * i) own) blk k ->
    held own blk k /\ ~ i <= k < i + m) as Hk'.
  { intros k Hk Hh. split; [by eapply occupied_delete|]. intros Hik.
    apply (Hdisj _ m (first_page + k) Hva); [rewrite va_page; lia|done]. }
  assert (frames w' = frames w) as Efr by apply Hfill.
  split; [apply Hcl, elem_of_seqZ; lia|]. split; rewrite ?Efr; try done.
  - rewrite (fi_rest _ _ _ _ _ _ Hfill); [done|]. intros j Hj. apply dir_word; [lia|by exists w].
  - intros v n [Hne Hv]%lookup_delete_Some. destruct (Hown v n Hv) as (k & g & Hext & Hg).
    exists k, g. split; [done|]. intros j Hj. rewrite (filled_rest _ _ _ _ _ _ Hfill); [by apply Hg|].
    destruct Hext as (-> & Hk & Hn & Hkn). apply Hk'; [lia|]. left. exists (kernelstart + 4096 * k), n.
    rewrite lookup_delete_ne, va_page by done. split; [done|lia].
  - intros v n page [Hne Hv]%lookup_delete_Some Hp Ho. apply (Hdisj v n page Hv Hp).
    rewrite delete_delete in Ho. by eapply occupied_delete.
  - intros k Hk Hh. destruct (Hk' k Hk Hh) as [Hh' Hout].
    destruct (Hheld k Hk Hh') as (Hne & g & E & Hg & Hfr' & _). split; [done|]. exists g.
    rewrite (filled_rest _ _ _ _ _ _ Hfill) by done. split_and!; [done|lia..|done|].
    intros Hs%elem_of_seqZ. apply Hout. rewrite (Hal k (i + (g - f))); [lia|done|lia|done|apply Hin; lia|].
    rewrite Hpte by lia. rewrite E. lia.
  - intros k l Hk Hl Hhk Hhl. destruct (Hk' k Hk Hhk) as [Hhk' Hko]. destruct (Hk' l Hl Hhl) as [Hhl' Hlo].
    rewrite !(filled_rest _ _ _ _ _ _ Hfill) by done. by apply Hal.
  - split; [apply NoDup_seqZ|]. by apply Forall_forall.
  - exists a. destruct Hsl as (Ha & Hal' & Haf). split_and!; [done..|]. intros k Hk.
    destruct (decide (i <= k < i + m)) as [Hik|Hout].
    + replace k with (i + (k - i)) by lia. by rewrite (fi_slots _ _ _ _ _ _ Hfill) by lia.
    + rewrite (filled_rest _ _ _ _ _ _ Hfill) by done. by apply Haf.
Qed.

(** ** The operations *)

Lemma entry_3 f : Z.lor (4096 * f) 3 = 4096 * f + 3.
Proof. apply lor_3. rewrite (Z.mul_comm 4096). by apply Z.mod_mul. Qed.

Lemma entry_frame f : (4096 * f + 3) / 4096 = f.
Proof. rewrite (Z.mul_comm 4096), Z.div_add_l by lia. change (3 / 4096) with 0. lia. Qed.

Lemma entry_present f : pt_present (4096 * f + 3) = true.
Proof.
  unfold pt_present. rewrite Z.bit0_odd. replace (4096 * f + 3) with (1 + 2 * (2048 * f + 1)) by lia.
  by rewrite Z.odd_add_mul_2.
Qed.

Lemma inv_two_slots w own blk fs ns nf : mmu_inv w own blk fs ns nf -> 0 <= ns -> has_two_slots kpt w.
Proof.
  intros Hinv Hns. destruct (mi_slots _ _ _ _ _ _ Hinv) as (a & Ha & Hal & Haf).
  exists a, (a + 1). split_and!; [lia..| |]; apply Haf; lia.
Qed.

Lemma inv_claimed_entry w own blk fs ns nf f : mmu_inv w own blk fs ns nf -> f ∈ fs ->
  0 <= 4096 * f + 3 < 2 ^ 32.
Proof.
  intros Hinv Hf. destruct (mi_claimed _ _ _ _ _ _ Hinv) as [_ Hcl]. rewrite Forall_forall in Hcl.
  destruct (Hcl f Hf) as [? _]. pose proof (pw_limit _ (mi_phys _ _ _ _ _ _ Hinv)) as Hlim.
  unfold PHYS_INDEX_MAX in Hlim. lia.
Qed.

Lemma phys_addr_ok w own blk fs ns nf va m i f : mmu_inv w own blk fs ns nf -> 0 <= ns ->
  own !! va = Some m -> extent va m i ->
  (forall j, 0 <= j < m -> pte kpt w (i + j) = 4096 * (f + j) + 3) ->
  get_phys_addr kpt pdbr va w = Ok (4096 * f, w).
Proof.
  intros Hinv Hns Hva (-> & Hi & Hm & Him) Hpte. specialize (Hpte 0 ltac:(lia)). rewrite !Z.add_0_r in Hpte.
  destruct (mi_held _ _ _ _ _ _ Hinv i) as (_ & g & E & Hg & _); [lia| |].
  { left. exists (kernelstart + 4096 * i), m. rewrite va_page. split; [done|lia]. }
  assert (g = f) as -> by lia. clear E.
  pose proof (pw_limit _ (mi_phys _ _ _ _ _ _ Hinv)) as Hlim. unfold PHYS_INDEX_MAX in Hlim.
  rewrite (get_phys_addr_ok kpt w pdbr _ (4096 * f)).
  - replace ((kernelstart + 4096 * i) mod 4096) with 0; [by rewrite Z.add_0_r, u32_small by lia|].
    rewrite (Z.mul_comm 4096), Z.mod_add; [done|lia].
  - apply Hinv.
  - by eapply inv_two_slots.
  - apply Hdir.
  - apply Hdir.
  - unfold kernelstart. lia.
  - unfold walk. replace ((kernelstart + 4096 * i) / 2 ^ 22) with 1023.
    2: { apply (Z.div_unique _ _ _ (4096 * i)); unfold kernelstart; lia. }
    destruct (mi_pde _ _ _ _ _ _ Hinv) as (e & -> & -> & -> & ->). cbn [negb].
    rewrite va_page. replace ((first_page + i) mod 1024) with i.
    2: { change first_page with (1023 * 1024). rewrite Z.add_comm, Z.mod_add by lia. by rewrite Z.mod_small by lia. }
    fold (pte kpt w i). rewrite Hpte, entry_frame, entry_present. cbn [negb]. f_equal. lia.
Qed.

Definition mapped own blk c ns nf (va : Z) w : Prop :=
  va <> 0 /\ fresh_pages own blk va c /\ mmu_inv w (<[va := c]> own) blk [] ns nf.

Lemma map_page_ok w own blk f ns nf : mmu_inv w own blk [f] (1 + ns) nf -> 0 <= ns ->
  wp (map_virtual_page kpt (Z.lor (4096 * f) 3)) (mapped own blk 1 ns nf) w.
Proof.
  intros Hinv Hns. eapply wp_mono; [apply map_virtual_page_wp, Hinv|]. rewrite entry_3.
  intros va w' [(i & Hi & Hfree & Hlow & -> & ->)|(_ & _ & Hno)].
  - assert (free_window kpt w i 1) as Hw.
    { split_and!; [lia..|]. intros k Hk. by assert (k = i) as -> by lia. }
    split; [unfold kernelstart; lia|]. split; [by eapply inv_fresh|].
    apply (inv_map_own w own blk f ns nf i 1); [done|lia|done|done| | |].
    + intros a (Ha & Hal & Haf). destruct (Z.le_gt_cases i a); [done|].
      by destruct (Hlow a ltac:(lia)); apply Haf; lia.
    + apply upd_wf; [apply Hinv| |eapply inv_claimed_entry; [done|set_solver]].
      intros ->. by apply (pte_self kpt w); [apply Hinv|].
    + change (seqZ f 1) with [f].
      pose proof (filled_upd kpt (frame_entry [f]) i 0 w w ltac:(lia) (filled_none _ _ _ _)) as H0.
      by rewrite Z.add_0_r in H0.
  - destruct (mi_slots _ _ _ _ _ _ Hinv) as (a & Ha & Hal & Haf).
    by destruct (Hno a); [lia|]; apply Haf; lia.
Qed.

(** The lowest window. *)
Lemma lowest_window w own blk fs ns nf i c : mmu_inv w own blk fs (c + ns) nf -> 0 <= ns ->
  (forall k, 0 <= k < i -> ~ free_window kpt w k c) ->
  forall a, free_window kpt w a (c + ns + 2) -> i <= a.
Proof.
  intros Hinv Hns Hlow a (Ha & Hal & Haf). destruct (Z.le_gt_cases i a); [done|]. exfalso.
  apply (Hlow a); [lia|]. split_and!; [lia..|]. intros k Hk. apply Haf. lia.
Qed.

Lemma inv_window w own blk fs ns nf c : mmu_inv w own blk fs (c + ns) nf -> 0 <= ns ->
  exists k, free_window kpt w k c.
Proof.
  intros Hinv Hns. destruct (mi_slots _ _ _ _ _ _ Hinv) as (a & Ha & Hal & Haf).
  exists a. split_and!; [lia..|]. intros k Hk. apply Haf. lia.
Qed.

Lemma map_contiguous_ok w own blk f ns nf c : mmu_inv w own blk (seqZ f c) (c + ns) nf -> 1 <= c -> 0 <= ns ->
  wp (map_contiguous_virtual_pages kpt (Z.lor (4096 * f) 3) c) (mapped own blk c ns nf) w.
Proof.
  intros Hinv Hc Hns. destruct (inv_window _ _ _ _ _ _ _ Hinv Hns) as [a Ha].
  unfold map_contiguous_virtual_pages.
  eapply wp_mono; [eapply (map_window_wp kpt w _ (frame_entry (seqZ f c)) c)|].
  - apply Hinv.
  - destruct Ha as (? & ? & _). lia.
  - intros j Hj. assert (seqZ f c !! Z.to_nat j = Some (f + j)) as Hl by (rewrite lookup_seqZ; lia).
    unfold frame_entry. rewrite (list_lookup_total_correct _ _ _ Hl), entry_3.
    pose proof (inv_claimed_entry _ _ _ _ _ _ (f + j) Hinv (list_elem_of_lookup_2 _ _ _ Hl)).
    rewrite u32_small by lia. split; [f_equal; lia|done].
  - intros va w' [(i & Hw & Hlow & -> & Hvm & Hfill)|(_ & _ & Hno)]; [|by destruct (Hno a)].
    split; [destruct Hw; unfold kernelstart; lia|]. split; [by eapply inv_fresh|].
    apply (inv_map_own w own blk f ns nf i c); try done. by eapply lowest_window.
Qed.

Lemma map_pages_ok w own blk fs ns nf : mmu_inv w own blk fs (16 + ns) nf -> length fs = 16%nat -> 0 <= ns ->
  wp (map_virtual_pages kpt ((fun f => Z.lor (4096 * f) 3) <$> fs) 16)
    (fun va w' => fresh_pages own blk va 16 /\ mmu_inv w' own ({[va]} ∪ blk) [] ns nf) w.
Proof.
  intros Hinv Hlen Hns. destruct (inv_window _ _ _ _ _ _ _ Hinv Hns) as [a Ha].
  unfold map_virtual_pages.
  eapply wp_mono; [eapply (map_window_wp kpt w _ (frame_entry fs) 16)|].
  - apply Hinv.
  - lia.
  - intros j Hj. destruct (lookup_lt_is_Some_2 fs (Z.to_nat j)) as [f Hf]; [lia|].
    rewrite list_lookup_fmap, Hf. cbn [fmap option_fmap option_map of_option]. unfold frame_entry.
    rewrite (list_lookup_total_correct _ _ _ Hf), entry_3. split; [done|].
    eapply inv_claimed_entry; [done|by eapply list_elem_of_lookup_2].
  - intros va w' [(i & Hw & Hlow & -> & Hvm & Hfill)|(_ & _ & Hno)]; [|by destruct (Hno a)].
    split; [by eapply inv_fresh|].
    apply (inv_map_blk w own blk fs ns nf i w'); try done. by eapply lowest_window.
Qed.

(** ** The laws *)

Definition mmu_holding w own blk (n : Z) : Prop := mmu_inv w own blk [] n n.

Lemma inv_le w own blk fs ns nf n : mmu_inv w own blk fs ns nf -> 0 <= n -> n <= ns -> n <= nf ->
  mmu_inv w own blk fs n n.
Proof.
  intros [Hvm Hph Hpde Hown Hblk Hdisj Hheld Hal Hcl [a (Ha & Hal' & Haf)] [b (Hb & Hbl & Hbf)]] H0 Hs Hf.
  split; try done.
  - exists a. split_and!; [lia..|]. intros k Hk. apply Haf. lia.
  - exists b. split_and!; [lia..|]. intros k Hk. apply Hbf. lia.
Qed.

Lemma mmu_page w own blk n : mmu_holding w own blk (1 + n) -> 0 <= n ->
  wp (@new_page mmu (mmu_pages kpt pdbr))
    (fun va w' => fresh_pages own blk va 1 /\ mmu_holding w' (<[va := 1]> own) blk n) w.
Proof.
  intros Hw Hn. unfold new_page. cbn [alloc_frame map_page mmu_pages]. apply wp_bind.
  eapply wp_mono; [by apply alloc_frame_ok|]. intros r w1 (f & -> & Hw1). apply wp_bind.
  eapply wp_mono; [by apply map_page_ok|]. intros va w2 (Hne & Hf & Hw2).
  rewrite (proj2 (Z.eqb_neq va 0)) by done. by apply wp_ret.
Qed.

(** The frames of a block. *)
Definition block_frames own blk ns nf (st : Z * list Z) w : Prop :=
  exists fs, st.2 = ((fun f => Z.lor (4096 * f) 3) <$> fs) /\ st.1 = Z.of_nat (length fs) /\ st.1 <= 16 /\
    mmu_inv w own blk fs ns (16 - st.1 + nf).

Lemma mmu_block w own blk n : mmu_holding w own blk (16 + n) -> 0 <= n ->
  wp (@new_block mmu (mmu_pages kpt pdbr))
    (fun va w' => fresh_pages own blk va 16 /\ mmu_holding w' own ({[va]} ∪ blk) n) w.
Proof.
  intros Hw Hn. unfold new_block. apply wp_bind.
  apply (wp_mloop _ (block_frames own blk (16 + n) n) _ (fun st _ => Z.to_nat (16 - st.1))).
  - intros [i es] s (fs & Ees & Ei & Hi & Hs). cbn [fst snd] in *. subst es. unfold frame_body.
    change POW2_MAX_POW_FRAMES with 16. zcase.
    + apply wp_bind. replace (16 - i + n) with (1 + (16 - (i + 1) + n)) in Hs by lia.
      eapply wp_mono; [apply (alloc_frame_ok _ _ _ _ _ _ Hs); lia|]. intros r s' (f & -> & Hs').
      apply wp_ret. split; [|cbn; lia]. exists (fs ++ [f]). cbn [fst snd].
      rewrite fmap_app, length_app. cbn [length]. split_and!; [done|lia|lia|done].
    + apply wp_ret. assert (i = 16) as -> by lia. cbn [map_pages mmu_pages].
      apply map_pages_ok; [|lia|done]. by replace (16 - 16 + n) with n in Hs by lia.
  - exists []. cbn [fst snd]. split_and!; [done..|]. by replace (16 - 0 + n) with (16 + n) by lia.
  - change (S (Z.to_nat POW2_MAX_POW_FRAMES)) with 17%nat. cbn [fst]. lia.
Qed.

(** Unmapping an extent and giving its frames back. *)
Lemma unmap_free_ok w own blk n va m i f : mmu_holding w own blk n -> own !! va = Some m -> extent va m i ->
  (forall j, 0 <= j < m -> pte kpt w (i + j) = 4096 * (f + j) + 3) ->
  wp (unmap_virtual_pages kpt va m ;;! on_frames (free_phys_frames (4096 * f) m))
    (fun _ w' => mmu_holding w' (delete va own) blk n) w.
Proof.
  intros Hw Hva Hext Hpte. pose proof Hext as (-> & Hi & Hm & Him). apply wp_bind. eapply wp_mono.
  - apply unmap_pages_wp; [apply Hw|done|lia|done|]. intros k Hk.
    destruct (mi_held _ _ _ _ _ _ Hw k) as [Hne _]; [lia| |done].
    left. exists (kernelstart + 4096 * i), m. rewrite va_page. split; [done|lia].
  - intros ? w1 [Hvm Hfill]. destruct (inv_unmap _ _ _ _ _ _ _ _ _ _ Hw Hva Hext Hpte Hvm Hfill) as [Hf Hw1].
    apply wp_frames. eapply wp_mono.
    + apply free_phys_frames_wp; [apply Hw1|done|done|]. destruct (mi_claimed _ _ _ _ _ _ Hw1) as [_ Hcl].
      rewrite Forall_forall in Hcl. destruct (Hcl (f + m - 1)) as [? _]; [apply elem_of_seqZ; lia|].
      pose proof (pw_limit _ (mi_phys _ _ _ _ _ _ Hw1)). lia.
    + intros ? p' Hmk. by apply (inv_release w1 _ _ [] n n f m p').
Qed.

Lemma mmu_grow w own blk n va p c used : mmu_holding w own blk (c + n) -> 0 <= n -> own !! va = Some p ->
  0 < c -> wp (@grow_table mmu (mmu_pages kpt pdbr) va p c used)
    (fun va' w' => fresh_pages own blk va' c /\ mmu_holding w' (<[va' := c]> (delete va own)) blk n) w.
Proof.
  intros Hw Hn Hva Hc. unfold grow_table. cbn [alloc_frames map_contiguous phys_addr unmap_pages free_frames mmu_pages].
  apply wp_bind. eapply wp_mono; [apply alloc_frames_ok; [exact Hw|lia|done]|]. intros r w1 (f & -> & Hw1).
  apply wp_bind. eapply wp_mono; [apply map_contiguous_ok; [exact Hw1|lia|done]|].
  intros va' w2 (Hne & Hf & Hw2). rewrite (proj2 (Z.eqb_neq va' 0)) by done. cbn [andb].
  assert (va <> va') as Hdiff.
  { apply (fresh_not_owned own blk va' c va p); [done|lia|done|]. exact (inv_pos _ _ _ _ _ _ _ _ Hw Hva). }
  assert (<[va' := c]> own !! va = Some p) as Hva' by (by rewrite lookup_insert_ne).
  destruct (mi_own _ _ _ _ _ _ Hw2 va p Hva') as (i & g & Hext & Hpte).
  apply wp_bind. unfold wp at 1. rewrite (phys_addr_ok _ _ _ _ _ _ _ _ _ _ Hw2 Hn Hva' Hext Hpte).
  apply wp_seq. eapply wp_mono; [exact (unmap_free_ok _ _ _ _ _ _ _ _ Hw2 Hva' Hext Hpte)|].
  intros ? w3 Hw3. apply wp_ret. split; [done|]. by rewrite delete_insert_ne in Hw3.
Qed.

Lemma mmu_release w own blk n va : mmu_holding w own blk n -> 0 <= n -> own !! va = Some 1 ->
  wp (@release_header mmu (mmu_pages kpt pdbr) va) (fun _ w' => mmu_holding w' (delete va own) blk n) w.
Proof.
  intros Hw Hn Hva. destruct (mi_own _ _ _ _ _ _ Hw va 1 Hva) as (i & f & Hext & Hpte).
  unfold release_header. cbn [phys_addr unmap_page free_frame mmu_pages]. apply wp_bind. unfold wp at 1.
  rewrite (phys_addr_ok _ _ _ _ _ _ _ _ _ _ Hw Hn Hva Hext Hpte). pose proof Hext as (-> & Hi & Hm & Him).
  apply wp_bind. unfold wp at 1. rewrite (unmap_slot kpt w i) by (done || lia || apply Hw).
  assert (filled kpt (fun _ => 0) i 1 w (upd_pte kpt i 0 w)) as Hfill.
  { pose proof (filled_upd kpt (fun _ => 0) i 0 w w ltac:(lia) (filled_none _ _ _ _)) as H0.
    by rewrite Z.add_0_r in H0. }
  assert (vm_wf kpt (upd_pte kpt i 0 w)) as Hvm.
  { apply upd_wf; [apply Hw| |lia]. apply (mi_held _ _ _ _ _ _ Hw i); [lia|].
    left. exists (kernelstart + 4096 * i), 1. rewrite va_page. split; [done|lia]. }
  destruct (inv_unmap _ _ _ _ _ _ _ _ _ _ Hw Hva Hext Hpte Hvm Hfill) as [Hf Hw1].
  apply wp_frames. eapply wp_mono.
  - apply free_phys_frame_wp; [apply Hw1|]. destruct (mi_claimed _ _ _ _ _ _ Hw1) as [_ Hcl].
    rewrite Forall_forall in Hcl. destruct (Hcl f) as [? _]; [apply elem_of_seqZ; lia|].
    pose proof (pw_limit _ (mi_phys _ _ _ _ _ _ Hw1)). lia.
  - intros ? p' Hmk. by apply (inv_release _ _ _ [] n n f 1 p').
Qed.

#[export] Instance mmu_laws : @PageLaws mmu (mmu_pages kpt pdbr).
Proof.
  apply (@Build_PageLaws _ (mmu_pages kpt pdbr) mmu_holding).
  - intros w own blk n m Hw Hm. apply (inv_le _ _ _ _ n n); [done|lia..].
  - apply mmu_page.
  - apply mmu_block.
  - apply mmu_release.
  - apply mmu_grow.
Defined.
End mmu.

(** ** The heap in physical memory *)

Section backed.
Context (kpt pdbr : Z) (Hdir : pdbr mod 4096 = 0 /\ 0 <= pdbr < 2 ^ 32 /\ pdbr <> kpt).

(** The frame behind a byte of a block. *)
Lemma byte_backed s own blk ub n b a :
  @pow2_wf mmu (mmu_pages kpt pdbr) (mmu_laws kpt pdbr Hdir) s own blk ub [] n -> b ∈ ub ->
  b.1 <= a < b.1 + 2 ^ b.2 -> let w := p2_world s in
  exists k f, 0 <= k < 1024 /\ held own blk k /\ a = kernelstart + 4096 * k + a mod 4096 /\
    pte kpt w k = 4096 * f + 3 /\ translate kpt a w = Ok (4096 * f + a mod 4096, w).
Proof.
  intros Hwf Hb Ha w. assert (mmu_inv kpt pdbr w own blk [] n n) as Hinv by apply (wf_holding _ _ _ _ _ _ Hwf).
  destruct (wf_byte_page _ _ _ _ _ _ b a Hwf ltac:(set_solver) Ha) as (v & Hv & Hpage).
  assert (occupied own blk (a / 4096)) as Ho by (right; eauto).
  destruct (inv_page _ _ _ _ _ _ _ _ _ Hinv Ho) as (k & Ek & Hk). unfold held.
  rewrite Ek in Ho. destruct (mi_held _ _ _ _ _ _ _ _ Hinv k Hk Ho) as (_ & f & Ef & Hf & _).
  pose proof (pw_limit _ (mi_phys _ _ _ _ _ _ _ _ Hinv)) as Hlim. unfold PHYS_INDEX_MAX in Hlim.
  assert (a = kernelstart + 4096 * k + a mod 4096) as Ea.
  { pose proof (Z.div_mod a 4096 ltac:(lia)). change kernelstart with (4096 * first_page). lia. }
  exists k, f. split_and!; try done; [lia..|]. pose proof (Z.mod_pos_bound a 4096 ltac:(lia)).
  rewrite Ea at 1. rewrite (translate_window kpt w k (a mod 4096) (4096 * f + 3)); try done.
  - rewrite frame_mask_div, entry_frame by lia. do 3 f_equal. lia.
  - apply entry_present.
  - rewrite (vw_stale _ _ (mi_vm _ _ _ _ _ _ _ _ Hinv)). apply not_elem_of_empty.
Qed.

(** C15: Every byte of a block in use is mapped, and different bytes, of one block or of
    two, are different bytes of physical memory. *)
Theorem pow2_blocks_backed s own blk ub n b b' a a' :
  @pow2_wf mmu (mmu_pages kpt pdbr) (mmu_laws kpt pdbr Hdir) s own blk ub [] n -> b ∈ ub -> b' ∈ ub ->
  b.1 <= a < b.1 + 2 ^ b.2 -> b'.1 <= a' < b'.1 + 2 ^ b'.2 ->
  exists pa pa', translate kpt a (p2_world s) = Ok (pa, p2_world s) /\
    translate kpt a' (p2_world s) = Ok (pa', p2_world s) /\ (pa = pa' <-> a = a').
Proof.
  intros Hwf Hb Hb' Ha Ha'. pose proof (mi_alias _ _ _ _ _ _ _ _ (wf_holding _ _ _ _ _ _ Hwf)) as Hal.
  destruct (byte_backed s own blk ub n b a Hwf Hb Ha) as (k & f & Hk & Hh & Ea & Ef & ->).
  destruct (byte_backed s own blk ub n b' a' Hwf Hb' Ha') as (k' & f' & Hk' & Hh' & Ea' & Ef' & ->).
  pose proof (Z.mod_pos_bound a 4096 ltac:(lia)). pose proof (Z.mod_pos_bound a' 4096 ltac:(lia)).
  do 2 eexists. split; [done|]. split; [done|]. split.
  - intros E. assert (f = f') as <- by lia. assert (k = k') as <- by (apply Hal; [done..|congruence]). lia.
  - intros <-. assert (k = k') as <- by lia. assert (f = f') as <- by lia. lia.
Qed.
End backed.

(** ** A machine *)

(** 4 GiB of memory of which all but the first 32 frames are free, the kernel page
    table in frame 1, the page directory in frame 2. *)
Definition heap_mmu : mmu :=
  mkMmu (list_to_map [(0x1FC4, 0x1003); (0x2FFC, 0x1003)]) ∅
    (mkPhys (0 :: replicate (Z.to_nat 32767) (2 ^ 32 - 1)) 0x100000).

Definition heap_start : pow2 mmu := mkPow2 [] 0 [] 0 heap_mmu.

Lemma heap_dir : 0x2000 mod 4096 = 0 /\ 0 <= 0x2000 < 2 ^ 32 /\ 0x2000 <> 0x1000.
Proof. by split_and!. Qed.

#[local] Existing Instance mmu_pages | 0.
#[local] Notation heap_laws := (mmu_laws 0x1000 0x2000 heap_dir).

Lemma heap_free k : 32 <= k < 0x100000 -> is_free (frames heap_mmu) k = true.
Proof.
  intros Hk. unfold is_free. cbn [frames heap_mmu mm_table]. rewrite Z.shiftr_div_pow2 by lia.
  pose proof (Z.div_le_lower_bound k 32 1 ltac:(lia) ltac:(lia)).
  pose proof (Z.div_lt_upper_bound k 32 32768 ltac:(lia) ltac:(lia)). change (2 ^ 5) with 32.
  destruct (Z.to_nat (k / 32)) as [|m] eqn:E; [lia|]. rewrite lookup_cons.
  rewrite lookup_replicate_2 by lia. change (2 ^ 32 - 1) with (Z.ones 32).
  pose proof (Z.mod_pos_bound k 32 ltac:(lia)). apply Z.ones_spec_low. lia.
Qed.

Lemma heap_holding : mmu_holding 0x1000 0x2000 heap_mmu ∅ ∅ 500.
Proof.
  assert (forall i, ~ held ∅ ∅ i) as Hnone.
  { intros i [(va & m & Hv & _)|(va & Hv & _)]; [by rewrite lookup_empty in Hv|set_solver]. }
  split.
  - split; [|done]. split; [|done|done|set_solver]. unfold mem_wf.
    cbn [pmem heap_mmu list_to_map foldr fst snd]. do 2 (apply map_Forall_insert_2; [lia|]).
    apply map_Forall_empty.
  - split; [done| |done]. cbn [frames heap_mmu mm_table]. apply Forall_cons. split; [lia|]. by apply Forall_replicate.
  - by exists 0x1003.
  - done.
  - set_solver.
  - intros va m page Hv. by rewrite lookup_empty in Hv.
  - intros i _ Hh. by destruct (Hnone i).
  - intros i j _ _ Hh. by destruct (Hnone i).
  - split; [apply NoDup_nil_2|done].
  - exists 0. split_and!; [lia..|]. intros k Hk. unfold pte, rd.
    cbn [pmem heap_mmu list_to_map foldr fst snd]. by rewrite !lookup_insert_ne, lookup_empty by lia.
  - exists 32. split_and!; [lia|done|]. intros k Hk. apply heap_free. lia.
Qed.

Lemma heap_room : @holding mmu _ heap_laws (p2_world heap_start) ∅ ∅ (13 + 487).
Proof.
  change (13 + 487) with 500. unfold mmu_laws, holding. cbn [p2_world heap_start]. exact heap_holding.
Qed.

(** The allocator after [pow2_init], and with a block of 128 bytes in use. *)
Lemma heap_ready : exists s own, pow2_used_table_pages s = 1 /\
  @pow2_wf mmu _ heap_laws s own ∅ [] [] 487.
Proof.
  destruct (@pow2_init_result mmu _ heap_laws heap_start 487 heap_room ltac:(lia)) as (s & own & _ & H).
  exists s, own. exact H.
Qed.

Lemma heap_used_one : exists s own blk ptr, @pow2_wf mmu _ heap_laws s own blk [(ptr, 7)] [] 469.
Proof.
  destruct heap_ready as (s & own & Hp & Hwf).
  pose proof (@alloc_block_ok mmu _ heap_laws s own ∅ [] 469 7) as Ha. rewrite Hp in Ha.
  apply wp_Ok in Ha as (ptr & s' & _ & _ & own' & blk' & Hwf'); [|done|lia|lia].
  by exists s', own', blk', ptr.
Qed.

Lemma pow2_init_correct_witness : exists s' own',
  @pow2_init mmu (mmu_pages 0x1000 0x2000) heap_start = Ok (tt, s') /\ @pow2_wf mmu _ heap_laws s' own' ∅ [] [] 487.
Proof. apply (@pow2_init_correct mmu _ heap_laws heap_start 487); [apply heap_room|lia]. Defined.

Lemma pow2_alloc_correct_witness : exists s own index ptr s' own' blk',
  @pow2_wf mmu _ heap_laws s own ∅ [] [] 487 /\
  @pow2_alloc mmu (mmu_pages 0x1000 0x2000) 100 s = Ok ((index, ptr), s') /\
  @pow2_wf mmu _ heap_laws s' own' blk' [(ptr, index)] [] 469 /\
  100 <= 2 ^ index /\ (index = 5 \/ 2 ^ (index - 1) < 100) /\ block_apart own' (ptr, index).
Proof.
  destruct heap_ready as (s & own & Hp & Hwf). exists s, own.
  destruct (@pow2_alloc_correct mmu _ heap_laws s own ∅ [] 469 100) as (index & ptr & s' & own' & blk' & H);
    [by rewrite Hp|lia|lia|]. exists index, ptr, s', own', blk'. tauto.
Defined.

Lemma pow2_alloc_oversize_witness : exists s own, @pow2_wf mmu _ heap_laws s own ∅ [] [] 487 /\
  pow2_compute_index 70000 = 16 /\ @pow2_alloc mmu (mmu_pages 0x1000 0x2000) 70000 s = Err OutOfBounds.
Proof.
  destruct heap_ready as (s & own & Hp & Hwf). exists s, own. split; [done|].
  apply (@pow2_alloc_oversize mmu _ heap_laws s own ∅ [] 469); [by rewrite Hp|lia|lia].
Defined.

Lemma pow2_free_correct_witness : exists s own blk ptr s' own' ub',
  @pow2_wf mmu _ heap_laws s own blk [(ptr, 7)] [] 469 /\
  @pow2_free mmu (mmu_pages 0x1000 0x2000) ptr s = Ok (tt, s') /\ [(ptr, 7)] ≡ₚ (ptr, 7) :: ub' /\
  @pow2_wf mmu _ heap_laws s' own' blk ub' [] 468.
Proof.
  destruct heap_used_one as (s & own & blk & ptr & Hwf).
  destruct (@pow2_free_correct mmu _ heap_laws s own blk [(ptr, 7)] 468 ptr 7) as (s' & own' & ub' & H);
    [done|lia|set_solver|]. by exists s, own, blk, ptr, s', own', ub'.
Defined.

Lemma pow2_free_unknown_witness : exists s own, @pow2_wf mmu _ heap_laws s own ∅ [] [] 487 /\
  @pow2_free mmu (mmu_pages 0x1000 0x2000) 64 s = Ok (tt, s).
Proof.
  destruct heap_ready as (s & own & _ & Hwf). exists s, own. split; [done|].
  apply (@pow2_free_unknown mmu _ heap_laws s own ∅ [] [] 487); [done|set_solver].
Defined.

Lemma pow2_blocks_backed_witness : exists (s : pow2 mmu) ptr pa pa',
  translate 0x1000 ptr (p2_world s) = Ok (pa, p2_world s) /\
  translate 0x1000 (ptr + 127) (p2_world s) = Ok (pa', p2_world s) /\ (pa = pa' <-> ptr = ptr + 127).
Proof.
  destruct heap_used_one as (s & own & blk & ptr & Hwf). exists s, ptr.
  apply (pow2_blocks_backed 0x1000 0x2000 heap_dir s own blk [(ptr, 7)] 469 (ptr, 7) (ptr, 7));
    [done|set_solver|set_solver|cbn..]; lia.
Defined.
