(* ===== verification/Vfat.v ===== *)
(** * The VFAT reader: fs/vfat/fsys_vfat.c

    FAT12, FAT16 and FAT32 on a USB disk.  [fsys_buf] holds the superblock data
    ([fat_superblock]), a cache of 2048 bytes of the FAT ([fat_buf]) and the buffer
    for file names ([name_buf]); they are fields of the state.  A word read at the end
    of the cache takes its last bytes from the superblock, which follows the cache.

    The disk is a parameter: [umsc_read_sector] gives the 512 bytes of a sector, or
    fails.  The bytes that a read stores at its target are a list; [None] is a byte of
    the target that is left as it was.  [isspace], [substring] and
    [skip_slashes] are those of [Ext2]; the code is the same in both files. *)

From Stdlib Require Import ZArith Lia.
From S2P Require Import Prelude Ext2.
From stdpp Require Import base gmap numbers strings list.
Local Open Scope Z_scope.

(** ** Constants and data *)

Definition VFAT_FIRST_PARTITION : Z := 63.
Definition MAXINT : Z := 0x7FFFFFFF.
Definition FAT_MAX_12BIT_CLUST : Z := 4087.
Definition FAT_ATTRIB_NOT_OK_MASK : Z := 0xC8.
Definition FAT_ATTRIB_DIR : Z := 0x10.
Definition FAT_ATTRIB_LONGNAME : Z := 0x0F.
Definition FAT_DIRENTRY_LENGTH : Z := 32.
Definition FAT_CACHE_SIZE : Z := 2048.

Record fat_superblock := mkSuper {
  fat_offset : Z;
  fat_length : Z;
  fat_size : Z;
  root_offset : Z;
  root_max : Z;
  data_offset : Z;
  num_sectors : Z;
  num_clust : Z;
  clust_eof_marker : Z;
  sects_per_clust : Z;
  sectsize_bits : Z;
  clustsize_bits : Z;
  root_cluster : Z;
  cached_fat : Z;
  file_cluster : Z;
  current_cluster_num : Z;
  current_cluster : Z
}.

Record vfat := mkVfat {
  fat_super : fat_superblock;
  fat_buf : list Z;
  name_buf : list Z;
  v_errnum : Z;
  v_filepos : Z;
  v_filemax : Z;
  v_mounted : bool
}.

Definition set_super (x : fat_superblock) (s : vfat) : vfat :=
  mkVfat x (fat_buf s) (name_buf s) (v_errnum s) (v_filepos s) (v_filemax s) (v_mounted s).
Definition set_fat_buf (x : list Z) (s : vfat) : vfat :=
  mkVfat (fat_super s) x (name_buf s) (v_errnum s) (v_filepos s) (v_filemax s) (v_mounted s).
Definition set_name_buf (x : list Z) (s : vfat) : vfat :=
  mkVfat (fat_super s) (fat_buf s) x (v_errnum s) (v_filepos s) (v_filemax s) (v_mounted s).
Definition set_v_errnum (x : Z) (s : vfat) : vfat :=
  mkVfat (fat_super s) (fat_buf s) (name_buf s) x (v_filepos s) (v_filemax s) (v_mounted s).
Definition set_v_filepos (x : Z) (s : vfat) : vfat :=
  mkVfat (fat_super s) (fat_buf s) (name_buf s) (v_errnum s) x (v_filemax s) (v_mounted s).
Definition set_v_filemax (x : Z) (s : vfat) : vfat :=
  mkVfat (fat_super s) (fat_buf s) (name_buf s) (v_errnum s) (v_filepos s) x (v_mounted s).
Definition set_v_mounted (x : bool) (s : vfat) : vfat :=
  mkVfat (fat_super s) (fat_buf s) (name_buf s) (v_errnum s) (v_filepos s) (v_filemax s) x.

(** The fields that change after the mount. *)
Definition set_cached_fat (x : Z) (b : fat_superblock) : fat_superblock :=
  mkSuper (fat_offset b) (fat_length b) (fat_size b) (root_offset b) (root_max b) (data_offset b)
    (num_sectors b) (num_clust b) (clust_eof_marker b) (sects_per_clust b) (sectsize_bits b)
    (clustsize_bits b) (root_cluster b) x (file_cluster b) (current_cluster_num b) (current_cluster b).
Definition set_file_cluster (x : Z) (b : fat_superblock) : fat_superblock :=
  mkSuper (fat_offset b) (fat_length b) (fat_size b) (root_offset b) (root_max b) (data_offset b)
    (num_sectors b) (num_clust b) (clust_eof_marker b) (sects_per_clust b) (sectsize_bits b)
    (clustsize_bits b) (root_cluster b) (cached_fat b) x (current_cluster_num b) (current_cluster b).
Definition set_current (num c : Z) (b : fat_superblock) : fat_superblock :=
  mkSuper (fat_offset b) (fat_length b) (fat_size b) (root_offset b) (root_max b) (data_offset b)
    (num_sectors b) (num_clust b) (clust_eof_marker b) (sects_per_clust b) (sectsize_bits b)
    (clustsize_bits b) (root_cluster b) (cached_fat b) (file_cluster b) num c.

Definition on_super (f : fat_superblock -> fat_superblock) : M vfat unit :=
  modify (fun s => set_super (f (fat_super s)) s).

(** The bytes of a word. *)
Definition bytes32 (x : Z) : list Z := (fun k => u32 x / 2 ^ (8 * k) mod 256) <$> seqZ 0 4.

(** [l] with the bytes [new] stored at its start; [None] leaves a byte as it was. *)
Fixpoint overlay (new : list (option Z)) (l : list Z) : list Z :=
  match new, l with
  | o :: new', x :: l' => default x o :: overlay new' l'
  | _, _ => l
  end.

Section vfat.
Context (umsc_read_sector : Z -> option (list Z)).

(** ** The device *)

(** One sector; [byte_offset] is compared as an unsigned number. *)
Definition devread_body (byte_len : Z) (st : Z * Z * Z * list Z)
  : outcome (control (Z * Z * Z * list Z) (Z * list Z)) :=
  let '(len, sector, byte_offset, out) := st in
  if 0 <? len then
    match umsc_read_sector (u32 sector) with
    | None => Ok (Break (0, out))
    | Some s =>
        let room := u32 (512 - byte_offset) in
        let seclen := if room <? len then s32 room else len in
        if (byte_offset <? 0) || (512 <? byte_offset + seclen) then Err OutOfBounds
        else
          Ok (Continue (len - seclen, s32 (sector + 1), 0,
                        out ++ take (Z.to_nat seclen) (drop (Z.to_nat byte_offset) s)))
    end
  else Ok (Break (byte_len, out)).

(** The result, and the bytes stored at [buf]. *)
Definition devread_vfat (sector byte_offset byte_len : Z) : outcome (Z * list Z) :=
  let sector := s32 (sector + VFAT_FIRST_PARTITION) in
  loop (S (S (Z.to_nat byte_len))) (devread_body byte_len) (byte_len, sector, byte_offset, []).

(** [bsfl]: the lowest set bit. *)
Definition fat_log2 (word : Z) : outcome Z :=
  match list_find (fun k => Z.testbit word k = true) (seqZ 0 32) with
  | Some (_, k) => Ok k
  | None => Err (Panic "bsf of zero")
  end.

(** ** Mounting *)

(** The fields of [struct fat_bpb], at their offsets. *)
Record fat_bpb := mkBpb {
  bytes_per_sect : Z;
  b_sects_per_clust : Z;
  reserved_sects : Z;
  num_fats : Z;
  dir_entries : Z;
  short_sectors : Z;
  media : Z;
  b_fat_length : Z;
  long_sectors : Z;
  fat32_length : Z;
  bpb_flags : Z;
  b_root_cluster : Z
}.
Definition sizeof_bpb : Z := 64.

Definition parse_bpb (l : list Z) : outcome fat_bpb :=
  let? bps := le16 l 11 in
  let? spc := byte_at l 13 in
  let? res := le16 l 14 in
  let? nf := byte_at l 16 in
  let? de := le16 l 17 in
  let? ss := le16 l 19 in
  let? md := byte_at l 21 in
  let? fl := le16 l 22 in
  let? ls := le32 l 32 in
  let? f32 := le32 l 36 in
  let? fg := le16 l 40 in
  let? rc := le32 l 44 in
  Ok (mkBpb bps spc res nf de ss md fl ls f32 fg rc).

(** The superblock data of the first part; the last four fields keep their values. *)
Definition super_of (bpb : fat_bpb) (sbits cbits : Z) (old : fat_superblock) : fat_superblock :=
  let nsect := if short_sectors bpb =? 0 then s32 (long_sectors bpb) else short_sectors bpb in
  let foff := reserved_sects bpb in
  let flen := if b_fat_length bpb =? 0 then s32 (fat32_length bpb) else b_fat_length bpb in
  let roff := s32 (foff + s32 (num_fats bpb * flen)) in
  let rmax := FAT_DIRENTRY_LENGTH * dir_entries bpb in
  let doff := s32 (s32 (roff + Z.shiftr (rmax - 1) sbits) + 1) in
  let nclust := s32 (2 + Z.quot (s32 (nsect - doff)) (b_sects_per_clust bpb)) in
  mkSuper foff flen (fat_size old) roff rmax doff nsect nclust (clust_eof_marker old)
    (b_sects_per_clust bpb) sbits cbits (root_cluster old) (cached_fat old) (file_cluster old)
    (current_cluster_num old) (current_cluster old).

(** [fat_offset], [fat_size], [root_cluster] and [clust_eof_marker]; [None] is
    [return 0]. *)
Definition with_type (off size root eof : Z) (b : fat_superblock) : fat_superblock :=
  mkSuper off (fat_length b) size (root_offset b) (root_max b) (data_offset b) (num_sectors b)
    (num_clust b) eof (sects_per_clust b) (sectsize_bits b) (clustsize_bits b) root (cached_fat b)
    (file_cluster b) (current_cluster_num b) (current_cluster b).

Definition fat_type (bpb : fat_bpb) (b : fat_superblock) : option fat_superblock :=
  if b_fat_length bpb =? 0 then
    if negb (dir_entries bpb =? 0) then None
    else
      let root := s32 (b_root_cluster bpb) in
      if negb (Z.land (bpb_flags bpb) 0x80 =? 0) then
        let active_fat := Z.land (bpb_flags bpb) 0xF in
        if num_fats bpb <=? active_fat then None
        else Some (with_type (s32 (fat_offset b + s32 (active_fat * fat_length b))) 8 root 0xffffff8 b)
      else Some (with_type (fat_offset b) 8 root 0xffffff8 b)
  else if root_max b =? 0 then None
  else if FAT_MAX_12BIT_CLUST <? num_clust b then Some (with_type (fat_offset b) 4 (-1) 0xfff8 b)
  else Some (with_type (fat_offset b) 3 (-1) 0xff8 b).

(** The sanity checks. *)
Definition super_sane (bpb : fat_bpb) (b : fat_superblock) : bool :=
  (bytes_per_sect bpb =? s32 (Z.shiftl 1 (sectsize_bits b))) &&
  (bytes_per_sect bpb =? SECTOR_SIZE) &&
  (b_sects_per_clust bpb =? s32 (Z.shiftl 1 (clustsize_bits b - sectsize_bits b))) &&
  (2 <? num_clust b) &&
  (Z.quot (s32 (fat_size b * num_clust b)) (2 * SECTOR_SIZE) <=? fat_length b).

(** The media check on the first FAT entry. *)
Definition media_ok (bpb : fat_bpb) (size first_fat : Z) : bool :=
  let '(first_fat, magic) :=
    if size =? 8 then (Z.land first_fat 0x0fffffff, 0x0fffff00)
    else if size =? 4 then (Z.land first_fat 0xffff, 0xff00)
    else (Z.land first_fat 0xfff, 0x0f00) in
  Z.lor first_fat 8 =? Z.lor (Z.lor magic (media bpb)) 8.

(** When the type is rejected or a check fails, what was written to the superblock
    stays there. *)
Definition vfat_mount : M vfat Z :=
  let! '(ok, bytes) := lift (devread_vfat 0 0 sizeof_bpb) in
  if ok =? 0 then ret 0
  else
    let! bpb := lift (parse_bpb bytes) in
    if b_sects_per_clust bpb =? 0 then ret 0
    else
      let! sbits := lift (fat_log2 (bytes_per_sect bpb)) in
      let! spcbits := lift (fat_log2 (b_sects_per_clust bpb)) in
      on_super (super_of bpb sbits (sbits + spcbits)) ;;!
      let! b := gets fat_super in
      match fat_type bpb b with
      | None => ret 0
      | Some b =>
          on_super (fun _ => b) ;;!
          if negb (super_sane bpb b) then ret 0
          else
            let! '(ok, bytes) := lift (devread_vfat (fat_offset b) 0 4) in
            if ok =? 0 then ret 0
            else
              let! first_fat := lift (le32 bytes 0) in
              if negb (media_ok bpb (fat_size b) first_fat) then ret 0
              else
                on_super (set_cached_fat (-2 * FAT_CACHE_SIZE)) ;;!
                modify (set_v_mounted true) ;;!
                ret 1
      end.

(** ** Reading *)

(** [if (!devread_vfat (..., FAT_BUF)) return 0] *)
Definition load_fat (sector : Z) : M vfat bool :=
  let! '(ok, bytes) := lift (devread_vfat sector 0 FAT_CACHE_SIZE) in
  modify (fun s => set_fat_buf (overlay (Some <$> bytes) (fat_buf s)) s) ;;!
  ret (negb (ok =? 0)).

(** The FAT entry of a cluster; [None] when the FAT could not be read. *)
Definition next_cluster (b : fat_superblock) : M vfat (option Z) :=
  let fat_entry := s32 (current_cluster b * fat_size b) in
  let cached_pos := s32 (fat_entry - cached_fat b) in
  let! '(ok, cached_pos) :=
    (if (cached_pos <? 0) || (2 * FAT_CACHE_SIZE <? cached_pos + fat_size b) then
       let cf := Z.ldiff fat_entry (2 * SECTOR_SIZE - 1) in
       on_super (set_cached_fat cf) ;;!
       let sector := s32 (fat_offset b + Z.quot cf (2 * SECTOR_SIZE)) in
       let! ok := load_fat sector in
       ret (ok, fat_entry - cf)
     else ret (true, cached_pos)) in
  if negb ok then ret None
  else
    let! buf := gets fat_buf in
    let! w := lift (le32 (buf ++ bytes32 (fat_offset b)) (Z.shiftr cached_pos 1)) in
    let next := s32 w in
    ret (Some (
      if fat_size b =? 3 then
        Z.land (if negb (Z.land cached_pos 1 =? 0) then Z.shiftr next 4 else next) 0xFFF
      else if fat_size b =? 4 then Z.land next 0xFFFF
      else next)).

(** The search for the cluster [logical_clust]; [Break (Some r)] is [return r]. *)
Definition chase_body (logical_clust ret_so_far : Z) (_ : unit) : M vfat (control unit (option Z)) :=
  let! b := gets fat_super in
  if current_cluster_num b <? logical_clust then
    let! n := next_cluster b in
    match n with
    | None => ret (Break (Some 0))
    | Some next =>
        if clust_eof_marker b <=? next then ret (Break (Some ret_so_far))
        else if (next <? 2) || (num_clust b <=? next) then
          modify (set_v_errnum ERR_FSYS_CORRUPT) ;;! ret (Break (Some 0))
        else
          on_super (fun b' => set_current (s32 (current_cluster_num b' + 1)) next b') ;;!
          ret (Continue tt)
    end
  else ret (Break None).

(** The bytes of one piece; what could not be read is left as it was. *)
Definition piece (size : Z) (bytes : list Z) : list (option Z) :=
  (Some <$> bytes) ++ replicate (Z.to_nat size - length bytes) None.

(** [len], [logical_clust], [offset], [ret] and the bytes stored so far. *)
Definition vread_body (st : Z * Z * Z * Z * list (option Z))
  : M vfat (control (Z * Z * Z * Z * list (option Z)) (Z * list (option Z))) :=
  let '(len, logical_clust, offset, n, out) := st in
  if 0 <? len then
    let! b := gets fat_super in
    let! r := mloop (S (Z.to_nat (logical_clust - current_cluster_num b))) (chase_body logical_clust n) tt in
    match r with
    | Some v => ret (Break (v, out))
    | None =>
        let! b := gets fat_super in
        let sector := s32 (data_offset b +
          s32 (Z.shiftl (current_cluster b - 2) (clustsize_bits b - sectsize_bits b))) in
        let size := s32 (Z.shiftl 1 (clustsize_bits b)) - offset in
        let size := if len <? size then len else size in
        let! '(_, bytes) := lift (devread_vfat sector offset size) in
        modify (fun s => set_v_filepos (s32 (v_filepos s + size)) s) ;;!
        ret (Continue (len - size, logical_clust + 1, 0, s32 (n + size), out ++ piece size bytes))
    end
  else
    let! e := gets v_errnum in
    ret (Break (if e =? 0 then n else 0, out)).

(** The result, and the bytes stored at [buf]. *)
Definition vfat_read (len : Z) : M vfat (Z * list (option Z)) :=
  modify (set_v_errnum 0) ;;!
  let! b := gets fat_super in
  let! fp := gets v_filepos in
  if file_cluster b <? 0 then
    let size := s32 (root_max b - fp) in
    let size := if len <? size then len else size in
    let! '(ok, bytes) := lift (devread_vfat (root_offset b) fp size) in
    if ok =? 0 then ret (0, piece size bytes)
    else
      modify (set_v_filepos (s32 (fp + size))) ;;!
      ret (size, piece size bytes)
  else
    let logical_clust := Z.shiftr fp (clustsize_bits b) in
    let offset := Z.land fp (s32 (Z.shiftl 1 (clustsize_bits b)) - 1) in
    when (logical_clust <? current_cluster_num b) (on_super (set_current 0 (file_cluster b))) ;;!
    mloop (S (Z.to_nat len)) vread_body (len, logical_clust, offset, 0, []).

(** ** Directories *)

Definition tolower (c : Z) : Z := if (65 <=? c) && (c <=? 90) then c + 32 else c.

(** [filename[i] = c] *)
Definition set_name (i c : Z) : M vfat unit :=
  let! nb := gets name_buf in
  if (i <? 0) || (Z.of_nat (length nb) <=? i) then fail OutOfBounds
  else modify (set_name_buf (<[Z.to_nat i := c]> nb)).

(** The C string at the start of a buffer. *)
Fixpoint c_str (l : list Z) : list Z :=
  match l with
  | [] => []
  | c :: l' => if c =? 0 then [] else c :: c_str l'
  end.

Definition longdir_pos : list Z := [1; 3; 5; 7; 9; 14; 16; 18; 20; 22; 24; 28; 30].

Fixpoint copy_long (e : list Z) (at_ : Z) (pos : list Z) : M vfat unit :=
  match pos with
  | [] => ret tt
  | p :: pos' =>
      let! c := lift (byte_at e p) in
      set_name at_ c ;;!
      copy_long e (at_ + 1) pos'
  end.

(** An entry of a long name; the new [slot] and [alias_checksum]. *)
Definition long_entry (e : list Z) (slot alias : Z) : M vfat (Z * Z) :=
  let! id := lift (byte_at e 0) in
  let! sum := lift (byte_at e 13) in
  let! '(id, slot, alias) :=
    (if negb (Z.land id 0x40 =? 0) then
       let id := Z.land id 0x3f in
       set_name (id * 13) 0 ;;!
       ret (id, id, sum)
     else ret (id, slot, alias)) in
  if negb (id =? slot) || (slot =? 0) || negb (alias =? sum) then ret (slot, -1)
  else
    let slot := slot - 1 in
    copy_long e (slot * 13) longdir_pos ;;!
    ret (slot, alias).

Definition alias_sum (e : list Z) : Z :=
  foldl (fun sum b => u8 (Z.lor (Z.shiftr sum 1) (Z.shiftl sum 7) + b)) 0 (take 11 e).

(** One of the two loops of the 8.3 conversion, from index [i] of [filename]. *)
Fixpoint copy_short (i : Z) (cs : list Z) : M vfat Z :=
  match cs with
  | [] => ret i
  | c :: cs' =>
      let c := tolower c in
      set_name i c ;;!
      if (c =? 0) || isspace c then ret i else copy_short (i + 1) cs'
  end.

Definition short_name (e : list Z) : M vfat unit :=
  let! i := copy_short 0 (take 8 e) in
  set_name i 46 ;;!
  let! k := copy_short (i + 1) (take 3 (drop 8 e)) in
  set_name (if k =? i + 1 then i else k) 0.

Definition entry_valid (e : list Z) : outcome bool :=
  let? c := byte_at e 0 in
  let? a := byte_at e 11 in
  Ok (negb (c =? 0) && negb (c =? 0xE5) && (Z.land a FAT_ATTRIB_NOT_OK_MASK =? 0)).

(** [substring (dirname, filename) == 0] *)
Definition name_matches (component : list Z) : M vfat bool :=
  let! nb := gets name_buf in
  ret (substring component (c_str nb) =? 0).

(** One entry of the directory: [dir_buf], [slot] and [alias_checksum]; the loop is
    left with the entry found, or with [None]. *)
Definition scan_body (component : list Z) (st : list Z * Z * Z)
  : M vfat (control (list Z * Z * Z) (bool * (list Z * Z * Z))) :=
  let '(dir_buf, slot, alias) := st in
  let! '(n, bytes) := vfat_read FAT_DIRENTRY_LENGTH in
  let e := overlay bytes dir_buf in
  let! c0 := lift (byte_at e 0) in
  if negb (n =? FAT_DIRENTRY_LENGTH) || (c0 =? 0) then ret (Break (false, (e, slot, alias)))
  else
    let! attrib := lift (byte_at e 11) in
    if attrib =? FAT_ATTRIB_LONGNAME then
      let! '(slot, alias) := long_entry e slot alias in
      ret (Continue (e, slot, alias))
    else
      let! valid := lift (entry_valid e) in
      if negb valid then ret (Continue (e, slot, alias))
      else
        let! '(slot, hit) :=
          (if negb (alias =? -1) && (slot =? 0) then
             if alias_sum e =? alias then
               let! m := name_matches component in ret (-2, m)
             else ret (-2, false)
           else ret (slot, false)) in
        if hit : bool then ret (Break (true, (e, slot, alias)))
        else
          short_name e ;;!
          let! m := name_matches component in
          ret (if m : bool then Break (true, (e, slot, alias)) else Continue (e, slot, alias)).

(** The first component of a path and the rest. *)
Fixpoint split_component (l : list Z) : list Z * list Z :=
  match l with
  | [] => ([], [])
  | c :: l' =>
      if isspace c || (c =? 47) then ([], l)
      else let '(a, b) := split_component l' in (c :: a, b)
  end.

Definition at_end (dirname : list Z) : bool :=
  match dirname with [] => true | c :: _ => isspace c end.

(** A round of the main loop: the rest of the path, [attrib], and the state of the
    search.  The result comes with the path, which is cut at the end of the component
    when a read failed.  [fuel] bounds the entries of a directory. *)
Definition vfat_dir_body (fuel : nat) (path : list Z) (st : list Z * Z * (list Z * Z * Z))
  : M vfat (control (list Z * Z * (list Z * Z * Z)) (Z * list Z)) :=
  let '(dirname, attrib, scan) := st in
  let is_dir := negb (Z.land attrib FAT_ATTRIB_DIR =? 0) in
  if at_end dirname then
    if is_dir then modify (set_v_errnum ERR_BAD_FILETYPE) ;;! ret (Break (-1, path))
    else let! m := gets v_filemax in ret (Break (m, path))
  else
    let dirname := skip_slashes dirname in
    if negb is_dir then modify (set_v_errnum ERR_BAD_FILETYPE) ;;! ret (Break (-1, path))
    else
      modify (set_v_filemax MAXINT) ;;!
      let '(component, rest) := split_component dirname in
      let! '(found, scan) := mloop fuel (scan_body component) scan in
      if negb found then
        let! e := gets v_errnum in
        if e =? 0 then modify (set_v_errnum ERR_FILE_NOT_FOUND) ;;! ret (Break (-1, path))
        else ret (Break (-1, <[(length path - length rest)%nat := 0]> path))
      else
        let e := scan.1.1 in
        let! attrib := lift (byte_at e 11) in
        let! size := lift (le32 e 28) in
        let! lo := lift (le16 e 26) in
        let! hi := lift (le16 e 20) in
        modify (set_v_filemax (s32 size)) ;;!
        modify (set_v_filepos 0) ;;!
        on_super (fun b => set_current MAXINT (current_cluster b)
          (set_file_cluster (s32 (lo + s32 (Z.shiftl hi 16))) b)) ;;!
        ret (Continue (rest, attrib, scan)).

(** [junk] is what the array [dir_buf] holds at first. *)
Definition vfat_dir (fuel : nat) (junk path : list Z) : M vfat (Z * list Z) :=
  let! m := gets v_mounted in
  when (negb m) (vfat_mount ;;! ret tt) ;;!
  on_super (fun b => set_current MAXINT (current_cluster b) (set_file_cluster (root_cluster b) b)) ;;!
  modify (set_v_filepos 0) ;;!
  mloop (S (S (length path))) (vfat_dir_body fuel path) (path, FAT_ATTRIB_DIR, (junk, -2, -1)).
End vfat.
