(* ===== verification/VfatThm.v ===== *)
(** * The VFAT reader: theorems

    The reference definitions are on the bytes of the disk: [fat_entry] is the entry of
    a cluster in the FAT, [cluster_after] follows the chain of a file, [file_byte] is a
    byte of the file.  [vfat_read] returns the bytes of the file up to the end of the
    chain, through the cache of the FAT and the cursor that it keeps between calls. *)

From Stdlib Require Import ZArith Lia.
From S2P Require Import Prelude Ext2 Ext2Thm Vfat.
From stdpp Require Import base gmap numbers strings list.
Local Open Scope Z_scope.

(** A disk that reads without errors. *)
Definition sound (disk : Z -> Z) : Z -> option (list Z) := fun lba => Some (bytes_at disk (512 * lba) 512).

Section disk.
Context (disk : Z -> Z).

(** ** The device *)

Lemma bytes_drop a n o : 0 <= o <= n -> drop (Z.to_nat o) (bytes_at disk a n) = bytes_at disk (a + o) (n - o).
Proof.
  intros Ho. replace n with (o + (n - o)) at 1 by lia. rewrite bytes_at_app by lia.
  apply drop_app_length'. pose proof (bytes_at_length disk a o). lia.
Qed.

Lemma bytes_take a n o : 0 <= o <= n -> take (Z.to_nat o) (bytes_at disk a n) = bytes_at disk a o.
Proof.
  intros Ho. replace n with (o + (n - o)) by lia. rewrite bytes_at_app by lia.
  apply take_app_length'. pose proof (bytes_at_length disk a o). lia.
Qed.

(** Bytes [off] to [off + n - 1] of a sector. *)
Lemma sector_slice lba off n : 0 <= off -> 0 <= n -> off + n <= 512 ->
  take (Z.to_nat n) (drop (Z.to_nat off) (bytes_at disk (512 * lba) 512)) = bytes_at disk (512 * lba + off) n.
Proof. intros Ho Hn Hs. rewrite bytes_drop, bytes_take by lia. done. Qed.

Lemma devread_loop byte_len : forall fuel len sector off out,
  0 <= len -> 0 <= sector -> 0 <= off <= 512 -> sector + (len + off) / 512 + 2 < 2 ^ 31 ->
  len < 2 ^ 31 -> len + off / 512 < Z.of_nat fuel ->
  loop fuel (devread_body (sound disk) byte_len) (len, sector, off, out) =
  Ok (byte_len, out ++ bytes_at disk (512 * sector + off) len).
Proof.
  induction fuel as [|fuel IH]; intros len sector off out Hl Hs Ho Hb Hl31 Hf;
    pose proof (Z.div_pos off 512 ltac:(lia) ltac:(lia)); [lia|].
  pose proof (Z.div_pos (len + off) 512 ltac:(lia) ltac:(lia)) as Hlp.
  cbn [loop]. unfold devread_body at 1. zcase; cbn [obind].
  2: { replace len with 0 by lia. cbn. by rewrite app_nil_r. }
  rewrite (u32_small sector) by lia. cbn [sound]. rewrite (u32_small (512 - off)) by lia.
  set (seclen := if 512 - off <? len then s32 (512 - off) else len).
  assert (0 <= seclen /\ seclen <= len /\ off + seclen <= 512 /\
    (seclen = len \/ seclen = 512 - off /\ 512 - off < len)) as (Hs0 & Hs1 & Hs2 & Hs3).
  { unfold seclen. zcase; [rewrite s32_small|]; lia. }
  rewrite (proj2 (Z.ltb_ge off 0)), (proj2 (Z.ltb_ge 512 _)) by lia. cbn [orb obind].
  rewrite sector_slice by lia. rewrite (s32_small (sector + 1)) by lia.
  destruct Hs3 as [E|[E Hlt]].
  - rewrite E, Z.sub_diag. destruct fuel as [|fuel]; [lia|]. cbn [loop]. unfold devread_body at 1. cbn.
    done.
  - assert ((len - seclen + 0) / 512 = (len + off) / 512 - 1) as Ed.
    { replace (len - seclen + 0) with (len + off + -1 * 512) by lia. by rewrite Z.div_add by lia. }
    assert (off < 512 \/ off / 512 = 1) by (destruct (decide (off = 512)) as [->|]; [by right|lia]).
    rewrite IH; [|lia..|rewrite Z.div_0_l by lia; lia].
    rewrite <- app_assoc. replace (512 * (sector + 1) + 0) with (512 * sector + off + seclen) by lia.
    rewrite <- bytes_at_app by lia. do 4 f_equal. lia.
Qed.

Lemma devread_vfat_ok sector off len : 0 <= sector -> 0 <= off <= 512 -> 0 <= len < 2 ^ 31 ->
  sector + (len + off) / 512 + 65 < 2 ^ 31 ->
  devread_vfat (sound disk) sector off len = Ok (len, bytes_at disk (part_address sector off) len).
Proof.
  intros Hs Ho Hl Hb. pose proof (Z.div_pos (len + off) 512 ltac:(lia) ltac:(lia)).
  unfold devread_vfat, VFAT_FIRST_PARTITION. rewrite s32_small by lia.
  rewrite devread_loop; [done|lia..|]. assert (off / 512 <= 512 / 512) by (apply Z.div_le_mono; lia).
  change (512 / 512) with 1 in *. lia.
Qed.

(** The offset is not reduced to the sector: past it, the copy leaves the buffer. *)
Lemma devread_vfat_past sector off len : 0 <= sector -> sector + 64 < 2 ^ 31 -> 512 < off < 2 ^ 31 -> 0 < len < 2 ^ 31 ->
  devread_vfat (sound disk) sector off len = Err OutOfBounds.
Proof.
  intros Hs Hs' Ho Hl. unfold devread_vfat, VFAT_FIRST_PARTITION. rewrite s32_small by lia. cbn [loop].
  unfold devread_body at 1. rewrite (proj2 (Z.ltb_lt 0 len)) by lia. cbn [sound].
  assert (u32 (512 - off) = 512 - off + 2 ^ 32) as ->.
  { unfold u32. symmetry. apply (Z.mod_unique _ _ (-1)); lia. }
  rewrite (proj2 (Z.ltb_ge _ len)), (proj2 (Z.ltb_ge off 0)), (proj2 (Z.ltb_lt 512 _)) by lia. done.
Qed.

(** ** The FAT *)

(** The FAT entry of cluster [n], from the bytes of the disk: an entry of FAT32 has 28 bits,
    the upper four of its word are reserved. *)
Definition fat_base (b : fat_superblock) : Z := part_address (fat_offset b) 0.
Definition fat_entry (b : fat_superblock) (n : Z) : Z :=
  if fat_size b =? 3 then
    let w := ld16 disk (fat_base b + 3 * n / 2) in if Z.odd n then w / 16 else w mod 4096
  else if fat_size b =? 4 then ld16 disk (fat_base b + 2 * n)
  else ld32 disk (fat_base b + 4 * n) mod 2 ^ 28.

(** The reserved bits are zero. *)
Definition entry_clear (b : fat_superblock) (n : Z) : Prop :=
  fat_size b = 8 -> ld32 disk (fat_base b + 4 * n) < 2 ^ 28.

Definition bytes_ok : Prop := forall a, 0 <= disk a < 256.

(** What the mount establishes. *)
Record super_ok (b : fat_superblock) : Prop := {
  so_size : fat_size b = 3 \/ fat_size b = 4 \/ fat_size b = 8;
  so_bits : sectsize_bits b = 9 /\ 9 <= clustsize_bits b <= 16;
  so_clust : 2 < num_clust b <= 2 ^ 27;
  so_offset : 0 <= fat_offset b <= 2 ^ 30;
  so_data : 0 <= data_offset b /\ data_offset b + num_clust b * 2 ^ (clustsize_bits b - 9) < 2 ^ 31 - 512
}.

(** The cache holds a piece of the FAT, or nothing yet. *)
Definition cache_ok (b : fat_superblock) (buf : list Z) : Prop :=
  length buf = 2048%nat /\ (cached_fat b = - 4096 \/
    (exists q, 0 <= q <= 2 ^ 20 /\ cached_fat b = 1024 * q /\ buf = bytes_at disk (fat_base b + 512 * q) 2048)).

Lemma bytes_lookup a n k : 0 <= k < n -> bytes_at disk a n !! Z.to_nat k = Some (disk (a + k)).
Proof.
  intros Hk. unfold bytes_at. rewrite list_lookup_fmap.
  rewrite (proj2 (lookup_seqZ _ _ _ (a + k))) by lia. done.
Qed.

Lemma byte_at_app_l l l' k x : l !! Z.to_nat k = Some x -> 0 <= k -> byte_at (l ++ l') k = Ok x.
Proof.
  intros Hx Hk. unfold byte_at. rewrite (proj2 (Z.ltb_ge k 0)) by lia. by rewrite (lookup_app_l_Some _ _ _ _ Hx).
Qed.

(** A word of the cache: its low half, and all of it when it does not end behind the
    cache. *)
Lemma cache_word a off p : bytes_ok -> 0 <= p <= 2046 ->
  exists w, le32 (bytes_at disk a 2048 ++ bytes32 off) p = Ok w /\ w mod 2 ^ 16 = ld16 disk (a + p) /\
    (p <= 2044 -> w = ld32 disk (a + p)).
Proof.
  intros Hd Hp.
  assert (forall k, 0 <= k < 2048 -> byte_at (bytes_at disk a 2048 ++ bytes32 off) k = Ok (disk (a + k))) as Hin.
  { intros k Hk. apply byte_at_app_l; [apply bytes_lookup|]; lia. }
  assert (forall k, 0 <= k < 2052 -> exists x, byte_at (bytes_at disk a 2048 ++ bytes32 off) k = Ok x) as Hall.
  { intros k Hk. unfold byte_at. rewrite (proj2 (Z.ltb_ge k 0)) by lia.
    destruct (lookup_lt_is_Some_2 (bytes_at disk a 2048 ++ bytes32 off) (Z.to_nat k)) as [x ->]; [|by exists x].
    rewrite length_app. pose proof (bytes_at_length disk a 2048). change (length (bytes32 off)) with 4%nat. lia. }
  destruct (Hall (p + 2) ltac:(lia)) as [x Ex]. destruct (Hall (p + 2 + 1) ltac:(lia)) as [y Ey].
  exists (disk (a + p) + 256 * disk (a + (p + 1)) + 65536 * (x + 256 * y)). unfold le32, le16.
  rewrite (Hin p), (Hin (p + 1)) by lia. cbn [obind]. rewrite Ex, Ey. cbn [obind]. split; [done|].
  pose proof (Hd (a + p)). pose proof (Hd (a + (p + 1))). split.
  - change (2 ^ 16) with 65536. rewrite (Z.mul_comm 65536), Z.mod_add, Z.mod_small by lia.
    unfold ld16. by rewrite Z.add_assoc.
  - intros Hp'. rewrite (Hin (p + 2)) in Ex by lia. rewrite (Hin (p + 2 + 1)) in Ey by lia.
    injection Ex as <-. injection Ey as <-. unfold ld32, ld16. rewrite !Z.add_assoc. done.
Qed.

Lemma ld32_range a : bytes_ok -> 0 <= ld32 disk a < 2 ^ 32.
Proof.
  intros Hd. unfold ld32, ld16. pose proof (Hd a). pose proof (Hd (a + 1)). pose proof (Hd (a + 2)). pose proof (Hd (a + 2 + 1)).
  pose proof (Hd (a + 3)). lia.
Qed.

(** The low bits of a word are those of the signed word. *)
Lemma s32_mod w k : 0 <= k <= 32 -> s32 w mod 2 ^ k = w mod 2 ^ k.
Proof.
  intros Hk. unfold s32, signed. change (2 ^ (32 - 1)) with (2 ^ 31). rewrite (Z.mod_eq (w + 2 ^ 31)) by lia.
  replace (2 ^ 32) with (2 ^ (32 - k) * 2 ^ k) at 1 by (rewrite <- Z.pow_add_r by lia; f_equal; lia).
  set (q := (w + 2 ^ 31) / 2 ^ 32).
  replace (w + 2 ^ 31 - 2 ^ (32 - k) * 2 ^ k * q - 2 ^ 31) with (w + - (2 ^ (32 - k) * q) * 2 ^ k) by lia.
  rewrite Z.mod_add; [done|]. apply Z.pow_nonzero; lia.
Qed.

(** The decoding of an entry. *)
Lemma decode_word w : let next := s32 w in
  Z.land next 0xFFF = w mod 2 ^ 16 mod 4096 /\ Z.land (Z.shiftr next 4) 0xFFF = w mod 2 ^ 16 / 16 /\
  Z.land next 0xFFFF = w mod 2 ^ 16.
Proof.
  cbn zeta. change 0xFFF with (Z.ones 12). change 0xFFFF with (Z.ones 16). change 4096 with (2 ^ 12).
  rewrite !Z.land_ones, Z.shiftr_div_pow2 by lia. rewrite <- (s32_mod w 16) by lia.
  set (x := s32 w). change (2 ^ 16) with (2 ^ 4 * 2 ^ 12). change 16 with (2 ^ 4).
  pose proof (Z.mod_pos_bound x (2 ^ 4) ltac:(lia)) as Hx.
  split_and!; [| |done].
  - rewrite Z.rem_mul_r by lia.
    pose proof (Z.div_mod x (2 ^ 4 * 2 ^ 12) ltac:(lia)). rewrite <- Z.rem_mul_r by lia.
    rewrite (Z.mod_eq x (2 ^ 4 * 2 ^ 12)) by lia.
    replace (x - 2 ^ 4 * 2 ^ 12 * (x / (2 ^ 4 * 2 ^ 12))) with (x + - (2 ^ 4 * (x / (2 ^ 4 * 2 ^ 12))) * 2 ^ 12) by lia.
    by rewrite Z.mod_add by lia.
  - rewrite Z.rem_mul_r by lia. rewrite (Z.mul_comm (2 ^ 4)), Z.div_add by lia. rewrite (Z.div_small (x mod 2 ^ 4)) by lia. lia.
Qed.

(** What [next_cluster] takes from the cache is the entry. *)
Definition decoded (b : fat_superblock) (pos w : Z) : Z :=
  if fat_size b =? 3 then
    Z.land (if negb (Z.land pos 1 =? 0) then Z.shiftr (s32 w) 4 else s32 w) 0xFFF
  else if fat_size b =? 4 then Z.land (s32 w) 0xFFFF
  else s32 w.

Lemma cached_entry b q n : super_ok b -> bytes_ok -> entry_clear b n -> 0 <= q -> 0 <= n ->
  let pos := n * fat_size b - 1024 * q in 0 <= pos -> pos + fat_size b <= 4096 ->
  exists w, le32 (bytes_at disk (fat_base b + 512 * q) 2048 ++ bytes32 (fat_offset b)) (Z.shiftr pos 1) = Ok w /\
    decoded b pos w = fat_entry b n.
Proof.
  intros Hb Hd Hclear Hq Hn pos Hp Hp'. rewrite Z.shiftr_div_pow2 by lia. change (2 ^ 1) with 2.
  assert (3 <= fat_size b) as Hs by (destruct (so_size b Hb) as [->|[-> | ->]]; lia).
  assert (0 <= pos / 2 <= 2046) as Hrange.
  { split; [apply Z.div_pos; lia|]. assert (pos / 2 < 2047); [apply Z.div_lt_upper_bound|]; lia. }
  assert (fat_base b + 512 * q + pos / 2 = fat_base b + n * fat_size b / 2) as Ea.
  { unfold pos. replace (n * fat_size b - 1024 * q) with (n * fat_size b + - (512 * q) * 2) by lia.
    rewrite Z.div_add by lia. lia. }
  destruct (cache_word (fat_base b + 512 * q) (fat_offset b) (pos / 2) Hd Hrange) as (w & Ew & Hlo & Hall).
  exists w. split; [done|]. destruct (decode_word w) as (D12 & D12' & D16). rewrite Ea in Hlo, Hall.
  unfold decoded, fat_entry. destruct (so_size b Hb) as [E|[E|E]]; rewrite E in *; cbn [Z.eqb Pos.eqb] in *.
  - rewrite (Z.mul_comm 3). assert (negb (Z.land pos 1 =? 0) = Z.odd n) as ->.
    { change 1 with (Z.ones 1). rewrite Z.land_ones, Z.pow_1_r, Zmod_odd by lia.
      replace pos with (n + 2 * (n - 512 * q)) by (unfold pos; lia). rewrite Z.odd_add_mul_2. by destruct (Z.odd n). }
    destruct (Z.odd n); [by rewrite D12', Hlo|by rewrite D12, Hlo].
  - rewrite D16, Hlo. do 2 f_equal. replace (n * 4) with (2 * n * 2) by lia. by rewrite Z.div_mul by lia.
  - rewrite Hall.
    + replace (n * 8) with (4 * n * 2) by lia. rewrite Z.div_mul by lia. specialize (Hclear E).
      pose proof (ld32_range (fat_base b + 4 * n) Hd). rewrite s32_small, Z.mod_small; lia.
    + assert (pos / 2 < 2045); [apply Z.div_lt_upper_bound|]; lia.
Qed.

Lemma overlay_all (l l' : list Z) : length l = length l' -> overlay (Some <$> l) l' = l.
Proof.
  revert l'. induction l as [|x l IH]; intros [|y l']; cbn; try done. intros [= E]. by rewrite IH.
Qed.

Lemma next_cluster_ok b s : super_ok b -> bytes_ok -> fat_super s = b -> cache_ok b (fat_buf s) ->
  0 <= current_cluster b < num_clust b -> entry_clear b (current_cluster b) ->
  wp (next_cluster (sound disk) b) (fun r s' => r = Some (fat_entry b (current_cluster b)) /\
    exists cf buf, s' = set_fat_buf buf (set_super (set_cached_fat cf b) s) /\
      cache_ok (set_cached_fat cf b) buf) s.
Proof.
  intros Hb Hd Hsup [Hlen Hcache] Hcc Hclear. pose proof (so_clust b Hb) as Hnc. pose proof (so_offset b Hb) as Hoff.
  assert (3 <= fat_size b <= 8) as Hs by (destruct (so_size b Hb) as [->|[-> | ->]]; lia).
  set (n := current_cluster b) in *. unfold next_cluster. fold n.
  rewrite (s32_small (n * fat_size b)) by nia. change (2 * FAT_CACHE_SIZE) with 4096.
  change (2 * SECTOR_SIZE) with 1024. change (1024 - 1) with (Z.ones 10).
  assert (- 4096 <= cached_fat b <= 2 ^ 30) as Hcf by (destruct Hcache as [->|(q & ? & -> & _)]; lia).
  set (fe := n * fat_size b) in *. assert (0 <= fe < 2 ^ 30) as Hfe by (unfold fe; nia).
  assert (forall cf buf q s1, cf = 1024 * q -> buf = bytes_at disk (fat_base b + 512 * q) 2048 -> 0 <= q <= 2 ^ 20 ->
    0 <= fe - cf -> fe - cf + fat_size b <= 4096 -> s1 = set_fat_buf buf (set_super (set_cached_fat cf b) s) ->
    wp (let! buf := gets fat_buf in
        let! w := lift (le32 (buf ++ bytes32 (fat_offset b)) (Z.shiftr (fe - cf) 1)) in
        ret (Some (decoded b (fe - cf) w)))
      (fun r s' => r = Some (fat_entry b n) /\
        exists cf buf, s' = set_fat_buf buf (set_super (set_cached_fat cf b) s) /\
          cache_ok (set_cached_fat cf b) buf) s1) as Htail.
  { intros cf buf q s1 -> -> Hq Hp Hp' ->. apply wp_bind, wp_gets. cbn [fat_buf set_fat_buf].
    destruct (cached_entry b q n Hb Hd Hclear) as (w & Ew & Hw); [lia..|].
    apply wp_bind. apply (wp_lift _ w); [exact Ew|]. apply wp_ret. split; [by rewrite <- Hw|].
    exists (1024 * q), (bytes_at disk (fat_base b + 512 * q) 2048). split; [done|]. split.
    - pose proof (bytes_at_length disk (fat_base b + 512 * q) 2048). lia.
    - right. exists q. done. }
  apply wp_bind. destruct ((s32 (fe - cached_fat b) <? 0) || (4096 <? s32 (fe - cached_fat b) + fat_size b)) eqn:Eg.
  - rewrite Z.ldiff_ones_r by lia. rewrite Z.shiftl_mul_pow2, Z.shiftr_div_pow2 by lia. change (2 ^ 10) with 1024.
    pose proof (Z.div_mod fe 1024 ltac:(lia)) as Hdm. pose proof (Z.mod_pos_bound fe 1024 ltac:(lia)) as Hm.
    pose proof (Z.div_pos fe 1024 ltac:(lia) ltac:(lia)).
    set (q := fe / 1024) in *. apply wp_bind, wp_modify.
    rewrite (Z.quot_mul q 1024), (s32_small (fat_offset b + q)) by lia.
    apply wp_bind. unfold load_fat, FAT_CACHE_SIZE. apply wp_bind.
    eapply wp_lift; [apply devread_vfat_ok; [lia..|change ((2048 + 0) / 512) with 4; lia]|].
    cbn beta iota. apply wp_bind, wp_modify, wp_ret, wp_ret. cbn [negb].
    eapply Htail with (q := q); [lia|done|lia..|]. cbn. rewrite overlay_all.
    + unfold set_fat_buf, set_super. cbn. rewrite Hsup. f_equal.
      unfold fat_base, part_address. f_equal. lia.
    + cbn. rewrite Hlen. pose proof (bytes_at_length disk (part_address (fat_offset b + q) 0) 2048). lia.
  - apply orb_false_iff in Eg as [E1%Z.ltb_ge E2%Z.ltb_ge].
    destruct Hcache as [Ec|(q & Hq & Ec & Ebuf)].
    { rewrite s32_small in E2 by lia. lia. }
    assert (s32 (fe - cached_fat b) = fe - cached_fat b) as Es by (apply s32_small; lia). rewrite Es in *.
    apply wp_ret. cbn [negb].
    apply (Htail (cached_fat b) (fat_buf s) q); [done|done|lia..|].
    destruct s as [b0 ? ? ? ? ? ?]. cbn in Hsup. subst b0. by destruct b.
Qed.

(** ** Chains *)

(** The superblock without the fields that change while files are read. *)
Definition geometry (b : fat_superblock) : fat_superblock :=
  set_cached_fat 0 (set_file_cluster 0 (set_current 0 0 b)).

Definition valid_next (b : fat_superblock) (n : Z) : bool :=
  negb (clust_eof_marker b <=? n) && negb ((n <? 2) || (num_clust b <=? n)).

(** The cluster [k] steps after [c]. *)
Fixpoint cluster_after (b : fat_superblock) (k : nat) (c : Z) : option Z :=
  match k with
  | O => Some c
  | S k' => c ← cluster_after b k' c;
            let n := fat_entry b c in if valid_next b n then Some n else None
  end.

(** The chain from [c] has [n] clusters. *)
Definition chain_length (b : fat_superblock) (c n : Z) : Prop :=
  1 <= n /\ exists l, cluster_after b (Z.to_nat (n - 1)) c = Some l /\ clust_eof_marker b <= fat_entry b l.

(** The entries of the clusters of a file have their reserved bits clear. *)
Definition chain_clear (b : fat_superblock) (c : Z) : Prop :=
  forall k l, cluster_after b k c = Some l -> entry_clear b l.

Lemma cluster_before b j k c l : cluster_after b k c = Some l -> (j <= k)%nat ->
  exists l', cluster_after b j c = Some l'.
Proof.
  revert l. induction k as [|k IH]; intros l Hl Hj; [replace j with 0%nat by lia; by eexists|].
  destruct (decide (j = S k)) as [->|]; [by eexists|]. cbn in Hl.
  apply bind_Some in Hl as (l' & Hl' & _). apply (IH l' Hl'). lia.
Qed.

Lemma cluster_range b k c l : cluster_after b k c = Some l -> 2 <= c < num_clust b -> 2 <= l < num_clust b.
Proof.
  destruct k as [|k]; cbn; [by intros [= <-]|]. intros (l' & _ & H)%bind_Some _.
  destruct (valid_next b (fat_entry b l')) eqn:E; [|done]. injection H as <-.
  unfold valid_next in E. apply andb_prop in E as [_ E]. apply negb_true_iff, orb_false_iff in E. lia.
Qed.

(** A chain does not go on after its last cluster. *)
Lemma chain_step b c n k l : chain_length b c n -> cluster_after b k c = Some l -> Z.of_nat k < n ->
  if Z.of_nat k + 1 <? n then
    valid_next b (fat_entry b l) = true /\ cluster_after b (S k) c = Some (fat_entry b l)
  else clust_eof_marker b <= fat_entry b l.
Proof.
  intros (Hn & last & Hlast & Heof) Hl Hk. zcase.
  - destruct (cluster_before b (S k) _ c last Hlast ltac:(lia)) as [l' Hl']. rewrite Hl'. cbn in Hl'.
    rewrite Hl in Hl'. cbn in Hl'. by destruct (valid_next b (fat_entry b l)).
  - replace (Z.to_nat (n - 1)) with k in Hlast by lia. rewrite Hl in Hlast. by injection Hlast as ->.
Qed.

(** The state between two reads of a file, with the cursor on cluster [num]. *)
Record cursor_ok (G : fat_superblock) (fc num : Z) (s : vfat) : Prop := {
  co_geo : geometry (fat_super s) = G;
  co_file : file_cluster (fat_super s) = fc;
  co_cache : cache_ok (fat_super s) (fat_buf s);
  co_num : current_cluster_num (fat_super s) = num;
  co_current : 0 <= num -> cluster_after G (Z.to_nat num) fc = Some (current_cluster (fat_super s))
}.

Definition same_position (s s' : vfat) : Prop :=
  v_filepos s' = v_filepos s /\ v_errnum s' = v_errnum s.

Lemma chase_ok G fc n s num lc r fuel : super_ok G -> bytes_ok -> 2 <= fc < num_clust G ->
  chain_length G fc n -> chain_clear G fc -> n < 2 ^ 30 -> cursor_ok G fc num s -> 0 <= num <= lc -> num < n -> lc <= n ->
  (Z.to_nat (lc - num) < fuel)%nat ->
  wp (mloop fuel (chase_body (sound disk) lc r) tt) (fun v s' => same_position s s' /\
    exists num', cursor_ok G fc num' s' /\ 0 <= num' /\
      if lc <? n then v = None /\ num' = lc else v = Some r) s.
Proof.
  intros HG Hd Hfc Hch Hclear Hn30 Hcur Hnum Hnn Hlc Hfuel.
  apply (wp_mloop _ (fun _ s1 => same_position s s1 /\ exists num', cursor_ok G fc num' s1 /\ 0 <= num' <= lc /\ num' < n) _
    (fun _ s1 => Z.to_nat (lc - current_cluster_num (fat_super s1)))).
  - intros [] s1 (Hsame & m & Hc & Hm & Hmn). destruct Hc as [Hgeo Hfile Hcache Hnm Hcc].
    specialize (Hcc ltac:(lia)). set (b := fat_super s1) in *.
    assert (super_ok b) as Hb by (destruct HG; rewrite <- Hgeo in *; by split).
    unfold chase_body. apply wp_bind, wp_gets. fold b. rewrite Hnm. zcase.
    2: { apply wp_ret. split; [done|]. exists m. split; [by split|]. split; [lia|].
         rewrite (proj2 (Z.ltb_lt lc n)) by lia. split; [done|lia]. }
    pose proof (cluster_range _ _ _ _ Hcc Hfc) as Hrange.
    assert (num_clust b = num_clust G) as Enc by (by rewrite <- Hgeo).
    assert (clust_eof_marker b = clust_eof_marker G) as Eeof by (by rewrite <- Hgeo).
    assert (fat_entry b (current_cluster b) = fat_entry G (current_cluster b)) as Efe by (by rewrite <- Hgeo).
    apply wp_bind. eapply wp_mono; [apply next_cluster_ok; [done|done|done|done|lia|]|].
    { pose proof (Hclear _ _ Hcc) as He. unfold entry_clear in *. by rewrite <- Hgeo in He. }
    intros x s2 (-> & cf & buf & -> & Hcache2). rewrite Efe, Eeof, Enc.
    pose proof (chain_step G fc n (Z.to_nat m) _ Hch Hcc ltac:(lia)) as Hstep.
    rewrite Z2Nat.id in Hstep by lia. destruct (Z.ltb_spec (m + 1) n) as [Hlt|Hge].
    + destruct Hstep as [Hv Hnext]. pose proof Hv as Hv'. unfold valid_next in Hv.
      apply andb_prop in Hv as [->%negb_true_iff ->%negb_true_iff]. cbn [fst snd].
      apply wp_bind, wp_modify, wp_ret. cbn. split.
      * split; [by destruct Hsame|]. exists (m + 1). split; [|lia]. fold b. rewrite Hnm, s32_small by lia.
        split; cbn; [by rewrite <- Hgeo|done|done|done|]. intros _.
        replace (Z.to_nat (m + 1)) with (S (Z.to_nat m)) by lia. done.
      * fold b. rewrite Hnm, s32_small by lia. lia.
    + rewrite (proj2 (Z.leb_le _ _)) by done. apply wp_ret. split; [by destruct Hsame|].
      exists m. split; [|split; [lia|]].
      * split; cbn; [by rewrite <- Hgeo|done|done|done|done].
      * rewrite (proj2 (Z.ltb_ge lc n)) by lia. done.
  - split; [done|]. exists num. done.
  - rewrite (co_num _ _ _ _ Hcur). done.
Qed.

(** ** Files *)

Definition cluster_size (b : fat_superblock) : Z := 2 ^ clustsize_bits b.
Definition data_sector (b : fat_superblock) (c : Z) : Z := data_offset b + (c - 2) * 2 ^ (clustsize_bits b - 9).

(** Byte [p] of the file whose chain starts at [fc]. *)
Definition file_byte (b : fat_superblock) (fc p : Z) : Z :=
  match cluster_after b (Z.to_nat (p / cluster_size b)) fc with
  | Some c => disk (part_address (data_sector b c) (p mod cluster_size b))
  | None => 0
  end.
Definition file_bytes (b : fat_superblock) (fc p n : Z) : list Z := file_byte b fc <$> seqZ p n.

Lemma file_bytes_app b fc p n k : 0 <= n -> 0 <= k ->
  file_bytes b fc p (n + k) = file_bytes b fc p n ++ file_bytes b fc (p + n) k.
Proof. intros Hn Hk. unfold file_bytes. by rewrite seqZ_app, fmap_app. Qed.

(** A piece of a cluster is a piece of the file. *)
Lemma piece_bytes b fc lc off size c : cluster_after b (Z.to_nat lc) fc = Some c -> 0 <= clustsize_bits b ->
  0 <= off -> off + size <= cluster_size b ->
  bytes_at disk (part_address (data_sector b c) off) size = file_bytes b fc (lc * cluster_size b + off) size.
Proof.
  intros Hc Hbits Ho Hs. unfold bytes_at, file_bytes, part_address.
  apply list_eq. intros i. rewrite !list_lookup_fmap.
  destruct (decide (Z.of_nat i < size)) as [Hi|Hi].
  - rewrite (proj2 (lookup_seqZ _ _ _ (512 * (data_sector b c + 63) + off + Z.of_nat i))) by lia.
    rewrite (proj2 (lookup_seqZ _ _ _ (lc * cluster_size b + off + Z.of_nat i))) by lia. cbn. f_equal.
    unfold file_byte, part_address.
    replace (lc * cluster_size b + off + Z.of_nat i) with (off + Z.of_nat i + lc * cluster_size b) by lia.
    rewrite Z.div_add, Z.mod_add by lia. rewrite Z.div_small, Z.mod_small by lia.
    rewrite Z.add_0_l, Hc. f_equal. lia.
  - rewrite !lookup_ge_None_2; [done|rewrite length_seqZ; lia..].
Qed.

Lemma piece_full bytes size : Z.of_nat (length bytes) = size -> piece size bytes = Some <$> bytes.
Proof. intros <-. unfold piece. by rewrite Nat2Z.id, Nat.sub_diag, app_nil_r. Qed.

Section read.
(** A file of [n] clusters from [fc], and a read of [L] bytes at [fp]. *)
Context (G : fat_superblock) (fc n fp L : Z).
Context (HG : super_ok G) (Hd : bytes_ok) (Hfc : 2 <= fc < num_clust G) (Hch : chain_length G fc n) (Hclear : chain_clear G fc) (Hn : n < 2 ^ 30).
Context (Hfp : 0 <= fp <= n * cluster_size G) (HL : 0 <= L) (Hend : fp + L < 2 ^ 31).

(** How many bytes are read. *)
Definition count_read : Z := Z.min L (n * cluster_size G - fp).

Definition read_inv (st : Z * Z * Z * Z * list (option Z)) (s : vfat) : Prop :=
  let '(len, lc, off, m, out) := st in
  0 <= m <= count_read /\ len = L - m /\ 0 <= off < cluster_size G /\ off <= 512 /\
  (lc * cluster_size G + off = fp + m \/ len = 0) /\ v_filepos s = fp + m /\ v_errnum s = 0 /\
  out = Some <$> file_bytes G fc fp m /\ exists num, cursor_ok G fc num s /\ 0 <= num <= lc /\ num < n.

Definition read_post (r : Z * list (option Z)) (s : vfat) : Prop :=
  r = (count_read, Some <$> file_bytes G fc fp count_read) /\ v_filepos s = fp + count_read /\ v_errnum s = 0 /\
  exists num, cursor_ok G fc num s /\ 0 <= num.

Lemma size_bounds : 512 <= cluster_size G <= 65536 /\ s32 (Z.shiftl 1 (clustsize_bits G)) = cluster_size G /\
  1 <= 2 ^ (clustsize_bits G - 9) <= 128 /\ cluster_size G = 512 * 2 ^ (clustsize_bits G - 9).
Proof.
  destruct (so_bits G HG) as [_ Hb]. unfold cluster_size.
  assert (2 ^ 9 <= 2 ^ clustsize_bits G <= 2 ^ 16) as Hcs by (split; apply Z.pow_le_mono_r; lia).
  assert (2 ^ clustsize_bits G = 2 ^ 9 * 2 ^ (clustsize_bits G - 9)) as E
    by (rewrite <- Z.pow_add_r by lia; f_equal; lia).
  rewrite Z.shiftl_1_l, s32_small by lia. change (2 ^ 9) with 512 in *. change (2 ^ 16) with 65536 in *. lia.
Qed.

(** The data of one piece. *)
Lemma piece_read lc off size c : cluster_after G (Z.to_nat lc) fc = Some c -> 0 <= off <= 512 -> 0 <= size ->
  off + size <= cluster_size G ->
  s32 (data_offset G + s32 (Z.shiftl (c - 2) (clustsize_bits G - sectsize_bits G))) = data_sector G c /\
  devread_vfat (sound disk) (data_sector G c) off size =
    Ok (size, file_bytes G fc (lc * cluster_size G + off) size).
Proof using HG Hfc.
  clear Hch Hclear Hn Hfp HL Hend. intros Hc Ho Hs Hos. pose proof (cluster_range _ _ _ _ Hc Hfc) as Hrange.
  destruct size_bounds as (Hcs & _ & Hspc & Ecs). destruct (so_bits G HG) as [Esb Hb]. pose proof (so_data G HG) as [Hd0 Hd1].
  set (spc := 2 ^ (clustsize_bits G - 9)) in *.
  assert (0 <= (c - 2) * spc) by nia. assert ((c - 2) * spc + 2 * spc < num_clust G * spc) by nia.
  assert ((size + off) / 512 <= 128).
  { apply Z.div_le_upper_bound; lia. }
  split.
  - rewrite Esb, Z.shiftl_mul_pow2 by lia. fold spc. unfold data_sector. fold spc.
    rewrite (s32_small ((c - 2) * spc)), s32_small by lia. done.
  - rewrite devread_vfat_ok; [|unfold data_sector; fold spc; lia..].
    do 2 f_equal. apply piece_bytes; [done|lia..].
Qed.

Lemma vread_round st s : read_inv st s ->
  wp (vread_body (sound disk) st) (fun c s' => match c with
    | Continue st' => read_inv st' s' /\ (Z.to_nat st'.1.1.1.1 < Z.to_nat st.1.1.1.1)%nat
    | Break r => read_post r s'
    end) s.
Proof.
  destruct st as [[[[len lc] off] m] out].
  intros (Hm & -> & Hoff & Ho512 & Hpos & Hfpos & Herr & -> & num & Hcur & Hnum & Hnn).
  destruct size_bounds as (Hcs & Ecs & _ & _). unfold vread_body. zcase.
  2: { apply wp_bind, wp_gets. rewrite Herr. apply wp_ret. assert (count_read = m) as Em by (unfold count_read in *; lia).
       unfold read_post. rewrite Em. split; [done|]. split_and!; [done..|]. exists num. split; [done|lia]. }
  destruct Hpos as [Hpos|?]; [|lia].
  assert (lc <= n) as Hlc by (unfold count_read in *; nia).
  apply wp_bind, wp_gets. rewrite (co_num _ _ _ _ Hcur). apply wp_bind.
  eapply wp_mono; [apply (chase_ok G fc n s num lc); try done; lia|].
  intros v s1 ([Hp1 He1] & num' & Hcur1 & Hnum' & Hv). destruct (Z.ltb_spec lc n) as [Hlt|Hge].
  - destruct Hv as [-> ->]. apply wp_bind, wp_gets. destruct Hcur1 as [Hgeo Hfile Hcache Hnm Hcc].
    specialize (Hcc ltac:(lia)). set (b := fat_super s1) in *. set (c := current_cluster b) in *.
    replace (data_offset b) with (data_offset G) by (by rewrite <- Hgeo).
    replace (clustsize_bits b) with (clustsize_bits G) by (by rewrite <- Hgeo).
    replace (sectsize_bits b) with (sectsize_bits G) by (by rewrite <- Hgeo). rewrite Ecs.
    set (size := if L - m <? cluster_size G - off then L - m else cluster_size G - off).
    assert (1 <= size /\ size <= L - m /\ off + size <= cluster_size G /\
      (size = L - m \/ size = cluster_size G - off)) as (Hz1 & Hz2 & Hz3 & Hz4) by (unfold size; zcase; lia).
    destruct (piece_read lc off size c Hcc ltac:(lia) ltac:(lia) Hz3) as [-> Hread].
    apply wp_bind. eapply wp_lift; [exact Hread|]. cbn beta iota. apply wp_bind, wp_modify, wp_ret.
    rewrite Hp1, Hfpos, Hpos. split; [|cbn; lia]. unfold count_read in *.
    assert (m + size <= count_read) as Hms by (unfold count_read; nia). unfold count_read in Hms.
    unfold read_inv, count_read. rewrite (s32_small (m + size)) by lia.
    split_and!; [lia|lia|lia|lia|lia|lia|nia| | | |].
    + cbn [v_filepos set_v_filepos]. rewrite s32_small; lia.
    + cbn. congruence.
    + rewrite piece_full by (unfold file_bytes; rewrite length_fmap, length_seqZ; lia).
      rewrite file_bytes_app, fmap_app by lia. done.
    + exists lc. split; [|lia]. by split.
  - rewrite Hv. apply wp_ret. assert (count_read = m) as Em by (unfold count_read in *; nia).
    unfold read_post. rewrite Em. split; [done|]. split_and!; [congruence..|]. by exists num'.
Qed.
End read.

(** An open file between two reads: after [vfat_dir] the cursor is nowhere. *)
Record open_file (G : fat_superblock) (fc : Z) (s : vfat) : Prop := {
  of_geo : geometry (fat_super s) = G;
  of_file : file_cluster (fat_super s) = fc;
  of_cache : cache_ok (fat_super s) (fat_buf s);
  of_cursor : let num := current_cluster_num (fat_super s) in
    num = MAXINT \/ (0 <= num /\ cluster_after G (Z.to_nat num) fc = Some (current_cluster (fat_super s)))
}.

Lemma chain_bound b c n k l : chain_length b c n -> cluster_after b k c = Some l -> Z.of_nat k < n.
Proof.
  intros Hch Hl. destruct (Z.lt_ge_cases (Z.of_nat k) n) as [|Hge]; [done|]. exfalso.
  destruct Hch as (Hn & last & Hlast & Heof).
  destruct (cluster_before b (S (Z.to_nat (n - 1))) k c l Hl ltac:(lia)) as [l' Hl']. cbn in Hl'.
  rewrite Hlast in Hl'. cbn in Hl'. unfold valid_next in Hl'. by rewrite (proj2 (Z.leb_le _ _) Heof) in Hl'.
Qed.

Lemma chain_lt G fc n fp : super_ok G -> chain_length G fc n -> 0 <= fp <= n * cluster_size G ->
  0 <= fp / cluster_size G <= n.
Proof.
  intros HG [Hn _] Hfp. destruct (size_bounds G HG) as (Hcs & _).
  split; [apply Z.div_pos; lia|]. apply Z.div_le_upper_bound; lia.
Qed.

(** [vfat_read] up to its main loop. *)
Lemma vfat_read_start G fc n s L : super_ok G -> 2 <= fc < num_clust G -> chain_length G fc n -> n < 2 ^ 30 ->
  open_file G fc s -> 0 <= v_filepos s <= n * cluster_size G ->
  let fp := v_filepos s in let cs := cluster_size G in
  exists s1 num, vfat_read (sound disk) L s =
      mloop (S (Z.to_nat L)) (vread_body (sound disk)) (L, fp / cs, fp mod cs, 0, []) s1 /\
    cursor_ok G fc num s1 /\ 0 <= num <= fp / cs /\ num < n /\ v_filepos s1 = fp /\ v_errnum s1 = 0.
Proof.
  intros HG Hfc Hch Hn30 [Hgeo Hfile Hcache Hcur] Hfp fp cs. set (b := fat_super s) in *.
  destruct (so_bits G HG) as [_ Hbits]. destruct (size_bounds G HG) as (Hcs & Ecs & _).
  pose proof (chain_lt G fc n fp HG Hch Hfp) as Hlc. fold cs in Hlc.
  assert (clustsize_bits b = clustsize_bits G) as Ebits by (by rewrite <- Hgeo).
  unfold vfat_read. unfold bind at 1, modify at 1. unfold bind at 1, gets at 1. unfold bind at 1, gets at 1.
  cbn [fat_super set_v_errnum v_filepos]. fold b fp. rewrite Hfile, (proj2 (Z.ltb_ge fc 0)) by lia.
  rewrite Ebits, Ecs, Z.shiftr_div_pow2 by lia. fold (cluster_size G). fold cs.
  replace (cs - 1) with (Z.ones (clustsize_bits G)) by (rewrite Z.ones_equiv; unfold cs, cluster_size; lia).
  rewrite Z.land_ones by lia. fold (cluster_size G). fold cs.
  destruct (Z.ltb_spec (fp / cs) (current_cluster_num b)) as [Hlt|Hge].
  - eexists _, 0. split; [reflexivity|]. split_and!; [|lia|lia|destruct Hch; lia|done|done].
    split; cbn; [by rewrite <- Hgeo|done|done|done|done].
  - destruct Hcur as [Hcur|[Hnum Hcc]]; [rewrite Hcur in Hge; unfold MAXINT in Hge; lia|].
    eexists _, (current_cluster_num b). split; [reflexivity|].
    pose proof (chain_bound _ _ _ _ _ Hch Hcc). split_and!; [|lia|lia|lia|done|done]. by split.
Qed.
End disk.

(** ** Theorems *)

(** C20: [vfat_read], at a position whose offset in its cluster is at most a sector, returns
    the bytes of the file from there, up to the length asked for or the end of the
    chain of clusters, and advances the position; the cache of the FAT and the cursor
    stay right for the next read.  The chain is that of the FAT, whose entries have 12, 16
    or 28 bits; on FAT32 the reserved bits of its entries must be zero, for the code does
    not clear them. *)
Theorem vfat_read_correct disk G fc n s L :
  super_ok G -> bytes_ok disk -> 2 <= fc < num_clust G -> chain_length disk G fc n -> chain_clear disk G fc -> n < 2 ^ 30 ->
  open_file disk G fc s -> 0 <= v_filepos s <= n * cluster_size G ->
  v_filepos s mod cluster_size G <= 512 -> 0 <= L -> v_filepos s + L < 2 ^ 31 ->
  let k := Z.min L (n * cluster_size G - v_filepos s) in
  exists s', vfat_read (sound disk) L s = Ok ((k, Some <$> file_bytes disk G fc (v_filepos s) k), s') /\
    v_filepos s' = v_filepos s + k /\ open_file disk G fc s'.
Proof.
  intros HG Hd Hfc Hch Hclear Hn30 Hopen Hfp Hoff HL Hend k. destruct (size_bounds G HG) as (Hcs & _).
  pose proof (Z.mod_pos_bound (v_filepos s) (cluster_size G) ltac:(lia)).
  pose proof (Z.div_mod (v_filepos s) (cluster_size G) ltac:(lia)).
  destruct (vfat_read_start disk G fc n s L) as (s1 & num & -> & Hcur & Hnum & Hnn & Hp1 & He1); try done.
  assert (wp (mloop (S (Z.to_nat L)) (vread_body (sound disk))
      (L, v_filepos s / cluster_size G, v_filepos s mod cluster_size G, 0, []))
    (read_post disk G fc n (v_filepos s) L) s1) as Hwp.
  { apply (wp_mloop _ (read_inv disk G fc n (v_filepos s) L) _ (fun st _ => Z.to_nat st.1.1.1.1)).
    - intros st s2 Hinv. by apply vread_round.
    - unfold read_inv, count_read. split_and!; try done; try lia. by exists num.
    - cbn [fst]. lia. }
  apply wp_Ok in Hwp as (r & s' & -> & -> & Hp' & _ & num' & [Hgeo Hfile Hcache Hnm Hcc] & Hnum').
  exists s'. split_and!; [done..|]. split; try done. right. rewrite Hnm. auto.
Qed.

(** At any other position the read copies from behind the sector buffer. *)
Theorem vfat_read_misaligned disk G fc n s L :
  super_ok G -> bytes_ok disk -> 2 <= fc < num_clust G -> chain_length disk G fc n -> chain_clear disk G fc -> n < 2 ^ 30 ->
  open_file disk G fc s -> 0 <= v_filepos s < n * cluster_size G ->
  512 < v_filepos s mod cluster_size G -> 0 < L < 2 ^ 31 ->
  vfat_read (sound disk) L s = Err OutOfBounds.
Proof.
  intros HG Hd Hfc Hch Hclear Hn30 Hopen Hfp Hoff HL. destruct (size_bounds G HG) as (Hcs & Ecs & Hspc & _).
  pose proof (Z.mod_pos_bound (v_filepos s) (cluster_size G) ltac:(lia)).
  destruct (vfat_read_start disk G fc n s L) as (s1 & num & -> & Hcur & Hnum & Hnn & Hp1 & He1); [done..|lia|].
  set (lc := v_filepos s / cluster_size G) in *. set (off := v_filepos s mod cluster_size G) in *.
  assert (lc < n) as Hlc by (apply Z.div_lt_upper_bound; lia).
  rewrite mloop_S. unfold vread_body at 1. rewrite (proj2 (Z.ltb_lt 0 L)) by lia.
  rewrite bind_assoc. unfold bind at 1, gets at 1. rewrite (co_num _ _ _ _ _ Hcur).
  pose proof (chase_ok disk G fc n s1 num lc 0 (S (Z.to_nat (lc - num))) HG Hd Hfc Hch Hclear Hn30 Hcur Hnum Hnn
    ltac:(lia) ltac:(lia)) as (v & s2 & Ev & _ & num' & [Hgeo Hfile Hcache Hnm Hcc] & Hnum' & Hv)%wp_Ok.
  rewrite (proj2 (Z.ltb_lt lc n)) in Hv by done. destruct Hv as [-> ->].
  rewrite bind_assoc, (bind_Ok_eq _ _ _ _ _ Ev). rewrite bind_assoc. unfold bind at 1, gets at 1.
  specialize (Hcc ltac:(lia)). set (b := fat_super s2) in *. set (c := current_cluster b) in *.
  replace (data_offset b) with (data_offset G) by (by rewrite <- Hgeo).
  replace (clustsize_bits b) with (clustsize_bits G) by (by rewrite <- Hgeo).
  replace (sectsize_bits b) with (sectsize_bits G) by (by rewrite <- Hgeo).
  destruct (piece_read disk G fc HG Hfc lc 0 0 c Hcc) as [Esec _]; [lia..|]. rewrite Ecs, Esec.
  pose proof (cluster_range _ _ _ _ _ Hcc Hfc) as Hrange. pose proof (so_data G HG) as [Hd0 Hd1].
  rewrite bind_assoc. unfold bind at 1, lift at 1. rewrite devread_vfat_past; [done|unfold data_sector; nia..|lia|].
  destruct (Z.ltb_spec L (cluster_size G - off)); lia.
Qed.

(** ** The mount *)

Lemma fat_log2_range w k : fat_log2 w = Ok k -> 0 <= k < 32.
Proof.
  unfold fat_log2. destruct (list_find _ _) as [[i x]|] eqn:E; [|done]. intros [= <-].
  apply list_find_Some in E as (Hx & _ & _). apply lookup_seqZ in Hx. lia.
Qed.

Lemma byte_at_range l i x : Forall (fun x => 0 <= x < 256) l -> byte_at l i = Ok x -> 0 <= x < 256.
Proof.
  intros Hl. unfold byte_at. destruct (i <? 0); [done|]. destruct (l !! Z.to_nat i) as [y|] eqn:E; [|done].
  intros [= <-]. rewrite Forall_lookup in Hl. by apply (Hl _ _ E).
Qed.

Lemma le16_range l i x : Forall (fun x => 0 <= x < 256) l -> le16 l i = Ok x -> 0 <= x < 65536.
Proof.
  intros Hl. unfold le16. intros (a & Ha & (b & Hb & [= <-])%obind_Ok)%obind_Ok.
  pose proof (byte_at_range _ _ _ Hl Ha). pose proof (byte_at_range _ _ _ Hl Hb). lia.
Qed.

(** The fields of the parameter block are in range. *)
Lemma parse_bpb_range l p : Forall (fun x => 0 <= x < 256) l -> parse_bpb l = Ok p ->
  0 <= b_sects_per_clust p < 256 /\ 0 <= reserved_sects p < 65536 /\ 0 <= dir_entries p < 65536 /\
  0 <= short_sectors p < 65536 /\ 0 <= b_fat_length p < 65536 /\ 0 <= num_fats p < 256.
Proof.
  intros Hl. unfold parse_bpb.
  intros (bps & _ & (spc & H1 & (res & H2 & (nf & H6 & (de & H3 & (ss & H4 & (md & _ & (fl & H5 & (ls & _ &
    (f32 & _ & (fg & _ & (rc & _ & [= <-])%obind_Ok)%obind_Ok)%obind_Ok)%obind_Ok)%obind_Ok)%obind_Ok)%obind_Ok)%obind_Ok)%obind_Ok)%obind_Ok)%obind_Ok)%obind_Ok.
  cbn. pose proof (byte_at_range _ _ _ Hl H1). pose proof (le16_range _ _ _ Hl H2).
  pose proof (le16_range _ _ _ Hl H3). pose proof (le16_range _ _ _ Hl H4). pose proof (le16_range _ _ _ Hl H5).
  pose proof (byte_at_range _ _ _ Hl H6). lia.
Qed.

(** The sanity checks determine the sizes. *)
Lemma sane_sizes p b sbits spcbits : super_sane p b = true -> sectsize_bits b = sbits ->
  clustsize_bits b = sbits + spcbits -> 0 <= sbits < 32 -> 0 <= spcbits < 32 -> 0 < b_sects_per_clust p < 256 ->
  sbits = 9 /\ 0 <= spcbits <= 7 /\ b_sects_per_clust p = 2 ^ spcbits /\ 2 < num_clust b.
Proof.
  unfold super_sane. intros Hs E1 E2 Hsb Hcb Hspc. rewrite E1, E2, !andb_true_iff in Hs.
  destruct Hs as ((((H1%Z.eqb_eq & H2%Z.eqb_eq) & H3%Z.eqb_eq) & H4%Z.ltb_lt) & _).
  replace (sbits + spcbits - sbits) with spcbits in H3 by lia. rewrite Z.shiftl_1_l in *.
  assert (forall k, 0 <= k < 32 -> k <> 31 -> 0 < 2 ^ k < 2 ^ 31) as Hp.
  { intros k Hk Hne. split; [apply Z.pow_pos_nonneg; lia|apply Z.pow_lt_mono_r; lia]. }
  assert (sbits = 9) as Es.
  { destruct (decide (sbits = 31)) as [->|Hne]; [change (s32 (2 ^ 31)) with (- 2 ^ 31) in H1; unfold SECTOR_SIZE in H2; lia|].
    rewrite s32_small in H1 by (specialize (Hp sbits Hsb Hne); lia).
    apply (Z.pow_inj_r 2); [lia..|]. rewrite <- H1, H2. done. }
  assert (spcbits <> 31) as Hne by (intros ->; change (s32 (2 ^ 31)) with (- 2 ^ 31) in H3; lia).
  rewrite s32_small in H3 by (specialize (Hp spcbits Hcb Hne); lia).
  split_and!; try done; [lia|]. apply Z.lt_succ_r. apply (Z.pow_lt_mono_r_iff 2); [lia..|]. change (2 ^ Z.succ 7) with 256. lia.
Qed.

(** [fat_type] changes only what it decides. *)
Lemma fat_type_fields p b b' : fat_type p b = Some b' ->
  (fat_size b' = 3 \/ fat_size b' = 4 \/ fat_size b' = 8) /\ sectsize_bits b' = sectsize_bits b /\
  clustsize_bits b' = clustsize_bits b /\ num_clust b' = num_clust b /\ num_sectors b' = num_sectors b /\
  data_offset b' = data_offset b /\ fat_length b' = fat_length b /\
  (fat_offset b' = fat_offset b \/ exists a, 0 <= a < 16 /\ fat_offset b' = s32 (fat_offset b + s32 (a * fat_length b))).
Proof.
  unfold fat_type. intros H. repeat case_match; simplify_eq/=; split_and!; auto.
  right. exists (Z.land (bpb_flags p) 15). split; [|done]. change 15 with (Z.ones 4).
  rewrite Z.land_ones by lia. apply Z.mod_pos_bound. lia.
Qed.

(** The superblock after a mount that succeeded. *)
Lemma mounted_super disk s s' : bytes_ok disk -> vfat_mount (sound disk) s = Ok (1, s') ->
  v_mounted s' = true /\ exists p b0 b sbits spcbits,
    fat_super s' = set_cached_fat (-2 * FAT_CACHE_SIZE) b /\ fat_type p (super_of p sbits (sbits + spcbits) b0) = Some b /\
    super_sane p b = true /\ 0 <= sbits < 32 /\ 0 <= spcbits < 32 /\ 0 < b_sects_per_clust p < 256 /\
    0 <= reserved_sects p < 65536 /\ 0 <= num_fats p < 256 /\ 0 <= dir_entries p < 65536.
Proof.
  intros Hd. unfold vfat_mount, sizeof_bpb. rewrite devread_vfat_ok by (lia || reflexivity).
  unfold bind at 1, lift at 1. cbn [Z.eqb].
  intros (p & s1 & [Ep ->]%lift_Ok & H)%bind_Ok. apply parse_bpb_range in Ep as (Hspc & Hres & Hde & _ & _ & Hnf).
  2: { apply Forall_fmap, Forall_forall. intros x _. apply Hd. }
  destruct (Z.eqb_spec (b_sects_per_clust p) 0) as [|Hne]; [done|].
  apply bind_Ok in H as (sbits & s2 & [E1%fat_log2_range ->]%lift_Ok & H).
  apply bind_Ok in H as (cbits & s2 & [E2%fat_log2_range ->]%lift_Ok & H).
  apply bind_Ok in H as ([] & s2 & [= <-] & H). unfold bind at 1, gets at 1 in H.
  destruct (fat_type _ _) as [b|] eqn:Ety; [|done]. apply bind_Ok in H as ([] & s3 & [= <-] & H).
  destruct (super_sane p b) eqn:Esane; [|done]. cbn [negb] in H.
  apply bind_Ok in H as ([ok bytes] & s3 & [_ ->]%lift_Ok & H). destruct (ok =? 0); [done|].
  apply bind_Ok in H as (ff & s4 & [_ ->]%lift_Ok & H). destruct (media_ok _ _ _); [|done].
  injection H as <-. split; [done|]. exists p, (fat_super s), b, sbits, cbits. cbn. split_and!; try done; lia.
Qed.

(** Where the data begins, when nothing overflows. *)
Lemma data_offset_range p sbits cbits b0 : 0 <= reserved_sects p < 65536 -> 0 <= num_fats p < 256 -> 0 <= dir_entries p < 65536 ->
  0 <= sbits -> let b := super_of p sbits cbits b0 in 0 <= fat_length b <= 2 ^ 22 -> 0 <= data_offset b < 2 ^ 31 - 1.
Proof.
  intros Hr Hn Hde Hs b. unfold b, super_of. cbn [fat_length data_offset]. intros Hfl. set (fl := if _ =? 0 then _ else _) in *.
  unfold FAT_DIRENTRY_LENGTH. rewrite (s32_small (num_fats p * fl)) by nia. rewrite (s32_small (reserved_sects p + num_fats p * fl)) by nia.
  assert (- 1 <= Z.shiftr (32 * dir_entries p - 1) sbits < 2 ^ 21) as Hq.
  { rewrite Z.shiftr_div_pow2 by lia. pose proof (Z.pow_pos_nonneg 2 sbits ltac:(lia) Hs). split.
    - transitivity (- 1 / 2 ^ sbits); [|apply Z.div_le_mono; lia]. apply Z.div_le_lower_bound; lia.
    - apply Z.div_lt_upper_bound; nia. }
  rewrite !s32_small; rewrite ?s32_small; nia.
Qed.


(** ** Examples *)

(** FAT12 with clusters of 1024 bytes: the file at cluster 2 goes on in cluster 3 and
    ends there. *)
Definition fat_disk (a : Z) : Z :=
  if a =? 32771 then 0x03 else if a =? 32772 then 0xF0 else if a =? 32773 then 0xFF else a mod 251.
Definition fat_geometry : fat_superblock := mkSuper 1 1 3 2 512 3 100 40 0xff8 2 9 10 (-1) 0 0 0 0.
Definition fat_state (pos : Z) : vfat :=
  mkVfat (set_cached_fat (- 4096) (set_file_cluster 2 (set_current MAXINT 7 fat_geometry)))
    (replicate 2048 0) (replicate 1024 0) 0 pos 1500 true.

Lemma fat_disk_bytes : bytes_ok fat_disk.
Proof.
  intros a. unfold fat_disk. repeat case_match; [lia..|]. pose proof (Z.mod_pos_bound a 251). lia.
Qed.

Lemma fat_geometry_ok : super_ok fat_geometry.
Proof. split; vm_compute; intuition congruence. Qed.

Lemma fat_file_chain : chain_length fat_disk fat_geometry 2 2.
Proof. split; [lia|]. exists 3. split; vm_compute; congruence. Qed.

Lemma fat_file_clear : chain_clear fat_disk fat_geometry 2.
Proof. intros k l _ E. discriminate E. Qed.

Lemma fat_file_open pos : open_file fat_disk fat_geometry 2 (fat_state pos).
Proof. split; [done|done|split; [done|by left]|by left]. Qed.

Lemma vfat_read_correct_witness : exists s',
  vfat_read (sound fat_disk) 2000 (fat_state 512) =
    Ok ((1536, Some <$> file_bytes fat_disk fat_geometry 2 512 1536), s') /\
  v_filepos s' = 2048 /\ open_file fat_disk fat_geometry 2 s'.
Proof.
  apply (vfat_read_correct fat_disk fat_geometry 2 2 (fat_state 512) 2000);
    [apply fat_geometry_ok|apply fat_disk_bytes| |apply fat_file_chain|apply fat_file_clear|lia|apply fat_file_open|..];
    vm_compute; intuition congruence.
Defined.

Lemma vfat_read_misaligned_witness : vfat_read (sound fat_disk) 32 (fat_state 544) = Err OutOfBounds.
Proof.
  apply (vfat_read_misaligned fat_disk fat_geometry 2 2 (fat_state 544) 32);
    [apply fat_geometry_ok|apply fat_disk_bytes| |apply fat_file_chain|apply fat_file_clear|lia|apply fat_file_open|..];
    vm_compute; intuition congruence.
Defined.

(** The same partition with its parameter block. *)
Definition boot_disk (a : Z) : Z :=
  if a =? 32256 + 12 then 2 else if a =? 32256 + 13 then 2 else if a =? 32256 + 14 then 1
  else if a =? 32256 + 16 then 1 else if a =? 32256 + 17 then 16 else if a =? 32256 + 19 then 100
  else if a =? 32256 + 21 then 0xF8 else if a =? 32256 + 22 then 1
  else if a =? 32768 then 0xF8 else if a =? 32769 then 0xFF else 0.

Lemma boot_disk_bytes : bytes_ok boot_disk.
Proof. intros a. unfold boot_disk. repeat case_match; lia. Qed.


(** A file in the root directory is found by its name in lower case. *)
Definition root_disk (a : Z) : Z :=
  if (33280 <=? a) && (a <? 33312) then
    nth (Z.to_nat (a - 33280))
      [72; 69; 76; 76; 79; 32; 32; 32; 84; 88; 84; 0x20; 0; 0; 0; 0; 0; 0; 0; 0; 0; 0; 0; 0; 0; 0; 2; 0; 0xDC; 5; 0; 0] 0
  else fat_disk a.

Example vfat_dir_finds :
  match vfat_dir (sound root_disk) 20 (replicate 32 0) [47; 104; 101; 108; 108; 111; 46; 116; 120; 116] (fat_state 0) with
  | Ok ((n, _), s) => n = 1500 /\ file_cluster (fat_super s) = 2 /\ v_filepos s = 0
  | Err _ => False
  end.
Proof. vm_compute. done. Qed.
