(* ===== verification/Iso9660.v ===== *)
(** * The ISO 9660 reader: fs/iso9660/fsys_iso9660.c

    The CD is a parameter, [atapi_drive_read_sector]: the bytes of a sector or a
    failure.  Every operation takes a page for the sector and gives it back;
    [i_pages] counts the pages held.  That a page can be had is assumed, as the code
    does; [junk] is what a fresh page holds.  A path is the list of its characters,
    with a NUL after the last.

    Left out: the functions that print a directory tree, which are compiled in but
    called only from code under [#if 0]. *)

From Stdlib Require Import ZArith Lia.
From S2P Require Import Prelude.
From stdpp Require Import base gmap numbers strings list.
Local Open Scope Z_scope.

(** ** Data *)

Definition ATAPI_SECTOR_SIZE : Z := 2048.
Definition PATHSEP : Z := 47.

(** The offsets of the fields of [iso9660_dir_record]. *)
Definition dr_length : Z := 0.
Definition dr_first_sector : Z := 2.
Definition dr_data_length : Z := 10.
Definition dr_identifier_length : Z := 32.
Definition dr_identifier : Z := 33.
Definition sizeof_dir_record : Z := 65.

Record iso9660_mounted_info := mkMounted {
  mi_bus : Z;
  mi_drive : Z;
  root_dir_sector : Z;
  root_dir_data_length : Z
}.

Record iso9660_handle := mkHandle { h_sector : Z; h_offset : Z; h_length : Z }.

(** The static handle has no mount before the first file is opened. *)
Record iso := mkIso {
  mount_info : iso9660_mounted_info;
  iso_handle : option iso9660_handle;
  iso_mounted : bool;
  i_pages : Z
}.

Definition set_mount_info (x : iso9660_mounted_info) (s : iso) : iso :=
  mkIso x (iso_handle s) (iso_mounted s) (i_pages s).
Definition set_iso_handle (x : option iso9660_handle) (s : iso) : iso :=
  mkIso (mount_info s) x (iso_mounted s) (i_pages s).
Definition set_iso_mounted (x : bool) (s : iso) : iso :=
  mkIso (mount_info s) (iso_handle s) x (i_pages s).
Definition set_i_pages (x : Z) (s : iso) : iso :=
  mkIso (mount_info s) (iso_handle s) (iso_mounted s) x.

(** [map_virtual_page (alloc_phys_frame () | 3)], and [unmap_virtual_page] with
    [free_phys_frame]. *)
Definition take_page : M iso unit := modify (fun s => set_i_pages (i_pages s + 1) s).
Definition give_page : M iso unit := modify (fun s => set_i_pages (i_pages s - 1) s).

Section iso.
Context (atapi_drive_read_sector : Z -> Z -> Z -> option (list Z)).
Context (junk : list Z).

(** A sector in a page. *)
Definition fill_page (data page : list Z) : list Z := data ++ drop (length data) page.

(** ** Mounting *)

(** On a read error the page is not given back. *)
Definition iso9660_mount (bus drive : Z) : M iso Z :=
  take_page ;;!
  match atapi_drive_read_sector bus drive 16 with
  | None => ret (-1)
  | Some data =>
      let page := fill_page data junk in
      let! sector := lift (le32 page (156 + dr_first_sector)) in
      let! len := lift (le32 page (156 + dr_data_length)) in
      modify (set_mount_info (mkMounted bus drive sector len)) ;;!
      give_page ;;!
      ret 0
  end.

(** ** Names *)

Definition char_at (s : list Z) (i : Z) : Z := default 0 (s !! Z.to_nat i).

Fixpoint slashes (s : list Z) : Z :=
  match s with c :: s' => if c =? PATHSEP then 1 + slashes s' else 0 | [] => 0 end.
Fixpoint component_length (s : list Z) : Z :=
  match s with c :: s' => if c =? PATHSEP then 0 else 1 + component_length s' | [] => 0 end.

(** The new bounds, and whether more components follow. *)
Definition iso9660_parse_first_component (pathname : list Z) (start end_ : Z) : Z * Z * bool :=
  let start := start + slashes (drop (Z.to_nat start) pathname) in
  let end_ := Z.max start (Z.min end_ (start + component_length (drop (Z.to_nat start) pathname))) in
  (start, end_, negb (char_at pathname end_ =? 0)).

Definition TOUPPER (c : Z) : Z := if (97 <=? c) && (c <=? 122) then c - 32 else c.

(** One round; [a] is the path from the component on, [b] the page from the
    identifier on. *)
Definition compare_body (a : list Z) (a_len : Z) (b : list Z) (b_len : Z) (i : Z) : outcome (control Z Z) :=
  if (i <? a_len) && (i <? b_len) then
    let? bi := byte_at b i in
    if negb (TOUPPER (char_at a i) =? TOUPPER bi) then Ok (Break (-1))
    else
      let i := i + 1 in
      let ai := char_at a i in
      if (ai =? 46) && (i =? b_len) then Ok (Break 0)
      else
        let? bi := (if i =? a_len then byte_at b i else Ok 0) in
        Ok (if (i =? a_len) && (bi =? 46) then Break 0
            else if (ai =? 59) && (i =? b_len) then Break 0
            else if (i =? a_len) && (bi =? 59) then Break 0
            else if (i =? a_len) && (i <? b_len) then Break (-1)
            else if (i <? a_len) && (i =? b_len) then Break (-1)
            else Continue i)
  else Ok (Break 0).

Definition iso9660_filename_compare (a : list Z) (a_len : Z) (b : list Z) (b_len : Z) : outcome Z :=
  loop (S (Z.to_nat a_len)) (compare_body a a_len b b_len) 0.

(** ** Directories *)

(** Skip zeroes: [count] and the offset of [d] in the page. *)
Definition zeroes_body (page : list Z) (st : Z * Z) : outcome (control (Z * Z) (Z * Z)) :=
  let '(count, d) := st in
  let? c := byte_at page d in
  Ok (if (c =? 0) && negb (count mod ATAPI_SECTOR_SIZE =? 0) then Continue (u32 (count + 1), d + 1)
      else Break (count, d)).

(** [count], [secnum], the offset of [d] and the page; the loop is left with the
    offset of the record found. *)
Definition isearch_body (mi : iso9660_mounted_info) (name : list Z) (len num_bytes : Z)
    (st : Z * Z * Z * list Z) : outcome (control (Z * Z * Z * list Z) (option (Z * list Z))) :=
  let '(count, secnum, d, page) := st in
  if count <? num_bytes then
    let? '(secnum, d, page) :=
      (if count mod ATAPI_SECTOR_SIZE =? 0 then
         match atapi_drive_read_sector (mi_bus mi) (mi_drive mi) secnum with
         | None => Err (Panic "CD ROM READ ERROR")
         | Some data => Ok (u32 (secnum + 1), 0, fill_page data page)
         end
       else Ok (secnum, d, page)) in
    let? id_len := byte_at page (d + dr_identifier_length) in
    let? c := iso9660_filename_compare name len (drop (Z.to_nat (d + dr_identifier)) page) id_len in
    if c =? 0 then Ok (Break (Some (d, page)))
    else
      let? l := byte_at page (d + dr_length) in
      let? '(count, d) := loop (S (Z.to_nat ATAPI_SECTOR_SIZE)) (zeroes_body page) (u32 (count + l), d + l) in
      Ok (Continue (count, secnum, d, page))
  else Ok (Break None).

(** [*de = *d]: the first sector and the length of the record found. *)
Definition copy_record (page : list Z) (d : Z) : outcome (Z * Z) :=
  if Z.of_nat (length page) <? d + sizeof_dir_record then Err OutOfBounds
  else
    let? sector := le32 page (d + dr_first_sector) in
    let? len := le32 page (d + dr_data_length) in
    Ok (sector, len).

Definition iso9660_search_dir (mi : iso9660_mounted_info) (first_sector data_length : Z)
    (pathname : list Z) (start end_ : Z) : M iso (option (Z * Z)) :=
  take_page ;;!
  let! r := lift (loop (S (Z.to_nat data_length))
    (isearch_body mi (drop (Z.to_nat start) pathname) (end_ - start) data_length)
    (0, first_sector, 0, junk)) in
  match r with
  | Some (d, page) =>
      let! de := lift (copy_record page d) in
      give_page ;;!
      ret (Some de)
  | None => give_page ;;! ret None
  end.

(** The directory in hand, and where the rest of the path starts. *)
Definition open_body (mi : iso9660_mounted_info) (pathname : list Z) (st : Z * Z * Z)
  : M iso (control (Z * Z * Z) (option iso9660_handle)) :=
  let '(sector, len, start) := st in
  let '(start, end_, more) :=
    iso9660_parse_first_component pathname start (Z.of_nat (length pathname)) in
  if negb more then
    if start =? end_ then ret (Break None)
    else
      let! r := iso9660_search_dir mi sector len pathname start end_ in
      ret (Break (match r with Some (s, l) => Some (mkHandle s 0 l) | None => None end))
  else
    let! r := iso9660_search_dir mi sector len pathname start end_ in
    ret (match r with Some (s, l) => Continue (s, l, end_) | None => Break None end).

Definition iso9660_open (mi : iso9660_mounted_info) (pathname : list Z) : M iso (option iso9660_handle) :=
  if negb (char_at pathname 0 =? PATHSEP) then ret None
  else mloop (S (length pathname)) (open_body mi pathname) (root_dir_sector mi, root_dir_data_length mi, 0).

(** ** Reading *)

(** [count], [rem], the handle, the page and the bytes stored; a device error leaves
    the loop with [false]. *)
Definition iread_body (mi : iso9660_mounted_info) (len : Z) (st : Z * Z * iso9660_handle * list Z * list Z)
  : outcome (control (Z * Z * iso9660_handle * list Z * list Z) (bool * (Z * iso9660_handle * list Z))) :=
  let '(count, rem, h, page, out) := st in
  if u32 count <? len then
    match atapi_drive_read_sector (mi_bus mi) (mi_drive mi) (h_sector h) with
    | None => Ok (Break (false, (count, h, out)))
    | Some data =>
        let page := fill_page data page in
        let room := u32 (Z.of_nat (length data) - h_offset h) in
        let curlen := if room <? u32 rem then s32 room else rem in
        if (curlen <? 0) || (Z.of_nat (length page) <? h_offset h + curlen) then Err OutOfBounds
        else
          let out := out ++ take (Z.to_nat curlen) (drop (Z.to_nat (h_offset h)) page) in
          let offset := u32 (h_offset h + curlen) in
          let left := u32 (h_length h - curlen) in
          let h' := if offset =? 2048 then mkHandle (u32 (h_sector h + 1)) 0 left
                    else mkHandle (h_sector h) offset left in
          Ok (Continue (s32 (count + curlen), s32 (rem - curlen), h', page, out))
    end
  else Ok (Break (true, (count, h, out))).

(** The result, the handle, and the bytes stored at [buf]. *)
Definition iso9660_read (h : iso9660_handle) (mi : iso9660_mounted_info) (len : Z)
  : M iso (Z * iso9660_handle * list Z) :=
  take_page ;;!
  let! '(ok, (count, h, out)) := lift (loop (S (Z.to_nat len)) (iread_body mi len) (0, s32 len, h, junk, [])) in
  give_page ;;!
  ret (if ok : bool then count else -1, h, out).

(** ** The interface of the reader *)

Definition eziso_mount (bus drive : Z) : M iso Z :=
  let! v := iso9660_mount bus drive in
  if v =? 0 then modify (set_iso_mounted true) ;;! ret 1 else ret 0.

(** The drives that are CD-ROM drives are tried in turn. *)
Fixpoint try_drives (drives : list (bool * Z * Z)) : M iso unit :=
  match drives with
  | [] => ret tt
  | (patapi, bus, drive) :: ds =>
      if patapi : bool then
        let! v := eziso_mount bus drive in
        if v =? 0 then try_drives ds else ret tt
      else try_drives ds
  end.

Definition eziso_dir (pata_drives : list (bool * Z * Z)) (pathname : list Z) : M iso Z :=
  let! m := gets iso_mounted in
  when (negb m) (try_drives (take 4 pata_drives)) ;;!
  let! mi := gets mount_info in
  let! r := iso9660_open mi pathname in
  match r with
  | Some h => modify (set_iso_handle (Some h)) ;;! ret (s32 (h_length h))
  | None => ret (-1)
  end.

Definition eziso_read (len : Z) : M iso (Z * list Z) :=
  let! h := gets iso_handle in
  let! h := lift (of_option NullDeref h) in
  let! mi := gets mount_info in
  let! '(n, h, out) := iso9660_read h mi (u32 len) in
  modify (set_iso_handle (Some h)) ;;!
  ret (if n <? 0 then 0 else n, out).
End iso.
