(* ===== verification/IsoThm.v ===== *)
(** * The ISO 9660 reader: theorems

    On a CD whose sectors can be read, [iso9660_read] returns consecutive bytes;
    [iso9660_filename_compare] accepts the names described by [same_name], which differ
    from the names of the format ([identifies]) for empty identifiers and shared stems
    ([clash]); where there are none, the search of a directory finds the first record
    with the name. *)

From Stdlib Require Import ZArith Lia.
From S2P Require Import Prelude Ext2Thm VfatThm Iso9660.
From stdpp Require Import base gmap numbers strings list.
Local Open Scope Z_scope.

(** A CD that reads without errors. *)
Definition cd (disk : Z -> Z) : Z -> Z -> Z -> option (list Z) :=
  fun _ _ lba => Some (bytes_at disk (2048 * lba) 2048).

Section cd.
Context (disk : Z -> Z).

Lemma fill_length data page : Z.of_nat (length data) = 2048 -> Z.of_nat (length page) = 4096 ->
  Z.of_nat (length (fill_page data page)) = 4096.
Proof. intros Hd Hp. unfold fill_page. rewrite length_app, length_drop. lia. Qed.

(** A piece of the sector in a page. *)
Lemma page_slice a page off n : 0 <= off -> 0 <= n -> off + n <= 2048 ->
  take (Z.to_nat n) (drop (Z.to_nat off) (fill_page (bytes_at disk a 2048) page)) = bytes_at disk (a + off) n.
Proof.
  intros Ho Hn Hs. pose proof (bytes_at_length disk a 2048 ltac:(lia)) as Hl. unfold fill_page.
  rewrite drop_app_le, bytes_drop by lia. rewrite take_app_le, bytes_take by
    (try lia; pose proof (bytes_at_length disk (a + off) (2048 - off)); lia). done.
Qed.

(** ** Reading *)

(** Where the next byte of a handle is. *)
Definition handle_pos (h : iso9660_handle) : Z := 2048 * h_sector h + h_offset h.
Definition handle_ok (h : iso9660_handle) : Prop :=
  0 <= h_sector h /\ 0 <= h_offset h < 2048 /\ 0 <= h_length h < 2 ^ 32.

Lemma iread_loop mi len : 0 <= len < 2 ^ 31 -> forall fuel count h page out,
  0 <= count <= len -> handle_ok h -> h_sector h + (h_offset h + (len - count)) / 2048 < 2 ^ 32 ->
  Z.of_nat (length page) = 4096 -> len - count < Z.of_nat fuel ->
  exists h', loop fuel (iread_body (cd disk) mi len) (count, len - count, h, page, out) =
      Ok (true, (len, h', out ++ bytes_at disk (handle_pos h) (len - count))) /\
    handle_ok h' /\ handle_pos h' = handle_pos h + (len - count) /\ h_length h' = u32 (h_length h - (len - count)).
Proof.
  intros Hlen. induction fuel as [|fuel IH]; intros count h page out Hc Hh Hb Hp Hf; [lia|].
  destruct h as [sec off hl]. destruct Hh as (Hs & Ho & Hl). cbn [h_sector h_offset h_length] in *.
  cbn [loop]. unfold iread_body at 1. rewrite (u32_small count) by lia. zcase; cbn [obind].
  2: { assert (len - count = 0) as -> by lia. eexists. rewrite Z.sub_0_r, (u32_small hl) by lia.
       replace count with len by lia. cbn [bytes_at]. rewrite app_nil_r. split; [done|]. split_and!; try done; lia. }
  unfold cd at 1. cbn [h_sector h_offset h_length].
  pose proof (bytes_at_length disk (2048 * sec) 2048 ltac:(lia)) as Hd. rewrite Hd.
  rewrite (u32_small (2048 - off)), (u32_small (len - count)) by lia.
  pose proof (fill_length (bytes_at disk (2048 * sec) 2048) page Hd Hp) as Hp'.
  set (curlen := if 2048 - off <? len - count then s32 (2048 - off) else len - count).
  assert (0 < curlen <= len - count /\ off + curlen <= 2048 /\ (curlen = len - count \/ off + curlen = 2048)) as (Hc1 & Hc2 & Hc3).
  { unfold curlen. zcase; [rewrite s32_small|]; lia. }
  rewrite (proj2 (Z.ltb_ge curlen 0)), (proj2 (Z.ltb_ge _ (off + curlen))) by lia. cbn [orb obind].
  rewrite page_slice by lia. rewrite (u32_small (off + curlen)) by lia.
  rewrite (s32_small (count + curlen)), (s32_small (len - count - curlen)) by lia.
  replace (len - count - curlen) with (len - (count + curlen)) by lia.
  set (h' := if off + curlen =? 2048 then _ else _).
  assert (handle_ok h' /\ handle_pos h' = 2048 * sec + off + curlen /\ h_length h' = u32 (hl - curlen) /\
    h_sector h' + (h_offset h' + (len - (count + curlen))) / 2048 < 2 ^ 32) as (Hh' & Hpos' & Hlen' & Hb').
  { pose proof (u32_range (hl - curlen)). unfold h', handle_ok, handle_pos.
    destruct (Z.eqb_spec (off + curlen) 2048) as [E|E]; cbn.
    - assert ((off + (len - count)) / 2048 = (0 + (len - (count + curlen))) / 2048 + 1) as Ed.
      { replace (off + (len - count)) with (0 + (len - (count + curlen)) + 1 * 2048) by lia. by rewrite Z.div_add by lia. }
      pose proof (Z.div_pos (0 + (len - (count + curlen))) 2048 ltac:(lia) ltac:(lia)).
      rewrite (u32_small (sec + 1)) by lia. split_and!; lia.
    - destruct Hc3 as [Hc3|]; [|done]. replace (off + curlen + (len - (count + curlen))) with (off + (len - count)) by lia.
      split_and!; lia. }
  destruct (IH (count + curlen) h' (fill_page (bytes_at disk (2048 * sec) 2048) page)
    (out ++ bytes_at disk (2048 * sec + off) curlen)) as (h2 & -> & Hh2 & Hpos2 & Hl2); [lia|done|done|done|lia|].
  exists h2. unfold handle_pos in *. cbn [h_sector h_offset]. split_and!.
  - rewrite <- app_assoc, Hpos', <- bytes_at_app by lia. do 5 f_equal. lia.
  - done.
  - lia.
  - rewrite Hl2, Hlen'. unfold u32. rewrite Zminus_mod_idemp_l. f_equal. lia.
Qed.
End cd.

Lemma iso_read_ok disk junk h mi len s :
  Z.of_nat (length junk) = 4096 -> handle_ok h -> 0 <= len < 2 ^ 31 ->
  h_sector h + (h_offset h + len) / 2048 < 2 ^ 32 ->
  exists h', iso9660_read (cd disk) junk h mi len s = Ok ((len, h', bytes_at disk (handle_pos h) len), s) /\
    handle_ok h' /\ handle_pos h' = handle_pos h + len /\ h_length h' = u32 (h_length h - len).
Proof.
  intros Hj Hh Hl Hb. destruct (iread_loop disk mi len Hl (S (Z.to_nat len)) 0 h junk []) as (h' & E & H);
    rewrite ?Z.sub_0_r in *; try done; try lia.
  exists h'. split; [|done]. unfold iso9660_read, bind, take_page, modify, lift. rewrite s32_small by lia.
  rewrite E. unfold give_page, ret, modify. destruct s as [mi' ih m p]. unfold set_i_pages. cbn.
  by replace (p + 1 - 1) with p by lia.
Qed.

(** [iso9660_read] returns the bytes of the CD from the place of the handle, advances
    the handle over them, and gives its page back. *)
Theorem iso9660_read_correct disk junk h mi len s :
  Z.of_nat (length junk) = 4096 -> handle_ok h -> 0 <= len < 2 ^ 31 ->
  h_sector h + (h_offset h + len) / 2048 < 2 ^ 32 ->
  exists h', iso9660_read (cd disk) junk h mi len s = Ok ((len, h', bytes_at disk (handle_pos h) len), s) /\
    handle_ok h' /\ handle_pos h' = handle_pos h + len /\ h_length h' = u32 (h_length h - len).
Proof. apply iso_read_ok. Qed.

(** ** Names *)

(** What follows the common part of two names. *)
Definition may_end (c : Z) : bool := (c =? 46) || (c =? 59).

Fixpoint stem_match (a b : list Z) : bool :=
  match a, b with
  | [], [] => true
  | c :: _, [] | [], c :: _ => may_end c
  | x :: a', y :: b' => (TOUPPER x =? TOUPPER y) && stem_match a' b'
  end.

(** The names that are accepted: equal up to case, or one continues the other with a
    dot or a semicolon; an empty name matches everything. *)
Definition same_name (a b : list Z) : bool :=
  match a, b with [], _ | _, [] => true | _, _ => stem_match a b end.

(** *** Identifiers

    docs/iso9660.txt: the identifier of a subdirectory is its name; that of a file is its
    name, a dot and the extension, if there is one, a semicolon and the version. *)

Definition upper (l : list Z) : list Z := TOUPPER <$> l.

Fixpoint before_version (id : list Z) : list Z :=
  match id with
  | [] => []
  | c :: id' => if c =? 59 then [] else c :: before_version id'
  end.

(** Without the version, and without a dot that no extension follows. *)
Definition base_name (id : list Z) : list Z :=
  let l := before_version id in
  match rev l with c :: r => if c =? 46 then rev r else l | [] => l end.

(** The component of a path, in any case, is the name in the identifier. *)
Definition identifies (name id : list Z) : bool := bool_decide (base_name (upper id) = upper name).

(** Components without a version that do not end in a dot. *)
Definition plain_name (name : list Z) : Prop :=
  name <> [] /\ Forall (fun c => c <> PATHSEP /\ c <> 0 /\ c <> 59) name /\ last name <> Some 46.

(** Where the comparison is wrong: the identifier is empty, or one of the two is the stem
    of the other, which goes on with a dot and an extension. *)
Definition clash (name id : list Z) : Prop :=
  id = [] \/ (exists e, upper name = upper id ++ 46 :: e) \/
  (exists c e, upper id = upper name ++ 46 :: c :: e /\ c <> 59).

Lemma TOUPPER_eq c k : (k < 65 \/ 122 < k) -> (TOUPPER c =? k) = (c =? k).
Proof. intros Hk. unfold TOUPPER. destruct (Z.leb_spec 97 c), (Z.leb_spec c 122); cbn [andb]; lia. Qed.

Lemma may_end_upper c : may_end (TOUPPER c) = may_end c.
Proof. unfold may_end. by rewrite !TOUPPER_eq by lia. Qed.

Lemma stem_match_spec a b : stem_match a b = true <->
  upper a = upper b \/ (exists c e, upper b = upper a ++ c :: e /\ may_end c = true) \/
  (exists c e, upper a = upper b ++ c :: e /\ may_end c = true).
Proof.
  revert b. induction a as [|x a IH]; intros [|y b]; cbn [stem_match].
  - split; [by left|done].
  - split; [intros Hc; right; left; exists (TOUPPER y), (upper b); by rewrite may_end_upper|].
    intros [[=]|[(c & e & [= <- _] & Hc)|(c & e & [=] & _)]]. by rewrite may_end_upper in Hc.
  - split; [intros Hc; right; right; exists (TOUPPER x), (upper a); by rewrite may_end_upper|].
    intros [[=]|[(c & e & [=] & _)|(c & e & [= <- _] & Hc)]]. by rewrite may_end_upper in Hc.
  - rewrite andb_true_iff, IH, Z.eqb_eq. unfold upper. cbn [fmap list_fmap app].
    split.
    + intros [-> [->|[(c & e & -> & Hc)|(c & e & -> & Hc)]]]; [by left|right; left; eauto|right; right; eauto].
    + intros [[= -> ->]|[(c & e & [= -> ->] & Hc)|(c & e & [= -> ->] & Hc)]]; eauto 10.
Qed.

Lemma before_version_spec l : (before_version l = l /\ 59 ∉ l) \/ exists e, l = before_version l ++ 59 :: e /\ 59 ∉ before_version l.
Proof.
  induction l as [|c l IH]; cbn; [left; split; [done|set_solver]|]. destruct (Z.eqb_spec c 59) as [->|Hc].
  - right. exists l. split; [done|set_solver].
  - destruct IH as [[E Hn]|(e & E & Hn)]; [left; rewrite E; split; [done|set_solver]|right].
    exists e. rewrite E at 1. split; [done|set_solver].
Qed.

Lemma before_version_app l e : 59 ∉ l -> before_version (l ++ 59 :: e) = l.
Proof. induction l as [|c l IH]; intros Hn; cbn; [done|]. rewrite (proj2 (Z.eqb_neq c 59)), IH by set_solver. done. Qed.

Lemma before_version_none l : 59 ∉ l -> before_version l = l.
Proof. induction l as [|c l IH]; intros Hn; cbn; [done|]. by rewrite (proj2 (Z.eqb_neq c 59)), IH by set_solver. Qed.

(** The identifiers of a name [n]. *)
Lemma base_name_spec l n : 59 ∉ n -> last n <> Some 46 ->
  base_name l = n <-> exists d v, l = n ++ d ++ v /\ (d = [] \/ d = [46]) /\ (v = [] \/ exists e, v = 59 :: e).
Proof.
  intros Hn Hlast. unfold base_name. split.
  - intros E. assert (exists d, before_version l = n ++ d /\ (d = [] \/ d = [46])) as (d & Ed & Hd).
    { destruct (rev (before_version l)) as [|c r] eqn:Er; [exists []; rewrite app_nil_r; auto|].
      destruct (Z.eqb_spec c 46) as [->|]; [|exists []; rewrite app_nil_r; auto]. exists [46]. split; [|by right].
      rewrite <- (rev_involutive (before_version l)), Er. cbn. by rewrite E. }
    destruct (before_version_spec l) as [[E' _]|(e & E' & _)].
    + exists d, []. split; [|auto]. rewrite app_nil_r. congruence.
    + exists d, (59 :: e). split; [|eauto]. rewrite app_assoc, <- Ed. exact E'.
  - intros (d & v & -> & Hd & Hv).
    assert (before_version (n ++ d ++ v) = n ++ d) as ->.
    { assert (59 ∉ n ++ d) as Hnd by (destruct Hd as [->| ->]; set_solver). rewrite app_assoc.
      destruct Hv as [->|[e ->]]; [rewrite app_nil_r; by apply before_version_none|by apply before_version_app]. }
    destruct Hd as [->| ->]; [|by rewrite rev_app_distr; cbn; rewrite rev_involutive]. rewrite app_nil_r.
    destruct n as [|c n _] using rev_ind; [done|]. rewrite rev_app_distr. cbn. rewrite last_snoc in Hlast.
    by rewrite (proj2 (Z.eqb_neq c 46)) by congruence.
Qed.

(** Elsewhere the comparison is that of the format. *)
Lemma same_name_identifies name id : plain_name name -> ~ clash name id -> same_name name id = identifies name id.
Proof.
  intros (Hne & Hall & Hlast) Hc. unfold identifies. apply eq_bool_prop_intro. rewrite bool_decide_spec, Is_true_true.
  assert (59 ∉ upper name) as Hn.
  { unfold upper. intros (c & E & Hin)%list_elem_of_fmap. rewrite Forall_forall in Hall. destruct (Hall c Hin) as (_ & _ & Hc59).
    apply Hc59. apply Z.eqb_eq. rewrite <- (TOUPPER_eq c 59) by lia. by apply Z.eqb_eq. }
  assert (last (upper name) <> Some 46) as Hl.
  { unfold upper. rewrite fmap_last. destruct (last name) as [c|]; cbn; [|done]. intros [= E]. apply Hlast. f_equal.
    apply Z.eqb_eq. rewrite <- (TOUPPER_eq c 46) by lia. by apply Z.eqb_eq. }
  rewrite base_name_spec by done. assert (id <> []) as Hid by (intros ->; apply Hc; by left).
  assert (same_name name id = stem_match name id) as -> by (by destruct name, id). rewrite stem_match_spec. split.
  - intros [E|[(c & e & E & Hce)|(c & e & E & Hce)]].
    + exists [], []. rewrite !app_nil_r. split_and!; [done|auto|auto].
    + unfold may_end in Hce. apply orb_true_iff in Hce as [->%Z.eqb_eq| ->%Z.eqb_eq]; [|exists [], (59 :: e); split_and!; [exact E|auto|eauto]].
      destruct e as [|c e]; [exists [46], []; split_and!; [exact E|auto|auto]|].
      destruct (Z.eq_dec c 59) as [->|Hne59]; [exists [46], (59 :: e); split_and!; [exact E|auto|eauto]|].
      destruct Hc. right. right. by exists c, e.
    + unfold may_end in Hce. apply orb_true_iff in Hce as [->%Z.eqb_eq| ->%Z.eqb_eq].
      * destruct Hc. right. left. by exists e.
      * destruct Hn. rewrite E. set_solver.
  - intros (d & v & E & [->| ->] & [->|[e ->]]); cbn [app] in E.
    + left. by rewrite E, app_nil_r.
    + right. left. by exists 59, e.
    + right. left. by exists 46, [].
    + right. left. by exists 46, (59 :: e).
Qed.

Lemma drop_cons_char (l : list Z) i : 0 <= i < Z.of_nat (length l) ->
  drop (Z.to_nat i) l = char_at l i :: drop (Z.to_nat (i + 1)) l.
Proof.
  intros Hi. destruct (lookup_lt_is_Some_2 l (Z.to_nat i)) as [x Hx]; [lia|]. unfold char_at. rewrite Hx.
  replace (Z.to_nat (i + 1)) with (S (Z.to_nat i)) by lia. by apply drop_S.
Qed.

Lemma drop_end (l : list Z) i : Z.of_nat (length l) <= i -> drop (Z.to_nat i) l = [].
Proof. intros Hi. apply drop_ge. lia. Qed.

Lemma compare_loop A B a b : A `prefix_of` a -> B `prefix_of` b ->
  Z.of_nat (length B) < Z.of_nat (length b) ->
  let a_len := Z.of_nat (length A) in let b_len := Z.of_nat (length B) in
  forall fuel i, 0 <= i < a_len -> i < b_len -> a_len - i < Z.of_nat fuel ->
  loop fuel (compare_body a a_len b b_len) i =
    Ok (if stem_match (drop (Z.to_nat i) A) (drop (Z.to_nat i) B) then 0 else -1).
Proof.
  intros [ra ->] [rb ->] Hlb a_len b_len. rewrite length_app in Hlb. induction fuel as [|fuel IH]; intros i Hi Hib Hf; [lia|].
  assert (forall k, 0 <= k < a_len -> char_at (A ++ ra) k = char_at A k) as Ha.
  { intros k Hk. unfold char_at. by rewrite lookup_app_l by lia. }
  assert (forall k, 0 <= k < b_len -> byte_at (B ++ rb) k = Ok (char_at B k)) as Hb.
  { intros k Hk. unfold byte_at, char_at. rewrite (proj2 (Z.ltb_ge k 0)), lookup_app_l by lia.
    by destruct (lookup_lt_is_Some_2 B (Z.to_nat k)) as [x ->]; [lia|]. }
  assert (exists y, byte_at (B ++ rb) b_len = Ok y) as [y Hy].
  { unfold byte_at. rewrite (proj2 (Z.ltb_ge b_len 0)) by lia.
    destruct (lookup_lt_is_Some_2 (B ++ rb) (Z.to_nat b_len)) as [y ->]; [rewrite length_app; lia|by exists y]. }
  cbn [loop]. unfold compare_body at 1. rewrite (proj2 (Z.ltb_lt i a_len)), (proj2 (Z.ltb_lt i b_len)) by lia.
  cbn [andb]. rewrite Hb, Ha by lia. cbn [obind].
  rewrite (drop_cons_char A i), (drop_cons_char B i) by lia. cbn [stem_match].
  destruct (Z.eqb_spec (TOUPPER (char_at A i)) (TOUPPER (char_at B i))) as [E|E]; cbn [negb andb obind]; [|done].
  destruct (Z.lt_trichotomy (i + 1) a_len) as [Hla|[Hla|]]; [| |lia];
    destruct (Z.lt_trichotomy (i + 1) b_len) as [Hlb'|[Hlb'|]]; try lia.
  - rewrite !(proj2 (Z.eqb_neq (i + 1) _)) by lia. rewrite !andb_false_r, !andb_false_l. cbn [obind].
    apply IH; lia.
  - rewrite (proj2 (Z.eqb_eq (i + 1) b_len)), (proj2 (Z.eqb_neq (i + 1) a_len)), (proj2 (Z.ltb_lt (i + 1) a_len)) by lia.
    rewrite Ha, !andb_true_r, (drop_end B) by lia. rewrite (drop_cons_char A (i + 1)) by lia. cbn [stem_match].
    unfold may_end. destruct (char_at A (i + 1) =? 46); [done|]. cbn [obind andb orb].
    by destruct (char_at A (i + 1) =? 59).
  - rewrite (proj2 (Z.eqb_neq (i + 1) b_len)), (proj2 (Z.eqb_eq (i + 1) a_len)), (proj2 (Z.ltb_lt (i + 1) b_len)) by lia.
    rewrite !andb_false_r, Hb by lia. cbn [obind andb]. rewrite (drop_end A) by lia.
    rewrite (drop_cons_char B (i + 1)) by lia. cbn [stem_match]. unfold may_end.
    destruct (char_at B (i + 1) =? 46); [done|]. by destruct (char_at B (i + 1) =? 59).
  - rewrite (drop_end A), (drop_end B) by lia. cbn [stem_match]. rewrite Hlb' in *.
    rewrite Z.eqb_refl, (proj2 (Z.eqb_eq b_len a_len)) by lia. destruct (_ =? 46); [done|]. cbn [andb].
    rewrite Hy. cbn [obind]. destruct (y =? 46); [done|]. destruct (_ =? 59); [done|]. destruct (y =? 59); [done|]. cbn [andb].
    rewrite (proj2 (Z.ltb_ge b_len b_len)), (proj2 (Z.ltb_ge b_len a_len)) by lia. cbn [andb].
    destruct fuel as [|fuel]; [lia|]. cbn [loop]. unfold compare_body at 1.
    rewrite (proj2 (Z.ltb_ge b_len a_len)) by lia. done.
Qed.

Lemma filename_compare_ok A B a b :
  A `prefix_of` a -> B `prefix_of` b -> Z.of_nat (length B) < Z.of_nat (length b) ->
  iso9660_filename_compare a (Z.of_nat (length A)) b (Z.of_nat (length B)) =
    Ok (if same_name A B then 0 else -1).
Proof.
  intros HA HB Hb. unfold iso9660_filename_compare. destruct A as [|x A]; [done|].
  destruct B as [|y B].
  { cbn [loop]. unfold compare_body at 1. cbn [length]. by rewrite andb_false_r. }
  rewrite (compare_loop (x :: A) (y :: B)); [|done|done|done|cbn [length]; lia..]. done.
Qed.

(** [iso9660_filename_compare] of a component with an identifier, each followed by at
    least one more byte, accepts exactly the names of [same_name]. *)
Theorem iso9660_filename_compare_correct A B a b :
  A `prefix_of` a -> B `prefix_of` b -> Z.of_nat (length B) < Z.of_nat (length b) ->
  iso9660_filename_compare a (Z.of_nat (length A)) b (Z.of_nat (length B)) =
    Ok (if same_name A B then 0 else -1).
Proof. apply filename_compare_ok. Qed.

(** ** Directories *)

Section directory.
Context (disk : Z -> Z) (Hd : bytes_ok disk).

(** The record at byte [p] of the directory at sector [sec]. *)
Record dir_record := mkRecord { r_length : Z; r_sector : Z; r_size : Z; r_name : list Z }.
Definition record_at (sec p : Z) : dir_record :=
  let a := 2048 * sec + p in
  mkRecord (disk a) (Ext2.ld32 disk (a + 2)) (Ext2.ld32 disk (a + 10)) (bytes_at disk (a + 33) (disk (a + 32))).

(** The records of a directory of [n] bytes, from [p] on: a record does not cross the
    end of its sector, and is followed by zeroes up to the next record or the end of
    the sector. *)
Inductive layout (sec n : Z) : Z -> list Z -> Prop :=
| layout_end p : n <= p -> layout sec n p []
| layout_record p q ps : let r := record_at sec p in
    p < n -> 33 + Z.of_nat (length (r_name r)) <= r_length r -> p mod 2048 + r_length r <= 2048 ->
    p + r_length r <= q <= p - p mod 2048 + 2048 ->
    (forall k, p + r_length r <= k < q -> disk (2048 * sec + k) = 0) ->
    (q mod 2048 = 0 \/ disk (2048 * sec + q) <> 0) ->
    layout sec n q ps -> layout sec n p (p :: ps).

(** The first record whose name the comparison accepts. *)
Fixpoint find_compared (sec : Z) (name : list Z) (ps : list Z) : option (Z * Z) :=
  match ps with
  | [] => None
  | p :: ps' => let r := record_at sec p in
      if same_name name (r_name r) then Some (r_sector r, r_size r) else find_compared sec name ps'
  end.

(** The first record with the name of a component. *)
Fixpoint find_record (sec : Z) (name : list Z) (ps : list Z) : option (Z * Z) :=
  match ps with
  | [] => None
  | p :: ps' => let r := record_at sec p in
      if identifies name (r_name r) then Some (r_sector r, r_size r) else find_record sec name ps'
  end.

(** No record of the directory is one that the comparison is wrong about. *)
Definition no_clash (sec : Z) (name : list Z) (ps : list Z) : Prop :=
  forall p, p ∈ ps -> ~ clash name (r_name (record_at sec p)).

Lemma find_compared_record sec name ps : plain_name name -> no_clash sec name ps ->
  find_compared sec name ps = find_record sec name ps.
Proof.
  intros Hn Hc. induction ps as [|p ps IH]; [done|]. cbn.
  rewrite same_name_identifies by (done || (apply Hc; left)). rewrite IH; [done|]. intros q Hq. apply Hc. by right.
Qed.

(** Sector [sec] is in the page. *)
Definition in_page (sec : Z) (page : list Z) : Prop :=
  Z.of_nat (length page) = 4096 /\ forall k, 0 <= k < 2048 -> page !! Z.to_nat k = Some (disk (2048 * sec + k)).

Lemma fill_in_page sec page : Z.of_nat (length page) = 4096 ->
  in_page sec (fill_page (bytes_at disk (2048 * sec) 2048) page).
Proof.
  intros Hp. pose proof (bytes_at_length disk (2048 * sec) 2048 ltac:(lia)). split; [by apply fill_length|].
  intros k Hk. unfold fill_page. rewrite lookup_app_l by lia. by apply bytes_lookup.
Qed.

Lemma page_byte sec page k : in_page sec page -> 0 <= k < 2048 -> byte_at page k = Ok (disk (2048 * sec + k)).
Proof.
  intros [_ Hp] Hk. unfold byte_at. rewrite (proj2 (Z.ltb_ge k 0)) by lia. by rewrite Hp.
Qed.

Lemma page_word sec page k : in_page sec page -> 0 <= k -> k + 4 <= 2048 ->
  le32 page k = Ok (Ext2.ld32 disk (2048 * sec + k)).
Proof.
  intros Hp Hk Hk'. unfold le32, le16. rewrite !(page_byte sec page) by (done || lia). cbn [obind].
  unfold Ext2.ld32, Ext2.ld16. rewrite !Z.add_assoc. done.
Qed.

Lemma page_any page k : Z.of_nat (length page) = 4096 -> 0 <= k < 4096 -> exists x, byte_at page k = Ok x.
Proof.
  intros Hp Hk. unfold byte_at. rewrite (proj2 (Z.ltb_ge k 0)) by lia.
  destruct (lookup_lt_is_Some_2 page (Z.to_nat k)) as [x ->]; [lia|by exists x].
Qed.

(** The zeroes after a record; [base] is where the sector in the page starts. *)
Lemma zeroes_loop sec page base q : in_page sec page -> base mod 2048 = 0 -> 0 <= base -> base < q <= base + 2048 ->
  q < 2 ^ 32 -> (q mod 2048 = 0 \/ disk (2048 * sec + (q - base)) <> 0) ->
  forall fuel k, base < k <= q -> (forall j, k <= j < q -> disk (2048 * sec + (j - base)) = 0) ->
  q - k < Z.of_nat fuel -> loop fuel (zeroes_body page) (k, k - base) = Ok (q, q - base).
Proof.
  intros Hp Hbase Hb0 Hq Hq32 Hstop. induction fuel as [|fuel IH]; intros k Hk Hz Hf; [lia|].
  assert (forall x, base < x < base + 2048 -> x mod 2048 <> 0) as Hmod.
  { intros x Hx. rewrite <- (Z.mod_unique x 2048 (base / 2048) (x - base)); [lia..|].
    pose proof (Z.div_mod base 2048 ltac:(lia)). lia. }
  cbn [loop]. unfold zeroes_body at 1. destruct (Z.eq_dec k q) as [->|Hne].
  - destruct (page_any page (q - base) (proj1 Hp) ltac:(lia)) as [x Hx]. rewrite Hx. cbn [obind].
    change ATAPI_SECTOR_SIZE with 2048. destruct (Z.eq_dec q (base + 2048)) as [->|Hnb].
    + replace ((base + 2048) mod 2048) with 0.
      * rewrite andb_false_r. done.
      * rewrite <- (Z.mul_1_l 2048) at 1. by rewrite Z.mod_add by lia.
    + destruct Hstop as [Hstop|Hstop]; [by destruct (Hmod q ltac:(lia))|].
      rewrite (page_byte sec page) in Hx by (done || lia). injection Hx as <-.
      by rewrite (proj2 (Z.eqb_neq _ 0)) by done.
  - rewrite (page_byte sec page) by (done || lia). rewrite Hz by lia. cbn [obind Z.eqb].
    change ATAPI_SECTOR_SIZE with 2048. rewrite (proj2 (Z.eqb_neq (k mod 2048) 0)) by (apply Hmod; lia).
    cbn [negb andb]. rewrite u32_small by lia. replace (k - base + 1) with (k + 1 - base) by lia.
    apply IH; [lia| |lia]. intros j Hj. apply Hz. lia.
Qed.

(** Before the record at [p] is looked at. *)
Definition search_at (sec p secnum d : Z) (page : list Z) : Prop :=
  Z.of_nat (length page) = 4096 /\
  if p mod 2048 =? 0 then secnum = sec + p / 2048
  else secnum = sec + p / 2048 + 1 /\ d = p mod 2048 /\ in_page (sec + p / 2048) page.

(** The sector of the record is read when it starts there. *)
Lemma search_read mi sec p secnum d page : search_at sec p secnum d page -> 0 <= sec -> 0 <= p ->
  sec + p / 2048 + 1 < 2 ^ 32 -> exists page',
  (if p mod ATAPI_SECTOR_SIZE =? 0 then
     match cd disk (mi_bus mi) (mi_drive mi) secnum with
     | None => Err (Panic "CD ROM READ ERROR")
     | Some data => Ok (u32 (secnum + 1), 0, fill_page data page)
     end
   else Ok (secnum, d, page)) = Ok (sec + p / 2048 + 1, p mod 2048, page') /\ in_page (sec + p / 2048) page'.
Proof.
  intros [Hl Hs] Hsec Hp Hb. change ATAPI_SECTOR_SIZE with 2048. pose proof (Z.div_pos p 2048 Hp ltac:(lia)).
  destruct (Z.eqb_spec (p mod 2048) 0) as [E|E].
  - subst secnum. eexists. cbn. rewrite u32_small, E by lia. split; [done|]. by apply fill_in_page.
  - destruct Hs as (-> & -> & Hp'). by exists page.
Qed.

(** The name of the record in the page. *)
Lemma page_name sec page off r : in_page sec page -> 0 <= off -> r = record_at sec off ->
  33 + Z.of_nat (length (r_name r)) <= r_length r -> off + r_length r <= 2048 ->
  byte_at page (off + dr_identifier_length) = Ok (Z.of_nat (length (r_name r))) /\
  r_name r `prefix_of` drop (Z.to_nat (off + dr_identifier)) page /\
  Z.of_nat (length (r_name r)) < Z.of_nat (length (drop (Z.to_nat (off + dr_identifier)) page)) /\
  byte_at page (off + dr_length) = Ok (r_length r) /\ copy_record page off = Ok (r_sector r, r_size r).
Proof.
  intros Hp Ho -> Hname Hfit. pose proof (Hd (2048 * sec + off + 32)) as Hb.
  assert (Z.of_nat (length (r_name (record_at sec off))) = disk (2048 * sec + off + 32)) as En
    by (cbn; apply bytes_at_length; lia). rewrite En in *. cbn [r_length record_at] in *.
  unfold dr_identifier_length, dr_identifier, dr_length.
  rewrite !(page_byte sec page) by (done || lia). rewrite !Z.add_assoc, Z.add_0_r. split_and!; try done.
  - exists (drop (Z.to_nat (off + 33 + disk (2048 * sec + off + 32))) page).
    rewrite <- (take_drop (Z.to_nat (disk (2048 * sec + off + 32))) (drop (Z.to_nat (off + 33)) page)) at 1.
    f_equal; [|rewrite drop_drop; f_equal; lia]. cbn [r_name record_at]. apply list_eq. intros i.
    destruct (decide (i < Z.to_nat (disk (2048 * sec + off + 32)))%nat) as [Hi|Hi].
    + rewrite lookup_take_lt, lookup_drop by lia. destruct Hp as [_ Hp].
      replace (Z.to_nat (off + 33) + i)%nat with (Z.to_nat (off + 33 + Z.of_nat i)) by lia. rewrite Hp by lia.
      rewrite <- (Nat2Z.id i) at 2. rewrite bytes_lookup by lia. do 2 f_equal. lia.
    + rewrite !lookup_ge_None_2; [done| |].
      * pose proof (bytes_at_length disk (2048 * sec + off + 33) (disk (2048 * sec + off + 32)) ltac:(lia)). lia.
      * rewrite length_take. lia.
  - rewrite length_drop. destruct Hp as [Hl _]. lia.
  - unfold copy_record, dr_first_sector, dr_data_length, sizeof_dir_record. destruct (proj1 Hp).
    rewrite (proj2 (Z.ltb_ge _ _)) by (rewrite (proj1 Hp); lia).
    rewrite !(page_word sec page) by (done || lia). cbn [obind r_sector r_size record_at]. by rewrite !Z.add_assoc.
Qed.

(** A directory may start at any sector. *)
Lemma record_shift sec p : record_at sec p = record_at (sec + p / 2048) (p mod 2048).
Proof.
  unfold record_at. pose proof (Z.div_mod p 2048 ltac:(lia)).
  by replace (2048 * (sec + p / 2048) + p mod 2048) with (2048 * sec + p) by lia.
Qed.

Lemma search_loop mi sec n A a p ps : layout sec n p ps -> A `prefix_of` a -> 0 <= sec -> 0 <= n < 2 ^ 31 ->
  sec + n / 2048 + 2 < 2 ^ 32 -> forall fuel secnum d page, 0 <= p -> search_at sec p secnum d page ->
  Z.max 0 (n - p) < Z.of_nat fuel -> exists r,
  loop fuel (isearch_body (cd disk) mi a (Z.of_nat (length A)) n) (p, secnum, d, page) = Ok r /\
  match r with
  | None => find_compared sec A ps = None
  | Some (d', page') => exists de, copy_record page' d' = Ok de /\ find_compared sec A ps = Some de
  end.
Proof.
  intros Hlay HA Hsec Hn Hb. induction Hlay as [p Hp|p q ps r Hp Hname Hfit Hq Hz Hstop Hlay IH];
    intros fuel secnum d page Hp0 Hs Hf; (destruct fuel as [|fuel]; [lia|]); cbn [loop]; unfold isearch_body at 1.
  { rewrite (proj2 (Z.ltb_ge p n)) by lia. cbn. by exists None. }
  rewrite (proj2 (Z.ltb_lt p n)) by lia.
  pose proof (Z.div_mod p 2048 ltac:(lia)) as Hdm. pose proof (Z.mod_pos_bound p 2048 ltac:(lia)) as Hm.
  pose proof (Z.div_pos p 2048 ltac:(lia) ltac:(lia)) as Hdp.
  assert (p / 2048 <= n / 2048) by (apply Z.div_le_mono; lia).
  destruct (search_read mi sec p secnum d page Hs Hsec Hp0 ltac:(lia)) as (page' & -> & Hin). cbn [obind].
  set (sec' := sec + p / 2048) in *. set (off := p mod 2048) in *.
  assert (r = record_at sec' off) as Er by apply record_shift.
  destruct (page_name sec' page' off r Hin ltac:(lia) Er Hname Hfit) as (-> & Hpre & Hlen & Hl & Hcopy).
  cbn [obind]. rewrite (filename_compare_ok A _ a _ HA Hpre Hlen). cbn [obind find_compared].
  fold r. destruct (same_name A (r_name r)).
  { cbn. eexists. split; [done|]. by exists (r_sector r, r_size r). }
  cbn [Z.eqb]. rewrite Hl. cbn [obind]. assert (0 < r_length r) as Hrl by lia.
  rewrite u32_small by lia.
  assert (loop (S (Z.to_nat ATAPI_SECTOR_SIZE)) (zeroes_body page') (p + r_length r, off + r_length r) =
    Ok (q, q - (p - off))) as ->.
  { replace (off + r_length r) with (p + r_length r - (p - off)) by lia.
    apply (zeroes_loop sec'); try done; try lia.
    - replace (p - off) with (p / 2048 * 2048) by lia. by apply Z.mod_mul.
    - destruct Hstop as [?|Hstop]; [by left|right]. intros E. apply Hstop. rewrite <- E. f_equal. lia.
    - intros j Hj. rewrite <- (Hz j) by lia. f_equal. lia.
    - change (Z.to_nat ATAPI_SECTOR_SIZE) with 2048%nat. lia. }
  cbn [obind]. apply IH; [lia| |lia].
  split; [apply Hin|]. destruct (Z.eq_dec q (p - off + 2048)) as [->|Hne].
  - replace (p - off + 2048) with ((p / 2048 + 1) * 2048) by lia. rewrite Z.mod_mul, Z.div_mul by lia. cbn. lia.
  - assert (q / 2048 = p / 2048 /\ q mod 2048 = q - (p - off)) as [Ed Em].
    { split; [symmetry; apply (Z.div_unique _ _ _ (q - (p - off))); lia|
              symmetry; apply (Z.mod_unique _ _ (p / 2048)); lia]. }
    rewrite Ed, Em. destruct (Z.eqb_spec (q - (p - off)) 0) as [|_]; [lia|]. done.
Qed.
End directory.

(** [iso9660_search_dir], on a directory laid out as the format requires, returns, and
    finds the first record whose name is accepted; the page is given back. *)
Lemma search_dir_ok disk junk mi sec n ps pathname start end_ s :
  bytes_ok disk -> Z.of_nat (length junk) = 4096 -> layout disk sec n 0 ps -> 0 <= sec -> 0 <= n < 2 ^ 31 ->
  sec + n / 2048 + 2 < 2 ^ 32 -> 0 <= start <= end_ -> end_ <= Z.of_nat (length pathname) ->
  let name := take (Z.to_nat (end_ - start)) (drop (Z.to_nat start) pathname) in
  iso9660_search_dir (cd disk) junk mi sec n pathname start end_ s = Ok (find_compared disk sec name ps, s).
Proof.
  intros Hd Hj Hlay Hsec Hn Hb Hse He name.
  assert (end_ - start = Z.of_nat (length name)) as El by (unfold name; rewrite length_take, length_drop; lia).
  assert (name `prefix_of` drop (Z.to_nat start) pathname) as Hpre
    by (exists (drop (Z.to_nat (end_ - start)) (drop (Z.to_nat start) pathname)); symmetry; apply take_drop).
  destruct (search_loop disk Hd mi sec n name _ 0 ps Hlay Hpre Hsec Hn Hb (S (Z.to_nat n)) sec 0 junk) as (r & E & Hr);
    [lia|split; [done|]; rewrite Z.mod_0_l, Z.div_0_l by lia; cbn [Z.eqb]; lia|lia|].
  unfold iso9660_search_dir, bind at 1, take_page, modify. unfold bind at 1, lift. rewrite El, E.
  assert (set_i_pages (i_pages (set_i_pages (i_pages s + 1) s) - 1) (set_i_pages (i_pages s + 1) s) = s) as Es.
  { destruct s as [a b c p]. cbn. by replace (p + 1 - 1) with p by lia. }
  destruct r as [[d page]|]; [destruct Hr as (de & Hc & ->)|rewrite Hr]; unfold bind, give_page, modify, ret.
  - rewrite Hc. by rewrite Es.
  - by rewrite Es.
Qed.

(** ** Paths *)

Definition directory_ok (disk : Z -> Z) (sec n : Z) (ps : list Z) : Prop :=
  layout disk sec n 0 ps /\ 0 <= sec /\ 0 <= n < 2 ^ 31 /\ sec + n / 2048 + 2 < 2 ^ 32.

Definition no_slash (l : list Z) : Prop := Forall (fun c => c <> PATHSEP /\ c <> 0) l.

Lemma plain_no_slash name : plain_name name -> no_slash name /\ name <> [].
Proof. intros (Hne & Hall & _). split; [|done]. eapply Forall_impl; [exact Hall|]. naive_solver. Qed.

(** A directory in which a component can be looked up: no record has an empty identifier,
    or shares a stem with the component. *)
Definition searchable (disk : Z -> Z) (sec n : Z) (name ps : list Z) : Prop :=
  directory_ok disk sec n ps /\ plain_name name /\ no_clash disk sec name ps.
Definition only_slashes (l : list Z) : Prop := Forall (fun c => c = PATHSEP) l.

(** What the rest of a path denotes from the directory of [n] bytes at [sec]: [None]
    when there is no such file. *)
Inductive denotes (disk : Z -> Z) : Z -> Z -> list Z -> option (Z * Z) -> Prop :=
| denotes_nothing sec n sl : only_slashes sl -> denotes disk sec n sl None
| denotes_last sec n ps sl name : only_slashes sl -> searchable disk sec n name ps ->
    denotes disk sec n (sl ++ name) (find_record disk sec name ps)
| denotes_missing sec n ps sl name rest : only_slashes sl -> searchable disk sec n name ps ->
    find_record disk sec name ps = None ->
    denotes disk sec n (sl ++ name ++ PATHSEP :: rest) None
| denotes_in sec n ps sl name rest sec' n' r : only_slashes sl -> searchable disk sec n name ps ->
    find_record disk sec name ps = Some (sec', n') ->
    denotes disk sec' n' (PATHSEP :: rest) r -> denotes disk sec n (sl ++ name ++ PATHSEP :: rest) r.

Lemma slashes_app sl l : only_slashes sl -> slashes (sl ++ l) = Z.of_nat (length sl) + slashes l.
Proof. induction 1 as [|c sl -> Hsl IH]; [done|]. cbn [app slashes length]. rewrite Z.eqb_refl, IH. lia. Qed.

Lemma slashes_name name l : no_slash name -> name <> [] -> slashes (name ++ l) = 0.
Proof. intros Hn. destruct Hn as [|c name [Hc _] Hn]; [done|]. intros _. cbn. by rewrite (proj2 (Z.eqb_neq c PATHSEP)). Qed.

Lemma component_name name l : no_slash name ->
  (l = [] \/ exists l', l = PATHSEP :: l') -> component_length (name ++ l) = Z.of_nat (length name).
Proof.
  intros Hn Hl. induction Hn as [|c name [Hc _] Hn IH]; cbn [app component_length length].
  - destruct Hl as [->|[l' ->]]; [done|]. cbn. done.
  - rewrite (proj2 (Z.eqb_neq c PATHSEP)), IH by done. lia.
Qed.

(** The parse of a component. *)
Lemma parse_component pre sl name l : only_slashes sl -> no_slash name -> name <> [] ->
  (l = [] \/ exists l', l = PATHSEP :: l') ->
  let path := pre ++ sl ++ name ++ l in let start := Z.of_nat (length pre + length sl) in
  iso9660_parse_first_component path (Z.of_nat (length pre)) (Z.of_nat (length path)) =
    (start, start + Z.of_nat (length name), match l with [] => false | _ => true end).
Proof.
  intros Hsl Hn Hne Hl path start. unfold iso9660_parse_first_component. rewrite Nat2Z.id.
  assert (drop (length pre) path = sl ++ name ++ l) as -> by apply drop_app_length.
  rewrite slashes_app, slashes_name, Z.add_0_r by done.
  replace (Z.of_nat (length pre) + Z.of_nat (length sl)) with start by lia.
  assert (drop (Z.to_nat start) path = name ++ l) as ->.
  { unfold start, path. rewrite Nat2Z.id, (app_assoc pre). apply drop_app_length'. by rewrite length_app. }
  rewrite component_name by done.
  assert (Z.of_nat (length path) = start + Z.of_nat (length name) + Z.of_nat (length l)) as Ep.
  { unfold path, start. rewrite !length_app. lia. }
  rewrite Z.min_r, Z.max_r by lia. f_equal. unfold char_at.
  assert (path !! Z.to_nat (start + Z.of_nat (length name)) = head l) as ->.
  { unfold path. rewrite !(app_assoc pre), app_assoc. rewrite lookup_app_r by (rewrite !length_app; lia).
    replace (_ - _)%nat with 0%nat by (rewrite !length_app; lia). by destruct l. }
  by destruct Hl as [->|[l' ->]].
Qed.

Lemma parse_nothing pre sl : only_slashes sl ->
  let path := pre ++ sl in let n := Z.of_nat (length path) in
  iso9660_parse_first_component path (Z.of_nat (length pre)) n = (n, n, false).
Proof.
  intros Hsl path n. unfold iso9660_parse_first_component. rewrite Nat2Z.id.
  assert (drop (length pre) path = sl) as -> by apply drop_app_length.
  rewrite <- (app_nil_r sl), slashes_app by done. cbn [slashes]. rewrite Z.add_0_r.
  assert (Z.of_nat (length pre) + Z.of_nat (length sl) = n) as -> by (unfold n, path; rewrite length_app; lia).
  assert (drop (Z.to_nat n) path = []) as -> by (apply drop_ge; unfold n; lia).
  cbn [component_length]. rewrite Z.add_0_r, Z.min_id, Z.max_id. unfold char_at.
  rewrite lookup_ge_None_2 by (unfold n; lia). done.
Qed.

Lemma component_slice (pre sl name l : list Z) :
  let start := Z.of_nat (length pre + length sl) in
  take (Z.to_nat (start + Z.of_nat (length name) - start)) (drop (Z.to_nat start) (pre ++ sl ++ name ++ l)) = name.
Proof.
  intros start. replace (Z.to_nat (start + Z.of_nat (length name) - start)) with (length name) by lia.
  unfold start. rewrite Nat2Z.id, (app_assoc pre).
  rewrite drop_app_length' by (by rewrite length_app). apply take_app_length.
Qed.

(** The search for a component, as [open_body] makes it. *)
Lemma open_search disk junk mi sec n ps pre sl name l s : bytes_ok disk -> Z.of_nat (length junk) = 4096 ->
  searchable disk sec n name ps ->
  let start := Z.of_nat (length pre + length sl) in
  iso9660_search_dir (cd disk) junk mi sec n (pre ++ sl ++ name ++ l) start (start + Z.of_nat (length name)) s =
    Ok (find_record disk sec name ps, s).
Proof.
  intros Hd Hj ((Hlay & Hsec & Hn & Hb) & Hname & Hclash) start. rewrite <- find_compared_record by done.
  pose proof (search_dir_ok disk junk mi sec n ps (pre ++ sl ++ name ++ l) start
    (start + Z.of_nat (length name)) s Hd Hj Hlay Hsec Hn Hb) as H. cbn zeta in H.
  unfold start in *. rewrite component_slice in H. apply H; rewrite ?length_app; lia.
Qed.

Lemma open_loop disk junk mi : bytes_ok disk -> Z.of_nat (length junk) = 4096 ->
  forall sec n rest r, denotes disk sec n rest r -> forall pre fuel s, (length rest < fuel)%nat ->
  mloop fuel (open_body (cd disk) junk mi (pre ++ rest)) (sec, n, Z.of_nat (length pre)) s =
    Ok ((fun sl => mkHandle sl.1 0 sl.2) <$> r, s).
Proof.
  intros Hd Hj sec n rest r Hden.
  induction Hden as [sec n sl Hsl|sec n ps sl name Hsl Hok|sec n ps sl name rest Hsl Hok Hf|
    sec n ps sl name rest sec' n' r Hsl Hok Hf Hden IH]; intros pre fuel s Hfuel;
    (destruct fuel as [|fuel]; [lia|]); rewrite mloop_S; unfold open_body at 1.
  - rewrite parse_nothing by done. cbn [negb]. by rewrite Z.eqb_refl.
  - destruct (plain_no_slash name (proj1 (proj2 Hok))) as [Hn Hne]. pose proof (parse_component pre sl name [] Hsl Hn Hne (or_introl eq_refl)) as Hp. cbn zeta in Hp.
    pose proof (open_search disk junk mi sec n ps pre sl name [] s Hd Hj Hok) as Hs. cbn zeta in Hs.
    rewrite app_nil_r in Hp, Hs. rewrite Hp. cbn [negb]. rewrite (proj2 (Z.eqb_neq _ _)) by (destruct name; [done|cbn [length]; lia]).
    rewrite bind_assoc, (bind_Ok_eq _ _ _ _ _ Hs). by destruct (find_record disk sec name ps) as [[a b]|].
  - destruct (plain_no_slash name (proj1 (proj2 Hok))) as [Hn Hne]. rewrite parse_component by (eauto). cbn [negb].
    rewrite bind_assoc, (bind_Ok_eq _ _ _ _ _ (open_search disk junk mi sec n ps pre sl name (PATHSEP :: rest) s Hd Hj Hok)).
    by rewrite Hf.
  - destruct (plain_no_slash name (proj1 (proj2 Hok))) as [Hn Hne]. rewrite parse_component by (eauto). cbn [negb].
    rewrite bind_assoc, (bind_Ok_eq _ _ _ _ _ (open_search disk junk mi sec n ps pre sl name (PATHSEP :: rest) s Hd Hj Hok)).
    rewrite Hf. cbn [bind ret].
    pose proof (IH (pre ++ sl ++ name) fuel s) as IH'. rewrite <- !app_assoc in IH'.
    unfold bind, ret.
    replace (Z.of_nat (length pre + length sl) + Z.of_nat (length name)) with (Z.of_nat (length (pre ++ sl ++ name)))
      by (rewrite !length_app; lia).
    apply IH'. rewrite !length_app in Hfuel. cbn [length] in *.
    destruct name; [done|]. cbn [length] in Hfuel. lia.
Qed.

Lemma iso_open_ok disk junk mi path r s :
  bytes_ok disk -> Z.of_nat (length junk) = 4096 ->
  denotes disk (root_dir_sector mi) (root_dir_data_length mi) (PATHSEP :: path) r ->
  iso9660_open (cd disk) junk mi (PATHSEP :: path) s = Ok ((fun sl => mkHandle sl.1 0 sl.2) <$> r, s).
Proof.
  intros Hd Hj Hden. unfold iso9660_open. cbn [char_at]. change (char_at (PATHSEP :: path) 0) with PATHSEP.
  rewrite Z.eqb_refl. cbn [negb]. apply (open_loop disk junk mi Hd Hj _ _ _ _ Hden []). lia.
Qed.

(** C22: [iso9660_open] of an absolute path through directories laid out as the format
    requires returns, and opens the file that the path denotes by the names in the
    identifiers, if any, when no record of a directory on the way has an empty identifier
    or shares a stem with the component that is looked up there. *)
Theorem iso9660_open_correct disk junk mi path r s :
  bytes_ok disk -> Z.of_nat (length junk) = 4096 ->
  denotes disk (root_dir_sector mi) (root_dir_data_length mi) (PATHSEP :: path) r ->
  iso9660_open (cd disk) junk mi (PATHSEP :: path) s = Ok ((fun sl => mkHandle sl.1 0 sl.2) <$> r, s).
Proof. apply iso_open_ok. Qed.

(** ** Examples *)

(** A CD whose root directory, at sector 20, holds itself and the file [A.TXT;1] of
    three bytes at sector 25. *)
Definition root_records : list Z :=
  [34; 0; 20; 0; 0; 0; 0; 0; 0; 0; 0; 8; 0; 0; 0; 0; 0; 0; 0; 0; 0; 0; 0; 0; 0; 2; 0; 0; 0; 0; 0; 0; 1; 0;
   40; 0; 25; 0; 0; 0; 0; 0; 0; 0; 3; 0; 0; 0; 0; 0; 0; 0; 0; 0; 0; 0; 0; 0; 0; 0; 0; 0; 0; 0; 0; 0; 7;
   65; 46; 84; 88; 84; 59; 49].
Definition iso_disk (a : Z) : Z := if a <? 40960 then 7 else nth (Z.to_nat (a - 40960)) root_records 0.

Lemma iso_disk_bytes : bytes_ok iso_disk.
Proof.
  intros a. unfold iso_disk. destruct (a <? 40960); [lia|].
  destruct (nth_in_or_default (Z.to_nat (a - 40960)) root_records 0) as [Hin|E]; [|rewrite E; lia].
  assert (Forall (fun x => 0 <= x < 256) root_records) as Hf by (repeat constructor; lia).
  rewrite Forall_forall in Hf. apply Hf. by apply list_elem_of_In.
Qed.

Lemma iso_disk_zero k : 74 <= k -> iso_disk (2048 * 20 + k) = 0.
Proof.
  intros Hk. unfold iso_disk. rewrite (proj2 (Z.ltb_ge _ _)) by lia. apply nth_overflow. cbn [length root_records]. lia.
Qed.

Lemma iso_root : directory_ok iso_disk 20 2048 [0; 34].
Proof.
  split; [|split_and!; [lia..|vm_compute; reflexivity]].
  apply (layout_record _ _ _ 0 34); [lia|vm_compute; congruence|vm_compute; congruence|vm_compute; intuition congruence| |right; vm_compute; congruence|].
  { intros k Hk. exfalso. change (r_length (record_at iso_disk 20 0)) with 34 in Hk. lia. }
  apply (layout_record _ _ _ 34 2048); [lia|vm_compute; congruence|vm_compute; congruence|vm_compute; intuition congruence| |left; done|by apply layout_end].
  intros k Hk. change (r_length (record_at iso_disk 20 34)) with 40 in Hk. apply iso_disk_zero. lia.
Qed.

Lemma iso_searchable : searchable iso_disk 20 2048 [97; 46; 116; 120; 116] [0; 34].
Proof.
  split; [exact iso_root|]. split; [split_and!; [done|repeat constructor; done|done]|].
  intros p [->|[->|[]%not_elem_of_nil]%elem_of_cons]%elem_of_cons.
  all: unfold clash; cbv; intros [[=]|[(e & [=])|(c & e & [=] & _)]].
Qed.

(** The component "foo.dat" against the identifier of a directory FOO: the comparison
    accepts it, though the format does not. *)
Example stem_accepted : same_name [102; 111; 111; 46; 100; 97; 116] [70; 79; 79] = true /\
  identifies [102; 111; 111; 46; 100; 97; 116] [70; 79; 79] = false.
Proof. by vm_compute. Qed.

Definition iso_start : iso := mkIso (mkMounted 0 1 20 2048) None true 0.

Lemma iso9660_open_correct_witness :
  iso9660_open (cd iso_disk) (replicate (Z.to_nat 4096) 0) (mkMounted 0 1 20 2048) [47; 97; 46; 116; 120; 116] iso_start =
    Ok (Some (mkHandle 25 0 3), iso_start).
Proof.
  pose proof (iso9660_open_correct iso_disk (replicate (Z.to_nat 4096) 0) (mkMounted 0 1 20 2048) [97; 46; 116; 120; 116]
    (find_record iso_disk 20 [97; 46; 116; 120; 116] [0; 34]) iso_start) as H.
  apply H; [apply iso_disk_bytes|by rewrite length_replicate|].
  apply (denotes_last _ _ _ [0; 34] [47]); [by repeat constructor|apply iso_searchable].
Defined.

Lemma iso9660_read_correct_witness : exists h',
  iso9660_read (cd iso_disk) (replicate (Z.to_nat 4096) 0) (mkHandle 20 66 500) (mkMounted 0 1 20 2048) 8 iso_start =
    Ok ((8, h', [7; 65; 46; 84; 88; 84; 59; 49]), iso_start) /\ handle_pos h' = 2048 * 20 + 74.
Proof.
  destruct (iso9660_read_correct iso_disk (replicate (Z.to_nat 4096) 0) (mkHandle 20 66 500) (mkMounted 0 1 20 2048) 8 iso_start)
    as (h' & E & _ & Hp & _); [by rewrite length_replicate|split_and!; done|done|done|]. exists h'. split; [exact E|exact Hp].
Defined.

(** The component "a" of "/a" against the identifier of the record. *)
Lemma iso9660_filename_compare_correct_witness :
  iso9660_filename_compare [97] 1 [65; 46; 84; 88; 84; 59; 49; 0] 7 = Ok 0 /\
  iso9660_filename_compare [98; 47] 1 [65; 46; 84; 88; 84; 59; 49; 0] 7 = Ok (-1).
Proof.
  split.
  - apply (iso9660_filename_compare_correct [97] [65; 46; 84; 88; 84; 59; 49]); [by exists []|by exists [0]|vm_compute; reflexivity].
  - apply (iso9660_filename_compare_correct [98] [65; 46; 84; 88; 84; 59; 49]); [by exists [47]|by exists [0]|vm_compute; reflexivity].
Defined.

(** A failed mount keeps its page. *)
Lemma iso9660_mount_leaks junk bus drive s :
  iso9660_mount (fun _ _ _ => None) junk bus drive s = Ok (-1, set_i_pages (i_pages s + 1) s).
Proof. done. Qed.
