(* ===== verification/Vfs.v ===== *)
(** * The virtual file system layer: fs/fsys.c

    [FileSystems] is what the layer calls: for each file system, opening a path,
    reading from the open file, and mounting.  [files] is the state of the three
    readers modelled here side by side, and of a TFTP client that is a parameter;
    [readers] is its instance of the interface.  What [vfs_init] prints is left out. *)

From Stdlib Require Import ZArith Lia.
From S2P Require Import Prelude Ext2 Ext2Thm Vfat VfatThm Iso9660 IsoThm.
From stdpp Require Import base gmap numbers strings list.
Local Open Scope Z_scope.

(** ** The interface to the file systems *)

Definition VFS_FSYS_NONE : Z := 0.
Definition VFS_FSYS_EZEXT2 : Z := 1.
Definition VFS_FSYS_EZISO : Z := 2.
Definition VFS_FSYS_EZUSB : Z := 3.
Definition VFS_FSYS_EZTFTP : Z := 4.

Class FileSystems (W : Type) := {
  fs_ext2_dir : list Z -> M W Z;
  fs_iso_dir : list Z -> M W Z;
  fs_usb_dir : list Z -> M W Z;
  fs_tftp_dir : list Z -> M W Z;
  fs_ext2_read : Z -> M W (Z * list (option Z));
  fs_iso_read : Z -> M W (Z * list (option Z));
  fs_usb_read : Z -> M W (Z * list (option Z));
  fs_tftp_read : Z -> M W (Z * list (option Z));
  fs_ext2_mount : M W Z;
  fs_iso_mount : Z -> Z -> M W Z;
  fs_usb_mount : M W Z;
  fs_tftp_mount : M W Z
}.

Definition ATA_TYPE_PATA : Z := 1.
Definition ATA_TYPE_PATAPI : Z := 2.
Record ata_info := mkAta { ata_type : Z; ata_bus : Z; ata_drive : Z }.

Record vfs (W : Type) := mkVfs { vfs_root_type : Z; vfs_files : W }.
Arguments mkVfs {W}.
Arguments vfs_root_type {W}.
Arguments vfs_files {W}.

Definition vfs_table : list (list Z * Z) :=
  [([104; 100], VFS_FSYS_EZEXT2); ([99; 100], VFS_FSYS_EZISO);
   ([116; 102; 116; 112], VFS_FSYS_EZTFTP); ([117; 115; 98], VFS_FSYS_EZUSB)].

(** ** Paths *)

(** The inner loop of [parse_pathname]: how far name and path agree. *)
Fixpoint match_name (vfs name : list Z) : list Z * list Z :=
  match vfs, name with
  | v :: vfs', n :: name' =>
      if (v =? 41) || negb (v =? n) then (vfs, name) else match_name vfs' name'
  | _, _ => (vfs, name)
  end.

Fixpoint parse_table (pathname : list Z) (table : list (list Z * Z)) : option (Z * list Z) :=
  match table with
  | [] => None
  | (name, type) :: table' =>
      match match_name pathname name with
      | (c :: filepart, []) => if c =? 41 then Some (type, filepart) else parse_table pathname table'
      | _ => parse_table pathname table'
      end
  end.

(** The file system and [*filepart]; [None] is the result -1. *)
Definition parse_pathname (root : Z) (pathname : list Z) : option (Z * list Z) :=
  match pathname with
  | c :: pathname' => if c =? 40 then parse_table pathname' vfs_table else Some (root, pathname)
  | [] => Some (root, pathname)
  end.

(** ** Operations *)

Section vfs.
Context {W : Type} `{FileSystems W}.

Definition on_files {A} (m : M W A) : M (vfs W) A := fun s =>
  match m (vfs_files s) with
  | Ok (a, w) => Ok (a, mkVfs (vfs_root_type s) w)
  | Err e => Err e
  end.

Definition vfs_set_root (type : Z) : M (vfs W) unit := modify (fun s => mkVfs type (vfs_files s)).

Definition vfs_dir (pathname : list Z) : M (vfs W) Z :=
  let! root := gets vfs_root_type in
  match parse_pathname root pathname with
  | None => ret (-1)
  | Some (type, filepart) =>
      if type =? -1 then ret (-1)
      else if type =? VFS_FSYS_EZEXT2 then on_files (fs_ext2_dir filepart)
      else if type =? VFS_FSYS_EZISO then on_files (fs_iso_dir filepart)
      else if type =? VFS_FSYS_EZUSB then on_files (fs_usb_dir filepart)
      else if type =? VFS_FSYS_EZTFTP then on_files (fs_tftp_dir filepart)
      else ret (-1)
  end.

Definition vfs_read (pathname : list Z) (len : Z) : M (vfs W) (Z * list (option Z)) :=
  let! root := gets vfs_root_type in
  match parse_pathname root pathname with
  | None => ret (-1, [])
  | Some (type, _) =>
      if type =? -1 then ret (-1, [])
      else if type =? VFS_FSYS_EZEXT2 then on_files (fs_ext2_read len)
      else if type =? VFS_FSYS_EZISO then on_files (fs_iso_read len)
      else if type =? VFS_FSYS_EZUSB then on_files (fs_usb_read len)
      else if type =? VFS_FSYS_EZTFTP then on_files (fs_tftp_read len)
      else ret (-1, [])
  end.

(** The loop over the drives for a CD-ROM root. *)
Fixpoint mount_cd (pata_drives : list ata_info) : M (vfs W) unit :=
  match pata_drives with
  | [] => ret tt
  | d :: ds =>
      if ata_type d =? ATA_TYPE_PATAPI then
        let! v := on_files (fs_iso_mount (ata_bus d) (ata_drive d)) in
        if v =? 0 then fail (Panic "Filesystem mount failed")
        else vfs_set_root VFS_FSYS_EZISO
      else mount_cd ds
  end.

Definition vfs_init (root_type boot_device : Z) (pata_drives : list ata_info) : M (vfs W) bool :=
  (if root_type =? VFS_FSYS_EZEXT2 then
     let! d := lift (of_option OutOfBounds (head pata_drives)) in
     when ((boot_device =? 0x8000FFFF) && (ata_type d =? ATA_TYPE_PATA))
       (let! v := on_files fs_ext2_mount in
        if v =? 0 then fail (Panic "Filesystem mount failed")
        else vfs_set_root VFS_FSYS_EZEXT2)
   else if root_type =? VFS_FSYS_EZISO then mount_cd (take 4 pata_drives)
   else if root_type =? VFS_FSYS_EZTFTP then
     let! v := on_files fs_tftp_mount in
     if v =? 0 then fail (Panic "TFTP mount failed")
     else vfs_set_root VFS_FSYS_EZTFTP
   else
     on_files fs_usb_mount ;;!
     vfs_set_root VFS_FSYS_EZUSB) ;;!
  ret true.
End vfs.

(** ** The readers *)

Record files (T : Type) := mkFiles { w_ext2 : fs; w_iso : iso; w_vfat : vfat; w_tftp : T }.
Arguments mkFiles {T}.
Arguments w_ext2 {T}.
Arguments w_iso {T}.
Arguments w_vfat {T}.
Arguments w_tftp {T}.

Section readers.
Context {T : Type}.

Definition in_ext2 {A} (m : M fs A) : M (files T) A := fun w =>
  match m (w_ext2 w) with
  | Ok (a, x) => Ok (a, mkFiles x (w_iso w) (w_vfat w) (w_tftp w)) | Err e => Err e end.
Definition in_iso {A} (m : M iso A) : M (files T) A := fun w =>
  match m (w_iso w) with
  | Ok (a, x) => Ok (a, mkFiles (w_ext2 w) x (w_vfat w) (w_tftp w)) | Err e => Err e end.
Definition in_vfat {A} (m : M vfat A) : M (files T) A := fun w =>
  match m (w_vfat w) with
  | Ok (a, x) => Ok (a, mkFiles (w_ext2 w) (w_iso w) x (w_tftp w)) | Err e => Err e end.
Definition in_tftp {A} (m : M T A) : M (files T) A := fun w =>
  match m (w_tftp w) with
  | Ok (a, x) => Ok (a, mkFiles (w_ext2 w) (w_iso w) (w_vfat w) x) | Err e => Err e end.

(** The devices, what fresh buffers hold, and the TFTP client. *)
Context (hard_disk : Z -> Z) (cd_rom : Z -> Z -> Z -> option (list Z)) (usb_disk : Z -> option (list Z)).
Context (drives : list ata_info) (link_junk : mem) (page_junk entry_junk : list Z) (dir_fuel : nat).
Context (tftp_dir : list Z -> M T Z) (tftp_read : Z -> M T (Z * list (option Z))) (tftp_mount : M T Z).

Definition all_read {S} (r : M S (Z * list Z)) : M S (Z * list (option Z)) :=
  let! '(n, out) := r in ret (n, Some <$> out).

#[export] Instance readers : FileSystems (files T) := {
  fs_ext2_dir p := in_ext2 (ext2fs_dir hard_disk link_junk p);
  fs_iso_dir p := in_iso (eziso_dir cd_rom page_junk
    ((fun d => (ata_type d =? ATA_TYPE_PATAPI, ata_bus d, ata_drive d)) <$> drives) p);
  fs_usb_dir p := in_vfat (let! '(n, _) := Vfat.vfat_dir usb_disk dir_fuel entry_junk p in ret n);
  fs_tftp_dir p := in_tftp (tftp_dir p);
  fs_ext2_read len := in_ext2 (all_read (ext2fs_read hard_disk len));
  fs_iso_read len := in_iso (all_read (eziso_read cd_rom page_junk len));
  fs_usb_read len := in_vfat (vfat_read usb_disk len);
  fs_tftp_read len := in_tftp (tftp_read len);
  fs_ext2_mount := in_ext2 (ext2fs_mount hard_disk);
  fs_iso_mount bus drive := in_iso (eziso_mount cd_rom page_junk bus drive);
  fs_usb_mount := in_vfat (vfat_mount usb_disk);
  fs_tftp_mount := in_tftp tftp_mount
}.
End readers.

(** ** Lemmas on paths *)

Definition no_close (l : list Z) : Prop := Forall (fun c => c <> 41) l.

Lemma match_name_spec name : no_close name -> forall v f,
  match_name v name = (41 :: f, []) <-> v = name ++ 41 :: f.
Proof.
  induction 1 as [|n name Hn Hname IH]; intros v f.
  - destruct v; cbn; naive_solver.
  - destruct v as [|x v]; cbn [match_name app]; [naive_solver|].
    destruct (Z.eqb_spec x 41) as [->|Hx]; cbn [orb]; [naive_solver|].
    destruct (Z.eqb_spec x n) as [->|Hxn]; cbn [negb]; [|naive_solver].
    rewrite IH. naive_solver.
Qed.

Lemma close_unique a b f g : no_close a -> no_close b -> a ++ 41 :: f = b ++ 41 :: g -> a = b /\ f = g.
Proof.
  intros Ha. revert b. induction Ha as [|x a Hx Ha IH]; intros b Hb E.
  - destruct Hb as [|y b Hy Hb]; [by injection E as ->|]. by injection E as <- _.
  - destruct Hb as [|y b Hy Hb]; [by injection E as -> _|]. injection E as -> E.
    by destruct (IH b Hb E) as [-> ->].
Qed.

(** The entry of a table that a path names. *)
Lemma parse_table_spec table : Forall (fun e => no_close e.1) table -> NoDup table.*1 -> forall v t f,
  parse_table v table = Some (t, f) <-> exists name, (name, t) ∈ table /\ v = name ++ 41 :: f.
Proof.
  induction 1 as [|[n0 t0] table Hn0 Htab IH]; intros Hnd v t f; cbn [parse_table].
  { split; [done|]. intros (name & Hin & _). by apply not_elem_of_nil in Hin. }
  cbn in Hnd, Hn0. apply NoDup_cons in Hnd as [Hnot Hnd].
  assert (forall f0, match_name v n0 = (41 :: f0, []) ->
    (t0 = t /\ f0 = f <-> exists name, (name, t) ∈ (n0, t0) :: table /\ v = name ++ 41 :: f)) as Hhit.
  { intros f0 ->%match_name_spec; [|done]. split.
    - intros [-> ->]. exists n0. split; [left|done].
    - intros (name & [[= -> ->]|Hin]%elem_of_cons & E).
      + by apply app_inv_head in E as [= ->].
      + destruct (close_unique n0 name f0 f Hn0) as [-> _]; [|done|].
        * rewrite Forall_forall in Htab. apply (Htab (name, t) Hin).
        * destruct Hnot. apply list_elem_of_fmap. by exists (name, t). }
  assert (match_name v n0 <> (41 :: f, []) ->
    (parse_table v table = Some (t, f) <-> exists name, (name, t) ∈ (n0, t0) :: table /\ v = name ++ 41 :: f)) as Hmiss.
  { intros Hne. rewrite (IH Hnd). split; intros (name & Hin & E).
    - exists name. split; [by right|done].
    - apply elem_of_cons in Hin as [[= -> ->]|Hin]; [|by exists name]. destruct Hne. by apply match_name_spec. }
  destruct (match_name v n0) as [[|c l] [|n r]]; [by apply Hmiss..| |by apply Hmiss].
  destruct (Z.eqb_spec c 41) as [->|Hc]; [|apply Hmiss; congruence].
  rewrite <- (Hhit l eq_refl). naive_solver.
Qed.

(** [parse_pathname] takes a path that starts with the name of a file system in
    parentheses to that file system and the rest of the path, a path that does not start
    with a parenthesis to the root file system, and rejects every other path. *)
Theorem parse_pathname_correct root p t f :
  parse_pathname root p = Some (t, f) <->
  (head p <> Some 40 /\ t = root /\ f = p) \/
  (exists name, (name, t) ∈ vfs_table /\ p = 40 :: name ++ 41 :: f).
Proof.
  assert (Forall (fun e => no_close e.1) vfs_table) as Hclose by (repeat constructor; done).
  assert (NoDup vfs_table.*1) as Hnd by (apply (bool_decide_unpack _); by vm_compute).
  unfold parse_pathname. destruct p as [|c p]; cbn [head]; [naive_solver|].
  destruct (Z.eqb_spec c 40) as [->|Hc].
  - rewrite (parse_table_spec vfs_table Hclose Hnd). split.
    + intros (name & Hin & ->). right. by exists name.
    + intros [[? _]|(name & Hin & [= ->])]; [done|by exists name].
  - split; [intros [= <- <-]; left; naive_solver|]. intros [(_ & -> & ->)|(name & _ & [= ? _])]; [done|congruence].
Qed.

(** ** From a path to the bytes of a file *)

Section cd_file.
Context {T : Type} (disk : Z -> Z) (Hd : bytes_ok disk) (page_junk : list Z) (Hj : Z.of_nat (length page_junk) = 4096).
Context (hard_disk : Z -> Z) (usb_disk : Z -> option (list Z)) (drives : list ata_info) (link_junk : mem).
Context (entry_junk : list Z) (dir_fuel : nat).
Context (tftp_dir : list Z -> M T Z) (tftp_read : Z -> M T (Z * list (option Z))) (tftp_mount : M T Z).

#[local] Instance cd_readers : FileSystems (files T) :=
  readers hard_disk (cd disk) usb_disk drives link_junk page_junk entry_junk dir_fuel tftp_dir tftp_read tftp_mount.

(** The file system of the CD on one of its operations. *)
Definition with_iso (x : iso) (s : vfs (files T)) : vfs (files T) :=
  let w := vfs_files s in mkVfs (vfs_root_type s) (mkFiles (w_ext2 w) x (w_vfat w) (w_tftp w)).

Lemma cd_path root path : parse_pathname root (40 :: 99 :: 100 :: 41 :: path) = Some (VFS_FSYS_EZISO, path).
Proof. done. Qed.

Lemma vfs_dir_cd path s :
  vfs_dir (40 :: 99 :: 100 :: 41 :: path) s =
  match eziso_dir (cd disk) page_junk ((fun d => (ata_type d =? ATA_TYPE_PATAPI, ata_bus d, ata_drive d)) <$> drives)
    path (w_iso (vfs_files s)) with
  | Ok (n, x) => Ok (n, with_iso x s)
  | Err e => Err e
  end.
Proof.
  unfold vfs_dir, bind, gets. rewrite cd_path. cbn [Z.eqb VFS_FSYS_EZISO VFS_FSYS_EZEXT2 Pos.eqb].
  unfold on_files. cbn [fs_iso_dir cd_readers readers]. unfold in_iso. by destruct (eziso_dir _ _ _ _ _) as [[n x]|e].
Qed.

Lemma vfs_read_cd path len s :
  vfs_read (40 :: 99 :: 100 :: 41 :: path) len s =
  match eziso_read (cd disk) page_junk len (w_iso (vfs_files s)) with
  | Ok ((n, out), x) => Ok ((n, Some <$> out), with_iso x s)
  | Err e => Err e
  end.
Proof.
  unfold vfs_read, bind, gets. rewrite cd_path. cbn [Z.eqb VFS_FSYS_EZISO VFS_FSYS_EZEXT2 Pos.eqb].
  unfold on_files. cbn [fs_iso_read cd_readers readers]. unfold in_iso, all_read, bind.
  by destruct (eziso_read _ _ _ _) as [[[n out] x]|e].
Qed.

(** C21: A path on a mounted CD that denotes a file: [vfs_dir] returns its length, and
    [vfs_read] of that length then returns its bytes, consecutive on the CD from its
    first sector; the other file systems are left alone.  The path is looked up by the
    names in the identifiers, in directories without the records that the comparison of
    the code is wrong about ([searchable]). *)
Theorem vfs_reads_cd_file path sec len s :
  let mi := mount_info (w_iso (vfs_files s)) in
  iso_mounted (w_iso (vfs_files s)) = true ->
  denotes disk (root_dir_sector mi) (root_dir_data_length mi) (PATHSEP :: path) (Some (sec, len)) ->
  0 <= sec -> 0 <= len < 2 ^ 31 -> sec + len / 2048 < 2 ^ 32 ->
  let pathname := 40 :: 99 :: 100 :: 41 :: PATHSEP :: path in
  exists s1 s2 x, vfs_dir pathname s = Ok (len, s1) /\
    vfs_read pathname len s1 = Ok ((len, Some <$> bytes_at disk (2048 * sec) len), s2) /\ s2 = with_iso x s.
Proof.
  intros mi Hm Hden Hsec Hlen Hb pathname. set (w := w_iso (vfs_files s)) in *.
  assert (eziso_dir (cd disk) page_junk ((fun d => (ata_type d =? ATA_TYPE_PATAPI, ata_bus d, ata_drive d)) <$> drives)
    (PATHSEP :: path) w = Ok (len, set_iso_handle (Some (mkHandle sec 0 len)) w)) as Edir.
  { unfold eziso_dir, bind, gets. rewrite Hm. cbn [negb when ret]. fold mi.
    rewrite (iso_open_ok disk page_junk mi path _ w Hd Hj Hden). cbn. by rewrite s32_small by lia. }
  destruct (iso_read_ok disk page_junk (mkHandle sec 0 len) mi len (set_iso_handle (Some (mkHandle sec 0 len)) w))
    as (h' & Eread & _); [done|split_and!; cbn [h_sector h_offset h_length]; lia|lia|cbn [h_sector h_offset]; by rewrite Z.add_0_l|].
  exists (with_iso (set_iso_handle (Some (mkHandle sec 0 len)) w) s), (with_iso (set_iso_handle (Some h') w) s), (set_iso_handle (Some h') w).
  split_and!; [by unfold pathname; rewrite vfs_dir_cd; fold w; rewrite Edir| |done].
  unfold pathname. rewrite vfs_read_cd. cbn [with_iso vfs_files w_iso].
  unfold eziso_read, bind, gets. cbn [iso_handle set_iso_handle of_option lift mount_info]. fold mi.
  rewrite u32_small by lia. rewrite Eread. cbn. rewrite (proj2 (Z.ltb_ge len 0)) by lia.
  unfold handle_pos. cbn. rewrite Z.add_0_r. done.
Qed.
End cd_file.

Lemma blank_page : Z.of_nat (length (replicate (Z.to_nat 4096) 0)) = 4096.
Proof. by rewrite length_replicate. Qed.

Lemma vfs_reads_cd_file_witness :
  let fsys := cd_readers iso_disk (replicate (Z.to_nat 4096) 0) (fun _ => 0) (fun _ => None) [] (fun _ => 0) [] 0%nat
    (fun _ => ret 0) (fun _ => ret (0, [])) (ret 0) in
  let s := mkVfs 0 (mkFiles (mkFs (fun _ => 0) 0 0 0 0 0) iso_start (fat_state 0) tt) in
  let pathname := [40; 99; 100; 41; 47; 97; 46; 116; 120; 116] in
  exists s1 s2 x, vfs_dir pathname s = Ok (3, s1) /\
    vfs_read pathname 3 s1 = Ok ((3, [Some 0; Some 0; Some 0]), s2) /\ s2 = with_iso x s.
Proof.
  cbn zeta. apply (vfs_reads_cd_file iso_disk iso_disk_bytes (replicate (Z.to_nat 4096) 0) blank_page
    (fun _ => 0) (fun _ => None) [] (fun _ => 0) [] 0%nat (fun _ => ret 0) (fun _ => ret (0, [])) (ret 0)
    [97; 46; 116; 120; 116] 25 3); [done| |lia|lia|vm_compute; reflexivity].
  apply (denotes_last iso_disk 20 2048 [0; 34] [47] [97; 46; 116; 120; 116]);
    [by repeat constructor|apply iso_searchable].
Defined.
