(* ===== verification/Exec.v ===== *)
(** * Loading a program: the exec system call

    [_exec] of interrupt_handler.c with its [strncpy].  The address space of the caller is
    released, a new page table is made, the program is read into frames that are mapped
    at 0xFF400000 while it is being loaded, its segments are entered into the page table,
    and the stack gets the arguments.

    Memory accesses are of two kinds.  Pages that the code maps for itself are accessed
    through the kernel window, as in [Virtual].  The arguments of the caller, the image of
    the file and the new stack are accessed through the page directory in [cr3], by the
    translation of the processor ([resolve]); the TLB entries of these addresses are not
    modelled, and [flush_tlb_all] has its effect on the kernel window only.  The arrays on
    the kernel stack are lists; they start with what the stack holds.  Log output and the
    kernel lock are left out. *)

From Stdlib Require Import ZArith Lia.
From S2P Require Import Prelude Physical Virtual VirtualThm Clone CloneThm Exit Vfs.
From stdpp Require Import base gmap sets fin_sets numbers strings list.
Local Open Scope Z_scope.

(** ** Bytes of memory *)

(** Byte [k] of a word. *)
Definition byte_of (w k : Z) : Z := (w / 2 ^ (8 * k)) mod 256.
Definition with_byte (w k b : Z) : Z := w + (b - byte_of w k) * 2 ^ (8 * k).

Definition rdb (m : gmap Z Z) (pa : Z) : Z := byte_of (rd m (pa - pa mod 4)) (pa mod 4).

(** ** Data *)

(** The fields of an [Elf32_Phdr] that are used. *)
Record Elf32_Phdr := mkPhdr { p_offset : Z; p_vaddr : Z; p_filesz : Z; p_memsz : Z }.
Definition PT_LOAD : Z := 1.
(** [Elf32_Ehdr *pe = (Elf32_Ehdr * ) 0xFF400000]. *)
Definition pe : Z := 0xFF400000.
Definition F_1 : Z := 0x02.
Definition F_IF : Z := 0x200.

(** The state: memory, and the file systems. *)
Record prog (W : Type) := mkProg { p_mem : mmu; p_files : vfs W }.
Arguments mkProg {W}.
Arguments p_mem {W}.
Arguments p_files {W}.

Definition on_mem {W A} (m : M mmu A) : M (prog W) A := fun s =>
  match m (p_mem s) with
  | Ok (a, x) => Ok (a, mkProg x (p_files s))
  | Err e => Err e
  end.
Definition on_vfs {W A} (m : M (vfs W) A) : M (prog W) A := fun s =>
  match m (p_files s) with
  | Ok (a, x) => Ok (a, mkProg (p_mem s) x)
  | Err e => Err e
  end.

(** An element of an array on the kernel stack. *)
Definition array_set (a : list Z) (i v : Z) : outcome (list Z) :=
  if (0 <=? i) && (i <? Z.of_nat (length a)) then Ok (<[Z.to_nat i := v]> a) else Err OutOfBounds.

Section exec.
(** The kernel page table, and the page directory in [cr3]. *)
Context (kpt pdbr : Z).

(** ** Accesses *)

Definition put_byte (pa b : Z) : M mmu unit :=
  let! w := pread (pa - pa mod 4) in
  pwrite kpt (pa - pa mod 4) (with_byte w (pa mod 4) b).

(** Through the kernel window. *)
Definition vput (va b : Z) : M mmu unit :=
  let! pa := translate kpt va in put_byte pa b.

(** Through the page directory. *)
Definition uaddr (va : Z) : M mmu Z :=
  let! m := gets pmem in lift (of_option PageFault (resolve m pdbr (u32 va))).
Definition ubyte (va : Z) : M mmu Z := let! pa := uaddr va in gets (fun s => rdb (pmem s) pa).
Definition uput (va b : Z) : M mmu unit := let! pa := uaddr va in put_byte pa b.
Definition uhalf (va : Z) : M mmu Z :=
  let! b0 := ubyte va in let! b1 := ubyte (va + 1) in ret (b0 + 2 ^ 8 * b1).
Definition uword (va : Z) : M mmu Z :=
  let! h0 := uhalf va in let! h1 := uhalf (va + 2) in ret (h0 + 2 ^ 16 * h1).
(** A word at an aligned address. *)
Definition uwrite (va v : Z) : M mmu unit := let! pa := uaddr va in pwrite kpt pa v.

(** [mov %cr3, %cr3]. *)
Definition flush_tlb_all : M mmu unit := modify (set_stale ∅).

(** ** Strings *)

(** One test of [while ((length--) && ( *s1++ = *s2++ ))]: the array, the number of
    elements passed and [length]. *)
Definition strncpy_body (s2 : Z) (l : list Z * Z * Z) : M mmu (control (list Z * Z * Z) (list Z * Z * Z)) :=
  let '(s1, i, length) := l in
  if length =? 0 then ret (Break (s1, i, length - 1))
  else
    let! b := ubyte (s2 + i) in
    let! s1 := lift (array_set s1 i b) in
    ret (if b =? 0 then Break (s1, i + 1, length - 1) else Continue (s1, i + 1, length - 1)).

(** [s1] is an array on the kernel stack; its new contents are returned. *)
Definition strncpy (s1 : list Z) (s2 length : Z) : M mmu (list Z) :=
  let! '(s1, i, length) := mloop (S (Z.to_nat length)) (strncpy_body s2) (s1, 0, length) in
  if length <? 0 then lift (array_set s1 (i - 1) 0) else ret s1.

(** The string that a callee reads at [va]; longer ones are not read to their end. *)
Definition MAX_STRING : nat := 4096.
Definition ustring_body (va : Z) (l : list Z) : M mmu (control (list Z) (list Z)) :=
  let! b := ubyte (va + Z.of_nat (length l)) in
  ret (if b =? 0 then Break l else Continue (l ++ [b])).
Definition ustring (va : Z) : M mmu (list Z) := mloop MAX_STRING (ustring_body va) [].

(** The string in an array. *)
Fixpoint cstring (a : list Z) : list Z :=
  match a with
  | [] => []
  | b :: a => if b =? 0 then [] else b :: cstring a
  end.

(** ** The old address space *)

Definition drop_page_body (i tmp_page : Z) (j : Z) : M mmu (control Z unit) :=
  if j <? 1024 then
    let! w := vread kpt (entry tmp_page j) in
    when (negb (w =? 0))
      (when ((j <? 0x200) || (0x20F <? j) || negb (i =? 0))
         (let! w := vread kpt (entry tmp_page j) in
          release_frame (Z.shiftr w 12) ;;!
          vwrite kpt (entry tmp_page j) 0)) ;;!
    ret (Continue (j + 1))
  else ret (Break tt).

Definition drop_table_body (plPageDirectory : Z) (i : Z) : M mmu (control Z unit) :=
  if i <? 1019 then
    let! e := vread kpt (entry plPageDirectory i) in
    when (negb (e =? 0))
      (let! tmp_page := map_virtual_page kpt (Z.lor e 3) in
       mloop 1025 (drop_page_body i tmp_page) 0 ;;!
       unmap_virtual_page kpt tmp_page ;;!
       let! e := vread kpt (entry plPageDirectory i) in
       release_frame (Z.shiftr e 12) ;;!
       vwrite kpt (entry plPageDirectory i) 0) ;;!
    ret (Continue (i + 1))
  else ret (Break tt).

(** ** The file image *)

(** [plPageDirectory[0] = alloc_phys_frame () | 7] and the mapping of the new table. *)
Definition new_table (plPageDirectory : Z) : M mmu Z :=
  let! f := on_frames alloc_phys_frame in
  vwrite kpt (entry plPageDirectory 0) (Z.lor f 7) ;;!
  let! e := vread kpt (entry plPageDirectory 0) in
  let! plPageTable := map_virtual_page kpt e in
  clear_page kpt plPageTable ;;!
  ret plPageTable.

Definition file_frame_body (frame_ptr filesize : Z) (i : Z) : M mmu (control Z unit) :=
  if i <? filesize then
    let! f := on_frames alloc_phys_frame in
    vwrite kpt (entry frame_ptr (Z.shiftr i 12)) (Z.lor f 3) ;;!
    ret (Continue (i + 4096))
  else ret (Break tt).

(** The rounds of a loop over the pages of a file. *)
Definition page_fuel (filesize : Z) : nat := S (Z.to_nat ((filesize + 4095) / 4096)).

(** What [vfs_read] writes to the buffer at [va]; [None] is a byte that it leaves. *)
Fixpoint store (va : Z) (l : list (option Z)) : M mmu unit :=
  match l with
  | [] => ret tt
  | b :: l => match b with Some b => uput va b | None => ret tt end ;;! store (va + 1) l
  end.

(** ** Segments *)

Definition read_phdr (pph : Z) : M mmu Elf32_Phdr :=
  let! off := uword (pph + 4) in
  let! vaddr := uword (pph + 8) in
  let! filesz := uword (pph + 16) in
  let! memsz := uword (pph + 20) in
  ret (mkPhdr off vaddr filesz memsz).

(** [c] for a segment of [size] bytes. *)
Definition page_count (ph : Elf32_Phdr) (size : Z) : Z :=
  s32 (u32 (Z.shiftr (u32 (p_offset ph + size - 1)) 12 - Z.shiftr (p_offset ph) 12 + 1)).

(** [memcpy (buf, src, partial)]. *)
Definition copy_partial_body (buf src partial : Z) (k : Z) : M mmu (control Z unit) :=
  if k <? partial then
    let! b := ubyte (src + k) in
    vput (buf + k) b ;;!
    ret (Continue (k + 1))
  else ret (Break tt).

(** [memset (buf + partial, 0, 0x1000 - partial)]. *)
Definition zero_rest_body (buf : Z) (k : Z) : M mmu (control Z unit) :=
  if k <? 0x1000 then vput (buf + k) 0 ;;! ret (Continue (k + 1)) else ret (Break tt).

(** The last page of a segment. *)
Definition last_page (ph : Elf32_Phdr) (j : Z) : M mmu Z :=
  let! frame := on_frames alloc_phys_frame in
  let! buf := map_virtual_page kpt (Z.lor frame 3) in
  let partial := Z.land (u32 (p_offset ph + p_filesz ph)) 0xFFF in
  let src := pe + Z.land (p_offset ph) (u32 (Z.lnot 0xFFF)) + Z.shiftl j 12 in
  mloop 4097 (copy_partial_body buf src partial) 0 ;;!
  mloop 4097 (zero_rest_body buf) partial ;;!
  unmap_virtual_page kpt buf ;;!
  ret frame.

(** The pages loaded from the file; [frame_map] is the array of that name. *)
Definition file_page_body (frame_ptr plPageTable : Z) (ph : Elf32_Phdr) (c : Z) (l : Z * list Z)
  : M mmu (control (Z * list Z) (Z * list Z)) :=
  let '(j, frame_map) := l in
  if j <? c then
    if j =? c - 1 then
      let! frame := last_page ph j in
      vwrite kpt (entry plPageTable (Z.shiftr (p_vaddr ph) 12 + j)) (Z.lor frame 7) ;;!
      ret (Continue (j + 1, frame_map))
    else
      let! frame_map := lift (BITMAP_SET frame_map (u32 (j + Z.shiftr (p_offset ph) 12))) in
      let! e := vread kpt (entry frame_ptr (j + Z.shiftr (p_offset ph) 12)) in
      vwrite kpt (entry plPageTable (Z.shiftr (p_vaddr ph) 12 + j)) (Z.lor e 7) ;;!
      ret (Continue (j + 1, frame_map))
  else ret (Break (j, frame_map)).

(** The additional zeroed pages. *)
Definition zero_page_body (plPageTable : Z) (ph : Elf32_Phdr) (c : Z) (j : Z) : M mmu (control Z unit) :=
  if j <? c then
    let! page_frame := on_frames alloc_phys_frame in
    let! virt_page := map_virtual_page kpt (Z.lor page_frame 3) in
    vwrite kpt (entry plPageTable (Z.shiftr (p_vaddr ph) 12 + j)) (Z.lor page_frame 7) ;;!
    clear_page kpt virt_page ;;!
    unmap_virtual_page kpt virt_page ;;!
    ret (Continue (j + 1))
  else ret (Break tt).

Definition load_segment (frame_ptr plPageTable : Z) (ph : Elf32_Phdr) (frame_map : list Z) : M mmu (list Z) :=
  if negb (Z.land (p_offset ph) 0xFFF =? Z.land (p_vaddr ph) 0xFFF) then fail (Panic "Misalignment in program header")
  else
    let c := page_count ph (p_filesz ph) in
    let! '(j, frame_map) := mloop (S (Z.to_nat c)) (file_page_body frame_ptr plPageTable ph c) (0, frame_map) in
    let c := page_count ph (p_memsz ph) in
    mloop (S (Z.to_nat c)) (zero_page_body plPageTable ph c) j ;;!
    ret frame_map.

(** The loop over the program headers: [i], [pph] and [frame_map]. *)
Definition header_body (frame_ptr plPageTable : Z) (l : Z * Z * list Z) : M mmu (control (Z * Z * list Z) (list Z)) :=
  let '(i, pph, frame_map) := l in
  let! e_phnum := uhalf (pe + 44) in
  if i <? e_phnum then
    let! p_type := uword pph in
    let! frame_map :=
      (if p_type =? PT_LOAD then let! ph := read_phdr pph in load_segment frame_ptr plPageTable ph frame_map
       else ret frame_map) in
    let! e_phentsize := uhalf (pe + 42) in
    ret (Continue (i + 1, u32 (pph + e_phentsize), frame_map))
  else ret (Break frame_map).

(** ** The rest of the address space *)

Definition drop_frame_body (frame_ptr filesize : Z) (frame_map : list Z) (i : Z) : M mmu (control Z unit) :=
  if i <? filesize then
    let! used := lift (BITMAP_TST frame_map (Z.shiftr i 12)) in
    when (negb used)
      (let! e := vread kpt (entry frame_ptr (Z.shiftr i 12)) in release_frame (Z.shiftr e 12)) ;;!
    ret (Continue (i + 4096))
  else ret (Break tt).

Definition video_body (plPageTable : Z) (i : Z) : M mmu (control Z unit) :=
  if i <? 16 then
    vwrite kpt (entry plPageTable (0x200 + i)) (Z.lor (Z.lor 0xA0000 (Z.shiftl i 12)) 7) ;;!
    ret (Continue (i + 1))
  else ret (Break tt).

Definition stack_body (plPageTable : Z) (i : Z) : M mmu (control Z unit) :=
  if i <? 16 then
    let! pStack := on_frames alloc_phys_frame in
    vwrite kpt (entry plPageTable (1023 - i)) (Z.lor pStack 7) ;;!
    invalidate_page (Z.shiftl (1023 - i) 12) ;;!
    ret (Continue (i + 1))
  else ret (Break tt).

(** [memset ((void * ) 0x3F0000, 0, 0x10000)], by words. *)
Definition clear_stack_body (k : Z) : M mmu (control Z unit) :=
  if k <? 0x4000 then uwrite (0x3F0000 + 4 * k) 0 ;;! ret (Continue (k + 1)) else ret (Break tt).

(** [memcpy] of the arguments and the five words below them. *)
Definition push_arguments (command_args : list Z) : M mmu unit :=
  store (0x400000 - 80) (Some <$> command_args) ;;!
  uwrite (0x400000 - 84) 0 ;;!
  uwrite (0x400000 - 88) (0x400000 - 80) ;;!
  uwrite (0x400000 - 92) (0x400000 - 88) ;;!
  uwrite (0x400000 - 96) 1 ;;!
  uwrite (0x400000 - 100) 0.

(** What is written to [curr_stack]. *)
Definition return_frame (pEntry : Z) : list Z :=
  [0x00230023; 0x00230023; pEntry; 0x1B; Z.lor (Z.lor F_1 F_IF) 0x3000; 0x400000 - 100; 0x23].

(** From [pph = (void * ) pe + pe->e_phoff] to the copy of the arguments: the seven words. *)
Definition load_image (plPageDirectory plPageTable frame_ptr phys_addr filesize : Z) (command_args : list Z)
  : M mmu (list Z) :=
  let! e_phoff := uword (pe + 28) in
  let! pEntry := uword (pe + 24) in
  let! e_phnum := uhalf (pe + 44) in
  let! frame_map := mloop (S (Z.to_nat e_phnum)) (header_body frame_ptr plPageTable)
                      (0, u32 (pe + e_phoff), replicate 32 0) in
  mloop (page_fuel filesize) (drop_frame_body frame_ptr filesize frame_map) 0 ;;!
  mloop 17 (video_body plPageTable) 0 ;;!
  mloop 17 (stack_body plPageTable) 0 ;;!
  mloop (Z.to_nat 0x4001) clear_stack_body 0 ;;!
  vwrite kpt (entry plPageDirectory 1021) 0 ;;!
  unmap_virtual_page kpt plPageDirectory ;;!
  unmap_virtual_page kpt plPageTable ;;!
  unmap_virtual_page kpt frame_ptr ;;!
  release_frame (Z.shiftr phys_addr 12) ;;!
  flush_tlb_all ;;!
  push_arguments command_args ;;!
  ret (return_frame pEntry).

(** The error returns. *)
Definition exec_undo (plPageDirectory frame_ptr phys_addr : Z) : M mmu unit :=
  release_frame (Z.shiftr phys_addr 12) ;;!
  unmap_virtual_page kpt plPageDirectory ;;!
  unmap_virtual_page kpt frame_ptr.

(** From the release of the old address space to the reading of the file. *)
Definition make_space (plPageDirectory frame_ptr phys_addr filesize : Z) : M mmu Z :=
  mloop 1020 (drop_table_body plPageDirectory) 0 ;;!
  let! plPageTable := new_table plPageDirectory in
  mloop (page_fuel filesize) (file_frame_body frame_ptr filesize) 0 ;;!
  vwrite kpt (entry plPageDirectory (Z.shiftr pe 22)) phys_addr ;;!
  flush_tlb_all ;;!
  ret plPageTable.

Section files.
Context {W : Type} `{FileSystems W}.

(** The result, and the words written to [curr_stack]; [args] and [name] are the first
    contents of [command_args] and [filename_bak]. *)
Definition _exec (filename argv : Z) (args name : list Z) : M (prog W) (Z * option (list Z)) :=
  let! plPageDirectory := on_mem (map_virtual_page kpt (Z.lor pdbr 3)) in
  let! f := on_mem (on_frames alloc_phys_frame) in
  let phys_addr := Z.lor f 3 in
  let! frame_ptr := on_mem (map_virtual_page kpt phys_addr) in
  let! argv0 := (if argv =? 0 then ret 0 else on_mem (uword argv)) in
  if (argv =? 0) || (argv0 =? 0) then
    on_mem (exec_undo plPageDirectory frame_ptr phys_addr) ;;! ret (-1, None)
  else
    let! command_args := on_mem (strncpy args argv0 80) in
    let! filename_bak := on_mem (strncpy name filename 256) in
    let! path := on_mem (ustring filename) in
    let! filesize := on_vfs (vfs_dir path) in
    if filesize <? 0 then
      on_mem (exec_undo plPageDirectory frame_ptr phys_addr) ;;! ret (-1, None)
    else
      let! plPageTable := on_mem (make_space plPageDirectory frame_ptr phys_addr filesize) in
      let! '(n, buffer) := on_vfs (vfs_read (cstring filename_bak) filesize) in
      on_mem (store pe buffer) ;;!
      if negb (n =? filesize) then fail (Panic "File size mismatch on read")
      else
        let! frame := on_mem (load_image plPageDirectory plPageTable frame_ptr phys_addr filesize command_args) in
        ret (0, Some frame).
End files.
End exec.
