(* ===== verification/ExecMem.v ===== *)
(** * Bytes and pages for the loader

    Lemmas on [Exec]: bytes of memory, accesses through the window and through a page
    directory, the array [frame_map], and the relation [grow] between the states before
    and after pages are entered into the page table of the new address space. *)

From Stdlib Require Import ZArith Lia.
From S2P Require Import Prelude Physical Virtual VirtualThm Clone CloneThm Exit Exec.
From stdpp Require Import base gmap sets fin_sets numbers strings list.
Local Open Scope Z_scope.

(** ** Bytes of words *)

Lemma byte_range w k : 0 <= byte_of w k < 256.
Proof. apply Z.mod_pos_bound. lia. Qed.

Lemma word_bytes w : 0 <= w < 2 ^ 32 ->
  w = byte_of w 0 + 2 ^ 8 * byte_of w 1 + 2 ^ 16 * byte_of w 2 + 2 ^ 24 * byte_of w 3.
Proof. intros Hw. unfold byte_of. cbn [Z.mul Z.pow Z.pow_pos Pos.iter Pos.mul]. Z.to_euclidean_division_equations. lia. Qed.

Lemma bytes_of_sum b0 b1 b2 b3 : 0 <= b0 < 256 -> 0 <= b1 < 256 -> 0 <= b2 < 256 -> 0 <= b3 < 256 ->
  let w := b0 + 2 ^ 8 * b1 + 2 ^ 16 * b2 + 2 ^ 24 * b3 in
  0 <= w < 2 ^ 32 /\ byte_of w 0 = b0 /\ byte_of w 1 = b1 /\ byte_of w 2 = b2 /\ byte_of w 3 = b3.
Proof.
  intros H0 H1 H2 H3 w. unfold byte_of, w. cbn [Z.mul Z.pow Z.pow_pos Pos.iter Pos.mul].
  split_and!; try lia; Z.to_euclidean_division_equations; lia.
Qed.

Lemma with_byte_ok w k b : 0 <= w < 2 ^ 32 -> 0 <= k < 4 -> 0 <= b < 256 ->
  0 <= with_byte w k b < 2 ^ 32 /\
  forall j, 0 <= j < 4 -> byte_of (with_byte w k b) j = if j =? k then b else byte_of w j.
Proof.
  intros Hw Hk Hb. pose proof (word_bytes w Hw) as E. pose proof (byte_range w 0). pose proof (byte_range w 1).
  pose proof (byte_range w 2). pose proof (byte_range w 3).
  assert (exists b0 b1 b2 b3, with_byte w k b = b0 + 2 ^ 8 * b1 + 2 ^ 16 * b2 + 2 ^ 24 * b3 /\
    0 <= b0 < 256 /\ 0 <= b1 < 256 /\ 0 <= b2 < 256 /\ 0 <= b3 < 256 /\
    forall j, 0 <= j < 4 -> (if j =? k then b else byte_of w j) =
      if j =? 0 then b0 else if j =? 1 then b1 else if j =? 2 then b2 else b3) as (b0 & b1 & b2 & b3 & -> & ? & ? & ? & ? & Hj).
  { exists (if k =? 0 then b else byte_of w 0), (if k =? 1 then b else byte_of w 1),
      (if k =? 2 then b else byte_of w 2), (if k =? 3 then b else byte_of w 3). unfold with_byte.
    assert (k = 0 \/ k = 1 \/ k = 2 \/ k = 3) as [-> | [-> | [-> | ->]]] by lia;
      cbn [Z.eqb Pos.eqb Z.mul Pos.mul] in *; (split; [lia|]); (do 4 (split; [lia|]));
      intros j Hj; assert (j = 0 \/ j = 1 \/ j = 2 \/ j = 3) as [-> | [-> | [-> | ->]]] by lia; done. }
  destruct (bytes_of_sum b0 b1 b2 b3) as (Hr & E0 & E1 & E2 & E3); [done..|]. split; [done|].
  intros j Hr4. rewrite Hj by done.
  assert (j = 0 \/ j = 1 \/ j = 2 \/ j = 3) as [-> | [-> | [-> | ->]]] by lia; done.
Qed.

(** ** Bytes of memory *)

(** The word of a byte. *)
Lemma word_of pa : (pa - pa mod 4) + pa mod 4 = pa /\ 0 <= pa mod 4 < 4 /\ (pa - pa mod 4) / 4096 = pa / 4096.
Proof. split; [lia|]. split; [apply Z.mod_pos_bound; lia|]. Z.to_euclidean_division_equations. lia. Qed.

Lemma frame_byte f k : f mod 4096 = 0 -> 0 <= k < 4096 -> (f + k) / 4096 = f / 4096.
Proof. intros Hf Hk. pose proof (Z.div_mod f 4096 ltac:(lia)). symmetry. apply (Z.div_unique_pos _ _ _ k); lia. Qed.

(** The byte at [pa] becomes [b]. *)
Definition pokeb (pa b : Z) (s : mmu) : mmu :=
  poke (pa - pa mod 4) (with_byte (rd (pmem s) (pa - pa mod 4)) (pa mod 4) b) s.

Lemma rdb_pokeb s pa b q : mem_wf (pmem s) -> 0 <= b < 256 ->
  rdb (pmem (pokeb pa b s)) q = if q =? pa then b else rdb (pmem s) q.
Proof.
  intros Hm Hb. unfold rdb, pokeb, poke. cbn [pmem set_pmem]. rewrite rd_wr.
  destruct (word_of pa) as (Epa & Hpa & _), (word_of q) as (Eq & Hq & _).
  destruct (Z.eqb_spec (q - q mod 4) (pa - pa mod 4)) as [E|E].
  - destruct (with_byte_ok (rd (pmem s) (pa - pa mod 4)) (pa mod 4) b) as [_ Hw]; [by apply rd_range|done|done|].
    rewrite Hw, E by done. destruct (Z.eqb_spec (q mod 4) (pa mod 4)), (Z.eqb_spec q pa); try done; congruence || lia.
  - rewrite (proj2 (Z.eqb_neq q pa)); [done|]. congruence.
Qed.

Lemma rd_pokeb s pa b q : q / 4096 <> pa / 4096 -> rd (pmem (pokeb pa b s)) q = rd (pmem s) q.
Proof.
  intros Hq. unfold pokeb, poke. cbn [pmem set_pmem]. rewrite rd_wr, (proj2 (Z.eqb_neq _ _)); [done|].
  intros ->. by destruct (word_of pa) as (_ & _ & ?).
Qed.

Lemma rdb_page m m' f k : f mod 4096 = 0 -> 0 <= k < 4096 ->
  (forall j, 0 <= j < 1024 -> rd m' (f + 4 * j) = rd m (f + 4 * j)) -> rdb m' (f + k) = rdb m (f + k).
Proof.
  intros Hf Hk H. unfold rdb. f_equal. replace (f + k - (f + k) mod 4) with (f + 4 * (k / 4)).
  - apply H. split; [apply Z.div_pos; lia|apply Z.div_lt_upper_bound; lia].
  - assert (f mod 4 = 0) by (pose proof (Z.div_mod f 4096 ltac:(lia)); Z.to_euclidean_division_equations; lia).
    Z.to_euclidean_division_equations. lia.
Qed.

Lemma rdb_zero m f k : f mod 4096 = 0 -> 0 <= k < 4096 ->
  (forall j, 0 <= j < 1024 -> rd m (f + 4 * j) = 0) -> rdb m (f + k) = 0.
Proof.
  intros Hf Hk H. rewrite (rdb_page ∅ m f k Hf Hk); [|intros j Hj; by rewrite H].
  unfold rdb, rd. by rewrite lookup_empty.
Qed.

Lemma rdb_same m m' pa : rd m' (pa - pa mod 4) = rd m (pa - pa mod 4) -> rdb m' pa = rdb m pa.
Proof. unfold rdb. by intros ->. Qed.

(** ** The array [frame_map] *)

Definition bit (fm : list Z) (i : Z) : bool := is_free (mkPhys fm 0) i.
Definition map_ok (fm : list Z) : Prop := length fm = 32%nat /\ Forall (fun w => 0 <= w < 2 ^ 32) fm.
(** The array, extended to the size of the bitmap of the frames. *)
Definition padded (pad fm : list Z) : phys := mkPhys (fm ++ pad) 0.
Definition pad_ok (pad : list Z) : Prop := Z.of_nat (length pad) = PHYS_INDEX_MAX - 32 /\ Forall (eq 0) pad.

Lemma pad_exists : exists pad, pad_ok pad.
Proof.
  exists (replicate (Z.to_nat (PHYS_INDEX_MAX - 32)) 0). split; [|by apply Forall_replicate].
  rewrite length_replicate. unfold PHYS_INDEX_MAX. lia.
Qed.

Lemma padded_wf pad fm : pad_ok pad -> map_ok fm -> phys_wf (padded pad fm).
Proof.
  intros [Hp Hz] [Hl Hw]. split; cbn [padded mm_table mm_limit].
  - rewrite length_app, Hl. lia.
  - apply Forall_app. split; [done|]. eapply Forall_impl; [exact Hz|]. intros x <-. lia.
  - unfold PHYS_INDEX_MAX. lia.
Qed.

Lemma padded_bit pad fm i : pad_ok pad -> is_free (padded pad fm) i = bit fm i.
Proof.
  intros [_ Hz]. unfold bit, is_free, padded. cbn [mm_table].
  destruct (fm !! Z.to_nat (Z.shiftr i 5)) as [w|] eqn:E.
  - by rewrite (lookup_app_l_Some _ _ _ _ E).
  - rewrite lookup_app_r by (by apply lookup_ge_None). destruct (pad !! _) as [w|] eqn:E'; [|done].
    rewrite Forall_lookup in Hz. rewrite <- (Hz _ _ E'). apply Z.bits_0.
Qed.

Lemma map_index fm i : map_ok fm -> 0 <= i < 1024 -> (Z.to_nat (Z.shiftr i 5) < length fm)%nat.
Proof.
  intros [-> _] Hi. rewrite Z.shiftr_div_pow2 by lia. assert (i / 2 ^ 5 < 32) by (apply Z.div_lt_upper_bound; lia).
  assert (0 <= i / 2 ^ 5) by (apply Z.div_pos; lia). lia.
Qed.

Lemma map_set fm i : map_ok fm -> 0 <= i < 1024 ->
  exists fm', BITMAP_SET fm i = Ok fm' /\ map_ok fm' /\
    forall k, 0 <= k -> bit fm' k = if k =? i then true else bit fm k.
Proof.
  intros Hm Hi. destruct pad_exists as (pad & Hpad).
  destruct (bitmap_set_ok (padded pad fm) i (padded_wf pad fm Hpad Hm)) as (t & Et & [_ _ Hf]);
    [unfold PHYS_INDEX_MAX; lia|]. pose proof (map_index fm i Hm Hi) as Hx.
  destruct (lookup_lt_is_Some_2 fm _ Hx) as [w Hw]. pose proof Hm as [Hl Hws].
  unfold BITMAP_SET, BITMAP_WORD in *. cbn [padded mm_table] in Et.
  rewrite (lookup_app_l_Some _ _ _ _ Hw) in Et. rewrite Hw. cbn [of_option obind] in *.
  rewrite insert_app_l in Et by done. injection Et as <-. eexists. split; [done|]. split.
  - split; [by rewrite length_insert|]. apply Forall_insert; [done|]. apply Z.mod_pos_bound. lia.
  - intros k Hk. specialize (Hf k Hk). rewrite (padded_bit pad fm k Hpad) in Hf.
    rewrite <- (padded_bit pad _ k Hpad). unfold padded, set_mm_table in *. cbn [mm_limit] in Hf. rewrite Hf.
    destruct (Z.eqb_spec k i), (Z.leb_spec i k), (Z.ltb_spec k (i + 1)); try done; lia.
Qed.

Lemma map_test fm i : map_ok fm -> 0 <= i < 1024 -> BITMAP_TST fm i = Ok (bit fm i).
Proof.
  intros Hm Hi. pose proof (map_index fm i Hm Hi) as Hx. destruct (lookup_lt_is_Some_2 fm _ Hx) as [w Hw].
  unfold bit, BITMAP_TST, BITMAP_WORD, is_free. cbn [mm_table]. rewrite Hw. cbn [of_option obind].
  pose proof (Z.mod_pos_bound i 32 ltac:(lia)). by rewrite bitmap_bit, tst_testbit by lia.
Qed.

Lemma empty_map : map_ok (replicate 32 0) /\ forall k, bit (replicate 32 0) k = false.
Proof.
  split; [split; [done|apply Forall_replicate; lia]|]. intros k. unfold bit, is_free. cbn [mm_table].
  destruct (replicate 32 0 !! _) as [w|] eqn:E; [|done]. apply lookup_replicate in E as [-> _]. apply Z.bits_0.
Qed.

(** ** Entries *)

Lemma lor_flags f x : f mod 4096 = 0 -> 0 <= x < 4096 -> Z.lor f x = f + x.
Proof.
  intros Hf Hx. assert (Z.land f x = 0) as H0.
  { apply Z.bits_inj'. intros n Hn. rewrite Z.land_spec, Z.bits_0. destruct (decide (n < 12)).
    - rewrite <- (low_bit f n), Hf, Z.bits_0 by lia. done.
    - rewrite <- (Z.mod_small x (2 ^ 12)), Z.mod_pow2_bits_high by lia. apply andb_false_r. }
  by rewrite <- Z.lxor_lor, <- Z.add_nocarry_lxor.
Qed.

Lemma entry_parts f x : f mod 4096 = 0 -> 0 <= x < 4096 ->
  (f + x) / 4096 * 4096 = f /\ (f + x) mod 4096 = x /\ (f + x) / 4096 = f / 4096.
Proof.
  intros Hf Hx. rewrite frame_byte by done. pose proof (Z.div_mod f 4096 ltac:(lia)).
  split_and!; [lia| |done]. rewrite Z.add_mod, Hf, (Z.mod_small x) by lia. by rewrite Z.mod_small.
Qed.

(** The two sets of flags that the loader uses. *)
Definition flags (x : Z) : Prop := x = 3 \/ x = 7.

Lemma flags_present f x : f mod 4096 = 0 -> flags x ->
  0 <= x < 4096 /\ pt_present (f + x) = true /\ pd_page_size (f + x) = false.
Proof.
  intros Hf Hx. assert (0 <= x < 4096) as Hr by (destruct Hx; lia). destruct (entry_parts f x Hf Hr) as (_ & Em & _).
  split; [done|]. unfold pt_present, pd_page_size. rewrite <- !(low_bit (f + x)), Em by lia. by destruct Hx as [-> | ->].
Qed.

Lemma more_flags f : f mod 4096 = 0 -> Z.lor (f + 3) 7 = f + 7.
Proof. intros Hf. rewrite <- (lor_flags f 3), <- Z.lor_assoc by (done || lia). by apply lor_flags. Qed.

Lemma resolve_small m D va T x f y :
  T mod 4096 = 0 -> f mod 4096 = 0 -> flags x -> flags y ->
  rd m (D + 4 * (va / 2 ^ 22)) = T + x -> rd m (T + 4 * ((va / 4096) mod 1024)) = f + y ->
  resolve m D va = Some (f + va mod 4096).
Proof.
  intros HT Hf Hx Hy E1 E2. unfold resolve, walk. rewrite E1.
  destruct (flags_present T x HT Hx) as (Hxr & -> & ->), (flags_present f y Hf Hy) as (Hyr & Hp & _). cbn [negb].
  destruct (entry_parts T x HT Hxr) as (-> & _ & _). rewrite E2, Hp. cbn [negb].
  by destruct (entry_parts f y Hf Hyr) as (-> & _ & _).
Qed.

Section mem.
Context (kpt : Z).
Notation pte := (pte kpt).
Notation upd_pte := (upd_pte kpt).
Notation vm_wf := (vm_wf kpt).
Notation slot_maps := (slot_maps kpt).
Notation slot_free := (slot_free kpt).
Notation sys_ok := (sys_ok kpt).
Notation in_use := (in_use kpt).

(** ** Accesses *)

Lemma pwrite_poke s pa v : vm_wf s -> pa / 4096 <> kpt / 4096 -> pwrite kpt pa v s = Ok (tt, poke pa v s).
Proof.
  intros Hs Hne. destruct (vm_kpt kpt s (vw_ok _ _ Hs)) as [Hal _]. unfold pwrite, modify, PAGE_SIZE.
  assert ((kpt <=? pa) && (pa <? kpt + 4096) = false) as ->; [|done].
  destruct (Z.leb_spec kpt pa), (Z.ltb_spec pa (kpt + 4096)); try done. destruct Hne.
  replace pa with (kpt + (pa - kpt)) by lia. apply frame_byte; [done|lia].
Qed.

Lemma pokeb_vm s pa b : vm_wf s -> pa / 4096 <> kpt / 4096 -> 0 <= b < 256 -> vm_wf (pokeb pa b s).
Proof.
  intros Hs Hne Hb. destruct (word_of pa) as (_ & Hk & Hpg). apply poke_vm; [done|congruence|].
  apply with_byte_ok; [apply rd_range, (vo_words _ _ (vw_ok _ _ Hs))|done|done].
Qed.

Lemma put_byte_ok s pa b : vm_wf s -> pa / 4096 <> kpt / 4096 -> put_byte kpt pa b s = Ok (tt, pokeb pa b s).
Proof.
  intros Hs Hne. destruct (word_of pa) as (_ & Hk & Hpg). unfold put_byte, bind, pread, gets.
  rewrite pwrite_poke by (done || congruence). done.
Qed.

Lemma vput_slot s i f k b : vm_wf s -> slot_maps s i f -> f / 4096 <> kpt / 4096 -> 0 <= k < 4096 ->
  vput kpt (kernelstart + 4096 * i + k) b s = Ok (tt, pokeb (f + k) b s).
Proof.
  intros Hs Hm Hf Hk. pose proof Hm as (Hi & Hp & Hfr). destruct (slot_maps_aligned kpt s i f Hs Hm) as [Hal _].
  unfold vput. erewrite bind_Ok_eq by (apply (translate_window kpt s i k (pte s i)); try done; rewrite (vw_stale _ _ Hs); set_solver).
  rewrite Hfr. apply put_byte_ok; [done|]. by rewrite frame_byte.
Qed.

Section dir.
Context (D : Z).

Lemma ubyte_ok s va pa : resolve (pmem s) D (u32 va) = Some pa -> ubyte D va s = Ok (rdb (pmem s) pa, s).
Proof. intros H. unfold ubyte, uaddr, bind, gets, lift. by rewrite H. Qed.

Lemma uput_ok s va pa b : vm_wf s -> resolve (pmem s) D (u32 va) = Some pa -> pa / 4096 <> kpt / 4096 ->
  uput kpt D va b s = Ok (tt, pokeb pa b s).
Proof.
  intros Hs H Hne. unfold uput, uaddr, bind at 1 2, gets, lift. rewrite H. cbn [of_option]. by apply put_byte_ok.
Qed.

Lemma uwrite_ok s va pa v : vm_wf s -> resolve (pmem s) D (u32 va) = Some pa -> pa / 4096 <> kpt / 4096 ->
  uwrite kpt D va v s = Ok (tt, poke pa v s).
Proof.
  intros Hs H Hne. unfold uwrite, uaddr, bind at 1 2, gets, lift. rewrite H. cbn [of_option]. by apply pwrite_poke.
Qed.

Lemma uword_ok s va B : (forall k, 0 <= k < 4 -> ubyte D (va + k) s = Ok (B k, s)) ->
  uword D va s = Ok (B 0 + 2 ^ 8 * B 1 + 2 ^ 16 * B 2 + 2 ^ 24 * B 3, s).
Proof.
  intros H. pose proof (H 0 ltac:(lia)) as H0. rewrite Z.add_0_r in H0. pose proof (H 3 ltac:(lia)) as H3.
  replace (va + 3) with (va + 2 + 1) in H3 by lia. unfold uword, uhalf, bind, ret.
  rewrite H0, (H 1), (H 2), H3 by lia. do 2 f_equal. lia.
Qed.

Lemma uhalf_ok s va B : (forall k, 0 <= k < 2 -> ubyte D (va + k) s = Ok (B k, s)) ->
  uhalf D va s = Ok (B 0 + 2 ^ 8 * B 1, s).
Proof.
  intros H. pose proof (H 0 ltac:(lia)) as H0. rewrite Z.add_0_r in H0. unfold uhalf, bind, ret. by rewrite H0, (H 1) by lia.
Qed.
(** ** Writes at user addresses *)

Lemma resolve_user PT m va f : PT mod 4096 = 0 -> 0 <= va < 2 ^ 22 -> rd m (D + 4 * 0) = PT + 7 ->
  rd m (PT + 4 * (va / 4096)) = 4096 * f + 7 -> resolve m D (u32 va) = Some (4096 * f + va mod 4096).
Proof.
  intros HP Hva E0 E1. rewrite u32_small by lia. apply (resolve_small m D va PT 7 (4096 * f) 7); try done; try by right.
  - apply frame_page.
  - by rewrite Z.div_small by lia.
  - rewrite (Z.mod_small (va / 4096)); [done|]. split; [apply Z.div_pos; lia|apply Z.div_lt_upper_bound; lia].
Qed.

(** Only frames in [T] are written. *)
Record only (T : Z -> Prop) (s u : mmu) : Prop := mkOnly {
  on_vm : vm_wf u;
  on_frames_eq : frames u = frames s;
  on_rest : forall pa, ~ T (pa / 4096) -> rd (pmem u) pa = rd (pmem s) pa
}.

Lemma only_poke T s u pa v : only T s u -> T (pa / 4096) -> pa / 4096 <> kpt / 4096 -> 0 <= v < 2 ^ 32 -> only T s (poke pa v u).
Proof.
  intros [H1 H2 H3] HT Hne Hv. split; [by apply poke_vm|done|]. intros q Hq. cbn [poke pmem set_pmem].
  rewrite rd_wr, (proj2 (Z.eqb_neq _ _)); [by apply H3|]. by intros ->.
Qed.

Lemma only_pokeb T s u pa b : only T s u -> T (pa / 4096) -> pa / 4096 <> kpt / 4096 -> 0 <= b < 256 -> only T s (pokeb pa b u).
Proof.
  intros [H1 H2 H3] HT Hne Hv. split; [by apply pokeb_vm|done|]. intros q Hq. rewrite rd_pokeb; [by apply H3|].
  intros E. by rewrite E in Hq.
Qed.

(** Bytes stored at addresses whose translation does not depend on what is stored. *)
Lemma store_ok T s (addr : Z -> Z) bytes : Forall (fun b => 0 <= b < 256) bytes ->
  (forall m, T m -> m <> kpt / 4096) -> forall va i0 u, only T s u ->
  (forall w i, only T s w -> i0 <= i < i0 + Z.of_nat (length bytes) -> resolve (pmem w) D (u32 (va + (i - i0))) = Some (addr i)) ->
  (forall i, i0 <= i < i0 + Z.of_nat (length bytes) -> T (addr i / 4096)) ->
  (forall i k, i0 <= i < i0 + Z.of_nat (length bytes) -> i0 <= k < i0 + Z.of_nat (length bytes) -> addr i = addr k -> i = k) ->
  exists w, store kpt D va (Some <$> bytes) u = Ok (tt, w) /\ only T s w /\
    (forall i b, bytes !! i = Some b -> rdb (pmem w) (addr (i0 + Z.of_nat i)) = b) /\
    (forall q, (forall i, i0 <= i < i0 + Z.of_nat (length bytes) -> addr i <> q) -> rdb (pmem w) q = rdb (pmem u) q).
Proof.
  intros Hb HT. induction bytes as [|b bytes IH]; intros va i0 u Hu Hres HTa Hinj.
  - exists u. by split_and!.
  - apply Forall_cons in Hb as [Hbr Hb]. cbn [length] in *.
    pose proof (Hres u i0 Hu ltac:(lia)) as Er. rewrite Z.sub_diag, Z.add_0_r in Er.
    pose proof (HTa i0 ltac:(lia)) as HTi. pose proof (HT _ HTi) as Hne. pose proof (on_vm _ _ _ Hu) as Hvu.
    assert (only T s (pokeb (addr i0) b u)) as Hu1 by (by apply only_pokeb).
    destruct (IH Hb (va + 1) (i0 + 1) (pokeb (addr i0) b u) Hu1) as (w & Ew & Hw & Hin & Hout).
    { intros x i Hx Hi. replace (va + 1 + (i - (i0 + 1))) with (va + (i - i0)) by lia. apply Hres; [done|lia]. }
    { intros i Hi. apply HTa. lia. }
    { intros i k Hi Hk. apply Hinj; lia. }
    exists w. split; [|split; [done|split]].
    + cbn [store fmap list_fmap]. erewrite bind_Ok_eq by (by apply uput_ok). exact Ew.
    + intros [|i] c Hc; cbn [lookup list_lookup] in Hc.
      * injection Hc as <-. rewrite Z.add_0_r, Hout.
        -- rewrite rdb_pokeb, Z.eqb_refl; [done|apply (vo_words _ _ (vw_ok _ _ Hvu))|done].
        -- intros i Hi E. pose proof (Hinj i i0 ltac:(lia) ltac:(lia) E). lia.
      * replace (i0 + Z.of_nat (S i)) with (i0 + 1 + Z.of_nat i) by lia. by apply Hin.
    + intros q Hq. rewrite Hout by (intros i Hi; apply Hq; lia).
      rewrite rdb_pokeb, (proj2 (Z.eqb_neq _ _)); [done| |apply (vo_words _ _ (vw_ok _ _ Hvu))|done].
      intros ->. by apply (Hq i0); [lia|].
Qed.
End dir.
End mem.
