(* ===== verification/ExecPages.v ===== *)
(** * Entering pages into the new address space

    The state of the loader while it runs ([base]: the directory, the frame table and the
    page table are mapped in the window; [file_view]: the file can be read at 0xFF400000),
    the relation [grow] between the states before and after pages are entered into the
    page table, and the loops of [load_segment] against the contents of a segment. *)

From Stdlib Require Import ZArith Lia.
From S2P Require Import Prelude Physical Virtual VirtualThm Clone CloneThm Exit Exec ExecMem.
From stdpp Require Import base gmap sets fin_sets numbers strings list.
Local Open Scope Z_scope.

Section pages.
Context (kpt D FP PT d a t : Z).
Notation pte := (pte kpt).
Notation upd_pte := (upd_pte kpt).
Notation vm_wf := (vm_wf kpt).
Notation slot_maps := (slot_maps kpt).
Notation slot_free := (slot_free kpt).
Notation sys_ok := (sys_ok kpt).
Notation in_use := (in_use kpt).

(** The directory at [D], the table of the frames of the file at [FP] and the page table
    at [PT], mapped at the slots [d], [a] and [t]. *)
Record base (s : mmu) : Prop := mkBase {
  bs_sys : sys_ok s;
  bs_d : slot_maps s d D;
  bs_a : slot_maps s a FP;
  bs_t : slot_maps s t PT;
  bs_use_d : in_use s D;
  bs_use_a : in_use s FP;
  bs_use_t : in_use s PT;
  bs_dir : rd (pmem s) (D + 4 * 0) = PT + 7;
  bs_distinct : D / 4096 <> FP / 4096 /\ D / 4096 <> PT / 4096 /\ FP / 4096 <> PT / 4096;
  bs_slot : at_least (slot_free s) 1
}.

Lemma base_aligned s : base s -> D mod 4096 = 0 /\ FP mod 4096 = 0 /\ PT mod 4096 = 0 /\ 0 <= D /\ 0 <= FP /\ 0 <= PT.
Proof.
  intros H. destruct (slot_maps_aligned kpt s d D (so_vm _ _ (bs_sys _ H)) (bs_d _ H)).
  destruct (slot_maps_aligned kpt s a FP (so_vm _ _ (bs_sys _ H)) (bs_a _ H)).
  destruct (slot_maps_aligned kpt s t PT (so_vm _ _ (bs_sys _ H)) (bs_t _ H)). lia.
Qed.

(** The pages [Ps] are entered into the page table: frames that were free are taken for
    them, and words of frames in use change only in their entries. *)
Record grow (Ps : Z -> Prop) (s s' : mmu) : Prop := mkGrow {
  gr_sys : sys_ok s';
  gr_limit : mm_limit (frames s') = mm_limit (frames s);
  gr_pages : forall p, Ps p -> 0 <= p < 1024;
  gr_free : forall n, 0 <= n -> is_free (frames s') n = true -> is_free (frames s) n = true;
  gr_mem : forall pa, 0 <= pa -> is_free (frames s) (pa / 4096) = false ->
    (forall p, Ps p -> pa <> PT + 4 * p) -> rd (pmem s') pa = rd (pmem s) pa;
  gr_taken : forall n, 0 <= n -> is_free (frames s) n = true -> is_free (frames s') n = false ->
    exists p, Ps p /\ rd (pmem s') (PT + 4 * p) = 4096 * n + 7
}.

Lemma grow_refl s : sys_ok s -> grow (fun _ => False) s s.
Proof. intros Hs. split; try done. intros n _ H1 H2. congruence. Qed.

Lemma grow_word Ps s s' pa : base s -> grow Ps s s' -> 0 <= pa -> is_free (frames s) (pa / 4096) = false ->
  pa / 4096 <> PT / 4096 -> rd (pmem s') pa = rd (pmem s) pa.
Proof.
  intros Hb Hg H0 Hf Hne. destruct (base_aligned s Hb) as (_ & _ & Hal & _). apply (gr_mem _ _ _ Hg); [done|done|].
  intros p Hp%(gr_pages _ _ _ Hg) ->. by rewrite frame_word in Hne.
Qed.

(** A frame in use outside the page table. *)
Definition other (s : mmu) (f : Z) : Prop := is_free (frames s) (f / 4096) = false /\ f / 4096 <> PT / 4096.

Lemma grow_frame Ps s s' f k : base s -> grow Ps s s' -> f mod 4096 = 0 -> 0 <= f -> other s f -> 0 <= k < 1024 ->
  rd (pmem s') (f + 4 * k) = rd (pmem s) (f + 4 * k).
Proof. intros Hb Hg Hal H0 [Hu Hne] Hk. eapply grow_word; rewrite ?frame_word by done; try done. lia. Qed.

Lemma grow_bytes Ps s s' f k : base s -> grow Ps s s' -> f mod 4096 = 0 -> 0 <= f -> other s f -> 0 <= k < 4096 ->
  rdb (pmem s') (f + k) = rdb (pmem s) (f + k).
Proof. intros Hb Hg Hal H0 Hu Hk. apply rdb_page; [done|done|]. intros j Hj. by eapply grow_frame. Qed.

Lemma grow_use Ps s s' f : grow Ps s s' -> 0 <= f -> in_use s f -> in_use s' f.
Proof.
  intros Hg H0 [Hf Hne]. split; [|done]. destruct (is_free (frames s') (f / 4096)) eqn:E; [|done].
  apply (gr_free _ _ _ Hg) in E; [congruence|]. apply Z.div_pos; lia.
Qed.

Lemma base_kpt s : base s -> other s kpt.
Proof. intros Hb. split; [apply (so_kpt _ _ (bs_sys _ Hb))|]. intros E. by apply (bs_use_t _ Hb). Qed.

Lemma grow_pte Ps s s' i : base s -> grow Ps s s' -> 0 <= i < 1024 -> pte s' i = pte s i.
Proof.
  intros Hb Hg Hi. destruct (sys_kpt kpt s (bs_sys _ Hb)). eapply grow_frame; try done; [lia|by apply base_kpt].
Qed.

Lemma grow_slot Ps s s' i f : base s -> grow Ps s s' -> slot_maps s i f -> slot_maps s' i f.
Proof. intros Hb Hg (Hi & H). split; [done|]. by rewrite (grow_pte Ps s s') by done. Qed.

Lemma base_grow Ps s s' : base s -> grow Ps s s' -> base s'.
Proof.
  intros Hb Hg. destruct (base_aligned s Hb) as (HD & HF & HP & HD0 & HF0 & HP0).
  pose proof Hb as [Hs Hd Ha Ht Ud Ua Ut E0 Hne Hsl].
  split; try done; try by (eapply grow_slot || eapply grow_use).
  - apply Hg.
  - rewrite (grow_frame Ps s s') by (done || lia || (split; [apply Ud|apply Hne])). done.
  - eapply at_least_mono; [exact Hsl|]. intros x [Hx H0]. split; [done|]. by rewrite (grow_pte Ps s s').
Qed.

Lemma grow_trans Ps Qs s1 s2 s3 : base s1 -> grow Ps s1 s2 -> grow Qs s2 s3 -> (forall p, Ps p -> Qs p -> False) ->
  grow (fun p => Ps p \/ Qs p) s1 s3.
Proof.
  intros Hb1 H1 H2 Hd. pose proof (base_grow _ _ _ Hb1 H1) as Hb2. destruct (base_aligned _ Hb1) as (_ & _ & Hal & _ & _ & H0).
  split.
  - apply H2.
  - rewrite (gr_limit _ _ _ H2). apply H1.
  - intros p [Hp|Hp]; [by apply H1|by apply H2].
  - intros n Hn Hf. apply H1; [done|]. by apply H2.
  - intros pa Hpa Hf Hno. rewrite (gr_mem _ _ _ H2), (gr_mem _ _ _ H1); try done; try (intros p Hp; apply Hno; tauto).
    destruct (is_free (frames s2) (pa / 4096)) eqn:E; [|done]. apply (gr_free _ _ _ H1) in E; [congruence|]. apply Z.div_pos; lia.
  - intros n Hn Hf Hf'. destruct (is_free (frames s2) n) eqn:E.
    + destruct (gr_taken _ _ _ H2 n Hn E Hf') as (p & Hp & Ep). exists p. tauto.
    + destruct (gr_taken _ _ _ H1 n Hn Hf E) as (p & Hp & Ep). exists p. split; [tauto|].
      pose proof (gr_pages _ _ _ H1 p Hp). rewrite (gr_mem _ _ _ H2); [done|lia| |].
      * rewrite frame_word by done. apply (bs_use_t _ Hb2).
      * intros q Hq Eq. assert (q = p) as -> by lia. by apply (Hd p).
Qed.

Lemma grow_iff Ps Qs s s' : grow Ps s s' -> (forall p, Ps p <-> Qs p) -> grow Qs s s'.
Proof.
  intros [H1 H2 H3 H4 H5 H6] H. split; try done.
  - intros p Hp. by apply H3, H.
  - intros pa H0 Hf Hno. apply H5; [done|done|]. intros p Hp. by apply Hno, H.
  - intros n Hn Hf Hf'. destruct (H6 n Hn Hf Hf') as (p & Hp & E). exists p. by rewrite <- H.
Qed.

(** Frame [f] is allocated, and at least [n] are left. *)
Record took (s : mmu) (n : nat) (f : Z) (p : phys) : Prop := mkTook {
  tk_range : 0 <= f < 2 ^ 20;
  tk_free : is_free (frames s) f = true;
  tk_kpt : f <> kpt / 4096;
  tk_marked : marked (frames s) p f (f + 1) false;
  tk_left : at_least (frame_free (set_frames p s)) n
}.

Lemma take_frame s n : sys_ok s -> at_least (frame_free s) (S n) ->
  exists f p, on_frames alloc_phys_frame s = Ok (4096 * f, set_frames p s) /\ took s n f p /\ sys_ok (set_frames p s).
Proof.
  intros Hs Hn. destruct (alloc_fresh kpt s n Hs Hn) as (f & p & E & Hf & Hff & Hfk & Hm & Hs' & Hn').
  exists f, p. split; [exact E|]. by split; [split|].
Qed.

Lemma took_marks s n f p m : took s n f p -> 0 <= m -> is_free p m = if m =? f then false else is_free (frames s) m.
Proof.
  intros [_ _ _ [_ _ Hmk] _] H0. rewrite Hmk by done.
  destruct (Z.eqb_spec m f), (Z.leb_spec f m), (Z.ltb_spec m (f + 1)); try done; lia.
Qed.

(** Page [q] gets the frame. *)
Lemma fresh_page s s' n f p q : base s -> 0 <= q < 1024 -> took s n f p ->
  vm_wf s' -> frames s' = p -> rd (pmem s') (PT + 4 * q) = 4096 * f + 7 ->
  (forall pa, pa / 4096 <> f -> pa <> PT + 4 * q -> rd (pmem s') pa = rd (pmem s) pa) ->
  grow (eq q) s s' /\ in_use s' (4096 * f) /\ at_least (frame_free s') n.
Proof.
  intros Hb Hq Ht Hv Ep Ee Hrest. pose proof Ht as [Hf Hff Hfk [Hw Hl _] Hn]. destruct (frame_page f) as [_ Edf].
  pose proof (fun m => took_marks s n f p m Ht) as Hp. split_and!.
  - split.
    + split; rewrite ?Ep; [done|done|]. destruct (sys_kpt kpt s (bs_sys _ Hb)).
      rewrite Hp by (apply Z.div_pos; lia). destruct (_ =? f); [done|]. apply (so_kpt _ _ (bs_sys _ Hb)).
    + by rewrite Ep.
    + by intros ? <-.
    + intros m H0. rewrite Ep, Hp by done. by destruct (m =? f).
    + intros pa H0 Hu Hno. apply Hrest; [congruence|by apply Hno].
    + intros m H0 H1. rewrite Ep, Hp by done. destruct (Z.eqb_spec m f) as [->|]; [|congruence]. intros _. by exists q.
  - split; rewrite ?Edf; [|done]. rewrite Ep, Hp, Z.eqb_refl by lia. done.
  - eapply at_least_mono; [exact Hn|]. intros x [H1 H2]. split; by rewrite Ep.
Qed.

(** Frame [f] is mapped at slot [b]. *)
Record opened (s : mmu) (f b : Z) (s' : mmu) : Prop := mkOpened {
  op_slot : 0 <= b < 1024 /\ b <> KERN_PGT_SLOT /\ pte s b = 0;
  op_state : exists p, s' = upd_pte b (4096 * f + 3) (set_frames p s);
  op_vm : vm_wf s';
  op_maps : slot_maps s' b (4096 * f)
}.

Lemma open_frame s p n f : base s -> took s n f p -> sys_ok (set_frames p s) ->
  exists b, map_virtual_page kpt (Z.lor (4096 * f) 3) (set_frames p s) =
      Ok (kernelstart + 4096 * b, upd_pte b (4096 * f + 3) (set_frames p s)) /\
    opened s f b (upd_pte b (4096 * f + 3) (set_frames p s)).
Proof.
  intros Hb Ht Hs. destruct (frame_page f) as [Hal _]. pose proof (tk_range _ _ _ _ Ht).
  destruct (map_fresh kpt (set_frames p s) 0 (4096 * f) Hs) as (b & E & Hr & H0 & Hne & Hs' & Hm & _);
    [apply (bs_slot _ Hb)|done|lia|].
  rewrite lor_flags in * by (done || lia). exists b. split; [exact E|]. split; [done|by exists p|apply Hs'|done].
Qed.

(** Closing it after writes to the frame, and outside [X]. *)
Lemma close_frame (X : Z -> Prop) s f b s2 u : base s -> opened s f b s2 -> vm_wf u -> f <> kpt / 4096 ->
  (forall pa, pa / 4096 <> f -> X pa -> rd (pmem u) pa = rd (pmem s2) pa) ->
  unmap_virtual_page kpt (kernelstart + 4096 * b) u = Ok (tt, upd_pte b 0 u) /\ vm_wf (upd_pte b 0 u) /\
  (forall pa, pa / 4096 = f -> rd (pmem (upd_pte b 0 u)) pa = rd (pmem u) pa) /\
  forall pa, pa / 4096 <> f -> X pa -> rd (pmem (upd_pte b 0 u)) pa = rd (pmem s) pa.
Proof.
  intros Hb [(Hr & Hne & H0) [p ->] _ _] Hu Hf Hrest. destruct (sys_kpt kpt s (bs_sys _ Hb)) as [Hal _].
  split_and!.
  - by apply unmap_slot.
  - apply upd_wf; [done|done|lia].
  - intros pa Hpa. apply rd_upd. intros ->. by rewrite frame_word in Hpa.
  - intros pa Hpa HX. unfold Virtual.upd_pte at 1. cbn [pmem set_pmem]. rewrite rd_wr.
    destruct (Z.eqb_spec pa (kpt + 4 * b)) as [->|]; [by rewrite <- H0|]. rewrite Hrest by done. by rewrite rd_upd.
Qed.

(** An entry alone. *)
Lemma entry_only s q e : base s -> 0 <= q < 1024 -> 0 <= e < 2 ^ 32 ->
  vwrite kpt (entry (kernelstart + 4096 * t) q) e s = Ok (tt, poke (PT + 4 * q) e s) /\
  grow (eq q) s (poke (PT + 4 * q) e s).
Proof.
  intros Hb Hq He. destruct (base_aligned s Hb) as (_ & _ & Hal & _). pose proof (bs_sys _ Hb) as [Hv Hp Hk].
  destruct (bs_use_t _ Hb) as [Hu Hne]. split.
  - by apply write_slot; [|apply Hb|..].
  - split; try done.
    + split; try done. apply poke_vm; [done| |done]. by rewrite frame_word.
    + by intros ? <-.
    + intros pa _ _ Hno. cbn [poke pmem set_pmem]. rewrite rd_wr, (proj2 (Z.eqb_neq _ _)); [done|]. by apply Hno.
    + intros n Hn H1 H2. cbn [poke frames set_pmem] in H2. congruence.
Qed.
(** ** The file *)

(** A file of [len] bytes [B], in the frames [fr]. *)
Context (len : Z) (fr B : Z -> Z).
Definition file_pages : Z := (len + 4095) / 4096.

Record viewed (m : gmap Z Z) : Prop := mkViewed {
  vi_dir : rd m (D + 4 * 1021) = FP + 3;
  vi_frame : forall i, 0 <= i < file_pages -> rd m (FP + 4 * i) = 4096 * fr i + 3;
  vi_bytes : forall o, 0 <= o < len -> rdb m (4096 * fr (o / 4096) + o mod 4096) = B o
}.

Record file_view (s : mmu) : Prop := mkView {
  fv_len : 0 <= len <= 2 ^ 22;
  fv_mem : viewed (pmem s);
  fv_use : forall i, 0 <= i < file_pages -> in_use s (4096 * fr i);
  fv_range : forall i, 0 <= i < file_pages -> 0 <= fr i < 2 ^ 20;
  fv_apart : forall i, 0 <= i < file_pages -> fr i <> D / 4096 /\ fr i <> FP / 4096 /\ fr i <> PT / 4096;
  fv_inj : forall i k, 0 <= i < file_pages -> 0 <= k < file_pages -> fr i = fr k -> i = k
}.

Lemma file_page_index o : 0 <= o < len -> 0 <= o / 4096 < file_pages.
Proof using.
  intros Ho. unfold file_pages. split; [apply Z.div_pos; lia|]. apply Z.le_succ_l, Z.div_le_lower_bound; [lia|].
  pose proof (Z.mul_div_le o 4096 ltac:(lia)). lia.
Qed.

Lemma few_pages : 0 <= len <= 2 ^ 22 -> 0 <= file_pages <= 1024.
Proof using.
  intros H. unfold file_pages. split; [apply Z.div_pos; lia|]. apply Z.lt_succ_r, Z.div_lt_upper_bound; lia.
Qed.

(** The file can be read wherever the words in use are the same. *)
Lemma viewed_agree s m : base s -> file_view s ->
  (forall pa, 0 <= pa -> in_use s pa -> rd m pa = rd (pmem s) pa) -> viewed m.
Proof.
  intros Hb [Hl [V1 V2 V3] Hu Hr _ _] H. destruct (base_aligned s Hb) as (HD & HF & _ & HD0 & HF0 & _).
  pose proof (few_pages Hl). split.
  - rewrite H, V1; [done|lia|]. unfold Clone.in_use. rewrite frame_word by (done || lia). apply Hb.
  - intros i Hi. rewrite H, V2; [done|done|lia|]. unfold Clone.in_use. rewrite frame_word by (done || lia). apply Hb.
  - intros o Ho. pose proof (file_page_index o Ho) as Hi. destruct (frame_page (fr (o / 4096))) as [Hal _].
    pose proof (Hr _ Hi). pose proof (Z.mod_pos_bound o 4096 ltac:(lia)).
    rewrite (rdb_page (pmem s)); [by apply V3|done|done|]. intros j Hj. apply H; [lia|].
    unfold Clone.in_use. rewrite frame_word by done. by apply Hu.
Qed.

Lemma view_grow Ps s s' : base s -> file_view s -> grow Ps s s' -> file_view s'.
Proof.
  intros Hb Hv Hg. pose proof Hv as [Hl [V1 V2 V3] Hu Hr Ha Hij]. destruct (base_aligned s Hb) as (HD & HF & _ & HD0 & HF0 & _).
  pose proof (few_pages Hl). split; try done.
  - split.
    + rewrite (grow_frame Ps s s'); try done. split; [apply Hb|apply (bs_distinct _ Hb)].
    + intros i Hi. rewrite (grow_frame Ps s s'); try done; [by apply V2|split; [apply Hb|apply (bs_distinct _ Hb)]|lia].
    + intros o Ho. pose proof (file_page_index o Ho) as Hi. destruct (frame_page (fr (o / 4096))) as [Hal Ed].
      pose proof (Hr _ Hi). pose proof (Z.mod_pos_bound o 4096 ltac:(lia)).
      rewrite (grow_bytes Ps s s'); try done; [by apply V3|lia|]. split; [by apply Hu|]. rewrite Ed. by apply Ha.
  - intros i Hi. eapply grow_use; [done| |by apply Hu]. pose proof (Hr i Hi). lia.
Qed.

Lemma byte_file m o : viewed m -> 0 <= o < len -> 0 <= B o < 256.
Proof. intros Hv Ho. rewrite <- (vi_bytes _ Hv o Ho). apply byte_range. Qed.

Lemma pe_address o : 0 <= o < 2 ^ 22 ->
  u32 (pe + o) = pe + o /\ (pe + o) / 2 ^ 22 = 1021 /\ ((pe + o) / 4096) mod 1024 = o / 4096 /\ (pe + o) mod 4096 = o mod 4096.
Proof.
  intros Ho. unfold pe. split; [apply u32_small; lia|].
  split; [symmetry; apply (Z.div_unique_pos _ _ _ o); lia|].
  pose proof (Z.div_mod o 4096 ltac:(lia)). pose proof (Z.mod_pos_bound o 4096 ltac:(lia)).
  assert (0 <= o / 4096 < 1024) by (split; [apply Z.div_pos; lia|apply Z.div_lt_upper_bound; lia]). split.
  - assert ((0xFF400000 + o) / 4096 = 0xFF400 + o / 4096) as ->
      by (symmetry; apply (Z.div_unique_pos _ _ _ (o mod 4096)); lia).
    symmetry. apply (Z.mod_unique_pos _ _ 0x3FD); lia.
  - symmetry. apply (Z.mod_unique_pos _ _ (0xFF400 + o / 4096)); lia.
Qed.

(** Where the bytes of the file are found. *)
Lemma resolve_file m o : FP mod 4096 = 0 -> 0 <= len <= 2 ^ 22 -> rd m (D + 4 * 1021) = FP + 3 ->
  rd m (FP + 4 * (o / 4096)) = 4096 * fr (o / 4096) + 3 -> 0 <= o < len ->
  resolve m D (u32 (pe + o)) = Some (4096 * fr (o / 4096) + o mod 4096).
Proof.
  intros HF Hl E1 E2 Ho. destruct (pe_address o ltac:(lia)) as (-> & Ed & Et & Em). rewrite <- Em.
  apply (resolve_small m D (pe + o) FP 3 (4096 * fr (o / 4096)) 3); try done.
  - apply frame_page.
  - by left.
  - by left.
  - by rewrite Ed.
  - by rewrite Et.
Qed.

Lemma read_image s o : FP mod 4096 = 0 -> 0 <= len <= 2 ^ 22 -> viewed (pmem s) -> 0 <= o < len ->
  ubyte D (pe + o) s = Ok (B o, s).
Proof.
  intros HF Hl Hv Ho. rewrite <- (vi_bytes _ Hv o Ho). apply ubyte_ok, resolve_file; try done; [apply Hv|].
  apply (vi_frame _ Hv). by apply file_page_index.
Qed.

(** ** Filling a page through the window *)

(** The first [k] bytes of the frame at [F] are those of [g]. *)
Record filling (F : Z) (g : Z -> Z) (s : mmu) (k : Z) (u : mmu) : Prop := mkFilling {
  fi_range : 0 <= k <= 4096;
  fi_vm : vm_wf u;
  fi_frames : frames u = frames s;
  fi_done : forall j, 0 <= j < k -> rdb (pmem u) (F + j) = g j;
  fi_rest : forall pa, pa / 4096 <> F / 4096 -> rd (pmem u) pa = rd (pmem s) pa
}.

Lemma filling_step F g s k u : F mod 4096 = 0 -> F / 4096 <> kpt / 4096 -> k < 4096 -> 0 <= g k < 256 ->
  filling F g s k u -> filling F g s (k + 1) (pokeb (F + k) (g k) u).
Proof.
  intros Hal Hne Hk Hg [Hr Hv Hf Hd Hrest]. pose proof (frame_byte F k Hal ltac:(lia)) as Epg.
  pose proof (vo_words _ _ (vw_ok _ _ Hv)) as Hm. split; [lia|by apply pokeb_vm; rewrite ?Epg|done| |].
  - intros j Hj. rewrite rdb_pokeb by done. destruct (Z.eqb_spec (F + j) (F + k)); [f_equal; lia|]. apply Hd. lia.
  - intros pa Hpa. rewrite rd_pokeb by congruence. by apply Hrest.
Qed.

Lemma filling_slot F g s k u i f : vm_wf s -> F / 4096 <> kpt / 4096 -> filling F g s k u ->
  slot_maps s i f -> slot_maps u i f.
Proof.
  intros Hs Hne Hfi (Hi & H). destruct (vm_kpt kpt s (vw_ok _ _ Hs)) as [Hal _]. split; [done|].
  unfold Virtual.pte in *. rewrite (fi_rest _ _ _ _ _ Hfi); [done|]. rewrite frame_word by done. congruence.
Qed.
(** ** Pages *)

(** Page [p] of the new address space has the bytes [C]; if it is in a frame of the file,
    [fm] says so. *)
Record page_is (fm : list Z) (s : mmu) (p : Z) (C : Z -> Z) (f : Z) : Prop := mkPage {
  pg_range : 0 <= f < 2 ^ 20;
  pg_entry : rd (pmem s) (PT + 4 * p) = 4096 * f + 7;
  pg_use : in_use s (4096 * f);
  pg_apart : f <> D / 4096 /\ f <> FP / 4096 /\ f <> PT / 4096;
  pg_file : forall i, 0 <= i < file_pages -> f = fr i -> bit fm i = true;
  pg_bytes : forall k, 0 <= k < 4096 -> rdb (pmem s) (4096 * f + k) = C k
}.

Lemma page_grow fm fm' Ps s s' p C f : base s -> grow Ps s s' -> 0 <= p < 1024 -> ~ Ps p ->
  (forall i, 0 <= i -> bit fm i = true -> bit fm' i = true) -> page_is fm s p C f -> page_is fm' s' p C f.
Proof.
  intros Hb Hg Hp Hno Hfm [H1 H2 H3 H4 H5 H6]. destruct (base_aligned s Hb) as (_ & _ & Hal & _ & _ & H0).
  destruct (frame_page f) as [Hfa Hfd]. split; try done.
  - rewrite (gr_mem _ _ _ Hg); [done|lia| |].
    + rewrite frame_word by done. apply (bs_use_t _ Hb).
    + intros q Hq E. assert (q = p) as -> by lia. done.
  - eapply grow_use; [done|lia|done].
  - intros i Hi E. apply Hfm; [lia|]. by apply H5.
  - intros k Hk. rewrite (grow_bytes Ps s s'); try done; [by apply H6|lia|]. split; [by apply H3|]. rewrite Hfd. apply H4.
Qed.

(** The frame was free in [s], or is one of the file. *)
Definition new_frame (s : mmu) (f : Z) : Prop := is_free (frames s) f = true \/ exists i, 0 <= i < file_pages /\ f = fr i.

Lemma new_frame_grow Ps s s' f : grow Ps s s' -> 0 <= f -> new_frame s' f -> new_frame s f.
Proof. intros Hg H0 [H|H]; [left; by apply Hg|by right]. Qed.

(** A frame that was free is none of those in use. *)
Lemma took_apart s n f p : base s -> file_view s -> took s n f p ->
  (f <> D / 4096 /\ f <> FP / 4096 /\ f <> PT / 4096) /\ forall i, 0 <= i < file_pages -> f <> fr i.
Proof.
  intros Hb Hv Ht. pose proof (tk_free _ _ _ _ Ht) as Hf. destruct (bs_use_d _ Hb), (bs_use_a _ Hb), (bs_use_t _ Hb).
  split; [split_and!; congruence|]. intros i Hi ->. destruct (fv_use _ Hv i Hi) as [Hu _].
  destruct (frame_page (fr i)) as [_ E]. rewrite E in Hu. congruence.
Qed.

(** A page of a segment that is a page of the file. *)
Lemma file_page s fm i q : base s -> file_view s -> map_ok fm -> 0 <= i -> 4096 * (i + 1) <= len -> 0 <= q < 1024 ->
  exists fm' s', (forall A (k : list Z -> M mmu A), (let! fm := lift (BITMAP_SET fm i) in
     let! e := vread kpt (entry (kernelstart + 4096 * a) i) in
     vwrite kpt (entry (kernelstart + 4096 * t) q) (Z.lor e 7) ;;! k fm) s = k fm' s') /\
    grow (eq q) s s' /\ frames s' = frames s /\ map_ok fm' /\
    (forall k, 0 <= k -> bit fm' k = if k =? i then true else bit fm k) /\
    page_is fm' s' q (fun k => B (4096 * i + k)) (fr i).
Proof.
  intros Hb Hv Hfm Hi Hlen Hq. pose proof Hv as [Hl Hvm Hu Hr Ha Hij]. pose proof (few_pages Hl).
  assert (0 <= i < file_pages) as Hif.
  { split; [done|]. unfold file_pages. Z.to_euclidean_division_equations. lia. }
  destruct (map_set fm i Hfm ltac:(lia)) as (fm' & Eset & Hfm' & Hbits). pose proof (Hr i Hif).
  destruct (frame_page (fr i)) as [Hfal Hfd].
  destruct (entry_only s q (4096 * fr i + 7) Hb Hq ltac:(lia)) as [Ew Hg].
  pose proof (view_grow _ _ _ Hb Hv Hg) as Hv'.
  exists fm', (poke (PT + 4 * q) (4096 * fr i + 7) s). split_and!; try done.
  - intros A k. unfold lift at 1, bind at 1. rewrite Eset. erewrite bind_Ok_eq by (apply (read_slot kpt s a FP i); [apply Hb|apply Hb|lia]).
    rewrite (vi_frame _ Hvm i Hif), more_flags by done. by erewrite bind_Ok_eq by exact Ew.
  - split; try done.
    + cbn [poke pmem set_pmem]. by rewrite rd_wr, Z.eqb_refl.
    + by apply (fv_use _ Hv').
    + by apply Ha.
    + intros k Hk E. rewrite Hbits by lia. destruct (Z.eqb_spec k i) as [|Hne]; [done|]. destruct Hne. by apply Hij.
    + intros k Hk. assert (0 <= 4096 * i + k < len) as Ho by lia.
      rewrite <- (vi_bytes _ (fv_mem _ Hv') _ Ho). do 2 f_equal.
      * do 2 f_equal. apply (Z.div_unique_pos _ _ _ k); lia.
      * apply (Z.mod_unique_pos _ _ i); lia.
Qed.

(** The last page of the file in a segment: [partial] bytes from offset [O], then zeroes. *)
Lemma copy_loop s s2 F f b O partial (g := fun k => if k <? partial then B (O + k) else 0) :
  base s -> file_view s -> opened s f b s2 -> F = 4096 * f -> is_free (frames s) f = true -> f <> kpt / 4096 ->
  0 <= O -> 0 <= partial < 4096 -> O + partial <= len ->
  wp (mloop 4097 (copy_partial_body kpt D (kernelstart + 4096 * b) (pe + O) partial) 0 ;;!
      mloop 4097 (zero_rest_body kpt (kernelstart + 4096 * b)) partial)
    (fun _ u => filling F g s2 4096 u) s2.
Proof.
  intros Hb Hv Hop -> Hf Hfk HO Hpa Hlen. pose proof Hop as [(Hr & _) [p0 Es2] Hv2 Hm].
  destruct (frame_page f) as [Hal Hfd]. destruct (base_aligned s Hb) as (_ & HF & _). pose proof (fv_len _ Hv) as Hl.
  destruct (sys_kpt kpt s (bs_sys _ Hb)) as [Hka _].
  assert (forall k u, filling (4096 * f) g s2 k u -> viewed (pmem u)) as Hview.
  { intros k u Hfi. apply (viewed_agree s); [done|done|]. intros pa H0 [Hu Hne].
    rewrite (fi_rest _ _ _ _ _ Hfi) by (rewrite Hfd; congruence). rewrite Es2, rd_upd; [done|]. intros ->.
    by rewrite frame_word in Hne. }
  assert (filling (4096 * f) g s2 0 s2) as H0 by (split; try done; lia).
  apply wp_bind.
  assert (wp (mloop 4097 (copy_partial_body kpt D (kernelstart + 4096 * b) (pe + O) partial) 0)
    (fun _ u => filling (4096 * f) g s2 partial u) s2) as H1.
  { apply (wp_mloop _ (fun k u => k <= partial /\ filling (4096 * f) g s2 k u) _ (fun k _ => Z.to_nat (partial - k))); [|split; [lia|done]|lia].
    intros k u (Hk & Hfi). unfold copy_partial_body. zcase; [|by apply wp_ret; replace partial with k by lia].
    pose proof (fi_range _ _ _ _ _ Hfi). pose proof (Hview k u Hfi) as Hvu.
    assert (B (O + k) = g k) as Eg by (unfold g; by rewrite (proj2 (Z.ltb_lt k partial))).
    apply wp_bind, wp_Ok. exists (g k), u. split.
    { replace (pe + O + k) with (pe + (O + k)) by lia. rewrite read_image by (done || lia). by rewrite Eg. }
    apply wp_bind, wp_Ok. eexists _, _. split.
    { apply (vput_slot kpt u b (4096 * f) k); [apply Hfi|by eapply filling_slot; [..|exact Hm]; rewrite ?Hfd|by rewrite Hfd|lia]. }
    apply wp_ret. split; [|lia]. split; [lia|]. apply filling_step; try done; [by rewrite Hfd|lia|].
    rewrite <- Eg. eapply byte_file; [done|lia]. }
  eapply wp_mono; [exact H1|]. intros [] u1 Hu1.
  apply (wp_mloop _ (fun k u => partial <= k /\ filling (4096 * f) g s2 k u) _ (fun k _ => Z.to_nat (4096 - k))); [|split; [lia|done]|lia].
  intros k u (Hk & Hfi). unfold zero_rest_body. pose proof (fi_range _ _ _ _ _ Hfi).
  zcase; [|apply wp_ret; by assert (k = 4096) as -> by lia].
  assert (0 = g k) as Eg by (unfold g; by rewrite (proj2 (Z.ltb_ge k partial))).
  apply wp_bind, wp_Ok. eexists _, _. split.
  { apply (vput_slot kpt u b (4096 * f) k); [apply Hfi|by eapply filling_slot; [..|exact Hm]; rewrite ?Hfd|by rewrite Hfd|lia]. }
  apply wp_ret. split; [|lia]. split; [lia|]. rewrite Eg. apply filling_step; try done; [by rewrite Hfd|lia].
Qed.
(** A fresh frame whose bytes are [C] becomes page [q]. *)
Lemma new_page fm s s' n f p q C : base s -> file_view s -> 0 <= q < 1024 -> took s n f p -> vm_wf s' -> frames s' = p ->
  rd (pmem s') (PT + 4 * q) = 4096 * f + 7 ->
  (forall pa, pa / 4096 <> f -> pa <> PT + 4 * q -> rd (pmem s') pa = rd (pmem s) pa) ->
  (forall k, 0 <= k < 4096 -> rdb (pmem s') (4096 * f + k) = C k) ->
  grow (eq q) s s' /\ page_is fm s' q C f /\ at_least (frame_free s') n.
Proof.
  intros Hb Hv Hq Ht Hvm Ef Ee Hrest HC. destruct (took_apart s n f p Hb Hv Ht) as [Hap Hfr].
  destruct (fresh_page s s' n f p q) as (Hg & Hu & Hn); [done..|]. split; [done|]. split; [|done].
  split; try done; [apply Ht|]. intros i Hi E. by destruct (Hfr i Hi).
Qed.

Lemma last_page_ok s ph j q n (e := p_offset ph + p_filesz ph) (i := p_offset ph / 4096 + j) :
  base s -> file_view s -> at_least (frame_free s) (S n) -> 0 <= p_offset ph -> 0 <= e < 2 ^ 32 -> p_offset ph < 2 ^ 32 -> 0 <= j ->
  4096 * i + e mod 4096 <= len -> 0 <= q < 1024 ->
  exists f s', (let! frame := last_page kpt D ph j in
      vwrite kpt (entry (kernelstart + 4096 * t) q) (Z.lor frame 7)) s = Ok (tt, s') /\
    grow (eq q) s s' /\ at_least (frame_free s') n /\ new_frame s f /\
    forall fm, page_is fm s' q (fun k => if k <? e mod 4096 then B (4096 * i + k) else 0) f.
Proof.
  intros Hb Hv Hn Ho He Ho' Hj Hlen Hq. assert (0 <= p_offset ph / 4096) by (apply Z.div_pos; lia).
  pose proof (Z.mod_pos_bound e 4096 ltac:(lia)) as Hpa.
  destruct (take_frame s n (bs_sys _ Hb) Hn) as (f & p & Ea & Ht & Hs1). pose proof Ht as [Hfr Hff Hfk _ _].
  destruct (open_frame s p n f Hb Ht Hs1) as (b & Em & Hop). set (s2 := upd_pte b (4096 * f + 3) (set_frames p s)) in *.
  destruct (proj1 (wp_Ok _ _ _) (copy_loop s s2 (4096 * f) f b (4096 * i) (e mod 4096) Hb Hv Hop eq_refl Hff Hfk
    ltac:(lia) ltac:(lia) Hlen)) as ([] & u & Ec & [_ Hvu Hfu Hdu Hru]).
  destruct (frame_page f) as [Hal Hfd]. rewrite Hfd in Hru.
  destruct (close_frame (fun _ => True) s f b s2 u Hb Hop Hvu Hfk (fun pa Hp _ => Hru pa Hp)) as (Eu & Hv3 & Hin & Hout).
  set (s3 := upd_pte b 0 u) in *. destruct (base_aligned s Hb) as (_ & _ & HPal & _).
  destruct (bs_use_t _ Hb) as [HPu HPk]. destruct (sys_kpt kpt s (bs_sys _ Hb)) as [Hka _].
  assert (slot_maps s3 t PT) as Hm3.
  { destruct (bs_t _ Hb) as (Htr & Hm). split; [done|]. unfold Virtual.pte in *.
    rewrite Hout; [done| |done]. rewrite frame_word by done. congruence. }
  assert (PT / 4096 <> f) as HPf by congruence.
  exists f, (poke (PT + 4 * q) (4096 * f + 7) s3).
  assert (forall pa, pa / 4096 = f -> rd (pmem (poke (PT + 4 * q) (4096 * f + 7) s3)) pa = rd (pmem u) pa) as Hf4.
  { intros pa Hpaf. cbn [poke pmem set_pmem]. rewrite rd_wr, (proj2 (Z.eqb_neq _ _)); [by apply Hin|].
    intros ->. by rewrite frame_word in Hpaf. }
  assert (forall fm, grow (eq q) s (poke (PT + 4 * q) (4096 * f + 7) s3) /\
    page_is fm (poke (PT + 4 * q) (4096 * f + 7) s3) q (fun k => if k <? e mod 4096 then B (4096 * i + k) else 0) f /\
    at_least (frame_free (poke (PT + 4 * q) (4096 * f + 7) s3)) n) as Hall.
  { intros fm. apply (new_page fm s _ n f p q); try done.
    - apply poke_vm; [done| |lia]. rewrite frame_word; done.
    - cbn [poke pmem set_pmem]. by rewrite rd_wr, Z.eqb_refl.
    - intros pa H1 H2. cbn [poke pmem set_pmem]. rewrite rd_wr, (proj2 (Z.eqb_neq _ _)) by done. by apply Hout.
    - intros k Hk. rewrite <- (Hdu k Hk). apply rdb_page; [done|done|]. intros x Hx. apply Hf4. by rewrite frame_word. }
  destruct (Hall []) as (Hg & _ & Hleft). split; [|split; [done|split; [done|split; [by left|intros fm; apply (Hall fm)]]]].
  assert (last_page kpt D ph j s = Ok (4096 * f, s3)) as El.
  { unfold last_page. erewrite bind_Ok_eq by exact Ea. erewrite bind_Ok_eq by exact Em.
    change (u32 (Z.lnot 0xFFF)) with 0xFFFFF000. rewrite frame_mask_div, Z.shiftl_mul_pow2, u32_small by lia.
    rewrite (land_ones_mod _ 12) by lia. change (2 ^ 12) with 4096. fold e.
    replace (pe + p_offset ph / 4096 * 4096 + j * 4096) with (pe + 4096 * i) by (unfold i; lia).
    rewrite <- bind_assoc. erewrite bind_Ok_eq by exact Ec. by erewrite bind_Ok_eq by exact Eu. }
  erewrite bind_Ok_eq by exact El. rewrite lor_flags by (done || lia). by apply write_slot.
Qed.
(** A zeroed page. *)
Lemma zero_page_ok s ph c j n (q := p_vaddr ph / 4096 + j) : base s -> file_view s -> at_least (frame_free s) (S n) ->
  j < c -> 0 <= q < 1024 ->
  exists f s', zero_page_body kpt (kernelstart + 4096 * t) ph c j s = Ok (Continue (j + 1), s') /\
    grow (eq q) s s' /\ at_least (frame_free s') n /\ new_frame s f /\ forall fm, page_is fm s' q (fun _ => 0) f.
Proof.
  intros Hb Hv Hn Hj Hq.
  destruct (take_frame s n (bs_sys _ Hb) Hn) as (f & p & Ea & Ht & Hs1). pose proof Ht as [Hfr Hff Hfk _ _].
  destruct (open_frame s p n f Hb Ht Hs1) as (b & Em & Hop). set (s2 := upd_pte b (4096 * f + 3) (set_frames p s)) in *.
  pose proof Hop as [(Hbr & Hbk & Hb0) _ Hv2 Hm2].
  destruct (frame_page f) as [Hal Hfd]. destruct (base_aligned s Hb) as (_ & _ & HPal & _).
  destruct (bs_use_t _ Hb) as [HPu HPk]. destruct (sys_kpt kpt s (bs_sys _ Hb)) as [Hka _].
  assert (PT / 4096 <> f) as HPf by congruence. pose proof (frame_word PT q HPal Hq) as EPq.
  assert (slot_maps s2 t PT) as Hmt by (apply slot_maps_other; [apply (bs_t _ Hb)|done]).
  set (s3 := poke (PT + 4 * q) (4096 * f + 7) s2).
  assert (vm_wf s3) as Hv3 by (apply poke_vm; [done|by rewrite EPq|lia]).
  assert (slot_maps s3 b (4096 * f)) as Hm3.
  { destruct Hm2 as (_ & Hm2). split; [done|]. unfold Virtual.pte, s3 in *. cbn [poke pmem set_pmem].
    rewrite rd_wr, (proj2 (Z.eqb_neq _ _)); [done|]. intros E. apply HPk. rewrite <- EPq, <- E. by apply frame_word. }
  destruct (proj1 (wp_Ok _ _ _) (clear_page_ok kpt s3 b (4096 * f) Hv3 Hm3 ltac:(by rewrite Hfd))) as ([] & u & Ec & [Hvu Hfu Hwu Hru]).
  rewrite Hfd in Hru.
  assert (forall pa, pa / 4096 <> f -> pa <> PT + 4 * q -> rd (pmem u) pa = rd (pmem s2) pa) as Hru'.
  { intros pa H1 H2. rewrite Hru by done. unfold s3. cbn [poke pmem set_pmem]. by rewrite rd_wr, (proj2 (Z.eqb_neq _ _)). }
  destruct (close_frame (fun pa => pa <> PT + 4 * q) s f b s2 u Hb Hop Hvu Hfk Hru') as (Eu & Hv4 & Hin & Hout).
  assert (forall fm, grow (eq q) s (upd_pte b 0 u) /\ page_is fm (upd_pte b 0 u) q (fun _ => 0) f /\
    at_least (frame_free (upd_pte b 0 u)) n) as Hall.
  { intros fm. apply (new_page fm s _ n f p q); try done.
    - rewrite rd_upd by (intros E; apply HPk; rewrite <- EPq, E; by apply frame_word).
      rewrite Hru by (by rewrite EPq). unfold s3. cbn [poke pmem set_pmem]. by rewrite rd_wr, Z.eqb_refl.
    - intros k Hk. apply rdb_zero; [done|done|]. intros x Hx. rewrite Hin by (by rewrite frame_word). by apply Hwu. }
  destruct (Hall []) as (Hg & _ & Hleft). exists f, (upd_pte b 0 u).
  split; [|split; [done|split; [done|split; [by left|intros fm; apply (Hall fm)]]]].
  unfold zero_page_body. rewrite (proj2 (Z.ltb_lt j c)) by done. erewrite bind_Ok_eq by exact Ea.
  erewrite bind_Ok_eq by exact Em. rewrite (Z.shiftr_div_pow2 _ 12), lor_flags by (done || lia). change (2 ^ 12) with 4096. fold q.
  erewrite bind_Ok_eq by (by apply write_slot). fold s3. erewrite bind_Ok_eq by exact Ec. by erewrite bind_Ok_eq by exact Eu.
Qed.

(** ** Segments *)

(** The pages of a segment of which [size] bytes are in the file or in memory. *)
Definition seg_count (ph : Elf32_Phdr) (size : Z) : Z := (p_offset ph + size - 1) / 4096 - p_offset ph / 4096 + 1.
Definition first_page (ph : Elf32_Phdr) : Z := p_vaddr ph / 4096.

Record seg_ok (ph : Elf32_Phdr) : Prop := mkSeg {
  sg_align : p_offset ph mod 4096 = p_vaddr ph mod 4096;
  sg_vaddr : 0 <= p_vaddr ph;
  sg_offset : 0 <= p_offset ph;
  sg_filesz : 0 <= p_filesz ph <= p_memsz ph;
  sg_end : 1 <= p_offset ph + p_filesz ph <= len;
  sg_pages : first_page ph + seg_count ph (p_memsz ph) <= 1024
}.

(** How many bytes of the file are found in memory for a segment that ends at [e]. *)
Definition copied (e : Z) : Z := 4096 * ((e - 1) / 4096) + e mod 4096.

(** Byte [k] of page [p]: what [_exec] makes of a segment. *)
Definition seg_byte (ph : Elf32_Phdr) (p k : Z) : Z :=
  let o := 4096 * (p_offset ph / 4096 + (p - first_page ph)) + k in
  if o <? copied (p_offset ph + p_filesz ph) then B o else 0.

Lemma count_ok ph size : 0 <= p_offset ph -> 0 <= size -> 1 <= p_offset ph + size < 2 ^ 31 ->
  page_count ph size = seg_count ph size /\ 0 <= seg_count ph size < 2 ^ 31.
Proof.
  intros H1 H2 H3. assert (0 <= seg_count ph size < 2 ^ 31) as Hr by (unfold seg_count; Z.to_euclidean_division_equations; lia).
  split; [|done]. unfold page_count. rewrite (u32_small (p_offset ph + size - 1)), !Z.shiftr_div_pow2 by lia.
  change (2 ^ 12) with 4096. fold (seg_count ph size). unfold s32. rewrite u32_small by lia.
  unfold signed. rewrite Z.mod_small; lia.
Qed.

(** After the first [j] pages, with [n] frames left for what follows. *)
Record seg_part (ph : Elf32_Phdr) (s : mmu) (fm : list Z) (n : nat) (j : Z) (s' : mmu) (fm' : list Z) : Prop := mkPart {
  sp_grow : grow (fun p => first_page ph <= p < first_page ph + j) s s';
  sp_map : map_ok fm';
  sp_more : forall i, 0 <= i -> bit fm i = true -> bit fm' i = true;
  sp_mapped : forall i, 0 <= i -> bit fm' i = true -> bit fm i = true \/
    exists p, first_page ph <= p < first_page ph + j /\ rd (pmem s') (PT + 4 * p) = 4096 * fr i + 7;
  sp_pages : forall p, first_page ph <= p < first_page ph + j -> exists f, page_is fm' s' p (seg_byte ph p) f /\ new_frame s f;
  sp_left : at_least (frame_free s') (Z.to_nat (seg_count ph (p_memsz ph) - j) + n)
}.

Lemma seg_part_start ph s fm n : base s -> map_ok fm -> at_least (frame_free s) (Z.to_nat (seg_count ph (p_memsz ph)) + n) ->
  seg_part ph s fm n 0 s fm.
Proof.
  intros Hb Hm Hn. split; try done.
  - eapply grow_iff; [apply grow_refl, Hb|]. intros p. split; [done|lia].
  - by left.
  - intros p Hp. lia.
  - by rewrite Z.sub_0_r.
Qed.

Lemma seg_part_step ph s fm n j s' fm' s'' fm'' f C : base s -> 0 <= first_page ph -> 0 <= j -> first_page ph + j < 1024 ->
  seg_part ph s fm n j s' fm' -> grow (eq (first_page ph + j)) s' s'' -> map_ok fm'' ->
  (forall i, 0 <= i -> bit fm' i = true -> bit fm'' i = true) ->
  (forall i, 0 <= i -> bit fm'' i = true -> bit fm' i = true \/ rd (pmem s'') (PT + 4 * (first_page ph + j)) = 4096 * fr i + 7) ->
  page_is fm'' s'' (first_page ph + j) C f -> new_frame s' f ->
  (forall k, 0 <= k < 4096 -> C k = seg_byte ph (first_page ph + j) k) ->
  at_least (frame_free s'') (Z.to_nat (seg_count ph (p_memsz ph) - (j + 1)) + n) ->
  seg_part ph s fm n (j + 1) s'' fm''.
Proof.
  intros Hb Hf0 Hj Hq [Hg Hm Hmore Hmap Hpg Hn] Hg' Hm' Hmore' Hmap' Hpage Hnew HC Hn'.
  pose proof (base_grow _ _ _ Hb Hg) as Hb'. destruct (base_aligned s Hb) as (_ & _ & Hal & _ & _ & H0). split; try done.
  - eapply grow_iff; [apply (grow_trans _ _ _ _ _ Hb Hg Hg')|]; cbn beta; intros; lia.
  - intros i Hi Hbit. by apply Hmore', Hmore.
  - intros i Hi Hbit. destruct (Hmap' i Hi Hbit) as [Hbit'|E].
    + destruct (Hmap i Hi Hbit') as [|(p & Hp & E)]; [by left|]. right. exists p. split; [lia|].
      rewrite (gr_mem _ _ _ Hg'); [done|lia| |lia]. rewrite frame_word by (done || lia). apply (bs_use_t _ Hb').
    + right. eexists. split; [|exact E]. lia.
  - intros p Hp. destruct (decide (p = first_page ph + j)) as [->|Hne].
    + exists f. destruct Hpage as [P1 P2 P3 P4 P5 P6].
      split; [|eapply new_frame_grow; [exact Hg|lia|done]]. split; try done. intros k Hk. rewrite <- HC by done. by apply P6.
    + destruct (Hpg p ltac:(lia)) as (f' & Hf' & Hnew'). exists f'. split; [|done]. eapply page_grow; [exact Hb'|exact Hg'| | |exact Hmore'|done]; lia.
Qed.
Section segment.
Context (ph : Elf32_Phdr) (Hok : seg_ok ph) (Hl : 0 <= len <= 2 ^ 22).
Notation nf := (seg_count ph (p_filesz ph)).
Notation nm := (seg_count ph (p_memsz ph)).
Notation e := (p_offset ph + p_filesz ph).

Lemma seg_bounds : 0 <= nf <= nm /\ 0 <= first_page ph /\ p_offset ph <= 2 ^ 22 /\ 0 <= p_offset ph / 4096 /\
  1 <= p_offset ph + p_memsz ph < 2 ^ 31 /\ p_offset ph / 4096 + nf = (e - 1) / 4096 + 1 /\ copied e <= e.
Proof.
  destruct Hok as [_ H1 H2 H3 H4 H5]. unfold first_page, seg_count, copied in *.
  assert (0 <= p_vaddr ph / 4096) by (apply Z.div_pos; lia).
  split_and!; try done; Z.to_euclidean_division_equations; lia.
Qed.

Lemma file_byte_in j k : 0 <= k < 4096 -> j < nf - 1 ->
  B (4096 * (p_offset ph / 4096 + j) + k) = seg_byte ph (first_page ph + j) k.
Proof.
  intros Hk Hj. destruct seg_bounds as (_ & _ & _ & _ & _ & E & _). pose proof (Z.mod_pos_bound e 4096 ltac:(lia)).
  unfold seg_byte. replace (first_page ph + j - first_page ph) with j by lia.
  rewrite (proj2 (Z.ltb_lt _ _)); [done|]. unfold copied. lia.
Qed.

Lemma last_byte_in j k : 0 <= k < 4096 -> j = nf - 1 ->
  (if k <? e mod 4096 then B (4096 * (p_offset ph / 4096 + j) + k) else 0) = seg_byte ph (first_page ph + j) k.
Proof.
  intros Hk Hj. destruct seg_bounds as (_ & _ & _ & _ & _ & E & _).
  unfold seg_byte. replace (first_page ph + j - first_page ph) with j by lia. unfold copied.
  destruct (Z.ltb_spec k (e mod 4096)), (Z.ltb_spec (4096 * (p_offset ph / 4096 + j) + k) (4096 * ((e - 1) / 4096) + e mod 4096)); try done; lia.
Qed.

Lemma zero_byte_in j k : 0 <= k < 4096 -> nf <= j -> 0 = seg_byte ph (first_page ph + j) k.
Proof.
  intros Hk Hj. destruct seg_bounds as (_ & _ & _ & _ & _ & E & _). pose proof (Z.mod_pos_bound e 4096 ltac:(lia)).
  unfold seg_byte. replace (first_page ph + j - first_page ph) with j by lia.
  rewrite (proj2 (Z.ltb_ge _ _)); [done|]. unfold copied. lia.
Qed.

Section loops.
Context (s : mmu) (fm : list Z) (n : nat).
Context (Hb : base s) (Hv : file_view s).

Lemma file_page_step j u fmu : seg_part ph s fm n j u fmu -> 0 <= j < nf ->
  wp (file_page_body kpt D (kernelstart + 4096 * a) (kernelstart + 4096 * t) ph nf (j, fmu))
    (fun c u' => exists fm', c = Continue (j + 1, fm') /\ seg_part ph s fm n (j + 1) u' fm') u.
Proof using Hok Hl Hb Hv.
  intros Hp Hj. destruct seg_bounds as (Hn & Hf0 & Ho & Hi0 & _ & E & Hce). pose proof Hok as [_ _ H2 H3 H4 H5].
  pose proof Hp as [Hg Hm _ _ _ Hleft]. pose proof (base_grow _ _ _ Hb Hg) as Hbu. pose proof (view_grow _ _ _ Hb Hv Hg) as Hvu.
  unfold file_page_body. rewrite (proj2 (Z.ltb_lt j nf)), !Z.shiftr_div_pow2 by lia. change (2 ^ 12) with 4096. fold (first_page ph).
  pose proof (Z.div_mod e 4096 ltac:(lia)) as Edm. pose proof (Z.mod_pos_bound e 4096 ltac:(lia)) as Hmod. unfold copied in Hce. apply wp_Ok.
  destruct (Z.eqb_spec j (nf - 1)) as [Ej|Hne].
  - destruct (last_page_ok u ph j (first_page ph + j) (Z.to_nat (nm - (j + 1)) + n) Hbu Hvu) as (f & u' & Eu & Hg' & Hleft' & Hnew & Hpage);
      [replace (S _) with (Z.to_nat (nm - j) + n)%nat by lia; done|done|lia|lia|lia|lia|lia|].
    exists (Continue (j + 1, fmu)), u'. split; [rewrite <- bind_assoc; by erewrite bind_Ok_eq by exact Eu|].
    exists fmu. split; [done|]. eapply (seg_part_step ph s fm n j u fmu u' fmu); try done; [lia|lia|by left|].
    intros k Hk. by apply last_byte_in.
  - destruct (file_page u fmu (p_offset ph / 4096 + j) (first_page ph + j) Hbu Hvu Hm) as (fm' & u' & Eu & Hg' & Ef & Hm' & Hbits & Hpage);
      [lia|lia|lia|].
    exists (Continue (j + 1, fm')), u'. split.
    { rewrite (Z.add_comm j), u32_small by lia. apply (Eu _ (fun fm => ret (Continue (j + 1, fm)))). }
    exists fm'. split; [done|]. eapply (seg_part_step ph s fm n j u fmu u' fm'); try done; [lia|lia| | | | |].
    + intros i Hi. rewrite Hbits by done. by destruct (i =? _).
    + intros i Hi. rewrite Hbits by done. destruct (Z.eqb_spec i (p_offset ph / 4096 + j)) as [->|]; [|by left].
      intros _. right. apply Hpage.
    + right. exists (p_offset ph / 4096 + j). split; [|done]. unfold file_pages. Z.to_euclidean_division_equations. lia.
    + intros k Hk. apply file_byte_in; [done|lia].
    + eapply at_least_fewer; [|instantiate (1 := (Z.to_nat (nm - j) + n)%nat); lia].
      eapply at_least_mono; [exact Hleft|]. intros x [X1 X2]. split; by rewrite Ef.
Qed.

Lemma zero_page_step j u fmu : seg_part ph s fm n j u fmu -> nf <= j < nm ->
  wp (zero_page_body kpt (kernelstart + 4096 * t) ph nm j)
    (fun c u' => c = Continue (j + 1) /\ seg_part ph s fm n (j + 1) u' fmu) u.
Proof using Hok Hl Hb Hv.
  intros Hp Hj. destruct seg_bounds as (Hn & Hf0 & _). pose proof Hok as [_ _ H2 H3 H4 H5].
  pose proof Hp as [Hg Hm _ _ _ Hleft]. pose proof (base_grow _ _ _ Hb Hg) as Hbu. pose proof (view_grow _ _ _ Hb Hv Hg) as Hvu.
  destruct (zero_page_ok u ph nm j (Z.to_nat (nm - (j + 1)) + n) Hbu Hvu) as (f & u' & Eu & Hg' & Hleft' & Hnew & Hpage);
    [replace (S _) with (Z.to_nat (nm - j) + n)%nat by lia; done|lia|fold (first_page ph); lia|].
  apply wp_Ok. eexists _, _. split; [exact Eu|]. split; [done|]. fold (first_page ph) in *.
  eapply (seg_part_step ph s fm n j u fmu u' fmu); try done; [lia|lia|by left|]. intros k Hk. apply zero_byte_in; [done|lia].
Qed.

Lemma load_segment_ok : map_ok fm -> at_least (frame_free s) (Z.to_nat nm + n) ->
  exists fm' s', load_segment kpt D (kernelstart + 4096 * a) (kernelstart + 4096 * t) ph fm s = Ok (fm', s') /\
    seg_part ph s fm n nm s' fm'.
Proof using Hok Hl Hb Hv.
  intros Hm Hn. destruct seg_bounds as (Hnn & Hf0 & Ho & Hi0 & Hms & _). pose proof Hok as [Hal _ H2 H3 H4 H5].
  destruct (count_ok ph (p_filesz ph)) as [Ec1 Hc1]; [lia..|]. destruct (count_ok ph (p_memsz ph)) as [Ec2 Hc2]; [lia..|].
  assert (wp (mloop (S (Z.to_nat nf)) (file_page_body kpt D (kernelstart + 4096 * a) (kernelstart + 4096 * t) ph nf) (0, fm))
    (fun r u => r.1 = nf /\ seg_part ph s fm n nf u r.2) s) as H1.
  { apply (wp_mloop _ (fun l u => 0 <= l.1 <= nf /\ seg_part ph s fm n l.1 u l.2) _ (fun l _ => Z.to_nat (nf - l.1)));
      [|split; [cbn; lia|by apply seg_part_start]|cbn; lia].
    intros [j fmu] u [Hj Hp]. cbn [fst snd] in *. destruct (Z.ltb_spec j nf).
    - eapply wp_mono; [apply file_page_step; [exact Hp|lia]|]. intros c u' (fm' & -> & Hp'). cbn [fst snd]. split; [|lia].
      by split; [lia|].
    - unfold file_page_body. rewrite (proj2 (Z.ltb_ge j nf)) by lia. apply wp_ret. cbn [fst snd]. assert (j = nf) as -> by lia. done. }
  apply wp_Ok in H1 as ([j fm1] & u1 & E1 & Ej & Hp1). cbn [fst snd] in *. subst j.
  assert (wp (mloop (S (Z.to_nat nm)) (zero_page_body kpt (kernelstart + 4096 * t) ph nm) nf)
    (fun _ u => seg_part ph s fm n nm u fm1) u1) as H6.
  { apply (wp_mloop _ (fun j u => nf <= j <= nm /\ seg_part ph s fm n j u fm1) _ (fun j _ => Z.to_nat (nm - j)));
      [|split; [lia|done]|lia].
    intros j u [Hj Hp]. destruct (Z.ltb_spec j nm).
    - eapply wp_mono; [apply zero_page_step; [exact Hp|lia]|]. intros c u' (-> & Hp'). split; [|lia]. by split; [lia|].
    - unfold zero_page_body. rewrite (proj2 (Z.ltb_ge j nm)) by lia. apply wp_ret. by assert (j = nm) as -> by lia. }
  apply wp_Ok in H6 as ([] & u2 & E2 & Hp2). exists fm1, u2. split; [|done].
  unfold load_segment. rewrite !(land_ones_mod _ 12) by lia. change (2 ^ 12) with 4096. rewrite Hal, Z.eqb_refl. cbn [negb].
  rewrite Ec1, Ec2. erewrite bind_Ok_eq by exact E1. cbn beta iota. by erewrite bind_Ok_eq by exact E2.
Qed.
End loops.
End segment.
End pages.
