(* ===== verification/ExecLoad.v ===== *)
(** * The loop over the program headers

    In [load_image] of [Exec], every loadable segment of the file is entered into the page
    table, and the frames of the file that no segment uses are released. *)

From Stdlib Require Import ZArith Lia.
From S2P Require Import Prelude Physical Virtual VirtualThm Clone CloneThm Exit Exec ExecMem ExecPages.
From stdpp Require Import base gmap sets fin_sets numbers strings list.
Local Open Scope Z_scope.

(** ** The headers of a file *)

Section headers.
Context (len : Z) (B : Z -> Z).

Definition half_at (o : Z) : Z := B o + 2 ^ 8 * B (o + 1).
Definition word_at (o : Z) : Z := B o + 2 ^ 8 * B (o + 1) + 2 ^ 16 * B (o + 2) + 2 ^ 24 * B (o + 3).

Definition entry_point : Z := word_at 24.
Definition header_count : Z := half_at 44.
Definition header_offset (i : Z) : Z := word_at 28 + i * half_at 42.
Definition header (i : Z) : Elf32_Phdr :=
  let o := header_offset i in mkPhdr (word_at (o + 4)) (word_at (o + 8)) (word_at (o + 16)) (word_at (o + 20)).
Definition loads (i : Z) : bool := word_at (header_offset i) =? PT_LOAD.

(** Page [p] belongs to segment [i], and to one of the first [n]. *)
Definition in_segment (i p : Z) : Prop :=
  loads i = true /\ first_page (header i) <= p < first_page (header i) + seg_count (header i) (p_memsz (header i)).
Definition in_first (n p : Z) : Prop := exists i, 0 <= i < n /\ in_segment i p.

(** The headers are in the file, the segments too, and their pages are apart from each
    other, from the video memory and from the stack. *)
Record image_ok : Prop := mkImage {
  im_len : 52 <= len <= 2 ^ 22;
  im_bytes : forall o, 0 <= o < len -> 0 <= B o < 256;
  im_headers : forall i, 0 <= i < header_count -> header_offset i + 32 <= len;
  im_segments : forall i, 0 <= i < header_count -> loads i = true -> seg_ok len (header i);
  im_apart : forall i k p, 0 <= i < header_count -> 0 <= k < header_count -> in_segment i p -> in_segment k p -> i = k;
  im_place : forall p, in_first header_count p -> p < 0x200 \/ 0x20F < p < 1008
}.

(** The pages of the segments from [i] on. *)
Definition pages_left (i : Z) : nat :=
  sum_list_with (fun k => if loads k then Z.to_nat (seg_count (header k) (p_memsz (header k))) else 0%nat)
    (seqZ i (header_count - i)).

Lemma pages_left_step i : i < header_count ->
  pages_left i = ((if loads i then Z.to_nat (seg_count (header i) (p_memsz (header i))) else 0) + pages_left (i + 1))%nat.
Proof.
  intros Hi. unfold pages_left. rewrite seqZ_cons by lia. cbn [sum_list_with]. do 2 f_equal. f_equal; lia.
Qed.

Lemma in_first_step n p : 0 <= n -> (in_first (n + 1) p <-> in_first n p \/ in_segment n p).
Proof.
  intros Hn. split.
  - intros (i & Hi & H). destruct (decide (i = n)) as [->|]; [by right|left]. exists i. split; [lia|done].
  - intros [(i & Hi & H)|H]; [exists i|exists n]; (split; [lia|done]).
Qed.
End headers.

Section load.
Context (kpt D FP PT d a t len : Z) (fr B : Z -> Z).
Notation pte := (pte kpt).
Notation upd_pte := (upd_pte kpt).
Notation vm_wf := (vm_wf kpt).
Notation slot_maps := (slot_maps kpt).
Notation slot_free := (slot_free kpt).
Notation sys_ok := (sys_ok kpt).
Notation in_use := (in_use kpt).
Notation base := (base kpt D FP PT d a t).
Notation grow := (grow kpt PT).
Notation file_view := (file_view kpt D FP PT len fr B).
Notation page_is := (page_is kpt D FP PT len fr).
Notation header := (header B).
Notation loads := (loads B).

Lemma read_word s o : base s -> file_view s -> 0 <= o -> o + 4 <= len -> uword D (pe + o) s = Ok (word_at B o, s).
Proof.
  intros Hb Hv H0 Hl. destruct (base_aligned _ _ _ _ _ _ _ s Hb) as (_ & HF & _). unfold word_at.
  replace (B o) with (B (o + 0)) by (f_equal; lia). apply (uword_ok D s (pe + o) (fun k => B (o + k))).
  intros k Hk. replace (pe + o + k) with (pe + (o + k)) by lia.
  apply (read_image D FP len fr B); [done|apply Hv|apply Hv|lia].
Qed.

Lemma read_half s o : base s -> file_view s -> 0 <= o -> o + 2 <= len -> uhalf D (pe + o) s = Ok (half_at B o, s).
Proof.
  intros Hb Hv H0 Hl. destruct (base_aligned _ _ _ _ _ _ _ s Hb) as (_ & HF & _). unfold half_at.
  replace (B o) with (B (o + 0)) by (f_equal; lia). apply (uhalf_ok D s (pe + o) (fun k => B (o + k))).
  intros k Hk. replace (pe + o + k) with (pe + (o + k)) by lia.
  apply (read_image D FP len fr B); [done|apply Hv|apply Hv|lia].
Qed.

(** After the first [i] headers. *)
Record loaded_to (s : mmu) (n : nat) (i : Z) (fm : list Z) (u : mmu) : Prop := mkLoaded {
  lt_grow : grow (in_first B i) s u;
  lt_map : map_ok fm;
  lt_mapped : forall k, 0 <= k -> bit fm k = true -> exists p, in_first B i p /\ rd (pmem u) (PT + 4 * p) = 4096 * fr k + 7;
  lt_pages : forall k p, 0 <= k < i -> in_segment B k p -> exists f, page_is fm u p (seg_byte B (header k) p) f /\ new_frame len fr s f;
  lt_left : at_least (frame_free u) (pages_left B i + n)
}.

Section image.
Context (Hi : image_ok len B).

Lemma image_word o : 0 <= o -> o + 4 <= len -> 0 <= word_at B o < 2 ^ 32.
Proof using Hi.
  intros H0 Hl. unfold word_at. pose proof (im_bytes _ _ Hi o ltac:(lia)). pose proof (im_bytes _ _ Hi (o + 1) ltac:(lia)).
  pose proof (im_bytes _ _ Hi (o + 2) ltac:(lia)). pose proof (im_bytes _ _ Hi (o + 3) ltac:(lia)). lia.
Qed.

Lemma image_half o : 0 <= o -> o + 2 <= len -> 0 <= half_at B o < 2 ^ 16.
Proof using Hi.
  intros H0 Hl. unfold half_at. pose proof (im_bytes _ _ Hi o ltac:(lia)). pose proof (im_bytes _ _ Hi (o + 1) ltac:(lia)). lia.
Qed.

Lemma header_offset_pos i : 0 <= i -> 0 <= header_offset B i.
Proof using Hi.
  intros H0. pose proof (im_len _ _ Hi). pose proof (image_word 28 ltac:(lia) ltac:(lia)). pose proof (image_half 42 ltac:(lia) ltac:(lia)).
  unfold header_offset. nia.
Qed.

Lemma loaded_segment s n i fm u fm' u' : base s -> 0 <= i < header_count B -> loads i = true -> loaded_to s n i fm u ->
  seg_part kpt D FP PT len fr B (header i) u fm (pages_left B (i + 1) + n)
    (seg_count (header i) (p_memsz (header i))) u' fm' -> loaded_to s n (i + 1) fm' u'.
Proof using Hi.
  intros Hb Hr Hl [Hg Hm Hmap Hpg Hleft] [Hg' Hm' Hmore' Hmap' Hpg' Hleft'].
  pose proof (base_grow _ _ _ _ _ _ _ _ _ _ Hb Hg) as Hbu.
  destruct (base_aligned _ _ _ _ _ _ _ u Hbu) as (_ & _ & Hal & _ & _ & H0).
  assert (forall p, in_first B i p -> in_segment B i p -> False) as Hd.
  { intros p (k & Hk & Hp) Hp'. pose proof (im_apart _ _ Hi k i p ltac:(lia) ltac:(lia) Hp Hp'). lia. }
  split; try done.
  - eapply grow_iff; [apply (grow_trans _ _ _ _ _ _ _ _ _ _ _ _ Hb Hg Hg')|].
    + intros p Hp Hp'. by apply (Hd p); [|split].
    + intros p. rewrite in_first_step by lia. unfold in_segment. rewrite Hl. naive_solver.
  - intros k Hk Hbit. destruct (Hmap' k Hk Hbit) as [Hbit'|(p & Hp & E)].
    + destruct (Hmap k Hk Hbit') as (p & Hp & E). exists p. split; [apply in_first_step; [lia|by left]|].
      pose proof (gr_pages _ _ _ _ _ Hg p Hp). rewrite (gr_mem _ _ _ _ _ Hg'); [done|lia| |].
      * rewrite frame_word by done. apply (bs_use_t _ _ _ _ _ _ _ _ Hbu).
      * intros q Hq E'. assert (q = p) as -> by lia. by apply (Hd p); [|split].
    + exists p. split; [|done]. apply in_first_step; [lia|]. by right; split.
  - intros k p Hk Hp. destruct (decide (k = i)) as [->|Hne].
    + destruct (Hpg' p (proj2 Hp)) as (f & Hf & Hnew). exists f. split; [done|].
      eapply new_frame_grow; [exact Hg| |done]. pose proof (pg_range _ _ _ _ _ _ _ _ _ _ _ Hf). lia.
    + destruct (Hpg k p ltac:(lia) Hp) as (f & Hf & Hnew). exists f. split; [|done].
      eapply page_grow; [exact Hbu|exact Hg'| | |exact Hmore'|done].
      * apply (gr_pages _ _ _ _ _ Hg). exists k. split; [lia|done].
      * intros Hp'. apply (Hd p); [exists k; split; [lia|done]|by split].
  - by rewrite Z.sub_diag in Hleft'.
Qed.

Lemma loaded_skip s n i fm u : 0 <= i < header_count B -> loads i = false -> loaded_to s n i fm u -> loaded_to s n (i + 1) fm u.
Proof using.
  intros Hr Hl [Hg Hm Hmap Hpg Hleft].
  assert (forall p, in_first B i p <-> in_first B (i + 1) p) as Hf.
  { intros p. rewrite in_first_step by lia. unfold in_segment. rewrite Hl. naive_solver. }
  split; try done.
  - by eapply grow_iff.
  - intros k Hk Hbit. destruct (Hmap k Hk Hbit) as (p & Hp & E). exists p. by rewrite <- Hf.
  - intros k p Hk Hp. apply Hpg; [|done]. destruct (decide (k = i)) as [->|]; [|lia]. destruct Hp as [Hp _]. congruence.
  - rewrite pages_left_step, Hl in Hleft by lia. done.
Qed.

Lemma header_body_ok s n i fm u : base s -> file_view s -> 0 <= i < header_count B -> loaded_to s n i fm u ->
  wp (header_body kpt D (kernelstart + 4096 * a) (kernelstart + 4096 * t) (i, u32 (pe + header_offset B i), fm))
    (fun c u' => exists fm', c = Continue (i + 1, u32 (pe + header_offset B (i + 1)), fm') /\ loaded_to s n (i + 1) fm' u') u.
Proof using Hi.
  intros Hb Hv Hr Hlt. pose proof (im_len _ _ Hi) as Hlen. pose proof (lt_grow _ _ _ _ _ Hlt) as Hg.
  pose proof (base_grow _ _ _ _ _ _ _ _ _ _ Hb Hg) as Hbu. pose proof (view_grow _ _ _ _ _ _ _ _ _ _ _ _ _ Hb Hv Hg) as Hvu.
  pose proof (im_headers _ _ Hi i Hr) as Hh. pose proof (header_offset_pos i ltac:(lia)) as Hh0.
  assert (u32 (pe + header_offset B i) = pe + header_offset B i) as Epph by (apply u32_small; unfold pe; lia).
  assert (u32 (u32 (pe + header_offset B i) + half_at B 42) = u32 (pe + header_offset B (i + 1))) as Enext.
  { rewrite Epph. f_equal. unfold header_offset. lia. }
  rewrite Epph in *. set (o := header_offset B i) in *.
  unfold header_body. apply wp_bind, wp_Ok. eexists _, _. split; [apply read_half; [done|done|lia|lia]|].
  fold (header_count B). rewrite (proj2 (Z.ltb_lt i (header_count B))) by lia.
  apply wp_bind, wp_Ok. eexists _, _. split; [apply (read_word u o); [done|done|lia|lia]|].
  assert (forall fm' u', loaded_to s n (i + 1) fm' u' ->
    wp (let! e_phentsize := uhalf D (pe + 42) in ret (Continue (i + 1, u32 (pe + o + e_phentsize), fm')))
      (fun (c : control (Z * Z * list Z) (list Z)) u' => exists fm', c = Continue (i + 1, u32 (pe + header_offset B (i + 1)), fm') /\
        loaded_to s n (i + 1) fm' u') u') as Hend.
  { intros fm' u' Hlt'. pose proof (lt_grow _ _ _ _ _ Hlt') as Hg'.
    pose proof (base_grow _ _ _ _ _ _ _ _ _ _ Hb Hg') as Hbu'. pose proof (view_grow _ _ _ _ _ _ _ _ _ _ _ _ _ Hb Hv Hg') as Hvu'.
    apply wp_bind, wp_Ok. eexists _, _. split; [apply read_half; [done|done|lia|lia]|]. apply wp_ret. exists fm'. by rewrite Enext. }
  apply wp_bind. destruct (loads i) eqn:El; pose proof El as El'; unfold ExecLoad.loads in El'; fold o in El'; rewrite El'.
  - apply wp_bind, wp_Ok. exists (header i), u. split.
    { unfold read_phdr. rewrite <- !Z.add_assoc.
      do 4 (erewrite bind_Ok_eq by (apply read_word; [done|done|lia|lia])). done. }
    destruct (load_segment_ok kpt D FP PT d a t len fr B (header i) (im_segments _ _ Hi i Hr El) ltac:(lia) u fm
      (pages_left B (i + 1) + n) Hbu Hvu (lt_map _ _ _ _ _ Hlt)) as (fm' & u' & E & Hp).
    { pose proof (lt_left _ _ _ _ _ Hlt) as Hleft. rewrite pages_left_step, El in Hleft by lia. by rewrite Nat.add_assoc. }
    apply wp_Ok. eexists _, _. split; [exact E|]. apply Hend. by eapply loaded_segment.
  - apply wp_ret. apply Hend. by apply loaded_skip.
Qed.

Lemma headers_ok s n : base s -> file_view s -> at_least (frame_free s) (pages_left B 0 + n) ->
  exists fm u, mloop (S (Z.to_nat (header_count B))) (header_body kpt D (kernelstart + 4096 * a) (kernelstart + 4096 * t))
      (0, u32 (pe + header_offset B 0), replicate 32 0) s = Ok (fm, u) /\
    loaded_to s n (header_count B) fm u.
Proof using Hi.
  intros Hb Hv Hn. pose proof (im_len _ _ Hi) as Hlen. pose proof (image_half 44 ltac:(lia) ltac:(lia)) as Hc.
  change (half_at B 44) with (header_count B) in Hc.
  apply wp_Ok. apply (wp_mloop _ (fun l u => 0 <= l.1.1 <= header_count B /\ l.1.2 = u32 (pe + header_offset B l.1.1) /\
    loaded_to s n l.1.1 l.2 u) _ (fun l _ => Z.to_nat (header_count B - l.1.1))); [| |cbn; lia].
  - intros [[i pph] fm] u (Hr & Epph & Hlt). cbn [fst snd] in *. subst pph. destruct (Z.ltb_spec i (header_count B)).
    + eapply wp_mono; [apply (header_body_ok s n i fm u); [done|done|lia|done]|].
      intros c u' (fm' & -> & Hlt'). cbn [fst snd]. split; [|lia]. by split; [lia|].
    + unfold header_body. apply wp_bind, wp_Ok. eexists _, _. split.
      { apply read_half; [| |lia|lia]; [eapply base_grow; [done|apply Hlt]|eapply view_grow; [exact Hb|done|apply Hlt]]. }
      fold (header_count B). rewrite (proj2 (Z.ltb_ge i (header_count B))) by lia. apply wp_ret. by assert (i = header_count B) as <- by lia.
  - cbn [fst snd]. split; [lia|]. split; [done|]. destruct empty_map as [Hm He]. split; try done.
    + eapply grow_iff; [apply grow_refl, Hb|]. intros p. split; [done|]. intros (k & Hk & _). lia.
    + intros k _ Hk. by rewrite He in Hk.
    + intros k p Hk. lia.
Qed.
End image.
(** ** The frames of the file that are not used *)

Notation np := (file_pages len).

(** The first [n] pages of the file that no segment maps. *)
Definition unused (fm : list Z) (n m : Z) : Prop := exists k, 0 <= k < n /\ bit fm k = false /\ m = fr k.

Lemma unused_step fm k m : 0 <= k -> (unused fm k m \/ (bit fm k = false /\ m = fr k) <-> unused fm (k + 1) m).
Proof.
  intros Hk. split.
  - intros [(i & Hi & H)|H]; [exists i|exists k]; (split; [lia|done]).
  - intros (i & Hi & H). destruct (decide (i = k)) as [->|]; [by right|left]. exists i. split; [lia|done].
Qed.

Lemma drop_frames_ok s fm : base s -> file_view s -> map_ok fm ->
  exists p, mloop (page_fuel len) (drop_frame_body kpt (kernelstart + 4096 * a) len fm) 0 s = Ok (tt, set_frames p s) /\
    freed (unused fm np) (frames s) p.
Proof.
  intros Hb Hv Hm. pose proof (fv_len _ _ _ _ _ _ _ _ Hv) as Hl. pose proof (few_pages len Hl) as Hnp.
  pose proof (bs_sys _ _ _ _ _ _ _ _ Hb) as [Hvm Hph _].
  assert (forall k, k < np <-> 4096 * k < len) as Hk.
  { intros k. unfold file_pages. Z.to_euclidean_division_equations. lia. }
  assert (wp (mloop (page_fuel len) (drop_frame_body kpt (kernelstart + 4096 * a) len fm) 0)
    (fun _ u => exists p, u = set_frames p s /\ freed (unused fm np) (frames s) p) s) as Hwp.
  { apply (wp_mloop _ (fun i u => exists k p, i = 4096 * k /\ 0 <= k <= np /\ u = set_frames p s /\
      freed (unused fm k) (frames s) p) _ (fun i _ => Z.to_nat ((len + 4095 - i) / 4096))).
    - intros i u (k & p & -> & Hr & -> & Hp). unfold drop_frame_body. zcase; cycle 1.
      { apply wp_ret. exists p. split; [done|]. assert (k = np) as -> by (pose proof (Hk k); lia). done. }
      rewrite Z.shiftr_div_pow2 by lia. change (2 ^ 12) with 4096. rewrite (proj2 (frame_page k)).
      assert (k < np) as Hkn by (by apply Hk).
      assert (forall p', freed (fun m => bit fm k = false /\ m = fr k) p p' -> exists k' p'', 4096 * k + 4096 = 4096 * k' /\
        0 <= k' <= np /\ set_frames p' s = set_frames p'' s /\ freed (unused fm k') (frames s) p'') as Hnext.
      { intros p' Hp'. exists (k + 1), p'. split_and!; [lia|lia|lia|done|]. eapply freed_iff; [by eapply freed_trans|].
        intros m _. apply unused_step. lia. }
      assert ((Z.to_nat ((len + 4095 - (4096 * k + 4096)) / 4096) < Z.to_nat ((len + 4095 - 4096 * k) / 4096))%nat) as Hmu
        by (Z.to_euclidean_division_equations; lia).
      apply wp_bind, wp_Ok. exists (bit fm k), (set_frames p s). split; [unfold lift; by rewrite map_test by (done || lia)|].
      pose proof (fv_range _ _ _ _ _ _ _ _ Hv k ltac:(lia)) as Hfr.
      apply wp_bind, wp_when; [intros Hbit%negb_true_iff|intros Hbit%negb_false_iff].
      + apply wp_bind, wp_Ok. eexists _, _. split.
        { apply (read_slot kpt (set_frames p s) a FP k); [by apply frames_vm|apply (bs_a _ _ _ _ _ _ _ _ Hb)|lia]. }
        cbn [pmem set_frames]. rewrite (vi_frame _ _ _ _ _ _ (fv_mem _ _ _ _ _ _ _ _ Hv) k ltac:(lia)).
        rewrite Z.shiftr_div_pow2 by lia. change (2 ^ 12) with 4096.
        destruct (frame_page (fr k)) as [Hal Ed]. rewrite frame_byte, Ed by (done || lia).
        destruct (release_frame_ok (set_frames p s) (fr k) (fr_wf _ _ _ Hp) Hfr) as (p' & E & Hp').
        apply wp_Ok. eexists _, _. split; [exact E|]. apply wp_ret. split; [|done]. apply Hnext.
        eapply freed_iff; [exact Hp'|]. intros m _. tauto.
      + apply wp_ret. split; [|done]. apply Hnext. eapply freed_iff; [apply freed_none, Hp|]. intros m _.
        split; [done|]. intros [? _]. congruence.
    - exists 0, (frames s). split_and!; [done|lia|lia|by destruct s|]. eapply freed_iff; [by apply freed_none|].
      intros m _. split; [done|]. intros (k & ? & _). lia.
    - unfold page_fuel. rewrite Z.sub_0_r. lia. }
  apply wp_Ok in Hwp as ([] & u & E & p & -> & Hp). by exists p.
Qed.
End load.
