(* ===== verification/ExecTail.v ===== *)
(** * The stack of the new program, and the end of the loader

    The video memory and the stack are mapped, the stack is cleared and gets the
    arguments through its user addresses, and the window mappings of the loader are undone. *)

From Stdlib Require Import ZArith Lia.
From S2P Require Import Prelude Physical Virtual VirtualThm Clone CloneThm Exit Exec ExecMem ExecPages ExecLoad.
From stdpp Require Import base gmap sets fin_sets numbers strings list.
Local Open Scope Z_scope.

Section tail.
Context (kpt D FP PT d a t : Z).
Notation pte := (pte kpt).
Notation upd_pte := (upd_pte kpt).
Notation vm_wf := (vm_wf kpt).
Notation slot_maps := (slot_maps kpt).
Notation sys_ok := (sys_ok kpt).
Notation in_use := (in_use kpt).
Notation base := (base kpt D FP PT d a t).
Notation grow := (grow kpt PT).
Notation only := (only kpt).

Lemma base_only T s u : base s -> only T s u ->
  (forall m, T m -> m <> kpt / 4096 /\ m <> D / 4096 /\ m <> FP / 4096 /\ m <> PT / 4096) -> base u.
Proof.
  intros Hb [Hv Hf Hr] HT. pose proof Hb as [[Hv0 Hp Hk] Hd Ha Ht Hud Hua Hut Hdir Hdis Hsl].
  destruct (base_aligned _ _ _ _ _ _ _ s Hb) as (HD & _ & _). destruct (vm_kpt kpt s (vw_ok _ _ Hv0)) as [Hka _].
  assert (forall i, 0 <= i < 1024 -> pte u i = pte s i) as Hpte.
  { intros i Hi. apply Hr. rewrite frame_word by done. intros Hm%HT. tauto. }
  assert (forall i f, slot_maps s i f -> slot_maps u i f) as Hsm.
  { intros i f (Hi & H). split; [done|]. by rewrite Hpte. }
  split; try by apply Hsm.
  - split; [done|by rewrite Hf|by rewrite Hf].
  - unfold Clone.in_use in *. by rewrite Hf.
  - unfold Clone.in_use in *. by rewrite Hf.
  - unfold Clone.in_use in *. by rewrite Hf.
  - rewrite Hr; [done|]. rewrite frame_word by (done || lia). intros Hm%HT. tauto.
  - done.
  - eapply at_least_mono; [exact Hsl|]. intros x [Hx H0]. split; [done|]. by rewrite Hpte.
Qed.

(** Releasing frames that are not those of the loader keeps its state. *)
Lemma base_freed (P : Z -> Prop) s p : base s -> freed P (frames s) p ->
  (forall m, P m -> m <> kpt / 4096 /\ m <> D / 4096 /\ m <> FP / 4096 /\ m <> PT / 4096) -> base (set_frames p s).
Proof.
  intros Hb Hf HP. pose proof Hb as [[Hv Hp Hk] Hd Ha Ht Hud Hua Hut Hdir Hdis Hsl].
  destruct (base_aligned _ _ _ _ _ _ _ s Hb) as (_ & _ & _ & H1 & H2 & H3). destruct (vm_kpt kpt s (vw_ok _ _ Hv)) as [_ H4].
  assert (forall x, 0 <= x -> is_free (frames s) (x / 4096) = false -> ~ P (x / 4096) -> is_free p (x / 4096) = false) as Hkeep.
  { intros x H0 Hx HnP. destruct (is_free p (x / 4096)) eqn:E; [|done].
    apply (fr_free _ _ _ Hf) in E as [E|E]; [congruence|done|apply Z.div_pos; lia]. }
  assert (forall x, x = kpt \/ x = D \/ x = FP \/ x = PT -> ~ P (x / 4096)) as Hno.
  { intros x Hx HPx%HP. destruct Hx as [-> | [-> | [-> | ->]]]; tauto. }
  assert (forall x, in_use s x -> 0 <= x -> x = D \/ x = FP \/ x = PT -> in_use (set_frames p s) x) as Huse.
  { intros x [Hx Hne] H0 Hor. split; [|done]. apply Hkeep; [done|done|]. apply Hno. tauto. }
  split; try done; [split; [by apply frames_vm|apply Hf|apply Hkeep; [lia|done|apply Hno; tauto]]|..]; apply Huse; tauto || done.
Qed.
(** ** Video memory and stack *)

Lemma video_entry i : 0 <= i < 16 -> Z.lor (Z.lor 0xA0000 (Z.shiftl i 12)) 7 = 0xA0000 + 4096 * i + 7.
Proof.
  intros Hr. assert (Forall (fun i => Z.lor (Z.lor 0xA0000 (Z.shiftl i 12)) 7 = 0xA0000 + 4096 * i + 7) (seqZ 0 16)) as H.
  { repeat constructor. }
  rewrite Forall_forall in H. apply H, elem_of_seqZ. lia.
Qed.

Lemma video_ok s : base s ->
  exists u, mloop 17 (video_body kpt (kernelstart + 4096 * t)) 0 s = Ok (tt, u) /\
    grow (fun p => 0x200 <= p < 0x210) s u /\ frames u = frames s /\
    forall p, 0x200 <= p < 0x210 -> rd (pmem u) (PT + 4 * p) = 0xA0000 + 4096 * (p - 0x200) + 7.
Proof.
  intros Hb.
  assert (wp (mloop 17 (video_body kpt (kernelstart + 4096 * t)) 0) (fun _ u =>
    grow (fun p => 0x200 <= p < 0x210) s u /\ frames u = frames s /\
    forall p, 0x200 <= p < 0x210 -> rd (pmem u) (PT + 4 * p) = 0xA0000 + 4096 * (p - 0x200) + 7) s) as Hwp.
  { apply (wp_mloop _ (fun i u => 0 <= i <= 16 /\ grow (fun p => 0x200 <= p < 0x200 + i) s u /\ frames u = frames s /\
      forall p, 0x200 <= p < 0x200 + i -> rd (pmem u) (PT + 4 * p) = 0xA0000 + 4096 * (p - 0x200) + 7) _ (fun i _ => Z.to_nat (16 - i))).
    - intros i u (Hr & Hg & Ef & Hv). unfold video_body. zcase; [|apply wp_ret; by assert (i = 16) as -> by lia].
      pose proof (base_grow _ _ _ _ _ _ _ _ _ _ Hb Hg) as Hbu. rewrite video_entry by lia.
      destruct (entry_only kpt D FP PT d a t u (0x200 + i) (0xA0000 + 4096 * i + 7) Hbu) as [E Hg']; [lia|lia|].
      apply wp_bind, wp_Ok. eexists _, _. split; [exact E|]. apply wp_ret. split; [|lia]. split; [lia|]. split; [|split; [done|]].
      + eapply grow_iff; [apply (grow_trans _ _ _ _ _ _ _ _ _ _ _ _ Hb Hg Hg')|]; cbn beta; intros; lia.
      + intros p Hp. cbn [poke pmem set_pmem]. rewrite rd_wr. zcase.
        * assert (p = 0x200 + i) as -> by lia. lia.
        * apply Hv. lia.
    - split; [lia|]. split; [|split; [done|intros; lia]]. eapply grow_iff; [apply grow_refl, Hb|]. intros p. split; [done|lia].
    - lia. }
  apply wp_Ok in Hwp as ([] & u & E & H). by exists u.
Qed.

(** The last [i] pages are fresh frames, all different. *)
Record stack_to (s : mmu) (n : nat) (i : Z) (u : mmu) : Prop := mkStack {
  st_grow : grow (fun p => 1024 - i <= p < 1024) s u;
  st_frame : forall p, 1024 - i <= p < 1024 -> exists f, 0 <= f < 2 ^ 20 /\ rd (pmem u) (PT + 4 * p) = 4096 * f + 7 /\
    in_use u (4096 * f) /\ is_free (frames s) f = true;
  st_inj : forall p q, 1024 - i <= p < 1024 -> 1024 - i <= q < 1024 -> rd (pmem u) (PT + 4 * p) = rd (pmem u) (PT + 4 * q) -> p = q;
  st_left : at_least (frame_free u) (Z.to_nat (16 - i) + n)
}.

Lemma stack_step s n i u : base s -> 0 <= i < 16 -> stack_to s n i u ->
  wp (stack_body kpt (kernelstart + 4096 * t) i) (fun c u' => c = Continue (i + 1) /\ stack_to s n (i + 1) u') u.
Proof.
  intros Hb Hr [Hg Hf Hinj Hleft]. pose proof (base_grow _ _ _ _ _ _ _ _ _ _ Hb Hg) as Hbu.
  destruct (base_aligned _ _ _ _ _ _ _ s Hb) as (_ & _ & Hal & _ & _ & H0).
  destruct (take_frame kpt u (Z.to_nat (16 - (i + 1)) + n) (bs_sys _ _ _ _ _ _ _ _ Hbu)) as (f & p & Ea & Ht & Hs1);
    [eapply at_least_fewer; [exact Hleft|lia]|]. pose proof Ht as [Hfr Hff Hfk _ _].
  set (q := 1023 - i). assert (q = 1023 - i) as Hqi by done. set (u' := poke (PT + 4 * q) (4096 * f + 7) (set_frames p u)).
  destruct (bs_use_t _ _ _ _ _ _ _ _ Hbu) as [HPu HPk]. pose proof (frame_word PT q Hal ltac:(lia)) as EPq.
  destruct (frame_page f) as [Hfal Hfd].
  assert (rd (pmem u') (PT + 4 * q) = 4096 * f + 7) as Eq by (unfold u'; cbn [poke pmem set_pmem]; by rewrite rd_wr, Z.eqb_refl).
  destruct (fresh_page kpt D FP PT d a t u u' (Z.to_nat (16 - (i + 1)) + n) f p q Hbu) as (Hg' & Huse & Hleft'); [lia|done| |done|done| |].
  { apply poke_vm; [apply Hs1|by rewrite EPq|lia]. }
  { intros pa _ Hne. unfold u'. cbn [poke pmem set_pmem]. by rewrite rd_wr, (proj2 (Z.eqb_neq _ _)). }
  assert (forall x, 1024 - i <= x < 1024 -> rd (pmem u') (PT + 4 * x) = rd (pmem u) (PT + 4 * x)) as Hold.
  { intros x Hx. unfold u'. cbn [poke pmem set_pmem set_frames]. rewrite rd_wr, (proj2 (Z.eqb_neq _ _)); [done|lia]. }
  assert (forall x, 1024 - i <= x < 1024 -> rd (pmem u') (PT + 4 * x) <> 4096 * f + 7) as Hnew.
  { intros x Hx E. rewrite Hold in E by done. destruct (Hf x Hx) as (g & _ & Eg & [Hgu _] & _). assert (g = f) as -> by lia.
    rewrite Hfd in Hgu. congruence. }
  apply wp_Ok. exists (Continue (i + 1)), u'. split; [|split; [done|]].
  - unfold stack_body. rewrite (proj2 (Z.ltb_lt i 16)) by lia. erewrite bind_Ok_eq by exact Ea. rewrite lor_flags by (done || lia).
    erewrite bind_Ok_eq by (apply (write_slot kpt (set_frames p u) t PT q); [apply Hs1|apply (bs_t _ _ _ _ _ _ _ _ Hbu)|done|lia]).
    fold u'. unfold invalidate_page. rewrite (proj2 (Z.leb_gt kernelstart _)); [done|]. rewrite Z.shiftl_mul_pow2 by lia.
    unfold kernelstart. lia.
  - split.
    + eapply grow_iff; [apply (grow_trans _ _ _ _ _ _ _ _ _ _ _ _ Hb Hg Hg')|]; cbn beta; intros; lia.
    + intros x Hx. destruct (decide (x = q)) as [->|Hne].
      * exists f. split; [lia|]. split; [done|]. split; [done|]. by apply (gr_free _ _ _ _ _ Hg); [lia|].
      * destruct (Hf x ltac:(lia)) as (g & Hgr & Eg & Hgu & Hgf). exists g. rewrite Hold by lia.
        assert (in_use u' (4096 * g)) as Hgu' by (eapply grow_use; [exact Hg'|lia|done]). by split; [lia|].
    + intros x y Hx Hy E. destruct (decide (x = q)) as [->|], (decide (y = q)) as [->|]; [done| | |].
      * rewrite Eq in E. destruct (Hnew y); [lia|done].
      * rewrite Eq in E. destruct (Hnew x); [lia|done].
      * rewrite !Hold in E by lia. apply Hinj; [lia|lia|done].
    + done.
Qed.

Lemma stack_ok s n : base s -> at_least (frame_free s) (16 + n) ->
  exists u, mloop 17 (stack_body kpt (kernelstart + 4096 * t)) 0 s = Ok (tt, u) /\ stack_to s n 16 u.
Proof.
  intros Hb Hn.
  assert (wp (mloop 17 (stack_body kpt (kernelstart + 4096 * t)) 0) (fun _ u => stack_to s n 16 u) s) as Hwp.
  { apply (wp_mloop _ (fun i u => 0 <= i <= 16 /\ stack_to s n i u) _ (fun i _ => Z.to_nat (16 - i))); [| |lia].
    - intros i u [Hr Hs]. destruct (Z.ltb_spec i 16).
      + eapply wp_mono; [apply stack_step; [done|lia|exact Hs]|]. intros c u' [-> Hs']. split; [|lia]. by split; [lia|].
      + unfold stack_body. rewrite (proj2 (Z.ltb_ge i 16)) by lia. apply wp_ret. by assert (i = 16) as -> by lia.
    - split; [lia|]. split; try done; try (intros; lia).
      eapply grow_iff; [apply grow_refl, Hb|]. intros p. split; [done|lia]. }
  apply wp_Ok in Hwp as ([] & u & E & H). by exists u.
Qed.

(** ** The stack *)

Section stack.
Context (s : mmu) (sf : Z -> Z).

(** The frames of the 16 pages of the stack. *)
Definition stack_frame (m : Z) : Prop := exists p, 1008 <= p < 1024 /\ m = sf p.

Context (Hvm : vm_wf s) (HD : D mod 4096 = 0) (HP : PT mod 4096 = 0) (Hdir : rd (pmem s) (D + 4 * 0) = PT + 7).
Context (Hentry : forall p, 1008 <= p < 1024 -> rd (pmem s) (PT + 4 * p) = 4096 * sf p + 7).
Context (Hapart : forall m, stack_frame m -> m <> kpt / 4096 /\ m <> D / 4096 /\ m <> PT / 4096).

Lemma stack_page va : 0x3F0000 <= va < 0x400000 -> 1008 <= va / 4096 < 1024.
Proof. intros H. split; [apply Z.div_le_lower_bound; lia|apply Z.div_lt_upper_bound; lia]. Qed.

Lemma stack_resolve w va : only stack_frame s w -> 0x3F0000 <= va < 0x400000 ->
  resolve (pmem w) D (u32 va) = Some (4096 * sf (va / 4096) + va mod 4096).
Proof using Hvm HD HP Hdir Hentry Hapart.
  intros [_ _ Hr] Hva. pose proof (stack_page va Hva) as Hp.
  apply (resolve_user D PT); [done|lia| |].
  - rewrite Hr; [done|]. rewrite frame_word by (done || lia). intros Hm%Hapart. tauto.
  - rewrite Hr; [by apply Hentry|]. rewrite frame_word by (done || lia). intros Hm%Hapart. tauto.
Qed.

Lemma stack_addr va : 0x3F0000 <= va < 0x400000 ->
  (4096 * sf (va / 4096) + va mod 4096) / 4096 = sf (va / 4096) /\ stack_frame (sf (va / 4096)).
Proof.
  intros Hva. destruct (frame_page (sf (va / 4096))) as [Hal Hd]. rewrite frame_byte; [|done|apply Z.mod_pos_bound; lia].
  split; [done|]. exists (va / 4096). split; [by apply stack_page|done].
Qed.

(** A word of the stack is written. *)
Lemma stack_write w va v : only stack_frame s w -> 0x3F0000 <= va < 0x400000 -> 0 <= v < 2 ^ 32 ->
  uwrite kpt D va v w = Ok (tt, poke (4096 * sf (va / 4096) + va mod 4096) v w) /\
  only stack_frame s (poke (4096 * sf (va / 4096) + va mod 4096) v w).
Proof using Hvm HD HP Hdir Hentry Hapart.
  intros Hw Hva Hv. destruct (stack_addr va Hva) as [Ea Hsf]. destruct (Hapart _ Hsf) as [Hne _]. split.
  - apply uwrite_ok; [apply Hw|by apply stack_resolve|by rewrite Ea].
  - apply only_poke; [done|by rewrite Ea|by rewrite Ea|done].
Qed.

Lemma clear_stack_ok :
  exists u, mloop (Z.to_nat 0x4001) (clear_stack_body kpt D) 0 s = Ok (tt, u) /\ only stack_frame s u /\
    forall p k, 1008 <= p < 1024 -> 0 <= k < 1024 -> rd (pmem u) (4096 * sf p + 4 * k) = 0.
Proof using Hvm HD HP Hdir Hentry Hapart.
  assert (wp (mloop (Z.to_nat 0x4001) (clear_stack_body kpt D) 0) (fun _ u => only stack_frame s u /\
    forall x, 0 <= x < 0x4000 -> rd (pmem u) (4096 * sf (1008 + x / 1024) + 4 * (x mod 1024)) = 0) s) as Hwp.
  { apply (wp_mloop _ (fun x u => 0 <= x <= 0x4000 /\ only stack_frame s u /\
      forall y, 0 <= y < x -> rd (pmem u) (4096 * sf (1008 + y / 1024) + 4 * (y mod 1024)) = 0) _ (fun x _ => Z.to_nat (0x4000 - x))).
    - intros x u (Hx & Hu & Hz). unfold clear_stack_body. zcase; [|apply wp_ret; by assert (x = 0x4000) as -> by lia].
      destruct (stack_write u (0x3F0000 + 4 * x) 0 Hu ltac:(lia) ltac:(lia)) as [E Hu'].
      apply wp_bind, wp_Ok. eexists _, _. split; [exact E|]. apply wp_ret. split; [|lia]. split; [lia|]. split; [done|].
      assert (4096 * sf ((0x3F0000 + 4 * x) / 4096) + (0x3F0000 + 4 * x) mod 4096 = 4096 * sf (1008 + x / 1024) + 4 * (x mod 1024)) as ->.
      { pose proof (Z.div_mod x 1024 ltac:(lia)). pose proof (Z.mod_pos_bound x 1024 ltac:(lia)).
        assert ((0x3F0000 + 4 * x) / 4096 = 1008 + x / 1024) as -> by (symmetry; apply (Z.div_unique_pos _ _ _ (4 * (x mod 1024))); lia).
        f_equal. symmetry. apply (Z.mod_unique_pos _ _ (1008 + x / 1024)); lia. }
      intros y Hy. cbn [poke pmem set_pmem]. rewrite rd_wr. zcase; [done|]. apply Hz.
      destruct (decide (y = x)) as [->|]; [done|lia].
    - split; [lia|]. split; [|intros; lia]. by split.
    - lia. }
  apply wp_Ok in Hwp as ([] & u & E & Hu & Hz). exists u. split; [exact E|]. split; [done|].
  intros p k Hp Hk. specialize (Hz (1024 * (p - 1008) + k) ltac:(lia)).
  rewrite <- (Z.div_unique_pos (1024 * (p - 1008) + k) 1024 (p - 1008) k) in Hz by lia.
  rewrite <- (Z.mod_unique_pos (1024 * (p - 1008) + k) 1024 (p - 1008) k) in Hz by lia.
  by replace (1008 + (p - 1008)) with p in Hz by lia.
Qed.

(** What the program finds at the top of its stack: the arguments, and below them [argc],
    [argv] and the vector. *)
Record arguments (args : list Z) (m : gmap Z Z) (F : Z) : Prop := mkArguments {
  ar_bytes : forall i b, args !! i = Some b -> rdb m (F + 4016 + Z.of_nat i) = b;
  ar_argv1 : rd m (F + 4012) = 0;
  ar_argv0 : rd m (F + 4008) = 0x400000 - 80;
  ar_argv : rd m (F + 4004) = 0x400000 - 88;
  ar_argc : rd m (F + 4000) = 1;
  ar_return : rd m (F + 3996) = 0
}.

Lemma rdb_poke m q v F c k : F mod 4096 = 0 -> q = F + 4 * c -> ~ (4 * c <= k < 4 * c + 4) ->
  rdb (wr q v m) (F + k) = rdb m (F + k).
Proof.
  intros HF -> Hk. apply rdb_same. rewrite rd_wr, (proj2 (Z.eqb_neq _ _)); [done|].
  assert (F mod 4 = 0) by (pose proof (Z.div_mod F 4096 ltac:(lia)); Z.to_euclidean_division_equations; lia).
  intros E. apply Hk. Z.to_euclidean_division_equations. lia.
Qed.

Lemma push_arguments_ok args : length args = 80%nat -> Forall (fun b => 0 <= b < 256) args ->
  exists u, push_arguments kpt D args s = Ok (tt, u) /\ only (eq (sf 1023)) s u /\
    arguments args (pmem u) (4096 * sf 1023) /\
    forall k, 0 <= k < 3996 -> rdb (pmem u) (4096 * sf 1023 + k) = rdb (pmem s) (4096 * sf 1023 + k).
Proof using Hvm HD HP Hdir Hentry Hapart.
  intros Hlen Hargs. set (F := 4096 * sf 1023). destruct (frame_page (sf 1023)) as [HF HFd]. fold F in HF, HFd.
  assert (stack_frame (sf 1023)) as Hsf by (exists 1023; split; [lia|done]). destruct (Hapart _ Hsf) as [Hne _].
  assert (forall w, only (eq (sf 1023)) s w -> only stack_frame s w) as Hweak.
  { intros w [H1 H2 H3]. split; [done|done|]. intros pa Hpa. apply H3. intros E. apply Hpa. by rewrite <- E. }
  assert (forall k, 0 <= k < 4096 -> (0x3FF000 + k) / 4096 = 1023 /\ (0x3FF000 + k) mod 4096 = k) as Htop.
  { intros k Hk. split; symmetry; [apply (Z.div_unique_pos _ _ _ k)|apply (Z.mod_unique_pos _ _ 1023)]; lia. }
  assert (forall w k, only (eq (sf 1023)) s w -> 0 <= k < 4096 -> resolve (pmem w) D (u32 (0x3FF000 + k)) = Some (F + k)) as Hres.
  { intros w k Hw Hk. rewrite stack_resolve by (by apply Hweak || lia). destruct (Htop k Hk) as [-> ->]. done. }
  destruct (store_ok kpt D (eq (sf 1023)) s (fun i => F + 4016 + i) args Hargs ltac:(by intros ? <-) (0x400000 - 80) 0 s)
    as (w & Ew & Hw & Hin & Hout).
  { by split. }
  { intros w i Hw Hi. rewrite Hlen in Hi. replace (0x400000 - 80 + (i - 0)) with (0x3FF000 + (4016 + i)) by lia.
    rewrite Hres by (done || lia). f_equal. lia. }
  { intros i Hi. rewrite Hlen in Hi. replace (F + 4016 + i) with (F + (4016 + i)) by lia. rewrite frame_byte by (done || lia). by rewrite HFd. }
  { intros i k _ _ E. lia. }
  assert (forall w k v, only (eq (sf 1023)) s w -> 0 <= k < 4096 -> 0 <= v < 2 ^ 32 ->
    uwrite kpt D (0x3FF000 + k) v w = Ok (tt, poke (F + k) v w) /\ only (eq (sf 1023)) s (poke (F + k) v w)) as Hwr.
  { intros x k v Hx Hk Hv. assert ((F + k) / 4096 = sf 1023) as Epg by (rewrite frame_byte by done; done).
    split; [apply uwrite_ok; [apply Hx|by apply Hres|by rewrite Epg]|apply only_poke; [done|by rewrite Epg|by rewrite Epg|done]]. }
  destruct (Hwr w 4012 0 Hw ltac:(lia) ltac:(lia)) as [E1 Hw1]. set (w1 := poke (F + 4012) 0 w) in *.
  destruct (Hwr w1 4008 (0x400000 - 80) Hw1 ltac:(lia) ltac:(lia)) as [E2 Hw2]. set (w2 := poke (F + 4008) (0x400000 - 80) w1) in *.
  destruct (Hwr w2 4004 (0x400000 - 88) Hw2 ltac:(lia) ltac:(lia)) as [E3 Hw3]. set (w3 := poke (F + 4004) (0x400000 - 88) w2) in *.
  destruct (Hwr w3 4000 1 Hw3 ltac:(lia) ltac:(lia)) as [E4 Hw4]. set (w4 := poke (F + 4000) 1 w3) in *.
  destruct (Hwr w4 3996 0 Hw4 ltac:(lia) ltac:(lia)) as [E5 Hw5]. set (w5 := poke (F + 3996) 0 w4) in *.
  assert (forall k, ~ 3996 <= k < 4016 -> rdb (pmem w5) (F + k) = rdb (pmem w) (F + k)) as Hbytes.
  { intros k Hk. unfold w5, w4, w3, w2, w1, poke. cbn [pmem set_pmem].
    rewrite (rdb_poke _ (F + 3996) _ F 999), (rdb_poke _ (F + 4000) _ F 1000), (rdb_poke _ (F + 4004) _ F 1001),
      (rdb_poke _ (F + 4008) _ F 1002), (rdb_poke _ (F + 4012) _ F 1003) by (done || lia). done. }
  exists w5. split; [|split; [done|split]].
  - unfold push_arguments. erewrite bind_Ok_eq by exact Ew.
    change (0x400000 - 84) with (0x3FF000 + 4012). erewrite bind_Ok_eq by exact E1.
    change (0x400000 - 88) with (0x3FF000 + 4008) at 1. erewrite bind_Ok_eq by exact E2.
    change (0x400000 - 92) with (0x3FF000 + 4004). erewrite bind_Ok_eq by exact E3.
    change (0x400000 - 96) with (0x3FF000 + 4000). erewrite bind_Ok_eq by exact E4.
    change (0x400000 - 100) with (0x3FF000 + 3996). exact E5.
  - assert (forall i b, args !! i = Some b -> (i < 80)%nat) as Hlt by (intros i b Hib; rewrite <- Hlen; by eapply lookup_lt_Some).
    split; [|unfold w5, w4, w3, w2, w1, poke; cbn [pmem set_pmem]; rewrite !rd_wr; repeat (zcase; try lia); done..].
    intros i b Hib. pose proof (Hlt i b Hib). replace (F + 4016 + Z.of_nat i) with (F + (4016 + Z.of_nat i)) by lia.
    rewrite Hbytes by lia. replace (F + (4016 + Z.of_nat i)) with (F + 4016 + (0 + Z.of_nat i)) by lia. by apply Hin.
  - intros k Hk. rewrite Hbytes by lia. apply Hout. intros i Hi. lia.
Qed.
End stack.

Context (len : Z) (fr B : Z -> Z).
Notation file_view := (file_view kpt D FP PT len fr B).
Notation page_is := (page_is kpt D FP PT len fr).

Lemma page_only T fm s u p C f : base s -> only T s u -> 0 <= p < 1024 -> ~ T (PT / 4096) -> ~ T f ->
  page_is fm s p C f -> page_is fm u p C f.
Proof.
  intros Hb [Hv Hf Hr] Hp HP Hno [H1 H2 H3 H4 H5 H6]. destruct (base_aligned _ _ _ _ _ _ _ s Hb) as (_ & _ & Hal & _).
  destruct (frame_page f) as [Hfa Hfd]. split; try done.
  - rewrite Hr; [done|]. by rewrite frame_word.
  - unfold Clone.in_use in *. by rewrite Hf.
  - intros k Hk. rewrite <- (H6 k Hk). apply rdb_page; [done|done|]. intros j Hj. apply Hr. by rewrite frame_word, Hfd.
Qed.

(** ** Undoing the mappings of the loader *)

Lemma slot_not_self s i f : vm_wf s -> slot_maps s i f -> f / 4096 <> kpt / 4096 -> i <> KERN_PGT_SLOT.
Proof. intros Hs (_ & _ & Hf) Hne ->. apply Hne. rewrite <- Hf. by rewrite (vo_self _ _ (vw_ok _ _ Hs)). Qed.

Lemma flush_id s : vm_wf s -> flush_tlb_all s = Ok (tt, s).
Proof. intros Hs. unfold flush_tlb_all, modify, set_stale. rewrite <- (vw_stale _ _ Hs). by destruct s. Qed.

(** The words that change. *)
Definition closing (pa : Z) : bool :=
  (pa =? D + 4 * 1021) || (pa =? kpt + 4 * d) || (pa =? kpt + 4 * t) || (pa =? kpt + 4 * a).

Lemma close_ok s : base s ->
  exists u, (forall A (k : M mmu A), (vwrite kpt (entry (kernelstart + 4096 * d) 1021) 0 ;;!
      unmap_virtual_page kpt (kernelstart + 4096 * d) ;;! unmap_virtual_page kpt (kernelstart + 4096 * t) ;;!
      unmap_virtual_page kpt (kernelstart + 4096 * a) ;;! release_frame (Z.shiftr (FP + 3) 12) ;;! flush_tlb_all ;;! k) s = k u) /\
    vm_wf u /\ freed (fun m => m = FP / 4096) (frames s) (frames u) /\
    forall pa, rd (pmem u) pa = if closing pa then 0 else rd (pmem s) pa.
Proof.
  intros Hb. destruct (base_aligned _ _ _ _ _ _ _ s Hb) as (HD & HF & HP & HD0 & HF0 & HP0).
  pose proof Hb as [[Hv Hp Hk] Hd Ha Ht [_ Hud] [_ Hua] [_ Hut] _ _ _].
  pose proof (slot_not_self s d D Hv Hd Hud) as Hsd. pose proof (slot_not_self s a FP Hv Ha Hua) as Hsa.
  pose proof (slot_not_self s t PT Hv Ht Hut) as Hst. destruct Hd as (Hdr & Hd'), Ha as (Har & _), Ht as (Htr & _).
  assert ((D + 4 * 1021) / 4096 <> kpt / 4096) as HDk by (rewrite frame_word by (done || lia); done).
  set (s1 := poke (D + 4 * 1021) 0 s). assert (vm_wf s1) as Hv1 by (apply poke_vm; done || lia).
  set (s2 := upd_pte d 0 s1). assert (vm_wf s2) as Hv2 by (apply upd_wf; done || lia).
  set (s3 := upd_pte t 0 s2). assert (vm_wf s3) as Hv3 by (apply upd_wf; done || lia).
  set (s4 := upd_pte a 0 s3). assert (vm_wf s4) as Hv4 by (apply upd_wf; done || lia).
  destruct (slot_maps_aligned kpt s a FP Hv (bs_a _ _ _ _ _ _ _ _ Hb)) as [_ HFr].
  assert (Z.shiftr (FP + 3) 12 = FP / 4096) as EF.
  { rewrite Z.shiftr_div_pow2 by lia. apply frame_byte; [done|lia]. }
  destruct (release_frame_ok s4 (FP / 4096) Hp) as (p & Er & Hfr).
  { split; [apply Z.div_pos; lia|apply Z.div_lt_upper_bound; lia]. }
  assert (vm_wf (set_frames p s4)) as Hv5 by (by apply frames_vm).
  exists (set_frames p s4). split_and!; [|done|exact Hfr|].
  - intros A k. erewrite bind_Ok_eq by (apply (write_slot kpt s d D 1021); [done|apply Hb|done|lia]). fold s1.
    erewrite bind_Ok_eq by (by apply (unmap_slot kpt s1 d)). fold s2.
    erewrite bind_Ok_eq by (by apply (unmap_slot kpt s2 t)). fold s3.
    erewrite bind_Ok_eq by (by apply (unmap_slot kpt s3 a)). fold s4. rewrite EF.
    erewrite bind_Ok_eq by exact Er. by erewrite bind_Ok_eq by (by apply flush_id).
  - intros pa. unfold s4, s3, s2, s1, Virtual.upd_pte, poke, closing. cbn [pmem set_pmem set_frames]. rewrite !rd_wr.
    by destruct (pa =? kpt + 4 * a), (pa =? kpt + 4 * t), (pa =? kpt + 4 * d), (pa =? D + 4 * 1021).
Qed.

Lemma closing_other pa : D mod 4096 = 0 -> kpt mod 4096 = 0 -> 0 <= d < 1024 -> 0 <= t < 1024 -> 0 <= a < 1024 ->
  pa / 4096 <> D / 4096 -> pa / 4096 <> kpt / 4096 -> closing pa = false.
Proof.
  intros HD Hk Hd Ht Ha H1 H2. unfold closing.
  rewrite !(proj2 (Z.eqb_neq _ _)); [done|..]; intros ->; rewrite frame_word in * by (done || lia); done.
Qed.
End tail.
