(* ===== verification/ExecImage.v ===== *)
(** * The image of a program in memory

    [load_image] as a whole: from a state in which the file can be read to one in which
    the page table holds the segments, the video memory and the stack, and nothing else. *)

From Stdlib Require Import ZArith Lia.
From S2P Require Import Prelude Physical Virtual VirtualThm Clone CloneThm Exit Exec ExecMem ExecPages ExecLoad ExecTail.
From stdpp Require Import base gmap sets fin_sets numbers strings list.
Local Open Scope Z_scope.

Section image.
Context (kpt D FP PT d a t len : Z) (fr B : Z -> Z).
Notation pte := (pte kpt).
Notation vm_wf := (vm_wf kpt).
Notation sys_ok := (sys_ok kpt).
Notation in_use := (in_use kpt).
Notation base := (base kpt D FP PT d a t).
Notation grow := (grow kpt PT).
Notation file_view := (file_view kpt D FP PT len fr B).
Notation page_is := (page_is kpt D FP PT len fr).
Notation only := (only kpt).
Notation closing := (closing kpt D d a t).
Notation np := (file_pages len).
Notation cnt := (header_count B).

(** Page [p] of the new table, in frame [f], with the bytes [C]; the frame was free in [s]
    or is one of the file. *)
Record mapped (s u : mmu) (p f : Z) (C : Z -> Z) : Prop := mkMapped {
  ma_entry : rd (pmem u) (PT + 4 * p) = 4096 * f + 7;
  ma_range : 0 <= f < 2 ^ 20;
  ma_used : is_free (frames u) f = false;
  ma_new : new_frame len fr s f;
  ma_bytes : forall k, 0 <= k < 4096 -> rdb (pmem u) (4096 * f + k) = C k
}.

(** The new address space in [u], made from [s]. *)
Record image_loaded (s u : mmu) (args : list Z) : Prop := mkImageLoaded {
  il_sys : sys_ok u;
  il_own : is_free (frames u) (D / 4096) = false /\ is_free (frames u) (PT / 4096) = false;
  il_dir : forall i, 0 <= i < 1024 -> rd (pmem u) (D + 4 * i) = if i =? 1021 then 0 else rd (pmem s) (D + 4 * i);
  il_kpt : forall i, 0 <= i < 1024 -> pte u i = if (i =? d) || (i =? t) || (i =? a) then 0 else pte s i;
  il_segment : forall k p, 0 <= k < cnt -> in_segment B k p -> exists f, mapped s u p f (seg_byte B (header B k) p);
  il_video : forall p, 0x200 <= p < 0x210 -> rd (pmem u) (PT + 4 * p) = 0xA0000 + 4096 * (p - 0x200) + 7;
  il_stack : forall p, 1008 <= p < 1023 -> exists f, mapped s u p f (fun _ => 0);
  il_top : exists f C, mapped s u 1023 f C /\ (forall k, 0 <= k < 3996 -> C k = 0) /\ arguments args (pmem u) (4096 * f);
  il_rest : forall p, 0 <= p < 1008 -> ~ in_first B cnt p -> ~ 0x200 <= p < 0x210 -> rd (pmem u) (PT + 4 * p) = rd (pmem s) (PT + 4 * p);
  il_mem : forall pa, 0 <= pa -> is_free (frames s) (pa / 4096) = false ->
    ~ (pa / 4096 = kpt / 4096 \/ pa / 4096 = D / 4096 \/ pa / 4096 = FP / 4096 \/ pa / 4096 = PT / 4096) ->
    (forall k, 0 <= k < np -> pa / 4096 <> fr k) -> rd (pmem u) pa = rd (pmem s) pa /\ is_free (frames u) (pa / 4096) = false;
  il_free : forall n, 0 <= n -> is_free (frames u) n = false ->
    (is_free (frames s) n = false /\ n <> FP / 4096 /\ forall k, 0 <= k < np -> n <> fr k) \/
    exists p, 0 <= p < 1024 /\ rd (pmem u) (PT + 4 * p) = 4096 * n + 7
}.

(** The states after the headers, after the release of unused frames, after the mapping of
    the video memory and of the stack, after the clearing of the stack, after the window
    is cleared, and at the end. *)
Section chain.
Context (s0 s1 s3 s4 s5 s6 s7 : mmu) (p2 : phys) (fm args : list Z).
Context (Hi : image_ok len B) (Hb0 : base s0) (Hv0 : file_view s0).
Context (H1 : loaded_to kpt D FP PT len fr B s0 16 cnt fm s1) (H2 : freed (unused fr fm np) (frames s1) p2).
Notation s2 := (set_frames p2 s1).
Context (H3 : grow (fun p => 0x200 <= p < 0x210) s2 s3) (F3 : frames s3 = p2).
Context (V3 : forall p, 0x200 <= p < 0x210 -> rd (pmem s3) (PT + 4 * p) = 0xA0000 + 4096 * (p - 0x200) + 7).
Context (H4 : stack_to kpt PT s3 0 16 s4).
Definition sf (p : Z) : Z := rd (pmem s4) (PT + 4 * p) / 4096.
Context (H5 : only (stack_frame sf) s4 s5).
Context (Z5 : forall p k, 1008 <= p < 1024 -> 0 <= k < 1024 -> rd (pmem s5) (4096 * sf p + 4 * k) = 0).
Context (V6 : vm_wf s6) (F6 : freed (fun m => m = FP / 4096) (frames s5) (frames s6)).
Context (M6 : forall pa, rd (pmem s6) pa = if closing pa then 0 else rd (pmem s5) pa).
Context (H7 : only (eq (sf 1023)) s6 s7) (A7 : arguments args (pmem s7) (4096 * sf 1023)).
Context (Z7 : forall k, 0 <= k < 3996 -> rdb (pmem s7) (4096 * sf 1023 + k) = rdb (pmem s6) (4096 * sf 1023 + k)).

Lemma np_range : 0 <= np <= 1024.
Proof using Hv0. apply few_pages, (fv_len _ _ _ _ _ _ _ _ Hv0). Qed.

Lemma chain_base1 : base s1.
Proof using Hb0 H1. eapply base_grow; [exact Hb0|apply H1]. Qed.

Lemma unused_apart m : unused fr fm np m -> m <> kpt / 4096 /\ m <> D / 4096 /\ m <> FP / 4096 /\ m <> PT / 4096.
Proof using Hv0.
  intros (k & Hk & _ & ->). destruct (fv_use _ _ _ _ _ _ _ _ Hv0 k Hk) as [_ Hne]. destruct (frame_page (fr k)) as [_ E].
  rewrite E in Hne. pose proof (fv_apart _ _ _ _ _ _ _ _ Hv0 k Hk). tauto.
Qed.

Lemma chain_base2 : base s2.
Proof using Hb0 Hv0 H1 H2. eapply base_freed; [apply chain_base1|exact H2|]. apply unused_apart. Qed.

Lemma chain_base3 : base s3.
Proof using Hb0 Hv0 H1 H2 H3. eapply base_grow; [apply chain_base2|exact H3]. Qed.

Lemma chain_base4 : base s4.
Proof using Hb0 Hv0 H1 H2 H3 H4. eapply base_grow; [apply chain_base3|apply H4]. Qed.

Lemma sf_entry p : 1008 <= p < 1024 -> rd (pmem s4) (PT + 4 * p) = 4096 * sf p + 7 /\ 0 <= sf p < 2 ^ 20 /\
  is_free (frames s4) (sf p) = false /\ is_free (frames s3) (sf p) = true /\ sf p <> kpt / 4096.
Proof using H4.
  intros Hp. destruct (st_frame _ _ _ _ _ _ H4 p ltac:(lia)) as (f & Hf & E & [Hu Hk] & Hfree). destruct (frame_page f) as [Hal Hd].
  assert (sf p = f) as ->; [|rewrite Hd in *; done]. unfold sf. rewrite E. rewrite frame_byte; [done|done|lia].
Qed.

Lemma sf_inj p q : 1008 <= p < 1024 -> 1008 <= q < 1024 -> sf p = sf q -> p = q.
Proof using H4.
  intros Hp Hq E. apply (st_inj _ _ _ _ _ _ H4); [lia|lia|]. destruct (sf_entry p Hp) as [-> _], (sf_entry q Hq) as [-> _]. by rewrite E.
Qed.

(** A frame in use before the stack is made is none of its frames. *)
Lemma used_not_stack f : is_free (frames s3) f = false -> ~ stack_frame sf f.
Proof using H4. intros Hf (p & Hp & ->). destruct (sf_entry p Hp) as (_ & _ & _ & Hfree & _). congruence. Qed.

Lemma sf_apart m : stack_frame sf m -> m <> kpt / 4096 /\ m <> D / 4096 /\ m <> FP / 4096 /\ m <> PT / 4096.
Proof using Hb0 Hv0 H1 H2 H3 H4.
  intros Hm. pose proof chain_base3 as Hb. pose proof (so_kpt _ _ (bs_sys _ _ _ _ _ _ _ _ Hb)) as Hk.
  destruct (bs_use_d _ _ _ _ _ _ _ _ Hb) as [Hd _], (bs_use_a _ _ _ _ _ _ _ _ Hb) as [Ha _], (bs_use_t _ _ _ _ _ _ _ _ Hb) as [Ht _].
  split_and!; intros ->; [by apply (used_not_stack _ Hk)|by apply (used_not_stack _ Hd)|by apply (used_not_stack _ Ha)|by apply (used_not_stack _ Ht)].
Qed.

Lemma chain_base5 : base s5.
Proof using Hb0 Hv0 H1 H2 H3 H4 H5. eapply base_only; [apply chain_base4|exact H5|apply sf_apart]. Qed.

(** A frame that is in use and is not released. *)
Lemma used_step n : 0 <= n -> is_free (frames s1) n = false -> ~ unused fr fm np n -> is_free (frames s3) n = false.
Proof using H2 F3.
  intros H0 Hf Hno. rewrite F3. destruct (is_free p2 n) eqn:E; [|done].
  apply (fr_free _ _ _ H2) in E as [E|E]; [congruence|done|done].
Qed.

Lemma used_end n : 0 <= n -> is_free (frames s3) n = false -> n <> FP / 4096 -> is_free (frames s7) n = false.
Proof using H4 H5 F6 H7.
  intros H0 Hf Hne. rewrite (on_frames_eq _ _ _ _ H7). destruct (is_free (frames s6) n) eqn:E; [|done].
  apply (fr_free _ _ _ F6) in E as [E|E]; [|done|done]. rewrite (on_frames_eq _ _ _ _ H5) in E.
  apply (gr_free _ _ _ _ _ (st_grow _ _ _ _ _ _ H4)) in E; [congruence|done].
Qed.

(** Words of a frame in use that the loader does not own, from the third state on. *)
Lemma word_end pa : 0 <= pa -> is_free (frames s3) (pa / 4096) = false -> pa / 4096 <> PT / 4096 -> closing pa = false ->
  rd (pmem s7) pa = rd (pmem s3) pa.
Proof using Hb0 Hv0 H1 H2 H3 H4 H5 M6 H7.
  intros H0 Hf Hne Hc. pose proof (used_not_stack _ Hf) as Hns. rewrite (on_rest _ _ _ _ H7), M6, Hc.
  - rewrite (on_rest _ _ _ _ H5) by done. eapply grow_word; [apply chain_base3|apply H4|done|done|done].
  - intros E. apply Hns. exists 1023. split; [lia|done].
Qed.

Lemma pt_closing p : 0 <= p < 1024 -> closing (PT + 4 * p) = false.
Proof using Hb0.
  intros Hp. destruct (base_aligned _ _ _ _ _ _ _ _ Hb0) as (HD & _ & HP & _). pose proof Hb0 as [Hs (Hd & _) (Ha & _) (Ht & _) _ _ [_ Hpk] _ Hdis _].
  destruct (sys_kpt kpt s0 Hs) as [Hk _]. apply closing_other; try done; rewrite frame_word by done; [|done]. intros E. symmetry in E. tauto.
Qed.

(** Entries of the page table below the stack. *)
Lemma entry_end p : 0 <= p < 1008 -> rd (pmem s7) (PT + 4 * p) = rd (pmem s3) (PT + 4 * p).
Proof using Hb0 Hv0 H1 H2 H3 H4 H5 M6 H7.
  intros Hp. pose proof chain_base3 as Hb3. destruct (base_aligned _ _ _ _ _ _ _ _ Hb3) as (_ & _ & HP & _ & _ & HP0).
  pose proof (frame_word PT p HP ltac:(lia)) as E. destruct (bs_use_t _ _ _ _ _ _ _ _ Hb3) as [Hu _].
  pose proof (used_not_stack _ Hu) as Hns. rewrite (on_rest _ _ _ _ H7), M6, pt_closing by (lia || (rewrite E; intros E'; apply Hns; exists 1023; split; [lia|done])).
  rewrite (on_rest _ _ _ _ H5) by (by rewrite E). apply (gr_mem _ _ _ _ _ (st_grow _ _ _ _ _ _ H4)); [lia|by rewrite E|].
  intros q Hq. lia.
Qed.

Lemma stack_entry_end p : 1008 <= p < 1024 -> rd (pmem s7) (PT + 4 * p) = 4096 * sf p + 7.
Proof using Hb0 Hv0 H1 H2 H3 H4 H5 M6 H7.
  intros Hp. pose proof chain_base3 as Hb3. destruct (base_aligned _ _ _ _ _ _ _ _ Hb3) as (_ & _ & HP & _ & _ & HP0).
  pose proof (frame_word PT p HP ltac:(lia)) as E. destruct (bs_use_t _ _ _ _ _ _ _ _ Hb3) as [Hu _].
  pose proof (used_not_stack _ Hu) as Hns. rewrite (on_rest _ _ _ _ H7), M6, pt_closing by (lia || (rewrite E; intros E'; apply Hns; exists 1023; split; [lia|done])).
  rewrite (on_rest _ _ _ _ H5) by (by rewrite E). by apply sf_entry.
Qed.

(** The pages of the segments. *)
Lemma page_kept k p : 0 <= k < cnt -> in_segment B k p -> exists f, page_is fm s3 p (seg_byte B (header B k) p) f /\ new_frame len fr s0 f.
Proof using Hi Hb0 Hv0 H1 H2 H3.
  intros Hk Hp. destruct (lt_pages _ _ _ _ _ _ _ _ _ _ _ _ H1 k p Hk Hp) as (f & Hf & Hnew).
  assert (in_first B cnt p) as Hfirst by (exists k; done). pose proof (im_place _ _ Hi p Hfirst) as Hpl.
  pose proof (gr_pages _ _ _ _ _ (lt_grow _ _ _ _ _ _ _ _ _ _ _ _ H1) p Hfirst) as Hpr.
  exists f. split; [|done]. eapply page_grow; [apply chain_base2|exact H3|done|cbn beta; lia|done|].
  destruct Hf as [P1 P2 [P3 P3'] P4 P5 P6]. destruct (frame_page f) as [_ E]. rewrite E in *.
  split; try done. unfold Clone.in_use. rewrite E. split; [|done]. cbn [frames set_frames].
  destruct (is_free p2 f) eqn:Ef; [|done]. apply (fr_free _ _ _ H2) in Ef as [Ef|(i & Hir & Hbit & ->)]; [congruence| |lia].
  rewrite (P5 i Hir eq_refl) in Hbit. done.
Qed.

Lemma segment_end k p : 0 <= k < cnt -> in_segment B k p -> exists f, mapped s0 s7 p f (seg_byte B (header B k) p).
Proof using Hi Hb0 Hv0 H1 H2 H3 H4 H5 F6 M6 H7.
  intros Hk Hp. destruct (page_kept k p Hk Hp) as (f & [P1 P2 [P3 P3'] P4 P5 P6] & Hnew). exists f.
  assert (in_first B cnt p) as Hfirst by (exists k; done). pose proof (im_place _ _ Hi p Hfirst) as Hpl.
  pose proof (gr_pages _ _ _ _ _ (lt_grow _ _ _ _ _ _ _ _ _ _ _ _ H1) p Hfirst) as Hpr.
  destruct (frame_page f) as [Hal E]. rewrite E in *. destruct P4 as (PD & PF & PP).
  destruct (base_aligned _ _ _ _ _ _ _ _ Hb0) as (HD & _). pose proof Hb0 as [Hs (Hd & _) (Ha & _) (Ht & _) _ _ _ _ _ _].
  destruct (sys_kpt kpt s0 Hs) as [Hka _]. split.
  - rewrite entry_end by lia. done.
  - done.
  - apply used_end; [lia|done|done].
  - done.
  - intros j Hj. rewrite <- P6 by done. apply rdb_page; [done|done|]. intros x Hx.
    apply word_end; rewrite ?frame_word, ?E by done; try done; [lia|].
    apply closing_other; try done; rewrite frame_word, E by done; done.
Qed.

(** Words of a frame in use from the beginning. *)
Lemma word_start pa : 0 <= pa -> is_free (frames s0) (pa / 4096) = false -> pa / 4096 <> PT / 4096 ->
  (forall k, 0 <= k < np -> pa / 4096 <> fr k) -> rd (pmem s3) pa = rd (pmem s0) pa /\ is_free (frames s3) (pa / 4096) = false.
Proof using Hb0 Hv0 H1 H2 H3 F3.
  intros H0 Hf Hne Hfr. assert (0 <= pa / 4096) as Hp0 by (apply Z.div_pos; lia).
  assert (is_free (frames s1) (pa / 4096) = false) as Hf1.
  { destruct (is_free (frames s1) (pa / 4096)) eqn:E; [|done].
    apply (gr_free _ _ _ _ _ (lt_grow _ _ _ _ _ _ _ _ _ _ _ _ H1)) in E; [congruence|done]. }
  assert (is_free (frames s3) (pa / 4096) = false) as Hf3.
  { apply used_step; [done|done|]. intros (k & Hk & _ & E). by apply (Hfr k). }
  split; [|done]. rewrite (grow_word _ _ _ _ _ _ _ _ _ _ _ chain_base2 H3); [|done|by cbn [frames set_frames]; rewrite <- F3|done].
  cbn [pmem set_frames]. by eapply grow_word; [exact Hb0|apply H1|..].
Qed.

Lemma chain_apart x : x = kpt \/ x = D -> forall k, 0 <= k < np -> x / 4096 <> fr k.
Proof using Hv0.
  intros Hx k Hk E. destruct (fv_use _ _ _ _ _ _ _ _ Hv0 k Hk) as [_ Hne]. destruct (frame_page (fr k)) as [_ Ed].
  rewrite Ed in Hne. destruct (fv_apart _ _ _ _ _ _ _ _ Hv0 k Hk) as (Hd & _). destruct Hx as [-> | ->]; congruence.
Qed.

Lemma dir_end i : 0 <= i < 1024 -> rd (pmem s7) (D + 4 * i) = if i =? 1021 then 0 else rd (pmem s0) (D + 4 * i).
Proof using Hb0 Hv0 H1 H2 H3 F3 H4 H5 M6 H7.
  intros Hir. destruct (base_aligned _ _ _ _ _ _ _ _ Hb0) as (HD & _ & _ & HD0 & _). pose proof (frame_word D i HD Hir) as E.
  pose proof Hb0 as [Hs (Hd & _) (Ha & _) (Ht & _) [Hdu Hdk] _ _ _ Hdis _]. destruct (sys_kpt kpt s0 Hs) as [Hka _].
  destruct (word_start (D + 4 * i)) as [E3 F3']; rewrite ?E; [lia|done|tauto|apply chain_apart; tauto|]. rewrite E in F3'.
  assert (closing (D + 4 * i) = (i =? 1021)) as Hc.
  { unfold ExecTail.closing. rewrite (proj2 (Z.eqb_neq _ (kpt + 4 * d))), (proj2 (Z.eqb_neq _ (kpt + 4 * t))), (proj2 (Z.eqb_neq _ (kpt + 4 * a)))
      by (intros E'; apply (f_equal (fun x => x / 4096)) in E'; rewrite E, frame_word in E' by done; done).
    rewrite !orb_false_r. destruct (Z.eqb_spec (D + 4 * i) (D + 4 * 1021)), (Z.eqb_spec i 1021); try done; lia. }
  destruct (Z.eqb_spec i 1021) as [->|Hne].
  - rewrite (on_rest _ _ _ _ H7), M6, Hc; [done|]. rewrite E. intros E'.
    apply (used_not_stack _ F3'). exists 1023. split; [lia|done].
  - rewrite <- E3. apply word_end; rewrite ?E; [lia|done|tauto|done].
Qed.

Lemma kpt_end i : 0 <= i < 1024 -> pte s7 i = if (i =? d) || (i =? t) || (i =? a) then 0 else pte s0 i.
Proof using Hb0 Hv0 H1 H2 H3 F3 H4 H5 M6 H7.
  intros Hir. pose proof Hb0 as [Hs (Hd & _) (Ha & _) (Ht & _) [Hdu Hdk] _ [_ Hpk] _ Hdis _]. destruct (sys_kpt kpt s0 Hs) as [Hka Hkr].
  destruct (base_aligned _ _ _ _ _ _ _ _ Hb0) as (HD & _).
  pose proof (frame_word kpt i Hka Hir) as E. unfold Virtual.pte.
  destruct (word_start (kpt + 4 * i)) as [E3 F3']; rewrite ?E; [lia|apply Hs|congruence|apply chain_apart; tauto|]. rewrite E in F3'.
  assert (closing (kpt + 4 * i) = (i =? d) || (i =? t) || (i =? a)) as Hc.
  { unfold ExecTail.closing. rewrite (proj2 (Z.eqb_neq _ (D + 4 * 1021)))
      by (intros E'; apply (f_equal (fun x => x / 4096)) in E'; rewrite E, frame_word in E' by (done || lia); done).
    cbn [orb]. assert (forall j, (kpt + 4 * i =? kpt + 4 * j) = (i =? j)) as Hj.
    { intros j. destruct (Z.eqb_spec (kpt + 4 * i) (kpt + 4 * j)), (Z.eqb_spec i j); try done; lia. }
    by rewrite !Hj. }
  rewrite <- E3, <- Hc. destruct (closing (kpt + 4 * i)) eqn:Ec.
  - rewrite (on_rest _ _ _ _ H7), M6, Ec; [done|]. rewrite E. intros E'.
    apply (used_not_stack _ F3'). exists 1023. split; [lia|done].
  - apply word_end; rewrite ?E; [lia|done|congruence|done].
Qed.

Lemma mem_end pa : 0 <= pa -> is_free (frames s0) (pa / 4096) = false ->
  ~ (pa / 4096 = kpt / 4096 \/ pa / 4096 = D / 4096 \/ pa / 4096 = FP / 4096 \/ pa / 4096 = PT / 4096) ->
  (forall k, 0 <= k < np -> pa / 4096 <> fr k) -> rd (pmem s7) pa = rd (pmem s0) pa /\ is_free (frames s7) (pa / 4096) = false.
Proof using Hb0 Hv0 H1 H2 H3 F3 H4 H5 F6 M6 H7.
  intros H0 Hf Hno Hfr. destruct (base_aligned _ _ _ _ _ _ _ _ Hb0) as (HD & _).
  pose proof Hb0 as [Hs (Hd & _) (Ha & _) (Ht & _) _ _ _ _ _ _]. destruct (sys_kpt kpt s0 Hs) as [Hka Hkr].
  destruct (word_start pa H0 Hf ltac:(tauto) Hfr) as [E3 F3']. rewrite <- E3. split.
  - apply word_end; [done|done|tauto|]. apply closing_other; tauto.
  - apply used_end; [apply Z.div_pos; lia|done|tauto].
Qed.

Lemma rest_end p : 0 <= p < 1008 -> ~ in_first B cnt p -> ~ 0x200 <= p < 0x210 ->
  rd (pmem s7) (PT + 4 * p) = rd (pmem s0) (PT + 4 * p).
Proof using Hb0 Hv0 H1 H2 H3 H4 H5 M6 H7.
  intros Hp H1' H2'. destruct (base_aligned _ _ _ _ _ _ _ _ Hb0) as (_ & _ & HP & _ & _ & HP0).
  pose proof (frame_word PT p HP ltac:(lia)) as E. rewrite entry_end by done.
  destruct (bs_use_t _ _ _ _ _ _ _ _ chain_base2) as [Hu2 _], (bs_use_t _ _ _ _ _ _ _ _ Hb0) as [Hu0 _].
  rewrite (gr_mem _ _ _ _ _ H3) by (rewrite ?E; done || lia || (intros q Hq; lia)). cbn [pmem set_frames].
  apply (gr_mem _ _ _ _ _ (lt_grow _ _ _ _ _ _ _ _ _ _ _ _ H1)); rewrite ?E; [lia|done|].
  intros q Hq E'. assert (q = p) as -> by lia. done.
Qed.

(** A frame that is free when the stack is made. *)
Lemma sf_new n : 0 <= n -> is_free (frames s3) n = true -> new_frame len fr s0 n.
Proof using H1 H2 F3.
  intros H0 Hf. rewrite F3 in Hf. apply (fr_free _ _ _ H2) in Hf as [Hf|(k & Hk & _ & ->)]; [|right; by exists k|done].
  left. by apply (gr_free _ _ _ _ _ (lt_grow _ _ _ _ _ _ _ _ _ _ _ _ H1)).
Qed.

(** The frames of the stack at the end. *)
Lemma stack_end p : 1008 <= p < 1024 -> mapped s0 s7 p (sf p) (fun k => rdb (pmem s7) (4096 * sf p + k)).
Proof using Hb0 Hv0 H1 H2 H3 F3 H4 H5 F6 M6 H7.
  intros Hp. destruct (sf_entry p Hp) as (_ & Hr & Hu & Hfree & _).
  split; [by apply stack_entry_end|done| |by apply sf_new; [lia|]|done].
  rewrite (on_frames_eq _ _ _ _ H7). destruct (is_free (frames s6) (sf p)) eqn:E; [|done].
  apply (fr_free _ _ _ F6) in E as [E|E]; [| |lia].
  - rewrite (on_frames_eq _ _ _ _ H5) in E. congruence.
  - exfalso. destruct (sf_apart (sf p)) as (_ & _ & Hne & _); [by exists p|done].
Qed.

Lemma stack_zero p k : 1008 <= p < 1024 -> 0 <= k < 4096 -> rdb (pmem s6) (4096 * sf p + k) = 0.
Proof using Hb0 Hv0 H1 H2 H3 H4 Z5 M6.
  intros Hp Hk. destruct (sf_apart (sf p)) as (Hk' & Hd' & _); [by exists p|]. destruct (frame_page (sf p)) as [Hal E].
  destruct (base_aligned _ _ _ _ _ _ _ _ Hb0) as (HD & _).
  pose proof Hb0 as [Hs (Hd & _) (Ha & _) (Ht & _) _ _ _ _ _ _]. destruct (sys_kpt kpt s0 Hs) as [Hka Hkr].
  apply rdb_zero; [done|done|]. intros j Hj. rewrite M6, closing_other; try done; [by apply Z5|..]; by rewrite frame_word, E.
Qed.

Lemma free_end n : 0 <= n -> is_free (frames s7) n = false ->
  (is_free (frames s0) n = false /\ n <> FP / 4096 /\ forall k, 0 <= k < np -> n <> fr k) \/
  exists p, 0 <= p < 1024 /\ rd (pmem s7) (PT + 4 * p) = 4096 * n + 7.
Proof using Hi Hb0 Hv0 H1 H2 H3 F3 H4 H5 F6 M6 H7.
  intros H0 Hf. rewrite (on_frames_eq _ _ _ _ H7) in Hf.
  assert (is_free (frames s4) n = false /\ n <> FP / 4096) as [Hf4 HnF].
  { rewrite <- (on_frames_eq _ _ _ _ H5). pose proof (fr_free _ _ _ F6 n H0) as Hiff.
    destruct (is_free (frames s5) n); [|split; [done|]; intros E]; rewrite (proj2 Hiff) in Hf; tauto || done. }
  assert (forall p, in_first B cnt p -> 0 <= p < 1024 /\ rd (pmem s7) (PT + 4 * p) = rd (pmem s1) (PT + 4 * p)) as Hin.
  { intros p Hp. pose proof (im_place _ _ Hi p Hp) as Hpl. pose proof (gr_pages _ _ _ _ _ (lt_grow _ _ _ _ _ _ _ _ _ _ _ _ H1) p Hp) as Hpr.
    destruct (base_aligned _ _ _ _ _ _ _ _ Hb0) as (_ & _ & HP & _ & _ & HP0). split; [done|]. rewrite entry_end by lia.
    destruct (bs_use_t _ _ _ _ _ _ _ _ chain_base2) as [Hu2 _].
    rewrite (gr_mem _ _ _ _ _ H3); [done|lia|by rewrite frame_word|]. intros q Hq. lia. }
  destruct (is_free (frames s3) n) eqn:Hf3.
  - right. destruct (gr_taken _ _ _ _ _ (st_grow _ _ _ _ _ _ H4) n H0 Hf3 Hf4) as (p & Hp & Ep). cbn beta in Hp.
    exists p. split; [lia|]. rewrite stack_entry_end by lia. by rewrite <- (proj1 (sf_entry p ltac:(lia))).
  - rewrite F3 in Hf3. pose proof (fr_free _ _ _ H2 n H0) as Hiff.
    assert (is_free (frames s1) n = false /\ ~ unused fr fm np n) as [Hf1 Hnu].
    { destruct (is_free (frames s1) n); [|split; [done|]; intros E]; rewrite (proj2 Hiff) in Hf3; tauto || done. }
    destruct (is_free (frames s0) n) eqn:Hf0.
    + right. destruct (gr_taken _ _ _ _ _ (lt_grow _ _ _ _ _ _ _ _ _ _ _ _ H1) n H0 Hf0 Hf1) as (p & Hp & Ep).
      destruct (Hin p Hp) as [Hpr E7]. exists p. by rewrite E7.
    + destruct (decide (Exists (fun k => n = fr k) (seqZ 0 np))) as [Hex|Hno].
      * right. apply Exists_exists in Hex as (k & Hk%elem_of_seqZ & ->).
        assert (bit fm k = true) as Hbit by (destruct (bit fm k) eqn:Eb; [done|]; destruct Hnu; exists k; split; [lia|done]).
        destruct (lt_mapped _ _ _ _ _ _ _ _ _ _ _ _ H1 k ltac:(lia) Hbit) as (p & Hp & Ep).
        destruct (Hin p Hp) as [Hpr E7]. exists p. by rewrite E7.
      * left. split; [done|]. split; [done|]. intros k Hk E. apply Hno, Exists_exists. exists k. split; [apply elem_of_seqZ; lia|done].
Qed.

Lemma chain_image : image_loaded s0 s7 args.
Proof using All.
  pose proof chain_base3 as Hb3. pose proof (bs_distinct _ _ _ _ _ _ _ _ Hb3) as Hdis.
  destruct (bs_use_d _ _ _ _ _ _ _ _ Hb3) as [Hud _], (bs_use_t _ _ _ _ _ _ _ _ Hb3) as [Hut _], (bs_use_a _ _ _ _ _ _ _ _ Hb3) as [_ Hak].
  destruct (base_aligned _ _ _ _ _ _ _ _ Hb3) as (_ & _ & _ & HD0 & _ & HP0). destruct (sys_kpt kpt s3 (bs_sys _ _ _ _ _ _ _ _ Hb3)) as [_ Hkr].
  split.
  - split; [apply H7|rewrite (on_frames_eq _ _ _ _ H7); apply F6|].
    apply used_end; [apply Z.div_pos; lia|apply (bs_sys _ _ _ _ _ _ _ _ Hb3)|congruence].
  - split; apply used_end; try done; try (apply Z.div_pos; lia); [tauto|]. intros E. symmetry in E. tauto.
  - apply dir_end.
  - apply kpt_end.
  - apply segment_end.
  - intros p Hp. rewrite entry_end by lia. by apply V3.
  - intros p Hp. exists (sf p). destruct (stack_end p ltac:(lia)) as [E1 E2 E3 E4 _]. split; try done.
    intros k Hk. rewrite <- (stack_zero p k) by lia. destruct (frame_page (sf p)) as [Hal E]. apply rdb_page; [done|done|].
    intros j Hj. apply (on_rest _ _ _ _ H7). rewrite frame_word, E by done. intros E'. apply sf_inj in E'; lia.
  - exists (sf 1023), (fun k => rdb (pmem s7) (4096 * sf 1023 + k)). split; [apply stack_end; lia|]. split; [|done].
    intros k Hk. rewrite Z7 by done. apply stack_zero; lia.
  - apply rest_end.
  - apply mem_end.
  - apply free_end.
Qed.
End chain.

Lemma pages_left_end : pages_left B cnt = 0%nat.
Proof. unfold pages_left. by rewrite Z.sub_diag. Qed.

Lemma load_image_ok s args : base s -> file_view s -> image_ok len B -> length args = 80%nat -> Forall (fun b => 0 <= b < 256) args ->
  at_least (frame_free s) (pages_left B 0 + 16) ->
  exists u, load_image kpt D (kernelstart + 4096 * d) (kernelstart + 4096 * t) (kernelstart + 4096 * a) (FP + 3) len args s =
      Ok (return_frame (entry_point B), u) /\ image_loaded s u args.
Proof.
  intros Hb Hv Hi Hlen Hargs Hn. pose proof (im_len _ _ Hi) as Hl.
  destruct (headers_ok kpt D FP PT d a t len fr B Hi s 16 Hb Hv Hn) as (fm & s1 & E1 & H1).
  pose proof (base_grow _ _ _ _ _ _ _ _ _ _ Hb (lt_grow _ _ _ _ _ _ _ _ _ _ _ _ H1)) as Hb1.
  pose proof (view_grow _ _ _ _ _ _ _ _ _ _ _ _ _ Hb Hv (lt_grow _ _ _ _ _ _ _ _ _ _ _ _ H1)) as Hv1.
  destruct (drop_frames_ok kpt D FP PT d a t len fr B s1 fm Hb1 Hv1 (lt_map _ _ _ _ _ _ _ _ _ _ _ _ H1)) as (p2 & E2 & H2).
  pose proof (chain_base2 s s1 p2 fm Hb Hv H1 H2) as Hb2.
  destruct (video_ok kpt D FP PT d a t (set_frames p2 s1) Hb2) as (s3 & E3 & H3 & F3 & V3).
  pose proof (base_grow _ _ _ _ _ _ _ _ _ _ Hb2 H3) as Hb3.
  destruct (stack_ok kpt D FP PT d a t s3 0 Hb3) as (s4 & E4 & H4).
  { pose proof (lt_left _ _ _ _ _ _ _ _ _ _ _ _ H1) as Hleft. rewrite pages_left_end in Hleft.
    eapply at_least_mono; [exact Hleft|]. intros x [Hx Hf]. unfold frame_free. rewrite F3. cbn [frames set_frames].
    rewrite (fr_limit _ _ _ H2). split; [done|]. apply (fr_free _ _ _ H2); [lia|by left]. }
  pose proof (base_grow _ _ _ _ _ _ _ _ _ _ Hb3 (st_grow _ _ _ _ _ _ H4)) as Hb4.
  pose proof (sf_apart s s1 s3 s4 p2 fm Hb Hv H1 H2 H3 H4) as Hap. pose proof (sf_entry s3 s4 H4) as Hsf.
  destruct (base_aligned _ _ _ _ _ _ _ _ Hb4) as (HD & HF & HP & _). pose proof (bs_dir _ _ _ _ _ _ _ _ Hb4) as Hdir4.
  assert (forall m, stack_frame (sf s4) m -> m <> kpt / 4096 /\ m <> D / 4096 /\ m <> PT / 4096) as Hap' by (intros m Hm%Hap; tauto).
  destruct (clear_stack_ok kpt D PT s4 (sf s4) (so_vm _ _ (bs_sys _ _ _ _ _ _ _ _ Hb4)) HD HP Hdir4 (fun p Hp => proj1 (Hsf p Hp)) Hap')
    as (s5 & E5 & H5 & Z5).
  pose proof (base_only _ _ _ _ _ _ _ _ _ _ Hb4 H5 Hap) as Hb5.
  destruct (close_ok kpt D FP PT d a t s5 Hb5) as (s6 & E6 & V6 & F6 & M6).
  assert (forall i, 0 <= i < 1024 -> rd (pmem s6) (PT + 4 * i) = rd (pmem s4) (PT + 4 * i)) as Hpt6.
  { intros i Hir. rewrite M6, (pt_closing s Hb) by done. apply (on_rest _ _ _ _ H5). rewrite frame_word by done. intros Hm%Hap. tauto. }
  assert (rd (pmem s6) (D + 4 * 0) = PT + 7) as Hdir6.
  { destruct (sys_kpt kpt s (bs_sys _ _ _ _ _ _ _ _ Hb)) as [Hka _]. pose proof Hb as [_ (Hdr & _) (Har & _) (Htr & _) [_ Hdk] _ _ _ _ _].
    rewrite M6. assert (closing (D + 4 * 0) = false) as ->; [|by apply (bs_dir _ _ _ _ _ _ _ _ Hb5)].
    unfold ExecTail.closing. rewrite (proj2 (Z.eqb_neq _ (D + 4 * 1021))) by lia.
    rewrite !(proj2 (Z.eqb_neq _ _)); [done|..]; intros E; apply Hdk; rewrite <- (frame_word D 0), E by (done || lia); by apply frame_word. }
  destruct (push_arguments_ok kpt D PT s6 (sf s4) V6 HD HP Hdir6) with (args := args) as (s7 & E7 & H7 & A7 & Z7); try done.
  { intros p Hp. rewrite Hpt6 by lia. by apply Hsf. }
  exists s7. split; [|by eapply (chain_image s s1 s3 s4 s5 s6 s7 p2 fm args)].
  unfold load_image.
  do 2 (erewrite bind_Ok_eq by (apply (read_word kpt D FP PT d a t len fr B); [done|done|lia|lia])).
  erewrite bind_Ok_eq by (apply (read_half kpt D FP PT d a t len fr B); [done|done|lia|lia]).
  fold (header_count B). replace (word_at B 28) with (header_offset B 0) by (unfold header_offset; lia).
  erewrite bind_Ok_eq by exact E1. erewrite bind_Ok_eq by exact E2. erewrite bind_Ok_eq by exact E3.
  erewrite bind_Ok_eq by exact E4. erewrite bind_Ok_eq by exact E5. rewrite E6. by erewrite bind_Ok_eq by exact E7.
Qed.
End image.
