(* ===== verification/ExecSpace.v ===== *)
(** * The address space that exec replaces

    [make_space] of [Exec]: the frames of the old address space are released and its
    directory entries cleared, a page table is allocated, and frames for the file are
    entered into the table that is mapped at 0xFF400000. *)

From Stdlib Require Import ZArith Lia.
From S2P Require Import Prelude Physical Virtual VirtualThm Clone CloneThm Exit Exec ExecMem ExecPages.
From stdpp Require Import base gmap sets fin_sets numbers strings list.
Local Open Scope Z_scope.

Section space.
Context (kpt D : Z).
Notation pte := (pte kpt).
Notation upd_pte := (upd_pte kpt).
Notation vm_wf := (vm_wf kpt).
Notation slot_maps := (slot_maps kpt).
Notation slot_free := (slot_free kpt).
Notation sys_ok := (sys_ok kpt).
Notation in_use := (in_use kpt).

(** Entry [i] of the directory. *)
Definition dir_entry (s : mmu) (i : Z) : Z := rd (pmem s) (D + 4 * i).

(** The frames of the first [n] tables and of their pages. *)
Definition old_frames (s : mmu) (n m : Z) : Prop :=
  exists i, 0 <= i < n /\ dir_entry s i <> 0 /\
    (m = dir_entry s i / 4096 \/ page_frames s (table_of s D i) i 1024 m).

(** The address space of the caller: its directory, tables and pages are in use and are
    its own. *)
Record own_space (s : mmu) : Prop := mkSpace {
  os_align : D mod 4096 = 0;
  os_range : 0 <= D < 2 ^ 32;
  os_dir : in_use s D;
  os_small : forall i, 0 <= i < 1019 -> dir_entry s i <> 0 -> pd_page_size (dir_entry s i) = false;
  os_inj : forall i k, 0 <= i < 1019 -> 0 <= k < 1019 -> dir_entry s i <> 0 -> dir_entry s k <> 0 ->
    table_of s D i / 4096 = table_of s D k / 4096 -> i = k;
  os_frames : forall m, old_frames s 1019 m -> is_free (frames s) m = false /\ m <> kpt / 4096 /\ m <> D / 4096
}.

Lemma table_frame s i : vm_wf s -> table_of s D i / 4096 = dir_entry s i / 4096 /\ table_of s D i mod 4096 = 0 /\ 0 <= table_of s D i < 2 ^ 32.
Proof.
  intros Hs. destruct (page_of_aligned (dir_entry s i)) as (H1 & H2 & _ & H4); [apply rd_range, (vo_words _ _ (vw_ok _ _ Hs))|].
  unfold table_of. fold (dir_entry s i). by split.
Qed.

(** ** One table *)

(** The first [j] pages of the table at [T] of entry [i]. *)
Record dropping_pages (T i : Z) (s : mmu) (j : Z) (u : mmu) : Prop := mkDropPages {
  dg_range : 0 <= j <= 1024;
  dg_vm : vm_wf u;
  dg_freed : freed (page_frames s T i j) (frames s) (frames u);
  dg_words : forall k, 0 <= k < 1024 -> rd (pmem u) (T + 4 * k) = if (k <? j) && negb (video i k) then 0 else rd (pmem s) (T + 4 * k);
  dg_rest : forall pa, pa / 4096 <> T / 4096 -> rd (pmem u) pa = rd (pmem s) pa
}.

Lemma drop_page_step s b T i j u : vm_wf s -> slot_maps s b T -> T / 4096 <> kpt / 4096 -> j < 1024 -> dropping_pages T i s j u ->
  wp (drop_page_body kpt i (kernelstart + 4096 * b) j) (fun c u' => c = Continue (j + 1) /\ dropping_pages T i s (j + 1) u') u.
Proof.
  intros Hs Hb HT Hj [Hr Hv Hf Hw Hrest]. destruct (slot_maps_aligned kpt s b T Hs Hb) as [Hal _].
  destruct (vm_kpt kpt s (vw_ok _ _ Hs)) as [Hka _].
  assert (slot_maps u b T) as Hbu.
  { destruct Hb as (Hbr & Hb). split; [done|]. unfold Virtual.pte in *. rewrite Hrest; [done|]. rewrite frame_word by done. congruence. }
  set (w := rd (pmem s) (T + 4 * j)).
  assert (0 <= w < 2 ^ 32) as Hwr by (apply rd_range, (vo_words _ _ (vw_ok _ _ Hs))).
  assert (rd (pmem u) (T + 4 * j) = w) as Ew by (rewrite Hw by lia; by rewrite Z.ltb_irrefl).
  pose proof (read_slot kpt u b T j Hv Hbu ltac:(lia)) as Er. rewrite Ew in Er.
  unfold drop_page_body. rewrite (proj2 (Z.ltb_lt j 1024)) by lia. rewrite video_cond.
  assert (forall u', vm_wf u' -> freed (fun m => w <> 0 /\ video i j = false /\ m = w / 4096) (frames u) (frames u') ->
    (forall pa, rd (pmem u') pa = if (pa =? T + 4 * j) && negb (video i j) then 0 else rd (pmem u) pa) ->
    dropping_pages T i s (j + 1) u') as Hnext.
  { intros u' Hv' Hf' Hm'. split; [lia|done| | |].
    - eapply freed_iff; [by eapply freed_trans|]. intros m _. apply page_frames_step; [done|lia].
    - intros k Hk. rewrite Hm'. destruct (Z.eqb_spec (T + 4 * k) (T + 4 * j)) as [E|E].
      + assert (k = j) as -> by lia. rewrite (proj2 (Z.ltb_lt j (j + 1))) by lia. cbn [andb]. destruct (video i j); cbn [negb]; [exact Ew|done].
      + cbn [andb]. rewrite Hw by done. destruct (Z.ltb_spec k j), (Z.ltb_spec k (j + 1)); try done; lia.
    - intros pa Hpa. rewrite Hm', (proj2 (Z.eqb_neq _ _)); [by apply Hrest|]. intros ->. by rewrite frame_word in Hpa by (done || lia). }
  assert (freed (fun m => False) (frames u) (frames u)) as Hnone by (apply freed_none, Hf).
  apply wp_bind, wp_Ok. eexists _, _. split; [exact Er|]. apply wp_bind.
  apply wp_when; [intros E0%negb_true_iff%Z.eqb_neq|intros E0%negb_false_iff%Z.eqb_eq];
    [apply wp_when; [intros Ev%negb_true_iff|intros Ev%negb_false_iff]|].
  - apply wp_bind, wp_Ok. eexists _, _. split; [exact Er|]. destruct (frame_index w Hwr) as [-> Hi].
    destruct (release_frame_ok u (w / 4096) (fr_wf _ _ _ Hf) Hi) as (p & E & Hp).
    apply wp_bind, wp_Ok. eexists _, _. split; [exact E|]. apply wp_Ok. eexists _, _.
    split; [apply (write_slot kpt (set_frames p u) b T j); [by apply frames_vm|done|done|lia]|]. apply wp_ret. split; [done|]. apply Hnext.
    + apply poke_vm; [by apply frames_vm| |lia]. by rewrite frame_word by (done || lia).
    + eapply freed_iff; [exact Hp|]. intros m _. tauto.
    + intros pa. cbn [poke pmem set_pmem set_frames]. rewrite rd_wr, Ev. cbn [negb]. by rewrite andb_true_r.
  - apply wp_ret. split; [done|]. apply Hnext; [done| |].
    + eapply freed_iff; [exact Hnone|]. intros m _. split; [done|]. intros (_ & ? & _). congruence.
    + intros pa. rewrite Ev. cbn [negb]. by rewrite andb_false_r.
  - apply wp_ret. split; [done|]. apply Hnext; [done| |].
    + eapply freed_iff; [exact Hnone|]. intros m _. split; [done|]. by intros (? & _).
    + intros pa. destruct (Z.eqb_spec pa (T + 4 * j)) as [->|]; [|done]. rewrite Ew, E0. by destruct (_ && _).
Qed.

Lemma drop_pages_ok s b T i : vm_wf s -> phys_wf (frames s) -> slot_maps s b T -> T / 4096 <> kpt / 4096 ->
  exists u, mloop 1025 (drop_page_body kpt i (kernelstart + 4096 * b)) 0 s = Ok (tt, u) /\ dropping_pages T i s 1024 u.
Proof.
  intros Hs Hf Hb HT.
  assert (wp (mloop 1025 (drop_page_body kpt i (kernelstart + 4096 * b)) 0) (fun _ u => dropping_pages T i s 1024 u) s) as Hwp.
  { apply (wp_mloop _ (fun j u => dropping_pages T i s j u) _ (fun j _ => Z.to_nat (1024 - j))); [| |lia].
    - intros j u Hj. pose proof (dg_range _ _ _ _ _ Hj). destruct (Z.ltb_spec j 1024).
      + eapply wp_mono; [by eapply drop_page_step|]. intros c u' [-> Hu']. split; [done|lia].
      + unfold drop_page_body. rewrite (proj2 (Z.ltb_ge j 1024)) by lia. apply wp_ret. by assert (j = 1024) as <- by lia.
    - split; [lia|done| | |done].
      + eapply freed_iff; [by apply freed_none|]. intros m _. split; [done|]. intros (k & ? & _). lia.
      + intros k Hk. by rewrite (proj2 (Z.ltb_ge k 0)) by lia. }
  apply wp_Ok in Hwp as ([] & u & E & H). by exists u.
Qed.

(** ** All tables *)

(** The first [i] entries are released. *)
Record dropping (s : mmu) (i : Z) (u : mmu) : Prop := mkDropping {
  dp_range : 0 <= i <= 1019;
  dp_vm : vm_wf u;
  dp_freed : freed (old_frames s i) (frames s) (frames u);
  dp_dir : forall k, 0 <= k < 1024 -> dir_entry u k = if k <? i then 0 else dir_entry s k;
  dp_rest : forall pa, pa / 4096 <> D / 4096 ->
    (forall k, 0 <= k < i -> dir_entry s k <> 0 -> pa / 4096 <> table_of s D k / 4096) -> rd (pmem u) pa = rd (pmem s) pa
}.

Lemma old_frames_step s i (P : Prop) m :
  (P <-> dir_entry s i <> 0 /\ (m = dir_entry s i / 4096 \/ page_frames s (table_of s D i) i 1024 m)) -> 0 <= i ->
  (old_frames s i m \/ P <-> old_frames s (i + 1) m).
Proof.
  intros HP Hi. rewrite HP. split.
  - intros [(k & Hk & Hrest)|Hrest]; [exists k|exists i]; (split; [lia|done]).
  - intros (k & Hk & Hrest). destruct (decide (k = i)) as [->|]; [by right|left]. exists k. split; [lia|done].
Qed.

Section drop.
Context (s : mmu) (d : Z).
Context (Hs : sys_ok s) (Hd : slot_maps s d D) (Hos : own_space s) (Hsl : at_least (slot_free s) 1).

Lemma table_apart i : 0 <= i < 1019 -> dir_entry s i <> 0 ->
  table_of s D i / 4096 <> kpt / 4096 /\ table_of s D i / 4096 <> D / 4096.
Proof using Hs Hos.
  intros Hi Hne. destruct (table_frame s i (so_vm _ _ Hs)) as (E & _). rewrite E.
  destruct (os_frames _ Hos (dir_entry s i / 4096)) as (_ & H1 & H2); [|done]. exists i. split; [done|]. split; [done|by left].
Qed.

Lemma dropping_pte i u k : dropping s i u -> 0 <= k < 1024 -> pte u k = pte s k.
Proof using Hs Hos.
  intros Hdr Hk. destruct (sys_kpt kpt s Hs) as [Hka _]. apply (dp_rest _ _ _ Hdr); rewrite frame_word by done.
  - intros E. by apply (os_dir _ Hos).
  - intros j Hj Hne E. pose proof (dp_range _ _ _ Hdr). destruct (table_apart j) as [? _]; [lia|done|]. congruence.
Qed.

Lemma dropping_slot i u k f : dropping s i u -> slot_maps s k f -> slot_maps u k f.
Proof using Hs Hos. intros Hdr (Hk & H). split; [done|]. by rewrite (dropping_pte i u). Qed.

(** The table of an entry that is still there. *)
Lemma dropping_table i u k : dropping s i u -> i < 1019 -> dir_entry s i <> 0 -> 0 <= k < 1024 ->
  dir_entry u i = dir_entry s i /\ table_of u D i = table_of s D i /\
  rd (pmem u) (table_of s D i + 4 * k) = rd (pmem s) (table_of s D i + 4 * k).
Proof using Hs Hos.
  intros Hdr Hi Hne Hk. pose proof (dp_range _ _ _ Hdr). destruct (table_frame s i (so_vm _ _ Hs)) as (_ & Hal & _).
  assert (dir_entry u i = dir_entry s i) as E by (rewrite (dp_dir _ _ _ Hdr) by lia; by rewrite Z.ltb_irrefl).
  split; [done|]. split; [unfold table_of; fold (dir_entry u i) (dir_entry s i); by rewrite E|].
  apply (dp_rest _ _ _ Hdr); rewrite frame_word by done; [by apply table_apart; [lia|]|].
  intros j Hj Hnj E'. pose proof (os_inj _ Hos i j ltac:(lia) ltac:(lia) Hne Hnj E'). lia.
Qed.

Lemma drop_table_step i u : i < 1019 -> dropping s i u ->
  wp (drop_table_body kpt (kernelstart + 4096 * d) i) (fun c u' => c = Continue (i + 1) /\ dropping s (i + 1) u') u.
Proof using Hs Hd Hos Hsl.
  intros Hi Hdr. pose proof Hdr as [Hr Hv Hf Hdir Hrest]. pose proof (dropping_slot i u d D Hdr Hd) as Hdu.
  set (e := dir_entry s i). assert (0 <= e < 2 ^ 32) as He by (apply rd_range, (vo_words _ _ (vw_ok _ _ (so_vm _ _ Hs)))).
  assert (dir_entry u i = e) as Eu by (rewrite Hdir by lia; by rewrite Z.ltb_irrefl).
  pose proof (read_slot kpt u d D i Hv Hdu ltac:(lia)) as Er. unfold dir_entry in Eu. rewrite Eu in Er.
  unfold drop_table_body. rewrite (proj2 (Z.ltb_lt i 1019)) by lia.
  apply wp_bind, wp_Ok. eexists _, _. split; [exact Er|]. apply wp_bind.
  destruct (sys_kpt kpt s Hs) as [Hka _]. pose proof (os_align _ Hos) as HDal. destruct (os_dir _ Hos) as [_ HDk].
  apply wp_when; [intros E0%negb_true_iff%Z.eqb_neq|intros E0%negb_false_iff%Z.eqb_eq]; cycle 1.
  { apply wp_ret. split; [done|]. split; [lia|done| | |].
    - eapply freed_iff; [exact Hf|]. intros m _. rewrite <- (old_frames_step s i False m); [tauto| |lia]. fold e. tauto.
    - intros k Hk. rewrite Hdir by done. destruct (decide (k = i)) as [->|].
      + fold e. rewrite E0. by destruct (i <? i), (i <? i + 1).
      + destruct (Z.ltb_spec k i), (Z.ltb_spec k (i + 1)); try done; lia.
    - intros pa H1 H2. apply Hrest; [done|]. intros k Hk. apply H2. lia. }
  destruct (table_apart i ltac:(lia) E0) as [HTk HTD]. destruct (table_frame s i (so_vm _ _ Hs)) as (ET & HTal & _).
  assert (page_of e = table_of s D i) as EpT by done. set (T := table_of s D i) in *.
  assert (at_least (slot_free u) 1) as Hslu.
  { eapply at_least_mono; [exact Hsl|]. intros x [Hx H0]. split; [done|]. by rewrite (dropping_pte i u). }
  destruct (map_word kpt u 0 e Hv Hslu He) as (b & Emap & Hb & Hb0 & Hv1 & Hm1 & _). rewrite EpT in Hm1.
  assert (b <> KERN_PGT_SLOT) as Hbk by (intros ->; by apply (pte_self kpt u (vw_ok _ _ Hv))).
  set (u1 := upd_pte b (Z.lor e 3) u) in *.
  destruct (drop_pages_ok u1 b T i Hv1 (fr_wf _ _ _ Hf) Hm1 HTk) as (u2 & Ep & Hdg). pose proof Hdg as [_ Hv2 Hf2 Hw2 Hr2].
  set (u3 := upd_pte b 0 u2). assert (vm_wf u3) as Hv3 by (apply upd_wf; [done|done|lia]).
  assert (forall pa, pa / 4096 <> T / 4096 -> rd (pmem u3) pa = rd (pmem u) pa) as Hr3.
  { intros pa Hpa. unfold u3, Virtual.upd_pte. cbn [pmem set_pmem]. rewrite rd_wr.
    destruct (Z.eqb_spec pa (kpt + 4 * b)) as [->|]; [by rewrite <- Hb0|]. rewrite Hr2 by done. by apply rd_upd. }
  assert (slot_maps u3 d D) as Hd3.
  { destruct Hdu as (Hdr' & Hdu). split; [done|]. unfold Virtual.pte in *. rewrite Hr3; [done|]. rewrite frame_word by done. congruence. }
  assert (rd (pmem u3) (D + 4 * i) = e) as Ee3 by (rewrite Hr3; [done|]; rewrite frame_word by (done || lia); congruence).
  destruct (frame_index e He) as [Esh Hen].
  destruct (release_frame_ok u3 (e / 4096) (fr_wf _ _ _ Hf2) Hen) as (p & Erel & Hp).
  set (u4 := poke (D + 4 * i) 0 (set_frames p u3)).
  apply wp_bind, wp_Ok. eexists _, _. split; [exact Emap|]. apply wp_bind, wp_Ok. eexists _, _. split; [exact Ep|].
  apply wp_bind, wp_Ok. eexists _, _. split; [by apply unmap_slot|]. fold u3.
  apply wp_bind, wp_Ok. eexists _, _. split; [apply (read_slot kpt u3 d D i); [done|done|lia]|]. rewrite Ee3, Esh.
  apply wp_bind, wp_Ok. eexists _, _. split; [exact Erel|]. apply wp_Ok. eexists _, _.
  split; [apply (write_slot kpt (set_frames p u3) d D i); [by apply frames_vm|done|done|lia]|]. fold u4. apply wp_ret. split; [done|].
  split; [lia| | | |].
  - apply poke_vm; [by apply frames_vm| |lia]. by rewrite frame_word by (done || lia).
  - eapply freed_iff; [eapply freed_trans; [exact Hf|eapply freed_trans; [exact Hf2|exact Hp]]|].
    intros m _. cbn beta. apply old_frames_step; [|lia]. fold T e.
    assert (page_frames u1 T i 1024 m <-> page_frames s T i 1024 m) as ->; [|tauto].
    assert (forall j, 0 <= j < 1024 -> rd (pmem u1) (T + 4 * j) = rd (pmem s) (T + 4 * j)) as HTw.
    { intros j Hj. unfold u1. rewrite rd_upd by (intros E; apply HTk; rewrite <- (frame_word T j), E by done; by apply frame_word).
      by apply (dropping_table i u j). }
    split; intros (j & Hj & H); exists j; (split; [done|]); [rewrite HTw in H by done|rewrite HTw by done]; done.
  - intros k Hk. unfold u4, dir_entry. cbn [poke pmem set_pmem set_frames]. rewrite rd_wr.
    destruct (Z.eqb_spec (D + 4 * k) (D + 4 * i)) as [E|E]; [assert (k = i) as -> by lia; by rewrite (proj2 (Z.ltb_lt i (i + 1))) by lia|].
    rewrite Hr3 by (rewrite frame_word by done; congruence). fold (dir_entry u k). rewrite Hdir by done. fold (dir_entry s k).
    destruct (Z.ltb_spec k i), (Z.ltb_spec k (i + 1)); try done; lia.
  - intros pa H1 H2. unfold u4. cbn [poke pmem set_pmem set_frames]. rewrite rd_wr, (proj2 (Z.eqb_neq _ _)).
    + rewrite Hr3 by (apply (H2 i); [lia|done]). apply Hrest; [done|]. intros k Hk. apply H2. lia.
    + intros ->. by rewrite frame_word in H1 by (done || lia).
Qed.

Lemma drop_tables_ok :
  exists u, mloop 1020 (drop_table_body kpt (kernelstart + 4096 * d)) 0 s = Ok (tt, u) /\ dropping s 1019 u.
Proof using Hs Hd Hos Hsl.
  assert (wp (mloop 1020 (drop_table_body kpt (kernelstart + 4096 * d)) 0) (fun _ u => dropping s 1019 u) s) as Hwp.
  { apply (wp_mloop _ (fun i u => dropping s i u) _ (fun i _ => Z.to_nat (1019 - i))); [| |lia].
    - intros i u Hdr. pose proof (dp_range _ _ _ Hdr). destruct (Z.ltb_spec i 1019).
      + eapply wp_mono; [by apply drop_table_step|]. intros c u' [-> Hu']. split; [done|lia].
      + unfold drop_table_body. rewrite (proj2 (Z.ltb_ge i 1019)) by lia. apply wp_ret. by assert (i = 1019) as <- by lia.
    - split; [lia|apply Hs| | |done].
      + eapply freed_iff; [by apply freed_none, Hs|]. intros m _. split; [done|]. intros (k & ? & _). lia.
      + intros k Hk. by rewrite (proj2 (Z.ltb_ge k 0)) by lia. }
  apply wp_Ok in Hwp as ([] & u & E & H). by exists u.
Qed.
End drop.

(** ** The new page table *)

(** The table at frame [f], mapped at slot [t]. *)
Record tabled_at (s : mmu) (f t : Z) (k n : nat) (u : mmu) : Prop := mkTabled {
  ta_range : 0 <= f < 2 ^ 20;
  ta_free : is_free (frames s) f = true;
  ta_sys : sys_ok u;
  ta_limit : mm_limit (frames u) = mm_limit (frames s);
  ta_frames : forall m, 0 <= m -> is_free (frames u) m = if m =? f then false else is_free (frames s) m;
  ta_slot : slot_maps u t (4096 * f);
  ta_was : 0 <= t < 1024 /\ pte s t = 0;
  ta_dir : dir_entry u 0 = 4096 * f + 7;
  ta_zero : forall k, 0 <= k < 1024 -> rd (pmem u) (4096 * f + 4 * k) = 0;
  ta_rest : forall pa, pa / 4096 <> f -> pa <> D + 4 * 0 -> pa <> kpt + 4 * t -> rd (pmem u) pa = rd (pmem s) pa;
  ta_slots : at_least (slot_free u) k;
  ta_left : at_least (frame_free u) n
}.

Lemma new_table_ok s d k n : sys_ok s -> slot_maps s d D -> in_use s D -> at_least (slot_free s) (S k) -> at_least (frame_free s) (S n) ->
  exists f t u, new_table kpt (kernelstart + 4096 * d) s = Ok (kernelstart + 4096 * t, u) /\ tabled_at s f t k n u.
Proof.
  intros Hs Hd [HDf HDk] Hsl Hn. destruct (take_frame kpt s n Hs Hn) as (f & p & Ea & Ht & Hs1).
  pose proof Ht as [Hf Hff Hfk [Hpw Hpl _] Hleft]. destruct (frame_page f) as [Hfal Hfd].
  destruct (slot_maps_aligned kpt s d D (so_vm _ _ Hs) Hd) as [HDal _]. destruct (sys_kpt kpt s Hs) as [Hka Hkr].
  assert (D / 4096 <> f) as HDf' by congruence. pose proof (frame_word D 0 HDal ltac:(lia)) as ED.
  set (s1 := set_frames p s) in *. set (s2 := poke (D + 4 * 0) (4096 * f + 7) s1).
  assert (vm_wf s2) as Hv2 by (apply poke_vm; [apply Hs1|by rewrite ED|lia]).
  assert (forall i, 0 <= i < 1024 -> pte s2 i = pte s i) as Hpte2.
  { intros i Hi. unfold Virtual.pte, s2. cbn [poke pmem set_pmem]. rewrite rd_wr, (proj2 (Z.eqb_neq _ _)); [done|].
    intros E. apply HDk. rewrite <- ED, <- E. by apply frame_word. }
  assert (slot_maps s2 d D) as Hd2 by (destruct Hd as (Hdr & Hd); split; [done|]; by rewrite Hpte2).
  assert (rd (pmem s2) (D + 4 * 0) = 4096 * f + 7) as E2 by (unfold s2; cbn [poke pmem set_pmem]; by rewrite rd_wr, Z.eqb_refl).
  destruct (map_page_free kpt s2 (4096 * f + 7) Hv2) as (t & Htr & Ht0 & Htk & Emap).
  { destruct (at_least_one _ _ Hsl) as (j & Hj & Hj0). exists j. split; [done|]. by rewrite Hpte2. }
  set (s3 := upd_pte t (4096 * f + 7) s2) in *. assert (vm_wf s3) as Hv3 by (apply upd_wf; [done|done|lia]).
  assert (slot_maps s3 t (4096 * f)) as Hm3.
  { split; [lia|]. unfold s3. rewrite pte_upd, Z.eqb_refl. destruct (flags_present (4096 * f) 7 Hfal) as (Hx & -> & _); [by right|].
    split; [done|]. rewrite frame_mask_div by lia. by apply entry_parts. }
  destruct (proj1 (wp_Ok _ _ _) (clear_page_ok kpt s3 t (4096 * f) Hv3 Hm3 ltac:(by rewrite Hfd))) as ([] & u & Ec & [Hvu Hfu Hwu Hru]).
  rewrite Hfd in Hru. rewrite Hpte2 in Ht0 by lia.
  assert (forall pa, pa / 4096 <> f -> pa <> D + 4 * 0 -> pa <> kpt + 4 * t -> rd (pmem u) pa = rd (pmem s) pa) as Hrest.
  { intros pa H1 H2 H3. rewrite Hru by done. unfold s3. rewrite rd_upd by done. unfold s2. cbn [poke pmem set_pmem].
    by rewrite rd_wr, (proj2 (Z.eqb_neq _ _)). }
  assert (frames u = p) as Efu by (rewrite Hfu; done).
  exists f, t, u. split; [|split; try done].
  - unfold new_table. erewrite bind_Ok_eq by exact Ea. rewrite lor_flags by (done || lia).
    erewrite bind_Ok_eq by (apply (write_slot kpt s1 d D 0); [apply Hs1|exact Hd|done|lia]). fold s2.
    erewrite bind_Ok_eq by (apply (read_slot kpt s2 d D 0); [done|done|lia]). rewrite E2.
    erewrite bind_Ok_eq by exact Emap. by erewrite bind_Ok_eq by exact Ec.
  - split; rewrite ?Efu; [done|done|]. rewrite (took_marks kpt s n f p) by (done || apply Z.div_pos; lia).
    destruct (_ =? f); [done|apply Hs].
  - by rewrite Efu.
  - intros m Hm. rewrite Efu. by apply (took_marks kpt s n).
  - destruct Hm3 as (Hr & Hm3). split; [done|]. unfold Virtual.pte in *. rewrite Hru; [done|]. rewrite frame_word by done. congruence.
  - unfold dir_entry. rewrite Hru by (by rewrite ED). unfold s3. rewrite rd_upd; [done|]. intros E. apply HDk. rewrite <- ED, E. apply frame_word; [done|lia].
  - eapply at_least_take with (a := t); [exact Hsl|]. intros x [Hx H0] Hxt. split; [done|]. unfold Virtual.pte in *.
    rewrite Hrest; [done| | |lia]; [rewrite frame_word by done; congruence|]. intros E. apply HDk. rewrite <- ED, <- E. by apply frame_word.
  - eapply at_least_mono; [exact Hleft|]. intros x [H1 H2]. split; by rewrite Efu.
Qed.

(** ** The frames of the file *)

Section frames.
Context (FP a len : Z) (Hlen : 0 <= len <= 2 ^ 22).
Notation np := (file_pages len).

(** The frames of the first [k] pages. *)
Record filed (s : mmu) (n : nat) (k : Z) (u : mmu) : Prop := mkFiled {
  fd_range : 0 <= k <= np;
  fd_sys : sys_ok u;
  fd_limit : mm_limit (frames u) = mm_limit (frames s);
  fd_free : forall m, 0 <= m -> is_free (frames u) m = true -> is_free (frames s) m = true;
  fd_taken : forall m, 0 <= m -> is_free (frames s) m = true -> is_free (frames u) m = false ->
    exists i, 0 <= i < k /\ rd (pmem u) (FP + 4 * i) = 4096 * m + 3;
  fd_frame : forall i, 0 <= i < k -> exists f, 0 <= f < 2 ^ 20 /\ rd (pmem u) (FP + 4 * i) = 4096 * f + 3 /\
    in_use u (4096 * f) /\ is_free (frames s) f = true;
  fd_inj : forall i j, 0 <= i < k -> 0 <= j < k -> rd (pmem u) (FP + 4 * i) = rd (pmem u) (FP + 4 * j) -> i = j;
  fd_rest : forall pa, (forall i, 0 <= i < k -> pa <> FP + 4 * i) -> rd (pmem u) pa = rd (pmem s) pa;
  fd_left : at_least (frame_free u) (Z.to_nat (np - k) + n)
}.

Lemma filed_step s n k u : sys_ok s -> slot_maps s a FP -> in_use s FP -> k < np -> filed s n k u ->
  wp (file_frame_body kpt (kernelstart + 4096 * a) len (4096 * k)) (fun c u' => c = Continue (4096 * (k + 1)) /\ filed s n (k + 1) u') u.
Proof using Hlen.
  intros Hs Ha [HFf HFk] Hk [Hr Hsu Hl Hfree Htaken Hframe Hinj Hrest Hleft]. pose proof (few_pages len Hlen) as Hnp.
  destruct (slot_maps_aligned kpt s a FP (so_vm _ _ Hs) Ha) as [HFal HFr]. destruct (sys_kpt kpt s Hs) as [Hka _].
  destruct (take_frame kpt u (Z.to_nat (np - (k + 1)) + n) Hsu) as (f & p & Ea & Ht & Hs1);
    [replace (S _) with (Z.to_nat (np - k) + n)%nat by lia; done|]. pose proof Ht as [Hf Hff Hfk [Hpw Hpl _] Hleft'].
  destruct (frame_page f) as [Hfal Hfd]. pose proof (frame_word FP k HFal ltac:(lia)) as EF.
  pose proof (fun m => took_marks kpt u _ f p m Ht) as Hmarks.
  set (u' := poke (FP + 4 * k) (4096 * f + 3) (set_frames p u)).
  assert (slot_maps u a FP) as Hau.
  { destruct Ha as (Har & Ha). split; [done|]. unfold Virtual.pte in *. rewrite Hrest; [done|]. intros i Hi E. apply HFk.
    rewrite <- (frame_word FP i), <- E by (done || lia). by apply frame_word. }
  assert (forall pa, pa <> FP + 4 * k -> rd (pmem u') pa = rd (pmem u) pa) as Hold.
  { intros pa Hpa. unfold u'. cbn [poke pmem set_pmem set_frames]. by rewrite rd_wr, (proj2 (Z.eqb_neq _ _)). }
  assert (rd (pmem u') (FP + 4 * k) = 4096 * f + 3) as Enew by (unfold u'; cbn [poke pmem set_pmem]; by rewrite rd_wr, Z.eqb_refl).
  assert (forall i, 0 <= i < k -> rd (pmem u') (FP + 4 * i) <> 4096 * f + 3) as Hdiff.
  { intros i Hi E. rewrite Hold in E by lia. destruct (Hframe i Hi) as (g & _ & Eg & [Hgu _] & _). assert (g = f) as -> by lia.
    rewrite Hfd in Hgu. congruence. }
  unfold file_frame_body. rewrite (proj2 (Z.ltb_lt (4096 * k) len)) by (unfold file_pages in Hk; Z.to_euclidean_division_equations; lia).
  rewrite Z.shiftr_div_pow2 by lia. change (2 ^ 12) with 4096. rewrite (proj2 (frame_page k)).
  apply wp_bind, wp_Ok. eexists _, _. split; [exact Ea|]. rewrite lor_flags by (done || lia).
  apply wp_bind, wp_Ok. eexists _, _. split; [apply (write_slot kpt (set_frames p u) a FP k); [apply Hs1|done|done|lia]|]. fold u'.
  apply wp_ret. split; [f_equal; lia|]. split; try done.
  - lia.
  - split; [apply poke_vm; [apply Hs1|by rewrite EF|lia]|done|apply Hs1].
  - change (mm_limit p = mm_limit (frames s)). by rewrite Hpl.
  - intros m Hm H. change (is_free p m = true) in H. rewrite Hmarks in H by done. destruct (m =? f); [done|]. by apply Hfree.
  - intros m Hm H1 H2. change (is_free p m = false) in H2. rewrite Hmarks in H2 by done. destruct (Z.eqb_spec m f) as [->|].
    + exists k. split; [lia|done].
    + destruct (Htaken m Hm H1 H2) as (i & Hi & E). exists i. split; [lia|]. by rewrite Hold by lia.
  - assert (forall g, is_free (frames u) g = false -> 0 <= g -> g <> kpt / 4096 -> in_use u' (4096 * g)) as Huse.
    { intros g H1 H2 H3. destruct (frame_page g) as [_ Eg]. split; rewrite Eg; [|done]. change (is_free p g = false).
      rewrite Hmarks by done. by destruct (g =? f). }
    intros i Hi. destruct (decide (i = k)) as [->|].
    + exists f. split; [lia|]. split; [done|]. split; [|by apply Hfree; [lia|]]. split; rewrite Hfd; [|done].
      change (is_free p f = false). by rewrite Hmarks, Z.eqb_refl by lia.
    + destruct (Hframe i ltac:(lia)) as (g & Hg & Eg & [Hgu Hgk] & Hgf). destruct (frame_page g) as [_ Egd]. rewrite Egd in *.
      exists g. split; [lia|]. rewrite Hold by lia. split; [done|]. split; [apply Huse; done || lia|done].
  - intros i j Hi Hj E. destruct (decide (i = k)) as [->|], (decide (j = k)) as [->|]; [done| | |].
    + destruct (Hdiff j); [lia|]. by rewrite <- E.
    + destruct (Hdiff i); [lia|]. by rewrite E.
    + rewrite !Hold in E by lia. apply Hinj; [lia|lia|done].
  - intros pa Hpa. rewrite Hold by (apply Hpa; lia). apply Hrest. intros i Hi. apply Hpa. lia.
Qed.

Lemma file_frames_ok s n : sys_ok s -> slot_maps s a FP -> in_use s FP -> at_least (frame_free s) (Z.to_nat np + n) ->
  exists u, mloop (page_fuel len) (file_frame_body kpt (kernelstart + 4096 * a) len) 0 s = Ok (tt, u) /\ filed s n np u.
Proof using Hlen.
  intros Hs Ha HF Hn. pose proof (few_pages len Hlen) as Hnp.
  assert (wp (mloop (page_fuel len) (file_frame_body kpt (kernelstart + 4096 * a) len) 0) (fun _ u => filed s n np u) s) as Hwp.
  { apply (wp_mloop _ (fun i u => exists k, i = 4096 * k /\ filed s n k u) _ (fun i _ => Z.to_nat (np - i / 4096))).
    - intros i u (k & -> & Hfd). pose proof (fd_range _ _ _ _ Hfd). destruct (Z.ltb_spec k np).
      + eapply wp_mono; [by apply filed_step|]. intros c u' [-> Hu']. split; [by exists (k + 1)|].
        rewrite !(proj2 (frame_page _)). lia.
      + assert (k = np) as -> by lia. unfold file_frame_body.
        rewrite (proj2 (Z.ltb_ge (4096 * np) len)) by (unfold file_pages; Z.to_euclidean_division_equations; lia). by apply wp_ret.
    - exists 0. split; [done|]. split; try done; try (intros; lia).
      + intros m Hm H1 H2. congruence.
      + by rewrite Z.sub_0_r.
    - change (0 / 4096) with 0. unfold page_fuel, file_pages. lia. }
  apply wp_Ok in Hwp as ([] & u & E & H). by exists u.
Qed.
End frames.
(** ** The new address space before the file is read *)

Section make.
Context (FP d a len : Z) (Hlen : 0 <= len <= 2 ^ 22).
Notation np := (file_pages len).

Record made (s : mmu) (PT t : Z) (fr : Z -> Z) (n : nat) (u : mmu) : Prop := mkMade {
  md_base : base kpt D FP PT d a t u;
  md_file : dir_entry u 1021 = FP + 3 /\ forall i, 0 <= i < np -> rd (pmem u) (FP + 4 * i) = 4096 * fr i + 3;
  md_use : forall i, 0 <= i < np -> in_use u (4096 * fr i) /\ 0 <= fr i < 2 ^ 20;
  md_apart : forall i, 0 <= i < np -> fr i <> D / 4096 /\ fr i <> FP / 4096 /\ fr i <> PT / 4096;
  md_inj : forall i j, 0 <= i < np -> 0 <= j < np -> fr i = fr j -> i = j;
  md_zero : forall k, 0 <= k < 1024 -> rd (pmem u) (PT + 4 * k) = 0;
  md_dir : forall i, 0 < i < 1024 -> i <> 1021 -> dir_entry u i = if i <? 1019 then 0 else dir_entry s i;
  md_pte : pte s t = 0 /\ forall i, 0 <= i < 1024 -> i <> t -> pte u i = pte s i;
  md_mem : forall pa, 0 <= pa -> is_free (frames s) (pa / 4096) = false -> ~ old_frames s 1019 (pa / 4096) ->
    pa / 4096 <> D / 4096 -> pa / 4096 <> FP / 4096 -> pa / 4096 <> kpt / 4096 -> rd (pmem u) pa = rd (pmem s) pa;
  md_limit : mm_limit (frames u) = mm_limit (frames s);
  md_new : forall m, 0 <= m -> (m = PT / 4096 \/ exists i, 0 <= i < np /\ m = fr i) -> is_free (frames s) m = true \/ old_frames s 1019 m;
  md_free : forall m, 0 <= m -> is_free (frames u) m = true -> is_free (frames s) m = true \/ old_frames s 1019 m;
  md_used : forall m, 0 <= m -> is_free (frames u) m = false ->
    (is_free (frames s) m = false /\ ~ old_frames s 1019 m) \/ m = PT / 4096 \/ exists i, 0 <= i < np /\ m = fr i;
  md_left : at_least (frame_free u) n
}.

Lemma old_frames_nonneg s m : vm_wf s -> old_frames s 1019 m -> 0 <= m.
Proof.
  intros Hs (i & _ & _ & [->|(j & _ & _ & _ & ->)]); (apply Z.div_pos; [|lia]); apply rd_range, (vo_words _ _ (vw_ok _ _ Hs)).
Qed.

Lemma make_space_ok s n : sys_ok s -> slot_maps s d D -> slot_maps s a FP -> own_space s -> in_use s FP ->
  FP / 4096 <> D / 4096 -> ~ old_frames s 1019 (FP / 4096) -> at_least (slot_free s) 2 ->
  at_least (frame_free s) (1 + (Z.to_nat np + n)) ->
  exists PT t fr u, make_space kpt (kernelstart + 4096 * d) (kernelstart + 4096 * a) (FP + 3) len s = Ok (kernelstart + 4096 * t, u) /\
    made s PT t fr n u.
Proof using Hlen.
  intros Hs Hd Ha Hos [HFu HFk] HFD HFo Hsl Hn. pose proof (few_pages len Hlen) as Hnp.
  pose proof Hos as [HDal HDr [HDu HDk] _ _ Hof]. destruct (sys_kpt kpt s Hs) as [Hka Hkr].
  destruct (slot_maps_aligned kpt s a FP (so_vm _ _ Hs) Ha) as [HFal HFr].
  destruct (drop_tables_ok s d Hs Hd Hos ltac:(eapply at_least_fewer; [exact Hsl|lia])) as (s1 & E1 & H1).
  pose proof (dropping_pte s Hs Hos 1019 s1) as Hpte1. pose proof H1 as [_ Hv1 Hf1 Hdir1 Hr1].
  assert (forall m, 0 <= m -> is_free (frames s) m = false -> ~ old_frames s 1019 m -> is_free (frames s1) m = false) as Hkeep1.
  { intros m Hm Hf Hno. destruct (is_free (frames s1) m) eqn:E; [|done]. apply (fr_free _ _ _ Hf1) in E as [E|E]; [congruence|done|done]. }
  assert (sys_ok s1) as Hs1.
  { split; [done|apply Hf1|]. apply Hkeep1; [apply Z.div_pos; lia|apply Hs|]. intros H%Hof. tauto. }
  assert (forall i f, slot_maps s i f -> slot_maps s1 i f) as Hsm1 by (intros i f (Hi & H); split; [done|]; by rewrite Hpte1).
  assert (is_free (frames s1) (D / 4096) = false) as HD1 by (apply Hkeep1; [apply Z.div_pos; lia|done|]; intros H%Hof; tauto).
  assert (is_free (frames s1) (FP / 4096) = false) as HF1 by (apply Hkeep1; [apply Z.div_pos; lia|done|done]).
  destruct (new_table_ok s1 d 1 (Z.to_nat np + n) Hs1 (Hsm1 d D Hd)) as (f & t & s2 & E2 & H2); [done| | |].
  { eapply at_least_mono; [exact Hsl|]. intros x [Hx H0]. split; [done|]. by rewrite Hpte1. }
  { eapply at_least_mono; [exact Hn|]. intros x [Hx H0]. unfold frame_free. rewrite (fr_limit _ _ _ Hf1). split; [done|].
    apply (fr_free _ _ _ Hf1); [lia|by left]. }
  pose proof H2 as [Hfrg Hff Hs2 Hl2 Hf2 Ht2 [Htr Ht0] Hd2 Hz2 Hr2 Hsl2 Hn2]. destruct (frame_page f) as [Hfal Hfd].
  assert (FP / 4096 <> f) as HFf by congruence. assert (D / 4096 <> f) as HDf by congruence.
  assert (kpt / 4096 <> f) as Hkf by (pose proof (so_kpt _ _ Hs1); congruence).
  assert (forall i, 0 <= i < 1024 -> i <> t -> pte s2 i = pte s1 i) as Hpte2.
  { intros i Hi Hit. apply Hr2; [by rewrite frame_word| |lia]. intros E. apply HDk. rewrite <- (frame_word D 0), <- E by (done || lia). by apply frame_word. }
  assert (forall i g, slot_maps s1 i g -> slot_maps s2 i g) as Hsm2.
  { intros i g (Hi & Hp & Hg). split; [done|]. rewrite Hpte2; [done|done|]. intros ->. by rewrite Ht0 in Hp. }
  assert (in_use s2 FP) as HF2 by (split; [rewrite Hf2 by (apply Z.div_pos; lia); by rewrite (proj2 (Z.eqb_neq _ _))|done]).
  destruct (file_frames_ok FP a len Hlen s2 n Hs2 (Hsm2 _ _ (Hsm1 _ _ Ha)) HF2 Hn2) as (s3 & E3 & H3).
  pose proof H3 as [_ Hs3 Hl3 Hf3 Ht3 Hfr3 Hi3 Hr3 Hn3]. rewrite Z.sub_diag in Hn3. cbn [Z.to_nat Nat.add] in Hn3.
  set (fr := fun i => rd (pmem s3) (FP + 4 * i) / 4096).
  assert (forall i, 0 <= i < np -> rd (pmem s3) (FP + 4 * i) = 4096 * fr i + 3 /\ 0 <= fr i < 2 ^ 20 /\
    in_use s3 (4096 * fr i) /\ is_free (frames s2) (fr i) = true) as Hfr.
  { intros i Hi. destruct (Hfr3 i Hi) as (g & Hg & Eg & Hgu & Hgf). assert (fr i = g) as ->; [|done].
    unfold fr. rewrite Eg. destruct (frame_page g) as [Hga Egd]. by rewrite frame_byte by (done || lia). }
  assert (forall pa, pa / 4096 <> FP / 4096 -> rd (pmem s3) pa = rd (pmem s2) pa) as Hr3'.
  { intros pa Hpa. apply Hr3. intros i Hi ->. by rewrite frame_word in Hpa by (done || lia). }
  pose proof (frame_word D 1021 HDal ltac:(lia)) as ED.
  assert (FP + 3 < 2 ^ 32) as HF3 by (pose proof (Z.div_mod FP 4096 ltac:(lia)); lia).
  set (s4 := poke (D + 4 * 1021) (FP + 3) s3).
  assert (forall pa, pa <> D + 4 * 1021 -> rd (pmem s4) pa = rd (pmem s3) pa) as Hr4.
  { intros pa Hpa. unfold s4. cbn [poke pmem set_pmem]. by rewrite rd_wr, (proj2 (Z.eqb_neq _ _)). }
  assert (vm_wf s4) as Hv4 by (apply poke_vm; [apply Hs3|by rewrite ED|lia]).
  assert (forall i, 0 <= i < 1024 -> pte s4 i = pte s2 i) as Hpte4.
  { intros i Hi. unfold Virtual.pte. rewrite Hr4; [apply Hr3'; rewrite frame_word by done; congruence|].
    intros E. apply HDk. rewrite <- ED, <- E. by apply frame_word. }
  assert (forall i g, slot_maps s2 i g -> slot_maps s4 i g) as Hsm4 by (intros i g (Hi & H); split; [done|]; by rewrite Hpte4).
  assert (forall m, 0 <= m -> is_free (frames s2) m = false -> is_free (frames s4) m = false) as Hkeep4.
  { intros m Hm H. destruct (is_free (frames s4) m) eqn:E; [|done]. apply Hf3 in E; [congruence|done]. }
  assert (forall x, 0 <= x -> in_use s2 x -> in_use s4 x) as Huse4 by (intros x H0 [H ?]; split; [apply Hkeep4; [apply Z.div_pos; lia|done]|done]).
  assert (in_use s2 D) as HD2 by (split; [rewrite Hf2 by (apply Z.div_pos; lia); by rewrite (proj2 (Z.eqb_neq _ _))|done]).
  assert (in_use s2 (4096 * f)) as HP2 by (split; rewrite Hfd; [by rewrite Hf2, Z.eqb_refl by lia|done]).
  assert (forall m, 0 <= m -> is_free (frames s1) m = true -> is_free (frames s) m = true \/ old_frames s 1019 m) as Hback
    by (intros m Hm; apply (fr_free _ _ _ Hf1); done).
  assert (forall m, 0 <= m -> is_free (frames s2) m = true -> is_free (frames s1) m = true) as Hback2
    by (intros m Hm; rewrite Hf2 by done; by destruct (m =? f)).
  exists (4096 * f), t, fr, s4. split.
  - unfold make_space. erewrite bind_Ok_eq by exact E1. erewrite bind_Ok_eq by exact E2. erewrite bind_Ok_eq by exact E3.
    change (Z.shiftr pe 22) with 1021.
    erewrite bind_Ok_eq by (apply (write_slot kpt s3 d D 1021); [apply Hs3| |done|lia];
      destruct (Hsm2 _ _ (Hsm1 _ _ Hd)) as (Hdi & Hdm); split; [done|]; unfold Virtual.pte in *; rewrite Hr3'; [done|];
      rewrite frame_word by done; congruence).
    fold s4. unfold flush_tlb_all, bind, modify, set_stale, ret. rewrite <- (vw_stale _ _ Hv4). by destruct s4.
  - split.
    + split; try (by apply Hsm4, Hsm2, Hsm1); try (by apply Hsm4); try (apply Huse4; [lia|done]).
      * split; [done|apply Hs3|apply Hkeep4; [apply Z.div_pos; lia|apply Hs2]].
      * rewrite Hr4 by lia. rewrite Hr3' by (rewrite frame_word by (done || lia); congruence). exact Hd2.
      * rewrite Hfd. split_and!; congruence.
      * eapply at_least_mono; [exact Hsl2|]. intros x [Hx H0]. split; [done|]. by rewrite Hpte4.
    + split; [unfold dir_entry, s4; cbn [poke pmem set_pmem]; by rewrite rd_wr, Z.eqb_refl|].
      intros i Hi. rewrite Hr4; [by apply Hfr|]. intros E. apply HFD. rewrite <- ED, <- E. symmetry. apply frame_word; [done|lia].
    + intros i Hi. destruct (Hfr i Hi) as (_ & Hg & Hgu & _). split; [exact Hgu|done].
    + intros i Hi. destruct (Hfr i Hi) as (_ & Hg & _ & Hgf). destruct HD2 as [HD2 _], HF2 as [HF2 _], HP2 as [HP2 _]. split_and!; congruence.
    + intros i j Hi Hj E. apply Hi3; [done|done|]. destruct (Hfr i Hi) as (-> & _), (Hfr j Hj) as (-> & _). by rewrite E.
    + intros k Hk. rewrite Hr4 by (intros E; apply HDf; rewrite <- ED, <- E, frame_word by done; exact Hfd).
      rewrite Hr3' by (rewrite frame_word, Hfd by done; congruence). by apply Hz2.
    + intros i Hi Hne. unfold dir_entry at 1. rewrite Hr4 by lia. rewrite Hr3' by (rewrite frame_word by (done || lia); congruence).
      rewrite Hr2; [by apply Hdir1; lia|by rewrite frame_word by (done || lia)|lia|].
      intros E. apply HDk. rewrite <- (frame_word D i), E by (done || lia). by apply frame_word.
    + rewrite Hpte1 in Ht0 by done. split; [done|]. intros i Hi Hit. rewrite Hpte4, Hpte2 by done. by apply Hpte1.
    + intros pa H0 Hf Hno HnD HnF Hnk. assert (0 <= pa / 4096) by (apply Z.div_pos; lia).
      pose proof (Hkeep1 (pa / 4096) ltac:(lia) Hf Hno) as Hf1'.
      rewrite Hr4 by (intros ->; congruence). rewrite Hr3' by done. rewrite Hr2.
      * apply Hr1; [done|]. intros k Hk Hne E. apply Hno. exists k. split; [lia|]. split; [done|]. left.
        destruct (table_frame s k (so_vm _ _ Hs)) as (Et & _). congruence.
      * congruence.
      * intros ->. rewrite frame_word in HnD by (done || lia). done.
      * intros ->. by rewrite frame_word in Hnk.
    + change (mm_limit (frames s3) = mm_limit (frames s)). rewrite Hl3, Hl2. apply Hf1.
    + intros m Hm [->|(i & Hi & ->)]; [rewrite Hfd; by apply Hback; [lia|]|]. destruct (Hfr i Hi) as (_ & ? & _ & Hgf). apply Hback; [lia|]. by apply Hback2; [lia|].
    + intros m Hm H. apply Hback; [done|]. apply Hback2; [done|]. by apply Hf3.
    + intros m Hm H. change (is_free (frames s3) m = false) in H. rewrite Hfd. destruct (is_free (frames s2) m) eqn:Em2.
      * right. right. destruct (Ht3 m Hm Em2 H) as (i & Hi & E). exists i. split; [done|]. destruct (Hfr i Hi) as (E' & _). lia.
      * rewrite Hf2 in Em2 by done. destruct (Z.eqb_spec m f) as [->|]; [by right; left|]. left.
        pose proof (fr_free _ _ _ Hf1 m Hm) as Hiff.
        destruct (is_free (frames s) m); [rewrite (proj2 Hiff) in Em2 by tauto; done|]. split; [done|].
        intros Ho. rewrite (proj2 Hiff) in Em2 by tauto. done.
    + exact Hn3.
Qed.
End make.
End space.
