(* ===== verification/ExecThm.v ===== *)
(** * exec

    The system call as a whole: strings of the caller, the error returns, the file
    in memory, and the address space of the new program. *)

From Stdlib Require Import ZArith Lia.
From S2P Require Import Prelude Physical Virtual VirtualThm Clone CloneThm Exit Vfs Exec ExecMem ExecPages ExecLoad ExecTail ExecImage ExecSpace.
From stdpp Require Import base gmap sets fin_sets numbers strings list.
Local Open Scope Z_scope.

(** ** Strings *)

(** A string without its terminator. *)
Definition plain (str : list Z) : Prop := Forall (fun b => 0 < b < 256) str.

(** What [strncpy] leaves in the array [buf]. *)
Definition copied_string (buf str : list Z) : list Z :=
  if decide (length str < length buf)%nat then str ++ 0 :: drop (S (length str)) buf
  else take (length buf - 1) str ++ [0].

Lemma array_set_ok (l : list Z) i v : 0 <= i < Z.of_nat (length l) ->
  array_set l i v = Ok (take (Z.to_nat i) l ++ v :: drop (S (Z.to_nat i)) l).
Proof.
  intros Hi. unfold array_set. rewrite (proj2 (Z.leb_le 0 i)), (proj2 (Z.ltb_lt i _)) by lia. cbn [andb].
  f_equal. apply insert_take_drop. lia.
Qed.

Section strings.
Context (D : Z) (s : mmu).

(** The string at [va], followed by zero. *)
Definition string_at (va : Z) (str : list Z) : Prop :=
  forall k b, (str ++ [0]) !! k = Some b -> ubyte D (va + Z.of_nat k) s = Ok (b, s).

Lemma plain_char str k b : plain str -> str !! k = Some b -> 0 < b < 256.
Proof. intros Hp Hk. unfold plain in Hp. rewrite Forall_lookup in Hp. by apply (Hp k). Qed.

Lemma strncpy_ok buf va str : plain str -> string_at va str -> (0 < length buf)%nat ->
  strncpy D buf va (Z.of_nat (length buf)) s = Ok (copied_string buf str, s).
Proof.
  intros Hpl Hstr Hn. set (n := length buf) in *.
  assert (wp (mloop (S n) (strncpy_body D va) (buf, 0, Z.of_nat n))
    (fun l u => u = s /\ (if l.2 <? 0 then lift (array_set l.1.1 (l.1.2 - 1) 0) else ret l.1.1) u = Ok (copied_string buf str, s)) s) as Hwp.
  { apply (wp_mloop _ (fun l u => u = s /\ exists i, (i <= n)%nat /\ (i <= length str)%nat /\
      l = (take i str ++ drop i buf, Z.of_nat i, Z.of_nat (n - i))) _ (fun l _ => Z.to_nat l.2)).
    - intros l u [-> (i & Hin & Hil & ->)]. unfold strncpy_body.
      assert (length (take i str ++ drop i buf) = n) as El by (rewrite length_app, length_take, length_drop; unfold n in *; lia).
      destruct (Z.eqb_spec (Z.of_nat (n - i)) 0) as [E|E].
      + apply wp_ret. split; [done|]. assert (i = n) as -> by lia. cbn [fst snd].
        rewrite (proj2 (Z.ltb_lt _ 0)) by lia. unfold lift. rewrite array_set_ok by (rewrite El; lia). do 2 f_equal.
        replace (Z.to_nat (Z.of_nat n - 1)) with (n - 1)%nat by lia. replace (S (n - 1)) with n by lia.
        unfold copied_string. rewrite decide_False by (unfold n in *; lia). fold n.
        rewrite (drop_ge buf n) by (unfold n; lia). rewrite app_nil_r, take_take, (drop_ge (take n str)) by (rewrite length_take; lia).
        by rewrite Nat.min_l by lia.
      + destruct (decide (i = length str)) as [->|Hne].
        * apply wp_bind, wp_Ok. exists 0, s. split; [apply Hstr; by rewrite lookup_app_r, Nat.sub_diag by lia|].
          apply wp_bind, wp_Ok. eexists _, s. split; [unfold lift; rewrite array_set_ok by (rewrite El; lia); done|].
          apply wp_ret. split; [done|]. cbn [fst snd]. rewrite (proj2 (Z.ltb_ge _ 0)) by lia. unfold ret. do 2 f_equal.
          unfold copied_string. rewrite decide_True by (unfold n in *; lia). rewrite Nat2Z.id, firstn_all.
          rewrite take_app_length. f_equal. f_equal. rewrite drop_app_ge by lia. rewrite drop_drop. f_equal. lia.
        * destruct (lookup_lt_is_Some_2 str i ltac:(lia)) as [b Hb].
          apply wp_bind, wp_Ok. exists b, s. split; [apply Hstr; by apply lookup_app_l_Some|]. pose proof (plain_char _ _ _ Hpl Hb) as Hbr.
          apply wp_bind, wp_Ok. eexists _, s. split; [unfold lift; rewrite array_set_ok by (rewrite El; lia); done|].
          rewrite (proj2 (Z.eqb_neq b 0)) by lia. apply wp_ret. split; [|cbn; lia]. split; [done|]. exists (S i).
          split; [lia|]. split; [lia|]. rewrite Nat2Z.id. f_equal; [f_equal|lia]; [|lia].
          rewrite take_app_length', drop_app_ge by (rewrite length_take; lia). rewrite length_take, Nat.min_l by lia.
          replace (S i - i)%nat with 1%nat by lia. rewrite drop_drop, Nat.add_1_r, (take_S_r _ _ _ Hb), <- app_assoc. done.
    - split; [done|]. exists 0%nat. split; [lia|]. split; [lia|]. cbn. do 2 f_equal. lia.
    - cbn. lia. }
  unfold strncpy. rewrite Nat2Z.id. apply wp_Ok in Hwp as ([[b i] l] & u & E & -> & H). cbn [fst snd] in H.
  erewrite bind_Ok_eq by exact E. exact H.
Qed.

Lemma ustring_ok va str : plain str -> string_at va str -> (length str < MAX_STRING)%nat -> ustring D va s = Ok (str, s).
Proof.
  intros Hpl Hstr Hn.
  assert (wp (ustring D va) (fun l u => l = str /\ u = s) s) as Hwp.
  { unfold ustring. apply (wp_mloop _ (fun l u => u = s /\ exists i, (i <= length str)%nat /\ l = take i str) _
      (fun l _ => (length str - length l)%nat)).
    - intros l u [-> (i & Hi & ->)]. unfold ustring_body. rewrite length_take, Nat.min_l by lia.
      destruct (decide (i = length str)) as [->|Hne].
      + apply wp_bind, wp_Ok. exists 0, s. split; [apply Hstr; by rewrite lookup_app_r, Nat.sub_diag by lia|].
        apply wp_ret. by rewrite firstn_all.
      + destruct (lookup_lt_is_Some_2 str i ltac:(lia)) as [b Hb]. pose proof (plain_char _ _ _ Hpl Hb).
        apply wp_bind, wp_Ok. exists b, s. split; [apply Hstr; by apply lookup_app_l_Some|].
        rewrite (proj2 (Z.eqb_neq b 0)) by lia. apply wp_ret. split.
        * split; [done|]. exists (S i). split; [lia|]. symmetry. by apply take_S_r.
        * rewrite length_app, length_take. cbn. lia.
    - split; [done|]. exists 0%nat. split; [lia|done].
    - cbn. lia. }
  apply wp_Ok in Hwp as (l & u & E & -> & ->). exact E.
Qed.
End strings.

Lemma cstring_app str rest : plain str -> cstring (str ++ 0 :: rest) = str.
Proof.
  intros Hp. induction Hp as [|b str Hb Hp IH]; [done|]. cbn [app cstring]. rewrite (proj2 (Z.eqb_neq b 0)) by lia. by rewrite IH.
Qed.

Lemma copied_cstring buf str : plain str -> (length str < length buf)%nat -> cstring (copied_string buf str) = str.
Proof. intros Hp Hl. unfold copied_string. rewrite decide_True by done. by apply cstring_app. Qed.

Lemma copied_length buf str : (0 < length buf)%nat -> length (copied_string buf str) = length buf.
Proof.
  intros Hb. unfold copied_string. case_decide; rewrite length_app; cbn [length].
  - rewrite length_drop. lia.
  - rewrite length_take. lia.
Qed.

Lemma copied_bytes buf str : Forall (fun b => 0 <= b < 256) buf -> plain str -> Forall (fun b => 0 <= b < 256) (copied_string buf str).
Proof.
  intros Hb Hp. assert (Forall (fun b => 0 <= b < 256) str) as Hp' by (eapply Forall_impl; [exact Hp|]; cbn; lia).
  unfold copied_string. case_decide; apply Forall_app; (split; [by try apply Forall_take|]); constructor; try lia; [by apply Forall_drop|constructor].
Qed.

Section main.
Context (kpt D : Z).
Notation pte := (pte kpt).
Notation upd_pte := (upd_pte kpt).
Notation vm_wf := (vm_wf kpt).
Notation slot_maps := (slot_maps kpt).
Notation slot_free := (slot_free kpt).
Notation sys_ok := (sys_ok kpt).
Notation in_use := (in_use kpt).
Notation own_space := (own_space kpt D).
Notation old_frames := (old_frames D).
Notation dir_entry := (dir_entry D).

(** ** The memory of the caller *)

(** A byte that the caller can read, in memory that is not the kernel page table. *)
Definition user_byte (s : mmu) (va b : Z) : Prop :=
  u32 va / 2 ^ 22 < 1019 /\
  exists pa, resolve (pmem s) D (u32 va) = Some pa /\ pa / 4096 <> kpt / 4096 /\ rdb (pmem s) pa = b.

Lemma table_not_kpt s i : sys_ok s -> own_space s -> 0 <= i < 1019 -> dir_entry s i <> 0 -> dir_entry s i / 4096 <> kpt / 4096.
Proof.
  intros Hs Ho Hi Hne. destruct (os_frames _ _ _ Ho (dir_entry s i / 4096)) as (_ & H & _); [|done].
  exists i. split; [done|]. split; [done|by left].
Qed.

(** Mappings in the window do not change what is read. *)
Lemma user_stable s u va b : sys_ok s -> own_space s -> (forall pa, pa / 4096 <> kpt / 4096 -> rd (pmem u) pa = rd (pmem s) pa) ->
  user_byte s va b -> ubyte D va u = Ok (b, u).
Proof.
  intros Hs Ho Hm (Hva & pa & Er & Hpa & <-). pose proof (os_align _ _ _ Ho) as HD. destruct (os_dir _ _ _ Ho) as [_ HDk].
  assert (0 <= u32 va < 2 ^ 32) as Hr by (apply Z.mod_pos_bound; lia). destruct (pgdir_i_range (u32 va) Hr) as [Hi0 _].
  assert (resolve (pmem u) D (u32 va) = Some pa) as Eu.
  { rewrite <- Er. unfold resolve, walk. rewrite Hm by (rewrite frame_word by (done || lia); done).
    fold (dir_entry s (u32 va / 2 ^ 22)). set (e := dir_entry s (u32 va / 2 ^ 22)).
    destruct (pt_present e) eqn:Ep; [|done]. cbn [negb].
    assert (e <> 0) as Hne by (intros E; rewrite E in Ep; done).
    assert (pd_page_size e = false) as -> by (by apply (os_small _ _ _ Ho)).
    pose proof (Z.mod_pos_bound (u32 va / 4096) 1024 ltac:(lia)) as Hj.
    rewrite (Hm (e / 4096 * 4096 + _)); [done|]. rewrite frame_word; [|apply Z.mod_mul; lia|done].
    rewrite Z.div_mul by lia. by apply table_not_kpt. }
  rewrite (ubyte_ok D u va pa Eu). do 2 f_equal. apply rdb_same, Hm. destruct (word_of pa) as (_ & _ & ->). done.
Qed.

Definition user_string (s : mmu) (va : Z) (str : list Z) : Prop :=
  forall k b, (str ++ [0]) !! k = Some b -> user_byte s (va + Z.of_nat k) b.

(** What a call of exec needs: a window with free slots, an address space of its own, the
    argument vector and the path. *)
Record caller (s : mmu) (filename argv argv0 : Z) (name arg : list Z) : Prop := mkCaller {
  ca_sys : sys_ok s;
  ca_space : own_space s;
  ca_slots : at_least (slot_free s) 4;
  ca_argv : argv <> 0 /\ argv0 <> 0 /\ 0 <= argv0 < 2 ^ 32;
  ca_vector : forall k, 0 <= k < 4 -> user_byte s (argv + k) (byte_of argv0 k);
  ca_arg : plain arg /\ user_string s argv0 arg;
  ca_name : plain name /\ user_string s filename name /\ (length name < 256)%nat
}.

(** ** The beginning *)

(** The directory and a fresh frame are mapped. *)
Record prologue (s : mmu) (d f a : Z) (n : nat) (u : mmu) : Prop := mkPrologue {
  pr_sys : sys_ok u;
  pr_d : slot_maps u d D;
  pr_a : slot_maps u a (4096 * f);
  pr_slots : pte s d = 0 /\ pte s a = 0 /\ d <> a /\ d <> KERN_PGT_SLOT /\ a <> KERN_PGT_SLOT;
  pr_pte : forall i, i <> d -> i <> a -> pte u i = pte s i;
  pr_range : 0 <= f < 2 ^ 20;
  pr_free : is_free (frames s) f = true;
  pr_kpt : f <> kpt / 4096;
  pr_limit : mm_limit (frames u) = mm_limit (frames s);
  pr_frames : forall m, 0 <= m -> is_free (frames u) m = if m =? f then false else is_free (frames s) m;
  pr_rest : forall pa, pa <> kpt + 4 * d -> pa <> kpt + 4 * a -> rd (pmem u) pa = rd (pmem s) pa;
  pr_left : at_least (slot_free u) 2 /\ at_least (frame_free u) n
}.

Lemma prologue_ok s n : sys_ok s -> own_space s -> at_least (slot_free s) 4 -> at_least (frame_free s) (S n) ->
  exists d f a s1 s2 u, map_virtual_page kpt (Z.lor D 3) s = Ok (kernelstart + 4096 * d, s1) /\
    on_frames alloc_phys_frame s1 = Ok (4096 * f, s2) /\
    map_virtual_page kpt (Z.lor (4096 * f) 3) s2 = Ok (kernelstart + 4096 * a, u) /\ prologue s d f a n u.
Proof.
  intros Hs Ho Hsl Hn. pose proof (os_align _ _ _ Ho) as HD. pose proof (os_range _ _ _ Ho) as HDr.
  destruct (map_fresh kpt s 3 D Hs Hsl HD HDr) as (d & E1 & Hd & Hd0 & Hdk & Hs1 & Hm1 & Hsl1).
  set (s1 := upd_pte d (Z.lor D 3) s) in *.
  destruct (take_frame kpt s1 n Hs1 Hn) as (f & p & E2 & Ht & Hs2). pose proof Ht as [Hf Hff Hfk [_ Hl _] Hleft].
  destruct (frame_page f) as [Hfal _]. set (s2 := set_frames p s1) in *.
  destruct (map_fresh kpt s2 2 (4096 * f) Hs2 Hsl1 Hfal ltac:(lia)) as (a & E3 & Ha & Ha0 & Hak & Hs3 & Hm3 & Hsl3).
  exists d, f, a, s1, s2, (upd_pte a (Z.lor (4096 * f) 3) s2).
  assert (d <> a) as Hda. { intros ->. destruct Hm1 as (_ & Hp & _). change (pte s1 a = 0) in Ha0. by rewrite Ha0 in Hp. }
  split; [done|]. split; [done|]. split; [done|]. split; try done.
  - apply slot_maps_other; [exact Hm1|done].
  - change (pte s1 a = 0) in Ha0. unfold s1 in Ha0. rewrite pte_upd, (proj2 (Z.eqb_neq _ _)) in Ha0 by done. done.
  - intros i H1 H2. rewrite pte_upd, (proj2 (Z.eqb_neq _ _)) by done. change (pte s1 i = pte s i). unfold s1.
    by rewrite pte_upd, (proj2 (Z.eqb_neq _ _)).
  - intros m Hm. by apply (took_marks kpt s1 n f p m Ht).
  - intros pa H1 H2. rewrite rd_upd by done. change (rd (pmem s1) pa = rd (pmem s) pa). unfold s1. by rewrite rd_upd.
Qed.

Section started.
Context (s : mmu) (d f a : Z) (n : nat) (u : mmu).
Context (Hs : sys_ok s) (Ho : own_space s) (Hp : prologue s d f a n u).

Lemma started_mem pa : pa / 4096 <> kpt / 4096 -> rd (pmem u) pa = rd (pmem s) pa.
Proof using Hs Hp.
  intros Hpa. destruct (sys_kpt kpt s Hs) as [Hka _]. apply (pr_rest _ _ _ _ _ _ Hp); intros ->; apply Hpa, frame_word; try done;
    [apply (pr_d _ _ _ _ _ _ Hp)|apply (pr_a _ _ _ _ _ _ Hp)].
Qed.

Lemma started_entry i : 0 <= i < 1024 -> dir_entry u i = dir_entry s i /\ table_of u D i = table_of s D i.
Proof using Hs Ho Hp.
  intros Hi. assert (dir_entry u i = dir_entry s i) as E.
  { apply started_mem. rewrite frame_word by (done || apply Ho). apply Ho. }
  split; [done|]. unfold table_of. fold (dir_entry u i) (dir_entry s i). by rewrite E.
Qed.

Lemma started_old m : old_frames u 1019 m <-> old_frames s 1019 m.
Proof using Hs Ho Hp.
  assert (forall i j, 0 <= i < 1019 -> dir_entry s i <> 0 -> 0 <= j < 1024 ->
    rd (pmem u) (table_of s D i + 4 * j) = rd (pmem s) (table_of s D i + 4 * j)) as Ht.
  { intros i j Hi Hne Hj. destruct (table_frame kpt D s i (so_vm _ _ Hs)) as (E & Hal & _). apply started_mem. rewrite frame_word by done.
    rewrite E. by apply table_not_kpt. }
  split; intros (i & Hi & Hne & Hm); destruct (started_entry i ltac:(lia)) as [E1 E2]; exists i; (split; [done|]);
    rewrite E1, E2 in *; (split; [done|]); (destruct Hm as [Hm|(j & Hj & Hm)]; [by left|right; exists j; split; [done|]]);
    rewrite Ht in *; done.
Qed.

(** The fresh frame is none of the old address space. *)
Lemma started_fresh : f <> D / 4096 /\ ~ old_frames u 1019 f /\ in_use u (4096 * f).
Proof using Hs Ho Hp.
  pose proof (pr_free _ _ _ _ _ _ Hp) as Hf. destruct (os_dir _ _ _ Ho) as [HD _]. destruct (frame_page f) as [_ E]. split_and!.
  - congruence.
  - rewrite started_old. intros Hm. destruct (os_frames _ _ _ Ho f Hm) as [Hu _]. congruence.
  - split; rewrite E; [|apply Hp]. pose proof (pr_range _ _ _ _ _ _ Hp). by rewrite (pr_frames _ _ _ _ _ _ Hp), Z.eqb_refl by lia.
Qed.

Lemma started_used m : 0 <= m -> is_free (frames s) m = false -> is_free (frames u) m = false.
Proof using Hp. intros Hm H. rewrite (pr_frames _ _ _ _ _ _ Hp) by done. by destruct (m =? f). Qed.

Lemma started_space : own_space u.
Proof using Hs Ho Hp.
  pose proof Ho as [HD HDr [HDu HDk] Hsm Hinj Hof].
  split; try done.
  - split; [apply started_used; [apply Z.div_pos; lia|done]|done].
  - intros i Hi. destruct (started_entry i ltac:(lia)) as [-> _]. by apply Hsm.
  - intros i k Hi Hk. destruct (started_entry i ltac:(lia)) as [-> ->], (started_entry k ltac:(lia)) as [-> ->]. by apply Hinj.
  - intros m Hm%started_old. destruct (Hof m Hm) as (H1 & H2 & H3). split; [|done]. apply started_used; [|done].
    by apply (old_frames_nonneg kpt D s); [apply Hs|].
Qed.

(** ** The error returns *)

Lemma exec_undo_ok : exists p, exec_undo kpt (kernelstart + 4096 * d) (kernelstart + 4096 * a) (4096 * f + 3) u = Ok (tt, set_frames p s) /\
  phys_wf p /\ mm_limit p = mm_limit (frames s) /\ forall m, 0 <= m -> is_free p m = is_free (frames s) m.
Proof using Hs Hp.
  pose proof Hp as [Hsu Hd Ha (Hd0 & Ha0 & Hda & Hdk & Hak) Hpte Hfr Hfree Hfk Hl Hfm Hrest _]. destruct (frame_page f) as [Hfal Hfd].
  destruct (release_frame_ok u f (so_phys _ _ Hsu) Hfr) as (p & Er & Hpf).
  assert (vm_wf (set_frames p u)) as Hv1 by (apply frames_vm, Hsu). destruct Hd as (Hdr & _), Ha as (Har & _).
  assert (vm_wf (upd_pte d 0 (set_frames p u))) as Hv2 by (apply upd_wf; [done|done|lia]).
  exists p. split; [|split; [apply Hpf|split; [rewrite (fr_limit _ _ _ Hpf); done|]]].
  - unfold exec_undo. rewrite Z.shiftr_div_pow2 by lia. change (2 ^ 12) with 4096. rewrite frame_byte, Hfd by (done || lia).
    erewrite bind_Ok_eq by exact Er. erewrite bind_Ok_eq by (by apply unmap_slot). rewrite unmap_slot by done. do 2 f_equal.
    unfold Virtual.upd_pte, set_frames, set_pmem. cbn [pmem stale frames].
    f_equal; [|rewrite (vw_stale _ _ (so_vm _ _ Hsu)); by rewrite (vw_stale _ _ (so_vm _ _ Hs))].
    apply mem_ext; [apply (vo_words _ _ (vw_ok _ _ (upd_wf kpt _ a 0 Hv2 Hak ltac:(lia))))|apply (vo_words _ _ (vw_ok _ _ (so_vm _ _ Hs)))|].
    intros pa. rewrite !rd_wr. destruct (Z.eqb_spec pa (kpt + 4 * a)) as [->|]; [by rewrite <- Ha0|].
    destruct (Z.eqb_spec pa (kpt + 4 * d)) as [->|]; [by rewrite <- Hd0|]. by apply Hrest.
  - intros m Hm. pose proof (fr_free _ _ _ Hpf m Hm) as Hiff. rewrite Hfm in Hiff by done.
    destruct (Z.eqb_spec m f) as [->|]; [rewrite Hfree; by apply Hiff; right|].
    destruct (is_free p m), (is_free (frames s) m); try done; [destruct (proj1 Hiff eq_refl); done|]. by destruct (proj2 Hiff (or_introl eq_refl)).
Qed.
End started.

(** ** The file in memory *)

Definition bytes_fun (bytes : list Z) (o : Z) : Z := nth (Z.to_nat o) bytes 0.

Lemma bytes_fun_ok bytes k b : bytes !! k = Some b -> bytes_fun bytes (Z.of_nat k) = b.
Proof. intros H. unfold bytes_fun. rewrite Nat2Z.id. by apply nth_lookup_Some. Qed.

Lemma file_stored FP d a s PT t fr n v bytes (len := Z.of_nat (length bytes)) : 0 <= len <= 2 ^ 22 ->
  Forall (fun b => 0 <= b < 256) bytes -> made kpt D FP d a len s PT t fr n v ->
  exists w, store kpt D pe (Some <$> bytes) v = Ok (tt, w) /\ only kpt (fun m => exists i, 0 <= i < file_pages len /\ m = fr i) v w /\
    base kpt D FP PT d a t w /\ file_view kpt D FP PT len fr (bytes_fun bytes) w.
Proof.
  intros Hl Hb Hm. set (T := fun m => exists i, 0 <= i < file_pages len /\ m = fr i).
  pose proof Hm as [Hbase [Hdir Hfr] Huse Hap Hinj _ _ _ _ _ _ _ _ _]. pose proof (few_pages len Hl) as Hnp.
  destruct (base_aligned _ _ _ _ _ _ _ _ Hbase) as (HD & HF & HP & _).
  assert (forall m, T m -> m <> kpt / 4096 /\ m <> D / 4096 /\ m <> FP / 4096 /\ m <> PT / 4096) as HT.
  { intros m (i & Hi & ->). destruct (Huse i Hi) as [[_ Hk] _]. destruct (frame_page (fr i)) as [_ E]. rewrite E in Hk.
    destruct (Hap i Hi) as (? & ? & ?). done. }
  assert (forall w, only kpt T v w -> dir_entry w 1021 = FP + 3 /\ forall i, 0 <= i < file_pages len -> rd (pmem w) (FP + 4 * i) = 4096 * fr i + 3) as Htab.
  { intros w [_ _ Hr]. split.
    - rewrite <- Hdir. apply Hr. rewrite frame_word by (done || lia). intros H%HT. tauto.
    - intros i Hi. rewrite Hr; [by apply Hfr|]. rewrite frame_word by (done || lia). intros H%HT. tauto. }
  assert (forall o, 0 <= o < len -> (4096 * fr (o / 4096) + o mod 4096) / 4096 = fr (o / 4096)) as Epg.
  { intros o Ho. destruct (frame_page (fr (o / 4096))) as [Hal E]. rewrite frame_byte; [done|done|apply Z.mod_pos_bound; lia]. }
  destruct (store_ok kpt D T v (fun o => 4096 * fr (o / 4096) + o mod 4096) bytes Hb ltac:(intros m Hm'%HT; tauto) pe 0 v)
    as (w & Ew & Hw & Hin & _); fold len.
  { split; [apply (bs_sys _ _ _ _ _ _ _ _ Hbase)|done|done]. }
  { intros x o Hx Ho. rewrite Z.sub_0_r. destruct (Htab x Hx) as [E1 E2]. apply (resolve_file D FP len fr); try done.
    apply E2. apply file_page_index. lia. }
  { intros o Ho. rewrite Epg by lia. exists (o / 4096). split; [apply file_page_index; lia|done]. }
  { intros o o' Ho Ho' E. assert (o / 4096 = o' / 4096) as Eq.
    { apply Hinj; [apply file_page_index; lia|apply file_page_index; lia|]. rewrite <- Epg, <- (Epg o') by lia. by rewrite E. }
    rewrite Eq in E. pose proof (Z.div_mod o 4096 ltac:(lia)). pose proof (Z.div_mod o' 4096 ltac:(lia)). lia. }
  destruct (Htab w Hw) as [E1 E2].
  exists w. split; [exact Ew|]. split; [exact Hw|]. split; [by eapply base_only|]. split; try done.
  - split; [done|done|]. intros o Ho. destruct (lookup_lt_is_Some_2 bytes (Z.to_nat o) ltac:(lia)) as [b Hbo].
    pose proof (Hin _ _ Hbo) as Er. rewrite Z2Nat.id in Er by lia. rewrite Z.add_0_l in Er. rewrite Er.
    symmetry. pose proof (bytes_fun_ok _ _ _ Hbo) as Eb. by rewrite Z2Nat.id in Eb by lia.
  - intros i Hi. unfold Clone.in_use. rewrite (on_frames_eq _ _ _ _ Hw). by apply Huse.
  - intros i Hi. by apply Huse.
Qed.

(** ** The new program *)

(** The program finds [b] at [va], in a frame that was free or its own before. *)
Definition own_byte (s u : mmu) (va b : Z) : Prop :=
  exists f, walk (pmem u) D va = SmallPage (4096 * f) /\ rdb (pmem u) (4096 * f + va mod 4096) = b /\
    is_free (frames u) f = false /\ (is_free (frames s) f = true \/ old_frames s 1019 f).

Record program_loaded (s u : mmu) (args : list Z) (B : Z -> Z) : Prop := mkProgram {
  pl_sys : sys_ok u;
  pl_window : forall i, 0 <= i < 1024 -> pte u i = pte s i;
  pl_segment : forall k p j, 0 <= k < header_count B -> in_segment B k p -> 0 <= j < 4096 ->
    own_byte s u (4096 * p + j) (seg_byte B (header B k) p j);
  pl_video : forall p, 0x200 <= p < 0x210 -> walk (pmem u) D (4096 * p) = SmallPage (0xA0000 + 4096 * (p - 0x200));
  pl_stack : forall va, 0x3F0000 <= va < 0x400000 - 100 -> own_byte s u va 0;
  pl_args : exists f, walk (pmem u) D (0x400000 - 100) = SmallPage (4096 * f) /\ arguments args (pmem u) (4096 * f);
  pl_unmapped : forall p, 0 <= p < 1008 -> ~ in_first B (header_count B) p -> ~ 0x200 <= p < 0x210 ->
    walk (pmem u) D (4096 * p) = NotPresent;
  pl_high : forall i, 1 <= i < 1024 -> dir_entry u i = if (i <? 1019) || (i =? 1021) then 0 else dir_entry s i;
  pl_others : forall pa, 0 <= pa -> is_free (frames s) (pa / 4096) = false -> ~ old_frames s 1019 (pa / 4096) ->
    pa / 4096 <> D / 4096 -> is_free (frames u) (pa / 4096) = false /\
    forall k, 0 <= k < 1024 -> rd (pmem u) (4096 * (pa / 4096) + 4 * k) = rd (pmem s) (4096 * (pa / 4096) + 4 * k);
  pl_balance : forall m, 0 <= m -> is_free (frames u) m = false ->
    (is_free (frames s) m = false /\ ~ old_frames s 1019 m) \/ m = dir_entry u 0 / 4096 \/
    exists p, 0 <= p < 1024 /\ walk (pmem u) D (4096 * p) = SmallPage (4096 * m)
}.

(** A page of the new table. *)
Lemma walk_entry m PT va e : PT mod 4096 = 0 -> rd m (D + 4 * 0) = PT + 7 -> 0 <= va < 2 ^ 22 -> rd m (PT + 4 * (va / 4096)) = e ->
  walk m D va = if pt_present e then SmallPage (e / 4096 * 4096) else NotPresent.
Proof.
  intros HP E0 Hva E. unfold walk. rewrite (Z.div_small va (2 ^ 22)), E0 by lia.
  destruct (flags_present PT 7 HP) as (Hx & -> & ->); [by right|]. destruct (entry_parts PT 7 HP Hx) as (-> & _). cbn [negb].
  rewrite (Z.mod_small (va / 4096)) by (split; [apply Z.div_pos; lia|apply Z.div_lt_upper_bound; lia]). rewrite E. by destruct (pt_present e).
Qed.

Lemma walk_frame m PT va f : PT mod 4096 = 0 -> rd m (D + 4 * 0) = PT + 7 -> 0 <= va < 2 ^ 22 -> rd m (PT + 4 * (va / 4096)) = 4096 * f + 7 ->
  walk m D va = SmallPage (4096 * f).
Proof.
  intros HP E0 Hva E. rewrite (walk_entry m PT va _ HP E0 Hva E). destruct (frame_page f) as [Hal _].
  destruct (flags_present (4096 * f) 7 Hal) as (Hx & -> & _); [by right|]. by destruct (entry_parts (4096 * f) 7 Hal Hx) as (-> & _).
Qed.

Section loaded.
Context (s s1 v w u : mmu) (d f a PT t : Z) (n n' : nat) (fr : Z -> Z) (bytes args : list Z).
Notation len := (Z.of_nat (length bytes)).
Notation B := (bytes_fun bytes).
Notation np := (file_pages len).
Notation FP := (4096 * f).
Context (Hs : sys_ok s) (Ho : own_space s) (Hp : prologue s d f a n s1) (Hi : image_ok len B).
Context (Hm : made kpt D FP d a len s1 PT t fr n' v).
Context (Hw : only kpt (fun m => exists i, 0 <= i < np /\ m = fr i) v w).
Context (Hl : image_loaded kpt D FP PT d a t len fr B w u args).

Lemma loaded_base : base kpt D FP PT d a t v.
Proof using Hm. apply Hm. Qed.

(** Words that the file does not occupy. *)
Lemma loaded_word pa : (forall i, 0 <= i < np -> pa / 4096 <> fr i) -> rd (pmem w) pa = rd (pmem v) pa.
Proof using Hw. intros H. apply (on_rest _ _ _ _ Hw). intros (i & Hir & E). by apply (H i). Qed.

Lemma file_apart i : 0 <= i < np -> kpt / 4096 <> fr i /\ D / 4096 <> fr i /\ PT / 4096 <> fr i.
Proof using Hm.
  intros Hir. destruct (md_use _ _ _ _ _ _ _ _ _ _ _ _ Hm i Hir) as [[_ Hk] _]. destruct (frame_page (fr i)) as [_ E]. rewrite E in Hk.
  destruct (md_apart _ _ _ _ _ _ _ _ _ _ _ _ Hm i Hir) as (? & ? & ?). split_and!; congruence.
Qed.

Lemma loaded_new m : 0 <= m -> new_frame len fr w m -> is_free (frames s) m = true \/ old_frames s 1019 m.
Proof using Hs Ho Hp Hm Hw.
  intros H0 Hnew. assert (is_free (frames s1) m = true \/ old_frames s1 1019 m) as H1.
  { destruct Hnew as [Hf|Hf].
    - rewrite (on_frames_eq _ _ _ _ Hw) in Hf. by apply (md_free _ _ _ _ _ _ _ _ _ _ _ _ Hm).
    - apply (md_new _ _ _ _ _ _ _ _ _ _ _ _ Hm); [done|by right]. }
  rewrite (started_old s d f a n s1 Hs Ho Hp) in H1. destruct H1 as [H1|H1]; [|by right]. left.
  rewrite (pr_frames _ _ _ _ _ _ Hp) in H1 by done. by destruct (m =? f).
Qed.

Lemma loaded_dir0 : rd (pmem u) (D + 4 * 0) = PT + 7.
Proof using Hm Hw Hl.
  destruct (base_aligned _ _ _ _ _ _ _ _ loaded_base) as (HD & _).
  rewrite (il_dir _ _ _ _ _ _ _ _ _ _ _ _ _ Hl 0) by lia. cbn [Z.eqb Pos.eqb]. rewrite loaded_word; [apply (bs_dir _ _ _ _ _ _ _ _ loaded_base)|].
  intros i Hir. rewrite frame_word by (done || lia). by apply file_apart.
Qed.

Lemma mapped_byte p g C j : 0 <= p < 1024 -> 0 <= j < 4096 -> mapped PT len fr w u p g C -> own_byte s u (4096 * p + j) (C j).
Proof using Hs Ho Hp Hm Hw Hl.
  intros Hpr Hj [E1 E2 E3 E4 E5]. destruct (base_aligned _ _ _ _ _ _ _ _ loaded_base) as (_ & _ & HP & _).
  destruct (frame_page p) as [Hpa Hpd].
  assert ((4096 * p + j) / 4096 = p) as Ep by (rewrite frame_byte by done; done).
  assert ((4096 * p + j) mod 4096 = j) as Ej by (apply entry_parts; [done|lia]).
  exists g. split_and!; [|rewrite Ej; by apply E5|done|apply loaded_new; [lia|done]].
  apply (walk_frame _ PT); [done|apply loaded_dir0|lia|by rewrite Ep].
Qed.

Lemma loaded_window i : 0 <= i < 1024 -> pte u i = pte s i.
Proof using Hs Hp Hm Hw Hl.
  intros Hir. destruct (sys_kpt kpt s Hs) as [Hka _]. rewrite (il_kpt _ _ _ _ _ _ _ _ _ _ _ _ _ Hl i Hir).
  pose proof (pr_slots _ _ _ _ _ _ Hp) as (Hd0 & Ha0 & _). destruct (md_pte _ _ _ _ _ _ _ _ _ _ _ _ Hm) as [Ht0 Hpte].
  destruct (Z.eqb_spec i d) as [->|Hd]; [by rewrite Hd0|]. destruct (Z.eqb_spec i t) as [->|Ht].
  - cbn [orb]. destruct (decide (t = a)) as [->|Hta]; [by rewrite Ha0|].
    rewrite <- (pr_pte _ _ _ _ _ _ Hp t) by done. by rewrite Ht0.
  - destruct (Z.eqb_spec i a) as [->|Ha]; [by rewrite Ha0|]. cbn [orb]. rewrite <- (pr_pte _ _ _ _ _ _ Hp i) by done.
    rewrite <- Hpte by done. apply loaded_word. intros k Hk. rewrite frame_word by done. by apply file_apart.
Qed.

Lemma loaded_high i : 1 <= i < 1024 -> dir_entry u i = if (i <? 1019) || (i =? 1021) then 0 else dir_entry s i.
Proof using Hs Ho Hp Hm Hw Hl.
  intros Hir. destruct (base_aligned _ _ _ _ _ _ _ _ loaded_base) as (HD & _).
  unfold ExecSpace.dir_entry at 1. rewrite (il_dir _ _ _ _ _ _ _ _ _ _ _ _ _ Hl i) by lia.
  destruct (Z.eqb_spec i 1021); [by rewrite orb_true_r|]. rewrite orb_false_r.
  rewrite loaded_word by (intros k Hk; rewrite frame_word by (done || lia); by apply file_apart).
  fold (dir_entry v i). rewrite (md_dir _ _ _ _ _ _ _ _ _ _ _ _ Hm) by lia. destruct (i <? 1019); [done|].
  apply (started_entry s d f a n s1 Hs Ho Hp). lia.
Qed.

Lemma loaded_others pa : 0 <= pa -> is_free (frames s) (pa / 4096) = false -> ~ old_frames s 1019 (pa / 4096) ->
  pa / 4096 <> D / 4096 -> pa / 4096 <> kpt / 4096 -> rd (pmem u) pa = rd (pmem s) pa /\ is_free (frames u) (pa / 4096) = false.
Proof using Hs Ho Hp Hm Hw Hl.
  intros H0 Hf Hno HnD Hnk. assert (0 <= pa / 4096) as Hpg by (apply Z.div_pos; lia). destruct (frame_page f) as [_ EF].
  pose proof (started_used s d f a n s1 Hp _ Hpg Hf) as Hf1.
  assert (pa / 4096 <> FP / 4096) as HnF by (rewrite EF; pose proof (pr_free _ _ _ _ _ _ Hp); congruence).
  assert (~ old_frames s1 1019 (pa / 4096)) as Hno1 by (by rewrite (started_old s d f a n s1 Hs Ho Hp)).
  assert (forall m, m = PT / 4096 \/ (exists i, 0 <= i < np /\ m = fr i) -> 0 <= m -> pa / 4096 <> m) as Hn.
  { intros m Hor Hm0 E. destruct (md_new _ _ _ _ _ _ _ _ _ _ _ _ Hm m Hm0 Hor) as [H|H]; rewrite <- E in H; [congruence|done]. }
  destruct (base_aligned _ _ _ _ _ _ _ _ loaded_base) as (_ & _ & _ & _ & _ & HP0).
  assert (pa / 4096 <> PT / 4096) as HnP by (apply Hn; [by left|apply Z.div_pos; lia]).
  assert (forall k, 0 <= k < np -> pa / 4096 <> fr k) as HnX.
  { intros k Hk. apply Hn; [right; by exists k|]. destruct (md_use _ _ _ _ _ _ _ _ _ _ _ _ Hm k Hk). lia. }
  assert (is_free (frames w) (pa / 4096) = false) as Hfw.
  { rewrite (on_frames_eq _ _ _ _ Hw). destruct (is_free (frames v) (pa / 4096)) eqn:E; [|done].
    apply (md_free _ _ _ _ _ _ _ _ _ _ _ _ Hm) in E as [E|E]; [congruence|done|done]. }
  destruct (il_mem _ _ _ _ _ _ _ _ _ _ _ _ _ Hl pa H0 Hfw) as [E1 E2]; [tauto|done|]. split; [|done].
  rewrite E1, loaded_word by done. rewrite (md_mem _ _ _ _ _ _ _ _ _ _ _ _ Hm) by done. by apply (started_mem s d f a n s1 Hs Hp).
Qed.

Lemma loaded_balance m : 0 <= m -> is_free (frames u) m = false ->
  (is_free (frames s) m = false /\ ~ old_frames s 1019 m) \/ m = dir_entry u 0 / 4096 \/
  exists p, 0 <= p < 1024 /\ walk (pmem u) D (4096 * p) = SmallPage (4096 * m).
Proof using Hs Ho Hp Hm Hw Hl.
  intros H0 Hf. destruct (base_aligned _ _ _ _ _ _ _ _ loaded_base) as (_ & _ & HP & _). destruct (frame_page f) as [_ EF].
  destruct (il_free _ _ _ _ _ _ _ _ _ _ _ _ _ Hl m H0 Hf) as [(Hfw & HnF & Hfr)|(p & Hpr & Ep)].
  - rewrite (on_frames_eq _ _ _ _ Hw) in Hfw.
    destruct (md_used _ _ _ _ _ _ _ _ _ _ _ _ Hm m H0 Hfw) as [[H1 H2]|[->|(i & Hir & ->)]].
    + left. rewrite (started_old s d f a n s1 Hs Ho Hp) in H2. split; [|done]. rewrite (pr_frames _ _ _ _ _ _ Hp) in H1 by done.
      destruct (Z.eqb_spec m f); [congruence|done].
    + right. left. unfold ExecSpace.dir_entry. rewrite loaded_dir0. rewrite frame_byte; [done|done|lia].
    + by destruct (Hfr i Hir).
  - right. right. exists p. split; [done|]. apply (walk_frame _ PT); [done|apply loaded_dir0|lia|]. by rewrite (proj2 (frame_page p)).
Qed.

Lemma program_ok : program_loaded s u args B.
Proof using All.
  destruct (base_aligned _ _ _ _ _ _ _ _ loaded_base) as (_ & _ & HP & _). pose proof loaded_dir0 as Hd0.
  destruct (sys_kpt kpt s Hs) as [Hka Hkr]. split.
  - apply Hl.
  - apply loaded_window.
  - intros k p j Hk Hseg Hj. destruct (il_segment _ _ _ _ _ _ _ _ _ _ _ _ _ Hl k p Hk Hseg) as (g & Hg).
    apply (mapped_byte p g _ j); [|done|done]. pose proof (im_place _ _ Hi p ltac:(by exists k)) as Hpl.
    destruct Hseg as [Hld Hpg]. pose proof (sg_vaddr _ _ (im_segments _ _ Hi k Hk Hld)).
    assert (0 <= first_page (header B k)) by (apply Z.div_pos; lia). lia.
  - intros p Hpv. pose proof (il_video _ _ _ _ _ _ _ _ _ _ _ _ _ Hl p Hpv) as E.
    replace (0xA0000 + 4096 * (p - 0x200)) with (4096 * (p - 352)) in * by lia.
    apply (walk_frame _ PT); [done|done|lia|]. by rewrite (proj2 (frame_page p)).
  - intros va Hva. pose proof (Z.div_mod va 4096 ltac:(lia)) as Ediv. pose proof (Z.mod_pos_bound va 4096 ltac:(lia)).
    assert (1008 <= va / 4096 < 1024) as Hpg by (split; [apply Z.div_le_lower_bound; lia|apply Z.div_lt_upper_bound; lia]). rewrite Ediv.
    destruct (decide (va / 4096 = 1023)) as [E|].
    + rewrite E. destruct (il_top _ _ _ _ _ _ _ _ _ _ _ _ _ Hl) as (g & C & Hg & HC & _).
      rewrite <- (HC (va mod 4096)) by lia. apply (mapped_byte 1023 g); [lia|lia|done].
    + destruct (il_stack _ _ _ _ _ _ _ _ _ _ _ _ _ Hl (va / 4096) ltac:(lia)) as (g & Hg).
      apply (mapped_byte (va / 4096) g (fun _ => 0)); [lia|lia|done].
  - destruct (il_top _ _ _ _ _ _ _ _ _ _ _ _ _ Hl) as (g & C & Hg & _ & Harg). exists g. split; [|done].
    apply (walk_frame _ PT); [done|done|lia|]. apply (ma_entry _ _ _ _ _ _ _ _ Hg).
  - intros p Hpr Hnf Hnv. rewrite (walk_entry _ PT (4096 * p) 0 HP Hd0); [done|lia|]. rewrite (proj2 (frame_page p)).
    rewrite (il_rest _ _ _ _ _ _ _ _ _ _ _ _ _ Hl) by done. rewrite loaded_word.
    + apply (md_zero _ _ _ _ _ _ _ _ _ _ _ _ Hm). lia.
    + intros i Hir. rewrite frame_word by (done || lia). by apply file_apart.
  - apply loaded_high.
  - intros pa H0 Hf Hno HnD. destruct (frame_page (pa / 4096)) as [Hal Ed].
    assert (0 <= pa / 4096) as Hpg by (apply Z.div_pos; lia).
    destruct (decide (pa / 4096 = kpt / 4096)) as [E|Hnk].
    + rewrite E. split; [apply (so_kpt _ _ (il_sys _ _ _ _ _ _ _ _ _ _ _ _ _ Hl))|]. intros k Hk.
      replace (4096 * (kpt / 4096)) with kpt by (pose proof (Z.div_mod kpt 4096 ltac:(lia)); lia). by apply loaded_window.
    + split; [by apply loaded_others|]. intros k Hk. apply loaded_others; rewrite ?frame_word, ?Ed by done; done || lia.
  - apply loaded_balance.
Qed.
End loaded.

(** ** The system call *)

Section syscall.
Context {W : Type} `{FileSystems W}.

Lemma on_mem_ok {A} (m : M mmu A) s (fs : vfs W) r u : m s = Ok (r, u) -> on_mem m (mkProg s fs) = Ok (r, mkProg u fs).
Proof. intros E. unfold on_mem. cbn [p_mem]. by rewrite E. Qed.

Lemma on_vfs_ok {A} (m : M (vfs W) A) s (fs : vfs W) r fs' : m fs = Ok (r, fs') -> on_vfs m (mkProg s fs) = Ok (r, mkProg s fs').
Proof. intros E. unfold on_vfs. cbn [p_files]. by rewrite E. Qed.

(** The caller as it is seen with the mappings of the loader. *)
Lemma caller_reads s filename argv argv0 name arg d f a n u : caller s filename argv argv0 name arg -> prologue s d f a n u ->
  uword D argv u = Ok (argv0, u) /\ string_at D u argv0 arg /\ string_at D u filename name.
Proof.
  intros [Hs Ho _ (_ & _ & Hr) Hvec [_ Harg] (_ & Hname & _)] Hp.
  assert (forall va b, user_byte s va b -> ubyte D va u = Ok (b, u)) as Hst
    by (intros va b; apply (user_stable s u va b Hs Ho), (started_mem s d f a n u Hs Hp)).
  split_and!.
  - rewrite (word_bytes argv0 Hr) at 1. rewrite (uword_ok D u argv (byte_of argv0)); [by f_equal|].
    intros k Hk. apply Hst, Hvec. done.
  - intros k b Hk. by apply Hst, Harg.
  - intros k b Hk. by apply Hst, Hname.
Qed.

Lemma exec_ok s (fs fs1 fs2 : vfs W) filename argv argv0 name arg args0 name0 bytes (len := Z.of_nat (length bytes)) (B := bytes_fun bytes) :
  caller s filename argv argv0 name arg -> length args0 = 80%nat -> length name0 = 256%nat -> Forall (fun b => 0 <= b < 256) args0 ->
  vfs_dir name fs = Ok (len, fs1) -> vfs_read name len fs1 = Ok ((len, Some <$> bytes), fs2) ->
  Forall (fun b => 0 <= b < 256) bytes -> image_ok len B ->
  at_least (frame_free s) (2 + Z.to_nat (file_pages len) + (pages_left B 0 + 16)) ->
  exists u, _exec kpt D filename argv args0 name0 (mkProg s fs) = Ok ((0, Some (return_frame (entry_point B))), mkProg u fs2) /\
    program_loaded s u (copied_string args0 arg) B.
Proof.
  intros Hca Hl80 Hl256 Hargs Hdir Hread Hb Hi Hn. pose proof Hca as [Hs Ho Hsl (Hav & Hav0 & _) _ [Hparg _] (Hpname & _ & Hnl)].
  pose proof (im_len _ _ Hi) as Hlen. set (np := file_pages len) in *.
  destruct (prologue_ok s (1 + (Z.to_nat np + (pages_left B 0 + 16))) Hs Ho Hsl) as (d & f & a & s1 & s2 & s3 & E1 & E2 & E3 & Hp);
    [eapply at_least_fewer; [exact Hn|lia]|].
  destruct (caller_reads s filename argv argv0 name arg d f a _ s3 Hca Hp) as (Ew & Harg & Hname).
  pose proof (strncpy_ok D s3 args0 argv0 arg Hparg Harg ltac:(lia)) as Ec1. rewrite Hl80 in Ec1.
  pose proof (strncpy_ok D s3 name0 filename name Hpname Hname ltac:(lia)) as Ec2. rewrite Hl256 in Ec2.
  pose proof (ustring_ok D s3 filename name Hpname Hname ltac:(unfold MAX_STRING; lia)) as Eu.
  destruct (frame_page f) as [Hfal Hfd]. pose proof (pr_range _ _ _ _ _ _ Hp) as Hfr.
  destruct (started_fresh s d f a _ s3 Hs Ho Hp) as (HfD & Hfo & Hfu).
  destruct (make_space_ok kpt D (4096 * f) d a len ltac:(lia) s3 (pages_left B 0 + 16) (pr_sys _ _ _ _ _ _ Hp) (pr_d _ _ _ _ _ _ Hp)
    (pr_a _ _ _ _ _ _ Hp) (started_space s d f a _ s3 Hs Ho Hp) Hfu) as (PT & t & fr & v & Em & Hm);
    [by rewrite Hfd|by rewrite Hfd|apply Hp|apply Hp|].
  destruct (file_stored (4096 * f) d a s3 PT t fr _ v bytes ltac:(fold len; lia) Hb Hm) as (w & Est & Hw & Hbw & Hvw).
  destruct (load_image_ok kpt D (4096 * f) PT d a t len fr B w (copied_string args0 arg) Hbw Hvw Hi) as (u & El & Hil).
  { rewrite copied_length by lia. done. }
  { by apply copied_bytes. }
  { eapply at_least_mono; [apply (md_left _ _ _ _ _ _ _ _ _ _ _ _ Hm)|]. intros x [Hx Hf]. unfold frame_free.
    by rewrite (on_frames_eq _ _ _ _ Hw). }
  exists u. split; [|by eapply (program_ok s s3 v w u d f a PT t)].
  unfold _exec. erewrite bind_Ok_eq by (by apply on_mem_ok). erewrite bind_Ok_eq by (by apply on_mem_ok).
  erewrite bind_Ok_eq by (by apply on_mem_ok). rewrite (proj2 (Z.eqb_neq argv 0)) by done.
  erewrite bind_Ok_eq by (by apply on_mem_ok). rewrite (proj2 (Z.eqb_neq argv0 0)) by done. cbn [orb].
  erewrite bind_Ok_eq by (apply on_mem_ok; exact Ec1). erewrite bind_Ok_eq by (apply on_mem_ok; exact Ec2).
  erewrite bind_Ok_eq by (by apply on_mem_ok). erewrite bind_Ok_eq by (by apply on_vfs_ok).
  rewrite (proj2 (Z.ltb_ge len 0)) by lia. rewrite lor_flags by (done || lia).
  erewrite bind_Ok_eq by (apply on_mem_ok; exact Em). rewrite copied_cstring by (done || lia).
  erewrite bind_Ok_eq by (apply on_vfs_ok; exact Hread). cbn beta iota.
  erewrite bind_Ok_eq by (apply on_mem_ok; exact Est). rewrite Z.eqb_refl. cbn [negb].
  by erewrite bind_Ok_eq by (apply on_mem_ok; exact El).
Qed.

(** ** Theorems *)

(** Where byte [x] of a segment is found. *)
Lemma segment_byte s u args len B k x : image_ok len B -> program_loaded s u args B -> 0 <= k < header_count B -> loads B k = true ->
  0 <= x < p_memsz (header B k) ->
  own_byte s u (p_vaddr (header B k) + x)
    (if p_offset (header B k) + x <? copied (p_offset (header B k) + p_filesz (header B k)) then B (p_offset (header B k) + x) else 0).
Proof.
  intros Hi Hpl Hk Hld Hx. pose proof (im_segments _ _ Hi k Hk Hld) as [Hal Hv0 Ho0 Hfs Hend _]. set (ph := header B k) in *.
  set (va := p_vaddr ph + x). set (p := va / 4096). pose proof (Z.mod_pos_bound va 4096 ltac:(lia)) as Hj.
  assert (p_offset ph / 4096 + (p - first_page ph) = (p_offset ph + x) / 4096 /\ va mod 4096 = (p_offset ph + x) mod 4096) as [Ep Em].
  { unfold p, va, first_page. clear -Hal. Z.to_euclidean_division_equations. lia. }
  assert (in_segment B k p) as Hseg.
  { split; [done|]. fold ph. unfold seg_count.
    assert ((p_offset ph + x) / 4096 <= (p_offset ph + p_memsz ph - 1) / 4096) by (apply Z.div_le_mono; lia).
    assert (p_vaddr ph / 4096 <= p) by (apply Z.div_le_mono; unfold va; lia). unfold first_page in *. lia. }
  pose proof (pl_segment _ _ _ _ Hpl k p (va mod 4096) Hk Hseg Hj) as H1. fold ph in H1. unfold seg_byte in H1. cbv zeta in H1.
  rewrite Ep, Em in H1. pose proof (Z.div_mod (p_offset ph + x) 4096 ltac:(lia)) as Eo. rewrite <- Eo in H1.
  replace (4096 * p + (p_offset ph + x) mod 4096) with va in H1; [exact H1|]. rewrite <- Em. unfold p. apply Z.div_mod. lia.
Qed.

(** C10: exec replaces the address space of its caller by the program in the file: every byte of
    a loadable segment is found at its address, from the file up to the size in the file
    and zero up to the size in memory, unless the part in the file ends on a page boundary;
    the stack is zero but for the arguments; pages that belong to nothing are not present;
    the frames of the program were free or its own before; frames of others keep their
    contents, the kernel window is as before, and no frame is lost. *)
Theorem exec_loads_program s (fs fs1 fs2 : vfs W) filename argv argv0 name arg args0 name0 bytes :
  let len := Z.of_nat (length bytes) in
  let B := bytes_fun bytes in
  caller s filename argv argv0 name arg -> length args0 = 80%nat -> length name0 = 256%nat -> Forall (fun b => 0 <= b < 256) args0 ->
  vfs_dir name fs = Ok (len, fs1) -> vfs_read name len fs1 = Ok ((len, Some <$> bytes), fs2) ->
  Forall (fun b => 0 <= b < 256) bytes -> image_ok len B ->
  at_least (frame_free s) (2 + Z.to_nat (file_pages len) + (pages_left B 0 + 16)) ->
  exists u, _exec kpt D filename argv args0 name0 (mkProg s fs) = Ok ((0, Some (return_frame (entry_point B))), mkProg u fs2) /\
    program_loaded s u (copied_string args0 arg) B /\
    forall k x, 0 <= k < header_count B -> loads B k = true -> 0 <= x < p_memsz (header B k) ->
      (p_offset (header B k) + p_filesz (header B k)) mod 4096 <> 0 ->
      own_byte s u (p_vaddr (header B k) + x) (if x <? p_filesz (header B k) then B (p_offset (header B k) + x) else 0).
Proof.
  intros len B Hca H80 H256 Hargs Hdir Hread Hb Hi Hn.
  destruct (exec_ok s fs fs1 fs2 filename argv argv0 name arg args0 name0 bytes) as (u & E & Hpl); [done..|].
  exists u. split; [exact E|]. split; [exact Hpl|]. intros k x Hk Hld Hx He.
  pose proof (segment_byte s u _ len B k x Hi Hpl Hk Hld Hx) as Hbyte. set (ph := header B k) in *.
  assert (copied (p_offset ph + p_filesz ph) = p_offset ph + p_filesz ph) as Ec
    by (unfold copied; clear -He; Z.to_euclidean_division_equations; lia).
  rewrite Ec in Hbyte. destruct (Z.ltb_spec (p_offset ph + x) (p_offset ph + p_filesz ph)), (Z.ltb_spec x (p_filesz ph)); done || lia.
Qed.

(** C39: A segment whose part in the file ends on a page boundary loses its last page: the
    loader copies [(p_offset + p_filesz) & 0xFFF = 0] bytes of it and fills it with zeroes. *)
Theorem exec_loses_last_page s (fs fs1 fs2 : vfs W) filename argv argv0 name arg args0 name0 bytes k :
  let len := Z.of_nat (length bytes) in
  let B := bytes_fun bytes in
  caller s filename argv argv0 name arg -> length args0 = 80%nat -> length name0 = 256%nat -> Forall (fun b => 0 <= b < 256) args0 ->
  vfs_dir name fs = Ok (len, fs1) -> vfs_read name len fs1 = Ok ((len, Some <$> bytes), fs2) ->
  Forall (fun b => 0 <= b < 256) bytes -> image_ok len B ->
  at_least (frame_free s) (2 + Z.to_nat (file_pages len) + (pages_left B 0 + 16)) ->
  0 <= k < header_count B -> loads B k = true -> (p_offset (header B k) + p_filesz (header B k)) mod 4096 = 0 ->
  exists u, _exec kpt D filename argv args0 name0 (mkProg s fs) = Ok ((0, Some (return_frame (entry_point B))), mkProg u fs2) /\
    forall x, 0 <= x < p_memsz (header B k) -> p_filesz (header B k) - 4096 <= x -> own_byte s u (p_vaddr (header B k) + x) 0.
Proof.
  intros len B Hca H80 H256 Hargs Hdir Hread Hb Hi Hn Hk Hld He.
  destruct (exec_ok s fs fs1 fs2 filename argv argv0 name arg args0 name0 bytes) as (u & E & Hpl); [done..|].
  exists u. split; [exact E|]. intros x Hx Hlast. pose proof (segment_byte s u _ len B k x Hi Hpl Hk Hld Hx) as Hbyte. set (ph := header B k) in *.
  assert (copied (p_offset ph + p_filesz ph) = p_offset ph + p_filesz ph - 4096) as Ec
    by (unfold copied; clear -He; Z.to_euclidean_division_equations; lia).
  rewrite Ec, (proj2 (Z.ltb_ge _ _)) in Hbyte by lia. exact Hbyte.
Qed.

(** If the file is not found, exec returns -1 and leaves the address space, the kernel
    window and the frames as they were. *)
Theorem exec_not_found s (fs fs1 : vfs W) filename argv argv0 name arg args0 name0 r :
  caller s filename argv argv0 name arg -> length args0 = 80%nat -> length name0 = 256%nat ->
  vfs_dir name fs = Ok (r, fs1) -> r < 0 -> at_least (frame_free s) 1 ->
  exists p, _exec kpt D filename argv args0 name0 (mkProg s fs) = Ok ((-1, None), mkProg (set_frames p s) fs1) /\
    phys_wf p /\ mm_limit p = mm_limit (frames s) /\ forall m, 0 <= m -> is_free p m = is_free (frames s) m.
Proof.
  intros Hca Hl80 Hl256 Hdir Hr Hn. pose proof Hca as [Hs Ho Hsl (Hav & Hav0 & _) _ [Hparg _] (Hpname & _ & Hnl)].
  destruct (prologue_ok s 0 Hs Ho Hsl Hn) as (d & f & a & s1 & s2 & s3 & E1 & E2 & E3 & Hp).
  destruct (caller_reads s filename argv argv0 name arg d f a _ s3 Hca Hp) as (Ew & Harg & Hname).
  pose proof (strncpy_ok D s3 args0 argv0 arg Hparg Harg ltac:(lia)) as Ec1. rewrite Hl80 in Ec1.
  pose proof (strncpy_ok D s3 name0 filename name Hpname Hname ltac:(lia)) as Ec2. rewrite Hl256 in Ec2.
  pose proof (ustring_ok D s3 filename name Hpname Hname ltac:(unfold MAX_STRING; lia)) as Eu.
  destruct (exec_undo_ok s d f a 0 s3 Hs Hp) as (p & Eun & Hpw & Hpl & Hpf). exists p. split; [|done].
  destruct (frame_page f) as [Hfal _].
  unfold _exec. erewrite bind_Ok_eq by (by apply on_mem_ok). erewrite bind_Ok_eq by (by apply on_mem_ok).
  erewrite bind_Ok_eq by (by apply on_mem_ok). rewrite (proj2 (Z.eqb_neq argv 0)) by done.
  erewrite bind_Ok_eq by (by apply on_mem_ok). rewrite (proj2 (Z.eqb_neq argv0 0)) by done. cbn [orb].
  erewrite bind_Ok_eq by (apply on_mem_ok; exact Ec1). erewrite bind_Ok_eq by (apply on_mem_ok; exact Ec2).
  erewrite bind_Ok_eq by (by apply on_mem_ok). erewrite bind_Ok_eq by (by apply on_vfs_ok).
  rewrite (proj2 (Z.ltb_lt r 0)) by lia. rewrite lor_flags by (done || lia).
  by erewrite bind_Ok_eq by (apply on_mem_ok; exact Eun).
Qed.
End syscall.
End main.

(** ** Witnesses

    A kernel page table at 0x1000, the directory of the caller at 0x2000, its table at
    0x3000 and one page at 0x4000 for address 0x5000 with the argument vector, the
    argument and the path.  Frames 0 to 31 are in use, 32 to 63 are free. *)

Definition exec_mmu : mmu :=
  mkMmu (list_to_map [(0x1000, 0x2003); (0x1FC4, 0x1003); (0x2000, 0x3007); (0x2FFC, 0x1003); (0x3014, 0x4007);
                      (0x4000, 0x5008); (0x4008, 0x61); (0x400C, 0x70)])
        ∅ (mkPhys (0 :: replicate 32767 (2 ^ 32 - 1)) 64).

(** A file system with one file. *)
Definition one_file (bytes : list Z) : FileSystems unit := {|
  fs_ext2_dir := fun path => ret (if decide (path = [0x70]) then Z.of_nat (length bytes) else -1);
  fs_iso_dir := fun _ => ret (-1);
  fs_usb_dir := fun _ => ret (-1);
  fs_tftp_dir := fun _ => ret (-1);
  fs_ext2_read := fun len => ret (len, Some <$> take (Z.to_nat len) bytes);
  fs_iso_read := fun _ => ret (-1, []);
  fs_usb_read := fun _ => ret (-1, []);
  fs_tftp_read := fun _ => ret (-1, []);
  fs_ext2_mount := ret 1;
  fs_iso_mount := fun _ _ => ret 0;
  fs_usb_mount := ret 0;
  fs_tftp_mount := ret 0
|}.

(** The headers of a program with one segment, at 0x1000, of [filesz] and [memsz] bytes. *)
Definition elf_head (filesz memsz : Z) : list Z :=
  [0x7F; 0x45; 0x4C; 0x46; 1; 1; 1; 0; 0; 0; 0; 0; 0; 0; 0; 0; 2; 0; 3; 0; 1; 0; 0; 0; 0x54; 0x10; 0; 0; 52; 0; 0; 0;
   0; 0; 0; 0; 0; 0; 0; 0; 52; 0; 32; 0; 1; 0; 0; 0; 0; 0; 0; 0;
   1; 0; 0; 0; 0; 0; 0; 0; 0; 0x10; 0; 0; 0; 0; 0; 0; filesz mod 256; filesz / 256; 0; 0; memsz mod 256; memsz / 256; 0; 0;
   7; 0; 0; 0; 0; 0x10; 0; 0].

Definition small_elf : list Z := elf_head 100 5000 ++ replicate 16 0x90.
Definition page_elf : list Z := elf_head 4096 4096 ++ replicate (Z.to_nat 4012) 0x90.

Lemma exec_words pa : pa ∉ [0x1000; 0x1FC4; 0x2000; 0x2FFC; 0x3014; 0x4000; 0x4008; 0x400C] -> rd (pmem exec_mmu) pa = 0.
Proof.
  intros H. unfold rd. cbn [pmem exec_mmu list_to_map foldr fst snd]. rewrite !lookup_insert_ne, lookup_empty by set_solver. done.
Qed.

Lemma exec_dir i : 0 <= i < 1019 -> dir_entry 0x2000 exec_mmu i <> 0 -> i = 0.
Proof.
  intros Hi Hne. destruct (decide (0x2000 + 4 * i ∈ [0x1000; 0x1FC4; 0x2000; 0x2FFC; 0x3014; 0x4000; 0x4008; 0x400C])) as [Hin|Hin].
  - rewrite !elem_of_cons, elem_of_nil in Hin. lia.
  - destruct Hne. by apply exec_words.
Qed.

Lemma exec_old m : old_frames 0x2000 exec_mmu 1019 m -> m = 3 \/ m = 4.
Proof.
  intros (i & Hi & Hne & Hm). pose proof (exec_dir i Hi Hne) as ->. destruct Hm as [->|(j & Hj & Hw & _ & ->)]; [by left|].
  change (table_of exec_mmu 0x2000 0) with 0x3000 in *.
  destruct (decide (0x3000 + 4 * j ∈ [0x1000; 0x1FC4; 0x2000; 0x2FFC; 0x3014; 0x4000; 0x4008; 0x400C])) as [Hin|Hin];
    [|destruct Hw; by apply exec_words].
  rewrite !elem_of_cons, elem_of_nil in Hin. assert (j = 5) as -> by lia. by right.
Qed.

Lemma exec_used m : 0 <= m < 32 -> is_free (frames exec_mmu) m = false.
Proof. exact (fork_used m). Qed.

Lemma exec_sys : sys_ok 0x1000 exec_mmu.
Proof.
  destruct fork_sys as [[[H1 H2 H3 H4] H5] H6 H7]. split; [split; [split|]|exact H6|exact H7]; try done.
  apply (bool_decide_unpack _). vm_compute. exact I.
Qed.

Lemma exec_space : own_space 0x1000 0x2000 exec_mmu.
Proof.
  split.
  - done.
  - lia.
  - split; [by apply exec_used|done].
  - intros i Hi Hne. by rewrite (exec_dir i Hi Hne).
  - intros i k Hi Hk Hne Hne' _. by rewrite (exec_dir i Hi Hne), (exec_dir k Hk Hne').
  - intros m [-> | ->]%exec_old; (split; [by apply exec_used|done]).
Qed.

Lemma exec_slots : at_least (slot_free 0x1000 exec_mmu) 4.
Proof.
  exists [1; 2; 3; 4]. split; [apply (bool_decide_unpack _); vm_compute; exact I|]. split; [reflexivity|]. repeat constructor; try lia.
Qed.

Lemma exec_frames n : (n <= 32)%nat -> at_least (frame_free exec_mmu) n.
Proof.
  intros Hn. eapply at_least_fewer; [|exact Hn]. exists (seqZ 32 32). split; [apply NoDup_seqZ|]. split; [by rewrite length_seqZ|].
  apply Forall_forall. intros x Hx%elem_of_seqZ. split; [cbn; lia|]. apply (fork_free x). lia.
Qed.

Lemma exec_caller : caller 0x1000 0x2000 exec_mmu 0x500C 0x5000 0x5008 [0x70] [0x61].
Proof.
  assert (forall va b pa, u32 va / 2 ^ 22 < 1019 -> resolve (pmem exec_mmu) 0x2000 (u32 va) = Some pa -> pa / 4096 <> 1 ->
    rdb (pmem exec_mmu) pa = b -> user_byte 0x1000 0x2000 exec_mmu va b) as Hb.
  { intros va b pa H1 H2 H3 H4. split; [done|]. by exists pa. }
  split; [apply exec_sys|apply exec_space|apply exec_slots|split; [|split]; lia| | |].
  - intros k Hk. assert (k = 0 \/ k = 1 \/ k = 2 \/ k = 3) as [-> | [-> | [-> | ->]]] by lia;
      (eapply Hb; [vm_compute; reflexivity|vm_compute; reflexivity|vm_compute; discriminate|vm_compute; reflexivity]).
  - split; [repeat constructor; lia|]. intros [|[|k]] b E; [| |done]; injection E as <-;
      (eapply Hb; [vm_compute; reflexivity|vm_compute; reflexivity|vm_compute; discriminate|vm_compute; reflexivity]).
  - split; [repeat constructor; lia|]. split; [|cbn; lia]. intros [|[|k]] b E; [| |done]; injection E as <-;
      (eapply Hb; [vm_compute; reflexivity|vm_compute; reflexivity|vm_compute; discriminate|vm_compute; reflexivity]).
Qed.

Lemma byte_list l : forallb (fun b => (0 <=? b) && (b <? 256)) l = true -> Forall (fun b => 0 <= b < 256) l.
Proof.
  intros H. apply Forall_forall. intros b Hb%list_elem_of_In. rewrite forallb_forall in H. apply H in Hb. lia.
Qed.

Lemma bytes_fun_range bytes o : Forall (fun b => 0 <= b < 256) bytes -> 0 <= bytes_fun bytes o < 256.
Proof.
  intros H. unfold bytes_fun. destruct (nth_in_or_default (Z.to_nat o) bytes 0) as [Hin| ->]; [|lia].
  rewrite Forall_forall in H. by apply H, list_elem_of_In.
Qed.

(** A program whose only header is that of a segment in pages [1] to [n]. *)
Lemma one_segment bytes ph n : Forall (fun b => 0 <= b < 256) bytes -> 84 <= Z.of_nat (length bytes) <= 2 ^ 22 ->
  header_count (bytes_fun bytes) = 1 -> header_offset (bytes_fun bytes) 0 = 52 -> header (bytes_fun bytes) 0 = ph ->
  seg_ok (Z.of_nat (length bytes)) ph -> first_page ph = 1 -> seg_count ph (p_memsz ph) = n -> 0 <= n < 0x200 ->
  image_ok (Z.of_nat (length bytes)) (bytes_fun bytes).
Proof.
  intros Hb Hl Hc Ho Hph Hseg Hf Hn Hn0. split.
  - lia.
  - intros o _. by apply bytes_fun_range.
  - intros i Hi. assert (i = 0) as -> by lia. rewrite Ho. lia.
  - intros i Hi _. assert (i = 0) as -> by lia. by rewrite Hph.
  - intros i k p Hi Hk _ _. lia.
  - intros p (i & Hi & _ & Hp). assert (i = 0) as -> by lia. rewrite Hph, Hf, Hn in Hp. lia.
Qed.

Lemma small_image : image_ok (Z.of_nat (length small_elf)) (bytes_fun small_elf).
Proof.
  apply (one_segment small_elf (mkPhdr 0 0x1000 100 5000) 2); try reflexivity; [by apply byte_list|vm_compute; split; discriminate| |lia].
  split; cbn [p_offset p_vaddr p_filesz p_memsz]; [reflexivity|lia|lia|lia|vm_compute; split; discriminate|vm_compute; discriminate].
Qed.

Lemma page_image : image_ok (Z.of_nat (length page_elf)) (bytes_fun page_elf).
Proof.
  apply (one_segment page_elf (mkPhdr 0 0x1000 4096 4096) 1); try (vm_compute; reflexivity); [by apply byte_list|vm_compute; split; discriminate| |lia].
  split; cbn [p_offset p_vaddr p_filesz p_memsz]; [reflexivity|lia|lia|lia|vm_compute; split; discriminate|vm_compute; discriminate].
Qed.

Lemma small_header : header_count (bytes_fun small_elf) = 1 /\ loads (bytes_fun small_elf) 0 = true /\
  header (bytes_fun small_elf) 0 = mkPhdr 0 0x1000 100 5000 /\ entry_point (bytes_fun small_elf) = 0x1054.
Proof. vm_compute. auto. Qed.

Lemma page_header : header_count (bytes_fun page_elf) = 1 /\ loads (bytes_fun page_elf) 0 = true /\
  header (bytes_fun page_elf) 0 = mkPhdr 0 0x1000 4096 4096 /\ entry_point (bytes_fun page_elf) = 0x1054.
Proof. vm_compute. auto. Qed.

(** The 100 bytes of the file are found from 0x1000 on, zeroes from 0x1064 to 0x2387. *)
Lemma exec_loads_program_witness :
  let _ := one_file small_elf in
  exists u, _exec 0x1000 0x2000 0x500C 0x5000 (replicate 80 0) (replicate 256 0) (mkProg exec_mmu (mkVfs VFS_FSYS_EZEXT2 tt)) =
      Ok ((0, Some (return_frame 0x1054)), mkProg u (mkVfs VFS_FSYS_EZEXT2 tt)) /\
    own_byte 0x2000 exec_mmu u 0x1054 0x90 /\ own_byte 0x2000 exec_mmu u 0x1064 0 /\ own_byte 0x2000 exec_mmu u 0x2387 0 /\
    own_byte 0x2000 exec_mmu u 0x3FF000 0.
Proof.
  intros F.
  destruct (@exec_loads_program 0x1000 0x2000 unit F exec_mmu (mkVfs VFS_FSYS_EZEXT2 tt) (mkVfs VFS_FSYS_EZEXT2 tt) (mkVfs VFS_FSYS_EZEXT2 tt)
    0x500C 0x5000 0x5008 [0x70] [0x61] (replicate 80 0) (replicate 256 0) small_elf) as (u & E & Hpl & Hseg).
  - exact exec_caller.
  - reflexivity.
  - reflexivity.
  - by apply byte_list.
  - reflexivity.
  - reflexivity.
  - by apply byte_list.
  - exact small_image.
  - apply exec_frames. apply Nat.leb_le. vm_compute. reflexivity.
  - destruct small_header as (Ec & El & Eh & Ee). rewrite Ee in E.
    assert (0 <= 0 < header_count (bytes_fun small_elf)) as H0 by (rewrite Ec; lia).
    pose proof (fun x => Hseg 0 x H0 El) as Hseg'. clear Hseg. rename Hseg' into Hseg. rewrite Eh in Hseg. cbn [p_offset p_vaddr p_filesz p_memsz] in Hseg.
    exists u. split; [exact E|]. split; [exact (Hseg 0x54 ltac:(lia) ltac:(done))|].
    split; [exact (Hseg 100 ltac:(lia) ltac:(done))|].
    split; [exact (Hseg 0x1387 ltac:(lia) ltac:(done))|].
    apply (pl_stack _ _ _ _ _ _ Hpl). lia.
Defined.

(** The whole page of a program of one page is lost, its headers too. *)
Lemma exec_loses_last_page_witness :
  let _ := one_file page_elf in
  exists u, _exec 0x1000 0x2000 0x500C 0x5000 (replicate 80 0) (replicate 256 0) (mkProg exec_mmu (mkVfs VFS_FSYS_EZEXT2 tt)) =
      Ok ((0, Some (return_frame 0x1054)), mkProg u (mkVfs VFS_FSYS_EZEXT2 tt)) /\
    bytes_fun page_elf 0x54 = 0x90 /\ own_byte 0x2000 exec_mmu u 0x1054 0.
Proof.
  intros F.
  destruct (@exec_loses_last_page 0x1000 0x2000 unit F exec_mmu (mkVfs VFS_FSYS_EZEXT2 tt) (mkVfs VFS_FSYS_EZEXT2 tt) (mkVfs VFS_FSYS_EZEXT2 tt)
    0x500C 0x5000 0x5008 [0x70] [0x61] (replicate 80 0) (replicate 256 0) page_elf 0) as (u & E & Hzero).
  - exact exec_caller.
  - reflexivity.
  - reflexivity.
  - by apply byte_list.
  - vm_compute. reflexivity.
  - vm_compute. reflexivity.
  - by apply byte_list.
  - exact page_image.
  - apply exec_frames. apply Nat.leb_le. vm_compute. reflexivity.
  - rewrite (proj1 page_header). lia.
  - apply page_header.
  - rewrite (proj1 (proj2 (proj2 page_header))). reflexivity.
  - destruct page_header as (_ & _ & Eh & Ee). rewrite Ee in E. rewrite Eh in Hzero. cbn [p_vaddr p_filesz p_memsz] in Hzero.
    exists u. split; [exact E|]. split; [vm_compute; reflexivity|]. exact (Hzero 0x54 ltac:(lia) ltac:(lia)).
Defined.

(** A path that is not there. *)
Lemma exec_not_found_witness :
  let _ := one_file small_elf in
  exists p, _exec 0x1000 0x2000 0x500C 0x5000 (replicate 80 0) (replicate 256 0) (mkProg exec_mmu (mkVfs VFS_FSYS_EZISO tt)) =
      Ok ((-1, None), mkProg (set_frames p exec_mmu) (mkVfs VFS_FSYS_EZISO tt)) /\ is_free p 32 = true /\ is_free p 4 = false.
Proof.
  intros F.
  destruct (@exec_not_found 0x1000 0x2000 unit F exec_mmu (mkVfs VFS_FSYS_EZISO tt) (mkVfs VFS_FSYS_EZISO tt)
    0x500C 0x5000 0x5008 [0x70] [0x61] (replicate 80 0) (replicate 256 0) (-1)) as (p & E & _ & _ & Hf).
  - exact exec_caller.
  - reflexivity.
  - reflexivity.
  - reflexivity.
  - lia.
  - apply exec_frames. lia.
  - exists p. split; [exact E|]. rewrite !Hf by lia. split; [apply (fork_free 32); lia|apply (exec_used 4); lia].
Defined.
