(* ===== verification/Loader.v ===== *)
(** * The module loader

    module/loader.c with the string helpers of include/arch/i386.h that it calls.  A
    module has a name, an initialisation and dependencies; a dependency is a list of
    names separated by bars, of which one has to be loaded, and a name that ends in three
    underscores stands for all modules whose names start with it.

    A string is the list of its characters, read with the terminator behind them.  The
    table of the linker is a list.  Initialisations are computations on the world [W],
    which provides the page allocators as well; the array that [module_load_all] allocates
    is a list.  The messages on initialised and failed modules are kept: they tell what
    was initialised, and in which order. *)

From Stdlib Require Import ZArith Lia.
From S2P Require Import Prelude Physical Pow2.
From stdpp Require Import base list numbers strings.
Local Open Scope Z_scope.

(** ** Strings *)

Definition str_at (s : list Z) (i : Z) : outcome Z := byte_at (s ++ [0]) i.

Definition strlen_body (s : list Z) (i : Z) : outcome (control Z Z) :=
  let? c := str_at s i in
  Ok (if c =? 0 then Break i else Continue (u32 (i + 1))).
Definition strlen (s : list Z) : outcome Z := loop (S (length s)) (strlen_body s) 0.

(** [strncmp (a, b + off, n)]: the number of characters passed, [n] and [i]. *)
Definition strncmp_body (a b : list Z) (off : Z) (l : Z * Z * Z) : outcome (control (Z * Z * Z) Z) :=
  let '(k, n, i) := l in
  let? x := str_at a k in
  if x =? 0 then Ok (Break i)
  else
    let? y := str_at b (off + k) in
    if y =? 0 then Ok (Break i)
    else if n <=? 0 then Ok (Break i)
    else let i := x - y in
      Ok (if negb (i =? 0) then Break i else Continue (k + 1, n - 1, i)).
Definition strncmp (a b : list Z) (off n : Z) : outcome Z := loop (S (length a)) (strncmp_body a b off) (0, n, 0).

(** ** Data *)

Section loader.
Context {W : Type}.

(** [ops->init] is [init]; [desc] is for messages. *)
Record module := mkModule { name : list Z; init : M W bool; dependencies : list (list Z) }.
Record modruntime := mkRuntime { mr_mod : module; loaded : bool }.

(** [module_system], the messages and the world.  [cnt] is the length of the array. *)
Record modsystem := mkSystem { mr : list modruntime; messages : list (Z * bool); world : W }.

Definition set_ms_world (w : W) (s : modsystem) : modsystem := mkSystem (mr s) (messages s) w.
Definition DLOG (e : Z * bool) (s : modsystem) : modsystem := mkSystem (mr s) (messages s ++ [e]) (world s).
Definition set_loaded (modi : Z) (s : modsystem) : modsystem :=
  mkSystem (alter (fun r => mkRuntime (mr_mod r) true) (Z.to_nat modi) (mr s)) (messages s) (world s).

Definition in_world {A} (m : M W A) : M modsystem A := fun s =>
  match m (world s) with
  | Ok (a, w) => Ok (a, set_ms_world w s)
  | Err e => Err e
  end.

Definition runtime (modi : Z) : M modsystem modruntime :=
  let! mr := gets mr in
  lift (if modi <? 0 then Err OutOfBounds else of_option OutOfBounds (mr !! Z.to_nat modi)).

(** ** Loading by name *)

(** The three tests for a trailing ["___"]. *)
Definition subtree_test (name : list Z) (j : Z) : outcome bool :=
  let? c := str_at name (j - 1) in
  if negb (c =? 95) then Ok false
  else
    let? c := str_at name (j - 2) in
    if negb (c =? 95) then Ok false
    else let? c := str_at name (j - 3) in Ok (c =? 95).

(** The recursive calls are those of [module_load_i]. *)
Definition name_body (load : Z -> M modsystem bool) (str : list Z) (i j : Z) (subtree : bool) (l : Z * bool)
  : M modsystem (control (Z * bool) bool) :=
  let '(n, success) := l in
  let! cnt := gets (fun s => Z.of_nat (length (mr s))) in
  if n <? cnt then
    let! r := runtime n in
    let modname := name (mr_mod r) in
    let! len := lift (strlen modname) in
    let! same := (if subtree || (len =? j - i) then
                    let! c := lift (strncmp modname str i (j - i)) in ret (c =? 0)
                  else ret false) in
    if same then
      let! b := load n in
      let success := success || b in
      ret (if negb subtree then Break success else Continue (n + 1, success))
    else ret (Continue (n + 1, success))
  else ret (Break success).

Definition module_load_name (load : Z -> M modsystem bool) (str : list Z) (i j : Z) : M modsystem bool :=
  let! subtree := lift (subtree_test str j) in
  let! cnt := gets (fun s => length (mr s)) in
  mloop (S cnt) (name_body load str i j subtree) (0, false).

(** [while (names[j] && names[j]!='|') j++]. *)
Definition bar_body (names : list Z) (j : Z) : outcome (control Z Z) :=
  let? c := str_at names j in
  Ok (if negb (c =? 0) && negb (c =? 124) then Continue (j + 1) else Break j).

Definition disj_body (load : Z -> M modsystem bool) (names : list Z) (l : Z * Z * bool)
  : M modsystem (control (Z * Z * bool) bool) :=
  let '(i, j, success) := l in
  let! c := lift (str_at names j) in
  if c =? 0 then ret (Break success)
  else
    let! j := lift (loop (S (length names)) (bar_body names) i) in
    let! b := module_load_name load names i j in
    ret (Continue (j + 1, j, success || b)).

Definition module_load_disj (load : Z -> M modsystem bool) (names : list Z) : M modsystem bool :=
  mloop (S (S (length names))) (disj_body load names) (0, 0, false).

(** ** Loading by index *)

Definition dep_body (load : Z -> M modsystem bool) (modi : Z) (depi : Z) : M modsystem (control Z bool) :=
  let! r := runtime modi in
  if depi <? Z.of_nat (length (dependencies (mr_mod r))) then
    let! names := lift (of_option OutOfBounds (dependencies (mr_mod r) !! Z.to_nat depi)) in
    let! b := module_load_disj load names in
    ret (if negb b then Break false else Continue (depi + 1))
  else ret (Break true).

(** [fuel] bounds the depth of the recursion. *)
Fixpoint module_load_i (fuel : nat) (modi : Z) : M modsystem bool :=
  match fuel with
  | O => fail OutOfFuel
  | S fuel =>
      if modi <? 0 then ret false
      else
        let! r := runtime modi in
        if loaded r then ret true
        else
          let! deps := mloop (S (length (dependencies (mr_mod r)))) (dep_body (module_load_i fuel) modi) 0 in
          if negb deps then ret false
          else
            let! r := runtime modi in
            let! b := in_world (init (mr_mod r)) in
            when b (modify (set_loaded modi)) ;;!
            modify (DLOG (modi, b)) ;;!
            ret b
  end.

(** ** All modules *)

Definition all_body (fuel : nat) (i : Z) : M modsystem (control Z unit) :=
  let! count := gets (fun s => Z.of_nat (length (mr s))) in
  if i <? count then module_load_i fuel i ;;! ret (Continue (i + 1)) else ret (Break tt).

Context `{PageOps W}.

(** [sizeof (modruntime_t)] is 8. *)
Definition module_pages (count : Z) : Z := u32 (Z.shiftr (u32 (u32 (count * 8) - 1)) 12 + 1).

Definition module_load_all (mods : list module) : M modsystem bool :=
  let count := Z.of_nat (length mods) in
  if count =? 0 then ret true
  else
    let pages := module_pages count in
    let! phys := in_world (alloc_frames pages) in
    if phys =? NO_FRAME then ret false
    else
      let! va := in_world (map_contiguous (Z.lor phys 3) pages) in
      if va =? 0 then in_world (free_frames phys pages) ;;! ret false
      else
        modify (fun s => mkSystem ((fun m => mkRuntime m false) <$> mods) (messages s) (world s)) ;;!
        mloop (S (length mods)) (all_body (S (length mods))) 0 ;;!
        ret true.
End loader.
Arguments module : clear implicits.
Arguments modruntime : clear implicits.
Arguments modsystem : clear implicits.
