(* ===== verification/LoaderThm.v ===== *)
(** * The module loader: theorems

    What [module_load_all] of [Loader] initialises, and in which order: a module only after
    its dependencies, none again after it succeeded, and, when the results of the
    initialisations are given, exactly the modules that can be loaded. *)

From Stdlib Require Import ZArith Lia.
From S2P Require Import Prelude Physical Virtual Pow2 Pow2Mmu Printf Loader.
From stdpp Require Import base gmap sets list numbers strings.
Local Open Scope Z_scope.

(** ** Names and dependencies *)

(** The names in a dependency. *)
Fixpoint alternatives (dep : list Z) : list (list Z) :=
  match dep with
  | [] => [[]]
  | c :: s =>
      if c =? 124 then [] :: alternatives s
      else match alternatives s with a :: l => (c :: a) :: l | [] => [[c]] end
  end.

Definition subtree (alt : list Z) : bool :=
  match rev alt with
  | a :: b :: c :: _ => (a =? 95) && (b =? 95) && (c =? 95)
  | _ => false
  end.

(** One of two strings is a prefix of the other. *)
Fixpoint compat (a b : list Z) : bool :=
  match a, b with
  | x :: a, y :: b => (x =? y) && compat a b
  | _, _ => true
  end.

(** The first string begins with the second. *)
Fixpoint begins (a b : list Z) : bool :=
  match b, a with
  | [], _ => true
  | y :: b, x :: a => (x =? y) && begins a b
  | _ :: _, [] => false
  end.

(** The comment on [module_load_name]: a name asks for the module of that name, or, with
    ["___"] behind it, for the modules whose names begin with it. *)
Definition matches (modname alt : list Z) : bool :=
  if subtree alt then begins modname alt else bool_decide (modname = alt).

(** The module's name is the beginning of the name, but not the whole of it. *)
Definition stem (modname alt : list Z) : Prop := exists c l, alt = modname ++ c :: l.

(** Only a stem is compared differently by [strncmp]. *)
Lemma compat_begins a b : ~ stem a b -> compat a b = begins a b.
Proof.
  revert b. induction a as [|x a IH]; intros [|y b] Hs; cbn; [done| |done|].
  - destruct Hs. by exists y, b.
  - destruct (Z.eqb_spec x y) as [->|]; [|done]. cbn. apply IH. intros (c & l & ->). apply Hs. by exists c, l.
Qed.

Definition plain (s : list Z) : Prop := Forall (fun c => c <> 0) s.

(** Names that are read without looking in front of the string. *)
Definition alt_ok (alt : list Z) : Prop :=
  Forall (fun c => c <> 0 /\ c <> 124) alt /\ alt <> [] /\ alt <> [95] /\ alt <> [95; 95].

(** ** Strings *)

Lemma str_at_mid pre c post k : k = Z.of_nat (length pre) -> str_at (pre ++ c :: post) k = Ok c.
Proof.
  intros ->. unfold str_at, byte_at. rewrite (proj2 (Z.ltb_ge _ _)) by lia.
  rewrite Nat2Z.id, <- app_assoc. cbn [app]. by rewrite list_lookup_middle.
Qed.

Lemma str_at_end s k : k = Z.of_nat (length s) -> str_at s k = Ok 0.
Proof.
  intros ->. unfold str_at, byte_at. rewrite (proj2 (Z.ltb_ge _ _)) by lia. by rewrite Nat2Z.id, list_lookup_middle.
Qed.

(** Behind a part of a string there is a character or the terminator. *)
Lemma str_at_defined pre post k : k = Z.of_nat (length pre) -> exists c, str_at (pre ++ post) k = Ok c /\ (post = [] -> c = 0).
Proof.
  intros ->. destruct post as [|c post].
  - exists 0. rewrite app_nil_r. by rewrite str_at_end.
  - exists c. by rewrite str_at_mid.
Qed.

Lemma strlen_ok s : plain s -> Z.of_nat (length s) < 2 ^ 32 -> strlen s = Ok (Z.of_nat (length s)).
Proof.
  intros Hs Hl. unfold strlen.
  assert (forall post pre fuel, s = pre ++ post -> (length post < fuel)%nat ->
    loop fuel (strlen_body s) (Z.of_nat (length pre)) = Ok (Z.of_nat (length s))) as H.
  { intros post. induction post as [|c post IH]; intros pre [|fuel] E Hf; cbn [length] in Hf; try lia; cbn [loop]; unfold strlen_body at 1.
    - rewrite app_nil_r in E. subst pre. by rewrite str_at_end.
    - rewrite E at 1. rewrite (str_at_mid pre) by done. cbn [obind].
      assert (c <> 0) as Hc by (unfold plain in Hs; rewrite Forall_forall in Hs; apply Hs; rewrite E; set_solver).
      rewrite (proj2 (Z.eqb_neq c 0)) by done. cbn [obind].
      pose proof (f_equal length E) as El. rewrite length_app in El. cbn [length] in El.
      rewrite u32_small by lia. replace (Z.of_nat (length pre) + 1) with (Z.of_nat (length (pre ++ [c]))) by (rewrite length_app; cbn [length]; lia).
      apply IH; [|lia]. by rewrite <- app_assoc. }
  apply (H s []); [done|lia].
Qed.

Lemma strncmp_from a b pa ra pb done_ ralt post fuel :
  a = pa ++ ra -> b = pb ++ done_ ++ ralt ++ post -> length pa = length done_ -> plain ra -> plain ralt -> (length ra < fuel)%nat ->
  exists r, loop fuel (strncmp_body a b (Z.of_nat (length pb))) (Z.of_nat (length pa), Z.of_nat (length ralt), 0) = Ok r /\
    (r =? 0) = compat ra ralt.
Proof.
  revert pa done_ ralt fuel. induction ra as [|x ra IH]; intros pa dn ralt [|fuel] Ea Eb El Ha Hb Hf; cbn [length] in Hf; try lia;
    cbn [loop]; unfold strncmp_body at 1; cbv beta iota.
  - rewrite app_nil_r in Ea. subst pa. rewrite str_at_end by done. by exists 0.
  - apply Forall_cons in Ha as [Hx Ha]. assert (str_at a (Z.of_nat (length pa)) = Ok x) as -> by (rewrite Ea; by apply str_at_mid). cbn [obind].
    rewrite (proj2 (Z.eqb_neq x 0)) by done. destruct ralt as [|y ralt].
    + destruct (str_at_defined (pb ++ dn) post (Z.of_nat (length pb) + Z.of_nat (length pa))) as (c & Ec & _);
        [rewrite length_app; lia|]. rewrite <- app_assoc in Ec. rewrite app_nil_l in Eb. rewrite <- Eb in Ec. rewrite Ec. cbn [obind length]. exists 0. by destruct (c =? 0).
    + apply Forall_cons in Hb as [Hy Hb]. 
      assert (str_at b (Z.of_nat (length pb) + Z.of_nat (length pa)) = Ok y) as ->
        by (rewrite Eb, app_assoc, <- app_comm_cons; apply str_at_mid; rewrite length_app; lia). cbn [obind length].
      rewrite (proj2 (Z.eqb_neq y 0)), (proj2 (Z.leb_gt _ 0)) by (done || lia).
      cbn [compat]. destruct (Z.eqb_spec x y) as [<-|Hne].
      * rewrite Z.sub_diag. cbn [Z.eqb negb obind andb].
        replace (Z.of_nat (length pa) + 1) with (Z.of_nat (length (pa ++ [x]))) by (rewrite length_app; cbn [length]; lia).
        replace (Z.of_nat (S (length ralt)) - 1) with (Z.of_nat (length ralt)) by lia.
        apply (IH (pa ++ [x]) (dn ++ [x])); rewrite <- ?app_assoc, ?length_app; try done; cbn [length app]; try done; lia.
      * rewrite (proj2 (Z.eqb_neq (x - y) 0)) by lia. exists (x - y). split; [done|]. cbn [andb]. apply Z.eqb_neq. lia.
Qed.

Lemma strncmp_ok a pre alt post : plain a -> plain alt ->
  exists r, strncmp a (pre ++ alt ++ post) (Z.of_nat (length pre)) (Z.of_nat (length alt)) = Ok r /\ (r =? 0) = compat a alt.
Proof. intros Ha Hb. apply (strncmp_from a _ [] a pre [] alt post); done || lia. Qed.

Lemma subtree_test_ok pre alt post : alt_ok alt ->
  subtree_test (pre ++ alt ++ post) (Z.of_nat (length (pre ++ alt))) = Ok (subtree alt).
Proof.
  intros (_ & H0 & H1 & H2). unfold subtree, subtree_test. assert (exists l, alt = rev l) as [l ->] by (exists (rev alt); by rewrite rev_involutive).
  rewrite rev_involutive. destruct l as [|a [|b [|c l]]]; cbn [rev app] in *; rewrite ?length_app; cbn [length].
  - done.
  - rewrite (str_at_mid pre) by lia. cbn [obind]. destruct (Z.eqb_spec a 95) as [->|]; done.
  - change (pre ++ b :: a :: post) with (pre ++ [b] ++ a :: post). rewrite (app_assoc pre).
    rewrite (str_at_mid (pre ++ [b])) by (rewrite length_app; cbn; lia). cbn [obind].
    destruct (Z.eqb_spec a 95) as [->|]; [|done]. cbn [negb]. rewrite <- app_assoc. cbn [app]. rewrite (str_at_mid pre) by lia. cbn [obind].
    destruct (Z.eqb_spec b 95) as [->|]; done.
  - rewrite <- !app_assoc. cbn [app]. set (q := pre ++ rev l).
    replace (pre ++ rev l ++ c :: b :: a :: post) with ((q ++ [c] ++ [b]) ++ a :: post) by (unfold q; by rewrite <- !app_assoc).
    rewrite str_at_mid by (unfold q; rewrite !length_app; cbn [length]; lia).
    cbn [obind]. destruct (Z.eqb_spec a 95) as [->|]; [|done]. cbn [negb andb].
    replace ((q ++ [c] ++ [b]) ++ 95 :: post) with ((q ++ [c]) ++ b :: 95 :: post) by (by rewrite <- !app_assoc).
    rewrite str_at_mid by (unfold q; rewrite !length_app; cbn [length]; lia). cbn [obind].
    destruct (Z.eqb_spec b 95) as [->|]; [|done]. cbn [negb andb].
    replace ((q ++ [c]) ++ 95 :: 95 :: post) with (q ++ c :: 95 :: 95 :: post) by (by rewrite <- app_assoc).
    by rewrite str_at_mid by (unfold q; rewrite !length_app; cbn [length]; lia).
Qed.

Lemma scan_from names pre alt post fuel : names = pre ++ alt ++ post -> Forall (fun c => c <> 0 /\ c <> 124) alt ->
  (post = [] \/ exists q, post = 124 :: q) -> (length alt < fuel)%nat ->
  loop fuel (bar_body names) (Z.of_nat (length pre)) = Ok (Z.of_nat (length (pre ++ alt))).
Proof.
  intros E Hf Hp. revert pre fuel E. induction alt as [|c alt IH]; intros pre [|fuel] E Hl; cbn [length] in Hl; try lia;
    cbn [loop]; unfold bar_body at 1.
  - rewrite app_nil_r. rewrite app_nil_l in E. destruct Hp as [->|[q ->]].
    + rewrite app_nil_r in E. by rewrite str_at_end by (by rewrite E).
    + rewrite E at 1. by rewrite str_at_mid.
  - apply Forall_cons in Hf as [[H0 H1] Hf]. rewrite E at 1. rewrite <- app_comm_cons, str_at_mid by done. cbn [obind].
    rewrite (proj2 (Z.eqb_neq c 0)), (proj2 (Z.eqb_neq c 124)) by done. cbn [negb andb obind].
    replace (Z.of_nat (length pre) + 1) with (Z.of_nat (length (pre ++ [c]))) by (rewrite length_app; cbn [length]; lia).
    rewrite IH; [by rewrite <- app_assoc|done|by rewrite E, <- app_assoc|lia].
Qed.

Fixpoint join (alts : list (list Z)) : list Z :=
  match alts with
  | [] => []
  | [a] => a
  | a :: l => a ++ 124 :: join l
  end.

Lemma join_cons a l : l <> [] -> join (a :: l) = a ++ 124 :: join l.
Proof. by destruct l. Qed.

Lemma alternatives_ne s : alternatives s <> [].
Proof. destruct s as [|c s]; cbn; [done|]. by destruct (c =? 124), (alternatives s). Qed.

Lemma join_alternatives s : join (alternatives s) = s.
Proof.
  induction s as [|c s IH]; [done|]. cbn [alternatives]. pose proof (alternatives_ne s) as Hne.
  destruct (Z.eqb_spec c 124) as [->|].
  - rewrite join_cons by done. cbn [app]. by rewrite IH.
  - destruct (alternatives s) as [|a [|b l]]; [done| |]; cbn [join app] in *; by rewrite IH.
Qed.

(** ** Specification *)

Section spec.
Context {W : Type} (mods : list (module W)).
Implicit Types (s : modsystem W) (k : Z).

Definition named (alt : list Z) k : Prop := exists m, 0 <= k /\ mods !! Z.to_nat k = Some m /\ matches (name m) alt = true.

(** Module [k] is one of those that a dependency asks for. *)
Definition provides (dep : list Z) k : Prop := exists alt, alt ∈ alternatives dep /\ named alt k.

Definition dependency k (dep : list Z) : Prop := exists m, 0 <= k /\ mods !! Z.to_nat k = Some m /\ dep ∈ dependencies m.

(** At every message, on the initialisation of a module, its dependencies have been
    initialised, and it itself has not. *)
Definition ordered (l : list (Z * bool)) : Prop := forall l1 k b l2, l = l1 ++ (k, b) :: l2 ->
  (k, true) ∉ l1 /\ forall dep, dependency k dep -> exists k', provides dep k' /\ (k', true) ∈ l1.

(** The modules that can be loaded when [ok] tells which initialisations succeed. *)
Inductive loadable (ok : Z -> bool) : Z -> Prop :=
| loadable_intro k m : 0 <= k -> mods !! Z.to_nat k = Some m -> ok k = true ->
    (forall dep, dependency k dep -> exists k', provides dep k' /\ loadable ok k') -> loadable ok k.

Definition results (ok : Z -> bool) : Prop :=
  forall k m w, 0 <= k -> mods !! Z.to_nat k = Some m -> exists w', init m w = Ok (ok k, w').

Definition is_loaded s k : Prop := exists r, 0 <= k /\ mr s !! Z.to_nat k = Some r /\ loaded r = true.

(** No module is named like the stem of a subtree. *)
Definition no_stem (alt : list Z) : Prop := subtree alt = true -> forall m, m ∈ mods -> ~ stem (name m) alt.

Record table_ok : Prop := {
  to_names : NoDup (name <$> mods);
  to_plain : forall m, m ∈ mods -> plain (name m) /\ Z.of_nat (length (name m)) < 2 ^ 32;
  to_deps : forall k dep alt, dependency k dep -> alt ∈ alternatives dep -> alt_ok alt /\ no_stem alt;
  to_init : forall m w, m ∈ mods -> exists b w', init m w = Ok (b, w')
}.

(** [rank] decreases from a module to those it depends on. *)
Definition acyclic (rank : Z -> nat) : Prop :=
  (forall k dep k', dependency k dep -> provides dep k' -> (rank k' < rank k)%nat) /\ forall k, (rank k <= length mods)%nat.

(** ** Invariant *)

Context (Ht : table_ok) (rank : Z -> nat).

Record Inv s : Prop := {
  i_mods : mr_mod <$> mr s = mods;
  i_loaded : forall k, is_loaded s k <-> (k, true) ∈ messages s;
  i_ordered : ordered (messages s);
  i_sound : forall ok, results ok -> forall k, is_loaded s k -> loadable ok k
}.

Definition later (r : nat) s s' : Prop := exists l, messages s' = messages s ++ l /\ Forall (fun e => rank e.1 < r)%nat l.

(** What [b] says of the modules in [P]. *)
Definition answer (P : Z -> Prop) (b : bool) s : Prop :=
  (b = true -> exists k, P k /\ is_loaded s k) /\
  (b = false -> forall ok, results ok -> forall k, P k -> ~ loadable ok k).

Definition loads_below (load : Z -> M (modsystem W) bool) (r : nat) : Prop :=
  forall k s, Inv s -> 0 <= k < Z.of_nat (length mods) -> (rank k < r)%nat ->
    wp (load k) (fun b s' => Inv s' /\ later r s s' /\ answer (eq k) b s') s.

Lemma later_refl r s : later r s s.
Proof. exists []. by rewrite app_nil_r. Qed.

Lemma later_trans r s1 s2 s3 : later r s1 s2 -> later r s2 s3 -> later r s1 s3.
Proof. intros (l & E1 & Hl) (l' & E & Hl'). exists (l ++ l'). rewrite E, E1, app_assoc. split; [done|]. by apply Forall_app. Qed.

Lemma later_mono r r' s s' : (r <= r')%nat -> later r s s' -> later r' s s'.
Proof. intros Hr (l & E & Hl). exists l. split; [done|]. eapply Forall_impl; [exact Hl|]. intros e ?. cbn in *. lia. Qed.

Lemma loaded_later r s s' k : Inv s -> Inv s' -> later r s s' -> is_loaded s k -> is_loaded s' k.
Proof. intros Hi Hi' (l & E & _) Hk%(i_loaded _ Hi). apply (i_loaded _ Hi'). rewrite E. set_solver. Qed.

Lemma inv_count s : Inv s -> length (mr s) = length mods.
Proof. intros Hi. by rewrite <- (i_mods _ Hi), length_fmap. Qed.

Lemma inv_runtime s k m : Inv s -> 0 <= k -> mods !! Z.to_nat k = Some m ->
  exists r, mr s !! Z.to_nat k = Some r /\ mr_mod r = m /\ runtime k s = Ok (r, s).
Proof.
  intros Hi Hk Hm. rewrite <- (i_mods _ Hi), list_lookup_fmap in Hm. apply fmap_Some in Hm as (r & E & ->).
  exists r. split_and!; [done|done|]. unfold runtime, bind, gets, lift. rewrite (proj2 (Z.ltb_ge _ _)) by lia. by rewrite E.
Qed.

Lemma wp_runtime s k m Q : Inv s -> 0 <= k -> mods !! Z.to_nat k = Some m ->
  (forall r, mr s !! Z.to_nat k = Some r -> mr_mod r = m -> Q r s) -> wp (runtime k) Q s.
Proof. intros Hi Hk Hm HQ. destruct (inv_runtime s k m Hi Hk Hm) as (r & E & Em & Er). unfold wp. rewrite Er. by apply HQ. Qed.

Lemma named_name alt k k' : subtree alt = false -> named alt k -> named alt k' -> k = k'.
Proof.
  intros Hs (m & Hk & Hm & Hma) (m' & Hk' & Hm' & Hma'). unfold matches in *. rewrite Hs in *.
  apply bool_decide_eq_true in Hma, Hma'. pose proof (to_names Ht) as Hnd.
  enough (Z.to_nat k = Z.to_nat k') by lia. eapply NoDup_lookup; [exact Hnd| |]; rewrite list_lookup_fmap.
  - rewrite Hm. cbn. by rewrite Hma.
  - rewrite Hm'. cbn. by rewrite Hma'.
Qed.

(** ** Loading by name *)

(** The test of a module against a name. *)
Lemma same_ok m pre alt post s : m ∈ mods -> plain alt -> no_stem alt ->
  wp (let! len := lift (strlen (name m)) in
      if subtree alt || (len =? Z.of_nat (length (pre ++ alt)) - Z.of_nat (length pre)) then
        let! c := lift (strncmp (name m) (pre ++ alt ++ post) (Z.of_nat (length pre))
                    (Z.of_nat (length (pre ++ alt)) - Z.of_nat (length pre))) in ret (c =? 0)
      else ret false)
    (fun b s' => s' = s /\ b = matches (name m) alt) s.
Proof.
  intros Hm Ha Hst. destruct (to_plain Ht m Hm) as [Hp Hl]. apply wp_bind. eapply wp_lift; [by apply strlen_ok|].
  replace (Z.of_nat (length (pre ++ alt)) - Z.of_nat (length pre)) with (Z.of_nat (length alt)) by (rewrite length_app; lia).
  unfold matches. destruct (strncmp_ok (name m) pre alt post Hp Ha) as (r & Er & Ec).
  assert (compat (name m) alt = true -> length (name m) = length alt -> name m = alt) as Heq.
  { clear. revert alt. induction (name m) as [|x a IH]; intros [|y b] Hc Hl; try done. cbn in *.
    apply andb_true_iff in Hc as [->%Z.eqb_eq Hc]. f_equal. apply IH; [done|lia]. }
  assert (forall a, compat a a = true) as Hrefl by (intros a; induction a as [|x a IH]; cbn; [done|by rewrite Z.eqb_refl]).
  destruct (subtree alt) eqn:Esub; cbn [orb].
  - apply wp_bind. eapply wp_lift; [exact Er|]. apply wp_ret. split; [done|]. rewrite Ec. by apply compat_begins, Hst.
  - destruct (Z.eqb_spec (Z.of_nat (length (name m))) (Z.of_nat (length alt))) as [El|El].
    + apply wp_bind. eapply wp_lift; [exact Er|]. apply wp_ret. split; [done|]. rewrite Ec.
      symmetry. case_bool_decide as E; [by rewrite E|]. symmetry. apply not_true_iff_false. intros Hc. apply E, Heq; [done|lia].
    + apply wp_ret. split; [done|]. symmetry. apply bool_decide_eq_false. intros E. rewrite E in El. lia.
Qed.

(** One more module was asked for. *)
Lemma answer_or r (P P' Q : Z -> Prop) a b s1 s2 : Inv s1 -> Inv s2 -> later r s1 s2 -> answer P a s1 -> answer Q b s2 ->
  (forall k, P' k <-> P k \/ Q k) -> answer P' (a || b) s2.
Proof.
  intros H1 H2 Hl [Ha1 Ha2] [Hb1 Hb2] HP. split.
  - intros [Ha|Hb]%orb_true_iff.
    + destruct (Ha1 Ha) as (k & Hk & Hlk). exists k. split; [apply HP; by left|]. by eapply loaded_later; [exact H1|..].
    + destruct (Hb1 Hb) as (k & Hk & Hlk). exists k. split; [apply HP; by right|done].
  - intros [Ha Hb]%orb_false_iff ok Hok k [Hk|Hk]%HP; [by apply (Ha2 Ha ok Hok)|by apply (Hb2 Hb ok Hok)].
Qed.

Lemma answer_iff (P P' : Z -> Prop) b s : answer P b s -> (forall k, P' k <-> P k) -> answer P' b s.
Proof. intros [H1 H2] HP. split; [intros Hb; destruct (H1 Hb) as (k & ? & ?); exists k; by rewrite HP|]. intros Hb ok Hok k ?%HP. by apply (H2 Hb ok Hok). Qed.

Lemma name_ok load r pre alt post s : loads_below load r -> Inv s -> alt_ok alt -> no_stem alt -> (forall k, named alt k -> (rank k < r)%nat) ->
  wp (module_load_name load (pre ++ alt ++ post) (Z.of_nat (length pre)) (Z.of_nat (length (pre ++ alt))))
    (fun b s' => Inv s' /\ later r s s' /\ answer (named alt) b s') s.
Proof.
  intros Hload Hs Ha Hst Hr. assert (plain alt) as Hp by (eapply Forall_impl; [apply Ha|]; intros c Hc; apply Hc).
  unfold module_load_name. apply wp_bind. eapply wp_lift; [by apply subtree_test_ok|]. apply wp_bind, wp_gets.
  eapply (wp_mloop _
    (fun '(n, success) s' => Inv s' /\ later r s s' /\ 0 <= n <= Z.of_nat (length mods) /\
       answer (fun k => named alt k /\ k < n) success s')
    _ (fun '(n, _) _ => Z.to_nat (Z.of_nat (length mods) - n))).
  2:{ split_and!; [done|apply later_refl|lia|lia|]. split; [done|]. intros _ ok _ k [(m & Hk & _) Hlt]. lia. }
  2:{ rewrite (inv_count s Hs). lia. }
  clear Hs. intros [n success] s1 (Hs1 & Hl1 & Hn & Hans). unfold name_body. apply wp_bind, wp_gets.
  rewrite (inv_count s1 Hs1). zcase.
  2:{ apply wp_ret. split_and!; [done..|]. destruct Hans as [H1 H2]. split.
      - intros Hb. destruct (H1 Hb) as (k & [? _] & ?). eauto.
      - intros Hb ok Hok k Hk. apply (H2 Hb ok Hok). split; [done|]. destruct Hk as (m & Hk & Hm & _).
        apply lookup_lt_Some in Hm. lia. }
  destruct (lookup_lt_is_Some_2 mods (Z.to_nat n)) as [m Hm]; [lia|].
  apply wp_bind. eapply (wp_runtime s1 n m); [done|lia|done|]. intros r1 _ Er. rewrite Er.
  apply wp_seq. eapply wp_mono; [apply same_ok; [eapply list_elem_of_lookup_2; exact Hm|done..]|]. intros b s2 [-> ->].
  destruct (matches (name m) alt) eqn:Ema.
  - assert (named alt n) as Hnn by (exists m; split_and!; [lia|done|done]).
    apply wp_bind. eapply wp_mono; [apply Hload; [done|lia|by apply Hr]|]. intros b s2 (Hs2 & Hl2 & Hb).
    assert (later r s s2) as Hl by (by eapply later_trans).
    destruct (subtree alt) eqn:Esub; cbn [negb]; apply wp_ret.
    + split; [|lia]. split_and!; [done..|lia|lia|].
      eapply (answer_or r _ _ _ _ _ s1); [done..|exact Hans|exact Hb|]. cbn. intros k. split.
      * intros [Hk ?]. destruct (Z.eq_dec k n) as [->|]; [by right|left; split; [done|lia]].
      * intros [[Hk ?]|<-]; (split; [done|lia]).
    + split_and!; [done..|]. eapply (answer_or r _ _ _ _ _ s1); [done..|exact Hans|exact Hb|]. cbn. intros k. split.
      * intros Hk. right. by eapply named_name.
      * by intros [[Hk ?]|<-].
  - apply wp_ret. split; [|lia]. split_and!; [done..|lia|lia|]. eapply answer_iff; [exact Hans|]. cbn. intros k. split; [|intros [? ?]; split; [done|lia]].
    intros [Hk ?]. split; [done|]. destruct (Z.eq_dec k n) as [->|]; [|lia]. destruct Hk as (m' & _ & Hm' & E). congruence.
Qed.

(** ** Dependencies *)

Lemma disj_from load r names s0 : loads_below load r -> (forall alt k, alt ∈ alternatives names -> named alt k -> (rank k < r)%nat) ->
  forall alts before pre j success s fuel, alternatives names = before ++ alts -> Forall (fun alt => alt_ok alt /\ no_stem alt) alts -> alts <> [] ->
  names = pre ++ join alts -> (exists c, str_at names j = Ok c /\ c <> 0) -> (length alts < fuel)%nat ->
  Inv s -> later r s0 s -> answer (fun k => exists alt, alt ∈ before /\ named alt k) success s ->
  wp (mloop fuel (disj_body load names) (Z.of_nat (length pre), j, success))
    (fun b s' => Inv s' /\ later r s0 s' /\ answer (provides names) b s') s.
Proof.
  intros Hload Hr alts. induction alts as [|alt alts IH]; intros before pre j success s fuel Eb Hok Hne En (c & Ec & Hc) Hf Hs Hl Hans; [done|].
  destruct fuel as [|fuel]; [cbn in Hf; lia|]. apply Forall_cons in Hok as [[Ha Hst] Hok].
  assert (exists post, names = pre ++ alt ++ post /\ (post = [] /\ alts = [] \/ post = 124 :: join alts /\ alts <> [])) as (post & Ep & Hpost).
  { destruct alts as [|a l]; [exists []|exists (124 :: join (a :: l))]; rewrite En; (split; [|naive_solver]); by rewrite ?app_nil_r. }
  rewrite mloop_S. apply wp_bind. unfold disj_body at 1. apply wp_bind. eapply wp_lift; [exact Ec|].
  rewrite (proj2 (Z.eqb_neq c 0)) by done. apply wp_bind. eapply wp_lift.
  { apply (scan_from names pre alt post); [done|apply Ha|naive_solver|]. rewrite Ep, !length_app. lia. }
  apply wp_bind. rewrite Ep at 1. eapply wp_mono; [apply (name_ok load r pre alt post s); [done..|]|].
  { intros k. apply Hr. rewrite Eb. set_solver. }
  intros b s1 (Hs1 & Hl1 & Hb). apply wp_ret.
  assert (answer (fun k => exists a, a ∈ before ++ [alt] /\ named a k) (success || b) s1) as Hans1.
  { eapply (answer_or r _ _ _ _ _ s); [done..|exact Hans|exact Hb|]. cbn. intros k. set_solver. }
  assert (later r s0 s1) as Hl01 by (by eapply later_trans).
  destruct Hpost as [[-> ->]|[-> Hne']].
  - destruct fuel as [|fuel]; [cbn in Hf; lia|]. rewrite mloop_S. apply wp_bind. unfold disj_body at 1. apply wp_bind.
    eapply wp_lift; [apply str_at_end; by rewrite Ep, app_nil_r|]. apply wp_ret. cbn [Z.eqb]. apply wp_ret. split_and!; [done..|].
    eapply answer_iff; [exact Hans1|]. intros k. unfold provides. by rewrite Eb.
  - replace (Z.of_nat (length (pre ++ alt)) + 1) with (Z.of_nat (length (pre ++ alt ++ [124]))) by (rewrite !length_app; cbn [length]; lia).
    apply (IH (before ++ [alt])); try done.
    + by rewrite Eb, <- app_assoc.
    + by rewrite Ep, <- !app_assoc.
    + exists 124. split; [|done]. rewrite Ep, app_assoc. by apply str_at_mid.
    + cbn in Hf. lia.
Qed.

Lemma disj_ok load r dep s : loads_below load r -> Inv s -> Forall (fun alt => alt_ok alt /\ no_stem alt) (alternatives dep) -> (forall k, provides dep k -> (rank k < r)%nat) ->
  wp (module_load_disj load dep) (fun b s' => Inv s' /\ later r s s' /\ answer (provides dep) b s') s.
Proof.
  intros Hload Hs Hok Hr. unfold module_load_disj. apply (disj_from load r dep s Hload) with (alts := alternatives dep) (before := []) (pre := []); try done.
  - intros alt k Halt Hk. apply Hr. by exists alt.
  - apply alternatives_ne.
  - by rewrite join_alternatives.
  - rewrite <- (join_alternatives dep). destruct (alternatives dep) as [|[|c a] l] eqn:E; [by apply alternatives_ne in E|..];
      apply Forall_cons in Hok as [[(Hc & Hne & _) _] _]; [done|]. exists c. apply Forall_cons in Hc as [[Hc _] _]. split; [|done].
    destruct l; cbn [join app]; by apply (str_at_mid []).
  - assert (forall d, length (alternatives d) <= S (length d))%nat as Hlen; [|specialize (Hlen dep); lia].
    intros d. induction d as [|c d IH]; cbn; [lia|]. destruct (c =? 124); cbn; [lia|]. destruct (alternatives d); cbn in *; lia.
  - apply later_refl.
  - split; [done|]. intros _ ok _ k (alt & Hin & _). set_solver.
Qed.

Context (Hac : acyclic rank).

Lemma deps_ok load k m s : 0 <= k -> mods !! Z.to_nat k = Some m -> loads_below load (rank k) -> Inv s ->
  wp (mloop (S (length (dependencies m))) (dep_body load k) 0)
    (fun b s' => Inv s' /\ later (rank k) s s' /\
       (b = true -> forall dep, dependency k dep -> exists k', provides dep k' /\ is_loaded s' k') /\
       (b = false -> forall ok, results ok -> ~ loadable ok k)) s.
Proof.
  intros Hk Hm Hload Hs.
  eapply (wp_mloop _ (fun d s' => Inv s' /\ later (rank k) s s' /\ 0 <= d <= Z.of_nat (length (dependencies m)) /\
    forall i dep, dependencies m !! i = Some dep -> Z.of_nat i < d -> exists k', provides dep k' /\ is_loaded s' k')
    _ (fun d _ => Z.to_nat (Z.of_nat (length (dependencies m)) - d))).
  2:{ split_and!; [done|apply later_refl|lia..]. }
  2:{ lia. }
  clear Hs. intros d s1 (Hs1 & Hl1 & Hd & Hall). unfold dep_body. apply wp_bind. eapply (wp_runtime s1 k m); [done..|].
  intros r _ ->. zcase.
  - destruct (lookup_lt_is_Some_2 (dependencies m) (Z.to_nat d)) as [dep Hdep]; [lia|].
    assert (dependency k dep) as Hkd by (exists m; split_and!; [done..|by eapply list_elem_of_lookup_2]).
    apply wp_bind. eapply wp_lift; [by rewrite Hdep|]. apply wp_bind. eapply wp_mono.
    { apply (disj_ok load (rank k)); [done..| |].
      - apply Forall_forall. intros alt Halt. by eapply (to_deps Ht).
      - intros k' Hk'. by eapply Hac. }
    intros b s2 (Hs2 & Hl2 & Hb1 & Hb2). assert (later (rank k) s s2) by (by eapply later_trans). apply wp_ret. destruct b; cbn [negb].
    + split; [|lia]. split_and!; [done..|lia|lia|]. intros i dep' Hi Hlt. destruct (Z.eq_dec (Z.of_nat i) d) as [<-|].
      * rewrite Nat2Z.id, Hi in Hdep. injection Hdep as <-. by apply Hb1.
      * destruct (Hall i dep' Hi ltac:(lia)) as (k' & ? & ?). exists k'. split; [done|]. by eapply loaded_later; [exact Hs1|..].
    + split_and!; [done..|]. intros _ ok Hok Hlo. inversion Hlo as [k0 m0 _ Hm0 _ Hdeps]; subst.
      destruct (Hdeps dep Hkd) as (k' & Hp & Hlk). by apply (Hb2 eq_refl ok Hok k').
  - apply wp_ret. split_and!; [done..| |done]. intros _ dep (m' & _ & Hm' & Hin). rewrite Hm in Hm'. injection Hm' as <-.
    apply list_elem_of_lookup_1 in Hin as [i Hi]. apply (Hall i dep Hi). apply lookup_lt_Some in Hi. lia.
Qed.

(** ** Initialisation *)

Lemma ordered_snoc l k b : ordered l -> (k, true) ∉ l ->
  (forall dep, dependency k dep -> exists k', provides dep k' /\ (k', true) ∈ l) -> ordered (l ++ [(k, b)]).
Proof.
  intros Hl Hk Hd l1 k' b' l2 E. destruct l2 as [|e l2 _] using rev_ind.
  - apply app_inj_tail in E as [<- [= <- <-]]. done.
  - rewrite app_comm_cons, app_assoc in E. apply app_inj_tail in E as [E _]. by eapply Hl.
Qed.

Lemma loaded_set k m s k' : Inv s -> 0 <= k -> mods !! Z.to_nat k = Some m -> is_loaded (set_loaded k s) k' <-> k' = k \/ is_loaded s k'.
Proof.
  intros Hs Hk Hm. destruct (inv_runtime s k m Hs Hk Hm) as (r & Er & _). unfold is_loaded, set_loaded. cbn [mr]. split.
  - intros (r' & Hk' & E & El). destruct (Z.eq_dec k' k) as [->|]; [by left|right]. rewrite list_lookup_alter_ne in E by lia. eauto.
  - intros [->|(r' & Hk' & E & El)].
    + exists (mkRuntime (mr_mod r) true). by rewrite list_lookup_alter_eq, Er.
    + destruct (decide (Z.to_nat k' = Z.to_nat k)) as [Ek|].
      * exists (mkRuntime (mr_mod r) true). rewrite Ek, list_lookup_alter_eq, Er. done.
      * exists r'. by rewrite list_lookup_alter_ne.
Qed.

Lemma inv_init s k m w b w' : Inv s -> 0 <= k -> mods !! Z.to_nat k = Some m -> ~ is_loaded s k -> init m w = Ok (b, w') ->
  (forall dep, dependency k dep -> exists k', provides dep k' /\ is_loaded s k') ->
  let s' := DLOG (k, b) (if b then set_loaded k (set_ms_world w' s) else set_ms_world w' s) in
  Inv s' /\ (b = true -> is_loaded s' k).
Proof.
  intros Hs Hk Hm Hnl Hi Hd s'. assert (Inv (set_ms_world w' s)) as Hw by (by destruct Hs).
  assert (forall k', is_loaded s' k' <-> (b = true /\ k' = k) \/ is_loaded s k') as Hl.
  { intros k'. unfold s'. destruct b.
    - pose proof (loaded_set k m (set_ms_world w' s) k' Hw Hk Hm). unfold is_loaded in *. cbn in *. naive_solver.
    - unfold is_loaded. cbn. naive_solver. }
  split; [|intros ->; apply Hl; by left]. assert (messages s' = messages s ++ [(k, b)]) as Em by (unfold s'; by destruct b). split.
  - unfold s'. destruct b; cbn [DLOG set_loaded set_ms_world mr]; [|apply Hs]. etrans; [|exact (i_mods _ Hs)].
    apply list_eq. intros i. rewrite !list_lookup_fmap. destruct (decide (i = Z.to_nat k)) as [->|].
    + rewrite list_lookup_alter_eq. by destruct (mr s !! _).
    + by rewrite list_lookup_alter_ne.
  - intros k'. rewrite Hl, Em, elem_of_app, list_elem_of_singleton, <- (i_loaded _ Hs). naive_solver.
  - rewrite Em. apply ordered_snoc; [apply Hs|by rewrite <- (i_loaded _ Hs)|]. intros dep Hdep.
    destruct (Hd dep Hdep) as (k' & ? & ?%(i_loaded _ Hs)). eauto.
  - intros ok Hok k' [[-> ->]|Hl']%Hl; [|by apply (i_sound _ Hs)]. apply (loadable_intro ok k m); [done..| |].
    + destruct (Hok k m w Hk Hm) as [w'' E]. congruence.
    + intros dep Hdep. destruct (Hd dep Hdep) as (k' & ? & ?). exists k'. split; [done|]. by apply (i_sound _ Hs).
Qed.

Lemma load_ok fuel r : (r <= fuel)%nat -> loads_below (module_load_i fuel) r.
Proof.
  revert r. induction fuel as [|fuel IH]; intros r Hr k s Hs Hk Hrk; [lia|]. cbn [module_load_i].
  rewrite (proj2 (Z.ltb_ge k 0)) by lia. destruct (lookup_lt_is_Some_2 mods (Z.to_nat k)) as [m Hm]; [lia|].
  apply wp_bind. eapply (wp_runtime s k m); [done|lia|done|]. intros r1 Er <-. destruct (loaded r1) eqn:El.
  { apply wp_ret. split_and!; [done|apply later_refl|]. split; [|done]. intros _. exists k. split; [done|]. exists r1. split_and!; [lia|done..]. }
  apply wp_bind. eapply wp_mono; [apply (deps_ok _ k (mr_mod r1)); [lia|done|apply IH; lia|done]|]. intros d s1 (Hs1 & Hl1 & Hd1 & Hd2).
  assert (later r s s1) as Hl by (eapply later_mono; [|exact Hl1]; lia).
  destruct d; cbn [negb].
  2:{ apply wp_ret. split_and!; [done..|]. split; [done|]. intros _ ok Hok k' <-. by apply Hd2. }
  assert (~ is_loaded s1 k) as Hnl.
  { rewrite (i_loaded _ Hs1). destruct Hl1 as (l & -> & Hf). rewrite elem_of_app, <- (i_loaded _ Hs). intros [(r2 & _ & E & E')|Hin].
    - congruence.
    - rewrite Forall_forall in Hf. specialize (Hf _ Hin). cbn in Hf. lia. }
  apply wp_bind. eapply (wp_runtime s1 k (mr_mod r1)); [done|lia|done|]. intros r2 _ ->.
  destruct (to_init Ht (mr_mod r1) (world s1)) as (b & w' & Eb); [by eapply list_elem_of_lookup_2|].
  destruct (inv_init s1 k (mr_mod r1) (world s1) b w' Hs1 ltac:(lia) Hm Hnl Eb (Hd1 eq_refl)) as [Hi Hb].
  unfold wp, bind at 1, in_world. rewrite Eb. unfold bind, when, modify, ret.
  set (s' := DLOG (k, b) _) in *. destruct b; (split_and!; [exact Hi| |split]); cbn; try done.
  - destruct Hl as (l & E & Hf). exists (l ++ [(k, true)]). cbn. rewrite E, app_assoc. split; [done|]. apply Forall_app. split; [done|]. by constructor.
  - intros _. exists k. split; [done|]. by apply Hb.
  - destruct Hl as (l & E & Hf). exists (l ++ [(k, false)]). cbn. rewrite E, app_assoc. split; [done|]. apply Forall_app. split; [done|]. by constructor.
  - intros _ ok Hok k' <- Hlo. inversion Hlo as [k0 m0 Hk0 Hm0 Hok0 _]; subst. destruct (Hok k (mr_mod r1) (world s1) Hk0 Hm) as [w'' E]. congruence.
Qed.
End spec.

(** ** Theorems *)

Section all.
Context {W : Type} `{PageOps W}.
Implicit Types (mods : list (module W)) (s : modsystem W).

(** The array fits in the pages that are allocated for it. *)
Lemma module_pages_fit count : 0 < count < 2 ^ 29 -> count * 8 <= module_pages count * 4096 /\ 0 < module_pages count.
Proof.
  intros Hc. unfold module_pages. rewrite (u32_small (count * 8)), (u32_small (count * 8 - 1)) by lia.
  rewrite Z.shiftr_div_pow2 by lia. change (2 ^ 12) with 4096.
  pose proof (Z.div_mod (count * 8 - 1) 4096 ltac:(lia)). pose proof (Z.mod_pos_bound (count * 8 - 1) 4096 ltac:(lia)).
  rewrite u32_small by lia. lia.
Qed.

Lemma load_rest mods rank s fuel : table_ok mods -> acyclic mods rank -> Inv mods s -> (length mods < fuel)%nat ->
  wp (mloop fuel (all_body fuel) 0)
    (fun _ s' => Inv mods s' /\ forall ok, results mods ok -> forall k, is_loaded s' k <-> loadable mods ok k) s.
Proof.
  intros Ht Hac Hs Hf.
  eapply (wp_mloop _ (fun i s' => Inv mods s' /\ 0 <= i <= Z.of_nat (length mods) /\
    forall ok, results mods ok -> forall k, k < i -> loadable mods ok k -> is_loaded s' k)
    _ (fun i _ => Z.to_nat (Z.of_nat (length mods) - i))).
  2:{ split_and!; [done|lia..|]. intros ok _ k Hk Hlo. inversion Hlo. lia. }
  2:{ lia. }
  clear Hs. intros i s1 (Hs1 & Hi & Hdone). unfold all_body. apply wp_bind, wp_gets. rewrite (inv_count mods s1 Hs1). zcase.
  - apply wp_bind. pose proof (proj2 Hac i) as Hr. eapply wp_mono; [apply (load_ok mods Ht rank Hac fuel (S (rank i))); [lia|done|lia|lia]|].
    intros b s2 (Hs2 & Hl & Hb1 & Hb2). apply wp_ret. split; [|lia]. split_and!; [done|lia|lia|]. intros ok Hok k Hk Hlo.
    destruct (Z.eq_dec k i) as [->|].
    + destruct b; [|by destruct (Hb2 eq_refl ok Hok i eq_refl)]. destruct (Hb1 eq_refl) as (k & <- & ?). done.
    + eapply loaded_later; [exact Ht|exact Hs1|exact Hs2|exact Hl|]. apply (Hdone ok Hok); [lia|done].
  - apply wp_ret. split; [done|]. intros ok Hok k. split; [by apply (i_sound _ _ Hs1)|]. intros Hlo. apply (Hdone ok Hok); [|done].
    destruct Hlo as [k m Hk Hm _ _]. apply lookup_lt_Some in Hm. lia.
Qed.

(** C17: With memory for its table, [module_load_all] returns whenever the dependencies have no
    cycle.  Every module is initialised after modules that provide its dependencies, and
    not again once it succeeded; if the result of each initialisation is given, the
    modules loaded in the end are exactly those that can be. *)
Theorem module_load_all_correct mods rank s phys w1 va w2 :
  table_ok mods -> acyclic mods rank -> mods <> [] -> messages s = [] ->
  alloc_frames (module_pages (Z.of_nat (length mods))) (world s) = Ok (phys, w1) -> phys <> NO_FRAME ->
  map_contiguous (Z.lor phys 3) (module_pages (Z.of_nat (length mods))) w1 = Ok (va, w2) -> va <> 0 ->
  exists s', module_load_all mods s = Ok (true, s') /\ ordered mods (messages s') /\
    (forall k, is_loaded s' k <-> (k, true) ∈ messages s') /\
    forall ok, results mods ok -> forall k, is_loaded s' k <-> loadable mods ok k.
Proof.
  intros Ht Hac Hne Hms Hal Hph Hmap Hva. set (s0 := mkSystem ((fun m => mkRuntime m false) <$> mods) [] w2).
  assert (forall k, ~ is_loaded s0 k) as Hnl.
  { intros k (r & _ & E & El). cbn in E. rewrite list_lookup_fmap in E. apply fmap_Some in E as (m & _ & ->). done. }
  assert (Inv mods s0) as H0.
  { split; cbn [s0 mr messages].
    - rewrite <- list_fmap_compose. cbn. by rewrite list_fmap_id.
    - intros k. split; [by intros ?%Hnl|]. by intros ?%elem_of_nil.
    - intros l1 k b l2 E. by destruct l1.
    - intros ok _ k ?%Hnl. done. }
  destruct (proj1 (wp_Ok _ _ _) (load_rest mods rank s0 (S (length mods)) Ht Hac H0 ltac:(lia))) as ([] & s' & E & Hi & Hall).
  exists s'. split; [|split_and!; [apply Hi|apply Hi|exact Hall]].
  unfold module_load_all. rewrite (proj2 (Z.eqb_neq _ 0)) by (destruct mods; [done|cbn; lia]).
  unfold bind at 1, in_world at 1. rewrite Hal. rewrite (proj2 (Z.eqb_neq phys _)) by done.
  unfold bind at 1, in_world at 1. cbn [world set_ms_world]. rewrite Hmap. rewrite (proj2 (Z.eqb_neq va 0)) by done.
  unfold bind at 1, modify. cbn [messages world set_ms_world]. rewrite Hms. fold s0. unfold bind. by rewrite E.
Qed.

(** Without memory nothing is initialised. *)
Lemma module_load_all_no_memory mods s phys w1 : mods <> [] ->
  alloc_frames (module_pages (Z.of_nat (length mods))) (world s) = Ok (phys, w1) ->
  (phys = NO_FRAME -> module_load_all mods s = Ok (false, set_ms_world w1 s)) /\
  forall w2 w3, phys <> NO_FRAME -> map_contiguous (Z.lor phys 3) (module_pages (Z.of_nat (length mods))) w1 = Ok (0, w2) ->
    free_frames phys (module_pages (Z.of_nat (length mods))) w2 = Ok (tt, w3) -> module_load_all mods s = Ok (false, set_ms_world w3 s).
Proof.
  intros Hne Hal. assert (Z.of_nat (length mods) =? 0 = false) as Hc by (apply Z.eqb_neq; destruct mods; [done|cbn; lia]).
  split; [intros ->|intros w2 w3 Hph Hmap Hfr]; unfold module_load_all; rewrite Hc; unfold bind at 1, in_world at 1; rewrite Hal; [done|].
  rewrite (proj2 (Z.eqb_neq phys _)) by done. unfold bind at 1, in_world at 1. cbn [world set_ms_world]. rewrite Hmap.
  unfold bind, in_world. cbn [world set_ms_world Z.eqb]. by rewrite Hfr.
Qed.
End all.

(** ** The modules of the kernel *)

(** Modules with given names, dependencies and results. *)
Definition make_table {W} (l : list (string * list string * bool)) : list (module W) :=
  (fun '(n, deps, b) => mkModule (str n) (ret b) (str <$> deps)) <$> l.

(** The modules that the sources declare; the network cards and USB devices are not there. *)
Definition kernel_table : list (string * list string * bool) :=
  [("logger", [], true); ("perfmon", [], true); ("ipc", [], true); ("sched___vcpu", [], true);
   ("vfs", ["storage___ata|usbenumeration|netsetup"], true); ("netsetup", ["net___"], true);
   ("net___ethernet", [], true); ("net___pcnet", ["net___ethernet"; "pci"], false);
   ("net___e1000", ["net___ethernet"; "pci"], false); ("net___r8169", ["net___ethernet"; "pci"], false);
   ("sound___sb16", ["vfs"], false); ("input___kb8042", [], true); ("usb___uvc", ["usb"], false);
   ("usb___umsc", ["usb"], false); ("usb", [], true); ("usb___ftdi", ["usb"], false); ("usb___hub", ["usb"], false);
   ("usb___asix", ["usb"; "net___ethernet"], false); ("usb___net", ["usb"; "net___ethernet"], false);
   ("usb___rtl8187b", ["usb"; "net___ethernet"], false); ("usbenumeration", ["usb___"], true);
   ("usb___pl2303", ["usb"], false); ("storage___ata", [], false); ("serial___mcs9922", ["pci"], false);
   ("pci", [], true); ("vm___vmx", [], false)]%string.

(** In that table ["usb"] is the stem of the subtree ["usb___"]; without the USB manager no
    name is a stem. *)
Definition diskless_table : list (string * list string * bool) :=
  filter (fun e => e.1.1 <> "usb"%string) kernel_table.

(** The longest chain of dependencies of each. *)
Definition diskless_ranks : list nat :=
  [0; 0; 0; 0; 3; 2; 0; 1; 1; 1; 4; 0; 1; 1; 1; 1; 1; 1; 1; 2; 1; 0; 1; 0; 0]%nat.

(** The hypotheses of the theorem, as tests. *)
Definition alt_okb (alt : list Z) : bool :=
  forallb (fun c => negb (c =? 0) && negb (c =? 124)) alt &&
  negb (bool_decide (alt = [])) && negb (bool_decide (alt = [95])) && negb (bool_decide (alt = [95; 95])).

Definition named_okb {W} (m : module W) : bool :=
  forallb (fun c => negb (c =? 0)) (name m) && (Z.of_nat (length (name m)) <? 2 ^ 32) &&
  forallb (fun dep => forallb alt_okb (alternatives dep)) (dependencies m).

Definition no_stemb {W} (mods : list (module W)) (alt : list Z) : bool :=
  implb (subtree alt) (forallb (fun m => negb (compat (name m) alt && Nat.ltb (length (name m)) (length alt))) mods).

Definition no_stemsb {W} (mods : list (module W)) : bool :=
  forallb (fun m => forallb (fun dep => forallb (no_stemb mods) (alternatives dep)) (dependencies m)) mods.

Definition rankedb {W} (mods : list (module W)) (ranks : list nat) : bool :=
  forallb (fun '(m, r) => forallb (fun dep => forallb (fun '(m', r') =>
    implb (existsb (matches (name m')) (alternatives dep)) (Nat.ltb r' r)) (zip mods ranks)) (dependencies m)) (zip mods ranks) &&
  forallb (fun r => Nat.leb r (length mods)) ranks && Nat.eqb (length ranks) (length mods).

Lemma alt_okb_ok alt : alt_okb alt = true -> alt_ok alt.
Proof.
  unfold alt_okb. rewrite !andb_true_iff, forallb_forall. intros [[[H0 H1] H2] H3]. split_and!.
  - apply Forall_forall. intros c Hc%list_elem_of_In. specialize (H0 c Hc). apply andb_true_iff in H0 as [?%negb_true_iff%Z.eqb_neq ?%negb_true_iff%Z.eqb_neq]. done.
  - by apply negb_true_iff, bool_decide_eq_false in H1.
  - by apply negb_true_iff, bool_decide_eq_false in H2.
  - by apply negb_true_iff, bool_decide_eq_false in H3.
Qed.

Lemma no_stemb_ok {W} (mods : list (module W)) alt : no_stemb mods alt = true -> no_stem mods alt.
Proof.
  unfold no_stemb. intros H Hs m Hm (c & l & E). rewrite Hs in H. cbn [implb] in H. rewrite forallb_forall in H.
  specialize (H m (proj1 (list_elem_of_In _ _) Hm)). rewrite E, length_app in H. cbn [length] in H.
  rewrite (proj2 (Nat.ltb_lt _ _)), andb_true_r in H by lia. apply negb_true_iff in H. clear - H.
  induction (name m) as [|x a IH]; cbn in H; [done|]. rewrite Z.eqb_refl in H. by apply IH.
Qed.

Lemma make_table_ok {W} l : NoDup (name <$> make_table (W := W) l) -> forallb (named_okb (W := W)) (make_table l) = true ->
  no_stemsb (make_table (W := W) l) = true -> table_ok (make_table (W := W) l).
Proof.
  intros Hnd Hb Hst. unfold no_stemsb in Hst. rewrite forallb_forall in Hst. rewrite forallb_forall in Hb.
  assert (forall m, m ∈ make_table (W := W) l -> named_okb m = true) as Hm by (intros m ?%list_elem_of_In; auto). split; [done|..].
  - intros m Hin. specialize (Hm m Hin). unfold named_okb in Hm. apply andb_true_iff in Hm as [[Hp Hl%Z.ltb_lt]%andb_true_iff _]. split; [|done].
    apply Forall_forall. intros c Hc%list_elem_of_In. rewrite forallb_forall in Hp. by apply Z.eqb_neq, negb_true_iff, Hp.
  - intros k dep alt (m & _ & Hk & Hdep%list_elem_of_In) Halt%list_elem_of_In. split.
    2:{ specialize (Hst m (proj1 (list_elem_of_In _ _) (list_elem_of_lookup_2 _ _ _ Hk))). rewrite forallb_forall in Hst.
        specialize (Hst dep Hdep). rewrite forallb_forall in Hst. by apply no_stemb_ok, Hst. }
    apply alt_okb_ok.
    specialize (Hm m (list_elem_of_lookup_2 _ _ _ Hk)). apply andb_true_iff in Hm as [_ Hd]. rewrite forallb_forall in Hd.
    specialize (Hd dep Hdep). rewrite forallb_forall in Hd. auto.
  - intros m w Hin. apply list_elem_of_fmap in Hin as ([[n deps] b] & -> & _). by exists b, w.
Qed.

Lemma rankedb_ok {W} (mods : list (module W)) ranks : rankedb mods ranks = true -> acyclic mods (fun k => nth (Z.to_nat k) ranks 0%nat).
Proof.
  unfold rankedb. rewrite !andb_true_iff, !forallb_forall. intros [[H1 H2] Hlen%Nat.eqb_eq]. split.
  - assert (forall k m, mods !! Z.to_nat k = Some m -> In (m, nth (Z.to_nat k) ranks 0%nat) (zip mods ranks)) as Hzip.
    { intros k m Hk. apply list_elem_of_In, list_elem_of_lookup. exists (Z.to_nat k). rewrite lookup_zip_with, Hk. cbn.
      destruct (lookup_lt_is_Some_2 ranks (Z.to_nat k)) as [r Hr]; [rewrite Hlen; by eapply lookup_lt_Some|].
      rewrite Hr. cbn. by rewrite (nth_lookup_Some _ _ _ _ Hr). }
    intros k dep k' (m & _ & Hk & Hdep%list_elem_of_In) (alt & Halt%list_elem_of_In & m' & _ & Hk' & Hma).
    specialize (H1 _ (Hzip k m Hk)). cbn in H1. rewrite forallb_forall in H1. specialize (H1 dep Hdep). rewrite forallb_forall in H1.
    specialize (H1 _ (Hzip k' m' Hk')). cbn in H1. rewrite (proj2 (existsb_exists _ _)) in H1 by eauto. by apply Nat.ltb_lt.
  - intros k. destruct (nth_in_or_default (Z.to_nat k) ranks 0%nat) as [Hin|E]; [|rewrite E; lia]. apply Nat.leb_le, H2, Hin.
Qed.

Lemma diskless_modules_ok {W} : table_ok (make_table (W := W) diskless_table).
Proof.
  apply make_table_ok; [|by vm_compute..].
  refine (bool_decide_unpack _ _). vm_compute. exact I.
Qed.

Definition table_result (l : list (string * list string * bool)) (k : Z) : bool :=
  match l !! Z.to_nat k with Some (_, b) => b | None => false end.

Lemma make_results {W} l : results (make_table (W := W) l) (table_result l).
Proof.
  intros k m w _ Hm. unfold make_table in Hm. rewrite list_lookup_fmap in Hm. apply fmap_Some in Hm as ([[n deps] b] & E & ->).
  exists w. unfold table_result. by rewrite E.
Qed.

Lemma load_alone {W} l k n : 0 <= k -> l !! Z.to_nat k = Some (n, [], true) -> loadable (make_table (W := W) l) (table_result l) k.
Proof.
  intros Hk E. assert (make_table (W := W) l !! Z.to_nat k = Some (mkModule (str n) (ret true) [])) as Em
    by (unfold make_table; by rewrite list_lookup_fmap, E).
  apply (loadable_intro _ _ k _ Hk Em).
  - unfold table_result. by rewrite E.
  - intros dep (m & _ & Hm & Hd). rewrite Em in Hm. injection Hm as <-. by apply elem_of_nil in Hd.
Qed.

Lemma load_one {W} l k n d k' : 0 <= k -> l !! Z.to_nat k = Some (n, [d], true) -> provides (make_table (W := W) l) (str d) k' ->
  loadable (make_table (W := W) l) (table_result l) k' -> loadable (make_table (W := W) l) (table_result l) k.
Proof.
  intros Hk E Hp Hl. assert (make_table (W := W) l !! Z.to_nat k = Some (mkModule (str n) (ret true) [str d])) as Em
    by (unfold make_table; by rewrite list_lookup_fmap, E).
  apply (loadable_intro _ _ k _ Hk Em).
  - unfold table_result. by rewrite E.
  - intros dep (m & _ & Hm & Hd). rewrite Em in Hm. injection Hm as <-. apply list_elem_of_singleton in Hd as ->. eauto.
Qed.

(** The state after an operation, and a test of its result. *)
Definition state_after {A W} (w : W) (o : outcome (A * W)) : W := match o with Ok (_, w') => w' | Err _ => w end.
Definition result_is {W} (v : Z) (o : outcome (Z * W)) : bool := match o with Ok (a, _) => a =? v | Err _ => false end.

Lemma result_is_ok {W} v (w : W) o : result_is v o = true -> o = Ok (v, state_after w o).
Proof. by destruct o as [[a w']|e]; [intros ->%Z.eqb_eq|]. Qed.

(** The file system layer is loaded, the sound card, which is not there, is not. *)
Lemma module_load_all_correct_witness : let _ := mmu_pages 0x1000 0x2000 in
  exists s', module_load_all (make_table diskless_table) (mkSystem [] [] heap_mmu) = Ok (true, s') /\
    ordered (make_table (W := mmu) diskless_table) (messages s') /\ is_loaded s' 4 /\ ~ is_loaded s' 10.
Proof.
  intros P. set (w1 := state_after heap_mmu (alloc_frames 1 heap_mmu)).
  destruct (module_load_all_correct (make_table (W := mmu) diskless_table) (fun k => nth (Z.to_nat k) diskless_ranks 0%nat)
    (mkSystem [] [] heap_mmu) 0x20000 w1 kernelstart (state_after heap_mmu (map_contiguous (Z.lor 0x20000 3) 1 w1))) as (s' & E & Ho & _ & Hl).
  - apply diskless_modules_ok.
  - apply rankedb_ok. by vm_compute.
  - done.
  - done.
  - apply result_is_ok. by vm_compute.
  - by vm_compute.
  - apply result_is_ok. by vm_compute.
  - by vm_compute.
  - exists s'. split; [exact E|]. split; [exact Ho|]. pose proof (Hl _ (make_results diskless_table)) as Hk. split.
    + apply Hk. apply (load_one _ 4 "vfs" "storage___ata|usbenumeration|netsetup" 5); [lia|done| |].
      * exists (str "netsetup"). split; [apply list_elem_of_In; vm_compute; auto|]. eexists. split_and!; [lia|reflexivity|reflexivity].
      * apply (load_one _ 5 "netsetup" "net___" 6); [lia|done| |by apply (load_alone _ 6 "net___ethernet")].
        exists (str "net___"). split; [apply list_elem_of_In; vm_compute; auto|]. eexists. split_and!; [lia|reflexivity|reflexivity].
    + rewrite Hk. intros Hlo. inversion Hlo as [k m _ _ Hok _]. by vm_compute in Hok.
Defined.

(** *** A stem *)

(** [strncmp] stops at the end of the shorter string, so the USB manager meets the pattern
    of the subtree of the USB drivers: in the table of the kernel the enumeration of USB
    devices, module 20, is started, without a driver. *)
Definition stem_messages : list (Z * bool) :=
  match (let _ := mmu_pages 0x1000 0x2000 in module_load_all (make_table kernel_table) (mkSystem [] [] heap_mmu)) with
  | Ok (_, s) => messages s
  | Err _ => []
  end.

Definition is_driver (e : Z * bool) : bool :=
  match kernel_table !! Z.to_nat e.1 with Some (n, _, _) => e.2 && begins (str n) (str "usb___") | None => false end.

Lemma stem_starts_enumeration :
  bool_decide ((20, true) ∈ stem_messages) && bool_decide ((4, true) ∈ stem_messages) && negb (existsb is_driver stem_messages) = true.
Proof. vm_compute. reflexivity. Qed.

(** A cycle of dependencies is not recognised: the recursion does not end. *)
Definition cycle_table : list (string * list string * bool) := [("a", ["a"], true)]%string.

Lemma bind_Err {S A B} (m : M S A) (k : A -> M S B) s e : m s = Err e -> bind m k s = Err e.
Proof. unfold bind. by intros ->. Qed.

Lemma bind_step {S A B} (m : M S A) (k : A -> M S B) s a s1 r : m s = Ok (a, s1) -> k a s1 = r -> bind m k s = r.
Proof. unfold bind. by intros ->. Qed.

(** Evaluate up to the call that fails. *)
Ltac run_step :=
  lazymatch goal with
  | |- mloop (S _) _ _ _ = _ => rewrite mloop_S
  | |- bind ?m _ _ = _ =>
      lazymatch m with
      | context [module_load_i] => apply bind_Err
      | _ => eapply bind_step; [vm_compute; reflexivity|]
      end
  | |- (if ?b then _ else _) _ = _ => let v := eval vm_compute in b in change b with v; cbv iota
  | |- (let '(_, _) := _ in _) _ = _ => cbv iota
  | |- (match _ with Continue _ => _ | Break _ => _ end) _ = _ => cbv iota
  | |- (let _ := _ in _) _ = _ => cbv zeta
  | |- dep_body _ _ _ _ = _ => unfold dep_body
  | |- module_load_disj _ _ _ = _ => unfold module_load_disj
  | |- disj_body _ _ _ _ = _ => unfold disj_body
  | |- name_body _ _ _ _ _ _ _ = _ => unfold name_body
  | |- module_load_name _ _ _ _ _ = _ => unfold module_load_name
  end; cbv beta.

Lemma cycle_diverges (W : Type) (w : W) fuel :
  module_load_i fuel 0 (mkSystem ((fun m => mkRuntime m false) <$> make_table cycle_table) [] w) = Err OutOfFuel.
Proof. induction fuel as [|fuel IH]; [done|]. cbn [module_load_i]. repeat run_step. exact IH. Qed.
