(* ===== verification/Vm86.v ===== *)
(** * Virtual 8086 mode: the emulation of privileged instructions

    vm/vm86.c.  A guest in real mode runs in virtual 8086 mode; an instruction that needs
    more privilege raises a general protection fault, and [vmx_vm86_handle_GPF] does what
    the instruction would.  The interrupt flag of the guest is the bit VIF of its flags.

    The state of the guest is in the VMCS, a table of fields by their encoding, in the
    registers that are saved on exit, and in memory, by bytes at linear addresses, which
    the monitor reads and writes directly.  The devices behind the ports are a parameter.
    Log output is left out. *)

From Stdlib Require Import ZArith Lia.
From S2P Require Import Prelude Virtual Process.
From stdpp Require Import base gmap list numbers.
Local Open Scope Z_scope.

(** ** Constants *)

Definition F_IF : Z := 0x200.
Definition F_DF : Z := 0x400.
Definition F_VM : Z := 0x20000.
Definition F_VIF : Z := 0x80000.

Definition VMXENC_GUEST_ES_SEL : Z := 0x0800.
Definition VMXENC_GUEST_CS_SEL : Z := 0x0802.
Definition VMXENC_GUEST_SS_SEL : Z := 0x0804.
Definition VMXENC_GUEST_DS_SEL : Z := 0x0806.
Definition VMXENC_GUEST_FS_SEL : Z := 0x0808.
Definition VMXENC_GUEST_GS_SEL : Z := 0x080A.
Definition VMXENC_GUEST_ES_LIMIT : Z := 0x4800.
Definition VMXENC_GUEST_CS_LIMIT : Z := 0x4802.
Definition VMXENC_GUEST_SS_LIMIT : Z := 0x4804.
Definition VMXENC_GUEST_DS_LIMIT : Z := 0x4806.
Definition VMXENC_GUEST_FS_LIMIT : Z := 0x4808.
Definition VMXENC_GUEST_GS_LIMIT : Z := 0x480A.
Definition VMXENC_GUEST_GDTR_LIMIT : Z := 0x4810.
Definition VMXENC_GUEST_ES_ACCESS : Z := 0x4814.
Definition VMXENC_GUEST_CS_ACCESS : Z := 0x4816.
Definition VMXENC_GUEST_SS_ACCESS : Z := 0x4818.
Definition VMXENC_GUEST_DS_ACCESS : Z := 0x481A.
Definition VMXENC_GUEST_FS_ACCESS : Z := 0x481C.
Definition VMXENC_GUEST_GS_ACCESS : Z := 0x481E.
Definition VMXENC_GUEST_CR0 : Z := 0x6800.
Definition VMXENC_GUEST_ES_BASE : Z := 0x6806.
Definition VMXENC_GUEST_CS_BASE : Z := 0x6808.
Definition VMXENC_GUEST_SS_BASE : Z := 0x680A.
Definition VMXENC_GUEST_DS_BASE : Z := 0x680C.
Definition VMXENC_GUEST_FS_BASE : Z := 0x680E.
Definition VMXENC_GUEST_GS_BASE : Z := 0x6810.
Definition VMXENC_GUEST_GDTR_BASE : Z := 0x6816.
Definition VMXENC_GUEST_RSP : Z := 0x681C.
Definition VMXENC_GUEST_RIP : Z := 0x681E.
Definition VMXENC_GUEST_RFLAGS : Z := 0x6820.

(** ** Data *)

Record vm86_farptr := mkFar { offs : Z; segm : Z }.

Definition REAL_TO_LIN32 (s o : Z) : Z := u32 (Z.shiftl (Z.land s 0xFFFF) 4 + Z.land o 0xFFFF).
Definition FP_TO_LIN32 (fp : vm86_farptr) : Z := REAL_TO_LIN32 (segm fp) (offs fp).
Definition LIN32_TO_FP (p : Z) : vm86_farptr :=
  mkFar (Z.land p 0xFFFF) (u16 (Z.shiftr (Z.land p (u32 (Z.lnot 0xFFFF))) 4)).

Section vm86.
(** The device behind a port: an access of [size] bytes. *)
Context {W : Type} (port_in : Z -> Z -> W -> Z * W) (port_out : Z -> Z -> Z -> W -> W).

(** The fields of [virtual_machine] that are used, the VMCS, the memory of the guest, the
    saved interrupt vectors and the devices. *)
Record machine := mkMachine {
  vmcs : gmap Z Z;
  guest_regs : list Z;
  realmode : bool;
  gmem : gmap Z Z;
  vmx_vm86_IVT : list vm86_farptr;
  devices : W
}.

Definition set_vmcs (v : gmap Z Z) (s : machine) : machine :=
  mkMachine v (guest_regs s) (realmode s) (gmem s) (vmx_vm86_IVT s) (devices s).
Definition set_guest_regs (r : list Z) (s : machine) : machine :=
  mkMachine (vmcs s) r (realmode s) (gmem s) (vmx_vm86_IVT s) (devices s).
Definition set_realmode (b : bool) (s : machine) : machine :=
  mkMachine (vmcs s) (guest_regs s) b (gmem s) (vmx_vm86_IVT s) (devices s).
Definition set_gmem (m : gmap Z Z) (s : machine) : machine :=
  mkMachine (vmcs s) (guest_regs s) (realmode s) m (vmx_vm86_IVT s) (devices s).
Definition set_IVT (t : list vm86_farptr) (s : machine) : machine :=
  mkMachine (vmcs s) (guest_regs s) (realmode s) (gmem s) t (devices s).
Definition set_devices (w : W) (s : machine) : machine :=
  mkMachine (vmcs s) (guest_regs s) (realmode s) (gmem s) (vmx_vm86_IVT s) w.

(** ** Accesses *)

Definition vmread (enc : Z) : M machine Z := gets (fun s => rd (vmcs s) enc).
Definition vmwrite (v enc : Z) : M machine unit := modify (fun s => set_vmcs (wr enc (u32 v) (vmcs s)) s).

Definition mem8 (m : gmap Z Z) (p : Z) : Z := rd m (u32 p).
Definition mem16 (m : gmap Z Z) (p : Z) : Z := mem8 m p + 2 ^ 8 * mem8 m (p + 1).
Definition mem32 (m : gmap Z Z) (p : Z) : Z := mem16 m p + 2 ^ 16 * mem16 m (p + 2).
Definition put8 (p v : Z) (m : gmap Z Z) : gmap Z Z := wr (u32 p) (u8 v) m.
Definition put16 (p v : Z) (m : gmap Z Z) : gmap Z Z := put8 (p + 1) (Z.shiftr v 8) (put8 p v m).
Definition put32 (p v : Z) (m : gmap Z Z) : gmap Z Z := put16 (p + 2) (Z.shiftr v 16) (put16 p v m).

Definition ld8 (p : Z) : M machine Z := gets (fun s => mem8 (gmem s) p).
Definition ld16 (p : Z) : M machine Z := gets (fun s => mem16 (gmem s) p).
Definition ld32 (p : Z) : M machine Z := gets (fun s => mem32 (gmem s) p).
Definition store16 (p v : Z) : M machine unit := modify (fun s => set_gmem (put16 p v (gmem s)) s).
Definition store32 (p v : Z) : M machine unit := modify (fun s => set_gmem (put32 p v (gmem s)) s).

(** The registers are in the order of PUSHA. *)
Definition reg (i : Z) : M machine Z := let! r := gets guest_regs in lift (byte_at r i).
Definition set_reg (i v : Z) : M machine unit :=
  modify (fun s => set_guest_regs (<[Z.to_nat i := u32 v]> (guest_regs s)) s).
Definition edi : Z := 0.
Definition esi : Z := 1.
Definition edx : Z := 5.
Definition ecx : Z := 6.
Definition eax : Z := 7.
Definition VM_REG (n : Z) : Z := 7 - n.

Definition port_read (size port : Z) : M machine Z := fun s =>
  let '(v, w) := port_in size port (devices s) in Ok (v mod 2 ^ (8 * size), set_devices w s).
Definition port_write (size v port : Z) : M machine unit := fun s =>
  Ok (tt, set_devices (port_out size (v mod 2 ^ (8 * size)) port (devices s)) s).

Definition get_size (size p : Z) (m : gmap Z Z) : Z :=
  if size =? 1 then mem8 m p else if size =? 2 then mem16 m p else mem32 m p.
Definition put_size (size p v : Z) (m : gmap Z Z) : gmap Z Z :=
  if size =? 1 then put8 p v m else if size =? 2 then put16 p v m else put32 p v m.

(** [rep ins] and [rep outs], with the direction flag as set before them. *)
Fixpoint rep_ins (size port buf : Z) (backwards : bool) (count : nat) : M machine unit :=
  match count with
  | O => ret tt
  | S count =>
      let! v := port_read size port in
      modify (fun s => set_gmem (put_size size buf v (gmem s)) s) ;;!
      rep_ins size port (if backwards then buf - size else buf + size) backwards count
  end.
Fixpoint rep_outs (size port buf : Z) (backwards : bool) (count : nat) : M machine unit :=
  match count with
  | O => ret tt
  | S count =>
      let! v := gets (fun s => get_size size buf (gmem s)) in
      port_write size v port ;;!
      rep_outs size port (if backwards then buf - size else buf + size) backwards count
  end.

(** ** Helpers *)

(** The copy of the interrupt vectors of the BIOS. *)
Definition vmx_vm86_global_init : M machine unit :=
  let! m := gets gmem in
  modify (set_IVT ((fun i => mkFar (mem16 m (4 * i)) (mem16 m (4 * i + 2))) <$> seqZ 0 256)).

Definition set_cs_ip (fp : vm86_farptr) : M machine unit :=
  vmwrite (offs fp) VMXENC_GUEST_RIP ;;!
  vmwrite (segm fp) VMXENC_GUEST_CS_SEL ;;!
  vmwrite (Z.shiftl (segm fp) 4) VMXENC_GUEST_CS_BASE.
Definition set_ss_sp (fp : vm86_farptr) : M machine unit :=
  vmwrite (offs fp) VMXENC_GUEST_RSP ;;!
  vmwrite (segm fp) VMXENC_GUEST_SS_SEL ;;!
  vmwrite (Z.shiftl (segm fp) 4) VMXENC_GUEST_SS_BASE.

Definition inc_ip (eip amount : Z) : M machine unit := set_cs_ip (LIN32_TO_FP (u32 (eip + amount))).

Definition upd_ip (amount : Z) : M machine unit :=
  let! ip := vmread VMXENC_GUEST_RIP in
  let! cs := vmread VMXENC_GUEST_CS_SEL in
  inc_ip (REAL_TO_LIN32 cs ip) amount.

Record modrm := mkModrm { reg_op : Z; has_sib : bool; m_rm : Z; disp_size : Z; disp : Z }.

Definition decode_modrm_32 (eip : Z) : M machine modrm :=
  let! b := ld8 eip in
  let rm := Z.land b 7 in
  let r := Z.land (Z.shiftr b 3) 7 in
  let mod_ := Z.land (Z.shiftr b 6) 3 in
  let sib := (mod_ <? 3) && (rm =? 4) in
  let p := eip + (if sib then 2 else 1) in
  if mod_ =? 0 then
    if rm =? 5 then let! d := ld32 p in ret (mkModrm r sib rm 4 d) else ret (mkModrm r sib rm 0 0)
  else if mod_ =? 1 then let! d := ld8 p in ret (mkModrm r sib rm 1 d)
  else if mod_ =? 2 then let! d := ld32 p in ret (mkModrm r sib rm 4 d)
  else ret (mkModrm r sib rm 0 0).

(** A descriptor of the GDT of the guest. *)
Definition bit_of (w i : Z) : bool := Z.testbit w i.
Definition load_descriptor (p : Z) : M machine descriptor :=
  let! lo := ld32 p in
  let! hi := ld32 (p + 4) in
  ret (mkDesc (Z.land lo 0xFFFF) (Z.shiftr lo 16) (Z.land hi 0xFF) (Z.land (Z.shiftr hi 8) 0x1F)
    (Z.land (Z.shiftr hi 13) 3) (bit_of hi 15) (Z.land (Z.shiftr hi 16) 0xF) (bit_of hi 20) (bit_of hi 21) (bit_of hi 22) (bit_of hi 23)
    (Z.shiftr hi 24)).

Definition ACCESS (ad : descriptor) : Z :=
  Z.lor (Z.lor (Z.lor (Z.lor (Z.lor (Z.lor (Z.lor 0x01 (uType ad)) (Z.shiftl (uDPL ad) 0x05))
    (Z.shiftl (Z.b2z (fPresent ad)) 0x07)) (Z.shiftl (Z.b2z (f_available ad)) 0x0C)) (Z.shiftl (Z.b2z (f0 ad)) 0x0D))
    (Z.shiftl (Z.b2z (fX ad)) 0x0E)) (Z.shiftl (Z.b2z (fGranularity ad)) 0x0F).

Definition seg_base (ad : descriptor) : Z :=
  Z.lor (Z.lor (pBase0 ad) (Z.shiftl (pBase1 ad) 16)) (Z.shiftl (pBase2 ad) 24).
Definition seg_limit (ad : descriptor) : Z :=
  let l := Z.lor (uLimit0 ad) (Z.shiftl (uLimit1 ad) 16) in
  if fGranularity ad then Z.lor (u32 (Z.shiftl l 12)) 0xFFF else l.

(** ** Segments for protected mode *)

(** The loop over the descriptors: [i], [ad], [cs_i] and [ds_i]. *)
Definition pick_seg_body (ad_lim : Z) (l : Z * Z * Z * Z) : M machine (control (Z * Z * Z * Z) (Z * Z)) :=
  let '(i, ad, cs_i, ds_i) := l in
  if ad <? ad_lim then
    let! d := load_descriptor ad in
    let cs_i := if (cs_i =? 0) && (uDPL d =? 0) && negb (Z.land (uType d) 8 =? 0) then i else cs_i in
    let ds_i := if (ds_i =? 0) && (uDPL d =? 0) && (Z.land (uType d) 8 =? 0) then i else ds_i in
    ret (Continue (i + 1, u32 (ad + 8), cs_i, ds_i))
  else ret (Break (cs_i, ds_i)).

Definition data_segments (v es ss ds fs gs : Z) : M machine unit :=
  vmwrite v ss ;;! vmwrite v ds ;;! vmwrite v es ;;! vmwrite v fs ;;! vmwrite v gs.

Definition pick_segment_regs : M machine Z :=
  let! ad_bas := vmread VMXENC_GUEST_GDTR_BASE in
  let! limit := vmread VMXENC_GUEST_GDTR_LIMIT in
  let ad_lim := u32 (ad_bas + limit + 1) in
  let! '(cs_i, ds_i) := mloop (Z.to_nat (limit / 8 + 2)) (pick_seg_body ad_lim) (0, ad_bas, 0, 0) in
  if negb (cs_i =? 0) && negb (ds_i =? 0) then
    let! cs := load_descriptor (ad_bas + 8 * cs_i) in
    let! ds := load_descriptor (ad_bas + 8 * ds_i) in
    vmwrite (ACCESS cs) VMXENC_GUEST_CS_ACCESS ;;!
    data_segments (ACCESS ds) VMXENC_GUEST_ES_ACCESS VMXENC_GUEST_SS_ACCESS VMXENC_GUEST_DS_ACCESS
      VMXENC_GUEST_FS_ACCESS VMXENC_GUEST_GS_ACCESS ;;!
    vmwrite (Z.shiftl cs_i 3) VMXENC_GUEST_CS_SEL ;;!
    data_segments (Z.shiftl ds_i 3) VMXENC_GUEST_ES_SEL VMXENC_GUEST_SS_SEL VMXENC_GUEST_DS_SEL
      VMXENC_GUEST_FS_SEL VMXENC_GUEST_GS_SEL ;;!
    vmwrite (seg_base cs) VMXENC_GUEST_CS_BASE ;;!
    data_segments (seg_base ds) VMXENC_GUEST_ES_BASE VMXENC_GUEST_SS_BASE VMXENC_GUEST_DS_BASE
      VMXENC_GUEST_FS_BASE VMXENC_GUEST_GS_BASE ;;!
    vmwrite (seg_limit cs) VMXENC_GUEST_CS_LIMIT ;;!
    data_segments (seg_limit ds) VMXENC_GUEST_ES_LIMIT VMXENC_GUEST_SS_LIMIT VMXENC_GUEST_DS_LIMIT
      VMXENC_GUEST_FS_LIMIT VMXENC_GUEST_GS_LIMIT ;;!
    ret 0
  else ret (-1).

(** ** Instructions *)

(** The flags as the guest sees them: IF is VIF. *)
Definition with_IF (flags fl : Z) : Z :=
  if Z.land flags F_VIF =? 0 then Z.land fl (u32 (Z.lnot F_IF)) else Z.lor fl F_IF.
(** VIF is the IF that the guest asks for. *)
Definition with_VIF (f_if fl : Z) : Z :=
  if f_if =? 0 then Z.land fl (u32 (Z.lnot F_VIF)) else Z.lor fl F_VIF.

(** INT *)
Definition do_int (eip stk eflags : Z) : M machine Z :=
  let! vec := ld8 (eip + 1) in
  let! dest := (let! t := gets vmx_vm86_IVT in lift (of_option OutOfBounds (t !! Z.to_nat vec))) in
  let stk := u32 (stk - 6) in
  set_ss_sp (LIN32_TO_FP stk) ;;!
  store16 stk (offs (LIN32_TO_FP (u32 (eip + 2)))) ;;!
  store16 (stk + 2) (segm (LIN32_TO_FP (u32 (eip + 2)))) ;;!
  store16 (stk + 4) (with_IF eflags (u16 eflags)) ;;!
  vmwrite (Z.land eflags (u32 (Z.lnot F_VIF))) VMXENC_GUEST_RFLAGS ;;!
  set_cs_ip dest ;;!
  ret 0.

(** PUSHF *)
Definition do_pushf (eip stk eflags : Z) (o32 : bool) : M machine Z :=
  let! stk :=
    (if o32 then
       let stk := u32 (stk - 4) in
       store32 stk (with_IF eflags (Z.land eflags 0xDFF)) ;;! ret stk
     else
       let stk := u32 (stk - 2) in
       store16 stk (with_IF eflags (Z.land (u16 eflags) 0xDFF)) ;;! ret stk) in
  inc_ip eip 1 ;;!
  set_ss_sp (LIN32_TO_FP stk) ;;!
  ret 0.

(** POPF *)
Definition do_popf (eip stk eflags : Z) (o32 : bool) : M machine Z :=
  let! w := ld16 stk in
  let f_if := Z.land w F_IF in
  let! '(new_eflags, stk) :=
    (if o32 then let! w := ld32 stk in ret (Z.land w 0xDFF, u32 (stk + 4))
     else ret (Z.land w 0xDFF, u32 (stk + 2))) in
  let new_eflags := with_VIF f_if (Z.lor new_eflags (Z.land eflags (u32 (Z.lnot 0xDFF)))) in
  vmwrite new_eflags VMXENC_GUEST_RFLAGS ;;!
  inc_ip eip 1 ;;!
  set_ss_sp (LIN32_TO_FP stk) ;;!
  ret 0.

(** IRET *)
Definition do_iret (stk eflags : Z) : M machine Z :=
  let! fl := ld16 (stk + 4) in
  let! cs := ld16 (stk + 2) in
  let! ip := ld16 stk in
  let new_eflags := with_VIF (Z.land fl F_IF) (Z.lor (Z.land fl 0xDFF) (Z.land eflags (u32 (Z.lnot 0xDFF)))) in
  set_cs_ip (mkFar ip cs) ;;!
  vmwrite new_eflags VMXENC_GUEST_RFLAGS ;;!
  set_ss_sp (LIN32_TO_FP (u32 (stk + 6))) ;;!
  ret 0.

(** CLI and STI *)
Definition do_vif (eip eflags : Z) : M machine Z :=
  inc_ip eip 1 ;;!
  vmwrite eflags VMXENC_GUEST_RFLAGS ;;!
  ret 0.

(** The port and the size of an I/O instruction. *)
Definition io_port (eip : Z) (imm : bool) : M machine (Z * Z) :=
  if imm then let! p := ld8 (eip + 1) in ret (p, 2)
  else let! dx := reg edx in ret (Z.land dx 0xFFFF, 1).

(** The buffer and the count of a string instruction. *)
Definition string_buffer (sel index : Z) (a32 rep : bool) : M machine (Z * Z) :=
  let! x := reg index in
  let! buf := (if a32 then ret x else let! s := vmread sel in ret (REAL_TO_LIN32 s (Z.land x 0xFFFF))) in
  let! cx := (if rep then let! c := reg ecx in ret (Z.land c 0xFFFF) else ret 1) in
  ret (buf, cx).

Definition do_in (eip op eflags : Z) (a32 o32 rep : bool) : M machine Z :=
  let! '(port, isize) := io_port eip ((op =? 0xE4) || (op =? 0xE5)) in
  (if o32 && ((op =? 0xE5) || (op =? 0xED)) then
     let! v := port_read 4 port in set_reg eax v
   else if (op =? 0xE5) || (op =? 0xED) then
     let! v := port_read 2 port in
     let! x := reg eax in set_reg eax (Z.lor x (Z.land 0xFFFF v))
   else if (op =? 0xE4) || (op =? 0xEC) then
     let! v := port_read 1 port in
     let! x := reg eax in set_reg eax (Z.lor x (Z.land 0xFF v))
   else
     let! '(dst, cx) := string_buffer VMXENC_GUEST_ES_SEL edi a32 rep in
     let df := negb (Z.land eflags F_DF =? 0) in
     if o32 && (op =? 0x6D) then rep_ins 4 port dst df (Z.to_nat cx)
     else if op =? 0x6D then rep_ins 2 port dst df (Z.to_nat cx)
     else when (op =? 0x6C) (rep_ins 1 port dst df (Z.to_nat cx))) ;;!
  inc_ip eip isize ;;!
  ret 0.

Definition do_out (eip op eflags : Z) (a32 o32 rep : bool) : M machine Z :=
  let! '(port, isize) := io_port eip ((op =? 0xE6) || (op =? 0xE7)) in
  let! x := reg eax in
  (if o32 && ((op =? 0xE7) || (op =? 0xEF)) then port_write 4 x port
   else if (op =? 0xE7) || (op =? 0xEF) then port_write 2 (Z.land x 0xFFFF) port
   else if (op =? 0xE6) || (op =? 0xEE) then port_write 1 (Z.land x 0xFF) port
   else
     let! '(src, cx) := string_buffer VMXENC_GUEST_DS_SEL esi a32 rep in
     let df := negb (Z.land eflags F_DF =? 0) in
     if o32 && (op =? 0x6F) then rep_outs 4 port src df (Z.to_nat cx)
     else if op =? 0x6F then rep_outs 2 port src df (Z.to_nat cx)
     else when (op =? 0x6E) (rep_outs 1 port src df (Z.to_nat cx))) ;;!
  inc_ip eip isize ;;!
  ret 0.

Definition VM86_CR0_MASK : Z := u32 (Z.lnot 0x80000001).

(** LGDT; the other instructions of the group are not emulated. *)
Definition do_lgdt (eip : Z) (a32 o32 : bool) : M machine Z :=
  let! d := decode_modrm_32 eip in
  if (reg_op d =? 2) && a32 && o32 then
    let! '(limit, base) :=
      (if m_rm d =? 5 then
         let! limit := ld16 (disp d) in let! base := ld32 (disp d + 2) in ret (limit, base)
       else ret (0, 0)) in
    vmwrite base VMXENC_GUEST_GDTR_BASE ;;!
    vmwrite limit VMXENC_GUEST_GDTR_LIMIT ;;!
    inc_ip eip (1 + (if has_sib d then 1 else 0) + disp_size d) ;;!
    ret 0
  else ret (-1).

Definition do_from_cr0 (eip : Z) : M machine Z :=
  let! d := decode_modrm_32 eip in
  let! cr0 := vmread VMXENC_GUEST_CR0 in
  set_reg (VM_REG (m_rm d)) (Z.land cr0 VM86_CR0_MASK) ;;!
  inc_ip eip 1 ;;!
  ret 0.

(** The base of the code segment after the far jump. *)
Definition jump_base (ad : descriptor) : Z :=
  Z.lor (Z.lor (pBase0 ad) (Z.shiftl (pBase1 ad) 8)) (Z.shiftl (pBase2 ad) 16).

(** The far jump that follows the change to protected mode. *)
Definition far_jump (eip : Z) : M machine bool :=
  let! b0 := ld8 eip in
  let! b1 := ld8 (eip + 1) in
  if (b0 =? 0x66) && (b1 =? 0xEA) then
    let! o := ld32 (eip + 2) in
    let! sel := ld16 (eip + 6) in
    let! gdt := vmread VMXENC_GUEST_GDTR_BASE in
    let! ad := load_descriptor (gdt + 8 * Z.shiftr sel 3) in
    vmwrite o VMXENC_GUEST_RIP ;;!
    vmwrite sel VMXENC_GUEST_CS_SEL ;;!
    vmwrite (ACCESS ad) VMXENC_GUEST_CS_ACCESS ;;!
    vmwrite (jump_base ad) VMXENC_GUEST_CS_BASE ;;!
    vmwrite (seg_limit ad) VMXENC_GUEST_CS_LIMIT ;;!
    ret true
  else ret false.

Definition do_to_cr0 (eip : Z) : M machine Z :=
  let! d := decode_modrm_32 eip in
  let! new_cr0 := reg (VM_REG (m_rm d)) in
  let! ok :=
    (if negb (Z.land new_cr0 1 =? 0) then
       modify (set_realmode false) ;;!
       let! fl := vmread VMXENC_GUEST_RFLAGS in
       vmwrite (Z.land fl (u32 (Z.lnot F_VM))) VMXENC_GUEST_RFLAGS ;;!
       let! r := pick_segment_regs in
       if r <? 0 then ret false else far_jump (eip + 1)
     else inc_ip eip 1 ;;! ret true) in
  if ok then vmwrite (Z.lor new_cr0 (u32 (Z.lnot VM86_CR0_MASK))) VMXENC_GUEST_CR0 ;;! ret 0
  else ret (-1).

Definition do_escape (eip : Z) (a32 o32 : bool) : M machine Z :=
  let! op := ld8 eip in
  if op =? 0x01 then do_lgdt (eip + 1) a32 o32
  else if op =? 0x20 then do_from_cr0 (eip + 1)
  else if op =? 0x22 then do_to_cr0 (eip + 1)
  else ret (-1).

(** ** The handler *)

Record prefixes := mkPrefixes { a32 : bool; o32 : bool; rep : bool; repnz : bool }.

(** The jumps back to [parse]. *)
Definition parse_body (l : Z * prefixes) : M machine (control (Z * prefixes) (Z * prefixes)) :=
  let '(eip, p) := l in
  let! op := ld8 eip in
  ret (if op =? 0x66 then Continue (u32 (eip + 1), mkPrefixes (a32 p) true (rep p) (repnz p))
       else if op =? 0x67 then Continue (u32 (eip + 1), mkPrefixes true (o32 p) (rep p) (repnz p))
       else if op =? 0xF2 then Continue (u32 (eip + 1), mkPrefixes (a32 p) (o32 p) (rep p) true)
       else if op =? 0xF3 then Continue (u32 (eip + 1), mkPrefixes (a32 p) (o32 p) true (repnz p))
       else Break (eip, p)).

Definition MAX_PREFIXES : nat := 4096.

Definition execute (eip stk eflags : Z) (p : prefixes) : M machine Z :=
  let! op := ld8 eip in
  if op =? 0xCD then do_int eip stk eflags
  else if op =? 0x9C then do_pushf eip stk eflags (o32 p)
  else if op =? 0x9D then do_popf eip stk eflags (o32 p)
  else if op =? 0xCF then do_iret stk eflags
  else if op =? 0xFA then do_vif eip (Z.land eflags (u32 (Z.lnot F_VIF)))
  else if op =? 0xFB then do_vif eip (Z.lor eflags F_VIF)
  else if existsb (Z.eqb op) [0xE4; 0xE5; 0xEC; 0xED; 0x6C; 0x6D] then do_in eip op eflags (a32 p) (o32 p) (rep p)
  else if existsb (Z.eqb op) [0xE6; 0xE7; 0xEE; 0xEF; 0x6E; 0x6F] then do_out eip op eflags (a32 p) (o32 p) (rep p)
  else if op =? 0x0F then do_escape (eip + 1) (a32 p) (o32 p)
  else ret (-1).

Definition vmx_vm86_handle_GPF : M machine Z :=
  let! ip := vmread VMXENC_GUEST_RIP in
  let! cs := vmread VMXENC_GUEST_CS_SEL in
  let! sp := vmread VMXENC_GUEST_RSP in
  let! ss := vmread VMXENC_GUEST_SS_SEL in
  let! eflags := vmread VMXENC_GUEST_RFLAGS in
  let stk := REAL_TO_LIN32 ss sp in
  let! '(eip, p) := mloop MAX_PREFIXES parse_body (REAL_TO_LIN32 cs ip, mkPrefixes false false false false) in
  execute eip stk eflags p.
End vm86.
Arguments machine : clear implicits.
