(* ===== verification/Vm86Thm.v ===== *)
(** * Virtual 8086 mode: theorems

    A processor in real mode, with its segment registers and all its flags, and the
    conditions under which the handler does what it does for the instructions on flags,
    the stack and interrupts: the guest sees VIF as its IF, and VM not at all.  What
    differs outside the conditions is stated as well: the segment registers, and input
    into a part of a register. *)

From Stdlib Require Import ZArith Lia.
From S2P Require Import Prelude Virtual Process Vm86.
From stdpp Require Import base gmap list numbers.
Local Open Scope Z_scope.

(** ** A processor in real mode *)

(** Its registers CS, IP, SS, SP and EFLAGS, and its memory. *)
Record cpu := mkCpu { c_cs : Z; c_ip : Z; c_ss : Z; c_sp : Z; c_flags : Z; c_mem : gmap Z Z }.

Inductive instr :=
| INT (vec : Z) | IRET | PUSHF | PUSHFD | POPF | POPFD | CLI | STI.

Definition encoding (i : instr) : list Z :=
  match i with
  | INT vec => [0xCD; vec] | IRET => [0xCF] | PUSHF => [0x9C] | PUSHFD => [0x66; 0x9C]
  | POPF => [0x9D] | POPFD => [0x66; 0x9D] | CLI => [0xFA] | STI => [0xFB]
  end.

(** The flags in [mask] are loaded from [w], the others kept. *)
Definition load_bits (mask f w : Z) : Z := Z.lor (Z.ldiff f mask) (Z.land w mask).

Definition TF : Z := 2 ^ 8.
Definition IF : Z := 2 ^ 9.
Definition RF : Z := 2 ^ 16.
Definition AC : Z := 2 ^ 18.
(** The flags that are not reserved: among the low sixteen, and those that POPFD loads. *)
Definition FLAGS16 : Z := 0x7FD5.
Definition FLAGS32 : Z := 0x247FD5.
(** PUSHFD stores neither VM nor RF. *)
Definition STORED : Z := 0xFCFFFF.

(** The word at distance [d] from the top of the stack. *)
Definition slot (c : cpu) (d : Z) : Z := 16 * c_ss c + u16 (c_sp c + d).

Definition processor (ivt : Z -> vm86_farptr) (i : instr) (c : cpu) : cpu :=
  let '(mkCpu cs ip ss sp fl m) := c in
  let next := u16 (ip + Z.of_nat (length (encoding i))) in
  match i with
  | INT vec =>
      mkCpu (segm (ivt vec)) (offs (ivt vec)) ss (u16 (sp - 6)) (Z.ldiff fl (IF + TF + AC))
        (put16 (slot c (-2)) (fl mod 2 ^ 16) (put16 (slot c (-4)) cs (put16 (slot c (-6)) next m)))
  | IRET => mkCpu (mem16 m (slot c 2)) (mem16 m (slot c 0)) ss (u16 (sp + 6)) (load_bits FLAGS16 fl (mem16 m (slot c 4))) m
  | PUSHF => mkCpu cs next ss (u16 (sp - 2)) fl (put16 (slot c (-2)) (fl mod 2 ^ 16) m)
  | PUSHFD => mkCpu cs next ss (u16 (sp - 4)) fl (put32 (slot c (-4)) (Z.land fl STORED) m)
  | POPF => mkCpu cs next ss (u16 (sp + 2)) (load_bits FLAGS16 fl (mem16 m (slot c 0))) m
  | POPFD => mkCpu cs next ss (u16 (sp + 4)) (load_bits FLAGS32 (Z.ldiff fl RF) (mem32 m (slot c 0))) m
  | CLI => mkCpu cs next ss sp (Z.ldiff fl IF) m
  | STI => mkCpu cs next ss sp (Z.lor fl IF) m
  end.

(** ** The flags of the guest *)

(** The flags as the guest sees them: bit 9 is bit 19, which is hidden, as is bit 17, the
    mode. *)
Definition guest_flags (e : Z) : Z :=
  Z.lor (Z.ldiff e (2 ^ 9 + 2 ^ 17 + 2 ^ 19)) (if Z.testbit e 19 then 2 ^ 9 else 0).

(** The handler loads the low twelve flags. *)
Definition load_flags (f w : Z) : Z := load_bits (Z.ones 12) f w.

Lemma masks : F_IF = 2 ^ 9 /\ F_VIF = 2 ^ 19 /\ u32 (Z.lnot F_IF) = Z.ldiff (Z.ones 32) (2 ^ 9) /\
  u32 (Z.lnot F_VIF) = Z.ldiff (Z.ones 32) (2 ^ 19) /\ 0xDFF = Z.ldiff (Z.ones 12) (2 ^ 9) /\
  u32 (Z.lnot 0xDFF) = Z.ldiff (Z.ones 32) (Z.ldiff (Z.ones 12) (2 ^ 9)) /\ 2 ^ 9 + 2 ^ 17 + 2 ^ 19 = Z.lor (Z.lor (2 ^ 9) (2 ^ 17)) (2 ^ 19).
Proof. split_and!; reflexivity. Qed.

Lemma high_bits e n : 0 <= e < 2 ^ 32 -> 32 <= n -> Z.testbit e n = false.
Proof.
  intros He Hn. destruct (Z.eq_dec e 0) as [->|]; [apply Z.bits_0|]. apply Z.bits_above_log2; [lia|].
  apply Z.log2_lt_pow2; [lia|]. eapply Z.lt_le_trans; [apply He|]. apply Z.pow_le_mono_r; lia.
Qed.

(** A test of one bit. *)
Lemma land_bit e k : 0 <= k -> (Z.land e (2 ^ k) =? 0) = negb (Z.testbit e k).
Proof.
  intros Hk. assert (Z.land e (2 ^ k) = if Z.testbit e k then 2 ^ k else 0) as ->.
  { apply Z.bits_inj'. intros n Hn. rewrite Z.land_spec, Z.pow2_bits_eqb by done. destruct (Z.eqb_spec k n) as [<-|].
    - destruct (Z.testbit e k) eqn:E; [by rewrite Z.pow2_bits_true|by rewrite Z.bits_0].
    - rewrite andb_false_r. destruct (Z.testbit e k); [by rewrite Z.pow2_bits_false|by rewrite Z.bits_0]. }
  pose proof (Z.pow_pos_nonneg 2 k ltac:(lia) Hk). destruct (Z.testbit e k); cbn; [apply Z.eqb_neq; lia|done].
Qed.

(** Equality of flags, bit by bit. *)
Ltac bits He :=
  let n := fresh "n" in let Hn := fresh "Hn" in
  apply Z.bits_inj'; intros n Hn;
  repeat rewrite ?Z.lor_spec, ?Z.land_spec, ?Z.ldiff_spec, ?Z.testbit_ones_nonneg, ?Z.pow2_bits_eqb, ?Z.bits_0 by lia;
  pose proof (fun H => high_bits _ n He H) as Hhigh;
  destruct (Z.ltb_spec n 12), (Z.ltb_spec n 32), (Z.eqb_spec 9 n), (Z.eqb_spec 17 n), (Z.eqb_spec 19 n); subst; try lia;
  rewrite ?Hhigh by lia; repeat match goal with E : Z.testbit _ _ = _ |- _ => rewrite E; clear E end; cbn [andb orb negb];
  repeat match goal with |- context [Z.testbit ?a ?b] => destruct (Z.testbit a b) end; reflexivity.

Section flags.
Context (e : Z) (He : 0 <= e < 2 ^ 32).

Lemma flags_cli : guest_flags (Z.land e (u32 (Z.lnot F_VIF))) = Z.ldiff (guest_flags e) (2 ^ 9).
Proof.
  unfold guest_flags. destruct masks as (_ & _ & _ & -> & _ & _ & ->).
  assert (Z.testbit (Z.land e (Z.ldiff (Z.ones 32) (2 ^ 19))) 19 = false) as -> by (rewrite Z.land_spec, andb_comm; reflexivity).
  destruct (Z.testbit e 19); bits He.
Qed.

Lemma flags_sti : guest_flags (Z.lor e F_VIF) = Z.lor (guest_flags e) (2 ^ 9).
Proof.
  unfold guest_flags. destruct masks as (_ & -> & _ & _ & _ & _ & ->).
  assert (Z.testbit (Z.lor e (2 ^ 19)) 19 = true) as -> by (rewrite Z.lor_spec, orb_comm; reflexivity).
  destruct (Z.testbit e 19); bits He.
Qed.

Lemma flags_pushed : with_IF e (u16 e) = guest_flags e mod 2 ^ 16.
Proof.
  unfold with_IF, guest_flags, u16. destruct masks as (-> & -> & -> & _ & _ & _ & ->). rewrite land_bit by lia.
  rewrite <- !Z.land_ones by lia. destruct (Z.testbit e 19); cbn [negb];
    (apply Z.bits_inj'; intros n Hn; repeat rewrite ?Z.lor_spec, ?Z.land_spec, ?Z.ldiff_spec, ?Z.testbit_ones_nonneg, ?Z.pow2_bits_eqb, ?Z.bits_0 by lia;
     destruct (Z.ltb_spec n 16), (Z.ltb_spec n 32), (Z.eqb_spec 9 n), (Z.eqb_spec 17 n), (Z.eqb_spec 19 n); subst; try lia; cbn [andb orb negb]; rewrite ?andb_false_r, ?andb_true_r, ?orb_false_r; done).
Qed.

Lemma flags_pushf : with_IF e (Z.land e 0xDFF) = Z.land (guest_flags e) (Z.ones 12).
Proof.
  unfold with_IF, guest_flags. destruct masks as (-> & -> & -> & _ & -> & _ & ->). rewrite land_bit by lia.
  destruct (Z.testbit e 19); cbn [negb]; bits He.
Qed.

Lemma flags_popf w : guest_flags (with_VIF (Z.land w F_IF) (Z.lor (Z.land w 0xDFF) (Z.land e (u32 (Z.lnot 0xDFF))))) = load_flags (guest_flags e) w.
Proof.
  unfold with_VIF, guest_flags, load_flags, load_bits. destruct masks as (-> & -> & _ & -> & -> & -> & ->). rewrite land_bit by lia.
  destruct (Z.testbit w 9) eqn:Ew; cbn [negb].
  - assert (Z.testbit (Z.lor (Z.lor (Z.land w (Z.ldiff (Z.ones 12) (2 ^ 9))) (Z.land e (Z.ldiff (Z.ones 32) (Z.ldiff (Z.ones 12) (2 ^ 9))))) (2 ^ 19)) 19 = true) as ->
      by (rewrite Z.lor_spec, orb_comm; reflexivity).
    destruct (Z.testbit e 19); bits He.
  - assert (Z.testbit (Z.land (Z.lor (Z.land w (Z.ldiff (Z.ones 12) (2 ^ 9))) (Z.land e (Z.ldiff (Z.ones 32) (Z.ldiff (Z.ones 12) (2 ^ 9))))) (Z.ldiff (Z.ones 32) (2 ^ 19))) 19 = false) as ->
      by (rewrite Z.land_spec, andb_comm; reflexivity).
    destruct (Z.testbit e 19); bits He.
Qed.
End flags.

(** Flags that a guest in real mode has if it uses those of the 8086 only: above the low
    twelve there is none, and single steps are off. *)
Definition plain_flags (f : Z) : Prop := Z.ldiff f (Z.ones 12) = 0 /\ Z.testbit f 8 = false.

(** The flags of the 8086. *)
Definition FLAGS8086 : Z := 0xFD5.

(** A word that leaves the other flags as they are. *)
Definition image_ok (f w : Z) : Prop := Z.ldiff w FLAGS8086 = Z.ldiff f FLAGS8086.

Section plain.
Context (f : Z) (Hf : plain_flags f).

Lemma plain_bit n : 12 <= n -> Z.testbit f n = false.
Proof.
  intros Hn. pose proof (f_equal (fun z => Z.testbit z n) (proj1 Hf)) as H. cbn beta in H.
  rewrite Z.ldiff_spec, Z.bits_0, Z.testbit_ones_nonneg, (proj2 (Z.ltb_ge _ _)), andb_true_r in H by lia. done.
Qed.

(** Bits above the low twelve are clear. *)
Ltac low n Hn := apply Z.bits_inj'; intros n Hn; rewrite ?Z.land_spec, ?Z.ldiff_spec, ?Z.testbit_ones_nonneg by lia;
  destruct (Z.ltb_spec n 12); [|by rewrite plain_bit by lia].

Lemma plain_int : Z.ldiff f (IF + TF + AC) = Z.ldiff f (2 ^ 9).
Proof.
  low n Hn. change (IF + TF + AC) with (Z.lor (Z.lor (2 ^ 9) (2 ^ 8)) (2 ^ 18)). rewrite !Z.lor_spec, !Z.pow2_bits_eqb by lia.
  rewrite (proj2 (Z.eqb_neq 18 n)), orb_false_r by lia. destruct (Z.eqb_spec 8 n) as [<-|]; [by rewrite (proj2 Hf)|by rewrite orb_false_r].
Qed.

Lemma plain_word : f mod 2 ^ 16 = Z.land f (Z.ones 12).
Proof. rewrite <- Z.land_ones by lia. low n Hn. by rewrite (proj2 (Z.ltb_lt n 16)) by lia. Qed.

Lemma plain_stored : Z.land f STORED = Z.land f (Z.ones 12).
Proof.
  low n Hn. f_equal. change STORED with (Z.lor (Z.ldiff STORED (Z.ones 12)) (Z.ones 12)).
  by rewrite Z.lor_spec, Z.ldiff_spec, Z.testbit_ones_nonneg, (proj2 (Z.ltb_lt n 12)), andb_false_r by lia.
Qed.

Lemma plain_low : Z.land f (Z.ones 12) = f.
Proof. low n Hn. apply andb_true_r. Qed.

Lemma plain_rf : Z.ldiff f RF = f.
Proof.
  apply Z.bits_inj'. intros n Hn. change RF with (2 ^ 16). rewrite Z.ldiff_spec, Z.pow2_bits_eqb by lia.
  destruct (Z.eqb_spec 16 n) as [<-|]; [by rewrite plain_bit|by rewrite andb_true_r].
Qed.

Lemma plain_load mask w : Z.land FLAGS8086 mask = FLAGS8086 -> image_ok f w -> load_bits mask f w = load_flags f w.
Proof.
  intros Hm Hw. unfold load_flags, load_bits. apply Z.bits_inj'. intros n Hn. rewrite !Z.lor_spec, !Z.ldiff_spec, !Z.land_spec, !Z.testbit_ones_nonneg by lia.
  pose proof (f_equal (fun z => Z.testbit z n) Hm) as Hmn. pose proof (f_equal (fun z => Z.testbit z n) Hw) as Hwn.
  cbn beta in Hmn, Hwn. rewrite Z.land_spec in Hmn. rewrite !Z.ldiff_spec in Hwn.
  destruct (Z.testbit FLAGS8086 n) eqn:E.
  - cbn in Hmn. rewrite Hmn. destruct (Z.ltb_spec n 12); [done|]. unfold FLAGS8086 in E. rewrite Z.bits_above_log2 in E; [done|lia|cbn; lia].
  - rewrite !andb_true_r in Hwn. rewrite Hwn. by destruct (Z.testbit f n), (Z.testbit mask n), (n <? 12).
Qed.
End plain.

(** The real interrupt flag and the mode are the monitor's. *)
Definition host_flags (e : Z) : bool * bool := (Z.testbit e 9, Z.testbit e 17).

Lemma host_cli e : host_flags (Z.land e (u32 (Z.lnot F_VIF))) = host_flags e.
Proof. unfold host_flags. rewrite !Z.land_spec. change (u32 (Z.lnot F_VIF)) with 0xFFF7FFFF. cbn. by rewrite !andb_true_r. Qed.

Lemma host_sti e : host_flags (Z.lor e F_VIF) = host_flags e.
Proof. unfold host_flags. rewrite !Z.lor_spec. cbn. by rewrite !orb_false_r. Qed.

Lemma host_popf e w : host_flags (with_VIF (Z.land w F_IF) (Z.lor (Z.land w 0xDFF) (Z.land e (u32 (Z.lnot 0xDFF))))) = host_flags e.
Proof.
  unfold with_VIF. assert (host_flags (Z.lor (Z.land w 0xDFF) (Z.land e (u32 (Z.lnot 0xDFF)))) = host_flags e) as Hh.
  { unfold host_flags. rewrite !Z.lor_spec, !Z.land_spec. change (u32 (Z.lnot 0xDFF)) with 0xFFFFF200. cbn.
    by rewrite !andb_true_r, !andb_false_r. }
  destruct (_ =? 0); [by rewrite host_cli|by rewrite host_sti].
Qed.

Lemma range_popf e w : 0 <= e < 2 ^ 32 -> 0 <= w < 2 ^ 32 ->
  0 <= with_VIF (Z.land w F_IF) (Z.lor (Z.land w 0xDFF) (Z.land e (u32 (Z.lnot 0xDFF)))) < 2 ^ 32.
Proof.
  intros He Hw. assert (0 <= Z.lor (Z.land w 0xDFF) (Z.land e (u32 (Z.lnot 0xDFF))) < 2 ^ 32) as Hr
    by (apply lor_range; [done|by apply land_range..]).
  unfold with_VIF. destruct (_ =? 0); [by apply land_range|]. by apply lor_range.
Qed.

(** ** Addresses *)

Definition far_ok (fp : vm86_farptr) : Prop := 0 <= offs fp < 2 ^ 16 /\ 0 <= segm fp < 2 ^ 16.

Lemma real_lin s o : 0 <= s < 2 ^ 16 -> 0 <= o < 2 ^ 16 -> REAL_TO_LIN32 s o = 16 * s + o.
Proof.
  intros Hs Ho. unfold REAL_TO_LIN32. change 0xFFFF with (Z.ones 16). rewrite !Z.land_ones, !Z.mod_small by lia.
  rewrite Z.shiftl_mul_pow2 by lia. change (2 ^ 4) with 16. rewrite u32_small; lia.
Qed.

Lemma lin_fp p : 0 <= p < 2 ^ 20 -> offs (LIN32_TO_FP p) = p mod 2 ^ 16 /\ segm (LIN32_TO_FP p) = p / 2 ^ 16 * 2 ^ 12.
Proof.
  intros Hp. unfold LIN32_TO_FP. cbn [offs segm]. split; [exact (Z.land_ones p 16 ltac:(lia))|].
  assert (Z.land p (u32 (Z.lnot 0xFFFF)) = p / 2 ^ 16 * 2 ^ 16) as ->.
  { change (u32 (Z.lnot 0xFFFF)) with (Z.ldiff (Z.ones 32) (Z.ones 16)).
    rewrite <- Z.shiftr_div_pow2, <- Z.shiftl_mul_pow2, <- Z.ldiff_ones_r by lia.
    apply Z.bits_inj'. intros n Hn. rewrite Z.land_spec, !Z.ldiff_spec, Z.testbit_ones_nonneg by lia.
    destruct (Z.ltb_spec n 32); [done|]. rewrite high_bits; [done|lia|done]. }
  rewrite Z.shiftr_div_pow2 by lia.
  replace (p / 2 ^ 16 * 2 ^ 16 / 2 ^ 4) with (p / 2 ^ 16 * 2 ^ 12)
    by (replace (p / 2 ^ 16 * 2 ^ 16) with (p / 2 ^ 16 * 2 ^ 12 * 2 ^ 4) by lia; by rewrite Z.div_mul).
  pose proof (Z.div_lt_upper_bound p (2 ^ 16) 16 ltac:(lia) ltac:(lia)). pose proof (Z.div_pos p (2 ^ 16) ltac:(lia) ltac:(lia)).
  apply u16_small. lia.
Qed.

Lemma lin_fp_ok p : 0 <= p < 2 ^ 20 -> far_ok (LIN32_TO_FP p).
Proof.
  intros Hp. destruct (lin_fp p Hp) as [E1 E2]. unfold far_ok. rewrite E1, E2. pose proof (Z.mod_pos_bound p (2 ^ 16) ltac:(lia)).
  pose proof (Z.div_lt_upper_bound p (2 ^ 16) 16 ltac:(lia) ltac:(lia)). pose proof (Z.div_pos p (2 ^ 16) ltac:(lia) ltac:(lia)). lia.
Qed.

(** A linear address below 1 MiB survives the conversion to a far pointer and back. *)
Lemma lin_fp_lin p : 0 <= p < 2 ^ 20 -> FP_TO_LIN32 (LIN32_TO_FP p) = p.
Proof.
  intros Hp. unfold FP_TO_LIN32. destruct (lin_fp_ok p Hp) as [H1 H2]. rewrite real_lin by done.
  destruct (lin_fp p Hp) as [-> ->]. pose proof (Z.div_mod p (2 ^ 16) ltac:(lia)). lia.
Qed.

(** In a segment that begins at a multiple of 64 KiB the conversion is the identity. *)
Lemma far_aligned sg o : 0 <= sg < 2 ^ 16 -> sg mod 2 ^ 12 = 0 -> 0 <= o < 2 ^ 16 -> LIN32_TO_FP (16 * sg + o) = mkFar o sg.
Proof.
  intros Hs Hm Ho. pose proof (Z.div_mod sg (2 ^ 12) ltac:(lia)) as Hd. rewrite Hm in Hd.
  generalize dependent (sg / 2 ^ 12). intros q Hq. subst sg. destruct (lin_fp (16 * (2 ^ 12 * q + 0) + o) ltac:(lia)) as [E1 E2].
  change (2 ^ 12) with 4096 in *. change (2 ^ 16) with 65536 in *.
  assert ((16 * (4096 * q + 0) + o) mod 65536 = o) as Eo.
  { rewrite <- (Z.mod_small o 65536) at 2 by lia. rewrite <- (Z.mod_add o q 65536) by lia. f_equal. lia. }
  assert ((16 * (4096 * q + 0) + o) / 65536 = q) as Eq.
  { replace (16 * (4096 * q + 0) + o) with (o + q * 65536) by lia. rewrite Z.div_add by lia. rewrite Z.div_small; lia. }
  rewrite Eo in E1. rewrite Eq in E2. destruct (LIN32_TO_FP _) as [o' s']. cbn in E1, E2. f_equal; lia.
Qed.

(** ** The VMCS *)

Definition cs (v : gmap Z Z) : Z := rd v VMXENC_GUEST_CS_SEL.
Definition ip (v : gmap Z Z) : Z := rd v VMXENC_GUEST_RIP.
Definition ss (v : gmap Z Z) : Z := rd v VMXENC_GUEST_SS_SEL.
Definition sp (v : gmap Z Z) : Z := rd v VMXENC_GUEST_RSP.
Definition flags (v : gmap Z Z) : Z := rd v VMXENC_GUEST_RFLAGS.
Definition lin_ip (v : gmap Z Z) : Z := REAL_TO_LIN32 (cs v) (ip v).
Definition lin_sp (v : gmap Z Z) : Z := REAL_TO_LIN32 (ss v) (sp v).

(** What [set_cs_ip], [set_ss_sp] and a change of the flags write. *)
Definition cs_ip (fp : vm86_farptr) (v : gmap Z Z) : gmap Z Z :=
  wr VMXENC_GUEST_CS_BASE (u32 (Z.shiftl (segm fp) 4)) (wr VMXENC_GUEST_CS_SEL (u32 (segm fp)) (wr VMXENC_GUEST_RIP (u32 (offs fp)) v)).
Definition ss_sp (fp : vm86_farptr) (v : gmap Z Z) : gmap Z Z :=
  wr VMXENC_GUEST_SS_BASE (u32 (Z.shiftl (segm fp) 4)) (wr VMXENC_GUEST_SS_SEL (u32 (segm fp)) (wr VMXENC_GUEST_RSP (u32 (offs fp)) v)).
Definition fl (e : Z) (v : gmap Z Z) : gmap Z Z := wr VMXENC_GUEST_RFLAGS (u32 e) v.

Ltac fields := unfold lin_ip, lin_sp, cs, ip, ss, sp, flags, cs_ip, ss_sp, fl; rewrite ?rd_wr; cbn [Z.eqb Pos.eqb VMXENC_GUEST_CS_SEL VMXENC_GUEST_CS_BASE
  VMXENC_GUEST_RIP VMXENC_GUEST_SS_SEL VMXENC_GUEST_SS_BASE VMXENC_GUEST_RSP VMXENC_GUEST_RFLAGS].

(** The registers of the guest, and its memory. *)
Definition view (v m : gmap Z Z) : cpu := mkCpu (cs v) (ip v) (ss v) (sp v) (guest_flags (flags v)) m.

Lemma cs_cs_ip_eq fp v : far_ok fp -> cs (cs_ip fp v) = segm fp.
Proof. intros [H1 H2]. fields. rewrite u32_small; [done|lia]. Qed.
Lemma cs_ss_sp_eq fp v : cs (ss_sp fp v) = cs v.
Proof. by fields. Qed.
Lemma cs_fl_eq e v : cs (fl e v) = cs v.
Proof. by fields. Qed.
Lemma ip_cs_ip_eq fp v : far_ok fp -> ip (cs_ip fp v) = offs fp.
Proof. intros [H1 H2]. fields. rewrite u32_small; [done|lia]. Qed.
Lemma ip_ss_sp_eq fp v : ip (ss_sp fp v) = ip v.
Proof. by fields. Qed.
Lemma ip_fl_eq e v : ip (fl e v) = ip v.
Proof. by fields. Qed.
Lemma ss_cs_ip_eq fp v : ss (cs_ip fp v) = ss v.
Proof. by fields. Qed.
Lemma ss_ss_sp_eq fp v : far_ok fp -> ss (ss_sp fp v) = segm fp.
Proof. intros [H1 H2]. fields. rewrite u32_small; [done|lia]. Qed.
Lemma ss_fl_eq e v : ss (fl e v) = ss v.
Proof. by fields. Qed.
Lemma sp_cs_ip_eq fp v : sp (cs_ip fp v) = sp v.
Proof. by fields. Qed.
Lemma sp_ss_sp_eq fp v : far_ok fp -> sp (ss_sp fp v) = offs fp.
Proof. intros [H1 H2]. fields. rewrite u32_small; [done|lia]. Qed.
Lemma sp_fl_eq e v : sp (fl e v) = sp v.
Proof. by fields. Qed.
Lemma flags_cs_ip_eq fp v : flags (cs_ip fp v) = flags v.
Proof. by fields. Qed.
Lemma flags_ss_sp_eq fp v : flags (ss_sp fp v) = flags v.
Proof. by fields. Qed.
Lemma flags_fl_eq e v : 0 <= e < 2 ^ 32 -> flags (fl e v) = e.
Proof. intros He. fields. by rewrite u32_small. Qed.

#[local] Hint Rewrite cs_cs_ip_eq cs_ss_sp_eq cs_fl_eq ip_cs_ip_eq ip_ss_sp_eq ip_fl_eq
  ss_cs_ip_eq ss_ss_sp_eq ss_fl_eq sp_cs_ip_eq sp_ss_sp_eq sp_fl_eq 
  flags_cs_ip_eq flags_ss_sp_eq flags_fl_eq
  using first [done | lia | split; cbn [offs segm]; lia] : vmcs.

Ltac guest_view := unfold view; autorewrite with vmcs.

(** ** Execution *)

Section run.
Context {W : Type} (port_in : Z -> Z -> W -> Z * W) (port_out : Z -> Z -> Z -> W -> W).
Implicit Types s : machine W.
Local Notation handle := (vmx_vm86_handle_GPF port_in port_out).

Definition view_of s : cpu := view (vmcs s) (gmem s).

Definition vector (t : list vm86_farptr) (vec : Z) : vm86_farptr :=
  match t !! Z.to_nat vec with Some fp => fp | None => mkFar 0 0 end.

(** Instruction [i] is at the program point. *)
Definition fetches s (i : instr) : Prop :=
  forall k b, encoding i !! k = Some b -> mem8 (gmem s) (lin_ip (vmcs s) + Z.of_nat k) = b.

(** The addresses are below 1 MiB. *)
Record lin_ok s : Prop := {
  lo_ip : 0 <= lin_ip (vmcs s) < 2 ^ 20 - 2;
  lo_sp : 6 <= lin_sp (vmcs s) < 2 ^ 20 - 6;
  lo_flags : 0 <= flags (vmcs s) < 2 ^ 32;
  lo_bytes : forall p, 0 <= rd (gmem s) p < 256
}.

(** Code and stack are in segments that begin at multiples of 64 KiB, the instruction and
    the words on the stack do not go beyond the ends of them, and the flags are those of an
    8086. *)
Record guest_ok s : Prop := {
  go_cs : 0 <= cs (vmcs s) < 2 ^ 16 /\ cs (vmcs s) mod 2 ^ 12 = 0;
  go_ss : 0 <= ss (vmcs s) < 2 ^ 16 /\ ss (vmcs s) mod 2 ^ 12 = 0;
  go_ip : 0 <= ip (vmcs s) < 2 ^ 16 - 2;
  go_sp : 6 <= sp (vmcs s) < 2 ^ 16 - 6;
  go_flags : 0 <= flags (vmcs s) < 2 ^ 32;
  go_plain : plain_flags (guest_flags (flags (vmcs s)));
  go_bytes : forall p, 0 <= rd (gmem s) p < 256;
  go_ivt : length (vmx_vm86_IVT s) = 256%nat /\ Forall far_ok (vmx_vm86_IVT s)
}.

(** The flags that the instruction takes from the stack are those of an 8086 too. *)
Definition popped_ok s (i : instr) : Prop :=
  let f := guest_flags (flags (vmcs s)) in
  match i with
  | IRET => image_ok f (mem16 (gmem s) (lin_sp (vmcs s) + 4))
  | POPF => image_ok f (mem16 (gmem s) (lin_sp (vmcs s)))
  | POPFD => image_ok f (mem32 (gmem s) (lin_sp (vmcs s)))
  | _ => True
  end.

Lemma aligned_lin sg o : 0 <= sg < 2 ^ 16 -> sg mod 2 ^ 12 = 0 -> 0 <= o < 2 ^ 16 -> REAL_TO_LIN32 sg o = 16 * sg + o /\ sg <= 0xF000.
Proof.
  intros Hs Hm Ho. split; [by apply real_lin|]. pose proof (Z.div_mod sg (2 ^ 12) ltac:(lia)). lia.
Qed.

Lemma guest_lin s : guest_ok s -> lin_ok s.
Proof.
  intros [[Hc1 Hc2] [Hs1 Hs2] Hi Hp Hf _ Hb _].
  destruct (aligned_lin (cs (vmcs s)) (ip (vmcs s))) as [E1 H1]; [done..|lia|].
  destruct (aligned_lin (ss (vmcs s)) (sp (vmcs s))) as [E2 H2]; [done..|lia|].
  split; unfold lin_ip, lin_sp; (done || lia).
Qed.

(** Behind the instruction, and on the stack. *)
Lemma next_far s k : guest_ok s -> 0 <= k <= 2 -> LIN32_TO_FP (lin_ip (vmcs s) + k) = mkFar (ip (vmcs s) + k) (cs (vmcs s)).
Proof.
  intros [[Hc1 Hc2] _ Hi _ _ _ _ _] Hk. unfold lin_ip. rewrite real_lin by lia.
  replace (16 * cs (vmcs s) + ip (vmcs s) + k) with (16 * cs (vmcs s) + (ip (vmcs s) + k)) by lia. apply far_aligned; done || lia.
Qed.

Lemma stack_far s d : guest_ok s -> -6 <= d <= 6 -> LIN32_TO_FP (lin_sp (vmcs s) + d) = mkFar (sp (vmcs s) + d) (ss (vmcs s)).
Proof.
  intros [_ [Hc1 Hc2] _ Hi _ _ _ _] Hk. unfold lin_sp. rewrite real_lin by lia.
  replace (16 * ss (vmcs s) + sp (vmcs s) + d) with (16 * ss (vmcs s) + (sp (vmcs s) + d)) by lia. apply far_aligned; done || lia.
Qed.

Lemma slot_lin s d : guest_ok s -> -6 <= d <= 4 -> slot (view_of s) d = lin_sp (vmcs s) + d.
Proof.
  intros [_ [Hc1 Hc2] _ Hi _ _ _ _] Hk. unfold slot, lin_sp. cbn [view_of view c_ss c_sp]. rewrite real_lin, u16_small by lia. lia.
Qed.

Definition no_prefix (op : Z) : Prop := op <> 0x66 /\ op <> 0x67 /\ op <> 0xF2 /\ op <> 0xF3.

Lemma parse_end s eip p n : no_prefix (mem8 (gmem s) eip) -> mloop (S n) parse_body (eip, p) s = Ok ((eip, p), s).
Proof.
  intros (H1 & H2 & H3 & H4). rewrite mloop_S. unfold parse_body, ld8, bind, gets, ret.
  by rewrite (proj2 (Z.eqb_neq _ 0x66)), (proj2 (Z.eqb_neq _ 0x67)), (proj2 (Z.eqb_neq _ 0xF2)), (proj2 (Z.eqb_neq _ 0xF3)).
Qed.

Lemma handle_plain s op : mem8 (gmem s) (lin_ip (vmcs s)) = op -> no_prefix op ->
  handle s = execute port_in port_out (lin_ip (vmcs s)) (lin_sp (vmcs s)) (flags (vmcs s)) (mkPrefixes false false false false) s.
Proof.
  intros <- Hn. unfold vmx_vm86_handle_GPF. do 5 (erewrite bind_Ok_eq by reflexivity).
  erewrite bind_Ok_eq by (apply (parse_end s _ _ 4095); exact Hn). done.
Qed.

Lemma handle_o32 s op : 0 <= lin_ip (vmcs s) < 2 ^ 20 -> mem8 (gmem s) (lin_ip (vmcs s)) = 0x66 -> mem8 (gmem s) (lin_ip (vmcs s) + 1) = op -> no_prefix op ->
  handle s = execute port_in port_out (lin_ip (vmcs s) + 1) (lin_sp (vmcs s)) (flags (vmcs s)) (mkPrefixes false true false false) s.
Proof.
  intros Hip H66 <- Hn. unfold vmx_vm86_handle_GPF. do 5 (erewrite bind_Ok_eq by reflexivity).
  rewrite (bind_Ok_eq _ _ _ (lin_ip (vmcs s) + 1, mkPrefixes false true false false) s); [reflexivity|]. change MAX_PREFIXES with (S (S 4094)). rewrite mloop_S.
  change (REAL_TO_LIN32 (rd (vmcs s) VMXENC_GUEST_CS_SEL) (rd (vmcs s) VMXENC_GUEST_RIP)) with (lin_ip (vmcs s)).
  erewrite bind_Ok_eq; [|unfold parse_body, ld8, bind, gets, ret; rewrite H66; cbn; reflexivity].
  cbv iota. rewrite u32_small by lia. apply parse_end. exact Hn.
Qed.

Lemma word_range s p : lin_ok s -> 0 <= mem16 (gmem s) p < 2 ^ 16.
Proof. intros Hs. unfold mem16, mem8. pose proof (lo_bytes _ Hs (u32 p)). pose proof (lo_bytes _ Hs (u32 (p + 1))). lia. Qed.

Lemma dword_range s p : lin_ok s -> 0 <= mem32 (gmem s) p < 2 ^ 32.
Proof. intros Hs. unfold mem32. pose proof (word_range s p Hs). pose proof (word_range s (p + 2) Hs). lia. Qed.

Ltac below_top s E d :=
  pose proof (stack_far s (- d) ltac:(assumption) ltac:(lia)) as E;
  change (LIN32_TO_FP (lin_sp (vmcs s) - d) = mkFar (sp (vmcs s) - d) (ss (vmcs s))) in E.
Ltac slot_below s L d :=
  pose proof (slot_lin s (- d) ltac:(assumption) ltac:(lia)) as L; let d' := eval cbv in (- d) in change (slot (view_of s) d' = lin_sp (vmcs s) - d) in L.

(** The instruction was executed, and the monitor kept what is its own. *)
Definition emulated s (c : cpu) : Prop :=
  exists s', handle s = Ok (0, s') /\ view_of s' = c /\ host_flags (flags (vmcs s')) = host_flags (flags (vmcs s)) /\
    guest_regs s' = guest_regs s /\ realmode s' = realmode s /\ devices s' = devices s /\ vmx_vm86_IVT s' = vmx_vm86_IVT s.

Lemma emulated_intro s c vm m : handle s = Ok (0, set_vmcs vm (set_gmem m s)) ->
  view vm m = c -> host_flags (flags vm) = host_flags (flags (vmcs s)) -> emulated s c.
Proof. intros E <- Hh. eexists. split; [exact E|]. done. Qed.

(** The start of an instruction without prefix, and of one with the prefix 0x66. *)
Ltac begin_plain Hf H0 :=
  pose proof (Hf 0%nat _ eq_refl) as H0; rewrite Z.add_0_r in H0.
Ltac run_plain s H0 v e :=
  rewrite (handle_plain s _ H0) by (unfold no_prefix; lia); unfold execute, ld8 at 1;
  erewrite bind_Ok_eq by reflexivity; fold v e; fold v in H0; rewrite H0; cbn [Z.eqb Pos.eqb].
Ltac run_o32 s H0 H1 v e :=
  rewrite (handle_o32 s _ ltac:(fold v; lia) H0 H1) by (unfold no_prefix; lia); unfold execute, ld8 at 1;
  erewrite bind_Ok_eq by reflexivity; fold v e; fold v in H1; rewrite H1; cbn [Z.eqb Pos.eqb o32].

Definition expected i s : cpu := processor (vector (vmx_vm86_IVT s)) i (view_of s).

Lemma int_ok s vec : guest_ok s -> fetches s (INT vec) -> 0 <= vec < 256 -> emulated s (expected (INT vec) s).
Proof.
  intros Hs Hf Hv. pose proof (guest_lin s Hs) as [Hip Hsp Hfl Hb]. pose proof (go_ivt _ Hs) as [Hl Hivt].
  pose proof (Hf 0%nat _ eq_refl) as H0. pose proof (Hf 1%nat _ eq_refl) as H1. rewrite Z.add_0_r in H0. change (Z.of_nat 1) with 1 in H1.
  pose proof (next_far s 2 Hs ltac:(lia)) as En. below_top s Es 6.
  slot_below s L2 2. slot_below s L4 4. slot_below s L6 6.
  pose proof Hs as [[Hc1 _] [Hs1 _] Hi Hp _ Hpl _ _].
  destruct (lookup_lt_is_Some_2 (vmx_vm86_IVT s) (Z.to_nat vec)) as [fp Hfp]; [lia|].
  assert (far_ok fp) as [Hok1 Hok2] by (rewrite Forall_lookup in Hivt; by eapply Hivt).
  set (v := vmcs s) in *. set (e := flags v) in *. pose proof (land_range 32 e (u32 (Z.lnot F_VIF)) ltac:(lia) Hfl) as He'.
  eapply (emulated_intro s _ (cs_ip fp (fl (Z.land e (u32 (Z.lnot F_VIF))) (ss_sp (mkFar (sp v - 6) (ss v)) v)))
    (put16 (lin_sp v - 2) (guest_flags e mod 2 ^ 16) (put16 (lin_sp v - 4) (cs v) (put16 (lin_sp v - 6) (ip v + 2) (gmem s))))).
  - run_plain s H0 v e. unfold do_int, ld8. erewrite bind_Ok_eq by reflexivity. fold v. rewrite H1.
    rewrite (bind_Ok_eq _ _ _ fp s) by (unfold bind, gets, lift; by rewrite Hfp).
    rewrite (u32_small (lin_sp v - 6)), (u32_small (lin_ip v + 2)), Es, En, flags_pushed by lia.
    replace (lin_sp v - 2) with (lin_sp v - 6 + 4) by lia. replace (lin_sp v - 4) with (lin_sp v - 6 + 2) by lia. reflexivity.
  - unfold expected, processor. rewrite L2, L4, L6. unfold view_of. fold v. cbn [view]. unfold vector. rewrite Hfp.
    cbn [encoding length]. change (Z.of_nat 2) with 2. fold e.
    rewrite plain_int by done. rewrite (u16_small (ip v + 2)) by lia. rewrite (u16_small (sp v - 6)) by lia.
    rewrite <- flags_cli by done. by guest_view.
  - autorewrite with vmcs. apply host_cli.
Qed.

Lemma iret_ok s : guest_ok s -> popped_ok s IRET -> fetches s IRET -> emulated s (expected IRET s).
Proof.
  intros Hs Hpop Hf. pose proof (guest_lin s Hs) as Hlin. pose proof Hlin as [Hip Hsp Hfl Hb]. begin_plain Hf H0.
  pose proof (stack_far s 6 Hs ltac:(lia)) as Es. pose proof (slot_lin s 0 Hs ltac:(lia)) as L0. rewrite Z.add_0_r in L0.
  pose proof (slot_lin s 2 Hs ltac:(lia)) as L2. pose proof (slot_lin s 4 Hs ltac:(lia)) as L4.
  pose proof Hs as [_ [Hs1 _] _ Hp _ Hpl _ _]. cbn [popped_ok] in Hpop.
  set (v := vmcs s) in *. set (e := flags v) in *.
  pose proof (word_range s (lin_sp v) Hlin) as Hw0. pose proof (word_range s (lin_sp v + 2) Hlin) as Hw2. pose proof (word_range s (lin_sp v + 4) Hlin) as Hw4.
  set (w := mem16 (gmem s) (lin_sp v + 4)) in *. set (fp := mkFar (mem16 (gmem s) (lin_sp v)) (mem16 (gmem s) (lin_sp v + 2))).
  assert (far_ok fp) as Hok by done.
  set (e' := with_VIF (Z.land w F_IF) (Z.lor (Z.land w 0xDFF) (Z.land e (u32 (Z.lnot 0xDFF))))).
  assert (0 <= e' < 2 ^ 32) as He' by (apply range_popf; [done|lia]).
  eapply (emulated_intro s _ (ss_sp (mkFar (sp v + 6) (ss v)) (fl e' (cs_ip fp v))) (gmem s)).
  - run_plain s H0 v e. unfold do_iret. rewrite (u32_small (lin_sp v + 6)), Es by lia. reflexivity.
  - unfold expected, processor. rewrite L0, L2, L4. unfold view_of. fold v. cbn [view]. fold e w.
    rewrite (plain_load _ FLAGS16), (u16_small (sp v + 6)), <- flags_popf by (done || lia). by guest_view.
  - autorewrite with vmcs. apply host_popf.
Qed.

Lemma push_ok s i o : guest_ok s -> fetches s i -> i = (if o : bool then PUSHFD else PUSHF) -> emulated s (expected i s).
Proof.
  intros Hs Hf ->. pose proof (guest_lin s Hs) as [Hip Hsp Hfl Hb].
  pose proof (next_far s 1 Hs ltac:(lia)) as E1. pose proof (next_far s 2 Hs ltac:(lia)) as E2.
  below_top s S2 2. below_top s S4 4. slot_below s L2 2. slot_below s L4 4.
  pose proof Hs as [[Hc1 _] [Hs1 _] Hi Hp _ Hpl _ _].
  set (v := vmcs s) in *. set (e := flags v) in *.
  assert (Z.land (u16 e) 0xDFF = Z.land e 0xDFF) as E16.
  { unfold u16. rewrite <- Z.land_ones, <- Z.land_assoc by lia. done. }
  set (n := if o then 4 else 2). set (k := if o then 2 else 1). assert (0 < n <= 4 /\ 0 < k <= 2) as [Hn Hk] by (unfold n, k; destruct o; lia).
  eapply (emulated_intro s _ (ss_sp (LIN32_TO_FP (lin_sp v - n)) (cs_ip (LIN32_TO_FP (lin_ip v + k)) v))
    ((if o then put32 else put16) (lin_sp v - n) (Z.land (guest_flags e) (Z.ones 12)) (gmem s))).
  - destruct o; unfold n, k in *.
    + pose proof (Hf 0%nat _ eq_refl) as H0. pose proof (Hf 1%nat _ eq_refl) as H1. rewrite Z.add_0_r in H0. change (Z.of_nat 1) with 1 in H1.
      run_o32 s H0 H1 v e. unfold do_pushf, inc_ip. rewrite flags_pushf by done. rewrite (u32_small (lin_sp v - 4)), (u32_small (lin_ip v + 1 + 1)) by lia.
      replace (lin_ip v + 1 + 1) with (lin_ip v + 2) by lia. reflexivity.
    + begin_plain Hf H0. run_plain s H0 v e. unfold do_pushf, inc_ip. rewrite E16, flags_pushf by done.
      rewrite (u32_small (lin_sp v - 2)), (u32_small (lin_ip v + 1)) by lia. reflexivity.
  - destruct o; unfold expected, processor, n, k in *; [rewrite L4, S4, E2|rewrite L2, S2, E1]; unfold view_of; fold v; cbn [view encoding length]; fold e;
      rewrite ?plain_word, ?plain_stored, !u16_small by (done || lia); by guest_view.
  - by autorewrite with vmcs.
Qed.

Lemma pop_ok s i o : guest_ok s -> popped_ok s i -> fetches s i -> i = (if o : bool then POPFD else POPF) -> emulated s (expected i s).
Proof.
  intros Hs Hpop Hf ->. pose proof (guest_lin s Hs) as Hlin. pose proof Hlin as [Hip Hsp Hfl Hb].
  pose proof (next_far s 1 Hs ltac:(lia)) as E1. pose proof (next_far s 2 Hs ltac:(lia)) as E2.
  pose proof (stack_far s 2 Hs ltac:(lia)) as S2. pose proof (stack_far s 4 Hs ltac:(lia)) as S4.
  pose proof (slot_lin s 0 Hs ltac:(lia)) as L0. rewrite Z.add_0_r in L0.
  pose proof Hs as [[Hc1 _] [Hs1 _] Hi Hp _ Hpl _ _].
  set (v := vmcs s) in *. set (e := flags v) in *.
  set (n := if o then 4 else 2). set (k := if o then 2 else 1). assert (0 < n <= 4 /\ 0 < k <= 2) as [Hn Hk] by (unfold n, k; destruct o; lia).
  set (w := (if o then mem32 else mem16) (gmem s) (lin_sp v)).
  assert (0 <= w < 2 ^ 32) as Hw by (unfold w; destruct o; [by apply dword_range|pose proof (word_range s (lin_sp v) Hlin); lia]).
  assert (image_ok (guest_flags e) w) as Himg by (by destruct o).
  set (e' := with_VIF (Z.land w F_IF) (Z.lor (Z.land w 0xDFF) (Z.land e (u32 (Z.lnot 0xDFF))))).
  assert (0 <= e' < 2 ^ 32) as He' by (by apply range_popf).
  assert (Z.land (mem16 (gmem s) (lin_sp v)) F_IF = Z.land w F_IF) as Eif.
  { unfold w. destruct o; [|done]. unfold mem32. pose proof (word_range s (lin_sp v) Hlin) as H16.
    apply Z.bits_inj'. intros i Hi'. rewrite !Z.land_spec. change F_IF with (2 ^ 9). rewrite Z.pow2_bits_eqb by lia.
    destruct (Z.eqb_spec 9 i) as [<-|]; [|by rewrite !andb_false_r]. f_equal.
    rewrite <- (Z.mod_pow2_bits_low (_ + _) 16) by lia. rewrite Z.mul_comm, Z.mod_add, Z.mod_small by lia. done. }
  eapply (emulated_intro s _ (ss_sp (LIN32_TO_FP (lin_sp v + n)) (cs_ip (LIN32_TO_FP (lin_ip v + k)) (fl e' v))) (gmem s)).
  - destruct o; unfold n, k in *.
    + pose proof (Hf 0%nat _ eq_refl) as H0. pose proof (Hf 1%nat _ eq_refl) as H1. rewrite Z.add_0_r in H0. change (Z.of_nat 1) with 1 in H1.
      run_o32 s H0 H1 v e. unfold do_popf, inc_ip. erewrite bind_Ok_eq by reflexivity. rewrite Eif.
      rewrite (u32_small (lin_sp v + 4)), (u32_small (lin_ip v + 1 + 1)) by lia. replace (lin_ip v + 1 + 1) with (lin_ip v + 2) by lia. reflexivity.
    + begin_plain Hf H0. run_plain s H0 v e. unfold do_popf, inc_ip. erewrite bind_Ok_eq by reflexivity. rewrite Eif.
      rewrite (u32_small (lin_sp v + 2)), (u32_small (lin_ip v + 1)) by lia. reflexivity.
  - assert (guest_flags e' = load_flags (guest_flags e) w) as Ee by (by apply flags_popf).
    destruct o; unfold expected, processor, n, k in *; [rewrite L0, S4, E2|rewrite L0, S2, E1]; unfold view_of; fold v; cbn [view encoding length]; fold e;
      rewrite ?plain_rf, (plain_load (guest_flags e) _ w), <- Ee, !u16_small by (done || lia); by guest_view.
  - autorewrite with vmcs. apply host_popf.
Qed.

Lemma vif_ok s i e' : guest_ok s -> fetches s i -> (i = CLI /\ e' = Z.land (flags (vmcs s)) (u32 (Z.lnot F_VIF))) \/ (i = STI /\ e' = Z.lor (flags (vmcs s)) F_VIF) ->
  emulated s (expected i s).
Proof.
  intros Hs Hf Hi. pose proof (guest_lin s Hs) as [Hip Hsp Hfl Hb]. pose proof (next_far s 1 Hs ltac:(lia)) as E1.
  pose proof Hs as [[Hc1 _] _ Hi' _ _ _ _ _]. set (v := vmcs s) in *. set (e := flags v) in *.
  assert (0 <= e' < 2 ^ 32) as He' by (destruct Hi as [[_ ->]|[_ ->]]; [by apply land_range|by apply lor_range]).
  eapply (emulated_intro s _ (fl e' (cs_ip (mkFar (ip v + 1) (cs v)) v)) (gmem s)).
  - destruct Hi as [[-> ->]|[-> ->]]; begin_plain Hf H0; run_plain s H0 v e; unfold do_vif, inc_ip; rewrite (u32_small (lin_ip v + 1)), E1 by lia; reflexivity.
  - destruct Hi as [[-> Ee]|[-> Ee]]; unfold expected, processor, view_of; fold v; cbn [view encoding length]; fold e; rewrite u16_small by lia.
    + change IF with (2 ^ 9). rewrite <- flags_cli, <- Ee by done. by guest_view.
    + change IF with (2 ^ 9). rewrite <- flags_sti, <- Ee by done. by guest_view.
  - autorewrite with vmcs. destruct Hi as [[_ ->]|[_ ->]]; [apply host_cli|apply host_sti].
Qed.

(** ** Theorems *)


(** Words on the stack. *)
Lemma put16_eq p v m : 0 <= p < 2 ^ 20 -> 0 <= v < 2 ^ 16 -> mem16 (put16 p v m) p = v.
Proof.
  intros Hp Hv. unfold mem16, put16, mem8, put8. rewrite !u32_small by lia. rewrite !rd_wr, !Z.eqb_refl.
  rewrite (proj2 (Z.eqb_neq p (p + 1))) by lia. unfold u8. rewrite Z.shiftr_div_pow2 by lia.
  rewrite (Z.mod_small (v / 2 ^ 8)) by (split; [apply Z.div_pos|apply Z.div_lt_upper_bound]; lia). pose proof (Z.div_mod v (2 ^ 8) ltac:(lia)). lia.
Qed.

Lemma put16_ne p v m q : 0 <= p < 2 ^ 20 -> 0 <= q < 2 ^ 20 -> q + 2 <= p \/ p + 2 <= q -> mem16 (put16 p v m) q = mem16 m q.
Proof.
  intros Hp Hq Hpq. unfold mem16, put16, mem8, put8. rewrite !u32_small by lia. rewrite !rd_wr.
  by rewrite !(proj2 (Z.eqb_neq _ _)) by lia.
Qed.

(** An interrupt and the return from it: if the handler of the guest leaves the three words
    on the stack and returns with its stack pointer there, the guest goes on behind the
    INT instruction, with its stack and its flags as before. *)
Theorem vm86_int_iret_roundtrip s vec s1 s2 : guest_ok s -> fetches s (INT vec) -> handle s = Ok (0, s1) ->
  guest_ok s2 -> fetches s2 IRET -> ss (vmcs s2) = ss (vmcs s1) -> sp (vmcs s2) = sp (vmcs s1) ->
  image_ok (guest_flags (flags (vmcs s2))) (guest_flags (flags (vmcs s))) ->
  (forall p, lin_sp (vmcs s1) <= p < lin_sp (vmcs s1) + 6 -> rd (gmem s2) p = rd (gmem s1) p) ->
  exists s3, handle s2 = Ok (0, s3) /\
    view_of s3 = mkCpu (cs (vmcs s)) (ip (vmcs s) + 2) (ss (vmcs s)) (sp (vmcs s)) (guest_flags (flags (vmcs s))) (gmem s2).
Proof.
  intros Hs Hf E1 Hs2 Hf2 Ess Esp Himg Hmem.
  assert (0 <= vec < 256) as Hvec by (pose proof (Hf 1%nat _ eq_refl) as H1; cbn in H1; rewrite <- H1; apply (go_bytes _ Hs)).
  destruct (int_ok s vec Hs Hf Hvec) as (s1' & E & Hv & _). rewrite E1 in E. injection E as <-.
  pose proof (guest_lin s Hs) as [_ Hsp _ _]. pose proof Hs as [[Hc1 _] [Hs1 _] Hi Hp _ Hpl _ _].
  unfold expected, processor in Hv. slot_below s L2 2. slot_below s L4 4. slot_below s L6 6. rewrite L2, L4, L6 in Hv.
  cbn [view_of view encoding length] in Hv. change (Z.of_nat 2) with 2 in Hv. rewrite !u16_small, (plain_word _ Hpl), (plain_low _ Hpl) in Hv by lia.
  assert (lin_sp (vmcs s1) = lin_sp (vmcs s) - 6) as El.
  { injection Hv. intros _ _ E4 E3 _ _. unfold lin_sp. rewrite E3, E4, !real_lin by lia. lia. }
  assert (lin_sp (vmcs s2) = lin_sp (vmcs s) - 6) as El2 by (rewrite <- El; unfold lin_sp; by rewrite Ess, Esp).
  injection Hv. intros Em _ E4 E3 _ _. set (f := guest_flags (flags (vmcs s))) in *.
  assert (0 <= f < 2 ^ 16) as Hfr.
  { pose proof (plain_low f Hpl) as Ef. rewrite Z.land_ones in Ef by lia. pose proof (Z.mod_pos_bound f (2 ^ 12) ltac:(lia)). lia. }
  assert (forall q, lin_sp (vmcs s) - 6 <= q <= lin_sp (vmcs s) - 2 -> mem16 (gmem s2) q = mem16 (gmem s1) q) as Hget.
  { intros q Hq. unfold mem16, mem8. rewrite !u32_small by lia. rewrite !Hmem by lia. done. }
  assert (mem16 (gmem s2) (lin_sp (vmcs s) - 6) = ip (vmcs s) + 2 /\ mem16 (gmem s2) (lin_sp (vmcs s) - 4) = cs (vmcs s) /\
    mem16 (gmem s2) (lin_sp (vmcs s) - 2) = f) as (W0 & W2 & W4).
  { rewrite !Hget, Em by lia. rewrite (put16_eq (lin_sp (vmcs s) - 2)) by lia. rewrite !(put16_ne (lin_sp (vmcs s) - 2)) by lia.
    rewrite (put16_eq (lin_sp (vmcs s) - 4)), (put16_ne (lin_sp (vmcs s) - 4)), put16_eq by lia. done. }
  assert (popped_ok s2 IRET) as Hpop.
  { unfold popped_ok. rewrite El2. replace (lin_sp (vmcs s) - 6 + 4) with (lin_sp (vmcs s) - 2) by lia. by rewrite W4. }
  destruct (iret_ok s2 Hs2 Hpop Hf2) as (s3 & E3' & Hv3 & _). exists s3. split; [exact E3'|]. rewrite Hv3. unfold expected, processor.
  pose proof (slot_lin s2 0 Hs2 ltac:(lia)) as M0. pose proof (slot_lin s2 2 Hs2 ltac:(lia)) as M2. pose proof (slot_lin s2 4 Hs2 ltac:(lia)) as M4.
  rewrite M0, M2, M4, El2. replace (lin_sp (vmcs s) - 6 + 0) with (lin_sp (vmcs s) - 6) by lia.
  replace (lin_sp (vmcs s) - 6 + 2) with (lin_sp (vmcs s) - 4) by lia. replace (lin_sp (vmcs s) - 6 + 4) with (lin_sp (vmcs s) - 2) by lia.
  cbn [view_of view]. rewrite W0, W2, W4, Ess, Esp, E3, E4. rewrite plain_load by done. replace (sp (vmcs s) - 6 + 6) with (sp (vmcs s)) by lia.
  f_equal; [apply u16_small; lia|].
  unfold load_flags, load_bits. rewrite (proj1 (go_plain _ Hs2)), Z.lor_0_l. by apply plain_low.
Qed.

Lemma lin_cs fp v : far_ok fp -> lin_ip (cs_ip fp v) = FP_TO_LIN32 fp.
Proof. intros Hfp. unfold lin_ip. by rewrite cs_cs_ip_eq, ip_cs_ip_eq. Qed.

(** PUSHF moves the stack segment to the 64 KiB that the stack pointer lies in; what the
    guest addresses relative to SS is elsewhere, unless SS was a multiple of 0x1000. *)
Lemma pushf_moves_segment s : lin_ok s -> fetches s PUSHF ->
  exists s', handle s = Ok (0, s') /\ rd (vmcs s') VMXENC_GUEST_SS_SEL = (lin_sp (vmcs s) - 2) / 2 ^ 16 * 2 ^ 12.
Proof.
  intros Hs Hf. pose proof Hs as [Hip Hsp Hfl Hb]. begin_plain Hf H0. set (v := vmcs s) in *. set (e := flags v) in *.
  eexists. split; [run_plain s H0 v e; unfold do_pushf; rewrite (u32_small (lin_sp v - 2)) by lia; reflexivity|].
  cbn [vmcs set_vmcs]. rewrite !rd_wr. cbn [Z.eqb Pos.eqb VMXENC_GUEST_SS_SEL VMXENC_GUEST_SS_BASE].
  destruct (lin_fp_ok (lin_sp v - 2) ltac:(lia)) as [_ ?]. rewrite u32_small by lia. apply lin_fp. lia.
Qed.

(** IN AL, DX does not replace the low byte of EAX: it is combined with what was there. *)
Theorem vm86_in_merges s regs dx x v w : lin_ok s -> mem8 (gmem s) (lin_ip (vmcs s)) = 0xEC -> guest_regs s = regs ->
  regs !! 5%nat = Some dx -> regs !! 7%nat = Some x -> 0 <= x < 2 ^ 32 -> port_in 1 (Z.land dx 0xFFFF) (devices s) = (v, w) ->
  exists s', handle s = Ok (0, s') /\ guest_regs s' = <[7%nat := Z.lor x (v mod 2 ^ 8)]> regs /\ devices s' = w /\
    lin_ip (vmcs s') = lin_ip (vmcs s) + 1.
Proof.
  intros Hs H0 <- Hdx Hx Hxr Hp. pose proof Hs as [Hip Hsp Hfl Hb].
  assert (0 <= v mod 2 ^ 8 < 2 ^ 8) as Hv by (apply Z.mod_pos_bound; lia).
  assert (u32 (Z.lor x (Z.land 0xFF (v mod 2 ^ 8))) = Z.lor x (v mod 2 ^ 8)) as Eu.
  { rewrite Z.land_comm. change 0xFF with (Z.ones 8). rewrite Z.land_ones, Z.mod_mod by lia. apply u32_small. apply lor_range; lia. }
  rewrite (handle_plain s _ H0) by (unfold no_prefix; lia). unfold execute, ld8 at 1. erewrite bind_Ok_eq by reflexivity. rewrite H0.
  cbn [Z.eqb Pos.eqb existsb orb a32 o32 rep]. unfold do_in. cbn [Z.eqb Pos.eqb orb andb].
  rewrite (bind_Ok_eq _ _ _ (Z.land dx 0xFFFF, 1) s) by (unfold io_port, reg, bind, gets, lift, byte_at, ret; change (guest_regs s !! Z.to_nat edx) with (guest_regs s !! 5%nat); by rewrite Hdx).
  rewrite (bind_Ok_eq _ _ _ tt (set_guest_regs (<[7%nat := Z.lor x (v mod 2 ^ 8)]> (guest_regs s)) (set_devices w s))).
  - unfold inc_ip. rewrite (u32_small (lin_ip (vmcs s) + 1)) by lia.
    eexists. split; [reflexivity|]. split; [done|]. split; [done|].
    change (lin_ip (cs_ip (LIN32_TO_FP (lin_ip (vmcs s) + 1)) (vmcs s)) = lin_ip (vmcs s) + 1).
    rewrite lin_cs by (apply lin_fp_ok; lia). apply lin_fp_lin. lia.
  - rewrite <- Eu. unfold port_read, reg, set_reg, bind, gets, lift, byte_at, modify. rewrite Hp. change (2 ^ (8 * 1)) with (2 ^ 8).
    cbn [guest_regs set_devices]. change (guest_regs s !! Z.to_nat eax) with (guest_regs s !! 7%nat). rewrite Hx. reflexivity.
Qed.
End run.

(** ** Examples *)

(** INT 0x10 at 0x1000:0, the stack at 0x2000:0x100, and an IRET at the vector, 0xF000:0. *)
Definition bios_table : list vm86_farptr := replicate 16 (mkFar 0 0) ++ [mkFar 0 0xF000] ++ replicate 239 (mkFar 0 0).
Definition guest_code : list (Z * Z) := [(0x10000, 0xCD); (0x10001, 0x10); (0xF0000, 0xCF)].
Definition before_int : machine unit :=
  mkMachine (list_to_map [(VMXENC_GUEST_CS_SEL, 0x1000); (VMXENC_GUEST_SS_SEL, 0x2000); (VMXENC_GUEST_RSP, 0x100);
      (VMXENC_GUEST_RFLAGS, 0xA0202)])
    (replicate 8 0) true (list_to_map guest_code) bios_table tt.
Definition stack_image : list (Z * Z) := [(0x200FA, 0x02); (0x200FD, 0x10); (0x200FE, 0x02); (0x200FF, 0x02)].
Definition after_int : machine unit :=
  mkMachine (list_to_map [(VMXENC_GUEST_CS_SEL, 0xF000); (VMXENC_GUEST_CS_BASE, 0xF0000); (VMXENC_GUEST_SS_SEL, 0x2000);
      (VMXENC_GUEST_SS_BASE, 0x20000); (VMXENC_GUEST_RSP, 0xFA); (VMXENC_GUEST_RFLAGS, 0x20202)])
    (replicate 8 0) true (list_to_map (guest_code ++ stack_image)) bios_table tt.

(** A port that reads as 0x41. *)
Definition constant_port (_ _ : Z) (w : unit) : Z * unit := (0x41, w).
Definition no_output (_ _ _ : Z) (w : unit) : unit := w.

Lemma list_bytes l p : Forall (fun e : Z * Z => 0 <= e.2 < 256) l -> 0 <= rd (list_to_map l) p < 256.
Proof.
  intros Hl. unfold rd. destruct ((list_to_map l : gmap Z Z) !! p) as [v|] eqn:E; cbn; [|lia].
  apply elem_of_list_to_map_2, list_elem_of_In in E. rewrite Forall_forall in Hl. exact (Hl _ E).
Qed.

Lemma before_ok : guest_ok before_int.
Proof.
  split; try (by vm_compute); [intros p; apply (list_bytes guest_code); by repeat constructor|]. split; [done|].
  cbn [vmx_vm86_IVT before_int]. unfold bios_table. rewrite !Forall_app. split_and!; [by apply Forall_replicate| |by apply Forall_replicate].
  by repeat constructor.
Qed.

Lemma after_ok : guest_ok after_int.
Proof. pose proof before_ok as [_ _ _ _ _ _ _ Hivt]. split; try (by vm_compute); intros p; apply (list_bytes (guest_code ++ stack_image)); by repeat constructor. Qed.

Lemma before_fetches : fetches before_int (INT 0x10).
Proof. intros [|[|k]] b [= <-]; vm_compute; reflexivity. Qed.

Lemma after_fetches : fetches after_int IRET.
Proof. intros [|k] b [= <-]; vm_compute; reflexivity. Qed.


Lemma vm86_int_iret_roundtrip_witness : exists s3, vmx_vm86_handle_GPF constant_port no_output after_int = Ok (0, s3) /\
  c_cs (view_of s3) = 0x1000 /\ c_ip (view_of s3) = 2 /\ c_sp (view_of s3) = 0x100 /\ c_flags (view_of s3) = 0x202.
Proof.
  destruct (vm86_int_iret_roundtrip constant_port no_output before_int 0x10 after_int after_int) as (s3 & E & Hv).
  - exact before_ok.
  - exact before_fetches.
  - vm_compute. reflexivity.
  - exact after_ok.
  - exact after_fetches.
  - reflexivity.
  - reflexivity.
  - vm_compute. reflexivity.
  - reflexivity.
  - exists s3. split; [exact E|]. rewrite Hv. split_and!; vm_compute; reflexivity.
Defined.

(** 0x41 is read into an EAX of 0x12345680, and 0x123456C1 is found there. *)
Definition before_in : machine unit :=
  mkMachine (list_to_map [(VMXENC_GUEST_CS_SEL, 0x100); (VMXENC_GUEST_SS_SEL, 0x200); (VMXENC_GUEST_RSP, 0x100)])
    [0; 0; 0; 0; 0; 0x60; 0; 0x12345680] true (list_to_map [(0x1000, 0xEC)]) bios_table tt.

Lemma vm86_in_merges_witness : exists s', vmx_vm86_handle_GPF constant_port no_output before_in = Ok (0, s') /\
  guest_regs s' = [0; 0; 0; 0; 0; 0x60; 0; 0x123456C1].
Proof.
  destruct (vm86_in_merges constant_port no_output before_in [0; 0; 0; 0; 0; 0x60; 0; 0x12345680] 0x60 0x12345680 0x41 tt) as (s' & E & Hr & _).
  - split; try (by vm_compute). intros p. apply (list_bytes [(0x1000, 0xEC)]). by repeat constructor.
  - vm_compute. reflexivity.
  - reflexivity.
  - reflexivity.
  - reflexivity.
  - lia.
  - reflexivity.
  - exists s'. split; [exact E|]. rewrite Hr. vm_compute. reflexivity.
Defined.
