(* ===== verification/Console.v ===== *)
(** * The text screen

    [user_putchar] of interrupt_handler.c with the putchar system call and its splash screen,
    util/screen.c, the output of the kernel, and the clearing of the screen in boot/init.c.
    All write to one page of video memory, a list of 4096 bytes of which the first 4000 are
    shown: 25 rows of 80 characters with their attributes.  An access outside the page is a
    fault.  The cursor is in two registers behind an index and a data port. *)

From Stdlib Require Import ZArith Lia.
From S2P Require Import Prelude Printf.
From stdpp Require Import base list numbers strings.
Local Open Scope Z_scope.

(** [x] and [y] are the static variables of [user_putchar], [sx] and [sy] those of
    [_putchar], [first] that of [syscall_putchar]. *)
Record console := mkConsole {
  pchVideo : list Z;
  x : Z; y : Z;
  sx : Z; sy : Z;
  first : bool;
  crtc_index : Z; cursor_high : Z; cursor_low : Z
}.

Definition set_video (v : list Z) (c : console) : console :=
  mkConsole v (x c) (y c) (sx c) (sy c) (first c) (crtc_index c) (cursor_high c) (cursor_low c).
Definition set_xy (a b : Z) (c : console) : console :=
  mkConsole (pchVideo c) a b (sx c) (sy c) (first c) (crtc_index c) (cursor_high c) (cursor_low c).
Definition set_sxy (a b : Z) (c : console) : console :=
  mkConsole (pchVideo c) (x c) (y c) a b (first c) (crtc_index c) (cursor_high c) (cursor_low c).

Definition set_first (b : bool) (c : console) : console :=
  mkConsole (pchVideo c) (x c) (y c) (sx c) (sy c) b (crtc_index c) (cursor_high c) (cursor_low c).

(** ** Video memory *)

Definition vpoke (i v : Z) : M console unit :=
  let! m := gets pchVideo in
  if (0 <=? i) && (i <? Z.of_nat (length m)) then modify (set_video (<[Z.to_nat i := u8 v]> m)) else fail PageFault.
Definition vpeek (i : Z) : M console Z := let! m := gets pchVideo in lift (byte_at m i).

(** [rep movsb] and [rep stosb], upwards. *)
Fixpoint movsb (dst src : Z) (count : nat) : M console unit :=
  match count with
  | O => ret tt
  | S count => let! b := vpeek src in vpoke dst b ;;! movsb (dst + 1) (src + 1) count
  end.
Fixpoint stosb (dst v : Z) (count : nat) : M console unit :=
  match count with
  | O => ret tt
  | S count => vpoke dst v ;;! stosb (dst + 1) v count
  end.

(** Writes to the CRT controller. *)
Definition outb (v port : Z) : M console unit :=
  modify (fun c =>
    if port =? 0x3D4 then mkConsole (pchVideo c) (x c) (y c) (sx c) (sy c) (first c) (u8 v) (cursor_high c) (cursor_low c)
    else if crtc_index c =? 0x0E then mkConsole (pchVideo c) (x c) (y c) (sx c) (sy c) (first c) (crtc_index c) (u8 v) (cursor_low c)
    else if crtc_index c =? 0x0F then mkConsole (pchVideo c) (x c) (y c) (sx c) (sy c) (first c) (crtc_index c) (cursor_high c) (u8 v)
    else c).

(** ** Output of processes *)

Definition newline : M console unit :=
  let! y := gets y in
  modify (set_xy 0 (y + 1)) ;;!
  when (24 <? y + 1)
    (movsb 0 160 (Z.to_nat (24 * 160)) ;;!
     stosb (24 * 160) 0 (Z.to_nat 160) ;;!
     modify (set_xy 0 24)).

Definition user_putchar (ch attribute : Z) : M console Z :=
  if ch =? 10 then newline ;;! ret (u8 ch)
  else
    let! a := gets x in
    let! b := gets y in
    if 0x1000 <=? b * 160 + a * 2 then ret ch
    else
      vpoke (b * 160 + a * 2) ch ;;!
      vpoke (b * 160 + a * 2 + 1) attribute ;;!
      modify (set_xy (a + 1) b) ;;!
      let a := a + 1 in
      if 0x1000 <=? b * 160 + a * 2 then ret ch
      else
        vpoke (b * 160 + a * 2) 32 ;;!
        vpoke (b * 160 + a * 2 + 1) attribute ;;!
        outb 0x0E 0x3D4 ;;!
        outb (Z.shiftr (b * 80 + a) 8) 0x3D5 ;;!
        outb 0x0F 0x3D4 ;;!
        outb (Z.land (b * 80 + a) 0xFF) 0x3D5 ;;!
        ret (u8 ch).

(** ** Output of the kernel *)

Definition _putchar (ch : Z) : M console Z :=
  let! a := gets sx in
  let! b := gets sy in
  if ch =? 10 then
    modify (set_sxy 0 (if 24 <? b + 1 then 0 else b + 1)) ;;! ret (u8 ch)
  else
    vpoke (b * 160 + a * 2) ch ;;!
    vpoke (b * 160 + a * 2 + 1) 7 ;;!
    modify (set_sxy (a + 1) b) ;;!
    ret (u8 ch).

Fixpoint _print (pch : list Z) : M console unit :=
  match pch with
  | [] => ret tt
  | c :: pch => _putchar c ;;! _print pch
  end.

Definition putx_body (l i : Z) : M console (control Z unit) :=
  if 0 <=? i then
    let li := Z.land (Z.shiftr l (Z.shiftl i 2)) 0x0F in
    _putchar (if 9 <? li then 65 + li - 0x0A else 48 + li) ;;!
    ret (Continue (i - 1))
  else ret (Break tt).
Definition _putx (l : Z) : M console unit := mloop 9 (putx_body l) 7.

(** "clear screen" of [init]. *)
Definition blank_body (i : Z) : M console (control Z unit) :=
  if i <? 80 * 25 then
    vpoke (i * 2) 32 ;;! vpoke (i * 2 + 1) 7 ;;! ret (Continue (i + 1))
  else ret (Break tt).
Definition clear_screen : M console unit := mloop 2001 blank_body 0.

(** ** The system call *)

(** Characters with their attributes are written one after the other. *)
Fixpoint write (text : list (Z * Z)) : M console unit :=
  match text with
  | [] => ret tt
  | (c, attribute) :: text => user_putchar c attribute ;;! write text
  end.

(** [fun_printf (_user_putchar_attr_4, fmt, ...)] *)
Definition splash_printf (fmt : string) (args : list arg) : M console unit :=
  let! text := lift (closure_vprintf (str fmt) args) in write ((fun c => (c, 4)) <$> text).

Definition newline_string : string := String (Ascii.ascii_of_nat 10) "".
Definition splash_1 : string :=
  "**** Quest kernel version: %s *****   //---\ \\  \ //-- //--\ \\---\ " +:+ newline_string.
Definition splash_2 : string :=
  "* Copyright Boston University, 2010 *   ||   | ||  | ||-- \\--\   || " +:+ newline_string.
Definition splash_3 : string :=
  "******** 0x%.08X bytes free ******   \\__\_  \_/ \\__ \\__/   || " +:+ newline_string.

(** [vers] is what [_uname] puts, [free] the result of [_meminfo]. *)
Definition splash_screen (vers : list Z) (free : Z) : M console unit :=
  splash_printf splash_1 [AStr (Some vers)] ;;!
  splash_printf splash_2 [] ;;!
  splash_printf splash_3 [A32 free].

Definition syscall_putchar (vers : list Z) (free : Z) (ebx : Z) : M console Z :=
  let! b := gets first in
  when b (splash_screen vers free ;;! modify (set_first false)) ;;!
  let! _ := user_putchar ebx 7 in
  ret 0.

(** A program writes a text. *)
Fixpoint put_text (vers : list Z) (free : Z) (text : list Z) : M console unit :=
  match text with
  | [] => ret tt
  | c :: text => syscall_putchar vers free c ;;! put_text vers free text
  end.

(** ** Accesses *)

Lemma poke_ok i v c : 0 <= i < Z.of_nat (length (pchVideo c)) -> vpoke i v c = Ok (tt, set_video (<[Z.to_nat i := u8 v]> (pchVideo c)) c).
Proof.
  intros Hi. unfold vpoke, bind, gets. rewrite (proj2 (Z.leb_le _ _)), (proj2 (Z.ltb_lt _ _)) by lia. done.
Qed.

Lemma peek_ok i c b : 0 <= i -> pchVideo c !! Z.to_nat i = Some b -> vpeek i c = Ok (b, c).
Proof. intros Hi Hb. unfold vpeek, bind, gets, lift, byte_at. rewrite (proj2 (Z.ltb_ge _ _)) by lia. by rewrite Hb. Qed.

Definition bytes (c : console) : Prop := Forall (fun b => 0 <= b < 256) (pchVideo c).

(** Copying downwards in memory moves a part of it. *)
Lemma movsb_ok count dst src c : 0 <= dst < src -> src + Z.of_nat count <= Z.of_nat (length (pchVideo c)) -> bytes c ->
  exists v, movsb dst src count c = Ok (tt, set_video v c) /\ length v = length (pchVideo c) /\ Forall (fun b => 0 <= b < 256) v /\
    forall i, v !! i = if bool_decide (dst <= Z.of_nat i < dst + Z.of_nat count) then pchVideo c !! (i + Z.to_nat (src - dst))%nat else pchVideo c !! i.
Proof.
  revert dst src c. induction count as [|count IH]; intros dst src c Hd Hl Hb.
  - exists (pchVideo c). split_and!; [by destruct c|done|done|]. intros i. by rewrite bool_decide_eq_false_2 by lia.
  - destruct (lookup_lt_is_Some_2 (pchVideo c) (Z.to_nat src)) as [b Hsrc]; [lia|].
    assert (0 <= b < 256) as Hbb by (unfold bytes in Hb; rewrite Forall_lookup in Hb; by eapply Hb).
    assert (u8 b = b) as Eb by (apply u8_small; lia). set (c1 := set_video (<[Z.to_nat dst := b]> (pchVideo c)) c).
    destruct (IH (dst + 1) (src + 1) c1) as (v & E & Hlen & Hbv & Hv); [lia| | |].
    { unfold c1. cbn [pchVideo set_video]. rewrite length_insert. lia. }
    { unfold bytes, c1. cbn [pchVideo set_video]. by apply Forall_insert. }
    exists v. unfold c1 in Hlen, Hv. cbn [pchVideo set_video] in Hlen, Hv. rewrite length_insert in Hlen. split_and!; [|done|done|].
    + cbn [movsb]. rewrite (bind_Ok_eq _ _ _ b c) by (apply peek_ok; [lia|done]).
      rewrite (bind_Ok_eq _ _ _ tt c1) by (unfold c1; rewrite poke_ok by lia; by rewrite Eb). rewrite E. done.
    + intros i. rewrite Hv. replace (src + 1 - (dst + 1)) with (src - dst) by lia.
      destruct (decide (i = Z.to_nat dst)) as [->|Hi].
      * rewrite bool_decide_eq_false_2, bool_decide_eq_true_2 by lia. rewrite list_lookup_insert_eq by lia. rewrite <- Hsrc. f_equal. lia.
      * do 2 case_bool_decide; try lia; by rewrite list_lookup_insert_ne by lia.
Qed.

Lemma stosb_ok count dst c : 0 <= dst -> dst + Z.of_nat count <= Z.of_nat (length (pchVideo c)) ->
  exists v, stosb dst 0 count c = Ok (tt, set_video v c) /\ length v = length (pchVideo c) /\
    forall i, v !! i = if bool_decide (dst <= Z.of_nat i < dst + Z.of_nat count) then Some 0 else pchVideo c !! i.
Proof.
  revert dst c. induction count as [|count IH]; intros dst c Hd Hl.
  - exists (pchVideo c). split_and!; [by destruct c|done|]. intros i. by rewrite bool_decide_eq_false_2 by lia.
  - set (c1 := set_video (<[Z.to_nat dst := 0]> (pchVideo c)) c).
    destruct (IH (dst + 1) c1) as (v & E & Hlen & Hv); [lia|unfold c1; cbn [pchVideo set_video]; rewrite length_insert; lia|].
    exists v. unfold c1 in Hlen, Hv. cbn [pchVideo set_video] in Hlen, Hv. rewrite length_insert in Hlen. split_and!; [|done|].
    + cbn [stosb]. rewrite (bind_Ok_eq _ _ _ tt c1) by (by rewrite poke_ok by lia). rewrite E. done.
    + intros i. rewrite Hv. destruct (decide (i = Z.to_nat dst)) as [->|Hi].
      * rewrite bool_decide_eq_false_2, bool_decide_eq_true_2 by lia. by rewrite list_lookup_insert_eq by lia.
      * rewrite !list_lookup_insert_ne by lia. do 2 case_bool_decide; done || lia.
Qed.

(** ** What is shown *)

(** A byte of a row: the characters of a line with their attributes, a space behind them, and
    what was there before, [z]. *)
Definition row_byte (l : list (Z * Z)) (k : nat) (z : Z) : Z :=
  match l !! (k / 2)%nat with
  | Some (ch, attribute) => if Nat.even k then u8 ch else u8 attribute
  | None =>
      match last l with
      | Some (_, attribute) => if bool_decide (k / 2 = length l)%nat then (if Nat.even k then 32 else u8 attribute) else z
      | None => z
      end
  end.

(** The lines of a text: those that are complete, and the last one. *)
Definition text_lines : Type := list (list (Z * Z)) * list (Z * Z).
Definition add_char (l : text_lines) (c : Z * Z) : text_lines :=
  if c.1 =? 10 then (l.1 ++ [l.2], []) else (l.1, l.2 ++ [c]).
Definition lines_of (text : list (Z * Z)) : text_lines := foldl add_char ([], []) text.
Definition line (l : text_lines) (i : nat) : list (Z * Z) := default [] ((l.1 ++ [l.2]) !! i).

(** The text begins in row [y0] of the page [v0], which is continued by empty rows: byte [k] of
    row [j] of the two together. *)
Definition cell (v0 : list Z) (y0 : nat) (l : text_lines) (j k : nat) : Z :=
  let z := if bool_decide (j < 25)%nat then default 0 (v0 !! (160 * j + k)%nat) else 0 in
  if bool_decide (j < y0)%nat then z else row_byte (line l (j - y0)) k z.

(** The last 25 of these rows are on the screen. *)
Record shows (v0 : list Z) (y0 : nat) (b : bool) (l : text_lines) (c : console) : Prop := {
  sh_size : length (pchVideo c) = 4096%nat;
  sh_bytes : bytes c;
  sh_first : first c = b;
  sh_x : x c = Z.of_nat (length l.2);
  sh_y : y c = Z.of_nat (Nat.min 24 (y0 + length l.1));
  sh_rows : forall r k, (r < 25)%nat -> (k < 160)%nat ->
    pchVideo c !! (160 * r + k)%nat = Some (cell v0 y0 l (y0 + length l.1 - 24 + r) k)
}.

Lemma line_last l : line l (length l.1) = l.2.
Proof. unfold line. by rewrite list_lookup_middle. Qed.

Lemma line_other l p i : i <> length l.1 -> line (l.1, l.2 ++ [p]) i = line l i.
Proof.
  intros Hi. unfold line. cbn [fst snd]. destruct (decide (i < length l.1)%nat).
  - by rewrite !lookup_app_l.
  - rewrite !lookup_app_r by lia. rewrite !lookup_ge_None_2; [done|cbn; lia..].
Qed.

Lemma line_end l i : line (l.1 ++ [l.2], []) i = line l i.
Proof.
  unfold line. cbn [fst snd]. destruct (decide (i < length (l.1 ++ [l.2]))%nat).
  - by rewrite (lookup_app_l (l.1 ++ [l.2])).
  - rewrite (lookup_app_r (l.1 ++ [l.2])) by lia. rewrite (lookup_ge_None_2 (l.1 ++ [l.2])) by lia.
    by destruct (i - length (l.1 ++ [l.2]))%nat.
Qed.

Lemma row_byte_app l ch a k z : row_byte (l ++ [(ch, a)]) k z =
  if bool_decide (k / 2 = length l)%nat then (if Nat.even k then u8 ch else u8 a)
  else if bool_decide (k / 2 = S (length l))%nat then (if Nat.even k then 32 else u8 a)
  else if bool_decide (k / 2 < length l)%nat then row_byte l k z else z.
Proof.
  unfold row_byte. rewrite last_snoc, length_app. cbn [length].
  destruct (decide (k / 2 < length l)%nat) as [Hlt|Hge].
  - rewrite lookup_app_l by done. rewrite (bool_decide_eq_false_2 (k / 2 = length l)%nat), (bool_decide_eq_false_2 (k / 2 = S (length l))%nat), (bool_decide_eq_true_2 (k / 2 < length l)%nat) by lia.
    by destruct (lookup_lt_is_Some_2 l (k / 2)%nat Hlt) as [w ->].
  - rewrite lookup_app_r by lia. rewrite (bool_decide_eq_false_2 (k / 2 < length l)%nat) by lia. destruct (decide (k / 2 = length l)%nat) as [E|Hne].
    + rewrite E, Nat.sub_diag. by rewrite (bool_decide_eq_true_2 (length l = length l)).
    + rewrite lookup_ge_None_2 by (cbn [length]; lia). rewrite (bool_decide_eq_false_2 (k / 2 = length l)%nat) by done.
      destruct (decide (k / 2 = S (length l))%nat) as [E|]; [rewrite !bool_decide_eq_true_2 by lia; done|rewrite !bool_decide_eq_false_2 by lia; done].
Qed.

Lemma row_byte_past l k z : (S (length l) <= k / 2)%nat -> row_byte l k z = z.
Proof. intros Hk. unfold row_byte. rewrite lookup_ge_None_2 by lia. rewrite bool_decide_eq_false_2 by lia. by destruct (last l) as [[? ?]|]. Qed.

(** The writes to the cursor registers change nothing else. *)
Lemma outb_ok v port c : exists c', outb v port c = Ok (tt, c') /\ pchVideo c' = pchVideo c /\ x c' = x c /\ y c' = y c /\ first c' = first c.
Proof. unfold outb, modify. eexists. split; [reflexivity|]. by destruct (port =? 0x3D4), (crtc_index c =? 0x0E), (crtc_index c =? 0x0F). Qed.

Lemma cursor_ok a b d e (r : Z) c :
  exists c', (outb a 0x3D4 ;;! outb b 0x3D5 ;;! outb d 0x3D4 ;;! outb e 0x3D5 ;;! ret r) c = Ok (r, c') /\
    pchVideo c' = pchVideo c /\ x c' = x c /\ y c' = y c /\ first c' = first c.
Proof.
  destruct (outb_ok a 0x3D4 c) as (c1 & E1 & V1 & X1 & Y1 & F1). rewrite (bind_Ok_eq _ _ _ _ _ E1).
  destruct (outb_ok b 0x3D5 c1) as (c2 & E2 & V2 & X2 & Y2 & F2). rewrite (bind_Ok_eq _ _ _ _ _ E2).
  destruct (outb_ok d 0x3D4 c2) as (c3 & E3 & V3 & X3 & Y3 & F3). rewrite (bind_Ok_eq _ _ _ _ _ E3).
  destruct (outb_ok e 0x3D5 c3) as (c4 & E4 & V4 & X4 & Y4 & F4). rewrite (bind_Ok_eq _ _ _ _ _ E4).
  exists c4. split; [done|]. split_and!; congruence.
Qed.

Lemma half k : (k = 2 * (k / 2) /\ Nat.even k = true \/ k = 2 * (k / 2) + 1 /\ Nat.even k = false)%nat.
Proof.
  destruct (Nat.Even_or_Odd k) as [[q ->]|[q ->]].
  - left. rewrite Nat.mul_comm, Nat.div_mul by lia. split; [lia|]. apply Nat.even_spec. by exists q; lia.
  - right. rewrite (Nat.mul_comm 2), Nat.add_comm, Nat.div_add by lia. split; [cbn; lia|]. rewrite Nat.add_comm. by rewrite Nat.even_add, Nat.even_mul, orb_true_r.
Qed.

(** Read one of the bytes that were written. *)
Ltac video_at := rewrite ?list_lookup_insert_ne by lia; rewrite list_lookup_insert_eq by (rewrite ?length_insert; lia); done.

(** A character in a row that has room for it. *)
Lemma char_stored ry n a ch c : length (pchVideo c) = 4096%nat -> x c = Z.of_nat n -> y c = Z.of_nat ry -> (ry < 25)%nat -> (n < 79)%nat -> ch <> 10 ->
  exists c', user_putchar ch a c = Ok (u8 ch, c') /\
    pchVideo c' = <[(160 * ry + 2 * n + 3)%nat := u8 a]> (<[(160 * ry + 2 * n + 2)%nat := u8 32]>
      (<[(160 * ry + 2 * n + 1)%nat := u8 a]> (<[(160 * ry + 2 * n)%nat := u8 ch]> (pchVideo c)))) /\
    x c' = x c + 1 /\ y c' = y c /\ first c' = first c.
Proof.
  intros Hsz Hx Hy Hry Hn Hch. assert (y c * 160 + x c * 2 = Z.of_nat (160 * ry + 2 * n)) as Ei by lia.
  assert (y c * 160 + (x c + 1) * 2 = Z.of_nat (160 * ry + 2 * n + 2)) as Ei2 by lia.
  assert ((160 * ry + 2 * n + 3 < 4000)%nat) as Hin by lia.
  unfold user_putchar. rewrite (proj2 (Z.eqb_neq ch 10)) by done. do 2 (erewrite bind_Ok_eq by reflexivity). cbv zeta.
  rewrite Ei, Ei2. clear Hx Hy. revert Hin. generalize (160 * ry + 2 * n)%nat as i. intros i Hin.
  rewrite !(proj2 (Z.leb_gt 0x1000 _)) by lia.
  erewrite bind_Ok_eq by (apply poke_ok; lia). erewrite bind_Ok_eq by (apply poke_ok; cbn [pchVideo set_video]; rewrite length_insert; lia).
  erewrite bind_Ok_eq by reflexivity.
  erewrite bind_Ok_eq by (apply poke_ok; cbn [pchVideo set_video set_xy]; rewrite !length_insert; lia).
  erewrite bind_Ok_eq by (apply poke_ok; cbn [pchVideo set_video set_xy]; rewrite !length_insert; lia).
  match goal with |- context [bind (outb 0x0E _) _ ?s] => set (c4 := s) end.
  destruct (cursor_ok 0x0E (Z.shiftr (y c * 80 + (x c + 1)) 8) 0x0F (Z.land (y c * 80 + (x c + 1)) 0xFF) (u8 ch) c4) as (c' & E & Ev & Ex & Ey & Ef).
  exists c'. split; [exact E|]. rewrite Ev, Ex, Ey, Ef. split; [|split_and!; reflexivity]. unfold c4. cbn [pchVideo set_video set_xy].
  replace (Z.to_nat (Z.of_nat i + 1)) with (i + 1)%nat by lia. replace (Z.to_nat (Z.of_nat (i + 2) + 1)) with (i + 3)%nat by lia.
  by rewrite !Nat2Z.id.
Qed.

(** The four bytes of a row that a character changes. *)
Lemma row_stored (v : list Z) ry n k ch a w : length v = 4096%nat -> (ry < 25)%nat -> (n < 79)%nat -> (k < 160)%nat ->
  v !! (160 * ry + k)%nat = Some w ->
  <[(160 * ry + 2 * n + 3)%nat := u8 a]> (<[(160 * ry + 2 * n + 2)%nat := u8 32]>
    (<[(160 * ry + 2 * n + 1)%nat := u8 a]> (<[(160 * ry + 2 * n)%nat := u8 ch]> v))) !! (160 * ry + k)%nat =
  Some (if bool_decide (k / 2 = n)%nat then (if Nat.even k then u8 ch else u8 a)
        else if bool_decide (k / 2 = S n)%nat then (if Nat.even k then 32 else u8 a) else w).
Proof.
  intros Hsz Hry Hn Hk Hw. destruct (half k) as [[Ek ->]|[Ek ->]]; revert Ek; generalize (k / 2)%nat as q; intros q Ek.
  - destruct (decide (q = n)) as [->|]; [|destruct (decide (q = S n)) as [->|]].
    + replace (160 * ry + k)%nat with (160 * ry + 2 * n)%nat by lia. rewrite bool_decide_eq_true_2 by done. video_at.
    + replace (160 * ry + k)%nat with (160 * ry + 2 * n + 2)%nat by lia. rewrite bool_decide_eq_false_2, bool_decide_eq_true_2 by lia. video_at.
    + rewrite !(bool_decide_eq_false_2 (q = _)) by lia. by rewrite !list_lookup_insert_ne by lia.
  - destruct (decide (q = n)) as [->|]; [|destruct (decide (q = S n)) as [->|]].
    + replace (160 * ry + k)%nat with (160 * ry + 2 * n + 1)%nat by lia. rewrite bool_decide_eq_true_2 by done. video_at.
    + replace (160 * ry + k)%nat with (160 * ry + 2 * n + 3)%nat by lia. rewrite bool_decide_eq_false_2, bool_decide_eq_true_2 by lia. video_at.
    + rewrite !(bool_decide_eq_false_2 (q = _)) by lia. by rewrite !list_lookup_insert_ne by lia.
Qed.

Lemma cell_app v0 y0 l ch a j k : cell v0 y0 (l.1, l.2 ++ [(ch, a)]) j k =
  if bool_decide (j = y0 + length l.1)%nat then
    if bool_decide (k / 2 = length l.2)%nat then (if Nat.even k then u8 ch else u8 a)
    else if bool_decide (k / 2 = S (length l.2))%nat then (if Nat.even k then 32 else u8 a)
    else cell v0 y0 l j k
  else cell v0 y0 l j k.
Proof.
  unfold cell. cbv zeta. set (z := if bool_decide (j < 25)%nat then _ else _). destruct (decide (j = y0 + length l.1)%nat) as [->|Hne].
  - rewrite (bool_decide_eq_true_2 (_ = _)%nat), !(bool_decide_eq_false_2 (_ < y0)%nat) by lia.
    replace (y0 + length l.1 - y0)%nat with (length l.1) by lia.
    rewrite (line_last (l.1, l.2 ++ [(ch, a)]) : line _ (length l.1) = _), line_last. cbn [snd]. rewrite row_byte_app.
    repeat case_bool_decide; try done. symmetry. apply row_byte_past. lia.
  - rewrite (bool_decide_eq_false_2 (j = _)) by done. case_bool_decide; [done|]. by rewrite line_other by lia.
Qed.

Lemma char_shown v0 y0 b a l ch c : shows v0 y0 b l c -> ch <> 10 -> (length l.2 < 79)%nat ->
  exists c', user_putchar ch a c = Ok (u8 ch, c') /\ shows v0 y0 b (l.1, l.2 ++ [(ch, a)]) c'.
Proof.
  intros [Hsz Hb Hf Hx Hy Hr] Hch Hlen.
  destruct (char_stored (Nat.min 24 (y0 + length l.1)) (length l.2) a ch c) as (c' & E & Ev & Ex & Ey & Ef); [done..|lia|done|done|].
  exists c'. split; [exact E|]. split; cbn [fst snd].
  - by rewrite Ev, !length_insert.
  - unfold bytes. rewrite Ev. repeat (apply Forall_insert; [|apply u8_range]). exact Hb.
  - congruence.
  - rewrite Ex, length_app. cbn [length]. lia.
  - lia.
  - intros r k Hr25 Hk. rewrite Ev, cell_app. specialize (Hr r k Hr25 Hk). destruct (decide (r = Nat.min 24 (y0 + length l.1))) as [Er|Hne].
    + rewrite <- Er, (bool_decide_eq_true_2 (_ = y0 + length l.1)%nat) by lia. by apply row_stored.
    + rewrite (bool_decide_eq_false_2 (_ = y0 + length l.1)%nat) by lia. rewrite !list_lookup_insert_ne by nia. exact Hr.
Qed.

(** The end of a line. *)
Lemma cell_end v0 y0 l j k : cell v0 y0 (l.1 ++ [l.2], []) j k = cell v0 y0 l j k.
Proof. unfold cell. by rewrite line_end. Qed.

(** A row behind the last line and the page is empty. *)
Lemma cell_new v0 y0 l j k : (25 <= j)%nat -> (y0 <= 24)%nat -> (y0 + length l.1 < j)%nat -> cell v0 y0 l j k = 0.
Proof.
  intros Hj Hy Hl. unfold cell. cbv zeta. rewrite !bool_decide_eq_false_2 by lia. unfold line.
  rewrite lookup_ge_None_2 by (rewrite length_app; cbn; lia). cbn [default]. unfold row_byte. by rewrite lookup_nil.
Qed.

Lemma newline_shown v0 y0 b a l c : (y0 <= 24)%nat -> shows v0 y0 b l c ->
  exists c', user_putchar 10 a c = Ok (10, c') /\ shows v0 y0 b (l.1 ++ [l.2], []) c'.
Proof.
  intros Hy0 [Hsz Hb Hf Hx Hy Hr]. unfold user_putchar. cbn [Z.eqb Pos.eqb].
  unfold newline. rewrite (bind_assoc _ _ _ c). erewrite bind_Ok_eq by reflexivity. rewrite bind_assoc. erewrite bind_Ok_eq by reflexivity. rewrite Hy.
  destruct (Nat.ltb_spec (y0 + length l.1) 24) as [Hn|Hn].
  - rewrite (proj2 (Z.ltb_ge 24 _)) by lia. eexists. split; [reflexivity|].
    split; cbn [fst snd pchVideo set_xy x y first length]; rewrite ?length_app; cbn [length]; try done || lia.
    intros r k Hr25 Hk. rewrite cell_end. replace (y0 + (length l.1 + 1) - 24)%nat with (y0 + length l.1 - 24)%nat by lia. by apply Hr.
  - rewrite (proj2 (Z.ltb_lt 24 _)) by lia. cbn [when]. set (c1 := set_xy 0 (Z.of_nat (24 `min` (y0 + length l.1)) + 1) c).
    destruct (movsb_ok (Z.to_nat (24 * 160)) 0 160 c1) as (v1 & E1 & L1 & B1 & V1); [lia|cbn; lia|done|].
    destruct (stosb_ok (Z.to_nat 160) (24 * 160) (set_video v1 c1)) as (v2 & E2 & L2 & V2); [lia|cbn [pchVideo set_video]; rewrite L1; cbn; lia|].
    cbn [pchVideo set_video set_xy c1] in L1, V1, L2, V2.
    eexists. split.
    { rewrite bind_assoc, (bind_Ok_eq _ _ _ _ _ E1), bind_assoc, (bind_Ok_eq _ _ _ _ _ E2). reflexivity. }
    split; cbn [fst snd pchVideo set_video set_xy x y first length]; rewrite ?length_app; cbn [length]; try done || lia.
    + unfold bytes. cbn [pchVideo set_video set_xy]. apply Forall_lookup. intros i w Hi. rewrite V2 in Hi.
      destruct (bool_decide (24 * 160 <= Z.of_nat i < 24 * 160 + Z.of_nat (Z.to_nat 160))); [simplify_eq; lia|].
      rewrite Forall_lookup in B1. by eapply B1.
    + intros r k Hr25 Hk. rewrite V2, V1, cell_end. destruct (decide (r < 24)%nat).
      * rewrite bool_decide_eq_false_2, bool_decide_eq_true_2 by lia.
        replace (y0 + (length l.1 + 1) - 24 + r)%nat with (y0 + length l.1 - 24 + S r)%nat by lia.
        rewrite <- Hr by lia. f_equal. lia.
      * rewrite bool_decide_eq_true_2 by lia. by rewrite cell_new by lia.
Qed.

(** ** Theorems *)

Definition short_lines (l : text_lines) : Prop := Forall (fun s => length s < 80)%nat (l.1 ++ [l.2]).

(** A complete line stays, and a line that is begun does not become shorter. *)
Lemma line_kept text s l : s ∈ l.1 -> s ∈ (foldl add_char l text).1.
Proof.
  revert l. induction text as [|ch text IH]; intros l Hs; [done|]. cbn [foldl]. apply IH. unfold add_char.
  destruct (ch.1 =? 10); cbn [fst]; [|done]. apply elem_of_app. by left.
Qed.

Lemma longer text l : exists s, s ∈ (foldl add_char l text).1 ++ [(foldl add_char l text).2] /\ (length l.2 <= length s)%nat.
Proof.
  revert l. induction text as [|ch text IH]; intros l; cbn [foldl].
  - exists l.2. split; [|done]. apply elem_of_app. right. by apply list_elem_of_singleton.
  - destruct (ch.1 =? 10) eqn:E; unfold add_char at 2 4; rewrite E.
    + exists l.2. split; [|done]. apply elem_of_app. left. apply line_kept. cbn [fst]. apply elem_of_app. right. by apply list_elem_of_singleton.
    + destruct (IH (l.1, l.2 ++ [ch])) as (s & Hs & Hl). exists s. split; [done|]. cbn [snd] in Hl. rewrite length_app in Hl. lia.
Qed.

(** A character is shown when the lines it belongs to are short. *)
Lemma step_shown v0 y0 b text l ch a c : (y0 <= 24)%nat -> shows v0 y0 b l c ->
  short_lines (foldl add_char (add_char l (ch, a)) text) ->
  exists c', user_putchar ch a c = Ok (u8 ch, c') /\ shows v0 y0 b (add_char l (ch, a)) c'.
Proof.
  intros Hy0 Hs Hl. unfold add_char. unfold add_char at 2 in Hl. cbn [fst] in *. destruct (Z.eqb_spec ch 10) as [->|Hne].
  - apply (newline_shown v0 y0 b a l c Hy0 Hs).
  - apply char_shown; [done..|]. destruct (longer text (l.1, l.2 ++ [(ch, a)])) as (s & Hin & Hlen). unfold short_lines in Hl.
    rewrite Forall_forall in Hl. specialize (Hl s Hin). cbn [snd] in Hlen. rewrite length_app in Hlen. cbn [length] in Hlen. lia.
Qed.

Lemma text_shown v0 y0 b text : forall l c, (y0 <= 24)%nat -> shows v0 y0 b l c -> short_lines (foldl add_char l text) ->
  exists c', write text c = Ok (tt, c') /\ shows v0 y0 b (foldl add_char l text) c'.
Proof.
  induction text as [|[ch a] text IH]; intros l c Hy0 Hs Hl; cbn [write foldl] in *; [by exists c|].
  destruct (step_shown v0 y0 b text l ch a c Hy0 Hs Hl) as (c1 & E & Hs1). rewrite (bind_Ok_eq _ _ _ _ _ E). by apply IH.
Qed.

(** *** The system call *)

Definition splash_text (vers : list Z) (free : Z) : outcome (list Z) :=
  let? t1 := closure_vprintf (str splash_1) [AStr (Some vers)] in
  let? t2 := closure_vprintf (str splash_2) [] in
  let? t3 := closure_vprintf (str splash_3) [A32 free] in
  Ok (t1 ++ t2 ++ t3).

Lemma write_app a b c : write (a ++ b) c = (write a ;;! write b) c.
Proof.
  revert c. induction a as [|[ch w] a IH]; intros c; [done|]. cbn [app write]. rewrite bind_assoc.
  destruct (user_putchar ch w c) as [[r c1]|e] eqn:E; [|unfold bind; by rewrite E].
  rewrite !(bind_Ok_eq _ _ _ _ _ E). apply IH.
Qed.

Lemma splash_written vers free t c : splash_text vers free = Ok t ->
  splash_screen vers free c = write ((fun ch => (ch, 4)) <$> t) c.
Proof.
  unfold splash_text, splash_screen, splash_printf. intros Ht.
  destruct (closure_vprintf (str splash_1) _) as [t1|]; [|done]. destruct (closure_vprintf (str splash_2) _) as [t2|]; [|done].
  destruct (closure_vprintf (str splash_3) _) as [t3|]; [|done]. cbn [obind] in Ht. injection Ht as <-.
  rewrite !fmap_app, write_app. unfold bind, lift. destruct (write _ c) as [[[] c1]|]; [|done]. by rewrite write_app.
Qed.

(** Before anything is written the page is as it is. *)
Lemma start_shown c : length (pchVideo c) = 4096%nat -> bytes c -> x c = 0 -> 0 <= y c <= 24 ->
  shows (pchVideo c) (Z.to_nat (y c)) (first c) ([], []) c.
Proof.
  intros Hsz Hb Hx Hy. split; cbn [fst snd length]; try done; [lia|]. intros r k Hr Hk.
  replace (Z.to_nat (y c) + 0 - 24 + r)%nat with r by lia. destruct (lookup_lt_is_Some_2 (pchVideo c) (160 * r + k)) as [w Hw]; [lia|].
  unfold cell. rewrite (bool_decide_eq_true_2 (r < 25)%nat), Hw by done. cbn [default]. unfold line. cbn [fst snd app].
  assert (default [] ([[]] !! (r - Z.to_nat (y c))%nat) = [] :> list (Z * Z)) as -> by (by destruct (r - Z.to_nat (y c))%nat).
  unfold row_byte. rewrite lookup_nil. by case_bool_decide.
Qed.

Definition plain : list Z -> list (Z * Z) := fmap (fun ch => (ch, 7)).
Definition shown (b : bool) (splash text : list Z) : list (Z * Z) :=
  (if b then (fun ch => (ch, 4)) <$> splash else []) ++ plain text.

Lemma put_text_shown vers free v0 y0 text : forall l c, (y0 <= 24)%nat -> shows v0 y0 false l c ->
  short_lines (foldl add_char l (plain text)) ->
  exists c', put_text vers free text c = Ok (tt, c') /\ shows v0 y0 false (foldl add_char l (plain text)) c'.
Proof.
  induction text as [|ch text IH]; intros l c Hy0 Hs Hl; [by exists c|]. cbn [put_text plain fmap list_fmap foldl] in *.
  destruct (step_shown v0 y0 false (plain text) l ch 7 c Hy0 Hs Hl) as (c1 & E & Hs1).
  rewrite (bind_Ok_eq (syscall_putchar vers free ch) _ c 0 c1); [by apply IH|].
  unfold syscall_putchar. rewrite (bind_Ok_eq (gets first) _ c false c) by (unfold gets; by rewrite (sh_first _ _ _ _ _ Hs)).
  rewrite (bind_Ok_eq (when false _) _ c tt c) by reflexivity. by rewrite (bind_Ok_eq _ _ _ _ _ E).
Qed.

(** The splash screen, and the first character behind it. *)
Lemma first_putchar vers free v0 y0 splash ch text c : (y0 <= 24)%nat -> shows v0 y0 true ([], []) c ->
  splash_text vers free = Ok splash -> short_lines (lines_of (shown true splash (ch :: text))) ->
  exists c', syscall_putchar vers free ch c = Ok (0, c') /\ shows v0 y0 false (lines_of (shown true splash [ch])) c'.
Proof.
  intros Hy0 Hs Ht Hl. unfold lines_of, shown in *. cbn [plain fmap list_fmap] in *. rewrite foldl_app in Hl |- *. cbn [foldl] in *.
  set (sp := (fun ch => (ch, 4)) <$> splash) in *. set (l := foldl add_char ([], []) sp) in *.
  assert (short_lines l) as Hsp.
  { unfold short_lines. apply Forall_forall. intros s Hin. apply elem_of_app in Hin as [Hin|Hin%list_elem_of_singleton].
    - unfold short_lines in Hl. rewrite Forall_forall in Hl. apply Hl, elem_of_app. left. apply (line_kept ((ch, 7) :: plain text)). done.
    - subst s. destruct (longer ((ch, 7) :: plain text) l) as (s & Hin & Hle). unfold short_lines in Hl. rewrite Forall_forall in Hl.
      specialize (Hl s Hin). lia. }
  destruct (text_shown v0 y0 true sp ([], []) c Hy0 Hs Hsp) as (c1 & E1 & Hs1). fold l in Hs1.
  assert (shows v0 y0 false l (set_first false c1)) as Hs2 by (by destruct Hs1).
  destruct (step_shown v0 y0 false (plain text) l ch 7 _ Hy0 Hs2 Hl) as (c2 & E2 & Hs3).
  exists c2. split; [|done]. unfold syscall_putchar.
  rewrite (bind_Ok_eq (gets first) _ c true c) by (unfold gets; by rewrite (sh_first _ _ _ _ _ Hs)). cbn [when].
  rewrite bind_assoc. rewrite (bind_Ok_eq (splash_screen vers free) _ c tt c1) by (by rewrite (splash_written _ _ _ _ Ht)).
  rewrite (bind_Ok_eq (modify (set_first false)) _ c1 tt (set_first false c1)) by reflexivity. by rewrite (bind_Ok_eq _ _ _ _ _ E2).
Qed.


(** ** Bounds *)

Record page_wf (c : console) : Prop := {
  pw_size : length (pchVideo c) = 4096%nat;
  pw_bytes : bytes c;
  pw_y : 0 <= y c <= 24;
  pw_x : 0 <= x c /\ y c * 160 + x c * 2 <= 4096
}.

Lemma poke_wf i v c : page_wf c -> 0 <= i < 4096 -> exists c', vpoke i v c = Ok (tt, c') /\ page_wf c' /\ x c' = x c /\ y c' = y c.
Proof.
  intros [Hs Hb Hy Hx] Hi. rewrite poke_ok by lia. eexists. split; [reflexivity|]. split; [|done]. split; cbn [pchVideo set_video x y].
  - by rewrite length_insert.
  - unfold bytes. cbn [pchVideo set_video]. apply Forall_insert; [done|]. apply u8_range.
  - done.
  - done.
Qed.

(** Whatever a process writes, every access is inside the page. *)
Theorem user_putchar_safe ch a c : page_wf c -> exists r c', user_putchar ch a c = Ok (r, c') /\ page_wf c'.
Proof.
  intros Hc. pose proof Hc as [Hs Hb Hy Hx]. unfold user_putchar. destruct (ch =? 10).
  - unfold newline. rewrite (bind_assoc _ _ _ c). erewrite bind_Ok_eq by reflexivity. rewrite bind_assoc. erewrite bind_Ok_eq by reflexivity.
    set (c1 := set_xy 0 (y c + 1) c). zcase; cbn [when].
    2:{ eexists _, _. split; [reflexivity|]. split; cbn [c1 pchVideo set_xy x y]; done || lia. }
    destruct (movsb_ok (Z.to_nat (24 * 160)) 0 160 c1) as (v1 & E1 & L1 & B1 & _); [lia|cbn; lia|done|].
    destruct (stosb_ok (Z.to_nat 160) (24 * 160) (set_video v1 c1)) as (v2 & E2 & L2 & V2); [lia|cbn [pchVideo set_video]; rewrite L1; cbn; lia|].
    cbn [pchVideo set_video set_xy c1] in L1, L2, V2.
    eexists _, _. split; [rewrite bind_assoc, (bind_Ok_eq _ _ _ _ _ E1), bind_assoc, (bind_Ok_eq _ _ _ _ _ E2); reflexivity|].
    split; cbn [pchVideo set_video set_xy x y]; [lia| |lia|lia]. unfold bytes. cbn [pchVideo set_video set_xy]. apply Forall_lookup. intros i b Hi. rewrite V2 in Hi.
    destruct (bool_decide (24 * 160 <= Z.of_nat i < 24 * 160 + Z.of_nat (Z.to_nat 160))); [simplify_eq; lia|]. rewrite Forall_lookup in B1. by eapply B1.
  - do 2 (erewrite bind_Ok_eq by reflexivity). zcase; [by eexists _, _|]. cbv zeta.
    destruct (poke_wf (y c * 160 + x c * 2) ch c Hc) as (c1 & E1 & H1 & X1 & Y1); [lia|]. rewrite (bind_Ok_eq _ _ _ _ _ E1).
    destruct (poke_wf (y c * 160 + x c * 2 + 1) a c1 H1) as (c2 & E2 & H2 & X2 & Y2); [lia|]. rewrite (bind_Ok_eq _ _ _ _ _ E2).
    erewrite bind_Ok_eq by reflexivity.
    assert (page_wf (set_xy (x c + 1) (y c) c2)) as H3 by (destruct H2; split; cbn [pchVideo set_xy x y]; done || lia).
    zcase; [by eexists _, _|].
    destruct (poke_wf (y c * 160 + (x c + 1) * 2) 32 _ H3) as (c4 & E4 & H4 & X4 & Y4); [lia|]. rewrite (bind_Ok_eq _ _ _ _ _ E4).
    destruct (poke_wf (y c * 160 + (x c + 1) * 2 + 1) a _ H4) as (c5 & E5 & H5 & X5 & Y5); [lia|]. rewrite (bind_Ok_eq _ _ _ _ _ E5).
    destruct (cursor_ok 0x0E (Z.shiftr (y c * 80 + (x c + 1)) 8) 0x0F (Z.land (y c * 80 + (x c + 1)) 0xFF) (u8 ch) c5) as (c6 & E6 & V6 & X6 & Y6 & _).
    eexists _, c6. split; [exact E6|]. destruct H5 as [A1 A2 A3 A4]. split; unfold bytes; rewrite ?V6, ?X6, ?Y6; done.
Qed.

(** The output of the kernel has no such test: from the last row a long line leaves the page. *)
Lemma putchar_faults ch c : length (pchVideo c) = 4096%nat -> sy c = 24 -> sx c = 128 -> ch <> 10 -> _putchar ch c = Err PageFault.
Proof.
  intros Hl Hy Hx Hc. unfold _putchar. do 2 (erewrite bind_Ok_eq by reflexivity). rewrite (proj2 (Z.eqb_neq ch 10)) by done. rewrite Hy, Hx.
  unfold vpoke, bind, gets. rewrite Hl. reflexivity.
Qed.

(** *** From the cleared screen *)

(** After [clear_screen] every character shown is a space with attribute 7. *)
Lemma clear_loop c0 : forall fuel i c, length (pchVideo c0) = 4096%nat -> (i <= 2000)%nat -> (2000 - i < fuel)%nat -> length (pchVideo c) = 4096%nat ->
  exists c', mloop fuel blank_body (Z.of_nat i) c = Ok (tt, c') /\ length (pchVideo c') = 4096%nat /\
    (bytes c -> bytes c') /\ x c' = x c /\ y c' = y c /\ first c' = first c /\
    forall k, pchVideo c' !! k = if bool_decide (2 * i <= k < 4000)%nat then Some (if Nat.even k then 32 else 7) else pchVideo c !! k.
Proof.
  induction fuel as [|fuel IH]; intros i c H0 Hi Hf Hl; [lia|]. rewrite mloop_S. unfold blank_body at 1.
  destruct (Z.ltb_spec (Z.of_nat i) (80 * 25)) as [Hlt|Hge]; [|assert (i = Z.to_nat 2000) as -> by lia].
  2:{ exists c. split_and!; try done. intros k. by rewrite bool_decide_eq_false_2 by lia. }
  - set (v := <[(2 * i + 1)%nat := 7]> (<[(2 * i)%nat := 32]> (pchVideo c))).
    assert ((vpoke (Z.of_nat i * 2) 32 ;;! vpoke (Z.of_nat i * 2 + 1) 7 ;;! ret (Continue (Z.of_nat i + 1) : control Z unit)) c
            = Ok (Continue (Z.of_nat i + 1), set_video v c)) as E.
    { rewrite (bind_Ok_eq _ _ _ _ _ (poke_ok (Z.of_nat i * 2) 32 c ltac:(lia))).
      erewrite bind_Ok_eq by (apply poke_ok; cbn [pchVideo set_video]; rewrite length_insert; lia).
      unfold ret, v. cbn [pchVideo set_video].
      replace (Z.to_nat (Z.of_nat i * 2 + 1)) with (2 * i + 1)%nat by lia. replace (Z.to_nat (Z.of_nat i * 2)) with (2 * i)%nat by lia. reflexivity. }
    rewrite (bind_Ok_eq _ _ _ _ _ E). replace (Z.of_nat i + 1) with (Z.of_nat (S i)) by lia.
    destruct (IH (S i) (set_video v c)) as (c' & E' & Hl' & Hb & Hx & Hy & Hf' & Hv); [done|lia|lia|cbn [pchVideo set_video]; unfold v; by rewrite !length_insert|].
    exists c'. split_and!; [done|done| |done..|].
    + intros Hbc. apply Hb. unfold bytes. cbn [pchVideo set_video]. unfold v. by repeat (apply Forall_insert; [|lia]).
    + intros k. rewrite Hv. cbn [pchVideo set_video]. unfold v. destruct (decide (k = 2 * i)%nat) as [->|]; [|destruct (decide (k = 2 * i + 1)%nat) as [->|]].
      * rewrite bool_decide_eq_false_2, bool_decide_eq_true_2 by lia. rewrite list_lookup_insert_ne, list_lookup_insert_eq by lia. by rewrite Nat.even_mul.
      * rewrite bool_decide_eq_false_2, bool_decide_eq_true_2 by lia. rewrite list_lookup_insert_eq by (rewrite length_insert; lia).
        by rewrite Nat.even_add, Nat.even_mul.
      * rewrite !list_lookup_insert_ne by lia. by rewrite (bool_decide_ext (2 * S i <= k < 4000)%nat (2 * i <= k < 4000)%nat) by lia.
Qed.

Lemma clear_screen_ok c : length (pchVideo c) = 4096%nat -> bytes c ->
  exists c', clear_screen c = Ok (tt, c') /\ length (pchVideo c') = 4096%nat /\ bytes c' /\ x c' = x c /\ y c' = y c /\ first c' = first c /\
    forall k, (k < 4000)%nat -> pchVideo c' !! k = Some (if Nat.even k then 32 else 7).
Proof.
  intros Hl Hb. destruct (clear_loop c 2001 0 c Hl) as (c' & E & Hl' & Hb' & Hx & Hy & Hf & Hv); [lia|lia|done|].
  exists c'. split_and!; [exact E|auto..|]. intros k Hk. by rewrite Hv, bool_decide_eq_true_2 by lia.
Qed.

(** The page when the kernel starts: whatever is in the memory of the card. *)
Definition power_on : console := mkConsole (replicate 4096 0xFF) 0 0 0 0 true 0 0 0.
Definition kernel_ver : list Z := str "0.1a".

(** The screen is cleared and the kernel prints. *)
Definition state_after (m : M console unit) (c : console) : console := match m c with Ok (_, c) => c | Err _ => c end.
Definition booted : console := state_after (clear_screen ;;! _print [10; 10; 10; 79; 75; 33]) power_on.
Definition splash_here : list Z := match splash_text kernel_ver 0x3F00000 with Ok t => t | Err _ => [] end.


Lemma user_putchar_safe_witness : exists r c', user_putchar 88 7 power_on = Ok (r, c') /\ page_wf c'.
Proof.
  apply user_putchar_safe. split; cbn [power_on pchVideo x y].
  - by rewrite length_replicate.
  - by apply Forall_replicate.
  - lia.
  - lia.
Defined.
