(* ===== verification/Ipc.v ===== *)
(** * Messages between tasks: sched/ipc.c

    A task that waits for a message holds one unit in the semaphore [Msem] of its control
    block, and the message is left in its field [M].  A sender takes the unit, stores the
    message and switches to the destination at once by [_sw_ipc] (sched/task.S).  The
    loop of [semaphore_wait] is split into rounds as in [Semaphore]: a routine below is one
    round of it, with what follows when the unit was taken; when it was not, the task was
    queued and calls the scheduler.  The registers that [_sw_ipc] saves and loads are passed
    along.  The scheduler is the interface [Scheduler] with the task register. *)

From Stdlib Require Import ZArith Lia.
From S2P Require Import Prelude Div64 TaskQueue ReplQueue Vcpu VcpuSched SchedLemmas SchedThm SchedTheorems.
From S2P Require Import Waitqueue Sleep Semaphore Process ProcessThm.
From stdpp Require Import base gmap sets fin_sets numbers strings list relations.
Local Open Scope Z_scope.

(** ** Data *)

(** EDI points to a control block, which is given by its selector. *)
Record cpu_regs := mkCpuRegs { r_ebp : Z; r_esp : Z; r_eflags : Z; r_cr3 : Z; r_edi : Z }.

(** The first stores of [_sw_ipc]. *)
Definition save_regs (r : cpu_regs) (t : quest_tss) : quest_tss :=
  mkTss (r_esp r) (r_ebp r) (tss_initial_EIP t) (tss_CR3 t) (r_eflags r)
    (tss_Msem t) (tss_M t) (tss_next t) (tss_waitqueue t) (tss_busy t)
    (tss_priority t) (tss_time t) (tss_cpu t).

(** Its loads: the page directory stays for a kernel thread, whose CR3 is [pgd]; EDI keeps
    the control block of the task that is switched to. *)
Definition load_regs (pgd edi : Z) (t : quest_tss) (r : cpu_regs) : cpu_regs :=
  mkCpuRegs (tss_EBP t) (tss_ESP t) (tss_EFLAGS t) (if tss_CR3 t =? pgd then r_cr3 r else tss_CR3 t) edi.

(** [M[0] = arg1; M[1] = arg2] *)
Definition set_message (arg1 arg2 : Z) (t : quest_tss) : quest_tss :=
  set_M (<[1%nat := arg2]> (<[0%nat := arg1]> (tss_M t))) t.

(** ** Operations *)

Section ops.
Context {W : Type} `{Scheduler W} `{TaskRegister W}.
(** The page directory of the kernel. *)
Context (pgd : Z).

Definition upd_tss (x : Z) (f : quest_tss -> quest_tss) : M W unit :=
  let! t := get_tss x in put_tss x (f t).

(** [semaphore_signal (&lookup_TSS (x)->Msem, 1)] *)
Definition msem_signal (x : Z) : M W unit :=
  let! t := get_tss x in
  let! '(_, sem) := semaphore_signal (tss_Msem t) 1 in
  upd_tss x (set_Msem sem).

(** One round of [semaphore_wait (&lookup_TSS (x)->Msem, 1, -1)]. *)
Definition msem_round (x : Z) : M W bool :=
  let! t := get_tss x in
  let! '(took, sem) := wait_round (tss_Msem t) 1 in
  upd_tss x (set_Msem sem) ;;!
  ret took.

Definition _sw_ipc (src dst : Z) (r : cpu_regs) : M W cpu_regs :=
  upd_tss src (save_regs r) ;;!
  let! t := get_tss dst in
  ret (load_regs pgd dst t r).

(** [Some] registers of the destination, which runs now, or [None]: the task is queued. *)
Definition fast_send_m (dst_id arg1 arg2 : Z) (r : cpu_regs) : M W (option cpu_regs) :=
  let! src := w_str in
  get_tss src ;;!
  let! took := msem_round dst_id in
  if took : bool then
    let! me := w_str in
    wakeup me ;;!
    upd_tss dst_id (set_message arg1 arg2) ;;!
    w_ltr dst_id ;;!
    let! r := _sw_ipc src dst_id r in
    ret (Some r)
  else ret None.

(** [fast_sendrecv_m] has the same body. *)
Definition fast_call_m (dst_id arg1 arg2 : Z) (r : cpu_regs) : M W (option cpu_regs) :=
  let! src := w_str in
  get_tss src ;;!
  let! took := msem_round dst_id in
  if took : bool then
    upd_tss dst_id (set_message arg1 arg2) ;;!
    msem_signal src ;;!
    w_ltr dst_id ;;!
    let! r := _sw_ipc src dst_id r in
    ret (Some r)
  else ret None.

Definition fast_sendrecv_m (dst_id arg1 arg2 : Z) (r : cpu_regs) : M W (option cpu_regs) :=
  fast_call_m dst_id arg1 arg2 r.

(** [fast_recv_m] up to the call of the scheduler. *)
Definition fast_recv_m : M W unit :=
  let! me := w_str in msem_signal me.

(** What [fast_recv_m], [fast_call_m] and [fast_sendrecv_m] do when their task runs again:
    the message is read from the control block that EDI points to.  After [_sw_ipc] that is
    the task that was switched to.  [fast_recv_m] calls [schedule], a C function, which gives
    EDI back as it was before the call, whatever that is; nothing sets it to the control
    block of the task. *)
Definition read_message (edi : Z) : M W (Z * Z) :=
  let! t := get_tss edi in
  let! a := lift (of_option OutOfBounds (tss_M t !! 0%nat)) in
  let! b := lift (of_option OutOfBounds (tss_M t !! 1%nat)) in
  ret (a, b).
End ops.

(** ** What an operation does to the world *)

Section world.
Context {W : Type} `{TaskingLaws W}.

(** The control blocks without their links. *)
Definition blocks (w : W) : gmap Z quest_tss := set_next 0 <$> w_tasks w.

(** [w'] is [w] after the tasks [S] were woken and fields that are not the scheduler's
    were written. *)
Record woke (S : list Z) (w w' : W) : Prop := mkWoke {
  wk_inv : w_inv w';
  wk_ready : forall y, ready w' y <-> ready w y \/ y ∈ S;
  wk_wakeable : forall y, wakeable w y -> wakeable w' y;
  wk_next : forall y, y ∉ S -> ~ ready w y -> tss_next <$> w_tasks w' !! y = tss_next <$> w_tasks w !! y
}.

Lemma woke_refl w : w_inv w -> woke [] w w.
Proof. intros Hi. split; try done. set_solver. Qed.

Lemma woke_trans S1 S2 w w1 w2 : woke S1 w w1 -> woke S2 w1 w2 -> woke (S1 ++ S2) w w2.
Proof.
  intros [Hi1 Hr1 Hw1 Hn1] [Hi2 Hr2 Hw2 Hn2]. split; [done| |auto|].
  - intros y. rewrite Hr2, Hr1. set_solver.
  - intros y Hy Hr. rewrite Hn2, Hn1; [done|set_solver|done|set_solver|]. rewrite Hr1. set_solver.
Qed.

Lemma woke_quiet S w w1 w2 : woke S w w1 -> woke [] w1 w2 -> woke S w w2.
Proof. intros Ha Hb. pose proof (woke_trans _ _ _ _ _ Ha Hb) as Hc. by rewrite app_nil_r in Hc. Qed.

Lemma woke_sleeping S w w' l :
  woke S w w' -> sleeping w l -> (forall y, y ∈ l -> y ∉ S) -> sleeping w' l.
Proof.
  intros Hw Hs Hd y Hy. destruct (Hs y Hy). split; [by apply (wk_wakeable _ _ _ Hw)|].
  rewrite (wk_ready _ _ _ Hw). intros [?|?]; [done|]. by apply (Hd y).
Qed.

Lemma woke_chain S w w' q l :
  woke S w w' -> sleeping w l -> (forall y, y ∈ l -> y ∉ S) ->
  chain (w_tasks w) q l -> chain (w_tasks w') q l.
Proof.
  intros Hw Hs Hd. apply chain_next_eq. intros y Hy. apply (wk_next _ _ _ Hw); [by apply Hd|].
  by apply Hs.
Qed.

Lemma blocks_same w w' : same_but_next (w_tasks w) (w_tasks w') -> blocks w' = blocks w.
Proof. intros Hs. apply map_eq. intros y. unfold blocks. by rewrite !lookup_fmap. Qed.

Lemma blocks_lookup w y : blocks w !! y = set_next 0 <$> w_tasks w !! y.
Proof. apply lookup_fmap. Qed.

Lemma blocks_field {A} (g : quest_tss -> A) w y :
  (forall n t, g (set_next n t) = g t) -> g <$> blocks w !! y = g <$> w_tasks w !! y.
Proof. intros Hg. rewrite blocks_lookup. destruct (w_tasks w !! y); [|done]. cbn. by rewrite Hg. Qed.

(** A block that the running code finds. *)
Lemma wp_get_block (w : W) x t (Q : quest_tss -> W -> Prop) :
  blocks w !! x = Some t -> (forall n, Q (set_next n t) w) -> wp (get_tss x) Q w.
Proof.
  rewrite blocks_lookup. destruct (w_tasks w !! x) as [u|] eqn:Hu; [|done]. intros [= <-] HQ.
  eapply wp_get_tss; [exact Hu|]. assert (u = set_next (tss_next u) (set_next 0 u)) as -> by (by destruct u). apply HQ.
Qed.

(** [f] writes fields that are not the scheduler's. *)
Definition private (f : quest_tss -> quest_tss) : Prop :=
  forall t, tss_next (f t) = tss_next t /\ tss_cpu (f t) = tss_cpu t /\ set_next 0 (f t) = f (set_next 0 t).

Lemma upd_tss_wp w x f :
  w_inv w -> private f -> is_Some (blocks w !! x) ->
  wp (upd_tss x f) (fun _ w' => woke [] w w' /\ blocks w' = alter f x (blocks w) /\
    (forall c, w_str w = Ok (c, w) -> w_str w' = Ok (c, w'))) w.
Proof.
  intros Hi Hf [b Hb]. rewrite blocks_lookup in Hb. destruct (w_tasks w !! x) as [t|] eqn:Ht; [|done].
  destruct (Hf t) as (En & Ec & Es). destruct (put_field_ok w x t (f t) Hi Ht En Ec) as (Hi' & Hr & Hw).
  unfold upd_tss. apply wp_bind. eapply wp_get_tss; [exact Ht|]. apply wp_put_tss. split; [|split].
  - split; [done| |done|]; [intros y; rewrite Hr; set_solver|]. intros y _ _. rewrite tasks_set.
    destruct (decide (y = x)) as [->|]; [by rewrite lookup_insert_eq, Ht; cbn; rewrite En|by rewrite lookup_insert_ne].
  - apply map_eq. intros y. unfold blocks. rewrite tasks_set, lookup_fmap. destruct (decide (y = x)) as [->|].
    + rewrite lookup_insert_eq, lookup_alter_eq, lookup_fmap, Ht. cbn. by rewrite Es.
    + by rewrite lookup_insert_ne, lookup_alter_ne, lookup_fmap by done.
  - intros c. apply set_tasks_str.
Qed.

Lemma wakeup_woke w x :
  w_inv w -> wakeable w x ->
  wp (wakeup x) (fun _ w' => woke [x] w w' /\ blocks w' = blocks w /\
    (forall c, w_str w = Ok (c, w) -> w_str w' = Ok (c, w'))) w.
Proof.
  intros Hi Hx. pose proof (wakeup_ok w x Hi Hx) as Ha. pose proof (wakeup_idle w x Hi Hx) as Hb.
  unfold wp in *. destruct (wakeup x w) as [[[] w']|]; [|done]. destruct Ha as (Hi' & Hs & Hf & Hr & Hw).
  destruct Hb as [_ Hstr]. split; [|split; [by apply blocks_same|done]]. split; [done| |done|].
  - intros y. rewrite Hr. set_solver.
  - intros y Hy Hn. rewrite Hf; [done|set_solver|done].
Qed.

Lemma ltr_woke w x : w_inv w -> is_Some (blocks w !! x) ->
  wp (w_ltr x) (fun _ w' => woke [] w w' /\ blocks w' = blocks w /\ w_str w' = Ok (x, w')) w.
Proof.
  intros Hi [b Hb]. rewrite blocks_lookup in Hb. eapply wp_mono.
  { apply (ltr_ok w x Hi). intros _. by destruct (w_tasks w !! x). }
  intros _ w' (Hi' & Ht & Hstr & Hr & Hw & _). split; [|split; [unfold blocks; by rewrite Ht|done]].
  split; [done| |done|intros; by rewrite Ht]. intros y. rewrite Hr. set_solver.
Qed.
End world.

(** [fast_send_m], or [fast_call_m] and [fast_sendrecv_m], which expect an answer. *)
Inductive msg_kind := Send | Call.

(** *** The operations *)

Section operations.
Context {W : Type} `{TaskingLaws W}.
Context (pgd : Z).

Lemma set_Msem_private s : private (set_Msem s).
Proof. by intros t. Qed.
Lemma set_message_private a b : private (set_message a b).
Proof. by intros t. Qed.
Lemma save_regs_private r : private (save_regs r).
Proof. by intros t. Qed.

Lemma alter_some f x y (m : gmap Z quest_tss) : is_Some (m !! y) -> is_Some (alter f x m !! y).
Proof.
  intros [t Ht]. destruct (decide (y = x)) as [->|]; [rewrite lookup_alter_eq, Ht; by eexists|].
  rewrite lookup_alter_ne by done. by eexists.
Qed.

Lemma wp_str (w : W) c (Q : Z -> W -> Prop) : w_str w = Ok (c, w) -> Q c w -> wp w_str Q w.
Proof. unfold wp. by intros ->. Qed.

(** The unit of [x] is given back: everybody who waits to send to [x] is woken. *)
Lemma msem_signal_wp w x t l :
  w_inv w -> blocks w !! x = Some t -> sem_s (tss_Msem t) = 0 -> sem_max (tss_Msem t) = 1 ->
  chain (w_tasks w) (sem_waitqueue (tss_Msem t)) l -> sleeping w l ->
  wp (msem_signal x) (fun _ w' => woke l w w' /\
    blocks w' = alter (set_Msem (mkSem 1 1 (sem_lock (tss_Msem t)) 0)) x (blocks w)) w.
Proof.
  intros Hi Ht Es Em Hc Hs. unfold msem_signal. apply wp_bind. eapply wp_get_block; [exact Ht|].
  intros n. change (tss_Msem (set_next n t)) with (tss_Msem t). apply wp_bind. eapply wp_mono.
  { apply (semaphore_signal_wp (tss_Msem t) 1 w l Hi Hc Hs); lia. }
  rewrite Es, Em. intros p w1 [-> [Hi1 Hsame Hf Hr Hw]]. change (Z.min (0 + 1) 1) with 1. cbn iota.
  assert (woke l w w1) as Hwk by (split; try done; intros y Hy Hn; by rewrite Hf).
  pose proof (blocks_same w w1 Hsame) as Eb. eapply wp_mono.
  { apply upd_tss_wp; [done|apply set_Msem_private|]. rewrite Eb. by eexists. }
  intros _ w2 (Hwk2 & Eb2 & _). split; [by eapply woke_quiet|]. by rewrite Eb2, Eb.
Qed.

(** A round that takes the unit of [x]. *)
Lemma msem_take_wp w x t :
  w_inv w -> blocks w !! x = Some t -> sem_s (tss_Msem t) = 1 -> sem_max (tss_Msem t) = 1 ->
  wp (msem_round x) (fun took w' => took = true /\ woke [] w w' /\
    blocks w' = alter (set_Msem (mkSem 0 1 (sem_lock (tss_Msem t)) (sem_waitqueue (tss_Msem t)))) x (blocks w) /\
    (forall c, w_str w = Ok (c, w) -> w_str w' = Ok (c, w'))) w.
Proof.
  intros Hi Ht Es Em. unfold msem_round. apply wp_bind. eapply wp_get_block; [exact Ht|].
  intros n. change (tss_Msem (set_next n t)) with (tss_Msem t). unfold wait_round. rewrite Es, Em.
  apply wp_bind, wp_ret, wp_bind. change (s32 (1 - 1)) with 0. eapply wp_mono.
  { apply upd_tss_wp; [done|apply set_Msem_private|by eexists]. }
  intros _ w1 (Hwk & Eb & Hstr). by apply wp_ret.
Qed.

(** A round that queues the running task, which is on no queue. *)
Lemma msem_queue_wp w x t l c :
  w_inv w -> blocks w !! x = Some t -> sem_s (tss_Msem t) = 0 ->
  chain (w_tasks w) (sem_waitqueue (tss_Msem t)) l -> sleeping w l ->
  w_str w = Ok (c, w) -> wakeable w c -> ~ ready w c -> c ∉ l ->
  wp (msem_round x) (fun took w' => took = false /\ w_inv w' /\
    (forall y, ready w' y <-> ready w y) /\ (forall y, wakeable w y -> wakeable w' y) /\
    (forall y, y ∉ c :: l -> ~ ready w y -> tss_next <$> w_tasks w' !! y = tss_next <$> w_tasks w !! y) /\
    exists q', chain (w_tasks w') q' (l ++ [c]) /\
      blocks w' = alter (set_Msem (mkSem 0 (sem_max (tss_Msem t)) (sem_lock (tss_Msem t)) q')) x (blocks w)) w.
Proof.
  intros Hi Ht Es Hc Hs Hstr Hwc Hrc Hcl. destruct (wakeable_task w c Hwc) as [Hc0 [tc Htc]].
  destruct (queue_append_chain _ _ _ _ _ Hc Hc0 Htc) as (q' & tasks' & Eq & Hc' & Hsame & Hf & _).
  assert (append_spec l c = l ++ [c]) as Eapp by (unfold append_spec; by rewrite decide_False). rewrite Eapp in Hc'.
  destruct (set_tasks_ok w tasks' Hi) as (Hi' & Hr' & Hw').
  { intros y Hy. rewrite Hf; [done|]. intros [->|Hyl]%elem_of_cons; [done|]. by destruct (Hs y Hyl). }
  { intros y. apply set_next_field; [done|]. apply Hsame. }
  unfold msem_round. apply wp_bind. eapply wp_get_block; [exact Ht|].
  intros n. change (tss_Msem (set_next n t)) with (tss_Msem t). unfold wait_round. rewrite Es.
  apply wp_bind, wp_bind. eapply wp_str; [exact Hstr|]. apply wp_bind. unfold put_on. apply wp_bind, wp_gets, wp_bind.
  eapply wp_lift; [exact Eq|]. apply wp_bind, wp_modify, wp_ret, wp_ret, wp_bind.
  set (w1 := w_set_tasks tasks' w). assert (blocks w1 = blocks w) as Eb
    by (apply blocks_same; intros y; unfold w1; rewrite tasks_set; apply Hsame).
  eapply wp_mono; [apply (upd_tss_wp w1 x); [done|apply set_Msem_private|rewrite Eb; by eexists]|].
  intros _ w2 ([Hi2 Hr2 Hw2 Hn2] & Eb2 & _). apply wp_ret. split; [done|]. split; [done|].
  assert (forall y, ready w2 y <-> ready w y) as Hr by (intros y; rewrite Hr2, <- Hr'; set_solver).
  split; [done|]. split; [auto|]. assert (forall y, ~ ready w y -> tss_next <$> w_tasks w2 !! y = tss_next <$> tasks' !! y) as Hn.
  { intros y Hy. rewrite Hn2; [unfold w1; by rewrite tasks_set|set_solver|by rewrite <- Hr' in Hy]. }
  split.
  - intros y Hy Hny. rewrite Hn by done. by rewrite Hf.
  - exists q'. split; [|by rewrite Eb2, Eb]. eapply chain_next_eq; [|exact Hc'].
    intros y [Hy|Hy%list_elem_of_singleton]%elem_of_app; apply Hn; [by apply Hs|by subst y].
Qed.

Lemma sw_ipc_wp (w : W) src dst t r :
  w_inv w -> is_Some (blocks w !! src) -> blocks w !! dst = Some t -> src <> dst -> w_str w = Ok (dst, w) ->
  wp (_sw_ipc pgd src dst r) (fun r' w' => r' = load_regs pgd dst t r /\ woke [] w w' /\
    blocks w' = alter (save_regs r) src (blocks w) /\ w_str w' = Ok (dst, w')) w.
Proof.
  intros Hi Hsrc Ht Hne Hstr. unfold _sw_ipc. apply wp_bind. eapply wp_mono.
  { apply upd_tss_wp; [done|apply save_regs_private|done]. }
  intros _ w1 (Hwk & Eb & Hstr1). apply wp_bind. eapply wp_get_block; [by rewrite Eb, lookup_alter_ne|].
  intros n. apply wp_ret. split; [done|]. auto.
Qed.

(** The stores of a send or call that went through. *)
Definition sent_blocks (k : msg_kind) (src dst a b : Z) (r : cpu_regs) (td ts : quest_tss)
    (m : gmap Z quest_tss) : gmap Z quest_tss :=
  let m := alter (set_Msem (mkSem 0 1 (sem_lock (tss_Msem td)) (sem_waitqueue (tss_Msem td)))) dst m in
  let m := alter (set_message a b) dst m in
  let m := match k with Send => m | Call => alter (set_Msem (mkSem 1 1 (sem_lock (tss_Msem ts)) 0)) src m end in
  alter (save_regs r) src m.

Record sent (k : msg_kind) (src dst a b : Z) (r : cpu_regs) (td ts : quest_tss) (l : list Z)
    (w w' : W) : Prop := mkSent {
  se_woke : woke (match k with Send => [src] | Call => l end) w w';
  se_blocks : blocks w' = sent_blocks k src dst a b r td ts (blocks w);
  se_str : w_str w' = Ok (dst, w')
}.

Lemma send_wp (w : W) src dst a b r td ts l :
  w_inv w -> w_str w = Ok (src, w) -> wakeable w src -> src <> dst ->
  blocks w !! dst = Some td -> blocks w !! src = Some ts ->
  sem_s (tss_Msem td) = 1 -> sem_max (tss_Msem td) = 1 ->
  wp (fast_send_m pgd dst a b r) (fun o w' => o = Some (load_regs pgd dst td r) /\ sent Send src dst a b r td ts l w w') w.
Proof.
  intros Hi Hstr Hwa Hne Hd Hsr Es Em. unfold fast_send_m. apply wp_bind. eapply wp_str; [exact Hstr|].
  apply wp_bind. eapply wp_get_block; [exact Hsr|]. intros _. apply wp_bind.
  eapply wp_mono; [by apply msem_take_wp|]. intros took w1 (-> & Hk1 & Eb1 & Hs1). cbn iota.
  apply wp_bind. eapply wp_str; [by apply Hs1|]. apply wp_bind.
  eapply wp_mono; [apply wakeup_woke; [apply Hk1|by apply (wk_wakeable _ _ _ Hk1)]|].
  intros _ w2 (Hk2 & Eb2 & _). apply wp_bind. eapply wp_mono.
  { apply upd_tss_wp; [apply Hk2|apply (set_message_private a b)|]. rewrite Eb2, Eb1, lookup_alter_eq, Hd. by eexists. }
  intros _ w3 (Hk3 & Eb3 & _). apply wp_bind. eapply wp_mono.
  { apply (ltr_woke w3 dst); [apply Hk3|]. rewrite Eb3, Eb2, Eb1, !lookup_alter_eq, Hd. by eexists. }
  intros _ w4 (Hk4 & Eb4 & Hs4). apply wp_bind.
  assert (blocks w4 = alter (set_message a b) dst (alter (set_Msem (mkSem 0 1 (sem_lock (tss_Msem td))
    (sem_waitqueue (tss_Msem td)))) dst (blocks w))) as E4 by congruence.
  eapply wp_mono; [eapply (sw_ipc_wp w4 src dst); [apply Hk4| |by rewrite E4, !lookup_alter_eq, Hd|done|done]|].
  { rewrite E4, !lookup_alter_ne, Hsr by done. by eexists. }
  intros r' w5 (-> & Hk5 & Eb5 & Hs5). apply wp_ret. split; [done|]. split; [|by rewrite Eb5, E4|done].
  apply (woke_quiet _ _ w4); [|done]. apply (woke_quiet _ _ w3); [|done]. apply (woke_quiet _ _ w2); [|done].
  by apply (woke_trans [] [src] w w1 w2).
Qed.

Lemma call_wp (w : W) src dst a b r td ts l :
  w_inv w -> w_str w = Ok (src, w) -> src <> dst ->
  blocks w !! dst = Some td -> blocks w !! src = Some ts ->
  sem_s (tss_Msem td) = 1 -> sem_max (tss_Msem td) = 1 ->
  sem_s (tss_Msem ts) = 0 -> sem_max (tss_Msem ts) = 1 ->
  chain (w_tasks w) (sem_waitqueue (tss_Msem ts)) l -> sleeping w l ->
  wp (fast_call_m pgd dst a b r) (fun o w' => o = Some (load_regs pgd dst td r) /\ sent Call src dst a b r td ts l w w') w.
Proof.
  intros Hi Hstr Hne Hd Hsr Es Em Es' Em' Hc Hsl. unfold fast_call_m. apply wp_bind. eapply wp_str; [exact Hstr|].
  apply wp_bind. eapply wp_get_block; [exact Hsr|]. intros _. apply wp_bind.
  eapply wp_mono; [by apply msem_take_wp|]. intros took w1 (-> & Hk1 & Eb1 & Hs1). cbn iota.
  apply wp_bind. eapply wp_mono.
  { apply upd_tss_wp; [apply Hk1|apply (set_message_private a b)|]. rewrite Eb1, lookup_alter_eq, Hd. by eexists. }
  intros _ w2 (Hk2 & Eb2 & _). assert (woke [] w w2) as Hk02 by (by apply (woke_quiet _ _ w1)).
  apply wp_bind. eapply wp_mono.
  { apply (msem_signal_wp w2 src ts l); [apply Hk2| |done|done| |].
    - by rewrite Eb2, Eb1, !lookup_alter_ne.
    - apply (woke_chain [] w); [done|done|set_solver|done].
    - apply (woke_sleeping [] w); [done|done|set_solver]. }
  intros _ w3 (Hk3 & Eb3). apply wp_bind. rewrite Eb2, Eb1 in Eb3. eapply wp_mono.
  { apply (ltr_woke w3 dst); [apply Hk3|]. rewrite Eb3, lookup_alter_ne, !lookup_alter_eq, Hd by done. by eexists. }
  intros _ w4 (Hk4 & Eb4 & Hs4). apply wp_bind. rewrite Eb3 in Eb4.
  eapply wp_mono; [eapply (sw_ipc_wp w4 src dst);
    [apply Hk4| |by rewrite Eb4, lookup_alter_ne, !lookup_alter_eq, Hd by done|done|done]|].
  { rewrite Eb4, lookup_alter_eq, !lookup_alter_ne, Hsr by done. by eexists. }
  intros r' w5 (-> & Hk5 & Eb5 & Hs5). apply wp_ret. split; [done|]. split; [|by rewrite Eb5, Eb4|done].
  apply (woke_quiet _ _ w4); [|done]. apply (woke_quiet _ _ w3); [|done]. by apply (woke_trans [] l w w2 w3).
Qed.
End operations.

(** ** The interleaving *)

(** What a task is doing: it calls a routine to send a message, or waits for one. *)
Inductive phase := Sending (k : msg_kind) (dst a b : Z) | Receiving.

Record ipc_conf (W : Type) := mkIpc { ic_w : W; ic_phase : gmap Z phase }.
Arguments mkIpc {W}.
Arguments ic_w {W}.
Arguments ic_phase {W}.

Definition receiving (ph : gmap Z phase) (x : Z) : bool :=
  match ph !! x with Some Receiving => true | _ => false end.

Definition fast_m {W} `{Scheduler W} `{TaskRegister W} (pgd : Z) (k : msg_kind)
  : Z -> Z -> Z -> cpu_regs -> M W (option cpu_regs) :=
  match k with Send => fast_send_m pgd | Call => fast_call_m pgd end.

(** The phases after a message of [src] went through to [dst]. *)
Definition sent_phases (k : msg_kind) (src dst : Z) (ph : gmap Z phase) : gmap Z phase :=
  match k with
  | Send => delete src (delete dst ph)
  | Call => <[src := Receiving]> (delete dst ph)
  end.

Section steps.
Context {W : Type} `{TaskingLaws W}.
Context (pgd : Z).

(** The tasks queued to send to [x]. *)
Definition senders (w : W) (x : Z) (l : list Z) : Prop :=
  exists t, w_tasks w !! x = Some t /\ chain (w_tasks w) (sem_waitqueue (tss_Msem t)) l.

(** [x] runs, so it is neither on a run queue nor on a wait queue. *)
Definition runs (w : W) (x : Z) : Prop :=
  w_str w = Ok (x, w) /\ wakeable w x /\ ~ ready w x /\ forall y l, senders w y l -> x ∉ l.

(** Nobody ends [x] now: it communicates, or somebody sends to it. *)
Definition involved (ph : gmap Z phase) (x : Z) : Prop :=
  is_Some (ph !! x) \/ exists y k a b, ph !! y = Some (Sending k x a b).

(** [M] is an array of [NUM_M] words. *)
Definition arrays (w : W) : Prop := forall x t, w_tasks w !! x = Some t -> length (tss_M t) = 32%nat.

Inductive ipc_step : ipc_conf W -> ipc_conf W -> Prop :=
(** A task calls a routine to send. *)
| ipc_call c x k dst a b :
    ic_phase c !! x = None -> is_Some (w_tasks (ic_w c) !! dst) ->
    ipc_step c (mkIpc (ic_w c) (<[x := Sending k dst a b]> (ic_phase c)))
(** The running task makes a round of its call. *)
| ipc_round c x k dst a b r o w' :
    ic_phase c !! x = Some (Sending k dst a b) -> runs (ic_w c) x ->
    fast_m pgd k dst a b r (ic_w c) = Ok (o, w') ->
    ipc_step c (mkIpc w' (match o with Some _ => sent_phases k x dst (ic_phase c) | None => ic_phase c end))
(** The running task starts to wait for a message. *)
| ipc_recv c x w' :
    ic_phase c !! x = None -> runs (ic_w c) x -> fast_recv_m (ic_w c) = Ok (tt, w') ->
    ipc_step c (mkIpc w' (<[x := Receiving]> (ic_phase c)))
(** The rest of the system runs; control blocks may appear, as [duplicate_TSS] leaves them,
    and disappear. *)
| ipc_other c w' :
    w_inv w' ->
    (forall x l, senders (ic_w c) x l -> sleeping (ic_w c) l -> senders w' x l /\ sleeping w' l) ->
    (forall x, ic_phase c !! x = Some Receiving -> sleeping (ic_w c) [x] -> sleeping w' [x]) ->
    (forall x t, w_tasks w' !! x = Some t ->
      tss_Msem t = semaphore_init 1 0 /\ w_tasks (ic_w c) !! x = None \/
      exists u, w_tasks (ic_w c) !! x = Some u /\ tss_Msem t = tss_Msem u) ->
    (forall x, involved (ic_phase c) x -> is_Some (w_tasks (ic_w c) !! x) -> is_Some (w_tasks w' !! x)) ->
    arrays w' ->
    ipc_step c (mkIpc w' (ic_phase c)).

(** [Q x] are the tasks that are queued to send to [x]. *)
Record ipc_ok (w : W) (ph : gmap Z phase) (Q : Z -> list Z) : Prop := mkIpcOk {
  io_inv : w_inv w;
  io_sem : forall x t, blocks w !! x = Some t -> sem_max (tss_Msem t) = 1 /\
    sem_s (tss_Msem t) = (if receiving ph x then 1 else 0) /\ chain (w_tasks w) (sem_waitqueue (tss_Msem t)) (Q x);
  io_empty : forall x, receiving ph x = true -> Q x = [];
  io_sleep : forall x, sleeping w (Q x);
  io_wait : forall x y, y ∈ Q x -> exists k a b, ph !! y = Some (Sending k x a b);
  io_recv : forall x, receiving ph x = true -> sleeping w [x];
  io_dst : forall y k x a b, ph !! y = Some (Sending k x a b) -> is_Some (blocks w !! x);
  io_array : arrays w
}.

(** *** The invariant *)

Lemma receiving_spec ph x : receiving ph x = true <-> ph !! x = Some Receiving.
Proof. unfold receiving. destruct (ph !! x) as [[|]|]; split; congruence. Qed.

Lemma blocks_some (w : W) x : is_Some (blocks w !! x) <-> is_Some (w_tasks w !! x).
Proof. rewrite blocks_lookup. apply fmap_is_Some. Qed.

Lemma sleeping_block (w : W) l x : sleeping w l -> x ∈ l -> is_Some (blocks w !! x).
Proof. intros Hs Hx. apply blocks_some. destruct (Hs x Hx) as [Hw _]. by apply wakeable_task. Qed.

(** The queues of the semaphores are the ones of the invariant. *)
Lemma senders_Q w ph Q x l : ipc_ok w ph Q -> senders w x l -> l = Q x.
Proof.
  intros Hok (t & Ht & Hc). destruct (io_sem _ _ _ Hok x (set_next 0 t)) as (_ & _ & Hc'); [by rewrite blocks_lookup, Ht|].
  by eapply chain_det.
Qed.

Lemma Q_senders w ph Q x : ipc_ok w ph Q -> is_Some (blocks w !! x) -> senders w x (Q x).
Proof.
  intros Hok [b Hb]. pose proof Hb as Hb'. rewrite blocks_lookup in Hb'.
  destruct (w_tasks w !! x) as [t|] eqn:Ht; [|done]. injection Hb' as <-.
  destruct (io_sem _ _ _ Hok x _ Hb) as (_ & _ & Hc). by exists t.
Qed.

Lemma queued_block w ph Q x y : ipc_ok w ph Q -> y ∈ Q x -> is_Some (blocks w !! x).
Proof. intros Hok Hy. destruct (io_wait _ _ _ Hok x y Hy) as (k & a & b & Hp). by eapply (io_dst _ _ _ Hok). Qed.

(** A running task is not queued. *)
Lemma runs_free w ph Q x y : ipc_ok w ph Q -> runs w x -> x ∉ Q y.
Proof.
  intros Hok (_ & _ & _ & Hf) Hx. apply (Hf y (Q y)); [|done]. eapply Q_senders; [exact Hok|]. by eapply queued_block.
Qed.

(** Wake-ups that leave the queues alone, or empty them. *)
Lemma ipc_ok_woke w w' ph ph' Q Q' S :
  ipc_ok w ph Q -> woke S w w' ->
  (forall x t', blocks w' !! x = Some t' -> sem_max (tss_Msem t') = 1 /\
    sem_s (tss_Msem t') = (if receiving ph' x then 1 else 0) /\
    (Q' x = [] /\ sem_waitqueue (tss_Msem t') = 0 \/
     Q' x = Q x /\ exists t, blocks w !! x = Some t /\ sem_waitqueue (tss_Msem t') = sem_waitqueue (tss_Msem t))) ->
  (forall x, receiving ph' x = true -> Q' x = [] /\ x ∉ S /\ sleeping w [x]) ->
  (forall x y, y ∈ Q' x -> y ∈ Q x /\ y ∉ S /\ exists k a b, ph' !! y = Some (Sending k x a b)) ->
  (forall y k x a b, ph' !! y = Some (Sending k x a b) -> is_Some (blocks w' !! x)) ->
  arrays w' -> ipc_ok w' ph' Q'.
Proof.
  intros Hok Hk Hsem Hrecv Hq Hdst Har. split.
  - apply Hk.
  - intros x t' Ht'. destruct (Hsem x t' Ht') as (Em & Es & Hc). split; [done|]. split; [done|].
    destruct Hc as [[-> ->]|[E (t & Ht & ->)]]; [done|]. rewrite E.
    apply (woke_chain S w); [done|by apply (io_sleep _ _ _ Hok)| |by apply (io_sem _ _ _ Hok)].
    intros y Hy. rewrite <- E in Hy. by apply (Hq x).
  - intros x Hx. by apply Hrecv.
  - intros x. apply (woke_sleeping S w); [done| |intros y Hy; by apply (Hq x)].
    intros y Hy. apply (io_sleep _ _ _ Hok x). by apply Hq.
  - intros x y Hy. by apply Hq.
  - intros x Hx. destruct (Hrecv x Hx) as (_ & HS & Hs). apply (woke_sleeping S w); [done|done|].
    by intros y ->%list_elem_of_singleton.
  - done.
  - done.
Qed.

Lemma arrays_blocks (w : W) : arrays w <-> forall x t, blocks w !! x = Some t -> length (tss_M t) = 32%nat.
Proof.
  unfold arrays. setoid_rewrite blocks_lookup. split; intros Ha x t Ht.
  - destruct (w_tasks w !! x) as [u|] eqn:Hu; [|done]. injection Ht as <-. by apply (Ha x u).
  - by apply (Ha x (set_next 0 t)); rewrite Ht.
Qed.

Lemma arrays_alter (f : quest_tss -> quest_tss) x (m : gmap Z quest_tss) :
  (forall t, length (tss_M (f t)) = length (tss_M t)) -> (forall y t, m !! y = Some t -> length (tss_M t) = 32%nat) ->
  forall y t, alter f x m !! y = Some t -> length (tss_M t) = 32%nat.
Proof.
  intros Hf Hm y t Ht. apply lookup_alter_Some in Ht as [(_ & u & Hu & ->)|[_ Ht]]; [rewrite Hf|]; by eapply Hm.
Qed.

Lemma arrays_set_Msem (w w' : W) x s : arrays w -> blocks w' = alter (set_Msem s) x (blocks w) -> arrays w'.
Proof. rewrite !arrays_blocks. intros Ha ->. by apply arrays_alter. Qed.

(** A field of the semaphore after [alter]. *)
Lemma alter_inv (f : quest_tss -> quest_tss) x y (m : gmap Z quest_tss) t' :
  alter f x m !! y = Some t' -> exists t, m !! y = Some t /\ t' = if y =? x then f t else t.
Proof.
  intros Hm. destruct (Z.eqb_spec y x) as [->|Hne].
  - rewrite lookup_alter_eq in Hm. destruct (m !! x) as [t|]; [|done]. injection Hm as <-. by exists t.
  - rewrite lookup_alter_ne in Hm by done. by exists t'.
Qed.

Lemma receiving_insert ph x p y :
  receiving (<[x := p]> ph) y = if y =? x then match p with Receiving => true | _ => false end else receiving ph y.
Proof.
  unfold receiving. destruct (Z.eqb_spec y x) as [->|]; [by rewrite lookup_insert_eq; destruct p|by rewrite lookup_insert_ne].
Qed.

Lemma receiving_delete ph x y : receiving (delete x ph) y = if y =? x then false else receiving ph y.
Proof.
  unfold receiving. destruct (Z.eqb_spec y x) as [->|]; [by rewrite lookup_delete_eq|by rewrite lookup_delete_ne].
Qed.

(** *** The steps keep the invariant *)

Lemma recv_step w ph Q x :
  ipc_ok w ph Q -> ph !! x = None -> runs w x ->
  wp fast_recv_m (fun _ w' => woke (Q x) w w' /\ ipc_ok w' (<[x := Receiving]> ph) (upd_list Q x [])) w.
Proof.
  intros Hok Hx Hrun. pose proof Hrun as (Hstr & Hwx & Hrx & _).
  destruct (sleeping_block w [x] x) as [t Ht]; [by intros y ->%list_elem_of_singleton|by apply list_elem_of_singleton|].
  assert (receiving ph x = false) as Erx by (unfold receiving; by rewrite Hx).
  destruct (io_sem _ _ _ Hok x t Ht) as (Em & Es & Hc). rewrite Erx in Es.
  unfold fast_recv_m. apply wp_bind. eapply wp_str; [exact Hstr|].
  eapply wp_mono; [exact (msem_signal_wp w x t (Q x) (io_inv _ _ _ Hok) Ht Es Em Hc (io_sleep _ _ _ Hok x))|].
  intros _ w' [Hk Eb]. split; [done|]. eapply ipc_ok_woke; [exact Hok|exact Hk| | | | |eapply arrays_set_Msem; [apply Hok|exact Eb]].
  - intros y t' Ht'. rewrite Eb in Ht'. apply alter_inv in Ht' as (u & Hu & ->). rewrite receiving_insert.
    unfold upd_list. destruct (Z.eqb_spec y x) as [->|]; [by split_and!; try done; left|].
    destruct (io_sem _ _ _ Hok y u Hu) as (? & ? & _). split_and!; [done|done|]. right. split; [done|]. by exists u.
  - intros y. rewrite receiving_insert. unfold upd_list. destruct (Z.eqb_spec y x) as [->|Hne].
    + intros _. split; [done|]. split; [by eapply runs_free|]. by intros z ->%list_elem_of_singleton.
    + intros Hy. split; [by apply (io_empty _ _ _ Hok)|]. split; [|by apply (io_recv _ _ _ Hok)].
      intros Hq. destruct (io_wait _ _ _ Hok x y Hq) as (k & a & b & Hp). unfold receiving in Hy. by rewrite Hp in Hy.
  - intros y z. unfold upd_list. destruct (Z.eqb_spec y x) as [->|Hne]; [set_solver|]. intros Hz. split; [done|].
    destruct (io_wait _ _ _ Hok y z Hz) as (k & a & b & Hp). split.
    + intros Hq. destruct (io_wait _ _ _ Hok x z Hq) as (k' & a' & b' & Hp'). congruence.
    + exists k, a, b. rewrite lookup_insert_ne; [done|]. intros <-. congruence.
  - intros y k z a b Hp. rewrite Eb. apply alter_some. destruct (decide (y = x)) as [->|Hne].
    + by rewrite lookup_insert_eq in Hp.
    + rewrite lookup_insert_ne in Hp by done. by eapply (io_dst _ _ _ Hok).
Qed.

(** The semaphores after a message went through. *)
Lemma sent_msem k src dst a b r td ts m y t' :
  src <> dst -> sent_blocks k src dst a b r td ts m !! y = Some t' ->
  exists u, m !! y = Some u /\ tss_Msem t' =
    (if y =? dst then mkSem 0 1 (sem_lock (tss_Msem td)) (sem_waitqueue (tss_Msem td))
     else if y =? src then match k with Send => tss_Msem u | Call => mkSem 1 1 (sem_lock (tss_Msem ts)) 0 end
     else tss_Msem u).
Proof.
  intros Hne Ht. unfold sent_blocks in Ht. apply alter_inv in Ht as (t1 & Ht & ->).
  assert (tss_Msem (if y =? src then save_regs r t1 else t1) = tss_Msem t1) as -> by (by destruct (y =? src)).
  destruct k.
  - apply alter_inv in Ht as (t2 & Ht & ->). apply alter_inv in Ht as (t3 & Ht & ->). exists t3. split; [done|].
    destruct (Z.eqb_spec y dst); [done|]. by destruct (y =? src).
  - apply alter_inv in Ht as (t2 & Ht & ->). apply alter_inv in Ht as (t3 & Ht & ->).
    apply alter_inv in Ht as (t4 & Ht & ->). exists t4. split; [done|].
    destruct (Z.eqb_spec y dst) as [->|]; [|by destruct (y =? src)]. by rewrite (proj2 (Z.eqb_neq dst src)).
Qed.

Lemma sent_some k src dst a b r td ts m y : is_Some (m !! y) -> is_Some (sent_blocks k src dst a b r td ts m !! y).
Proof. intros Hy. unfold sent_blocks. destruct k; by repeat apply alter_some. Qed.

Lemma sent_arrays k src dst a b r td ts m :
  (forall y t, m !! y = Some t -> length (tss_M t) = 32%nat) ->
  forall y t, sent_blocks k src dst a b r td ts m !! y = Some t -> length (tss_M t) = 32%nat.
Proof.
  intros Hm. unfold sent_blocks. assert (forall t, length (tss_M (set_message a b t)) = length (tss_M t)) as Hs
    by (intros t; cbn; by rewrite !length_insert).
  destruct k; repeat (apply arrays_alter; [done|]); done.
Qed.

Lemma receiving_sent k src dst ph y : src <> dst ->
  receiving (sent_phases k src dst ph) y =
    if y =? dst then false else if y =? src then match k with Send => false | Call => true end else receiving ph y.
Proof.
  intros Hne. destruct k; cbn; rewrite ?receiving_insert, !receiving_delete.
  - destruct (y =? src), (y =? dst); done.
  - destruct (Z.eqb_spec y src) as [->|]; [|done]. by rewrite (proj2 (Z.eqb_neq src dst)).
Qed.

Lemma sent_phases_sending k src dst ph y k' x a b : sent_phases k src dst ph !! y = Some (Sending k' x a b) ->
  ph !! y = Some (Sending k' x a b).
Proof.
  destruct k; cbn.
  - intros [_ Hp]%lookup_delete_Some. by apply lookup_delete_Some in Hp as [_ Hp].
  - intros [[_ ?]|[_ Hp]]%lookup_insert_Some; [done|]. by apply lookup_delete_Some in Hp as [_ Hp].
Qed.

Lemma sent_phases_other k src dst ph y : y <> src -> y <> dst -> sent_phases k src dst ph !! y = ph !! y.
Proof. intros Hs Hd. destruct k; cbn; [by rewrite !lookup_delete_ne|by rewrite lookup_insert_ne, lookup_delete_ne]. Qed.

(** The queues after it: a caller waits for its answer, so nobody is queued on it. *)
Definition sent_queues (k : msg_kind) (src : Z) (Q : Z -> list Z) : Z -> list Z :=
  match k with Send => Q | Call => upd_list Q src [] end.

Lemma sent_queues_sub k src Q x y : y ∈ sent_queues k src Q x -> y ∈ Q x /\ (k = Call -> x <> src).
Proof.
  destruct k; cbn; [done|]. unfold upd_list. destruct (Z.eqb_spec x src); [set_solver|done].
Qed.

Lemma sent_ok w w' ph Q k src dst a b r td ts :
  ipc_ok w ph Q -> ph !! src = Some (Sending k dst a b) -> runs w src -> receiving ph dst = true ->
  blocks w !! dst = Some td -> sent k src dst a b r td ts (Q src) w w' ->
  ipc_ok w' (sent_phases k src dst ph) (sent_queues k src Q).
Proof.
  intros Hok Hp Hrun Hd Htd [Hk Eb _].
  assert (src <> dst) as Hne by (intros ->; unfold receiving in Hd; by rewrite Hp in Hd).
  assert (forall x, src ∉ Q x) as Hfree by (intros x; by eapply runs_free).
  eapply ipc_ok_woke; [exact Hok|exact Hk| | | | |].
  - intros y t' Ht'. rewrite Eb in Ht'. destruct (sent_msem _ _ _ _ _ _ _ _ _ _ _ Hne Ht') as (u & Hu & ->).
    rewrite receiving_sent by done. destruct (io_sem _ _ _ Hok y u Hu) as (Em & Es & _).
    destruct (Z.eqb_spec y dst) as [->|Hyd].
    { split_and!; [done|done|]. right. split; [|by exists td]. destruct k; cbn; [done|]. unfold upd_list.
      by rewrite (proj2 (Z.eqb_neq dst src)). }
    destruct (Z.eqb_spec y src) as [->|Hys].
    + destruct k; cbn.
      * split_and!; [done| |right; eauto]. rewrite Es. unfold receiving. by rewrite Hp.
      * split_and!; [done|done|left]. by rewrite upd_list_same.
    + split_and!; [done|done|right]. split; [|by exists u]. destruct k; cbn; [done|]. unfold upd_list.
      by rewrite (proj2 (Z.eqb_neq y src)).
  - intros y. rewrite receiving_sent by done. destruct (Z.eqb_spec y dst) as [->|Hyd]; [done|].
    destruct (Z.eqb_spec y src) as [->|Hys].
    + destruct k; [done|]. intros _. cbn. rewrite upd_list_same. split; [done|]. split; [by apply Hfree|].
      intros z ->%list_elem_of_singleton. destruct Hrun as (_ & ? & ? & _). done.
    + intros Hy. split; [|split; [|by apply (io_recv _ _ _ Hok)]].
      * pose proof (io_empty _ _ _ Hok y Hy) as E. destruct k; cbn; [done|]. unfold upd_list. by destruct (y =? src).
      * destruct k; [by intros ->%list_elem_of_singleton|]. intros Hq.
        destruct (io_wait _ _ _ Hok src y Hq) as (k' & a' & b' & Hp'). unfold receiving in Hy. by rewrite Hp' in Hy.
  - intros y z [Hz Hzy]%sent_queues_sub. destruct (io_wait _ _ _ Hok y z Hz) as (k' & a' & b' & Hp').
    split; [done|]. split.
    + destruct k; [intros ->%list_elem_of_singleton; by apply (Hfree y)|]. intros Hq.
      destruct (io_wait _ _ _ Hok src z Hq) as (k2 & a2 & b2 & Hp2). apply (Hzy eq_refl). congruence.
    + exists k', a', b'. rewrite sent_phases_other; [done| |].
      * intros ->. by apply (Hfree y).
      * intros ->. unfold receiving in Hd. by rewrite Hp' in Hd.
  - intros y k' z a' b' Hp'%sent_phases_sending. rewrite Eb. apply sent_some. by eapply (io_dst _ _ _ Hok).
  - apply arrays_blocks. rewrite Eb. apply sent_arrays, arrays_blocks, Hok.
Qed.

(** A round whose destination waits for a message. *)
Lemma round_takes w ph Q k src dst a b r :
  ipc_ok w ph Q -> ph !! src = Some (Sending k dst a b) -> runs w src -> receiving ph dst = true ->
  wp (fast_m pgd k dst a b r) (fun o w' => exists td ts, blocks w !! dst = Some td /\ blocks w !! src = Some ts /\
    o = Some (load_regs pgd dst td r) /\ sent k src dst a b r td ts (Q src) w w') w.
Proof.
  intros Hok Hp Hrun Hd. pose proof Hrun as (Hstr & Hws & Hrs & _).
  assert (src <> dst) as Hne by (intros ->; unfold receiving in Hd; by rewrite Hp in Hd).
  destruct (sleeping_block w [src] src) as [ts Hts]; [by intros y ->%list_elem_of_singleton|by apply list_elem_of_singleton|].
  destruct (io_dst _ _ _ Hok _ _ _ _ _ Hp) as [td Htd].
  destruct (io_sem _ _ _ Hok dst td Htd) as (Emd & Esd & _). rewrite Hd in Esd.
  destruct (io_sem _ _ _ Hok src ts Hts) as (Ems & Ess & Hcs).
  assert (receiving ph src = false) as Er by (unfold receiving; by rewrite Hp). rewrite Er in Ess.
  pose proof (io_inv _ _ _ Hok) as Hi. pose proof (io_sleep _ _ _ Hok src) as Hsl.
  destruct k; (eapply wp_mono; [first [by apply (send_wp pgd w src dst a b r td ts (Q src))|by apply (call_wp pgd w src dst a b r td ts (Q src))]|]);
    intros o w' [-> Hsent]; by exists td, ts.
Qed.

(** The running task is queued on [dst]. *)
Lemma queue_ok w w' ph Q k src dst a b td q' :
  ipc_ok w ph Q -> ph !! src = Some (Sending k dst a b) -> runs w src -> receiving ph dst = false ->
  blocks w !! dst = Some td -> w_inv w' ->
  (forall y, ready w' y <-> ready w y) -> (forall y, wakeable w y -> wakeable w' y) ->
  (forall y, y ∉ src :: Q dst -> ~ ready w y -> tss_next <$> w_tasks w' !! y = tss_next <$> w_tasks w !! y) ->
  chain (w_tasks w') q' (Q dst ++ [src]) ->
  blocks w' = alter (set_Msem (mkSem 0 (sem_max (tss_Msem td)) (sem_lock (tss_Msem td)) q')) dst (blocks w) ->
  ipc_ok w' ph (upd_list Q dst (Q dst ++ [src])).
Proof.
  intros Hok Hp Hrun Hd Htd Hi' Hr Hw Hn Hc Eb.
  assert (forall l, sleeping w l -> sleeping w' l) as Hsl by (intros l Hl y Hy; destruct (Hl y Hy); split; [auto|by rewrite Hr]).
  assert (sleeping w [src]) as Hsrc by (intros y ->%list_elem_of_singleton; by destruct Hrun as (_ & ? & ? & _)).
  split.
  - done.
  - intros y t' Ht'. rewrite Eb in Ht'. apply alter_inv in Ht' as (u & Hu & ->).
    destruct (io_sem _ _ _ Hok y u Hu) as (Em & Es & Hcy). unfold upd_list. destruct (Z.eqb_spec y dst) as [->|Hne].
    + rewrite Hu in Htd. injection Htd as <-. rewrite Hd. by split_and!.
    + split_and!; [done|done|]. eapply chain_next_eq; [|exact Hcy]. intros z Hz. apply Hn.
      * intros [->|Hz']%elem_of_cons; [by eapply (runs_free w ph Q src y)|]. destruct (io_wait _ _ _ Hok y z Hz) as (k1 & a1 & b1 & H5).
        destruct (io_wait _ _ _ Hok dst z Hz') as (k2 & a2 & b2 & H6). congruence.
      * by apply (io_sleep _ _ _ Hok y).
  - intros y Hy. unfold upd_list. destruct (Z.eqb_spec y dst) as [->|]; [congruence|by apply (io_empty _ _ _ Hok)].
  - intros y. apply Hsl. unfold upd_list. destruct (y =? dst); [|apply (io_sleep _ _ _ Hok)].
    intros z [Hz|Hz]%elem_of_app; [by apply (io_sleep _ _ _ Hok dst)|by apply Hsrc].
  - intros y z. unfold upd_list. destruct (Z.eqb_spec y dst) as [->|]; [|apply (io_wait _ _ _ Hok)].
    intros [Hz|Hz%list_elem_of_singleton]%elem_of_app; [by apply (io_wait _ _ _ Hok)|]. subst z. by exists k, a, b.
  - intros y Hy. by apply Hsl, (io_recv _ _ _ Hok).
  - intros y k' z a' b' Hp'. rewrite Eb. apply alter_some. by eapply (io_dst _ _ _ Hok).
  - eapply arrays_set_Msem; [apply Hok|exact Eb].
Qed.

(** A round whose destination does not wait. *)
Lemma round_waits w ph Q k src dst a b r :
  ipc_ok w ph Q -> ph !! src = Some (Sending k dst a b) -> runs w src -> receiving ph dst = false ->
  wp (fast_m pgd k dst a b r) (fun o w' => o = None /\ ipc_ok w' ph (upd_list Q dst (Q dst ++ [src])) /\
    (forall y, ready w' y <-> ready w y)) w.
Proof.
  intros Hok Hp Hrun Hd. pose proof Hrun as (Hstr & Hws & Hrs & _).
  destruct (sleeping_block w [src] src) as [ts Hts]; [by intros y ->%list_elem_of_singleton|by apply list_elem_of_singleton|].
  destruct (io_dst _ _ _ Hok _ _ _ _ _ Hp) as [td Htd].
  destruct (io_sem _ _ _ Hok dst td Htd) as (Em & Es & Hc). rewrite Hd in Es.
  assert (wp (msem_round dst) (fun took w' => took = false /\ ipc_ok w' ph (upd_list Q dst (Q dst ++ [src])) /\
    (forall y, ready w' y <-> ready w y)) w) as Hround.
  { eapply wp_mono; [apply (msem_queue_wp w dst td (Q dst) src); try done|].
    - apply Hok.
    - apply (io_sleep _ _ _ Hok).
    - by eapply runs_free.
    - intros took w' (-> & Hi' & Hr & Hw & Hn & q' & Hc' & Eb). split; [done|]. split; [|done].
      by eapply (queue_ok w w' ph Q k src dst a b td q'). }
  destruct k; unfold fast_m, fast_send_m, fast_call_m; apply wp_bind; (eapply wp_str; [exact Hstr|]);
    apply wp_bind; (eapply wp_get_block; [exact Hts|]); intros _; apply wp_bind; (eapply wp_mono; [exact Hround|]);
    intros took w' (-> & Hok' & Hr); by apply wp_ret.
Qed.

(** The rest of the system. *)
Lemma other_ok w w' ph Q :
  ipc_ok w ph Q -> w_inv w' ->
  (forall x l, senders w x l -> sleeping w l -> senders w' x l /\ sleeping w' l) ->
  (forall x, ph !! x = Some Receiving -> sleeping w [x] -> sleeping w' [x]) ->
  (forall x t, w_tasks w' !! x = Some t ->
    tss_Msem t = semaphore_init 1 0 /\ w_tasks w !! x = None \/
    exists u, w_tasks w !! x = Some u /\ tss_Msem t = tss_Msem u) ->
  (forall x, involved ph x -> is_Some (w_tasks w !! x) -> is_Some (w_tasks w' !! x)) ->
  arrays w' -> ipc_ok w' ph Q.
Proof.
  intros Hok Hi Hq Hrc Ht Hal Har.
  assert (forall x y, y ∈ Q x -> senders w x (Q x)) as Hsn
    by (intros x y Hy; eapply Q_senders; [exact Hok|by eapply queued_block]).
  split.
  - done.
  - intros x b Hb. rewrite blocks_lookup in Hb. destruct (w_tasks w' !! x) as [t|] eqn:Etx; [|done].
    injection Hb as <-. cbn [set_next tss_Msem]. destruct (Ht x t Etx) as [[-> Hnone]|(u & Hu & E)].
    + assert (blocks w !! x = None) as Hb by (by rewrite blocks_lookup, Hnone).
      split; [done|]. split.
      * destruct (receiving ph x) eqn:Er; [|done]. exfalso.
        destruct (sleeping_block w [x] x) as [? ?]; [by apply (io_recv _ _ _ Hok)|by apply list_elem_of_singleton|congruence].
      * destruct (Q x) as [|y l] eqn:EQ; [done|]. exfalso.
        destruct (queued_block w ph Q x y Hok) as [? ?]; [rewrite EQ; set_solver|congruence].
    + destruct (io_sem _ _ _ Hok x (set_next 0 u)) as (Em & Es & Hc); [by rewrite blocks_lookup, Hu|].
      rewrite E. split; [done|]. split; [done|].
      destruct (Hq x (Q x)) as [(t' & Ht' & Hc') _]; [by exists u|apply (io_sleep _ _ _ Hok)|]. rewrite Etx in Ht'.
      injection Ht' as <-. by rewrite <- E.
  - apply (io_empty _ _ _ Hok).
  - intros x y Hy. destruct (Hq x (Q x)) as [_ Hs]; [by eapply Hsn|apply (io_sleep _ _ _ Hok)|]. by apply Hs.
  - apply (io_wait _ _ _ Hok).
  - intros x Hx. apply Hrc; [by apply receiving_spec|by apply (io_recv _ _ _ Hok)].
  - intros y k x a b Hp. apply blocks_some, Hal; [right; by exists y, k, a, b|]. by apply blocks_some, (io_dst _ _ _ Hok y k x a b).
  - done.
Qed.

Lemma ipc_step_ok c c' Q :
  ipc_ok (ic_w c) (ic_phase c) Q -> ipc_step c c' -> exists Q', ipc_ok (ic_w c') (ic_phase c') Q'.
Proof.
  intros Hok Hst. destruct Hst as [c x k dst a b Hx Hd|c x k dst a b r o w' Hx Hrun E|c x w' Hx Hrun E|c w' Hi Hq Hrc Ht Hal Har].
  - exists Q. cbn. assert (forall y, receiving (<[x := Sending k dst a b]> (ic_phase c)) y = receiving (ic_phase c) y) as Er.
    { intros y. rewrite receiving_insert. destruct (Z.eqb_spec y x) as [->|]; [|done]. unfold receiving. by rewrite Hx. }
    destruct Hok as [H3 H4 H5 H6 H7 H8 H9 H10]. split; try done.
    + intros y t. rewrite Er. apply H4.
    + intros y. rewrite Er. apply H5.
    + intros y z Hz. destruct (H7 y z Hz) as (k' & a' & b' & Hp). exists k', a', b'. rewrite lookup_insert_ne; [done|congruence].
    + intros y. rewrite Er. apply H8.
    + intros y k' z a' b' [[<- [= <- <- <- <-]]|[_ Hp]]%lookup_insert_Some; [by apply blocks_some|by eapply H9].
  - cbn. destruct (receiving (ic_phase c) dst) eqn:Er.
    + pose proof (round_takes _ _ _ _ _ _ _ _ r Hok Hx Hrun Er) as Hwp. unfold wp in Hwp. rewrite E in Hwp.
      destruct Hwp as (td & ts & Htd & _ & -> & Hs). exists (sent_queues k x Q). by eapply sent_ok.
    + pose proof (round_waits _ _ _ _ _ _ _ _ r Hok Hx Hrun Er) as Hwp. unfold wp in Hwp. rewrite E in Hwp.
      destruct Hwp as (-> & Hok' & _). eauto.
  - pose proof (recv_step _ _ _ _ Hok Hx Hrun) as Hwp. unfold wp in Hwp. rewrite E in Hwp. destruct Hwp. eauto.
  - exists Q. by apply (other_ok (ic_w c)).
Qed.

(** No task communicates: the semaphores are as [duplicate_TSS] leaves them. *)
Definition no_messages (w : W) : Prop :=
  w_inv w /\ arrays w /\ forall x t, w_tasks w !! x = Some t -> tss_Msem t = semaphore_init 1 0.

Lemma ipc_run w c : no_messages w -> rtc ipc_step (mkIpc w ∅) c -> exists Q, ipc_ok (ic_w c) (ic_phase c) Q.
Proof.
  intros (Hi & Ha & Hm) Hrtc. refine (rtc_ind_r (R := ipc_step) (fun c => exists Q, ipc_ok (ic_w c) (ic_phase c) Q) _ _ _ c Hrtc).
  - exists (fun _ => []). split; cbn; try done; try set_solver. intros x t Ht. rewrite blocks_lookup in Ht.
    destruct (w_tasks w !! x) as [u|] eqn:Hu; [|done]. injection Ht as <-. cbn. by rewrite (Hm x u Hu).
  - intros c1 c2 _ Hst [Q Hok]. by eapply ipc_step_ok.
Qed.

(** The registers are in the control block of [x], for the next switch to it. *)
Definition saved_in (x : Z) (r : cpu_regs) (w : W) : Prop :=
  exists u, w_tasks w !! x = Some u /\ tss_EBP u = r_ebp r /\ tss_ESP u = r_esp r /\ tss_EFLAGS u = r_eflags r.

(** Everything that holds once the invariant does. *)
Lemma sent_message w w' ph Q k src dst a b r td ts :
  ipc_ok w ph Q -> src <> dst -> blocks w !! dst = Some td -> blocks w !! src = Some ts ->
  sent k src dst a b r td ts (Q src) w w' ->
  read_message dst w' = Ok ((a, b), w') /\ saved_in src r w'.
Proof.
  intros Hok Hne Hd Hs [_ Eb Hstr]. pose proof (proj1 (arrays_blocks w) (io_array _ _ _ Hok) _ _ Hd) as Hl. split.
  - assert (exists t, blocks w' !! dst = Some t /\ tss_M t = <[1%nat := b]> (<[0%nat := a]> (tss_M td))) as (t & Ht & Em).
    { rewrite Eb. unfold sent_blocks. rewrite lookup_alter_ne by done.
      destruct k; [|rewrite lookup_alter_ne by done]; rewrite !lookup_alter_eq, Hd; cbn; by eexists. }
    rewrite blocks_lookup in Ht. destruct (w_tasks w' !! dst) as [u|] eqn:Hu; [|done]. injection Ht as <-. cbn in Em.
    unfold read_message, get_tss, bind, gets, lift, lookup_TSS. rewrite Hu. cbn [of_option].
    destruct (tss_M td) as [|m0 [|m1 l]]; [done|done|]. by rewrite Em.
  - assert (exists t, blocks w' !! src = Some (save_regs r t)) as (t & Ht).
    { rewrite Eb. unfold sent_blocks. rewrite lookup_alter_eq.
      destruct k; [|rewrite lookup_alter_eq]; rewrite !lookup_alter_ne, Hs by done; cbn; by eexists. }
    rewrite blocks_lookup in Ht. destruct (w_tasks w' !! src) as [u|] eqn:Hu; [|done]. exists u. split; [done|].
    injection Ht as E1 E2 _ _ E3 _. done.
Qed.

Lemma senders_elem w ph Q x y : ipc_ok w ph Q -> (exists l, senders w x l /\ y ∈ l) <-> y ∈ Q x.
Proof.
  intros Hok. split.
  - intros (l & Hl & Hy). by rewrite <- (senders_Q _ _ _ _ _ Hok Hl).
  - intros Hy. exists (Q x). split; [|done]. eapply Q_senders; [exact Hok|]. by eapply queued_block.
Qed.

(** Both outcomes of a round. *)
Lemma round_result w ph Q k x dst a b r :
  ipc_ok w ph Q -> ph !! x = Some (Sending k dst a b) -> runs w x ->
  if receiving ph dst then
    exists t w', w_tasks w !! dst = Some t /\
      fast_m pgd k dst a b r w = Ok (Some (mkCpuRegs (tss_EBP t) (tss_ESP t) (tss_EFLAGS t)
        (if tss_CR3 t =? pgd then r_cr3 r else tss_CR3 t) dst), w') /\
      w_str w' = Ok (dst, w') /\ read_message dst w' = Ok ((a, b), w') /\ saved_in x r w' /\
      forall y, ready w' y <-> ready w y \/
        match k with Send => y = x | Call => exists l, senders w x l /\ y ∈ l end
  else
    exists l w', senders w dst l /\ fast_m pgd k dst a b r w = Ok (None, w') /\
      senders w' dst (l ++ [x]) /\ forall y, ready w' y <-> ready w y.
Proof.
  intros Hok Hx Hrun. destruct (receiving ph dst) eqn:Hd.
  - destruct (proj1 (wp_Ok _ _ _) (round_takes w ph Q k x dst a b r Hok Hx Hrun Hd))
      as (o & w' & E & td & ts & Htd & Hts & -> & Hs).
    assert (x <> dst) as Hne by (intros ->; unfold receiving in Hd; by rewrite Hx in Hd).
    destruct (sent_message _ _ _ _ _ _ _ _ _ _ _ _ Hok Hne Htd Hts Hs) as [Hread Hsaved].
    rewrite blocks_lookup in Htd. destruct (w_tasks w !! dst) as [t|] eqn:Ht; [|done]. injection Htd as <-.
    exists t, w'. split; [done|]. split; [done|]. split; [apply Hs|]. split; [done|]. split; [done|].
    intros y. rewrite (wk_ready _ _ _ (se_woke _ _ _ _ _ _ _ _ _ _ _ Hs)).
    destruct k; [by rewrite list_elem_of_singleton|]. by rewrite (senders_elem w ph Q x y Hok).
  - destruct (proj1 (wp_Ok _ _ _) (round_waits w ph Q k x dst a b r Hok Hx Hrun Hd)) as (o & w' & E & -> & Hok' & Hr).
    pose proof (io_dst _ _ _ Hok _ _ _ _ _ Hx) as Hb. exists (Q dst), w'.
    split; [by eapply Q_senders|]. split; [done|]. split; [|done].
    pose proof (Q_senders w' ph _ dst Hok') as Hsn. rewrite upd_list_same in Hsn. apply Hsn.
    by apply (io_dst _ _ _ Hok' _ _ _ _ _ Hx).
Qed.
End steps.

(** ** Theorems *)


(** *** An example

    The test of the source: task 0x58 ([testR]) waits for a message, task 0x48 ([testS])
    calls it with two words and is answered with their sum and their bitwise or. *)

#[local] Instance ipc_scheduler : Scheduler sched := vcpu_scheduler calm_env 0.
#[local] Instance ipc_laws : SchedulerLaws sched := vcpu_scheduler_laws calm_env 0 calm_clock.
#[local] Instance ipc_register : TaskRegister sched := vcpu_task_register 0.
#[local] Instance ipc_tasking : TaskingLaws sched := vcpu_tasking_laws calm_env 0 calm_clock.

Definition switch_task (x : Z) (s : sched) : sched :=
  set_pcpus (alter (set_current_task x) 0%nat (s_pcpus s)) s.

(** The tasks of [waiting_sched] with their semaphores initialised; [x] runs. *)
Definition ipc_tasks : gmap Z quest_tss := set_Msem (semaphore_init 1 0) <$> waiting_tasks 0.
Definition ipc_sched (x : Z) : sched := set_tasks ipc_tasks (waiting_sched 0 x).

Definition example_pgd : Z := 0x5000.
Definition boot_regs : cpu_regs := mkCpuRegs 0x100 0x200 0x202 0x5000 0x48.

Definition exchange : M sched (option ((Z * Z) * (Z * Z))) :=
  fast_recv_m ;;!
  modify (switch_task 0x48) ;;!
  let! o := fast_call_m example_pgd 0x58 0xCAFEBABE 0xDEADBEEF boot_regs in
  match o with
  | None => ret None
  | Some r =>
      let! '(arg1, arg2) := read_message (r_edi r) in
      let! o := fast_sendrecv_m example_pgd 0x48 (u32 (arg1 + arg2)) (Z.lor arg1 arg2) r in
      match o with
      | None => ret None
      | Some r => let! m := read_message (r_edi r) in ret (Some (m, (r_esp r, r_ebp r)))
      end
  end.

Example exchange_answers : (fst <$> (match exchange (ipc_sched 0x58) with Ok p => Some p | Err _ => None end)) =
  Some (Some ((0xA9AC79AD, 0xDEFFBEFF), (0x200, 0x100))).
Proof. vm_compute. reflexivity. Qed.

Lemma ipc_world x T : is_Some (waiting_tasks 0 !! x) ->
  (forall y, tss_next <$> T !! y = tss_next <$> waiting_tasks 0 !! y) ->
  (forall y, tss_cpu <$> T !! y = tss_cpu <$> waiting_tasks 0 !! y) ->
  w_inv (set_tasks T (waiting_sched 0 x)) /\ forall y, y = 0x48 \/ y = 0x58 -> sleeping (set_tasks T (waiting_sched 0 x)) [y].
Proof.
  intros Hx Hn Hc. destruct (set_tasks_ok (waiting_sched 0 x) T) as (Hi & Hr & Hw); [|done|done|].
  - eexists _, _, _. exact (waiting_wf 0 x Hx).
  - split; [exact Hi|]. intros y Hy z ->%list_elem_of_singleton. destruct (waiting_bound 0 x y Hx Hy) as [Hb Hnr].
    split; [by apply Hw|]. intros Hz%Hr. by apply Hnr.
Qed.

Lemma ipc_tasks_field {A} (g : quest_tss -> A) y : (forall s t, g (set_Msem s t) = g t) ->
  g <$> ipc_tasks !! y = g <$> waiting_tasks 0 !! y.
Proof. intros Hg. unfold ipc_tasks. rewrite lookup_fmap. destruct (waiting_tasks 0 !! y); [|done]. cbn. by rewrite Hg. Qed.

Lemma ipc_tasks_array y t : ipc_tasks !! y = Some t -> length (tss_M t) = 32%nat /\ tss_Msem t = semaphore_init 1 0.
Proof.
  unfold ipc_tasks. rewrite lookup_fmap_Some. intros (u & <- & Hu). split; [|done]. unfold waiting_tasks, sleepers_table in Hu.
  repeat (apply lookup_insert_Some in Hu as [[<- <-]|[? Hu]]; [done|]). done.
Qed.

(** The world after [testR] started to wait. *)
Definition waits_sched (x : Z) : sched :=
  set_tasks (<[0x58 := set_Msem (mkSem 1 1 0 0) (set_Msem (semaphore_init 1 0) (set_waitqueue 0 zero_tss))]> ipc_tasks)
    (waiting_sched 0 x).

Lemma waits_tasks_field {A} (g : quest_tss -> A) y : (forall s t, g (set_Msem s t) = g t) ->
  g <$> w_tasks (waits_sched 0x48) !! y = g <$> waiting_tasks 0 !! y.
Proof.
  intros Hg. cbn [w_tasks waits_sched ipc_scheduler vcpu_scheduler set_tasks s_tasks]. destruct (decide (y = 0x58)) as [->|].
  - rewrite lookup_insert_eq. cbn. by rewrite !Hg.
  - rewrite lookup_insert_ne by done. by apply ipc_tasks_field.
Qed.

(** No queue of the example has a member. *)
Lemma waits_senders x y l : senders (waits_sched x) y l -> l = [].
Proof.
  intros (t & Ht & Hc). cbn in Ht. apply lookup_insert_Some in Ht as [[_ <-]|[_ Ht%ipc_tasks_array]]; cbn in Hc.
  - destruct l; [done|]. destruct Hc as (<- & ? & _). done.
  - destruct Ht as [_ E]. rewrite E in Hc. destruct l; [done|]. destruct Hc as (<- & ? & _). done.
Qed.

Lemma waits_ok x : x = 0x48 \/ x = 0x58 ->
  w_inv (waits_sched x) /\ (forall y, y = 0x48 \/ y = 0x58 -> sleeping (waits_sched x) [y]) /\ arrays (waits_sched x).
Proof.
  intros Hx. destruct (ipc_world x (s_tasks (waits_sched x))) as [Hi Hs].
  - destruct Hx as [-> | ->]; by eexists.
  - intros y. by apply (waits_tasks_field tss_next).
  - intros y. by apply (waits_tasks_field tss_cpu).
  - split; [exact Hi|]. split; [exact Hs|]. intros y t Ht. cbn in Ht.
    apply lookup_insert_Some in Ht as [[_ <-]|[_ Ht%ipc_tasks_array]]; [done|]. by destruct Ht.
Qed.

Lemma example_run : rtc (ipc_step example_pgd) (mkIpc (ipc_sched 0x58) ∅)
  (mkIpc (waits_sched 0x48) (<[0x48 := Sending Call 0x58 0xCAFEBABE 0xDEADBEEF]> {[0x58 := Receiving]})).
Proof.
  destruct (waits_ok 0x48 ltac:(by left)) as (Hi & Hs & Ha).
  apply (rtc_l _ _ (mkIpc (waits_sched 0x58) {[0x58 := Receiving]})).
  { refine (ipc_recv _ (mkIpc (ipc_sched 0x58) ∅) 0x58 _ _ _ _); [done| |done].
    destruct (ipc_world 0x58 ipc_tasks) as [_ Hb]; [by eexists|by intros; apply ipc_tasks_field..|].
    destruct (Hb 0x58 ltac:(by right) 0x58 ltac:(by apply list_elem_of_singleton)) as [Hw Hr].
    split; [done|]. split; [exact Hw|]. split; [exact Hr|]. intros y l (t & Ht%ipc_tasks_array & Hc).
    destruct Ht as [_ E]. rewrite E in Hc. destruct l; [set_solver|]. destruct Hc as (<- & ? & _). done. }
  apply (rtc_l _ _ (mkIpc (waits_sched 0x48) {[0x58 := Receiving]})).
  { refine (ipc_other _ (mkIpc (waits_sched 0x58) _) (waits_sched 0x48) _ _ _ _ _ _).
    - exact Hi.
    - intros x l Hl _. split; [exact Hl|]. apply waits_senders in Hl as ->. intros y. set_solver.
    - cbn. intros x Hx _. apply Hs. right. by apply lookup_singleton_Some in Hx as [<- _].
    - intros x t Ht. right. by exists t.
    - done.
    - exact Ha. }
  apply rtc_once. apply (ipc_call _ (mkIpc (waits_sched 0x48) _)); [done|by eexists].
Qed.

Lemma example_no_messages : no_messages (ipc_sched 0x58).
Proof.
  destruct (ipc_world 0x58 ipc_tasks) as [Hi _]; [by eexists|by intros; apply ipc_tasks_field..|].
  split; [exact Hi|]. split; intros x t Ht%ipc_tasks_array; by destruct Ht.
Qed.

